(* ===== verification/_CoqProject ===== *)
-Q . S2P
Prelude.v
Machine.v
LibcString.v
Tty.v
Stdio.v
Interrupts.v
Keyboard.v
KernelMain.v
KcScreen.v
KcUtil.v
KcKernel.v
EfiHardware.v
EfiGraphics.v
EfiMain.v
Md5.v
GrubString.v
GrubTerm.v
GrubHercules.v
Tparm.v
Terminfo.v
GrubReadline.v
GrubEditor.v
GrubBios.v
GrubDisk.v
GrubDevice.v
GrubPart.v
GrubFsys.v
GrubFat.v
GrubFatDir.v
GrubFile.v
Deflate.v
Canonical.v
GrubGunzip.v
GrubHuffman.v
GrubBits.v
GrubWindow.v
GrubInflate.v
GrubHeader.v
GrubUnzip.v
GrubGzip.v
GrubBlocks.v
GrubOpen.v
GrubPaths.v
GrubLoad.v
GrubUncompress.v
GrubExt2.v
GrubExt2Dir.v
GrubExt2Open.v
GrubMemory.v
GrubCommand.v
GrubBoot.v
GrubStream.v
GrubElf.v
GrubKernel.v
GrubModule.v
