(* ===== verification/Prelude.v ===== *)
(** * A verification of SzOS

    SzOS is a set of small kernels and boot programs in C, with the boot loader
    they are started from.  This library models
    - the C library and the i386 kernel written against it ([src/libc],
      [src/legacy/kernel]),
    - the first kernel ([src/legacy/kernel-c]),
    - the UEFI program ([src/efi-boot]), and
    - the GRUB 0.97 second stage kept in the repository
      ([src/legacy/SZoS/grub-0.97/stage2]): its terminal, its command-line
      editor, its passwords, its way from the name of a file to the bytes
      of that file, what it learns of memory and drives, and the loading of
      kernels.

    ** Conventions

    The code is translated function by function, under the names of the source
    where they are free.  A C integer is a [Z]; the wrap-around of its type is
    written where the code stores it ([u8], [u32], [s32], ...).  Memory is a
    finite map from addresses to bytes ([Machine.mem]), or a list where the code
    only walks along a string.  A device is seen through the accesses made to it:
    an I/O operation extends a history ([Machine.event]) and an input is answered
    from the history so far, so a theorem holds for every behaviour of the
    device its hypotheses allow.  State is passed explicitly, in a record per
    component.  [option] is used for C's undefined behaviour and for fuel: a
    recursion that is not structural takes [fuel], and its theorems say how much
    is enough, so a result is always shown to exist and not only to be right if
    it comes.  A loop that never ends is shown to have no result for any fuel.

    ** The files

    Shared:
    - [Prelude]: this header; machine-width integers, bit notations, the
      tactic [dlia], loops ([foldM] and its lemmas), the lemmas on lists and
      on bits the components share, the hint database of the development.
    - [Machine]: byte memory, ports and their history, the interrupt flag; the
      class of an 8259A interrupt controller with an instance that follows its
      data sheet.

    The i386 kernel and its C library:
    - [LibcString]: [memcmp], [memcpy], [memmove], [memset], [strlen] of
      [libc/string]; [cstring], a string in memory.
    - [Tty]: [arch/i386/tty.c], [vga.h].  [screen] is the abstract terminal, a
      grid with a cursor.
    - [Stdio]: [printf.c], [putchar.c], [puts.c], [abort.c] over [Tty].
    - [Interrupts]: [cpu/idt.c], [pic.c], [isr.c], [irq.c], [interrupts.c] and
      what their assembly stubs do around a handler.
    - [Keyboard]: [drivers/keyboard.c]; the ring buffer, the 8042 handshake.
    - [KernelMain]: [kernel.c], the composition.

    The first kernel:
    - [KcScreen]: [drivers/screen.c], [memory_copy] of [kernel/util.c].
    - [KcUtil]: the rest of [util.c], [heap.c], [drivers/vga.c].
    - [KcKernel]: [cpu/idt.c], [isr.c], [irq.c] with the stubs of
      [interrupt.asm], [drivers/pic.c], [keyboard.c], [kernel/kernel.c].

    The UEFI program:
    - [EfiHardware]: [idt.c], [pic_timer.c], [mouse.c], [ports.c].
    - [EfiGraphics]: [memory.c], [graphics.c], [font.c].
    - [EfiMain]: the animation loop of [main.c].

    GRUB:
    - [Md5]: [md5.c].
    - [GrubString], [GrubTerm]: the string and number routines of
      [char_io.c], and its terminal output with the pager.
    - [GrubHercules]: [hercules.c].
    - [Tparm], [Terminfo]: [tparm.c] and [terminfo.c].
    - [GrubReadline]: [get_cmdline] of [char_io.c]; [GrubEditor]: the
      abstract line and the proof that the editor implements it.
    - [GrubBios]: [bios.c].  The assembly that calls the BIOS is the record
      [bios]; [drive_ok] is what a working drive promises.
    - [GrubDisk]: the track buffer of [disk_io.c] ([rawread], [devread],
      [rawwrite], [devwrite]) over [GrubBios].
    - [GrubDevice]: [set_device] and [sane_partition] of [disk_io.c].
    - [GrubPart]: [next_partition] and [open_partition] of [disk_io.c], against
      the class [SectorReader] that [GrubDisk]'s track buffer is an instance of.
    - [GrubFsys]: what the file systems share ([disk_io.c]): the file position and
      limits, reads of the open partition, [print_a_completion]; the class
      [PartReader], bytes of a partition that can be read, which [GrubDisk]'s
      [devread] on a working drive is an instance of.
    - [GrubFat]: [fat_mount] and [fat_read] of [fsys_fat.c] with the superblock
      and the cache of the table in memory, against an independent description of
      a volume ([volume], [table_entry], [cluster_chain]); [GrubFatDir]:
      [fat_dir], against the list of names and entries of a directory
      ([listing]) and the path through directories ([leads]).
    - [GrubFile]: opening and reading files, [disk_io.c] from [attempt_mount] to
      [grub_close] over any table of file systems, and the header test of
      [gunzip.c]; the class [FileReader], what a file system's read promises to
      [grub_read].  [GrubBlocks]: files given as block lists, an instance.
    - [Deflate]: what compressed data means after RFC 1951, a relation between
      the bits and the output that knows nothing of the decoder; [Canonical]:
      facts on canonical codes.
    - [GrubGunzip]: the decoder of [gunzip.c], from [linalloc] and [huft_build]
      to [inflate_window] and [gunzip_read].  Its proof goes up file by file:
      [GrubHuffman] (the tables decode the code), [GrubBits] (the buffer gives
      the bits of the file), [GrubWindow] (the window holds the last 32
      kilobytes), [GrubInflate] (a turn of the loop over symbols is a step of
      [Deflate.codes]), [GrubHeader] (the headers of the blocks), [GrubUnzip]
      (whole windows), [GrubGzip] (reading, and the header of the file).
    - [GrubOpen]: opening the file of a name, a device with a block list or with
      a path; the class [PathFinder], what the entry of a file system in
      [fsys_table] promises to [grub_open].  [GrubPaths]: the entry of the FAT
      file system is an instance.  [GrubLoad]: what [grub_open] and [grub_read] do
      together; [GrubUncompress]: the same for a compressed file.
    - [GrubExt2]: [ext2fs_mount], [ext2fs_block_map] and [ext2fs_read] of
      [fsys_ext2fs.c] with the superblock, the inode and two blocks in memory,
      against a description of a volume ([ext2], [file_block]); an instance of
      [FileReader].  [GrubExt2Dir]: [ext2fs_dir], against the inodes, the entries
      of directories and the path through them and through symbolic links
      ([resolves]).  [GrubExt2Open]: the entry of the file system, an instance of
      [PathFinder], and opening and reading a file.
    - [GrubMemory]: [mmap_avail_at] and [init_bios_info] of [common.c], and the
      structures of [mb_info.h], against a list of areas ([area], [connected]).
    - [GrubCommand]: [skip_to] of [cmdline.c].  [GrubBoot]: [boot.c], that is
      [load_image] for Multiboot, ELF, a.out and Linux images, [load_module],
      [load_initrd] and [bsd_boot], over any [grub_open]; the structures of
      [mb_header.h], [i386-elf.h], [imgact_aout.h], [freebsd.h] and of the Linux
      header in [shared.h].
    - [GrubStream]: the class [Stream], what a loader needs of an open file: to
      seek and to read into memory; a plain file of any [FileReader]
      is an instance.  [GrubElf]: ELF Multiboot kernels, described by their bytes
      ([elf_kernel], [image_byte]), and the proof that [load_image] puts the
      image into memory.  [GrubKernel]: the same from the name of the file.
      [GrubModule]: modules, and the place of the ramdisk.

    ** What the theorems show

    - Terminals.  Writing a character is the step of an abstract screen
      ([Tty.terminal_putchar_refines], [KcScreen.kprint_at_shows]); [printf]
      prints the expansion of its format, up to the piece that would take the
      count past [INT_MAX] ([Stdio.printf_correct]); GRUB's output
      stops for a key when a page is full ([GrubTerm.grub_putstr_pages]).  A tab
      near the right edge never returns ([Tty.terminal_putchar_tab_hangs]); the
      Hercules console does not scroll ([GrubHercules.hercules_putchar_shows]).
    - Interrupts.  After the initialisation every vector of the table leads to
      its stub and the controllers are remapped and masked as intended
      ([Interrupts.interrupts_initialize_idt], [interrupts_initialize_pic]); an
      interrupt request that is delivered is acknowledged or not
      ([Interrupts.irq_delivery]); the composition boots, with
      exactly the port accesses of its parts ([KernelMain.kernel_main_runs],
      [KcKernel.main_setup_ready]).
    - Keyboard and mouse.  The ring buffer is a bounded queue
      ([Keyboard.keyboard_buffer_is_queue]); key state and mouse position follow
      the bytes of the device ([KcKernel.keyboard_handler_state],
      [EfiHardware.handler_mouse_tracks]); the test program ends exactly when
      Escape comes ([KcKernel.test_keyboard_waits_for_esc]).
    - Memory.  The first kernel's allocator hands out disjoint blocks of its heap
      ([KcUtil.kmalloc_blocks]); that of the UEFI program goes on behind the end
      of its region ([EfiGraphics.my_malloc_bump]); the copies copy
      overlapping blocks ([LibcString.memmove_copies]).
    - Graphics.  A frame is the layers of the scene, wherever the pointer is, and
      in every round of the loop the moving box is inside the screen
      ([EfiMain.draw_frame_layers], [box_stays_on_screen]).
    - MD5.  The digest of a message given in pieces is that of the whole
      ([Md5.md5_streaming]), and a password made is accepted
      ([Md5.md5_password_roundtrip], [md5_password_checks]).
    - Languages.  Text made by [tparm] is the meaning of the format in an
      abstract expression language, as long as it fits the output buffer
      ([Tparm.grub_tparm_runs], [grub_tparm_overrun]); numbers and
      devices are read back as they were written
      ([GrubString.number_text_roundtrip], [GrubDevice.set_device_reads]).
    - Line editor.  A session of keys leaves the text the abstract line has
      ([GrubEditor.real_get_cmdline_edits]), and after every key memory and the
      visible row show that line ([edit_key_simulates]).
    - Disks.  [devread] gives the bytes of the partition whatever the track
      buffer holds, as long as no read failed half-way
      ([GrubDisk.devread_partition]; [rawread_stale_track] shows what happens
      when one did); [open_partition] finds the partition a specification of the
      tables names, or fails ([GrubPart.open_partition_finds]).
    - FAT.  Mounting leaves the description of the boot sector
      ([GrubFat.fat_mount_describes]); a read gives the bytes of the chain of
      clusters, up to its end ([GrubFat.fat_read_reads]); a path is followed to
      its entry or to the right error ([GrubFatDir.fat_dir_finds]); together, a
      file of the partition is loaded ([GrubFatDir.fat_file_loads]).
    - Files.  Reading an open file is reading its bytes at the position
      ([GrubLoad.grub_read_streams]); the name of a file gives the file, whether
      it is a path or a block list ([GrubLoad.grub_open_loads_path],
      [grub_open_loads_blocks]), through device names, partition tables, the
      track buffer and the file system.
    - ext2.  The name of a file gives the file, zeros for the blocks that are not
      stored ([GrubExt2Open.grub_open_loads_ext2]); a path ends at the inode or
      the error it resolves to ([ext2fs_dir_resolves]); the blocks kept in memory
      change nothing ([ext2fs_block_map_finds]).
    - Compressed files.  [huft_build] makes tables that decode the canonical code
      of the lengths ([GrubUncompress.huft_build_decodes]); reading gives the
      output that the data denotes, at any position
      ([GrubUncompress.gunzip_read_streams]), and opening finds the data behind
      the header and the size at the end
      ([GrubUncompress.grub_open_inflates_blocks]).
    - Kernels.  The name of an ELF Multiboot kernel's file, in any file system
      that is a [PathFinder], puts the image of its segments into memory and
      gives the entry point ([GrubKernel.load_image_loads_elf]); a module's name
      puts its bytes on the next page ([GrubModule.load_module_loads]), and the
      ramdisk stays below every limit ([initrd_place_below]).
    - Memory map.  What [init_bios_info] hands to a kernel is what the BIOS
      reports, and the sizes are those of memory without a hole
      ([GrubMemory.init_bios_info_reports], [mmap_avail_at_connected]).

    ** Fuel and bounds

    - [Tty], [Stdio]: the rounds of the loop of a tab; eight are enough for every
      tab that ends, and a tab at column 72 or beyond ends for no fuel.
    - [KcUtil.int_to_ascii] runs at most ten rounds, the digits of a 32-bit integer.
    - Polling loops (8042, PIT, keyboard test) take the number of polls as fuel;
      the theorems assume that the device answers within it.
    - [Tparm], [Terminfo], [GrubString]: the length of the string, since every
      step consumes a character (lemmas [expand_fuel], [unescape_fuel]).
    - [GrubReadline]: one unit per key of the session.
    - [GrubDisk.rawread]: one unit per track, at most the bytes asked for.
    - [GrubPart]: one unit per slice or partition visited, more than four times
      the number of tables; a cyclic chain of extended partitions is never
      exhausted, so the theorem assumes a chain that ends, of at most 63 tables.
    - [GrubFat]: as many hops as the cluster numbers differ, at most as many
      clusters as bytes are asked for.
    - [GrubFatDir]: one unit per component of the path, one per entry of a
      directory (the theorems take more entries than the partition has room for);
      paths are shorter than 64 kilobytes.
    - [GrubExt2Dir]: a turn per component of the path or of a link, at most
      the length of the path and five times the length of [linkbuf]; one unit per
      entry of a directory, which has at least eight bytes.  [GrubExt2]:
      [ext2_read_loop] one unit per byte asked for.
    - [GrubFile]: [block_seek] one unit per byte to go, [block_read] one per byte
      asked for, [parse_blocks] 4095, more than the list has room for,
      [bad_field] two more than the bytes of the file.
    - [GrubGunzip]: the tables of a code take the constants of the code (16 bits,
      17 levels); [rounds] bounds the blocks and symbols of a window, and three
      more than the bits of the data are enough; [gunzip_read] and [grub_read]
      call each other once, so any [depth] above 0 is enough.
    - [GrubMemory]: one unit per area of the map, and one round of the outer loop
      more than there are areas.  [GrubBoot]: the loops run over the bytes of the
      buffer and the headers of the image; [GrubCommand]: strings are shorter
      than 64 kilobytes.

    ** Not modelled

    - Assembly: boot sectors, entry code, and the inside of the BIOS calls.  What
      C code relies on is part of the model (interrupt stubs) or a parameter
      (BIOS, the address of a symbol).
    - The firmware calls of the UEFI program's steps 1 and 2
      (graphics protocol, memory map, [ExitBootServices]);
      [handler_interruption_test], which draws one pixel.  [write_data], which
      [activate_mouse] calls, is defined in no file: it is a parameter, and nothing
      is assumed of it.
    - GRUB's [builtins.c], [stage2.c], [stage1_5.c], the rest of [cmdline.c], and
      the file systems other than FAT, ext2 and block lists.  Of [boot.c] the
      theorems are about ELF Multiboot kernels and their modules, and the place of
      the ramdisk; the other formats are modelled without.  Of [disk_io.c]:
      [print_completions] (a parameter of [GrubReadline]), the listing of
      partitions in [real_open_partition], [check_and_print_mount],
      [set_bootdev] and [set_partition_hidden_flag].
    - The Etherboot drivers of [netboot], a third-party library; the curses
      console, the serial port, [smp-imps.c].
    - [grub/asmstub.c], [util/], [lib/]: programs for a host system, the loader
      does not contain them.
    - [src/legacy/SZoS/kernel.c], a stub that stores one character. *)

From Stdlib Require Export ZArith Lia Ascii String.
From stdpp Require Export base gmap list strings option.

#[export] Set Warnings "-notation-overridden".
#[global] Open Scope Z_scope.

(** ** C integers

    An integer of the program is a [Z]; the conversions of C are written where
    the code performs them.  Bit operations get infix notations in a scope of
    their own. *)

Declare Scope cint_scope.
Delimit Scope cint_scope with cint.
Infix ".&" := Z.land (at level 40, left associativity) : cint_scope.
Infix ".|" := Z.lor (at level 41, left associativity) : cint_scope.
Infix ".^" := Z.lxor (at level 41, left associativity) : cint_scope.
Infix ".<<" := Z.shiftl (at level 39, left associativity) : cint_scope.
Infix ".>>" := Z.shiftr (at level 39, left associativity) : cint_scope.
#[global] Open Scope cint_scope.

Definition u8 (x : Z) : Z := x mod 256.
Definition u16 (x : Z) : Z := x mod 65536.
Definition u32 (x : Z) : Z := x mod 4294967296.
Definition u64 (x : Z) : Z := x mod 18446744073709551616.
Definition s8 (x : Z) : Z := (x + 128) mod 256 - 128.
Definition s16 (x : Z) : Z := (x + 32768) mod 65536 - 32768.
Definition s32 (x : Z) : Z := (x + 2147483648) mod 4294967296 - 2147483648.

(** [INT_MAX] of the 32-bit targets. *)
Definition INT_MAX : Z := 2147483647.

(** [lia] with the division equations of the goal and the context. *)
Ltac dlia := Z.to_euclidean_division_equations; lia.

Lemma u8_range x : 0 <= u8 x < 256.
Proof. unfold u8. dlia. Qed.
Lemma u16_range x : 0 <= u16 x < 65536.
Proof. unfold u16. dlia. Qed.
Lemma u32_range x : 0 <= u32 x < 4294967296.
Proof. unfold u32. dlia. Qed.
Lemma u64_range x : 0 <= u64 x < 18446744073709551616.
Proof. unfold u64. dlia. Qed.
Lemma s8_range x : -128 <= s8 x < 128.
Proof. unfold s8. dlia. Qed.
Lemma s32_range x : -2147483648 <= s32 x < 2147483648.
Proof. unfold s32. dlia. Qed.

Lemma u8_s8 c : u8 (s8 c) = u8 c.
Proof. unfold s8, u8. dlia. Qed.

Lemma u8_small x : 0 <= x < 256 -> u8 x = x.
Proof. unfold u8. dlia. Qed.
Lemma u16_small x : 0 <= x < 65536 -> u16 x = x.
Proof. unfold u16. dlia. Qed.
Lemma u32_small x : 0 <= x < 4294967296 -> u32 x = x.
Proof. unfold u32. dlia. Qed.
Lemma u64_small x : 0 <= x < 18446744073709551616 -> u64 x = x.
Proof. unfold u64. dlia. Qed.
Lemma s8_small x : -128 <= x < 128 -> s8 x = x.
Proof. unfold s8. dlia. Qed.
Lemma s32_small x : -2147483648 <= x < 2147483648 -> s32 x = x.
Proof. unfold s32. dlia. Qed.
Lemma u8_idem x : u8 (u8 x) = u8 x.
Proof. unfold u8. dlia. Qed.
Lemma u32_idem x : u32 (u32 x) = u32 x.
Proof. unfold u32. dlia. Qed.
Lemma u32_add_l x y : u32 (u32 x + y) = u32 (x + y).
Proof. unfold u32. apply Zplus_mod_idemp_l. Qed.
Lemma u32_add_r x y : u32 (x + u32 y) = u32 (x + y).
Proof. unfold u32. apply Zplus_mod_idemp_r. Qed.

Create HintDb cint.
Create Rewrite HintDb cint_rw.
#[export] Hint Rewrite u8_idem u32_idem u32_add_l u32_add_r : cint_rw.
#[export] Hint Resolve u8_range u16_range u32_range u64_range s8_range s32_range : cint.

(** Reduce every conversion to linear arithmetic with division and close. *)
Ltac cint_lia :=
  repeat match goal with H : context [u8 _] |- _ => unfold u8 in H end;
  repeat match goal with H : context [u16 _] |- _ => unfold u16 in H end;
  repeat match goal with H : context [u32 _] |- _ => unfold u32 in H end;
  repeat match goal with H : context [u64 _] |- _ => unfold u64 in H end;
  repeat match goal with H : context [s8 _] |- _ => unfold s8 in H end;
  repeat match goal with H : context [s32 _] |- _ => unfold s32 in H end;
  unfold u8, u16, u32, u64, s8, s16, s32, INT_MAX in *; dlia.

(** Split on every boolean comparison of the goal and turn it into arithmetic. *)
Ltac zcase :=
  match goal with
  | |- context [Z.eqb ?a ?b] => destruct (Z.eqb_spec a b)
  | |- context [Z.ltb ?a ?b] => destruct (Z.ltb_spec a b)
  | |- context [Z.leb ?a ?b] => destruct (Z.leb_spec a b)
  | |- context [Z.gtb ?a ?b] => rewrite (Z.gtb_ltb a b); destruct (Z.ltb_spec b a)
  | |- context [Z.geb ?a ?b] => rewrite (Z.geb_leb a b); destruct (Z.leb_spec b a)
  end.
Ltac zcase_in H :=
  match type of H with
  | context [Z.eqb ?a ?b] => destruct (Z.eqb_spec a b)
  | context [Z.ltb ?a ?b] => destruct (Z.ltb_spec a b)
  | context [Z.leb ?a ?b] => destruct (Z.leb_spec a b)
  end.

(** ** Masks *)

Lemma land_low x n : 0 <= n -> x .& Z.ones n = x mod 2 ^ n.
Proof. intros. by apply Z.land_ones. Qed.

Lemma land_255 x : x .& 255 = u8 x.
Proof. apply (Z.land_ones x 8). lia. Qed.
Lemma land_65535 x : x .& 65535 = u16 x.
Proof. apply (Z.land_ones x 16). lia. Qed.
Lemma land_15 x : x .& 15 = x mod 16.
Proof. apply (Z.land_ones x 4). lia. Qed.
Lemma land_63 x : x .& 63 = x mod 64.
Proof. apply (Z.land_ones x 6). lia. Qed.
Lemma land_127 x : x .& 127 = x mod 128.
Proof. apply (Z.land_ones x 7). lia. Qed.
Lemma land_1 x : x .& 1 = x mod 2.
Proof. apply (Z.land_ones x 1). lia. Qed.
#[export] Hint Rewrite land_255 land_65535 land_15 land_63 land_127 land_1 : cint_rw.

Lemma shiftr_div x n : 0 <= n -> x .>> n = x / 2 ^ n.
Proof. intros. by apply Z.shiftr_div_pow2. Qed.
Lemma shiftl_mul x n : 0 <= n -> x .<< n = x * 2 ^ n.
Proof. intros. by apply Z.shiftl_mul_pow2. Qed.

(** A number below [2 ^ n] has no bit from [n] on. *)
Lemma testbit_high a n k : 0 <= a < 2 ^ n -> 0 <= n <= k -> Z.testbit a k = false.
Proof. intros Ha Hk. rewrite <- (Z.mod_small a (2 ^ n)) by done. apply Z.mod_pow2_bits_high. lia. Qed.

Lemma lt_pow2_bits x n :
  0 <= n -> (forall k, n <= k -> Z.testbit x k = false) -> 0 <= x < 2 ^ n.
Proof.
  intros Hn H. assert (x = x mod 2 ^ n) as ->; [| apply Z.mod_pos_bound; lia].
  apply Z.bits_inj'. intros k Hk. destruct (Z.lt_ge_cases k n).
  - by rewrite Z.mod_pow2_bits_low.
  - rewrite Z.mod_pow2_bits_high by lia. apply H. lia.
Qed.

(** Two numbers that occupy disjoint bit ranges: [|] is [+]. *)
Lemma lor_shiftl_add a b n :
  0 <= n -> 0 <= a < 2 ^ n -> a .| (b .<< n) = a + b * 2 ^ n.
Proof.
  intros Hn Ha. rewrite <- shiftl_mul by done. symmetry. apply Z.add_nocarry_lor.
  apply Z.bits_inj'. intros k Hk. rewrite Z.land_spec, Z.bits_0.
  destruct (Z.lt_ge_cases k n).
  - by rewrite Z.shiftl_spec_low, andb_false_r.
  - by rewrite (testbit_high a n).
Qed.

Lemma lor_range a b n : 0 <= n -> 0 <= a < 2 ^ n -> 0 <= b < 2 ^ n -> 0 <= a .| b < 2 ^ n.
Proof.
  intros Hn Ha Hb. apply lt_pow2_bits; [done |]. intros k Hk.
  rewrite Z.lor_spec, (testbit_high a n), (testbit_high b n); done.
Qed.

(** ** Loops

    [for_up n i body s] runs [body i], [body (i+1)], ... [n] times.  [for_range]
    is the C loop [for (i = lo; i < hi; i++)], [for_down] is
    [for (i = hi; i > lo; i--)] ([body] receives [i]). *)

Fixpoint for_up {S : Type} (n : nat) (i : Z) (body : Z -> S -> S) (s : S) : S :=
  match n with
  | O => s
  | Datatypes.S n' => for_up n' (i + 1) body (body i s)
  end.

Definition for_range {S : Type} (lo hi : Z) (body : Z -> S -> S) (s : S) : S :=
  for_up (Z.to_nat (hi - lo)) lo body s.

Definition for_down {S : Type} (hi lo : Z) (body : Z -> S -> S) (s : S) : S :=
  for_range 0 (hi - lo) (fun k => body (hi - k)) s.

Lemma for_up_inv {S} (P : Z -> S -> Prop) (body : Z -> S -> S) n : forall i s,
  P i s ->
  (forall j t, i <= j < i + Z.of_nat n -> P j t -> P (j + 1) (body j t)) ->
  P (i + Z.of_nat n) (for_up n i body s).
Proof.
  induction n as [|n IH]; intros i s HP Hstep; cbn [for_up].
  - replace (i + Z.of_nat 0) with i by lia. done.
  - replace (i + Z.of_nat (Datatypes.S n)) with ((i + 1) + Z.of_nat n) by lia.
    apply IH; [apply Hstep; [lia | done] |].
    intros j t Hj. apply Hstep. lia.
Qed.

Lemma for_range_inv {S} (P : Z -> S -> Prop) (body : Z -> S -> S) lo hi s :
  lo <= hi ->
  P lo s ->
  (forall j t, lo <= j < hi -> P j t -> P (j + 1) (body j t)) ->
  P hi (for_range lo hi body s).
Proof.
  intros Hle HP Hstep. unfold for_range.
  replace hi with (lo + Z.of_nat (Z.to_nat (hi - lo))) at 1 by lia.
  apply for_up_inv; [done |]. intros j t Hj. apply Hstep. lia.
Qed.

(** An invariant that does not mention the counter needs no bound. *)
Lemma for_range_inv_const {S} (P : S -> Prop) (body : Z -> S -> S) lo hi s :
  P s -> (forall j t, lo <= j < hi -> P t -> P (body j t)) -> P (for_range lo hi body s).
Proof.
  intros HP Hstep. destruct (Z.le_gt_cases lo hi).
  - apply (for_range_inv (fun _ => P)); auto.
  - unfold for_range. replace (Z.to_nat (hi - lo)) with O by lia. done.
Qed.

Lemma for_range_empty {S} (body : Z -> S -> S) lo hi s :
  hi <= lo -> for_range lo hi body s = s.
Proof. intros. unfold for_range. replace (Z.to_nat (hi - lo)) with O by lia. done. Qed.

Lemma for_up_app {S} (body : Z -> S -> S) n m : forall i s,
  for_up (n + m) i body s = for_up m (i + Z.of_nat n) body (for_up n i body s).
Proof.
  induction n as [|n IH]; intros i s; cbn [for_up Nat.add].
  - f_equal. lia.
  - rewrite IH. f_equal. lia.
Qed.

Lemma for_range_split {S} (body : Z -> S -> S) lo mid hi s :
  lo <= mid <= hi ->
  for_range lo hi body s = for_range mid hi body (for_range lo mid body s).
Proof.
  intros [H1 H2]. unfold for_range.
  replace (Z.to_nat (hi - lo)) with (Z.to_nat (mid - lo) + Z.to_nat (hi - mid))%nat by lia.
  rewrite for_up_app. f_equal. lia.
Qed.

Lemma for_range_last {S} (body : Z -> S -> S) lo hi s :
  lo < hi -> for_range lo hi body s = body (hi - 1) (for_range lo (hi - 1) body s).
Proof.
  intros. rewrite (for_range_split _ lo (hi - 1) hi) by lia.
  unfold for_range at 1. replace (Z.to_nat (hi - (hi - 1))) with 1%nat by lia. done.
Qed.

Lemma for_range_first {S} (body : Z -> S -> S) lo hi s :
  lo < hi -> for_range lo hi body s = for_range (lo + 1) hi body (body lo s).
Proof.
  intros. unfold for_range.
  replace (Z.to_nat (hi - lo)) with (Datatypes.S (Z.to_nat (hi - (lo + 1)))) by lia. done.
Qed.

Lemma for_up_ext {S} (f g : Z -> S -> S) n : forall i s,
  (forall j t, i <= j < i + Z.of_nat n -> f j t = g j t) -> for_up n i f s = for_up n i g s.
Proof.
  induction n as [|n IH]; intros i s H; cbn [for_up]; [done |].
  rewrite (H i s) by lia. apply IH. intros. apply H. lia.
Qed.

Lemma for_range_ext {S} (f g : Z -> S -> S) lo hi s :
  (forall j t, lo <= j < hi -> f j t = g j t) -> for_range lo hi f s = for_range lo hi g s.
Proof. intros H. unfold for_range. apply for_up_ext. intros. apply H. lia. Qed.

Lemma for_range_shift {S} (f : Z -> S -> S) k lo hi s :
  for_range (lo + k) (hi + k) f s = for_range lo hi (fun i => f (i + k)) s.
Proof.
  unfold for_range. replace (hi + k - (lo + k)) with (hi - lo) by lia.
  generalize (Z.to_nat (hi - lo)). intros n. revert lo s. induction n as [|n IH]; intros lo s; cbn [for_up]; [done |].
  rewrite <- IH. f_equal. lia.
Qed.

(** [while fuel cond body s]: a C [while] loop; [None] when [fuel] iterations
    were not enough.  [body] itself may fail to return. *)
Fixpoint while {S : Type} (fuel : nat) (cond : S -> bool) (body : S -> option S) (s : S)
  : option S :=
  if cond s
  then match fuel with
       | O => None
       | Datatypes.S f => body s ≫= while f cond body
       end
  else Some s.

Lemma while_false {S} fuel cond body (s : S) : cond s = false -> while fuel cond body s = Some s.
Proof. intros H. destruct fuel; simpl; by rewrite H. Qed.

Lemma while_true {S} fuel cond body (s s' : S) :
  cond s = true -> body s = Some s' ->
  while (Datatypes.S fuel) cond body s = while fuel cond body s'.
Proof. intros H H'. simpl. by rewrite H, H'. Qed.

(** Partial correctness. *)
Lemma while_inv {S} (P : S -> Prop) cond body fuel : forall s s',
  while fuel cond body s = Some s' ->
  P s -> (forall t t', P t -> cond t = true -> body t = Some t' -> P t') ->
  P s' /\ cond s' = false.
Proof.
  induction fuel as [|f IH]; intros s s'; simpl; destruct (cond s) eqn:Hc.
  - done.
  - intros [= <-] HP _. done.
  - destruct (body s) as [t|] eqn:Hb; [|done]. simpl. intros Hw HP Hstep. eauto.
  - intros [= <-] HP _. done.
Qed.

(** Total correctness: a measure that decreases bounds the fuel. *)
Lemma while_total {S} (P : S -> Prop) (m : S -> nat) cond body fuel : forall s,
  P s ->
  (forall t, P t -> cond t = true -> exists t', body t = Some t' /\ P t' /\ (m t' < m t)%nat) ->
  (m s <= fuel)%nat ->
  exists s', while fuel cond body s = Some s' /\ P s' /\ cond s' = false.
Proof.
  induction fuel as [|f IH]; intros s HP Hstep Hm; simpl; destruct (cond s) eqn:Hc; eauto.
  - destruct (Hstep s HP Hc) as (t & _ & _ & ?). lia.
  - destruct (Hstep s HP Hc) as (t & -> & HPt & ?). simpl. apply IH; auto. lia.
Qed.

(** An invariant under which the condition stays true: the loop never ends. *)
Lemma while_diverges {S} (P : S -> Prop) cond body fuel : forall s,
  P s ->
  (forall t, P t -> cond t = true) ->
  (forall t t', P t -> body t = Some t' -> P t') ->
  while fuel cond body s = None.
Proof.
  induction fuel as [|f IH]; intros s HP Hc Hb; simpl; rewrite (Hc s HP); [done |].
  destruct (body s) as [t|] eqn:E; [|done]. simpl. eauto.
Qed.

(** More fuel never changes a result. *)
Lemma while_mono {S} cond body f : forall f' (s s' : S),
  (f <= f')%nat -> while f cond body s = Some s' -> while f' cond body s = Some s'.
Proof.
  induction f as [|f IH]; intros f' s s' Hle; destruct f' as [|f']; simpl;
    destruct (cond s); try done; try lia.
  destruct (body s) as [t|]; simpl; [|done]. apply IH. lia.
Qed.

(** Run a list of actions that may fail, in order. *)
Fixpoint foldM {A S : Type} (f : A -> S -> option S) (l : list A) (s : S) : option S :=
  match l with
  | [] => Some s
  | x :: l' => f x s ≫= foldM f l'
  end.

Lemma foldM_app {A S} (f : A -> S -> option S) l1 l2 s :
  foldM f (l1 ++ l2) s = foldM f l1 s ≫= foldM f l2.
Proof.
  revert s. induction l1 as [|x l1 IH]; intros s; simpl; [done |].
  destruct (f x s); simpl; [apply IH | done].
Qed.

Lemma foldM_index {A T} (P : nat -> T -> Prop) (f : A -> T -> option T) l : forall n s,
  (forall i x s, l !! i = Some x -> P (n + i)%nat s -> exists s', f x s = Some s' /\ P (S (n + i)) s') ->
  P n s -> exists s', foldM f l s = Some s' /\ P (n + length l)%nat s'.
Proof.
  induction l as [|x l IH]; intros n s H Hs; cbn [foldM length].
  - exists s. by rewrite Nat.add_0_r.
  - destruct (H 0%nat x s eq_refl) as (s1 & -> & H1); [by rewrite Nat.add_0_r |]. cbn [mbind option_bind].
    rewrite Nat.add_0_r in H1. destruct (IH (S n) s1) as (s' & E & H'); [| done |].
    + intros i y t Hi Ht. specialize (H (S i) y t Hi). rewrite Nat.add_succ_r in H. by apply H.
    + exists s'. by rewrite Nat.add_succ_r.
Qed.

Lemma foldM_inv {A S} (P : S -> Prop) (f : A -> S -> option S) l : forall s s',
  foldM f l s = Some s' -> P s -> (forall x t t', x ∈ l -> P t -> f x t = Some t' -> P t') -> P s'.
Proof.
  induction l as [|x l IH]; intros s s'; simpl; [by intros [= <-] |].
  destruct (f x s) as [t|] eqn:E; simpl; [|done]. intros H HP Hs.
  eapply IH; [apply H | | ]; [eapply Hs; [|apply HP|apply E]; left |].
  intros. eapply Hs; [right|..]; eauto.
Qed.

(** ** Characters and strings

    A C string is the list of its characters, without the terminating NUL. *)

Definition bytes (s : string) : list Z :=
  map (fun a => Z.of_N (Ascii.N_of_ascii a)) (String.list_ascii_of_string s).

Definition is_cstr (s : list Z) : Prop := Forall (fun c => 0 < c < 256) s.

#[global] Instance is_cstr_dec s : Decision (is_cstr s).
Proof. unfold is_cstr. apply _. Defined.

Lemma is_cstr_app s t : is_cstr (s ++ t) <-> is_cstr s /\ is_cstr t.
Proof. apply Forall_app. Qed.

Lemma is_cstr_cons c s : is_cstr (c :: s) <-> 0 < c < 256 /\ is_cstr s.
Proof. apply Forall_cons_iff. Qed.

Lemma is_cstr_lookup s (i : nat) c : is_cstr s -> s !! i = Some c -> 0 < c < 256.
Proof. intros H. by apply (proj1 (Forall_lookup _ s) H). Qed.

(** ** Decimal notation

    Three routines of the program print a number by the same idiom: extract the
    digits from the least significant one, then emit them backwards.  What it
    computes is stated once. *)

Definition dec_val (ds : list Z) : Z := foldl (fun a d => 10 * a + d) 0 ds.

(** [ds] is the decimal notation of [n], most significant digit first. *)
Record is_decimal (n : Z) (ds : list Z) : Prop := {
  dec_digit : Forall (fun d => 0 <= d < 10) ds;
  dec_value : dec_val ds = n;
  dec_nonempty : ds <> [];
  dec_lead : forall d ds', ds = d :: ds' -> ds' <> [] -> d <> 0 }.

Lemma foldl_dec ds : forall a,
  foldl (fun a d => 10 * a + d) a ds = a * 10 ^ Z.of_nat (length ds) + dec_val ds.
Proof.
  unfold dec_val. induction ds as [|d ds IH]; intros a; cbn [foldl length].
  - lia.
  - rewrite IH, (IH (10 * 0 + d)). rewrite Nat2Z.inj_succ, Z.pow_succ_r by lia. lia.
Qed.

Lemma dec_val_snoc ds d : dec_val (ds ++ [d]) = 10 * dec_val ds + d.
Proof. unfold dec_val. by rewrite foldl_app. Qed.

Lemma dec_val_cons d ds : dec_val (d :: ds) = d * 10 ^ Z.of_nat (length ds) + dec_val ds.
Proof. unfold dec_val at 1. cbn [foldl]. rewrite foldl_dec. lia. Qed.

Lemma dec_val_range ds :
  Forall (fun d => 0 <= d < 10) ds -> 0 <= dec_val ds < 10 ^ Z.of_nat (length ds).
Proof.
  induction 1 as [|d ds Hd _ IH]; [cbn; lia |].
  rewrite dec_val_cons. cbn [length]. rewrite Nat2Z.inj_succ, Z.pow_succ_r by lia. nia.
Qed.

Lemma is_decimal_0 : is_decimal 0 [0].
Proof. split; [by repeat constructor | done | done | by intros ?? [= <- <-]]. Qed.

(** One more digit on the right. *)
Lemma is_decimal_snoc n ds :
  0 < n / 10 -> is_decimal (n / 10) ds -> is_decimal n (ds ++ [n mod 10]).
Proof.
  intros Hn [Hd Hv Hne Hl]. split.
  - apply Forall_app. split; [done |]. apply Forall_singleton. dlia.
  - rewrite dec_val_snoc, Hv. dlia.
  - destruct ds; done.
  - destruct ds as [|d0 ds0]; [done |]. intros d ds' [= <- <-] _.
    destruct ds0 as [|d1 ds1].
    + unfold dec_val in Hv. cbn in Hv. lia.
    + by eapply Hl.
Qed.

Lemma is_decimal_single n : 0 <= n < 10 -> is_decimal n [n].
Proof.
  intros H. split; [by apply Forall_singleton | unfold dec_val; simpl; lia | done |].
  by intros ?? [= <- <-].
Qed.

(** The notation is unique. *)
Lemma is_decimal_length n ds ds' :
  0 < n -> is_decimal n ds -> is_decimal n ds' -> (length ds <= length ds')%nat.
Proof.
  intros Hn [Hd Hv Hne Hl] [Hd' Hv' Hne' Hl'].
  destruct ds as [|d ds]; [done |]. destruct ds' as [|d' ds']; [done |].
  pose proof (dec_val_range _ Hd') as Hr. rewrite Hv' in Hr.
  assert (d <> 0) as Hd0.
  { destruct ds; [unfold dec_val in Hv; simpl in Hv; lia | by eapply Hl]. }
  apply Forall_cons_iff in Hd as [Hdr Hd]. pose proof (dec_val_range _ Hd) as Hr2.
  rewrite dec_val_cons in Hv. assert (10 ^ Z.of_nat (length ds) <= n) by nia.
  assert (10 ^ Z.of_nat (length ds) < 10 ^ Z.of_nat (length (d' :: ds'))) as H1 by lia.
  apply Z.pow_lt_mono_r_iff in H1; [|lia..]. cbn [length] in *. lia.
Qed.

Lemma dec_val_inj ds : forall ds',
  length ds = length ds' -> Forall (fun d => 0 <= d < 10) ds ->
  Forall (fun d => 0 <= d < 10) ds' -> dec_val ds = dec_val ds' -> ds = ds'.
Proof.
  induction ds as [|d ds IH]; intros [|d' ds'] Hlen Hd Hd'; try done.
  apply Forall_cons_iff in Hd as [Hdr Hd]. apply Forall_cons_iff in Hd' as [Hdr' Hd'].
  rewrite !dec_val_cons. injection Hlen as Hlen. rewrite Hlen.
  pose proof (dec_val_range _ Hd) as R. pose proof (dec_val_range _ Hd') as R'.
  rewrite Hlen in R. intros Heq. assert (d = d') as -> by nia.
  f_equal. apply IH; [done..| lia].
Qed.

Lemma is_decimal_unique n ds ds' : 0 < n -> is_decimal n ds -> is_decimal n ds' -> ds = ds'.
Proof.
  intros Hn H H'. apply dec_val_inj.
  - pose proof (is_decimal_length _ _ _ Hn H H'). pose proof (is_decimal_length _ _ _ Hn H' H). lia.
  - apply H.
  - apply H'.
  - rewrite (dec_value _ _ H). by rewrite (dec_value _ _ H').
Qed.

(** The extraction loop [while (n > 0) { buf[i++] = enc (n % 10); n /= 10; }]. *)
Lemma digits_loop_ex (enc : Z -> Z) k : forall n (pre : list Z), 0 <= n < 10 ^ Z.of_nat k ->
  exists ds, while k (fun '(n, _) => 0 <? n)
                     (fun '(n, buf) => Some (n / 10, buf ++ [enc (n mod 10)])) (n, pre)
             = Some (0, pre ++ map enc (rev ds)) /\
             (length ds <= k)%nat /\ (n = 0 -> ds = []) /\ (0 < n -> is_decimal n ds).
Proof.
  induction k as [|k IH]; intros n pre Hn.
  - assert (n = 0) as -> by lia. exists []. cbn. rewrite app_nil_r. split_and!; [done | lia | done | lia].
  - destruct (decide (n = 0)) as [-> | Hn0].
    + exists []. rewrite while_false by done. cbn. rewrite app_nil_r. split_and!; [done | lia | done | lia].
    + rewrite Nat2Z.inj_succ, Z.pow_succ_r in Hn by lia.
      edestruct (IH (n / 10) (pre ++ [enc (n mod 10)])) as (ds & Hw & Hlen & H0 & Hpos); [dlia |].
      exists (ds ++ [n mod 10]). rewrite (while_true _ _ _ _ (n / 10, pre ++ [enc (n mod 10)])).
      2: { apply Z.ltb_lt. lia. } 2: done.
      rewrite Hw, rev_app_distr. cbn [rev app map]. rewrite <- app_assoc. split_and!; [done | | lia |].
      * rewrite length_app. cbn. lia.
      * intros _. destruct (decide (n / 10 = 0)) as [Hz | Hz].
        -- rewrite (H0 Hz). cbn. replace (n mod 10) with n by dlia. apply is_decimal_single. dlia.
        -- assert (0 < n / 10) by dlia. apply is_decimal_snoc; auto.
Qed.

Lemma is_decimal_zero ds : is_decimal 0 ds -> ds = [0].
Proof.
  intros [Hd Hv Hne Hl]. destruct ds as [|d ds]; [done |].
  apply Forall_cons_iff in Hd as [Hr Hd]. rewrite dec_val_cons in Hv.
  pose proof (dec_val_range _ Hd). assert (0 < 10 ^ Z.of_nat (length ds)) by lia.
  assert (d = 0) as -> by nia. destruct ds as [|d' ds]; [done |]. by destruct (Hl 0 (d' :: ds) eq_refl).
Qed.

(** The decimal notation of a number, as a function. *)
Definition decimal (n : Z) : list Z :=
  if n =? 0 then [0]
  else match while (Z.to_nat (Z.log2_up (n + 1))) (fun '(n, _) => 0 <? n)
                   (fun '(n, buf) => Some (n / 10, buf ++ [n mod 10])) (n, []) with
       | Some (_, ds) => rev ds
       | None => []
       end.

Lemma decimal_spec n : 0 <= n -> is_decimal n (decimal n).
Proof.
  intros Hn. unfold decimal. zcase; [subst; apply is_decimal_0 |].
  destruct (digits_loop_ex (fun d => d) (Z.to_nat (Z.log2_up (n + 1))) n []) as (ds & -> & _ & _ & Hd).
  - split; [done |]. rewrite Z2Nat.id by apply Z.log2_up_nonneg.
    pose proof (Z.log2_up_spec (n + 1) ltac:(lia)).
    assert (2 ^ Z.log2_up (n + 1) <= 10 ^ Z.log2_up (n + 1)); [|lia].
    apply Z.pow_le_mono_l. lia.
  - cbn. rewrite map_id, rev_involutive. apply Hd. lia.
Qed.

Lemma decimal_unique n ds : 0 <= n -> is_decimal n ds -> ds = decimal n.
Proof.
  intros Hn H. pose proof (decimal_spec n Hn). destruct (decide (n = 0)) as [-> |].
  - by rewrite (is_decimal_zero ds), (is_decimal_zero (decimal 0)).
  - apply (is_decimal_unique n); [lia | done..].
Qed.

(** The extraction loop leaves the decimal notation, backwards. *)
Lemma digits_loop (enc : Z -> Z) k n (pre : list Z) : 0 < n < 10 ^ Z.of_nat k ->
  while k (fun '(n, _) => 0 <? n)
          (fun '(n, buf) => Some (n / 10, buf ++ [enc (n mod 10)])) (n, pre)
  = Some (0, pre ++ map enc (rev (decimal n))) /\ (length (decimal n) <= k)%nat.
Proof.
  intros Hn. destruct (digits_loop_ex enc k n pre) as (ds & Hw & Hl & _ & Hd); [lia |].
  by rewrite <- (decimal_unique n ds) by (lia || apply Hd; lia).
Qed.

Lemma decimal_digits n : 0 <= n -> Forall (fun d => 0 <= d < 10) (decimal n).
Proof. intros H. apply (decimal_spec n H). Qed.

Lemma option_bind_assoc {A B C} (x : option A) (f : A -> option B) (g : B -> option C) :
  (x ≫= f) ≫= g = x ≫= (fun a => f a ≫= g).
Proof. by destruct x. Qed.
