(* ===== verification/Machine.v ===== *)
(** * The machine the kernels run on

    Byte memory, the I/O ports seen as a history of accesses, the processor's
    interrupt flag, and the interface of the 8259A interrupt controller that
    three of the program's components are written against. *)

From S2P Require Import Prelude.

(** ** Memory

    A flat byte memory without protection (the kernels run with paging off or
    identity mapped).  A byte that was never written reads as 0, the contents
    of a fresh [.bss]. *)

Abbreviation mem := (gmap Z Z).

Definition ld (m : mem) (a : Z) : Z := default 0 (m !! a).
Definition st (m : mem) (a v : Z) : mem := <[a := v]> m.

Lemma ld_st_eq m a v : ld (st m a v) a = v.
Proof. unfold ld, st. by rewrite lookup_insert_eq. Qed.
Lemma ld_st_ne m a b v : a <> b -> ld (st m a v) b = ld m b.
Proof. intros. unfold ld, st. by rewrite lookup_insert_ne. Qed.
Lemma ld_st m a b v : ld (st m a v) b = if decide (a = b) then v else ld m b.
Proof. destruct (decide (a = b)) as [-> |]; [apply ld_st_eq | by apply ld_st_ne]. Qed.

#[export] Hint Rewrite ld_st_eq : cint_rw.

(** The [n] bytes at [a], and storing a list of bytes. *)
Definition ld_bytes (m : mem) (a : Z) (n : nat) : list Z := map (fun i => ld m (a + Z.of_nat i)) (seq 0 n).

Fixpoint st_bytes (m : mem) (a : Z) (l : list Z) : mem :=
  match l with
  | [] => m
  | x :: l' => st_bytes (st m a x) (a + 1) l'
  end.

Lemma ld_bytes_length m a n : length (ld_bytes m a n) = n.
Proof. unfold ld_bytes. by rewrite length_map, length_seq. Qed.

Lemma ld_bytes_lookup m a n (i : nat) : (i < n)%nat -> ld_bytes m a n !! i = Some (ld m (a + Z.of_nat i)).
Proof. intros. unfold ld_bytes. by rewrite list_lookup_fmap, lookup_seq_lt. Qed.

Lemma ld_st_bytes_out m a l b :
  ~ (a <= b < a + Z.of_nat (length l)) -> ld (st_bytes m a l) b = ld m b.
Proof.
  revert m a. induction l as [|x l IH]; intros m a H; cbn [st_bytes length] in *; [done |].
  rewrite IH by lia. apply ld_st_ne. lia.
Qed.

Lemma ld_st_bytes_in l : forall m a b x,
  a <= b -> l !! Z.to_nat (b - a) = Some x -> ld (st_bytes m a l) b = x.
Proof.
  induction l as [|y l IH]; intros m a b x Hab Hl; [done |]. cbn [st_bytes].
  destruct (decide (a = b)) as [-> | Hne].
  - rewrite ld_st_bytes_out by lia. replace (Z.to_nat (b - b)) with O in Hl by lia.
    injection Hl as ->. apply ld_st_eq.
  - apply IH; [lia |]. replace (Z.to_nat (b - a)) with (S (Z.to_nat (b - (a + 1)))) in Hl by lia. done.
Qed.

(** A C string in memory. *)
Definition cstr_at (m : mem) (a : Z) (s : list Z) : Prop :=
  is_cstr s /\
  (forall (i : nat) c, s !! i = Some c -> ld m (a + Z.of_nat i) = c) /\
  ld m (a + Z.of_nat (length s)) = 0.

(** ** Ports and the processor

    What a kernel does to the outside is a history of events, the latest first.
    The devices are an environment that answers a read from the history: this
    covers every deterministic device, whatever its state. *)

Inductive event :=
| Out (port val : Z)
| In (port val : Z)
| Cli
| Sti
| Hlt
| Int (n : Z)
| Lidt (limit base : Z).

Abbreviation trace := (list event).

#[global] Instance event_eq_dec : EqDecision event.
Proof. solve_decision. Defined.

Class Device := dev_in : trace -> Z -> Z.

Section Ports.
Context `{Device}.

(** [inb]: the value is a [uint8_t]. *)
Definition io_in (port : Z) (tr : trace) : Z * trace :=
  let v := u8 (dev_in tr port) in (v, In port v :: tr).

(** [outb]: the value is converted to [uint8_t]. *)
Definition io_out (port val : Z) (tr : trace) : trace := Out port (u8 val) :: tr.
End Ports.

(** ** The PS/2 data port

    The device behind the controller answers successive reads of port [0x60]
    with its bytes, scancodes or mouse packets. *)
Fixpoint data_reads (tr : trace) : nat :=
  match tr with
  | [] => O
  | In p _ :: tr' => if p =? 0x60 then S (data_reads tr') else data_reads tr'
  | _ :: tr' => data_reads tr'
  end.

Class Scancodes `{Device} (scan : nat -> Z) :=
  scancodes_read : forall tr, u8 (dev_in tr 0x60) = scan (data_reads tr).

(** The interrupt flag: set by [sti], cleared by [cli], clear at boot. *)
Fixpoint if_flag (tr : trace) : bool :=
  match tr with
  | [] => false
  | Sti :: _ => true
  | Cli :: _ => false
  | _ :: tr' => if_flag tr'
  end.

(** The writes of a trace to a port, oldest first. *)
Definition writes_to (port : Z) (tr : trace) : list Z :=
  rev (omap (fun e => match e with Out p v => if decide (p = port) then Some v else None | _ => None end) tr).

(** ** The 8259A programmable interrupt controller

    What the datasheet says of one chip with command port [cmd] and data port
    [data] (edge triggered, cascaded, with ICW4): an ICW1 opens a four-word
    initialisation, after which a write to the data port is the interrupt mask
    (OCW1), the data port reads the mask back, and a non-specific EOI on the
    command port clears the in-service bit of highest priority. *)

Class Pic8259 (cmd data : Z) := {
  pic_expect : trace -> Z;      (** initialisation words still expected; 0 when operational *)
  pic_imr : trace -> Z;         (** interrupt mask register *)
  pic_base : trace -> Z;        (** vector of the chip's line 0 *)
  pic_isr : trace -> list Z;    (** lines in service, highest priority first *)
  pic_icw1 : forall tr, pic_expect (Out cmd 0x11 :: tr) = 3 /\
               pic_imr (Out cmd 0x11 :: tr) = 0 /\ pic_isr (Out cmd 0x11 :: tr) = [];
  pic_icw2 : forall tr v, pic_expect tr = 3 ->
               pic_expect (Out data v :: tr) = 2 /\ pic_base (Out data v :: tr) = v .& 0xF8;
  pic_icw3 : forall tr v, pic_expect tr = 2 ->
               pic_expect (Out data v :: tr) = 1 /\ pic_base (Out data v :: tr) = pic_base tr;
  pic_icw4 : forall tr v, pic_expect tr = 1 ->
               pic_expect (Out data v :: tr) = 0 /\ pic_base (Out data v :: tr) = pic_base tr;
  pic_ocw1 : forall tr v, pic_expect tr = 0 ->
               pic_expect (Out data v :: tr) = 0 /\ pic_base (Out data v :: tr) = pic_base tr /\
               pic_imr (Out data v :: tr) = v /\ pic_isr (Out data v :: tr) = pic_isr tr;
  pic_init_keeps : forall tr v, pic_expect tr <> 0 ->
               pic_imr (Out data v :: tr) = pic_imr tr /\ pic_isr (Out data v :: tr) = pic_isr tr;
  pic_eoi : forall tr, pic_expect (Out cmd 0x20 :: tr) = pic_expect tr /\
               pic_base (Out cmd 0x20 :: tr) = pic_base tr /\
               pic_imr (Out cmd 0x20 :: tr) = pic_imr tr /\
               pic_isr (Out cmd 0x20 :: tr) = tail (pic_isr tr);
  pic_other : forall tr e, (forall p v, e = Out p v -> p <> cmd /\ p <> data) ->
               pic_expect (e :: tr) = pic_expect tr /\ pic_base (e :: tr) = pic_base tr /\
               pic_imr (e :: tr) = pic_imr tr /\ pic_isr (e :: tr) = pic_isr tr }.

Arguments pic_expect cmd {_ _} _.
Arguments pic_imr cmd {_ _} _.
Arguments pic_base cmd {_ _} _.
Arguments pic_isr cmd {_ _} _.

(** The data port of an operational chip reads its mask. *)
Class PicReads `{Device} (cmd data : Z) `{!Pic8259 cmd data} := pic_reads :
  forall tr, pic_expect cmd tr = 0 -> dev_in tr data = pic_imr cmd tr.

(** An instance: the chip as a function of the history of port writes. *)
Record chip := Chip { c_expect : Z; c_imr : Z; c_base : Z; c_isr : list Z }.

Definition chip_step (cmd data : Z) (e : event) (c : chip) : chip :=
  match e with
  | Out p v =>
      if decide (p = cmd) then
        if decide (v = 0x11) then Chip 3 0 (c_base c) []
        else if decide (v = 0x20) then Chip (c_expect c) (c_imr c) (c_base c) (tail (c_isr c))
        else c
      else if decide (p = data) then
        if decide (c_expect c = 3) then Chip 2 (c_imr c) (v .& 0xF8) (c_isr c)
        else if decide (c_expect c = 2) then Chip 1 (c_imr c) (c_base c) (c_isr c)
        else if decide (c_expect c = 1) then Chip 0 (c_imr c) (c_base c) (c_isr c)
        else if decide (c_expect c = 0) then Chip 0 v (c_base c) (c_isr c)
        else c
      else c
  | _ => c
  end.

(** [boot] is what the BIOS left in the chip. *)
Definition chip_run (cmd data : Z) (boot : chip) (tr : trace) : chip :=
  foldr (chip_step cmd data) boot tr.

Lemma chip_run_cons cmd data boot e tr :
  chip_run cmd data boot (e :: tr) = chip_step cmd data e (chip_run cmd data boot tr).
Proof. done. Qed.

Ltac chip_solve :=
  intros; rewrite ?chip_run_cons;
  match goal with |- context [chip_run ?c ?d ?b ?t] => destruct (chip_run c d b t) end;
  cbn in *; repeat case_decide; cbn in *; repeat split; auto; congruence.

#[global, refine] Instance chip_8259 (cmd data : Z) (boot : chip) (Hne : cmd <> data)
  : Pic8259 cmd data := {|
  pic_expect tr := c_expect (chip_run cmd data boot tr);
  pic_imr tr := c_imr (chip_run cmd data boot tr);
  pic_base tr := c_base (chip_run cmd data boot tr);
  pic_isr tr := c_isr (chip_run cmd data boot tr) |}.
Proof.
  all: try solve [chip_solve].
  intros tr e He. rewrite chip_run_cons. destruct e as [p v| | | | | |]; try done.
  destruct (He p v eq_refl). cbn. by rewrite !decide_False by done.
Defined.

(** The laws in the form of rewriting rules. *)
Definition misses (cmd data : Z) (e : event) : Prop := forall p v, e = Out p v -> p <> cmd /\ p <> data.

Section PicRules.
Context (cmd data : Z) `{P : !Pic8259 cmd data}.

Lemma pic_isr_skip e tr : misses cmd data e -> pic_isr cmd (e :: tr) = pic_isr cmd tr.
Proof. intros He. apply (pic_other tr e He). Qed.
Lemma pic_imr_skip e tr : misses cmd data e -> pic_imr cmd (e :: tr) = pic_imr cmd tr.
Proof. intros He. apply (pic_other tr e He). Qed.
Lemma pic_expect_skip e tr : misses cmd data e -> pic_expect cmd (e :: tr) = pic_expect cmd tr.
Proof. intros He. apply (pic_other tr e He). Qed.
Lemma pic_isr_eoi tr : pic_isr cmd (Out cmd 0x20 :: tr) = tail (pic_isr cmd tr).
Proof. apply pic_eoi. Qed.
Lemma pic_imr_write v tr : pic_expect cmd tr = 0 -> pic_imr cmd (Out data v :: tr) = v.
Proof. apply pic_ocw1. Qed.
End PicRules.

Lemma misses_out cmd data p v : p <> cmd -> p <> data -> misses cmd data (Out p v).
Proof. by intros ? ? ?? [= <- <-]. Qed.

(** Discharge [misses] for an access with known ports. *)
Ltac misses := first [ by apply misses_out | done ].

(** ** Symbolic execution of the controller

    What is known of a chip after a list of accesses, whatever it was before:
    [None] is unknown.  It is sound for every chip that obeys the interface, so
    that a client's theorem about the chip is an evaluation. *)

Record pic_obs := Obs { o_expect : option Z; o_imr : option Z; o_base : option Z; o_isr : option (list Z) }.

Definition pic_unknown : pic_obs := Obs None None None None.

Definition pic_sym_step (cmd data : Z) (e : event) (o : pic_obs) : pic_obs :=
  match e with
  | Out p v =>
      if p =? cmd then
        if v =? 0x11 then Obs (Some 3) (Some 0) None (Some [])
        else if v =? 0x20 then Obs (o_expect o) (o_imr o) (o_base o) (tail <$> o_isr o)
        else pic_unknown
      else if p =? data then
        match o_expect o with
        | Some 3 => Obs (Some 2) (o_imr o) (Some (v .& 0xF8)) (o_isr o)
        | Some 2 => Obs (Some 1) (o_imr o) (o_base o) (o_isr o)
        | Some 1 => Obs (Some 0) (o_imr o) (o_base o) (o_isr o)
        | Some 0 => Obs (Some 0) (Some v) (o_base o) (o_isr o)
        | _ => pic_unknown
        end
      else o
  | _ => o
  end.

Definition pic_sym (cmd data : Z) (es : trace) (o : pic_obs) : pic_obs :=
  foldr (pic_sym_step cmd data) o es.

(** [x] is what is known, [v] the actual value. *)
Definition agrees {A} (x : option A) (v : A) : Prop := forall y, x = Some y -> v = y.

Section PicSym.
Context (cmd data : Z) `{!Pic8259 cmd data} (Hne : cmd <> data).

Definition pic_sound (o : pic_obs) (tr : trace) : Prop :=
  agrees (o_expect o) (pic_expect cmd tr) /\ agrees (o_imr o) (pic_imr cmd tr) /\
  agrees (o_base o) (pic_base cmd tr) /\ agrees (o_isr o) (pic_isr cmd tr).

Lemma pic_unknown_sound tr : pic_sound pic_unknown tr.
Proof. by repeat split; intros ? [=]. Qed.

Lemma agrees_eq {A} (x : option A) (v v' : A) : v' = v -> agrees x v -> agrees x v'.
Proof. by intros ->. Qed.

Lemma agrees_Some {A} (v v' : A) : v' = v -> agrees (Some v) v'.
Proof. by intros -> ? [= <-]. Qed.

Lemma pic_other_sound o tr e :
  (forall p v, e = Out p v -> p <> cmd /\ p <> data) -> pic_sound o tr -> pic_sound o (e :: tr).
Proof.
  intros He (H1 & H2 & H3 & H4). destruct (pic_other tr e He) as (E1 & E2 & E3 & E4).
  split_and!; by (eapply agrees_eq; [|done]).
Qed.

Lemma pic_cmd_sound o tr v : pic_sound o tr -> pic_sound (pic_sym_step cmd data (Out cmd v) o) (Out cmd v :: tr).
Proof.
  intros (H1 & H2 & H3 & H4). cbn [pic_sym_step]. rewrite Z.eqb_refl.
  destruct (Z.eqb_spec v 0x11) as [-> | _]; [|destruct (Z.eqb_spec v 0x20) as [-> | _]].
  - destruct (pic_icw1 tr) as (E1 & E2 & E3). by split_and!; try (by apply agrees_Some).
  - destruct (pic_eoi tr) as (E1 & E2 & E3 & E4).
    split_and!; [by (eapply agrees_eq; [|done]).. |]. cbn. intros y Hy.
    destruct (o_isr o) as [l|]; [|done]. injection Hy as <-. by rewrite E4, (H4 l).
  - apply pic_unknown_sound.
Qed.

Lemma pic_data_sound o tr v : pic_sound o tr -> pic_sound (pic_sym_step cmd data (Out data v) o) (Out data v :: tr).
Proof.
  intros (H1 & H2 & H3 & H4). cbn [pic_sym_step].
  rewrite (proj2 (Z.eqb_neq data cmd)), Z.eqb_refl by congruence.
  destruct (o_expect o) as [x|] eqn:Hx; [|apply pic_unknown_sound].
  specialize (H1 x eq_refl).
  destruct (decide (x = 0)) as [-> |]; [|destruct (decide (x = 1)) as [-> |];
    [|destruct (decide (x = 2)) as [-> |]; [|destruct (decide (x = 3)) as [-> |]]]].
  - destruct (pic_ocw1 tr v H1) as (E1 & E2 & E3 & E4).
    split_and!; first [by apply agrees_Some | by (eapply agrees_eq; [|done])].
  - destruct (pic_icw4 tr v H1) as (E1 & E2). destruct (pic_init_keeps tr v) as (E3 & E4); [lia |].
    split_and!; first [by apply agrees_Some | by (eapply agrees_eq; [|done])].
  - destruct (pic_icw3 tr v H1) as (E1 & E2). destruct (pic_init_keeps tr v) as (E3 & E4); [lia |].
    split_and!; first [by apply agrees_Some | by (eapply agrees_eq; [|done])].
  - destruct (pic_icw2 tr v H1) as (E1 & E2). destruct (pic_init_keeps tr v) as (E3 & E4); [lia |].
    split_and!; first [by apply agrees_Some | by (eapply agrees_eq; [|done])].
  - assert (pic_sound pic_unknown (Out data v :: tr)) by apply pic_unknown_sound.
    destruct x as [|p|p]; try done. do 2 (destruct p as [p|p|]; try done).
Qed.

Lemma pic_sym_sound es o tr : pic_sound o tr -> pic_sound (pic_sym cmd data es o) (es ++ tr).
Proof.
  intros Ho. induction es as [|e es IH]; [done |]. cbn [pic_sym foldr app].
  destruct e as [p v| | | | | |]; try (apply pic_other_sound; [done | exact IH]).
  destruct (decide (p = cmd)) as [-> | Hc]; [by apply pic_cmd_sound |].
  destruct (decide (p = data)) as [-> | Hd]; [by apply pic_data_sound |].
  cbn [pic_sym_step]. rewrite !(proj2 (Z.eqb_neq p _)) by done.
  apply pic_other_sound; [|exact IH]. by intros ?? [= <- <-].
Qed.

(** Reading off a fully known chip. *)
Lemma pic_sym_result es x i b s tr :
  pic_sym cmd data es pic_unknown = Obs (Some x) (Some i) (Some b) s ->
  pic_expect cmd (es ++ tr) = x /\ pic_imr cmd (es ++ tr) = i /\ pic_base cmd (es ++ tr) = b.
Proof.
  intros E. destruct (pic_sym_sound es pic_unknown tr (pic_unknown_sound tr)) as (H1 & H2 & H3 & _).
  rewrite E in H1, H2, H3. split_and!; auto.
Qed.
End PicSym.

(** A machine with the two controllers of a PC: reads of their data ports answer
    with the masks, every other port answers with [other]. *)
Definition pc_device (boot1 boot2 : chip) (other : trace -> Z -> Z) : Device := fun tr port =>
  if decide (port = 0x21) then c_imr (chip_run 0x20 0x21 boot1 tr)
  else if decide (port = 0xA1) then c_imr (chip_run 0xA0 0xA1 boot2 tr)
  else other tr port.

Definition pc_pic1 (boot : chip) : Pic8259 0x20 0x21 := chip_8259 0x20 0x21 boot ltac:(done).
Definition pc_pic2 (boot : chip) : Pic8259 0xA0 0xA1 := chip_8259 0xA0 0xA1 boot ltac:(done).

Lemma pc_reads1 b1 b2 o : @PicReads (pc_device b1 b2 o) 0x20 0x21 (pc_pic1 b1).
Proof. intros tr _. done. Qed.
Lemma pc_reads2 b1 b2 o : @PicReads (pc_device b1 b2 o) 0xA0 0xA1 (pc_pic2 b2).
Proof. intros tr _. done. Qed.
