(* ===== verification/LibcString.v ===== *)
(** * The C library: [string.h]

    [src/libc/string/]: the five memory routines, over the byte memory of
    [Machine]. *)

From S2P Require Import Prelude Machine.

(** ** The code *)

(** The loop of [memcmp] from index [i], [n] bytes before the end. *)
Fixpoint memcmp_loop (m : mem) (a b i : Z) (n : nat) : Z :=
  match n with
  | O => 0
  | S n' =>
      if ld m (a + i) <? ld m (b + i) then -1
      else if ld m (b + i) <? ld m (a + i) then 1
      else memcmp_loop m a b (i + 1) n'
  end.

Definition memcmp (m : mem) (aptr bptr size : Z) : Z := memcmp_loop m aptr bptr 0 (Z.to_nat size).

Definition memcpy (m : mem) (dst src size : Z) : mem :=
  for_range 0 size (fun i m => st m (dst + i) (ld m (src + i))) m.

Definition memmove (m : mem) (dst src size : Z) : mem :=
  if dst <? src
  then for_range 0 size (fun i m => st m (dst + i) (ld m (src + i))) m
  else for_down size 0 (fun i m => st m (dst + (i - 1)) (ld m (src + (i - 1)))) m.

Definition memset (m : mem) (buf value size : Z) : mem :=
  for_range 0 size (fun i m => st m (buf + i) (u8 value)) m.

(** [None]: no NUL among the first [fuel] bytes. *)
Definition strlen (fuel : nat) (m : mem) (str : Z) : option Z :=
  while fuel (fun len => negb (ld m (str + len) =? 0)) (fun len => Some (len + 1)) 0.

(** ** Specifications *)

(** Lexicographic order of byte strings, as [-1], [0] or [1]. *)
Fixpoint lex_cmp (l1 l2 : list Z) : Z :=
  match l1, l2 with
  | x :: l1, y :: l2 => match x ?= y with Lt => -1 | Gt => 1 | Eq => lex_cmp l1 l2 end
  | _, _ => 0
  end.

(** The memory in which the [size] bytes at [src] have been copied to [dst]. *)
Definition copied (m : mem) (dst src size : Z) (m' : mem) : Prop :=
  forall a, ld m' a = if decide (dst <= a < dst + size) then ld m (src + (a - dst)) else ld m a.

(** The memory in which the [size] bytes at [buf] are [(unsigned char) v]. *)
Definition filled (m : mem) (buf v size : Z) (m' : mem) : Prop :=
  forall a, ld m' a = if decide (buf <= a < buf + size) then u8 v else ld m a.

(** ** Proofs *)

Lemma lex_cmp_eq l1 : forall l2, length l1 = length l2 -> lex_cmp l1 l2 = 0 <-> l1 = l2.
Proof.
  induction l1 as [|x l1 IH]; intros [|y l2] Hl; try done. injection Hl as Hl. cbn.
  destruct (Z.compare_spec x y); [subst; rewrite IH by done; split; congruence | |];
    (split; [done | intros [= ? ?]; lia]).
Qed.

Lemma lex_cmp_antisym l1 : forall l2, lex_cmp l2 l1 = - lex_cmp l1 l2.
Proof.
  induction l1 as [|x l1 IH]; intros [|y l2]; try done. cbn.
  rewrite (Z.compare_antisym x y). destruct (x ?= y); cbn; auto.
Qed.

Lemma ld_bytes_S m a n : ld_bytes m a (S n) = ld m a :: ld_bytes m (a + 1) n.
Proof.
  unfold ld_bytes. cbn [seq map]. rewrite Z.add_0_r. f_equal.
  rewrite <- seq_shift, map_map. apply map_ext. intros i. f_equal. lia.
Qed.

Lemma memcmp_loop_lex m a b n : forall i,
  memcmp_loop m a b i n = lex_cmp (ld_bytes m (a + i) n) (ld_bytes m (b + i) n).
Proof.
  induction n as [|n IH]; intros i; [done |]. rewrite !ld_bytes_S. cbn [memcmp_loop lex_cmp].
  rewrite IH, !Z.add_assoc.
  destruct (Z.compare_spec (ld m (a + i)) (ld m (b + i))); repeat zcase; try done; lia.
Qed.

Lemma memcmp_zero m a b size :
  memcmp m a b size = 0 <-> forall i, 0 <= i < size -> ld m (a + i) = ld m (b + i).
Proof.
  unfold memcmp. rewrite memcmp_loop_lex, !Z.add_0_r.
  rewrite lex_cmp_eq by (by rewrite !ld_bytes_length). split.
  - intros E i Hi. apply (f_equal (lookup (Z.to_nat i))) in E.
    rewrite !ld_bytes_lookup in E by lia. injection E as E. by rewrite Z2Nat.id in E by lia.
  - intros H. apply list_eq. intros i.
    destruct (Nat.lt_ge_cases i (Z.to_nat size)).
    + rewrite !ld_bytes_lookup by done. f_equal. apply H. lia.
    + rewrite !lookup_ge_None_2; rewrite ?ld_bytes_length; done.
Qed.

(** [memcmp] is the lexicographic order of the two byte strings, as -1, 0 or
    1. *)
Theorem memcmp_lexicographic m a b size :
  memcmp m a b size = lex_cmp (ld_bytes m a (Z.to_nat size)) (ld_bytes m b (Z.to_nat size)) /\
  memcmp m b a size = - memcmp m a b size /\
  (memcmp m a b size = 0 <-> forall i, 0 <= i < size -> ld m (a + i) = ld m (b + i)).
Proof.
  split_and!; [| | apply memcmp_zero]; unfold memcmp; rewrite !memcmp_loop_lex, !Z.add_0_r;
    [done | apply lex_cmp_antisym].
Qed.

(** The ascending copy is correct when no byte is read after it is written. *)
Lemma copy_up m dst src size :
  0 <= size -> dst <= src \/ src + size <= dst ->
  copied m dst src size (for_range 0 size (fun i m => st m (dst + i) (ld m (src + i))) m).
Proof.
  intros Hs Hov. apply (for_range_inv (fun n m' => copied m dst src n m')); [done | |].
  - intros a. by rewrite decide_False by lia.
  - intros i m' Hi Hc a. rewrite ld_st. repeat case_decide; subst; try lia.
    + rewrite Hc. rewrite decide_False by lia. f_equal. lia.
    + rewrite Hc. by rewrite decide_True by lia.
    + rewrite Hc. by rewrite decide_False by lia.
Qed.

(** The state of the descending copy after [k] bytes. *)
Definition copied_top (m : mem) (dst src size k : Z) (m' : mem) : Prop :=
  forall a, ld m' a = if decide (dst + (size - k) <= a < dst + size)
                      then ld m (src + (a - dst)) else ld m a.

(** The descending copy, for the opposite overlap. *)
Lemma copy_down m dst src size :
  0 <= size -> src <= dst ->
  copied m dst src size
    (for_down size 0 (fun i m => st m (dst + (i - 1)) (ld m (src + (i - 1)))) m).
Proof.
  intros Hs Hov. unfold for_down. rewrite Z.sub_0_r.
  set (body := fun k m => st m (dst + (size - k - 1)) (ld m (src + (size - k - 1)))).
  assert (copied_top m dst src size size (for_range 0 size body m)) as H.
  { apply (for_range_inv (copied_top m dst src size)); [done | |].
    - intros a. by rewrite decide_False by lia.
    - intros k m' Hk Hc a. unfold body. rewrite ld_st. repeat case_decide; subst; try lia; rewrite Hc.
      + rewrite decide_False by lia. f_equal. lia.
      + by rewrite decide_True by lia.
      + by rewrite decide_False by lia. }
  intros a. rewrite (H a). by replace (dst + (size - size)) with dst by lia.
Qed.

(** memmove copies size bytes for every overlap of source and destination, and
    changes nothing else. *)
Theorem memmove_copies m dst src size : 0 <= size -> copied m dst src size (memmove m dst src size).
Proof. intros. unfold memmove. zcase; [apply copy_up | apply copy_down]; lia. Qed.

Lemma memmove_copies_witness :
  let m := st_bytes ∅ 0 [1; 2; 3; 4; 5] in
  copied m 2 0 3 (memmove m 2 0 3) /\ ld_bytes (memmove m 2 0 3) 0 5 = [1; 2; 1; 2; 3].
Proof. split; [apply memmove_copies; lia | reflexivity]. Defined.

Lemma memcpy_copied m dst src size :
  0 <= size -> dst <= src \/ src + size <= dst -> copied m dst src size (memcpy m dst src size).
Proof. apply copy_up. Qed.

Lemma memset_filled m buf v size : 0 <= size -> filled m buf v size (memset m buf v size).
Proof.
  intros Hs. apply (for_range_inv (filled m buf v)); [done | |].
  - intros a. by rewrite decide_False by lia.
  - intros i m' Hi Hc a. rewrite ld_st. repeat case_decide; subst; try lia; rewrite Hc.
    + by rewrite decide_True by lia.
    + by rewrite decide_False by lia.
Qed.

(** [memcpy] copies disjoint ranges, [memset] fills its range with the byte;
    nothing else changes. *)
Theorem memcpy_memset_correct m dst src v size :
  0 <= size -> dst + size <= src \/ src + size <= dst ->
  copied m dst src size (memcpy m dst src size) /\
  memcmp (memcpy m dst src size) dst src size = 0 /\
  filled m dst v size (memset m dst v size).
Proof.
  intros Hs Hov. assert (copied m dst src size (memcpy m dst src size)) as Hc
    by (apply memcpy_copied; lia).
  split_and!; [done | | by apply memset_filled].
  apply memcmp_zero. intros i Hi. rewrite !Hc, decide_True, decide_False by lia. f_equal. lia.
Qed.

Lemma memcpy_memset_correct_witness :
  let m := st_bytes ∅ 0 [7; 8; 9] in
  copied m 16 0 3 (memcpy m 16 0 3) /\ memcmp (memcpy m 16 0 3) 16 0 3 = 0.
Proof.
  destruct (memcpy_memset_correct (st_bytes ∅ 0 [7; 8; 9]) 16 0 0 3) as (H & H' & _); [lia.. |].
  by split.
Defined.

Lemma strlen_aux m str s : cstr_at m str s -> forall k : nat, (k <= length s)%nat ->
  forall fuel, (length s - k <= fuel)%nat ->
  while fuel (fun len => negb (ld m (str + len) =? 0)) (fun len => Some (len + 1)) (Z.of_nat k)
  = Some (Z.of_nat (length s)).
Proof.
  intros (Hs & Hc & H0) k Hk fuel. remember (length s - k)%nat as d eqn:Hd.
  revert k fuel Hk Hd. induction d as [|d IH]; intros k fuel Hk Hd Hf.
  - replace k with (length s) by lia. apply while_false. by rewrite H0.
  - destruct fuel as [|fuel]; [lia |].
    destruct (lookup_lt_is_Some_2 s k) as [c Hl]; [lia |].
    rewrite (while_true _ _ _ _ (Z.of_nat k + 1)); [| | done].
    + replace (Z.of_nat k + 1) with (Z.of_nat (S k)) by lia. apply IH; lia.
    + rewrite (Hc _ _ Hl). pose proof (is_cstr_lookup _ _ _ Hs Hl). zcase; [lia | done].
Qed.

Lemma strlen_cstr m str s fuel :
  cstr_at m str s -> (length s <= fuel)%nat -> strlen fuel m str = Some (Z.of_nat (length s)).
Proof. intros H Hf. apply (strlen_aux m str s H 0); lia. Qed.

(** What [strlen] returns is the index of the first NUL. *)
Lemma strlen_first_nul fuel m str n :
  strlen fuel m str = Some n -> 0 <= n /\ ld m (str + n) = 0 /\ forall i, 0 <= i < n -> ld m (str + i) <> 0.
Proof.
  intros H. destruct (while_inv (fun n => 0 <= n /\ forall i, 0 <= i < n -> ld m (str + i) <> 0)
    _ _ _ _ _ H) as [[H0 Hi] Hc].
  - split; [lia | intros; lia].
  - intros t t' [Ht Hi] Hc [= <-]. split; [lia |]. intros i Hr.
    destruct (decide (i = t)) as [-> |]; [|apply Hi; lia].
    destruct (Z.eqb_spec (ld m (str + t)) 0); done.
  - split_and!; [done | | done]. destruct (Z.eqb_spec (ld m (str + n)) 0); done.
Qed.

(** [strlen] returns the length of a C string once the fuel covers it, and
    never a wrong one. *)
Theorem strlen_correct fuel m str s n :
  cstr_at m str s -> (length s <= fuel)%nat ->
  strlen fuel m str = Some (Z.of_nat (length s)) /\
  (strlen n m str = Some (Z.of_nat (length s)) \/ strlen n m str = None).
Proof.
  intros H Hf. split; [by apply strlen_cstr |].
  destruct (strlen n m str) as [k|] eqn:E; [left | by right].
  unfold strlen in E. apply (while_mono _ _ _ (n + fuel)) in E; [|lia].
  pose proof (strlen_cstr m str s (n + fuel) H ltac:(lia)) as E'. unfold strlen in E'. congruence.
Qed.

Lemma strlen_correct_witness :
  strlen 10 (st_bytes ∅ 100 [83; 122; 79; 83; 0; 1]) 100 = Some 4.
Proof.
  apply (strlen_correct 10 _ 100 [83; 122; 79; 83] 0); [|cbn; lia].
  split_and!; [by apply (bool_decide_unpack _) | | done].
  intros i c H. do 4 (destruct i as [|i]; [by injection H as <- |]). done.
Defined.
