(* ===== verification/Tty.v ===== *)
(** * The VGA text terminal

    [src/legacy/kernel/arch/i386/tty.c] and [vga.h]: the cursor, the colour and
    the text buffer at [0xB8000], the abstract screen they implement, and the
    refinement between them. *)

From S2P Require Import Prelude Machine.

(** ** The code *)

Definition VGA_WIDTH : Z := 80.
Definition VGA_HEIGHT : Z := 25.

Inductive vga_color :=
| VGA_COLOR_BLACK | VGA_COLOR_BLUE | VGA_COLOR_GREEN | VGA_COLOR_CYAN
| VGA_COLOR_RED | VGA_COLOR_MAGENTA | VGA_COLOR_BROWN | VGA_COLOR_LIGHT_GREY
| VGA_COLOR_DARK_GREY | VGA_COLOR_LIGHT_BLUE | VGA_COLOR_LIGHT_GREEN | VGA_COLOR_LIGHT_CYAN
| VGA_COLOR_LIGHT_RED | VGA_COLOR_LIGHT_MAGENTA | VGA_COLOR_LIGHT_BROWN | VGA_COLOR_WHITE.

Definition vga_color_code (c : vga_color) : Z :=
  match c with
  | VGA_COLOR_BLACK => 0 | VGA_COLOR_BLUE => 1 | VGA_COLOR_GREEN => 2 | VGA_COLOR_CYAN => 3
  | VGA_COLOR_RED => 4 | VGA_COLOR_MAGENTA => 5 | VGA_COLOR_BROWN => 6 | VGA_COLOR_LIGHT_GREY => 7
  | VGA_COLOR_DARK_GREY => 8 | VGA_COLOR_LIGHT_BLUE => 9 | VGA_COLOR_LIGHT_GREEN => 10
  | VGA_COLOR_LIGHT_CYAN => 11 | VGA_COLOR_LIGHT_RED => 12 | VGA_COLOR_LIGHT_MAGENTA => 13
  | VGA_COLOR_LIGHT_BROWN => 14 | VGA_COLOR_WHITE => 15
  end.

Definition vga_entry_color (fg bg : vga_color) : Z :=
  u8 (vga_color_code fg .| (vga_color_code bg .<< 4)).

Definition vga_entry (uc color : Z) : Z := u16 (uc .| (color .<< 8)).

(** The static variables of [tty.c]; [terminal_buffer] maps the index of a cell
    (counted in [uint16_t] from [0xB8000]) to its contents. *)
Record tty := Tty {
  terminal_row : Z;
  terminal_column : Z;
  terminal_color : Z;
  terminal_buffer : gmap Z Z }.

Definition set_row (r : Z) (t : tty) : tty :=
  Tty r (terminal_column t) (terminal_color t) (terminal_buffer t).
Definition set_column (c : Z) (t : tty) : tty :=
  Tty (terminal_row t) c (terminal_color t) (terminal_buffer t).

Definition terminal_setcolor (color : Z) (t : tty) : tty :=
  Tty (terminal_row t) (terminal_column t) (u8 color) (terminal_buffer t).

Definition terminal_putentryat (c color x y : Z) (t : tty) : tty :=
  let index := u32 (y * VGA_WIDTH + x) in
  Tty (terminal_row t) (terminal_column t) (terminal_color t)
      (<[index := vga_entry c color]> (terminal_buffer t)).

Definition terminal_initialize (t : tty) : tty :=
  let color := vga_entry_color VGA_COLOR_LIGHT_GREY VGA_COLOR_BLACK in
  for_range 0 VGA_HEIGHT (fun y =>
    for_range 0 VGA_WIDTH (fun x t =>
      let index := y * VGA_WIDTH + x in
      Tty (terminal_row t) (terminal_column t) (terminal_color t)
          (<[index := vga_entry 32 (terminal_color t)]> (terminal_buffer t))))
    (Tty 0 0 color (terminal_buffer t)).

(** [if (++terminal_row == VGA_HEIGHT) terminal_row = 0;] *)
Definition next_row (t : tty) : tty :=
  let row := u32 (terminal_row t + 1) in
  set_row (if row =? VGA_HEIGHT then 0 else row) t.

(** The tail of [terminal_putchar], reached by a character that is not a control
    character, the space of the recursive call in particular. *)
Definition terminal_put_glyph (uc : Z) (t : tty) : tty :=
  let t := terminal_putentryat uc (terminal_color t) (terminal_column t) (terminal_row t) t in
  let column := u32 (terminal_column t + 1) in
  if column =? VGA_WIDTH then next_row (set_column 0 t) else set_column column t.

(** [None]: the loop of the tab ran [fuel] times without reaching its end. *)
Definition terminal_putchar (fuel : nat) (c : Z) (t : tty) : option tty :=
  let uc := u8 c in
  if uc =? 10 then Some (next_row (set_column 0 t))
  else if uc =? 13 then Some (set_column 0 t)
  else if uc =? 8 then
    Some (if 0 <? terminal_column t then
            let t := set_column (terminal_column t - 1) t in
            terminal_putentryat 32 (terminal_color t) (terminal_column t) (terminal_row t) t
          else t)
  else if uc =? 9 then
    let next_stop := u32 (terminal_column t + 8) .& u32 (Z.lnot 7) in
    while fuel (fun t => (terminal_column t <? next_stop) && (terminal_column t <? VGA_WIDTH))
          (fun t => Some (terminal_put_glyph 32 t)) t
  else Some (terminal_put_glyph uc t).

Definition terminal_write (fuel : nat) (data : list Z) (t : tty) : option tty :=
  foldM (terminal_putchar fuel) data t.

(** [strlen] of a C string is the length of its list of characters. *)
Definition terminal_writestring (fuel : nat) (data : list Z) (t : tty) : option tty :=
  terminal_write fuel data t.

(** ** The abstract screen

    A screen is 2000 cells and a position; a character is a function on it. *)

Record screen := Screen { scr_pos : Z; scr_color : Z; scr_cell : gmap Z Z }.

Definition SCREEN : Z := 2000.

Definition scr_glyph (c : Z) (s : screen) : screen :=
  Screen ((scr_pos s + 1) mod SCREEN) (scr_color s)
         (<[scr_pos s := c + 256 * scr_color s]> (scr_cell s)).

Definition scr_line (s : screen) : screen :=
  Screen ((scr_pos s / 80 + 1) mod 25 * 80) (scr_color s) (scr_cell s).

Definition scr_putc (c : Z) (s : screen) : screen :=
  if c =? 10 then scr_line s
  else if c =? 13 then Screen (scr_pos s / 80 * 80) (scr_color s) (scr_cell s)
  else if c =? 8 then
    if 0 <? scr_pos s mod 80
    then Screen (scr_pos s - 1) (scr_color s)
                (<[scr_pos s - 1 := 32 + 256 * scr_color s]> (scr_cell s))
    else s
  else if c =? 9 then Nat.iter (Z.to_nat (8 - scr_pos s mod 8)) (scr_glyph 32) s
  else scr_glyph c s.

Definition abs_tty (t : tty) : screen :=
  Screen (terminal_row t * 80 + terminal_column t) (terminal_color t) (terminal_buffer t).

(** The invariant of the static variables. *)
Record tty_wf (t : tty) : Prop := {
  wf_row : 0 <= terminal_row t < 25;
  wf_column : 0 <= terminal_column t < 80;
  wf_color : 0 <= terminal_color t < 256;
  wf_cells : map_Forall (fun i e => 0 <= i < 2000 -> 0 <= e < 65536) (terminal_buffer t) }.

(** A character on which [terminal_putchar] returns. *)
Definition returns_on (c : Z) (t : tty) : Prop := u8 c = 9 -> terminal_column t < 72.

(** ** Proofs *)

Lemma vga_entry_sum c color : 0 <= c < 256 -> 0 <= color < 256 -> vga_entry c color = c + 256 * color.
Proof.
  intros Hc Hcol. unfold vga_entry. rewrite lor_shiftl_add by (cbn; lia).
  rewrite u16_small by (cbn; lia). cbn. lia.
Qed.

(** Both bytes of a cell can be recovered from it. *)
Lemma vga_entry_inv c color : 0 <= c < 256 -> 0 <= color < 256 ->
  u8 (vga_entry c color) = c /\ vga_entry c color .>> 8 = color.
Proof.
  intros Hc Hcol. rewrite vga_entry_sum, shiftr_div by lia. unfold u8. cbn. dlia.
Qed.

Lemma vga_entry_color_range fg bg : 0 <= vga_entry_color fg bg < 256.
Proof. apply u8_range. Qed.

Lemma next_row_wf t : tty_wf t -> tty_wf (next_row t).
Proof.
  intros []. unfold next_row, set_row, VGA_HEIGHT. rewrite u32_small by lia.
  split; cbn; [zcase; lia | done..].
Qed.

Lemma set_column_wf c t : 0 <= c < 80 -> tty_wf t -> tty_wf (set_column c t).
Proof. intros ? []. split; done. Qed.

Lemma putentry_wf c x y t :
  0 <= c < 256 -> tty_wf t -> tty_wf (terminal_putentryat c (terminal_color t) x y t).
Proof.
  intros Hc []. split; try done. cbn. apply map_Forall_insert_2; [|done].
  intros _. rewrite vga_entry_sum by done. lia.
Qed.

Lemma put_glyph_wf c t : 0 <= c < 256 -> tty_wf t -> tty_wf (terminal_put_glyph c t).
Proof.
  intros Hc Hwf. pose proof (wf_column _ Hwf). unfold terminal_put_glyph, VGA_WIDTH. cbn [terminal_column terminal_putentryat].
  rewrite u32_small by lia. pose proof (putentry_wf c (terminal_column t) (terminal_row t) t Hc Hwf).
  zcase; [apply next_row_wf|]; apply set_column_wf; auto; lia.
Qed.

(** A glyph is [scr_glyph]; below column 79 the row is unchanged. *)
Lemma put_glyph_abs c t : 0 <= c < 256 -> tty_wf t ->
  abs_tty (terminal_put_glyph c t) = scr_glyph c (abs_tty t).
Proof.
  intros Hc [Hr Hcol Hk _]. unfold terminal_put_glyph, VGA_WIDTH.
  cbn [terminal_column terminal_putentryat]. rewrite u32_small by lia.
  assert (u32 (terminal_row t * 80 + terminal_column t) = terminal_row t * 80 + terminal_column t) as Hu
    by (apply u32_small; lia).
  unfold scr_glyph, abs_tty, SCREEN. cbn [scr_pos scr_color scr_cell]. zcase.
  - unfold next_row, VGA_HEIGHT; cbn. rewrite (u32_small (terminal_row t + 1)) by lia.
    f_equal; [zcase; dlia |]. unfold terminal_putentryat, VGA_WIDTH. by rewrite Hu, vga_entry_sum.
  - cbn. f_equal; [dlia |]. unfold terminal_putentryat, VGA_WIDTH. by rewrite Hu, vga_entry_sum.
Qed.

Lemma put_glyph_column c t : 0 <= terminal_column t < 79 ->
  terminal_column (terminal_put_glyph c t) = terminal_column t + 1.
Proof.
  intros H. unfold terminal_put_glyph, VGA_WIDTH. cbn [terminal_column terminal_putentryat].
  rewrite u32_small by lia. zcase; [lia | done].
Qed.

Lemma next_stop_eq col : 0 <= col < 80 -> u32 (col + 8) .& u32 (Z.lnot 7) = 8 * (col / 8 + 1).
Proof.
  intros H. assert (exists k : nat, (k < 80)%nat /\ col = Z.of_nat k) as (k & Hk & ->)
    by (exists (Z.to_nat col); lia).
  do 80 (destruct k as [|k]; [reflexivity |]). lia.
Qed.

(** The loop of the tab below column 72: at most 8 spaces. *)
Lemma tab_loop n : forall fuel t,
  (n <= fuel)%nat -> tty_wf t -> terminal_column t + Z.of_nat n < 80 ->
  exists t', while fuel (fun u => (terminal_column u <? terminal_column t + Z.of_nat n)
                                  && (terminal_column u <? VGA_WIDTH))
                   (fun u => Some (terminal_put_glyph 32 u)) t = Some t' /\
             tty_wf t' /\ abs_tty t' = Nat.iter n (scr_glyph 32) (abs_tty t).
Proof.
  induction n as [|n IH]; intros fuel t Hf Hwf Hn; pose proof (wf_column _ Hwf).
  - exists t. split; [|done]. apply while_false. unfold VGA_WIDTH. cbn. zcase; [lia | done].
  - destruct fuel as [|fuel]; [lia |].
    assert (terminal_column (terminal_put_glyph 32 t) = terminal_column t + 1) as Hc
      by (apply put_glyph_column; lia).
    destruct (IH fuel (terminal_put_glyph 32 t)) as (t' & Hw & Hwf' & Habs);
      [lia | apply put_glyph_wf; [lia | done] | lia |].
    exists t'. rewrite (while_true _ _ _ _ (terminal_put_glyph 32 t));
      [| apply andb_true_intro; unfold VGA_WIDTH; split; apply Z.ltb_lt; lia | done].
    rewrite Hc in Hw. replace (terminal_column t + Z.of_nat (S n))
      with (terminal_column t + 1 + Z.of_nat n) by lia.
    split_and!; [done | done |]. rewrite Habs, put_glyph_abs by (done || lia).
    by rewrite <- Nat.iter_succ_r.
Qed.

(** The refinement of one character. *)
Lemma putchar_abs fuel c t :
  tty_wf t -> returns_on c t -> (8 <= fuel)%nat ->
  exists t', terminal_putchar fuel c t = Some t' /\ tty_wf t' /\
             abs_tty t' = scr_putc (u8 c) (abs_tty t).
Proof.
  intros Hwf Hret Hf. pose proof (wf_row _ Hwf). pose proof (wf_column _ Hwf).
  pose proof (u8_range c). unfold terminal_putchar, scr_putc.
  destruct (Z.eqb_spec (u8 c) 10) as [|_]; [|destruct (Z.eqb_spec (u8 c) 13) as [|_];
    [|destruct (Z.eqb_spec (u8 c) 8) as [|_]; [|destruct (Z.eqb_spec (u8 c) 9) as [E|_]]]].
  - eexists. split_and!; [done | apply next_row_wf, set_column_wf; [lia | done] |].
    unfold abs_tty, scr_line, next_row, VGA_HEIGHT; cbn. rewrite u32_small by lia.
    f_equal. zcase; dlia.
  - eexists. split_and!; [done | apply set_column_wf; [lia | done] |].
    unfold abs_tty; cbn. f_equal. dlia.
  - eexists. split; [done |]. cbn [abs_tty scr_pos scr_color scr_cell].
    replace ((terminal_row t * 80 + terminal_column t) mod 80) with (terminal_column t) by dlia.
    zcase; [|done]. split.
    + apply (putentry_wf 32 _ _ (set_column (terminal_column t - 1) t)); [lia |].
      apply set_column_wf; [lia | done].
    + pose proof (wf_color _ Hwf). unfold abs_tty; cbn. unfold VGA_WIDTH.
      rewrite u32_small, vga_entry_sum by lia. f_equal; [lia |]. f_equal. lia.
  - specialize (Hret E). rewrite next_stop_eq by lia.
    destruct (tab_loop (Z.to_nat (8 - terminal_column t mod 8)) fuel t) as (t' & Hw & Hwf' & Ha);
      [dlia | done | dlia |].
    exists t'. split_and!; [| done |].
    + rewrite <- Hw. f_equal. replace (terminal_column t + _) with (8 * (terminal_column t / 8 + 1)) by dlia.
      done.
    + rewrite Ha. cbn [abs_tty scr_pos]. f_equal. dlia.
  - eexists. split_and!; [done | by apply put_glyph_wf | by apply put_glyph_abs].
Qed.

(** C17. terminal_putchar, on any character other than a tab at column 72 or
    beyond, returns within 8 rounds of the tab loop, keeps the cursor and the
    cells in range, and does to the screen exactly what the abstract screen
    does (newline, return, backspace, tab, glyph with wrap to the next line
    and to the top). *)
Theorem terminal_putchar_refines fuel c t :
  tty_wf t -> returns_on c t -> (8 <= fuel)%nat ->
  exists t', terminal_putchar fuel c t = Some t' /\ tty_wf t' /\
             abs_tty t' = scr_putc (u8 c) (abs_tty t).
Proof. apply putchar_abs. Qed.

(** The loop condition of the tab is an invariant once [next_stop] is 80. *)
Lemma tab_hangs fuel t :
  tty_wf t -> 72 <= terminal_column t -> terminal_putchar fuel 9 t = None.
Proof.
  intros Hwf Hcol. pose proof (wf_column _ Hwf). unfold terminal_putchar. cbn [u8 Z.eqb].
  change (u8 9 =? 10) with false. change (u8 9 =? 13) with false. change (u8 9 =? 8) with false.
  change (u8 9 =? 9) with true. cbn match. rewrite next_stop_eq by lia.
  apply (while_diverges tty_wf); [done | |].
  - intros u Hu. pose proof (wf_column _ Hu). unfold VGA_WIDTH. apply andb_true_intro.
    split; apply Z.ltb_lt; dlia.
  - intros u u' Hu [= <-]. by apply put_glyph_wf.
Qed.

(** C28. A tab written when the cursor is at column 72 or beyond never
    returns: the loop tests terminal_column < VGA_WIDTH, but the recursive
    putchar wraps the column to 0, so no number of rounds ends it. *)
Theorem terminal_putchar_tab_hangs fuel t :
  tty_wf t -> 72 <= terminal_column t -> terminal_putchar fuel 9 t = None.
Proof. apply tab_hangs. Qed.

Lemma terminal_write_app fuel l1 l2 t :
  terminal_write fuel (l1 ++ l2) t = t ← terminal_write fuel l1 t; terminal_write fuel l2 t.
Proof. apply foldM_app. Qed.

Lemma foldM_putchar_map {A} fuel (f : A -> Z) ds t :
  foldM (fun d => terminal_putchar fuel (f d)) ds t = terminal_write fuel (map f ds) t.
Proof.
  revert t. unfold terminal_write. induction ds as [|d ds IH]; intros t; [done |].
  cbn. destruct (terminal_putchar fuel (f d) t); [apply IH | done].
Qed.

(** Run both sides of an equation between terminal programs in lockstep: [w]
    writes a list of characters, [tac] splits lists and turns other printing
    routines into [w]. *)
Tactic Notation "tty_steps" constr(w) "using" tactic3(tac) :=
  repeat (tac; match goal with
               | |- context [w ?l ?t] => destruct (w l t); cbn [mbind option_bind]; [|done]
               end); try done.

Definition printable (c : Z) : Prop := u8 c <> 8 /\ u8 c <> 9 /\ u8 c <> 10 /\ u8 c <> 13.

#[global] Instance printable_dec c : Decision (printable c).
Proof. unfold printable. apply _. Defined.

Lemma printable_returns c t : printable c -> returns_on c t.
Proof. intros (? & ? & ? & ?) ?. done. Qed.

Lemma scr_putc_printable c s : printable c -> scr_putc (u8 c) s = scr_glyph (u8 c) s.
Proof. intros (? & ? & ? & ?). unfold scr_putc. repeat zcase; done. Qed.

(** Writing printable text never hangs and is the fold of [scr_glyph]. *)
Lemma terminal_write_glyphs fuel data : forall t,
  tty_wf t -> (8 <= fuel)%nat -> Forall printable data ->
  exists t', terminal_write fuel data t = Some t' /\ tty_wf t' /\
             abs_tty t' = foldl (fun s c => scr_glyph (u8 c) s) (abs_tty t) data.
Proof.
  induction data as [|c data IH]; intros t Hwf Hf Hp; [by exists t |].
  apply Forall_cons_iff in Hp as [Hc Hp].
  destruct (putchar_abs fuel c t) as (t1 & H1 & Hwf1 & Ha1);
    [done | by apply printable_returns | done |].
  destruct (IH t1 Hwf1 Hf Hp) as (t' & Hw & Hwf' & Ha').
  exists t'. unfold terminal_write in *. cbn [foldM foldl]. rewrite H1. cbn.
  by rewrite Hw, Ha', Ha1, scr_putc_printable.
Qed.

(** Text without tabs is always written to its end. *)
Lemma terminal_write_no_tab fuel data : forall t,
  tty_wf t -> (8 <= fuel)%nat -> Forall (fun c => u8 c <> 9) data ->
  exists t', terminal_write fuel data t = Some t' /\ tty_wf t' /\
             abs_tty t' = foldl (fun s c => scr_putc (u8 c) s) (abs_tty t) data.
Proof.
  induction data as [|c data IH]; intros t Hwf Hf Hp; [by exists t |].
  apply Forall_cons_iff in Hp as [Hc Hp].
  destruct (putchar_abs fuel c t) as (t1 & H1 & Hwf1 & Ha1); [done | by intros ? | done |].
  destruct (IH t1 Hwf1 Hf Hp) as (t' & Hw & Hwf' & Ha').
  exists t'. unfold terminal_write in *. cbn [foldM foldl]. rewrite H1. cbn.
  by rewrite Hw, Ha', Ha1.
Qed.

Lemma scr_glyphs_cells data : forall s,
  0 <= scr_pos s < SCREEN -> Z.of_nat (length data) <= SCREEN ->
  let s' := foldl (fun s c => scr_glyph (u8 c) s) s data in
  scr_pos s' = (scr_pos s + Z.of_nat (length data)) mod SCREEN /\
  (forall i c, data !! i = Some c ->
     scr_cell s' !! ((scr_pos s + Z.of_nat i) mod SCREEN) = Some (u8 c + 256 * scr_color s)) /\
  (forall k, (forall i : nat, (i < length data)%nat -> k <> (scr_pos s + Z.of_nat i) mod SCREEN) ->
     scr_cell s' !! k = scr_cell s !! k).
Proof.
  unfold SCREEN.
  induction data as [|c data IH] using rev_ind; intros s Hs Hlen; cbn zeta.
  - cbn. split_and!; [rewrite Z.add_0_r, Z.mod_small; lia | done | done].
  - rewrite length_app in Hlen. cbn in Hlen. destruct (IH s Hs) as (Hpos & Hin & Hout); [lia |].
    assert (forall l, scr_color (foldl (fun s c => scr_glyph (u8 c) s) s l) = scr_color s) as Hcol.
    { intros l. clear. revert s. induction l as [|x l IH]; intros s; cbn; [done |]. by rewrite IH. }
    rewrite foldl_app. cbn [foldl]. unfold scr_glyph at 1 3 5.
    cbn [scr_pos scr_cell scr_color]. rewrite Hcol, Hpos. unfold SCREEN.
    rewrite length_app. cbn [length]. split_and!.
    + dlia.
    + intros i x Hx. apply lookup_app_Some in Hx as [Hx | [Hge Hx]].
      * pose proof (lookup_lt_Some _ _ _ Hx). rewrite lookup_insert_ne by dlia. by apply Hin.
      * apply list_lookup_singleton_Some in Hx as [Hz ->]. replace i with (length data) by lia.
        by rewrite lookup_insert_eq.
    + intros k Hk. rewrite lookup_insert_ne.
      * apply Hout. intros i Hi. apply Hk. lia.
      * intros E. apply (Hk (length data)); [lia | done].
Qed.

(** [terminal_write] of at most one screen of printable characters puts
    character i in cell (cursor + i) mod 2000 with the current colour, moves
    the cursor by the length, and changes no other cell. *)
Theorem terminal_write_text fuel data t :
  tty_wf t -> (8 <= fuel)%nat -> Forall printable data -> Z.of_nat (length data) <= 2000 ->
  exists t', terminal_write fuel data t = Some t' /\ tty_wf t' /\
    terminal_row t' * 80 + terminal_column t'
      = (terminal_row t * 80 + terminal_column t + Z.of_nat (length data)) mod 2000 /\
    (forall i c, data !! i = Some c ->
       terminal_buffer t' !! ((terminal_row t * 80 + terminal_column t + Z.of_nat i) mod 2000)
       = Some (vga_entry (u8 c) (terminal_color t))) /\
    (forall k, (forall i : nat, (i < length data)%nat ->
                  k <> (terminal_row t * 80 + terminal_column t + Z.of_nat i) mod 2000) ->
       terminal_buffer t' !! k = terminal_buffer t !! k).
Proof.
  intros Hwf Hf Hp Hlen. pose proof (wf_row _ Hwf). pose proof (wf_column _ Hwf).
  destruct (terminal_write_glyphs fuel data t Hwf Hf Hp) as (t' & Hw & Hwf' & Ha).
  destruct (scr_glyphs_cells data (abs_tty t)) as (Hpos & Hin & Hout);
    [cbn; unfold SCREEN; lia | done |].
  rewrite <- Ha in Hpos, Hin, Hout. exists t'. split_and!; try done.
  intros i c Hc. rewrite vga_entry_sum; [by apply (Hin i) | apply u8_range | apply Hwf].
Qed.

Lemma terminal_write_text_witness :
  let t := Tty 24 78 7 ∅ in
  exists t', terminal_write 8 (bytes "SzOS") t = Some t' /\
             terminal_row t' = 0 /\ terminal_column t' = 2 /\
             terminal_buffer t' !! 0 = Some (vga_entry 79 7).
Proof.
  destruct (terminal_write_text 8 (bytes "SzOS") (Tty 24 78 7 ∅)) as (t' & Hw & Hwf & Hpos & Hin & _).
  - split; cbn; [lia | lia | lia | done].
  - lia.
  - by apply (bool_decide_unpack _).
  - by vm_compute.
  - exists t'. change (terminal_row t' * 80 + terminal_column t' = 2) in Hpos.
    pose proof (wf_row _ Hwf). pose proof (wf_column _ Hwf). split_and!; [done | lia | lia |].
    + apply (Hin 2%nat 79). reflexivity.
Defined.

Lemma terminal_putchar_refines_witness :
  exists t', terminal_putchar 8 9 (Tty 3 5 7 ∅) = Some t' /\ tty_wf t' /\
             abs_tty t' = scr_putc (u8 9) (abs_tty (Tty 3 5 7 ∅)).
Proof.
  apply terminal_putchar_refines; [split; cbn; try lia; done | intros _; cbn; lia | lia].
Defined.

Lemma terminal_putchar_tab_hangs_witness : terminal_putchar 1000 9 (Tty 3 72 7 ∅) = None.
Proof. apply terminal_putchar_tab_hangs; [split; cbn; try lia; done | cbn; lia]. Defined.

(** Nothing outside the 2000 cells is written, whatever the character. *)
Lemma scr_glyph_frame c s k :
  0 <= scr_pos s < SCREEN -> ~ (0 <= k < SCREEN) -> scr_cell (scr_glyph c s) !! k = scr_cell s !! k.
Proof. intros Hs Hk. cbn. rewrite lookup_insert_ne; [done |]. intros <-. done. Qed.

Lemma scr_glyph_pos c s : 0 <= scr_pos (scr_glyph c s) < SCREEN.
Proof. cbn. apply Z.mod_pos_bound. done. Qed.

Lemma scr_putc_frame c s k :
  0 <= scr_pos s < SCREEN -> ~ (0 <= k < SCREEN) -> scr_cell (scr_putc c s) !! k = scr_cell s !! k.
Proof.
  intros Hs Hk. unfold scr_putc. repeat zcase; try done.
  - cbn. rewrite lookup_insert_ne; [done |]. unfold SCREEN in *. intros <-. apply Hk. dlia.
  - generalize (Z.to_nat (8 - scr_pos s mod 8)). intros j.
    assert (forall m, 0 <= scr_pos (Nat.iter m (scr_glyph 32) s) < SCREEN) as Hpos.
    { destruct m; [done | apply scr_glyph_pos]. }
    induction j as [|j IH]; [done |]. rewrite Nat.iter_succ, scr_glyph_frame; [done | apply Hpos | done].
  - by apply scr_glyph_frame.
Qed.

(** Whatever the character, when [terminal_putchar] returns it has kept the
    cursor invariant and has not written outside the 2000 cells of the text
    buffer. *)
Theorem terminal_putchar_in_screen fuel c t t' k :
  tty_wf t -> (8 <= fuel)%nat -> terminal_putchar fuel c t = Some t' -> ~ (0 <= k < 2000) ->
  tty_wf t' /\ terminal_buffer t' !! k = terminal_buffer t !! k.
Proof.
  intros Hwf Hf Ht Hk. pose proof (wf_row _ Hwf). pose proof (wf_column _ Hwf).
  destruct (decide (u8 c = 9 /\ 72 <= terminal_column t)) as [[E Hc] | Hn].
  { assert (terminal_putchar fuel c t = terminal_putchar fuel 9 t) as Hs
      by (unfold terminal_putchar; by rewrite E).
    by rewrite Hs, tab_hangs in Ht. }
  destruct (putchar_abs fuel c t) as (t1 & H1 & Hwf1 & Ha);
    [done | intros ?; lia | done |].
  rewrite Ht in H1. injection H1 as <-. split; [done |].
  change (terminal_buffer t') with (scr_cell (abs_tty t')). rewrite Ha.
  apply scr_putc_frame; unfold SCREEN; cbn; lia.
Qed.

Lemma terminal_putchar_in_screen_witness :
  exists t', terminal_putchar 8 65 (Tty 24 79 7 ∅) = Some t' /\
             tty_wf t' /\
             terminal_buffer t' !! 2000 = terminal_buffer (Tty 24 79 7 ∅) !! 2000.
Proof.
  eexists. split; [reflexivity |].
  apply (terminal_putchar_in_screen 8 65 (Tty 24 79 7 ∅)); [| lia | reflexivity | lia].
  split; cbn; try lia; done.
Defined.

(** Clearing the screen at boot. *)
Definition blank : Z := vga_entry 32 (vga_entry_color VGA_COLOR_LIGHT_GREY VGA_COLOR_BLACK).

Definition init_cells (n : Z) (t0 t : tty) : Prop :=
  terminal_row t = 0 /\ terminal_column t = 0 /\ terminal_color t = 7 /\
  (forall k, 0 <= k < n -> terminal_buffer t !! k = Some blank) /\
  (forall k, ~ (0 <= k < n) -> terminal_buffer t !! k = terminal_buffer t0 !! k).

Lemma init_cells_step n t0 t : 0 <= n -> init_cells n t0 t ->
  init_cells (n + 1) t0
    (Tty (terminal_row t) (terminal_column t) (terminal_color t)
         (<[n := vga_entry 32 (terminal_color t)]> (terminal_buffer t))).
Proof.
  intros Hn (Hr & Hc & Hk & Hin & Hout). split_and!; try done; intros k Hk'; cbn.
  - destruct (decide (k = n)) as [-> |].
    + rewrite lookup_insert_eq, Hk. done.
    + rewrite lookup_insert_ne by lia. apply Hin. lia.
  - rewrite lookup_insert_ne by lia. apply Hout. lia.
Qed.

Lemma initialize_cells t : init_cells 2000 t (terminal_initialize t).
Proof.
  unfold terminal_initialize, VGA_HEIGHT.
  apply (for_range_inv (fun y => init_cells (80 * y) t)); [lia | |].
  - split_and!; try done. intros k Hk. lia.
  - intros y u Hy Hu. replace (80 * (y + 1)) with (80 * y + 80) by lia.
    apply (for_range_inv (fun x => init_cells (80 * y + x) t)); [done | by rewrite Z.add_0_r |].
    intros x v Hx Hv. unfold VGA_WIDTH. rewrite Z.add_assoc. replace (y * 80 + x) with (80 * y + x) by lia.
    apply init_cells_step; [lia | done].
Qed.

(** [terminal_initialize] homes the cursor, selects light grey on black,
    blanks each of the 2000 cells and touches nothing else. *)
Theorem terminal_initialize_clears t :
  terminal_row (terminal_initialize t) = 0 /\ terminal_column (terminal_initialize t) = 0 /\
  terminal_color (terminal_initialize t) = 7 /\
  (forall k, 0 <= k < 2000 -> terminal_buffer (terminal_initialize t) !! k = Some blank) /\
  (forall k, ~ (0 <= k < 2000) ->
     terminal_buffer (terminal_initialize t) !! k = terminal_buffer t !! k).
Proof. apply initialize_cells. Qed.

Lemma blank_range : 0 <= blank < 65536.
Proof. by vm_compute. Qed.

Lemma terminal_initialize_wf t : tty_wf (terminal_initialize t).
Proof.
  pose proof (initialize_cells t) as (Hr & Hc & Hk & Hin & Hout).
  split; [lia.. |]. intros i e He Hi. rewrite Hin in He by done. injection He as <-. apply blank_range.
Qed.
