(* ===== verification/Stdio.v ===== *)
(** * The C library: [stdio.h] and [abort]

    [src/libc/stdio/] and [src/libc/stdlib/abort.c], built as [libk]: the output
    goes to the terminal of [Tty].  A format string and a string argument are C
    strings; the variable arguments are a list. *)

From S2P Require Import Prelude Machine Tty.

(** ** The code *)

Definition EOF : Z := -1.

(** [putchar]: [char c = (char) ic; terminal_write(&c, 1); return ic;] *)
Definition putchar (fuel : nat) (ic : Z) (t : tty) : option (Z * tty) :=
  let c := s8 ic in
  t ← terminal_write fuel [c] t;
  Some (ic, t).

(** [print]: the bytes of [data] one by one, until [putchar] reports [EOF]. *)
Fixpoint print (fuel : nat) (data : list Z) (t : tty) : option (bool * tty) :=
  match data with
  | [] => Some (true, t)
  | c :: data' =>
      '(r, t) ← putchar fuel (u8 c) t;
      if r =? EOF then Some (false, t) else print fuel data' t
  end.

(** An argument of [printf], as [va_arg] reads it. *)
Inductive va :=
| VaInt (i : Z)
| VaStr (s : list Z).

(** The prefix of a format that [while (format[amount] && format[amount] != '%')]
    runs over, and the rest. *)
Fixpoint literal_run (fmt : list Z) : list Z * list Z :=
  match fmt with
  | c :: fmt' => if c =? 37 then ([], fmt) else let '(l, r) := literal_run fmt' in (c :: l, r)
  | [] => ([], [])
  end.

(** What an iteration of the loop of [printf] decides to print: the bytes, the
    rest of the format and of the arguments.  [None]: [va_arg] has no argument
    of the type it is asked for (undefined in C). *)
Definition printf_chunk (fmt : list Z) (args : list va) : option (list Z * list Z * list va) :=
  match fmt with
  | c :: fmt1 =>
      if negb (c =? 37) || (match fmt1 with c1 :: _ => c1 =? 37 | [] => false end) then
        let fmt := if c =? 37 then fmt1 else fmt in
        match fmt with
        | c0 :: rest => let '(l, r) := literal_run rest in Some (c0 :: l, r, args)
        | [] => Some ([], [], args)
        end
      else
        match fmt1 with
        | c1 :: fmt2 =>
            if c1 =? 99 then
              match args with VaInt i :: args' => Some ([s8 i], fmt2, args') | _ => None end
            else if c1 =? 115 then
              match args with VaStr s :: args' => Some (s, fmt2, args') | _ => None end
            else Some (fmt, [], args)
        | [] => Some (fmt, [], args)
        end
  | [] => None
  end.

(** The loop of [printf]; [-1] when the count would exceed [INT_MAX]. *)
Fixpoint printf_loop (iter fuel : nat) (fmt : list Z) (args : list va) (written : Z) (t : tty)
  : option (Z * tty) :=
  match fmt with
  | [] => Some (written, t)
  | _ =>
      match iter with
      | O => None
      | S iter' =>
          '(chunk, fmt', args') ← printf_chunk fmt args;
          let maxrem := INT_MAX - written in
          if maxrem <? Z.of_nat (length chunk) then Some (-1, t)
          else
            '(ok, t) ← print fuel chunk t;
            if (ok : bool)
            then printf_loop iter' fuel fmt' args' (written + Z.of_nat (length chunk)) t
            else Some (-1, t)
      end
  end.

(** Every iteration consumes a character: the length of the format is enough. *)
Definition printf (fuel : nat) (fmt : list Z) (args : list va) (t : tty) : option (Z * tty) :=
  printf_loop (length fmt) fuel fmt args 0 t.

Definition puts (fuel : nat) (s : list Z) (t : tty) : option (Z * tty) :=
  printf fuel (bytes "%s" ++ [10]) [VaStr s] t.

(** [abort]: the message, then [while (1) { }]: the terminal is left as returned
    here and the machine spins. *)
Definition abort (fuel : nat) (t : tty) : option tty :=
  '(_, t) ← printf fuel (bytes "kernel: panic: abort()" ++ [10]) [] t; Some t.

(** ** Specification: what a format means, character by character *)

Fixpoint format_bytes (fmt : list Z) (args : list va) : option (list Z) :=
  match fmt with
  | [] => Some []
  | c :: r =>
      if c =? 37 then
        match r with
        | d :: r' =>
            if d =? 37 then cons 37 <$> format_bytes r' args
            else if d =? 99 then
              match args with VaInt i :: args' => cons (s8 i) <$> format_bytes r' args' | _ => None end
            else if d =? 115 then
              match args with VaStr s :: args' => app s <$> format_bytes r' args' | _ => None end
            else Some fmt
        | [] => Some fmt
        end
      else cons c <$> format_bytes r args
  end.

(** The text comes in pieces: a run of literal characters (after [%%] too), a
    character, a string argument, or the rest from an unknown directive on. *)
Definition run_end (fmt : list Z) : Prop := match fmt with [] => True | c :: _ => c = 37 end.

Inductive pieces : list Z -> list va -> list (list Z) -> Prop :=
| pc_nil args : pieces [] args []
| pc_literal c run fmt args l : c <> 37 -> Forall (fun c => c <> 37) run -> run_end fmt -> pieces fmt args l ->
    pieces (c :: run ++ fmt) args ((c :: run) :: l)
| pc_percent run fmt args l : Forall (fun c => c <> 37) run -> run_end fmt -> pieces fmt args l ->
    pieces (37 :: 37 :: run ++ fmt) args ((37 :: run) :: l)
| pc_char i fmt args l : pieces fmt args l -> pieces (37 :: 99 :: fmt) (VaInt i :: args) ([s8 i] :: l)
| pc_string s fmt args l : pieces fmt args l -> pieces (37 :: 115 :: fmt) (VaStr s :: args) (s :: l)
| pc_unknown fmt args : match fmt with d :: _ => d <> 37 /\ d <> 99 /\ d <> 115 | [] => True end ->
    pieces (37 :: fmt) args [37 :: fmt].

(** The pieces printed while the count stays within [INT_MAX]. *)
Fixpoint within (written : Z) (l : list (list Z)) : list (list Z) :=
  match l with
  | [] => []
  | p :: l => if written + Z.of_nat (length p) <=? INT_MAX then p :: within (written + Z.of_nat (length p)) l else []
  end.

(** ** Proofs *)

Lemma terminal_putchar_u8 fuel c c' t :
  u8 c = u8 c' -> terminal_putchar fuel c t = terminal_putchar fuel c' t.
Proof. intros E. unfold terminal_putchar. by rewrite E. Qed.

Lemma putchar_eq fuel c t : putchar fuel c t = t ← terminal_putchar fuel c t; Some (c, t).
Proof.
  unfold putchar, terminal_write. cbn [foldM].
  rewrite (terminal_putchar_u8 fuel (s8 c) c) by apply u8_s8. by destruct (terminal_putchar fuel c t).
Qed.

(** [print] never fails: its bytes are not [EOF]. *)
Lemma print_eq fuel data : forall t,
  print fuel data t = t ← terminal_write fuel data t; Some (true, t).
Proof.
  induction data as [|c data IH]; intros t; [done |].
  cbn [print]. rewrite putchar_eq. unfold terminal_write. cbn [foldM].
  rewrite (terminal_putchar_u8 fuel (u8 c) c) by (by rewrite u8_idem).
  destruct (terminal_putchar fuel c t) as [t1|]; cbn; [|done].
  pose proof (u8_range c). unfold EOF. zcase; [lia |]. apply IH.
Qed.

(** A run of the loop prints a prefix of what the format means. *)
Lemma literal_run_spec fmt args l r :
  literal_run fmt = (l, r) ->
  format_bytes fmt args = app l <$> format_bytes r args /\ (length r <= length fmt)%nat.
Proof.
  revert l r. induction fmt as [|c fmt IH]; intros l r; cbn [literal_run].
  - intros [= <- <-]. done.
  - zcase.
    + intros [= <- <-]. split; [|done]. by destruct (format_bytes (c :: fmt) args).
    + destruct (literal_run fmt) as [l' r'] eqn:E. intros [= <- <-].
      destruct (IH _ _ eq_refl) as [H Hl]. split; [|cbn; lia].
      cbn [format_bytes]. rewrite (proj2 (Z.eqb_neq c 37)), H by done.
      by destruct (format_bytes r' args).
Qed.

(** One iteration of the loop prints a prefix of what the format means, and
    consumes at least one character of it. *)
Lemma printf_chunk_spec fmt args :
  fmt <> [] ->
  match printf_chunk fmt args with
  | Some (chunk, fmt', args') =>
      format_bytes fmt args = app chunk <$> format_bytes fmt' args' /\
      (length fmt' < length fmt)%nat
  | None => format_bytes fmt args = None
  end.
Proof.
  destruct fmt as [|c fmt1]; [done |]. intros _. unfold printf_chunk.
  destruct (Z.eqb_spec c 37) as [-> | Hc]; cbn [negb orb].
  - destruct fmt1 as [|c1 fmt2]; [split; [done | cbn; lia] |]. cbn [format_bytes].
    destruct (Z.eqb_spec c1 37) as [-> | H1]; cbn [Z.eqb Pos.eqb].
    + destruct (literal_run fmt2) as [l r] eqn:E.
      destruct (literal_run_spec fmt2 args l r E) as [-> Hl].
      split; [by destruct (format_bytes r args) | cbn; lia].
    + repeat zcase; try done; destruct args as [|[i|s] args]; try done; split; try (cbn; lia);
        first [by (cbn; rewrite ?app_nil_r) | by destruct (format_bytes fmt2 args)].
  - destruct (literal_run fmt1) as [l r] eqn:E.
    destruct (literal_run_spec fmt1 args l r E) as [H Hl].
    cbn [format_bytes]. rewrite (proj2 (Z.eqb_neq c 37)), H by done.
    split; [by destruct (format_bytes r args) | cbn; lia].
Qed.

Lemma literal_run_app fmt : let '(l, r) := literal_run fmt in fmt = l ++ r /\ Forall (fun c => c <> 37) l /\ run_end r.
Proof.
  induction fmt as [|c fmt IH]; cbn [literal_run]; [done |]. destruct (Z.eqb_spec c 37); [done |].
  destruct (literal_run fmt) as [l r]. destruct IH as (-> & Hl & Hr). split; [done |]. split; [by constructor | done].
Qed.

(** The chunk of an iteration is the next piece. *)
Lemma printf_chunk_piece fmt args chunk fmt' args' l :
  fmt <> [] -> printf_chunk fmt args = Some (chunk, fmt', args') -> pieces fmt' args' l -> pieces fmt args (chunk :: l).
Proof.
  destruct fmt as [|c fmt1]; [done |]. intros _. unfold printf_chunk.
  destruct (Z.eqb_spec c 37) as [-> | Hc]; cbn [negb orb].
  - destruct fmt1 as [|c1 fmt2]; [intros [= <- <- <-] H; inversion H; by constructor |].
    destruct (Z.eqb_spec c1 37) as [-> | H1].
    + pose proof (literal_run_app fmt2) as Hl. destruct (literal_run fmt2) as [r rest]. destruct Hl as (-> & Hr & He).
      intros [= <- <- <-]. by constructor.
    + destruct (Z.eqb_spec c1 99) as [-> | H2]; [destruct args as [|[i|s] args]; try done; intros [= <- <- <-]; by constructor |].
      destruct (Z.eqb_spec c1 115) as [-> | H3]; [destruct args as [|[i|s] args]; try done; intros [= <- <- <-]; by constructor |].
      intros [= <- <- <-] H. inversion H. by constructor.
  - pose proof (literal_run_app fmt1) as Hl. destruct (literal_run fmt1) as [r rest]. destruct Hl as (-> & Hr & He).
    intros [= <- <- <-]. by constructor.
Qed.

(** The loop: [out] is what the rest of the format means. *)
Lemma printf_loop_spec iter : forall fuel fmt args out written t,
  (length fmt <= iter)%nat -> format_bytes fmt args = Some out -> 0 <= written <= INT_MAX ->
  exists l, pieces fmt args l /\ concat l = out /\
    printf_loop iter fuel fmt args written t
    = t' ← terminal_write fuel (concat (within written l)) t;
      Some (if written + Z.of_nat (length out) <=? INT_MAX then written + Z.of_nat (length out) else -1, t').
Proof.
  induction iter as [|iter IH]; intros fuel fmt args out written t Hlen Hout Hw;
    (destruct fmt as [|c fmt]; [injection Hout as <-; exists []; split; [apply pc_nil |]; split; [done |];
       cbn [printf_loop within concat terminal_write foldM mbind option_bind length Z.of_nat];
       rewrite Z.add_0_r; destruct (Z.leb_spec written INT_MAX); [by destruct iter || done | lia] |]).
  { cbn in Hlen. lia. }
  pose proof (printf_chunk_spec (c :: fmt) args ltac:(done)) as Hc.
  pose proof (printf_chunk_piece (c :: fmt) args) as Hp. cbn [printf_loop].
  destruct (printf_chunk (c :: fmt) args) as [[[chunk fmt'] args']|]; [| congruence].
  destruct Hc as [Hf Hl]. rewrite Hout in Hf. cbn in Hlen, Hl.
  destruct (format_bytes fmt' args') as [out'|] eqn:Ho; [| done]. injection Hf as ->.
  cbn [mbind option_bind]. rewrite print_eq, length_app, Nat2Z.inj_add.
  destruct (Z.leb_spec (written + Z.of_nat (length chunk)) INT_MAX) as [Hfit | Hfit].
  - rewrite (proj2 (Z.ltb_ge (INT_MAX - written) (Z.of_nat (length chunk)))) by lia.
    destruct (IH fuel fmt' args' out' (written + Z.of_nat (length chunk)) (default t (terminal_write fuel chunk t)))
      as (l & Hl1 & Hl2 & E); [lia | done | lia |].
    exists (chunk :: l). split; [by eapply Hp |]. split; [cbn; by rewrite Hl2 |].
    cbn [within]. rewrite (proj2 (Z.leb_le (written + Z.of_nat (length chunk)) INT_MAX)) by lia. cbn [concat]. rewrite terminal_write_app.
    destruct (terminal_write fuel chunk t) as [t1|]; [| done]. cbn [default from_option mbind option_bind] in *. change (id t1) with t1 in E. by rewrite E, Z.add_assoc.
  - rewrite (proj2 (Z.ltb_lt (INT_MAX - written) (Z.of_nat (length chunk)))) by lia.
    destruct (IH fuel fmt' args' out' 0 t) as (l & Hl1 & Hl2 & _); [lia | done | unfold INT_MAX; lia |].
    exists (chunk :: l). split; [by eapply Hp |]. split; [cbn; by rewrite Hl2 |].
    cbn [within]. rewrite (proj2 (Z.leb_gt (written + Z.of_nat (length chunk)) INT_MAX)) by lia. cbn [concat terminal_write foldM mbind option_bind].
    destruct (Z.leb_spec (written + (Z.of_nat (length chunk) + Z.of_nat (length out'))) INT_MAX); [lia | done].
Qed.

Lemma within_all l : forall written, 0 <= written -> written + Z.of_nat (length (concat l)) <= INT_MAX -> within written l = l.
Proof.
  induction l as [|p l IH]; intros written Hw H; [done |]. cbn [concat within] in *. rewrite length_app in H.
  rewrite (proj2 (Z.leb_le _ _)), IH by lia. done.
Qed.

(** What fits is printed whole. *)
Lemma printf_fits fuel fmt args out t : format_bytes fmt args = Some out -> Z.of_nat (length out) <= INT_MAX ->
  printf fuel fmt args t = t' ← terminal_write fuel out t; Some (Z.of_nat (length out), t').
Proof.
  intros Ho Hl. destruct (printf_loop_spec (length fmt) fuel fmt args out 0 t) as (l & _ & <- & E); [done | done | done |].
  unfold printf. rewrite E, within_all by (done || lia). by rewrite Z.add_0_l, (proj2 (Z.leb_le _ _)).
Qed.

(** A constant format without conversions is written as it is. *)
Lemma printf_plain fuel fmt t :
  Forall (fun c => c <> 37) fmt -> Z.of_nat (length fmt) <= INT_MAX ->
  printf fuel fmt [] t = t' ← terminal_write fuel fmt t; Some (Z.of_nat (length fmt), t').
Proof.
  intros Hf Hl. assert (format_bytes fmt [] = Some fmt) as Hb.
  { clear Hl. induction Hf as [|c fmt Hc _ IH]; [done |]. cbn [format_bytes].
    by rewrite (proj2 (Z.eqb_neq c 37)), IH by done. }
  by apply printf_fits.
Qed.

(** C18. The text that the format and the arguments of printf denote (literal
    text, %%, %c, %s, and an unknown directive with the rest of the format
    verbatim) comes in pieces; printf writes the pieces as long as the count
    stays within INT_MAX and returns the length of the text, or -1 with
    nothing of the first piece that does not fit, nor what follows it,
    written. *)
Theorem printf_correct fuel fmt args out t :
  format_bytes fmt args = Some out ->
  exists l, pieces fmt args l /\ concat l = out /\
    (Z.of_nat (length out) <= INT_MAX -> within 0 l = l) /\
    printf fuel fmt args t
    = t' ← terminal_write fuel (concat (within 0 l)) t; Some (if Z.of_nat (length out) <=? INT_MAX then Z.of_nat (length out) else -1, t').
Proof.
  intros H. destruct (printf_loop_spec (length fmt) fuel fmt args out 0 t) as (l & Hp & <- & E); [done | done | done |].
  exists l. split; [done |]. split; [done |]. split; [intros Hl; apply within_all; [done | by rewrite Z.add_0_l] | exact E].
Qed.

Lemma printf_correct_witness :
  let fmt := bytes "100%% of %s%c%d" in
  let args := [VaStr (bytes "SzOS"); VaInt 33] in
  let l := map bytes ["100"; "% of "; "SzOS"; "!"; "%d"]%string in
  pieces fmt args l /\ exists t', printf 8 fmt args (Tty 0 0 7 ∅) = Some (15, t') /\ terminal_column t' = 15.
Proof.
  intros fmt args l.
  destruct (printf_correct 8 fmt args (bytes "100% of SzOS!%d") (Tty 0 0 7 ∅)) as (l' & Hp & Ho & Hw & E); [reflexivity |].
  specialize (Hw ltac:(by vm_compute)). rewrite Hw, Ho in E. split.
  - apply (pc_literal 49 (bytes "00") (bytes "%% of %s%c%d")); [done | by repeat constructor | done |].
    apply (pc_percent (bytes " of ") (bytes "%s%c%d")); [by repeat constructor | done |].
    apply pc_string, pc_char, (pc_unknown (bytes "d")). cbn. lia.
  - eexists. split; [rewrite E; reflexivity | reflexivity].
Defined.

(** The two callers of [printf] in the library. *)
Lemma puts_abort_output fuel s t :
  (Z.of_nat (length s) < INT_MAX ->
     puts fuel s t = t' ← terminal_write fuel (s ++ [10]) t; Some (Z.of_nat (length s) + 1, t')) /\
  abort fuel t = terminal_write fuel (bytes "kernel: panic: abort()" ++ [10]) t.
Proof.
  split.
  - intros Hs. unfold puts.
    assert (Z.of_nat (length (s ++ [10])) = Z.of_nat (length s) + 1) as El by (rewrite length_app; cbn [length]; lia).
    rewrite (printf_fits fuel (bytes "%s" ++ [10]) [VaStr s] (s ++ [10]) t eq_refl) by lia. by rewrite El.
  - unfold abort. rewrite printf_plain; [| by repeat constructor | vm_compute; discriminate]. by destruct (terminal_write fuel _ t).
Qed.
