(* ===== verification/Interrupts.v ===== *)
(** * Interrupts of the i386 kernel

    [src/legacy/kernel/arch/i386/cpu/]: the descriptor table ([idt.c]), the
    interrupt controllers ([pic.c]), exception handling ([isr.c]), hardware
    interrupts ([irq.c]), their initialisation and the diagnostic dump
    ([interrupts.c]).  The addresses of the assembly stubs and of the table are
    chosen by the linker: they are parameters. *)

From S2P Require Import Prelude Machine Tty.

(** ** Descriptor table ([idt.h], [idt.c]) *)

Definition IDT_ENTRIES : Z := 256.
Definition KERNEL_CS : Z := 0x08.
Definition IDT_FLAG_INTERRUPT_GATE : Z := 0x8E.

Record idt_entry := IdtEntry { base_low : Z; sel : Z; always0 : Z; flags : Z; base_high : Z }.
Record idt_ptr := IdtPtr { limit : Z; base : Z }.

Definition idt_zero : idt_entry := IdtEntry 0 0 0 0 0.

Definition idt_set_gate (num base sel flags : Z) (idt : list idt_entry) : list idt_entry :=
  <[Z.to_nat (u8 num) :=
      IdtEntry (u16 (base .& 0xFFFF)) (u16 sel) 0 (u8 flags) (u16 ((base .>> 16) .& 0xFFFF))]> idt.

(** [sizeof(struct idt_entry)]: the structure is packed. *)
Definition IDT_ENTRY_SIZE : Z := 8.

(** The state the C code keeps, with the history of port accesses. *)
Record kernel := Kernel {
  k_idt : list idt_entry;
  k_idtp : idt_ptr;
  k_handlers : list Z;   (** [interrupt_handlers], 0 for none *)
  k_tty : tty;
  k_io : trace }.

Definition with_idt (i : list idt_entry) (k : kernel) : kernel :=
  Kernel i (k_idtp k) (k_handlers k) (k_tty k) (k_io k).
Definition with_io (tr : trace) (k : kernel) : kernel :=
  Kernel (k_idt k) (k_idtp k) (k_handlers k) (k_tty k) tr.
Definition with_tty (t : tty) (k : kernel) : kernel :=
  Kernel (k_idt k) (k_idtp k) (k_handlers k) t (k_io k).

(** [idt_install]: [idt_flush] executes [lidt] on [idtp]. *)
Definition idt_install (idt_addr : Z) (k : kernel) : kernel :=
  let idtp := IdtPtr (u16 (IDT_ENTRY_SIZE * IDT_ENTRIES - 1)) (u32 idt_addr) in
  Kernel (replicate 256 idt_zero) idtp (k_handlers k) (k_tty k)
         (Lidt (limit idtp) (base idtp) :: k_io k).

(** ** Interrupt controllers ([pic.c]) *)

Definition PIC1_COMMAND : Z := 0x20.
Definition PIC1_DATA : Z := 0x21.
Definition PIC2_COMMAND : Z := 0xA0.
Definition PIC2_DATA : Z := 0xA1.
Definition PIC_EOI : Z := 0x20.
Definition ICW1_ICW4 : Z := 0x01.
Definition ICW1_INIT : Z := 0x10.
Definition ICW4_8086 : Z := 0x01.

Definition io_wait (tr : trace) : trace := io_out 0x80 0 tr.

Section Pic.
Context `{Device}.

Definition pic_remap (offset1 offset2 : Z) (tr : trace) : trace :=
  let '(a1, tr) := io_in PIC1_DATA tr in
  let '(a2, tr) := io_in PIC2_DATA tr in
  let tr := io_wait (io_out PIC1_COMMAND (ICW1_INIT .| ICW1_ICW4) tr) in
  let tr := io_wait (io_out PIC2_COMMAND (ICW1_INIT .| ICW1_ICW4) tr) in
  let tr := io_wait (io_out PIC1_DATA offset1 tr) in
  let tr := io_wait (io_out PIC2_DATA offset2 tr) in
  let tr := io_wait (io_out PIC1_DATA 4 tr) in
  let tr := io_wait (io_out PIC2_DATA 2 tr) in
  let tr := io_wait (io_out PIC1_DATA ICW4_8086 tr) in
  let tr := io_wait (io_out PIC2_DATA ICW4_8086 tr) in
  let tr := io_out PIC1_DATA a1 tr in
  io_out PIC2_DATA a2 tr.

Definition pic_send_eoi (irq : Z) (tr : trace) : trace :=
  let tr := if 8 <=? irq then io_out PIC2_COMMAND PIC_EOI tr else tr in
  io_out PIC1_COMMAND PIC_EOI tr.

Definition pic_set_mask (irq_line : Z) (tr : trace) : trace :=
  let port := if irq_line <? 8 then PIC1_DATA else PIC2_DATA in
  let line := if irq_line <? 8 then irq_line else u8 (irq_line - 8) in
  let '(v, tr) := io_in port tr in
  let value := u8 (v .| (1 .<< line)) in
  io_out port value tr.

Definition pic_clear_mask (irq_line : Z) (tr : trace) : trace :=
  let port := if irq_line <? 8 then PIC1_DATA else PIC2_DATA in
  let line := if irq_line <? 8 then irq_line else u8 (irq_line - 8) in
  let '(v, tr) := io_in port tr in
  let value := u8 (v .& Z.lnot (1 .<< line)) in
  io_out port value tr.
End Pic.

(** ** Exceptions ([isr.h], [isr.c]) *)

Record registers := Registers {
  r_ds : Z; r_edi : Z; r_esi : Z; r_ebp : Z; r_esp : Z; r_ebx : Z; r_edx : Z; r_ecx : Z; r_eax : Z;
  int_no : Z; err_code : Z;
  r_eip : Z; r_cs : Z; r_eflags : Z; r_useresp : Z; r_ss : Z }.

Definition exception_messages : list (list Z) :=
  map bytes
  [ "Division By Zero"; "Debug"; "Non Maskable Interrupt"; "Breakpoint";
    "Into Detected Overflow"; "Out of Bounds"; "Invalid Opcode"; "No Coprocessor";
    "Double Fault"; "Coprocessor Segment Overrun"; "Bad TSS"; "Segment Not Present";
    "Stack Fault"; "General Protection Fault"; "Page Fault"; "Unknown Interrupt";
    "Coprocessor Fault"; "Alignment Check"; "Machine Check"; "SIMD Floating-Point";
    "Reserved"; "Reserved"; "Reserved"; "Reserved";
    "Reserved"; "Reserved"; "Reserved"; "Reserved";
    "Reserved"; "Reserved"; "Reserved"; "Reserved" ]%string.

(** [write_uint]: the digits go to [digits[10]] and come out backwards. *)
Definition write_uint (fuel : nat) (n : Z) (t : tty) : option tty :=
  if n =? 0 then terminal_putchar fuel 48 t
  else
    '(_, digits) ← while 10 (fun '(n, _) => 0 <? n)
                     (fun '(n, digits) => Some (n / 10, digits ++ [48 + n mod 10])) (n, []);
    foldM (terminal_putchar fuel) (rev digits) t.

Definition isr_register_handler (n handler : Z) (k : kernel) : kernel :=
  Kernel (k_idt k) (k_idtp k) (<[Z.to_nat (u8 n) := handler]> (k_handlers k)) (k_tty k) (k_io k).

(** The calls [idt_set_gate(b + i, stub i, KERNEL_CS, IDT_FLAG_INTERRUPT_GATE)],
    [i] from 0 to [n - 1]: the code has one line for each. *)
Definition set_gates (b n : Z) (stub : Z -> Z) (idt : list idt_entry) : list idt_entry :=
  for_range 0 n (fun i => idt_set_gate (b + i) (stub i) KERNEL_CS IDT_FLAG_INTERRUPT_GATE) idt.

Definition isr_install (isr_stub : Z -> Z) (k : kernel) : kernel :=
  with_idt (set_gates 0 32 isr_stub (k_idt k)) k.

(** How a handler ends: it returns, or it stops the processor for good
    ([cli] and a loop of [hlt]). *)
Inductive outcome :=
| Return (k : kernel)
| Halted (k : kernel).

Definition panic_text (n err : list Z) (msg : list Z) : list Z :=
  [10] ++ bytes "PANIC: " ++ msg ++ bytes " (interrupt " ++ n ++ bytes ", error code " ++ err ++ bytes ")" ++ [10].

Section Isr.
(** The C function at an address. *)
Variable call : Z -> registers -> kernel -> option outcome.

(** [None]: the index is outside the table, or the called code does not return. *)
Definition isr_handler (fuel : nat) (regs : registers) (k : kernel) : option outcome :=
  handler ← k_handlers k !! Z.to_nat (int_no regs);
  if negb (handler =? 0) then call handler regs k
  else if int_no regs <? 32 then
    t ← terminal_writestring fuel ([10] ++ bytes "PANIC: ") (k_tty k);
    msg ← exception_messages !! Z.to_nat (int_no regs);
    t ← terminal_writestring fuel msg t;
    t ← terminal_writestring fuel (bytes " (interrupt ") t;
    t ← write_uint fuel (int_no regs) t;
    t ← terminal_writestring fuel (bytes ", error code ") t;
    t ← write_uint fuel (err_code regs) t;
    t ← terminal_writestring fuel (bytes ")" ++ [10]) t;
    Some (Halted (with_io (Hlt :: Cli :: k_io k) (with_tty t k)))
  else Some (Return k).
End Isr.

(** ** Hardware interrupts ([irq.c]) *)

Definition IRQ_BASE : Z := 0x20.

Section Irq.
Context `{Device}.

Definition irq_install (irq_stub : Z -> Z) (k : kernel) : kernel :=
  let k := with_io (pic_remap IRQ_BASE (IRQ_BASE + 8) (k_io k)) k in
  with_idt (set_gates 32 16 irq_stub (k_idt k)) k.

Definition irq_register_handler (irq handler : Z) (k : kernel) : kernel :=
  let k := isr_register_handler (IRQ_BASE + irq) handler k in
  with_io (pic_clear_mask irq (k_io k)) k.

(** [irq_handler]: everything but the acknowledgement is commented out. *)
Definition irq_handler (regs : registers) (k : kernel) : kernel :=
  with_io (io_out 0x20 0x20 (k_io k)) k.

(** ** Initialisation and diagnostics ([interrupts.c]) *)

Definition interrupts_initialize (isr_stub irq_stub : Z -> Z) (idt_addr : Z) (k : kernel) : kernel :=
  let k := idt_install idt_addr k in
  let k := isr_install isr_stub k in
  let k := irq_install irq_stub k in
  let tr := io_out 0x21 0xFF (k_io k) in
  let tr := io_out 0xA1 0xFF tr in
  let tr := io_out 0x21 0xFD tr in
  with_io tr k.

Definition interrupts_enable (k : kernel) : kernel := with_io (Sti :: k_io k) k.
Definition interrupts_disable (k : kernel) : kernel := with_io (Cli :: k_io k) k.
End Irq.

Definition hex_digit (nibble : Z) : Z := if nibble <? 10 then 48 + nibble else 65 + (nibble - 10).

(** [print_hex32]: [shift] from 28 down to 0 by 4. *)
Definition print_hex32 (fuel : nat) (v : Z) (t : tty) : option tty :=
  t ← terminal_writestring fuel (bytes "0x") t;
  foldM (fun shift t => terminal_putchar fuel (hex_digit ((v .>> shift) .& 0xF)) t)
        [28; 24; 20; 16; 12; 8; 4; 0] t.

(** The character of the literal ["0123456789ABCDEF"] at an index. *)
Definition hex_literal (i : Z) : Z := nth (Z.to_nat i) (bytes "0123456789ABCDEF") 0.

Definition print_hex8 (fuel : nat) (v : Z) (t : tty) : option tty :=
  t ← terminal_writestring fuel (bytes "0x") t;
  t ← terminal_putchar fuel (hex_literal ((v .>> 4) .& 0xF)) t;
  terminal_putchar fuel (hex_literal (v .& 0xF)) t.

(** [interrupts_debug_dump]; [eflags] is what [pushf] stored. *)
Definition interrupts_debug_dump `{Device} (fuel : nat) (eflags : Z) (k : kernel) : option kernel :=
  let '(pic1_mask, tr) := io_in 0x21 (k_io k) in
  let '(pic2_mask, tr) := io_in 0xA1 tr in
  t ← terminal_writestring fuel ([10] ++ bytes "[debug] EFLAGS=") (k_tty k);
  t ← print_hex32 fuel eflags t;
  t ← terminal_writestring fuel (if negb (eflags .& 0x200 =? 0) then bytes " (IF=1, interrupts ON)"
                                 else bytes " (IF=0, interrupts OFF!)") t;
  t ← terminal_writestring fuel ([10] ++ bytes "[debug] PIC1 mask=") t;
  t ← print_hex8 fuel pic1_mask t;
  t ← terminal_writestring fuel (if negb (pic1_mask .& 0x02 =? 0) then bytes " (IRQ1/keyboard MASKED!)"
                                 else bytes " (IRQ1/keyboard unmasked)") t;
  t ← terminal_writestring fuel ([10] ++ bytes "[debug] PIC2 mask=") t;
  t ← print_hex8 fuel pic2_mask t;
  t ← terminal_writestring fuel [10] t;
  Some (with_io tr (with_tty t k)).

(** ** The assembly stubs ([isr_stubs.S])

    What happens when the processor takes interrupt [n] through the gate: every
    stub disables interrupts, pushes the registers and calls [isr_handler] below
    32 and [irq_handler] from 32 to 47, then enables interrupts and returns. *)
Definition deliver (call : Z -> registers -> kernel -> option outcome)
    (fuel : nat) (regs : registers) (k : kernel) : option outcome :=
  let k := with_io (Cli :: k_io k) k in
  if int_no regs <? 32 then
    o ← isr_handler call fuel regs k;
    Some (match o with Return k => Return (with_io (Sti :: k_io k) k) | Halted k => Halted k end)
  else if int_no regs <? 48 then
    let k := irq_handler regs k in
    Some (Return (with_io (Sti :: k_io k) k))
  else None.

(** ** Specifications *)

(** What the processor reads from a packed gate: the bytes in memory, and the
    offset, selector and flags of an 8-byte descriptor. *)
Definition entry_bytes (e : idt_entry) : list Z :=
  [u8 (base_low e); base_low e .>> 8; u8 (sel e); sel e .>> 8; always0 e; flags e;
   u8 (base_high e); base_high e .>> 8].

Definition decode_gate (b : list Z) : option (Z * Z * Z) :=
  match b with
  | [b0; b1; s0; s1; z; f; b2; b3] =>
      Some (b0 + 256 * b1 + 65536 * (b2 + 256 * b3), s0 + 256 * s1, f)
  | _ => None
  end.

Definition gate_for (a : Z) : idt_entry :=
  IdtEntry (u16 (a .& 0xFFFF)) (u16 KERNEL_CS) 0 (u8 IDT_FLAG_INTERRUPT_GATE) (u16 ((a .>> 16) .& 0xFFFF)).

(** The mask [m] with line [l] masked or unmasked. *)
Definition mask_line (m l : Z) (on : bool) (m' : Z) : Prop :=
  0 <= m' < 256 /\ forall j, 0 <= j < 8 -> Z.testbit m' j = if decide (j = l) then on else Z.testbit m j.

(** ** Proofs *)

Lemma set_gate_length num base s f idt : length (idt_set_gate num base s f idt) = length idt.
Proof. apply length_insert. Qed.

Lemma set_gate_eq num base s f idt :
  length idt = 256%nat -> 0 <= num < 256 ->
  idt_set_gate num base s f idt !! Z.to_nat num
  = Some (IdtEntry (u16 (base .& 0xFFFF)) (u16 s) 0 (u8 f) (u16 ((base .>> 16) .& 0xFFFF))).
Proof. intros Hl Hn. unfold idt_set_gate. rewrite u8_small by done. apply list_lookup_insert_eq. lia. Qed.

Lemma set_gate_ne num base s f idt k :
  0 <= num < 256 -> k <> Z.to_nat num -> idt_set_gate num base s f idt !! k = idt !! k.
Proof. intros Hn Hk. unfold idt_set_gate. rewrite u8_small by done. by apply list_lookup_insert_ne. Qed.

(** The gates [b .. b + n - 1] are those of the stubs; the others are untouched. *)
Definition gates_set (b n : Z) (stub : Z -> Z) (idt idt' : list idt_entry) : Prop :=
  length idt' = 256%nat /\
  (forall i, 0 <= i < n -> idt' !! Z.to_nat (b + i) = Some (gate_for (stub i))) /\
  (forall k, 0 <= k -> ~ (b <= k < b + n) -> idt' !! Z.to_nat k = idt !! Z.to_nat k).

Lemma set_gates_spec b n stub idt :
  length idt = 256%nat -> 0 <= b -> 0 <= n -> b + n <= 256 ->
  gates_set b n stub idt (set_gates b n stub idt).
Proof.
  intros Hl Hb Hn Hbn. apply (for_range_inv (fun m => gates_set b m stub idt)); [done | |].
  - split_and!; [done | intros; lia | done].
  - intros i idt' Hi (Hl' & Hin & Hout). split_and!.
    + by rewrite set_gate_length.
    + intros j Hj. destruct (decide (j = i)) as [-> |].
      * by rewrite set_gate_eq by (done || lia).
      * rewrite set_gate_ne by lia. apply Hin. lia.
    + intros k Hk Hkn. rewrite set_gate_ne by lia. apply Hout; lia.
Qed.

(** A gate stored by [idt_set_gate] and read by the processor from its 8 bytes
    gives back the address, the selector and the flags. *)
Theorem idt_gate_roundtrip num base s f idt e :
  length idt = 256%nat -> 0 <= num < 256 -> 0 <= base < 2 ^ 32 -> 0 <= s < 65536 -> 0 <= f < 256 ->
  idt_set_gate num base s f idt !! Z.to_nat num = Some e ->
  decode_gate (entry_bytes e) = Some (base, s, f) /\
  Forall (fun b => 0 <= b < 256) (entry_bytes e) /\ Z.of_nat (length (entry_bytes e)) = IDT_ENTRY_SIZE.
Proof.
  intros Hl Hn Hb Hs Hf He. rewrite set_gate_eq in He by done. injection He as <-.
  unfold decode_gate, entry_bytes. cbn [base_low base_high sel always0 flags].
  autorewrite with cint_rw. rewrite !shiftr_div by done. split_and!; [| |done].
  - repeat f_equal; cint_lia.
  - rewrite !Forall_cons_iff. split_and!; try apply Forall_nil_2; cint_lia.
Qed.

Lemma idt_gate_roundtrip_witness :
  decode_gate (entry_bytes (gate_for 0xDEADBEEF)) = Some (0xDEADBEEF, KERNEL_CS, IDT_FLAG_INTERRUPT_GATE).
Proof.
  refine (proj1 (idt_gate_roundtrip 33 0xDEADBEEF KERNEL_CS IDT_FLAG_INTERRUPT_GATE
                   (replicate 256 idt_zero) _ _ _ _ _ _ _)); [reflexivity | by vm_compute.. | reflexivity].
Defined.

(** *** Initialisation *)

Section Init.
Context `{Device} (isr_stub irq_stub : Z -> Z) (idt_addr : Z).

Lemma initialize_idt k :
  k_idt (interrupts_initialize isr_stub irq_stub idt_addr k)
  = set_gates 32 16 irq_stub (set_gates 0 32 isr_stub (replicate 256 idt_zero)).
Proof. done. Qed.

(** The history the initialisation appends: [lidt], the remapping, the masks. *)
Lemma initialize_io k : exists a1 a2,
  k_io (interrupts_initialize isr_stub irq_stub idt_addr k) =
  [Out 0x21 0xFD; Out 0xA1 0xFF; Out 0x21 0xFF;
   Out 0xA1 (u8 a2); Out 0x21 (u8 a1); Out 0x80 0; Out 0xA1 1; Out 0x80 0; Out 0x21 1;
   Out 0x80 0; Out 0xA1 2; Out 0x80 0; Out 0x21 4; Out 0x80 0; Out 0xA1 0x28; Out 0x80 0; Out 0x21 0x20;
   Out 0x80 0; Out 0xA0 0x11; Out 0x80 0; Out 0x20 0x11;
   In 0xA1 a2; In 0x21 a1; Lidt 2047 (u32 idt_addr)] ++ k_io k.
Proof. do 2 eexists. reflexivity. Qed.

(** The gate of every vector. *)
Definition boot_gate (n : Z) : idt_entry :=
  if n <? 32 then gate_for (isr_stub n)
  else if n <? 48 then gate_for (irq_stub (n - 32)) else idt_zero.

Lemma initialize_gate k n : 0 <= n < 256 ->
  k_idt (interrupts_initialize isr_stub irq_stub idt_addr k) !! Z.to_nat n = Some (boot_gate n).
Proof.
  intros Hn. rewrite initialize_idt.
  destruct (set_gates_spec 0 32 isr_stub (replicate 256 idt_zero)) as (Hl & Hin & Hout); [done.. |].
  destruct (set_gates_spec 32 16 irq_stub _ Hl) as (Hl' & Hin' & Hout'); [done.. |].
  unfold boot_gate. repeat zcase.
  - rewrite Hout' by lia. apply (Hin n). lia.
  - replace n with (32 + (n - 32)) at 1 by lia. apply Hin'. lia.
  - rewrite Hout', Hout by lia. apply lookup_replicate_2. lia.
Qed.

Lemma initialize_pic `{!Pic8259 0x20 0x21} `{!Pic8259 0xA0 0xA1} k :
  let tr := k_io (interrupts_initialize isr_stub irq_stub idt_addr k) in
  (pic_expect 0x20 tr = 0 /\ pic_imr 0x20 tr = 0xFD /\ pic_base 0x20 tr = 32) /\
  (pic_expect 0xA0 tr = 0 /\ pic_imr 0xA0 tr = 0xFF /\ pic_base 0xA0 tr = 40).
Proof.
  cbn zeta. destruct (initialize_io k) as (a1 & a2 & ->).
  split; eapply pic_sym_result; [done | reflexivity | done | reflexivity].
Qed.

(** C20. After interrupts_initialize gate n of the descriptor table is the
    kernel-code interrupt gate of exception stub n below 32, of IRQ stub n-32
    from 32 to 47 and empty above, the registered handlers are untouched, and
    lidt has loaded a limit that covers the 256 gates. *)
Theorem interrupts_initialize_idt k n :
  0 <= n < 256 ->
  let k' := interrupts_initialize isr_stub irq_stub idt_addr k in
  k_idt k' !! Z.to_nat n = Some (boot_gate n) /\
  length (k_idt k') = 256%nat /\ k_handlers k' = k_handlers k /\
  limit (k_idtp k') + 1 = IDT_ENTRY_SIZE * IDT_ENTRIES /\
  Lidt (limit (k_idtp k')) (base (k_idtp k')) ∈ k_io k'.
Proof.
  intros Hn. cbn zeta. split_and!; [by apply initialize_gate | | done | done |].
  - rewrite initialize_idt. by apply set_gates_spec; [apply set_gates_spec | ..].
  - destruct (initialize_io k) as (a1 & a2 & ->). apply elem_of_app. left.
    rewrite list_elem_of_In. cbn. tauto.
Qed.

(** C19. Whatever the BIOS left, after interrupts_initialize both 8259
    controllers are operational, the master at vector 32 with only IRQ1
    unmasked (mask 0xFD) and the slave at vector 40 with every line masked. *)
Theorem interrupts_initialize_pic `{!Pic8259 0x20 0x21} `{!Pic8259 0xA0 0xA1} k :
  let tr := k_io (interrupts_initialize isr_stub irq_stub idt_addr k) in
  (pic_expect 0x20 tr = 0 /\ pic_imr 0x20 tr = 0xFD /\ pic_base 0x20 tr = 32) /\
  (pic_expect 0xA0 tr = 0 /\ pic_imr 0xA0 tr = 0xFF /\ pic_base 0xA0 tr = 40).
Proof. apply initialize_pic. Qed.
End Init.

Lemma interrupts_initialize_idt_witness :
  k_idt (interrupts_initialize (H := fun _ _ => 0) (fun i => 0x1000 + i) (fun i => 0x2000 + i) 0x5000
           (Kernel [] (IdtPtr 0 0) [] (Tty 0 0 0 ∅) [])) !! Z.to_nat 33
  = Some (gate_for 0x2001).
Proof.
  refine (proj1 (interrupts_initialize_idt (H := fun _ _ => 0) (fun i => 0x1000 + i)
    (fun i => 0x2000 + i) 0x5000 (Kernel [] (IdtPtr 0 0) [] (Tty 0 0 0 ∅) []) 33 _)). lia.
Defined.

(** *** Masks *)

Lemma mask_set m l : 0 <= m < 256 -> 0 <= l < 8 -> mask_line m l true (u8 (m .| (1 .<< l))).
Proof.
  intros Hm Hl. assert (0 <= 1 .<< l < 2 ^ 8) as Hs.
  { rewrite shiftl_mul by lia. split; [lia |]. rewrite Z.mul_1_l. apply Z.pow_lt_mono_r; lia. }
  rewrite u8_small by (apply (lor_range _ _ 8); lia). split; [by apply (lor_range _ _ 8) |].
  intros j Hj. rewrite Z.lor_spec, Z.shiftl_spec by lia. case_decide as E.
  - subst. by rewrite Z.sub_diag, orb_true_r.
  - destruct (Z.lt_ge_cases j l).
    + rewrite (Z.testbit_neg_r 1) by lia. apply orb_false_r.
    + rewrite (testbit_high 1 1) by lia. apply orb_false_r.
Qed.

Lemma mask_clear m l : 0 <= m < 256 -> 0 <= l < 8 -> mask_line m l false (u8 (m .& Z.lnot (1 .<< l))).
Proof.
  intros Hm Hl.
  assert (forall j, 0 <= j -> Z.testbit (m .& Z.lnot (1 .<< l)) j = if decide (j = l) then false else Z.testbit m j) as Hb.
  { intros j Hj. rewrite Z.land_spec, Z.lnot_spec, Z.shiftl_spec by lia. case_decide as E.
    - subst. by rewrite Z.sub_diag, andb_false_r.
    - destruct (Z.lt_ge_cases j l).
      + rewrite (Z.testbit_neg_r 1) by lia. apply andb_true_r.
      + rewrite (testbit_high 1 1) by lia. apply andb_true_r. }
  assert (0 <= m .& Z.lnot (1 .<< l) < 2 ^ 8) as Hr.
  { apply lt_pow2_bits; [done |]. intros k Hk. rewrite Hb by lia. case_decide; [done |].
    apply (testbit_high m 8); lia. }
  rewrite u8_small by (cbn in Hr; lia). split; [exact Hr |]. intros j Hj. apply Hb. lia.
Qed.

Section Masks.
Context `{D : Device} `{P1 : !Pic8259 0x20 0x21} `{P2 : !Pic8259 0xA0 0xA1}
        `{R1 : !PicReads 0x20 0x21} `{R2 : !PicReads 0xA0 0xA1}.

(** Writing back the mask that was read, changed by [f], changes the mask of the
    chip by [f] and does not reach the other chip. *)
Lemma mask_update cmd data cmd' data' `{!Pic8259 cmd data} (R : PicReads cmd data)
    `{!Pic8259 cmd' data'} tr f :
  cmd <> data -> data <> cmd' -> data <> data' ->
  pic_expect cmd tr = 0 -> 0 <= pic_imr cmd tr < 256 ->
  let v := u8 (dev_in tr data) in
  let tr' := io_out data (u8 (f v)) (In data v :: tr) in
  pic_imr cmd tr' = u8 (f (pic_imr cmd tr)) /\ pic_imr cmd' tr' = pic_imr cmd' tr.
Proof.
  intros Hne H1 H2 He Hr. cbn zeta. unfold io_out.
  rewrite (R tr He), u8_idem, (u8_small (pic_imr cmd tr)) by done. split.
  - apply (pic_imr_write cmd data). by rewrite pic_expect_skip.
  - by rewrite !(pic_imr_skip cmd' data') by misses.
Qed.

(** Both routines, on the line's own chip. *)
Lemma pic_lines irq (on : bool) tr :
  0 <= irq < 16 -> pic_expect 0x20 tr = 0 -> pic_expect 0xA0 tr = 0 ->
  0 <= pic_imr 0x20 tr < 256 -> 0 <= pic_imr 0xA0 tr < 256 ->
  let tr' := if on then pic_set_mask irq tr else pic_clear_mask irq tr in
  if irq <? 8
  then mask_line (pic_imr 0x20 tr) irq on (pic_imr 0x20 tr') /\ pic_imr 0xA0 tr' = pic_imr 0xA0 tr
  else mask_line (pic_imr 0xA0 tr) (irq - 8) on (pic_imr 0xA0 tr') /\ pic_imr 0x20 tr' = pic_imr 0x20 tr.
Proof.
  intros Hi He1 He2 Hr1 Hr2. cbn zeta. unfold pic_set_mask, pic_clear_mask, io_in, PIC1_DATA, PIC2_DATA.
  destruct (Z.ltb_spec irq 8); cbn match; [|rewrite (u8_small (irq - 8)) by lia]; destruct on.
  - destruct (mask_update 0x20 0x21 0xA0 0xA1 _ tr (fun v => v .| (1 .<< irq))) as [-> ->];
      [done.. |]. split; [apply mask_set; lia | done].
  - destruct (mask_update 0x20 0x21 0xA0 0xA1 _ tr (fun v => v .& Z.lnot (1 .<< irq))) as [-> ->];
      [done.. |]. split; [apply mask_clear; lia | done].
  - destruct (mask_update 0xA0 0xA1 0x20 0x21 _ tr (fun v => v .| (1 .<< (irq - 8)))) as [-> ->];
      [done.. |]. split; [apply mask_set; lia | done].
  - destruct (mask_update 0xA0 0xA1 0x20 0x21 _ tr (fun v => v .& Z.lnot (1 .<< (irq - 8)))) as [-> ->];
      [done.. |]. split; [apply mask_clear; lia | done].
Qed.
(** Setting or clearing the mask of an IRQ 0-15 changes exactly that line of
    its own controller and leaves the other controller alone. *)
Theorem pic_mask_line irq (on : bool) tr :
  0 <= irq < 16 -> pic_expect 0x20 tr = 0 -> pic_expect 0xA0 tr = 0 ->
  0 <= pic_imr 0x20 tr < 256 -> 0 <= pic_imr 0xA0 tr < 256 ->
  let tr' := if on then pic_set_mask irq tr else pic_clear_mask irq tr in
  if irq <? 8
  then mask_line (pic_imr 0x20 tr) irq on (pic_imr 0x20 tr') /\ pic_imr 0xA0 tr' = pic_imr 0xA0 tr
  else mask_line (pic_imr 0xA0 tr) (irq - 8) on (pic_imr 0xA0 tr') /\ pic_imr 0x20 tr' = pic_imr 0x20 tr.
Proof. apply pic_lines. Qed.
End Masks.

Lemma pic_mask_line_witness :
  let b1 := Chip 0 0xFF 0x20 [] in let b2 := Chip 0 0xFF 0x28 [] in
  mask_line 0xFF 4 false
    (pic_imr 0xA0 (Pic8259 := pc_pic2 b2)
       (pic_clear_mask (H := pc_device b1 b2 (fun _ _ => 0)) 12 [])).
Proof.
  cbn zeta. refine (proj1 (pic_mask_line (D := pc_device (Chip 0 0xFF 0x20 []) (Chip 0 0xFF 0x28 []) (fun _ _ => 0))
    (P1 := pc_pic1 _) (P2 := pc_pic2 _) 12 false [] _ _ _ _ _)).
  all: try exact _; try apply pc_reads1; try apply pc_reads2; try by vm_compute.
Defined.

(** *** Numbers on the terminal *)

Definition ascii_decimal (n : Z) : list Z := map (Z.add 48) (decimal n).

(** [write_uint] prints the decimal notation, and [digits[10]] is large enough. *)
Lemma write_uint_spec fuel n t : 0 <= n < 2 ^ 32 ->
  write_uint fuel n t = terminal_write fuel (ascii_decimal n) t.
Proof.
  intros Hn. unfold write_uint. zcase.
  - subst. change (ascii_decimal 0) with [48]. unfold terminal_write. cbn [foldM].
    by destruct (terminal_putchar fuel 48 t).
  - destruct (digits_loop (Z.add 48) 10 n []) as [-> _]; [cbn; lia |].
    cbn [mbind option_bind app]. by rewrite map_rev, rev_involutive.
Qed.

(** C21. isr_handler calls the registered handler if there is one; otherwise
    it returns for vectors from 32 on, and below 32 prints the panic line with
    the exception name and both numbers in decimal, disables interrupts and
    halts. *)
Theorem isr_handler_correct call fuel regs k h :
  0 <= int_no regs < 256 -> 0 <= err_code regs < 2 ^ 32 ->
  k_handlers k !! Z.to_nat (int_no regs) = Some h ->
  (h <> 0 -> isr_handler call fuel regs k = call h regs k) /\
  (h = 0 -> 32 <= int_no regs -> isr_handler call fuel regs k = Some (Return k)) /\
  (h = 0 -> int_no regs < 32 -> exists msg,
     exception_messages !! Z.to_nat (int_no regs) = Some msg /\
     isr_handler call fuel regs k =
       t ← terminal_write fuel
             (panic_text (ascii_decimal (int_no regs)) (ascii_decimal (err_code regs)) msg) (k_tty k);
       Some (Halted (with_io (Hlt :: Cli :: k_io k) (with_tty t k)))).
Proof.
  intros Hn He Hh. unfold isr_handler. rewrite Hh. cbn [mbind option_bind].
  assert (negb (0 =? 0) = false) as H0 by done.
  split_and!; intros Hz; [by rewrite (proj2 (Z.eqb_neq h 0)) | |]; subst h; rewrite H0; clear H0;
    intros Hi; [by rewrite (proj2 (Z.ltb_ge _ _)) by lia | rewrite (proj2 (Z.ltb_lt _ _)) by lia].
  destruct (lookup_lt_is_Some_2 exception_messages (Z.to_nat (int_no regs))) as [msg Hm].
  { assert (length exception_messages = 32%nat) as -> by (by vm_compute). lia. }
  exists msg. split; [done |]. rewrite Hm. unfold panic_text, terminal_writestring.
  assert (forall l1 l2 t, terminal_write fuel (l1 ++ l2) t
            = t ← terminal_write fuel l1 t; terminal_write fuel l2 t) as Ha by apply terminal_write_app.
  assert (forall n t, 0 <= n < 2 ^ 32 -> write_uint fuel n t = terminal_write fuel (ascii_decimal n) t) as Hu
    by apply write_uint_spec.
  revert Ha Hu. generalize (terminal_write fuel) (write_uint fuel). intros w u Ha Hu.
  generalize (bytes "PANIC: ") (bytes " (interrupt ") (bytes ", error code ") (bytes ")").
  intros b1 b2 b3 b4. tty_steps w using (rewrite ?Ha, ?Hu by (cbn; lia)).
Qed.

Lemma isr_handler_correct_witness :
  exists t', isr_handler (fun _ _ _ => None) 8
    (Registers 0 0 0 0 0 0 0 0 0 14 2 0 0 0 0 0)
    (Kernel [] (IdtPtr 0 0) (replicate 256 0) (Tty 0 0 7 ∅) [])
  = Some (Halted (Kernel [] (IdtPtr 0 0) (replicate 256 0) t' [Hlt; Cli])) /\
    terminal_row t' = 2 /\
    map (fun i => terminal_buffer t' !! (80 + i)) [0; 7; 11] = map Some [0x750; 0x750; 0x720].
Proof.
  destruct (isr_handler_correct (fun _ _ _ => None) 8 (Registers 0 0 0 0 0 0 0 0 0 14 2 0 0 0 0 0)
    (Kernel [] (IdtPtr 0 0) (replicate 256 0) (Tty 0 0 7 ∅) []) 0) as (_ & _ & H);
    [by vm_compute.. | reflexivity |].
  destruct (H eq_refl eq_refl) as (msg & [= <-] & E).
  rewrite E. eexists. split; [vm_compute; reflexivity | vm_compute; split; reflexivity].
Defined.

Definition hex_val (ds : list Z) : Z := foldl (fun a d => 16 * a + d) 0 ds.

Definition hex_nibbles (v : Z) : list Z :=
  map (fun shift => (v .>> shift) .& 0xF) [28; 24; 20; 16; 12; 8; 4; 0].

(** [print_hex32] prints [0x] and the eight hexadecimal digits of the number. *)
Lemma print_hex32_spec fuel v t : 0 <= v < 2 ^ 32 ->
  print_hex32 fuel v t = terminal_write fuel (bytes "0x" ++ map hex_digit (hex_nibbles v)) t /\
  hex_val (hex_nibbles v) = v /\ Forall (fun d => 0 <= d < 16) (hex_nibbles v).
Proof.
  intros Hv. split_and!.
  - unfold print_hex32, terminal_writestring. rewrite terminal_write_app.
    destruct (terminal_write fuel (bytes "0x") t) as [t'|]; [|done]. cbn [mbind option_bind].
    rewrite foldM_putchar_map. unfold hex_nibbles. by rewrite map_map.
  - unfold hex_val, hex_nibbles. cbn [map foldl]. rewrite !land_15, !shiftr_div by lia. dlia.
  - unfold hex_nibbles. cbn [map]. rewrite !land_15. rewrite !Forall_cons_iff.
    split_and!; try apply Forall_nil_2; dlia.
Qed.

Lemma hex_literal_digit i : 0 <= i < 16 -> hex_literal i = hex_digit i.
Proof.
  intros H. assert (exists k : nat, (k < 16)%nat /\ i = Z.of_nat k) as (k & Hk & ->)
    by (exists (Z.to_nat i); lia).
  do 16 (destruct k as [|k]; [reflexivity |]). lia.
Qed.

Lemma print_hex8_spec fuel v t : 0 <= v < 256 ->
  print_hex8 fuel v t = terminal_write fuel (bytes "0x" ++ map hex_digit [v / 16; v mod 16]) t.
Proof.
  intros Hv. unfold print_hex8, terminal_writestring. rewrite terminal_write_app.
  destruct (terminal_write fuel (bytes "0x") t) as [t'|]; [|done]. cbn [mbind option_bind].
  rewrite !land_15, shiftr_div, !hex_literal_digit by (lia || dlia).
  change (2 ^ 4) with 16. rewrite (Z.mod_small (v / 16)) by dlia.
  unfold terminal_write. cbn [map foldM].
  destruct (terminal_putchar fuel _ t') as [t''|]; [|done]. cbn [mbind option_bind].
  by destruct (terminal_putchar fuel _ t'').
Qed.

(** What the diagnostic dump writes. *)
Definition dump_text (eflags m1 m2 : Z) : list Z :=
  [10] ++ bytes "[debug] EFLAGS=" ++ (bytes "0x" ++ map hex_digit (hex_nibbles eflags)) ++
  (if Z.testbit eflags 9 then bytes " (IF=1, interrupts ON)" else bytes " (IF=0, interrupts OFF!)") ++
  [10] ++ bytes "[debug] PIC1 mask=" ++ (bytes "0x" ++ map hex_digit [m1 / 16; m1 mod 16]) ++
  (if Z.testbit m1 1 then bytes " (IRQ1/keyboard MASKED!)" else bytes " (IRQ1/keyboard unmasked)") ++
  [10] ++ bytes "[debug] PIC2 mask=" ++ (bytes "0x" ++ map hex_digit [m2 / 16; m2 mod 16]) ++ [10].

Lemma land_pow2_testbit x n : 0 <= n -> negb (x .& 2 ^ n =? 0) = Z.testbit x n.
Proof.
  intros Hn. destruct (Z.testbit x n) eqn:E.
  - destruct (Z.eqb_spec (x .& 2 ^ n) 0) as [H|]; [|done].
    assert (Z.testbit (x .& 2 ^ n) n = true) as H'
      by (rewrite Z.land_spec, E, Z.pow2_bits_true by done; done).
    by rewrite H, Z.bits_0 in H'.
  - assert (x .& 2 ^ n = 0) as ->; [|done]. apply Z.bits_inj'. intros k Hk.
    rewrite Z.land_spec, Z.bits_0. destruct (decide (k = n)) as [-> |].
    + by rewrite E.
    + by rewrite Z.pow2_bits_false, andb_false_r by lia.
Qed.

(** The diagnostic dump prints the flags and the masks of both controllers in
    hexadecimal with their interpretation, and only reads the two ports. *)
Theorem interrupts_debug_dump_correct `{D : Device} `{P1 : !Pic8259 0x20 0x21} `{P2 : !Pic8259 0xA0 0xA1}
    `{R1 : !PicReads 0x20 0x21} `{R2 : !PicReads 0xA0 0xA1} fuel eflags k :
  0 <= eflags < 2 ^ 32 -> pic_expect 0x20 (k_io k) = 0 -> pic_expect 0xA0 (k_io k) = 0 ->
  0 <= pic_imr 0x20 (k_io k) < 256 -> 0 <= pic_imr 0xA0 (k_io k) < 256 ->
  let m1 := pic_imr 0x20 (k_io k) in let m2 := pic_imr 0xA0 (k_io k) in
  interrupts_debug_dump fuel eflags k =
    t ← terminal_write fuel (dump_text eflags m1 m2) (k_tty k);
    Some (with_io (In 0xA1 m2 :: In 0x21 m1 :: k_io k) (with_tty t k)).
Proof.
  intros Hf He1 He2 Hr1 Hr2 m1 m2. unfold interrupts_debug_dump, io_in.
  rewrite (R1 _ He1), (u8_small (pic_imr 0x20 _)) by done. fold m1.
  assert (dev_in (In 0x21 m1 :: k_io k) 0xA1 = m2) as ->.
  { rewrite R2; [by rewrite (pic_imr_skip 0xA0 0xA1) | by rewrite (pic_expect_skip 0xA0 0xA1)]. }
  rewrite (u8_small m2) by done.
  pose proof (land_pow2_testbit eflags 9 ltac:(done)) as T1. change (2 ^ 9) with 0x200 in T1.
  pose proof (land_pow2_testbit m1 1 ltac:(done)) as T2. change (2 ^ 1) with 0x02 in T2.
  change (0 <= m1 < 256) in Hr1. change (0 <= m2 < 256) in Hr2.
  rewrite T1, T2. unfold dump_text, terminal_writestring.
  assert (forall l1 l2 t, terminal_write fuel (l1 ++ l2) t
            = t ← terminal_write fuel l1 t; terminal_write fuel l2 t) as Ha by apply terminal_write_app.
  assert (forall t, print_hex32 fuel eflags t = terminal_write fuel (bytes "0x" ++ map hex_digit (hex_nibbles eflags)) t)
    as Hx by (intros; by apply print_hex32_spec).
  assert (forall v t, 0 <= v < 256 -> print_hex8 fuel v t
            = terminal_write fuel (bytes "0x" ++ map hex_digit [v / 16; v mod 16]) t) as Hu by apply print_hex8_spec.
  pose proof (fun t => Hu m1 t Hr1) as Hu1. pose proof (fun t => Hu m2 t Hr2) as Hu2.
  clear Hu T1 T2. revert Ha Hx Hu1 Hu2.
  generalize (terminal_write fuel) (print_hex32 fuel) (print_hex8 fuel). intros w x32 x8.
  repeat match goal with |- context [bytes ?s] => generalize (bytes s); intros ? end. intros Ha Hx Hu1 Hu2.
  destruct (Z.testbit eflags 9), (Z.testbit m1 1); tty_steps w using (rewrite ?Hx, ?Hu1, ?Hu2, ?Ha).
Qed.

(** *** Delivery of hardware interrupts *)

Section Delivery.
Context `{P1 : !Pic8259 0x20 0x21} `{P2 : !Pic8259 0xA0 0xA1}.

Lemma send_eoi_isr irq tr :
  pic_isr 0x20 (pic_send_eoi irq tr) = tail (pic_isr 0x20 tr) /\
  pic_isr 0xA0 (pic_send_eoi irq tr) = if 8 <=? irq then tail (pic_isr 0xA0 tr) else pic_isr 0xA0 tr.
Proof.
  unfold pic_send_eoi, io_out, PIC1_COMMAND, PIC2_COMMAND, PIC_EOI. change (u8 0x20) with 0x20.
  rewrite (pic_isr_eoi 0x20 0x21), (pic_isr_skip 0xA0 0xA1) by misses.
  zcase; [|done]. by rewrite (pic_isr_skip 0x20 0x21), (pic_isr_eoi 0xA0 0xA1) by misses.
Qed.

(** Taking any hardware interrupt 32-47 runs no registered handler and changes
    nothing but the ports: cli, one end-of-interrupt to the master, sti. A
    line of the slave therefore stays in service, although pic_send_eoi would
    clear it. *)
Theorem irq_delivery call fuel regs k :
  32 <= int_no regs < 48 ->
  exists k', deliver call fuel regs k = Some (Return k') /\
    k_io k' = Sti :: Out 0x20 0x20 :: Cli :: k_io k /\
    k_tty k' = k_tty k /\ k_handlers k' = k_handlers k /\
    pic_isr 0x20 (k_io k') = tail (pic_isr 0x20 (k_io k)) /\
    pic_isr 0xA0 (k_io k') = pic_isr 0xA0 (k_io k) /\
    (40 <= int_no regs ->
       pic_isr 0xA0 (pic_send_eoi (int_no regs - 32) (k_io k)) = tail (pic_isr 0xA0 (k_io k))).
Proof.
  intros Hn. unfold deliver. rewrite (proj2 (Z.ltb_ge _ _)), (proj2 (Z.ltb_lt _ 48)) by lia.
  exists (with_io (Sti :: Out 0x20 0x20 :: Cli :: k_io k) k). split; [done |].
  cbn [k_io k_tty k_handlers with_io]. split_and!; try done.
  - by rewrite (pic_isr_skip 0x20 0x21), (pic_isr_eoi 0x20 0x21), (pic_isr_skip 0x20 0x21) by misses.
  - by rewrite !(pic_isr_skip 0xA0 0xA1) by misses.
  - intros H40. destruct (send_eoi_isr (int_no regs - 32) (k_io k)) as [_ ->].
    by rewrite (proj2 (Z.leb_le _ _)) by lia.
Qed.
End Delivery.

Lemma irq_delivery_witness :
  let b := Chip 0 0 0x20 [2] in let b' := Chip 0 0 0x28 [4] in
  exists k', deliver (fun _ _ _ => None) 8 (Registers 0 0 0 0 0 0 0 0 0 44 0 0 0 0 0 0)
               (Kernel [] (IdtPtr 0 0) [] (Tty 0 0 7 ∅) []) = Some (Return k') /\
    pic_isr 0xA0 (Pic8259 := pc_pic2 b') (k_io k') = [4].
Proof.
  cbn zeta.
  destruct (irq_delivery (P1 := pc_pic1 (Chip 0 0 0x20 [2])) (P2 := pc_pic2 (Chip 0 0 0x28 [4]))
    (fun _ _ _ => None) 8 (Registers 0 0 0 0 0 0 0 0 0 44 0 0 0 0 0 0) (Kernel [] (IdtPtr 0 0) [] (Tty 0 0 7 ∅) []))
    as (k' & H & _ & _ & _ & _ & Hs & _); [cbn; lia |].
  exists k'. split; [exact H | exact Hs].
Defined.

Lemma interrupts_debug_dump_correct_witness :
  let b1 := Chip 0 0xFD 0x20 [] in let b2 := Chip 0 0xFF 0x28 [] in
  exists k', interrupts_debug_dump (H := pc_device b1 b2 (fun _ _ => 0)) 8 0x202
    (Kernel [] (IdtPtr 0 0) [] (Tty 0 0 7 ∅) []) = Some k' /\ length (k_io k') = 2%nat.
Proof.
  cbn zeta. rewrite (interrupts_debug_dump_correct
    (D := pc_device (Chip 0 0xFD 0x20 []) (Chip 0 0xFF 0x28 []) (fun _ _ => 0))
    (P1 := pc_pic1 (Chip 0 0xFD 0x20 [])) (P2 := pc_pic2 (Chip 0 0xFF 0x28 []))
    (R1 := pc_reads1 _ _ _) (R2 := pc_reads2 _ _ _)) by (by vm_compute).
  eexists. split; [vm_compute; reflexivity | reflexivity].
Defined.
