(* ===== verification/Keyboard.v ===== *)
(** * The PS/2 keyboard of the i386 kernel

    [src/legacy/kernel/arch/i386/drivers/keyboard.c]: the ring buffer between
    the interrupt handler and its reader, the handshake with the 8042
    controller, and the interrupt callback as compiled (most of its body is
    commented out in the source). *)

From S2P Require Import Prelude Machine Tty Interrupts.

(** ** The code *)

Definition PS2_DATA_PORT : Z := 0x60.
Definition PS2_STATUS_PORT : Z := 0x64.
Definition PS2_STATUS_OUTPUT_FULL : Z := 0x01.
Definition KBD_CMD_SET_LEDS : Z := 0xED.
Definition KBD_LED_CAPS_LOCK : Z := 0x04.
Definition KBD_IRQ : Z := 1.
Definition KBD_BUFFER_SIZE : Z := 256.

(** The static variables; [probe] is the static [p] of [keyboard_callback]. *)
Record kbd := Kbd {
  buffer : list Z;
  buf_head : Z;
  buf_tail : Z;
  shift_pressed : bool;
  ctrl_pressed : bool;
  alt_pressed : bool;
  caps_lock : bool;
  probe : Z }.

Definition kbd_boot : kbd := Kbd (replicate 256 0) 0 0 false false false false 48.

Definition scancode_ascii : list Z :=
  [0; 27] ++ bytes "1234567890-=" ++ [8; 9] ++ bytes "qwertyuiop[]" ++ [10; 0] ++
  bytes "asdfghjkl;'`" ++ [0] ++ bytes "\zxcvbnm,./" ++ [0; 42; 0; 32; 0; 0] ++ replicate 68 0.

(** The shifted table; 34 is the double quote. *)
Definition scancode_ascii_shift : list Z :=
  [0; 27] ++ bytes "!@#$%^&*()_+" ++ [8; 9] ++ bytes "QWERTYUIOP{}" ++ [10; 0] ++
  bytes "ASDFGHJKL:" ++ [34] ++ bytes "~" ++ [0] ++ bytes "|ZXCVBNM<>?" ++ [0; 42; 0; 32; 0; 0] ++
  replicate 68 0.

Definition buffer_push (c : Z) (b : kbd) : kbd :=
  let next := (buf_head b + 1) mod KBD_BUFFER_SIZE in
  let tl := if next =? buf_tail b then (buf_tail b + 1) mod KBD_BUFFER_SIZE else buf_tail b in
  Kbd (<[Z.to_nat (buf_head b) := s8 c]> (buffer b)) next tl
      (shift_pressed b) (ctrl_pressed b) (alt_pressed b) (caps_lock b) (probe b).

(** The character stored through [out_c], [None] when the function returns
    [false]. *)
Definition keyboard_read (b : kbd) : option Z * kbd :=
  if buf_tail b =? buf_head b then (None, b)
  else (buffer b !! Z.to_nat (buf_tail b),
        Kbd (buffer b) (buf_head b) ((buf_tail b + 1) mod KBD_BUFFER_SIZE)
            (shift_pressed b) (ctrl_pressed b) (alt_pressed b) (caps_lock b) (probe b)).

Definition keyboard_ctrl_pressed (b : kbd) : bool := ctrl_pressed b.
Definition keyboard_alt_pressed (b : kbd) : bool := alt_pressed b.
Definition keyboard_shift_pressed (b : kbd) : bool := shift_pressed b.

Section Ps2.
Context `{Device}.

(** At most [n] polls of the status port. *)
Fixpoint ps2_wait_input_loop (n : nat) (tr : trace) : trace :=
  match n with
  | O => tr
  | S n' =>
      let '(v, tr) := io_in 0x64 tr in
      if v .& 0x02 =? 0 then tr else ps2_wait_input_loop n' tr
  end.

Definition ps2_wait_input_clear (tr : trace) : trace :=
  ps2_wait_input_loop (Z.to_nat 100000) tr.

Fixpoint ps2_wait_output_loop (n : nat) (tr : trace) : Z * trace :=
  match n with
  | O => (0, tr)
  | S n' =>
      let '(v, tr) := io_in 0x64 tr in
      if negb (v .& 0x01 =? 0) then (1, tr) else ps2_wait_output_loop n' tr
  end.

Definition ps2_wait_output_full (tr : trace) : Z * trace :=
  ps2_wait_output_loop (Z.to_nat 100000) tr.

Definition ps2_output_has_data (tr : trace) : bool * trace :=
  let '(v, tr) := io_in PS2_STATUS_PORT tr in
  (negb (v .& PS2_STATUS_OUTPUT_FULL =? 0), tr).

Definition kbd_send_command (command : Z) (tr : trace) : trace :=
  io_out PS2_DATA_PORT command (ps2_wait_input_clear tr).

Definition kbd_set_leds (b : kbd) (tr : trace) : trace :=
  let mask := if caps_lock b then 0 .| KBD_LED_CAPS_LOCK else 0 in
  let tr := kbd_send_command KBD_CMD_SET_LEDS tr in
  io_out PS2_DATA_PORT mask (ps2_wait_input_clear tr).

(** [keyboard_callback]: the digit in the first cell of the screen, and one byte
    drained from the controller. *)
Definition keyboard_callback (regs : registers) (b : kbd) (k : kernel) : kbd * kernel :=
  let p := probe b in
  let t := k_tty k in
  let t := Tty (terminal_row t) (terminal_column t) (terminal_color t)
               (<[0 := u16 (p .| (0x4F .<< 8))]> (terminal_buffer t)) in
  let p := if p =? 57 then 48 else u8 (p + 1) in
  let b := Kbd (buffer b) (buf_head b) (buf_tail b) (shift_pressed b) (ctrl_pressed b)
               (alt_pressed b) (caps_lock b) p in
  let '(v, tr) := io_in 0x64 (k_io k) in
  let tr := if negb (v .& 1 =? 0) then snd (io_in 0x60 tr) else tr in
  (b, with_io tr (with_tty t k)).

(** [keyboard_initialize]; [callback] is the address of [keyboard_callback]. *)
Definition keyboard_initialize (callback : Z) (b : kbd) (k : kernel) : kbd * kernel :=
  (Kbd (buffer b) 0 0 (shift_pressed b) (ctrl_pressed b) (alt_pressed b) (caps_lock b) (probe b),
   irq_register_handler KBD_IRQ callback k).
End Ps2.

(** ** Specification: a queue of the last 255 characters *)

Definition FIFO : nat := 255.

Definition fifo_push (c : Z) (q : list Z) : list Z :=
  (if decide (length q = FIFO) then tail q else q) ++ [c].

Definition last_n (n : nat) (l : list Z) : list Z := drop (length l - n) l.

(** The characters between the tail and the head, oldest first. *)
Definition kbd_queue (b : kbd) : list Z :=
  map (fun i => buffer b !!! Z.to_nat ((buf_tail b + Z.of_nat i) mod KBD_BUFFER_SIZE))
      (seq 0 (Z.to_nat ((buf_head b - buf_tail b) mod KBD_BUFFER_SIZE))).

Record kbd_wf (b : kbd) : Prop := {
  kbd_len : length (buffer b) = 256%nat;
  kbd_head : 0 <= buf_head b < 256;
  kbd_tail : 0 <= buf_tail b < 256 }.

(** ** Proofs *)

Lemma scancode_tables :
  length scancode_ascii = 128%nat /\ length scancode_ascii_shift = 128%nat /\
  Forall (fun c => 0 <= c < 128) (scancode_ascii ++ scancode_ascii_shift).
Proof. split_and!; [reflexivity.. | by apply (bool_decide_unpack _)]. Qed.

(** The shifted table differs from the plain one only in case and on symbols:
    letters are in the same places. *)
Lemma scancode_letters (i : nat) c :
  scancode_ascii !! i = Some c -> 97 <= c <= 122 -> scancode_ascii_shift !! i = Some (c - 32).
Proof.
  intros Hc Hr. assert (i < 128)%nat as Hi by (apply lookup_lt_Some in Hc; done).
  do 128 (destruct i as [|i]; [first [by injection Hc as <- | injection Hc as <-; lia] |]). lia.
Qed.

Lemma kbd_queue_length b :
  length (kbd_queue b) = Z.to_nat ((buf_head b - buf_tail b) mod 256).
Proof. unfold kbd_queue. by rewrite length_map, length_seq. Qed.

Lemma kbd_queue_lookup b (i : nat) : (i < length (kbd_queue b))%nat ->
  kbd_queue b !! i = Some (buffer b !!! Z.to_nat ((buf_tail b + Z.of_nat i) mod 256)).
Proof.
  intros Hi. rewrite kbd_queue_length in Hi. unfold kbd_queue.
  by rewrite list_lookup_fmap, lookup_seq_lt.
Qed.

Lemma buffer_push_wf c b : kbd_wf b -> kbd_wf (buffer_push c b).
Proof.
  intros []. unfold buffer_push, KBD_BUFFER_SIZE. split; cbn; [by rewrite length_insert | dlia |].
  zcase; dlia.
Qed.

Lemma tail_length {A} (l : list A) : length (tail l) = Nat.pred (length l).
Proof. by destruct l. Qed.

Lemma kbd_queue_eq b q :
  length q = Z.to_nat ((buf_head b - buf_tail b) mod 256) ->
  (forall (i : nat) x, q !! i = Some x ->
     buffer b !!! Z.to_nat ((buf_tail b + Z.of_nat i) mod 256) = x) ->
  kbd_queue b = q.
Proof.
  intros Hl Hq. apply list_eq. intros i. destruct (q !! i) as [x|] eqn:E.
  - rewrite kbd_queue_lookup; [by rewrite (Hq i x) |].
    rewrite kbd_queue_length, <- Hl. by eapply lookup_lt_Some.
  - apply lookup_ge_None_2. rewrite kbd_queue_length, <- Hl. by apply lookup_ge_None_1.
Qed.

Lemma push_slot b c i j : kbd_wf b -> 0 <= i < 256 ->
  j = Z.to_nat i ->
  <[Z.to_nat (buf_head b) := c]> (buffer b) !!! j = if decide (i = buf_head b) then c else buffer b !!! j.
Proof.
  intros [Hl Hh _] Hi ->. case_decide as E; [subst i; apply list_lookup_total_insert_eq; lia |].
  apply list_lookup_total_insert_ne. lia.
Qed.

Lemma buffer_push_queue c b : kbd_wf b -> kbd_queue (buffer_push c b) = fifo_push (s8 c) (kbd_queue b).
Proof.
  intros Hwf. pose proof Hwf as [Hl Hh Ht]. pose proof (kbd_queue_length b) as Hq.
  unfold fifo_push, FIFO. apply kbd_queue_eq.
  - unfold buffer_push, KBD_BUFFER_SIZE. cbn [buf_head buf_tail]. rewrite length_app. cbn [length].
    case_decide as E.
    + assert (length (tail (kbd_queue b)) = 254%nat) as -> by (by rewrite tail_length, E).
      zcase; dlia.
    + zcase; dlia.
  - intros i x Hx. unfold buffer_push, KBD_BUFFER_SIZE. cbn [buffer buf_tail].
    apply lookup_app_Some in Hx as [Hx | [Hge Hx]].
    + rewrite (push_slot b _ (((if (buf_head b + 1) mod 256 =? buf_tail b then (buf_tail b + 1) mod 256
                                else buf_tail b) + Z.of_nat i) mod 256)) by (done || dlia).
      case_decide as E; [rewrite lookup_tail in Hx|]; pose proof (lookup_lt_Some _ _ _ Hx) as Hlt;
        rewrite kbd_queue_lookup in Hx by done; injection Hx as <-.
      * rewrite (proj2 (Z.eqb_eq _ _)) by dlia. rewrite decide_False by dlia.
        f_equal. f_equal. dlia.
      * rewrite (proj2 (Z.eqb_neq _ _)) by dlia. by rewrite decide_False by dlia.
    + rewrite (push_slot b _ (((if (buf_head b + 1) mod 256 =? buf_tail b then (buf_tail b + 1) mod 256
                                else buf_tail b) + Z.of_nat i) mod 256)) by (done || dlia).
      apply list_lookup_singleton_Some in Hx as [Hz <-]. apply decide_True.
      case_decide as E.
      * assert (length (tail (kbd_queue b)) = 254%nat) as Ht' by (by rewrite tail_length, E).
        rewrite (proj2 (Z.eqb_eq _ _)) by dlia. dlia.
      * rewrite (proj2 (Z.eqb_neq _ _)) by dlia. dlia.
Qed.

Lemma keyboard_read_queue b : kbd_wf b ->
  match kbd_queue b with
  | [] => keyboard_read b = (None, b)
  | c :: q => exists b', keyboard_read b = (Some c, b') /\ kbd_wf b' /\ kbd_queue b' = q
  end.
Proof.
  intros [Hl Hh Ht]. pose proof (kbd_queue_length b) as Hq. unfold keyboard_read, KBD_BUFFER_SIZE.
  destruct (kbd_queue b) as [|c q] eqn:E; cbn [length] in Hq.
  - rewrite (proj2 (Z.eqb_eq _ _)) by dlia. done.
  - rewrite (proj2 (Z.eqb_neq _ _)) by (intros E'; rewrite E' in Hq; replace (buf_head b - buf_head b) with 0 in Hq by lia; done).
    pose proof (kbd_queue_lookup b 0 ltac:(rewrite E; cbn; lia)) as H0. rewrite E in H0.
    injection H0 as H0.
    exists (Kbd (buffer b) (buf_head b) ((buf_tail b + 1) mod 256) (shift_pressed b)
                (ctrl_pressed b) (alt_pressed b) (caps_lock b) (probe b)).
    split_and!; [| split; cbn; [done | lia | dlia] |].
    + rewrite H0, Z.add_0_r, (Z.mod_small (buf_tail b)) by lia.
      rewrite (list_lookup_lookup_total_lt (buffer b)) by lia. done.
    + apply kbd_queue_eq; cbn [buf_head buf_tail buffer]; [dlia |].
      intros i x Hx. assert (kbd_queue b !! S i = Some x) as Hx' by (by rewrite E).
      rewrite kbd_queue_lookup in Hx' by (by eapply lookup_lt_Some). injection Hx' as <-.
      f_equal. f_equal. dlia.
Qed.

(** Pushes from the interrupt handler, then reads until the buffer is empty. *)
Definition pushes (cs : list Z) (b : kbd) : kbd := foldl (fun b c => buffer_push c b) b cs.

Fixpoint read_all (n : nat) (b : kbd) : list Z :=
  match n with
  | O => []
  | S n' => match keyboard_read b with
            | (Some c, b') => c :: read_all n' b'
            | (None, _) => []
            end
  end.

Lemma read_all_queue n : forall b, kbd_wf b -> (length (kbd_queue b) <= n)%nat -> read_all n b = kbd_queue b.
Proof.
  induction n as [|n IH]; intros b Hwf Hn; pose proof (keyboard_read_queue b Hwf) as Hr; cbn [read_all].
  - apply Nat.le_0_r, nil_length_inv in Hn. by rewrite Hn.
  - destruct (kbd_queue b) as [|c q]; [by rewrite Hr |].
    destruct Hr as (b' & -> & Hwf' & Hq). f_equal. rewrite <- Hq. apply IH; [done |].
    rewrite Hq. cbn in Hn. lia.
Qed.

Lemma fifo_push_last_n c q : (length q <= FIFO)%nat -> fifo_push c q = last_n FIFO (q ++ [c]).
Proof.
  intros Hq. unfold fifo_push, last_n. rewrite length_app. cbn [length]. case_decide as E.
  - rewrite E. unfold FIFO. cbn. destruct q; [done |]. cbn. by rewrite drop_0.
  - replace (length q + 1 - FIFO)%nat with O by lia. by rewrite drop_0.
Qed.

Lemma last_n_length n l : (length (last_n n l) <= n)%nat.
Proof. unfold last_n. rewrite length_drop. lia. Qed.

Lemma last_n_snoc n l c : (0 < n)%nat -> last_n n (last_n n l ++ [c]) = last_n n (l ++ [c]).
Proof.
  intros Hn. unfold last_n. rewrite !length_app, length_drop. cbn [length].
  destruct (Nat.le_gt_cases (length l) n).
  - replace (length l - n)%nat with O by lia. rewrite drop_0. f_equal. lia.
  - replace (length l - (length l - n) + 1 - n)%nat with 1%nat by lia.
    rewrite <- !drop_app_le by (rewrite ?length_drop; lia). rewrite drop_drop. f_equal. lia.
Qed.

Lemma pushes_queue cs : forall b, kbd_wf b -> (length (kbd_queue b) <= FIFO)%nat ->
  kbd_wf (pushes cs b) /\ kbd_queue (pushes cs b) = last_n FIFO (kbd_queue b ++ map s8 cs).
Proof.
  induction cs as [|c cs IH] using rev_ind; intros b Hwf Hq.
  - split; [done |]. cbn [map]. rewrite app_nil_r. unfold last_n.
    by replace (length (kbd_queue b) - FIFO)%nat with O by lia.
  - destruct (IH b Hwf Hq) as [Hwf' Hq']. unfold pushes in *. rewrite foldl_app. cbn [foldl].
    split; [by apply buffer_push_wf |].
    rewrite buffer_push_queue by done. rewrite Hq', fifo_push_last_n by apply last_n_length.
    rewrite map_app, app_assoc. cbn [map]. apply last_n_snoc. unfold FIFO. lia.
Qed.

(** C12. The ring buffer is a queue of at most 255 characters: whatever is
    pushed, reading it out returns the last 255 of them in order, each
    converted to char, and a read of an empty buffer fails and changes
    nothing. *)
Theorem keyboard_buffer_is_queue cs b n :
  kbd_wf b -> (length (kbd_queue b) <= FIFO)%nat -> (FIFO <= n)%nat ->
  read_all n (pushes cs b) = last_n FIFO (kbd_queue b ++ map s8 cs) /\
  match kbd_queue b with
  | [] => keyboard_read b = (None, b)
  | c :: q => exists b', keyboard_read b = (Some c, b') /\ kbd_wf b' /\ kbd_queue b' = q
  end.
Proof.
  intros Hwf Hq Hn. split; [|by apply keyboard_read_queue].
  destruct (pushes_queue cs b Hwf Hq) as [Hwf' Hq']. rewrite <- Hq'.
  apply read_all_queue; [done |]. rewrite Hq'. etrans; [apply last_n_length | done].
Qed.

Lemma keyboard_buffer_is_queue_witness :
  read_all 256 (pushes (seqZ 1 300) kbd_boot) = last_n FIFO (map s8 (seqZ 1 300)) /\
  read_all 3 (pushes (bytes "ok") kbd_boot) = bytes "ok".
Proof.
  split; [|reflexivity].
  destruct (keyboard_buffer_is_queue (seqZ 1 300) kbd_boot 256) as [H _];
    [split; by vm_compute | by apply Nat.leb_le | by apply Nat.leb_le |].
  exact H.
Defined.

(** *** The handshake with the controller *)

(** The reads of the status port of one wait, latest first: all but the latest
    were [busy], and the latest is not, unless all [n] were. *)
Definition polled (busy : Z -> bool) (n : Z) (polls : list Z) : Prop :=
  Z.of_nat (length polls) <= n /\
  match polls with
  | [] => n = 0
  | v :: rest => Forall (fun v => busy v = true) rest /\ (busy v = false \/ Z.of_nat (length polls) = n)
  end.

Lemma polled_cons busy n polls v :
  busy v = true -> polled busy n polls -> polled busy (n + 1) (polls ++ [v]).
Proof.
  unfold polled. rewrite length_app. cbn [length]. intros Hv [Hl Hp]. split; [lia |].
  destruct polls as [|v' rest]; cbn [app].
  - split; [constructor | right; cbn; lia].
  - destruct Hp as [Hr Hd]. split; [apply Forall_app; split; [done | by constructor] |].
    cbn in *. destruct Hd; [by left | right; lia].
Qed.

Section Handshake.
Context `{D : Device}.

Lemma ps2_wait_input_spec n : forall tr, exists polls,
  ps2_wait_input_loop n tr = map (In 0x64) polls ++ tr /\
  polled (fun v => Z.testbit v 1) (Z.of_nat n) polls.
Proof.
  induction n as [|n IH]; intros tr; [by exists [] |].
  cbn [ps2_wait_input_loop]. unfold io_in. set (v := u8 (dev_in tr 0x64)).
  pose proof (land_pow2_testbit v 1 ltac:(done)) as T. change (2 ^ 1) with 0x02 in T.
  destruct (v .& 0x02 =? 0); cbn in T.
  - exists [v]. split; [done |]. split; [cbn; lia |]. split; [constructor | by left].
  - destruct (IH (In 0x64 v :: tr)) as (polls & -> & Hp). exists (polls ++ [v]).
    split; [by rewrite map_app, <- app_assoc |].
    rewrite Nat2Z.inj_succ. by apply polled_cons.
Qed.

Lemma ps2_wait_output_spec n : forall tr, exists polls,
  snd (ps2_wait_output_loop n tr) = map (In 0x64) polls ++ tr /\
  polled (fun v => negb (Z.testbit v 0)) (Z.of_nat n) polls /\
  fst (ps2_wait_output_loop n tr)
    = match polls with v :: _ => Z.b2z (Z.testbit v 0) | [] => 0 end.
Proof.
  induction n as [|n IH]; intros tr; [by exists [] |].
  cbn [ps2_wait_output_loop]. unfold io_in. set (v := u8 (dev_in tr 0x64)).
  pose proof (land_pow2_testbit v 0 ltac:(done)) as T. change (2 ^ 0) with 0x01 in T. rewrite T.
  destruct (Z.testbit v 0) eqn:E.
  - exists [v]. cbn [fst snd]. rewrite E. split_and!; [done | | done]. split; [cbn; lia |].
    split; [constructor | left]. by rewrite E.
  - destruct (IH (In 0x64 v :: tr)) as (polls & -> & Hp & ->). exists (polls ++ [v]).
    split_and!; [by rewrite map_app, <- app_assoc | |].
    + rewrite Nat2Z.inj_succ. apply polled_cons; [by rewrite E | done].
    + destruct polls; cbn [app]; [by rewrite E | done].
Qed.

(** Both waits for the controller end after at most 100000 polls, the first at
    the poll that finds the bit, and report whether they found it. *)
Theorem ps2_waits_terminate tr :
  (exists polls, ps2_wait_input_clear tr = map (In 0x64) polls ++ tr /\
     polled (fun v => Z.testbit v 1) 100000 polls) /\
  (exists polls, ps2_wait_output_full tr
       = (match polls with v :: _ => Z.b2z (Z.testbit v 0) | [] => 0 end, map (In 0x64) polls ++ tr) /\
     polled (fun v => negb (Z.testbit v 0)) 100000 polls).
Proof.
  split.
  - destruct (ps2_wait_input_spec (Z.to_nat 100000) tr) as (p & E & H). exists p.
    rewrite Z2Nat.id in H by done. done.
  - destruct (ps2_wait_output_spec (Z.to_nat 100000) tr) as (p & E & H & E'). exists p.
    rewrite Z2Nat.id in H by done. split; [|done]. unfold ps2_wait_output_full.
    by rewrite (surjective_pairing (ps2_wait_output_loop _ _)), E, E'.
Qed.

(** [kbd_set_leds] sends the LED command and then the mask of the locks, each
    after a wait for the controller. *)
Theorem kbd_set_leds_handshake b tr : exists p1 p2,
  kbd_set_leds b tr =
    Out 0x60 (if caps_lock b then 4 else 0) :: map (In 0x64) p2 ++
    Out 0x60 0xED :: map (In 0x64) p1 ++ tr /\
  polled (fun v => Z.testbit v 1) 100000 p1 /\ polled (fun v => Z.testbit v 1) 100000 p2.
Proof.
  unfold kbd_set_leds, kbd_send_command, ps2_wait_input_clear, io_out.
  destruct (ps2_wait_input_spec (Z.to_nat 100000) tr) as (p1 & -> & H1).
  destruct (ps2_wait_input_spec (Z.to_nat 100000)
    (Out PS2_DATA_PORT (u8 KBD_CMD_SET_LEDS) :: map (In 0x64) p1 ++ tr)) as (p2 & -> & H2).
  rewrite Z2Nat.id in H1, H2 by done. exists p1, p2. split_and!; [by destruct (caps_lock b) | done..].
Qed.

(** *** The callback *)

(** The whole state after [n] calls of the handler. *)
Definition callbacks (n : nat) (regs : registers) (s : kbd * kernel) : kbd * kernel :=
  Nat.iter n (fun s => keyboard_callback regs (fst s) (snd s)) s.

Lemma callbacks_S n regs s :
  callbacks (S n) regs s = keyboard_callback regs (fst (callbacks n regs s)) (snd (callbacks n regs s)).
Proof. done. Qed.

Definition same_but_probe (b b' : kbd) : Prop :=
  buffer b' = buffer b /\ buf_head b' = buf_head b /\ buf_tail b' = buf_tail b /\
  shift_pressed b' = shift_pressed b /\ ctrl_pressed b' = ctrl_pressed b /\
  alt_pressed b' = alt_pressed b /\ caps_lock b' = caps_lock b.

Lemma callback_step regs b k d : probe b = 48 + d -> 0 <= d < 10 ->
  let '(b', k') := keyboard_callback regs b k in
  probe b' = 48 + (d + 1) mod 10 /\ same_but_probe b b' /\
  k_tty k' = Tty (terminal_row (k_tty k)) (terminal_column (k_tty k)) (terminal_color (k_tty k))
                 (<[0 := vga_entry (48 + d) 0x4F]> (terminal_buffer (k_tty k))) /\
  (exists v, k_io k' = In 0x64 v :: k_io k /\ Z.testbit v 0 = false \/
     exists c, k_io k' = In 0x60 c :: In 0x64 v :: k_io k /\ Z.testbit v 0 = true).
Proof.
  intros Hp Hd. unfold keyboard_callback, io_in. rewrite Hp.
  split_and!; [| by repeat split | done |].
  - cbn. zcase; [dlia |]. rewrite u8_small by lia. dlia.
  - set (v := u8 (dev_in (k_io k) 0x64)). exists v.
    pose proof (land_pow2_testbit v 0 ltac:(done)) as T. change (2 ^ 0) with 1 in T. rewrite T.
    destruct (Z.testbit v 0); [right; by eexists | by left].
Qed.

(** Each interrupt moves the debug digit on by one modulo ten and shows it in
    the first cell; the ring buffer is never touched. *)
Theorem keyboard_callback_counts n regs b k : probe b = 48 ->
  let '(b', k') := callbacks (S n) regs (b, k) in
  same_but_probe b b' /\ kbd_queue b' = kbd_queue b /\
  terminal_row (k_tty k') = terminal_row (k_tty k) /\
  terminal_column (k_tty k') = terminal_column (k_tty k) /\
  terminal_buffer (k_tty k') =
    <[0 := vga_entry (48 + Z.of_nat n mod 10) 0x4F]> (terminal_buffer (k_tty k)).
Proof.
  intros Hp.
  assert (let '(b', k') := callbacks n regs (b, k) in
    probe b' = 48 + Z.of_nat n mod 10 /\ same_but_probe b b' /\
    terminal_row (k_tty k') = terminal_row (k_tty k) /\
    terminal_column (k_tty k') = terminal_column (k_tty k) /\
    forall e, <[0 := e]> (terminal_buffer (k_tty k')) = <[0 := e]> (terminal_buffer (k_tty k))) as H.
  { induction n as [|n IH]; [split_and!; [exact Hp | by repeat split | done..] |]. rewrite callbacks_S.
    destruct (callbacks n regs (b, k)) as [b1 k1]. destruct IH as (Hp1 & Hs1 & Hr1 & Hc1 & Hb1).
    pose proof (callback_step regs b1 k1 _ Hp1 ltac:(dlia)) as Hst. cbn [fst snd].
    destruct (keyboard_callback regs b1 k1) as [b2 k2]. destruct Hst as (Hp2 & Hs2 & Ht2 & _).
    rewrite Ht2. cbn. split_and!; [rewrite Hp2; dlia | | done | done |].
    - unfold same_but_probe in *. intuition congruence.
    - intros e. rewrite insert_insert_eq. apply Hb1. }
  rewrite callbacks_S. destruct (callbacks n regs (b, k)) as [b1 k1].
  destruct H as (Hp1 & Hs1 & Hr1 & Hc1 & Hb1).
  pose proof (callback_step regs b1 k1 _ Hp1 ltac:(dlia)) as Hst. cbn [fst snd].
  destruct (keyboard_callback regs b1 k1) as [b2 k2]. destruct Hst as (_ & Hs2 & Ht2 & _).
  assert (same_but_probe b b2) as Hs by (unfold same_but_probe in *; intuition congruence).
  rewrite Ht2. cbn. split_and!; [done | | done | done | apply Hb1].
  unfold kbd_queue. destruct Hs as (-> & -> & -> & _). done.
Qed.
End Handshake.

Lemma keyboard_callback_counts_witness :
  let '(b, k) := callbacks (D := fun _ _ => 1) 13 (Registers 0 0 0 0 0 0 0 0 0 33 0 0 0 0 0 0)
                   (kbd_boot, Kernel [] (IdtPtr 0 0) [] (Tty 0 0 7 ∅) []) in
  terminal_buffer (k_tty k) !! 0 = Some (vga_entry 50 0x4F) /\ kbd_queue b = [].
Proof.
  pose proof (keyboard_callback_counts (D := fun _ _ => 1) 12 (Registers 0 0 0 0 0 0 0 0 0 33 0 0 0 0 0 0)
    kbd_boot (Kernel [] (IdtPtr 0 0) [] (Tty 0 0 7 ∅) []) eq_refl) as H.
  destruct (callbacks _ _ _) as [b k]. destruct H as (_ & Hq & _ & _ & Hb). by rewrite Hq, Hb.
Defined.

(** [keyboard_initialize] empties the buffer, registers the callback for
    vector 33 and unmasks IRQ1 only. *)
Theorem keyboard_initialize_ready `{D : Device} `{P1 : !Pic8259 0x20 0x21} `{R1 : !PicReads 0x20 0x21}
    callback b k :
  length (k_handlers k) = 256%nat -> pic_expect 0x20 (k_io k) = 0 -> 0 <= pic_imr 0x20 (k_io k) < 256 ->
  let '(b', k') := keyboard_initialize callback b k in
  kbd_queue b' = [] /\ k_handlers k' !! 33%nat = Some callback /\
  (forall j, j <> 33%nat -> k_handlers k' !! j = k_handlers k !! j) /\
  mask_line (pic_imr 0x20 (k_io k)) KBD_IRQ false (pic_imr 0x20 (k_io k')).
Proof.
  intros Hl He Hr. unfold keyboard_initialize, irq_register_handler. cbn [k_handlers k_io with_io isr_register_handler].
  split_and!.
  - done.
  - apply list_lookup_insert_eq. rewrite Hl. by apply Nat.ltb_lt.
  - intros j Hj. apply list_lookup_insert_ne. intros E. by rewrite <- E in Hj.
  - unfold pic_clear_mask, io_in, KBD_IRQ, PIC1_DATA. change (1 <? 8) with true. cbn match.
    unfold io_out. rewrite (R1 _ He), u8_idem, (u8_small (pic_imr 0x20 _)) by done.
    rewrite (pic_imr_write 0x20 0x21) by (by rewrite (pic_expect_skip 0x20 0x21)).
    by apply mask_clear.
Qed.

Lemma keyboard_initialize_ready_witness :
  let b1 := Chip 0 0xFF 0x20 [] in
  let '(b, k) := keyboard_initialize (H := pc_device b1 b1 (fun _ _ => 0)) 0x1234 kbd_boot
                   (Kernel [] (IdtPtr 0 0) (replicate 256 0) (Tty 0 0 7 ∅) []) in
  k_handlers k !! 33%nat = Some 0x1234 /\ mask_line 0xFF 1 false 0xFD.
Proof.
  pose proof (keyboard_initialize_ready (D := pc_device (Chip 0 0xFF 0x20 []) (Chip 0 0xFF 0x20 []) (fun _ _ => 0))
    (P1 := pc_pic1 (Chip 0 0xFF 0x20 [])) (R1 := pc_reads1 _ _ _) 0x1234 kbd_boot
    (Kernel [] (IdtPtr 0 0) (replicate 256 0) (Tty 0 0 7 ∅) []) eq_refl eq_refl ltac:(by vm_compute)) as H.
  cbn zeta. destruct H as (_ & H1 & _ & H2). split; [exact H1 | exact H2].
Defined.
