(* ===== verification/KernelMain.v ===== *)
(** * The i386 kernel's entry point

    [src/legacy/kernel/kernel.c]: [kernel_main] composed of the terminal, the C
    library and the interrupt set-up. *)

From S2P Require Import Prelude Machine Tty Stdio Interrupts.

(** ** The code *)

(** The digits of [print_hex32] of [kernel.c], a copy of the one of
    [interrupts.c]. *)
Definition main_print_hex32 (fuel : nat) (v : Z) (t : tty) : option tty :=
  t ← terminal_writestring fuel (bytes "0x") t;
  foldM (fun shift t =>
           let nibble := u8 ((v .>> shift) .& 0xF) in
           terminal_putchar fuel (if nibble <? 10 then 48 + nibble else 65 + (nibble - 10)) t)
        [28; 24; 20; 16; 12; 8; 4; 0] t.

(** A call of [printf] whose result is ignored. *)
Definition kprintf (fuel : nat) (fmt : list Z) (k : kernel) : option kernel :=
  '(_, t) ← printf fuel fmt [] (k_tty k); Some (with_tty t k).

Section Main.
Context `{Device} (isr_stub irq_stub : Z -> Z) (idt_addr : Z).
Variable call : Z -> registers -> kernel -> option outcome.

(** [regs] is what the processor and the stub save for [int $33]; [Halted] is the
    final loop of [hlt]. *)
Definition kernel_main (fuel : nat) (regs : registers) (k : kernel) : option outcome :=
  let k := with_tty (terminal_initialize (k_tty k)) k in
  k ← kprintf fuel (bytes "SzOS" ++ [10]) k;
  let k := interrupts_initialize isr_stub irq_stub idt_addr k in
  k ← kprintf fuel (bytes "irq1=") k;
  t ← main_print_hex32 fuel (u32 (irq_stub 1)) (k_tty k);
  let k := with_tty t k in
  k ← kprintf fuel [10] k;
  let k := interrupts_enable k in
  k ← kprintf fuel (bytes "Antes do int 33" ++ [10]) k;
  o ← deliver call fuel regs (with_io (Int 33 :: k_io k) k);
  match o with
  | Halted k => Some (Halted k)
  | Return k =>
      k ← kprintf fuel (bytes "depois do int 33 - stub OK" ++ [10]) k;
      Some (Halted (with_io (Hlt :: k_io k) k))
  end.
End Main.

(** ** Specification *)

Definition main_text (irq1 : Z) : list Z :=
  bytes "SzOS" ++ [10] ++ bytes "irq1=" ++ (bytes "0x" ++ map hex_digit (hex_nibbles irq1)) ++ [10] ++
  bytes "Antes do int 33" ++ [10] ++ bytes "depois do int 33 - stub OK" ++ [10].

(** The accesses of the initialisation, the oldest first: the table of [idt_addr]
    is loaded; the masks [a1] and [a2] are read, both controllers get the four
    initialisation words and their masks back, with a wait after each word; then
    everything is masked but line 1. *)
Definition wait : event := Out 0x80 0.
Definition init_history (idt_addr a1 a2 : Z) : trace :=
  [Lidt 0x7FF (u32 idt_addr); In 0x21 a1; In 0xA1 a2; Out 0x20 0x11; wait; Out 0xA0 0x11; wait; Out 0x21 32; wait; Out 0xA1 40; wait;
   Out 0x21 4; wait; Out 0xA1 2; wait; Out 0x21 1; wait; Out 0xA1 1; wait; Out 0x21 a1; Out 0xA1 a2; Out 0x21 0xFF; Out 0xA1 0xFF; Out 0x21 0xFD].

(** Interrupts on, interrupt 33 with its acknowledgement, the halt. *)
Definition main_history (idt_addr a1 a2 : Z) : trace :=
  init_history idt_addr a1 a2 ++ [Sti; Int 33; Cli; Out 0x20 0x20; Sti; Hlt].

(** ** Proofs *)

Lemma main_print_hex32_spec fuel v t : 0 <= v < 2 ^ 32 ->
  main_print_hex32 fuel v t = terminal_write fuel (bytes "0x" ++ map hex_digit (hex_nibbles v)) t.
Proof.
  intros Hv. unfold main_print_hex32, terminal_writestring. rewrite terminal_write_app.
  destruct (terminal_write fuel (bytes "0x") t) as [t'|]; [|done]. cbn [mbind option_bind].
  rewrite (foldM_putchar_map fuel (fun shift => hex_digit (u8 ((v .>> shift) .& 0xF)))).
  unfold hex_nibbles. rewrite map_map. f_equal. apply map_ext. intros s.
  by rewrite u8_small by (rewrite land_15; dlia).
Qed.

(** A format that [printf] writes as it is. *)
Definition plain_format (fmt : list Z) : bool :=
  forallb (fun c => negb (c =? 37)) fmt && (Z.of_nat (length fmt) <=? INT_MAX).

Lemma kprintf_plain fuel fmt k : plain_format fmt = true ->
  kprintf fuel fmt k = t ← terminal_write fuel fmt (k_tty k); Some (with_tty t k).
Proof.
  intros [Hf Hl]%andb_prop. apply Z.leb_le in Hl. rewrite forallb_forall in Hf.
  unfold kprintf. rewrite printf_plain; [| |done].
  2: { apply Forall_forall. intros c Hc ->. by apply Hf in Hc. }
  by destruct (terminal_write fuel fmt (k_tty k)).
Qed.

Lemma main_text_no_tab a : 0 <= a < 2 ^ 32 -> Forall (fun c => u8 c <> 9) (main_text a).
Proof.
  intros Ha. unfold main_text. rewrite !Forall_app.
  destruct (print_hex32_spec 0 a (Tty 0 0 0 ∅) Ha) as (_ & _ & Hn).
  do 3 (split; [by apply (bool_decide_unpack _) |]).
  split; [split; [by apply (bool_decide_unpack _) |] | by split_and!; apply (bool_decide_unpack _)].
  apply Forall_map. eapply Forall_impl; [|exact Hn]. intros d Hd. cbn beta in *. unfold hex_digit.
  zcase; rewrite u8_small; lia.
Qed.

(** The initialisation does not look at the terminal. *)
Lemma interrupts_initialize_facts `{D : Device} `{P1 : !Pic8259 0x20 0x21} `{P2 : !Pic8259 0xA0 0xA1}
    isr_stub irq_stub idt_addr k : exists ki,
  (forall t, interrupts_initialize isr_stub irq_stub idt_addr (with_tty t k) = with_tty t ki) /\
  k_idt ki !! 33%nat = Some (gate_for (irq_stub 1)) /\
  pic_imr 0x20 (k_io ki) = 0xFD /\ pic_imr 0xA0 (k_io ki) = 0xFF /\
  exists a1 a2, 0 <= a1 < 256 /\ 0 <= a2 < 256 /\ k_io ki = rev (init_history idt_addr a1 a2) ++ k_io k.
Proof.
  exists (interrupts_initialize isr_stub irq_stub idt_addr k). split_and!; [done | | | |].
  - apply (initialize_gate isr_stub irq_stub idt_addr k 33). lia.
  - apply (initialize_pic isr_stub irq_stub idt_addr k).
  - apply (initialize_pic isr_stub irq_stub idt_addr k).
  - set (tr := Lidt 0x7FF (u32 idt_addr) :: k_io k).
    set (a1 := u8 (dev_in tr 0x21)). set (a2 := u8 (dev_in (In 0x21 a1 :: tr) 0xA1)).
    assert (0 <= a1 < 256) as H1 by apply u8_range. assert (0 <= a2 < 256) as H2 by apply u8_range.
    exists a1, a2. split; [exact H1 |]. split; [exact H2 |].
    transitivity (Out 0x21 0xFD :: Out 0xA1 0xFF :: Out 0x21 0xFF :: Out 0xA1 (u8 a2) :: Out 0x21 (u8 a1)
      :: rev (skipn 3 (take 19 (init_history idt_addr a1 a2))) ++ In 0xA1 a2 :: In 0x21 a1 :: tr); [reflexivity |].
    rewrite (u8_small a1), (u8_small a2) by done. reflexivity.
Qed.

(** C13. kernel_main, whatever the machine state, returns from the int 33 it
    issues and ends halted having printed exactly the boot text (with the
    address of the irq1 stub in hexadecimal) on a cleared screen, and the port
    history it leaves is exactly the initialisation of the table and of the
    controllers, sti, the delivery of interrupt 33 and the halt; then
    interrupts are on, only line 1 is unmasked and gate 33 is that of its
    stub. *)
Theorem kernel_main_runs `{D : Device} `{P1 : !Pic8259 0x20 0x21} `{P2 : !Pic8259 0xA0 0xA1}
    isr_stub irq_stub idt_addr call fuel regs k :
  int_no regs = 33 -> (8 <= fuel)%nat ->
  exists k', kernel_main isr_stub irq_stub idt_addr call fuel regs k = Some (Halted k') /\
    terminal_write fuel (main_text (u32 (irq_stub 1))) (terminal_initialize (k_tty k)) = Some (k_tty k') /\
    tty_wf (k_tty k') /\
    (exists a1 a2, 0 <= a1 < 256 /\ 0 <= a2 < 256 /\ k_io k' = rev (main_history idt_addr a1 a2) ++ k_io k) /\
    if_flag (k_io k') = true /\ pic_imr 0x20 (k_io k') = 0xFD /\ pic_imr 0xA0 (k_io k') = 0xFF /\
    k_idt k' !! 33%nat = Some (gate_for (irq_stub 1)).
Proof.
  intros Hregs Hf. pose proof (u32_range (irq_stub 1)) as Hr.
  pose proof (terminal_initialize_wf (k_tty k)) as Hwf0. unfold kernel_main.
  revert Hwf0. generalize (terminal_initialize (k_tty k)). intros t0 Hwf0.
  destruct (terminal_write_no_tab fuel (main_text (u32 (irq_stub 1))) t0)
    as (t' & Hw & Hwf & _); [done | done | by apply main_text_no_tab |].
  destruct (interrupts_initialize_facts isr_stub irq_stub idt_addr k) as (ki & Hki & Hidt & Hp1 & Hp2 & a1 & a2 & Ha1 & Ha2 & Hio).
  exists (with_io (Hlt :: Sti :: Out 0x20 0x20 :: Cli :: Int 33 :: Sti :: k_io ki) (with_tty t' ki)).
  split_and!; [| done | done | | done | | | exact Hidt].
  - transitivity (t ← terminal_write fuel (main_text (u32 (irq_stub 1))) t0;
      Some (Halted (with_io (Hlt :: Sti :: Out 0x20 0x20 :: Cli :: Int 33 :: Sti :: k_io ki) (with_tty t ki))));
      [| by rewrite Hw].
    clear Hw Hwf t'. assert (plain_format [10] = true) as F0 by done.
    assert (plain_format (bytes "SzOS" ++ [10]) = true) as F1 by done.
    assert (plain_format (bytes "irq1=") = true) as F2 by done.
    assert (plain_format (bytes "Antes do int 33" ++ [10]) = true) as F3 by done.
    assert (plain_format (bytes "depois do int 33 - stub OK" ++ [10]) = true) as F4 by done.
    assert (forall t, main_print_hex32 fuel (u32 (irq_stub 1)) t = terminal_write fuel
       (bytes "0x" ++ map hex_digit (hex_nibbles (u32 (irq_stub 1)))) t) as Hx by (intros; by apply main_print_hex32_spec).
    unfold main_text. revert F1 F2 F3 F4 Hx.
    repeat match goal with |- context [bytes ?s] => generalize (bytes s); intros ? end.
    intros F1 F2 F3 F4 Hx. rewrite kprintf_plain by done.
    assert (forall k1, deliver call fuel regs k1
              = Some (Return (with_io (Sti :: Out 0x20 0x20 :: Cli :: k_io k1) k1))) as Hd
      by (intros; unfold deliver; by rewrite Hregs).
    assert (forall t, interrupts_initialize isr_stub irq_stub idt_addr (with_tty t (with_tty t0 k))
              = with_tty t ki) as Hki' by exact Hki.
    cbn [k_tty with_tty].
    tty_steps (terminal_write fuel) using
      (repeat first [rewrite kprintf_plain by done | rewrite Hx | rewrite Hd | rewrite Hki'
                    | progress cbn [mbind option_bind k_tty with_tty with_io interrupts_enable k_io]
                    | rewrite terminal_write_app]).
  - exists a1, a2. split; [done |]. split; [done |]. cbn [k_io with_io]. by rewrite Hio.
  - cbn [k_io with_io].
    destruct (pic_sym_sound 0x20 0x21 ltac:(done) [Hlt; Sti; Out 0x20 0x20; Cli; Int 33; Sti]
      (Obs None (Some 0xFD) None None) (k_io ki)) as (_ & H & _); [by split_and!; intros ? [= <-] |].
    by apply H.
  - cbn [k_io with_io]. by rewrite !(pic_imr_skip 0xA0 0xA1) by misses.
Qed.

Lemma kernel_main_runs_witness :
  exists k', kernel_main (H := fun _ _ => 0) (fun i => 0x1000 + i) (fun i => 0x101000 + i) 0x5000
    (fun _ _ _ => None) 8 (Registers 0 0 0 0 0 0 0 0 0 33 0 0 0 0 0 0)
    (Kernel [] (IdtPtr 0 0) [] (Tty 9 9 9 ∅) []) = Some (Halted k') /\ if_flag (k_io k') = true /\ length (k_io k') = 30%nat.
Proof.
  destruct (kernel_main_runs (D := fun _ _ => 0) (P1 := pc_pic1 (Chip 0 0 0 [])) (P2 := pc_pic2 (Chip 0 0 0 []))
    (fun i => 0x1000 + i) (fun i => 0x101000 + i) 0x5000 (fun _ _ _ => None) 8
    (Registers 0 0 0 0 0 0 0 0 0 33 0 0 0 0 0 0) (Kernel [] (IdtPtr 0 0) [] (Tty 9 9 9 ∅) []))
    as (k' & H & _ & _ & (a1 & a2 & _ & _ & Hio) & Hi & _); [reflexivity | lia |].
  exists k'. split; [exact H |]. split; [exact Hi |]. by rewrite Hio.
Defined.
