(* ===== verification/KcScreen.v ===== *)
(** * The screen driver of the first kernel

    [src/legacy/kernel-c/drivers/screen.c], with [memory_copy] of
    [kernel/util.c]: text memory at [0xb8000] with scrolling, and the hardware
    cursor behind ports [0x3d4] and [0x3d5]. *)

From S2P Require Import Prelude Machine LibcString.

(** ** The code *)

Definition VIDEO_ADDRESS : Z := 0xb8000.
Definition MAX_ROWS : Z := 25.
Definition MAX_COLS : Z := 80.
Definition WHITE_ON_BLACK : Z := 0x0f.
Definition RED_ON_WHITE : Z := 0xf4.
Definition REG_SCREEN_CTRL : Z := 0x3d4.
Definition REG_SCREEN_DATA : Z := 0x3d5.

(** What the driver acts on: memory and ports. *)
Record console := Console { c_mem : mem; c_io : trace }.

Definition memory_copy (source dest nbytes : Z) (m : mem) : mem :=
  for_range 0 nbytes (fun i m => st m (dest + i) (ld m (source + i))) m.

Definition get_offset (col row : Z) : Z := 2 * (row * MAX_COLS + col).
Definition get_offset_row (offset : Z) : Z := Z.quot offset (2 * MAX_COLS).
Definition get_offset_col (offset : Z) : Z :=
  Z.quot (offset - get_offset_row offset * 2 * MAX_COLS) 2.

Section Cursor.
Context `{Device}.

Definition get_cursor_offset (s : console) : Z * console :=
  let tr := io_out REG_SCREEN_CTRL 14 (c_io s) in
  let '(hi, tr) := io_in REG_SCREEN_DATA tr in
  let offset := hi .<< 8 in
  let tr := io_out REG_SCREEN_CTRL 15 tr in
  let '(lo, tr) := io_in REG_SCREEN_DATA tr in
  ((offset + lo) * 2, Console (c_mem s) tr).

Definition set_cursor_offset (offset : Z) (s : console) : console :=
  let offset := Z.quot offset 2 in
  let tr := io_out REG_SCREEN_CTRL 14 (c_io s) in
  let tr := io_out REG_SCREEN_DATA (u8 (offset .>> 8)) tr in
  let tr := io_out REG_SCREEN_CTRL 15 tr in
  let tr := io_out REG_SCREEN_DATA (u8 (offset .& 0xff)) tr in
  Console (c_mem s) tr.

(** The scrolling part of [print_char]: rows 1 to 24 move up, the last is
    blanked. *)
Definition scroll (m : mem) : mem :=
  let m := for_range 1 MAX_ROWS (fun i m =>
             memory_copy (get_offset 0 i + VIDEO_ADDRESS) (get_offset 0 (i - 1) + VIDEO_ADDRESS)
                         (MAX_COLS * 2) m) m in
  let last_line := get_offset 0 (MAX_ROWS - 1) + VIDEO_ADDRESS in
  for_range 0 (MAX_COLS * 2) (fun i m => st m (last_line + i) 0) m.

Definition print_char (c col row attr : Z) (s : console) : Z * console :=
  let attr := if attr =? 0 then WHITE_ON_BLACK else attr in
  if (MAX_COLS <=? col) || (MAX_ROWS <=? row) then
    let m := st (c_mem s) (VIDEO_ADDRESS + (2 * MAX_COLS * MAX_ROWS - 2)) 69 in
    let m := st m (VIDEO_ADDRESS + (2 * MAX_COLS * MAX_ROWS - 1)) RED_ON_WHITE in
    (get_offset col row, Console m (c_io s))
  else
    let '(offset, s) := if (0 <=? col) && (0 <=? row) then (get_offset col row, s)
                        else get_cursor_offset s in
    let '(offset, s) :=
      if c =? 10 then (get_offset 0 (get_offset_row offset + 1), s)
      else (offset + 2,
            Console (st (st (c_mem s) (VIDEO_ADDRESS + offset) (u8 c)) (VIDEO_ADDRESS + offset + 1) (u8 attr))
                    (c_io s)) in
    let '(offset, s) :=
      if MAX_ROWS * MAX_COLS * 2 <=? offset
      then (offset - 2 * MAX_COLS, Console (scroll (c_mem s)) (c_io s))
      else (offset, s) in
    (offset, set_cursor_offset offset s).

(** The loop of [kprint_at] over the rest of the message. *)
Fixpoint kprint_loop (message : list Z) (col row : Z) (s : console) : console :=
  match message with
  | [] => s
  | c :: rest =>
      let '(offset, s) := print_char c col row WHITE_ON_BLACK s in
      kprint_loop rest (get_offset_col offset) (get_offset_row offset) s
  end.

Definition kprint_at (message : list Z) (col row : Z) (s : console) : console :=
  if (0 <=? col) && (0 <=? row) then kprint_loop message col row s
  else
    let '(offset, s) := get_cursor_offset s in
    kprint_loop message (get_offset_col offset) (get_offset_row offset) s.

Definition kprint (message : list Z) (s : console) : console := kprint_at message (-1) (-1) s.

Definition clear_screen (s : console) : console :=
  let screen_size := MAX_COLS * MAX_ROWS in
  let m := for_range 0 screen_size (fun i m =>
             st (st m (VIDEO_ADDRESS + i * 2) 32) (VIDEO_ADDRESS + (i * 2 + 1)) WHITE_ON_BLACK) (c_mem s) in
  set_cursor_offset (get_offset 0 0) (Console m (c_io s)).
End Cursor.

(** ** The cursor registers of the CRT controller

    The index port selects a register, the data port reads and writes it. *)

Fixpoint crtc_index (tr : trace) : Z :=
  match tr with
  | [] => 0
  | Out p v :: tr' => if p =? REG_SCREEN_CTRL then v else crtc_index tr'
  | _ :: tr' => crtc_index tr'
  end.

Fixpoint crtc_reg (boot : Z -> Z) (i : Z) (tr : trace) : Z :=
  match tr with
  | [] => boot i
  | Out p v :: tr' =>
      if (p =? REG_SCREEN_DATA) && (crtc_index tr' =? i) then v else crtc_reg boot i tr'
  | _ :: tr' => crtc_reg boot i tr'
  end.

Class Crtc `{Device} := {
  crtc_boot : Z -> Z;
  crtc_reads : forall tr, dev_in tr REG_SCREEN_DATA = crtc_reg crtc_boot (crtc_index tr) tr }.

(** The position the hardware cursor shows. *)
Definition cursor_pos `{Crtc} (tr : trace) : Z :=
  256 * u8 (crtc_reg crtc_boot 14 tr) + u8 (crtc_reg crtc_boot 15 tr).

(** ** The abstract screen

    2000 cells of a character and an attribute, and a position; reaching the end
    scrolls by one row. *)

Record screen := Screen { scr_pos : Z; scr_cell : Z -> Z * Z }.

Definition scr_scroll (s : screen) : screen :=
  if 2000 <=? scr_pos s
  then Screen (scr_pos s - 80) (fun k => if k <? 1920 then scr_cell s (k + 80) else (0, 0))
  else s.

Definition scr_putc (c attr : Z) (s : screen) : screen :=
  scr_scroll
    (if c =? 10 then Screen (80 * (scr_pos s / 80 + 1)) (scr_cell s)
     else Screen (scr_pos s + 1) (fun k => if k =? scr_pos s then (u8 c, u8 attr) else scr_cell s k)).

(** Memory shows a screen: its 2000 cells, byte by byte. *)
Definition shows (m : mem) (cell : Z -> Z * Z) : Prop :=
  forall k, 0 <= k < 2000 ->
    ld m (VIDEO_ADDRESS + 2 * k) = fst (cell k) /\ ld m (VIDEO_ADDRESS + 2 * k + 1) = snd (cell k).

Definition outside (a : Z) : Prop := ~ (VIDEO_ADDRESS <= a < VIDEO_ADDRESS + 4000).

(** ** Proofs *)

Lemma memory_copy_copied source dest n m :
  0 <= n -> dest <= source \/ source + n <= dest -> copied m dest source n (memory_copy source dest n m).
Proof. apply copy_up. Qed.

Lemma get_offset_coords p : 0 <= p ->
  get_offset_row (2 * p) = p / 80 /\ get_offset_col (2 * p) = p mod 80 /\
  get_offset (p mod 80) (p / 80) = 2 * p.
Proof.
  intros Hp. unfold get_offset_col, get_offset_row, get_offset, MAX_COLS.
  rewrite !Z.quot_div_nonneg by (rewrite ?Z.quot_div_nonneg by lia; dlia). dlia.
Qed.

(** Memory while rows move up: the first [r - 1] rows hold the rows below them. *)
Definition moved_up (m : mem) (r : Z) (m' : mem) : Prop :=
  forall a, ld m' a = if decide (VIDEO_ADDRESS <= a < VIDEO_ADDRESS + 160 * (r - 1))
                      then ld m (a + 160) else ld m a.

Lemma move_rows_spec m r : 1 <= r ->
  moved_up m r (for_range 1 r (fun i m =>
     memory_copy (get_offset 0 i + VIDEO_ADDRESS) (get_offset 0 (i - 1) + VIDEO_ADDRESS) (MAX_COLS * 2) m) m).
Proof.
  intros Hr. apply (for_range_inv (moved_up m)); [done | |].
  - intros b. by rewrite decide_False by lia.
  - intros i m' Hi Hm b. unfold get_offset, MAX_COLS in *.
    rewrite (memory_copy_copied _ _ _ m') by lia. repeat case_decide; try lia; rewrite Hm.
    + rewrite decide_False by lia. f_equal. lia.
    + rewrite decide_True by lia. done.
    + rewrite decide_False by lia. done.
Qed.

Lemma blank_spec m base n a : 0 <= n ->
  ld (for_range 0 n (fun i m => st m (base + i) 0) m) a =
  if decide (base <= a < base + n) then 0 else ld m a.
Proof. intros Hn. by apply (memset_filled m base 0). Qed.

Lemma scroll_spec m a :
  ld (scroll m) a =
    if decide (VIDEO_ADDRESS <= a < VIDEO_ADDRESS + 3840) then ld m (a + 160)
    else if decide (VIDEO_ADDRESS + 3840 <= a < VIDEO_ADDRESS + 4000) then 0 else ld m a.
Proof.
  unfold scroll. rewrite blank_spec by done. rewrite (move_rows_spec m MAX_ROWS) by done.
  unfold get_offset, MAX_ROWS, MAX_COLS. repeat case_decide; try lia; done.
Qed.
#[local] Opaque scroll.

Section Proofs.
Context `{D : Device}.

(** Writing the cursor: four accesses, and memory untouched. *)
Lemma set_cursor_io p s : 0 <= p < 65536 ->
  set_cursor_offset (2 * p) s
  = Console (c_mem s) (Out 0x3d5 (p mod 256) :: Out 0x3d4 15 :: Out 0x3d5 (p / 256) :: Out 0x3d4 14 :: c_io s).
Proof.
  intros Hp. unfold set_cursor_offset, io_out, REG_SCREEN_CTRL, REG_SCREEN_DATA.
  rewrite Z.quot_div_nonneg by lia. replace (2 * p / 2) with p by dlia.
  rewrite land_255, shiftr_div, !u8_idem by lia. change (2 ^ 8) with 256.
  rewrite (u8_small (p / 256)) by dlia. done.
Qed.

Lemma cursor_pos_set `{C : !Crtc} p s : 0 <= p < 65536 -> cursor_pos (c_io (set_cursor_offset (2 * p) s)) = p.
Proof. intros Hp. rewrite set_cursor_io by done. unfold cursor_pos. cbn. cint_lia. Qed.

(** Reading it back: only the index register changes. *)
Lemma get_cursor_pos `{C : !Crtc} s :
  fst (get_cursor_offset s) = 2 * cursor_pos (c_io s) /\
  c_mem (snd (get_cursor_offset s)) = c_mem s /\
  cursor_pos (c_io (snd (get_cursor_offset s))) = cursor_pos (c_io s).
Proof.
  unfold get_cursor_offset, io_in, io_out, cursor_pos. rewrite !crtc_reads. cbn [fst snd c_mem c_io].
  rewrite shiftl_mul by done. split_and!; [|done..]. cbn.
  change (u8 14) with 14. change (u8 15) with 15. change (2 ^ 8) with 256. lia.
Qed.

(** A screen in memory, cell by cell, with one cell written. *)
Lemma shows_store m cell p c attr : 0 <= p < 2000 -> shows m cell ->
  shows (st (st m (VIDEO_ADDRESS + 2 * p) c) (VIDEO_ADDRESS + 2 * p + 1) attr)
        (fun k => if k =? p then (c, attr) else cell k).
Proof.
  intros Hp Hs k Hk. rewrite !ld_st. zcase.
  - subst. rewrite !decide_False, !decide_True by lia. done.
  - rewrite !decide_False by lia. by apply Hs.
Qed.

Lemma shows_scroll m cell : shows m cell ->
  shows (scroll m) (fun k => if k <? 1920 then cell (k + 80) else (0, 0)).
Proof.
  intros Hs k Hk. rewrite !scroll_spec. zcase.
  - specialize (Hs (k + 80) ltac:(lia)).
    replace (VIDEO_ADDRESS + 2 * k + 160) with (VIDEO_ADDRESS + 2 * (k + 80)) by lia.
    replace (VIDEO_ADDRESS + 2 * k + 1 + 160) with (VIDEO_ADDRESS + 2 * (k + 80) + 1) by lia.
    split; rewrite decide_True by lia; apply Hs.
  - split; rewrite decide_False, decide_True by lia; reflexivity.
Qed.

(** One character at the cursor. *)
Lemma print_char_step c p cell s attr :
  0 <= p < 2000 -> 0 < attr < 256 -> shows (c_mem s) cell ->
  let s1 := scr_putc c attr (Screen p cell) in
  let '(offset, s') := print_char c (p mod 80) (p / 80) attr s in
  offset = 2 * scr_pos s1 /\ 0 <= scr_pos s1 < 2000 /\ shows (c_mem s') (scr_cell s1) /\
  (forall a, outside a -> ld (c_mem s') a = ld (c_mem s) a) /\
  c_io s' = Out 0x3d5 (scr_pos s1 mod 256) :: Out 0x3d4 15 :: Out 0x3d5 (scr_pos s1 / 256)
            :: Out 0x3d4 14 :: c_io s.
Proof.
  intros Hp Hat Hs. unfold print_char, MAX_COLS, MAX_ROWS. rewrite (proj2 (Z.eqb_neq attr 0)) by lia.
  rewrite (proj2 (Z.leb_gt 80 _)), (proj2 (Z.leb_gt 25 _)) by dlia. cbn [orb].
  rewrite !(proj2 (Z.leb_le 0 _)) by dlia. cbn [andb].
  destruct (get_offset_coords p) as (Hr & _ & ->); [lia |]. rewrite Hr.
  unfold scr_putc, scr_scroll. cbn [scr_pos scr_cell]. destruct (Z.eqb_spec c 10) as [-> | Hc]; cbn [scr_pos scr_cell].
  - unfold get_offset, MAX_COLS. replace (2 * ((p / 80 + 1) * 80 + 0)) with (2 * (80 * (p / 80 + 1))) by lia.
    repeat zcase; try dlia.
    + replace (2 * (80 * (p / 80 + 1)) - 2 * 80) with (2 * (80 * (p / 80 + 1) - 80)) by lia.
      rewrite set_cursor_io by dlia. cbn [scr_pos scr_cell c_mem c_io].
      split_and!; [done | dlia | dlia | by apply shows_scroll | | done].
      intros a Ha. unfold outside in Ha. rewrite scroll_spec. by rewrite !decide_False by lia.
    + rewrite set_cursor_io by dlia. cbn [scr_pos scr_cell c_mem c_io].
      split_and!; [done | dlia | dlia | done..].
  - replace (2 * p + 2) with (2 * (p + 1)) by lia.
    pose proof (shows_store (c_mem s) cell p (u8 c) (u8 attr) Hp Hs) as Hst.
    repeat zcase; try dlia.
    + replace (2 * (p + 1) - 2 * 80) with (2 * (p + 1 - 80)) by lia.
      rewrite set_cursor_io by dlia. cbn [scr_pos scr_cell c_mem c_io].
      split_and!; [done | dlia | dlia | by apply (shows_scroll _ _ Hst) | | done].
      intros a Ha. unfold outside in Ha. rewrite scroll_spec, !decide_False, !ld_st_ne by lia. done.
    + rewrite set_cursor_io by dlia. cbn [scr_pos scr_cell c_mem c_io].
      split_and!; [done | dlia | dlia | done | | done].
      intros a Ha. unfold outside in Ha. rewrite !ld_st_ne by lia. done.
Qed.

Definition scr_print (message : list Z) (scr : screen) : screen :=
  foldl (fun scr c => scr_putc c WHITE_ON_BLACK scr) scr message.

Lemma kprint_loop_shows `{C : !Crtc} message : forall p cell s,
  0 <= p < 2000 -> shows (c_mem s) cell ->
  let fin := scr_print message (Screen p cell) in
  let s' := kprint_loop message (p mod 80) (p / 80) s in
  shows (c_mem s') (scr_cell fin) /\ 0 <= scr_pos fin < 2000 /\
  (message <> [] -> cursor_pos (c_io s') = scr_pos fin) /\
  (forall a, outside a -> ld (c_mem s') a = ld (c_mem s) a) /\
  (message = [] -> s' = s).
Proof.
  induction message as [|c rest IH]; intros p cell s Hp Hs fin s'; [done |]. subst fin s'.
  cbn [kprint_loop scr_print foldl].
  pose proof (print_char_step c p cell s WHITE_ON_BLACK Hp ltac:(done) Hs) as Hc. cbv zeta in Hc.
  destruct (print_char c (p mod 80) (p / 80) WHITE_ON_BLACK s) as [offset s1].
  destruct Hc as (-> & Hp1 & Hs1 & Ho1 & Hio).
  destruct (scr_putc c WHITE_ON_BLACK (Screen p cell)) as [p1 cell1]. cbn [scr_pos scr_cell] in *.
  destruct (get_offset_coords p1) as (-> & -> & _); [lia |].
  destruct (IH p1 cell1 s1 Hp1 Hs1) as (Hs2 & Hp2 & Hc2 & Ho2 & He2).
  split_and!; [done | apply Hp2 | apply Hp2 | | | done].
  - intros _. destruct rest as [|c' rest']; [|by apply Hc2].
    rewrite (He2 eq_refl), Hio. unfold cursor_pos. cbn. cint_lia.
  - intros a Ha. rewrite Ho2, Ho1; done.
Qed.

(** Where [kprint_at] starts. *)
Definition start_pos `{C : !Crtc} (col row : Z) (s : console) : Z :=
  if (0 <=? col) && (0 <=? row) then row * 80 + col else cursor_pos (c_io s).

(** [kprint_at] from its starting position. *)
Lemma kprint_at_screen `{C : !Crtc} message col row s cell :
  col < 80 -> row < 25 -> cursor_pos (c_io s) < 2000 -> shows (c_mem s) cell ->
  let fin := scr_print message (Screen (start_pos col row s) cell) in
  let s' := kprint_at message col row s in
  shows (c_mem s') (scr_cell fin) /\ 0 <= scr_pos fin < 2000 /\
  (message <> [] -> cursor_pos (c_io s') = scr_pos fin) /\
  (forall a, outside a -> ld (c_mem s') a = ld (c_mem s) a).
Proof.
  intros Hcol Hrow Hcur Hs. unfold kprint_at, start_pos. destruct ((0 <=? col) && (0 <=? row)) eqn:Hb.
  - apply andb_prop in Hb as [H1%Z.leb_le H2%Z.leb_le].
    destruct (kprint_loop_shows message (row * 80 + col) cell s) as (? & ? & ? & ? & _); [lia | done |].
    replace ((row * 80 + col) mod 80) with col in * by dlia.
    replace ((row * 80 + col) / 80) with row in * by dlia. done.
  - destruct (get_cursor_pos s) as (Ho & Hm & Hc). destruct (get_cursor_offset s) as [o s1].
    cbn [fst snd] in *. subst o.
    assert (0 <= cursor_pos (c_io s)) as H0 by (unfold cursor_pos; cint_lia).
    destruct (get_offset_coords (cursor_pos (c_io s)) H0) as (-> & -> & _).
    rewrite <- Hm in Hs |- *.
    destruct (kprint_loop_shows message (cursor_pos (c_io s)) cell s1) as (? & ? & ? & ? & _); done.
Qed.

(** C22. kprint_at (and kprint, from the cursor) writes the message on the
    80x25 text screen exactly as the abstract screen does: characters with
    their attribute, newline, and scrolling by one row at the end; the
    hardware cursor follows and no byte outside text memory changes. *)
Theorem kprint_at_shows `{C : !Crtc} message col row s cell :
  col < 80 -> row < 25 -> cursor_pos (c_io s) < 2000 -> shows (c_mem s) cell ->
  let fin := scr_print message (Screen (start_pos col row s) cell) in
  let s' := kprint_at message col row s in
  shows (c_mem s') (scr_cell fin) /\ 0 <= scr_pos fin < 2000 /\
  (message <> [] -> cursor_pos (c_io s') = scr_pos fin) /\
  (forall a, outside a -> ld (c_mem s') a = ld (c_mem s) a).
Proof. apply kprint_at_screen. Qed.

(** Memory and cursor registers show a screen; [kprint] keeps it so. *)
Definition displays `{C : !Crtc} (s : console) (scr : screen) : Prop :=
  shows (c_mem s) (scr_cell scr) /\ cursor_pos (c_io s) = scr_pos scr /\ scr_pos scr < 2000.

Lemma kprint_displays `{C : !Crtc} message s scr : displays s scr ->
  displays (kprint message s) (scr_print message scr) /\
  (forall a, outside a -> ld (c_mem (kprint message s)) a = ld (c_mem s) a).
Proof.
  intros (Hs & Hc & Hp). destruct scr as [p cell]. cbn [scr_pos scr_cell] in *.
  destruct (kprint_at_screen message (-1) (-1) s cell) as (H1 & H2 & H3 & H4); [lia | lia | lia | done |].
  fold (kprint message s) in *. change (start_pos (-1) (-1) s) with (cursor_pos (c_io s)) in *.
  rewrite Hc in *. split; [|done]. split_and!; [done | | apply H2].
  destruct message as [|c rest]; [|by apply H3]. rewrite <- Hc.
  unfold kprint, kprint_at. cbn [Z.leb andb]. pose proof (get_cursor_pos s) as (_ & _ & Hg).
  destruct (get_cursor_offset s) as [o s1]. exact Hg.
Qed.

(** What the driver does to the ports: the two cursor ports, nothing else. *)
Definition cursor_event (e : event) : Prop :=
  match e with
  | Out p _ => p = REG_SCREEN_CTRL \/ p = REG_SCREEN_DATA
  | In p _ => p = REG_SCREEN_DATA
  | _ => False
  end.

Definition cursor_only (tr tr' : trace) : Prop := exists es, tr' = es ++ tr /\ Forall cursor_event es.

Lemma cursor_only_refl tr : cursor_only tr tr.
Proof. by exists []. Qed.
Lemma cursor_only_trans tr1 tr2 tr3 : cursor_only tr1 tr2 -> cursor_only tr2 tr3 -> cursor_only tr1 tr3.
Proof.
  intros (e1 & -> & H1) (e2 & -> & H2). exists (e2 ++ e1).
  split; [by rewrite <- app_assoc | by apply Forall_app].
Qed.

Ltac cursor_events := first [by left | by right | done].

Lemma get_cursor_only s : cursor_only (c_io s) (c_io (snd (get_cursor_offset s))).
Proof.
  eexists [_; _; _; _]. split; [reflexivity |]. rewrite !Forall_cons_iff.
  split_and!; try apply Forall_nil_2; cursor_events.
Qed.

Lemma set_cursor_only offset s : cursor_only (c_io s) (c_io (set_cursor_offset offset s)).
Proof.
  eexists [_; _; _; _]. split; [reflexivity |]. rewrite !Forall_cons_iff.
  split_and!; try apply Forall_nil_2; cursor_events.
Qed.

Lemma print_char_only c col row attr s : cursor_only (c_io s) (c_io (snd (print_char c col row attr s))).
Proof.
  unfold print_char. destruct (_ || _); [apply cursor_only_refl |].
  destruct ((0 <=? col) && (0 <=? row)).
  - destruct (c =? 10); destruct (_ <=? _);
      (eapply cursor_only_trans; [|apply set_cursor_only]; apply cursor_only_refl).
  - pose proof (get_cursor_only s) as Hg. destruct (get_cursor_offset s) as [o s1].
    eapply cursor_only_trans; [apply Hg |]. cbn [snd].
    destruct (c =? 10); destruct (_ <=? _);
      (eapply cursor_only_trans; [|apply set_cursor_only]; apply cursor_only_refl).
Qed.

Lemma kprint_at_only message col row s : cursor_only (c_io s) (c_io (kprint_at message col row s)).
Proof.
  assert (forall message col row s, cursor_only (c_io s) (c_io (kprint_loop message col row s))) as Hl.
  { clear. induction message as [|c rest IH]; intros col row s; cbn [kprint_loop]; [apply cursor_only_refl |].
    pose proof (print_char_only c col row WHITE_ON_BLACK s) as Hc.
    destruct (print_char c col row WHITE_ON_BLACK s) as [o s1].
    eapply cursor_only_trans; [apply Hc | apply IH]. }
  unfold kprint_at. destruct (_ && _); [apply Hl |].
  pose proof (get_cursor_only s) as Hg. destruct (get_cursor_offset s) as [o s1].
  eapply cursor_only_trans; [apply Hg | apply Hl].
Qed.

Lemma clear_loop m n : 0 <= n ->
  forall a, ld (for_range 0 n (fun i m =>
      st (st m (VIDEO_ADDRESS + i * 2) 32) (VIDEO_ADDRESS + (i * 2 + 1)) WHITE_ON_BLACK) m) a =
  if decide (VIDEO_ADDRESS <= a < VIDEO_ADDRESS + 2 * n)
  then if (a - VIDEO_ADDRESS) mod 2 =? 0 then 32 else WHITE_ON_BLACK
  else ld m a.
Proof.
  intros Hn. revert n Hn. apply (natlike_ind (fun n => forall a, _)).
  - intros a. rewrite for_range_empty, decide_False by lia. done.
  - intros n Hn IH a. rewrite for_range_last by lia. replace (Z.succ n - 1) with n by lia.
    rewrite !ld_st, IH. repeat (case_decide || zcase); try dlia; done.
Qed.

(** [clear_screen] blanks the 2000 cells, homes the hardware cursor and
    touches nothing else. *)
Theorem clear_screen_blanks `{C : !Crtc} s :
  let s' := clear_screen s in
  shows (c_mem s') (fun _ => (32, WHITE_ON_BLACK)) /\ cursor_pos (c_io s') = 0 /\
  (forall a, outside a -> ld (c_mem s') a = ld (c_mem s) a).
Proof.
  unfold clear_screen. change (get_offset 0 0) with (2 * 0).
  pose proof (clear_loop (c_mem s) (MAX_COLS * MAX_ROWS) ltac:(done)) as Hl.
  set (m := for_range _ _ _ _) in *. clearbody m.
  rewrite cursor_pos_set, set_cursor_io by lia. cbn [c_mem]. unfold outside, MAX_COLS, MAX_ROWS in *.
  split_and!; [|done|].
  - intros k Hk. rewrite !Hl. split; rewrite decide_True by lia; zcase; try dlia; done.
  - intros a Ha. rewrite Hl, decide_False by lia. done.
Qed.

(** Coordinates outside the screen put a red E in the last cell and move
    neither the cursor nor anything else. *)
Theorem print_char_invalid c col row attr s :
  80 <= col \/ 25 <= row ->
  let '(offset, s') := print_char c col row attr s in
  offset = get_offset col row /\ c_io s' = c_io s /\
  ld (c_mem s') (VIDEO_ADDRESS + 3998) = 69 /\ ld (c_mem s') (VIDEO_ADDRESS + 3999) = RED_ON_WHITE /\
  (forall a, ~ (VIDEO_ADDRESS + 3998 <= a < VIDEO_ADDRESS + 4000) -> ld (c_mem s') a = ld (c_mem s) a).
Proof.
  intros H. unfold print_char.
  replace ((MAX_COLS <=? col) || (MAX_ROWS <=? row)) with true
    by (symmetry; apply orb_true_iff; rewrite !Z.leb_le; done).
  unfold MAX_COLS, MAX_ROWS. cbn [c_mem c_io].
  split_and!; [done | done | by rewrite ld_st_ne, ld_st_eq | by rewrite ld_st_eq |].
  intros a Ha. rewrite !ld_st_ne by lia. done.
Qed.
End Proofs.

(** ** Witnesses: a CRT controller whose registers start at 0 *)

Definition crtc_device : Device := fun tr p =>
  if p =? REG_SCREEN_DATA then crtc_reg (fun _ => 0) (crtc_index tr) tr else 0.

#[global] Instance crtc_model : @Crtc crtc_device.
Proof. by exists (fun _ => 0). Defined.

(** ["hi\n"] at the cursor of a blank screen, then a line at the last row,
    which scrolls. *)
Lemma kprint_at_shows_witness :
  let s' := @kprint_at crtc_device (bytes "hi") (-1) (-1) (Console ∅ []) in
  ld (c_mem s') 0xb8000 = 104 /\ ld (c_mem s') 0xb8002 = 105 /\
  @cursor_pos crtc_device crtc_model (c_io s') = 2.
Proof.
  assert (shows ∅ (fun _ => (0, 0))) as Hs by (intros k Hk; split; reflexivity).
  destruct (@kprint_at_shows crtc_device crtc_model (bytes "hi") (-1) (-1) (Console ∅ []) (fun _ => (0, 0)))
    as (H1 & H2 & H3 & H4); [lia | lia | vm_compute; reflexivity | exact Hs |].
  split; [apply (H1 0); lia |]. split; [apply (H1 1); lia |]. apply H3. discriminate.
Defined.

Lemma print_char_invalid_witness :
  let '(offset, s') := @print_char crtc_device 65 80 0 0 (Console ∅ []) in
  offset = 160 /\ ld (c_mem s') 0xb8f9e = 69.
Proof.
  pose proof (@print_char_invalid crtc_device 65 80 0 0 (Console ∅ []) (or_introl (Z.le_refl 80))) as H.
  destruct (@print_char crtc_device 65 80 0 0 (Console ∅ [])) as [offset s'].
  split; [apply H | apply H].
Defined.
