(* ===== verification/KcUtil.v ===== *)
(** * Utilities of the first kernel

    [src/legacy/kernel-c/]: the number conversion of [kernel/util.c], the
    allocator of [kernel/heap.c] and the graphics driver [drivers/vga.c]. *)

From S2P Require Import Prelude Machine LibcString.

(** ** The code *)

(** [int_to_ascii]: the [do ... while] extracts digits from the right, the last
    loop reverses the string in place.  The state is [i], [n] and memory;
    [n = -n] wraps for the smallest integer.  [None] only if ten rounds were not
    enough. *)
Definition put_digit (str : Z) (s : Z * Z * mem) : Z * Z * mem :=
  let '(i, n, m) := s in (i + 1, Z.quot n 10, st m (str + i) (u8 (Z.rem n 10 + 48))).

Definition reverse_string (str i : Z) (m : mem) : mem :=
  for_range 0 (Z.quot i 2) (fun j m =>
    let temp := ld m (str + j) in
    let m := st m (str + j) (ld m (str + (i - j - 1))) in
    st m (str + (i - j - 1)) temp) m.

Definition int_to_ascii (n str : Z) (m : mem) : option mem :=
  let sign := n in
  let n := if sign <? 0 then s32 (- n) else n in
  '(i, _, m) ← while 10 (fun '(_, n, _) => 0 <? n) (fun s => Some (put_digit str s)) (put_digit str (0, n, m));
  let '(i, m) := if sign <? 0 then (i + 1, st m (str + i) 45) else (i, m) in
  let m := st m (str + i) 0 in
  Some (reverse_string str i m).

(** [heap.c]: a bump allocator. *)
Definition HEAP_START : Z := 0x100000.
Definition HEAP_SIZE : Z := 0x400000.

Record heap := Heap { heap_current : Z; heap_end : Z }.

Definition heap_init (_ : heap) : heap := Heap HEAP_START (u32 (HEAP_START + HEAP_SIZE)).

(** [None]: the request does not fit and the code loops for ever. *)
Definition kmalloc (size : Z) (h : heap) : option (Z * heap) :=
  let size := u32 (size + 3) .& u32 (Z.lnot 3) in
  if heap_end h <? u32 (heap_current h + size) then None
  else Some (heap_current h, Heap (u32 (heap_current h + size)) (heap_end h)).

Definition kfree (ptr : Z) (h : heap) : heap := h.

(** [vga.c]: mode 13h, one byte per pixel. *)
Definition VGA_WIDTH : Z := 320.
Definition VGA_HEIGHT : Z := 200.
Definition VGA_MEMORY : Z := 0xA0000.

Definition vga_put_pixel (x y color : Z) (m : mem) : mem :=
  if (x <? 0) || (VGA_WIDTH <=? x) || (y <? 0) || (VGA_HEIGHT <=? y) then m
  else st m (VGA_MEMORY + (y * VGA_WIDTH + x)) (u8 color).

Definition vga_clear_screen (color : Z) (m : mem) : mem :=
  for_range 0 (VGA_WIDTH * VGA_HEIGHT) (fun i m => st m (VGA_MEMORY + i) (u8 color)) m.

(** ** Numbers *)

(** The decimal text of an [int]. *)
Definition int_text (n : Z) : list Z :=
  (if n <? 0 then [45] else []) ++ map (Z.add 48) (decimal (Z.abs n)).

(** The digit loop over memory is the digit loop over a list. *)
Lemma st_bytes_snoc l x : forall m a, st_bytes m a (l ++ [x]) = st (st_bytes m a l) (a + Z.of_nat (length l)) x.
Proof.
  induction l as [|y l IH]; intros m a; cbn [app st_bytes length].
  - f_equal. lia.
  - rewrite IH. f_equal. lia.
Qed.

Lemma put_digit_list str m n buf : 0 <= n ->
  put_digit str (Z.of_nat (length buf), n, st_bytes m str buf) =
  (Z.of_nat (length (buf ++ [48 + n mod 10])), n / 10, st_bytes m str (buf ++ [48 + n mod 10])).
Proof.
  intros Hn. unfold put_digit. rewrite Z.quot_div_nonneg, Z.rem_mod_nonneg by lia.
  rewrite st_bytes_snoc, length_app. cbn [length]. rewrite u8_small by dlia.
  rewrite Nat2Z.inj_add. by rewrite (Z.add_comm (n mod 10)).
Qed.

Lemma digits_in_memory str m k : forall n buf, 0 <= n ->
  while k (fun '(_, n, _) => 0 <? n) (fun s => Some (put_digit str s))
        (Z.of_nat (length buf), n, st_bytes m str buf) =
  '(n, out) ← while k (fun '(n, _) => 0 <? n) (fun '(n, buf) => Some (n / 10, buf ++ [48 + n mod 10])) (n, buf);
  Some (Z.of_nat (length out), n, st_bytes m str out).
Proof.
  induction k as [|k IH]; intros n buf Hn; cbn [while]; destruct (0 <? n); try done.
  cbn [mbind option_bind]. rewrite put_digit_list by done. apply IH. dlia.
Qed.

(** The first [j] swaps. *)
Definition swapped (str i : Z) (m : mem) (j : Z) (m' : mem) : Prop :=
  forall a, ld m' a = if decide (str <= a < str + j \/ str + i - j <= a < str + i)
                      then ld m (str + (i - 1 - (a - str))) else ld m a.

Lemma reverse_string_spec str i m : 0 <= i ->
  forall a, ld (reverse_string str i m) a =
            if decide (str <= a < str + i) then ld m (str + (i - 1 - (a - str))) else ld m a.
Proof.
  intros Hi. assert (swapped str i m (Z.quot i 2) (reverse_string str i m)) as H.
  { apply (for_range_inv (swapped str i m)); [dlia | |].
    - intros a. by rewrite decide_False by lia.
    - intros j m' Hj Hm a. rewrite Z.quot_div_nonneg in Hj by lia. rewrite !ld_st, !Hm.
      destruct (decide (str + (i - j - 1) = a)) as [<- |].
      + rewrite (decide_False (P := _ \/ _)), decide_True by dlia. f_equal. lia.
      + destruct (decide (str + j = a)) as [<- |].
        * rewrite (decide_False (P := _ \/ _)), decide_True by dlia. f_equal. lia.
        * repeat case_decide; try dlia; done. }
  intros a. rewrite H, Z.quot_div_nonneg by lia. repeat case_decide; try dlia; try done.
  f_equal. dlia.
Qed.

Lemma decimal_cstr n : 0 <= n -> is_cstr (map (Z.add 48) (decimal n)).
Proof.
  intros Hn. unfold is_cstr. rewrite Forall_map. eapply Forall_impl; [|by apply decimal_digits]. cbn. lia.
Qed.

Lemma int_text_cstr n : is_cstr (int_text n).
Proof.
  unfold int_text. apply is_cstr_app. split; [|apply decimal_cstr; lia].
  destruct (n <? 0); repeat constructor.
Qed.

(** The text backwards, as the digit loop and the sign leave it. *)
Definition int_txet (n : Z) : list Z :=
  map (Z.add 48) (rev (decimal (Z.abs n))) ++ (if n <? 0 then [45] else []).

Lemma int_txet_rev n : rev (int_txet n) = int_text n.
Proof.
  unfold int_txet, int_text. rewrite rev_app_distr, <- map_rev, rev_involutive. by destruct (n <? 0).
Qed.

Lemma digits_stored n str m : 0 <= n < 2 ^ 31 ->
  while 10 (fun '(_, n, _) => 0 <? n) (fun s => Some (put_digit str s)) (put_digit str (0, n, m)) =
  let out := map (Z.add 48) (rev (decimal n)) in
  Some (Z.of_nat (length out), 0, st_bytes m str out).
Proof.
  intros Hn. pose proof (put_digit_list str m n [] ltac:(lia)) as H.
  cbn [length st_bytes app] in H. change (Z.of_nat 0) with 0 in H. rewrite H. clear H.
  destruct (decide (n = 0)) as [-> | Hn0].
  - rewrite while_false by done. reflexivity.
  - pose proof (digits_loop (Z.add 48) 11 n [] ltac:(cbn; lia)) as [Hw _].
    rewrite (while_true _ _ _ _ (n / 10, [48 + n mod 10])) in Hw by (done || apply Z.ltb_lt; lia).
    change (Z.of_nat 1) with (Z.of_nat (length [48 + n mod 10])).
    change (st m str (48 + n mod 10)) with (st_bytes m str [48 + n mod 10]).
    rewrite digits_in_memory by dlia. by rewrite Hw.
Qed.

(** A string stored in memory and terminated, then reversed in place. *)
Lemma reversed_list m str l : is_cstr l ->
  let m' := reverse_string str (Z.of_nat (length l)) (st (st_bytes m str l) (str + Z.of_nat (length l)) 0) in
  cstr_at m' str (rev l) /\
  (forall a, ~ (str <= a <= str + Z.of_nat (length l)) -> ld m' a = ld m a).
Proof.
  intros Hl. cbn zeta. unfold cstr_at. rewrite length_rev. split_and!.
  - by apply Forall_rev.
  - intros k c Hk. rewrite reverse_string_spec by lia. rewrite rev_alt in Hk.
    apply reverse_lookup_Some in Hk as [Hk Hlt]. rewrite decide_True, ld_st_ne by lia.
    apply ld_st_bytes_in; [lia |]. by replace (Z.to_nat _) with (length l - S k)%nat by lia.
  - rewrite reverse_string_spec, decide_False by lia. apply ld_st_eq.
  - intros a Ha. rewrite reverse_string_spec, decide_False, ld_st_ne, ld_st_bytes_out by lia. done.
Qed.

(** The whole conversion. *)
Lemma int_to_ascii_stored n str m : - 2 ^ 31 < n < 2 ^ 31 ->
  exists m', int_to_ascii n str m = Some m' /\ cstr_at m' str (int_text n) /\
    (forall a, ~ (str <= a <= str + Z.of_nat (length (int_text n))) -> ld m' a = ld m a).
Proof.
  intros Hn. pose proof (int_txet_rev n) as Hr. pose proof (int_text_cstr n) as Hc.
  rewrite <- Hr in *. rewrite length_rev. assert (is_cstr (int_txet n)) as Hx.
  { rewrite <- (rev_involutive (int_txet n)). by apply Forall_rev. }
  eexists. split; [|by apply (reversed_list m str (int_txet n))].
  unfold int_to_ascii. assert ((if n <? 0 then s32 (- n) else n) = Z.abs n) as ->.
  { zcase; [rewrite s32_small by lia |]; lia. }
  rewrite digits_stored by lia. cbn [mbind option_bind]. unfold int_txet.
  destruct (n <? 0); [|by rewrite app_nil_r].
  rewrite length_app, st_bytes_snoc. cbn [length]. by rewrite Nat2Z.inj_add.
Qed.

(** int_to_ascii stores the decimal text of every int except the smallest,
    with a minus sign and a terminating NUL, and writes no byte beyond it. *)
Theorem int_to_ascii_correct n str m : - 2 ^ 31 < n < 2 ^ 31 ->
  exists m', int_to_ascii n str m = Some m' /\ cstr_at m' str (int_text n) /\
    (forall a, ~ (str <= a <= str + Z.of_nat (length (int_text n))) -> ld m' a = ld m a).
Proof. apply int_to_ascii_stored. Qed.

Lemma int_to_ascii_correct_witness :
  exists m', int_to_ascii (-205) 0x9000 ∅ = Some m' /\ cstr_at m' 0x9000 (bytes "-205").
Proof.
  destruct (int_to_ascii_correct (-205) 0x9000 ∅) as (m' & H1 & H2 & _); [lia |].
  exists m'. split; [exact H1 | exact H2].
Defined.

(** ** The heap *)

(** The request, rounded up to a multiple of 4. *)
Definition rounded (size : Z) : Z := 4 * ((size + 3) / 4).

Lemma kmalloc_size size : 0 <= size < 2 ^ 32 - 3 -> u32 (size + 3) .& u32 (Z.lnot 3) = rounded size.
Proof.
  intros Hs. rewrite u32_small by lia. unfold rounded.
  assert (u32 (Z.lnot 3) = Z.ldiff (Z.ones 32) 3) as -> by reflexivity.
  rewrite Z.mul_comm. change 4 with (2 ^ 2). rewrite <- (shiftr_div (size + 3) 2), <- (shiftl_mul _ 2) by done.
  apply Z.bits_inj'. intros k Hk. rewrite Z.land_spec, Z.ldiff_spec, Z.shiftl_spec by lia.
  destruct (Z.lt_ge_cases k 32) as [H32 | H32].
  - rewrite Z.ones_spec_low by lia. cbn [andb]. destruct (Z.lt_ge_cases k 2).
    + rewrite (Z.testbit_neg_r _ (k - 2)) by lia. assert (k = 0 \/ k = 1) as [-> | ->] by lia; apply andb_false_r.
    + rewrite Z.shiftr_spec by lia. rewrite (testbit_high 3 2) by lia. replace (k - 2 + 2) with k by lia.
      apply andb_true_r.
  - rewrite (testbit_high (size + 3) 32) by lia. rewrite Z.shiftr_spec by lia.
    by rewrite (testbit_high (size + 3) 32) by lia.
Qed.

(** The invariant of the allocator. *)
Definition heap_ok (h : heap) : Prop :=
  heap_end h = HEAP_START + HEAP_SIZE /\ HEAP_START <= heap_current h <= heap_end h /\ (4 | heap_current h).

(** Serve a list of requests: the blocks, and the heap after them. *)
Fixpoint kmalloc_all (sizes : list Z) (h : heap) : option (list Z * heap) :=
  match sizes with
  | [] => Some ([], h)
  | size :: rest =>
      '(p, h) ← kmalloc size h; '(ps, h) ← kmalloc_all rest h; Some (p :: ps, h)
  end.

Definition sane_size (size : Z) : Prop := 0 <= size <= 2 ^ 31.

Lemma kmalloc_step size h : heap_ok h -> sane_size size ->
  kmalloc size h =
  if heap_current h + rounded size <=? heap_end h
  then Some (heap_current h, Heap (heap_current h + rounded size) (heap_end h)) else None.
Proof.
  intros (He & Hc & _) Hs. unfold sane_size, kmalloc, HEAP_START, HEAP_SIZE in *.
  rewrite kmalloc_size by lia. assert (size <= rounded size <= size + 3) as Hr by (unfold rounded; dlia).
  rewrite u32_small by lia. repeat zcase; try lia; done.
Qed.

Lemma rounded_ge size : 0 <= size -> size <= rounded size /\ (4 | rounded size).
Proof. intros H. split; [unfold rounded; dlia | apply Z.divide_factor_l]. Qed.

Lemma heap_ok_step size h : heap_ok h -> 0 <= size -> heap_current h + rounded size <= heap_end h ->
  heap_ok (Heap (heap_current h + rounded size) (heap_end h)).
Proof.
  intros (He & Hc & Hd) Hs Hf. destruct (rounded_ge size Hs). split_and!; cbn; try lia.
  by apply Z.divide_add_r.
Qed.

Definition sizes_total (sizes : list Z) : Z := foldr (fun s t => rounded s + t) 0 sizes.

Lemma sizes_total_nonneg sizes : Forall sane_size sizes -> 0 <= sizes_total sizes.
Proof.
  induction 1 as [|s l [Hs _] _ IH]; cbn; [lia |]. pose proof (rounded_ge s Hs). fold (sizes_total l). lia.
Qed.

(** The blocks start at [base], do not overlap and end before [top]. *)
Fixpoint packed (base top : Z) (sizes ps : list Z) : Prop :=
  match sizes, ps with
  | [], [] => base <= top
  | s :: sizes, p :: ps => base <= p /\ (4 | p) /\ packed (p + s) top sizes ps
  | _, _ => False
  end.

Lemma packed_weaken sizes : forall ps base base' top,
  packed base top sizes ps -> base' <= base -> packed base' top sizes ps.
Proof. destruct sizes, ps; cbn; intros; try tauto; intuition lia. Qed.

Lemma kmalloc_all_step sizes : forall h, heap_ok h -> Forall sane_size sizes ->
  if heap_current h + sizes_total sizes <=? heap_end h
  then exists ps h', kmalloc_all sizes h = Some (ps, h') /\ heap_ok h' /\
       packed (heap_current h) (heap_current h') sizes ps
  else kmalloc_all sizes h = None.
Proof.
  induction sizes as [|s sizes IH]; intros h Hh Hs.
  - rewrite (proj2 (Z.leb_le _ _)) by (destruct Hh; cbn; lia). exists [], h. split_and!; try done. cbn. lia.
  - apply Forall_cons_iff in Hs as [Hs Hss]. cbn [kmalloc_all sizes_total foldr].
    fold (sizes_total sizes). rewrite kmalloc_step by done.
    pose proof (sizes_total_nonneg sizes Hss). destruct (rounded_ge s) as [Hr _]; [apply Hs |].
    destruct (Z.leb_spec (heap_current h + rounded s) (heap_end h)) as [Hf|]; cbn [mbind option_bind].
    + specialize (IH _ (heap_ok_step s h Hh (proj1 Hs) Hf) Hss). cbn [heap_current heap_end] in IH.
      rewrite Z.add_assoc. destruct (_ <=? _).
      * destruct IH as (ps & h' & -> & Hh' & Hp). exists (heap_current h :: ps), h'.
        split_and!; [done | done |]. cbn. split_and!; [lia | apply Hh |].
        eapply packed_weaken; [exact Hp | lia].
      * by rewrite IH.
    + rewrite (proj2 (Z.leb_gt _ _)) by lia. done.
Qed.

(** C24. Any list of requests of at most 2^31 bytes that fits in 4 MB after
    rounding is served by blocks that are 4-aligned, disjoint, in order and
    inside the heap; one that does not fit makes kmalloc hang. *)
Theorem kmalloc_blocks sizes h0 :
  Forall sane_size sizes ->
  if sizes_total sizes <=? HEAP_SIZE
  then exists ps h, kmalloc_all sizes (heap_init h0) = Some (ps, h) /\ heap_ok h /\
       packed HEAP_START (heap_current h) sizes ps
  else kmalloc_all sizes (heap_init h0) = None.
Proof.
  intros Hs. assert (heap_ok (heap_init h0)) as Hh.
  { split_and!; try done. by exists 0x40000. }
  pose proof (kmalloc_all_step sizes (heap_init h0) Hh Hs) as H. cbn [heap_init heap_current heap_end] in H.
  change (u32 (HEAP_START + HEAP_SIZE)) with (HEAP_START + HEAP_SIZE) in H.
  replace (HEAP_START + sizes_total sizes <=? HEAP_START + HEAP_SIZE) with (sizes_total sizes <=? HEAP_SIZE) in H
    by (repeat zcase; lia || done). exact H.
Qed.

Lemma kmalloc_blocks_witness :
  exists ps h, kmalloc_all [128; 5; 4] (heap_init (Heap 0 0)) = Some (ps, h) /\ heap_ok h.
Proof.
  destruct (kmalloc_blocks [128; 5; 4] (Heap 0 0)) as (ps & h & H1 & H2 & _);
    [repeat constructor; lia |]. exists ps, h. split; [exact H1 | exact H2].
Defined.

(** A request of [2^32 - 16] bytes wraps the 32-bit sum and moves the heap
    back by 16 bytes: the next block overlaps the previous one. *)
Theorem kmalloc_huge_request h :
  HEAP_START + 16 <= heap_current h <= heap_end h -> heap_end h = HEAP_START + HEAP_SIZE ->
  kmalloc (2 ^ 32 - 16) h = Some (heap_current h, Heap (heap_current h - 16) (heap_end h)).
Proof.
  intros Hc He. unfold kmalloc, HEAP_START, HEAP_SIZE in *.
  change (u32 (2 ^ 32 - 16 + 3) .& u32 (Z.lnot 3)) with (2 ^ 32 - 16).
  assert (u32 (heap_current h + (2 ^ 32 - 16)) = heap_current h - 16) as -> by cint_lia.
  zcase; [lia | done].
Qed.

(** After [kmalloc(128)] and the huge request, the next block of 16 bytes is
    inside the first block. *)
Lemma kmalloc_huge_request_witness :
  kmalloc_all [128; 2 ^ 32 - 16; 16] (heap_init (Heap 0 0))
  = Some ([0x100000; 0x100080; 0x100070], Heap 0x100080 0x500000).
Proof.
  cbn [kmalloc_all]. change (kmalloc 128 (heap_init (Heap 0 0))) with (Some (0x100000, Heap 0x100080 0x500000)).
  cbn [mbind option_bind]. rewrite kmalloc_huge_request by (done || split; discriminate).
  vm_compute. reflexivity.
Defined.

(** ** Graphics *)

Lemma fill_loop base v n m : 0 <= n ->
  filled m base v n (for_range 0 n (fun i m => st m (base + i) (u8 v)) m).
Proof. apply memset_filled. Qed.

Lemma clear_filled color m : filled m VGA_MEMORY color (VGA_WIDTH * VGA_HEIGHT) (vga_clear_screen color m).
Proof. apply fill_loop. discriminate. Qed.
#[local] Opaque vga_clear_screen.

(** [vga_put_pixel] changes the one pixel it names and nothing when the
    coordinates are outside; [vga_clear_screen] fills every pixel; neither
    writes outside the framebuffer. *)
Theorem vga_pixels x y color m px py :
  0 <= px < VGA_WIDTH -> 0 <= py < VGA_HEIGHT ->
  let pixel m := ld m (VGA_MEMORY + (py * VGA_WIDTH + px)) in
  pixel (vga_put_pixel x y color m) = (if decide (x = px /\ y = py) then u8 color else pixel m) /\
  pixel (vga_clear_screen color m) = u8 color /\
  (forall a, ~ (VGA_MEMORY <= a < VGA_MEMORY + VGA_WIDTH * VGA_HEIGHT) ->
     ld (vga_put_pixel x y color m) a = ld m a /\ ld (vga_clear_screen color m) a = ld m a).
Proof.
  intros Hx Hy pixel. unfold pixel, vga_put_pixel, VGA_WIDTH, VGA_HEIGHT in *. split_and!.
  - repeat zcase; cbn [orb]; try (rewrite decide_False by lia; done).
    rewrite ld_st. repeat case_decide; try lia; done.
  - rewrite clear_filled, decide_True by (unfold VGA_WIDTH, VGA_HEIGHT; lia). done.
  - intros a Ha. rewrite clear_filled, decide_False by (unfold VGA_WIDTH, VGA_HEIGHT; lia). split; [|done].
    repeat zcase; cbn [orb]; try done. apply ld_st_ne. lia.
Qed.

Lemma vga_pixels_witness : ld (vga_put_pixel 160 100 15 ∅) (0xA0000 + (100 * 320 + 160)) = 15.
Proof. refine (proj1 (vga_pixels 160 100 15 ∅ 160 100 _ _)); split; done. Defined.
