(* ===== verification/KcKernel.v ===== *)
(** * The first kernel: interrupts, keyboard and the main program

    [src/legacy/kernel-c/]: [cpu/idt.c], [cpu/isr.c], [cpu/irq.c] with the stubs
    of [cpu/interrupt.asm], [drivers/pic.c], [drivers/keyboard.c] and
    [kernel/kernel.c]. *)

From S2P Require Import Prelude Machine LibcString Tty Interrupts KcScreen KcUtil.

(** ** Descriptor table *)

Record idt_gate_t := IdtGate {
  low_offset : Z; gate_sel : Z; gate_always0 : Z; gate_flags : Z; high_offset : Z }.

Definition gate_zero : idt_gate_t := IdtGate 0 0 0 0 0.

(** Everything the kernel keeps: the console (memory and ports), the tables, the
    state of the keyboard driver and the heap. *)
Record kstate := KState {
  ks_con : console;
  ks_idt : list idt_gate_t;
  key_buffer : list Z;
  last_scancode : Z;
  ks_heap : heap }.

Definition set_con (c : console) (s : kstate) : kstate :=
  KState c (ks_idt s) (key_buffer s) (last_scancode s) (ks_heap s).
Definition set_io (tr : trace) (s : kstate) : kstate := set_con (Console (c_mem (ks_con s)) tr) s.
Definition set_table (i : list idt_gate_t) (s : kstate) : kstate :=
  KState (ks_con s) i (key_buffer s) (last_scancode s) (ks_heap s).
Definition set_keys (b : list Z) (l : Z) (s : kstate) : kstate :=
  KState (ks_con s) (ks_idt s) b l (ks_heap s).
Definition set_heap (h : heap) (s : kstate) : kstate :=
  KState (ks_con s) (ks_idt s) (key_buffer s) (last_scancode s) h.
Definition ks_io (s : kstate) : trace := c_io (ks_con s).

Definition set_idt_gate (n handler : Z) (s : kstate) : kstate :=
  set_table (<[Z.to_nat n := IdtGate (u16 (handler .& 0xFFFF)) 0x08 0 0x8E
                                     (u16 ((handler .>> 16) .& 0xFFFF))]> (ks_idt s)) s.

Definition set_idt (idt_addr : Z) (s : kstate) : kstate :=
  set_io (Lidt (u16 (8 * 256 - 1)) (u32 idt_addr) :: ks_io s) s.

(** The calls [set_idt_gate(b + i, stub_i)], one line each in the code. *)
Definition set_idt_gates (b n : Z) (stub : Z -> Z) (s : kstate) : kstate :=
  for_range 0 n (fun i => set_idt_gate (b + i) (stub i)) s.

Definition isr_install (isr irq : Z -> Z) (idt_addr : Z) (s : kstate) : kstate :=
  let s := set_idt_gates 0 32 isr s in
  let tr := io_out 0x20 0x11 (ks_io s) in
  let tr := io_out 0xA0 0x11 tr in
  let tr := io_out 0x21 0x20 tr in
  let tr := io_out 0xA1 0x28 tr in
  let tr := io_out 0x21 0x04 tr in
  let tr := io_out 0xA1 0x02 tr in
  let tr := io_out 0x21 0x01 tr in
  let tr := io_out 0xA1 0x01 tr in
  let tr := io_out 0x21 0x0 tr in
  let tr := io_out 0xA1 0x0 tr in
  let s := set_idt_gates 32 16 irq (set_io tr s) in
  set_idt idt_addr s.

Definition exception_messages : list (list Z) := map bytes
  ["Division By Zero"; "Debug"; "Non Maskable Interrupt"; "Breakpoint"; "Into Detected Overflow";
   "Out of Bounds"; "Invalid Opcode"; "No Coprocessor";
   "Double Fault"; "Coprocessor Segment Overrun"; "Bad TSS"; "Segment Not Present"; "Stack Fault";
   "General Protection Fault"; "Page Fault"; "Unknown Interrupt";
   "Coprocessor Fault"; "Alignment Check"; "Machine Check"; "Reserved"; "Reserved"; "Reserved";
   "Reserved"; "Reserved";
   "Reserved"; "Reserved"; "Reserved"; "Reserved"; "Reserved"; "Reserved"; "Reserved"; "Reserved"]%string.

Section Kernel.
Context `{Device}.

Definition ks_print (message : list Z) (s : kstate) : kstate := set_con (kprint message (ks_con s)) s.
Definition ks_print_at (message : list Z) (col row : Z) (s : kstate) : kstate :=
  set_con (kprint_at message col row (ks_con s)) s.

(** [isr_handler]; [str] is the address of its local [char s[3]].  [None]: the
    message is read outside its table. *)
Definition isr_handler (str int_no : Z) (s : kstate) : option kstate :=
  let s := ks_print (bytes "received interrupt: ") s in
  m ← int_to_ascii (s32 int_no) str (c_mem (ks_con s));
  let s := set_con (Console m (ks_io s)) s in
  n ← strlen 12 m str;
  let s := ks_print (ld_bytes m str (Z.to_nat n)) s in
  let s := ks_print [10] s in
  msg ← exception_messages !! Z.to_nat int_no;
  let s := ks_print msg s in
  Some (ks_print [10] s).

(** ** Interrupt controllers ([pic.c]) *)

Definition pic_init (s : kstate) : kstate :=
  let '(mask1, tr) := io_in 0x21 (ks_io s) in
  let '(mask2, tr) := io_in 0xA1 tr in
  let tr := io_out 0x20 (0x10 .| 0x01) tr in
  let tr := io_out 0xA0 (0x10 .| 0x01) tr in
  let tr := io_out 0x21 0x20 tr in
  let tr := io_out 0xA1 0x28 tr in
  let tr := io_out 0x21 0x04 tr in
  let tr := io_out 0xA1 0x02 tr in
  let tr := io_out 0x21 0x01 tr in
  let tr := io_out 0xA1 0x01 tr in
  let tr := io_out 0x21 0x00 tr in
  let tr := io_out 0xA1 0x00 tr in
  ks_print (bytes "PIC initialized" ++ [10]) (set_io tr s).

Definition pic_enable_irq (irq : Z) (s : kstate) : kstate :=
  let '(port, irq) := if irq <? 8 then (0x21, irq) else (0xA1, u8 (irq - 8)) in
  let '(value, tr) := io_in port (ks_io s) in
  let value := u8 (value .& Z.lnot (1 .<< irq)) in
  set_io (io_out port value tr) s.

Definition pic_disable_irq (irq : Z) (s : kstate) : kstate :=
  let '(port, irq) := if irq <? 8 then (0x21, irq) else (0xA1, u8 (irq - 8)) in
  let '(value, tr) := io_in port (ks_io s) in
  let value := u8 (value .| (1 .<< irq)) in
  set_io (io_out port value tr) s.

(** ** Keyboard ([keyboard.c]) *)

Definition keyboard_handler (scancode : Z) (s : kstate) : kstate :=
  if negb (scancode .& 0x80 =? 0)
  then set_keys (<[Z.to_nat (scancode .& 0x7F) := 0]> (key_buffer s)) scancode s
  else set_keys (<[Z.to_nat scancode := 1]> (key_buffer s)) scancode s.

Definition key_pressed (key_code : Z) (s : kstate) : bool :=
  negb (nth (Z.to_nat key_code) (key_buffer s) 0 =? 0).

Definition get_last_scancode (s : kstate) : Z := last_scancode s.

Definition keyboard_init (keyboard_isr_addr : Z) (s : kstate) : kstate :=
  let s := set_keys (for_range 0 256 (fun i b => <[Z.to_nat i := 0]> b) (key_buffer s)) (last_scancode s) s in
  ks_print (bytes "Keyboard initialized" ++ [10]) (set_idt_gate 33 keyboard_isr_addr s).

(** ** Hardware interrupts ([irq.c], [interrupt.asm]) *)

Definition irq_handler (irq_number : Z) (s : kstate) : kstate :=
  let s := if irq_number =? 33
           then let '(scancode, tr) := io_in 0x60 (ks_io s) in keyboard_handler scancode (set_io tr s)
           else s in
  let s := if 40 <=? irq_number then set_io (io_out 0xA0 0x20 (ks_io s)) s else s in
  set_io (io_out 0x20 0x20 (ks_io s)) s.

(** [irq_common_stub]: after [pusha] it executes [mov ax, ds; push eax] and
    calls [irq_handler], whose argument is therefore the word on top of the
    stack, [ds] in the low half of [eax]; the interrupt number pushed by the
    entry stub is deeper. *)
Definition irq_common_stub (eax ds int_no : Z) (s : kstate) : kstate :=
  let s := set_io (Cli :: ks_io s) s in
  let s := irq_handler ((eax .>> 16) * 65536 + ds) s in
  set_io (Sti :: ks_io s) s.

(** [keyboard_isr], the gate of vector 33. *)
Definition keyboard_isr (s : kstate) : kstate :=
  let s := set_io (Cli :: ks_io s) s in
  let '(al, tr) := io_in 0x60 (ks_io s) in
  let s := keyboard_handler al (set_io tr s) in
  set_io (Sti :: ks_io s) s.

(** ** The main program ([kernel.c])

    Keyboard interrupts change the buffer while [test_keyboard] polls it:
    [irqs t] is the number of interrupts taken since the previous poll, just
    before poll [t] (what runs between two polls does not use the buffer).  The
    state of the loop is the kernel's and the number of polls so far. *)

Definition KEY_ESC : Z := 0x01.
Definition KEY_W : Z := 0x11.
Definition KEY_A : Z := 0x1E.
Definition KEY_S : Z := 0x1F.
Definition KEY_D : Z := 0x20.
Definition KEY_SPACE : Z := 0x39.

Section Main.
Variable irqs : nat -> nat.

Definition poll (key : Z) (st : kstate * nat) : bool * (kstate * nat) :=
  let s := Nat.iter (irqs (snd st)) keyboard_isr (fst st) in
  (key_pressed key s, (s, S (snd st))).

(** One [if (key_pressed(key)) kprint_at(text, ...) else kprint_at(blank, ...)]. *)
Definition show_key (key : Z) (text : list Z) (col : Z) (st : kstate * nat) : kstate * nat :=
  let '(down, (s, t)) := poll key st in
  (ks_print_at (if down then text else bytes "         ") col 3 s, t).

(** The body of the loop; the result is [loop]. *)
Definition test_keyboard_round (st : kstate * nat) : bool * (kstate * nat) :=
  let st := show_key KEY_W (bytes "W pressed") 0 st in
  let st := show_key KEY_A (bytes "A pressed") 10 st in
  let st := show_key KEY_S (bytes "S pressed") 20 st in
  let st := show_key KEY_D (bytes "D pressed") 30 st in
  let st := show_key KEY_SPACE (bytes "SPACE pressed") 40 st in
  let '(esc, (s, t)) := poll KEY_ESC st in
  if esc then (false, (ks_print ([10] ++ bytes "Test ended. Exiting..." ++ [10]) s, t)) else (true, (s, t)).

Definition test_keyboard (fuel : nat) (s : kstate) : option (kstate * nat) :=
  let s := ks_print ([10] ++ bytes "=== Keyboard Test ===" ++ [10]) s in
  let s := ks_print (bytes "Press keys to test (W, A, S, D, SPACE, ESC):" ++ [10]) s in
  let s := ks_print (bytes "Press ESC to exit" ++ [10; 10]) s in
  '(_, st) ← while fuel (fun '(loop, _) => loop) (fun '(_, st) => Some (test_keyboard_round st)) (true, (s, O));
  Some st.

(** What [main] does before the keyboard test; [None] when [kmalloc] hangs. *)
Definition main_setup (isr irq : Z -> Z) (idt_addr keyboard_isr_addr : Z) (s : kstate) : option kstate :=
  let s := isr_install isr irq idt_addr s in
  let s := pic_init s in
  let s := keyboard_init keyboard_isr_addr s in
  let s := set_con (Console (vga_clear_screen 1 (c_mem (ks_con s))) (ks_io s)) s in
  let s := set_con (Console (vga_put_pixel 160 100 15 (c_mem (ks_con s))) (ks_io s)) s in
  let s := set_heap (heap_init (ks_heap s)) s in
  '(_, h) ← kmalloc 128 (ks_heap s);
  let s := set_heap h s in
  let s := set_io (Sti :: ks_io s) s in
  let s := ks_print ([10] ++ bytes "Starting keyboard test..." ++ [10]) s in
  Some (ks_print (bytes "The loop is running. Press keys:" ++ [10]) s).

(** [main]; when the test returns it stays in [while (1)]. *)
Definition main (fuel : nat) (isr irq : Z -> Z) (idt_addr keyboard_isr_addr : Z) (s : kstate)
  : option (kstate * nat) :=
  s ← main_setup isr irq idt_addr keyboard_isr_addr s; test_keyboard fuel s.
End Main.
End Kernel.

(** ** Specifications *)

(** Whether a key is down after a list of scancodes: the last event of the key
    was a make code (below 128).  A break code is the make code plus 128. *)
Fixpoint key_down (k : Z) (down : bool) (codes : list Z) : bool :=
  match codes with
  | [] => down
  | c :: codes => key_down k (if c mod 128 =? k then c <? 128 else down) codes
  end.

(** ** Proofs: keyboard *)

Definition keys_ok (s : kstate) : Prop := length (key_buffer s) = 256%nat.

Lemma bit7 c : 0 <= c < 256 -> (c .& 0x80 =? 0) = (c <? 128).
Proof.
  intros Hc. pose proof (land_pow2_testbit c 7 ltac:(done)) as H. change (2 ^ 7) with 0x80 in H.
  destruct (Z.ltb_spec c 128) as [Hlt | Hge].
  - rewrite (testbit_high c 7) in H by (cbn; lia). by destruct (c .& 0x80 =? 0).
  - destruct (c .& 0x80 =? 0); [|done]. cbn in H. symmetry in H.
    assert (c < 2 ^ 7) as Hlt; [|cbn in Hlt; lia]. apply lt_pow2_bits; [done |]. intros k Hk.
    destruct (decide (k = 7)) as [-> |]; [done |]. apply (testbit_high c 8); cbn; lia.
Qed.

Lemma handler_key c k s : keys_ok s -> 0 <= c < 256 -> 0 <= k < 128 ->
  key_pressed k (keyboard_handler c s) = if c mod 128 =? k then c <? 128 else key_pressed k s.
Proof.
  intros Hl Hc Hk. unfold keyboard_handler, key_pressed. rewrite bit7 by done. unfold keys_ok in Hl.
  rewrite !nth_lookup. destruct (Z.ltb_spec c 128); cbn [negb set_keys key_buffer].
  - rewrite Z.mod_small by lia. destruct (Z.eqb_spec c k).
    + subst. by rewrite list_lookup_insert_eq by lia.
    + by rewrite list_lookup_insert_ne by lia.
  - rewrite land_127. destruct (Z.eqb_spec (c mod 128) k).
    + subst. by rewrite list_lookup_insert_eq by dlia.
    + by rewrite list_lookup_insert_ne by dlia.
Qed.

Lemma handler_high c k s : keys_ok s -> 0 <= c < 256 -> 128 <= k ->
  key_pressed k (keyboard_handler c s) = key_pressed k s.
Proof.
  intros Hl Hc Hk. unfold keyboard_handler, key_pressed. rewrite bit7 by done. unfold keys_ok in Hl.
  rewrite !nth_lookup. destruct (Z.ltb_spec c 128); cbn [negb set_keys key_buffer];
    [|rewrite land_127]; by rewrite list_lookup_insert_ne by dlia.
Qed.

Lemma handler_ok c s : keys_ok s -> keys_ok (keyboard_handler c s).
Proof.
  unfold keys_ok, keyboard_handler. destruct (negb _); cbn; by rewrite length_insert.
Qed.

Lemma last_from {A} (c d : A) l : List.last (c :: l) d = List.last l c.
Proof.
  revert c d. induction l as [|x l IH]; intros c d; [done |].
  change (List.last (c :: x :: l) d) with (List.last (x :: l) d). by rewrite !IH.
Qed.

(** C23. After any list of scancodes key_pressed(k) for k below 128 is the
    kind (make or break) of the last scancode of key k, keys from 128 on never
    change, and get_last_scancode is the last scancode. *)
Theorem keyboard_handler_state codes s k :
  keys_ok s -> Forall (fun c => 0 <= c < 256) codes -> 0 <= k < 256 ->
  let s' := foldl (fun s c => keyboard_handler c s) s codes in
  key_pressed k s' = (if k <? 128 then key_down k (key_pressed k s) codes else key_pressed k s) /\
  get_last_scancode s' = List.last codes (get_last_scancode s) /\ keys_ok s'.
Proof.
  intros Hs Hc Hk s'. revert s Hs s'. induction Hc as [|c codes Hc Hcs IH]; intros s Hs s'.
  - subst s'. cbn. by destruct (k <? 128).
  - subst s'. cbn [foldl key_down]. destruct (IH _ (handler_ok c s Hs)) as (IH1 & IH2 & IH3).
    split_and!; [| | done].
    + rewrite IH1. destruct (Z.ltb_spec k 128).
      * by rewrite handler_key by (done || lia).
      * by rewrite handler_high by (done || lia).
    + rewrite IH2, last_from. unfold get_last_scancode, keyboard_handler. by destruct (negb _).
Qed.

(** The state in which the driver starts. *)
Definition fresh_kstate : kstate :=
  KState (Console ∅ []) (replicate 256 gate_zero) (replicate 256 0) 0 (Heap 0 0).

(** W down, A down, W up. *)
Lemma keyboard_handler_state_witness :
  let s := foldl (fun s c => keyboard_handler c s) fresh_kstate [0x11; 0x1E; 0x91] in
  key_pressed KEY_W s = false /\ key_pressed KEY_A s = true /\ get_last_scancode s = 0x91.
Proof.
  cbv zeta. assert (Forall (fun c => 0 <= c < 256) [0x11; 0x1E; 0x91]) as Hc by (repeat constructor; lia).
  split_and!.
  - rewrite (proj1 (keyboard_handler_state [0x11; 0x1E; 0x91] fresh_kstate KEY_W eq_refl Hc ltac:(split; done))).
    reflexivity.
  - rewrite (proj1 (keyboard_handler_state [0x11; 0x1E; 0x91] fresh_kstate KEY_A eq_refl Hc ltac:(split; done))).
    reflexivity.
  - apply (keyboard_handler_state [0x11; 0x1E; 0x91] fresh_kstate KEY_A eq_refl Hc). split; done.
Defined.

(** *** Hardware interrupts *)

Lemma stub_io `{D : Device} eax int_no s :
  0 <= eax < 2 ^ 32 ->
  irq_common_stub eax 0x10 int_no s =
  set_io (Sti :: Out 0x20 0x20 :: (if eax <? 65536 then [] else [Out 0xA0 0x20]) ++ Cli :: ks_io s) s.
Proof.
  intros He. unfold irq_common_stub, irq_handler. rewrite shiftr_div by done. change (2 ^ 16) with 65536.
  rewrite (proj2 (Z.eqb_neq _ 33)) by dlia. destruct (Z.ltb_spec eax 65536).
  - rewrite (proj2 (Z.leb_gt _ _)) by dlia. done.
  - rewrite (proj2 (Z.leb_le _ _)) by dlia. done.
Qed.

Section Delivery.
Context `{D : Device} `{P1 : !Pic8259 0x20 0x21} `{P2 : !Pic8259 0xA0 0xA1}.

(** Through the common IRQ stub irq_handler receives the saved data segment
    instead of the interrupt number: for every interrupt the keyboard is never
    read, the master gets one end-of-interrupt, and the slave gets one exactly
    when the upper half of the interrupted eax is not zero. *)
Theorem irq_common_stub_ignores_number eax int_no s :
  0 <= eax < 2 ^ 32 ->
  let s' := irq_common_stub eax 0x10 int_no s in
  key_buffer s' = key_buffer s /\ last_scancode s' = last_scancode s /\ data_reads (ks_io s') = data_reads (ks_io s) /\
  pic_isr 0x20 (ks_io s') = tail (pic_isr 0x20 (ks_io s)) /\
  pic_isr 0xA0 (ks_io s') = (if eax <? 65536 then pic_isr 0xA0 (ks_io s) else tail (pic_isr 0xA0 (ks_io s))) /\
  if_flag (ks_io s') = true.
Proof.
  intros He. cbv zeta. rewrite stub_io by done. unfold ks_io. cbn [set_io set_con ks_con c_io key_buffer last_scancode].
  destruct (eax <? 65536); cbn [app]; split_and!; try done.
  all: repeat first [ rewrite (pic_isr_eoi 0x20 0x21) | rewrite (pic_isr_eoi 0xA0 0xA1)
                    | rewrite (pic_isr_skip 0x20 0x21) by misses | rewrite (pic_isr_skip 0xA0 0xA1) by misses ]; done.
Qed.

(** [keyboard_isr] handles one scancode and sends no end-of-interrupt: the
    line stays in service. *)
Theorem keyboard_isr_never_acknowledges s :
  let s' := keyboard_isr s in
  let code := u8 (dev_in (Cli :: ks_io s) 0x60) in
  ks_io s' = [Sti; In 0x60 code; Cli] ++ ks_io s /\
  key_buffer s' = key_buffer (keyboard_handler code s) /\ last_scancode s' = code /\
  pic_isr 0x20 (ks_io s') = pic_isr 0x20 (ks_io s).
Proof.
  cbv zeta. unfold keyboard_isr, io_in, keyboard_handler.
  destruct (negb _); cbn; (split_and!; [done.. |]);
    by rewrite !(pic_isr_skip 0x20 0x21) by misses.
Qed.
End Delivery.

Lemma irq_common_stub_ignores_number_witness :
  let s' := irq_common_stub (H := fun _ _ => 0x1E) 0x12345 0x10 33 fresh_kstate in
  key_buffer s' = replicate 256 0 /\ pic_isr 0xA0 (Pic8259 := pc_pic2 (Chip 0 0 0x28 [3])) (ks_io s') = [].
Proof.
  destruct (irq_common_stub_ignores_number (D := fun _ _ => 0x1E) (P1 := pc_pic1 (Chip 0 0 0x20 [1]))
    (P2 := pc_pic2 (Chip 0 0 0x28 [3])) 0x12345 33 fresh_kstate) as (H1 & _ & _ & _ & H2 & _); [lia |].
  split; [exact H1 | exact H2].
Defined.

(** *** Exceptions *)

Definition exception_text (n : Z) (msg : list Z) : list Z :=
  bytes "received interrupt: " ++ int_text n ++ [10] ++ msg ++ [10].

Lemma scr_print_app l1 l2 scr : scr_print (l1 ++ l2) scr = scr_print l2 (scr_print l1 scr).
Proof. apply foldl_app. Qed.

Section Exceptions.
Context `{D : Device} `{C : !Crtc}.

Lemma print_step l s scr : displays (ks_con s) scr ->
  displays (ks_con (ks_print l s)) (scr_print l scr) /\
  (forall a, outside a -> ld (c_mem (ks_con (ks_print l s))) a = ld (c_mem (ks_con s)) a).
Proof. apply kprint_displays. Qed.

(** Memory changed outside the screen still shows it. *)
Lemma displays_mem m c scr : displays c scr ->
  (forall a, ~ outside a -> ld m a = ld (c_mem c) a) -> displays (Console m (c_io c)) scr.
Proof.
  intros (Hs & Hc & Hp) Hm. split_and!; [|done..]. intros k Hk. cbn [c_mem].
  rewrite !Hm by (unfold outside; lia). by apply Hs.
Qed.

Lemma cstr_bytes m a l : cstr_at m a l -> ld_bytes m a (length l) = l.
Proof.
  intros (_ & Hl & _). apply list_eq. intros i. destruct (l !! i) as [x|] eqn:E.
  - rewrite ld_bytes_lookup by (by apply lookup_lt_Some in E). by rewrite (Hl _ _ E).
  - apply lookup_ge_None_2. rewrite ld_bytes_length. by apply lookup_ge_None_1.
Qed.

Lemma two_digits n : 0 <= n < 100 -> (length (int_text n) <= 2)%nat.
Proof.
  intros Hn. destruct (decide (n = 0)) as [-> |]; [by vm_compute; lia |].
  unfold int_text. rewrite (proj2 (Z.ltb_ge _ _)) by lia. cbn [app]. rewrite length_map.
  rewrite Z.abs_eq by lia. apply (digits_loop (fun d => d) 2 n []). cbn. lia.
Qed.

(** For an exception 0-31 isr_handler prints its number in decimal and its
    name on the screen, and its char s[3] is large enough: no byte outside the
    screen and those three changes. *)
Theorem isr_handler_reports str n s scr :
  0 <= n < 32 -> displays (ks_con s) scr -> (forall i, 0 <= i < 3 -> outside (str + i)) ->
  exists s' msg, isr_handler str n s = Some s' /\
    exception_messages !! Z.to_nat n = Some msg /\
    displays (ks_con s') (scr_print (exception_text n msg) scr) /\
    (forall a, outside a -> ~ (str <= a < str + 3) -> ld (c_mem (ks_con s')) a = ld (c_mem (ks_con s)) a).
Proof.
  intros Hn Hs Hstr. unfold isr_handler, exception_text. rewrite s32_small by lia.
  destruct (print_step (bytes "received interrupt: ") s scr Hs) as (Hs1 & Ho1).
  generalize dependent (bytes "received interrupt: "). intros b Hs1 Ho1.
  set (s1 := ks_print b s) in *. clearbody s1.
  destruct (lookup_lt_is_Some_2 exception_messages (Z.to_nat n)) as [msg Hmsg].
  { assert (length exception_messages = 32%nat) as -> by reflexivity. lia. }
  rewrite Hmsg. clear Hmsg. pose proof (two_digits n ltac:(lia)) as H2.
  destruct (int_to_ascii_stored n str (c_mem (ks_con s1))) as (m & -> & Hc & Hm); [lia |].
  cbn [mbind option_bind]. rewrite (strlen_cstr m str (int_text n) 12 Hc) by lia. cbn [mbind option_bind].
  rewrite Nat2Z.id, (cstr_bytes m str _ Hc).
  assert (displays (Console m (c_io (ks_con s1))) (scr_print b scr)) as Hs2.
  { apply displays_mem; [done |]. intros a Ha. apply Hm. intros Hin. apply Ha.
    replace a with (str + (a - str)) by lia. apply Hstr. lia. }
  set (s2 := set_con _ s1). change (displays (ks_con s2) (scr_print b scr)) in Hs2.
  destruct (print_step (int_text n) s2 _ Hs2) as (Hs3 & Ho3).
  destruct (print_step [10] _ _ Hs3) as (Hs4 & Ho4).
  destruct (print_step msg _ _ Hs4) as (Hs5 & Ho5).
  destruct (print_step [10] _ _ Hs5) as (Hs6 & Ho6).
  exists (ks_print [10] (ks_print msg (ks_print [10] (ks_print (int_text n) s2)))), msg.
  rewrite !scr_print_app. split_and!; [done | done | done |].
  intros a Ha Hna. rewrite Ho6, Ho5, Ho4, Ho3 by done. cbn [s2 set_con ks_con c_mem].
  rewrite Hm by lia. by apply Ho1.
Qed.
End Exceptions.

Lemma isr_handler_reports_witness :
  exists s', @isr_handler crtc_device 0x9000 13 fresh_kstate = Some s' /\
    ld (c_mem (ks_con s')) (0xb8000 + 2 * 21) = 51 /\ ld (c_mem (ks_con s')) (0xb8000 + 2 * 80) = 71.
Proof.
  destruct (@isr_handler_reports crtc_device crtc_model 0x9000 13 fresh_kstate (Screen 0 (fun _ => (0, 0))))
    as (s' & msg & H1 & [= <-] & (H2 & _ & _) & _).
  - lia.
  - split_and!; [intros k Hk; split; reflexivity | reflexivity | reflexivity].
  - intros i Hi [? ?]. unfold VIDEO_ADDRESS in *. lia.
  - exists s'. split; [exact H1 |].
    split; [apply (H2 21); lia | apply (H2 80); lia].
Defined.

(** *** Boot *)

Definition gate_at (handler : Z) : idt_gate_t :=
  IdtGate (u16 (handler .& 0xFFFF)) 0x08 0 0x8E (u16 ((handler .>> 16) .& 0xFFFF)).

(** Only the table changes, and only in the gates [b .. b + n - 1]. *)
Definition gates_set (b n : Z) (stub : Z -> Z) (s s' : kstate) : Prop :=
  s' = set_table (ks_idt s') s /\ length (ks_idt s') = 256%nat /\
  (forall i, 0 <= i < n -> ks_idt s' !! Z.to_nat (b + i) = Some (gate_at (stub i))) /\
  (forall k, 0 <= k -> ~ (b <= k < b + n) -> ks_idt s' !! Z.to_nat k = ks_idt s !! Z.to_nat k).

Lemma set_idt_gates_spec b n stub s :
  length (ks_idt s) = 256%nat -> 0 <= b -> 0 <= n -> b + n <= 256 ->
  gates_set b n stub s (set_idt_gates b n stub s).
Proof.
  intros Hl Hb Hn Hbn. apply (for_range_inv (fun m => gates_set b m stub s)); [done | |].
  - split_and!; [by destruct s | done | intros; lia | done].
  - intros i s' Hi (He & Hl' & Hin & Hout). split_and!; cbn [set_idt_gate set_table ks_idt].
    + rewrite He. done.
    + by rewrite length_insert.
    + intros j Hj. destruct (decide (j = i)) as [-> |].
      * rewrite list_lookup_insert_eq by lia. done.
      * rewrite list_lookup_insert_ne by lia. apply Hin. lia.
    + intros k Hk Hkn. rewrite list_lookup_insert_ne by lia. apply Hout; lia.
Qed.

Lemma zero_loop l : length l = 256%nat ->
  for_range 0 256 (fun i b => <[Z.to_nat i := 0]> b) l = replicate 256 0.
Proof.
  intros Hl. set (zeroed := fun n (b : list Z) => length b = 256%nat /\ forall k, 0 <= k < n -> b !! Z.to_nat k = Some 0).
  assert (zeroed 256 (for_range 0 256 (fun i b => <[Z.to_nat i := 0]> b) l)) as [H1 H2].
  { apply (for_range_inv zeroed); [done | split; [done | lia] |].
    intros i b Hi [Hb Hz]. split; [by rewrite length_insert |]. intros k Hk.
    destruct (decide (k = i)) as [-> |]; [by rewrite list_lookup_insert_eq by lia |].
    rewrite list_lookup_insert_ne by lia. apply Hz. lia. }
  apply list_eq. intros k. destruct (decide (k < 256)%nat).
  - rewrite lookup_replicate_2 by done. specialize (H2 (Z.of_nat k) ltac:(lia)). by rewrite Nat2Z.id in H2.
  - rewrite lookup_ge_None_2 by lia. symmetry. apply lookup_ge_None_2. rewrite length_replicate. lia.
Qed.

Section Boot.
Context `{D : Device} `{P1 : !Pic8259 0x20 0x21} `{P2 : !Pic8259 0xA0 0xA1}.

(** Printing leaves both controllers alone. *)
Lemma cursor_pics tr tr' : cursor_only tr tr' ->
  (pic_expect 0x20 tr' = pic_expect 0x20 tr /\ pic_imr 0x20 tr' = pic_imr 0x20 tr /\
   pic_base 0x20 tr' = pic_base 0x20 tr) /\
  (pic_expect 0xA0 tr' = pic_expect 0xA0 tr /\ pic_imr 0xA0 tr' = pic_imr 0xA0 tr /\
   pic_base 0xA0 tr' = pic_base 0xA0 tr).
Proof.
  intros (es & -> & Hes). induction Hes as [|e es He _ IH]; [done |].
  assert (misses 0x20 0x21 e /\ misses 0xA0 0xA1 e) as [M1 M2].
  { destruct e; try done; destruct He as [-> | ->]; split; by apply misses_out. }
  cbn [app]. destruct (pic_other (es ++ tr) e M1) as (-> & -> & -> & _).
  destruct (pic_other (es ++ tr) e M2) as (-> & -> & -> & _). exact IH.
Qed.

Lemma print_only l s : cursor_only (ks_io s) (ks_io (ks_print l s)).
Proof. apply kprint_at_only. Qed.

Lemma pic_init_remaps s :
  let s' := pic_init s in
  ks_idt s' = ks_idt s /\ key_buffer s' = key_buffer s /\ last_scancode s' = last_scancode s /\
  (pic_expect 0x20 (ks_io s') = 0 /\ pic_imr 0x20 (ks_io s') = 0 /\ pic_base 0x20 (ks_io s') = 32) /\
  (pic_expect 0xA0 (ks_io s') = 0 /\ pic_imr 0xA0 (ks_io s') = 0 /\ pic_base 0xA0 (ks_io s') = 40).
Proof.
  cbv zeta. unfold pic_init, io_in.
  split; [done |]. split; [done |]. split; [done |].
  match goal with |- context [ks_print ?l ?s1] => pose proof (cursor_pics _ _ (print_only l s1)) as Hc end.
  destruct Hc as ((-> & -> & ->) & (-> & -> & ->)).
  match goal with |- context [ks_io (set_io ?tr s)] => change (ks_io (set_io tr s)) with tr end.
  unfold io_out.
  split.
  - apply (pic_sym_result 0x20 0x21 ltac:(done) [Out 0xA1 0; Out 0x21 0; Out 0xA1 1; Out 0x21 1; Out 0xA1 2; Out 0x21 4;
      Out 0xA1 0x28; Out 0x21 0x20; Out 0xA0 0x11; Out 0x20 0x11] 0 0 32 (Some []) (In 0xA1 _ :: In 0x21 _ :: ks_io s)).
    reflexivity.
  - apply (pic_sym_result 0xA0 0xA1 ltac:(done) [Out 0xA1 0; Out 0x21 0; Out 0xA1 1; Out 0x21 1; Out 0xA1 2; Out 0x21 4;
      Out 0xA1 0x28; Out 0x21 0x20; Out 0xA0 0x11; Out 0x20 0x11] 0 0 40 (Some []) (In 0xA1 _ :: In 0x21 _ :: ks_io s)).
    reflexivity.
Qed.
End Boot.

Lemma cursor_if_flag tr tr' : cursor_only tr tr' -> if_flag tr' = if_flag tr.
Proof.
  intros (es & -> & Hes). induction Hes as [|e es He _ IH]; [done |]. by destruct e.
Qed.

(** The gates after boot: keyboard_init replaces gate 33. *)
Definition main_gate (isr irq : Z -> Z) (kb : Z) (idt0 : list idt_gate_t) (n : Z) : option idt_gate_t :=
  if n =? 33 then Some (gate_at kb) else if n <? 32 then Some (gate_at (isr n))
  else if n <? 48 then Some (gate_at (irq (n - 32))) else idt0 !! Z.to_nat n.

Section Setup.
Context `{D : Device}.

Lemma isr_install_gates isr irq idt_addr s n :
  length (ks_idt s) = 256%nat -> 0 <= n < 256 ->
  let s' := isr_install isr irq idt_addr s in
  ks_idt s' !! Z.to_nat n = (if n <? 32 then Some (gate_at (isr n))
    else if n <? 48 then Some (gate_at (irq (n - 32))) else ks_idt s !! Z.to_nat n) /\
  length (ks_idt s') = 256%nat /\ key_buffer s' = key_buffer s.
Proof.
  intros Hl Hn. cbv zeta. unfold isr_install. cbn [set_idt set_io set_con ks_idt key_buffer].
  destruct (set_idt_gates_spec 0 32 isr s Hl) as (E1 & Hl1 & Hin1 & Hout1); [lia.. |].
  set (s1 := set_idt_gates 0 32 isr s) in *. clearbody s1.
  match goal with |- context [set_idt_gates 32 16 irq ?x] => set (s2 := x) end.
  destruct (set_idt_gates_spec 32 16 irq s2) as (E2 & Hl2 & Hin2 & Hout2); [done | lia.. |].
  change (ks_idt s2) with (ks_idt s1) in *.
  split_and!; [|done|].
  - repeat zcase.
    + rewrite Hout2 by lia. apply (Hin1 n). lia.
    + replace n with (32 + (n - 32)) at 1 by lia. apply Hin2. lia.
    + rewrite Hout2, Hout1 by lia. done.
  - rewrite E2. change (key_buffer s1 = key_buffer s). by rewrite E1.
Qed.

Context `{P1 : !Pic8259 0x20 0x21} `{P2 : !Pic8259 0xA0 0xA1}.

(** main reaches its keyboard test with the exception, IRQ and keyboard gates
    in place (gate 33 replaced by keyboard_isr), both controllers remapped to
    32 and 40 with every line enabled, all keys up, 128 bytes of the heap used
    and interrupts enabled. *)
Theorem main_setup_ready isr irq idt_addr kb s :
  length (ks_idt s) = 256%nat -> length (key_buffer s) = 256%nat ->
  exists s', main_setup isr irq idt_addr kb s = Some s' /\
    (forall n, 0 <= n < 256 -> ks_idt s' !! Z.to_nat n = main_gate isr irq kb (ks_idt s) n) /\
    key_buffer s' = replicate 256 0 /\ ks_heap s' = Heap 0x100080 0x500000 /\
    (pic_expect 0x20 (ks_io s') = 0 /\ pic_imr 0x20 (ks_io s') = 0 /\ pic_base 0x20 (ks_io s') = 32) /\
    (pic_expect 0xA0 (ks_io s') = 0 /\ pic_imr 0xA0 (ks_io s') = 0 /\ pic_base 0xA0 (ks_io s') = 40) /\
    if_flag (ks_io s') = true.
Proof.
  intros Hl Hk. unfold main_setup.
  pose proof (fun n => isr_install_gates isr irq idt_addr s n Hl) as H1.
  set (s1 := isr_install isr irq idt_addr s) in *. clearbody s1.
  destruct (pic_init_remaps s1) as (I2 & K2 & _ & (Ha1 & Ha2 & Ha3) & (Hb1 & Hb2 & Hb3)).
  set (s2 := pic_init s1) in *. clearbody s2.
  unfold keyboard_init. rewrite (zero_loop (key_buffer s2)) by (rewrite K2; rewrite (proj2 (proj2 (H1 0 ltac:(lia)))); done).
  generalize (bytes "Keyboard initialized" ++ [10]). intros b1.
  set (s3 := set_idt_gate 33 kb _). pose proof (print_only b1 s3) as O3.
  change (ks_io s3) with (ks_io s2) in O3.
  set (s4 := ks_print b1 s3) in *.
  assert (ks_idt s4 = <[33%nat := gate_at kb]> (ks_idt s1) /\ key_buffer s4 = replicate 256 0) as [I4 K4]
    by (rewrite <- I2; done).
  clearbody s4. clear s3.
  match goal with |- context [set_con (Console (vga_put_pixel ?x ?y ?c ?m) ?i)] =>
    set (mv := vga_put_pixel x y c m) end. clearbody mv.
  cbn [set_con ks_heap set_heap]. change (kmalloc 128 (heap_init _)) with (Some (0x100000, Heap 0x100080 0x500000)).
  cbn [mbind option_bind].
  match goal with |- context [ks_print ?l2 (ks_print ?l1 ?s5)] =>
    generalize l1 l2; intros t1 t2; set (s6 := s5) end.
  pose proof (cursor_only_trans _ _ _ (print_only t1 s6) (print_only t2 (ks_print t1 s6))) as O6.
  destruct (cursor_pics _ _ O3) as [(X1 & X2 & X3) (Y1 & Y2 & Y3)].
  destruct (cursor_pics _ _ O6) as [(X1' & X2' & X3') (Y1' & Y2' & Y3')].
  change (ks_io s6) with (Sti :: ks_io s4) in X1', X2', X3', Y1', Y2', Y3'.
  destruct (pic_other (cmd := 0x20) (data := 0x21) (ks_io s4) Sti ltac:(done)) as (Z1 & Z2 & Z3 & _).
  destruct (pic_other (cmd := 0xA0) (data := 0xA1) (ks_io s4) Sti ltac:(done)) as (W1 & W2 & W3 & _).
  eexists. split; [reflexivity |]. split_and!; try congruence.
  - intros n Hn. change (ks_idt (ks_print t2 (ks_print t1 s6))) with (ks_idt s4). rewrite I4.
    unfold main_gate. destruct (Z.eqb_spec n 33) as [-> | Hne].
    + apply list_lookup_insert_eq. rewrite (proj1 (proj2 (H1 33 ltac:(lia)))). lia.
    + rewrite list_lookup_insert_ne by lia. by apply H1.
  - exact K4.
  - done.
  - rewrite (cursor_if_flag _ _ O6). done.
Qed.
End Setup.

Lemma main_setup_ready_witness :
  exists s', @main_setup (pc_device (Chip 0 0xFF 8 []) (Chip 0 0xFF 0x70 []) (fun _ _ => 0))
      (fun i => 0x1000 + i) (fun i => 0x2000 + i) 0x5000 0x3000 fresh_kstate = Some s' /\
    ks_idt s' !! 33%nat = Some (gate_at 0x3000) /\ ks_idt s' !! 32%nat = Some (gate_at 0x2000).
Proof.
  destruct (main_setup_ready (D := pc_device (Chip 0 0xFF 8 []) (Chip 0 0xFF 0x70 []) (fun _ _ => 0))
    (P1 := pc_pic1 (Chip 0 0xFF 8 [])) (P2 := pc_pic2 (Chip 0 0xFF 0x70 []))
    (fun i => 0x1000 + i) (fun i => 0x2000 + i) 0x5000 0x3000 fresh_kstate) as (s' & H1 & H2 & _);
    [reflexivity | reflexivity |].
  exists s'. split; [exact H1 |]. split; [exact (H2 33 ltac:(lia)) | exact (H2 32 ltac:(lia))].
Defined.

(** *** The keyboard test *)

(** The number of keyboard interrupts taken up to and including poll [t]. *)
Fixpoint taken (irqs : nat -> nat) (t : nat) : nat :=
  match t with O => irqs O | S t' => (taken irqs t' + irqs t)%nat end.

Section KeyboardTest.
Context `{D : Device} (scan : nat -> Z) `{Sc : !Scancodes scan} (irqs : nat -> nat).

(** The keys after [n] interrupts from a state that has seen [n0]. *)
Definition keys_after (n0 n : nat) (b : kstate) : kstate :=
  foldl (fun s i => keyboard_handler (scan i) s) b (seq n0 n).

(** [s] and [b] agree on what the driver keeps. *)
Definition same_keys (s b : kstate) : Prop :=
  key_buffer s = key_buffer b /\ last_scancode s = last_scancode b.

Lemma handler_same c s b : same_keys s b -> same_keys (keyboard_handler c s) (keyboard_handler c b).
Proof. intros [H1 H2]. unfold same_keys, keyboard_handler. rewrite H1. by destruct (negb _). Qed.

(** One interrupt handles the next scancode. *)
Lemma isr_next s : data_reads (ks_io (keyboard_isr s)) = S (data_reads (ks_io s)) /\
  same_keys (keyboard_isr s) (keyboard_handler (scan (data_reads (ks_io s))) s).
Proof.
  unfold keyboard_isr, io_in. change (data_reads (ks_io s)) with (data_reads (Cli :: ks_io s)).
  change (ks_io (set_io (Cli :: ks_io s) s)) with (Cli :: ks_io s). rewrite (scancodes_read (Cli :: ks_io s)).
  unfold keyboard_handler. destruct (negb _); done.
Qed.

Lemma cursor_reads tr tr' : cursor_only tr tr' -> data_reads tr' = data_reads tr.
Proof.
  intros (es & -> & Hes). induction Hes as [|e es He _ IH]; [done |].
  destruct e; try done. by rewrite He.
Qed.

(** Where the test is: [n] scancodes handled since the state [b]. *)
Definition at_keys (b : kstate) (n : nat) (s : kstate) : Prop :=
  data_reads (ks_io s) = (data_reads (ks_io b) + n)%nat /\ same_keys s (keys_after (data_reads (ks_io b)) n b).

Lemma at_keys_isrs b n k s : at_keys b n s -> at_keys b (n + k) (Nat.iter k keyboard_isr s).
Proof.
  intros Hs. induction k as [|k IH]; [by rewrite Nat.add_0_r |].
  cbn [Nat.iter nat_rect]. fold (Nat.iter k keyboard_isr s). destruct IH as [H1 H2].
  destruct (isr_next (Nat.iter k keyboard_isr s)) as [R1 R2]. split; [lia |].
  replace (n + S k)%nat with (S (n + k)) by lia. unfold keys_after in *.
  rewrite seq_S, foldl_app. cbn [foldl]. rewrite <- H1.
  destruct (handler_same (scan (data_reads (ks_io (Nat.iter k keyboard_isr s)))) _ _ H2) as [E1 E2].
  destruct R2 as [F1 F2]. split; congruence.
Qed.

Lemma at_keys_print b n s l col row : at_keys b n s -> at_keys b n (ks_print_at l col row s).
Proof.
  intros [H1 H2]. split; [|exact H2]. rewrite <- H1. apply cursor_reads, kprint_at_only.
Qed.

Lemma at_keys_kprint b n s l : at_keys b n s -> at_keys b n (ks_print l s).
Proof. apply at_keys_print. Qed.

(** The state of the loop before poll [t]. *)
Definition before_poll (b : kstate) (t : nat) (st : kstate * nat) : Prop :=
  snd st = t /\ at_keys b (match t with O => O | S t' => taken irqs t' end) (fst st).

Lemma poll_step b t st key : before_poll b t st ->
  let '(down, st') := poll irqs key st in
  down = key_pressed key (keys_after (data_reads (ks_io b)) (taken irqs t) b) /\ before_poll b (S t) st'.
Proof.
  destruct st as [s t']. intros [E Hs]. cbn [fst snd] in *. subst t'.
  assert (at_keys b (taken irqs t) (Nat.iter (irqs t) keyboard_isr s)) as Ha.
  { pose proof (at_keys_isrs b _ (irqs t) s Hs) as H. destruct t; exact H. }
  cbn [poll fst snd]. split; [|by split]. unfold key_pressed. destruct Ha as [_ [-> _]]. done.
Qed.

Lemma show_step b t st key text col : before_poll b t st -> before_poll b (S t) (show_key irqs key text col st).
Proof.
  intros H. pose proof (poll_step b t st key H) as Hp. unfold show_key.
  destruct (poll irqs key st) as [down [s t']]. destruct Hp as [_ [E Hs]]. split; [exact E |].
  cbn [fst]. by apply at_keys_print.
Qed.

(** Whether ESC is down at the last poll of round [j]. *)
Definition esc_at (b : kstate) (j : nat) : bool :=
  key_pressed KEY_ESC (keys_after (data_reads (ks_io b)) (taken irqs (6 * j + 5)) b).

Lemma round_step b j st : before_poll b (6 * j) st ->
  let '(loop, st') := test_keyboard_round irqs st in
  loop = negb (esc_at b j) /\ before_poll b (6 * S j) st'.
Proof.
  intros H0. unfold test_keyboard_round.
  pose proof (show_step b _ _ KEY_W (bytes "W pressed") 0 H0) as H1.
  pose proof (show_step b _ _ KEY_A (bytes "A pressed") 10 H1) as H2.
  pose proof (show_step b _ _ KEY_S (bytes "S pressed") 20 H2) as H3.
  pose proof (show_step b _ _ KEY_D (bytes "D pressed") 30 H3) as H4.
  pose proof (show_step b _ _ KEY_SPACE (bytes "SPACE pressed") 40 H4) as H5.
  pose proof (poll_step b _ _ KEY_ESC H5) as H6.
  set (st5 := show_key irqs KEY_SPACE _ _ _) in *. clearbody st5. clear H1 H2 H3 H4 H5.
  destruct (poll irqs KEY_ESC st5) as [down [s t']]. destruct H6 as [-> H6].
  replace (S (S (S (S (S (6 * j)))))) with (6 * j + 5)%nat in H6 |- * by lia. fold (esc_at b j).
  replace (6 * S j)%nat with (S (6 * j + 5)) by lia.
  destruct (esc_at b j); cbv beta iota; (split; [done |]); [|exact H6].
  destruct H6 as [E Ha]. split; [exact E |]. by apply at_keys_kprint.
Qed.

Lemma rounds b fuel : forall j st, before_poll b (6 * j) st ->
  (forall k, (k < fuel)%nat -> esc_at b (j + k) = false) ->
  while fuel (fun '(loop, _) => loop) (fun '(_, st) => Some (test_keyboard_round irqs st)) (true, st) = None.
Proof.
  induction fuel as [|f IH]; intros j st Hst Hesc; [done |]. cbn [while mbind option_bind].
  pose proof (round_step b j st Hst) as Hr. destruct (test_keyboard_round irqs st) as [loop st'].
  destruct Hr as [-> Hst']. pose proof (Hesc 0%nat ltac:(lia)) as E. rewrite Nat.add_0_r in E. rewrite E.
  apply (IH (S j)); [done |]. intros k Hk. replace (S j + k)%nat with (j + S k)%nat by lia. apply Hesc. lia.
Qed.

Lemma rounds_end b n : forall fuel j st, before_poll b (6 * j) st ->
  (forall k, (k < n)%nat -> esc_at b (j + k) = false) -> esc_at b (j + n) = true -> (n < fuel)%nat ->
  exists st', while fuel (fun '(loop, _) => loop) (fun '(_, st) => Some (test_keyboard_round irqs st)) (true, st)
              = Some (false, st') /\ before_poll b (6 * S (j + n)) st'.
Proof.
  induction n as [|n IH]; intros [|f] j st Hst Hesc He Hf; try lia; cbn [while mbind option_bind];
    pose proof (round_step b j st Hst) as Hr; destruct (test_keyboard_round irqs st) as [loop st'];
    destruct Hr as [-> Hst'].
  - rewrite Nat.add_0_r in *. rewrite He. exists st'. split; [by destruct f | done].
  - pose proof (Hesc 0%nat ltac:(lia)) as E. rewrite Nat.add_0_r in E. rewrite E. cbn [negb].
    replace (j + S n)%nat with (S j + n)%nat in * by lia. apply (IH f (S j)); [done | | done | lia].
    intros k Hk. replace (S j + k)%nat with (j + S k)%nat by lia. apply Hesc. lia.
Qed.

Lemma test_intro s : before_poll s 0 (ks_print (bytes "Press ESC to exit" ++ [10; 10])
  (ks_print (bytes "Press keys to test (W, A, S, D, SPACE, ESC):" ++ [10])
    (ks_print ([10] ++ bytes "=== Keyboard Test ===" ++ [10]) s)), O).
Proof. split; [done |]. do 3 apply at_keys_kprint. split; [cbn; lia | done]. Qed.

(** C16. With keyboard interrupts arriving at arbitrary polls, test_keyboard
    runs until the first round whose last poll sees ESC down: it returns after
    exactly that round with the key state of all the scancodes taken, and
    never before. *)
Theorem test_keyboard_waits_for_esc s n :
  (forall k, (k < n)%nat -> esc_at s k = false) ->
  (forall fuel, (fuel <= n)%nat -> test_keyboard irqs fuel s = None) /\
  (esc_at s n = true -> forall fuel, (n < fuel)%nat ->
     exists s', test_keyboard irqs fuel s = Some (s', 6 * (n + 1))%nat /\
       same_keys s' (keys_after (data_reads (ks_io s)) (taken irqs (6 * n + 5)) s)).
Proof.
  intros Hesc. pose proof (test_intro s) as Hi. unfold test_keyboard.
  set (st0 := (ks_print _ _, O)) in *. clearbody st0. split.
  - intros fuel Hf. rewrite (rounds s fuel 0 st0 Hi); [done |]. intros k Hk. apply Hesc. lia.
  - intros He fuel Hf. destruct (rounds_end s n fuel 0 st0 Hi Hesc He Hf) as (st' & -> & Hst).
    destruct st' as [s' t]. destruct Hst as [Et [_ Hk]]. cbn [fst snd Nat.add] in *.
    exists s'. cbn [mbind option_bind]. split; [do 2 f_equal; lia |].
    replace (6 * S n)%nat with (S (6 * n + 5)) in Hk by lia. exact Hk.
Qed.
End KeyboardTest.

(** A keyboard on which A is pressed, then ESC. *)
Definition two_keys (n : nat) : Z := match n with O => 0x1E | _ => 0x01 end.
Definition two_keys_device : Device := fun tr p => if p =? 0x60 then two_keys (data_reads tr) else 0.

Lemma two_keys_scancodes : @Scancodes two_keys_device two_keys.
Proof. intros tr. unfold dev_in, two_keys_device. cbn. by destruct (data_reads tr). Qed.

(** A arrives before the first poll and ESC during the second round. *)
Lemma test_keyboard_waits_for_esc_witness :
  let irqs t := match t with 0%nat | 8%nat => 1%nat | _ => O end in
  (exists s', @test_keyboard two_keys_device irqs 5 fresh_kstate = Some (s', 12%nat)) /\
  @test_keyboard two_keys_device irqs 1 fresh_kstate = None.
Proof.
  intros irqs.
  destruct (@test_keyboard_waits_for_esc two_keys_device two_keys two_keys_scancodes irqs fresh_kstate 1)
    as [H1 H2].
  { intros [|k] Hk; [vm_compute; reflexivity | lia]. }
  split; [|apply H1; lia].
  destruct (H2 ltac:(vm_compute; reflexivity) 5%nat ltac:(lia)) as (s' & H & _).
  exists s'. exact H.
Defined.

(** [pic_enable_irq] and [pic_disable_irq] change exactly the mask bit of the
    line. *)
Theorem pic_irq_masks `{D : Device} `{P1 : !Pic8259 0x20 0x21} `{P2 : !Pic8259 0xA0 0xA1}
    `{R1 : !PicReads 0x20 0x21} `{R2 : !PicReads 0xA0 0xA1} irq (on : bool) s :
  0 <= irq < 16 -> pic_expect 0x20 (ks_io s) = 0 -> pic_expect 0xA0 (ks_io s) = 0 ->
  0 <= pic_imr 0x20 (ks_io s) < 256 -> 0 <= pic_imr 0xA0 (ks_io s) < 256 ->
  let s' := if on then pic_disable_irq irq s else pic_enable_irq irq s in
  if irq <? 8
  then mask_line (pic_imr 0x20 (ks_io s)) irq on (pic_imr 0x20 (ks_io s')) /\
       pic_imr 0xA0 (ks_io s') = pic_imr 0xA0 (ks_io s)
  else mask_line (pic_imr 0xA0 (ks_io s)) (irq - 8) on (pic_imr 0xA0 (ks_io s')) /\
       pic_imr 0x20 (ks_io s') = pic_imr 0x20 (ks_io s).
Proof.
  intros Hi He1 He2 Hr1 Hr2. pose proof (pic_lines irq on (ks_io s) Hi He1 He2 Hr1 Hr2) as H.
  unfold pic_disable_irq, pic_enable_irq, pic_set_mask, pic_clear_mask, PIC1_DATA, PIC2_DATA in *.
  destruct (irq <? 8), on; exact H.
Qed.

Lemma pic_irq_masks_witness :
  let b1 := Chip 0 0xFF 0x20 [] in let b2 := Chip 0 0xFF 0x28 [] in
  mask_line 0xFF 1 false
    (pic_imr 0x20 (Pic8259 := pc_pic1 b1)
       (ks_io (pic_enable_irq (H := pc_device b1 b2 (fun _ _ => 0)) 1 fresh_kstate))).
Proof.
  cbn zeta. refine (proj1 (pic_irq_masks (D := pc_device (Chip 0 0xFF 0x20 []) (Chip 0 0xFF 0x28 []) (fun _ _ => 0))
    (P1 := pc_pic1 _) (P2 := pc_pic2 _) 1 false fresh_kstate _ _ _ _ _)).
  all: try exact _; try apply pc_reads1; try apply pc_reads2; try by vm_compute.
Defined.
