(* ===== verification/EfiHardware.v ===== *)
(** * The UEFI program: interrupts, timer and mouse

    [src/efi-boot/]: [idt.c], [pic_timer.c], [mouse.c] and the port accessors of
    [ports.c], with the constants of [include/hardware.h]. *)

From S2P Require Import Prelude Machine.

(** ** Constants ([hardware.h]) *)

Definition PIC1_MASK_DEFAULT : Z := 0xF8.
Definition PIC2_MASK_DEFAULT : Z := 0xEF.
Definition PIT_COMMAND : Z := 0x43.
Definition PIT_CHANNELO : Z := 0x40.
Definition PIT_FREQUENCY_HZ : Z := 1193182.
Definition PIT_MODE_RATE_GEN : Z := 0x36.
Definition PS2_DATA_PORT : Z := 0x60.
Definition PS2_STATUS_PORT : Z := 0x64.
Definition PS2_STATUS_OUTPUT : Z := 0x01.
Definition PS2_STATUS_INPUT : Z := 0x01.
Definition PS2_CMD_ENABLE_AUX : Z := 0xA8.
Definition PS2_CMD_READ_CFG : Z := 0x20.
Definition PS2_CMD_WRITE_CFG : Z := 0x60.
Definition PS2_CMD_WRITE_MOUSE : Z := 0xD4.
Definition MOUSE_CMD_DEFAULTS : Z := 0xF6.
Definition MOUSE_CMD_ENABLE : Z := 0xF4.

(** ** Descriptor table ([idt.c]) *)

Record idt_entry_t := IdtEntry64 {
  addr_low : Z; e_sel : Z; e_ist : Z; e_flags : Z; addr_mid : Z; addr_high : Z; e_reserved : Z }.

Definition entry_empty : idt_entry_t := IdtEntry64 0 0 0 0 0 0 0.

Definition configure_entry_empty (number : Z) (table : list idt_entry_t) : list idt_entry_t :=
  <[Z.to_nat number := entry_empty]> table.

(** [cs] is what [read_current_cs] finds in the register. *)
Definition configure_entry_real (cs number : Z) (table : list idt_entry_t) (address : Z) : list idt_entry_t :=
  <[Z.to_nat number := IdtEntry64 (u16 (address .& 0xFFFF)) (u16 cs) 0 0x8E
      (u16 ((address .>> 16) .& 0xFFFF)) (u32 ((address .>> 32) .& 0xFFFFFFFF)) 0]> table.

Definition initiate_idt (idt_addr : Z) (s : list idt_entry_t * trace) : list idt_entry_t * trace :=
  let '(idt, tr) := s in
  let idt := for_range 0 256 configure_entry_empty idt in
  (idt, Lidt (u16 (16 * 256 - 1)) (u64 idt_addr) :: tr).

(** ** Interrupt controllers and timer ([pic_timer.c]) *)

Definition remap_pic (tr : trace) : trace :=
  let tr := io_out 0x20 0x11 tr in
  let tr := io_out 0xA0 0x11 tr in
  let tr := io_out 0x21 32 tr in
  let tr := io_out 0xA1 40 tr in
  let tr := io_out 0x21 0x04 tr in
  let tr := io_out 0xA1 0x02 tr in
  let tr := io_out 0x21 0x01 tr in
  let tr := io_out 0xA1 0x01 tr in
  let tr := io_out 0x21 PIC1_MASK_DEFAULT tr in
  io_out 0x21 PIC2_MASK_DEFAULT tr.

Definition send_eoi (irq : Z) (tr : trace) : trace :=
  let tr := if 8 <=? irq then io_out 0xA0 0x20 tr else tr in
  io_out 0x20 0x20 tr.

(** [None]: the division by zero traps. *)
Definition program_pit (freq_desired : Z) (tr : trace) : option trace :=
  if freq_desired =? 0 then None
  else
    let div := PIT_FREQUENCY_HZ / freq_desired in
    let tr := io_out PIT_COMMAND PIT_MODE_RATE_GEN tr in
    let tr := io_out PIT_CHANNELO (div .& 0xFF) tr in
    Some (io_out PIT_CHANNELO ((div .>> 8) .& 0xFF) tr).

(** [delay_real]: [ticks i] is what read number [i] of the volatile [g_ticks]
    finds.  The result is the number of reads; [None] when [fuel] rounds did not
    end the loop. *)
Definition delay_real (fuel : nat) (ticks : nat -> Z) (ticks_for_wait : Z) : option nat :=
  let ticks_initial := ticks O in
  while fuel (fun i => u64 (ticks i - ticks_initial) <? ticks_for_wait) (fun i => Some (S i)) 1%nat.

(** The variables the interrupt handlers keep. *)
Record efi_state := EfiState {
  g_mouse_x : Z; g_mouse_y : Z; byte_index : Z; packet : list Z;
  g_ticks : Z; g_last_key : Z; e_io : trace }.

Definition mouse_init_state (start_x start_y : Z) (s : efi_state) : efi_state :=
  EfiState start_x start_y (byte_index s) (packet s) (g_ticks s) (g_last_key s) (e_io s).

Definition handler_time (s : efi_state) : efi_state :=
  EfiState (g_mouse_x s) (g_mouse_y s) (byte_index s) (packet s) (u64 (g_ticks s + 1)) (g_last_key s)
           (send_eoi 0 (e_io s)).

Section Ports.
Context `{Device}.

Definition handler_keyboard (s : efi_state) : efi_state :=
  let '(key, tr) := io_in PS2_DATA_PORT (e_io s) in
  EfiState (g_mouse_x s) (g_mouse_y s) (byte_index s) (packet s) (g_ticks s) key (send_eoi 1 tr).

(** ** Mouse ([mouse.c]) *)

Definition handler_mouse (s : efi_state) : efi_state :=
  let '(b, tr) := io_in PS2_DATA_PORT (e_io s) in
  let pkt := <[Z.to_nat (byte_index s) := b]> (packet s) in
  let index := byte_index s + 1 in
  if index =? 3 then
    let dx := s8 (nth 1 pkt 0) in
    let dy := s8 (nth 2 pkt 0) in
    let x := s32 (g_mouse_x s + dx) in
    let y := s32 (g_mouse_y s - dy) in
    let x := if x <? 0 then 0 else x in
    let y := if y <? 0 then 0 else y in
    EfiState x y 0 pkt (g_ticks s) (g_last_key s) (send_eoi 12 tr)
  else EfiState (g_mouse_x s) (g_mouse_y s) index pkt (g_ticks s) (g_last_key s) (send_eoi 12 tr).

(** The waits of the PS/2 controller; [None] when [fuel] reads were not enough. *)
Fixpoint wait_input_buffer_clear (fuel : nat) (tr : trace) : option trace :=
  match fuel with
  | O => None
  | S f =>
      let '(v, tr) := io_in PS2_STATUS_PORT tr in
      if negb (v .& PS2_STATUS_INPUT =? 0) then wait_input_buffer_clear f tr else Some tr
  end.

Fixpoint wait_input_buffer_full (fuel : nat) (tr : trace) : option trace :=
  match fuel with
  | O => None
  | S f =>
      let '(v, tr) := io_in PS2_STATUS_PORT tr in
      if v .& PS2_STATUS_OUTPUT =? 0 then wait_input_buffer_full f tr else Some tr
  end.

Definition ps2_write_command (fuel : nat) (byte : Z) (tr : trace) : option trace :=
  tr ← wait_input_buffer_clear fuel tr; Some (io_out PS2_STATUS_PORT byte tr).

Definition ps2_write_data (fuel : nat) (byte : Z) (tr : trace) : option trace :=
  tr ← wait_input_buffer_clear fuel tr; Some (io_out PS2_DATA_PORT byte tr).

Definition read_data (fuel : nat) (tr : trace) : option (Z * trace) :=
  tr ← wait_input_buffer_full fuel tr; Some (io_in PS2_DATA_PORT tr).

(** [activate_mouse].  Its last write calls [write_data], which [mouse.h]
    declares and no file defines: it is a parameter. *)
Definition activate_mouse (write_data : Z -> trace -> option trace) (fuel : nat) (tr : trace) : option trace :=
  tr ← ps2_write_command fuel PS2_CMD_ENABLE_AUX tr;
  tr ← ps2_write_command fuel PS2_CMD_READ_CFG tr;
  '(config, tr) ← read_data fuel tr;
  let config := config .| 0x02 in
  let config := config .& Z.lnot 0x20 in
  tr ← ps2_write_command fuel PS2_CMD_WRITE_CFG tr;
  tr ← ps2_write_data fuel (u8 config) tr;
  tr ← ps2_write_command fuel PS2_CMD_WRITE_MOUSE tr;
  tr ← ps2_write_data fuel MOUSE_CMD_DEFAULTS tr;
  '(_, tr) ← read_data fuel tr;
  tr ← ps2_write_command fuel PS2_CMD_WRITE_MOUSE tr;
  tr ← write_data MOUSE_CMD_ENABLE tr;
  '(_, tr) ← read_data fuel tr;
  Some tr.
End Ports.

(** ** Specifications *)

(** The 16 bytes of a 64-bit gate and what the processor reads from them:
    offset, selector, attributes. *)
Definition entry_bytes (e : idt_entry_t) : list Z :=
  [u8 (addr_low e); addr_low e .>> 8; u8 (e_sel e); e_sel e .>> 8; e_ist e; e_flags e;
   u8 (addr_mid e); addr_mid e .>> 8;
   u8 (addr_high e); u8 (addr_high e .>> 8); u8 (addr_high e .>> 16); addr_high e .>> 24;
   e_reserved e; 0; 0; 0].

Definition decode_gate64 (b : list Z) : option (Z * Z * Z) :=
  match b with
  | [b0; b1; s0; s1; ist; f; b2; b3; b4; b5; b6; b7; r0; r1; r2; r3] =>
      Some (b0 + 256 * b1 + 65536 * (b2 + 256 * b3)
            + 4294967296 * (b4 + 256 * b5 + 65536 * (b6 + 256 * b7)), s0 + 256 * s1, f)
  | _ => None
  end.

(** One mouse packet moves the pointer; the y axis is inverted and the pointer
    stops at the left and top edges. *)
Definition mouse_move (b1 b2 : Z) (xy : Z * Z) : Z * Z :=
  (Z.max 0 (fst xy + s8 b1), Z.max 0 (snd xy - s8 b2)).

(** Whether the PS/2 controller has a byte for the program, and the last command
    it was sent: the configuration after [0x20], an acknowledgement after a byte
    for the mouse. *)
Fixpoint last_command (tr : trace) : Z :=
  match tr with
  | [] => 0
  | Out p v :: tr' => if p =? 0x64 then v else last_command tr'
  | _ :: tr' => last_command tr'
  end.

Fixpoint ps2_pending (boot : bool) (tr : trace) : bool :=
  match tr with
  | [] => boot
  | In p _ :: tr' => if p =? 0x60 then false else ps2_pending boot tr'
  | Out p v :: tr' =>
      if p =? 0x64 then (if v =? 0x20 then true else ps2_pending boot tr')
      else if p =? 0x60 then (if last_command tr' =? 0xD4 then true else ps2_pending boot tr')
      else ps2_pending boot tr'
  | _ :: tr' => ps2_pending boot tr'
  end.

(** The controller accepts writes at once, and its status shows the output
    buffer in bit 0. *)
Class Ps2Ready `{Device} (boot : bool) := ps2_status :
  forall tr, dev_in tr 0x64 .& 1 = if ps2_pending boot tr then 1 else 0.

(** ** Proofs *)

(** A gate stored by [configure_entry_real] and read from its 16 bytes gives
    back the address, the code segment and the flags; no other gate changes. *)
Theorem configure_entry_roundtrip cs number table address e :
  length table = 256%nat -> 0 <= number < 256 -> 0 <= address < 2 ^ 64 -> 0 <= cs < 65536 ->
  configure_entry_real cs number table address !! Z.to_nat number = Some e ->
  decode_gate64 (entry_bytes e) = Some (address, cs, 0x8E) /\
  Forall (fun b => 0 <= b < 256) (entry_bytes e) /\
  (forall k, k <> Z.to_nat number -> configure_entry_real cs number table address !! k = table !! k).
Proof.
  intros Hl Hn Ha Hc. unfold configure_entry_real. rewrite list_lookup_insert_eq by lia. intros [= <-].
  unfold decode_gate64, entry_bytes. cbn [addr_low e_sel e_ist e_flags addr_mid addr_high e_reserved].
  assert (forall x, x .& 0xFFFFFFFF = u32 x) as H32 by (intros; apply (Z.land_ones _ 32); lia).
  autorewrite with cint_rw. rewrite H32, !shiftr_div by done.
  change (2 ^ 8) with 256. change (2 ^ 16) with 65536. change (2 ^ 24) with 16777216. change (2 ^ 32) with 4294967296.
  split_and!.
  - repeat f_equal; cint_lia.
  - rewrite !Forall_cons_iff. split_and!; try apply Forall_nil_2; cint_lia.
  - intros k Hk. by rewrite list_lookup_insert_ne.
Qed.

Lemma configure_entry_roundtrip_witness :
  decode_gate64 (entry_bytes (IdtEntry64 0x3210 0x38 0 0x8E 0x7654 0xFEDCBA98 0))
  = Some (0xFEDCBA9876543210, 0x38, 0x8E).
Proof.
  refine (proj1 (configure_entry_roundtrip 0x38 33 (replicate 256 entry_empty) 0xFEDCBA9876543210 _ _ _ _ _ _));
    [reflexivity | lia | lia | lia | reflexivity].
Defined.

(** *** Controllers and timer *)

Section Pics.
Context `{P1 : !Pic8259 0x20 0x21} `{P2 : !Pic8259 0xA0 0xA1}.

Lemma remap_pic_masks tr :
  (pic_expect 0x20 (remap_pic tr) = 0 /\ pic_imr 0x20 (remap_pic tr) = 0xEF /\ pic_base 0x20 (remap_pic tr) = 32) /\
  (pic_expect 0xA0 (remap_pic tr) = 0 /\ pic_imr 0xA0 (remap_pic tr) = 0 /\ pic_base 0xA0 (remap_pic tr) = 40).
Proof.
  split.
  - apply (pic_sym_result 0x20 0x21 ltac:(done) [Out 0x21 0xEF; Out 0x21 0xF8; Out 0xA1 1; Out 0x21 1; Out 0xA1 2;
      Out 0x21 4; Out 0xA1 40; Out 0x21 32; Out 0xA0 0x11; Out 0x20 0x11] 0 0xEF 32 (Some []) tr). reflexivity.
  - apply (pic_sym_result 0xA0 0xA1 ltac:(done) [Out 0x21 0xEF; Out 0x21 0xF8; Out 0xA1 1; Out 0x21 1; Out 0xA1 2;
      Out 0x21 4; Out 0xA1 40; Out 0x21 32; Out 0xA0 0x11; Out 0x20 0x11] 0 0 40 (Some []) tr). reflexivity.
Qed.

(** remap_pic leaves both controllers operational at vectors 32 and 40, but
    writes the slave mask to the master: every line of the master except 4 is
    masked, the timer and the keyboard included, and every line of the slave
    is open. *)
Theorem remap_pic_masks_timer tr :
  let tr' := remap_pic tr in
  (pic_expect 0x20 tr' = 0 /\ pic_base 0x20 tr' = 32 /\ pic_expect 0xA0 tr' = 0 /\ pic_base 0xA0 tr' = 40) /\
  (forall line, 0 <= line < 8 -> Z.testbit (pic_imr 0x20 tr') line = negb (line =? 4)) /\
  (forall line, Z.testbit (pic_imr 0xA0 tr') line = false) /\
  pic_imr 0x20 tr' <> PIC1_MASK_DEFAULT /\ pic_imr 0xA0 tr' <> PIC2_MASK_DEFAULT.
Proof.
  cbv zeta. destruct (remap_pic_masks tr) as [(E1 & -> & B1) (E2 & -> & B2)].
  split_and!; try done; [|intros; apply Z.bits_0].
  intros line Hl. assert (exists k : nat, (k < 8)%nat /\ line = Z.of_nat k) as (k & Hk & ->)
    by (exists (Z.to_nat line); lia).
  do 8 (destruct k as [|k]; [reflexivity |]). lia.
Qed.
End Pics.

(** The reload value the timer receives. *)
Definition pit_reload (tr : trace) : option Z :=
  match tr with
  | Out p2 hi :: Out p1 lo :: Out c m :: _ =>
      if (p2 =? 0x40) && (p1 =? 0x40) && (c =? 0x43) && (m =? 0x36) then Some (lo + 256 * hi) else None
  | _ => None
  end.

(** program_pit sends the low and high byte of 1193182 / freq: from 19 Hz on
    the timer gets the whole quotient, below that it is truncated to 16 bits
    and the timer runs faster than asked. *)
Theorem program_pit_divisor freq tr :
  0 < freq < 2 ^ 32 ->
  exists tr' reload, program_pit freq tr = Some tr' /\ pit_reload tr' = Some reload /\
    reload = u16 (PIT_FREQUENCY_HZ / freq) /\
    (19 <= freq -> freq * reload <= PIT_FREQUENCY_HZ < freq * (reload + 1)) /\
    (freq < 19 -> reload < PIT_FREQUENCY_HZ / freq).
Proof.
  intros Hf. unfold program_pit. rewrite (proj2 (Z.eqb_neq _ _)) by lia.
  unfold io_out, PIT_FREQUENCY_HZ. do 2 eexists. split; [reflexivity |]. split; [reflexivity |].
  rewrite !land_255, !u8_idem, shiftr_div by done. change (2 ^ 8) with 256.
  assert (0 <= 1193182 / freq <= 1193182) as Hd
    by (split; [apply Z.div_pos; lia | apply Z.div_le_upper_bound; nia]).
  assert (u8 (1193182 / freq) + 256 * u8 (1193182 / freq / 256) = u16 (1193182 / freq)) as ->
    by (generalize (1193182 / freq); intros d; cint_lia).
  split; [done |]. split; intros H19.
  - assert (1193182 / freq < 65536) by (apply Z.div_lt_upper_bound; lia).
    rewrite u16_small by lia. split; [apply Z.mul_div_le; lia |].
    pose proof (Z.mul_succ_div_gt 1193182 freq ltac:(lia)). lia.
  - assert (65536 <= 1193182 / freq) by (apply Z.div_le_lower_bound; lia).
    revert Hd H. generalize (1193182 / freq). intros d Hd H. cint_lia.
Qed.

(** The frequency [main] asks for. *)
Lemma program_pit_divisor_witness :
  exists tr', program_pit 100 [] = Some tr' /\ pit_reload tr' = Some 11931.
Proof.
  destruct (program_pit_divisor 100 []) as (tr' & r & H1 & H2 & H3 & _); [lia |].
  exists tr'. split; [exact H1 |]. rewrite H2, H3. reflexivity.
Defined.

(** The loop of [delay_real] from read [i], when read [k] is the first that ends it. *)
Lemma delay_loop ticks n k fuel : forall i,
  (forall j, (i <= j < k)%nat -> u64 (ticks j - ticks O) < n) -> (i <= k)%nat ->
  ((fuel + i < k)%nat -> while fuel (fun i => u64 (ticks i - ticks O) <? n) (fun i => Some (S i)) i = None) /\
  (n <= u64 (ticks k - ticks O) -> (k <= fuel + i)%nat ->
     while fuel (fun i => u64 (ticks i - ticks O) <? n) (fun i => Some (S i)) i = Some k).
Proof.
  induction fuel as [|f IH]; intros i Hlt Hi; cbn [while].
  - split; intros; [by rewrite (proj2 (Z.ltb_lt _ _)) by (apply Hlt; lia) |].
    assert (i = k) as -> by lia. by rewrite (proj2 (Z.ltb_ge _ _)).
  - destruct (decide (i = k)) as [-> | Hne].
    + split; intros; [lia |]. by rewrite (proj2 (Z.ltb_ge _ _)).
    + rewrite (proj2 (Z.ltb_lt _ _)) by (apply Hlt; lia). cbn [mbind option_bind].
      destruct (IH (S i)) as [I1 I2]; [intros; apply Hlt; lia | lia |].
      split; intros; [apply I1 | apply I2]; (lia || done).
Qed.

(** [delay_real] returns at the first read of the tick counter that is far
    enough from the first, modulo 2^64, and never returns while the counter
    stays closer. *)
Theorem delay_real_waits ticks n k :
  (forall i, (1 <= i < k)%nat -> u64 (ticks i - ticks O) < n) -> (1 <= k)%nat ->
  (forall fuel, (fuel + 1 < k)%nat -> delay_real fuel ticks n = None) /\
  (n <= u64 (ticks k - ticks O) -> forall fuel, (k <= fuel + 1)%nat -> delay_real fuel ticks n = Some k).
Proof.
  intros Hlt Hk. split.
  - intros fuel Hf. by apply (delay_loop ticks n k fuel 1).
  - intros Hn fuel Hf. by apply (delay_loop ticks n k fuel 1).
Qed.

(** A timer that ticks once every three reads ends a delay of 2 ticks; one that
    is masked never ends it. *)
Lemma delay_real_waits_witness :
  delay_real 10 (fun i => Z.of_nat (i / 3)) 2 = Some 6%nat /\
  delay_real 100 (fun _ => 0) 2 = None.
Proof.
  split.
  - apply (delay_real_waits (fun i => Z.of_nat (i / 3)) 2 6); [|lia | vm_compute; discriminate | lia].
    intros i Hi. do 6 (destruct i as [|i]; [vm_compute; reflexivity || lia |]). lia.
  - apply (delay_real_waits (fun _ => 0) 2 200); [|lia | lia]. intros i _. vm_compute. reflexivity.
Defined.

(** *** Mouse *)

Section Mouse.
Context `{D : Device} (scan : nat -> Z) `{Sc : !Scancodes scan}.

(** Between packets, with the pointer in the quadrant it is kept in. *)
Definition mouse_idle (s : efi_state) : Prop :=
  byte_index s = 0 /\ length (packet s) = 3%nat /\ 0 <= g_mouse_x s /\ 0 <= g_mouse_y s.

Definition pointer (s : efi_state) : Z * Z := (g_mouse_x s, g_mouse_y s).

(** The pointer after [n] packets, the first of which starts at byte [r]. *)
Fixpoint mouse_track (r n : nat) (xy : Z * Z) : Z * Z :=
  match n with
  | O => xy
  | S n' => mouse_track (r + 3) n' (mouse_move (scan (r + 1)) (scan (r + 2)) xy)
  end.

Lemma eoi_reads irq tr : data_reads (send_eoi irq tr) = data_reads tr.
Proof. unfold send_eoi. by destruct (8 <=? irq). Qed.

Lemma read_scan tr : io_in PS2_DATA_PORT tr = (scan (data_reads tr), In 0x60 (scan (data_reads tr)) :: tr).
Proof. unfold io_in, PS2_DATA_PORT. by rewrite (scancodes_read tr). Qed.

(** The history after one more byte. *)
Definition read_byte (tr : trace) : trace := send_eoi 12 (In 0x60 (scan (data_reads tr)) :: tr).

Lemma read_byte_reads tr : data_reads (read_byte tr) = S (data_reads tr).
Proof. unfold read_byte. by rewrite eoi_reads. Qed.

(** The three bytes of a packet. *)
Lemma mouse_byte0 x y p0 p1 p2 t k tr :
  handler_mouse (EfiState x y 0 [p0; p1; p2] t k tr)
  = EfiState x y 1 [scan (data_reads tr); p1; p2] t k (read_byte tr).
Proof. unfold handler_mouse; cbn [e_io]; rewrite read_scan; reflexivity. Qed.

Lemma mouse_byte1 x y p0 p1 p2 t k tr :
  handler_mouse (EfiState x y 1 [p0; p1; p2] t k tr)
  = EfiState x y 2 [p0; scan (data_reads tr); p2] t k (read_byte tr).
Proof. unfold handler_mouse; cbn [e_io]; rewrite read_scan; reflexivity. Qed.

Lemma mouse_last_byte x y p0 p1 p2 t k tr :
  0 <= x < 2 ^ 31 - 128 -> 0 <= y < 2 ^ 31 - 129 ->
  let '(x', y') := mouse_move p1 (scan (data_reads tr)) (x, y) in
  handler_mouse (EfiState x y 2 [p0; p1; p2] t k tr)
  = EfiState x' y' 0 [p0; p1; scan (data_reads tr)] t k (read_byte tr).
Proof.
  intros Hx Hy. unfold handler_mouse, mouse_move. cbn [e_io fst snd]. rewrite read_scan. unfold read_byte.
  generalize (scan (data_reads tr)). intros b.
  cbn [byte_index packet g_mouse_x g_mouse_y g_ticks g_last_key]. change (2 + 1 =? 3) with true. cbv zeta match.
  change (<[Z.to_nat 2:=b]> [p0; p1; p2]) with [p0; p1; b]. cbn [nth].
  pose proof (s8_range p1). pose proof (s8_range b). rewrite !s32_small by lia.
  assert (forall v, (if v <? 0 then 0 else v) = Z.max 0 v) as Hm by (intros; zcase; lia). by rewrite !Hm.
Qed.

Lemma mouse_packet s :
  mouse_idle s -> g_mouse_x s < 2 ^ 31 - 128 -> g_mouse_y s < 2 ^ 31 - 129 ->
  let s' := Nat.iter 3 handler_mouse s in
  let r := data_reads (e_io s) in
  mouse_idle s' /\ pointer s' = mouse_move (scan (r + 1)) (scan (r + 2)) (pointer s) /\
  data_reads (e_io s') = (r + 3)%nat.
Proof.
  intros (Hi & Hp & Hx & Hy) Hbx Hby. destruct s as [x y i p t k tr]. cbn in Hi, Hp, Hx, Hy, Hbx, Hby. subst i.
  destruct p as [|p0 [|p1 [|p2 [|]]]]; try done. cbn [Nat.iter nat_rect e_io].
  rewrite mouse_byte0, mouse_byte1.
  pose proof (mouse_last_byte x y (scan (data_reads tr)) (scan (data_reads (read_byte tr))) p2 t k
                (read_byte (read_byte tr))) as H.
  unfold pointer. cbn [g_mouse_x g_mouse_y].
  rewrite !read_byte_reads in H. rewrite !read_byte_reads.
  replace (data_reads tr + 1)%nat with (S (data_reads tr)) by lia.
  replace (data_reads tr + 2)%nat with (S (S (data_reads tr))) by lia.
  destruct (mouse_move (scan (S (data_reads tr))) (scan (S (S (data_reads tr)))) (x, y)) as [x' y'] eqn:E.
  rewrite H by lia. unfold mouse_move in E. injection E as <- <-.
  cbn [e_io]. rewrite !read_byte_reads. unfold mouse_idle. cbn [g_mouse_x g_mouse_y byte_index packet length].
  split_and!; try done; lia.
Qed.

Lemma mouse_move_bound b1 b2 xy : fst (mouse_move b1 b2 xy) <= Z.max 0 (fst xy) + 127 /\
  snd (mouse_move b1 b2 xy) <= Z.max 0 (snd xy) + 128.
Proof. unfold mouse_move. cbn. pose proof (s8_range b1). pose proof (s8_range b2). lia. Qed.

(** C27. After 3n mouse interrupts the pointer is where n packets of signed
    moves (y inverted) put it, stopped at the left and top edges, and the
    handler is between packets again. *)
Theorem handler_mouse_tracks n s :
  mouse_idle s -> g_mouse_x s + 128 * Z.of_nat n < 2 ^ 31 -> g_mouse_y s + 129 * Z.of_nat n < 2 ^ 31 ->
  let s' := Nat.iter (3 * n) handler_mouse s in
  mouse_idle s' /\ pointer s' = mouse_track (data_reads (e_io s)) n (pointer s) /\
  data_reads (e_io s') = (data_reads (e_io s) + 3 * n)%nat.
Proof.
  revert s. induction n as [|n IH]; intros s Hs Hx Hy s'; subst s'; cbn [mouse_track].
  - change (Nat.iter (3 * 0) handler_mouse s) with s. split_and!; [done | done | lia].
  - replace (3 * S n)%nat with (3 * n + 3)%nat by lia. rewrite Nat.iter_add.
    destruct (mouse_packet s Hs) as (H1 & H2 & H3); [lia | lia |]. cbv zeta in *.
    set (s1 := Nat.iter 3 handler_mouse s) in *.
    pose proof (mouse_move_bound (scan (data_reads (e_io s) + 1)) (scan (data_reads (e_io s) + 2)) (pointer s)) as Hb.
    rewrite <- H2 in Hb. unfold pointer in Hb. cbn [fst snd] in Hb. destruct Hs as (_ & _ & ? & ?).
    destruct (IH s1 H1) as (I1 & I2 & I3); [lia | lia |].
    split_and!; [done | by rewrite I2, H2, H3 | rewrite I3; lia].
Qed.
End Mouse.

Definition still_device : Device := fun tr p => if p =? 0x60 then Z.of_nat (data_reads tr) else 0.

Lemma still_scancodes : @Scancodes still_device (fun n => u8 (Z.of_nat n)).
Proof. by intros tr. Qed.

(** Bytes 0, 1, 2, ... from (10, 1): two packets move by (1, 2) and (4, 5), and
    the pointer stops at the top edge. *)
Lemma handler_mouse_tracks_witness :
  let s := EfiState 10 1 0 [0; 0; 0] 0 0 [] in
  pointer (Nat.iter 6 (handler_mouse (H := still_device)) s) = (15, 0).
Proof.
  cbv zeta. change 6%nat with (3 * 2)%nat.
  rewrite (proj1 (proj2 (handler_mouse_tracks (D := still_device) (fun n => u8 (Z.of_nat n))
    (Sc := still_scancodes) 2 (EfiState 10 1 0 [0; 0; 0] 0 0 []) ltac:(split_and!; done) ltac:(done) ltac:(done)))).
  vm_compute. reflexivity.
Defined.

(** *** The PS/2 controller *)

Section Ps2.
Context `{D : Device} (boot : bool) `{R : !Ps2Ready boot}.

Lemma status_bit tr : u8 (dev_in tr 0x64) .& 1 = if ps2_pending boot tr then 1 else 0.
Proof.
  rewrite <- (ps2_status tr). rewrite !land_1. unfold u8. apply Z.mod_mod_divide. by exists 128.
Qed.

Lemma clear_step fuel tr : ps2_pending boot tr = false ->
  wait_input_buffer_clear (S fuel) tr = Some (In 0x64 (u8 (dev_in tr 0x64)) :: tr).
Proof. intros H. cbn. unfold PS2_STATUS_INPUT, PS2_STATUS_PORT. by rewrite status_bit, H. Qed.

Lemma full_step fuel tr : ps2_pending boot tr = true ->
  wait_input_buffer_full (S fuel) tr = Some (In 0x64 (u8 (dev_in tr 0x64)) :: tr).
Proof. intros H. cbn. unfold PS2_STATUS_OUTPUT, PS2_STATUS_PORT. by rewrite status_bit, H. Qed.

(** With a byte waiting to be read, waiting for the controller to accept a write
    never ends: the macro tests the bit of the output buffer. *)
Lemma clear_hangs fuel : forall tr, ps2_pending boot tr = true -> wait_input_buffer_clear fuel tr = None.
Proof.
  induction fuel as [|f IH]; intros tr H; [done |].
  cbn [wait_input_buffer_clear io_in]. unfold PS2_STATUS_INPUT, PS2_STATUS_PORT.
  rewrite status_bit, H. cbn [Z.eqb negb]. by apply IH.
Qed.

(** The configuration byte with the mouse interrupt and clock enabled. *)
Definition mouse_config (c : Z) : Z := u8 ((c .| 0x02) .& Z.lnot 0x20).

Lemma command_step fuel b tr : ps2_pending boot tr = false ->
  exists v, ps2_write_command (S fuel) b tr = Some (Out 0x64 (u8 b) :: In 0x64 v :: tr).
Proof. intros H. unfold ps2_write_command. rewrite clear_step by done. by eexists. Qed.

Lemma data_step fuel b tr : ps2_pending boot tr = false ->
  exists v, ps2_write_data (S fuel) b tr = Some (Out 0x60 (u8 b) :: In 0x64 v :: tr).
Proof. intros H. unfold ps2_write_data. rewrite clear_step by done. by eexists. Qed.

Lemma read_step fuel tr : ps2_pending boot tr = true ->
  exists c v, read_data (S fuel) tr = Some (c, In 0x60 c :: In 0x64 v :: tr).
Proof. intros H. unfold read_data. rewrite full_step by done. by do 2 eexists. Qed.

(** One call of the handshake at a time. *)
Ltac handshake :=
  match goal with
  | |- context [ps2_write_command (S ?f) ?b ?tr] => destruct (command_step f b tr ltac:(done)) as (? & ->)
  | |- context [ps2_write_data (S ?f) ?b ?tr] => destruct (data_step f b tr ltac:(done)) as (? & ->)
  | |- context [read_data (S ?f) ?tr] => destruct (read_step f tr ltac:(done)) as (? & ? & ->)
  end; cbn [mbind option_bind].

Lemma writes_hit p v tr : writes_to p (Out p v :: tr) = writes_to p tr ++ [v].
Proof. unfold writes_to. cbn. by rewrite decide_True. Qed.
Lemma writes_miss p q v tr : q <> p -> writes_to p (Out q v :: tr) = writes_to p tr.
Proof. intros. unfold writes_to. cbn. by rewrite decide_False. Qed.
Lemma writes_in p q v tr : writes_to p (In q v :: tr) = writes_to p tr.
Proof. done. Qed.

(** With an idle controller activate_mouse sends the commands and the data
    bytes of the mouse set-up in order, with bit 1 set and bit 5 cleared in
    the configuration read, up to the byte that enables the mouse, which it
    gives to write_data, a function no file defines, before it reads an
    answer; no byte is pending then and the last command of the controller is
    the one that passes a byte to the mouse. When a byte is pending at the
    start it never returns, because its wait tests the output buffer. *)
Theorem activate_mouse_handshake (write_data : Z -> trace -> option trace) fuel tr :
  (ps2_pending boot tr = true -> activate_mouse write_data (S fuel) tr = None) /\
  (ps2_pending boot tr = false ->
   exists tr1 config, activate_mouse write_data (S fuel) tr
       = (tr2 ← write_data MOUSE_CMD_ENABLE tr1; '(_, tr3) ← read_data (S fuel) tr2; Some tr3) /\
     writes_to 0x64 tr1 = writes_to 0x64 tr ++ [0xA8; 0x20; 0x60; 0xD4; 0xD4] /\
     writes_to 0x60 tr1 = writes_to 0x60 tr ++ [mouse_config config; 0xF6] /\
     In 0x60 config ∈ tr1 /\ ps2_pending boot tr1 = false /\ last_command tr1 = PS2_CMD_WRITE_MOUSE).
Proof.
  unfold activate_mouse. split; intros Hp.
  - unfold ps2_write_command. by rewrite clear_hangs.
  - do 3 handshake.
    match goal with |- context [In 0x60 ?c :: _] => rename c into config end.
    do 6 handshake. eexists. exists config. split; [reflexivity |].
    repeat first [rewrite writes_hit | rewrite writes_miss by done | rewrite writes_in].
    rewrite <- !app_assoc, u8_idem. split; [reflexivity |]. split; [reflexivity |].
    split; [|split; reflexivity]. rewrite list_elem_of_In. cbn. tauto.
Qed.
End Ps2.

(** A controller that follows [ps2_pending], with configuration byte [0x61]. *)
Definition ps2_model (boot : bool) : Device := fun tr p =>
  if p =? 0x64 then (if ps2_pending boot tr then 1 else 0) else 0x61.

Lemma ps2_model_ready boot : @Ps2Ready (ps2_model boot) boot.
Proof. intros tr. unfold dev_in, ps2_model. cbn. by destruct (ps2_pending boot tr). Qed.

Lemma activate_mouse_handshake_witness :
  (exists tr' config, activate_mouse (H := ps2_model false) (fun b tr => Some (Out 0x60 b :: tr)) 1 [] = Some tr' /\
     writes_to 0x60 tr' = [mouse_config config; 0xF6; 0xF4]) /\
  activate_mouse (H := ps2_model true) (fun _ _ => None) 51 [] = None.
Proof.
  split.
  - destruct (@activate_mouse_handshake (ps2_model false) false (ps2_model_ready false) (fun b tr => Some (Out 0x60 b :: tr)) 0 []) as [_ H].
    destruct (H eq_refl) as (tr1 & config & -> & _ & H2 & _ & Hp & Hc). cbn [mbind option_bind].
    destruct (@read_step (ps2_model false) false (ps2_model_ready false) 0 (Out 0x60 MOUSE_CMD_ENABLE :: tr1)) as (c & w & ->).
    + cbn [ps2_pending]. change (0x60 =? 0x64) with false. change (0x60 =? 0x60) with true.
      by rewrite Hc.
    + cbn [mbind option_bind]. eexists _, config. split; [reflexivity |]. rewrite !writes_in, writes_hit, H2. done.
  - apply (@activate_mouse_handshake (ps2_model true) true (ps2_model_ready true) (fun _ _ => None) 50 []). reflexivity.
Defined.
