(* ===== verification/EfiGraphics.v ===== *)
(** * The UEFI program: memory and graphics

    [src/efi-boot/]: the allocator and the copy of [memory.c], the drawing
    routines of [graphics.c] and the digits of [font.c].  Memory is seen through
    [uint32_t] pointers only: a cell of 32 bits at each address that is a
    multiple of 4. *)

From S2P Require Import Prelude Machine.

(** ** Memory ([memory.c]) *)

(** The fields of [efi_memory_descriptor_t] the code reads. *)
Record descriptor := Descriptor { Type_ : Z; PhysicalStart : Z; NumberOfPages : Z }.

Definition EfiConventionalMemory : Z := 7.

(** The entries the loop walks: [how_many_entries] of them, [descriptor_size]
    bytes apart. *)
Fixpoint find_region_for_malloc (memory_map : list descriptor) (pages_needed : Z) : Z :=
  match memory_map with
  | [] => 0
  | entry :: rest =>
      if Type_ entry =? EfiConventionalMemory
      then if pages_needed <=? NumberOfPages entry then PhysicalStart entry
           else find_region_for_malloc rest pages_needed
      else find_region_for_malloc rest pages_needed
  end.

(** The state is [next_addr_available]. *)
Definition my_malloc (size_in_bytes : Z) (memory_map : list descriptor) (next : Z) : Z * Z :=
  let next := if next =? 0
              then let pages := u64 (Z.quot size_in_bytes 4096 + 1) in
                   find_region_for_malloc memory_map pages
              else next in
  let address := next in
  (address, u64 (next + size_in_bytes)).

Definition copy_memory (destiny origem many_bytes : Z) (m : mem) : mem :=
  let many_pixels := many_bytes / 4 in
  for_range 0 many_pixels (fun i m => st m (destiny + 4 * i) (ld m (origem + 4 * i))) m.

(** ** Pixels ([graphics.c])

    [g_draw_target] is an argument; the [framebuffer] arguments are not used by
    the code.  The line's offset is a [uint32_t]; [x], an [int], is added to the
    pointer. *)

Definition draw_pixel (g_draw_target x y pixels_per_line color : Z) (m : mem) : mem :=
  st m (g_draw_target + 4 * (u32 (y * pixels_per_line) + x)) (u32 color).

Definition draw_box (g_draw_target x y size pixels_per_line color : Z) (m : mem) : mem :=
  for_range 0 size (fun by_ => for_range 0 size (fun bx =>
    draw_pixel g_draw_target (x + bx) (y + by_) pixels_per_line color)) m.

(** The image of [sz.c], a generated file: its header fields and pixel bytes. *)
Record gimp := Gimp { g_width : Z; g_height : Z; g_bpp : Z; pixel_data : Z -> Z }.

Definition image_color (img : gimp) (x y : Z) : Z :=
  let index := u32 (u32 (y * g_width img + x) * g_bpp img) in
  let r := u8 (pixel_data img (u32 (index + 0))) in
  let g := u8 (pixel_data img (u32 (index + 1))) in
  let b := u8 (pixel_data img (u32 (index + 2))) in
  (r .<< 16) .| (g .<< 8) .| b.

Definition draw_gimp_image (img : gimp) (g_draw_target screen_x screen_y pixels_per_line : Z) (m : mem) : mem :=
  for_range 0 (g_height img) (fun y => for_range 0 (g_width img) (fun x m =>
    let color := image_color img x y in
    let fb_x := u32 (screen_x + x) in
    let fb_y := u32 (screen_y + y) in
    st m (g_draw_target + 4 * u32 (fb_y * pixels_per_line + fb_x)) color)) m.

Definition logo : list (list Z) := map bytes
  [" >>========================================<< ";
   " ||  .-')      .-') _               .-')   || ";
   " || ( OO ).   (  OO) )             ( OO ). || ";
   " ||(_)---\_),(_)----. .-'),-----. (_)---\_)|| ";
   " ||/    _ | |       |( OO'  .-.  '/    _ | || ";
   " ||\  :` `. '--.   / /   |  | |  |\  :` `. || ";
   " || '..`''.)(_/   /  \_) |  |\|  | '..`''.)|| ";
   " ||.-._)   \ /   /___  \ |  | |  |.-._)   \|| ";
   " ||\       /|        |  `'  '-'  '\       /|| ";
   " || `-----' `--------'    `-----'  `-----' || ";
   " >>========================================<< "]%string.

(** [printf] is the firmware library's. *)
Definition draw_logo {S} (printf : list Z -> list Z -> S -> S) (s : S) : S :=
  foldl (fun s line => printf (bytes "%s" ++ [10]) line s) s logo.

(** ** Digits ([font.c]) *)

Definition font_digits : list (list Z) :=
  [[0x7C;0xC6;0xCE;0xDE;0xF6;0xE6;0xC6;0x7C];
   [0x18;0x38;0x78;0x18;0x18;0x18;0x18;0x7E];
   [0x7C;0xC6;0x06;0x0C;0x18;0x30;0x60;0xFE];
   [0x7C;0xC6;0x06;0x3C;0x06;0x06;0xC6;0x7C];
   [0x0C;0x1C;0x3C;0x6C;0xCC;0xFE;0x0C;0x0C];
   [0xFE;0xC0;0xC0;0xFC;0x06;0x06;0xC6;0x7C];
   [0x3C;0x60;0xC0;0xFC;0xC6;0xC6;0xC6;0x7C];
   [0xFE;0xC6;0x0C;0x18;0x30;0x30;0x30;0x30];
   [0x7C;0xC6;0xC6;0x7C;0xC6;0xC6;0xC6;0x7C];
   [0x7C;0xC6;0xC6;0x7E;0x06;0x06;0x0C;0x78]].

(** The target of the drawing: [g_draw_target] and [g_pixels_per_line]. *)
Section Font.
Variables (target ppl : Z).

Definition draw_char (c x y color : Z) (m : mem) : mem :=
  if (c <? 48) || (57 <? c) then m
  else
    let rows := nth (Z.to_nat (c - 48)) font_digits [] in
    for_range 0 8 (fun row =>
      let bits := nth (Z.to_nat row) rows 0 in
      for_range 0 8 (fun col m =>
        if negb (bits .& (0x80 .>> col) =? 0)
        then draw_pixel target (x + col) (y + row) ppl color m else m)) m.

(** The state of the loop is [cursor_x] and memory. *)
Fixpoint draw_string (text : list Z) (cursor_x y color : Z) (m : mem) : mem :=
  match text with
  | [] => m
  | c :: rest => draw_string rest (cursor_x + 9) y color (draw_char c cursor_x y color m)
  end.

(** [digits] holds the characters from the least significant one; the second
    loop runs from [count - 1] down to 0. *)
Definition draw_number (value x y color : Z) (m : mem) : option mem :=
  digits ← if value =? 0 then Some [48]
           else '(_, digits) ← while 10 (fun '(value, _) => 0 <? value)
                  (fun '(value, digits) => Some (value / 10, digits ++ [48 + value mod 10])) (value, []);
                Some digits;
  let count := Z.of_nat (length digits) in
  let '(_, m) := for_down (count - 1) (-1) (fun i '(cursor_x, m) =>
                   (cursor_x + 9, draw_char (nth (Z.to_nat i) digits 0) cursor_x y color m)) (x, m) in
  Some m.
End Font.

(** ** Specifications *)

(** The cell of a pixel, when the coordinates are inside the buffer. *)
Definition pixel (target ppl x y : Z) : Z := target + 4 * (y * ppl + x).

(** A rectangle that lies inside the lines and below 2^32 pixels. *)
Definition fits (ppl x y w h : Z) : Prop := 0 <= x /\ 0 <= y /\ x + w <= ppl /\ (y + h) * ppl <= 2 ^ 32.

(** Whether the font lights pixel [(col, row)] of a digit. *)
Definition glyph (d col row : Z) : bool :=
  Z.testbit (nth (Z.to_nat row) (nth (Z.to_nat d) font_digits []) 0) (7 - col).

(** ** Proofs: painting a grid

    Two nested loops that store [val y x], when there is one, at [addr y x]. *)

Section Grid.
Variables (addr : Z -> Z -> Z) (val : Z -> Z -> option Z) (h w : Z).
Hypothesis inj : forall y x y' x', 0 <= y < h -> 0 <= x < w -> 0 <= y' < h -> 0 <= x' < w ->
  addr y x = addr y' x' -> y = y' /\ x = x'.

(** The cells before [(r, c)] in the order of the loops are painted. *)
Definition before (r c y x : Z) : Prop := 0 <= y < h /\ 0 <= x < w /\ (y < r \/ (y = r /\ x < c)).

Definition painted (m : mem) (r c : Z) (m' : mem) : Prop :=
  (forall y x v, before r c y x -> val y x = Some v -> ld m' (addr y x) = v) /\
  (forall a, (forall y x v, before r c y x -> val y x = Some v -> addr y x <> a) -> ld m' a = ld m a).

Definition paint (y x : Z) (m : mem) : mem :=
  match val y x with Some v => st m (addr y x) v | None => m end.

Lemma painted_step m r c m' : 0 <= r < h -> 0 <= c < w ->
  painted m r c m' -> painted m r (c + 1) (paint r c m').
Proof.
  intros Hr Hc [H1 H2]. unfold paint. split.
  - intros y x v (Hy & Hx & Hb) Hv. destruct (decide (y = r /\ x = c)) as [[-> ->] | Hne].
    + rewrite Hv. apply ld_st_eq.
    + assert (ld m' (addr y x) = v) as Hm by (apply H1; [unfold before; lia | done]).
      destruct (val r c) as [v'|]; [|done]. rewrite ld_st_ne; [done |].
      intros E. destruct (inj r c y x Hr Hc Hy Hx E). lia.
  - intros a Ha. assert (ld m' a = ld m a) as Hm.
    { apply H2. intros y x v Hb Hv. apply (Ha y x v); [|done]. unfold before in *. lia. }
    destruct (val r c) as [v'|] eqn:E; [|done]. rewrite ld_st_ne; [done |].
    apply (Ha r c v'); [|done]. unfold before. lia.
Qed.

Lemma painted_row m r m' : painted m r w m' -> painted m (r + 1) 0 m'.
Proof.
  intros [H1 H2]. split.
  - intros y x v Hb. apply H1. unfold before in *. lia.
  - intros a Ha. apply H2. intros y x v Hb. apply Ha. unfold before in *. lia.
Qed.

Lemma grid_painted (body : Z -> Z -> mem -> mem) m : 0 <= h -> 0 <= w ->
  (forall y x m, 0 <= y < h -> 0 <= x < w -> body y x m = paint y x m) ->
  painted m h 0 (for_range 0 h (fun y => for_range 0 w (body y)) m).
Proof.
  intros Hh Hw Hbody. apply (for_range_inv (fun r => painted m r 0)); [done | |].
  - split; [|done]. intros y x v Hb. unfold before in Hb. lia.
  - intros r m1 Hr Hm1. apply painted_row.
    apply (for_range_inv (fun c => painted m r c)); [done | done |].
    intros c m2 Hc Hm2. rewrite Hbody by lia. by apply painted_step.
Qed.

Lemma grid_spec (body : Z -> Z -> mem -> mem) m : 0 <= h -> 0 <= w ->
  (forall y x m, 0 <= y < h -> 0 <= x < w -> body y x m = paint y x m) ->
  let m' := for_range 0 h (fun y => for_range 0 w (body y)) m in
  (forall y x v, 0 <= y < h -> 0 <= x < w -> val y x = Some v -> ld m' (addr y x) = v) /\
  (forall a, (forall y x v, 0 <= y < h -> 0 <= x < w -> val y x = Some v -> addr y x <> a) -> ld m' a = ld m a).
Proof.
  intros Hh Hw Hbody. destruct (grid_painted body m Hh Hw Hbody) as [H1 H2]. split.
  - intros y x v Hy Hx. apply H1. unfold before. lia.
  - intros a Ha. apply H2. intros y x v (Hy & Hx & _). by apply Ha.
Qed.
End Grid.

(** ** Proofs: drawing *)

Lemma pixel_inj ppl target x y x' y' :
  0 <= x < ppl -> 0 <= x' < ppl -> pixel target ppl x y = pixel target ppl x' y' -> y = y' /\ x = x'.
Proof. unfold pixel. intros Hx Hx' E. assert (y = y') as -> by nia. lia. Qed.

Lemma pixel_offset ppl x y w h bx b :
  fits ppl x y w h -> 0 <= bx < w -> 0 <= b < h ->
  u32 ((y + b) * ppl) + (x + bx) = (y + b) * ppl + (x + bx).
Proof. intros (Hx & Hy & Hw & Hh) Hbx Hb. rewrite u32_small; [done | nia]. Qed.

(** A rectangle whose pixel [(bx, by)] gets [val by bx]. *)
Section Rect.
Variables (target ppl x y w h : Z) (val : Z -> Z -> option Z).
Hypothesis Hfit : fits ppl x y w h.

Lemma rect_spec body m : 0 <= h -> 0 <= w ->
  (forall r c m, 0 <= r < h -> 0 <= c < w ->
     body r c m = match val r c with Some v => st m (pixel target ppl (x + c) (y + r)) v | None => m end) ->
  let m' := for_range 0 h (fun r => for_range 0 w (body r)) m in
  forall px py, 0 <= px < ppl ->
    ld m' (pixel target ppl px py) =
    (if decide (x <= px < x + w /\ y <= py < y + h)
     then default (ld m (pixel target ppl px py)) (val (py - y) (px - x)) else ld m (pixel target ppl px py)).
Proof.
  intros Hh Hw Hb m' px py Hpx. destruct Hfit as (Hx & Hy & Hxw & Hyh).
  destruct (grid_spec (fun r c => pixel target ppl (x + c) (y + r)) val h w) with (body := body) (m := m)
    as [H1 H2]; try done.
  { intros r c r' c' Hr Hc Hr' Hc' E. apply pixel_inj in E; lia. }
  fold m' in H1, H2. case_decide as E.
  - destruct (val (py - y) (px - x)) as [v|] eqn:Ev; cbn [default].
    + specialize (H1 (py - y) (px - x) v). replace (x + (px - x)) with px in H1 by lia.
      replace (y + (py - y)) with py in H1 by lia. apply H1; (lia || done).
    + apply H2. intros r c v Hr Hc Hv Ep. apply pixel_inj in Ep; [|lia..].
      replace (py - y) with r in Ev by lia. replace (px - x) with c in Ev by lia. congruence.
  - apply H2. intros r c v Hr Hc Hv Ep. apply pixel_inj in Ep; lia.
Qed.

Lemma rect_outside body m a : 0 <= h -> 0 <= w ->
  (forall r c m, 0 <= r < h -> 0 <= c < w ->
     body r c m = match val r c with Some v => st m (pixel target ppl (x + c) (y + r)) v | None => m end) ->
  ~ (pixel target ppl x y <= a <= pixel target ppl (x + w - 1) (y + h - 1)) ->
  ld (for_range 0 h (fun r => for_range 0 w (body r)) m) a = ld m a.
Proof.
  intros Hh Hw Hb Ha. destruct Hfit as (Hx & Hy & Hxw & Hyh).
  destruct (grid_spec (fun r c => pixel target ppl (x + c) (y + r)) val h w) with (body := body) (m := m)
    as [_ H2]; try done.
  { intros r c r' c' Hr Hc Hr' Hc' E. apply pixel_inj in E; lia. }
  apply H2. intros r c v Hr Hc Hv <-. apply Ha. unfold pixel. nia.
Qed.
End Rect.

(** A box anywhere: the cells of its pixels get the colour. *)
Definition box_cell (target x y size ppl a : Z) : Prop :=
  Exists (fun r => Exists (fun c => a = target + 4 * (u32 ((y + r) * ppl) + (x + c))) (seqZ 0 size)) (seqZ 0 size).

#[global] Instance box_cell_dec target x y size ppl a : Decision (box_cell target x y size ppl a).
Proof. unfold box_cell. apply _. Defined.

Lemma box_cell_iff target x y size ppl a : box_cell target x y size ppl a <->
  exists r c, 0 <= r < size /\ 0 <= c < size /\ a = target + 4 * (u32 ((y + r) * ppl) + (x + c)).
Proof.
  unfold box_cell. rewrite Exists_exists. split.
  - intros (r & Hr & H). apply Exists_exists in H as (c & Hc & ->). rewrite <- list_elem_of_In, elem_of_seqZ in Hr, Hc.
    exists r, c. split; [lia | split; [lia | done]].
  - intros (r & c & Hr & Hc & ->). exists r. rewrite <- list_elem_of_In, elem_of_seqZ. split; [lia |].
    apply Exists_exists. exists c. rewrite <- list_elem_of_In, elem_of_seqZ. split; [lia | done].
Qed.

Lemma box_cells target x y size ppl color m a : 0 <= size ->
  ld (draw_box target x y size ppl color m) a = if decide (box_cell target x y size ppl a) then u32 color else ld m a.
Proof.
  intros Hs. set (cell r c := target + 4 * (u32 ((y + r) * ppl) + (x + c))).
  set (done_ r c := exists r' c', 0 <= r' < size /\ 0 <= c' < size /\ (r' < r \/ r' = r /\ c' < c) /\ a = cell r' c').
  set (ok r c m' := (done_ r c -> ld m' a = u32 color) /\ (~ done_ r c -> ld m' a = ld m a)).
  assert (ok size 0 (draw_box target x y size ppl color m)) as [H1 H2].
  { unfold draw_box. apply (for_range_inv (fun r => ok r 0)); [done | |].
    - split; [intros (r & c & H); lia | done].
    - intros r m1 Hr [I1 I2].
      assert (ok r size (for_range 0 size (fun bx => draw_pixel target (x + bx) (y + r) ppl color) m1)) as [J1 J2].
      { apply (for_range_inv (fun c => ok r c)); [done | by split |]. intros c m2 Hc [K1 K2]. unfold draw_pixel. fold (cell r c).
        split; rewrite ld_st; case_decide as E; try done.
        + intros (r' & c' & Hr' & Hc' & Hb & Ea). apply K1. exists r', c'. split_and!; try done; try lia.
          destruct Hb as [Hb | [-> Hb]]; [by left |]. right. split; [done |]. destruct (decide (c' = c)) as [-> | ?]; [congruence | lia].
        + intros Hn. destruct Hn. exists r, c. split_and!; try done; try lia.
        + intros Hn. apply K2. intros (r' & c' & Hr' & Hc' & Hb & Ea). apply Hn. exists r', c'. split_and!; try done; try lia. }
      split; [intros H; apply J1 | intros H; apply J2; contradict H];
        destruct H as (r' & c' & Hr' & Hc' & Hb & Ea); exists r', c'; split_and!; try done; lia. }
  case_decide as E; [apply H1 | apply H2; contradict E]; apply box_cell_iff in E || apply box_cell_iff.
  - destruct E as (r & c & Hr & Hc & ->). exists r, c. split_and!; try done; lia.
  - destruct E as (r & c & Hr & Hc & _ & ->). by exists r, c.
Qed.

(** A box, pixel by pixel. *)
Lemma box_pixels target x y size ppl color m px py :
  fits ppl x y size size -> 0 <= size -> 0 <= px < ppl ->
  let m' := draw_box target x y size ppl color m in
  ld m' (pixel target ppl px py) =
    (if decide (x <= px < x + size /\ y <= py < y + size) then u32 color else ld m (pixel target ppl px py)) /\
  (forall a, ~ (pixel target ppl x y <= a <= pixel target ppl (x + size - 1) (y + size - 1)) -> ld m' a = ld m a).
Proof.
  intros Hf Hs Hpx. cbv zeta. unfold draw_box, draw_pixel.
  assert (forall r c m, 0 <= r < size -> 0 <= c < size ->
    st m (target + 4 * (u32 ((y + r) * ppl) + (x + c))) (u32 color)
    = st m (pixel target ppl (x + c) (y + r)) (u32 color)) as Hb.
  { intros r c m1 Hr Hc. by rewrite (pixel_offset ppl x y size size). }
  split.
  - by rewrite (rect_spec target ppl x y size size (fun _ _ => Some (u32 color))).
  - intros a Ha. by apply (rect_outside target ppl x y size size (fun _ _ => Some (u32 color))).
Qed.

(** [draw_box] paints exactly the pixels of the square. *)
Theorem draw_box_paints target x y size ppl color m px py :
  fits ppl x y size size -> 0 <= size -> 0 <= px < ppl ->
  let m' := draw_box target x y size ppl color m in
  ld m' (pixel target ppl px py) =
    (if decide (x <= px < x + size /\ y <= py < y + size) then u32 color else ld m (pixel target ppl px py)) /\
  (forall a, ~ (pixel target ppl x y <= a <= pixel target ppl (x + size - 1) (y + size - 1)) -> ld m' a = ld m a).
Proof. apply box_pixels. Qed.


Lemma draw_box_paints_witness :
  let m' := draw_box 0x100000 100 100 3 800 0xE67E22 ∅ in
  ld m' (pixel 0x100000 800 102 101) = 0xE67E22 /\ ld m' (pixel 0x100000 800 103 101) = 0.
Proof.
  assert (fits 800 100 100 3 3) as Hf by (unfold fits; lia). cbv zeta. split.
  - exact (proj1 (draw_box_paints 0x100000 100 100 3 800 0xE67E22 ∅ 102 101 Hf ltac:(lia) ltac:(lia))).
  - exact (proj1 (draw_box_paints 0x100000 100 100 3 800 0xE67E22 ∅ 103 101 Hf ltac:(lia) ltac:(lia))).
Defined.

(** The image, pixel by pixel. *)
Lemma image_pixels img target sx sy ppl m px py :
  fits ppl sx sy (g_width img) (g_height img) -> ppl < 2 ^ 32 -> sy + g_height img < 2 ^ 32 ->
  0 <= g_width img -> 0 <= g_height img -> 0 <= px < ppl ->
  ld (draw_gimp_image img target sx sy ppl m) (pixel target ppl px py) =
    if decide (sx <= px < sx + g_width img /\ sy <= py < sy + g_height img)
    then image_color img (px - sx) (py - sy) else ld m (pixel target ppl px py).
Proof.
  intros Hf Hp Hy2 Hw Hh Hpx. unfold draw_gimp_image.
  rewrite (rect_spec target ppl sx sy (g_width img) (g_height img) (fun r c => Some (image_color img c r)));
    [done.. | | done].
  intros r c m1 Hr Hc. cbv zeta. destruct Hf as (Hx & Hy & Hxw & Hyh).
  rewrite (u32_small (sx + c)), (u32_small (sy + r)) by lia. rewrite u32_small by nia. done.
Qed.

(** [draw_gimp_image] paints each pixel of the rectangle with the colour of
    the image there. *)
Theorem draw_gimp_image_paints img target sx sy ppl m px py :
  fits ppl sx sy (g_width img) (g_height img) -> ppl < 2 ^ 32 -> sy + g_height img < 2 ^ 32 ->
  0 <= g_width img -> 0 <= g_height img -> 0 <= px < ppl ->
  ld (draw_gimp_image img target sx sy ppl m) (pixel target ppl px py) =
    if decide (sx <= px < sx + g_width img /\ sy <= py < sy + g_height img)
    then image_color img (px - sx) (py - sy) else ld m (pixel target ppl px py).
Proof. apply image_pixels. Qed.


(** A 2x1 image, red then blue. *)
Lemma draw_gimp_image_paints_witness :
  let img := Gimp 2 1 3 (fun i => nth (Z.to_nat i) [255; 0; 0; 0; 0; 255] 0) in
  ld (draw_gimp_image img 0x1000 40 50 800 ∅) (pixel 0x1000 800 41 50) = 0x0000FF.
Proof.
  cbv zeta. rewrite draw_gimp_image_paints; [vm_compute; reflexivity | unfold fits; cbn; lia | cbn; lia..].
Defined.

(** *** Digits *)

Lemma glyph_bit d col row : 0 <= d < 10 -> 0 <= row < 8 -> 0 <= col < 8 ->
  negb (nth (Z.to_nat row) (nth (Z.to_nat d) font_digits []) 0 .& (0x80 .>> col) =? 0) = glyph d col row.
Proof.
  intros Hd Hr Hc. unfold glyph. generalize (nth (Z.to_nat row) (nth (Z.to_nat d) font_digits []) 0). intros b.
  assert (0x80 .>> col = 2 ^ (7 - col)) as ->.
  { rewrite shiftr_div by lia. change 0x80 with (2 ^ 7). symmetry. apply Z.pow_sub_r; lia. }
  destruct (Z.testbit b (7 - col)) eqn:E.
  - destruct (Z.eqb_spec (b .& 2 ^ (7 - col)) 0) as [H|]; [|done].
    assert (Z.testbit (b .& 2 ^ (7 - col)) (7 - col) = true) as H'
      by (rewrite Z.land_spec, E, Z.pow2_bits_true by lia; done).
    by rewrite H, Z.bits_0 in H'.
  - assert (b .& 2 ^ (7 - col) = 0) as ->; [|done]. apply Z.bits_inj'. intros k Hk.
    rewrite Z.land_spec, Z.bits_0. destruct (decide (k = 7 - col)) as [-> |]; [by rewrite E |].
    by rewrite Z.pow2_bits_false, andb_false_r by lia.
Qed.

(** A digit, pixel by pixel. *)
Lemma char_pixels target ppl c x y color m px py :
  fits ppl x y 8 8 -> 0 <= px < ppl ->
  ld (draw_char target ppl c x y color m) (pixel target ppl px py) =
    if decide (48 <= c <= 57 /\ x <= px < x + 8 /\ y <= py < y + 8 /\ glyph (c - 48) (px - x) (py - y) = true)
    then u32 color else ld m (pixel target ppl px py).
Proof.
  intros Hf Hpx. unfold draw_char. destruct ((c <? 48) || (57 <? c)) eqn:E.
  - rewrite decide_False; [done |]. intros (Hc & _). apply orb_true_iff in E as [E%Z.ltb_lt | E%Z.ltb_lt]; lia.
  - apply orb_false_iff in E as [E1%Z.ltb_ge E2%Z.ltb_ge]. cbv zeta.
    rewrite (rect_spec target ppl x y 8 8
               (fun r k => if glyph (c - 48) k r then Some (u32 color) else None)); [|done..| |done].
    + repeat case_decide; try tauto.
      * by replace (glyph (c - 48) (px - x) (py - y)) with true by (symmetry; tauto).
      * destruct (glyph (c - 48) (px - x) (py - y)) eqn:Eg; [|done]. exfalso. intuition lia.
    + intros r k m1 Hr Hk. rewrite glyph_bit by lia. destruct (glyph (c - 48) k r); [|done].
      unfold draw_pixel. by rewrite (pixel_offset ppl x y 8 8).
Qed.

(** [draw_char] paints exactly the pixels the font lights for a digit, and
    nothing for another character. *)
Theorem draw_char_glyph target ppl c x y color m px py :
  fits ppl x y 8 8 -> 0 <= px < ppl ->
  ld (draw_char target ppl c x y color m) (pixel target ppl px py) =
    if decide (48 <= c <= 57 /\ x <= px < x + 8 /\ y <= py < y + 8 /\ glyph (c - 48) (px - x) (py - y) = true)
    then u32 color else ld m (pixel target ppl px py).
Proof. apply char_pixels. Qed.


Lemma draw_char_glyph_witness :
  let m' := draw_char 0 640 49 10 10 0xFFFFFF ∅ in
  map (fun px => ld m' (pixel 0 640 px 10)) [12; 13; 14; 15] = [0; 0xFFFFFF; 0xFFFFFF; 0].
Proof.
  assert (fits 640 10 10 8 8) as Hf by (unfold fits; lia). cbv zeta. cbn [map].
  rewrite !(draw_char_glyph 0 640 49 10 10 0xFFFFFF ∅ _ 10 Hf) by lia. vm_compute. reflexivity.
Defined.

(** Counting down over the digits draws the reversed list as a string. *)
Lemma draw_reversed target ppl color y digits x m :
  for_down (Z.of_nat (length digits) - 1) (-1) (fun i '(cursor_x, m) =>
     (cursor_x + 9, draw_char target ppl (nth (Z.to_nat i) digits 0) cursor_x y color m)) (x, m)
  = (x + 9 * Z.of_nat (length digits), draw_string target ppl (rev digits) x y color m).
Proof.
  revert x m. induction digits as [|d l IH] using rev_ind; intros x m.
  - unfold for_down. rewrite for_range_empty by (cbn; lia). cbn [length rev draw_string]. f_equal. lia.
  - unfold for_down in *. rewrite length_app. cbn [length]. rewrite for_range_first by lia.
    cbv beta iota. rewrite rev_app_distr. cbn [rev app draw_string].
    replace (Z.to_nat (Z.of_nat (length l + 1) - 1 - 0)) with (length l) by lia.
    rewrite app_nth2, Nat.sub_diag by lia. cbn [nth].
    replace (Z.of_nat (length l + 1) - 1 - -1) with (Z.of_nat (length l) - 1 - -1 + 1) by lia.
    rewrite for_range_shift.
    rewrite (for_range_ext _ (fun k '(cursor_x, m) => (cursor_x + 9,
      draw_char target ppl (nth (Z.to_nat (Z.of_nat (length l) - 1 - k)) l 0) cursor_x y color m))).
    + rewrite IH. f_equal. lia.
    + intros k [cx m1] Hk. replace (Z.of_nat (length l + 1) - 1 - (k + 1)) with (Z.of_nat (length l) - 1 - k) by lia.
      by rewrite app_nth1 by lia.
Qed.

Lemma draw_number_text target ppl value x y color m : 0 <= value < 2 ^ 32 ->
  draw_number target ppl value x y color m
  = Some (draw_string target ppl (map (Z.add 48) (decimal value)) x y color m).
Proof.
  intros Hv. unfold draw_number. zcase.
  - subst. cbn [mbind option_bind]. by rewrite (draw_reversed target ppl color y [48]).
  - destruct (digits_loop (Z.add 48) 10 value []) as [-> _]; [cbn; lia |]. cbn [mbind option_bind app].
    rewrite draw_reversed. by rewrite <- map_rev, rev_involutive.
Qed.

(** [draw_number] draws the decimal notation of the value as a string, within
    its ten digits. *)
Theorem draw_number_draws_decimal target ppl value x y color m :
  0 <= value < 2 ^ 32 ->
  draw_number target ppl value x y color m
    = Some (draw_string target ppl (map (Z.add 48) (decimal value)) x y color m) /\
  is_decimal value (decimal value) /\ (length (decimal value) <= 10)%nat.
Proof.
  intros Hv. split_and!; [by apply draw_number_text | apply decimal_spec; lia |].
  destruct (decide (value = 0)) as [-> |]; [cbn; lia |].
  apply (digits_loop (Z.add 48) 10 value []). cbn. lia.
Qed.

Lemma draw_number_draws_decimal_witness :
  draw_number 0 640 407 10 10 255 ∅ = Some (draw_string 0 640 (bytes "407") 10 10 255 ∅).
Proof. exact (proj1 (draw_number_draws_decimal 0 640 407 10 10 255 ∅ ltac:(lia))). Defined.

(** *** Memory *)

(** The first region that is free and large enough. *)
Definition first_region (memory_map : list descriptor) (pages : Z) (r : option descriptor) : Prop :=
  match r with
  | Some e => exists i, memory_map !! i = Some e /\ Type_ e = EfiConventionalMemory /\ pages <= NumberOfPages e /\
      (forall j e', (j < i)%nat -> memory_map !! j = Some e' ->
         ~ (Type_ e' = EfiConventionalMemory /\ pages <= NumberOfPages e'))
  | None => Forall (fun e => ~ (Type_ e = EfiConventionalMemory /\ pages <= NumberOfPages e)) memory_map
  end.

Lemma find_region_first memory_map pages : exists r, first_region memory_map pages r /\
  find_region_for_malloc memory_map pages = match r with Some e => PhysicalStart e | None => 0 end.
Proof.
  induction memory_map as [|e rest IH]; [by exists None; split; [apply Forall_nil_2 |] |].
  cbn [find_region_for_malloc].
  destruct (decide (Type_ e = EfiConventionalMemory /\ pages <= NumberOfPages e)) as [[Ht Hp] | Hne].
  - exists (Some e). rewrite Ht, Z.eqb_refl, (proj2 (Z.leb_le _ _)) by done. split; [|done].
    exists 0%nat. split_and!; try done. intros; lia.
  - assert ((if Type_ e =? EfiConventionalMemory then if pages <=? NumberOfPages e then PhysicalStart e
             else find_region_for_malloc rest pages else find_region_for_malloc rest pages)
            = find_region_for_malloc rest pages) as ->
      by (destruct (Z.eqb_spec (Type_ e) EfiConventionalMemory); [zcase; [tauto | done] | done]).
    destruct IH as (r & Hr & ->). exists r. split; [|done]. destruct r as [e0|].
    + destruct Hr as (i & H1 & H2 & H3 & H4). exists (S i). split_and!; try done.
      intros [|j] e' Hj He'; [by injection He' as <- | apply (H4 j e'); [lia | done]].
    + by apply Forall_cons_iff.
Qed.

(** The blocks of a list of requests, one call after the other. *)
Fixpoint mallocs (memory_map : list descriptor) (sizes : list Z) (next : Z) : list Z * Z :=
  match sizes with
  | [] => ([], next)
  | s :: sizes =>
      let '(a, next) := my_malloc s memory_map next in
      let '(l, next) := mallocs memory_map sizes next in (a :: l, next)
  end.

(** Blocks one behind the other, and the end of the last. *)
Fixpoint stacked (start : Z) (sizes : list Z) : list Z * Z :=
  match sizes with
  | [] => ([], start)
  | s :: sizes => let '(l, e) := stacked (start + s) sizes in (start :: l, e)
  end.

Lemma stacked_end sizes : forall start, snd (stacked start sizes) = start + foldr Z.add 0 sizes.
Proof.
  induction sizes as [|s sizes IH]; intros start; cbn; [lia |]. specialize (IH (start + s)).
  destruct (stacked (start + s) sizes) as [l e]. cbn in *. lia.
Qed.

Lemma sizes_sum sizes : Forall (fun s => 0 <= s < 2 ^ 31) sizes -> 0 <= foldr Z.add 0 sizes.
Proof. induction 1; cbn; lia. Qed.

Lemma mallocs_stacked memory_map sizes : forall next, 0 < next -> Forall (fun s => 0 <= s < 2 ^ 31) sizes ->
  next + foldr Z.add 0 sizes < 2 ^ 64 -> mallocs memory_map sizes next = stacked next sizes.
Proof.
  induction sizes as [|s sizes IH]; intros next Hn Hs Ht; cbn [mallocs stacked foldr] in *; [done |].
  apply Forall_cons_iff in Hs as [H1 H2]. pose proof (sizes_sum sizes H2). unfold my_malloc.
  rewrite (proj2 (Z.eqb_neq next 0)), u64_small by lia. by rewrite IH by (done || lia).
Qed.

(** my_malloc places the first block at the start of the first free region
    with enough pages for it, or at the address 0 when there is none, and
    every later block right behind the one before, whatever their number: the
    end of the region is never looked at, so that as soon as the sizes exceed
    the region the last block ends outside it. The sizes are not negative, the
    first block is not an empty one at 0, and the end is below 2^64. *)
Theorem my_malloc_bump memory_map s sizes :
  Forall (fun s => 0 <= s < 2 ^ 31) (s :: sizes) ->
  exists r, first_region memory_map (s / 4096 + 1) r /\
  let start := match r with Some e => PhysicalStart e | None => 0 end in
  let total := foldr Z.add 0 (s :: sizes) in
  (0 <= start -> 0 < start + s -> start + total < 2 ^ 64 ->
     mallocs memory_map (s :: sizes) 0 = stacked start (s :: sizes) /\ snd (stacked start (s :: sizes)) = start + total) /\
  (forall e, r = Some e -> start + s < start + 4096 * NumberOfPages e).
Proof.
  intros Hs. pose proof Hs as Hs'. apply Forall_cons_iff in Hs' as [H1 H2]. pose proof (sizes_sum sizes H2) as Hp.
  assert (u64 (Z.quot s 4096 + 1) = s / 4096 + 1) as Eq by (rewrite Z.quot_div_nonneg, u64_small by dlia; done).
  destruct (find_region_first memory_map (s / 4096 + 1)) as (r & Hr & Hf). exists r. split; [done |]. intros start total. split.
  - intros H0 H3 H4. split; [| apply stacked_end]. cbn [mallocs stacked]. unfold my_malloc. cbn [Z.eqb].
    rewrite Eq, Hf. fold start. unfold total in H4. cbn [foldr] in H4.
    rewrite u64_small, mallocs_stacked by (done || lia). done.
  - intros e ->. destruct Hr as (i & _ & _ & Hpg & _). dlia.
Qed.

(** The test block of 4096 bytes, the screen buffer of 1920x1080 and another
    block, in a region of two pages. *)
Lemma my_malloc_bump_witness :
  let map_ := [Descriptor 2 0x1000 900; Descriptor 7 0x100000 2] in
  let sizes := [4096; 1080 * (1920 * 4); 16] in
  mallocs map_ sizes 0 = ([0x100000; 0x101000; 0x101000 + 1080 * (1920 * 4)], 0x101010 + 1080 * (1920 * 4)) /\
  0x100000 + 4096 * 2 < 0x101010 + 1080 * (1920 * 4).
Proof.
  intros map_ sizes. destruct (my_malloc_bump map_ 4096 [1080 * (1920 * 4); 16]) as (r & Hr & H & _); [by repeat constructor |].
  destruct r as [e|]; [| exfalso; cbn [first_region map_] in Hr; apply Forall_cons_iff in Hr as [_ Hr];
    apply Forall_cons_iff in Hr as [Hr _]; apply Hr; split; [reflexivity | vm_compute; discriminate]].
  assert (e = Descriptor 7 0x100000 2) as ->.
  { destruct Hr as ([|[|i]] & Hi & Ht & _); [injection Hi as <-; discriminate Ht | by injection Hi as <- | done]. }
  split; [exact (proj1 (H ltac:(done) ltac:(done) ltac:(done))) | lia].
Defined.

(** The copy, cell by cell. *)
Lemma copy_cells destiny origem n m :
  0 <= n -> destiny + 4 * (n / 4) <= origem \/ origem + 4 * (n / 4) <= destiny ->
  let m' := copy_memory destiny origem n m in
  (forall i, 0 <= i < n / 4 -> ld m' (destiny + 4 * i) = ld m (origem + 4 * i)) /\
  (forall a, (forall i, 0 <= i < n / 4 -> a <> destiny + 4 * i) -> ld m' a = ld m a).
Proof.
  intros Hn Hd. cbv zeta. unfold copy_memory.
  set (copied_to := fun k m' => (forall i, 0 <= i < k -> ld m' (destiny + 4 * i) = ld m (origem + 4 * i)) /\
    (forall a, (forall i, 0 <= i < k -> a <> destiny + 4 * i) -> ld m' a = ld m a)).
  apply (for_range_inv copied_to); [dlia | split; [lia | done] |].
  intros k m' Hk [H1 H2]. split.
  - intros i Hi. rewrite ld_st. case_decide as E.
    + assert (k = i) as -> by lia. apply H2. intros j Hj. lia.
    + apply H1. lia.
  - intros a Ha. rewrite ld_st_ne; [|intros E; apply (Ha k); lia]. apply H2. intros i Hi. apply Ha. lia.
Qed.

(** [copy_memory] copies the cells between ranges that do not overlap. *)
Theorem copy_memory_copies destiny origem n m :
  0 <= n -> destiny + 4 * (n / 4) <= origem \/ origem + 4 * (n / 4) <= destiny ->
  let m' := copy_memory destiny origem n m in
  (forall i, 0 <= i < n / 4 -> ld m' (destiny + 4 * i) = ld m (origem + 4 * i)) /\
  (forall a, (forall i, 0 <= i < n / 4 -> a <> destiny + 4 * i) -> ld m' a = ld m a).
Proof. apply copy_cells. Qed.


Lemma copy_memory_copies_witness :
  let m := st (st ∅ 0x2000 7) 0x2004 8 in ld (copy_memory 0x1000 0x2000 8 m) 0x1004 = 8.
Proof. exact (proj1 (copy_memory_copies 0x1000 0x2000 8 _ ltac:(lia) ltac:(left; vm_compute; discriminate)) 1 ltac:(split; [lia | reflexivity])). Defined.
