(* ===== verification/EfiMain.v ===== *)
(** * The UEFI program: the animation

    The loop of [src/efi-boot/main.c] after the firmware has been left (step 5),
    over the drawing routines of [EfiGraphics].  Steps 1 and 2 (the firmware's
    graphics output, memory map and [ExitBootServices]) are calls of the
    firmware; the hardware of step 4 is in [EfiHardware]. *)

From S2P Require Import Prelude Machine EfiGraphics.

(** ** The code *)

Definition UP_KEY : Z := 72.
Definition DOWN_KEY : Z := 80.
Definition LEFT_KEY : Z := 75.
Definition RIGHT_KEY : Z := 77.
Definition ESPACE : Z := 57.
Definition box_size : Z := 60.
Definition list_colors : list Z := [0x00E67E22; 0x003498DB; 0x002ECC71; 0x009B59B6].
Definition num_colors : Z := 4.

(** The variables of the loop; [a_key] is [g_last_key]. *)
Record anim := Anim {
  a_x : Z; a_y : Z; a_dx : Z; a_dy : Z; a_color : Z; paused : Z; a_key : Z }.

Definition anim_start : anim := Anim 100 100 4 3 0 0 0.

Definition handle_key (a : anim) : anim :=
  if a_key a =? ESPACE
  then Anim (a_x a) (a_y a) (a_dx a) (a_dy a) (a_color a) (if paused a =? 1 then 0 else 1) 0
  else if a_key a =? UP_KEY then Anim (a_x a) (s32 (a_y a - 10)) (a_dx a) (a_dy a) (a_color a) (paused a) 0
  else if a_key a =? LEFT_KEY then Anim (s32 (a_x a - 10)) (a_y a) (a_dx a) (a_dy a) (a_color a) (paused a) 0
  else if a_key a =? RIGHT_KEY then Anim (s32 (a_x a + 10)) (a_y a) (a_dx a) (a_dy a) (a_color a) (paused a) 0
  else if a_key a =? DOWN_KEY then Anim (a_x a) (s32 (a_y a + 10)) (a_dx a) (a_dy a) (a_color a) (paused a) 0
  else a.

(** One coordinate: the two tests against the edges. *)
Definition clamp (v size : Z) : Z :=
  let v := if v <? 0 then 0 else v in
  if s32 size <? s32 (v + box_size) then s32 (size - box_size) else v.

(** One coordinate after the box has been drawn: its velocity, and whether an
    edge was hit. *)
Definition bounce (v dv size : Z) : Z * bool :=
  if (v <=? 0) || (s32 size <=? s32 (v + box_size))
  then let dv := s32 (- dv) in (s32 (dv + (if 0 <? dv then 1 else -1)), true)
  else (dv, false).

(** The end of the body: the box moves and the colour changes at an edge. *)
Definition advance (width height : Z) (a : anim) : anim :=
  let x := s32 (a_x a + a_dx a) in
  let y := s32 (a_y a + a_dy a) in
  let '(dx, hit_x) := bounce x (a_dx a) width in
  let '(dy, hit_y) := bounce y (a_dy a) height in
  let color := if hit_x || hit_y
               then let c := a_color a + 1 in if num_colors <=? c then 0 else c
               else a_color a in
  Anim x y dx dy color (paused a) (a_key a).

(** What the loop draws: the buffer is [buffer_rasc], also [g_draw_target]. *)
Record video := Video {
  v_width : Z; v_height : Z; v_ppl : Z; framebuffer : Z; buffer_rasc : Z; v_image : gimp }.

Definition size_buffer (v : video) : Z := v_height v * (v_ppl v * 4).

Definition clear_buffer (v : video) (m : mem) : mem :=
  for_range 0 (v_height v) (fun py => for_range 0 (v_width v) (fun px =>
    draw_pixel (buffer_rasc v) (s32 px) (s32 py) (v_ppl v) 0)) m.

(** The drawing part of the body; [mouse_x], [mouse_y] and [ticks] are what it
    reads of the variables of the interrupt handlers. *)
Definition draw_frame (v : video) (mouse_x mouse_y ticks : Z) (a : anim) (m : mem) : option mem :=
  let m := clear_buffer v m in
  let m := draw_gimp_image (v_image v) (buffer_rasc v) 40 50 (v_ppl v) m in
  let m := draw_box (buffer_rasc v) (a_x a) (a_y a) box_size (v_ppl v)
                    (nth (Z.to_nat (a_color a)) list_colors 0) m in
  let m := draw_box (buffer_rasc v) mouse_x mouse_y 8 (v_ppl v) 0x00FFFFFF m in
  m ← draw_number (buffer_rasc v) (v_ppl v) (u32 ticks) 10 10 0x00FFFFFF m;
  Some (copy_memory (framebuffer v) (buffer_rasc v) (size_buffer v) m).

(** One round of [while (1)], up to the final [delay_real(10)]. *)
Definition animation_round (v : video) (mouse_x mouse_y ticks : Z) (st : anim * mem) : option (anim * mem) :=
  let '(a, m) := st in
  let a := handle_key a in
  let a := Anim (clamp (a_x a) (v_width v)) (clamp (a_y a) (v_height v)) (a_dx a) (a_dy a)
                (a_color a) (paused a) (a_key a) in
  if paused a =? 0 then
    m ← draw_frame v mouse_x mouse_y ticks a m; Some (advance (v_width v) (v_height v) a, m)
  else Some (a, m).

(** The keyboard handler stores a key; the timer and the mouse change what the
    drawing reads. *)
Record inputs := Inputs { i_key : option Z; i_mouse_x : Z; i_mouse_y : Z; i_ticks : Z }.

Definition press (key : option Z) (a : anim) : anim :=
  match key with
  | Some k => Anim (a_x a) (a_y a) (a_dx a) (a_dy a) (a_color a) (paused a) k
  | None => a
  end.

(** [while (1)], for as many rounds as there are inputs. *)
Definition run_round (v : video) (i : inputs) (st : anim * mem) : option (anim * mem) :=
  let '(a, m) := st in animation_round v (i_mouse_x i) (i_mouse_y i) (i_ticks i) (press (i_key i) a, m).

Definition animation (v : video) (l : list inputs) (m : mem) : option (anim * mem) :=
  foldM (run_round v) l (anim_start, m).

(** ** Specifications *)

(** The box lies on the screen and the colour is one of the list. *)
Definition on_screen (width height : Z) (a : anim) : Prop :=
  0 <= a_x a <= width - box_size /\ 0 <= a_y a <= height - box_size /\ 0 <= a_color a < num_colors.

(** After [n] rounds: the velocities have not grown by more than one per round. *)
Definition anim_inv (width height n : Z) (a : anim) : Prop :=
  - (n + 4) <= a_dx a <= n + 4 /\ - (n + 4) <= a_dy a <= n + 4 /\
  - (n + 4) <= a_x a <= width + n + 40 /\ - (n + 4) <= a_y a <= height + n + 40 /\
  0 <= a_color a < num_colors.

(** Whether a string at [(x, y)] lights the pixel [(px, py)]. *)
Fixpoint text_lit (text : list Z) (x y px py : Z) : Prop :=
  match text with
  | [] => False
  | c :: rest =>
      (48 <= c <= 57 /\ x <= px < x + 8 /\ y <= py < y + 8 /\ glyph (c - 48) (px - x) (py - y) = true)
      \/ text_lit rest (x + 9) y px py
  end.

#[global] Instance text_lit_dec text x y px py : Decision (text_lit text x y px py).
Proof. revert x. induction text as [|c rest IH]; intros x; cbn [text_lit]; apply _. Defined.

(** Whether a box at [(x, y)] has the pixel [(px, py)]: what is right of the
    line goes on in the next one. *)
Definition box_shows (ppl x y size px py : Z) : Prop := box_cell 0 x y size ppl (pixel 0 ppl px py).

Definition in_box (x y w h px py : Z) : Prop := x <= px < x + w /\ y <= py < y + h.

#[global] Instance in_box_dec x y w h px py : Decision (in_box x y w h px py).
Proof. unfold in_box. apply _. Defined.

(** The colour of a pixel of the frame: the layers from front to back. *)
Definition frame_color (v : video) (mouse_x mouse_y ticks : Z) (a : anim) (px py : Z) : Z :=
  if decide (text_lit (map (Z.add 48) (decimal (u32 ticks))) 10 10 px py) then 0x00FFFFFF
  else if decide (box_shows (v_ppl v) mouse_x mouse_y 8 px py) then 0x00FFFFFF
  else if decide (in_box (a_x a) (a_y a) box_size box_size px py)
  then nth (Z.to_nat (a_color a)) list_colors 0
  else if decide (in_box 40 50 (g_width (v_image v)) (g_height (v_image v)) px py)
  then image_color (v_image v) (px - 40) (py - 50) else 0.

(** A screen the program can draw on. *)
Definition video_ok (v : video) : Prop :=
  box_size <= v_width v <= v_ppl v /\ box_size <= v_height v /\ 4 * v_ppl v * v_height v < 2 ^ 31 /\
  100 <= v_ppl v /\ 0 <= g_width (v_image v) /\ 0 <= g_height (v_image v) /\
  40 + g_width (v_image v) <= v_ppl v /\ 50 + g_height (v_image v) <= v_height v /\
  (framebuffer v + size_buffer v <= buffer_rasc v \/ buffer_rasc v + size_buffer v <= framebuffer v).

(** ** Proofs: the movement *)

Lemma clamp_range v size : box_size <= size < 2 ^ 30 -> - 2 ^ 30 <= v < 2 ^ 30 ->
  0 <= clamp v size <= size - box_size.
Proof.
  unfold clamp, box_size. intros Hs Hv. rewrite (s32_small size), (s32_small (size - 60)) by lia.
  destruct (Z.ltb_spec v 0); rewrite s32_small by lia; zcase; lia.
Qed.

Lemma bounce_range v dv size n : box_size <= size < 2 ^ 30 -> - 2 ^ 30 <= v < 2 ^ 30 ->
  0 <= n < 2 ^ 30 -> - n <= dv <= n ->
  - (n + 1) <= fst (bounce v dv size) <= n + 1 /\
  (snd (bounce v dv size) = false -> 0 < v < size - box_size /\ fst (bounce v dv size) = dv) /\
  (snd (bounce v dv size) = true -> ~ (0 < v < size - box_size) /\
     fst (bounce v dv size) = if 0 <? - dv then - dv + 1 else - dv - 1).
Proof.
  unfold bounce, box_size. intros Hs Hv Hn Hd. rewrite (s32_small size), (s32_small (v + 60)) by lia.
  destruct (Z.leb_spec v 0); cbn [orb]; [|destruct (Z.leb_spec size (v + 60))]; cbn [fst snd].
  - rewrite (s32_small (- dv)) by lia. rewrite s32_small by (zcase; lia). split_and!; [zcase; lia..| done |].
    intros _. split; [lia | zcase; lia].
  - rewrite (s32_small (- dv)) by lia. rewrite s32_small by (zcase; lia). split_and!; [zcase; lia..| done |].
    intros _. split; [lia | zcase; lia].
  - split_and!; [lia | lia | | done]. intros _. split; [lia | done].
Qed.

Lemma handle_key_bounds a : - 2 ^ 30 < a_x a < 2 ^ 30 -> - 2 ^ 30 < a_y a < 2 ^ 30 ->
  let a' := handle_key a in
  a_x a - 10 <= a_x a' <= a_x a + 10 /\ a_y a - 10 <= a_y a' <= a_y a + 10 /\
  a_dx a' = a_dx a /\ a_dy a' = a_dy a /\ a_color a' = a_color a.
Proof.
  intros Hx Hy. unfold handle_key. repeat (zcase; cbn [a_x a_y a_dx a_dy a_color]);
    rewrite ?s32_small by lia; split_and!; try done; lia.
Qed.

Section Movement.
Variables (width height : Z).
Hypothesis Hw : box_size <= width < 2 ^ 29.
Hypothesis Hh : box_size <= height < 2 ^ 29.

(** The state in which a round draws: after the key and the tests of the edges. *)
Definition to_draw (a : anim) : anim :=
  let a := handle_key a in
  Anim (clamp (a_x a) width) (clamp (a_y a) height) (a_dx a) (a_dy a) (a_color a) (paused a) (a_key a).

Lemma to_draw_on_screen n a : 0 <= n < 2 ^ 29 - 100 -> anim_inv width height n a ->
  on_screen width height (to_draw a) /\ a_dx (to_draw a) = a_dx a /\ a_dy (to_draw a) = a_dy a.
Proof.
  intros Hn (Hdx & Hdy & Hx & Hy & Hc). unfold to_draw, on_screen.
  destruct (handle_key_bounds a) as (B1 & B2 & B3 & B4 & B5); [lia | lia |].
  cbn [a_x a_y a_dx a_dy a_color] in *. rewrite B3, B4, B5.
  split_and!; try done; try lia; apply clamp_range; lia.
Qed.

Lemma press_inv n key a : anim_inv width height n a -> anim_inv width height n (press key a).
Proof. by destruct key. Qed.

Lemma advance_inv n a : 0 <= n < 2 ^ 29 - 100 -> on_screen width height a ->
  - (n + 4) <= a_dx a <= n + 4 -> - (n + 4) <= a_dy a <= n + 4 -> anim_inv width height (n + 1) (advance width height a).
Proof.
  intros Hn (Sx & Sy & Sc) Hdx Hdy. unfold anim_inv, advance, box_size, num_colors in *. rewrite !s32_small by lia.
  pose proof (bounce_range (a_x a + a_dx a) (a_dx a) width (n + 4)) as (B1 & _); [unfold box_size; lia.. |].
  pose proof (bounce_range (a_y a + a_dy a) (a_dy a) height (n + 4)) as (B2 & _); [unfold box_size; lia.. |].
  destruct (bounce (a_x a + a_dx a) (a_dx a) width) as [dx hx].
  destruct (bounce (a_y a + a_dy a) (a_dy a) height) as [dy hy].
  cbn [fst snd a_x a_y a_dx a_dy a_color] in *. unfold num_colors.
  destruct (hx || hy); [zcase|]; lia.
Qed.

Lemma drawn_inv n a : 0 <= n < 2 ^ 29 - 100 -> on_screen width height a ->
  - (n + 4) <= a_dx a <= n + 4 -> - (n + 4) <= a_dy a <= n + 4 -> anim_inv width height (n + 1) a.
Proof. unfold anim_inv, on_screen, box_size, num_colors in *. lia. Qed.
End Movement.

(** When the box reaches an edge its velocity on that axis changes sign and
    grows by one, and the colour moves on in the list; otherwise nothing
    changes. *)
Theorem advance_bounces width height a :
  box_size <= width < 2 ^ 29 -> box_size <= height < 2 ^ 29 -> on_screen width height a ->
  - 2 ^ 29 <= a_dx a < 2 ^ 29 -> - 2 ^ 29 <= a_dy a < 2 ^ 29 ->
  let a' := advance width height a in
  let hit_x := negb (bool_decide (0 < a_x a' < width - box_size)) in
  let hit_y := negb (bool_decide (0 < a_y a' < height - box_size)) in
  a_x a' = a_x a + a_dx a /\ a_y a' = a_y a + a_dy a /\
  a_dx a' = (if hit_x then - a_dx a + (if 0 <? - a_dx a then 1 else -1) else a_dx a) /\
  a_dy a' = (if hit_y then - a_dy a + (if 0 <? - a_dy a then 1 else -1) else a_dy a) /\
  a_color a' = (if hit_x || hit_y then (a_color a + 1) mod num_colors else a_color a).
Proof.
  intros Hw Hh (Hx & Hy & Hc) Hdx Hdy. unfold advance, box_size, num_colors in *.
  rewrite !s32_small by lia.
  pose proof (bounce_range (a_x a + a_dx a) (a_dx a) width (2 ^ 29)) as (_ & B1 & B2); [unfold box_size; lia.. |].
  pose proof (bounce_range (a_y a + a_dy a) (a_dy a) height (2 ^ 29)) as (_ & C1 & C2); [unfold box_size; lia.. |].
  destruct (bounce (a_x a + a_dx a) (a_dx a) width) as [dx hx].
  destruct (bounce (a_y a + a_dy a) (a_dy a) height) as [dy hy].
  cbn [fst snd a_x a_y a_dx a_dy a_color] in *. unfold box_size, num_colors in *.
  assert (forall b (P : Prop) `{Decision P}, (b = false -> P) -> (b = true -> ~ P) -> negb (bool_decide P) = b) as Hb.
  { intros [] P ? H0 H1; [by rewrite bool_decide_eq_false_2 by auto | by rewrite bool_decide_eq_true_2 by auto]. }
  rewrite (Hb hx), (Hb hy) by (intros ->; first [apply B1 | apply B2 | apply C1 | apply C2]; done).
  split_and!; try done.
  - destruct hx; [rewrite (proj2 (B2 eq_refl)); zcase; lia | by apply B1].
  - destruct hy; [rewrite (proj2 (C2 eq_refl)); zcase; lia | by apply C1].
  - destruct (hx || hy); [|done]. zcase; dlia.
Qed.

Lemma advance_bounces_witness :
  advance 800 600 (Anim 738 300 4 (-3) 3 0 0) = Anim 742 297 (-5) (-3) 0 0 0.
Proof.
  destruct (advance_bounces 800 600 (Anim 738 300 4 (-3) 3 0 0)) as (H1 & H2 & H3 & H4 & H5);
    [unfold box_size; lia | unfold box_size; lia | unfold on_screen, box_size, num_colors; cbn; lia | cbn; lia | cbn; lia |].
  revert H1 H2 H3 H4 H5. vm_compute. congruence.
Defined.

(** ** Proofs: the frame *)

Section Frame.
Variables (v : video) (mx my ticks : Z) (a : anim).
Hypothesis Hv : video_ok v.
Hypothesis Ha : on_screen (v_width v) (v_height v) a.

Abbreviation pix := (pixel (buffer_rasc v) (v_ppl v)).

(** Every rectangle on the screen is one the drawing routines are proved for. *)
Lemma fits_screen x y w h : 0 <= x -> 0 <= y -> x + w <= v_ppl v -> y + h <= v_height v -> fits (v_ppl v) x y w h.
Proof.
  intros Hx Hy Hw Hh. destruct Hv as (H1 & H2 & H3 & _). unfold fits, box_size in *. split_and!; try lia.
  assert ((y + h) * v_ppl v <= v_height v * v_ppl v) by nia. lia.
Qed.

Lemma string_pixels text : forall x m px py,
  0 <= x -> x + 9 * Z.of_nat (length text) <= v_ppl v + 1 -> 0 <= px < v_ppl v ->
  ld (draw_string (buffer_rasc v) (v_ppl v) text x 10 0x00FFFFFF m) (pix px py) =
  if decide (text_lit text x 10 px py) then 0x00FFFFFF else ld m (pix px py).
Proof.
  induction text as [|c rest IH]; intros x m px py Hx Hl Hpx; cbn [draw_string text_lit length] in *.
  - by rewrite decide_False by tauto.
  - rewrite IH by lia. destruct (decide (text_lit rest (x + 9) 10 px py)) as [Hr | Hr].
    + by rewrite decide_True by tauto.
    + rewrite char_pixels; [|apply fits_screen; destruct Hv as (? & ? & _); unfold box_size in *; lia | done].
      change (u32 0xFFFFFF) with 0xFFFFFF. repeat case_decide; tauto.
Qed.

Lemma clear_pixels m px py : 0 <= px < v_width v -> 0 <= py < v_height v -> ld (clear_buffer v m) (pix px py) = 0.
Proof.
  intros Hpx Hpy. destruct Hv as (H1 & H2 & H3 & _). unfold clear_buffer, draw_pixel, box_size in *.
  pose proof (rect_spec (buffer_rasc v) (v_ppl v) 0 0 (v_width v) (v_height v) (fun _ _ => Some 0)) as Hr.
  rewrite Hr.
  - rewrite decide_True by lia. done.
  - apply fits_screen; lia.
  - lia.
  - lia.
  - intros r c m1 Hr' Hc. rewrite !s32_small, u32_small by nia. done.
  - lia.
Qed.

Lemma text_fits : 10 + 9 * Z.of_nat (length (map (Z.add 48) (decimal (u32 ticks)))) <= v_ppl v + 1.
Proof.
  rewrite length_map. destruct Hv as (_ & _ & _ & H4 & _).
  assert (length (decimal (u32 ticks)) <= 10)%nat as Hl; [|lia].
  destruct (decide (u32 ticks = 0)) as [-> |]; [cbn; lia |].
  apply (digits_loop (Z.add 48) 10 (u32 ticks) []). pose proof (u32_range ticks). cbn. lia.
Qed.

(** The buffer before it is copied. *)
Lemma buffer_layers m px py : 0 <= px < v_width v -> 0 <= py < v_height v ->
  ld (draw_string (buffer_rasc v) (v_ppl v) (map (Z.add 48) (decimal (u32 ticks))) 10 10 0x00FFFFFF
       (draw_box (buffer_rasc v) mx my 8 (v_ppl v) 0x00FFFFFF
         (draw_box (buffer_rasc v) (a_x a) (a_y a) box_size (v_ppl v) (nth (Z.to_nat (a_color a)) list_colors 0)
           (draw_gimp_image (v_image v) (buffer_rasc v) 40 50 (v_ppl v) (clear_buffer v m))))) (pix px py)
  = frame_color v mx my ticks a px py.
Proof.
  intros Hpx Hpy. destruct Hv as (H1 & H2 & H3 & H4 & H5 & H6 & H7 & H8 & _).
  destruct Ha as (Hx & Hy & Hc). unfold box_size in *.
  rewrite string_pixels; [|lia | apply text_fits | lia]. unfold frame_color, in_box, box_size.
  generalize (map (Z.add 48) (decimal (u32 ticks))). intros text.
  case_decide; [done |].
  rewrite box_cells by lia. change (u32 0x00FFFFFF) with 0x00FFFFFF.
  assert (box_cell (buffer_rasc v) mx my 8 (v_ppl v) (pix px py) <-> box_shows (v_ppl v) mx my 8 px py) as Hm.
  { unfold box_shows, pixel. rewrite !box_cell_iff. split; intros (r & c & Hr & Hc' & E); exists r, c; split_and!; try done; lia. }
  destruct (decide (box_shows _ _ _ _ _ _)); [by rewrite decide_True by tauto | rewrite decide_False by tauto].
  rewrite (proj1 (box_pixels _ (a_x a) (a_y a) 60 _ _ _ px py
                    (fits_screen (a_x a) (a_y a) 60 60 ltac:(lia) ltac:(lia) ltac:(lia) ltac:(lia)) ltac:(lia) ltac:(lia))).
  case_decide; [rewrite decide_True by done | rewrite decide_False by done].
  - apply u32_small. unfold num_colors in Hc. revert Hc. generalize (a_color a). intros c Hc.
    assert (c = 0 \/ c = 1 \/ c = 2 \/ c = 3) as [-> | [-> | [-> | ->]]] by lia; vm_compute; split; discriminate || reflexivity.
  - rewrite image_pixels; [|apply fits_screen; lia|nia|nia|lia|lia|lia].
    case_decide; [by rewrite decide_True | rewrite decide_False by done]. by apply clear_pixels.
Qed.

(** The frame, pixel by pixel. *)
Lemma frame_shown m : exists m', draw_frame v mx my ticks a m = Some m' /\
  forall px py, 0 <= px < v_width v -> 0 <= py < v_height v ->
    ld m' (pixel (framebuffer v) (v_ppl v) px py) = frame_color v mx my ticks a px py /\
    ld m' (pix px py) = frame_color v mx my ticks a px py.
Proof.
  unfold draw_frame. rewrite draw_number_text by apply u32_range. cbn [mbind option_bind].
  eexists. split; [reflexivity |]. intros px py Hpx Hpy. rewrite <- (buffer_layers m px py Hpx Hpy).
  generalize (draw_string (buffer_rasc v) (v_ppl v) (map (Z.add 48) (decimal (u32 ticks))) 10 10 0x00FFFFFF
       (draw_box (buffer_rasc v) mx my 8 (v_ppl v) 0x00FFFFFF
         (draw_box (buffer_rasc v) (a_x a) (a_y a) box_size (v_ppl v) (nth (Z.to_nat (a_color a)) list_colors 0)
           (draw_gimp_image (v_image v) (buffer_rasc v) 40 50 (v_ppl v) (clear_buffer v m))))).
  intros m5. destruct Hv as (H1 & H2 & H3 & _ & _ & _ & _ & _ & Hd). unfold box_size in *.
  assert (size_buffer v / 4 = v_height v * v_ppl v) as E.
  { unfold size_buffer. replace (v_height v * (v_ppl v * 4)) with (v_height v * v_ppl v * 4) by ring.
    apply Z.div_mul. lia. }
  assert (size_buffer v = 4 * (v_height v * v_ppl v)) as E' by (unfold size_buffer; ring).
  assert (0 <= py * v_ppl v + px < v_height v * v_ppl v) as Hi by nia.
  destruct (copy_cells (framebuffer v) (buffer_rasc v) (size_buffer v) m5) as [C1 C2]; [lia | lia |].
  rewrite E in C1, C2. split; [by apply C1 |].
  apply C2. intros i Hii. unfold pixel. lia.
Qed.

(** C25. On a screen of less than 2 GB, with lines of at least 100 pixels,
    room for the image and the moving box and a buffer apart from it, and with
    the moving box on it, after draw_frame every pixel of the screen, in the
    buffer and in the framebuffer, has the colour of the frontmost layer
    there: the decimal tick count, the mouse box, the moving box, the image,
    or black. The pointer may be anywhere: nothing stops it at the right and
    bottom edges, and there its box goes on in the next line. *)
Theorem draw_frame_layers m px py :
  0 <= px < v_width v -> 0 <= py < v_height v ->
  exists m', draw_frame v mx my ticks a m = Some m' /\
    ld m' (pixel (framebuffer v) (v_ppl v) px py) = frame_color v mx my ticks a px py /\
    ld m' (pix px py) = frame_color v mx my ticks a px py.
Proof.
  intros Hpx Hpy. destruct (frame_shown m) as (m' & E & H). exists m'. split; [exact E |]. by apply H.
Qed.
End Frame.

(** A 800x600 screen with an image of one pixel. *)
Lemma draw_frame_layers_witness :
  let v := Video 800 600 800 0x80000000 0x10000000 (Gimp 1 1 3 (fun _ => 7)) in
  exists m', draw_frame v 796 300 12 anim_start ∅ = Some m' /\ ld m' (pixel 0x80000000 800 2 302) = 0x00FFFFFF.
Proof.
  cbv zeta. edestruct (draw_frame_layers (Video 800 600 800 0x80000000 0x10000000 (Gimp 1 1 3 (fun _ => 7)))
    796 300 12 anim_start) with (m := ∅ : mem) (px := 2) (py := 302) as (m' & H1 & H2 & _).
  - unfold video_ok, size_buffer, box_size. cbn. lia.
  - unfold on_screen, box_size, num_colors. cbn. lia.
  - cbn. lia.
  - cbn. lia.
  - exists m'. split; [exact H1 |]. etransitivity; [exact H2 |]. vm_compute. reflexivity.
Defined.

(** ** Proofs: the loop *)

Section Loop.
Variable v : video.
Hypothesis Hv : video_ok v.

Lemma screen_small : box_size <= v_width v < 2 ^ 29 /\ box_size <= v_height v < 2 ^ 29.
Proof. destruct Hv as (H1 & H2 & H3 & _). unfold box_size in *. nia. Qed.

Definition drawn (a : anim) : anim := to_draw (v_width v) (v_height v) a.

(** What a round does. *)
Definition round_shows (i : inputs) (st : anim * mem) (r : option (anim * mem)) : Prop :=
  let d := drawn (press (i_key i) (fst st)) in
  on_screen (v_width v) (v_height v) d /\
  (paused d <> 0 -> r = Some (d, snd st)) /\
  (paused d = 0 -> exists m', r = Some (advance (v_width v) (v_height v) d, m') /\
     forall px py, 0 <= px < v_width v -> 0 <= py < v_height v ->
       ld m' (pixel (framebuffer v) (v_ppl v) px py) = frame_color v (i_mouse_x i) (i_mouse_y i) (i_ticks i) d px py).

Lemma run_round_shows n i a m : 0 <= n < 2 ^ 29 - 100 -> anim_inv (v_width v) (v_height v) n a ->
  round_shows i (a, m) (run_round v i (a, m)) /\
  exists a' m', run_round v i (a, m) = Some (a', m') /\ anim_inv (v_width v) (v_height v) (n + 1) a'.
Proof.
  intros Hn Ha. destruct screen_small as [Hw Hh]. pose proof (press_inv (v_width v) (v_height v) n (i_key i) a Ha) as Hp.
  destruct (to_draw_on_screen (v_width v) (v_height v) Hw Hh n _ Hn Hp) as (S & E1 & E2). destruct Hp as (D1 & D2 & _).
  unfold run_round, animation_round, round_shows. cbn [fst snd]. fold (to_draw (v_width v) (v_height v) (press (i_key i) a)).
  fold (drawn (press (i_key i) a)) in *. set (d := drawn _) in *. clearbody d. rewrite <- E1 in D1. rewrite <- E2 in D2.
  destruct (Z.eqb_spec (paused d) 0) as [Ep | Ep].
  - destruct (frame_shown v (i_mouse_x i) (i_mouse_y i) (i_ticks i) d Hv S m) as (m' & -> & Hpx).
    cbn [mbind option_bind]. split; [split; [done |]; split; [done |]; intros _; exists m'; split; [done |]; intros px py Hx Hy; by apply Hpx |].
    exists (advance (v_width v) (v_height v) d), m'. split; [done |]. by apply advance_inv.
  - split; [split; [done |]; split; [done | intros ?; done] |]. exists d, m. split; [done |]. by apply drawn_inv.
Qed.

Lemma animation_inv l : forall n a m, 0 <= n -> n + Z.of_nat (length l) < 2 ^ 29 - 100 -> anim_inv (v_width v) (v_height v) n a ->
  exists a' m', foldM (run_round v) l (a, m) = Some (a', m') /\ anim_inv (v_width v) (v_height v) (n + Z.of_nat (length l)) a'.
Proof.
  induction l as [|i l IH]; intros n a m Hn Hl Ha; cbn [length foldM] in *.
  - exists a, m. by rewrite Z.add_0_r.
  - destruct (run_round_shows n i a m) as (_ & a1 & m1 & -> & H1); [lia | done |]. cbn [mbind option_bind].
    destruct (IH (n + 1) a1 m1) as (a2 & m2 & -> & H2); [lia | lia | done |]. exists a2, m2. split; [done |].
    by replace (n + Z.of_nat (S (length l))) with (n + 1 + Z.of_nat (length l)) by lia.
Qed.

(** C26. On a screen of less than 2 GB, with lines of at least 100 pixels,
    room for the image and the moving box and a buffer apart from it, whatever
    the keys, the pointer and the timer do for 2^29 - 100 rounds, the loop
    goes on (the delay between rounds apart), and its next round either is
    paused and draws nothing or shows a frame in which the moving box lies
    entirely on the screen with a colour of the list: every pixel of the
    framebuffer is that of the frame; then the box moves on. *)
Theorem box_stays_on_screen l i m : Z.of_nat (length l) < 2 ^ 29 - 100 ->
  exists st, animation v l m = Some st /\ round_shows i st (run_round v i st).
Proof.
  intros Hl. destruct (animation_inv l 0 anim_start m) as (a & m' & E & Ha); [done | lia | |].
  { destruct screen_small. unfold anim_inv, num_colors, box_size in *; cbn. lia. }
  exists (a, m'). split; [exact E |]. by apply (run_round_shows (0 + Z.of_nat (length l))); [lia |].
Qed.
End Loop.

(** The left key, a pause and its end: then the box is at (98, 106). *)
Lemma box_stays_on_screen_witness :
  let v := Video 800 600 800 0x80000000 0x10000000 (Gimp 1 1 3 (fun _ => 7)) in
  let rounds := [Inputs (Some LEFT_KEY) 400 300 1; Inputs None 796 300 2; Inputs (Some ESPACE) 796 300 3] in
  exists st, animation v rounds ∅ = Some st /\ round_shows v (Inputs (Some ESPACE) 796 300 4) st (run_round v (Inputs (Some ESPACE) 796 300 4) st).
Proof.
  intros v rounds. apply (box_stays_on_screen v); [| vm_compute; reflexivity]. unfold video_ok, size_buffer, box_size. cbn. lia.
Defined.
