(* ===== verification/Md5.v ===== *)
(** * GRUB's MD5

    [src/legacy/SZoS/grub-0.97/stage2/md5.c]: the digest, computed from pieces of
    any length, and the [$1$] passwords built on it. *)

From S2P Require Import Prelude Machine.

(** ** The code *)

Definition md5_F (x y z : Z) : Z := (x .& y) .| (u32 (Z.lnot x) .& z).
Definition md5_G (x y z : Z) : Z := (x .& z) .| (y .& u32 (Z.lnot z)).
Definition md5_H (x y z : Z) : Z := (x .^ y) .^ z.
Definition md5_I (x y z : Z) : Z := y .^ (x .| u32 (Z.lnot z)).

Definition ROTATE_LEFT (x n : Z) : Z := u32 (x .<< n) .| (x .>> (32 - n)).

Definition initstate : list Z := [0x67452301; 0xefcdab89; 0x98badcfe; 0x10325476].
Definition md5_s1 : list Z := [7; 12; 17; 22].
Definition md5_s2 : list Z := [5; 9; 14; 20].
Definition md5_s3 : list Z := [4; 11; 16; 23].
Definition md5_s4 : list Z := [6; 10; 15; 21].

Definition md5_T : list Z :=
  [0xd76aa478; 0xe8c7b756; 0x242070db; 0xc1bdceee; 0xf57c0faf; 0x4787c62a; 0xa8304613; 0xfd469501;
   0x698098d8; 0x8b44f7af; 0xffff5bb1; 0x895cd7be; 0x6b901122; 0xfd987193; 0xa679438e; 0x49b40821;
   0xf61e2562; 0xc040b340; 0x265e5a51; 0xe9b6c7aa; 0xd62f105d; 0x02441453; 0xd8a1e681; 0xe7d3fbc8;
   0x21e1cde6; 0xc33707d6; 0xf4d50d87; 0x455a14ed; 0xa9e3e905; 0xfcefa3f8; 0x676f02d9; 0x8d2a4c8a;
   0xfffa3942; 0x8771f681; 0x6d9d6122; 0xfde5380c; 0xa4beea44; 0x4bdecfa9; 0xf6bb4b60; 0xbebfbc70;
   0x289b7ec6; 0xeaa127fa; 0xd4ef3085; 0x04881d05; 0xd9d4d039; 0xe6db99e5; 0x1fa27cf8; 0xc4ac5665;
   0xf4292244; 0x432aff97; 0xab9423a7; 0xfc93a039; 0x655b59c3; 0x8f0ccc92; 0xffeff47d; 0x85845dd1;
   0x6fa87e4f; 0xfe2ce6e0; 0xa3014314; 0x4e0811a1; 0xf7537e82; 0xbd3af235; 0x2ad7d2bb; 0xeb86d391].

Definition b64t : list Z := bytes "./0123456789ABCDEFGHIJKLMNOPQRSTUVWXYZabcdefghijklmnopqrstuvwxyz".

(** The static variables. *)
Record md5 := Md5 { md5_state : list Z; md5_length : Z; md5_buffer : list Z }.

(** [x[i]]: the block read as little-endian words. *)
Definition le_word (block : list Z) (i : nat) : Z :=
  let b k := nth (4 * i + k) block 0 in
  b 0%nat + 256 * b 1%nat + 65536 * b 2%nat + 16777216 * b 3%nat.

(** The body of one of the four loops: function, shift, word and constant. *)
Definition md5_step (f : Z -> Z -> Z -> Z) (s x t : Z) (r : Z * Z * Z * Z) : Z * Z * Z * Z :=
  let '(a, b, c, d) := r in
  let tmp := u32 (a + f b c d + x + t) in
  let tmp := ROTATE_LEFT tmp s in
  let tmp := u32 (tmp + b) in
  (d, tmp, b, c).

Definition md5_round (f : Z -> Z -> Z -> Z) (shifts : list Z) (base j0 dj : nat) (words : list Z)
    (r : Z * Z * Z * Z) : Z * Z * Z * Z :=
  foldl (fun r i => md5_step f (nth (i mod 4) shifts 0) (nth ((j0 + dj * i) mod 16) words 0)
                             (nth (i + base) md5_T 0) r) r (seq 0 16).

(** The four loops. *)
Definition md5_rounds (words : list Z) (r : Z * Z * Z * Z) : Z * Z * Z * Z :=
  let r := md5_round md5_F md5_s1 0 0 1 words r in
  let r := md5_round md5_G md5_s2 16 1 5 words r in
  let r := md5_round md5_H md5_s3 32 5 3 words r in
  md5_round md5_I md5_s4 48 0 7 words r.

Definition md5_transform (block state : list Z) : list Z :=
  let '(a, b, c, d) := md5_rounds (map (le_word block) (seq 0 16))
                         (nth 0 state 0, nth 1 state 0, nth 2 state 0, nth 3 state 0) in
  [u32 (nth 0 state 0 + a); u32 (nth 1 state 0 + b); u32 (nth 2 state 0 + c); u32 (nth 3 state 0 + d)].

Definition md5_init (s : md5) : md5 := Md5 initstate 0 (md5_buffer s).

(** [memcpy (buffer + at, bytes, n)] on a buffer kept as a list. *)
Definition write_at (at_ : nat) (l buf : list Z) : list Z := take at_ buf ++ l ++ drop (at_ + length l) buf.

(** [while (inputlen >= 64)]: the state and what is left of the input. *)
Fixpoint md5_blocks (fuel : nat) (input : list Z) (state : list Z) : list Z * list Z :=
  match fuel with
  | O => (state, input)
  | S f =>
      if (64 <=? Z.of_nat (length input))
      then md5_blocks f (drop 64 input) (md5_transform (take 64 input) state)
      else (state, input)
  end.

Definition md5_update (input : list Z) (s : md5) : md5 :=
  let buflen := Z.to_nat (md5_length s .& 63) in
  let len := u32 (md5_length s + Z.of_nat (length input)) in
  if (buflen + length input <? 64)%nat
  then Md5 (md5_state s) len (write_at buflen input (md5_buffer s))
  else
    let buffer := write_at buflen (take (64 - buflen) input) (md5_buffer s) in
    let state := md5_transform buffer (md5_state s) in
    let input := drop (64 - buflen) input in
    let '(state, input) := md5_blocks (length input) input state in
    Md5 state len (write_at 0 input buffer).

(** The four bytes of a word stored in memory. *)
Definition le_bytes (w : Z) : list Z := [u8 w; u8 (w .>> 8); u8 (w .>> 16); u8 (w .>> 24)].

(** [md5_final]: the digest is the state, byte by byte. *)
Definition md5_final (s : md5) : list Z * md5 :=
  let buflen := Z.to_nat (md5_length s .& 63) in
  let buffer := write_at buflen [0x80] (md5_buffer s) in
  let buflen := S buflen in
  let buffer := write_at buflen (replicate (64 - buflen) 0) buffer in
  let '(state, buffer) :=
    if (56 <? buflen)%nat
    then (md5_transform buffer (md5_state s), replicate 64 0)
    else (md5_state s, buffer) in
  let buffer := write_at 56 (le_bytes (u32 (8 * md5_length s))) buffer in
  let buffer := write_at 60 (le_bytes 0) buffer in
  let state := md5_transform buffer state in
  (concat (map le_bytes state), Md5 state (md5_length s) buffer).

(** *** Passwords

    [crypted] is the caller's character array; a position in it is an index.  The
    password is a C string: the byte at [key + keylen] is its NUL. *)

(** [strlen] and [strstr (s, "$")] on an array. *)
Fixpoint array_strlen (l : list Z) : nat :=
  match l with [] => O | x :: l' => if x =? 0 then O else S (array_strlen l') end.

Fixpoint find_dollar (l : list Z) : option nat :=
  match l with
  | [] => None
  | x :: l' => if x =? 0 then None else if x =? 36 then Some O else S <$> find_dollar l'
  end.

(** [for (i = keylen; i > 16; i -= 16) md5_update (alt_result, 16);
    md5_update (alt_result, i);] *)
Fixpoint md5_update_alt (fuel i : nat) (alt_result : list Z) (s : md5) : md5 :=
  match fuel with
  | O => s
  | S f => if (16 <? i)%nat then md5_update_alt f (i - 16) alt_result (md5_update alt_result s)
           else md5_update (take i alt_result) s
  end.

(** [for (i = keylen; i > 0; i >>= 1) md5_update (key + ((i & 1) ? keylen : 0), 1)] *)
Fixpoint md5_update_bits (fuel i : nat) (key : list Z) (s : md5) : md5 :=
  match fuel with
  | O => s
  | S f => if (0 <? i)%nat
           then md5_update_bits f (i / 2) key (md5_update (if Nat.odd i then [0] else take 1 key) s)
           else s
  end.

(** The body of the loop of 1000 rounds. *)
Definition md5_crypt_round (key salt : list Z) (i : nat) (ds : list Z * md5) : list Z * md5 :=
  let '(alt_result, s) := ds in
  let s := md5_init s in
  let s := if Nat.odd i then md5_update key s else md5_update alt_result s in
  let s := if (i mod 3 =? 0)%nat then s else md5_update salt s in
  let s := if (i mod 7 =? 0)%nat then s else md5_update key s in
  let s := if Nat.odd i then md5_update alt_result s else md5_update key s in
  md5_final s.

(** The digest of a password: [header] is the first three characters of
    [crypted], [rounds] is 1000. *)
Definition md5_crypt_digest (rounds : nat) (key header salt : list Z) (s : md5) : list Z * md5 :=
  let keylen := length key in
  let s := md5_init s in
  let s := md5_update key s in
  let s := md5_update salt s in
  let s := md5_update key s in
  let '(alt_result, s) := md5_final s in
  let s := md5_init s in
  let s := md5_update key s in
  let s := md5_update (header ++ salt) s in
  let s := md5_update_alt (S keylen) keylen alt_result s in
  let s := md5_update_bits (S keylen) keylen key s in
  foldl (fun ds i => md5_crypt_round key salt i ds) (md5_final s) (seq 0 rounds).

(** The characters the last loops write or compare: [n] of them from [w]. *)
Fixpoint b64_chars (n : nat) (w : Z) : list Z :=
  match n with O => [] | S n' => nth (Z.to_nat (w .& 0x3f)) b64t 0 :: b64_chars n' (w .>> 6) end.

Definition crypt_chars (digest : list Z) : list Z :=
  let d i := nth i digest 0 in
  concat (map (fun i => b64_chars 4 (((d (if i =? 4 then 5 else 12 + i)%nat) .| (d (6 + i)%nat .<< 8))
                                     .| (d i .<< 16))) (seq 0 5))
  ++ b64_chars 2 (d 11%nat).

(** The comparisons from [p] on: [1] at the first difference, else [*p]. *)
Fixpoint check_chars (chars : list Z) (p : nat) (crypted : list Z) : Z :=
  match chars with
  | [] => s8 (nth p crypted 0)
  | c :: chars => if nth p crypted 0 =? c then check_chars chars (S p) crypted else 1
  end.

(** The result and the array; [None]: the pointer difference with a null
    [strstr]. *)
Definition md5_password (key crypted : list Z) (check : bool) (s : md5) : option (Z * list Z * md5) :=
  let salt := drop 3 crypted in
  if check && (array_strlen crypted <=? 3)%nat then Some (1, crypted, s)
  else
    '(saltlen, crypted) ←
      (if check then n ← find_dollar salt; Some (n, crypted)
       else let saltlen := match find_dollar salt with Some n => if (n <? 8)%nat then n else 8%nat | None => 8%nat end in
            Some (saltlen, <[(3 + saltlen)%nat := 36]> crypted));
    let '(digest, s) := md5_crypt_digest 1000 key (take 3 crypted) (take saltlen (drop 3 crypted)) s in
    let p := (3 + saltlen + 1)%nat in
    if check then Some (check_chars (crypt_chars digest) p crypted, crypted, s)
    else Some (0, write_at p (crypt_chars digest ++ [0]) crypted, s).

(** ** Specification: the digest of RFC 1321 *)

(** A message padded to a multiple of 64 bytes: a bit 1, zeros, and its length in
    bits as 64 bits.  Lengths are below 2^29 bytes here. *)
Definition md5_pad (msg : list Z) : list Z :=
  let n := length msg in
  msg ++ [0x80] ++ replicate ((119 - n mod 64) mod 64) 0
      ++ le_bytes (8 * Z.of_nat n) ++ le_bytes 0.

Definition hash_blocks (msg : list Z) (state : list Z) : list Z :=
  fst (md5_blocks (length msg) msg state).

Definition md5_digest (msg : list Z) : list Z :=
  concat (map le_bytes (hash_blocks (md5_pad msg) initstate)).

(** Pieces given to [md5_update] one after the other. *)
Definition md5_updates (pieces : list (list Z)) (s : md5) : md5 :=
  foldl (fun s p => md5_update p s) s pieces.

(** ** Proofs: streaming

    [absorb msg st]: the state after the whole blocks of [msg], and the bytes
    that are left. *)

Definition absorb (msg state : list Z) : list Z * list Z := md5_blocks (length msg) msg state.

Lemma md5_blocks_fuel f : forall msg st, (length msg <= f)%nat -> md5_blocks f msg st = absorb msg st.
Proof.
  induction f as [f IH] using lt_wf_ind. intros msg st Hl.
  destruct f as [|f]; [destruct msg; [done | cbn in Hl; lia] |]. destruct msg as [|x msg]; [done |].
  unfold absorb. cbn [md5_blocks length]. cbn [length] in Hl. case_match; [|done].
  assert (length (drop 64 (x :: msg)) <= length msg)%nat by (rewrite length_drop; cbn [length]; lia).
  rewrite (IH f), (IH (length msg)) by lia. done.
Qed.

Lemma absorb_short msg st : (length msg < 64)%nat -> absorb msg st = (st, msg).
Proof. intros H. unfold absorb. destruct msg as [|x msg]; [done |]. cbn [md5_blocks length]. by rewrite (proj2 (Z.leb_gt _ _)) by (cbn [length] in *; lia). Qed.

Lemma absorb_block b l st : length b = 64%nat -> absorb (b ++ l) st = absorb l (md5_transform b st).
Proof.
  intros Hb. unfold absorb at 1. destruct (length (b ++ l)) as [|f] eqn:E; [rewrite length_app in E; lia |].
  rewrite length_app in E. cbn [md5_blocks]. rewrite (proj2 (Z.leb_le _ _)) by (rewrite length_app; lia).
  rewrite take_app_length', drop_app_length' by done. apply md5_blocks_fuel. lia.
Qed.

Lemma absorb_app l1 : forall l2 st,
  let '(st', r) := absorb l1 st in
  absorb (l1 ++ l2) st = absorb (r ++ l2) st' /\ (length r < 64)%nat /\ length r = (length l1 mod 64)%nat.
Proof.
  induction l1 as [l1 IH] using (induction_ltof1 _ (@length Z)). unfold ltof in IH. intros l2 st.
  destruct (decide (length l1 < 64)%nat) as [Hs | Hs].
  - rewrite (absorb_short l1) by done. split_and!; [done | done | by rewrite Nat.mod_small].
  - rewrite <- (take_drop 64 l1). rewrite <- app_assoc. rewrite !(absorb_block (take 64 l1)) by (rewrite length_take; lia).
    specialize (IH (drop 64 l1)). rewrite length_drop in IH. specialize (IH ltac:(lia) l2 (md5_transform (take 64 l1) st)).
    destruct (absorb (drop 64 l1) (md5_transform (take 64 l1) st)) as [st' r].
    destruct IH as (H1 & H2 & H3). split_and!; [done | done |].
    rewrite length_app, length_take, length_drop, Nat.min_l by lia. rewrite H3.
    replace (64 + (length l1 - 64))%nat with (length l1 - 64 + 1 * 64)%nat by lia.
    by rewrite Nat.Div0.mod_add.
Qed.

Lemma write_at_length n l buf : (n + length l <= length buf)%nat -> length (write_at n l buf) = length buf.
Proof. intros H. unfold write_at. rewrite !length_app, length_take, length_drop. lia. Qed.

Lemma write_at_take n l buf : (n <= length buf)%nat -> take (n + length l) (write_at n l buf) = take n buf ++ l.
Proof.
  intros H. unfold write_at. rewrite app_assoc. apply take_app_length'. rewrite length_app, length_take. lia.
Qed.

(** A write that reaches the end of the buffer. *)
Lemma write_at_end n l buf : (n + length l)%nat = length buf -> write_at n l buf = take n buf ++ l.
Proof.
  intros H. rewrite <- (write_at_take n l buf) by lia. rewrite H.
  rewrite <- (write_at_length n l buf) at 1 by lia. by rewrite firstn_all.
Qed.

(** The state of the code after the bytes of [msg]. *)
Definition md5_rep (s : md5) (msg : list Z) : Prop :=
  let '(st, r) := absorb msg initstate in
  md5_state s = st /\ md5_length s = u32 (Z.of_nat (length msg)) /\
  length (md5_buffer s) = 64%nat /\ take (length r) (md5_buffer s) = r.

Lemma buflen_mod n : Z.to_nat (u32 (Z.of_nat n) .& 63) = (n mod 64)%nat.
Proof.
  rewrite land_63. replace (u32 (Z.of_nat n) mod 64) with (Z.of_nat n mod 64) by cint_lia.
  change 64 with (Z.of_nat 64). by rewrite <- Nat2Z.inj_mod, Nat2Z.id.
Qed.

Lemma md5_init_rep s : length (md5_buffer s) = 64%nat -> md5_rep (md5_init s) [].
Proof. intros H. by split_and!. Qed.

Lemma md5_update_rep p s msg : md5_rep s msg -> md5_rep (md5_update p s) (msg ++ p).
Proof.
  unfold md5_rep. pose proof (absorb_app msg p initstate) as Ha.
  destruct (absorb msg initstate) as [st r]. destruct Ha as (Ha & Hr & Hm). rewrite Ha.
  intros (Hst & Hl & Hb & Ht). unfold md5_update. rewrite Hl, buflen_mod, <- Hm.
  assert (u32 (u32 (Z.of_nat (length msg)) + Z.of_nat (length p)) = u32 (Z.of_nat (length (msg ++ p)))) as ->.
  { rewrite u32_add_l, length_app. f_equal. lia. }
  destruct (Nat.ltb_spec (length r + length p) 64) as [Hlt | Hge].
  - rewrite absorb_short by (rewrite length_app; lia). cbn [md5_state md5_length md5_buffer].
    split_and!; [done | done | rewrite write_at_length; lia |].
    rewrite length_app, write_at_take by lia. by rewrite Ht.
  - set (k := (64 - length r)%nat). assert (length (take k p) = k) as Hk by (rewrite length_take; lia).
    assert (write_at (length r) (take k p) (md5_buffer s) = r ++ take k p) as -> by (rewrite write_at_end, Ht; lia || done).
    assert (length (r ++ take k p) = 64%nat) as Hb' by (rewrite length_app; lia).
    assert (absorb (r ++ p) st = absorb (drop k p) (md5_transform (r ++ take k p) st)) as ->
      by (rewrite <- absorb_block, <- app_assoc, take_drop by done; done). rewrite Hst.
    change (md5_blocks (length (drop k p)) (drop k p)) with (absorb (drop k p)).
    pose proof (absorb_app (drop k p) [] (md5_transform (r ++ take k p) st)) as Hd.
    destruct (absorb (drop k p) (md5_transform (r ++ take k p) st)) as [st' r']. destruct Hd as (_ & Hr' & _).
    cbn [md5_state md5_length md5_buffer]. split_and!; [done | done | rewrite write_at_length; lia |].
    apply (write_at_take 0). lia.
Qed.

Lemma md5_updates_rep pieces : forall s msg, md5_rep s msg -> md5_rep (md5_updates pieces s) (msg ++ concat pieces).
Proof.
  induction pieces as [|p pieces IH]; intros s msg Hs; cbn [md5_updates foldl concat]; [by rewrite app_nil_r |].
  rewrite app_assoc. apply IH. by apply md5_update_rep.
Qed.

Lemma md5_transform_length block state : length (md5_transform block state) = 4%nat.
Proof. unfold md5_transform. by destruct (md5_rounds _ _) as [[[a b] c] d]. Qed.
#[local] Opaque md5_transform.

(** The tail of the buffer [md5_final] hashes. *)
Lemma final_block n w zeros buf : length buf = 64%nat -> take 56 buf = zeros -> length w = 4%nat -> n = le_bytes 0 ->
  write_at 60 n (write_at 56 w buf) = zeros ++ w ++ n.
Proof.
  intros Hb Hz Hw ->. rewrite write_at_end by (rewrite write_at_length; cbn; lia).
  rewrite app_assoc. f_equal. replace 60%nat with (56 + length w)%nat by lia. rewrite write_at_take by lia. by rewrite Hz.
Qed.

Lemma md5_final_rep s msg : md5_rep s msg -> (Z.of_nat (length msg) < 2 ^ 29) ->
  fst (md5_final s) = md5_digest msg.
Proof.
  unfold md5_rep, md5_final, md5_digest, hash_blocks.
  pose proof (absorb_app msg) as Ha. specialize (fun l => Ha l initstate).
  destruct (absorb msg initstate) as [st r]. intros (Hst & Hl & Hb & Ht) Hlen.
  change (md5_blocks (length (md5_pad msg)) (md5_pad msg) initstate) with (absorb (md5_pad msg) initstate).
  destruct (Ha []) as (_ & Hr & Hm). unfold md5_pad. cbv zeta. rewrite (proj1 (Ha _)). clear Ha.
  rewrite Hl, buflen_mod, <- Hm, (u32_small (Z.of_nat (length msg))), (u32_small (8 * _)) by lia.
  set (b := length r) in *. set (w := le_bytes (8 * Z.of_nat (length msg))).
  assert (length w = 4%nat) as Hw by done. clearbody w.
  assert (take (S b) (write_at b [0x80] (md5_buffer s)) = r ++ [0x80]) as H80.
  { replace (S b) with (b + length [0x80%Z])%nat by (cbn; lia). rewrite write_at_take by lia. by rewrite Ht. }
  rewrite (write_at_end (S b)), H80 by (rewrite write_at_length, length_replicate; cbn [length]; lia).
  rewrite Hst. destruct (Nat.ltb_spec 56 (S b)) as [Hlt | Hge].
  - replace (replicate ((119 - b) mod 64) 0) with (replicate (64 - S b) 0 ++ replicate 56 0)
      by (rewrite <- replicate_add; f_equal; rewrite Nat.mod_small; lia).
    rewrite (final_block _ w (replicate 56 0)) by done.
    replace (r ++ [0x80] ++ (replicate (64 - S b) 0 ++ replicate 56 0) ++ w ++ le_bytes 0)
      with (((r ++ [0x80]) ++ replicate (64 - S b) 0) ++ (replicate 56 0 ++ w ++ le_bytes 0) ++ [])
      by (rewrite <- !app_assoc; cbn [app]; by rewrite app_nil_r).
    rewrite absorb_block by (rewrite !length_app, length_replicate; cbn [length]; lia).
    rewrite absorb_block by (rewrite !length_app, length_replicate, Hw; reflexivity). rewrite absorb_short by (cbn; lia). reflexivity.
  - replace ((119 - b) mod 64)%nat with (55 - b)%nat
      by (replace (119 - b)%nat with (55 - b + 1 * 64)%nat by lia; rewrite Nat.Div0.mod_add, Nat.mod_small; lia).
    rewrite (final_block _ w ((r ++ [0x80]) ++ replicate (55 - b) 0)); try done.
    + replace (r ++ [0x80] ++ replicate (55 - b) 0 ++ w ++ le_bytes 0)
        with ((((r ++ [0x80]) ++ replicate (55 - b) 0) ++ w ++ le_bytes 0) ++ [])
        by (rewrite <- !app_assoc; cbn [app]; by rewrite app_nil_r).
      rewrite absorb_block by (rewrite !length_app, length_replicate, Hw; cbn [length le_bytes]; lia).
      rewrite absorb_short by (cbn; lia). reflexivity.
    + rewrite !length_app, length_replicate. cbn [length]. lia.
    + replace (64 - S b)%nat with ((55 - b) + 8)%nat by lia. rewrite replicate_add, app_assoc.
      apply take_app_length'. rewrite !length_app, length_replicate. cbn [length]. lia.
Qed.

(** C14. Whatever the pieces passed to md5_update, md5_final gives the MD5
    digest of their concatenation: the message padded to whole blocks and
    hashed block by block. *)
Theorem md5_streaming pieces s :
  length (md5_buffer s) = 64%nat -> Z.of_nat (length (concat pieces)) < 2 ^ 29 ->
  fst (md5_final (md5_updates pieces (md5_init s))) = md5_digest (concat pieces).
Proof.
  intros Hb Hl. apply md5_final_rep; [|done]. apply (md5_updates_rep pieces _ []). by apply md5_init_rep.
Qed.

(** Test vector of the file, in two pieces. *)
Lemma md5_streaming_witness :
  fst (md5_final (md5_updates [bytes "message "; bytes "digest"] (md5_init (Md5 [] 0 (replicate 64 9)))))
  = [0xf9; 0x6b; 0x69; 0x7d; 0x7c; 0xb7; 0x93; 0x8d; 0x52; 0x5a; 0x2f; 0x31; 0xaa; 0xf1; 0x61; 0xd0].
Proof.
  rewrite md5_streaming by (done || vm_compute; reflexivity). vm_compute. reflexivity.
Defined.

(** ** Proofs: passwords *)

(** The digest of a password, over the specification of MD5. *)
Fixpoint stretch (fuel i : nat) (alt : list Z) : list Z :=
  match fuel with
  | O => []
  | S f => if (16 <? i)%nat then alt ++ stretch f (i - 16) alt else take i alt
  end.

Fixpoint key_bits (fuel i : nat) (key : list Z) : list Z :=
  match fuel with
  | O => []
  | S f => if (0 <? i)%nat then (if Nat.odd i then [0] else take 1 key) ++ key_bits f (i / 2) key else []
  end.

Definition crypt_round_spec (key salt : list Z) (i : nat) (alt : list Z) : list Z :=
  md5_digest ((if Nat.odd i then key else alt) ++ (if (i mod 3 =? 0)%nat then [] else salt) ++
              (if (i mod 7 =? 0)%nat then [] else key) ++ (if Nat.odd i then alt else key)).

Definition crypt_spec (rounds : nat) (key header salt : list Z) : list Z :=
  let alt := md5_digest (key ++ salt ++ key) in
  let d := md5_digest (key ++ (header ++ salt) ++ stretch (S (length key)) (length key) alt
                           ++ key_bits (S (length key)) (length key) key) in
  foldl (fun d i => crypt_round_spec key salt i d) d (seq 0 rounds).

Lemma md5_update_alt_rep f alt : forall i s msg, md5_rep s msg -> md5_rep (md5_update_alt f i alt s) (msg ++ stretch f i alt).
Proof.
  induction f as [|f IH]; intros i s msg Hs; cbn [md5_update_alt stretch]; [by rewrite app_nil_r |].
  case_match; [|by apply md5_update_rep]. rewrite app_assoc. apply IH. by apply md5_update_rep.
Qed.

Lemma md5_update_bits_rep f key : forall i s msg, md5_rep s msg -> md5_rep (md5_update_bits f i key s) (msg ++ key_bits f i key).
Proof.
  induction f as [|f IH]; intros i s msg Hs; cbn [md5_update_bits key_bits]; [by rewrite app_nil_r |].
  case_match; [|by rewrite app_nil_r]. rewrite app_assoc. apply IH. by apply md5_update_rep.
Qed.

(** What every piece of the computation keeps. *)
Definition buffer_ok (s : md5) : Prop := length (md5_buffer s) = 64%nat.

Lemma md5_rep_buffer s msg : md5_rep s msg -> buffer_ok s.
Proof. unfold md5_rep. destruct (absorb msg initstate). tauto. Qed.

Lemma md5_final_buffer s : buffer_ok s -> buffer_ok (snd (md5_final s)).
Proof.
  unfold buffer_ok, md5_final. intros Hb.
  assert (Z.to_nat (md5_length s .& 63) < 64)%nat as Hn by (rewrite land_63; dlia).
  set (n := Z.to_nat (md5_length s .& 63)) in *. clearbody n.
  assert (length (write_at n [0x80] (md5_buffer s)) = 64%nat) as B1 by (rewrite write_at_length; cbn [length]; lia).
  assert (length (write_at (S n) (replicate (64 - S n) 0) (write_at n [0x80] (md5_buffer s))) = 64%nat) as B2
    by (rewrite write_at_length; rewrite ?length_replicate; lia).
  assert (forall b w1 w2, length b = 64%nat -> length w1 = 4%nat -> length w2 = 4%nat ->
    length (write_at 60 w2 (write_at 56 w1 b)) = 64%nat) as B3.
  { intros b w1 w2 H1 H2 H3. rewrite !write_at_length; rewrite ?write_at_length; lia. }
  destruct (56 <? S n)%nat; by apply B3.
Qed.

Lemma md5_blocks_state f : forall msg st, length st = 4%nat -> length (fst (md5_blocks f msg st)) = 4%nat.
Proof.
  induction f as [|f IH]; intros msg st Hst; cbn [md5_blocks]; [done |]. case_match; [|done].
  apply IH, md5_transform_length.
Qed.

Lemma md5_digest_length msg : length (md5_digest msg) = 16%nat.
Proof.
  unfold md5_digest, hash_blocks. pose proof (md5_blocks_state (length (md5_pad msg)) (md5_pad msg) initstate eq_refl) as H.
  destruct (fst (md5_blocks _ _ _)) as [|? [|? [|? [|? [|]]]]]; try done.
Qed.

(** One digest: whatever was hashed before, the pieces give the digest of their
    concatenation. *)
Lemma digest_step (s : md5) msg : md5_rep s msg -> Z.of_nat (length msg) < 2 ^ 29 ->
  exists s', md5_final s = (md5_digest msg, s') /\ buffer_ok s'.
Proof.
  intros Hs Hl. exists (snd (md5_final s)). split.
  - rewrite <- (md5_final_rep s msg) by done. by destruct (md5_final s).
  - apply md5_final_buffer. by eapply md5_rep_buffer.
Qed.

Section Passwords.
Variables (key header salt : list Z).
Hypothesis Hkey : Z.of_nat (length key) < 2 ^ 20.
Hypothesis Hhead : Z.of_nat (length header) < 2 ^ 20.
Hypothesis Hsalt : Z.of_nat (length salt) < 2 ^ 20.

Lemma crypt_round_step i alt s : buffer_ok s -> length alt = 16%nat ->
  exists s', md5_crypt_round key salt i (alt, s) = (crypt_round_spec key salt i alt, s') /\ buffer_ok s'.
Proof.
  intros Hs Ha. unfold md5_crypt_round, crypt_round_spec.
  apply digest_step.
  - pose proof (md5_init_rep s Hs) as H0.
    pose proof (fun p => md5_update_rep p _ _ H0) as H1. cbn [app] in H1.
    destruct (Nat.odd i), (i mod 3 =? 0)%nat, (i mod 7 =? 0)%nat; cbn [app];
      rewrite ?app_assoc; repeat apply md5_update_rep; apply H1.
  - rewrite !length_app. destruct (Nat.odd i), (i mod 3 =? 0)%nat, (i mod 7 =? 0)%nat; cbn [length]; lia.
Qed.

Lemma crypt_rounds_step n : forall k alt s, buffer_ok s -> length alt = 16%nat ->
  exists s', foldl (fun ds i => md5_crypt_round key salt i ds) (alt, s) (seq k n)
             = (foldl (fun d i => crypt_round_spec key salt i d) alt (seq k n), s') /\ buffer_ok s'.
Proof.
  induction n as [|n IH]; intros k alt s Hs Ha; cbn [seq foldl]; [by exists s |].
  destruct (crypt_round_step k alt s Hs Ha) as (s1 & -> & Hs1).
  apply IH; [done | apply md5_digest_length].
Qed.

Lemma stretch_length f alt : forall i, length alt = 16%nat -> (length (stretch f i alt) <= i)%nat.
Proof.
  induction f as [|f IH]; intros i Ha; cbn [stretch]; [cbn; lia |].
  case_match; rewrite ?length_app, ?length_take; [|lia]. apply Nat.ltb_lt in H. specialize (IH (i - 16)%nat Ha). lia.
Qed.

Lemma key_bits_length f : forall i, (length (key_bits f i key) <= f)%nat.
Proof.
  induction f as [|f IH]; intros i; cbn [key_bits]; [done |]. case_match; [|cbn; lia].
  rewrite length_app. specialize (IH (i / 2)%nat). destruct (Nat.odd i); [cbn [length]; lia |].
  rewrite length_take. lia.
Qed.

Lemma crypt_digest_step rounds s : buffer_ok s ->
  exists s', md5_crypt_digest rounds key header salt s = (crypt_spec rounds key header salt, s') /\ buffer_ok s'.
Proof.
  intros Hs. unfold md5_crypt_digest, crypt_spec.
  destruct (digest_step (md5_update key (md5_update salt (md5_update key (md5_init s)))) (key ++ salt ++ key))
    as (s1 & -> & Hs1).
  { rewrite app_assoc. do 2 apply md5_update_rep. apply (md5_update_rep key _ []). by apply md5_init_rep. }
  { rewrite !length_app. lia. }
  set (alt := md5_digest (key ++ salt ++ key)). pose proof (md5_digest_length (key ++ salt ++ key)) as Ha. fold alt in Ha.
  clearbody alt.
  destruct (digest_step (md5_update_bits (S (length key)) (length key) key
    (md5_update_alt (S (length key)) (length key) alt (md5_update (header ++ salt) (md5_update key (md5_init s1)))))
    (key ++ (header ++ salt) ++ stretch (S (length key)) (length key) alt ++ key_bits (S (length key)) (length key) key))
    as (s2 & -> & Hs2).
  { rewrite (app_assoc key), app_assoc. apply md5_update_bits_rep, md5_update_alt_rep, md5_update_rep.
    apply (md5_update_rep key _ []). by apply md5_init_rep. }
  { pose proof (stretch_length (S (length key)) alt (length key) Ha).
    pose proof (key_bits_length (S (length key)) (length key)). rewrite !length_app. lia. }
  apply crypt_rounds_step; [done | apply md5_digest_length].
Qed.
End Passwords.

(** *** The text of a password *)

Lemma b64_char_range w : 0 < nth (Z.to_nat (w .& 0x3f)) b64t 0 < 256.
Proof.
  rewrite land_63. assert (is_cstr b64t) as Hb.
  { apply (bool_decide_unpack _). vm_compute. done. }
  unfold is_cstr in Hb. rewrite Forall_forall in Hb. apply Hb. apply nth_In.
  change (length b64t) with 64%nat. dlia.
Qed.

Lemma b64_chars_nonzero n : forall w, is_cstr (b64_chars n w) /\ length (b64_chars n w) = n.
Proof.
  induction n as [|n IH]; intros w; cbn [b64_chars]; [split; [apply Forall_nil_2 | done] |]. split.
  - apply is_cstr_cons. split; [apply b64_char_range | apply IH].
  - cbn. f_equal. apply IH.
Qed.

Lemma b64_chars_length n w : length (b64_chars n w) = n.
Proof. apply b64_chars_nonzero. Qed.

Lemma crypt_chars_ok d : is_cstr (crypt_chars d) /\ length (crypt_chars d) = 22%nat.
Proof.
  unfold crypt_chars. split.
  - cbn [seq map concat]. rewrite !is_cstr_app. split_and!; try apply b64_chars_nonzero. apply Forall_nil_2.
  - cbn [seq map concat]. by rewrite !length_app, !b64_chars_length.
Qed.

(** Comparing the characters from [p] on. *)
Lemma check_chars_iff chars : forall pre h rest,
  is_cstr chars -> is_cstr h ->
  check_chars chars (length pre) (pre ++ h ++ 0 :: rest) = 0 <-> h = chars.
Proof.
  induction chars as [|c chars IH]; intros pre h rest Hc Hh; cbn [check_chars].
  - rewrite app_nth2, Nat.sub_diag by lia. destruct h as [|x h]; cbn [app nth]; [done |].
    apply is_cstr_cons in Hh as [Hx _]. split; [intros E; cint_lia | done].
  - apply is_cstr_cons in Hc as [Hc0 Hc]. rewrite app_nth2, Nat.sub_diag by lia.
    destruct h as [|x h]; cbn [app nth].
    + rewrite (proj2 (Z.eqb_neq 0 c)) by lia. done.
    + apply is_cstr_cons in Hh as [Hx Hh]. destruct (Z.eqb_spec x c) as [-> | Hne].
      * specialize (IH (pre ++ [c]) h rest Hc Hh). rewrite length_app in IH. cbn [length] in IH.
        rewrite Nat.add_1_r, <- app_assoc in IH. cbn [app] in IH. rewrite IH. split; [by intros -> | by intros [= ->]].
      * split; [done | intros [= -> ->]; done].
Qed.

Lemma array_strlen_ge l rest : Forall (fun c => c <> 0) l -> (length l <= array_strlen (l ++ rest))%nat.
Proof.
  induction 1 as [|x l Hx _ IH]; cbn; [lia |]. rewrite (proj2 (Z.eqb_neq x 0)) by done. lia.
Qed.

Lemma find_dollar_at l rest : Forall (fun c => c <> 0 /\ c <> 36) l -> find_dollar (l ++ 36 :: rest) = Some (length l).
Proof.
  induction 1 as [|x l [Hx Hy] _ IH]; cbn; [done |].
  rewrite (proj2 (Z.eqb_neq x 0)), (proj2 (Z.eqb_neq x 36)), IH by done. done.
Qed.

Section PasswordText.
Variables (header salt : list Z) (s : md5).
Hypothesis Hs : buffer_ok s.
Hypothesis Hh3 : length header = 3%nat.
Hypothesis Hhead : is_cstr header.
Hypothesis Hsalt : Forall (fun c => c <> 0 /\ c <> 36) salt.
Hypothesis Hsl : Z.of_nat (length salt) < 2 ^ 20.

(** A password text: header, salt, a dollar, the characters of the digest. *)
Definition password_text (h : list Z) : list Z := header ++ salt ++ 36 :: h.

Lemma check_step key h rest : Z.of_nat (length key) < 2 ^ 20 ->
  exists s', md5_password key (password_text h ++ 0 :: rest) true s
    = Some (check_chars (crypt_chars (crypt_spec 1000 key header salt))
              (length (header ++ salt ++ [36])) ((header ++ salt ++ [36]) ++ h ++ 0 :: rest),
            password_text h ++ 0 :: rest, s').
Proof.
  intros Hk. unfold md5_password, password_text. rewrite <- !app_assoc.
  assert (3 < array_strlen (header ++ salt ++ 36 :: h ++ 0 :: rest)%Z)%nat as Hlen.
  { replace (header ++ salt ++ 36 :: h ++ 0 :: rest) with ((header ++ salt ++ [36]) ++ h ++ 0 :: rest)
      by (by rewrite <- !app_assoc). eapply Nat.lt_le_trans; [|apply array_strlen_ge].
    - rewrite !length_app. cbn. lia.
    - rewrite !Forall_app. split_and!.
      + eapply Forall_impl; [|apply Hhead]. cbn. lia.
      + eapply Forall_impl; [|apply Hsalt]. cbn. tauto.
      + by repeat constructor. }
  cbn [app]. rewrite (proj2 (Nat.leb_gt _ _)) by done. cbn [andb].
  rewrite (drop_app_length' header) by done.
  rewrite find_dollar_at by done. cbn [mbind option_bind fmap option_fmap option_map].
  rewrite (drop_app_length' header), (take_app_length' header), take_app_length by done. destruct (crypt_digest_step key header salt) with (rounds := 1000%nat) (s := s)
    as (s' & -> & _); [done | lia | done | done |].
  exists s'. replace (3 + length salt + 1)%nat with (length (header ++ salt ++ [36]))
    by (rewrite !length_app, Hh3; cbn [length]; lia).
  generalize (crypt_chars (crypt_spec 1000 key header salt)) (length (header ++ salt ++ [36])). intros chars n.
  reflexivity.
Qed.

(** The result of a check. *)
Lemma check_result key h rest : Z.of_nat (length key) < 2 ^ 20 -> is_cstr h ->
  exists r s', md5_password key (password_text h ++ 0 :: rest) true s = Some (r, password_text h ++ 0 :: rest, s') /\
    (r = 0 <-> h = crypt_chars (crypt_spec 1000 key header salt)).
Proof.
  intros Hk Hh. destruct (check_step key h rest Hk) as (s' & E). rewrite E. clear E.
  pose proof (proj1 (crypt_chars_ok (crypt_spec 1000 key header salt))) as Hc.
  generalize dependent (crypt_chars (crypt_spec 1000 key header salt)). intros chars Hc.
  do 2 eexists. split; [reflexivity |]. by apply check_chars_iff.
Qed.

(** Where the salt ends when a password is made. *)
Lemma find_dollar_ge l rest n : Forall (fun c => c <> 0 /\ c <> 36) l -> find_dollar (l ++ rest) = Some n -> (length l <= n)%nat.
Proof.
  intros Hl. revert n. induction Hl as [|x l [Hx Hy] _ IH]; intros n; cbn; [lia |].
  rewrite (proj2 (Z.eqb_neq x 0)), (proj2 (Z.eqb_neq x 36)) by done.
  destruct (find_dollar (l ++ rest)) as [m|]; [|done]. intros [= <-]. specialize (IH m eq_refl). lia.
Qed.

Lemma write_at_app l pre mid rest : length mid = length l -> write_at (length pre) l (pre ++ mid ++ rest) = pre ++ l ++ rest.
Proof.
  intros Hm. unfold write_at. rewrite take_app_length. rewrite app_assoc, <- app_assoc. do 2 f_equal.
  rewrite app_assoc. apply drop_app_length'. rewrite length_app. lia.
Qed.

Lemma crypt_step key x mid rest :
  Z.of_nat (length key) < 2 ^ 20 -> length mid = 23%nat ->
  length salt = 8%nat \/ (length salt < 8)%nat /\ x = 36 ->
  exists s', md5_password key (header ++ salt ++ x :: mid ++ rest) false s
    = Some (0, password_text (crypt_chars (crypt_spec 1000 key header salt)) ++ 0 :: rest, s') /\ buffer_ok s'.
Proof.
  intros Hk Hm Hx. unfold md5_password. cbn [andb mbind option_bind]. rewrite (drop_app_length' header) by done.
  assert (match find_dollar (salt ++ x :: mid ++ rest) with
          | Some n => if (n <? 8)%nat then n else 8%nat | None => 8%nat end = length salt) as ->.
  { destruct Hx as [H8 | [Hlt ->]].
    - destruct (find_dollar _) as [n|] eqn:E; [|done]. apply find_dollar_ge in E; [|done].
      by rewrite (proj2 (Nat.ltb_ge _ _)) by lia.
    - rewrite find_dollar_at by done. by rewrite (proj2 (Nat.ltb_lt _ _)) by lia. }
  assert (<[(3 + length salt)%nat := 36]> (header ++ salt ++ x :: mid ++ rest)
          = (header ++ salt ++ [36]) ++ mid ++ rest) as ->.
  { rewrite <- Hh3, <- length_app. rewrite app_assoc.
    rewrite <- (Nat.add_0_r (length (header ++ salt))), insert_app_r. by rewrite <- !app_assoc. }
  replace (take 3 ((header ++ salt ++ [36]) ++ mid ++ rest)) with header
    by (rewrite <- !app_assoc; symmetry; by apply take_app_length').
  replace (drop 3 ((header ++ salt ++ [36]) ++ mid ++ rest)) with (salt ++ [36] ++ mid ++ rest)
    by (rewrite <- !app_assoc; symmetry; by apply drop_app_length').
  rewrite take_app_length. destruct (crypt_digest_step key header salt) with (rounds := 1000%nat) (s := s)
    as (s' & -> & Hs'); [done | lia | done | done |].
  pose proof (proj2 (crypt_chars_ok (crypt_spec 1000 key header salt))) as Hc.
  generalize dependent (crypt_chars (crypt_spec 1000 key header salt)). intros chars Hc.
  exists s'. split; [|done].
  replace (3 + length salt + 1)%nat with (length (header ++ salt ++ [36]))
    by (rewrite !length_app, Hh3; cbn [length]; lia).
  rewrite write_at_app by (rewrite length_app, Hc, Hm; reflexivity).
  unfold password_text. rewrite <- !app_assoc. reflexivity.
Qed.
End PasswordText.

(** C29. Checking a password accepts exactly the 22 characters of the
    encrypted text of that password with the salt. *)
Theorem md5_password_checks header salt s key h rest : buffer_ok s -> length header = 3%nat -> is_cstr header -> Forall (fun c => c <> 0 /\ c <> 36) salt ->
  Z.of_nat (length salt) < 2 ^ 20 -> Z.of_nat (length key) < 2 ^ 20 -> is_cstr h ->
  exists r s', md5_password key (password_text header salt h ++ 0 :: rest) true s = Some (r, password_text header salt h ++ 0 :: rest, s') /\
    (r = 0 <-> h = crypt_chars (crypt_spec 1000 key header salt)).
Proof. intros. by apply check_result. Qed.

(** C30. What md5_password writes for a password passes the check for it. *)
Theorem md5_password_roundtrip header salt s key x mid rest :
  buffer_ok s -> length header = 3%nat -> is_cstr header -> Forall (fun c => c <> 0 /\ c <> 36) salt ->
  Z.of_nat (length key) < 2 ^ 20 -> length mid = 23%nat ->
  length salt = 8%nat \/ (length salt < 8)%nat /\ x = 36 ->
  exists crypted s', md5_password key (header ++ salt ++ x :: mid ++ rest) false s = Some (0, crypted, s') /\
    exists s'', md5_password key crypted true s' = Some (0, crypted, s'').
Proof.
  intros Hs H3 Hh Hsalt Hk Hm Hx.
  destruct (crypt_step header salt s Hs H3 Hsalt ltac:(lia) key x mid rest Hk Hm Hx) as (s' & E & Hs').
  destruct (check_result header salt s' Hs' H3 Hh Hsalt ltac:(lia) key (crypt_chars (crypt_spec 1000 key header salt)) rest)
    as (r & s'' & E' & Hr); [done | apply crypt_chars_ok |].
  pose proof (proj2 Hr eq_refl) as Hr0. clear Hr. subst r.
  generalize dependent (crypt_chars (crypt_spec 1000 key header salt)). intros chars E E'.
  do 2 eexists. split; [exact E |]. eexists. exact E'.
Qed.

Definition md5_boot : md5 := Md5 (replicate 4 0) 0 (replicate 64 0).

Lemma small_cstr l : bool_decide (is_cstr l) = true -> is_cstr l.
Proof. apply bool_decide_eq_true_1. Qed.

(** The password of the file's own test. *)
Lemma md5_password_checks_witness :
  exists r s', md5_password (bytes "Hello world!")
      (password_text (bytes "$1$") (bytes "saltstri") (bytes "YMyguxXMBpd2TEZ.vS/3q1") ++ [0]) true md5_boot
    = Some (r, password_text (bytes "$1$") (bytes "saltstri") (bytes "YMyguxXMBpd2TEZ.vS/3q1") ++ [0], s') /\
    (r = 0 <-> bytes "YMyguxXMBpd2TEZ.vS/3q1"
               = crypt_chars (crypt_spec 1000 (bytes "Hello world!") (bytes "$1$") (bytes "saltstri"))).
Proof.
  apply (md5_password_checks (bytes "$1$") (bytes "saltstri") md5_boot (bytes "Hello world!")
           (bytes "YMyguxXMBpd2TEZ.vS/3q1") []).
  - reflexivity.
  - reflexivity.
  - apply small_cstr. vm_compute. reflexivity.
  - apply (bool_decide_unpack _). vm_compute. exact I.
  - vm_compute. reflexivity.
  - vm_compute. reflexivity.
  - apply small_cstr. vm_compute. reflexivity.
Defined.

Lemma md5_password_roundtrip_witness :
  exists crypted s', md5_password (bytes "secret") (bytes "$1$abcdefgh" ++ 0 :: replicate 23 0 ++ []) false md5_boot
      = Some (0, crypted, s') /\
    exists s'', md5_password (bytes "secret") crypted true s' = Some (0, crypted, s'').
Proof.
  apply (md5_password_roundtrip (bytes "$1$") (bytes "abcdefgh") md5_boot (bytes "secret") 0 (replicate 23 0) []).
  - reflexivity.
  - reflexivity.
  - apply small_cstr. vm_compute. reflexivity.
  - apply (bool_decide_unpack _). vm_compute. exact I.
  - vm_compute. reflexivity.
  - reflexivity.
  - left. reflexivity.
Defined.
