(* ===== verification/GrubString.v ===== *)
(** * GRUB's strings and numbers

    The string, memory and number routines of
    [src/legacy/SZoS/grub-0.97/stage2/char_io.c].  A C string that is only read
    is the list of its characters, a [char] being signed; an array that is
    written is a list of cells; [grub_memmove] and [grub_memset] act on byte
    memory.  Lengths of strings are below 2^31. *)

From S2P Require Import Prelude Machine LibcString.

(** ** The code *)

Definition MAXINT : Z := 0x7FFFFFFF.

(** [grub_error_t] of [shared.h]. *)
Inductive grub_error :=
  ERR_NONE | ERR_BAD_FILENAME | ERR_BAD_FILETYPE | ERR_BAD_GZIP_DATA | ERR_BAD_GZIP_HEADER |
  ERR_BAD_PART_TABLE | ERR_BAD_VERSION | ERR_BELOW_1MB | ERR_BOOT_COMMAND | ERR_BOOT_FAILURE |
  ERR_BOOT_FEATURES | ERR_DEV_FORMAT | ERR_DEV_VALUES | ERR_EXEC_FORMAT | ERR_FILELENGTH |
  ERR_FILE_NOT_FOUND | ERR_FSYS_CORRUPT | ERR_FSYS_MOUNT | ERR_GEOM | ERR_NEED_LX_KERNEL |
  ERR_NEED_MB_KERNEL | ERR_NO_DISK | ERR_NO_PART | ERR_NUMBER_PARSING | ERR_OUTSIDE_PART | ERR_READ |
  ERR_SYMLINK_LOOP | ERR_UNRECOGNIZED | ERR_WONT_FIT | ERR_WRITE | ERR_BAD_ARGUMENT | ERR_UNALIGNED |
  ERR_PRIVILEGED | ERR_DEV_NEED_INIT | ERR_NO_DISK_SPACE | ERR_NUMBER_OVERFLOW.

#[global] Instance grub_error_eq_dec : EqDecision grub_error.
Proof. solve_decision. Defined.

Definition grub_tolower (c : Z) : Z := if (65 <=? c) && (c <=? 90) then c + (97 - 65) else c.

Definition grub_isspace (c : Z) : bool := (c =? 32) || (c =? 9) || (c =? 13) || (c =? 10).

(** [*s] and [s + 1] on a string; reading at its end gives the NUL. *)
Definition ch (s : list Z) : Z := hd 0 s.

Fixpoint grub_memcmp (s1 s2 : list Z) (n : nat) : Z :=
  match n with
  | O => 0
  | S n' => if ch s1 <? ch s2 then -1 else if ch s2 <? ch s1 then 1 else grub_memcmp (tail s1) (tail s2) n'
  end.

(** [while ( *s1 || *s2 )]: [s2] is compared with the NUL once [s1] is at its end. *)
Fixpoint grub_strcmp (s1 s2 : list Z) : Z :=
  match s1 with
  | [] => match s2 with
          | [] => 0
          | c2 :: _ => if 0 <? c2 then -1 else 1
          end
  | c1 :: s1' => if c1 <? ch s2 then -1 else if ch s2 <? c1 then 1 else grub_strcmp s1' (tail s2)
  end.

Fixpoint substring (s1 s2 : list Z) : Z :=
  match s1 with
  | [] => match s2 with [] => 0 | _ => -1 end
  | c1 :: s1' => if c1 =? ch s2 then substring s1' (tail s2) else 1
  end.

(** The word at the start of an array, the array with its end marked, and the
    character that was there. *)
Fixpoint nul_terminate (str : list Z) : Z * list Z :=
  match str with
  | [] => (0, [])
  | c :: str' => if (c =? 0) || grub_isspace c then (c, 0 :: str')
                 else let '(r, str'') := nul_terminate str' in (r, c :: str'')
  end.

(** The inner loop of [grub_strstr]: [while ( *tmp && *ptr == *tmp )]; the rest of
    [tmp] and whether it moved. *)
Fixpoint match_prefix (ptr tmp : list Z) : list Z :=
  match tmp with
  | [] => []
  | c :: tmp' => if ch ptr =? c then match_prefix (tail ptr) tmp' else tmp
  end.

(** The offset of the occurrence, [None] for a null pointer. *)
Fixpoint grub_strstr (s1 s2 : list Z) : option nat :=
  match s1 with
  | [] => None
  | _ :: s1' =>
      let tmp := match_prefix s1 s2 in
      if (length tmp <? length s2)%nat && (length tmp =? 0)%nat then Some O
      else S <$> grub_strstr s1' s2
  end.

Fixpoint grub_strlen (str : list Z) : Z :=
  match str with [] => 0 | _ :: str' => 1 + grub_strlen str' end.

(** The two loops of [grub_strncat] on the array [s1]: the index of its NUL, and
    the copy; [s1] has at least [n] cells. *)
Fixpoint strncat_end (s1 : list Z) (n : nat) : nat :=
  match n, s1 with
  | S n', c :: s1' => if c =? 0 then O else S (strncat_end s1' n')
  | _, _ => O
  end.

Fixpoint strncat_copy (s1 : list Z) (i n : nat) (s2 : list Z) : list Z * nat :=
  if (i <? n)%nat then
    match s2 with
    | [] => (<[i := 0]> s1, S i)
    | c :: s2' => strncat_copy (<[i := c]> s1) (S i) n s2'
    end
  else (s1, i).

Definition grub_strncat (s1 s2 : list Z) (n : nat) : Z * list Z :=
  let i := strncat_end s1 n in
  let '(s1, i) := strncat_copy s1 i n s2 in
  let s1 := <[(n - 1)%nat := 0]> s1 in
  if (n <=? i)%nat then (0, s1) else (1, <[i := 0]> s1).

(** [safe_parse_maxint]: the rest of the string and the number, or the error.
    [digit] is unsigned. *)
Inductive parsed := Parsed (rest : list Z) (n : Z) | ParseError (e : grub_error).

Fixpoint parse_digits (mult : Z) (ptr : list Z) (myint : Z) (found : bool) : parsed :=
  let stop := if found then Parsed ptr myint else ParseError ERR_NUMBER_PARSING in
  match ptr with
  | [] => stop
  | c :: ptr' =>
      let digit := u32 (grub_tolower c - 48) in
      let '(digit, ok) := if 9 <? digit
                          then let digit := u32 (digit - (97 - 48)) in
                               if (mult =? 10) || (5 <? digit) then (digit, false) else (digit + 10, true)
                          else (digit, true) in
      if negb ok then stop
      else if (u32 (MAXINT - digit)) / mult <? myint then ParseError ERR_NUMBER_OVERFLOW
      else parse_digits mult ptr' (myint * mult + digit) true
  end.

Definition safe_parse_maxint (str : list Z) : parsed :=
  if (ch str =? 48) && (grub_tolower (ch (tail str)) =? 120)
  then parse_digits 16 (tail (tail str)) 0 false
  else parse_digits 10 str 0 false.

(** [convert_to_ascii]: the characters from [buf] to the pointer returned.
    [reorder] is the loop that swaps the ends of the digits. *)
Definition digit_char (dig : Z) : Z := if 9 <? dig then dig + 97 - 10 else 48 + dig.

Fixpoint reorder (fuel ptr1 ptr2 : nat) (buf : list Z) : list Z :=
  match fuel with
  | O => buf
  | S f =>
      if (ptr2 <? ptr1)%nat
      then let tmp := nth ptr1 buf 0 in
           let buf := <[ptr1 := nth ptr2 buf 0]> buf in
           reorder f (ptr1 - 1) (ptr2 + 1) (<[ptr2 := tmp]> buf)
      else buf
  end.

(** [do { ... } while (num /= mult)]: 10 digits are enough. *)
Fixpoint ascii_digits (fuel : nat) (mult num : Z) : list Z :=
  match fuel with
  | O => []
  | S f => digit_char (num mod mult) :: (if num / mult =? 0 then [] else ascii_digits f mult (num / mult))
  end.

Definition convert_to_ascii (c num : Z) : list Z :=
  let mult := if (c =? 120) || (c =? 88) then 16 else 10 in
  let '(num, sign) := if negb (num .& 0x80000000 =? 0) && (c =? 100)
                      then (u32 (u32 (Z.lnot num) + 1), [45]) else (num, []) in
  let buf := sign ++ ascii_digits 10 mult num in
  reorder (length buf) (length buf - 1) (length sign) buf.

(** An argument on the stack of [grub_sprintf] and [grub_printf]. *)
Inductive arg := ArgInt (n : Z) | ArgStr (s : list Z).

(** The characters a format and its arguments stand for, as [grub_sprintf] writes
    them ([X] and other directives are skipped there); [None] when an argument is
    missing or of the wrong type, which is undefined in C. *)
Fixpoint grub_sprintf (format : list Z) (args : list arg) : option (list Z) :=
  match format with
  | [] => Some []
  | c :: format1 =>
      if negb (c =? 37) then l ← grub_sprintf format1 args; Some (c :: l)
      else match format1 with
           | [] => None
           | d :: format2 =>
               if (d =? 100) || (d =? 117) || (d =? 120) then
                 match args with
                 | ArgInt n :: args' => l ← grub_sprintf format2 args'; Some (convert_to_ascii d n ++ l)
                 | _ => None
                 end
               else if d =? 99 then
                 match args with
                 | ArgInt n :: args' => l ← grub_sprintf format2 args'; Some (s8 (n .& 0xff) :: l)
                 | _ => None
                 end
               else if d =? 115 then
                 match args with
                 | ArgStr s :: args' => l ← grub_sprintf format2 args'; Some (s ++ l)
                 | _ => None
                 end
               else grub_sprintf format2 args
           end
  end.

(** *** Memory *)

Section Memory.
(** [mbi.mem_lower] and [mbi.mem_upper], in kilobytes. *)
Variables (mem_lower mem_upper : Z).

(** [addr] is an [int]; the result is [errnum], and true is that it is clear. *)
Definition memcheck (addr len : Z) (errnum : grub_error) : grub_error :=
  if (addr <? 0x1000)
     || ((addr <? 0x100000) && (u32 (mem_lower * 1024) <? u32 (addr + len)))
     || ((0x100000 <=? addr) && (u32 (mem_upper * 1024) <? u32 (addr - 0x100000 + len)))
  then ERR_WONT_FIT else errnum.

(** The pointer returned (0 for NULL), [errnum] and memory; the string
    instruction copies upwards when [to] is below [from]. *)
Definition grub_memmove (to from len : Z) (st0 : grub_error * mem) : Z * (grub_error * mem) :=
  let '(errnum, m) := st0 in
  let errnum := memcheck (s32 to) len errnum in
  let m := if decide (errnum = ERR_NONE) then
             if to <? from then for_range 0 len (fun i m => st m (to + i) (ld m (from + i))) m
             else for_range 0 len (fun k m => st m (to + (len - 1 - k)) (ld m (from + (len - 1 - k)))) m
           else m in
  (if decide (errnum = ERR_NONE) then to else 0, (errnum, m)).

Definition grub_memset (start c len : Z) (st0 : grub_error * mem) : Z * (grub_error * mem) :=
  let '(errnum, m) := st0 in
  let errnum := memcheck (s32 start) len errnum in
  let m := if decide (errnum = ERR_NONE) then for_range 0 len (fun i m => st m (start + i) (u8 c)) m else m in
  (if decide (errnum = ERR_NONE) then start else 0, (errnum, m)).

(** [src] is the C string at [src_addr]. *)
Definition grub_strcpy (dest src_addr : Z) (src : list Z) (st0 : grub_error * mem) : Z * (grub_error * mem) :=
  (dest, snd (grub_memmove dest src_addr (grub_strlen src + 1) st0)).
End Memory.

(** ** Specifications *)

(** Lexicographic order of strings of characters, the shorter first. *)
Fixpoint str_order (s1 s2 : list Z) : comparison :=
  match s1, s2 with
  | [], [] => Eq
  | [], _ :: _ => Lt
  | _ :: _, [] => Gt
  | c1 :: s1, c2 :: s2 => match c1 ?= c2 with Eq => str_order s1 s2 | c => c end
  end.

Definition cmp_int (c : comparison) : Z := match c with Lt => -1 | Eq => 0 | Gt => 1 end.

(** [s2] occurs in [s1] at offset [k]. *)
Definition occurs_at (s1 s2 : list Z) (k : nat) : Prop :=
  exists l r, s1 = l ++ s2 ++ r /\ length l = k.

(** The characters the number parser takes in a base, and their value. *)
Definition digit_of (mult c : Z) : option Z :=
  if (48 <=? c) && (c <=? 57) then Some (c - 48)
  else if (mult =? 16) && (97 <=? grub_tolower c) && (grub_tolower c <=? 102)
       then Some (grub_tolower c - 87) else None.

Definition text_val (mult : Z) (ds : list Z) : Z := foldl (fun a d => a * mult + d) 0 ds.

(** ** Proofs: comparisons and searches *)

Lemma grub_strcmp_order s1 : forall s2,
  Forall (fun c => 0 < c < 128) s1 -> Forall (fun c => 0 < c < 128) s2 ->
  grub_strcmp s1 s2 = cmp_int (str_order s1 s2).
Proof.
  induction s1 as [|c1 s1 IH]; intros [|c2 s2] H1 H2; cbn [grub_strcmp str_order ch hd tail];
    try apply Forall_cons_iff in H1 as [Hc1 H1]; try apply Forall_cons_iff in H2 as [Hc2 H2];
    [done | by zcase; [|lia] | by repeat zcase; [lia | | lia] |].
  destruct (Z.compare_spec c1 c2); repeat zcase; try done; try lia. by apply IH.
Qed.

Lemma str_order_eq s1 : forall s2, str_order s1 s2 = Eq <-> s1 = s2.
Proof.
  induction s1 as [|c1 s1 IH]; intros [|c2 s2]; cbn; try done.
  destruct (Z.compare_spec c1 c2); [subst; rewrite IH; split; congruence | |];
    (split; [done | intros [= ? ?]; lia]).
Qed.

Lemma substring_cases s1 : forall s2,
  Forall (fun c => c <> 0) s1 -> Forall (fun c => c <> 0) s2 ->
  substring s1 s2 = if decide (s1 = s2) then 0 else if decide (s1 `prefix_of` s2) then -1 else 1.
Proof.
  induction s1 as [|c1 s1 IH]; intros [|c2 s2] H1 H2; cbn [substring ch hd tail].
  - by rewrite decide_True.
  - rewrite decide_False by done. rewrite decide_True; [done | apply prefix_nil].
  - rewrite decide_False by done. rewrite decide_False; [| by intros ?%prefix_nil_inv].
    apply Forall_cons_iff in H1 as [H1 _]. by zcase.
  - apply Forall_cons_iff in H1 as [Hc1 H1]. apply Forall_cons_iff in H2 as [Hc2 H2].
    destruct (Z.eqb_spec c1 c2) as [-> | n].
    + rewrite IH by done. repeat case_decide; simplify_eq; try done.
      * by destruct H4; apply prefix_cons.
      * by match goal with Hp : _ :: _ `prefix_of` _ |- _ => apply prefix_cons_inv_2 in Hp end.
    + rewrite decide_False by congruence. rewrite decide_False; [done |].
      intros ?%prefix_cons_inv_1. done.
Qed.

Lemma match_prefix_spec ptr tmp :
  exists l, tmp = l ++ match_prefix ptr tmp /\
    (Forall (fun c => c <> 0) tmp -> (match_prefix ptr tmp = [] <-> tmp `prefix_of` ptr)).
Proof.
  revert ptr. induction tmp as [|c tmp IH]; intros ptr; cbn [match_prefix].
  - exists []. split; [done |]. split; [intros; apply prefix_nil | done].
  - destruct (Z.eqb_spec (ch ptr) c) as [E | E].
    + destruct (IH (tail ptr)) as (l & El & Hp). exists (c :: l). split; [cbn; by f_equal |].
      intros [Hc H]%Forall_cons_iff. rewrite (Hp H).
      destruct ptr as [|p ptr]; cbn in E; [by subst |]. subst p. cbn [tail].
      split; [apply prefix_cons | apply prefix_cons_inv_2].
    + exists []. split; [done |]. intros [Hc H]%Forall_cons_iff. split; [done |].
      intros Hp. destruct ptr as [|p ptr]; [by apply prefix_nil_inv in Hp |].
      apply prefix_cons_inv_1 in Hp. cbn in E. congruence.
Qed.

Lemma occurs_at_0 s1 s2 : occurs_at s1 s2 0 <-> s2 `prefix_of` s1.
Proof.
  split.
  - intros (l & r & -> & Hl). apply nil_length_inv in Hl. subst. cbn. by exists r.
  - intros [r ->]. by exists [], r.
Qed.

Lemma occurs_at_S c s1 s2 k : occurs_at (c :: s1) s2 (S k) <-> occurs_at s1 s2 k.
Proof.
  split.
  - intros ([|x l] & r & E & Hl); [done |]. injection E as -> ->. exists l, r. split; [done |]. cbn in Hl. lia.
  - intros (l & r & -> & Hl). exists (c :: l), r. split; [done |]. cbn. lia.
Qed.

Lemma grub_strstr_nil s1 : grub_strstr s1 [] = None.
Proof. induction s1 as [|c s1 IH]; [done |]. cbn. by rewrite IH. Qed.

Lemma strstr_first s1 s2 :
  s2 <> [] -> Forall (fun c => c <> 0) s2 ->
  match grub_strstr s1 s2 with
  | Some k => occurs_at s1 s2 k /\ forall j, (j < k)%nat -> ~ occurs_at s1 s2 j
  | None => forall k, ~ occurs_at s1 s2 k
  end.
Proof.
  intros Hne Hnz. induction s1 as [|c s1 IH].
  - intros k (l & r & E & Hl). by destruct l, s2.
  - cbn [grub_strstr]. destruct (match_prefix_spec (c :: s1) s2) as (l & El & Hp).
    specialize (Hp Hnz). set (tmp := match_prefix (c :: s1) s2) in *.
    destruct (decide (tmp = [])) as [E | E].
    + rewrite E. cbn [length]. rewrite (proj2 (Nat.ltb_lt 0 (length s2))) by (destruct s2; cbn; [done | lia]).
      cbn. split; [| intros; lia]. apply occurs_at_0. by apply Hp.
    + replace (length tmp =? 0)%nat with false by (destruct tmp; [done | reflexivity]).
      rewrite andb_false_r. assert (~ occurs_at (c :: s1) s2 0) as H0 by (rewrite occurs_at_0; tauto).
      destruct (grub_strstr s1 s2) as [k|]; cbn.
      * destruct IH as [H1 H2]. split; [by apply occurs_at_S |].
        intros [|j] Hj; [done |]. rewrite occurs_at_S. apply H2. lia.
      * intros [|k]; [done |]. rewrite occurs_at_S. apply IH.
Qed.

(** [grub_strstr] finds the first occurrence of a string that is not empty;
    the empty string it never finds. *)
Theorem grub_strstr_first s1 s2 :
  s2 <> [] -> Forall (fun c => c <> 0) s2 ->
  match grub_strstr s1 s2 with
  | Some k => occurs_at s1 s2 k /\ forall j, (j < k)%nat -> ~ occurs_at s1 s2 j
  | None => forall k, ~ occurs_at s1 s2 k
  end.
Proof. apply strstr_first. Qed.

Lemma grub_strstr_first_witness :
  grub_strstr (bytes "kernel --no-mem") (bytes "no") = Some 9%nat /\
  occurs_at (bytes "kernel --no-mem") (bytes "no") 9.
Proof.
  assert (H : grub_strstr (bytes "kernel --no-mem") (bytes "no") = Some 9%nat) by reflexivity.
  pose proof (grub_strstr_first (bytes "kernel --no-mem") (bytes "no") ltac:(done)
                ltac:(repeat constructor; done)) as W.
  rewrite H in W. split; [exact H | apply W].
Defined.

(** ** Proofs: concatenation *)

Lemma strncat_end_spec a r n : Forall (fun c => c <> 0) a -> (length a < n)%nat ->
  strncat_end (a ++ 0 :: r) n = length a.
Proof.
  revert n. induction a as [|c a IH]; intros [|n] Ha Hn; cbn in Hn |- *; try lia.
  apply Forall_cons_iff in Ha as [Hc Ha]. destruct (Z.eqb_spec c 0); [done |]. rewrite IH; [done.. | lia].
Qed.

(** The copy writes [s2] and its NUL from [i] on, as far as cell [n - 1]. *)
Lemma strncat_copy_spec s2 : forall l mid r,
  forall n, ((length mid = S (length s2) /\ (length l + length mid <= n)%nat) \/
             ((length mid <= length s2)%nat /\ (length l + length mid = n)%nat)) ->
  strncat_copy (l ++ mid ++ r) (length l) n s2
  = (l ++ take (length mid) (s2 ++ [0]) ++ r, (length l + length mid)%nat).
Proof.
  induction s2 as [|c s2 IH]; intros l mid r n Hn; cbn [strncat_copy];
    destruct (Nat.ltb_spec (length l) n) as [Hl | Hl]; destruct mid as [|x mid]; cbn [length] in Hn; try lia;
    try (cbn [length take app]; f_equal; lia); cbn [app]; rewrite insert_app_r_alt, Nat.sub_diag by lia;
    cbn [list_insert length].
  - assert (length mid = 0%nat) as Hm by lia. apply nil_length_inv in Hm. subst. cbn. f_equal. lia.
  - replace (S (length l)) with (length (l ++ [c])) by (rewrite length_app; cbn; lia).
    replace (l ++ _) with ((l ++ [c]) ++ mid ++ r) by (by rewrite <- app_assoc).
    rewrite IH; rewrite length_app; cbn [length].
    + rewrite <- app_assoc. cbn. f_equal. lia.
    + lia.
Qed.

Lemma insert_after_nul (p r : list Z) k : (length p <= k)%nat ->
  exists r', <[k := 0]> (p ++ 0 :: r) = p ++ 0 :: r'.
Proof.
  intros Hk. rewrite insert_app_r_alt by done. destruct (k - length p)%nat as [|j]; cbn; eauto.
Qed.

Lemma strncat_result a r s2 n :
  Forall (fun c => c <> 0) a -> (length a < n)%nat -> (n <= length (a ++ 0%Z :: r))%nat ->
  exists ret arr r', grub_strncat (a ++ 0 :: r) s2 n = (ret, arr) /\
    arr = take (n - 1) (a ++ s2) ++ 0 :: r' /\ length arr = length (a ++ 0 :: r) /\
    ret = (if decide (length a + length s2 + 1 < n)%nat then 1 else 0).
Proof.
  intros Ha Hn Hl. unfold grub_strncat. rewrite strncat_end_spec by done.
  set (k := Nat.min (n - length a) (S (length s2))).
  rewrite length_app in Hl. cbn [length] in Hl.
  assert (length (take k (0 :: r)) = k) as Hk by (rewrite length_take; cbn; lia).
  pose proof (strncat_copy_spec s2 a (take k (0 :: r)) (drop k (0 :: r)) n ltac:(lia)) as E.
  rewrite take_drop, Hk in E. rewrite E. clear E.
  destruct (Nat.leb_spec n (length a + k)).
  - rewrite decide_False by lia. destruct (decide (length a + S (length s2) = n)%nat) as [E | E].
    + rewrite (take_ge (s2 ++ [0]) k) by (rewrite length_app; cbn; lia).
      replace (a ++ (s2 ++ [0]) ++ drop k (0 :: r)) with ((a ++ s2) ++ 0 :: drop k (0 :: r))
        by (by rewrite <- !app_assoc).
      destruct (insert_after_nul (a ++ s2) (drop k (0 :: r)) (n - 1)) as [r' Hr']; [rewrite length_app; lia |].
      eexists 0, _, r'. split_and!; [done | | | done].
      * rewrite Hr'. by rewrite take_ge by (rewrite length_app; lia).
      * rewrite length_insert, !length_app. cbn [length]. rewrite length_drop. cbn [length]. lia.
    + rewrite take_app_le by lia.
      replace (a ++ take k s2 ++ drop k (0 :: r)) with (take n (a ++ s2) ++ drop k (0 :: r))
        by (rewrite take_app, (take_ge a), <- app_assoc by lia; do 2 f_equal; f_equal; lia).
      eexists 0, _, (drop k (0 :: r)). split_and!; [done | | | done].
      * rewrite insert_app_l by (rewrite length_take, length_app; lia).
        rewrite <- (take_drop (n - 1) (take n (a ++ s2))) at 1.
        rewrite take_take, Nat.min_l by lia.
        assert (length (drop (n - 1) (take n (a ++ s2))) = 1%nat) as H1
          by (rewrite length_drop, length_take, length_app; lia).
        destruct (drop (n - 1) (take n (a ++ s2))) as [|y [|]]; try done.
        rewrite insert_app_r_alt by (rewrite length_take; lia).
        rewrite length_take, length_app. replace (n - 1 - _)%nat with 0%nat by lia.
        by rewrite <- app_assoc.
      * rewrite length_insert, !length_app, length_take, length_drop, length_app. cbn [length]. lia.
  - rewrite decide_True by lia.
    rewrite (take_ge (s2 ++ [0]) k) by (rewrite length_app; cbn; lia).
    replace (a ++ (s2 ++ [0]) ++ drop k (0 :: r)) with ((a ++ s2) ++ 0 :: drop k (0 :: r))
      by (by rewrite <- !app_assoc).
    destruct (insert_after_nul (a ++ s2) (drop k (0 :: r)) (n - 1)) as [r1 Hr1]; [rewrite length_app; lia |].
    destruct (insert_after_nul (a ++ s2) r1 (length a + k)) as [r2 Hr2]; [rewrite length_app; lia |].
    eexists 1, _, r2. split_and!; [done | | | done].
    + rewrite Hr1, Hr2. by rewrite take_ge by (rewrite length_app; lia).
    + rewrite !length_insert, !length_app. cbn [length]. rewrite length_drop. cbn [length]. lia.
Qed.

(** [grub_strncat] leaves the first [n - 1] characters of the concatenation,
    terminated, and reports success when there was room to spare. *)
Theorem grub_strncat_bounded a r s2 n :
  Forall (fun c => c <> 0) a -> (length a < n)%nat -> (n <= length (a ++ 0%Z :: r))%nat ->
  exists ret arr r', grub_strncat (a ++ 0 :: r) s2 n = (ret, arr) /\
    arr = take (n - 1) (a ++ s2) ++ 0 :: r' /\ length arr = length (a ++ 0 :: r) /\
    ret = (if decide (length a + length s2 + 1 < n)%nat then 1 else 0).
Proof. apply strncat_result. Qed.

Lemma grub_strncat_bounded_witness :
  grub_strncat (bytes "(hd0)" ++ [0; 0; 0; 0]) (bytes "/x") 8 = (0, bytes "(hd0)/x" ++ [0; 0]) /\
  exists ret arr r', grub_strncat (bytes "(hd0)" ++ 0 :: [0; 0; 0]) (bytes "/x") 8 = (ret, arr) /\
    arr = take 7 (bytes "(hd0)" ++ bytes "/x") ++ 0 :: r' /\ length arr = 9%nat /\ ret = 0.
Proof.
  split; [reflexivity |].
  apply (grub_strncat_bounded (bytes "(hd0)") [0; 0; 0] (bytes "/x") 8); [repeat constructor; done | cbn; lia..].
Defined.

(** ** Proofs: numbers *)

(** The loop that swaps the ends reverses what is between them. *)
Lemma reorder_spec fuel : forall l mid r, (length mid <= fuel)%nat -> (1 <= length l + length mid)%nat ->
  reorder fuel (length l + length mid - 1) (length l) (l ++ mid ++ r) = l ++ rev mid ++ r.
Proof.
  induction fuel as [|f IH]; intros l mid r Hf H1.
  - destruct mid; cbn in Hf |- *; [done | lia].
  - cbn [reorder]. destruct (Nat.ltb_spec (length l) (length l + length mid - 1)).
    + destruct mid as [|x mid]; [cbn in *; lia |].
      destruct mid as [|y mid' _] using rev_ind; [cbn in *; lia |]. cbn [length] in *. rewrite length_app in *. cbn [length] in *.
      replace (length l + S (length mid' + 1) - 1)%nat with (length (l ++ x :: mid'))
        by (rewrite length_app; cbn; lia).
      replace (l ++ (x :: mid' ++ [y]) ++ r) with ((l ++ x :: mid') ++ y :: r)
        by (cbn; by rewrite <- !app_assoc).
      rewrite nth_middle. replace (nth (length l) _ 0) with x
        by (rewrite <- app_assoc; cbn; by rewrite nth_middle).
      rewrite insert_app_r_alt, Nat.sub_diag by lia. cbn [insert list_insert].
      rewrite <- app_assoc. cbn [app]. rewrite insert_app_r_alt, Nat.sub_diag by lia. cbn [insert list_insert].
      replace (length (l ++ x :: mid') - 1)%nat with (length (l ++ [y]) + length mid' - 1)%nat
        by (rewrite !length_app; cbn; lia).
      replace (length l + 1)%nat with (length (l ++ [y])) by (rewrite length_app; cbn; lia).
      replace (l ++ y :: mid' ++ x :: r) with ((l ++ [y]) ++ mid' ++ x :: r) by (by rewrite <- app_assoc).
      rewrite IH by (rewrite ?length_app; cbn; lia).
      cbn [rev]. rewrite rev_app_distr. cbn. by rewrite <- !app_assoc.
    + destruct mid as [|x [|y mid]]; [done | done | cbn in *; lia].
Qed.

Lemma text_val_snoc mult ds d : text_val mult (ds ++ [d]) = text_val mult ds * mult + d.
Proof. unfold text_val. by rewrite foldl_app. Qed.

Lemma ascii_digits_spec mult f : forall num, 1 < mult -> 0 <= num < mult ^ Z.of_nat f -> (0 < f)%nat ->
  exists ds, ascii_digits f mult num = rev (map digit_char ds) /\ ds <> [] /\
    Forall (fun d => 0 <= d < mult) ds /\ text_val mult ds = num /\
    (forall d ds', ds = d :: ds' -> ds' <> [] -> d <> 0).
Proof.
  induction f as [|f IH]; intros num Hm Hn Hf; [lia |]. cbn [ascii_digits].
  rewrite Nat2Z.inj_succ, Z.pow_succ_r in Hn by lia.
  pose proof (Z.div_mod num mult ltac:(lia)). pose proof (Z.mod_pos_bound num mult ltac:(lia)).
  destruct (Z.eqb_spec (num / mult) 0) as [E | E].
  - exists [num mod mult]. split_and!; [done | done | | unfold text_val; cbn; lia |].
    + by apply Forall_singleton.
    + by intros d ds' [= <- <-].
  - assert (0 <= num / mult < mult ^ Z.of_nat f) by (split; [apply Z.div_pos; lia | apply Z.div_lt_upper_bound; lia]).
    destruct (IH (num / mult)) as (ds & -> & Hne & Hd & Hv & Hl); [done | done | |].
    { destruct f; [cbn in *; lia | lia]. }
    exists (ds ++ [num mod mult]). split_and!.
    + rewrite map_app, rev_app_distr. done.
    + by destruct ds.
    + apply Forall_app. split; [done |]. by apply Forall_singleton.
    + rewrite text_val_snoc. lia.
    + intros d ds' Hds _. destruct ds as [|d0 [|d1 ds]]; [done | |]; injection Hds as <- _.
      * unfold text_val in Hv. cbn in Hv. lia.
      * by eapply Hl.
Qed.

Lemma text_val_dec ds : text_val 10 ds = dec_val ds.
Proof. unfold text_val, dec_val. generalize 0. induction ds as [|d ds IH]; intros a; cbn; [done |]. rewrite IH. f_equal. lia. Qed.

Lemma sign_bit num : 0 <= num < 4294967296 -> (num .& 0x80000000 =? 0) = (num <? 2147483648).
Proof.
  intros Hn. change 0x80000000 with (2 ^ 31). destruct (Z.ltb_spec num (2 ^ 31)).
  - apply Z.eqb_eq, Z.bits_inj'. intros k Hk. rewrite Z.land_spec, Z.pow2_bits_eqb, Z.bits_0 by lia.
    destruct (Z.eqb_spec 31 k) as [<- |]; [| apply andb_false_r]. rewrite (testbit_high num 31); [done | lia | lia].
  - apply Z.eqb_neq. intros E. apply (f_equal (fun z => Z.testbit z 31)) in E.
    rewrite Z.land_spec, Z.bits_0, Z.pow2_bits_true, andb_true_r in E by lia.
    rewrite (proj2 (Z.testbit_true num 31 ltac:(lia))) in E; [done |]. change (2 ^ 31) with 2147483648. dlia.
Qed.

(** The sign and the magnitude a conversion prints. *)
Definition printed_sign (c num : Z) : list Z := if (c =? 100) && (2147483648 <=? num) then [45] else [].
Definition printed_num (c num : Z) : Z := if (c =? 100) && (2147483648 <=? num) then 4294967296 - num else num.
Definition printed_base (c : Z) : Z := if (c =? 120) || (c =? 88) then 16 else 10.

Lemma convert_text c num : 0 <= num < 4294967296 ->
  exists ds, convert_to_ascii c num = printed_sign c num ++ map digit_char ds /\ ds <> [] /\
    Forall (fun d => 0 <= d < printed_base c) ds /\ text_val (printed_base c) ds = printed_num c num /\
    (forall d ds', ds = d :: ds' -> ds' <> [] -> d <> 0).
Proof.
  intros Hn. unfold convert_to_ascii. rewrite sign_bit by done.
  assert ((if negb (num <? 2147483648) && (c =? 100) then (u32 (u32 (Z.lnot num) + 1), [45]) else (num, []))
          = (printed_num c num, printed_sign c num)) as ->.
  { unfold printed_num, printed_sign. rewrite andb_comm.
    replace (negb (num <? 2147483648)) with (2147483648 <=? num) by (by rewrite Z.leb_antisym).
    destruct (Z.eqb_spec c 100), (Z.leb_spec 2147483648 num); cbn; try done.
    f_equal. rewrite u32_add_l. unfold Z.lnot. cint_lia. }
  fold (printed_base c).
  destruct (ascii_digits_spec (printed_base c) 10 (printed_num c num)) as (ds & -> & Hne & Hd & Hv & Hl);
    [unfold printed_base; by destruct (_ || _) | | lia |].
  { assert (0 <= printed_num c num < 4294967296) as Hp
      by (unfold printed_num; destruct (Z.leb_spec 2147483648 num); rewrite ?andb_false_r, ?andb_true_r;
          try case_match; lia).
    unfold printed_base. destruct (_ || _); cbn; lia. }
  exists ds. split; [| done].
  rewrite length_app.
  pose proof (reorder_spec (length (printed_sign c num) + length (rev (map digit_char ds)))
                (printed_sign c num) (rev (map digit_char ds)) []) as E.
  rewrite rev_involutive, !app_nil_r in E. apply E; [lia |].
  rewrite length_rev, length_map. destruct ds; [done | cbn; lia].
Qed.

Lemma digit_char_small d : 0 <= d < 10 -> digit_char d = 48 + d.
Proof. intros. unfold digit_char. by zcase; [lia |]. Qed.

Lemma convert_decimal c num : 0 <= num < 4294967296 -> printed_base c = 10 ->
  convert_to_ascii c num = printed_sign c num ++ map (fun d => 48 + d) (decimal (printed_num c num)).
Proof.
  intros Hn Hb. destruct (convert_text c num Hn) as (ds & -> & Hne & Hd & Hv & Hl). rewrite Hb in *.
  f_equal. rewrite <- (decimal_unique (printed_num c num) ds).
  - apply map_ext_Forall. eapply Forall_impl; [| apply Hd]. intros d. apply digit_char_small.
  - rewrite <- Hv, text_val_dec. by apply dec_val_range.
  - split; try done. by rewrite <- text_val_dec.
Qed.

(** *** The number parser *)

(** One round of the loop, in terms of [digit_of]. *)
Lemma parse_digits_step mult c s myint found : mult = 10 \/ mult = 16 -> -128 <= c < 128 ->
  0 <= myint <= MAXINT ->
  parse_digits mult (c :: s) myint found
  = match digit_of mult c with
    | None => if found then Parsed (c :: s) myint else ParseError ERR_NUMBER_PARSING
    | Some d => if myint * mult + d <=? MAXINT then parse_digits mult s (myint * mult + d) true
                else ParseError ERR_NUMBER_OVERFLOW
    end.
Proof.
  intros Hm Hc Hi. cbn [parse_digits]. unfold digit_of.
  assert (forall d, 0 <= d < 16 -> (u32 (MAXINT - d) / mult <? myint) = negb (myint * mult + d <=? MAXINT)) as Hov.
  { intros d Hd. rewrite u32_small by (unfold MAXINT; lia). rewrite <- Z.ltb_antisym.
    unfold MAXINT in *. destruct Hm as [-> | ->]; repeat zcase; try done; dlia. }
  destruct (decide (48 <= c <= 57)) as [H | H].
  - rewrite (proj2 (Z.leb_le 48 c)), (proj2 (Z.leb_le c 57)) by lia. cbn [andb].
    assert (grub_tolower c = c) as -> by (unfold grub_tolower; repeat zcase; cbn; lia).
    rewrite u32_small by lia. rewrite (proj2 (Z.ltb_ge 9 (c - 48))) by lia. cbn [negb].
    rewrite Hov by lia. by destruct (_ <=? MAXINT).
  - replace ((48 <=? c) && (c <=? 57)) with false by (repeat zcase; done || lia).
    assert (-128 <= grub_tolower c < 128 /\ ~ 48 <= grub_tolower c <= 57) as [Ht Hn]
      by (unfold grub_tolower; repeat zcase; cbn; lia).
    generalize dependent (grub_tolower c). intros t Ht Hn.
    rewrite (proj2 (Z.ltb_lt 9 (u32 (t - 48)))) by cint_lia.
    assert (u32 (u32 (t - 48) - (97 - 48)) = u32 (t - 97)) as ->
      by (rewrite <- Z.add_opp_r, u32_add_l; f_equal; lia).
    assert ((5 <? u32 (t - 97)) = negb ((97 <=? t) && (t <=? 102))) as ->
      by (repeat zcase; try done; exfalso; cint_lia).
    destruct Hm as [-> | ->]; cbn [Z.eqb orb andb Pos.eqb]; [done |].
    destruct ((97 <=? t) && (t <=? 102)) eqn:E; cbn [negb]; [| done].
    apply andb_prop in E as [E1%Z.leb_le E2%Z.leb_le]. rewrite (u32_small (t - 97)) by lia.
    rewrite Hov by lia. replace (t - 97 + 10) with (t - 87) by lia. by destruct (_ <=? MAXINT).
Qed.

Definition is_char (c : Z) : Prop := -128 <= c < 128.

Definition opens_no_digit (mult : Z) (rest : list Z) : Prop := forall c r, rest = c :: r -> digit_of mult c = None.

Lemma digit_of_range mult c d : mult = 10 \/ mult = 16 -> digit_of mult c = Some d -> 0 <= d < mult.
Proof.
  unfold digit_of. intros Hm H. destruct ((48 <=? c) && (c <=? 57)) eqn:E.
  - injection H as <-. apply andb_prop in E as [E1%Z.leb_le E2%Z.leb_le]. lia.
  - destruct Hm as [-> | ->]; cbn in H; [done |].
    destruct ((97 <=? grub_tolower c) && (grub_tolower c <=? 102)) eqn:E'; [| done].
    apply andb_prop in E' as [E1%Z.leb_le E2%Z.leb_le]. injection H as <-. lia.
Qed.

Lemma text_val_ge mult ds : forall a, 0 < mult -> 0 <= a -> Forall (fun d => 0 <= d < mult) ds ->
  a <= foldl (fun a d => a * mult + d) a ds.
Proof.
  induction ds as [|d ds IH]; intros a Hm Ha Hd; cbn; [lia |]. apply Forall_cons_iff in Hd as [Hd0 Hd].
  specialize (IH (a * mult + d) Hm ltac:(nia) Hd). nia.
Qed.

Lemma parse_digits_spec mult cs : forall ds rest myint found,
  mult = 10 \/ mult = 16 -> Forall is_char (cs ++ rest) -> 0 <= myint <= MAXINT ->
  Forall2 (fun c d => digit_of mult c = Some d) cs ds -> opens_no_digit mult rest ->
  parse_digits mult (cs ++ rest) myint found
  = if decide (foldl (fun a d => a * mult + d) myint ds <= MAXINT)
    then if decide (cs = [] /\ found = false) then ParseError ERR_NUMBER_PARSING
         else Parsed rest (foldl (fun a d => a * mult + d) myint ds)
    else ParseError ERR_NUMBER_OVERFLOW.
Proof.
  induction cs as [|c cs IH]; intros ds rest myint found Hm Hc Hi Hd Hr;
    inversion Hd as [|? d ? ds' Hd1 Hd2]; subst; cbn [foldl app].
  - rewrite decide_True by lia.
    assert (parse_digits mult rest myint found
            = if found then Parsed rest myint else ParseError ERR_NUMBER_PARSING) as ->.
    { destruct rest as [|c r]; [done |]. apply Forall_cons_iff in Hc as [Hc _].
      rewrite parse_digits_step by done. by rewrite (Hr c r eq_refl). }
    destruct found; [by rewrite decide_False by (intros [_ [=]]) | by rewrite decide_True].
  - cbn [app] in Hc. apply Forall_cons_iff in Hc as [Hc Hcs].
    pose proof (digit_of_range _ _ _ Hm Hd1). rewrite parse_digits_step, Hd1 by done.
    assert (Forall (fun d => 0 <= d < mult) ds') as Hds.
    { clear -Hd2 Hm. induction Hd2; constructor; eauto using digit_of_range. }
    pose proof (text_val_ge mult ds' (myint * mult + d) ltac:(lia) ltac:(nia) Hds).
    zcase.
    + rewrite (IH ds') by (done || nia). case_decide; [| done].
      rewrite !decide_False; [done | by intros [? ?] | by intros [? ?]].
    + rewrite decide_False by lia. done.
Qed.

(** A number as [safe_parse_maxint] reads it: a base, the prefix that selects it
    and the digits. *)
Definition hex_prefix (s : list Z) : Prop := exists x r, s = 48 :: x :: r /\ (x = 120 \/ x = 88).
Definition number_form (mult : Z) (pre body : list Z) : Prop :=
  (mult = 16 /\ hex_prefix pre /\ length pre = 2%nat) \/ (mult = 10 /\ pre = [] /\ ~ hex_prefix body).

Lemma parse_number mult pre cs ds rest :
  number_form mult pre (cs ++ rest) -> Forall is_char (pre ++ cs ++ rest) ->
  Forall2 (fun c d => digit_of mult c = Some d) cs ds -> opens_no_digit mult rest ->
  safe_parse_maxint (pre ++ cs ++ rest)
  = if decide (text_val mult ds <= MAXINT)
    then if decide (cs = []) then ParseError ERR_NUMBER_PARSING else Parsed rest (text_val mult ds)
    else ParseError ERR_NUMBER_OVERFLOW.
Proof.
  intros Hf Hc Hd Hr. apply Forall_app in Hc as [Hpc Hc].
  assert (mult = 10 \/ mult = 16) as Hm by (destruct Hf as [[-> _] | [-> _]]; auto).
  assert (safe_parse_maxint (pre ++ cs ++ rest) = parse_digits mult (cs ++ rest) 0 false) as ->.
  { unfold safe_parse_maxint. destruct Hf as [(-> & (x & r & -> & Hx) & Hl) | (-> & -> & Hn)].
    - destruct r; [| done]. cbn [app ch hd tail]. by destruct Hx as [-> | ->].
    - cbn [app]. destruct (Z.eqb_spec (ch (cs ++ rest)) 48) as [E |]; [| done].
      destruct (Z.eqb_spec (grub_tolower (ch (tail (cs ++ rest)))) 120) as [E' |]; [| done].
      destruct Hn. destruct (cs ++ rest) as [|c0 [|c1 r]]; [done | by cbn in E' |].
      cbn in E, E'. subst c0. exists c1, r. split; [done |].
      unfold grub_tolower in E'. destruct ((65 <=? c1) && (c1 <=? 90)); lia. }
  rewrite (parse_digits_spec mult cs ds) by (done || (unfold MAXINT; lia)).
  unfold text_val. case_decide; [| done]. by repeat case_decide; try tauto; naive_solver.
Qed.

(** A number with its optional 0x is parsed to its value when that fits an
    int; without digits it is a parse error, above MAXINT an overflow error,
    and the string pointer moves only on success. *)
Theorem safe_parse_maxint_number mult pre cs ds rest :
  number_form mult pre (cs ++ rest) -> Forall is_char (pre ++ cs ++ rest) ->
  Forall2 (fun c d => digit_of mult c = Some d) cs ds -> opens_no_digit mult rest ->
  safe_parse_maxint (pre ++ cs ++ rest)
  = if decide (text_val mult ds <= MAXINT)
    then if decide (cs = []) then ParseError ERR_NUMBER_PARSING else Parsed rest (text_val mult ds)
    else ParseError ERR_NUMBER_OVERFLOW.
Proof. apply parse_number. Qed.

Lemma safe_parse_maxint_number_witness :
  safe_parse_maxint (bytes "0x" ++ bytes "1f" ++ bytes "G") = Parsed (bytes "G") 31.
Proof.
  rewrite (safe_parse_maxint_number 16 (bytes "0x") (bytes "1f") [1; 15] (bytes "G")); [reflexivity | | | |].
  - left. split; [reflexivity |]. split; [| reflexivity]. exists 120, []. auto.
  - repeat constructor; done.
  - repeat constructor.
  - intros c r [= <- <-]. reflexivity.
Defined.

Lemma digit_of_char mult d : mult = 10 \/ mult = 16 -> 0 <= d < mult ->
  is_char (digit_char d) /\ digit_of mult (digit_char d) = Some d.
Proof.
  intros Hm Hd. assert (Forall (fun d => is_char (digit_char d) /\ (d < mult -> digit_of mult (digit_char d) = Some d))
                          (map Z.of_nat (seq 0 16))) as H.
  { unfold is_char. destruct Hm as [-> | ->]; repeat constructor; done || (cbn; lia). }
  rewrite Forall_lookup in H. destruct (H (Z.to_nat d) d) as [H1 H2]; [| split; [done | apply H2; lia]].
  rewrite list_lookup_fmap, lookup_seq_lt by lia. cbn. f_equal. lia.
Qed.

Lemma digits_form mult ds : mult = 10 \/ mult = 16 -> Forall (fun d => 0 <= d < mult) ds ->
  Forall is_char (map digit_char ds) /\ Forall2 (fun c d => digit_of mult c = Some d) (map digit_char ds) ds.
Proof.
  intros Hm. induction 1 as [|d ds Hd _ [IH1 IH2]]; cbn; [done |].
  destruct (digit_of_char mult d Hm Hd). split; constructor; done.
Qed.

Lemma number_parsed c n rest :
  0 <= n <= MAXINT -> Forall is_char rest -> opens_no_digit (printed_base c) rest ->
  ~ hex_prefix (convert_to_ascii c n ++ rest) ->
  safe_parse_maxint ((if printed_base c =? 16 then bytes "0x" else []) ++ convert_to_ascii c n ++ rest) = Parsed rest n.
Proof.
  intros Hn Hc Hr Hx. unfold MAXINT in *.
  destruct (convert_text c n ltac:(lia)) as (ds & E & Hne & Hd & Hv & _). rewrite E in *.
  assert (printed_sign c n = [] /\ printed_num c n = n) as [Es Ep]
    by (unfold printed_sign, printed_num; rewrite (proj2 (Z.leb_gt 2147483648 n)), andb_false_r by lia; done).
  rewrite Es, Ep in *. cbn [app] in *.
  assert (printed_base c = 10 \/ printed_base c = 16) as Hm by (unfold printed_base; destruct (_ || _); auto).
  destruct (digits_form _ _ Hm Hd) as [H1 H2].
  rewrite (parse_number (printed_base c) _ _ ds rest); [| | | done | done].
  - rewrite decide_True by (unfold MAXINT; lia). rewrite decide_False by (by destruct ds). by rewrite Hv.
  - destruct Hm as [-> | ->]; cbn; [by right |]. left. split_and!; [done | | done]. exists 120, []. auto.
  - rewrite !Forall_app. split; [| done]. destruct (_ =? 16); repeat constructor; done.
Qed.

(** C31. The text of a number in decimal or hexadecimal, as GRUB prints it, is
    parsed back to that number, up to the first character that is not a digit. *)
Theorem number_text_roundtrip c n rest :
  0 <= n <= MAXINT -> Forall is_char rest -> opens_no_digit (printed_base c) rest ->
  ~ hex_prefix (convert_to_ascii c n ++ rest) ->
  safe_parse_maxint ((if printed_base c =? 16 then bytes "0x" else []) ++ convert_to_ascii c n ++ rest) = Parsed rest n.
Proof. apply number_parsed. Qed.

Lemma number_text_roundtrip_witness :
  safe_parse_maxint (bytes "0x" ++ convert_to_ascii 120 195936478 ++ bytes " ") = Parsed (bytes " ") 195936478 /\
  convert_to_ascii 120 195936478 = bytes "badc0de".
Proof.
  split; [| reflexivity]. apply (number_text_roundtrip 120 195936478 (bytes " ")).
  - unfold MAXINT. lia.
  - repeat constructor; done.
  - intros c r [= <- <-]. reflexivity.
  - intros (x & r & [=] & _).
Defined.

(** ** Proofs: memory *)

Section MemoryProofs.
Variables (mem_lower mem_upper : Z).

(** The ranges [memcheck] accepts: below 640K in the lower memory, or in the
    upper memory the BIOS reported. *)
Definition mem_ok (addr len : Z) : Prop :=
  0x1000 <= addr /\ addr + len <= mem_lower * 1024 /\ addr < 0x100000 \/
  0x100000 <= addr /\ addr - 0x100000 + len <= mem_upper * 1024.

Lemma memcheck_spec addr len errnum :
  0 <= addr < 2147483648 -> 0 <= len < 2147483648 -> 0 <= mem_lower < 4194304 -> 0 <= mem_upper < 4194304 ->
  (mem_ok addr len -> memcheck mem_lower mem_upper addr len errnum = errnum) /\
  (~ mem_ok addr len -> memcheck mem_lower mem_upper addr len errnum = ERR_WONT_FIT).
Proof.
  intros Ha Hl H1 H2. unfold memcheck, mem_ok in *.
  rewrite (u32_small (mem_lower * 1024)), (u32_small (mem_upper * 1024)), (u32_small (addr + len)) by lia.
  destruct (Z.ltb_spec addr 0x100000); [| rewrite u32_small by lia];
    split; intros Hok; repeat zcase; cbn; try done; lia.
Qed.

Lemma grub_memmove_copied to from len m :
  0 <= to < 2147483648 -> 0 <= len < 2147483648 -> 0 <= mem_lower < 4194304 -> 0 <= mem_upper < 4194304 ->
  mem_ok to len ->
  exists m', grub_memmove mem_lower mem_upper to from len (ERR_NONE, m) = (to, (ERR_NONE, m')) /\ copied m to from len m'.
Proof.
  intros Ht Hl H1 H2 Hok. unfold grub_memmove. rewrite s32_small by lia.
  rewrite (proj1 (memcheck_spec _ _ _ Ht Hl H1 H2)) by done. rewrite !decide_True by done. eexists. split; [done |]. zcase.
  - apply copy_up; lia.
  - pose proof (copy_down m to from len ltac:(lia) ltac:(lia)) as Hd. unfold for_down in Hd. rewrite Z.sub_0_r in Hd.
    intros a. rewrite <- (Hd a). f_equal. apply for_range_ext. intros k t Hk. do 2 f_equal; lia.
Qed.

Lemma grub_memmove_refused to from len m :
  0 <= to < 2147483648 -> 0 <= len < 2147483648 -> 0 <= mem_lower < 4194304 -> 0 <= mem_upper < 4194304 ->
  ~ mem_ok to len -> grub_memmove mem_lower mem_upper to from len (ERR_NONE, m) = (0, (ERR_WONT_FIT, m)).
Proof.
  intros Ht Hl H1 H2 Hok. unfold grub_memmove. rewrite s32_small by lia.
  by rewrite (proj2 (memcheck_spec _ _ _ Ht Hl H1 H2)).
Qed.
End MemoryProofs.

(** grub_memmove copies for every overlap when the destination is in the lower
    memory above 4K or in the upper memory, and otherwise sets the error,
    copies nothing and returns a null pointer. *)
Theorem grub_memmove_checked mem_lower mem_upper to from len m :
  0 <= to < 2147483648 -> 0 <= len < 2147483648 -> 0 <= mem_lower < 4194304 -> 0 <= mem_upper < 4194304 ->
  (mem_ok mem_lower mem_upper to len ->
     exists m', grub_memmove mem_lower mem_upper to from len (ERR_NONE, m) = (to, (ERR_NONE, m')) /\
                copied m to from len m') /\
  (~ mem_ok mem_lower mem_upper to len ->
     grub_memmove mem_lower mem_upper to from len (ERR_NONE, m) = (0, (ERR_WONT_FIT, m))).
Proof. intros. split; [by apply grub_memmove_copied | by apply grub_memmove_refused]. Qed.

Lemma grub_memmove_checked_witness :
  grub_memmove 640 15360 0xF00 0x2000 4 (ERR_NONE, ∅) = (0, (ERR_WONT_FIT, ∅)) /\
  exists m', grub_memmove 640 15360 0x2002 0x2000 4 (ERR_NONE, st_bytes ∅ 0x2000 [1; 2; 3; 4]) = (0x2002, (ERR_NONE, m')) /\
             copied (st_bytes ∅ 0x2000 [1; 2; 3; 4]) 0x2002 0x2000 4 m'.
Proof.
  split; apply grub_memmove_checked; unfold mem_ok; lia.
Defined.
