(* ===== verification/GrubTerm.v ===== *)
(** * GRUB's terminal output

    The terminal-independent part of
    [src/legacy/SZoS/grub-0.97/stage2/char_io.c]: characters, the pager that
    counts lines and waits for a key, formatted output, and the error messages
    of [common.c].  The terminal is the [term_entry] selected; it answers from
    the calls made to it so far. *)

From S2P Require Import Prelude Machine LibcString GrubString.

(** ** The code *)

Definition err_code (e : grub_error) : Z :=
  match e with
  | ERR_NONE => 0 | ERR_BAD_FILENAME => 1 | ERR_BAD_FILETYPE => 2 | ERR_BAD_GZIP_DATA => 3
  | ERR_BAD_GZIP_HEADER => 4 | ERR_BAD_PART_TABLE => 5 | ERR_BAD_VERSION => 6 | ERR_BELOW_1MB => 7
  | ERR_BOOT_COMMAND => 8 | ERR_BOOT_FAILURE => 9 | ERR_BOOT_FEATURES => 10 | ERR_DEV_FORMAT => 11
  | ERR_DEV_VALUES => 12 | ERR_EXEC_FORMAT => 13 | ERR_FILELENGTH => 14 | ERR_FILE_NOT_FOUND => 15
  | ERR_FSYS_CORRUPT => 16 | ERR_FSYS_MOUNT => 17 | ERR_GEOM => 18 | ERR_NEED_LX_KERNEL => 19
  | ERR_NEED_MB_KERNEL => 20 | ERR_NO_DISK => 21 | ERR_NO_PART => 22 | ERR_NUMBER_PARSING => 23
  | ERR_OUTSIDE_PART => 24 | ERR_READ => 25 | ERR_SYMLINK_LOOP => 26 | ERR_UNRECOGNIZED => 27
  | ERR_WONT_FIT => 28 | ERR_WRITE => 29 | ERR_BAD_ARGUMENT => 30 | ERR_UNALIGNED => 31
  | ERR_PRIVILEGED => 32 | ERR_DEV_NEED_INIT => 33 | ERR_NO_DISK_SPACE => 34 | ERR_NUMBER_OVERFLOW => 35
  end.

(** [err_list] of [common.c]. *)
Definition err_list (e : grub_error) : option (list Z) :=
  match e with
  | ERR_NONE => None
  | ERR_BAD_FILENAME => Some (bytes "Filename must be either an absolute pathname or blocklist")
  | ERR_BAD_FILETYPE => Some (bytes "Bad file or directory type")
  | ERR_BAD_GZIP_DATA => Some (bytes "Bad or corrupt data while decompressing file")
  | ERR_BAD_GZIP_HEADER => Some (bytes "Bad or incompatible header in compressed file")
  | ERR_BAD_PART_TABLE => Some (bytes "Partition table invalid or corrupt")
  | ERR_BAD_VERSION => Some (bytes "Mismatched or corrupt version of stage1/stage2")
  | ERR_BELOW_1MB => Some (bytes "Loading below 1MB is not supported")
  | ERR_BOOT_COMMAND => Some (bytes "Kernel must be loaded before booting")
  | ERR_BOOT_FAILURE => Some (bytes "Unknown boot failure")
  | ERR_BOOT_FEATURES => Some (bytes "Unsupported Multiboot features requested")
  | ERR_DEV_FORMAT => Some (bytes "Unrecognized device string")
  | ERR_DEV_VALUES => Some (bytes "Invalid device requested")
  | ERR_EXEC_FORMAT => Some (bytes "Invalid or unsupported executable format")
  | ERR_FILELENGTH => Some (bytes "Filesystem compatibility error, cannot read whole file")
  | ERR_FILE_NOT_FOUND => Some (bytes "File not found")
  | ERR_FSYS_CORRUPT => Some (bytes "Inconsistent filesystem structure")
  | ERR_FSYS_MOUNT => Some (bytes "Cannot mount selected partition")
  | ERR_GEOM => Some (bytes "Selected cylinder exceeds maximum supported by BIOS")
  | ERR_NEED_LX_KERNEL => Some (bytes "Linux kernel must be loaded before initrd")
  | ERR_NEED_MB_KERNEL => Some (bytes "Multiboot kernel must be loaded before modules")
  | ERR_NO_DISK => Some (bytes "Selected disk does not exist")
  | ERR_NO_PART => Some (bytes "No such partition")
  | ERR_NUMBER_PARSING => Some (bytes "Error while parsing number")
  | ERR_OUTSIDE_PART => Some (bytes "Attempt to access block outside partition")
  | ERR_READ => Some (bytes "Disk read error")
  | ERR_SYMLINK_LOOP => Some (bytes "Too many symbolic links")
  | ERR_UNRECOGNIZED => Some (bytes "Unrecognized command")
  | ERR_WONT_FIT => Some (bytes "Selected item cannot fit into memory")
  | ERR_WRITE => Some (bytes "Disk write error")
  | ERR_BAD_ARGUMENT => Some (bytes "Invalid argument")
  | ERR_UNALIGNED => Some (bytes "File is not sector aligned")
  | ERR_PRIVILEGED => Some (bytes "Must be authenticated")
  | ERR_DEV_NEED_INIT => Some (bytes "Device not initialized yet")
  | ERR_NO_DISK_SPACE => Some (bytes "No spare sectors on the disk")
  | ERR_NUMBER_OVERFLOW => Some (bytes "Overflow while parsing number")
  end.

Inductive color_state := COLOR_STATE_STANDARD | COLOR_STATE_NORMAL | COLOR_STATE_HIGHLIGHT.

(** The calls made to the terminal. *)
Inductive tcall :=
  | TPut (c : Z) | TColorState (s : color_state) | TGotoxy (x y : Z) | TCls | TSetcursor (on : Z).

(** [struct term_entry]: a function that is a null pointer is absent, one that
    answers does so from the history of the calls, newest first. *)
Record term_entry := TermEntry {
  term_flags : Z;
  term_getxy : option (list tcall -> Z);
  term_setcolorstate : bool;
  term_setcursor : option (list tcall -> Z) }.

Definition TERM_NO_ECHO : Z := 1.
Definition TERM_NO_EDIT : Z := 2.
Definition TERM_DUMB : Z := 4.

(** The calls made, the keys that will be pressed, and [count_lines]. *)
Record io := Io { calls : list tcall; keys : list Z; count_lines : Z }.

Definition call (c : tcall) (s : io) : io := Io (c :: calls s) (keys s) (count_lines s).
Definition set_count (n : Z) (s : io) : io := Io (calls s) (keys s) n.
Definition set_keys (k : list Z) (s : io) : io := Io (calls s) k (count_lines s).

Definition ASCII_CHAR (x : Z) : Z := x .& 0xFF.

(** The text [grub_printf] writes; as [grub_sprintf], with [%X] and an unsigned
    [%c]. *)
Fixpoint printf_text (format : list Z) (args : list arg) : option (list Z) :=
  match format with
  | [] => Some []
  | c :: format1 =>
      if negb (c =? 37) then l ← printf_text format1 args; Some (c :: l)
      else match format1 with
           | [] => None
           | d :: format2 =>
               if (d =? 100) || (d =? 120) || (d =? 88) || (d =? 117) then
                 match args with
                 | ArgInt n :: args' => l ← printf_text format2 args'; Some (convert_to_ascii d n ++ l)
                 | _ => None
                 end
               else if d =? 99 then
                 match args with
                 | ArgInt n :: args' => l ← printf_text format2 args'; Some ((n .& 0xff) :: l)
                 | _ => None
                 end
               else if d =? 115 then
                 match args with
                 | ArgStr s :: args' => l ← printf_text format2 args'; Some (s ++ l)
                 | _ => None
                 end
               else printf_text format2 args
           end
  end.

(** [do tmp = ASCII_CHAR (getkey ()); while (tmp != '\n' && tmp != '\r')]; [None]:
    it waits for ever. *)
Fixpoint wait_return (keys : list Z) : option (list Z) :=
  match keys with
  | [] => None
  | k :: keys' => let tmp := ASCII_CHAR k in
                  if (tmp =? 10) || (tmp =? 13) then Some keys' else wait_return keys'
  end.

Section Terminal.
Variables (current_term : term_entry) (max_lines : Z).

(** [getkey]: the next key; [None] waits for ever. *)
Definition getkey (s : io) : option (Z * io) :=
  match keys s with [] => None | k :: keys' => Some (k, set_keys keys' s) end.

(** [if (current_term->setcolorstate)] *)
Definition setcolorstate (c : color_state) (s : io) : io :=
  if term_setcolorstate current_term then call (TColorState c) s else s.

Definition getxy (s : io) : Z := match term_getxy current_term with Some f => f (calls s) | None => 0 end.

Definition hit_return : list Z := 10 :: bytes "[Hit return to continue]".
Definition hit_erase : list Z := 13 :: bytes "                        " ++ [13].

(** [depth] bounds the recursion: a newline calls for a carriage return, and the
    pager prints a message that begins with a newline. *)
Fixpoint putchar_at (depth : nat) (c : Z) (s : io) : option io :=
  match depth with
  | O => None
  | S d =>
      s ← (if c =? 10 then putchar_at d 13 s else Some s);
      if (c =? 9) && bool_decide (is_Some (term_getxy current_term))
      then foldM (putchar_at d) (repeat 32 (Z.to_nat (8 - ((getxy s .>> 8) .& 3)))) s
      else if (c =? 10) && (0 <=? count_lines s)
      then let s := set_count (count_lines s + 1) s in
           if max_lines - 2 <=? count_lines s
           then let s := setcolorstate COLOR_STATE_HIGHLIGHT (set_count (-1) s) in
                s ← foldM (putchar_at d) hit_return s;
                let s := setcolorstate COLOR_STATE_NORMAL s in
                k ← wait_return (keys s);
                s ← foldM (putchar_at d) hit_erase (set_keys k s);
                Some (set_count 0 s)
           else Some (call (TPut c) s)
      else Some (call (TPut c) s)
  end.

Definition grub_putchar (c : Z) (s : io) : option io := putchar_at 3 c s.

Definition grub_putstr (str : list Z) (s : io) : option io := foldM grub_putchar str s.

(** [None]: undefined arguments, or it waits for ever. *)
Definition grub_printf (format : list Z) (args : list arg) (s : io) : option io :=
  text ← printf_text format args; grub_putstr text s.

Definition print_error (errnum : grub_error) (s : io) : option io :=
  match err_list errnum with
  | Some msg => grub_printf (10 :: bytes "Error %u: %s" ++ [10]) [ArgInt (err_code errnum); ArgStr msg] s
  | None => Some s
  end.

Definition gotoxy (x y : Z) (s : io) : io := call (TGotoxy x y) s.

Definition cls (s : io) : option io :=
  if negb (term_flags current_term .& TERM_DUMB =? 0) then grub_putchar 10 s else Some (call TCls s).

Definition setcursor (on : Z) (s : io) : Z * io :=
  match term_setcursor current_term with
  | Some f => (f (calls s), call (TSetcursor on) s)
  | None => (1, s)
  end.

Definition init_page (version_string : list Z) (mem_lower mem_upper : Z) (s : io) : option io :=
  s ← cls s;
  grub_printf (10 :: bytes "    GNU GRUB  version %s  (%dK lower / %dK upper memory)" ++ [10; 10])
    [ArgStr version_string; ArgInt mem_lower; ArgInt mem_upper] s.

(** ** Specifications *)

(** A newline goes to the terminal as carriage return and line feed. *)
Definition crlf (text : list Z) : list Z := flat_map (fun c => if c =? 10 then [13; 10] else [c]) text.

(** The calls that write characters, newest first. *)
Definition put_calls (text : list Z) : list tcall := rev (map TPut text).

(** What the pager shows: the message, and its erasure. *)
Definition prompt_calls : list tcall :=
  put_calls hit_erase
  ++ (if term_setcolorstate current_term then [TColorState COLOR_STATE_NORMAL] else [])
  ++ put_calls (crlf hit_return)
  ++ (if term_setcolorstate current_term then [TColorState COLOR_STATE_HIGHLIGHT] else []).

(** The calls for a text when [n] lines have been written since the last prompt. *)
Fixpoint paged (n : Z) (text : list Z) : list tcall :=
  match text with
  | [] => []
  | c :: text' =>
      if c =? 10
      then if n + 1 <? max_lines - 2 then paged (n + 1) text' ++ [TPut 10; TPut 13]
           else paged 0 text' ++ prompt_calls ++ [TPut 13]
      else paged n text' ++ [TPut c]
  end.

Definition newlines (text : list Z) : Z := Z.of_nat (length (filter (fun c => c = 10) text)).

(** No tab, or a terminal that cannot tell the position of its cursor. *)
Definition no_tabs (text : list Z) : Prop := term_getxy current_term = None \/ 9 ∉ text.

(** ** Proofs *)

Lemma put_calls_app a b : put_calls (a ++ b) = put_calls b ++ put_calls a.
Proof. unfold put_calls. by rewrite map_app, rev_app_distr. Qed.

Lemma no_tabs_cons c text : no_tabs (c :: text) ->
  (c =? 9) && bool_decide (is_Some (term_getxy current_term)) = false /\ no_tabs text.
Proof.
  intros [H | H].
  - rewrite H. rewrite bool_decide_eq_false_2 by (by intros [? ?]). rewrite andb_false_r. split; [done |]. by left.
  - apply not_elem_of_cons in H as [H1 H2]. split; [| by right]. by destruct (Z.eqb_spec c 9); [subst |].
Qed.

(** Without the pager. *)
Lemma putchar_plain d c s : (c =? 9) && bool_decide (is_Some (term_getxy current_term)) = false ->
  count_lines s < 0 -> (2 <= d)%nat ->
  putchar_at d c s = Some (Io (put_calls (crlf [c]) ++ calls s) (keys s) (count_lines s)).
Proof.
  intros Hc Hl Hd. destruct d as [|[|d]]; [lia.. |]. cbn [putchar_at].
  unfold crlf. cbn [flat_map app]. destruct (Z.eqb_spec c 10) as [-> |].
  - cbn. rewrite (proj2 (Z.leb_gt 0 (count_lines s))) by done. done.
  - cbn. rewrite Hc. done.
Qed.

Lemma putstr_plain d text : forall s, no_tabs text -> count_lines s < 0 -> (2 <= d)%nat ->
  foldM (putchar_at d) text s = Some (Io (put_calls (crlf text) ++ calls s) (keys s) (count_lines s)).
Proof.
  induction text as [|c text IH]; intros s Ht Hl Hd; [by destruct s |].
  apply no_tabs_cons in Ht as [Hc Ht]. cbn [foldM]. rewrite putchar_plain by done. cbn [mbind option_bind].
  rewrite IH by done. cbn [calls keys count_lines].
  change (crlf (c :: text)) with ((if c =? 10 then [13; 10] else [c]) ++ crlf text).
  rewrite put_calls_app, <- app_assoc. cbn [crlf flat_map]. by rewrite app_nil_r.
Qed.

(** A character with the pager on: a newline moves the count on, or prompts. *)
Lemma putchar_newline s : 0 <= count_lines s ->
  grub_putchar 10 s
  = if count_lines s + 1 <? max_lines - 2
    then Some (Io ([TPut 10; TPut 13] ++ calls s) (keys s) (count_lines s + 1))
    else k ← wait_return (keys s); Some (Io (prompt_calls ++ TPut 13 :: calls s) k 0).
Proof.
  intros Hn. unfold grub_putchar.
  change (putchar_at 3 10 s) with
    (s0 ← putchar_at 2 13 s;
     if 0 <=? count_lines s0
     then let s := set_count (count_lines s0 + 1) s0 in
           if max_lines - 2 <=? count_lines s
           then let s := setcolorstate COLOR_STATE_HIGHLIGHT (set_count (-1) s) in
                s ← foldM (putchar_at 2) hit_return s;
                let s := setcolorstate COLOR_STATE_NORMAL s in
                k ← wait_return (keys s);
                s ← foldM (putchar_at 2) hit_erase (set_keys k s);
                Some (set_count 0 s)
           else Some (call (TPut 10) s)
     else Some (call (TPut 10) s0)).
  change (putchar_at 2 13 s) with (Some (call (TPut 13) s)). cbn [mbind option_bind].
  cbn [call count_lines calls keys]. rewrite (proj2 (Z.leb_le 0 _)) by done. cbn [set_count count_lines].
  rewrite Z.leb_antisym. destruct (_ <? _); cbn [negb]; [done |].
  assert (no_tabs hit_return /\ no_tabs hit_erase) as [N1 N2]
    by (split; right; apply (bool_decide_unpack _); vm_compute; done).
  unfold setcolorstate, prompt_calls.
  destruct (term_setcolorstate current_term); (rewrite putstr_plain; [| done | done | lia]);
    cbn [mbind option_bind set_count call keys count_lines calls]; (destruct (wait_return (keys s)) as [k|]; [| done]);
    cbn [mbind option_bind]; (rewrite putstr_plain; [| done | done | lia]);
    cbn [mbind option_bind set_count set_keys calls keys]; by rewrite <- ?app_assoc.
Qed.

Lemma putchar_other c s : c <> 10 -> (c =? 9) && bool_decide (is_Some (term_getxy current_term)) = false ->
  grub_putchar c s = Some (call (TPut c) s).
Proof.
  intros Hc Ht. unfold grub_putchar. cbn [putchar_at]. rewrite (proj2 (Z.eqb_neq c 10)) by done.
  cbn [mbind option_bind]. by rewrite Ht.
Qed.

(** The keys the pager waits for. *)
Definition is_return (k : Z) : Prop := ASCII_CHAR k = 10 \/ ASCII_CHAR k = 13.

Lemma newlines_cons c text : newlines (c :: text) = (if c =? 10 then 1 else 0) + newlines text.
Proof. unfold newlines. rewrite filter_cons. case_decide; destruct (Z.eqb_spec c 10); cbn [length]; lia || done. Qed.

Lemma putstr_paged text : forall s ks rest,
  2 < max_lines -> no_tabs text -> 0 <= count_lines s < max_lines - 2 ->
  keys s = ks ++ rest -> Forall is_return ks ->
  Z.of_nat (length ks) = (count_lines s + newlines text) / (max_lines - 2) ->
  grub_putstr text s
  = Some (Io (paged (count_lines s) text ++ calls s) rest ((count_lines s + newlines text) mod (max_lines - 2))).
Proof.
  unfold grub_putstr.
  induction text as [|c text IH]; intros s ks rest Hm Ht Hn Hk Hr Hl; cbn [foldM paged].
  - change (newlines []) with 0 in *. rewrite Z.add_0_r, Z.div_small in Hl by done.
    rewrite Z.add_0_r, Z.mod_small by done. destruct ks; [| done]. cbn in Hk. destruct s. by cbn in *; subst.
  - apply no_tabs_cons in Ht as [Hc Ht]. rewrite newlines_cons in *.
    destruct (Z.eqb_spec c 10) as [-> | Hc10].
    + rewrite putchar_newline by lia. destruct (Z.ltb_spec (count_lines s + 1) (max_lines - 2)); cbn [mbind option_bind].
      * rewrite (IH _ ks rest) by (done || (cbn [count_lines]; lia) || (cbn [count_lines]; rewrite Hl; f_equal; lia)).
        cbn [count_lines calls]. rewrite <- app_assoc. do 2 f_equal. f_equal. lia.
      * assert (count_lines s + (1 + newlines text) = newlines text + 1 * (max_lines - 2)) as E by lia.
        rewrite E, Z.div_add in Hl by lia. rewrite E, Z.mod_add by lia.
        destruct ks as [|k ks]; [cbn in Hl; assert (0 <= newlines text / (max_lines - 2)) by (apply Z.div_pos; unfold newlines; lia); lia |].
        apply Forall_cons_iff in Hr as [Hk1 Hr]. rewrite Hk. cbn [app wait_return].
        assert ((ASCII_CHAR k =? 10) || (ASCII_CHAR k =? 13) = true) as ->
          by (destruct Hk1 as [-> | ->]; done).
        cbn [mbind option_bind].
        rewrite (IH _ ks rest) by (done || (cbn [count_lines]; lia) || (cbn [count_lines length] in *; rewrite ?Z.add_0_l; lia)).
        cbn [count_lines calls]. rewrite Z.add_0_l, <- !app_assoc. done.
    + rewrite putchar_other by done. cbn [mbind option_bind].
      rewrite (IH _ ks rest) by done. cbn [call count_lines calls]. by rewrite <- app_assoc.
Qed.

(** Without enough keys it waits for ever. *)
Lemma putstr_waits text : forall s,
  2 < max_lines -> no_tabs text -> 0 <= count_lines s < max_lines - 2 -> Forall is_return (keys s) ->
  Z.of_nat (length (keys s)) < (count_lines s + newlines text) / (max_lines - 2) ->
  grub_putstr text s = None.
Proof.
  unfold grub_putstr.
  induction text as [|c text IH]; intros s Hm Ht Hn Hr Hl; cbn [foldM].
  - change (newlines []) with 0 in *. rewrite Z.add_0_r, Z.div_small in Hl by done. lia.
  - apply no_tabs_cons in Ht as [Hc Ht]. rewrite newlines_cons in Hl.
    destruct (Z.eqb_spec c 10) as [-> | Hc10].
    + rewrite putchar_newline by lia. destruct (Z.ltb_spec (count_lines s + 1) (max_lines - 2)); cbn [mbind option_bind].
      * apply IH; try done; cbn [count_lines keys]; [lia |]. rewrite <- Z.add_assoc. done.
      * replace (count_lines s + (1 + newlines text)) with (newlines text + 1 * (max_lines - 2)) in Hl by lia.
        rewrite Z.div_add in Hl by lia.
        destruct (keys s) as [|k ks]; [done |]. apply Forall_cons_iff in Hr as [Hk1 Hr]. cbn [wait_return].
        assert ((ASCII_CHAR k =? 10) || (ASCII_CHAR k =? 13) = true) as -> by (destruct Hk1 as [-> | ->]; done).
        cbn [mbind option_bind]. apply IH; try done; cbn [count_lines keys length] in *; [lia |].
        rewrite Z.add_0_l. lia.
    + rewrite putchar_other by done. cbn [mbind option_bind]. by apply IH.
Qed.
End Terminal.

(** C32. With the pager on, text is shown with a prompt after every max_lines
    - 2 lines, each prompt taking one Return, and the count goes on from
    there; with fewer keys than prompts it waits for ever. *)
Theorem grub_putstr_pages term max_lines text s ks rest :
  2 < max_lines -> no_tabs term text -> 0 <= count_lines s < max_lines - 2 ->
  keys s = ks ++ rest -> Forall is_return ks ->
  let lines := count_lines s + newlines text in
  (Z.of_nat (length ks) = lines / (max_lines - 2) ->
     grub_putstr term max_lines text s
     = Some (Io (paged term max_lines (count_lines s) text ++ calls s) rest (lines mod (max_lines - 2)))) /\
  (rest = [] -> Z.of_nat (length ks) < lines / (max_lines - 2) -> grub_putstr term max_lines text s = None).
Proof.
  intros Hm Ht Hn Hk Hr lines. split; [intros; by apply (putstr_paged term max_lines text s ks) |].
  intros -> Hl. rewrite app_nil_r in Hk. apply putstr_waits; by rewrite ?Hk.
Qed.

Lemma grub_putstr_pages_witness :
  let term := TermEntry 0 None false None in
  let s := Io [] [0x1C0D] 0 in
  grub_putstr term 4 [65; 10; 66; 10; 67; 10] s = Some (Io (paged term 4 0 [65; 10; 66; 10; 67; 10] ++ []) [] 1) /\
  grub_putstr term 4 [10; 10; 10; 10] s = None.
Proof.
  intros term s. split.
  - refine (proj1 (grub_putstr_pages term 4 [65; 10; 66; 10; 67; 10] s [0x1C0D] [] _ _ _ _ _) eq_refl);
      [lia | by left | cbn; lia | reflexivity | by repeat constructor; right].
  - refine (proj2 (grub_putstr_pages term 4 [10; 10; 10; 10] s [0x1C0D] [] _ _ _ _ _) eq_refl eq_refl);
      [lia | by left | cbn; lia | reflexivity | by repeat constructor; right].
Defined.
