(* ===== verification/GrubHercules.v ===== *)
(** * GRUB's Hercules console

    [src/legacy/SZoS/grub-0.97/stage2/hercules.c]: a terminal in the text memory
    of a Hercules card, which scrolls with [grub_memmove]. *)

From S2P Require Import Prelude Machine LibcString GrubString GrubTerm.

(** ** The code *)

Definition HERCULES_VIDEO_ADDR : Z := 0xB0000.
Definition HERCULES_WIDTH : Z := 80.
Definition HERCULES_HEIGHT : Z := 25.
Definition HERCULES_INDEX_REG : Z := 0x3b4.
Definition HERCULES_DATA_REG : Z := 0x3b5.
Definition A_NORMAL : Z := 0x7.
Definition A_REVERSE : Z := 0x70.

(** The static variables of the file, [errnum], memory and the ports. *)
Record herc := Herc {
  herc_x : Z; herc_y : Z;
  herc_standard_color : Z; herc_normal_color : Z; herc_highlight_color : Z; herc_current_color : Z;
  herc_color_state : color_state; herc_cursor_state : Z;
  herc_errnum : grub_error; herc_mem : mem; herc_ports : trace }.

(** The initial values. *)
Definition herc_init (m : mem) : herc :=
  Herc 0 0 A_NORMAL A_NORMAL A_REVERSE A_NORMAL COLOR_STATE_STANDARD 1 ERR_NONE m [].

Definition set_xy (x y : Z) (h : herc) : herc :=
  Herc x y (herc_standard_color h) (herc_normal_color h) (herc_highlight_color h) (herc_current_color h)
       (herc_color_state h) (herc_cursor_state h) (herc_errnum h) (herc_mem h) (herc_ports h).
Definition set_mem (e : grub_error) (m : mem) (h : herc) : herc :=
  Herc (herc_x h) (herc_y h) (herc_standard_color h) (herc_normal_color h) (herc_highlight_color h)
       (herc_current_color h) (herc_color_state h) (herc_cursor_state h) e m (herc_ports h).
Definition set_colors (standard normal highlight current : Z) (s : color_state) (h : herc) : herc :=
  Herc (herc_x h) (herc_y h) standard normal highlight current s (herc_cursor_state h) (herc_errnum h)
       (herc_mem h) (herc_ports h).
Definition set_ports (cursor : Z) (p : trace) (h : herc) : herc :=
  Herc (herc_x h) (herc_y h) (herc_standard_color h) (herc_normal_color h) (herc_highlight_color h)
       (herc_current_color h) (herc_color_state h) cursor (herc_errnum h) (herc_mem h) p.

(** A 16-bit and a 32-bit store. *)
Definition st16 (m : mem) (a v : Z) : mem := st (st m a (u8 v)) (a + 1) (u8 (v .>> 8)).
Definition st32 (m : mem) (a v : Z) : mem := st16 (st16 m a v) (a + 2) (v .>> 16).

Definition herc_set_cursor (h : herc) : herc :=
  let offset := u32 (herc_y h * HERCULES_WIDTH + herc_x h) in
  let p := herc_ports h in
  let p := io_out 0x80 0 (io_out HERCULES_INDEX_REG 0x0f p) in
  let p := io_out 0x80 0 (io_out HERCULES_DATA_REG (offset .& 0xFF) p) in
  let p := io_out 0x80 0 (io_out HERCULES_INDEX_REG 0x0e p) in
  let p := io_out 0x80 0 (io_out HERCULES_DATA_REG (offset .>> 8) p) in
  set_ports (herc_cursor_state h) p h.

(** [for (i = from; i < to; i++) video[i] = 0x07200720;] *)
Definition herc_fill (from to : Z) (m : mem) : mem :=
  for_range from to (fun i m => st32 m (HERCULES_VIDEO_ADDR + 4 * i) 0x07200720) m.

Section Console.
Variables (mem_lower mem_upper : Z).

(** The [switch] of [hercules_putchar]. *)
Definition herc_put (c : Z) (h : herc) : herc :=
  if c =? 8 then (if 0 <? herc_x h then set_xy (herc_x h - 1) (herc_y h) h else h)
  else if c =? 10 then set_xy (herc_x h) (herc_y h + 1) h
  else if c =? 13 then set_xy 0 (herc_y h) h
  else if c =? 7 then h
  else
    let h := set_mem (herc_errnum h)
               (st16 (herc_mem h) (HERCULES_VIDEO_ADDR + 2 * (herc_y h * HERCULES_WIDTH + herc_x h))
                     (u16 ((herc_current_color h .<< 8) .| c))) h in
    let h := set_xy (herc_x h + 1) (herc_y h) h in
    if HERCULES_WIDTH <=? herc_x h then set_xy 0 (herc_y h + 1) h else h.

Definition herc_scroll (h : herc) : herc :=
  let h := set_xy (herc_x h) (HERCULES_HEIGHT - 1) h in
  let '(_, (e, m)) := grub_memmove mem_lower mem_upper HERCULES_VIDEO_ADDR
                        (HERCULES_VIDEO_ADDR + HERCULES_WIDTH * 2)
                        (HERCULES_WIDTH * (HERCULES_HEIGHT - 1) * 2) (herc_errnum h, herc_mem h) in
  set_mem e (herc_fill (Z.quot (HERCULES_WIDTH * (HERCULES_HEIGHT - 1)) 2)
                       (Z.quot (HERCULES_WIDTH * HERCULES_HEIGHT) 2) m) h.

Definition hercules_putchar (c : Z) (h : herc) : herc :=
  let h := herc_put c h in
  if HERCULES_HEIGHT <=? herc_y h then herc_scroll h else h.
End Console.

Definition hercules_cls (h : herc) : herc :=
  let h := set_mem (herc_errnum h) (herc_fill 0 (Z.quot (HERCULES_WIDTH * HERCULES_HEIGHT) 2) (herc_mem h)) h in
  herc_set_cursor (set_xy 0 0 h).

Definition hercules_getxy (h : herc) : Z := (herc_x h .<< 8) .| herc_y h.

Definition hercules_gotoxy (x y : Z) (h : herc) : herc := herc_set_cursor (set_xy x y h).

Definition hercules_setcolorstate (state : color_state) (h : herc) : herc :=
  let current := match state with
                 | COLOR_STATE_STANDARD => herc_standard_color h
                 | COLOR_STATE_NORMAL => herc_normal_color h
                 | COLOR_STATE_HIGHLIGHT => herc_highlight_color h
                 end in
  set_colors (herc_standard_color h) (herc_normal_color h) (herc_highlight_color h) current state h.

Definition hercules_setcolor (normal_color highlight_color : Z) (h : herc) : herc :=
  let h := set_colors (herc_standard_color h) normal_color highlight_color (herc_current_color h)
                      (herc_color_state h) h in
  hercules_setcolorstate (herc_color_state h) h.

Definition hercules_setcursor (on : Z) (h : herc) : Z * herc :=
  let old_state := herc_cursor_state h in
  let p := io_out 0x80 0 (io_out HERCULES_INDEX_REG 0x0a (herc_ports h)) in
  let p := io_out 0x80 0 (io_out HERCULES_DATA_REG (if negb (on =? 0) then 0 else 1 .<< 5) p) in
  (old_state, set_ports on p h).

(** ** Specifications *)

(** Cell [i] of the screen, in reading order: colour and character. *)
Definition herc_cell (m : mem) (i : Z) : Z :=
  ld m (HERCULES_VIDEO_ADDR + 2 * i) + 256 * ld m (HERCULES_VIDEO_ADDR + 2 * i + 1).

Definition herc_wf (h : herc) : Prop := 0 <= herc_x h < 80 /\ 0 <= herc_y h < 25 /\ 0 <= herc_current_color h < 256.

(** The position after a character, the row before any scroll, and the cells. *)
Definition herc_next (c x y : Z) : Z * Z :=
  if c =? 8 then (Z.max 0 (x - 1), y) else if c =? 10 then (x, y + 1) else if c =? 13 then (0, y)
  else if c =? 7 then (x, y) else if x =? 79 then (0, y + 1) else (x + 1, y).
Definition herc_glyph (c : Z) : bool := negb ((c =? 8) || (c =? 10) || (c =? 13) || (c =? 7)).
Definition herc_written (c : Z) (h : herc) (i : Z) : Z :=
  if herc_glyph c && (i =? herc_y h * 80 + herc_x h) then c + 256 * herc_current_color h else herc_cell (herc_mem h) i.

(** What the screen shows after the rows have moved up, and when they have not
    although the last one was blanked. *)
Definition herc_moved_up (cell : Z -> Z) (i : Z) : Z := if i <? 1920 then cell (i + 80) else 0x0720.
Definition herc_last_blank (cell : Z -> Z) (i : Z) : Z := if i <? 1920 then cell i else 0x0720.

Definition in_screen (a : Z) : Prop := HERCULES_VIDEO_ADDR <= a < HERCULES_VIDEO_ADDR + 4000.

(** The screen shows [cell], and the memory outside it is as before. *)
Definition herc_shows (m0 m : mem) (cell : Z -> Z) : Prop :=
  (forall i, 0 <= i < 2000 -> herc_cell m i = cell i) /\ (forall a, ~ in_screen a -> ld m a = ld m0 a).

(** ** Proofs *)

Lemma herc_cell_st16 m j v i : 0 <= v < 65536 ->
  herc_cell (st16 m (HERCULES_VIDEO_ADDR + 2 * j) v) i = if i =? j then v else herc_cell m i.
Proof.
  intros Hv. unfold herc_cell, st16. rewrite !ld_st. zcase.
  - subst. rewrite decide_False by lia. rewrite !decide_True by done. rewrite shiftr_div by lia.
    change (2 ^ 8) with 256. cint_lia.
  - rewrite !decide_False by lia. done.
Qed.

Lemma ld_st16_out m a v b : b <> a -> b <> a + 1 -> ld (st16 m a v) b = ld m b.
Proof. intros. unfold st16. by rewrite !ld_st_ne. Qed.

Definition filled_cells (from to : Z) (m m' : mem) : Prop :=
  (forall i, herc_cell m' i = if (2 * from <=? i) && (i <? 2 * to) then 0x0720 else herc_cell m i) /\
  (forall a, ~ (HERCULES_VIDEO_ADDR + 4 * from <= a < HERCULES_VIDEO_ADDR + 4 * to) -> ld m' a = ld m a).

Lemma herc_fill_spec from to m : from <= to -> filled_cells from to m (herc_fill from to m).
Proof.
  intros Hle. unfold herc_fill. apply (for_range_inv (fun n m' => filled_cells from n m m')); [done | |].
  - split; [| done]. intros i. destruct (Z.leb_spec (2 * from) i), (Z.ltb_spec i (2 * from)); cbn; try done; lia.
  - intros j t Hj [IH1 IH2]. unfold st32. split.
    + intros i. replace (HERCULES_VIDEO_ADDR + 4 * j) with (HERCULES_VIDEO_ADDR + 2 * (2 * j)) by lia.
      replace (HERCULES_VIDEO_ADDR + 2 * (2 * j) + 2) with (HERCULES_VIDEO_ADDR + 2 * (2 * j + 1)) by lia.
      change (0x07200720 .>> 16) with 0x0720. rewrite herc_cell_st16 by lia.
      destruct (Z.eqb_spec i (2 * j + 1)).
      * rewrite (proj2 (Z.leb_le _ _)), (proj2 (Z.ltb_lt _ _)) by lia. done.
      * unfold st16 at 1. change (u8 (0x07200720 .>> 8)) with (u8 (0x0720 .>> 8)).
        change (u8 0x07200720) with (u8 0x0720).
        fold (st16 t (HERCULES_VIDEO_ADDR + 2 * (2 * j)) 0x0720). rewrite herc_cell_st16 by lia.
        rewrite IH1. destruct (Z.eqb_spec i (2 * j)), (Z.leb_spec (2 * from) i), (Z.ltb_spec i (2 * (j + 1))),
          (Z.ltb_spec i (2 * j)); cbn; try done; lia.
    + intros a Ha. rewrite !ld_st16_out by lia. apply IH2. lia.
Qed.

Lemma color_char_word color c : 0 <= color < 256 -> 0 <= c < 256 ->
  u16 ((color .<< 8) .| c) = c + 256 * color.
Proof.
  intros H1 H2. rewrite Z.lor_comm, lor_shiftl_add by (change (2 ^ 8) with 256; lia).
  change (2 ^ 8) with 256. rewrite u16_small; lia.
Qed.

(** The character itself. *)
Lemma herc_put_spec c h : herc_wf h -> 0 <= c < 256 ->
  let h' := herc_put c h in
  (herc_x h', herc_y h') = herc_next c (herc_x h) (herc_y h) /\
  herc_errnum h' = herc_errnum h /\ herc_current_color h' = herc_current_color h /\
  herc_shows (herc_mem h) (herc_mem h') (herc_written c h).
Proof.
  intros (Hx & Hy & Hc) Hch. unfold herc_put, herc_next, herc_written, herc_glyph, herc_shows.
  destruct (Z.eqb_spec c 8); [| destruct (Z.eqb_spec c 10); [| destruct (Z.eqb_spec c 13);
    [| destruct (Z.eqb_spec c 7)]]]; cbn [orb negb andb].
  - zcase; cbn; split_and!; try done; f_equal; lia.
  - done.
  - done.
  - done.
  - unfold HERCULES_WIDTH. cbn [set_xy set_mem herc_x herc_y herc_mem herc_errnum herc_current_color].
    assert (forall m, m = st16 (herc_mem h) (HERCULES_VIDEO_ADDR + 2 * (herc_y h * 80 + herc_x h))
                               (u16 ((herc_current_color h .<< 8) .| c)) ->
      (forall i, 0 <= i < 2000 -> herc_cell m i = if i =? herc_y h * 80 + herc_x h
                                then c + 256 * herc_current_color h else herc_cell (herc_mem h) i) /\
      (forall a, ~ in_screen a -> ld m a = ld (herc_mem h) a)) as Hm.
    { intros m ->. rewrite color_char_word by lia. split.
      - intros i Hi. by rewrite herc_cell_st16 by lia.
      - intros a Ha. unfold in_screen in Ha. rewrite ld_st16_out; [done | lia | lia]. }
    destruct (Z.leb_spec 80 (herc_x h + 1)), (Z.eqb_spec (herc_x h) 79); try lia; cbn; split_and!; try done;
      by apply Hm.
Qed.

(** The video memory moved up by one row. *)
Lemma copied_cells m m' : copied m HERCULES_VIDEO_ADDR (HERCULES_VIDEO_ADDR + 160) 3840 m' ->
  (forall i, 0 <= i < 1920 -> herc_cell m' i = herc_cell m (i + 80)) /\
  (forall a, ~ in_screen a -> ld m' a = ld m a).
Proof.
  intros Hc. unfold copied in Hc. split.
  - intros i Hi. unfold herc_cell. rewrite !Hc, !decide_True by lia. f_equal; [| f_equal]; f_equal; lia.
  - intros a Ha. unfold in_screen in Ha. rewrite Hc, decide_False by lia. done.
Qed.

Section Scrolling.
Variables (mem_lower mem_upper : Z).
Hypothesis (mem_lower_range : 0 <= mem_lower < 4194304) (mem_upper_range : 0 <= mem_upper < 4194304).

Lemma herc_scroll_spec h : herc_errnum h = ERR_NONE ->
  let h' := herc_scroll mem_lower mem_upper h in
  herc_x h' = herc_x h /\ herc_y h' = 24 /\ herc_current_color h' = herc_current_color h /\
  if decide (HERCULES_VIDEO_ADDR + 3840 <= mem_lower * 1024)
  then herc_errnum h' = ERR_NONE /\ herc_shows (herc_mem h) (herc_mem h') (herc_moved_up (herc_cell (herc_mem h)))
  else herc_errnum h' = ERR_WONT_FIT /\ herc_shows (herc_mem h) (herc_mem h') (herc_last_blank (herc_cell (herc_mem h))).
Proof.
  intros He. unfold herc_scroll. cbn [set_xy herc_errnum herc_mem]. rewrite He.
  change (Z.quot (HERCULES_WIDTH * (HERCULES_HEIGHT - 1)) 2) with 960.
  change (Z.quot (HERCULES_WIDTH * HERCULES_HEIGHT) 2) with 1000.
  change (HERCULES_WIDTH * (HERCULES_HEIGHT - 1) * 2) with 3840. change (HERCULES_WIDTH * 2) with 160.
  unfold herc_shows, herc_moved_up, herc_last_blank. case_decide as Hfit.
  - destruct (grub_memmove_copied mem_lower mem_upper HERCULES_VIDEO_ADDR (HERCULES_VIDEO_ADDR + 160) 3840 (herc_mem h))
      as (m' & -> & Hc); [unfold HERCULES_VIDEO_ADDR; lia | lia | done | done | unfold mem_ok, HERCULES_VIDEO_ADDR in *; lia |].
    destruct (copied_cells _ _ Hc) as [C1 C2]. cbn [set_mem set_xy herc_x herc_y herc_current_color herc_errnum herc_mem].
    destruct (herc_fill_spec 960 1000 m' ltac:(lia)) as [F1 F2]. split_and!; try done.
    + intros i Hi. rewrite F1. destruct (Z.ltb_spec i 1920).
      * rewrite (proj2 (Z.leb_gt (2 * 960) i)) by lia. cbn. apply C1. lia.
      * by rewrite (proj2 (Z.leb_le (2 * 960) i)), (proj2 (Z.ltb_lt i (2 * 1000))) by lia.
    + intros a Ha. rewrite F2; [by apply C2 | unfold in_screen in Ha; lia].
  - rewrite grub_memmove_refused; [| unfold HERCULES_VIDEO_ADDR; lia | lia | done | done |
      unfold mem_ok, HERCULES_VIDEO_ADDR in *; lia].
    cbn [set_mem set_xy herc_x herc_y herc_current_color herc_errnum herc_mem].
    destruct (herc_fill_spec 960 1000 (herc_mem h) ltac:(lia)) as [F1 F2]. split_and!; try done.
    + intros i Hi. rewrite F1. destruct (Z.ltb_spec i 1920).
      * by rewrite (proj2 (Z.leb_gt (2 * 960) i)) by lia.
      * by rewrite (proj2 (Z.leb_le (2 * 960) i)), (proj2 (Z.ltb_lt i (2 * 1000))) by lia.
    + intros a Ha. apply F2. unfold in_screen in Ha. lia.
Qed.

Lemma putchar_shows c h : herc_wf h -> 0 <= c < 256 -> herc_errnum h = ERR_NONE ->
  let h' := hercules_putchar mem_lower mem_upper c h in
  let '(x, y) := herc_next c (herc_x h) (herc_y h) in
  herc_wf h' /\
  if decide (y < 25)
  then herc_x h' = x /\ herc_y h' = y /\ herc_errnum h' = ERR_NONE /\
       herc_shows (herc_mem h) (herc_mem h') (herc_written c h)
  else herc_x h' = x /\ herc_y h' = 24 /\
       if decide (HERCULES_VIDEO_ADDR + 3840 <= mem_lower * 1024)
       then herc_errnum h' = ERR_NONE /\
            herc_shows (herc_mem h) (herc_mem h') (herc_moved_up (herc_written c h))
       else herc_errnum h' = ERR_WONT_FIT /\
            herc_shows (herc_mem h) (herc_mem h') (herc_last_blank (herc_written c h)).
Proof.
  intros Hwf Hc He h'. destruct (herc_next c (herc_x h) (herc_y h)) as [x y] eqn:En.
  destruct (herc_put_spec c h Hwf Hc) as (Hp & He' & Hcol & Hs & Ho). rewrite En in Hp.
  injection Hp as Hpx Hpy. unfold h', hercules_putchar. fold (herc_put c h). rewrite Hpy.
  assert (0 <= x < 80 /\ 0 <= y <= 25) as [Hxr Hyr].
  { destruct Hwf as (Hx & Hy & _). unfold herc_next in En. repeat case_match; simplify_eq; lia. }
  destruct Hwf as (_ & _ & Hcr). unfold HERCULES_HEIGHT. destruct (Z.leb_spec 25 y).
  - rewrite decide_False by lia. destruct (herc_scroll_spec (herc_put c h)) as (X & Y & C & S); [congruence |].
    rewrite X, Y. split; [unfold herc_wf; rewrite X, Y, C, Hpx, Hcol; lia |]. do 2 (split; [done |]).
    unfold herc_shows in *. case_decide; destruct S as (S1 & S2 & S3); split_and!; try done;
      try (intros a Ha; by rewrite S3 by done; apply Ho).
    + intros i Hi. rewrite S2 by done. unfold herc_moved_up. zcase; [apply Hs; lia | done].
    + intros i Hi. rewrite S2 by done. unfold herc_last_blank. zcase; [apply Hs; lia | done].
  - rewrite decide_True by lia. unfold herc_wf. rewrite Hpx, Hpy, Hcol, He', He.
    unfold herc_shows. split_and!; done || lia.
Qed.
End Scrolling.

(** C33. A character changes only its cell and moves the cursor inside the
    screen; past the last row the screen moves up only if the reported lower
    memory reaches beyond the card, otherwise the last row is blanked, nothing
    moves and the error is set. *)
Theorem hercules_putchar_shows mem_lower mem_upper c h :
  0 <= mem_lower < 4194304 -> 0 <= mem_upper < 4194304 ->
  herc_wf h -> 0 <= c < 256 -> herc_errnum h = ERR_NONE ->
  let h' := hercules_putchar mem_lower mem_upper c h in
  let '(x, y) := herc_next c (herc_x h) (herc_y h) in
  herc_wf h' /\
  if decide (y < 25)
  then herc_x h' = x /\ herc_y h' = y /\ herc_errnum h' = ERR_NONE /\
       herc_shows (herc_mem h) (herc_mem h') (herc_written c h)
  else herc_x h' = x /\ herc_y h' = 24 /\
       if decide (HERCULES_VIDEO_ADDR + 3840 <= mem_lower * 1024)
       then herc_errnum h' = ERR_NONE /\
            herc_shows (herc_mem h) (herc_mem h') (herc_moved_up (herc_written c h))
       else herc_errnum h' = ERR_WONT_FIT /\
            herc_shows (herc_mem h) (herc_mem h') (herc_last_blank (herc_written c h)).
Proof. intros. by apply putchar_shows. Qed.

(** With the 640 kilobytes of lower memory of a PC, the last row is blanked,
    nothing scrolls, and the error is set. *)
Lemma hercules_putchar_shows_witness :
  let h := herc_init ∅ in
  let h24 := set_xy 79 24 h in
  herc_errnum (hercules_putchar 640 15360 65 h24) = ERR_WONT_FIT /\
  herc_shows ∅ (herc_mem (hercules_putchar 640 15360 65 h24)) (herc_last_blank (herc_written 65 h24)).
Proof.
  intros h h24.
  assert (0 <= 640 < 4194304 /\ 0 <= 15360 < 4194304 /\ herc_wf h24 /\ 0 <= 65 < 256) as (H1 & H2 & H3 & H4)
    by (unfold herc_wf, h24, h, herc_init, A_NORMAL; cbn; lia).
  destruct (hercules_putchar_shows 640 15360 65 h24 H1 H2 H3 H4 eq_refl) as (_ & _ & _ & W).
  exact W.
Defined.

Lemma writes_out p q v tr : writes_to p (Out q v :: tr) = writes_to p tr ++ (if decide (q = p) then [v] else []).
Proof. unfold writes_to. cbn. destruct (decide (q = p)); cbn; [done | by rewrite app_nil_r]. Qed.

(** [hercules_cls] blanks the 2000 cells, homes the cursor, tells the card so,
    and touches nothing else. *)
Theorem hercules_cls_clears h :
  let h' := hercules_cls h in
  herc_x h' = 0 /\ herc_y h' = 0 /\ herc_shows (herc_mem h) (herc_mem h') (fun _ => 0x0720) /\
  writes_to HERCULES_INDEX_REG (herc_ports h') = writes_to HERCULES_INDEX_REG (herc_ports h) ++ [0x0f; 0x0e] /\
  writes_to HERCULES_DATA_REG (herc_ports h') = writes_to HERCULES_DATA_REG (herc_ports h) ++ [0; 0].
Proof.
  destruct (herc_fill_spec 0 1000 (herc_mem h) ltac:(lia)) as [F1 F2].
  split; [done |]. split; [done |]. split.
  - unfold hercules_cls, herc_set_cursor. cbn [set_xy set_mem set_ports herc_mem].
    change (Z.quot (HERCULES_WIDTH * HERCULES_HEIGHT) 2) with 1000. split.
    + intros i Hi. rewrite F1. by rewrite (proj2 (Z.leb_le (2 * 0) i)), (proj2 (Z.ltb_lt i (2 * 1000))) by lia.
    + intros a Ha. apply F2. unfold in_screen in Ha. lia.
  - unfold hercules_cls, herc_set_cursor, io_out. cbn [set_xy set_mem set_ports herc_ports herc_x herc_y].
    rewrite !writes_out. cbn. by rewrite !app_nil_r, <- !app_assoc.
Qed.

(** [hercules_getxy] packs the position that [hercules_gotoxy] set. *)
Theorem hercules_cursor_roundtrip x y h : 0 <= x -> 0 <= y < 256 ->
  hercules_getxy (hercules_gotoxy x y h) .>> 8 = x /\ hercules_getxy (hercules_gotoxy x y h) .& 0xFF = y.
Proof.
  intros Hx Hy. unfold hercules_getxy, hercules_gotoxy, herc_set_cursor. cbn.
  rewrite Z.lor_comm, lor_shiftl_add by (change (2 ^ 8) with 256; lia). change (2 ^ 8) with 256.
  split; [rewrite shiftr_div by lia; change (2 ^ 8) with 256; dlia |]. rewrite land_255. cint_lia.
Qed.

Lemma hercules_cursor_roundtrip_witness :
  hercules_getxy (hercules_gotoxy 79 24 (herc_init ∅)) .>> 8 = 79.
Proof. apply (hercules_cursor_roundtrip 79 24 (herc_init ∅)); lia. Defined.
