(* ===== verification/Tparm.v ===== *)
(** * GRUB's parameterized terminal strings

    [src/legacy/SZoS/grub-0.97/stage2/tparm.c]: the stack machine that expands
    the capabilities of a terminal.  Strings are lists of characters; the output
    buffer is the list of what was written to its 256 bytes.  [None] stands for
    behaviour that C leaves undefined: a missing argument, one of the wrong type,
    the division of the smallest integer by -1, a string that ends inside a
    character constant, and a byte stored behind the output buffer, which the
    code does not prevent. *)

From S2P Require Import Prelude Machine LibcString GrubString.

(** ** The code *)

Definition STACKSIZE : nat := 20.
Definition MAX_FORMAT_LEN : nat := 256.
Definition OUT_SIZE : nat := 256.

(** [stack_frame]: an [unsigned int] or a string. *)
Inductive stack_frame := Num (n : Z) | Str (s : list Z).

(** The static variables, the parameters, and the stack with its top first. *)
Record tparm_state := Tparm {
  stack : list stack_frame;
  out_buff : list Z;
  param : list arg;
  dynamic_var : list Z;
  static_vars : list Z }.

Definition with_stack (k : list stack_frame) (t : tparm_state) : tparm_state :=
  Tparm k (out_buff t) (param t) (dynamic_var t) (static_vars t).
Definition write_out (l : list Z) (t : tparm_state) : tparm_state :=
  Tparm (stack t) (out_buff t ++ l) (param t) (dynamic_var t) (static_vars t).
Definition with_param (p : list arg) (t : tparm_state) : tparm_state :=
  Tparm (stack t) (out_buff t) p (dynamic_var t) (static_vars t).
Definition with_vars (d s : list Z) (t : tparm_state) : tparm_state :=
  Tparm (stack t) (out_buff t) (param t) d s.

(** What [grub_sprintf] stores counts up to its first NUL. *)
Fixpoint until_nul (l : list Z) : list Z :=
  match l with [] => [] | c :: l' => if c =? 0 then [] else c :: until_nul l' end.

(** Storing [n] bytes from [out_buff + out_used] on; [get_space] does nothing. *)
Definition room (n : nat) (t : tparm_state) : option unit :=
  if (length (out_buff t) + n <=? OUT_SIZE)%nat then Some () else None.

Definition save_text (fmt s : list Z) (t : tparm_state) : option tparm_state :=
  l ← grub_sprintf fmt [ArgStr s]; _ ← room (S (length l)) t; Some (write_out (until_nul l) t).

Definition save_number (fmt : list Z) (number : Z) (t : tparm_state) : option tparm_state :=
  l ← grub_sprintf fmt [ArgInt (u32 number)]; _ ← room (S (length l)) t; Some (write_out (until_nul l) t).

Definition save_char (c : Z) (t : tparm_state) : option tparm_state :=
  _ ← room 1 t; Some (write_out [if c =? 0 then s8 0x80 else c] t).

Definition push (f : stack_frame) (t : tparm_state) : tparm_state :=
  if (length (stack t) <? STACKSIZE)%nat then with_stack (f :: stack t) t else t.

Definition npush (x : Z) (t : tparm_state) : tparm_state := push (Num (u32 x)) t.

Definition npop (t : tparm_state) : Z * tparm_state :=
  match stack t with
  | [] => (0, t)
  | f :: k => (match f with Num n => s32 n | Str _ => 0 end, with_stack k t)
  end.

Definition spush (x : list Z) (t : tparm_state) : tparm_state := push (Str x) t.

Definition spop (t : tparm_state) : list Z * tparm_state :=
  match stack t with
  | [] => ([], t)
  | f :: k => (match f with Num _ => [] | Str s => s end, with_stack k t)
  end.

Definition isdigit (c : Z) : bool := (48 <=? c) && (c <=? 57).
Definition isUPPER (c : Z) : bool := (65 <=? c) && (c <=? 90).
Definition isLOWER (c : Z) : bool := (97 <=? c) && (c <=? 122).

(** The loop of [parse_format]: the format, whether it is in error, the width or
    precision, and the string at the conversion. *)
Fixpoint parse_format_loop (s format : list Z) (allowminus dot err : bool) (prec value : Z)
  : list Z * bool * Z * list Z :=
  let finish format s := (format, err, Z.max prec value, s) in
  match s with
  | [] => finish format []
  | c :: s' =>
      if (c =? 99) || (c =? 100) || (c =? 111) || (c =? 120) || (c =? 88) || (c =? 115)
      then finish (format ++ [c]) s
      else if c =? 46
      then if dot then parse_format_loop s' (format ++ [c]) allowminus dot true prec 0
           else parse_format_loop s' (format ++ [c]) allowminus true err value 0
      else if (c =? 35) || (c =? 32) then parse_format_loop s' (format ++ [c]) allowminus dot err prec value
      else if c =? 58 then parse_format_loop s' format true dot err prec value
      else if c =? 45
      then if allowminus then parse_format_loop s' (format ++ [c]) allowminus dot err prec value
           else finish format s
      else if isdigit c
      then let value := value * 10 + (c - 48) in
           parse_format_loop s' (format ++ [c]) allowminus dot (err || (10000 <? value)) prec value
      else finish format s
  end.

(** The format, the string at the conversion, and [*len]. *)
Definition parse_format (s : list Z) : list Z * list Z * Z :=
  let '(format, err, len, s) := parse_format_loop s [37] false false false 0 0 in
  if err then (37 :: take 1 s, s, 0) else (format, s, len).

(** *** The analysis of the string *)

Record analysis := Analysis { number : Z; lastpop : Z; popcount : Z; p_is_s : list bool }.

Definition is_conversion (c : Z) : bool := (c =? 100) || (c =? 111) || (c =? 120) || (c =? 88) || (c =? 99).
Definition is_operator (c : Z) : bool :=
  bool_decide (c ∈ [43; 45; 42; 47; 109; 65; 79; 38; 124; 94; 61; 60; 62; 33; 126]).

Fixpoint skip_digits (s : list Z) : list Z :=
  match s with
  | c :: s' => if isdigit c then skip_digits s' else s
  | [] => []
  end.

(** The [switch] on the conversion at [cp]: the analysis and the new [cp]. *)
Definition analyse_conversion (cp : list Z) (a : analysis) : analysis * list Z :=
  let c := ch cp in
  if is_conversion c then (Analysis (number a + 1) (-1) (popcount a) (p_is_s a), cp)
  else if (c =? 108) || (c =? 115)
  then (Analysis (number a + 1) (lastpop a) (popcount a)
          (if 0 <? lastpop a then <[Z.to_nat (lastpop a - 1) := true]> (p_is_s a) else p_is_s a), cp)
  else if c =? 112
  then let cp := tail cp in
       let i := ch cp - 48 in
       if (0 <=? i) && (i <=? 9) then (Analysis (number a) i (Z.max i (popcount a)) (p_is_s a), cp) else (a, cp)
  else if (c =? 80) || (c =? 103) then (a, tail cp)
  else if c =? 39 then (Analysis (number a) (-1) (popcount a) (p_is_s a), tail (tail cp))
  else if c =? 123 then (a, skip_digits (tail cp))
  else if is_operator c then (Analysis (number a + 2) (-1) (popcount a) (p_is_s a), cp)
  else if c =? 105 then (Analysis (number a) (-1) (Z.max 2 (popcount a)) (p_is_s a), cp)
  else (a, cp).

Fixpoint analyse (fuel : nat) (cp : list Z) (a : analysis) : analysis :=
  match fuel, cp with
  | S f, c :: cp' =>
      if c =? 37
      then let '(_, cp, _) := parse_format cp' in
           let '(a, cp) := analyse_conversion cp a in analyse f (tail cp) a
      else analyse f cp' a
  | _, _ => a
  end.

(** Loading the parameters: strings where [p_is_s] says so. *)
Fixpoint load_params (n : nat) (is_s : list bool) (args : list arg) : option (list arg) :=
  match n with
  | O => Some []
  | S n' =>
      match is_s, args with
      | true :: is_s', ArgStr s :: args' => l ← load_params n' is_s' args'; Some (ArgStr s :: l)
      | false :: is_s', ArgInt x :: args' => l ← load_params n' is_s' args'; Some (ArgInt x :: l)
      | _, _ => None
      end
  end.

(** [for (i = number - 1; i >= 0; i--) npush (param[i]);] *)
Definition push_params (t : tparm_state) (n : nat) : option tparm_state :=
  foldM (fun i t => match param t !! i with Some (ArgInt x) => Some (npush x t) | _ => None end) (rev (seq 0 n)) t.

(** *** The expansion *)

(** [while ( *string && *string != '>')] and the step over it. *)
Fixpoint skip_delay (s : list Z) : list Z :=
  match s with
  | [] => []
  | c :: s' => if c =? 62 then s' else skip_delay s'
  end.

(** The scan for [%e] (when [else_too]) or [%;] at level zero; it stops at that
    character or at the end. *)
Fixpoint scan_to (else_too : bool) (level : nat) (s : list Z) : list Z :=
  match s with
  | [] => []
  | c :: s1 =>
      if c =? 37
      then match s1 with
           | [] => []
           | d :: s2 =>
               if d =? 63 then scan_to else_too (S level) s2
               else if d =? 59 then match level with O => s1 | S l => scan_to else_too l s2 end
               else if (d =? 101) && else_too && (level =? 0)%nat then s1
               else scan_to else_too level s2
           end
      else scan_to else_too level s1
  end.

(** [while ( *string >= '0' && *string <= '9')]: the number and the rest. *)
Fixpoint parse_number_at (number : Z) (s : list Z) : Z * list Z :=
  match s with
  | c :: s' => if isdigit c then parse_number_at (s32 (number * 10 + (c - 48))) s' else (number, s)
  | [] => (number, [])
  end.

(** The binary operators: [y] is popped first.  [None] for another character, the
    inner [None] for a division that traps. *)
Definition binary_op (c : Z) : option (Z -> Z -> option Z) :=
  let b2z (b : bool) := if b then 1 else 0 in
  if c =? 43 then Some (fun x y => Some (x + y))
  else if c =? 45 then Some (fun x y => Some (x - y))
  else if c =? 42 then Some (fun x y => Some (x * y))
  else if c =? 47 then Some (fun x y => if y =? 0 then Some 0
                                        else if (x =? -2147483648) && (y =? -1) then None else Some (Z.quot x y))
  else if c =? 109 then Some (fun x y => if y =? 0 then Some 0
                                         else if (x =? -2147483648) && (y =? -1) then None else Some (Z.rem x y))
  else if c =? 38 then Some (fun x y => Some (x .& y))
  else if c =? 124 then Some (fun x y => Some (x .| y))
  else if c =? 94 then Some (fun x y => Some (x .^ y))
  else if c =? 61 then Some (fun x y => Some (b2z (x =? y)))
  else if c =? 60 then Some (fun x y => Some (b2z (x <? y)))
  else if c =? 62 then Some (fun x y => Some (b2z (y <? x)))
  else None.

(** [npush (npop () && npop ())] and [||]: the second operand is popped only when
    the first does not decide. *)
Definition logical_op (c : Z) (t : tparm_state) : tparm_state :=
  let '(y, t) := npop t in
  if Bool.eqb (c =? 65) (y =? 0) then npush (if c =? 65 then 0 else 1) t
  else let '(x, t) := npop t in npush (if x =? 0 then 0 else 1) t.

(** [if (p_is_s[i] == 0) param[i]++;] *)
Definition increment (i : nat) (t : tparm_state) : option tparm_state :=
  match param t !! i with
  | Some (ArgInt x) => Some (with_param (<[i := ArgInt (s32 (x + 1))]> (param t)) t)
  | Some (ArgStr _) => Some t
  | None => None
  end.

(** [%P] and [%g] on the variable named [c]. *)
Definition set_var (c : Z) (t : tparm_state) : tparm_state :=
  if isUPPER c then let '(x, t) := npop t in with_vars (dynamic_var t) (<[Z.to_nat (c - 65) := x]> (static_vars t)) t
  else if isLOWER c then let '(x, t) := npop t in with_vars (<[Z.to_nat (c - 97) := x]> (dynamic_var t)) (static_vars t) t
  else t.

Definition get_var (c : Z) (t : tparm_state) : tparm_state :=
  if isUPPER c then npush (nth (Z.to_nat (c - 65)) (static_vars t) 0) t
  else if isLOWER c then npush (nth (Z.to_nat (c - 97)) (dynamic_var t) 0) t
  else t.

(** [%p]: push a parameter. *)
Definition push_param (c : Z) (t : tparm_state) : option tparm_state :=
  let i := c - 49 in
  if (0 <=? i) && (i <? 9)
  then match param t !! Z.to_nat i with
       | Some (ArgInt x) => Some (npush x t)
       | Some (ArgStr s) => Some (spush s t)
       | None => None
       end
  else Some t.

(** The [switch] on the conversion at [s]: the state and the new [string], which
    the end of the loop steps over. *)
Definition expand_conversion (format s : list Z) (t : tparm_state) : option (tparm_state * list Z) :=
  let c := ch s in
  if c =? 37 then t ← save_char 37 t; Some (t, s)
  else if is_conversion c then let '(x, t) := npop t in t ← save_number format x t; Some (t, s)
  else if c =? 108 then let '(x, t) := spop t in t ← save_number (bytes "%d") (grub_strlen x) t; Some (t, s)
  else if c =? 115 then let '(x, t) := spop t in t ← save_text format x t; Some (t, s)
  else if c =? 112 then t ← push_param (ch (tail s)) t; Some (t, tail s)
  else if c =? 80 then Some (set_var (ch (tail s)) t, tail s)
  else if c =? 103 then Some (get_var (ch (tail s)) t, tail s)
  else if c =? 39 then match tail s with
                       | [] => None
                       | x :: s' => Some (npush x t, s')
                       end
  else if c =? 123 then let '(n, s) := parse_number_at 0 (tail s) in Some (npush n t, s)
  else match binary_op c with
       | Some op =>
           let '(y, t) := npop t in
           let '(x, t) := npop t in
           r ← op x y; Some (npush r t, s)
       | None =>
           if (c =? 65) || (c =? 79) then Some (logical_op c t, s)
           else if c =? 33 then let '(x, t) := npop t in Some (npush (if x =? 0 then 1 else 0) t, s)
           else if c =? 126 then let '(x, t) := npop t in Some (npush (Z.lnot x) t, s)
           else if c =? 105 then t ← increment 0 t; t ← increment 1 t; Some (t, s)
           else if c =? 116 then let '(x, t) := npop t in
                                 Some (t, if x =? 0 then scan_to true 0 (tail s) else s)
           else if c =? 101 then Some (t, scan_to false 0 (tail s))
           else Some (t, s)
       end.

(** [while ( *string)]; a round consumes at least one character. *)
Fixpoint expand (fuel : nat) (string : list Z) (t : tparm_state) : option tparm_state :=
  match string with
  | [] => Some t
  | c :: string' =>
      match fuel with
      | O => None
      | S f =>
          if (c =? 36) && (ch string' =? 60)
          then expand f (tail (skip_delay string)) t
          else if c =? 37
          then let '(format, s, _) := parse_format string' in
               '(t, s) ← expand_conversion format s t; expand f (tail s) t
          else t ← save_char c t; expand f string' t
      end
  end.

(** The inner [None] is a null pointer; the variables stay for the next call. *)
Definition tparam_internal (string : list Z) (args : list arg) (dyn stat : list Z)
  : option (option (list Z) * (list Z * list Z)) :=
  if (MAX_FORMAT_LEN <? length string)%nat then Some (None, (dyn, stat))
  else
    let a := analyse (length string) string (Analysis 0 (-1) 0 (repeat false 9)) in
    let n := Z.min 9 (number a) in
    p ← load_params (Z.to_nat (Z.max (popcount a) n)) (p_is_s a) args;
    let t := Tparm [] [] p dyn stat in
    t ← (if popcount a =? 0 then push_params t (Z.to_nat n) else Some t);
    t ← expand (length string) string t;
    _ ← room 1 t;
    Some (Some (until_nul (out_buff t)), (dynamic_var t, static_vars t)).

Definition grub_tparm (string : list Z) (args : list arg) (dyn stat : list Z) : option (option (list Z) * (list Z * list Z)) :=
  tparam_internal string args dyn stat.

(** ** The abstract language

    What the escape sequences stand for: expressions over 32-bit integers, and
    commands that write text, print numbers, assign variables and choose. *)

Inductive binop := BAdd | BSub | BMul | BDiv | BMod | BAnd | BOr | BXor | BEq | BLt | BGt.

Inductive expr :=
  | EConst (n : Z)
  | EParam (i : nat)
  | EVar (name : Z)
  | EBin (op : binop) (e1 e2 : expr)
  | ENot (e : expr)
  | ECompl (e : expr).

Inductive cap :=
  | CSkip
  | CSeq (c1 c2 : cap)
  | CText (l : list Z)
  | CPercent
  | CPrint (conv : Z) (e : expr)
  | CSet (name : Z) (e : expr)
  | CInc
  | CIf (e : expr) (c1 c2 : cap).

(** The parameters and the variables. *)
Record env := Env { e_param : list Z; e_dyn : list Z; e_stat : list Z }.

Definition e_var (v : env) (name : Z) : Z :=
  if isUPPER name then nth (Z.to_nat (name - 65)) (e_stat v) 0 else nth (Z.to_nat (name - 97)) (e_dyn v) 0.
Definition e_set (name x : Z) (v : env) : env :=
  if isUPPER name then Env (e_param v) (e_dyn v) (<[Z.to_nat (name - 65) := x]> (e_stat v))
  else Env (e_param v) (<[Z.to_nat (name - 97) := x]> (e_dyn v)) (e_stat v).

(** What an operator stands for; [None] when a division traps. *)
Definition op_value (o : binop) (x y : Z) : option Z :=
  let traps := (x =? -2147483648) && (y =? -1) in
  match o with
  | BAdd => Some (x + y)
  | BSub => Some (x - y)
  | BMul => Some (x * y)
  | BDiv => if y =? 0 then Some 0 else if traps then None else Some (Z.quot x y)
  | BMod => if y =? 0 then Some 0 else if traps then None else Some (Z.rem x y)
  | BAnd => Some (Z.land x y)
  | BOr => Some (Z.lor x y)
  | BXor => Some (Z.lxor x y)
  | BEq => Some (if x =? y then 1 else 0)
  | BLt => Some (if x <? y then 1 else 0)
  | BGt => Some (if y <? x then 1 else 0)
  end.

(** The value of an expression. *)
Fixpoint eval (v : env) (e : expr) : option Z :=
  match e with
  | EConst n => Some n
  | EParam i => s32 <$> e_param v !! i
  | EVar name => Some (s32 (e_var v name))
  | EBin op e1 e2 =>
      x ← eval v e1; y ← eval v e2; r ← op_value op x y; Some (s32 r)
  | ENot e => x ← eval v e; Some (if x =? 0 then 1 else 0)
  | ECompl e => x ← eval v e; Some (s32 (Z.lnot x))
  end.

(** [%d], [%x] and [%c] of a value. *)
Definition shown (conv x : Z) : list Z :=
  if conv =? 99 then until_nul [s8 (u32 x .& 0xff)] else convert_to_ascii conv (u32 x).

Fixpoint run (c : cap) (v : env) : option (list Z * env) :=
  match c with
  | CSkip => Some ([], v)
  | CSeq c1 c2 => '(l1, v) ← run c1 v; '(l2, v) ← run c2 v; Some (l1 ++ l2, v)
  | CText l => Some (l, v)
  | CPercent => Some ([37], v)
  | CPrint conv e => x ← eval v e; Some (shown conv x, v)
  | CSet name e => x ← eval v e; Some ([], e_set name x v)
  | CInc => match e_param v with
            | a :: b :: p => Some ([], Env (s32 (a + 1) :: s32 (b + 1) :: p) (e_dyn v) (e_stat v))
            | _ => None
            end
  | CIf e c1 c2 => x ← eval v e; if x =? 0 then run c2 v else run c1 v
  end.

(** The escape sequences. *)
Definition op_char (o : binop) : Z :=
  match o with
  | BAdd => 43 | BSub => 45 | BMul => 42 | BDiv => 47 | BMod => 109 | BAnd => 38 | BOr => 124 | BXor => 94
  | BEq => 61 | BLt => 60 | BGt => 62
  end.

Fixpoint print_expr (e : expr) : list Z :=
  match e with
  | EConst n => [37; 123] ++ map (fun d => 48 + d) (decimal n) ++ [125]
  | EParam i => [37; 112; 49 + Z.of_nat i]
  | EVar name => [37; 103; name]
  | EBin op e1 e2 => print_expr e1 ++ print_expr e2 ++ [37; op_char op]
  | ENot e => print_expr e ++ [37; 33]
  | ECompl e => print_expr e ++ [37; 126]
  end.

Fixpoint print_cap (c : cap) : list Z :=
  match c with
  | CSkip => []
  | CSeq c1 c2 => print_cap c1 ++ print_cap c2
  | CText l => l
  | CPercent => [37; 37]
  | CPrint conv e => print_expr e ++ [37; conv]
  | CSet name e => print_expr e ++ [37; 80; name]
  | CInc => [37; 105]
  | CIf e c1 c2 => [37; 63] ++ print_expr e ++ [37; 116] ++ print_cap c1 ++ [37; 101] ++ print_cap c2 ++ [37; 59]
  end.

(** Well-formedness: variables are letters, constants fit, text has no
    special character. *)
Definition is_letter (c : Z) : Prop := isUPPER c = true \/ isLOWER c = true.

Fixpoint wf_expr (e : expr) : Prop :=
  match e with
  | EConst n => 0 <= n < 2147483648
  | EParam i => (i < 9)%nat
  | EVar name => is_letter name
  | EBin _ e1 e2 => wf_expr e1 /\ wf_expr e2
  | ENot e | ECompl e => wf_expr e
  end.

Fixpoint wf_cap (c : cap) : Prop :=
  match c with
  | CSkip | CPercent | CInc => True
  | CSeq c1 c2 => wf_cap c1 /\ wf_cap c2
  | CText l => Forall (fun x => x <> 0 /\ x <> 36 /\ x <> 37) l
  | CPrint conv e => (conv = 100 \/ conv = 120 \/ conv = 99) /\ wf_expr e
  | CSet name e => is_letter name /\ wf_expr e
  | CIf e c1 c2 => wf_expr e /\ wf_cap c1 /\ wf_cap c2
  end.

(** The stack an expression needs, and the parameters that are used. *)
Fixpoint depth (e : expr) : nat :=
  match e with
  | EConst _ | EParam _ | EVar _ => 1
  | EBin _ e1 e2 => Nat.max (depth e1) (1 + depth e2)
  | ENot e | ECompl e => depth e
  end.
Fixpoint cap_depth (c : cap) : nat :=
  match c with
  | CSkip | CText _ | CPercent | CInc => 0
  | CSeq c1 c2 => Nat.max (cap_depth c1) (cap_depth c2)
  | CPrint _ e | CSet _ e => depth e
  | CIf e c1 c2 => Nat.max (depth e) (Nat.max (cap_depth c1) (cap_depth c2))
  end.

Fixpoint expr_uses (e : expr) : Z :=
  match e with
  | EConst _ | EVar _ => 0
  | EParam i => Z.of_nat i + 1
  | EBin _ e1 e2 => Z.max (expr_uses e1) (expr_uses e2)
  | ENot e | ECompl e => expr_uses e
  end.
Fixpoint cap_uses (c : cap) : Z :=
  match c with
  | CSkip | CText _ | CPercent => 0
  | CInc => 2
  | CSeq c1 c2 => Z.max (cap_uses c1) (cap_uses c2)
  | CPrint _ e | CSet _ e => expr_uses e
  | CIf e c1 c2 => Z.max (expr_uses e) (Z.max (cap_uses c1) (cap_uses c2))
  end.

(** ** Proofs: the rounds of the loop *)

Lemma skip_delay_length s : (length (skip_delay s) <= length s)%nat.
Proof. induction s as [|c s IH]; cbn; [lia |]. destruct (c =? 62); cbn; lia. Qed.

Lemma skip_digits_length s : (length (skip_digits s) <= length s)%nat.
Proof. induction s as [|c s IH]; cbn; [lia |]. destruct (isdigit c); cbn; lia. Qed.

Lemma tail_shorter {A} (s : list A) : (length (tail s) <= length s)%nat.
Proof. destruct s; cbn; lia. Qed.

Lemma scan_to_length b s : forall l, (length (scan_to b l s) <= length s)%nat.
Proof.
  induction s as [s IH] using (induction_ltof1 _ (@length Z)); unfold ltof in IH. intros l.
  destruct s as [|c s1]; cbn [scan_to length]; [lia |].
  destruct (c =? 37); [| etrans; [apply IH; cbn; lia | lia]].
  destruct s1 as [|d s2]; cbn [length]; [lia |].
  repeat case_match; cbn [length]; try lia; (etrans; [apply IH; cbn; lia | lia]).
Qed.

Lemma parse_format_loop_length s : forall fmt am dot err p v,
  (length (snd (parse_format_loop s fmt am dot err p v)) <= length s)%nat.
Proof.
  induction s as [|c s IH]; intros; cbn [parse_format_loop]; [cbn; lia |].
  repeat case_match; cbn [snd length]; try lia; (etrans; [apply IH | cbn; lia]).
Qed.

Lemma parse_format_length s : (length (parse_format s).1.2 <= length s)%nat.
Proof.
  unfold parse_format. pose proof (parse_format_loop_length s [37] false false false 0 0).
  destruct (parse_format_loop s [37] false false false 0 0) as [[[fmt err] len] s']. cbn in *.
  by destruct err.
Qed.

Lemma parse_number_length s : forall n, (length (parse_number_at n s).2 <= length s)%nat.
Proof.
  induction s as [|c s IH]; intros n; cbn [parse_number_at]; [cbn; lia |].
  destruct (isdigit c); cbn [length snd]; [etrans; [apply IH | lia] | cbn; lia].
Qed.

Lemma expand_conversion_length fmt s t t' s' :
  expand_conversion fmt s t = Some (t', s') -> (length s' <= length s)%nat.
Proof.
  unfold expand_conversion. intros H.
  pose proof (tail_shorter s). pose proof (scan_to_length true (tail s) 0). pose proof (scan_to_length false (tail s) 0).
  pose proof (parse_number_length (tail s) 0) as Hn. destruct (parse_number_at 0 (tail s)) as [n sn]. cbn in Hn.
  repeat (case_match || (apply bind_Some in H as (? & ? & H))); simplify_eq; cbn in *; try lia; eauto with lia.
Qed.

(** Fuel for one round per character is enough. *)
Lemma expand_fuel f : forall f' s t, (length s <= f)%nat -> (length s <= f')%nat -> expand f s t = expand f' s t.
Proof.
  induction f as [|f IH]; intros f' [|c s] t Hf Hf'; cbn [length] in *; [by destruct f' | lia | by destruct f' |].
  destruct f' as [|f']; [lia |]. cbn [expand].
  destruct ((c =? 36) && (ch s =? 60)).
  { pose proof (skip_delay_length (c :: s)). destruct (skip_delay (c :: s)) as [|x l]; cbn [tail length] in *;
      [by destruct f, f' | apply IH; lia]. }
  destruct (c =? 37); [| destruct (save_char c t); [apply IH; lia | done]].
  pose proof (parse_format_length s). destruct (parse_format s) as [[fmt s1] n]. cbn in H.
  destruct (expand_conversion fmt s1 t) as [[t' s']|] eqn:E; cbn [mbind option_bind]; [| done].
  apply expand_conversion_length in E. pose proof (tail_shorter s'). apply IH; lia.
Qed.

(** The loop, with the fuel that [tparam_internal] gives it. *)
Definition expand_all (s : list Z) (t : tparm_state) : option tparm_state := expand (length s) s t.

Lemma expand_text c s t : c <> 36 -> c <> 37 -> expand_all (c :: s) t = t ← save_char c t; expand_all s t.
Proof.
  intros H1 H2. unfold expand_all. cbn [length expand].
  rewrite (proj2 (Z.eqb_neq c 36)), (proj2 (Z.eqb_neq c 37)) by done. done.
Qed.

(** Characters that end a format at once. *)
Definition plain_conv (c : Z) : Prop :=
  bool_decide (c ∈ [46; 35; 32; 58]) = false /\ isdigit c = false.

Lemma parse_format_plain c s : plain_conv c ->
  parse_format (c :: s) = (if is_conversion c || (c =? 115) then [37; c] else [37], c :: s, 0).
Proof.
  intros [H Hd]. unfold parse_format, is_conversion. cbn [parse_format_loop]. rewrite Hd.
  assert ((c =? 46) = false /\ ((c =? 35) || (c =? 32)) = false /\ (c =? 58) = false) as (-> & -> & ->).
  { apply bool_decide_eq_false in H. rewrite !elem_of_cons in H.
    destruct (Z.eqb_spec c 46), (Z.eqb_spec c 35), (Z.eqb_spec c 32), (Z.eqb_spec c 58); tauto. }
  by destruct (Z.eqb_spec c 99), (Z.eqb_spec c 100), (Z.eqb_spec c 111), (Z.eqb_spec c 120), (Z.eqb_spec c 88),
    (Z.eqb_spec c 115), (Z.eqb_spec c 45); subst.
Qed.

Lemma expand_percent c s t : plain_conv c ->
  expand_all (37 :: c :: s) t
  = ('(t, s) ← expand_conversion (if is_conversion c || (c =? 115) then [37; c] else [37]) (c :: s) t;
     expand_all (tail s) t).
Proof.
  intros Hc. unfold expand_all at 1. cbn [length]. remember (S (length s)) as f eqn:Hf.
  cbn [expand]. cbn [Z.eqb Pos.eqb andb].
  rewrite parse_format_plain by done.
  destruct (expand_conversion _ (c :: s) t) as [[t' s']|] eqn:E; cbn [mbind option_bind]; [| done].
  apply expand_conversion_length in E. cbn [length] in E. pose proof (tail_shorter s').
  unfold expand_all. apply expand_fuel; lia.
Qed.

(** *** Popping and pushing *)

Lemma npop_npush x t : (length (stack t) < 20)%nat ->
  npop (npush x t) = (s32 x, t).
Proof.
  intros H. unfold npush, push. rewrite (proj2 (Nat.ltb_lt _ _)) by done.
  unfold npop. cbn. f_equal; [cint_lia | by destruct t].
Qed.

Lemma stack_npush x t : (length (stack t) < 20)%nat -> length (stack (npush x t)) = S (length (stack t)).
Proof. intros H. unfold npush, push. by rewrite (proj2 (Nat.ltb_lt _ _)) by done. Qed.

(** The state reflects the abstract environment, [n] parameters being loaded. *)
Definition reflects (n : nat) (v : env) (t : tparm_state) : Prop :=
  param t = map ArgInt (take n (e_param v)) /\ dynamic_var t = e_dyn v /\ static_vars t = e_stat v.

Lemma reflects_push n v x t : reflects n v t -> reflects n v (npush x t).
Proof. unfold npush, push, reflects. by destruct (_ <? _)%nat. Qed.

Lemma eval_range v e x : wf_expr e -> eval v e = Some x -> s32 x = x.
Proof.
  assert (forall y, s32 (s32 y) = s32 y) as Hs by (intros; cint_lia).
  destruct e; cbn; intros Hw H.
  - injection H as <-. by apply s32_small; lia.
  - destruct (e_param v !! i); [| done]. by injection H as <-.
  - by injection H as <-.
  - repeat (apply bind_Some in H as (? & ? & H)). injection H as <-. apply Hs.
  - apply bind_Some in H as (? & _ & H). injection H as <-. by case_match.
  - apply bind_Some in H as (? & _ & H). injection H as <-. apply Hs.
Qed.

Lemma binary_op_plain c f : binary_op c = Some f ->
  plain_conv c /\ (is_conversion c || (c =? 115)) = false /\
  bool_decide (c ∈ [37; 108; 115; 112; 80; 103; 39; 123; 63; 59; 101]) = false /\ is_operator c = true /\ is_conversion c = false.
Proof.
  unfold binary_op.
  destruct (Z.eqb_spec c 43); [by subst |]. destruct (Z.eqb_spec c 45); [by subst |].
  destruct (Z.eqb_spec c 42); [by subst |]. destruct (Z.eqb_spec c 47); [by subst |].
  destruct (Z.eqb_spec c 109); [by subst |]. destruct (Z.eqb_spec c 38); [by subst |].
  destruct (Z.eqb_spec c 124); [by subst |]. destruct (Z.eqb_spec c 94); [by subst |].
  destruct (Z.eqb_spec c 61); [by subst |]. destruct (Z.eqb_spec c 60); [by subst |].
  destruct (Z.eqb_spec c 62); [by subst | done].
Qed.

Lemma binary_op_char o : binary_op (op_char o) = Some (op_value o).
Proof. by destruct o. Qed.

Lemma expand_binary op f s t : binary_op op = Some f ->
  expand_all (37 :: op :: s) t
  = (let '(y, t) := npop t in let '(x, t) := npop t in r ← f x y; expand_all s (npush r t)).
Proof.
  intros Hop. destruct (binary_op_plain _ _ Hop) as (Hp & Hf & Hn & _ & Hc). rewrite expand_percent by done.
  unfold expand_conversion. cbn [ch hd]. rewrite Hc, Hop.
  apply bool_decide_eq_false in Hn. rewrite !elem_of_cons in Hn.
  assert (forall k, k ∈ [37; 108; 115; 112; 80; 103; 39; 123] -> (op =? k) = false) as Hk.
  { intros k Hk. apply Z.eqb_neq. intros ->. apply Hn. rewrite !elem_of_cons in Hk. tauto. }
  rewrite !Hk by (rewrite !elem_of_cons; tauto).
  destruct (npop t) as [y t1]. destruct (npop t1) as [x t2]. destruct (f x y); done.
Qed.

Lemma parse_number_decimal n s : 0 <= n < 2147483648 ->
  parse_number_at 0 (map (fun d => 48 + d) (decimal n) ++ 125 :: s) = (n, 125 :: s).
Proof.
  intros Hn. destruct (decimal_spec n ltac:(lia)) as [Hd Hv _ _].
  assert (forall ds acc, Forall (fun d => 0 <= d < 10) ds -> 0 <= acc ->
            foldl (fun a d => 10 * a + d) acc ds < 2147483648 ->
            parse_number_at acc (map (fun d => 48 + d) ds ++ 125 :: s)
            = (foldl (fun a d => 10 * a + d) acc ds, 125 :: s)) as H.
  { induction ds as [|d ds IH]; intros acc Hds Ha Hlt; cbn in *; [done |].
    apply Forall_cons_iff in Hds as [Hd0 Hds]. unfold isdigit.
    rewrite (proj2 (Z.leb_le 48 (48 + d))), (proj2 (Z.leb_le (48 + d) 57)) by lia. cbn [andb].
    replace (acc * 10 + (48 + d - 48)) with (10 * acc + d) by lia.
    assert (10 * acc + d <= foldl (fun a d => 10 * a + d) (10 * acc + d) ds).
    { rewrite foldl_dec. pose proof (dec_val_range _ Hds). nia. }
    rewrite s32_small by lia. apply IH; [done | lia | done]. }
  rewrite H; [by rewrite <- Hv at 2 | done | lia |]. unfold dec_val in Hv. lia.
Qed.

Lemma depth_pos e : (1 <= depth e)%nat.
Proof. induction e; cbn; lia. Qed.

(** An expression pushes its value, or traps. *)
Lemma expand_expr n e : forall v s t,
  wf_expr e -> reflects n v t -> expr_uses e <= Z.of_nat n -> (n <= length (e_param v))%nat ->
  (length (stack t) + depth e <= 20)%nat ->
  expand_all (print_expr e ++ s) t = (x ← eval v e; expand_all s (npush x t)).
Proof.
  induction e as [k | i | name | op e1 IH1 e2 IH2 | e IH | e IH]; intros v s t Hw Hr Hu Hl Hd; cbn [print_expr eval wf_expr expr_uses depth app] in *.
  - rewrite expand_percent by done. unfold expand_conversion. cbn [ch hd tail Z.eqb Pos.eqb is_conversion orb].
    rewrite <- app_assoc. cbn [app]. by rewrite parse_number_decimal by done.
  - rewrite expand_percent by done. unfold expand_conversion. cbn [ch hd tail Z.eqb Pos.eqb is_conversion orb].
    unfold push_param. replace (49 + Z.of_nat i - 49) with (Z.of_nat i) by lia.
    rewrite (proj2 (Z.leb_le 0 _)), (proj2 (Z.ltb_lt _ 9)) by lia. cbn [andb]. rewrite Nat2Z.id.
    rewrite (proj1 Hr), list_lookup_fmap, lookup_take_lt by lia.
    destruct (lookup_lt_is_Some_2 (e_param v) i) as [x Hx]; [lia |]. rewrite Hx. cbn.
    unfold npush. do 3 f_equal. cint_lia.
  - rewrite expand_percent by done. unfold expand_conversion. cbn [ch hd tail Z.eqb Pos.eqb is_conversion orb].
    unfold get_var, e_var. cbn [mbind option_bind]. rewrite (proj1 (proj2 Hr)), (proj2 (proj2 Hr)).
    f_equal. unfold npush. destruct Hw as [Hw | Hw].
    + rewrite Hw. f_equal. f_equal. cint_lia.
    + assert (isUPPER name = false) as -> by (unfold isUPPER, isLOWER in *; repeat zcase; done || lia).
      rewrite Hw. do 2 f_equal. cint_lia.
  - pose proof (depth_pos e1). pose proof (depth_pos e2). destruct Hw as [Hw1 Hw2]. pose proof (binary_op_char op) as Hf. rewrite <- !app_assoc. cbn [app].
    rewrite (IH1 v) by (done || lia). destruct (eval v e1) as [x|] eqn:E1; [| done]. cbn [mbind option_bind].
    rewrite (IH2 v) by (done || lia || (by apply reflects_push) || (rewrite stack_npush by lia; lia)).
    destruct (eval v e2) as [y|] eqn:E2; [| done]. cbn [mbind option_bind].
    rewrite (expand_binary (op_char op) (op_value op)) by done.
    rewrite (npop_npush y) by (rewrite stack_npush by lia; lia). rewrite (npop_npush x) by lia.
    rewrite (eval_range v e1 x), (eval_range v e2 y) by done.
    destruct (op_value op x y) as [r|]; [| done]. cbn. unfold npush. do 3 f_equal. cint_lia.
  - pose proof (depth_pos e). rewrite <- app_assoc. rewrite (IH v) by (done || lia). destruct (eval v e) as [x|] eqn:E; [| done]. cbn [mbind option_bind app].
    rewrite expand_percent by done. unfold expand_conversion. cbn [ch hd tail Z.eqb Pos.eqb is_conversion orb binary_op].
    rewrite npop_npush by lia. by rewrite (eval_range v e x).
  - pose proof (depth_pos e). rewrite <- app_assoc. rewrite (IH v) by (done || lia). destruct (eval v e) as [x|] eqn:E; [| done]. cbn [mbind option_bind app].
    rewrite expand_percent by done. unfold expand_conversion. cbn [ch hd tail Z.eqb Pos.eqb is_conversion orb binary_op].
    rewrite npop_npush by lia. rewrite (eval_range v e x) by done. unfold npush.
    generalize (Z.lnot x). intros. clear. cbn [mbind option_bind tail]. do 3 f_equal. cint_lia.
Qed.

(** *** Conditionals *)

Lemma scan_other b l c s : c <> 37 -> scan_to b l (c :: s) = scan_to b l s.
Proof. intros H. cbn [scan_to]. by rewrite (proj2 (Z.eqb_neq c 37)). Qed.

Lemma scan_percent b l c s : c <> 63 -> c <> 59 -> c <> 101 ->
  scan_to b l (37 :: c :: s) = scan_to b l s.
Proof.
  intros H1 H2 H3. cbn [scan_to Z.eqb Pos.eqb].
  by rewrite (proj2 (Z.eqb_neq c 63)), (proj2 (Z.eqb_neq c 59)), (proj2 (Z.eqb_neq c 101)).
Qed.

Lemma scan_no_percent b l cs s : Forall (fun c => c <> 37) cs -> scan_to b l (cs ++ s) = scan_to b l s.
Proof. induction 1 as [|c cs Hc _ IH]; [done |]. cbn [app]. by rewrite scan_other. Qed.

Lemma letter_range c : is_letter c -> 65 <= c <= 122.
Proof. unfold is_letter, isUPPER, isLOWER. intros [H | H]; apply andb_prop in H as [H1%Z.leb_le H2%Z.leb_le]; lia. Qed.

Lemma scan_expr b l e : forall s, wf_expr e -> scan_to b l (print_expr e ++ s) = scan_to b l s.
Proof.
  induction e as [k | i | name | op e1 IH1 e2 IH2 | e IH | e IH]; intros s Hw; cbn [print_expr wf_expr app] in *;
    rewrite <- ?app_assoc.
  - rewrite scan_percent, scan_no_percent by (done || (apply Forall_map; eapply Forall_impl;
      [| apply (decimal_digits k); lia]; cbn; lia)). cbn [app]. by rewrite scan_other.
  - rewrite scan_percent by done. apply scan_other. lia.
  - pose proof (letter_range _ Hw). rewrite scan_percent by done. apply scan_other. lia.
  - destruct Hw as [Hw1 Hw2]. pose proof (binary_op_char op) as Hf. rewrite IH1, IH2 by done. cbn [app].
    destruct (binary_op_plain _ _ Hf) as (_ & _ & Hn & _). apply bool_decide_eq_false in Hn.
    rewrite !elem_of_cons in Hn. apply scan_percent; intros E; apply Hn; rewrite E; tauto.
  - rewrite IH by done. by apply scan_percent.
  - rewrite IH by done. by apply scan_percent.
Qed.

Lemma print_if_app e c1 c2 s :
  print_cap (CIf e c1 c2) ++ s
  = 37 :: 63 :: print_expr e ++ 37 :: 116 :: print_cap c1 ++ 37 :: 101 :: print_cap c2 ++ 37 :: 59 :: s.
Proof. cbn [print_cap app]. by repeat (rewrite <- app_assoc; cbn [app]). Qed.

Lemma scan_cap c : forall b l s, wf_cap c -> scan_to b l (print_cap c ++ s) = scan_to b l s.
Proof.
  induction c as [| c1 IH1 c2 IH2 | cs | | conv e | name e | | e c1 IH1 c2 IH2]; intros b l s Hw;
    cbn [wf_cap] in Hw; [.. | rewrite print_if_app]; cbn [print_cap app]; rewrite <- ?app_assoc.
  - done.
  - destruct Hw. by rewrite IH1, IH2.
  - apply scan_no_percent. eapply Forall_impl; [| apply Hw]. cbn. tauto.
  - by apply scan_percent.
  - destruct Hw as [Hc Hw]. rewrite scan_expr by done. apply scan_percent; lia.
  - destruct Hw as [Hn Hw]. pose proof (letter_range _ Hn). rewrite scan_expr by done. cbn [app].
    rewrite scan_percent by done. apply scan_other. lia.
  - by apply scan_percent.
  - destruct Hw as (Hw & Hw1 & Hw2).
    set (s' := _ ++ 37 :: 116 :: _).
    change (scan_to b l (37 :: 63 :: s')) with (scan_to b (S l) s'). unfold s'.
    rewrite scan_expr by done. cbn [app]. rewrite scan_percent, IH1 by done.
    transitivity (scan_to b (S l) (print_cap c2 ++ 37 :: 59 :: s)); [| by rewrite IH2].
    cbn [scan_to Z.eqb Pos.eqb Nat.eqb]. by rewrite andb_false_r.
Qed.

(** The state after a command. *)
Definition after (n : nat) (l : list Z) (v : env) (t : tparm_state) : tparm_state :=
  Tparm (stack t) (out_buff t ++ l) (map ArgInt (take n (e_param v))) (e_dyn v) (e_stat v).

Lemma reflects_after n l v t : reflects n v (after n l v t).
Proof. done. Qed.

Lemma after_nil n v t : reflects n v t -> after n [] v t = t.
Proof. destruct t. intros (H1 & H2 & H3). unfold after. cbn in *. by rewrite app_nil_r, <- H1, <- H2, <- H3. Qed.

Lemma after_after n l1 v1 l2 v2 t : after n l2 v2 (after n l1 v1 t) = after n (l1 ++ l2) v2 t.
Proof. unfold after. cbn. by rewrite app_assoc. Qed.

Lemma write_out_after n l v t : reflects n v t -> write_out l t = after n l v t.
Proof. destruct t. intros (H1 & H2 & H3). unfold after, write_out. cbn in *. by rewrite <- H1, <- H2, <- H3. Qed.

Lemma room_ok n t : (length (out_buff t) + n <= 256)%nat -> room n t = Some ().
Proof. intros H. unfold room. by rewrite (proj2 (Nat.leb_le _ _)). Qed.

Lemma expand_plain_text n cs v s t : Forall (fun x => x <> 0 /\ x <> 36 /\ x <> 37) cs -> reflects n v t ->
  (length (out_buff t) + length cs <= 254)%nat -> expand_all (cs ++ s) t = expand_all s (after n cs v t).
Proof.
  intros H. revert t. induction H as [|c cs (H0 & H1 & H2) _ IH]; intros t Hr Hl; cbn [app length] in *.
  - by rewrite after_nil.
  - rewrite expand_text by done. unfold save_char. rewrite room_ok, (proj2 (Z.eqb_neq c 0)) by (done || lia).
    cbn [mbind option_bind]. rewrite (write_out_after n _ v) by done. rewrite IH; [by rewrite after_after | done |].
    cbn. rewrite length_app. cbn. lia.
Qed.

Lemma run_params c : forall v l v', run c v = Some (l, v') -> length (e_param v') = length (e_param v).
Proof.
  induction c as [| c1 IH1 c2 IH2 | cs | | conv e | name e | | e c1 IH1 c2 IH2]; intros v l v' H; cbn [run] in H;
    repeat (apply bind_Some in H as (? & ? & H)); simplify_eq; try done.
  - destruct x as [l1 v1]. apply bind_Some in H as ([l2 v2] & ? & H). simplify_eq.
    etrans; [eapply IH2 | eapply IH1]; eauto.
  - unfold e_set. by destruct (isUPPER name).
  - destruct (e_param v) as [|a [|b p]] eqn:E; try done. by simplify_eq.
  - case_match; eauto.
Qed.

Lemma convert_nonzero conv x : Forall (fun c => c <> 0) (convert_to_ascii conv (u32 x)).
Proof.
  destruct (convert_text conv (u32 x) (u32_range x)) as (ds & -> & _ & Hd & _). apply Forall_app. split.
  - unfold printed_sign. case_match; by repeat constructor.
  - apply Forall_map. eapply Forall_impl; [| apply Hd]. cbn. intros d Hd0. unfold digit_char. zcase; lia.
Qed.

Lemma until_nul_id l : Forall (fun c => c <> 0) l -> until_nul l = l.
Proof. induction 1 as [|c l Hc _ IH]; [done |]. cbn. by rewrite (proj2 (Z.eqb_neq c 0)), IH. Qed.

Lemma until_nul_nonzero l : Forall (fun c => c <> 0) (until_nul l).
Proof. induction l as [|c l IH]; cbn; [done |]. zcase; by constructor. Qed.

(** What a command writes has no NUL. *)
Lemma run_nonzero c : forall v l v', wf_cap c -> run c v = Some (l, v') -> Forall (fun c => c <> 0) l.
Proof.
  induction c as [| c1 IH1 c2 IH2 | cs | | conv e | name e | | e c1 IH1 c2 IH2]; intros v l v' Hw H;
    cbn [run wf_cap] in *; repeat (apply bind_Some in H as (? & ? & H)); simplify_eq; try done.
  - destruct x as [l1 v1]. apply bind_Some in H as ([l2 v2] & ? & H). simplify_eq.
    destruct Hw. apply Forall_app. eauto.
  - eapply Forall_impl; [| apply Hw]. cbn. tauto.
  - by repeat constructor.
  - unfold shown. destruct (conv =? 99); [apply until_nul_nonzero | apply convert_nonzero].
  - destruct (e_param v) as [|a [|b p]]; try done. by simplify_eq.
  - destruct Hw as (_ & Hw1 & Hw2). case_match; eauto.
Qed.

(** Printing a value. *)
Lemma save_number_shown conv x t : conv = 100 \/ conv = 120 \/ conv = 99 ->
  (length (out_buff t) + length (shown conv x) <= 254)%nat -> save_number [37; conv] x t = Some (write_out (shown conv x) t).
Proof.
  intros H Hl. pose proof (until_nul_id _ (convert_nonzero conv x)) as E.
  unfold save_number, shown. destruct H as [-> | [-> | ->]]; cbn [grub_sprintf Z.eqb Pos.eqb negb orb mbind option_bind];
    rewrite ?app_nil_r, ?E, room_ok by (cbn in *; lia); done.
Qed.

Lemma expand_then s t : expand_all (37 :: 116 :: s) t
  = (let '(x, t) := npop t in expand_all (if x =? 0 then tail (scan_to true 0 s) else s) t).
Proof.
  rewrite expand_percent by done. unfold expand_conversion. cbn [ch hd tail Z.eqb Pos.eqb is_conversion orb binary_op].
  destruct (npop t) as [x t']. cbn [mbind option_bind]. by destruct (x =? 0).
Qed.

(** A command runs as it means, as long as its text fits. *)
Lemma expand_cap n c : forall v l v' s t,
  wf_cap c -> reflects n v t -> cap_uses c <= Z.of_nat n -> (n <= length (e_param v))%nat ->
  (length (stack t) + cap_depth c <= 20)%nat -> run c v = Some (l, v') -> (length (out_buff t) + length l <= 254)%nat ->
  expand_all (print_cap c ++ s) t = expand_all s (after n l v' t).
Proof.
  induction c as [| c1 IH1 c2 IH2 | cs | | conv e | name e | | e c1 IH1 c2 IH2]; intros v l v' s t Hw Hr Hu Hn Hd Hrun Hl;
    cbn [wf_cap cap_uses cap_depth run] in *; [.. | rewrite print_if_app]; cbn [print_cap app]; rewrite <- ?app_assoc.
  - injection Hrun as <- <-. by rewrite after_nil.
  - destruct Hw as [Hw1 Hw2]. apply bind_Some in Hrun as ([l1 v1] & E1 & Hrun). apply bind_Some in Hrun as ([l2 v2] & E2 & Hrun).
    injection Hrun as <- <-. rewrite length_app in Hl. pose proof (run_params _ _ _ _ E1).
    rewrite (IH1 v l1 v1) by (done || lia). rewrite (IH2 v1 l2 v2) by (done || (cbn; rewrite ?length_app; lia)). by rewrite after_after.
  - injection Hrun as <- <-. by apply expand_plain_text.
  - injection Hrun as <- <-. rewrite expand_percent by done. cbn [expand_conversion ch hd Z.eqb Pos.eqb].
    unfold save_char. cbn [length] in Hl. rewrite room_ok by lia. cbn [Z.eqb mbind option_bind tail]. by rewrite (write_out_after n _ v).
  - destruct Hw as [Hc Hw]. pose proof (depth_pos e). rewrite (expand_expr n e v) by (done || lia).
    apply bind_Some in Hrun as (x & E & Hrun). injection Hrun as <- <-. rewrite E. cbn [mbind option_bind app].
    assert (plain_conv conv /\ is_conversion conv = true /\ (conv =? 37) = false) as (Hp & Hi & H37)
      by (destruct Hc as [-> | [-> | ->]]; done).
    rewrite expand_percent by done. unfold expand_conversion. cbn [ch hd]. rewrite Hi, H37. cbn [orb].
    rewrite npop_npush, (eval_range v e x) by (done || lia). rewrite save_number_shown by done. cbn [mbind option_bind tail].
    by rewrite (write_out_after n _ v).
  - destruct Hw as [Hn1 Hw]. pose proof (depth_pos e). rewrite (expand_expr n e v) by (done || lia).
    apply bind_Some in Hrun as (x & E & Hrun). injection Hrun as <- <-. rewrite E. cbn [mbind option_bind app].
    rewrite expand_percent by done. cbn [expand_conversion ch hd tail Z.eqb Pos.eqb is_conversion orb mbind option_bind].
    f_equal. unfold set_var. rewrite npop_npush, (eval_range v e x) by (done || lia).
    destruct t as [k o p d g]. destruct Hr as (Hp & Hd1 & Hg). cbn in Hp, Hd1, Hg. subst p d g.
    unfold e_set, after, with_vars. cbn. rewrite app_nil_r.
    destruct Hn1 as [Hn1 | Hn1]; [by rewrite Hn1 |].
    assert (isUPPER name = false) as Hup by (unfold isUPPER, isLOWER in *; repeat zcase; done || lia).
    by rewrite Hup, Hn1.
  - rewrite expand_percent by done. cbn [expand_conversion ch hd tail Z.eqb Pos.eqb is_conversion orb binary_op].
    destruct Hr as (Hp & Hd1 & Hg). destruct n as [|[|n]]; [lia.. |].
    destruct (e_param v) as [|a [|b p]] eqn:Ep; cbn [length] in Hn; [lia.. |]. injection Hrun as <- <-.
    unfold increment. rewrite Hp. cbn [take map lookup list_lookup mbind option_bind].
    cbn [with_param param lookup list_lookup insert list_insert mbind option_bind tail].
    f_equal. unfold after, with_param. cbn. by rewrite app_nil_r, Hd1, Hg.
  - destruct Hw as (Hw & Hw1 & Hw2). pose proof (depth_pos e).
    transitivity (expand_all (print_expr e ++ 37 :: 116 :: print_cap c1 ++ 37 :: 101 :: print_cap c2 ++ 37 :: 59 :: s) t);
      [by rewrite expand_percent |].
    rewrite (expand_expr n e v) by (done || lia). apply bind_Some in Hrun as (x & E & Hrun). rewrite E.
    cbn [mbind option_bind]. rewrite expand_then, npop_npush, (eval_range v e x) by (done || lia).
    assert (forall t, expand_all (37 :: 59 :: s) t = expand_all s t) as Hend by (intros; by rewrite expand_percent).
    destruct (x =? 0).
    + rewrite scan_cap by done. cbn [scan_to Z.eqb Pos.eqb Nat.eqb andb tail].
      rewrite (IH2 v l v') by (done || lia). apply Hend.
    + rewrite (IH1 v l v') by (done || lia).
      rewrite expand_percent by done. cbn [expand_conversion ch hd tail Z.eqb Pos.eqb is_conversion orb binary_op mbind option_bind].
      rewrite scan_cap by done. done.
Qed.

(** *** The analysis *)

Lemma analyse_conversion_length cp a : (length (analyse_conversion cp a).2 <= length cp)%nat.
Proof.
  unfold analyse_conversion. pose proof (tail_shorter cp). pose proof (tail_shorter (tail cp)).
  pose proof (skip_digits_length (tail cp)). repeat case_match; cbn [snd]; lia.
Qed.

Lemma analyse_fuel f : forall f' s a, (length s <= f)%nat -> (length s <= f')%nat -> analyse f s a = analyse f' s a.
Proof.
  induction f as [|f IH]; intros f' [|c s] a Hf Hf'; cbn [length] in *; [by destruct f' | lia | by destruct f' |].
  destruct f' as [|f']; [lia |]. cbn [analyse]. destruct (c =? 37); [| apply IH; lia].
  pose proof (parse_format_length s). destruct (parse_format s) as [[fmt s1] n]. cbn in H.
  pose proof (analyse_conversion_length s1 a). destruct (analyse_conversion s1 a) as [a' s']. cbn in H0.
  pose proof (tail_shorter s'). apply IH; lia.
Qed.

Definition analyse_all (s : list Z) (a : analysis) : analysis := analyse (length s) s a.

Lemma analyse_other c s a : c <> 37 -> analyse_all (c :: s) a = analyse_all s a.
Proof. intros H. unfold analyse_all. cbn [length analyse]. by rewrite (proj2 (Z.eqb_neq c 37)). Qed.

Lemma analyse_percent c s a : plain_conv c ->
  analyse_all (37 :: c :: s) a
  = (let '(a, cp) := analyse_conversion (c :: s) a in analyse_all (tail cp) a).
Proof.
  intros Hc. unfold analyse_all at 1. cbn [length]. remember (S (length s)) as f eqn:Hf.
  cbn [analyse]. cbn [Z.eqb Pos.eqb]. rewrite parse_format_plain by done.
  pose proof (analyse_conversion_length (c :: s) a). destruct (analyse_conversion (c :: s) a) as [a' s']. cbn [snd length] in H.
  pose proof (tail_shorter s'). unfold analyse_all. apply analyse_fuel; lia.
Qed.

(** The analysis finds at least the parameters that are used, and no strings. *)
Definition analysed (uses : Z) (a a' : analysis) : Prop :=
  number a <= number a' /\ popcount a' = Z.max (popcount a) uses /\ p_is_s a' = p_is_s a.

Ltac analysed_now := unfold analysed; cbn; split_and!; done || lia.

Lemma analysed_trans u1 u2 a1 a2 a3 : analysed u1 a1 a2 -> analysed u2 a2 a3 -> analysed (Z.max u1 u2) a1 a3.
Proof. unfold analysed. intros (?&?&?) (?&?&?). split_and!; [lia | lia | congruence]. Qed.

Lemma analysed_0 u a a' : 0 <= u -> 0 <= popcount a -> analysed u a a' -> 0 <= popcount a'.
Proof. unfold analysed. lia. Qed.

Lemma expr_uses_nonneg e : 0 <= expr_uses e.
Proof. induction e; cbn; lia. Qed.
Lemma cap_uses_nonneg c : 0 <= cap_uses c.
Proof. induction c; cbn; try lia; pose proof (expr_uses_nonneg e); lia. Qed.

Lemma analyse_plain s a cs : Forall (fun c => c <> 37) cs -> analyse_all (cs ++ s) a = analyse_all s a.
Proof. induction 1 as [|c cs Hc _ IH]; [done |]. cbn [app]. by rewrite analyse_other. Qed.

Lemma skip_digits_decimal k s : 0 <= k -> skip_digits (map (fun d => 48 + d) (decimal k) ++ 125 :: s) = 125 :: s.
Proof.
  intros Hk. induction (decimal_digits k Hk) as [|d ds Hd _ IH]; cbn [map app skip_digits]; [done |].
  unfold isdigit. by rewrite (proj2 (Z.leb_le 48 (48 + d))), (proj2 (Z.leb_le (48 + d) 57)) by lia.
Qed.

(** One conversion that only counts. *)
Lemma analyse_step c s a : plain_conv c -> 0 <= popcount a ->
  is_conversion c = true \/ is_operator c = true \/ bool_decide (c ∈ [37; 63; 116; 101; 59]) = true ->
  exists a', analyse_all (37 :: c :: s) a = analyse_all s a' /\ analysed 0 a a'.
Proof.
  intros Hp H0 Hc. rewrite analyse_percent by done. unfold analyse_conversion. cbn [ch hd].
  destruct (is_conversion c) eqn:Ec; [eexists; split; [reflexivity |]; analysed_now |].
  assert (forall k, k ∈ [108; 115; 112; 80; 103; 39; 123] -> (c =? k) = false) as Hk.
  { intros k Hk. apply Z.eqb_neq. intros ->. destruct Hc as [Hc | [Hc | Hc]]; [done | |];
      rewrite !elem_of_cons, elem_of_nil in Hk; repeat (destruct Hk as [-> | Hk] || done). }
  rewrite !Hk by (rewrite !elem_of_cons; tauto). cbn [orb].
  destruct (is_operator c) eqn:Eo; [eexists; split; [reflexivity |]; analysed_now |].
  destruct (Z.eqb_spec c 105); [subst; by destruct Hc as [?|[?|?]] |].
  eexists; split; [reflexivity |]. analysed_now.
Qed.

Lemma analyse_var k name s a : k = 80 \/ k = 103 -> analyse_all (37 :: k :: name :: s) a = analyse_all s a.
Proof. intros [-> | ->]; by rewrite analyse_percent. Qed.

Lemma analyse_expr e : forall s a, wf_expr e -> 0 <= popcount a ->
  exists a', analyse_all (print_expr e ++ s) a = analyse_all s a' /\ analysed (expr_uses e) a a'.
Proof.
  induction e as [k | i | name | op e1 IH1 e2 IH2 | e IH | e IH]; intros s a Hw H0; cbn [print_expr wf_expr expr_uses app] in *;
    rewrite <- ?app_assoc.
  - rewrite analyse_percent by done. cbn [analyse_conversion ch hd tail Z.eqb Pos.eqb is_conversion orb app].
    rewrite skip_digits_decimal by lia. exists a. split; [done |]. analysed_now.
  - rewrite analyse_percent by done. cbn [analyse_conversion ch hd tail Z.eqb Pos.eqb is_conversion orb].
    rewrite (proj2 (Z.leb_le 0 _)), (proj2 (Z.leb_le _ 9)) by lia. cbn [andb tail].
    eexists. split; [done |]. analysed_now.
  - rewrite analyse_var by auto. exists a. split; [done |]. analysed_now.
  - destruct Hw as [Hw1 Hw2]. pose proof (binary_op_char op) as Hf. destruct (binary_op_plain _ _ Hf) as (Hp & _ & _ & Ho & _).
    destruct (IH1 (print_expr e2 ++ [37; op_char op] ++ s) a Hw1 H0) as (a1 & -> & A1).
    pose proof (analysed_0 _ _ _ (expr_uses_nonneg e1) H0 A1) as H1.
    destruct (IH2 ([37; op_char op] ++ s) a1 Hw2 H1) as (a2 & -> & A2).
    pose proof (analysed_0 _ _ _ (expr_uses_nonneg e2) H1 A2) as H2. cbn [app].
    destruct (analyse_step (op_char op) s a2 Hp H2) as (a3 & -> & A3); [auto |]. exists a3. split; [done |].
    replace (Z.max (expr_uses e1) (expr_uses e2)) with (Z.max (Z.max (expr_uses e1) (expr_uses e2)) 0)
      by (pose proof (expr_uses_nonneg e1); lia). eauto using analysed_trans.
  - destruct (IH ([37; 33] ++ s) a Hw H0) as (a1 & -> & A1). cbn [app].
    pose proof (analysed_0 _ _ _ (expr_uses_nonneg e) H0 A1) as H1.
    destruct (analyse_step 33 s a1 ltac:(done) H1) as (a2 & -> & A2); [auto |]. exists a2. split; [done |].
    rewrite <- (Z.max_l (expr_uses e) 0) by apply expr_uses_nonneg. eauto using analysed_trans.
  - destruct (IH ([37; 126] ++ s) a Hw H0) as (a1 & -> & A1). cbn [app].
    pose proof (analysed_0 _ _ _ (expr_uses_nonneg e) H0 A1) as H1.
    destruct (analyse_step 126 s a1 ltac:(done) H1) as (a2 & -> & A2); [auto |]. exists a2. split; [done |].
    rewrite <- (Z.max_l (expr_uses e) 0) by apply expr_uses_nonneg. eauto using analysed_trans.
Qed.

(** Chaining analyses: [u] is the larger number of parameters, [s] what is left. *)
Lemma analyse_chain u1 u2 s0 s1 s2 a a1 a2 :
  analyse_all s0 a = analyse_all s1 a1 -> analysed u1 a a1 ->
  analyse_all s1 a1 = analyse_all s2 a2 -> analysed u2 a1 a2 ->
  analyse_all s0 a = analyse_all s2 a2 /\ analysed (Z.max u1 u2) a a2.
Proof. intros E1 A1 E2 A2. split; [congruence |]. by eapply analysed_trans. Qed.

Lemma analyse_cap c : forall s a, wf_cap c -> 0 <= popcount a ->
  exists a', analyse_all (print_cap c ++ s) a = analyse_all s a' /\ analysed (cap_uses c) a a'.
Proof.
  induction c as [| c1 IH1 c2 IH2 | cs | | conv e | name e | | e c1 IH1 c2 IH2]; intros s a Hw H0;
    cbn [wf_cap cap_uses] in *; [.. | rewrite print_if_app]; cbn [print_cap app]; rewrite <- ?app_assoc.
  - exists a. split; [done | analysed_now].
  - destruct Hw as [Hw1 Hw2]. destruct (IH1 (print_cap c2 ++ s) a Hw1 H0) as (a1 & E1 & A1).
    destruct (IH2 s a1 Hw2 (analysed_0 _ _ _ (cap_uses_nonneg c1) H0 A1)) as (a2 & E2 & A2).
    exists a2. eapply analyse_chain; eauto.
  - exists a. split; [| analysed_now]. apply analyse_plain. eapply Forall_impl; [| apply Hw]. cbn. tauto.
  - apply analyse_step; auto; done.
  - destruct Hw as [Hc Hw]. destruct (analyse_expr e ([37; conv] ++ s) a Hw H0) as (a1 & E1 & A1).
    pose proof (analysed_0 _ _ _ (expr_uses_nonneg e) H0 A1) as H1.
    destruct (analyse_step conv s a1) as (a2 & E2 & A2); [by destruct Hc as [-> | [-> | ->]] | done | |].
    { left. by destruct Hc as [-> | [-> | ->]]. }
    exists a2. rewrite <- (Z.max_l (expr_uses e) 0) by apply expr_uses_nonneg. eapply analyse_chain; eauto.
  - destruct Hw as [Hl Hw]. destruct (analyse_expr e ([37; 80; name] ++ s) a Hw H0) as (a1 & E1 & A1).
    exists a1. split; [| done]. rewrite E1. cbn [app]. apply analyse_var. auto.
  - rewrite analyse_percent by done. cbn. eexists. split; [done |]. analysed_now.
  - destruct Hw as (Hw & Hw1 & Hw2).
    destruct (analyse_step 63 (print_expr e ++ 37 :: 116 :: print_cap c1 ++ 37 :: 101 :: print_cap c2 ++ 37 :: 59 :: s) a)
      as (a1 & -> & A1); [done | done | auto |].
    pose proof (analysed_0 0 _ _ ltac:(lia) H0 A1) as H1.
    destruct (analyse_expr e (37 :: 116 :: print_cap c1 ++ 37 :: 101 :: print_cap c2 ++ 37 :: 59 :: s) a1 Hw H1)
      as (a2 & -> & A2).
    pose proof (analysed_0 _ _ _ (expr_uses_nonneg e) H1 A2) as H2.
    destruct (analyse_step 116 (print_cap c1 ++ 37 :: 101 :: print_cap c2 ++ 37 :: 59 :: s) a2) as (a3 & -> & A3);
      [done | done | auto |].
    pose proof (analysed_0 0 _ _ ltac:(lia) H2 A3) as H3.
    destruct (IH1 (37 :: 101 :: print_cap c2 ++ 37 :: 59 :: s) a3 Hw1 H3) as (a4 & -> & A4).
    pose proof (analysed_0 _ _ _ (cap_uses_nonneg c1) H3 A4) as H4.
    destruct (analyse_step 101 (print_cap c2 ++ 37 :: 59 :: s) a4) as (a5 & -> & A5); [done | done | auto |].
    pose proof (analysed_0 0 _ _ ltac:(lia) H4 A5) as H5.
    destruct (IH2 (37 :: 59 :: s) a5 Hw2 H5) as (a6 & -> & A6).
    pose proof (analysed_0 _ _ _ (cap_uses_nonneg c2) H5 A6) as H6.
    destruct (analyse_step 59 s a6) as (a7 & -> & A7); [done | done | auto |].
    exists a7. split; [done |]. unfold analysed in *. pose proof (expr_uses_nonneg e). pose proof (cap_uses_nonneg c1).
    split_and!; [lia | lia | intuition congruence].
Qed.

(** *** The whole of [tparam_internal] *)

Lemma load_ints n : forall m args, (n <= m)%nat -> (n <= length args)%nat ->
  load_params n (repeat false m) (map ArgInt args) = Some (map ArgInt (take n args)).
Proof.
  induction n as [|n IH]; intros [|m] [|x args] Hm Ha; cbn [length] in Ha; try lia; [done.. |].
  cbn [repeat map load_params take]. by rewrite IH by lia.
Qed.

Lemma push_params_spec k args t : param t = map ArgInt args -> (k <= length args)%nat ->
  (length (stack t) + k <= 20)%nat ->
  exists t', push_params t k = Some t' /\ length (stack t') = (length (stack t) + k)%nat /\
    out_buff t' = out_buff t /\ param t' = param t /\ dynamic_var t' = dynamic_var t /\ static_vars t' = static_vars t.
Proof.
  intros Hp Hk. unfold push_params. revert t Hp. induction k as [|k IH]; intros t Hp Hs; [exists t; cbn; by rewrite Nat.add_0_r |].
  rewrite seq_S, rev_app_distr. cbn [rev app foldM Nat.add]. rewrite Hp, list_lookup_fmap.
  destruct (lookup_lt_is_Some_2 args k) as [x Hx]; [lia |]. rewrite Hx. cbn [fmap option_fmap option_map mbind option_bind].
  assert (stack (npush x t) = Num (u32 x) :: stack t /\ param (npush x t) = param t /\ out_buff (npush x t) = out_buff t /\
          dynamic_var (npush x t) = dynamic_var t /\ static_vars (npush x t) = static_vars t) as (E1 & E2 & E3 & E4 & E5).
  { unfold npush, push. rewrite (proj2 (Nat.ltb_lt _ _)) by (unfold STACKSIZE; lia). done. }
  destruct (IH ltac:(lia) (npush x t)) as (t' & -> & L & R); [by rewrite E2 | rewrite E1; cbn; lia |].
  exists t'. split; [done |]. rewrite E1 in L. cbn in L. rewrite E2, E3, E4, E5 in R. split; [lia | by rewrite <- Hp].
Qed.

Lemma tparm_runs c v l v' :
  wf_cap c -> (length (print_cap c) <= 256)%nat -> (cap_depth c <= 11)%nat ->
  Z.max (cap_uses c) (Z.min 9 (number (analyse_all (print_cap c) (Analysis 0 (-1) 0 (repeat false 9)))))
    <= Z.of_nat (length (e_param v)) -> cap_uses c <= 9 -> run c v = Some (l, v') -> (length l <= 254)%nat ->
  tparam_internal (print_cap c) (map ArgInt (e_param v)) (e_dyn v) (e_stat v)
  = Some (Some l, (e_dyn v', e_stat v')).
Proof.
  intros Hw Hl Hd Hp Hu Hr Hfit. unfold tparam_internal, MAX_FORMAT_LEN. rewrite (proj2 (Nat.ltb_ge _ _)) by done.
  fold (analyse_all (print_cap c) (Analysis 0 (-1) 0 (repeat false 9))).
  destruct (analyse_cap c [] (Analysis 0 (-1) 0 (repeat false 9)) Hw ltac:(cbn; lia)) as (a & Ea & A1 & A2 & A3).
  rewrite app_nil_r in Ea. rewrite Ea in *. change (analyse_all [] a) with a in *.
  cbn [number popcount p_is_s] in A1, A2, A3. rewrite A3. pose proof (cap_uses_nonneg c).
  rewrite Z.max_r in A2 by done. rewrite A2. set (k := Z.max (cap_uses c) (Z.min 9 (number a))).
  assert (0 <= k <= 9 /\ cap_uses c <= k) as [Hk Huk] by (unfold k; lia).
  rewrite load_ints by lia. cbn [mbind option_bind].
  set (t0 := Tparm [] [] (map ArgInt (take (Z.to_nat k) (e_param v))) (e_dyn v) (e_stat v)).
  assert (exists t, (if cap_uses c =? 0 then push_params t0 (Z.to_nat (Z.min 9 (number a))) else Some t0) = Some t /\
    (length (stack t) <= 9)%nat /\ out_buff t = [] /\ reflects (Z.to_nat k) v t) as (t & -> & Hs & Ho & Hrf).
  { destruct (cap_uses c =? 0); [| by exists t0; cbn; split_and!; try lia].
    destruct (push_params_spec (Z.to_nat (Z.min 9 (number a))) (take (Z.to_nat k) (e_param v)) t0)
      as (t & -> & L & O & P & D & S); [done | rewrite length_take; unfold k; lia | cbn; lia |].
    exists t. split; [done |]. split; [rewrite L; cbn; lia |].
    unfold reflects. by rewrite O, P, D, S. }
  cbn [mbind option_bind]. fold (expand_all (print_cap c) t).
  pose proof (expand_cap (Z.to_nat k) c v l v' [] t Hw Hrf ltac:(lia) ltac:(lia) ltac:(lia) Hr ltac:(rewrite Ho; cbn; lia)) as E.
  rewrite app_nil_r in E. rewrite E. unfold expand_all. cbn [length expand mbind option_bind].
  rewrite room_ok by (cbn; rewrite Ho; cbn; lia). cbn [mbind option_bind].
  unfold after. cbn [out_buff dynamic_var static_vars]. rewrite Ho. cbn [app].
  by rewrite (until_nul_id l) by (by eapply run_nonzero).
Qed.

(** C15. Expanding the escape sequences of a command of the terminfo language
    (expressions on 32-bit integers, printing, variables, nested conditionals)
    writes the text and leaves the variables that the meaning of the command
    says, when the text has at most 254 characters: the 256 bytes of the
    output buffer are not checked. The command has at most 256 characters and
    is nested at most 11 levels deep. *)
Theorem grub_tparm_runs c v l v' :
  wf_cap c -> (length (print_cap c) <= 256)%nat -> (cap_depth c <= 11)%nat ->
  length (e_param v) = 9%nat -> cap_uses c <= 9 -> run c v = Some (l, v') -> (length l <= 254)%nat ->
  grub_tparm (print_cap c) (map ArgInt (e_param v)) (e_dyn v) (e_stat v)
  = Some (Some l, (e_dyn v', e_stat v')).
Proof. intros. apply tparm_runs; try done; lia. Qed.

(** [%i%?%p1%{5}%>%tA%p1%d%eB%;%p2%x] *)
Definition sample_cap : cap :=
  CSeq CInc (CSeq (CIf (EBin BGt (EParam 0) (EConst 5)) (CSeq (CText [65]) (CPrint 100 (EParam 0))) (CText [66]))
                  (CPrint 120 (EParam 1))).

Lemma grub_tparm_runs_witness :
  let zeros := repeat 0 26 in
  print_cap sample_cap = bytes "%i%?%p1%{5}%>%tA%p1%d%eB%;%p2%x" /\
  grub_tparm (print_cap sample_cap) (map ArgInt [5; 14; 0; 0; 0; 0; 0; 0; 0]) zeros zeros
  = Some (Some (bytes "A6f"), (zeros, zeros)).
Proof.
  split; [reflexivity |].
  apply (grub_tparm_runs sample_cap (Env [5; 14; 0; 0; 0; 0; 0; 0; 0] (repeat 0 26) (repeat 0 26)) (bytes "A6f")
           (Env [6; 15; 0; 0; 0; 0; 0; 0; 0] (repeat 0 26) (repeat 0 26)));
    [cbn; repeat split; by eauto || lia || (repeat constructor; done) | apply Nat.leb_le; reflexivity | cbn; lia | reflexivity | cbn; lia | reflexivity | cbn; lia].
Defined.

(** The character after a delay [$<...>] is skipped with it. *)
Theorem expand_delay_eats ds c s t :
  Forall (fun d => d <> 62) ds -> expand_all ([36; 60] ++ ds ++ 62 :: c :: s) t = expand_all s t.
Proof.
  intros Hd. unfold expand_all at 1. cbn [app length]. remember (S (length (ds ++ 62 :: c :: s))) as f eqn:Hf.
  cbn [expand]. cbn [ch hd Z.eqb Pos.eqb andb].
  assert (skip_delay (36 :: 60 :: ds ++ 62 :: c :: s) = c :: s) as ->.
  { clear Hf. cbn [skip_delay Z.eqb Pos.eqb]. induction Hd as [|d ds Hd _ IH]; [done |]. cbn.
    by rewrite (proj2 (Z.eqb_neq d 62)). }
  cbn [tail]. apply expand_fuel; [rewrite Hf, length_app; cbn; lia | done].
Qed.

Lemma expand_delay_eats_witness :
  let t := Tparm [] [] [] [] [] in
  expand_all (bytes "$<5>") t = Some t /\ expand_all ([36; 60] ++ [53] ++ 62 :: 65 :: [66]) t = expand_all [66] t.
Proof. intros t. split; [reflexivity |]. apply (expand_delay_eats [53] 65 [66] t). by repeat constructor. Defined.

(** A width makes [%2d] print the letter [d] instead of the number. *)
Theorem grub_tparm_width_prints_conversion x dyn stat :
  grub_tparm (bytes "%p1%2d") [ArgInt x] dyn stat = Some (Some (bytes "d"), (dyn, stat)).
Proof. reflexivity. Qed.

(** A string of 256 characters is accepted, and its text has no room for the
    NUL: the code stores behind its buffer. *)
Theorem grub_tparm_overrun args dyn stat :
  grub_tparm (repeat 97 255) args dyn stat = Some (Some (repeat 97 255), (dyn, stat)) /\
  grub_tparm (repeat 97 256) args dyn stat = None.
Proof. split; reflexivity. Qed.
