(* ===== verification/Terminfo.v ===== *)
(** * GRUB's terminal capabilities

    [src/legacy/SZoS/grub-0.97/stage2/terminfo.c]: the escape notation in which
    capabilities are typed and shown, and the operations of a serial terminal,
    which expand a capability with [Tparm] and write it with [GrubTerm]. *)

From S2P Require Import Prelude Machine LibcString GrubString GrubTerm Tparm.

(** ** The code *)

Record terminfo := Terminfo {
  name : list Z;
  cursor_address : list Z;
  clear_screen : list Z;
  enter_standout_mode : list Z;
  exit_standout_mode : list Z }.

(** The initial value of [term]. *)
Definition term : terminfo :=
  Terminfo (bytes "vt100") (27 :: bytes "[%i%p1%d;%p2%dH") (27 :: bytes "[H" ++ 27 :: bytes "[J")
           (27 :: bytes "[7m") (27 :: bytes "[m").

(** [out_buffer], cut at [out]. *)
Record obuf := Obuf { before : list Z; at_out : list Z }.

(** [*out++ = c] and [*out = c]. *)
Definition emit (c : Z) (b : obuf) : obuf := Obuf (before b ++ [c]) (tail (at_out b)).
Definition poke (c : Z) (b : obuf) : obuf := Obuf (before b) (c :: tail (at_out b)).

(** The C string in the buffer. *)
Definition obuf_string (b : obuf) : list Z := until_nul (before b ++ at_out b).

(** The number after a backslash, and what is left from the character that ended
    it. *)
Fixpoint unescape_number (n : Z) (l : list Z) : Z * list Z :=
  match l with
  | c :: l' => if isdigit c then unescape_number ((n .<< 4) .| (c - 48)) l' else (n, l)
  | [] => (n, [])
  end.

(** The [switch] on the character after a backslash. *)
Definition unescape_letter (c : Z) (b : obuf) : obuf :=
  if (c =? 101) || (c =? 69) then emit 27 b
  else if c =? 110 then emit 10 b
  else if c =? 114 then emit 13 b
  else if c =? 116 then emit 9 b
  else if c =? 98 then emit 8 b
  else if c =? 102 then emit 12 b
  else if c =? 115 then emit 32 b
  else if c =? 92 then emit 92 b
  else if c =? 94 then emit 94 b
  else if c =? 44 then emit 44 b
  else if c =? 58 then emit 58 b
  else if c =? 48 then emit (s8 0x80) b
  else b.

(** The loop; [l] is the memory from [in] to [end], both included. *)
Fixpoint unescape_loop (fuel : nat) (l : list Z) (b : obuf) : obuf :=
  match fuel, l with
  | S f, c :: l =>
      if c =? 94
      then if (65 <=? ch l) && (ch l <=? 90) then unescape_loop f (tail l) (poke (ch l - 65) b)
           else unescape_loop f l (poke 94 b)
      else if c =? 92
      then if isdigit (ch l)
           then let '(n, l) := unescape_number 0 l in unescape_loop f l (emit (s8 (n .& 0xff)) b)
           else unescape_loop f (tail l) (unescape_letter (ch l) b)
      else unescape_loop f l (emit c b)
  | _, _ => b
  end.

(** [out_buffer] is static: it keeps what the last call left. *)
Definition ti_unescape_memory (l out_buffer : list Z) : obuf := unescape_loop (length l) l (Obuf [] out_buffer).

Definition ti_unescape_string (s out_buffer : list Z) : obuf := ti_unescape_memory (s ++ [0]) out_buffer.

(** The characters [ti_escape_memory] writes for one. *)
Definition is_alnum (c : Z) : bool :=
  (48 <=? c) && (c <=? 57) || (97 <=? c) && (c <=? 122) || (65 <=? c) && (c <=? 90).

Definition escape_char (c : Z) : list Z :=
  if c =? 27 then [92; 101]
  else if c =? 32 then [92; 115]
  else if c =? 92 then [92; 92]
  else if is_alnum c || bool_decide (c ∈ [37; 43; 45; 42; 47; 59; 58; 123; 125; 91; 93]) then [c]
  else if (0 <=? c) && (c <=? 25) then [94; 65 + c]
  else [92; ((c .>> 8) .& 7) + 48; ((c .>> 4) .& 7) + 48; ((c .>> 0) .& 7) + 48].

(** [do { ... } while (in < end);] [l] is the memory from [in] on. *)
Definition ti_escape_memory (l : list Z) : list Z := flat_map escape_char l.

Definition ti_escape_string (s : list Z) : list Z := ti_escape_memory (match s with [] => [0] | _ => s end).

Section Operations.
Variables (current_term : term_entry) (max_lines : Z).

(** The static variables of [grub_tparm] and the terminal. *)
Definition ti_state : Type := (list Z * list Z) * io.

(** [grub_putstr (grub_tparm (capability, ...))]; a null pointer is undefined. *)
Definition put_capability (cap : list Z) (args : list arg) (s : ti_state) : option ti_state :=
  let '((dyn, stat), s) := s in
  '(text, vars) ← grub_tparm cap args dyn stat;
  text ← text;
  s ← grub_putstr current_term max_lines text s;
  Some (vars, s).

Definition ti_cursor_address (t : terminfo) (x y : Z) : ti_state -> option ti_state :=
  put_capability (cursor_address t) [ArgInt y; ArgInt x].
Definition ti_clear_screen (t : terminfo) : ti_state -> option ti_state := put_capability (clear_screen t) [].
Definition ti_enter_standout_mode (t : terminfo) : ti_state -> option ti_state :=
  put_capability (enter_standout_mode t) [].
Definition ti_exit_standout_mode (t : terminfo) : ti_state -> option ti_state :=
  put_capability (exit_standout_mode t) [].
End Operations.

(** The structure is copied. *)
Definition ti_set_term (new : terminfo) (_ : terminfo) : terminfo := new.
Definition ti_get_term (t : terminfo) : terminfo := t.

(** ** Proofs: the escape notation *)

Lemma unescape_number_length l : forall n, (length (unescape_number n l).2 <= length l)%nat.
Proof.
  induction l as [|c l IH]; intros n; cbn [unescape_number]; [cbn; lia |].
  destruct (isdigit c); cbn [length snd]; [etrans; [apply IH | lia] | cbn; lia].
Qed.

(** Fuel for one round per character is enough. *)
Lemma unescape_fuel f : forall f' l b, (length l <= f)%nat -> (length l <= f')%nat ->
  unescape_loop f l b = unescape_loop f' l b.
Proof.
  induction f as [|f IH]; intros f' [|c l] b Hf Hf'; cbn [length] in *; [by destruct f' | lia | by destruct f' |].
  destruct f' as [|f']; [lia |]. cbn [unescape_loop]. pose proof (tail_shorter l).
  destruct (c =? 94); [destruct (_ && _); apply IH; lia |].
  destruct (c =? 92); [| apply IH; lia]. destruct (isdigit (ch l)); [| apply IH; lia].
  pose proof (unescape_number_length l 0). destruct (unescape_number 0 l) as [n l']. cbn in *. apply IH; lia.
Qed.

(** The characters that survive the two conversions. *)
Definition kept (c : Z) : Prop :=
  c = 27 \/ c = 32 \/ c = 92 \/ is_alnum c = true \/ c ∈ [37; 43; 45; 42; 47; 59; 58; 123; 125; 91; 93].

#[global] Instance kept_dec c : Decision (kept c).
Proof. unfold kept. apply _. Defined.

Lemma kept_plain c : kept c -> c <> 27 -> c <> 32 -> c <> 92 ->
  escape_char c = [c] /\ c <> 94 /\ c <> 0.
Proof.
  intros H H1 H2 H3. assert (is_alnum c = true \/ c ∈ [37; 43; 45; 42; 47; 59; 58; 123; 125; 91; 93]) as H'
    by (unfold kept in H; tauto). split.
  - unfold escape_char. rewrite !(proj2 (Z.eqb_neq _ _)) by done.
    destruct H' as [-> | H']; [done |]. by rewrite (bool_decide_eq_true_2 _ H'), orb_true_r.
  - destruct H' as [H' | H'].
    + unfold is_alnum in H'. split; intros ->; done.
    + rewrite !elem_of_cons, elem_of_nil in H'. lia.
Qed.

Definition unescape_all (l : list Z) (b : obuf) : obuf := unescape_loop (length l) l b.

Lemma unescape_plain c l b : c <> 94 -> c <> 92 -> unescape_all (c :: l) b = unescape_all l (emit c b).
Proof.
  intros H1 H2. unfold unescape_all. cbn [length unescape_loop].
  by rewrite (proj2 (Z.eqb_neq c 94)), (proj2 (Z.eqb_neq c 92)).
Qed.

Lemma unescape_backslash c l b : isdigit c = false ->
  unescape_all (92 :: c :: l) b = unescape_all l (unescape_letter c b).
Proof.
  intros H. unfold unescape_all. cbn [length]. remember (S (length l)) as f eqn:Hf.
  cbn [unescape_loop]. cbn [Z.eqb Pos.eqb ch hd tail]. rewrite H. apply unescape_fuel; lia.
Qed.

Lemma emit_all_before cs b : before (foldl (fun b c => emit c b) b cs) = before b ++ cs.
Proof.
  revert b. induction cs as [|c cs IH]; intros b; cbn; [by rewrite app_nil_r |].
  rewrite IH. unfold emit. cbn. by rewrite <- app_assoc.
Qed.

(** The escapes of kept characters are read back one by one. *)
Lemma unescape_escape cs l b : Forall kept cs ->
  unescape_all (flat_map escape_char cs ++ l) b = unescape_all l (foldl (fun b c => emit c b) b cs).
Proof.
  intros H. revert b. induction H as [|c cs Hc _ IH]; intros b; cbn [flat_map foldl]; [done |].
  rewrite <- app_assoc. destruct (decide (c = 27)) as [-> |]; [| destruct (decide (c = 32)) as [-> |];
    [| destruct (decide (c = 92)) as [-> |]]].
  - change (escape_char 27) with [92; 101]. cbn [app]. by rewrite unescape_backslash.
  - change (escape_char 32) with [92; 115]. cbn [app]. by rewrite unescape_backslash.
  - change (escape_char 92) with [92; 92]. cbn [app]. by rewrite unescape_backslash.
  - destruct (kept_plain c Hc) as (-> & H1 & H2); [done.. |]. cbn [app]. by rewrite unescape_plain.
Qed.

Lemma obuf_string_nul b l : Forall (fun c => c <> 0) l -> before b = l ++ [0] -> obuf_string b = l.
Proof.
  intros H Hb. unfold obuf_string. rewrite Hb, <- app_assoc. clear Hb. cbn [app].
  induction H as [|c l Hc _ IH]; [done |]. cbn. by rewrite (proj2 (Z.eqb_neq c 0)), IH.
Qed.

Lemma kept_nonzero c : kept c -> c <> 0.
Proof. intros H ->. unfold kept in H. rewrite !elem_of_cons, elem_of_nil in H. cbn in H. intuition lia. Qed.

(** Escaping and unescaping gives the string back when it is made of escapes,
    spaces, backslashes, letters, digits and the punctuation that is written
    as it is. *)
Theorem ti_escape_roundtrip s out_buffer : s <> [] -> Forall kept s ->
  obuf_string (ti_unescape_string (ti_escape_string s) out_buffer) = s.
Proof.
  intros Hne H. unfold ti_unescape_string, ti_unescape_memory.
  fold (unescape_all (ti_escape_string s ++ [0]) (Obuf [] out_buffer)).
  replace (ti_escape_string s) with (flat_map escape_char s) by (by destruct s).
  rewrite unescape_escape, unescape_plain by done. unfold unescape_all. cbn [length unescape_loop].
  apply obuf_string_nul; [eapply Forall_impl; [| apply H]; apply kept_nonzero |].
  unfold emit at 1. cbn [before]. by rewrite emit_all_before.
Qed.

Lemma ti_escape_roundtrip_witness :
  ti_escape_string (cursor_address term) = bytes "\e[%i%p1%d;%p2%dH" /\
  obuf_string (ti_unescape_string (bytes "\e[%i%p1%d;%p2%dH") (repeat 0 256)) = cursor_address term.
Proof.
  split; [reflexivity |].
  change (bytes "\e[%i%p1%d;%p2%dH") with (ti_escape_string (cursor_address term)).
  apply (ti_escape_roundtrip (cursor_address term) (repeat 0 256)); [done |].
  apply (bool_decide_unpack _). vm_compute. exact I.
Defined.

(** A caret and a capital letter leave nothing in the string. *)
Lemma unescape_caret c d l b : 65 <= c <= 90 -> d <> 94 -> d <> 92 ->
  unescape_all (94 :: c :: d :: l) b = unescape_all (d :: l) b.
Proof.
  intros Hc Hd1 Hd2.
  transitivity (unescape_all (d :: l) (poke (c - 65) b)).
  - unfold unescape_all at 1. cbn [length]. remember (S (S (length l))) as f eqn:Hf. cbn [unescape_loop].
    cbn [Z.eqb Pos.eqb ch hd tail]. rewrite (proj2 (Z.leb_le 65 c)), (proj2 (Z.leb_le c 90)) by lia. cbn [andb].
    apply unescape_fuel; cbn; lia.
  - by rewrite !unescape_plain by done.
Qed.

(** A control character typed as a caret and a capital letter leaves nothing
    in the string. *)
Theorem ti_unescape_caret_lost pre c post out_buffer :
  Forall (fun x => x <> 94 /\ x <> 92) pre -> 65 <= c <= 90 ->
  match post with [] => True | d :: _ => d <> 94 /\ d <> 92 end ->
  ti_unescape_string (pre ++ 94 :: c :: post) out_buffer = ti_unescape_string (pre ++ post) out_buffer.
Proof.
  intros Hp Hc Hd. unfold ti_unescape_string, ti_unescape_memory.
  fold (unescape_all ((pre ++ 94 :: c :: post) ++ [0]) (Obuf [] out_buffer)).
  fold (unescape_all ((pre ++ post) ++ [0]) (Obuf [] out_buffer)).
  generalize (Obuf [] out_buffer). rewrite <- !app_assoc.
  induction Hp as [|x pre [Hx1 Hx2] _ IH]; intros b; cbn [app].
  - destruct post as [|d post]; cbn [app]; apply unescape_caret; done || tauto.
  - rewrite !unescape_plain by done. apply IH.
Qed.

Lemma ti_unescape_caret_lost_witness :
  ti_unescape_string (bytes "a" ++ 94 :: 67 :: bytes "b") [] = ti_unescape_string (bytes "a" ++ bytes "b") [] /\
  obuf_string (ti_unescape_string (bytes "a^Cb") []) = bytes "ab".
Proof.
  split; [| reflexivity]. apply (ti_unescape_caret_lost (bytes "a") 67 (bytes "b") []); [by repeat constructor | lia | done].
Defined.

(** ** Proofs: the operations *)

Section OperationProofs.
Variables (current_term : term_entry) (max_lines : Z).

(** A capability without parameters or special characters is written as it is. *)
Lemma expand_verbatim cap dyn stat : (length cap <= 254)%nat ->
  Forall (fun x => x <> 0 /\ x <> 36 /\ x <> 37) cap ->
  grub_tparm cap [] dyn stat = Some (Some cap, (dyn, stat)).
Proof.
  intros Hl Hc. unfold grub_tparm, tparam_internal, MAX_FORMAT_LEN. rewrite (proj2 (Nat.ltb_ge _ _)) by lia.
  fold (analyse_all cap (Analysis 0 (-1) 0 (repeat false 9))).
  pose proof (analyse_plain [] (Analysis 0 (-1) 0 (repeat false 9)) cap) as E. rewrite app_nil_r in E.
  rewrite E by (eapply Forall_impl; [| apply Hc]; cbn; tauto). change (analyse_all [] ?a) with a.
  cbn [number popcount p_is_s]. change (Z.to_nat (Z.max 0 (Z.min 9 0))) with 0%nat.
  change (Z.to_nat (Z.min 9 0)) with 0%nat. cbn [load_params mbind option_bind Z.eqb push_params rev seq foldM].
  fold (expand_all cap (Tparm [] [] [] dyn stat)).
  pose proof (expand_plain_text 0 cap (Env [] dyn stat) [] (Tparm [] [] [] dyn stat) Hc) as E2.
  rewrite app_nil_r in E2. rewrite E2 by (done || (cbn; lia)). unfold expand_all. cbn [length expand mbind option_bind].
  rewrite room_ok by (cbn; lia). cbn [mbind option_bind]. unfold after. cbn. rewrite until_nul_id; [done |]. eapply Forall_impl; [| apply Hc]. cbn. tauto.
Qed.

Lemma decimal_short n : 0 < n <= 2147483648 -> (length (decimal n) <= 10)%nat.
Proof. intros Hn. apply (digits_loop (fun d => d) 10 n []). cbn. lia. Qed.

Definition cup : cap :=
  CSeq (CText [27; 91]) (CSeq CInc (CSeq (CPrint 100 (EParam 0)) (CSeq (CText [59]) (CSeq (CPrint 100 (EParam 1)) (CText [72]))))).

Lemma expand_cup x y dyn stat : 0 <= x < 2147483647 -> 0 <= y < 2147483647 ->
  grub_tparm (cursor_address term) [ArgInt y; ArgInt x] dyn stat
  = Some (Some ([27; 91] ++ map (fun d => 48 + d) (decimal (y + 1)) ++ [59] ++ map (fun d => 48 + d) (decimal (x + 1)) ++ [72]),
          (dyn, stat)).
Proof.
  intros Hx Hy. change (cursor_address term) with (print_cap cup).
  unfold grub_tparm. apply (tparm_runs cup (Env [y; x] dyn stat) ([27; 91] ++ map (fun d => 48 + d) (decimal (y + 1))
    ++ [59] ++ map (fun d => 48 + d) (decimal (x + 1)) ++ [72]) (Env [y + 1; x + 1] dyn stat)).
  - cbn. repeat split; auto; lia || (repeat constructor; done).
  - apply Nat.leb_le. reflexivity.
  - cbn. lia.
  - apply Z.leb_le. reflexivity.
  - cbn. lia.
  - cbn [run cup e_param eval shown mbind option_bind fmap option_fmap option_map Z.eqb Pos.eqb]. cbn.
    rewrite !(s32_small (_ + 1)) by lia.
    rewrite !(convert_decimal 100) by (done || apply u32_range). rewrite !u32_small by lia.
    unfold printed_sign, printed_num. rewrite !(proj2 (Z.leb_gt 2147483648 _)) by lia. done.
  - pose proof (decimal_short (x + 1) ltac:(lia)). pose proof (decimal_short (y + 1) ltac:(lia)).
    rewrite !length_app, !length_map. cbn [length]. lia.
Qed.

(** Text without line feeds and tabs goes to the terminal as it is. *)
Lemma putstr_raw text s : Forall (fun c => c <> 9 /\ c <> 10) text -> count_lines s < 0 ->
  grub_putstr current_term max_lines text s = Some (Io (put_calls text ++ calls s) (keys s) (count_lines s)).
Proof.
  intros Ht Hl. unfold grub_putstr, grub_putchar. rewrite putstr_plain; [| | done | lia].
  - do 3 f_equal. f_equal. induction Ht as [|c text [_ Hc] _ IH]; [done |]. unfold crlf in *. cbn [flat_map].
    rewrite IH. by rewrite (proj2 (Z.eqb_neq c 10)).
  - right. intros H9. rewrite list_elem_of_lookup in H9. destruct H9 as [i Hi].
    by destruct (proj1 (Forall_lookup _ text) Ht i 9 Hi).
Qed.

Lemma decimal_chars n : 0 <= n -> Forall (fun c => c <> 9 /\ c <> 10) (map (fun d => 48 + d) (decimal n)).
Proof. intros Hn. apply Forall_map. eapply Forall_impl; [| by apply decimal_digits]. cbn. lia. Qed.

Lemma put_verbatim cap dyn stat s : (length cap <= 254)%nat ->
  Forall (fun x => x <> 0 /\ x <> 36 /\ x <> 37 /\ x <> 9 /\ x <> 10) cap -> count_lines s < 0 ->
  put_capability current_term max_lines cap [] ((dyn, stat), s)
  = Some ((dyn, stat), Io (put_calls cap ++ calls s) (keys s) (count_lines s)).
Proof.
  intros Hl Hc Hn. unfold put_capability. rewrite expand_verbatim; [| done | eapply Forall_impl; [| apply Hc]; cbn; tauto].
  cbn [mbind option_bind]. rewrite putstr_raw; [done | | done]. eapply Forall_impl; [| apply Hc]; cbn; tauto.
Qed.
End OperationProofs.

(** On the default terminal the four operations write the ANSI sequences: the
    cursor position in decimal counted from one with the row first, clear,
    standout on and off. *)
Theorem ti_vt100_sequences current_term max_lines x y vars s :
  0 <= x < 2147483647 -> 0 <= y < 2147483647 -> count_lines s < 0 ->
  let wrote text := Some (vars, Io (put_calls text ++ calls s) (keys s) (count_lines s)) in
  ti_cursor_address current_term max_lines term x y (vars, s)
  = wrote ([27; 91] ++ map (fun d => 48 + d) (decimal (y + 1)) ++ [59] ++ map (fun d => 48 + d) (decimal (x + 1)) ++ [72]) /\
  ti_clear_screen current_term max_lines term (vars, s) = wrote (27 :: bytes "[H" ++ 27 :: bytes "[J") /\
  ti_enter_standout_mode current_term max_lines term (vars, s) = wrote (27 :: bytes "[7m") /\
  ti_exit_standout_mode current_term max_lines term (vars, s) = wrote (27 :: bytes "[m").
Proof.
  intros Hx Hy Hl wrote. destruct vars as [dyn stat]. split.
  - unfold ti_cursor_address, put_capability. rewrite expand_cup by done. cbn [mbind option_bind].
    rewrite putstr_raw; [done | | done]. pose proof (decimal_chars (y + 1) ltac:(lia)).
    pose proof (decimal_chars (x + 1) ltac:(lia)). cbn [app].
    do 2 (apply Forall_cons_iff; split; [lia |]). apply Forall_app. split; [done |].
    cbn [app]. apply Forall_cons_iff; split; [lia |]. apply Forall_app. split; [done |]. by repeat constructor.
  - unfold ti_clear_screen, ti_enter_standout_mode, ti_exit_standout_mode, wrote.
    cbn [clear_screen enter_standout_mode exit_standout_mode term].
    rewrite !put_verbatim; try done; try (apply Nat.leb_le; reflexivity);
      apply (bool_decide_unpack _); vm_compute; exact I.
Qed.

Lemma ti_vt100_sequences_witness :
  let s := Io [] [] (-1) in
  ti_cursor_address (TermEntry 0 None false None) 24 term 79 0 (([], []), s)
  = Some (([], []), Io (put_calls (27 :: bytes "[1;80H")) [] (-1)).
Proof.
  intros s. destruct (ti_vt100_sequences (TermEntry 0 None false None) 24 79 0 ([], []) s) as [H _]; [lia | lia | cbn; lia |].
  rewrite H. reflexivity.
Defined.
