(* ===== verification/GrubReadline.v ===== *)
(** * GRUB's command-line editor

    [get_cmdline] and [real_get_cmdline] of
    [src/legacy/SZoS/grub-0.97/stage2/char_io.c]: a line is edited in byte
    memory with [grub_memmove] and shown on one row of the terminal, a section
    at a time.  The completion of TAB ([print_completions] of [disk_io.c]) is a
    parameter. *)

From S2P Require Import Prelude Machine LibcString GrubString GrubTerm.

(** ** The code *)

Definition MAX_CMDLINE : Z := 1600.
Definition CMDLINE_BUF : Z := 0x78000 + 0x200 + 0x60.
Definition KILL_BUF : Z := CMDLINE_BUF + MAX_CMDLINE.
Definition HISTORY_BUF : Z := KILL_BUF + MAX_CMDLINE.
Definition HISTORY_SIZE : Z := 5.
Definition COMPLETION_BUF : Z := HISTORY_BUF + MAX_CMDLINE * HISTORY_SIZE.
Definition CMDLINE_WIDTH : Z := 78.
Definition CMDLINE_MARGIN : Z := 10.

(** The variables of [real_get_cmdline], [num_history], [errnum], memory and the
    terminal. *)
Record ed := Ed {
  xpos : Z; lpos : Z; section : Z; llen : Z; history : Z; num_history : Z;
  e_err : grub_error; e_mem : mem; e_io : io }.

Definition set_view (x sec : Z) (s : ed) : ed :=
  Ed x (lpos s) sec (llen s) (history s) (num_history s) (e_err s) (e_mem s) (e_io s).
Definition set_line (pos len : Z) (s : ed) : ed :=
  Ed (xpos s) pos (section s) len (history s) (num_history s) (e_err s) (e_mem s) (e_io s).
Definition set_hist (h n : Z) (s : ed) : ed :=
  Ed (xpos s) (lpos s) (section s) (llen s) h n (e_err s) (e_mem s) (e_io s).
Definition set_store (st : grub_error * mem) (s : ed) : ed :=
  Ed (xpos s) (lpos s) (section s) (llen s) (history s) (num_history s) (fst st) (snd st) (e_io s).
Definition set_term (i : io) (s : ed) : ed :=
  Ed (xpos s) (lpos s) (section s) (llen s) (history s) (num_history s) (e_err s) (e_mem s) i.

(** The C string at an address, of less than 64 kilobytes. *)
Fixpoint read_cstr (fuel : nat) (m : mem) (a : Z) : list Z :=
  match fuel with
  | O => []
  | S f => if ld m a =? 0 then [] else s8 (ld m a) :: read_cstr f m (a + 1)
  end.
Definition cstring (m : mem) (a : Z) : list Z := read_cstr (Z.to_nat 0x10000) m a.

Section Editor.
Variables (current_term : term_entry) (max_lines mem_lower mem_upper : Z).

(** [print_completions (is_filename, is_completion)]: what it returns, memory and
    the terminal; [None] when it does not return. *)
Variable print_completions : bool -> bool -> mem * io -> option (Z * (mem * io)).

(** The arguments, [maxlen] after its limit, and the address of the local array
    that holds a typed character. *)
Variables (prompt : list Z) (cmdline maxlen echo_char : Z) (readline : bool) (local_str : Z).

Definition move (to from len : Z) (s : ed) : ed :=
  set_store (snd (grub_memmove mem_lower mem_upper to from len (e_err s, e_mem s))) s.
Definition copy_string (to from : Z) (s : ed) : ed :=
  set_store (snd (grub_strcpy mem_lower mem_upper to from (cstring (e_mem s) from) (e_err s, e_mem s))) s.
Definition store (a v : Z) (s : ed) : ed := set_store (e_err s, st (e_mem s) a v) s.

Definition put (c : Z) (s : ed) : option ed :=
  i ← grub_putchar current_term max_lines c (e_io s); Some (set_term i s).
Definition put_all (l : list Z) (s : ed) : option ed := foldM put l s.

(** [buf[i]], or [echo_char] in its place. *)
Definition shown_char (s : ed) (i : Z) : Z :=
  if echo_char =? 0 then s8 (ld (e_mem s) (CMDLINE_BUF + i)) else echo_char.

Definition plen : Z := grub_strlen prompt.

Definition is_dumb : bool := negb (term_flags current_term .& TERM_DUMB =? 0).

(** [gotoxy (xpos, getxy () & 0xFF)] *)
Definition goto_x (x : Z) (s : ed) : ed :=
  set_term (gotoxy x (getxy current_term (e_io s) .& 0xFF) (e_io s)) s.

(** The index of the first character of a section. *)
Definition section_start (sec : Z) : Z :=
  if sec =? 0 then 0
  else (sec - 1) * (CMDLINE_WIDTH - 1 - CMDLINE_MARGIN) + CMDLINE_WIDTH - plen - CMDLINE_MARGIN.

(** The first block of [cl_refresh]: the section, [len] and [pos] of a full
    refresh. *)
Definition refresh_begin (s : ed) : option (ed * (Z * Z)) :=
  let sec := if lpos s + plen <? CMDLINE_WIDTH then 0
             else Z.quot (lpos s + plen - CMDLINE_WIDTH) (CMDLINE_WIDTH - 1 - CMDLINE_MARGIN) + 1 in
  let s := set_view (xpos s) sec s in
  s ← put 13 s;
  if sec =? 0
  then s ← put_all prompt s; Some (s, (CMDLINE_WIDTH - plen, plen))
  else s ← put 60 s; Some (s, (CMDLINE_WIDTH - 1, 1)).

(** The rest of [cl_refresh], from the computation of the start. *)
Definition refresh_draw (offset len pos : Z) (s : ed) : option ed :=
  let start := section_start (section s) in
  let s := set_view (if section s =? 0 then lpos s + plen else lpos s + 1 - start) (section s) s in
  let start := start + offset in
  (* for (i = start; i < start + len && i < llen; i++) *)
  let i := Z.max start (Z.min (start + len) (llen s)) in
  s ← foldM (fun i s => put (shown_char s i) s) (seqZ start (i - start)) s;
  (* for (; i < start + len; i++) *)
  s ← put_all (repeat 32 (Z.to_nat (start + len - i))) s;
  let pos := pos + Z.max len 0 in
  '(s, pos) ← (if pos =? CMDLINE_WIDTH
               then s ← put (if start + len <? llen s then 62 else 32) s; Some (s, pos + 1)
               else Some (s, pos));
  if is_dumb then put_all (repeat 8 (Z.to_nat (pos - xpos s))) s
  else Some (goto_x (xpos s) s).

Definition cl_refresh (full : bool) (len : Z) (s : ed) : option ed :=
  if full
  then '(s, (len, pos)) ← refresh_begin s; refresh_draw 0 len pos s
  else refresh_draw (xpos s - (if section s =? 0 then plen else 1)) len (xpos s) s.

Definition cl_backward (count : Z) (s : ed) : option ed :=
  let s := set_line (lpos s - count) (llen s) s in
  if (section s =? 1) && (plen + lpos s <? CMDLINE_WIDTH) then cl_refresh true 0 s
  else if xpos s - count <? 1 then cl_refresh true 0 s
  else
    let s := set_view (xpos s - count) (section s) s in
    if is_dumb then put_all (repeat 8 (Z.to_nat count)) s else Some (goto_x (xpos s) s).

Definition cl_forward (count : Z) (s : ed) : option ed :=
  let s := set_line (lpos s + count) (llen s) s in
  if CMDLINE_WIDTH <=? xpos s + count then cl_refresh true 0 s
  else
    let s := set_view (xpos s + count) (section s) s in
    if is_dumb then foldM (fun i s => put (shown_char s i) s) (seqZ (lpos s - count) count) s
    else Some (goto_x (xpos s) s).

Definition cl_init (s : ed) : option ed := s ← put 10 s; cl_refresh true 0 s.

(** [str] is an address. *)
Definition cl_insert (str : Z) (s : ed) : option ed :=
  let l := grub_strlen (cstring (e_mem s) str) in
  if llen s + l <? maxlen
  then
    let s := if lpos s =? llen s then move (CMDLINE_BUF + lpos s) str (l + 1) s
             else move (CMDLINE_BUF + lpos s) str l
                    (move (CMDLINE_BUF + lpos s + l) (CMDLINE_BUF + lpos s) (llen s - lpos s + 1) s) in
    let s := set_line (lpos s + l) (llen s + l) s in
    if CMDLINE_WIDTH <=? xpos s + l then cl_refresh true 0 s
    else if CMDLINE_WIDTH <? xpos s + l + llen s - lpos s then cl_refresh false (CMDLINE_WIDTH - xpos s) s
    else cl_refresh false (l + llen s - lpos s) s
  else Some s.

Definition cl_delete (count : Z) (s : ed) : option ed :=
  let s := move (CMDLINE_BUF + lpos s) (CMDLINE_BUF + lpos s + count) (llen s - count + 1) s in
  let s := set_line (lpos s) (llen s - count) s in
  if CMDLINE_WIDTH <? xpos s + llen s + count - lpos s then cl_refresh false (CMDLINE_WIDTH - xpos s) s
  else cl_refresh false (llen s + count - lpos s) s.

(** *** The history *)

(** [None] for a null pointer. *)
Definition get_history (no : Z) (s : ed) : option Z :=
  if (no <? 0) || (num_history s <=? no) then None else Some (HISTORY_BUF + MAX_CMDLINE * no).

Definition add_history (line no : Z) (s : ed) : ed :=
  let s := move (HISTORY_BUF + MAX_CMDLINE * (no + 1)) (HISTORY_BUF + MAX_CMDLINE * no)
                (MAX_CMDLINE * (num_history s - no)) s in
  let s := copy_string (HISTORY_BUF + MAX_CMDLINE * no) line s in
  if num_history s <? HISTORY_SIZE then set_hist (history s) (num_history s + 1) s else s.

(** [else if (grub_strcmp (get_history (history), buf) != 0) add_history (buf, history);] *)
Definition save_modified (s : ed) : ed :=
  match get_history (history s) s with
  | Some h => if grub_strcmp (cstring (e_mem s) h) (cstring (e_mem s) CMDLINE_BUF) =? 0 then s
              else add_history CMDLINE_BUF (history s) s
  | None => s
  end.

(** [grub_strcpy (buf, p); llen = grub_strlen (buf); lpos = llen; cl_refresh (1, 0);] *)
Definition fetch_line (p : Z) (s : ed) : option ed :=
  let s := copy_string CMDLINE_BUF p s in
  let n := grub_strlen (cstring (e_mem s) CMDLINE_BUF) in
  cl_refresh true 0 (set_line n n s).

Definition previous_command (s : ed) : option ed :=
  let s := if history s <? 0 then copy_string cmdline CMDLINE_BUF s else save_modified s in
  match get_history (history s + 1) s with
  | None => Some s
  | Some p => fetch_line p (set_hist (history s + 1) (num_history s) s)
  end.

Definition next_command (s : ed) : option ed :=
  if history s <? 0 then Some s
  else
    let s := save_modified s in
    let s := set_hist (history s - 1) (num_history s) s in
    fetch_line (default cmdline (get_history (history s) s)) s.

(** *** Completion *)

Definition buf_at (s : ed) (i : Z) : Z := s8 (ld (e_mem s) (CMDLINE_BUF + i)).

(** [while (cond (buf[pos])) pos++;] *)
Definition scan_buf (cond : Z -> bool) (s : ed) (pos : Z) : option Z :=
  while (Z.to_nat 0x10000) (fun i => cond (buf_at s i)) (fun i => Some (i + 1)) pos.

(** The start of the word before the cursor. *)
Definition word_start (s : ed) : Z :=
  default 0 (while (Z.to_nat (lpos s)) (fun i => (0 <? i) && negb (buf_at s (i - 1) =? 32)) (fun i => Some (i - 1)) (lpos s)).

Definition run_completions (is_filename is_completion : bool) (s : ed) : option (Z * ed) :=
  '(ret, (m, i)) ← print_completions is_filename is_completion (e_mem s, e_io s);
  Some (ret, set_term i (set_store (ERR_NONE, m) s)).

Definition complete (s : ed) : option ed :=
  pos ← scan_buf (fun c => c =? 32) s 0;
  pos ← scan_buf (fun c => negb (c =? 0) && negb (c =? 61) && negb (c =? 32)) s pos;
  let is_filename := pos <? lpos s in
  i ← scan_buf (fun c => negb (c =? 0) && negb (c =? 32) && negb (c =? 61)) s pos;
  let equal_pos := if buf_at s i =? 61 then i else -1 in
  let s := if 0 <=? equal_pos then store (CMDLINE_BUF + equal_pos) 32 s else s in
  let i := word_start s in
  let s := move COMPLETION_BUF (CMDLINE_BUF + i) (lpos s - i) s in
  let s := store (COMPLETION_BUF + (lpos s - i)) 0 s in
  '(ret, s) ← run_completions is_filename true s;
  s ← (if 0 <=? ret
       then s ← cl_insert (COMPLETION_BUF + lpos s - i) s;
            if 0 <? ret
            then s ← put 10 s; '(_, s) ← run_completions is_filename false s; Some s
            else Some s
       else Some s);
  let s := if 0 <=? equal_pos then store (CMDLINE_BUF + equal_pos) 61 s else s in
  if negb (ret =? 0) then cl_init s else Some s.

(** *** The keys *)

(** The [switch] for [readline]. *)
Definition readline_key (c : Z) (s : ed) : option ed :=
  if c =? 9 then complete s
  else if c =? 1 then cl_backward (lpos s) s
  else if c =? 5 then cl_forward (llen s - lpos s) s
  else if c =? 6 then if lpos s <? llen s then cl_forward 1 s else Some s
  else if c =? 2 then if 0 <? lpos s then cl_backward 1 s else Some s
  else if c =? 21 then
    if lpos s =? 0 then Some s
    else let s := move KILL_BUF CMDLINE_BUF (lpos s) s in
         let s := store (KILL_BUF + lpos s) 0 s in
         let count := lpos s in
         s ← cl_backward (lpos s) s; cl_delete count s
  else if c =? 11 then
    if lpos s =? llen s then Some s
    else cl_delete (llen s - lpos s) (move KILL_BUF (CMDLINE_BUF + lpos s) (llen s - lpos s + 1) s)
  else if c =? 25 then cl_insert KILL_BUF s
  else if c =? 16 then previous_command s
  else if c =? 14 then next_command s
  else Some s.

(** The [switch] that follows, without ESC. *)
Definition basic_key (c : Z) (s : ed) : option ed :=
  if c =? 4 then if lpos s =? llen s then Some s else cl_delete 1 s
  else if c =? 8 then if 0 <? lpos s then s ← cl_backward 1 s; cl_delete 1 s else Some s
  else if (32 <=? c) && (c <=? 126)
  then cl_insert local_str (store (local_str + 1) 0 (store local_str c s))
  else Some s.

Definition edit_key (c : Z) (s : ed) : option ed :=
  s ← (if readline then readline_key c s else Some s); basic_key c s.

(** The loop: [false] when ESC ended it.  [None] waits for ever; a round takes at
    least one key. *)
Fixpoint edit_loop (fuel : nat) (s : ed) : option (bool * ed) :=
  match fuel with
  | O => None
  | S f =>
      '(k, i) ← getkey (e_io s);
      let s := set_term i s in
      let c := ASCII_CHAR k in
      if (c =? 10) || (c =? 13) then Some (true, s)
      else if c =? 27 then Some (false, s)
      else s ← edit_key c s; edit_loop f s
  end.

(** What follows the loop. *)
Definition finish_line (s : ed) : option ed :=
  s ← put 10 s;
  pos ← (if echo_char =? 0 then scan_buf (fun c => c =? 32) s 0 else Some 0);
  let s := set_line pos (llen s) s in
  let s := move cmdline (CMDLINE_BUF + lpos s) (llen s - lpos s + 1) s in
  Some (if readline && (lpos s <? llen s) then add_history cmdline 0 s else s).

(** The body of [real_get_cmdline] once [maxlen] is limited; [llen] is the length
    of the line given. *)
Definition edit_line (len : Z) (s : ed) : option (Z * ed) :=
  let s := set_hist (-1) (num_history s) (set_line len len s) in
  let s := copy_string CMDLINE_BUF cmdline s in
  s ← cl_init s;
  '(entered, s) ← edit_loop (S (length (keys (e_io s)))) s;
  if (entered : bool) then s ← finish_line s; Some (0, s) else Some (1, s).
End Editor.

Section Commands.
Variables (current_term : term_entry) (max_lines mem_lower mem_upper : Z).
Variable print_completions : bool -> bool -> mem * io -> option (Z * (mem * io)).

Definition real_get_cmdline (prompt : list Z) (cmdline maxlen echo_char : Z) (readline : bool) (local_str : Z) (s : ed)
  : option (Z * ed) :=
  let len := grub_strlen (cstring (e_mem s) cmdline) in
  let '(maxlen, len, s) :=
    if MAX_CMDLINE <? maxlen
    then if MAX_CMDLINE <=? len then (MAX_CMDLINE, MAX_CMDLINE - 1, store (cmdline + MAX_CMDLINE) 0 s)
         else (MAX_CMDLINE, len, s)
    else (maxlen, len, s) in
  edit_line current_term max_lines mem_lower mem_upper print_completions prompt cmdline maxlen echo_char readline
    local_str len s.

(** The loop of [get_cmdline] for a terminal that cannot edit: [p], the result
    and the state; [None] waits for ever. *)
Fixpoint simple_loop (fuel : nat) (no_echo : bool) (cmdline p : Z) (s : ed) : option (bool * Z * ed) :=
  match fuel with
  | O => None
  | S f =>
      '(k, i) ← getkey (e_io s);
      let s := set_term i s in
      let c := ASCII_CHAR k in
      if (c =? 10) || (c =? 13) then Some (true, p, s)
      else if c =? 27 then Some (false, p, s)
      else if (32 <=? c) && (c <=? 126)
      then s ← (if no_echo then Some s else put current_term max_lines c s);
           if negb (c =? 32) || negb (p =? cmdline)
           then simple_loop f no_echo cmdline (p + 1) (store p c s)
           else simple_loop f no_echo cmdline p s
      else simple_loop f no_echo cmdline p s
  end.

Definition get_cmdline (prompt : list Z) (cmdline maxlen echo_char : Z) (readline : bool) (local_str : Z) (s : ed)
  : option (Z * ed) :=
  let '(old_cursor, i) := setcursor current_term 1 (e_io s) in
  let s := set_term i s in
  let restore s := set_term (snd (setcursor current_term old_cursor (e_io s))) s in
  if negb (term_flags current_term .& (TERM_NO_ECHO .| TERM_NO_EDIT) =? 0)
  then
    let no_echo := negb (term_flags current_term .& TERM_NO_ECHO =? 0) in
    s ← put_all current_term max_lines prompt s;
    '(entered, p, s) ← simple_loop (S (length (keys (e_io s)))) no_echo cmdline cmdline s;
    if (entered : bool)
    then let s := store p 0 s in
         s ← (if no_echo then Some s else put current_term max_lines 10 s);
         Some (0, restore s)
    else Some (1, restore s)
  else
    '(ret, s) ← real_get_cmdline prompt cmdline maxlen echo_char readline local_str s;
    Some (ret, restore s).
End Commands.

(** ** Specifications *)

(** The row of the terminal on which the line is edited: the column of the cursor
    and the characters, from the calls made so far. *)
Definition row_call (c : tcall) (r : Z * (Z -> Z)) : Z * (Z -> Z) :=
  let '(col, cells) := r in
  match c with
  | TPut c =>
      if c =? 13 then (0, cells)
      else if c =? 8 then (col - 1, cells)
      else if c =? 10 then (col, fun _ => 32)
      else (col + 1, fun j => if j =? col then c else cells j)
  | TGotoxy x _ => (x, cells)
  | TCls => (0, fun _ => 32)
  | _ => r
  end.
Definition row_of (cs : list tcall) : Z * (Z -> Z) := foldr row_call (0, fun _ => 32) cs.

(** Columns 0 to 78 show [shows], and the cursor is in column [col]. *)
Definition row_is (cs : list tcall) (col : Z) (shows : Z -> Z) : Prop :=
  fst (row_of cs) = col /\ forall j, 0 <= j < 79 -> snd (row_of cs) j = shows j.

Definition printable (c : Z) : Prop := 32 <= c <= 126.

(** ** Proofs: the row *)

Lemma put_calls_cons c l : put_calls (c :: l) = put_calls l ++ [TPut c].
Proof. done. Qed.

Lemma row_put_calls l : forall cs, Forall printable l ->
  row_of (put_calls l ++ cs)
  = (fst (row_of cs) + Z.of_nat (length l),
     snd (row_of (put_calls l ++ cs))) /\
  forall j, snd (row_of (put_calls l ++ cs)) j
            = if (fst (row_of cs) <=? j) && (j <? fst (row_of cs) + Z.of_nat (length l))
              then nth (Z.to_nat (j - fst (row_of cs))) l 0 else snd (row_of cs) j.
Proof.
  induction l as [|c l IH]; intros cs Hl.
  - cbn [put_calls map rev app length]. rewrite Z.add_0_r. split; [by destruct (row_of cs) |].
    intros j. destruct (Z.leb_spec (fst (row_of cs)) j), (Z.ltb_spec j (fst (row_of cs))); cbn; lia || done.
  - apply Forall_cons_iff in Hl as [Hc Hl]. rewrite put_calls_cons, <- app_assoc.
    destruct (IH ([TPut c] ++ cs) Hl) as [IH1 IH2].
    assert (row_of ([TPut c] ++ cs) = (fst (row_of cs) + 1, fun j => if j =? fst (row_of cs) then c else snd (row_of cs) j)) as E.
    { cbn. fold (row_of cs). destruct (row_of cs) as [col cells]. unfold printable in Hc. cbn.
      by rewrite !(proj2 (Z.eqb_neq c _)) by lia. }
    rewrite E in IH1, IH2. cbn [fst snd length] in *. split.
    + etransitivity; [apply IH1 |]. f_equal. lia.
    + intros j. rewrite IH2. destruct (Z.leb_spec (fst (row_of cs) + 1) j).
      * rewrite (proj2 (Z.leb_le (fst (row_of cs)) j)) by lia.
        replace (fst (row_of cs) + 1 + Z.of_nat (length l)) with (fst (row_of cs) + Z.of_nat (S (length l))) by lia.
        cbn [andb]. destruct (j <? _); [| by rewrite (proj2 (Z.eqb_neq j _)) by lia].
        replace (Z.to_nat (j - fst (row_of cs))) with (S (Z.to_nat (j - (fst (row_of cs) + 1)))) by lia. done.
      * cbn [andb]. destruct (Z.eqb_spec j (fst (row_of cs))) as [-> |].
        -- rewrite (proj2 (Z.leb_le _ _)), (proj2 (Z.ltb_lt _ _)) by lia. cbn [andb]. by rewrite Z.sub_diag.
        -- by rewrite (proj2 (Z.leb_gt (fst (row_of cs)) j)) by lia.
Qed.

Lemma row_backspaces n cs : row_of (put_calls (repeat 8 n) ++ cs) = (fst (row_of cs) - Z.of_nat n, snd (row_of cs)).
Proof.
  revert cs. induction n as [|n IH]; intros cs;
    [change (put_calls (repeat 8 0) ++ cs) with cs; change (Z.of_nat 0) with 0; rewrite Z.sub_0_r; by destruct (row_of cs) |].
  cbn [repeat]. rewrite put_calls_cons, <- app_assoc, IH.
  cbn. fold (row_of cs). destruct (row_of cs) as [col cells]. cbn. f_equal. lia.
Qed.

(** Printing [l] from the cursor on. *)
Lemma row_is_put cs col shows l : Forall printable l -> row_is cs col shows ->
  row_is (put_calls l ++ cs) (col + Z.of_nat (length l))
         (fun j => if (col <=? j) && (j <? col + Z.of_nat (length l)) then nth (Z.to_nat (j - col)) l 0 else shows j).
Proof.
  intros Hl [<- Hr]. destruct (row_put_calls l cs Hl) as [H1 H2]. split; [by rewrite H1 |].
  intros j Hj. rewrite H2. destruct (_ && _); [done | by apply Hr].
Qed.

Lemma row_is_ext cs col shows shows' : (forall j, 0 <= j < 79 -> shows j = shows' j) -> row_is cs col shows -> row_is cs col shows'.
Proof. intros E [H1 H2]. split; [done |]. intros j Hj. rewrite <- E by done. by apply H2. Qed.

Lemma Forall_repeat {A} (P : A -> Prop) x n : P x -> Forall P (repeat x n).
Proof. intros H. induction n; cbn; by constructor. Qed.

Section Row.
Variables (current_term : term_entry) (max_lines : Z).

(** The terminal after some output. *)
Definition wrote (l : list Z) (s : ed) : ed :=
  set_term (Io (put_calls l ++ calls (e_io s)) (keys (e_io s)) (count_lines (e_io s))) s.

Lemma wrote_app a b s : wrote b (wrote a s) = wrote (a ++ b) s.
Proof. unfold wrote, set_term. cbn. by rewrite put_calls_app, <- app_assoc. Qed.

Definition no_control (c : Z) : Prop := c <> 9 /\ c <> 10.

Lemma put_wrote c s : no_control c -> count_lines (e_io s) < 0 -> put current_term max_lines c s = Some (wrote [c] s).
Proof.
  intros [H9 H10] Hc. unfold put, grub_putchar.
  rewrite putchar_plain; [| by rewrite (proj2 (Z.eqb_neq c 9)) | done | lia].
  cbn [mbind option_bind]. unfold wrote, crlf. cbn [flat_map]. by rewrite (proj2 (Z.eqb_neq c 10)).
Qed.

Lemma put_all_wrote l : forall s, Forall no_control l -> count_lines (e_io s) < 0 ->
  put_all current_term max_lines l s = Some (wrote l s).
Proof.
  unfold put_all. induction l as [|c l IH]; intros s Hl Hc; cbn [foldM]; [by destruct s as [????????[]] |].
  apply Forall_cons_iff in Hl as [Hc0 Hl]. rewrite put_wrote by done. cbn [mbind option_bind].
  rewrite IH by done. by rewrite wrote_app.
Qed.

Lemma printable_no_control l : Forall printable l -> Forall no_control l.
Proof. intros H. eapply Forall_impl; [| apply H]. unfold printable, no_control. lia. Qed.
End Row.

(** ** Proofs: the view *)

Section View.
Variables (current_term : term_entry) (max_lines : Z) (prompt : list Z) (echo_char : Z).
Hypothesis prompt_printable : Forall printable prompt.
Hypothesis echo_printable : echo_char = 0 \/ printable echo_char.

Abbreviation plen := (plen prompt).
Abbreviation shown_char := (shown_char echo_char).

(** The first column of the text of a section. *)
Definition base (sec : Z) : Z := if sec =? 0 then plen else 1.

(** What is displayed at index [i] of the line. *)
Definition char_at (s : ed) (i : Z) : Z := if i <? llen s then shown_char s i else 32.

(** What columns 0 to 78 should show. *)
Definition view (s : ed) (j : Z) : Z :=
  let sec := section s in
  let start := section_start prompt sec in
  if j <? base sec then (if sec =? 0 then nth (Z.to_nat j) prompt 32 else 60)
  else if j <? 78 then char_at s (start + (j - base sec))
  else if start + (78 - base sec) <? llen s then 62 else 32.

(** The row shows the section that holds the cursor, and the cursor is where the
    next character goes. *)
Record view_ok (s : ed) : Prop := {
  view_pos : 0 <= lpos s <= llen s;
  view_section : 0 <= section s /\ section_start prompt (section s) <= lpos s;
  view_xpos : xpos s = lpos s - section_start prompt (section s) + base (section s);
  view_width : xpos s < 78;
  view_row : row_is (calls (e_io s)) (xpos s) (view s) }.

Definition text_ok (s : ed) : Prop := forall i, 0 <= i < llen s -> printable (shown_char s i).

(** The line, the memory and the keys are as before. *)
Definition same_line (s s' : ed) : Prop :=
  lpos s' = lpos s /\ llen s' = llen s /\ history s' = history s /\ num_history s' = num_history s /\
  e_err s' = e_err s /\ e_mem s' = e_mem s /\ keys (e_io s') = keys (e_io s) /\ count_lines (e_io s') = count_lines (e_io s).

Lemma plen_length : plen = Z.of_nat (length prompt).
Proof. unfold GrubReadline.plen. induction prompt as [|c l IH]; [done |]. cbn [grub_strlen length]. rewrite IH by (by inversion prompt_printable). lia. Qed.

(** The loop over the line writes its characters. *)
Lemma loop_wrote ix s : count_lines (e_io s) < 0 -> Forall (fun i => printable (shown_char s i)) ix ->
  foldM (fun i s => put current_term max_lines (shown_char s i) s) ix s = Some (wrote (map (shown_char s) ix) s).
Proof.
  revert s. induction ix as [|i ix IH]; intros s Hc Hi; cbn [foldM map]; [by destruct s as [????????[]] |].
  apply Forall_cons_iff in Hi as [Hi0 Hi]. rewrite put_wrote; [| | done].
  - cbn [mbind option_bind]. rewrite IH; [| done | done]. by rewrite wrote_app.
  - unfold printable, no_control in *. lia.
Qed.

Lemma refresh_draw_ok offset len s shows :
  let sec := section s in
  let start := section_start prompt sec in
  let pos := base sec + offset in
  let x := lpos s - start + base sec in
  count_lines (e_io s) < 0 -> text_ok s -> 0 <= start + offset -> 0 <= len -> 0 <= pos -> pos + len <= 78 ->
  x <= pos + len -> row_is (calls (e_io s)) pos shows ->
  exists cs, refresh_draw current_term max_lines prompt echo_char offset len pos s
             = Some (set_view x sec (set_term (Io cs (keys (e_io s)) (count_lines (e_io s))) s)) /\
    row_is cs x (fun j => if (pos <=? j) && (j <? pos + len) then char_at s (start + (j - base sec))
                          else if (j =? 78) && (pos + len =? 78)
                               then (if start + (78 - base sec) <? llen s then 62 else 32) else shows j).
Proof.
  intros sec start pos x Hc Ht Hs Hl Hp Hw Hx Hrow. unfold refresh_draw. fold sec. fold start.
  assert ((if sec =? 0 then lpos s + plen else lpos s + 1 - start) = x) as ->.
  { unfold x, base, start, section_start. destruct (sec =? 0); lia. }
  set (s1 := set_view x sec s). change (llen s1) with (llen s).
  set (i := Z.max (start + offset) (Z.min (start + offset + len) (llen s))).
  set (ix := seqZ (start + offset) (i - (start + offset))).
  assert (Forall (fun i => printable (shown_char s1 i)) ix) as Hprint.
  { apply Forall_forall. intros k Hk. apply list_elem_of_In, elem_of_seqZ in Hk. apply Ht. lia. }
  rewrite loop_wrote by done. cbn [mbind option_bind].
  rewrite put_all_wrote by (done || apply printable_no_control, Forall_repeat; unfold printable; lia).
  cbn [mbind option_bind]. rewrite wrote_app.
  set (l := map (shown_char s1) ix ++ repeat 32 (Z.to_nat (start + offset + len - i))).
  assert (Forall printable l) as Hlp.
  { unfold l. apply Forall_app. split; [by apply Forall_map | apply Forall_repeat; unfold printable; lia]. }
  assert (Z.of_nat (length l) = len) as Hll.
  { unfold l, ix. rewrite length_app, length_map, length_seqZ, repeat_length. lia. }
  assert (forall k, 0 <= k < len -> nth (Z.to_nat k) l 0 = char_at s (start + offset + k)) as Hnth.
  { intros k Hk. unfold l, char_at. destruct (Z.ltb_spec (start + offset + k) (llen s)).
    - rewrite app_nth1 by (rewrite length_map; unfold ix; rewrite length_seqZ; lia).
      rewrite nth_lookup, list_lookup_fmap. unfold ix. rewrite lookup_seqZ_lt by lia. cbn. f_equal. lia.
    - rewrite app_nth2; rewrite length_map; unfold ix; rewrite length_seqZ; [| lia].
      apply nth_repeat_lt. lia. }
  rewrite (Z.max_l len 0) by lia.
  set (last := if start + offset + len <? llen s then 62 else 32).
  assert (printable last) as Hlast by (unfold last, printable; case_match; lia).
  set (l2 := l ++ (if pos + len =? 78 then [last] else [])).
  assert (exists s2, (if pos + len =? CMDLINE_WIDTH
                      then s ← put current_term max_lines last (wrote l s1); Some (s, pos + len + 1)
                      else Some (wrote l s1, pos + len)) = Some (s2, pos + Z.of_nat (length l2)) /\ s2 = wrote l2 s1 /\
                     Forall printable l2) as (s2 & E2 & -> & Hl2).
  { unfold l2. change CMDLINE_WIDTH with 78. destruct (pos + len =? 78).
    - rewrite put_wrote by (done || (unfold printable, no_control in *; lia)). cbn [mbind option_bind].
      rewrite wrote_app. eexists. rewrite length_app. cbn [length]. split_and!; [| done | apply Forall_app; split; [done | by constructor]].
      do 2 f_equal. lia.
    - rewrite app_nil_r. eexists. split_and!; [| done | done]. do 2 f_equal. lia. }
  change (llen (wrote l s1)) with (llen s). fold last. rewrite E2. cbn [mbind option_bind].
  pose proof (row_is_put (calls (e_io s1)) pos shows l2 Hl2 Hrow) as Hrow2.
  assert (forall j, 0 <= j < 79 ->
    (if (pos <=? j) && (j <? pos + Z.of_nat (length l2)) then nth (Z.to_nat (j - pos)) l2 0 else shows j)
    = (if (pos <=? j) && (j <? pos + len) then char_at s (start + (j - base sec))
       else if (j =? 78) && (pos + len =? 78) then (if start + (78 - base sec) <? llen s then 62 else 32) else shows j)) as Hext.
  { intros j Hj. destruct (Z.leb_spec pos j); cbn [andb]; [| by rewrite (proj2 (Z.eqb_neq j 78)) by lia].
    unfold l2. destruct (Z.eqb_spec (pos + len) 78); rewrite length_app; cbn [length];
      destruct (Z.ltb_spec j (pos + len)).
    - rewrite (proj2 (Z.ltb_lt _ _)) by lia. rewrite app_nth1 by lia. rewrite Hnth by lia. f_equal. unfold pos. lia.
    - assert (j = 78) as -> by lia. rewrite (proj2 (Z.ltb_lt _ _)) by lia. rewrite app_nth2 by lia. cbn [andb Z.eqb Pos.eqb].
      replace (Z.to_nat (78 - pos) - length l)%nat with 0%nat by lia. cbn. unfold last.
      by replace (start + (78 - base sec)) with (start + offset + len) by (unfold pos in *; lia).
    - rewrite (proj2 (Z.ltb_lt _ _)) by lia. rewrite app_nth1 by lia. rewrite Hnth by lia. f_equal. unfold pos. lia.
    - rewrite (proj2 (Z.ltb_ge _ _)) by lia. by rewrite andb_false_r. }
  apply (row_is_ext _ _ _ _ Hext) in Hrow2.
  assert (Z.of_nat (length l2) >= len) as Hlen2 by (unfold l2; rewrite length_app; lia).
  destruct (is_dumb current_term).
  - rewrite put_all_wrote; [| apply Forall_repeat; unfold no_control; lia | done].
    eexists. split; [rewrite wrote_app; unfold wrote, set_term, s1, set_view; cbn; reflexivity |].
    change (xpos (wrote l2 s1)) with x.
    destruct Hrow2 as [R1 R2]. rewrite put_calls_app, <- app_assoc.
    unfold row_is. rewrite row_backspaces. cbn [fst snd]. split; [| done]. unfold wrote in R1. cbn in R1 |- *. rewrite R1. lia.
  - eexists. split; [unfold goto_x, wrote, set_term, s1, set_view, gotoxy, call; cbn; reflexivity |].
    destruct Hrow2 as [R1 R2]. unfold row_is. cbn. fold (row_of (put_calls l2 ++ calls (e_io s1))) in *.
    unfold row_of in *. destruct (foldr row_call _ _) as [c0 cells]. done.
Qed.

Hypothesis plen_small : plen <= 60.

Lemma plen_range : 0 <= plen <= 60.
Proof. rewrite plen_length in *. lia. Qed.

(** The section that a full refresh chooses holds the cursor. *)
Definition section_of (pos : Z) : Z :=
  if pos + plen <? CMDLINE_WIDTH then 0
  else Z.quot (pos + plen - CMDLINE_WIDTH) (CMDLINE_WIDTH - 1 - CMDLINE_MARGIN) + 1.

Lemma section_of_ok pos : 0 <= pos ->
  let sec := section_of pos in
  0 <= sec /\ section_start prompt sec <= pos /\ pos - section_start prompt sec + base sec < 78.
Proof.
  intros Hp sec. pose proof plen_range. unfold sec, section_of, section_start, base.
  change CMDLINE_WIDTH with 78. change CMDLINE_MARGIN with 10. change (78 - 1 - 10) with 67.
  destruct (Z.ltb_spec (pos + plen) 78); [cbn; lia |]. rewrite Z.quot_div_nonneg by lia.
  rewrite (proj2 (Z.eqb_neq _ 0)) by dlia. dlia.
Qed.

Lemma section_start_nonneg sec : 0 <= sec -> 0 <= section_start prompt sec.
Proof.
  intros Hs. pose proof plen_range. unfold section_start. change CMDLINE_WIDTH with 78. change CMDLINE_MARGIN with 10.
  zcase; lia.
Qed.

Lemma base_range sec : 0 <= base sec <= 60.
Proof. pose proof plen_range. unfold base. zcase; lia. Qed.

(** The lemma for both kinds of refresh: what the row shows before the part that
    is drawn and after it is already right. *)
Lemma draw_view offset len s shows :
  let sec := section s in
  let start := section_start prompt sec in
  let pos := base sec + offset in
  let x := lpos s - start + base sec in
  count_lines (e_io s) < 0 -> text_ok s -> 0 <= lpos s <= llen s -> 0 <= sec -> start <= lpos s -> x < 78 ->
  0 <= offset -> 0 <= len -> pos + len <= 78 -> x <= pos + len ->
  row_is (calls (e_io s)) pos shows ->
  (forall j, 0 <= j < pos -> shows j = view s j) ->
  (forall j, pos + len <= j < 79 -> (j = 78 -> pos + len <> 78) -> shows j = view s j) ->
  exists s', refresh_draw current_term max_lines prompt echo_char offset len pos s = Some s' /\ view_ok s' /\ same_line s s'.
Proof.
  intros sec start pos x Hc Ht Hl Hs Hst Hx Ho Hn Hw Hxl Hrow Hb Ha.
  pose proof (section_start_nonneg sec Hs). pose proof (base_range sec).
  destruct (refresh_draw_ok offset len s shows) as (cs & E & Hcs); fold sec; fold start; fold pos; fold x;
    [done | done | lia | done | unfold pos; lia | done | done | done |].
  fold sec start pos x in E, Hcs. eexists. split; [exact E |]. split; [| by repeat split].
  constructor; cbn [set_view set_term lpos llen section xpos e_io]; fold sec start; try lia.
  apply (row_is_ext _ _ _ _ (fun j Hj => eq_refl)). eapply row_is_ext; [| exact Hcs].
  intros j Hj. cbn [calls].
  change (view (set_view x sec (set_term (Io cs (keys (e_io s)) (count_lines (e_io s))) s)) j) with (view s j).
  destruct (Z.leb_spec pos j); cbn [andb].
  - destruct (Z.ltb_spec j (pos + len)).
    + unfold view. fold sec start. rewrite (proj2 (Z.ltb_ge j (base sec))) by (unfold pos in *; lia).
      by rewrite (proj2 (Z.ltb_lt j 78)) by lia.
    + destruct (Z.eqb_spec j 78) as [-> |]; cbn [andb]; [| apply Ha; lia].
      destruct (Z.eqb_spec (pos + len) 78); [| by apply Ha].
      unfold view. fold sec start. rewrite (proj2 (Z.ltb_ge 78 (base sec))) by lia. done.
  - rewrite (proj2 (Z.eqb_neq j 78)) by lia. cbn [andb]. apply Hb. lia.
Qed.

Lemma refresh_full s : count_lines (e_io s) < 0 -> text_ok s -> 0 <= lpos s <= llen s ->
  exists s', cl_refresh current_term max_lines prompt echo_char true 0 s = Some s' /\ view_ok s' /\ same_line s s'.
Proof.
  intros Hc Ht Hl. unfold cl_refresh, refresh_begin. fold (section_of (lpos s)). set (sec := section_of (lpos s)).
  destruct (section_of_ok (lpos s) ltac:(lia)) as (H1 & H2 & H3). fold sec in H1, H2, H3.
  rewrite put_wrote by (done || (unfold no_control; lia)). cbn [mbind option_bind].
  set (s1 := wrote [13] (set_view (xpos s) sec s)).
  destruct (row_of (calls (e_io s))) as [col cells] eqn:Er.
  assert (row_is (calls (e_io s1)) 0 cells) as Hr1.
  { unfold row_is. cbn. fold (row_of (calls (e_io s))). by rewrite Er. }
  assert (exists s2, (if sec =? 0
      then s ← put_all current_term max_lines prompt s1; Some (s, (CMDLINE_WIDTH - plen, plen))
      else s ← put current_term max_lines 60 s1; Some (s, (CMDLINE_WIDTH - 1, 1))) = Some (s2, (78 - base sec, base sec)) /\
    s2 = wrote (if sec =? 0 then prompt else [60]) s1) as (s2 & E2 & Hs2).
  { unfold base. destruct (sec =? 0).
    - rewrite put_all_wrote by (done || by apply printable_no_control). eauto.
    - rewrite put_wrote by (done || (unfold no_control; lia)). eauto. }
  rewrite E2. cbn [mbind option_bind].
  assert (Forall printable (if sec =? 0 then prompt else [60])) as Hh
    by (destruct (sec =? 0); [done | repeat constructor; unfold printable; lia]).
  pose proof (row_is_put _ _ _ _ Hh Hr1) as Hr2. rewrite Z.add_0_l in Hr2.
  assert (Z.of_nat (length (if sec =? 0 then prompt else [60])) = base sec) as Hlb
    by (unfold base; rewrite plen_length; by destruct (sec =? 0)).
  rewrite Hlb in Hr2.
  pose proof (draw_view 0 (78 - base sec) s2) as D. rewrite Hs2 in *. cbv zeta in D.
  change (section (wrote _ s1)) with sec in D. change (lpos (wrote _ s1)) with (lpos s) in D.
  change (llen (wrote _ s1)) with (llen s) in D. rewrite Z.add_0_r in D.
  pose proof (base_range sec).
  destruct (D _ Hc Ht Hl H1 H2 H3 ltac:(lia) ltac:(lia) ltac:(lia) ltac:(lia) Hr2) as (s' & E & Hv & Hsame).
  - intros j Hj. rewrite (proj2 (Z.leb_le 0 j)), (proj2 (Z.ltb_lt j (base sec))) by lia. cbn [andb].
    unfold view. change (section (wrote _ s1)) with sec. rewrite (proj2 (Z.ltb_lt j (base sec))) by lia.
    rewrite Z.sub_0_r. unfold base in Hj. destruct (sec =? 0).
    + rewrite plen_length in Hj. by apply nth_indep; lia.
    + by replace j with 0 by lia.
  - lia.
  - exists s'. split; [exact E |]. split; [exact Hv |]. done.
Qed.

Lemma refresh_part len s shows :
  let sec := section s in
  let start := section_start prompt sec in
  let x := lpos s - start + base sec in
  count_lines (e_io s) < 0 -> text_ok s -> 0 <= lpos s <= llen s -> 0 <= sec -> start <= lpos s -> x < 78 ->
  base sec <= xpos s -> 0 <= len -> xpos s + len <= 78 -> x <= xpos s + len ->
  row_is (calls (e_io s)) (xpos s) shows ->
  (forall j, 0 <= j < xpos s -> shows j = view s j) ->
  (forall j, xpos s + len <= j < 79 -> (j = 78 -> xpos s + len <> 78) -> shows j = view s j) ->
  exists s', cl_refresh current_term max_lines prompt echo_char false len s = Some s' /\ view_ok s' /\ same_line s s'.
Proof.
  intros sec start x Hc Ht Hl Hs Hst Hx Hb Hn Hw Hxl Hrow Hbef Haft. unfold cl_refresh. fold sec. fold (base sec).
  pose proof (draw_view (xpos s - base sec) len s shows) as D. cbv zeta in D. fold sec start x in D.
  replace (base sec + (xpos s - base sec)) with (xpos s) in D by lia. apply D; try done; lia.
Qed.
End View.

(** ** Proofs: strings in memory *)

Lemma cstr_printable s : Forall printable s -> is_cstr s.
Proof. apply Forall_impl. unfold printable. lia. Qed.

Lemma cstr_at_frame m m' a s :
  (forall b, a <= b <= a + Z.of_nat (length s) -> ld m' b = ld m b) -> cstr_at m a s -> cstr_at m' a s.
Proof.
  intros H (H1 & H2 & H3). split; [done |]. split.
  - intros i c Hi. pose proof (lookup_lt_Some _ _ _ Hi). rewrite H by lia. by apply H2.
  - by rewrite H by lia.
Qed.

(** A string and its NUL, as a list of bytes. *)
Lemma cstr_at_bytes m a s : is_cstr s ->
  cstr_at m a s <-> forall i : nat, (i <= length s)%nat -> ld m (a + Z.of_nat i) = nth i (s ++ [0]) 0.
Proof.
  intros Hs. split.
  - intros (_ & H2 & H3) i Hi. destruct (decide (i = length s)) as [-> |].
    + by rewrite H3, nth_middle.
    + rewrite app_nth1 by lia. destruct (lookup_lt_is_Some_2 s i) as [c Hc]; [lia |].
      rewrite (H2 i c Hc). by rewrite (nth_lookup_Some s i 0 c).
  - intros H. split; [done |]. split.
    + intros i c Hi. pose proof (lookup_lt_Some _ _ _ Hi). rewrite H by lia. rewrite app_nth1 by lia.
      by apply nth_lookup_Some.
    + rewrite H by lia. by rewrite nth_middle.
Qed.

Lemma cstr_at_copied m m' a b s : copied m b a (Z.of_nat (length s) + 1) m' -> cstr_at m a s -> cstr_at m' b s.
Proof.
  intros Hc (H1 & H2 & H3). unfold copied in Hc. split; [done |]. split.
  - intros i c Hi. pose proof (lookup_lt_Some _ _ _ Hi). rewrite Hc, decide_True by lia.
    replace (a + (b + Z.of_nat i - b)) with (a + Z.of_nat i) by lia. by apply H2.
  - rewrite Hc, decide_True by lia. by replace (a + (b + Z.of_nat (length s) - b)) with (a + Z.of_nat (length s)) by lia.
Qed.

Lemma read_cstr_at fuel : forall m a s, Forall printable s -> cstr_at m a s -> (length s < fuel)%nat -> read_cstr fuel m a = s.
Proof.
  induction fuel as [|f IH]; intros m a s Hp (H1 & H2 & H3) Hl; [lia |]. cbn [read_cstr].
  destruct s as [|c s].
  - cbn in H3. rewrite Z.add_0_r in H3. by rewrite H3.
  - apply Forall_cons_iff in Hp as [Hc Hp]. pose proof (H2 0%nat c eq_refl) as H0. cbn in H0. rewrite Z.add_0_r in H0.
    unfold printable in Hc. rewrite H0, (proj2 (Z.eqb_neq c 0)) by lia. rewrite s8_small by lia. f_equal.
    apply IH; [done | | cbn in Hl; lia]. split; [by inversion H1 |]. split.
    + intros i c' Hi. pose proof (H2 (S i) c' Hi) as E. rewrite <- E. f_equal. lia.
    + rewrite <- H3. f_equal. cbn. lia.
Qed.

Lemma cstring_at m a s : Forall printable s -> cstr_at m a s -> Z.of_nat (length s) < 65536 -> cstring m a = s.
Proof. intros. apply read_cstr_at; [done | done | lia]. Qed.

Lemma grub_strlen_length s : grub_strlen s = Z.of_nat (length s).
Proof. induction s as [|c s IH]; [done |]. cbn [grub_strlen length]. lia. Qed.

(** Copying inside a string: what the two steps of an insertion leave. *)
Lemma cstr_at_insert m m1 m2 a b l str r :
  is_cstr str -> cstr_at m a (l ++ r) ->
  copied m (a + Z.of_nat (length l) + Z.of_nat (length str)) (a + Z.of_nat (length l)) (Z.of_nat (length r) + 1) m1 ->
  copied m1 (a + Z.of_nat (length l)) b (Z.of_nat (length str)) m2 ->
  (forall i : nat, (i < length str)%nat -> ld m1 (b + Z.of_nat i) = nth i str 0) ->
  cstr_at m2 a (l ++ str ++ r).
Proof.
  intros Hstr Hlr C1 C2 Hb. assert (is_cstr (l ++ r)) as Hc by apply Hlr.
  apply is_cstr_app in Hc as [Hl Hr]. rewrite (cstr_at_bytes m a (l ++ r)) in Hlr by (by apply is_cstr_app).
  apply cstr_at_bytes; [by rewrite !is_cstr_app |]. unfold copied in C1, C2.
  intros i Hi. rewrite !length_app in Hi. rewrite C2. case_decide.
  - replace (b + (a + Z.of_nat i - (a + Z.of_nat (length l)))) with (b + Z.of_nat (i - length l)) by lia.
    rewrite Hb by lia. rewrite <- !app_assoc, app_nth2 by lia. by rewrite app_nth1 by lia.
  - rewrite C1. case_decide.
    + replace (a + Z.of_nat (length l) + (a + Z.of_nat i - (a + Z.of_nat (length l) + Z.of_nat (length str))))
        with (a + Z.of_nat (i - length str)) by lia.
      rewrite Hlr by (rewrite length_app; lia). rewrite <- !app_assoc.
      rewrite (app_nth2 l) by lia. rewrite (app_nth2 l) by lia. rewrite (app_nth2 str) by lia. f_equal. lia.
    + rewrite Hlr by (rewrite length_app; lia). rewrite <- !app_assoc. rewrite !app_nth1 by lia. done.
Qed.

(** Deleting: the rest moves down. *)
Lemma cstr_at_delete m m' a l d r n :
  cstr_at m a (l ++ d ++ r) -> Z.of_nat (length r) + 1 <= n ->
  copied m (a + Z.of_nat (length l)) (a + Z.of_nat (length l) + Z.of_nat (length d)) n m' ->
  cstr_at m' a (l ++ r).
Proof.
  intros Hs Hn Hc. assert (is_cstr (l ++ d ++ r)) as Hcs by apply Hs.
  apply is_cstr_app in Hcs as [Hl Hdr]. apply is_cstr_app in Hdr as [Hd Hr].
  rewrite (cstr_at_bytes m a) in Hs by (by rewrite !is_cstr_app).
  apply cstr_at_bytes; [by rewrite is_cstr_app |]. unfold copied in Hc.
  intros i Hi. rewrite length_app in Hi. rewrite Hc. case_decide.
  - replace (a + Z.of_nat (length l) + Z.of_nat (length d) + (a + Z.of_nat i - (a + Z.of_nat (length l))))
      with (a + Z.of_nat (i + length d)) by lia.
    rewrite Hs by (rewrite !length_app; lia). rewrite <- !app_assoc.
    rewrite (app_nth2 l) by lia. rewrite (app_nth2 d) by lia. rewrite (app_nth2 l) by lia. f_equal. lia.
  - rewrite Hs by (rewrite !length_app; lia). rewrite <- !app_assoc. rewrite !app_nth1 by lia. done.
Qed.
