(* ===== verification/GrubEditor.v ===== *)
(** * What GRUB's command-line editor does

    The editor of [GrubReadline] implements a line with a cursor: every key does
    to the text in memory what it does to the abstract line, and the row of the
    terminal always shows the part of the line that holds the cursor. *)

From S2P Require Import Prelude Machine LibcString GrubString GrubTerm GrubReadline.

(** ** Specifications *)

(** The text before and after the cursor, and the text to yank. *)
Record line := Line { left : list Z; right : list Z; killed : list Z }.

Definition text (a : line) : list Z := left a ++ right a.

(** Text that would reach [maxlen] characters is not inserted. *)
Definition insert_text (maxlen : Z) (str : list Z) (a : line) : line :=
  if Z.of_nat (length (text a)) + Z.of_nat (length str) <? maxlen
  then Line (left a ++ str) (right a) (killed a) else a.

Definition motion_key (c : Z) (a : line) : line :=
  if c =? 1 then Line [] (text a) (killed a)
  else if c =? 5 then Line (text a) [] (killed a)
  else if c =? 6 then Line (left a ++ take 1 (right a)) (drop 1 (right a)) (killed a)
  else if c =? 2 then Line (take (length (left a) - 1) (left a)) (drop (length (left a) - 1) (left a) ++ right a) (killed a)
  else a.

Definition kill_key (maxlen c : Z) (a : line) : line :=
  if c =? 21 then if decide (left a = []) then a else Line [] (right a) (left a)
  else if c =? 11 then if decide (right a = []) then a else Line (left a) [] (right a)
  else if c =? 25 then insert_text maxlen (killed a) a
  else a.

Definition plain_key (maxlen c : Z) (a : line) : line :=
  if c =? 4 then Line (left a) (drop 1 (right a)) (killed a)
  else if c =? 8 then Line (take (length (left a) - 1) (left a)) (right a) (killed a)
  else if (32 <=? c) && (c <=? 126) then insert_text maxlen [c] a
  else a.

(** One key; TAB and the history keys are not in this language. *)
Definition line_key (maxlen : Z) (readline : bool) (c : Z) (a : line) : line :=
  plain_key maxlen c (if readline then kill_key maxlen c (motion_key c a) else a).

(** The keys that end the line, and the keys of this language. *)
Definition return_key (k : Z) : bool := (ASCII_CHAR k =? 10) || (ASCII_CHAR k =? 13).
Definition spec_key (k : Z) : bool :=
  let c := ASCII_CHAR k in
  negb (return_key k) && negb (c =? 27) && negb (c =? 9) && negb (c =? 16) && negb (c =? 14).

(** A deletion copies as many bytes as the line has: they stay in the buffer. *)
Definition fits (a : line) : bool := Z.of_nat (length (left a) + length (text a)) <=? MAX_CMDLINE.

Definition run_keys (maxlen : Z) (readline : bool) (ks : list Z) (a : line) : line :=
  foldl (fun a k => line_key maxlen readline (ASCII_CHAR k) a) a ks.

Fixpoint keys_ok (maxlen : Z) (readline : bool) (ks : list Z) (a : line) : bool :=
  match ks with
  | [] => true
  | k :: ks => spec_key k && fits a && keys_ok maxlen readline ks (line_key maxlen readline (ASCII_CHAR k) a)
  end.

Fixpoint skip_spaces (l : list Z) : list Z :=
  match l with
  | c :: l' => if c =? 32 then skip_spaces l' else l
  | [] => []
  end.

(** The text that RETURN stores: a line that is echoed loses its leading spaces. *)
Definition entered_text (echo_char : Z) (a : line) : list Z := if echo_char =? 0 then skip_spaces (text a) else text a.

(** ** Proofs *)

Section Edit.
Variables (current_term : term_entry) (max_lines mem_lower mem_upper : Z).
Variable print_completions : bool -> bool -> mem * io -> option (Z * (mem * io)).
Variables (prompt : list Z) (cmdline maxlen echo_char : Z) (readline : bool) (local_str : Z).
Hypothesis prompt_printable : Forall printable prompt.
Hypothesis echo_printable : echo_char = 0 \/ printable echo_char.
Hypothesis plen_small : plen prompt <= 60.
Hypothesis lower_memory : 512 <= mem_lower < 4194304.
Hypothesis upper_memory : 0 <= mem_upper < 4194304.
Hypothesis maxlen_limited : maxlen <= MAX_CMDLINE.
Hypothesis local_apart : 0 <= local_str /\ local_str + 2 <= CMDLINE_BUF \/ COMPLETION_BUF + MAX_CMDLINE <= local_str.

Abbreviation shown_char := (shown_char echo_char).
Abbreviation view_ok := (view_ok prompt echo_char).
Abbreviation view := (view prompt echo_char).
Abbreviation start sec := (section_start prompt sec).

(** *** Moving memory *)

Lemma move_spec to from len s : e_err s = ERR_NONE -> 0x1000 <= to -> to + len <= 0x80000 -> 0 <= len ->
  exists m', move mem_lower mem_upper to from len s = set_store (ERR_NONE, m') s /\ copied (e_mem s) to from len m'.
Proof.
  intros He H1 H2 H3. unfold move. rewrite He.
  destruct (grub_memmove_copied mem_lower mem_upper to from len (e_mem s)) as (m' & -> & Hc);
    [lia | lia | lia | lia | unfold mem_ok; lia |]. exists m'. done.
Qed.

Lemma buffers : CMDLINE_BUF = 0x78260 /\ KILL_BUF = 0x788A0 /\ MAX_CMDLINE = 1600.
Proof. done. Qed.

(** The state that represents an abstract line. *)
Record shows_line (a : line) (s : ed) : Prop := {
  sl_text : cstr_at (e_mem s) CMDLINE_BUF (text a);
  sl_lpos : lpos s = Z.of_nat (length (left a));
  sl_llen : llen s = Z.of_nat (length (text a));
  sl_max : llen s < maxlen;
  sl_print : Forall printable (text a);
  sl_kill : cstr_at (e_mem s) KILL_BUF (killed a);
  sl_kprint : Forall printable (killed a);
  sl_klen : Z.of_nat (length (killed a)) < MAX_CMDLINE;
  sl_err : e_err s = ERR_NONE;
  sl_count : count_lines (e_io s) < 0 }.

(** The memory that an edit may change: the line, the kill buffer and the local
    array. *)
Definition outside (b : Z) : Prop :=
  ~ (CMDLINE_BUF <= b < HISTORY_BUF) /\ ~ (local_str <= b < local_str + 2).
Definition edited (s s' : ed) : Prop :=
  (forall b, outside b -> ld (e_mem s') b = ld (e_mem s) b) /\
  history s' = history s /\ num_history s' = num_history s /\ keys (e_io s') = keys (e_io s).

Lemma edited_refl s : edited s s.
Proof. done. Qed.

Lemma edited_trans s1 s2 s3 : edited s1 s2 -> edited s2 s3 -> edited s1 s3.
Proof.
  intros (A1 & A2 & A3 & A4) (B1 & B2 & B3 & B4). split_and!; try congruence.
  intros b Hb. by rewrite B1, A1.
Qed.

Lemma same_line_edited s s' : same_line s s' -> edited s s'.
Proof. intros (_ & _ & H1 & H2 & _ & H3 & H4 & _). split_and!; try done. intros b _. by rewrite H3. Qed.

(** The displayed characters of a line. *)
Definition char_of (t : list Z) (i : Z) : Z := if echo_char =? 0 then nth (Z.to_nat i) t 0 else echo_char.

Lemma shown_char_text m t s i : e_mem s = m -> cstr_at m CMDLINE_BUF t -> Forall printable t ->
  0 <= i < Z.of_nat (length t) -> shown_char s i = char_of t i.
Proof.
  intros <- (_ & Ht & _) Hp Hi. unfold GrubReadline.shown_char, char_of. destruct (echo_char =? 0); [| done].
  destruct (lookup_lt_is_Some_2 t (Z.to_nat i)) as [c Hc]; [lia |]. rewrite (nth_lookup_Some t _ 0 c Hc).
  specialize (Ht _ _ Hc). rewrite Z2Nat.id in Ht by lia. rewrite Ht.
  apply (proj1 (Forall_lookup _ t) Hp) in Hc. unfold printable in Hc. by rewrite s8_small by lia.
Qed.

Lemma shows_line_text_ok a s : shows_line a s -> text_ok echo_char s.
Proof.
  intros H i Hi. rewrite (sl_llen _ _ H) in Hi.
  rewrite (shown_char_text _ (text a) s i eq_refl (sl_text _ _ H) (sl_print _ _ H) Hi). unfold char_of.
  destruct (Z.eqb_spec echo_char 0); [| by destruct echo_printable].
  destruct (lookup_lt_is_Some_2 (text a) (Z.to_nat i)) as [c Hc]; [lia |]. rewrite (nth_lookup_Some _ _ 0 c Hc).
  by apply (proj1 (Forall_lookup _ _) (sl_print _ _ H)) in Hc.
Qed.

Lemma shows_line_lpos a s : shows_line a s -> 0 <= lpos s <= llen s.
Proof. intros H. rewrite (sl_lpos _ _ H), (sl_llen _ _ H). unfold text. rewrite length_app. lia. Qed.

(** A column before index [n], or after the end of both texts, shows the same. *)
Lemma view_agrees a a' s s' j :
  shows_line a s -> shows_line a' s' -> section s' = section s -> 0 <= section s -> 0 <= j < 79 ->
  (forall i, 0 <= i -> i = start (section s) + (j - base prompt (section s)) -> j < 78 ->
     (i < llen s <-> i < llen s') /\ (i < llen s -> char_of (text a) i = char_of (text a') i)) ->
  (j = 78 -> start (section s) + (78 - base prompt (section s)) < llen s
             <-> start (section s) + (78 - base prompt (section s)) < llen s') ->
  view s j = view s' j.
Proof.
  intros H H' Hsec H0 Hj Hi H78. unfold GrubReadline.view. rewrite Hsec.
  pose proof (section_start_nonneg prompt prompt_printable plen_small (section s) H0).
  destruct (Z.ltb_spec j (base prompt (section s))); [done |].
  destruct (Z.ltb_spec j 78).
  - unfold char_at. set (i := start (section s) + (j - base prompt (section s))) in *.
    destruct (Hi i ltac:(lia) eq_refl ltac:(done)) as [Hiff Heq].
    destruct (Z.ltb_spec i (llen s)).
    + rewrite (proj2 (Z.ltb_lt i (llen s'))) by tauto.
      rewrite (shown_char_text _ (text a) s i eq_refl (sl_text _ _ H) (sl_print _ _ H)) by (rewrite <- (sl_llen _ _ H); lia).
      rewrite (shown_char_text _ (text a') s' i eq_refl (sl_text _ _ H') (sl_print _ _ H')) by (rewrite <- (sl_llen _ _ H'); lia).
      by apply Heq.
    + by rewrite (proj2 (Z.ltb_ge i (llen s'))) by lia.
  - specialize (H78 ltac:(lia)).
    destruct (Z.ltb_spec (start (section s) + (78 - base prompt (section s))) (llen s)).
    + by rewrite (proj2 (Z.ltb_lt _ (llen s'))) by tauto.
    + by rewrite (proj2 (Z.ltb_ge _ (llen s'))) by lia.
Qed.

Lemma shows_line_same a s s' : same_line s s' -> shows_line a s -> shows_line a s'.
Proof. intros (H1 & H2 & H3 & H4 & H5 & H6 & H7 & H8) []. constructor; congruence. Qed.

(** A command that ends in a refresh. *)
Definition good (a : line) (s : ed) (r : option ed) : Prop :=
  exists s', r = Some s' /\ shows_line a s' /\ view_ok s' /\ edited s s'.

Lemma good_full a s s1 : shows_line a s1 -> edited s s1 ->
  good a s (cl_refresh current_term max_lines prompt echo_char true 0 s1).
Proof.
  intros H He. destruct (refresh_full current_term max_lines prompt echo_char prompt_printable plen_small s1)
    as (s' & E & Hv & Hs); [apply (sl_count _ _ H) | by eapply shows_line_text_ok | by eapply shows_line_lpos |].
  exists s'. split; [done |]. split; [by eapply shows_line_same |]. split; [done |].
  eapply edited_trans; [done |]. by apply same_line_edited.
Qed.

(** The partial refresh after the text from the cursor on has changed from [a] to
    [a1]: [len] reaches past the end of both texts, or to the end of the row. *)
Lemma good_part a a1 s s1 len :
  shows_line a s -> view_ok s -> shows_line a1 s1 -> edited s s1 ->
  section s1 = section s -> xpos s1 = xpos s -> calls (e_io s1) = calls (e_io s) ->
  lpos s <= lpos s1 -> xpos s + (lpos s1 - lpos s) < 78 -> lpos s1 - lpos s <= len ->
  (forall i, 0 <= i < lpos s -> char_of (text a) i = char_of (text a1) i) -> lpos s <= llen s1 ->
  xpos s + len = 78 \/ (xpos s + len < 78 /\ llen s <= lpos s + len /\ llen s1 <= lpos s + len) ->
  good a1 s (cl_refresh current_term max_lines prompt echo_char false len s1).
Proof.
  intros H V H1 He Hsec Hx Hcalls Hlp Hw Hlen Hsame Hl1 Hend.
  destruct V as [[V1 V1'] [V2 V2'] V3 V4 V5]. pose proof (base_range prompt prompt_printable plen_small (section s)) as Hb.
  pose proof (section_start_nonneg prompt prompt_printable plen_small (section s) V2) as Hst.
  pose proof (shows_line_lpos _ _ H1).
  destruct (refresh_part current_term max_lines prompt echo_char prompt_printable plen_small len s1 (view s))
    as (s' & E & Hv & Hs); rewrite ?Hsec, ?Hx, ?Hcalls;
    [apply (sl_count _ _ H1) | by eapply shows_line_text_ok | done | done | lia | lia | lia | lia | lia | lia | done | | |].
  - intros j Hj. apply (view_agrees a a1); try done; try lia.
    intros i Hi0 -> Hj78. split; [lia |]. intros _. apply Hsame. lia.
  - intros j Hj Hj78. apply (view_agrees a a1); try done; try lia.
  - exists s'. split; [done |]. split; [by eapply shows_line_same |]. split; [done |].
    eapply edited_trans; [done |]. by apply same_line_edited.
Qed.

Lemma char_of_app t1 t2 t2' i : 0 <= i < Z.of_nat (length t1) -> char_of (t1 ++ t2) i = char_of (t1 ++ t2') i.
Proof. intros Hi. unfold char_of. destruct (echo_char =? 0); [| done]. by rewrite !app_nth1 by lia. Qed.

(** *** Insertion *)

Lemma insert_moves a s addr str :
  shows_line a s -> cstr_at (e_mem s) addr str -> llen s + Z.of_nat (length str) < maxlen ->
  (addr + Z.of_nat (length str) + 1 <= CMDLINE_BUF \/ KILL_BUF <= addr) ->
  let l := Z.of_nat (length str) in
  exists m', (if lpos s =? llen s then move mem_lower mem_upper (CMDLINE_BUF + lpos s) addr (l + 1) s
              else move mem_lower mem_upper (CMDLINE_BUF + lpos s) addr l
                     (move mem_lower mem_upper (CMDLINE_BUF + lpos s + l) (CMDLINE_BUF + lpos s) (llen s - lpos s + 1) s))
             = set_store (ERR_NONE, m') s /\
    cstr_at m' CMDLINE_BUF (left a ++ str ++ right a) /\
    (forall b, ~ (CMDLINE_BUF <= b < KILL_BUF) -> ld m' b = ld (e_mem s) b).
Proof.
  intros H Hstr Hmax Hap l. pose proof (shows_line_lpos _ _ H). pose proof (sl_llen _ _ H) as Hll.
  pose proof (sl_lpos _ _ H) as Hlp. unfold text in Hll. rewrite length_app in Hll.
  destruct buffers as (HC & HK & HM).
  destruct (Z.eqb_spec (lpos s) (llen s)).
  - destruct (move_spec (CMDLINE_BUF + lpos s) addr (l + 1) s (sl_err _ _ H)) as (m' & -> & Hc); [lia | lia | lia |].
    exists m'. split; [done |]. assert (right a = []) as Hr by (apply nil_length_inv; lia). rewrite Hr, app_nil_r.
    split; [| intros b Hb; unfold copied in Hc; rewrite Hc, decide_False by lia; done].
    pose proof (sl_text _ _ H) as Ht. unfold text in Ht. rewrite Hr, app_nil_r in Ht.
    destruct Hstr as (S1 & S2 & S3). apply cstr_at_bytes; [apply is_cstr_app; split; [apply Ht | done] |].
    intros i Hi. rewrite length_app in Hi. unfold copied in Hc. rewrite Hc. case_decide.
    + replace (addr + (CMDLINE_BUF + Z.of_nat i - (CMDLINE_BUF + lpos s))) with (addr + Z.of_nat (i - length (left a))) by lia.
      pose proof (proj1 (cstr_at_bytes (e_mem s) addr str S1) (conj S1 (conj S2 S3))) as Hb. rewrite Hb by lia.
      rewrite <- app_assoc, (app_nth2 (left a)) by lia. done.
    + pose proof (proj1 (cstr_at_bytes _ _ _ (proj1 Ht)) Ht) as Hb. rewrite Hb by lia.
      rewrite <- app_assoc, !app_nth1 by lia. done.
  - destruct (move_spec (CMDLINE_BUF + lpos s + l) (CMDLINE_BUF + lpos s) (llen s - lpos s + 1) s (sl_err _ _ H))
      as (m1 & -> & C1); [lia | lia | lia |].
    destruct (move_spec (CMDLINE_BUF + lpos s) addr l (set_store (ERR_NONE, m1) s) eq_refl) as (m2 & -> & C2); [lia | lia | lia |].
    exists m2. split; [done |]. cbn [set_store e_mem snd fst] in C2.
    assert (forall b, ~ (CMDLINE_BUF <= b < KILL_BUF) -> ld m1 b = ld (e_mem s) b) as F1
      by (intros b Hb; unfold copied in C1; rewrite C1, decide_False by lia; done).
    split.
    + apply (cstr_at_insert (e_mem s) m1 m2 CMDLINE_BUF addr); [apply Hstr | apply (sl_text _ _ H) | | by rewrite <- Hlp |].
      * rewrite <- Hlp. replace (Z.of_nat (length (right a)) + 1) with (llen s - lpos s + 1) by lia. exact C1.
      * intros i Hi. rewrite F1 by lia. pose proof (proj1 (cstr_at_bytes _ _ _ (proj1 Hstr)) Hstr) as Hb.
        rewrite Hb by lia. by rewrite app_nth1 by lia.
    + intros b Hb. unfold copied in C2. rewrite C2, decide_False by lia. by apply F1.
Qed.

Lemma insert_ok a s addr str :
  shows_line a s -> view_ok s -> cstr_at (e_mem s) addr str -> Forall printable str ->
  Z.of_nat (length str) < MAX_CMDLINE -> (addr + Z.of_nat (length str) + 1 <= CMDLINE_BUF \/ KILL_BUF <= addr) ->
  good (insert_text maxlen str a) s
    (cl_insert current_term max_lines mem_lower mem_upper prompt maxlen echo_char addr s).
Proof.
  intros H V Hstr Hp Hsl Hap. unfold cl_insert. rewrite (cstring_at _ _ str) by (done || (unfold MAX_CMDLINE in *; lia)).
  rewrite grub_strlen_length. unfold insert_text. rewrite <- (sl_llen _ _ H).
  destruct (Z.ltb_spec (llen s + Z.of_nat (length str)) maxlen) as [Hmax | Hmax]; [| by exists s].
  destruct (insert_moves a s addr str H Hstr Hmax Hap) as (m' & -> & Ht' & Hf).
  cbn [set_store lpos llen xpos section].
  set (s1 := set_line (lpos s + Z.of_nat (length str)) (llen s + Z.of_nat (length str)) (set_store (ERR_NONE, m') s)).
  set (a1 := Line (left a ++ str) (right a) (killed a)).
  pose proof (sl_llen _ _ H) as Hll. pose proof (sl_lpos _ _ H) as Hlp. unfold text in Hll. rewrite length_app in Hll.
  assert (shows_line a1 s1) as H1.
  { constructor; cbn; try apply H; try done.
    - by rewrite <- app_assoc.
    - rewrite length_app. lia.
    - unfold text. cbn. rewrite !length_app. lia.
    - pose proof (sl_print _ _ H) as Hpr. unfold text in *. cbn. rewrite !Forall_app in *. tauto.
    - eapply cstr_at_frame; [| apply H]. intros b Hb. apply Hf. lia. }
  assert (edited s s1) as He by (split_and!; try done; intros b Hb; apply Hf; unfold outside, HISTORY_BUF, KILL_BUF, MAX_CMDLINE in *; lia).
  pose proof (view_width _ _ _ V). pose proof (view_pos _ _ _ V).
  cbn [set_line lpos llen xpos section set_store] in *. change CMDLINE_WIDTH with 78.
  change (xpos s1) with (xpos s). change (llen s1) with (llen s + Z.of_nat (length str)).
  change (lpos s1) with (lpos s + Z.of_nat (length str)).
  destruct (Z.leb_spec 78 (xpos s + Z.of_nat (length str))); [by apply good_full |].
  assert (forall i, 0 <= i < lpos s -> char_of (text a) i = char_of (text a1) i) as Hsame.
  { intros i Hi. unfold text. cbn. rewrite <- app_assoc. apply char_of_app. lia. }
  destruct (Z.ltb_spec 78 (xpos s + Z.of_nat (length str) + (llen s + Z.of_nat (length str)) - (lpos s + Z.of_nat (length str))));
    (apply (good_part a a1 s s1); cbn [s1 set_line set_store lpos llen xpos section e_io]; try done; try lia).
Qed.
(** *** Deletion *)

Lemma delete_ok a s n :
  shows_line a s -> view_ok s -> (n <= length (right a))%nat ->
  Z.of_nat (length (left a)) + Z.of_nat (length (text a)) - Z.of_nat n < MAX_CMDLINE ->
  good (Line (left a) (drop n (right a)) (killed a)) s
    (cl_delete current_term max_lines mem_lower mem_upper prompt echo_char (Z.of_nat n) s).
Proof.
  intros H V Hn Hfit. unfold cl_delete. pose proof (shows_line_lpos _ _ H). pose proof (sl_llen _ _ H) as Hll.
  pose proof (sl_lpos _ _ H) as Hlp. unfold text in Hll, Hfit. rewrite length_app in Hll, Hfit.
  assert (CMDLINE_BUF = 0x78260 /\ KILL_BUF = 0x788A0) as [HC HK] by done. unfold MAX_CMDLINE in Hfit.
  destruct (move_spec (CMDLINE_BUF + lpos s) (CMDLINE_BUF + lpos s + Z.of_nat n) (llen s - Z.of_nat n + 1) s (sl_err _ _ H))
    as (m' & -> & Hc); [lia | lia | lia |].
  set (a1 := Line (left a) (drop n (right a)) (killed a)).
  set (s1 := set_line (lpos s) (llen s - Z.of_nat n) (set_store (ERR_NONE, m') s)).
  assert (forall b, ~ (CMDLINE_BUF <= b < KILL_BUF) -> ld m' b = ld (e_mem s) b) as Hf
    by (intros b Hb; unfold copied in Hc; rewrite Hc, decide_False by lia; done).
  assert (shows_line a1 s1) as H1.
  { constructor; cbn; try apply H; try done.
    - apply (cstr_at_delete (e_mem s) m' CMDLINE_BUF (left a) (take n (right a)) (drop n (right a)) (llen s - Z.of_nat n + 1)).
      + rewrite take_drop. apply H.
      + rewrite length_drop. lia.
      + rewrite <- Hlp, length_take. replace (n `min` length (right a))%nat with n by lia. exact Hc.
    - unfold text. cbn. rewrite length_app, length_drop. lia.
    - pose proof (sl_max _ _ H). lia.
    - pose proof (sl_print _ _ H) as Hpr. unfold text in *. cbn. rewrite !Forall_app in *. destruct Hpr as [? Hr]; split; [done |]. rewrite <- (take_drop n (right a)), Forall_app in Hr. tauto.
    - eapply cstr_at_frame; [| apply H]. intros b Hb. apply Hf. lia. }
  assert (edited s s1) as He by (split_and!; try done; intros b Hb; apply Hf; unfold outside, HISTORY_BUF, KILL_BUF, MAX_CMDLINE in *; lia).
  pose proof (view_width _ _ _ V). pose proof (view_pos _ _ _ V).
  assert (forall i, 0 <= i < lpos s -> char_of (text a) i = char_of (text a1) i) as Hsame
    by (intros i Hi; unfold text; cbn; apply char_of_app; lia).
  change (xpos (set_line _ _ _)) with (xpos s). change (llen (set_line _ _ _)) with (llen s - Z.of_nat n).
  change (lpos (set_line _ _ _)) with (lpos s). change CMDLINE_WIDTH with 78. cbn [set_store lpos llen]. fold s1.
  destruct (Z.ltb_spec 78 (xpos s + (llen s - Z.of_nat n) + Z.of_nat n - lpos s));
    (apply (good_part a a1 s s1); cbn [s1 set_line set_store lpos llen xpos section e_io]; try done; try lia).
Qed.

(** *** Motion *)

(** The cursor moves inside the section that is shown. *)
Lemma moved_ok a a1 s cs p :
  shows_line a s -> view_ok s -> text a1 = text a -> killed a1 = killed a -> p = Z.of_nat (length (left a1)) ->
  start (section s) <= p -> xpos s + (p - lpos s) < 78 ->
  row_is cs (xpos s + (p - lpos s)) (view s) ->
  good a1 s (Some (set_term (Io cs (keys (e_io s)) (count_lines (e_io s))) (set_view (xpos s + (p - lpos s)) (section s) (set_line p (llen s) s)))).
Proof.
  intros H [V1 V2 V3 V4 V5] Ht Hk -> Hst Hw Hrow. eexists. split; [reflexivity |].
  pose proof (sl_llen _ _ H) as Hll. rewrite <- Ht in Hll. split; [| split; [| by split_and!]].
  - destruct H. constructor; cbn; try done; by rewrite ?Ht, ?Hk.
  - constructor; cbn; try done; try lia. unfold text in Hll. rewrite length_app in Hll. lia.
Qed.

Lemma backward_ok a s n :
  shows_line a s -> view_ok s -> (n <= length (left a))%nat ->
  good (Line (take (length (left a) - n) (left a)) (drop (length (left a) - n) (left a) ++ right a) (killed a)) s
    (cl_backward current_term max_lines prompt echo_char (Z.of_nat n) s).
Proof.
  intros H V Hn. set (a1 := Line _ _ _). unfold cl_backward.
  pose proof (sl_lpos _ _ H) as Hlp. pose proof V as [[V1 V1'] [V2 V2'] V3 V4 V5].
  assert (text a1 = text a) as Ht by (unfold text; cbn; by rewrite app_assoc, take_drop).
  assert (lpos s - Z.of_nat n = Z.of_nat (length (left a1))) as Hl1 by (cbn; rewrite length_take; lia).
  set (s1 := set_line (lpos s - Z.of_nat n) (llen s) s).
  assert (shows_line a1 s1) as H1 by (destruct H; constructor; cbn [s1 set_line e_mem e_io e_err lpos llen]; try done; by rewrite ?Ht).
  change (section s1) with (section s). change (lpos s1) with (lpos s - Z.of_nat n). change (xpos s1) with (xpos s).
  change CMDLINE_WIDTH with 78.
  destruct ((section s =? 1) && (plen prompt + (lpos s - Z.of_nat n) <? 78)) eqn:E; [by apply good_full |].
  destruct (Z.ltb_spec (xpos s - Z.of_nat n) 1); [by apply good_full |].
  assert (start (section s) <= lpos s - Z.of_nat n) as Hst.
  { apply andb_false_iff in E. unfold section_start in *. change CMDLINE_MARGIN with 10 in *. change CMDLINE_WIDTH with 78 in *.
    unfold base in V3. destruct (Z.eqb_spec (section s) 0); [lia |].
    destruct E as [E | E]; [apply Z.eqb_neq in E; lia |]. apply Z.ltb_ge in E.
    destruct (Z.eqb_spec (section s) 1) as [-> |]; lia. }
  assert (xpos s - Z.of_nat n = xpos s + (lpos s - Z.of_nat n - lpos s)) as -> by lia.
  pose proof (fun cs => moved_ok a a1 s cs (lpos s - Z.of_nat n) H V Ht eq_refl Hl1 Hst ltac:(lia)) as G.
  destruct (is_dumb current_term).
  - rewrite put_all_wrote; [| apply Forall_repeat; by unfold no_control | apply (sl_count _ _ H)]. apply G.
    destruct V5 as [R1 R2]. unfold row_is. cbn. rewrite row_backspaces. cbn [fst snd]. split; [lia | done].
  - apply G. destruct V5 as [R1 R2]. unfold row_is. cbn. fold (row_of (calls (e_io s))).
    unfold row_of in *. destruct (foldr row_call _ _) as [c0 cells]. done.
Qed.

Lemma forward_ok a s n :
  shows_line a s -> view_ok s -> (n <= length (right a))%nat ->
  good (Line (left a ++ take n (right a)) (drop n (right a)) (killed a)) s
    (cl_forward current_term max_lines prompt echo_char (Z.of_nat n) s).
Proof.
  intros H V Hn. set (a1 := Line _ _ _). unfold cl_forward.
  pose proof (sl_lpos _ _ H) as Hlp. pose proof V as [[V1 V1'] [V2 V2'] V3 V4 V5].
  assert (text a1 = text a) as Ht by (unfold text; cbn; by rewrite <- app_assoc, take_drop).
  assert (lpos s + Z.of_nat n = Z.of_nat (length (left a1))) as Hl1 by (cbn; rewrite length_app, length_take; lia).
  set (s1 := set_line (lpos s + Z.of_nat n) (llen s) s).
  assert (shows_line a1 s1) as H1 by (destruct H; constructor; cbn [s1 set_line e_mem e_io e_err lpos llen]; try done; by rewrite ?Ht).
  change (section s1) with (section s). change (lpos s1) with (lpos s + Z.of_nat n). change (xpos s1) with (xpos s).
  change CMDLINE_WIDTH with 78.
  destruct (Z.leb_spec 78 (xpos s + Z.of_nat n)); [by apply good_full |].
  replace (xpos s + Z.of_nat n) with (xpos s + (lpos s + Z.of_nat n - lpos s)) by lia.
  pose proof (fun cs => moved_ok a a1 s cs (lpos s + Z.of_nat n) H V Ht eq_refl Hl1 ltac:(lia) ltac:(lia)) as G.
  destruct (is_dumb current_term).
  - pose proof (sl_llen _ _ H) as Hll. unfold text in Hll. rewrite length_app in Hll.
    cbn [lpos set_view]. change (lpos s1) with (lpos s + Z.of_nat n). replace (lpos s + Z.of_nat n - Z.of_nat n) with (lpos s) by lia.
    assert (Forall (fun i => printable (shown_char s i)) (seqZ (lpos s) (Z.of_nat n))) as Hp.
    { apply Forall_forall. intros i Hi. apply list_elem_of_In, elem_of_seqZ in Hi. apply (shows_line_text_ok _ _ H). lia. }
    rewrite loop_wrote; [| apply (sl_count _ _ H) | exact Hp].
    apply G. change (xpos s + (lpos s + Z.of_nat n - lpos s)) with (xpos s + (lpos s + Z.of_nat n - lpos s)).
    assert (Forall printable (map (shown_char s) (seqZ (lpos s) (Z.of_nat n)))) as Hp' by (by apply Forall_map).
    pose proof (row_is_put _ _ _ _ Hp' V5) as Hr. rewrite length_map, length_seqZ, Z2Nat.id in Hr by lia.
    replace (xpos s + (lpos s + Z.of_nat n - lpos s)) with (xpos s + Z.of_nat n) by lia.
    eapply row_is_ext; [| exact Hr]. intros j Hj. cbn beta. destruct (Z.leb_spec (xpos s) j); cbn [andb]; [| done].
    destruct (Z.ltb_spec j (xpos s + Z.of_nat n)); [| done].
    pose proof (base_range prompt prompt_printable plen_small (section s)).
    rewrite (nth_lookup_Some _ _ 0 (shown_char s (lpos s + (j - xpos s)))).
    + unfold GrubReadline.view, char_at. rewrite (proj2 (Z.ltb_ge j (base prompt (section s)))), (proj2 (Z.ltb_lt j 78)) by lia.
      replace (start (section s) + (j - base prompt (section s))) with (lpos s + (j - xpos s)) by lia.
      by rewrite (proj2 (Z.ltb_lt _ _)) by lia.
    + rewrite list_lookup_fmap. rewrite lookup_seqZ_lt by lia. cbn. do 2 f_equal. lia.
  - apply G. destruct V5 as [R1 R2]. unfold row_is. cbn. fold (row_of (calls (e_io s))).
    unfold row_of in *. destruct (foldr row_call _ _) as [c0 cells]. done.
Qed.
(** *** The keys *)

Lemma good_self a s : shows_line a s -> view_ok s -> good a s (Some s).
Proof. intros H V. exists s. by split_and!. Qed.

Lemma good_bind a a' s r (f : ed -> option ed) :
  good a s r -> (forall s', shows_line a s' -> view_ok s' -> good a' s' (f s')) -> good a' s (r ≫= f).
Proof.
  intros (s1 & -> & H1 & V1 & E1) Hf. destruct (Hf s1 H1 V1) as (s2 & Hr & H2 & V2 & E2). cbn. exists s2.
  split_and!; try done. by eapply edited_trans.
Qed.

Lemma good_from a s s1 r : edited s s1 -> good a s1 r -> good a s r.
Proof. intros He (s2 & -> & H2 & V2 & E2). exists s2. split_and!; try done. by eapply edited_trans. Qed.

(** Memory changes and the line does not. *)
Lemma stored_ok a a' s m' :
  shows_line a s -> view_ok s -> left a' = left a -> right a' = right a ->
  (forall b, CMDLINE_BUF <= b < KILL_BUF -> ld m' b = ld (e_mem s) b) ->
  cstr_at m' KILL_BUF (killed a') -> Forall printable (killed a') -> Z.of_nat (length (killed a')) < MAX_CMDLINE ->
  shows_line a' (set_store (ERR_NONE, m') s) /\ view_ok (set_store (ERR_NONE, m') s).
Proof.
  intros H V Hl Hr Hm Hk Hkp Hkl. destruct buffers as (HC & HK & HM).
  assert (text a' = text a) as Ht by (unfold text; congruence).
  assert (shows_line a' (set_store (ERR_NONE, m') s)) as H'.
  { pose proof (sl_llen _ _ H). pose proof (sl_max _ _ H). destruct H.
    constructor; cbn [set_store e_mem e_err e_io lpos llen fst snd]; try done; rewrite ?Ht, ?Hl; try done.
    eapply cstr_at_frame; [| done]. intros b Hb. apply Hm. lia. }
  split; [done |]. destruct V as [V1 V2 V3 V4 V5]. constructor; cbn [set_store lpos llen section xpos e_io]; try done.
  eapply row_is_ext; [| exact V5]. intros j Hj. apply (view_agrees a a'); try done; try lia.
  intros i H0 _ _. split; [done |]. intros _. by rewrite Ht.
Qed.

Lemma take_pred {A} (l : list A) : l <> [] -> (1 <= length l)%nat.
Proof. destruct l; [done | cbn; lia]. Qed.

Lemma motion_key_ok c a s : shows_line a s -> view_ok s -> c <> 9 -> c <> 16 -> c <> 14 ->
  (c =? 21) || (c =? 11) || (c =? 25) = false ->
  good (motion_key c a) s (readline_key current_term max_lines mem_lower mem_upper print_completions prompt cmdline maxlen echo_char c s).
Proof.
  intros H V Hc1 Hc2 Hc3 Hk. unfold readline_key, motion_key.
  rewrite (proj2 (Z.eqb_neq c 9)), (proj2 (Z.eqb_neq c 16)), (proj2 (Z.eqb_neq c 14)) by done.
  apply orb_false_iff in Hk as [Hk ->]. apply orb_false_iff in Hk as [-> ->].
  pose proof (sl_lpos _ _ H) as Hlp. pose proof (sl_llen _ _ H) as Hll. unfold text in Hll. rewrite length_app in Hll.
  destruct (c =? 1).
  { rewrite Hlp. pose proof (backward_ok a s (length (left a)) H V ltac:(lia)) as G.
    by rewrite Nat.sub_diag in G. }
  destruct (c =? 5).
  { replace (llen s - lpos s) with (Z.of_nat (length (right a))) by lia.
    pose proof (forward_ok a s (length (right a)) H V ltac:(lia)) as G. by rewrite firstn_all, drop_all in G. }
  destruct (c =? 6).
  { destruct (Z.ltb_spec (lpos s) (llen s)); [apply (forward_ok a s 1 H V); lia |].
    assert (right a = []) as Hr by (apply nil_length_inv; lia). rewrite Hr. cbn. rewrite app_nil_r, <- Hr.
    destruct a. by apply good_self. }
  destruct (c =? 2); [| by apply good_self].
  destruct (Z.ltb_spec 0 (lpos s)); [apply (backward_ok a s 1 H V); lia |].
  assert (left a = []) as Hl by (apply nil_length_inv; lia). rewrite Hl. cbn. rewrite <- Hl at 1.
  destruct a. by apply good_self.
Qed.

Lemma cstr_at_suffix m a l r : cstr_at m a (l ++ r) -> cstr_at m (a + Z.of_nat (length l)) r.
Proof.
  intros Hc. pose proof (proj1 Hc) as Hs. pose proof (proj1 (cstr_at_bytes _ _ _ Hs) Hc) as Hb.
  apply is_cstr_app in Hs as [Hl Hr]. apply cstr_at_bytes; [done |]. intros i Hi.
  replace (a + Z.of_nat (length l) + Z.of_nat i) with (a + Z.of_nat (length l + i)) by lia.
  rewrite Hb by (rewrite length_app; lia). rewrite <- app_assoc, app_nth2 by lia. f_equal. lia.
Qed.

Lemma cstr_at_moved m m' a b t : (forall j, 0 <= j <= Z.of_nat (length t) -> ld m' (b + j) = ld m (a + j)) ->
  cstr_at m a t -> cstr_at m' b t.
Proof.
  intros H Hc. pose proof (proj1 Hc) as Hs. pose proof (proj1 (cstr_at_bytes _ _ _ Hs) Hc) as Hb.
  apply cstr_at_bytes; [done |]. intros i Hi. rewrite H by lia. by apply Hb.
Qed.

(** What [memmove] and a final NUL leave. *)
Lemma cstr_at_cut m m1 a b t r : cstr_at m a (t ++ r) -> copied m b a (Z.of_nat (length t)) m1 ->
  cstr_at (st m1 (b + Z.of_nat (length t)) 0) b t.
Proof.
  intros Hc C. pose proof (proj1 Hc) as Hs. pose proof (proj1 (cstr_at_bytes _ _ _ Hs) Hc) as Hb.
  apply is_cstr_app in Hs as [Ht _]. apply cstr_at_bytes; [done |]. intros i Hi. rewrite ld_st. case_decide.
  - replace i with (length t) by lia. by rewrite nth_middle.
  - unfold copied in C. rewrite C, decide_True by lia. replace (a + (b + Z.of_nat i - b)) with (a + Z.of_nat i) by lia.
    rewrite Hb by (rewrite length_app; lia). by rewrite <- app_assoc, !app_nth1 by lia.
Qed.

Lemma kill_key_ok c a s : shows_line a s -> view_ok s -> fits a = true ->
  (c =? 21) || (c =? 11) || (c =? 25) = true ->
  good (kill_key maxlen c a) s (readline_key current_term max_lines mem_lower mem_upper print_completions prompt cmdline maxlen echo_char c s).
Proof.
  intros H V Hf Hk. unfold readline_key, kill_key, fits in *. apply Z.leb_le in Hf. destruct buffers as (HC & HK & HM).
  pose proof (sl_lpos _ _ H) as Hlp. pose proof (sl_llen _ _ H) as Hll. pose proof (sl_max _ _ H).
  pose proof (sl_print _ _ H) as Hpr. pose proof (sl_text _ _ H) as Htx.
  unfold text in Hll, Hf, Hpr, Htx. rewrite length_app in Hll, Hf. apply Forall_app in Hpr as [Hpl Hpr].
  pose proof (proj1 (cstr_at_bytes _ _ _ (proj1 Htx)) Htx) as Hb.
  destruct (Z.eqb_spec c 21) as [-> |]; [| destruct (Z.eqb_spec c 11) as [-> |]; [| destruct (Z.eqb_spec c 25) as [-> |]; [| done]]];
    cbn [Z.eqb Pos.eqb].
  - case_decide as El; [rewrite El in Hlp; rewrite (proj2 (Z.eqb_eq _ _)) by (cbn in Hlp; lia); by apply good_self |].
    apply take_pred in El. rewrite (proj2 (Z.eqb_neq (lpos s) 0)) by lia.
    destruct (move_spec KILL_BUF CMDLINE_BUF (lpos s) s (sl_err _ _ H)) as (m1 & -> & C1); [lia | lia | lia |].
    cbv zeta. change (lpos (set_store (ERR_NONE, m1) s)) with (lpos s). set (m2 := st m1 (KILL_BUF + lpos s) 0).
    change (store (KILL_BUF + lpos s) 0 (set_store (ERR_NONE, m1) s)) with (set_store (ERR_NONE, m2) s).
    destruct (stored_ok a (Line (left a) (right a) (left a)) s m2 H V eq_refl eq_refl) as [H1 V1].
    + intros b Hbb. unfold m2. rewrite ld_st_ne by lia. unfold copied in C1. rewrite C1, decide_False by lia. done.
    + cbn [killed]. unfold m2. rewrite Hlp. rewrite Hlp in C1. by eapply cstr_at_cut.
    + done.
    + cbn [killed]. lia.
    + apply (good_from _ s (set_store (ERR_NONE, m2) s)).
      { split_and!; try done. intros b Hbb. unfold outside, HISTORY_BUF, MAX_CMDLINE in Hbb. cbn [set_store e_mem snd]. unfold m2.
        rewrite ld_st_ne by lia. unfold copied in C1. rewrite C1, decide_False by lia. done. }
      set (s1 := set_store (ERR_NONE, m2) s) in *. change (lpos s) with (lpos s1).
      assert (lpos s1 = Z.of_nat (length (left a))) as -> by done.
      pose proof (backward_ok _ s1 (length (left a)) H1 V1 (le_n _)) as G. cbn [left right killed] in G.
      rewrite Nat.sub_diag, drop_0 in G. cbn [take] in G. eapply good_bind; [exact G |]. intros s2 H2 V2.
      pose proof (delete_ok _ s2 (length (left a)) H2 V2) as D. cbn [left right killed text] in D.
      rewrite drop_app_length in D. apply D; unfold text; cbn [left right app length]; rewrite ?length_app, ?take_0; cbn [length]; lia.
  - case_decide as Er; [rewrite Er in Hll; cbn in Hll; rewrite (proj2 (Z.eqb_eq _ _)) by lia; by apply good_self |].
    apply take_pred in Er. rewrite (proj2 (Z.eqb_neq (lpos s) _)) by lia.
    destruct (move_spec KILL_BUF (CMDLINE_BUF + lpos s) (llen s - lpos s + 1) s (sl_err _ _ H)) as (m1 & -> & C1); [lia | lia | lia |].
    destruct (stored_ok a (Line (left a) (right a) (right a)) s m1 H V eq_refl eq_refl) as [H1 V1].
    + intros b Hbb. unfold copied in C1. rewrite C1, decide_False by lia. done.
    + cbn [killed]. apply cstr_at_suffix in Htx. rewrite <- Hlp in Htx. eapply cstr_at_copied; [| done].
      by replace (Z.of_nat (length (right a)) + 1) with (llen s - lpos s + 1) by lia.
    + done.
    + cbn [killed]. lia.
    + apply (good_from _ s (set_store (ERR_NONE, m1) s)).
      { split_and!; try done. intros b Hbb. unfold outside, HISTORY_BUF, MAX_CMDLINE in Hbb. cbn [set_store e_mem snd].
        unfold copied in C1. rewrite C1, decide_False by lia. done. }
      pose proof (delete_ok _ _ (length (right a)) H1 V1) as D. cbn [left right killed] in D. rewrite drop_all in D.
      replace (llen s - lpos s) with (Z.of_nat (length (right a))) by lia.
      apply D; unfold text; cbn [left right]; rewrite ?length_app; lia.
  - apply insert_ok; try apply H; try done. right. done.
Qed.

Lemma readline_key_ok c a s : shows_line a s -> view_ok s -> fits a = true -> c <> 9 -> c <> 16 -> c <> 14 ->
  good (kill_key maxlen c (motion_key c a)) s
    (readline_key current_term max_lines mem_lower mem_upper print_completions prompt cmdline maxlen echo_char c s).
Proof.
  intros H V Hf H9 H16 H14. destruct ((c =? 21) || (c =? 11) || (c =? 25)) eqn:Ek.
  - pose proof (kill_key_ok c a s H V Hf Ek) as G. assert (motion_key c a = a) as -> by
      (unfold motion_key; rewrite !orb_true_iff, !Z.eqb_eq in Ek; by destruct Ek as [[-> | ->] | ->]). exact G.
  - pose proof (motion_key_ok c a s H V H9 H16 H14 Ek) as G.
    assert (kill_key maxlen c (motion_key c a) = motion_key c a) as ->; [| exact G].
    unfold kill_key. apply orb_false_iff in Ek as [Ek ->]. by apply orb_false_iff in Ek as [-> ->].
Qed.
Lemma basic_key_ok c a s : shows_line a s -> view_ok s -> (c = 4 \/ c = 8 -> fits a = true) ->
  good (plain_key maxlen c a) s (basic_key current_term max_lines mem_lower mem_upper prompt maxlen echo_char local_str c s).
Proof.
  intros H V Hf. unfold basic_key, plain_key. destruct buffers as (HC & HK & HM).
  pose proof (sl_lpos _ _ H) as Hlp. pose proof (sl_llen _ _ H) as Hll. unfold text in Hll. rewrite length_app in Hll.
  unfold fits, text in Hf. rewrite length_app in Hf.
  destruct (Z.eqb_spec c 4) as [-> |].
  { specialize (Hf (or_introl eq_refl)). apply Z.leb_le in Hf. destruct (Z.eqb_spec (lpos s) (llen s)).
    - assert (right a = []) as Hr by (apply nil_length_inv; lia). rewrite Hr. cbn. rewrite <- Hr. destruct a. by apply good_self.
    - apply (delete_ok a s 1 H V); [lia |]. unfold text. rewrite length_app. lia. }
  destruct (Z.eqb_spec c 8) as [-> |].
  { specialize (Hf (or_intror eq_refl)). apply Z.leb_le in Hf. destruct (Z.ltb_spec 0 (lpos s)).
    - eapply good_bind; [apply (backward_ok a s 1 H V); lia |]. intros s1 H1 V1.
      assert (drop 1 (drop (length (left a) - 1) (left a) ++ right a) = right a) as Hd
        by (apply drop_app_length'; rewrite length_drop; lia).
      pose proof (delete_ok _ s1 1 H1 V1) as D. cbn [left right killed text] in D.
      rewrite Hd in D. apply D; unfold text; cbn [left right]; rewrite ?length_app, ?length_take, ?length_drop; lia.
    - assert (left a = []) as Hl by (apply nil_length_inv; lia). rewrite Hl. cbn. rewrite <- Hl at 1. destruct a. by apply good_self. }
  destruct ((32 <=? c) && (c <=? 126)) eqn:Ep; [| by apply good_self].
  apply andb_true_iff in Ep as [E1%Z.leb_le E2%Z.leb_le].
  unfold store. rewrite (sl_err _ _ H). cbn [set_store e_err e_mem fst snd].
  set (m1 := st (st (e_mem s) local_str c) (local_str + 1) 0).
  change (set_store _ (set_store _ s)) with (set_store (ERR_NONE, m1) s).
  assert (forall b, ~ (local_str <= b < local_str + 2) -> ld m1 b = ld (e_mem s) b) as Hm
    by (intros b Hb; unfold m1; rewrite !ld_st_ne by lia; done).
  pose proof local_apart as Hla. unfold COMPLETION_BUF, HISTORY_BUF, HISTORY_SIZE in Hla.
  destruct (stored_ok a a s m1 H V eq_refl eq_refl) as [H1 V1]; try apply H.
  - intros b Hb. apply Hm. lia.
  - eapply cstr_at_frame; [| apply H]. pose proof (sl_klen _ _ H). intros b Hb. apply Hm. lia.
  - eapply good_from; [| apply insert_ok; [exact H1 | exact V1 | | | |]].
    + split_and!; try done. intros b Hb. apply Hm. apply Hb.
    + cbn [set_store e_mem snd]. split; [constructor; [lia | constructor] |]. split.
      * intros i c' Hi. destruct i as [|i]; [| done]. injection Hi as <-. cbn.
        unfold m1. rewrite Z.add_0_r, ld_st_ne by lia. apply ld_st_eq.
      * cbn. apply ld_st_eq.
    + constructor; [unfold printable; lia | constructor].
    + cbn. lia.
    + cbn. lia.
Qed.

Lemma edit_key_ok k a s : shows_line a s -> view_ok s -> fits a = true -> spec_key k = true ->
  good (line_key maxlen readline (ASCII_CHAR k) a) s
    (edit_key current_term max_lines mem_lower mem_upper print_completions prompt cmdline maxlen echo_char readline local_str (ASCII_CHAR k) s).
Proof.
  intros H V Hf Hk. unfold spec_key in Hk. set (c := ASCII_CHAR k) in *. rewrite !andb_true_iff, !negb_true_iff, !Z.eqb_neq in Hk.
  destruct Hk as ((((_ & _) & H9) & H16) & H14). unfold line_key, edit_key. destruct readline.
  - eapply good_bind; [by apply readline_key_ok |]. intros s' H' V'. apply basic_key_ok; [done | done |].
    intros Hc. assert (kill_key maxlen c (motion_key c a) = a) as ->; [by destruct Hc as [-> | ->] | done].
  - cbn [mbind option_bind]. by apply basic_key_ok.
Qed.

(** *** The loop *)

Lemma shows_line_term a s i : calls i = calls (e_io s) -> count_lines i = count_lines (e_io s) ->
  shows_line a s -> view_ok s -> shows_line a (set_term i s) /\ view_ok (set_term i s).
Proof.
  intros Hc Hn H V. split.
  - destruct H. constructor; cbn; try done. by rewrite Hn.
  - destruct V. constructor; cbn [set_term lpos llen section xpos e_io]; try done. by rewrite Hc.
Qed.

Definition kept (s s' : ed) : Prop :=
  (forall b, outside b -> ld (e_mem s') b = ld (e_mem s) b) /\ history s' = history s /\ num_history s' = num_history s.

Lemma edit_loop_ok ks : forall fuel a s k rest, (length ks < fuel)%nat ->
  shows_line a s -> view_ok s -> keys_ok maxlen readline ks a = true -> keys (e_io s) = ks ++ k :: rest ->
  return_key k || (ASCII_CHAR k =? 27) = true ->
  exists s', edit_loop current_term max_lines mem_lower mem_upper print_completions prompt cmdline maxlen echo_char readline local_str fuel s
             = Some (return_key k, s') /\
             shows_line (run_keys maxlen readline ks a) s' /\ view_ok s' /\ kept s s' /\ keys (e_io s') = rest.
Proof.
  induction ks as [|c ks IH]; intros [|fuel] a s k rest Hfu H V Hok Hks Hk; try (cbn in Hfu; lia); cbn [edit_loop]; unfold getkey; rewrite Hks; cbn [app mbind option_bind].
  - exists (set_term (set_keys rest (e_io s)) s). split.
    + unfold return_key in *. destruct ((ASCII_CHAR k =? 10) || (ASCII_CHAR k =? 13)); [done |]. cbn in Hk. by rewrite Hk.
    + destruct (shows_line_term a s (set_keys rest (e_io s)) eq_refl eq_refl H V). by split_and!.
  - cbn [keys_ok] in Hok. apply andb_true_iff in Hok as [Hok Hks']. apply andb_true_iff in Hok as [Hc Hf].
    set (i := set_keys (ks ++ k :: rest) (e_io s)).
    destruct (shows_line_term a s i eq_refl eq_refl H V) as [H1 V1].
    destruct (edit_key_ok c a (set_term i s) H1 V1 Hf Hc) as (s2 & E2 & H2 & V2 & K2).
    unfold spec_key, return_key in Hc. rewrite !andb_true_iff, !negb_true_iff in Hc. destruct Hc as ((((Hr & H27) & _) & _) & _).
    rewrite Hr, H27, E2. cbn [mbind option_bind].
    destruct K2 as (K2 & Kh & Kn & Kk).
    destruct (IH fuel _ s2 k rest ltac:(cbn in Hfu; lia) H2 V2 Hks') as (s3 & E3 & H3 & V3 & (K3 & Kh3 & Kn3) & Kk3); [by rewrite Kk | done |].
    exists s3. split_and!; try done. split; [| split; [by rewrite Kh3, Kh | by rewrite Kn3, Kn]].
    intros b Hb. by rewrite K3, K2 by done.
Qed.
(** *** The start and the end *)

Hypothesis cmdline_low : 0x1000 <= cmdline /\ cmdline + MAX_CMDLINE <= CMDLINE_BUF \/ COMPLETION_BUF + MAX_CMDLINE <= cmdline /\ cmdline + MAX_CMDLINE <= 0x80000.

Lemma put_newline s : count_lines (e_io s) < 0 ->
  put current_term max_lines 10 s = Some (set_term (Io (put_calls [13; 10] ++ calls (e_io s)) (keys (e_io s)) (count_lines (e_io s))) s).
Proof. intros Hc. unfold put, grub_putchar. rewrite putchar_plain by (done || lia). done. Qed.

Lemma cl_init_ok a s : shows_line a s -> good a s (cl_init current_term max_lines prompt echo_char s).
Proof.
  intros H. unfold cl_init. rewrite put_newline by apply H. cbn [mbind option_bind]. apply good_full; [| by split_and!].
  destruct H. by constructor.
Qed.

Lemma copy_string_spec to from t s : e_err s = ERR_NONE -> cstr_at (e_mem s) from t -> Forall printable t ->
  Z.of_nat (length t) < MAX_CMDLINE -> 0x1000 <= to -> to + Z.of_nat (length t) + 1 <= 0x80000 ->
  exists m', copy_string mem_lower mem_upper to from s = set_store (ERR_NONE, m') s /\
             copied (e_mem s) to from (Z.of_nat (length t) + 1) m'.
Proof.
  intros He Ht Hp Hl H1 H2. unfold copy_string, grub_strcpy. unfold MAX_CMDLINE in Hl.
  rewrite (cstring_at _ _ t), grub_strlen_length by (done || lia). cbn [snd].
  apply (move_spec to from _ s He); lia.
Qed.

Lemma start_ok t0 k0 s : e_err s = ERR_NONE -> count_lines (e_io s) < 0 -> cstr_at (e_mem s) cmdline t0 -> Forall printable t0 ->
  Z.of_nat (length t0) < maxlen -> cstr_at (e_mem s) KILL_BUF k0 -> Forall printable k0 -> Z.of_nat (length k0) < MAX_CMDLINE ->
  let n := Z.of_nat (length t0) in
  exists m', copy_string mem_lower mem_upper CMDLINE_BUF cmdline (set_hist (-1) (num_history s) (set_line n n s))
             = set_store (ERR_NONE, m') (set_hist (-1) (num_history s) (set_line n n s)) /\
    shows_line (Line t0 [] k0) (set_store (ERR_NONE, m') (set_hist (-1) (num_history s) (set_line n n s))) /\
    forall b, outside b -> ld m' b = ld (e_mem s) b.
Proof.
  intros He Hc Ht Hp Hl Hk Hkp Hkl n. destruct buffers as (HC & HK & HM).
  destruct (copy_string_spec CMDLINE_BUF cmdline t0 (set_hist (-1) (num_history s) (set_line n n s))) as (m' & E & C);
    [done | done | done | lia | lia | lia |].
  exists m'. split; [done |]. cbn [set_hist set_line e_mem] in C.
  assert (forall b, ~ (CMDLINE_BUF <= b < KILL_BUF) -> ld m' b = ld (e_mem s) b) as Hm
    by (intros b Hb; unfold copied in C; rewrite C, decide_False by lia; done).
  split; [| intros b Hb; apply Hm; unfold outside, HISTORY_BUF in Hb; lia].
  constructor; cbn; unfold text; cbn; rewrite ?app_nil_r; try done.
  - by eapply cstr_at_copied.
  - eapply cstr_at_frame; [| done]. intros b Hb. apply Hm. lia.
Qed.

Lemma scan_spaces l : forall s t fuel, cstr_at (e_mem s) CMDLINE_BUF (t ++ l) -> Forall printable (t ++ l) -> (length l <= fuel)%nat ->
  while fuel (fun i => buf_at s i =? 32) (fun i => Some (i + 1)) (Z.of_nat (length t))
  = Some (Z.of_nat (length (t ++ l)) - Z.of_nat (length (skip_spaces l))).
Proof.
  induction l as [|c l IH]; intros s t fuel Ht Hp Hf.
  - rewrite while_false; [rewrite app_nil_r; cbn; f_equal; lia |]. destruct Ht as (_ & _ & H0). unfold buf_at.
    rewrite app_nil_r in H0. by rewrite H0.
  - assert (buf_at s (Z.of_nat (length t)) = c) as Hc.
    { destruct Ht as (_ & Hc & _). unfold buf_at. rewrite (Hc (length t) c) by apply list_lookup_middle, eq_refl.
      apply Forall_app in Hp as [_ Hp]. apply Forall_cons_iff in Hp as [Hp _]. unfold printable in Hp. by rewrite s8_small by lia. }
    cbn [skip_spaces]. destruct (Z.eqb_spec c 32).
    + destruct fuel as [|fuel]; [cbn in Hf; lia |].
      rewrite (while_true _ _ _ _ (Z.of_nat (length t) + 1)); [| by rewrite Hc; apply Z.eqb_eq | done].
      pose proof (IH s (t ++ [c]) fuel) as I. rewrite <- app_assoc, length_app in I. cbn [app length] in I.
      rewrite Nat2Z.inj_add in I. apply I; [done | done | cbn in Hf; lia].
    + rewrite while_false by (rewrite Hc; by apply Z.eqb_neq). rewrite length_app. cbn [length]. f_equal. lia.
Qed.

Lemma skip_spaces_suffix l : exists b, l = b ++ skip_spaces l.
Proof.
  induction l as [|c l [b IH]]; [by exists [] |]. cbn [skip_spaces]. destruct (c =? 32); [exists (c :: b); cbn; by f_equal | by exists []].
Qed.

Lemma entered_suffix a : exists b, text a = b ++ entered_text echo_char a.
Proof. unfold entered_text. destruct (_ =? _); [apply skip_spaces_suffix | by exists []]. Qed.

(** What a line adds to the history: its text first, and the older lines one
    place further. *)
Definition remembered (t : list Z) (s s' : ed) : Prop :=
  num_history s' = Z.min HISTORY_SIZE (num_history s + 1) /\ cstr_at (e_mem s') HISTORY_BUF t /\
  forall i str, 0 <= i < num_history s -> cstr_at (e_mem s) (HISTORY_BUF + MAX_CMDLINE * i) str ->
    Z.of_nat (length str) < MAX_CMDLINE -> cstr_at (e_mem s') (HISTORY_BUF + MAX_CMDLINE * (i + 1)) str.

Lemma add_history_ok t s : e_err s = ERR_NONE -> cstr_at (e_mem s) cmdline t -> Forall printable t ->
  Z.of_nat (length t) < MAX_CMDLINE -> 0 <= num_history s <= HISTORY_SIZE ->
  let s' := add_history mem_lower mem_upper cmdline 0 s in
  remembered t s s' /\ cstr_at (e_mem s') cmdline t /\ keys (e_io s') = keys (e_io s).
Proof.
  intros He Ht Hp Hl Hn. unfold add_history. unfold HISTORY_SIZE, MAX_CMDLINE in *.
  assert (HISTORY_BUF = 495328 /\ COMPLETION_BUF = 503328 /\ CMDLINE_BUF = 0x78260) as (HH & HCo & HC) by done.
  change (0 + 1) with 1. rewrite !Z.mul_0_r, !Z.mul_1_r, Z.add_0_r, Z.sub_0_r. 
  destruct (move_spec (HISTORY_BUF + 1600) HISTORY_BUF (1600 * num_history s) s He) as (m1 & -> & C1); [lia | lia | lia |].
  unfold copied in C1.
  assert (cstr_at m1 cmdline t) as Ht1
    by (eapply cstr_at_frame; [| exact Ht]; intros b Hb; rewrite C1, decide_False by lia; done).
  destruct (copy_string_spec HISTORY_BUF cmdline t (set_store (ERR_NONE, m1) s)) as (m2 & -> & C2);
    [done | done | done | unfold MAX_CMDLINE; lia | lia | lia |].
  cbn [set_store e_mem snd] in C2.
  set (s2 := set_store (ERR_NONE, m2) (set_store (ERR_NONE, m1) s)). change (num_history s2) with (num_history s).
  assert (forall s', e_mem s' = m2 -> keys (e_io s') = keys (e_io s) -> num_history s' = Z.min 5 (num_history s + 1) ->
          remembered t s s' /\ cstr_at (e_mem s') cmdline t /\ keys (e_io s') = keys (e_io s)) as G.
  { intros s' Hm Hk Hn'. unfold remembered. rewrite Hm. split; [split; [done | split] | split; [| done]].
    - by eapply cstr_at_copied.
    - intros i str Hi Hs Hsl. unfold MAX_CMDLINE in *. eapply cstr_at_moved; [| exact Hs].
      intros j Hj. unfold copied in C2. rewrite C2, decide_False by lia. rewrite C1, decide_True by lia. f_equal. lia.
    - eapply cstr_at_frame; [| exact Ht1]. intros b Hb. unfold copied in C2. rewrite C2, decide_False by lia. done. }
  zcase; apply G; cbn [set_hist num_history e_mem e_io s2 set_store snd]; try done; lia.
Qed.
Definition in_history (b : Z) : Prop := HISTORY_BUF <= b < HISTORY_BUF + MAX_CMDLINE * HISTORY_SIZE.

(** The history after RETURN: only a non-empty line of [readline] is added. *)
Definition history_after (t : list Z) (s s' : ed) : Prop :=
  if readline && negb (bool_decide (t = [])) then remembered t s s'
  else num_history s' = num_history s /\ forall b, in_history b -> ld (e_mem s') b = ld (e_mem s) b.

Lemma history_after_from t s s1 s' : 0 <= num_history s <= HISTORY_SIZE -> num_history s1 = num_history s ->
  (forall b, in_history b -> ld (e_mem s1) b = ld (e_mem s) b) -> history_after t s1 s' -> history_after t s s'.
Proof.
  intros Hn E Hm. unfold history_after, remembered. destruct (_ && _).
  - intros (H1 & H2 & H3). split_and!; [by rewrite <- E | done |]. intros i str Hi Hs Hl. apply H3; [by rewrite E | | done].
    eapply cstr_at_frame; [| exact Hs]. intros b Hb. apply Hm. unfold in_history, HISTORY_SIZE, MAX_CMDLINE in *. lia.
  - intros (H1 & H2). split; [by rewrite H1 |]. intros b Hb. by rewrite H2, Hm.
Qed.

Lemma finish_line_ok a s : shows_line a s -> 0 <= num_history s <= HISTORY_SIZE ->
  exists s', finish_line current_term max_lines mem_lower mem_upper cmdline echo_char readline s = Some s' /\
    cstr_at (e_mem s') cmdline (entered_text echo_char a) /\ history_after (entered_text echo_char a) s s' /\
    keys (e_io s') = keys (e_io s).
Proof.
  intros H Hn. unfold finish_line. rewrite put_newline by apply H. cbn [mbind option_bind].
  set (s1 := set_term _ s). destruct (entered_suffix a) as [b Hb]. set (t := entered_text echo_char a) in *.
  destruct buffers as (HC & HK & HM). pose proof (sl_llen _ _ H) as Hll. pose proof (sl_max _ _ H) as Hmax.
  assert (COMPLETION_BUF = 503328) as HCo by done.
  assert ((if echo_char =? 0 then scan_buf (fun c => c =? 32) s1 0 else Some 0) = Some (Z.of_nat (length b))) as ->.
  { assert (Z.of_nat (length b) = Z.of_nat (length (text a)) - Z.of_nat (length t)) as -> by (rewrite Hb, length_app; lia).
    unfold t, entered_text. destruct (echo_char =? 0); [| f_equal; lia].
    pose proof (scan_spaces (text a) s1 [] (Z.to_nat 0x10000) (sl_text _ _ H) (sl_print _ _ H) ltac:(lia)) as E. exact E. }
  cbn [mbind option_bind]. pose proof (sl_print _ _ H) as Hp. rewrite Hb in Hp. apply Forall_app in Hp as [_ Hp].
  pose proof (sl_text _ _ H) as Ht. rewrite Hb in Ht, Hll. apply cstr_at_suffix in Ht. rewrite length_app in Hll.
  cbv zeta. cbn [set_line lpos llen]. change (llen s1) with (llen s).
  set (s2 := set_line (Z.of_nat (length b)) (llen s) s1).
  destruct (move_spec cmdline (CMDLINE_BUF + Z.of_nat (length b)) (llen s - Z.of_nat (length b) + 1) s2 (sl_err _ _ H))
    as (m' & -> & C); [lia | lia | lia |].
  change (e_mem s2) with (e_mem s) in C.
  assert (cstr_at m' cmdline t) as Ht'.
  { eapply cstr_at_copied; [| exact Ht]. by replace (Z.of_nat (length t) + 1) with (llen s - Z.of_nat (length b) + 1) by lia. }
  set (s3 := set_store (ERR_NONE, m') s2). change (lpos s3) with (Z.of_nat (length b)). change (llen s3) with (llen s).
  assert (forall b, in_history b -> ld (e_mem s3) b = ld (e_mem s) b) as Hh.
  { intros x Hx. cbn [s3 set_store e_mem snd]. unfold copied in C. rewrite C, decide_False; [done |].
    unfold in_history, COMPLETION_BUF, HISTORY_BUF, HISTORY_SIZE in *. lia. }
  assert (readline && (Z.of_nat (length b) <? llen s) = readline && negb (bool_decide (t = []))) as ->.
  { f_equal. case_bool_decide as E; [rewrite E in Hll; cbn in *; apply Z.ltb_ge; lia |].
    apply take_pred in E. cbn. apply Z.ltb_lt. lia. }
  destruct (readline && negb (bool_decide (t = []))) eqn:Er.
  - destruct (add_history_ok t s3 eq_refl Ht' Hp ltac:(lia) Hn) as (R & T & K).
    eexists. split; [reflexivity |]. split; [done |]. split; [| done]. apply (history_after_from t s s3); try done.
    unfold history_after. by rewrite Er.
  - eexists. split; [reflexivity |]. split; [done |]. split; [| done]. unfold history_after. rewrite Er. done.
Qed.

Lemma edit_line_ok t0 k0 ks k rest s : e_err s = ERR_NONE -> count_lines (e_io s) < 0 -> cstr_at (e_mem s) cmdline t0 -> Forall printable t0 ->
  Z.of_nat (length t0) < maxlen -> cstr_at (e_mem s) KILL_BUF k0 -> Forall printable k0 -> Z.of_nat (length k0) < MAX_CMDLINE ->
  0 <= num_history s <= HISTORY_SIZE -> keys_ok maxlen readline ks (Line t0 [] k0) = true -> keys (e_io s) = ks ++ k :: rest ->
  return_key k || (ASCII_CHAR k =? 27) = true ->
  let a := run_keys maxlen readline ks (Line t0 [] k0) in
  exists s', edit_line current_term max_lines mem_lower mem_upper print_completions prompt cmdline maxlen echo_char readline local_str
               (Z.of_nat (length t0)) s = Some (if return_key k then 0 else 1, s') /\ keys (e_io s') = rest /\
    if return_key k
    then cstr_at (e_mem s') cmdline (entered_text echo_char a) /\ history_after (entered_text echo_char a) s s'
    else forall b, outside b -> ld (e_mem s') b = ld (e_mem s) b.
Proof.
  intros He Hc Ht Hp Hl Hk Hkp Hkl Hn Hok Hks Hret a. unfold edit_line.
  destruct (start_ok t0 k0 s He Hc Ht Hp Hl Hk Hkp Hkl) as (m' & -> & H1 & M1).
  destruct (cl_init_ok _ _ H1) as (s2 & -> & H2 & V2 & (E2 & _ & En2 & Ek2)). cbn [mbind option_bind].
  cbn [set_store set_hist set_line e_mem snd num_history e_io] in E2, En2, Ek2.
  destruct (edit_loop_ok ks (S (length (keys (e_io s2)))) (Line t0 [] k0) s2 k rest) as (s3 & -> & H3 & V3 & (K3 & _ & Kn3) & Kk3);
    [rewrite Ek2, Hks, length_app; cbn; lia | done | done | done | by rewrite Ek2 | done |].
  cbn [mbind option_bind]. fold a in H3.
  assert (forall b, outside b -> ld (e_mem s3) b = ld (e_mem s) b) as M3 by (intros b Hb; rewrite K3, E2, M1 by done; done).
  destruct (return_key k).
  - destruct (finish_line_ok a s3 H3) as (s4 & -> & T4 & R4 & K4); [by rewrite Kn3, En2 |]. cbn [mbind option_bind].
    exists s4. split; [done |]. split; [by rewrite K4 |]. split; [done |].
    apply (history_after_from _ s s3); [done | by rewrite Kn3, En2 | | done].
    intros b Hb. apply M3. unfold outside, in_history, COMPLETION_BUF, HISTORY_BUF, HISTORY_SIZE, KILL_BUF, MAX_CMDLINE in *. lia.
  - exists s3. by split_and!.
Qed.
End Edit.

(** ** Properties *)

(** The arguments that GRUB passes: [maxlen] may be too large, and is limited. *)
Record arguments (mem_lower mem_upper : Z) (prompt : list Z) (cmdline maxlen echo_char local_str : Z) : Prop := {
  arg_prompt : Forall printable prompt;
  arg_plen : plen prompt <= 60;
  arg_echo : echo_char = 0 \/ printable echo_char;
  arg_lower : 512 <= mem_lower < 4194304;
  arg_upper : 0 <= mem_upper < 4194304;
  arg_local : 0 <= local_str /\ local_str + 2 <= CMDLINE_BUF \/ COMPLETION_BUF + MAX_CMDLINE <= local_str;
  arg_cmdline : 0x1000 <= cmdline /\ cmdline + MAX_CMDLINE <= CMDLINE_BUF \/
                COMPLETION_BUF + MAX_CMDLINE <= cmdline /\ cmdline + MAX_CMDLINE <= 0x80000 }.

(** The state in which a line is asked for: [t0] at [cmdline], [k0] to yank. *)
Record asks (cmdline maxlen : Z) (t0 k0 : list Z) (s : ed) : Prop := {
  ask_err : e_err s = ERR_NONE;
  ask_count : count_lines (e_io s) < 0;
  ask_text : cstr_at (e_mem s) cmdline t0;
  ask_print : Forall printable t0;
  ask_len : Z.of_nat (length t0) < Z.min maxlen MAX_CMDLINE;
  ask_kill : cstr_at (e_mem s) KILL_BUF k0;
  ask_kprint : Forall printable k0;
  ask_klen : Z.of_nat (length k0) < MAX_CMDLINE;
  ask_hist : 0 <= num_history s <= HISTORY_SIZE }.

(** C7. With a Return or an Escape after a list of editing keys,
    real_get_cmdline ends: Return stores the text that the keys make of an
    abstract line with a cursor and a kill text, without leading spaces when
    echoed, and moves it to the front of the history; Escape leaves everything
    but the work buffers as it was. The keys are those of editing, neither TAB
    nor the history, and the line stays within its buffers. *)
Theorem real_get_cmdline_edits current_term max_lines mem_lower mem_upper print_completions
  prompt cmdline maxlen echo_char readline local_str t0 k0 ks k rest s :
  arguments mem_lower mem_upper prompt cmdline maxlen echo_char local_str ->
  asks cmdline maxlen t0 k0 s ->
  keys (e_io s) = ks ++ k :: rest -> return_key k || (ASCII_CHAR k =? 27) = true ->
  keys_ok (Z.min maxlen MAX_CMDLINE) readline ks (Line t0 [] k0) = true ->
  let t := entered_text echo_char (run_keys (Z.min maxlen MAX_CMDLINE) readline ks (Line t0 [] k0)) in
  exists s', real_get_cmdline current_term max_lines mem_lower mem_upper print_completions
               prompt cmdline maxlen echo_char readline local_str s = Some (if return_key k then 0 else 1, s') /\
    keys (e_io s') = rest /\
    if return_key k then cstr_at (e_mem s') cmdline t /\ history_after readline t s s'
    else forall b, outside local_str b -> ld (e_mem s') b = ld (e_mem s) b.
Proof.
  intros [] [] Hks Hk Hok t. unfold real_get_cmdline. destruct buffers as (_ & _ & HM).
  rewrite (cstring_at _ _ t0), grub_strlen_length by (done || lia).
  assert (edit_line current_term max_lines mem_lower mem_upper print_completions prompt cmdline (Z.min maxlen MAX_CMDLINE)
            echo_char readline local_str (Z.of_nat (length t0)) s
          = (let '(maxlen, len, s) :=
               if MAX_CMDLINE <? maxlen
               then if MAX_CMDLINE <=? Z.of_nat (length t0) then (MAX_CMDLINE, MAX_CMDLINE - 1, store (cmdline + MAX_CMDLINE) 0 s)
                    else (MAX_CMDLINE, Z.of_nat (length t0), s)
               else (maxlen, Z.of_nat (length t0), s) in
             edit_line current_term max_lines mem_lower mem_upper print_completions prompt cmdline maxlen
               echo_char readline local_str len s)) as <-.
  { destruct (Z.ltb_spec MAX_CMDLINE maxlen).
    - rewrite (proj2 (Z.leb_gt _ _)) by lia. by rewrite Z.min_r by lia.
    - by rewrite Z.min_l by lia. }
  apply (edit_line_ok current_term max_lines mem_lower mem_upper print_completions prompt cmdline _ echo_char readline local_str)
    with (t0 := t0) (k0 := k0); try done; lia.
Qed.

Definition plain_term : term_entry := TermEntry 0 None false None.

Lemma real_get_cmdline_edits_witness :
  let s := Ed 0 0 0 0 0 0 ERR_NONE (st_bytes ∅ 0x2000 [98; 111; 111; 116]) (Io [] [120; 1; 121; 6; 8; 13; 65] (-1)) in
  exists s', real_get_cmdline plain_term 24 640 0 (fun _ _ _ => None) [62] 0x2000 2048 0 true 0x68000 s = Some (0, s') /\
    keys (e_io s') = [65] /\
    cstr_at (e_mem s') 0x2000 [121; 111; 111; 116; 120] /\ history_after true [121; 111; 111; 116; 120] s s'.
Proof.
  apply (real_get_cmdline_edits plain_term 24 640 0 (fun _ _ _ => None) [62] 0x2000 2048 0 true 0x68000
           [98; 111; 111; 116] [] [120; 1; 121; 6; 8] 13 [65]).
  - constructor; try done; try (unfold printable, COMPLETION_BUF, HISTORY_BUF, KILL_BUF, CMDLINE_BUF, MAX_CMDLINE, HISTORY_SIZE; lia).
    repeat constructor; unfold printable; lia.
  - constructor; try done.
    + split_and!; [by apply (bool_decide_unpack _) | | done].
      intros i c H. do 4 (destruct i as [|i]; [by injection H as <- |]). done.
    + repeat constructor; unfold printable; lia.
    + split_and!; [by apply (bool_decide_unpack _) | done | done].
  - reflexivity.
  - reflexivity.
  - reflexivity.
Defined.

(** C34. Every editing key takes memory and screen together: the buffer holds
    the edited line, the row shows the section that holds the cursor with the
    prompt or <, the text and >, and the cursor of the terminal stands on the
    right column. The line fits its buffer. *)
Theorem edit_key_simulates current_term max_lines mem_lower mem_upper print_completions
  prompt cmdline maxlen echo_char readline local_str k a s :
  arguments mem_lower mem_upper prompt cmdline maxlen echo_char local_str -> maxlen <= MAX_CMDLINE ->
  shows_line maxlen a s -> view_ok prompt echo_char s -> spec_key k = true -> fits a = true ->
  exists s', edit_key current_term max_lines mem_lower mem_upper print_completions
               prompt cmdline maxlen echo_char readline local_str (ASCII_CHAR k) s = Some s' /\
    shows_line maxlen (line_key maxlen readline (ASCII_CHAR k) a) s' /\ view_ok prompt echo_char s' /\ edited local_str s s'.
Proof. intros [] Hm H V Hk Hf. by apply edit_key_ok. Qed.

Lemma edit_key_simulates_witness :
  let s := Ed 1 0 0 0 0 0 ERR_NONE ∅ (Io [TPut 62] [] (-1)) in
  exists s', edit_key plain_term 24 640 0 (fun _ _ _ => None) [62] 0x2000 1600 0 true 0x68000 120 s = Some s' /\
    shows_line 1600 (Line [120] [] []) s' /\ view_ok [62] 0 s' /\ edited 0x68000 s s'.
Proof.
  apply (edit_key_simulates plain_term 24 640 0 (fun _ _ _ => None) [62] 0x2000 1600 0 true 0x68000 120 (Line [] [] [])).
  - constructor; try done; try (unfold printable, COMPLETION_BUF, HISTORY_BUF, KILL_BUF, CMDLINE_BUF, MAX_CMDLINE, HISTORY_SIZE; lia).
    repeat constructor; unfold printable; lia.
  - done.
  - constructor; try done; by split_and!; try apply (bool_decide_unpack _).
  - constructor; try done. split; [done |]. intros j Hj. cbn. unfold view, char_at. cbn.
    destruct (Z.eqb_spec j 0) as [-> |]; [done |]. rewrite (proj2 (Z.ltb_ge j _)) by (unfold base; cbn; lia).
    destruct (j <? 78); [| done]. by rewrite (proj2 (Z.ltb_ge _ 0)) by (unfold base; cbn; lia).
  - reflexivity.
  - reflexivity.
Defined.
