(* ===== verification/GrubBios.v ===== *)
(** * GRUB's access to disks through the BIOS

    [src/legacy/SZoS/grub-0.97/stage2/bios.c]: the geometry of a drive and
    reading or writing sectors, by linear address or by cylinder, head and
    sector.  The assembly routines that call the BIOS are a parameter, a record
    of functions; [drive_ok] says what a working drive answers, and
    [biosdisk_reads] that [biosdisk] then loads the sectors asked for. *)

From S2P Require Import Prelude Machine LibcString GrubString.

(** ** The code *)

Definition SECTOR_SIZE : Z := 0x200.
Definition SECTOR_BITS : Z := 9.
Definition BIOSDISK_READ : Z := 0x0.
Definition BIOSDISK_WRITE : Z := 0x1.
Definition BIOSDISK_ERROR_GEOMETRY : Z := 0x100.
Definition BIOSDISK_FLAG_LBA_EXTENSION : Z := 0x1.
Definition BIOSDISK_FLAG_CDROM : Z := 0x2.

Record geometry := Geometry {
  cylinders : Z; heads : Z; sectors : Z; total_sectors : Z; sector_size : Z; flags : Z }.

(** [struct disk_address_packet] *)
Record disk_address_packet := DiskAddressPacket {
  dap_length : Z; dap_reserved : Z; dap_blocks : Z; dap_buffer : Z; dap_block : Z }.

(** The members of [struct iso_spec_packet] and [struct drive_parameters] that
    are read. *)
Record iso_spec_packet := IsoSpecPacket {
  media_type : Z; drive_no : Z; cd_cylinders : Z; cd_sectors : Z; cd_heads : Z }.
Record drive_parameters := DriveParameters {
  dp_cylinders : Z; dp_heads : Z; dp_sectors : Z; dp_total_sectors : Z }.

(** Memory, and the bytes of every drive. *)
Record world := World { w_mem : mem; w_disk : Z -> Z -> Z }.

(** The routines of [asm.S]: the first result is an error number. *)
Record bios := Bios {
  check_int13_extensions : Z -> Z;
  int13_cdrom_status : Z -> Z * iso_spec_packet;
  int13_drive_parameters : Z -> Z * drive_parameters;
  get_diskinfo_standard : Z -> Z * (Z * Z * Z);
  biosdisk_int13_extensions : Z -> Z -> disk_address_packet -> world -> Z * world;
  biosdisk_standard : Z -> Z -> Z * Z * Z -> Z -> Z -> world -> Z * world }.

Section Disk.
Variable b : bios.

(** Without the LBA extension; [None] is a division by zero. *)
Definition biosdisk_chs (read drive : Z) (g : geometry) (sector nsec segment : Z) (w : world) : option (Z * geometry * world) :=
  if (sectors g =? 0) || (heads g =? 0) then None
  else
    let sector_offset := u32 sector mod sectors g + 1 in
    let head := s32 (u32 sector / sectors g) in
    let head_offset := u32 head mod heads g in
    let cylinder_offset := s32 (u32 head / heads g) in
    if cylinders g <=? u32 cylinder_offset then Some (BIOSDISK_ERROR_GEOMETRY, g, w)
    else let '(err, w) := biosdisk_standard b (read + 0x02) drive (cylinder_offset, head_offset, sector_offset) nsec segment w in
         Some (err, g, w).

Definition biosdisk (read drive : Z) (g : geometry) (sector nsec segment : Z) (w : world) : option (Z * geometry * world) :=
  if negb (flags g .& BIOSDISK_FLAG_LBA_EXTENSION =? 0)
  then
    let dap := DiskAddressPacket 0x10 0 (u16 nsec) (u32 (segment .<< 16)) sector in
    let '(err, w) := biosdisk_int13_extensions b ((read + 0x42) .<< 8) drive dap w in
    if negb (err =? 0)
    then if negb (flags g .& BIOSDISK_FLAG_CDROM =? 0) then Some (err, g, w)
         else let g := Geometry (cylinders g) (heads g) (sectors g) (u32 (cylinders g * heads g * sectors g)) (sector_size g)
                                (flags g .& u32 (Z.lnot BIOSDISK_FLAG_LBA_EXTENSION)) in
              biosdisk_chs read drive g sector nsec segment w
    else Some (err, g, w)
  else biosdisk_chs read drive g sector nsec segment w.

Definition get_cdinfo (drive : Z) (g : geometry) : Z * geometry :=
  let '(err, cdrp) := int13_cdrom_status b drive in
  if (err =? 0) && (drive_no cdrp =? drive)
  then if media_type cdrp .& 0x0F =? 0
       then (1, Geometry 0 1 15 MAXINT 2048 (BIOSDISK_FLAG_LBA_EXTENSION .| BIOSDISK_FLAG_CDROM))
       else
         let cyl := cd_cylinders cdrp + ((cd_sectors cdrp .& 0xC0) .<< 2) in
         let sec := cd_sectors cdrp .& 0x3F in
         (-1, Geometry cyl (cd_heads cdrp) sec (u32 (cyl * cd_heads cdrp * sec)) SECTOR_SIZE (flags g))
  else (0, g).

Definition get_diskinfo (drive : Z) (g : geometry) : Z * geometry :=
  let g := Geometry (cylinders g) (heads g) (sectors g) (total_sectors g) (sector_size g) 0 in
  if negb (drive .& 0x80 =? 0)
  then
    let version := check_int13_extensions b drive in
    let '(cd, g) := if (0x88 <=? drive) || negb (version =? 0) then get_cdinfo drive g else (0, g) in
    if negb (cd =? 0) then (0, g)
    else
      let '(flags, total) :=
        if negb (version =? 0)
        then let '(err, drp) := int13_drive_parameters b drive in
             if err =? 0
             then (BIOSDISK_FLAG_LBA_EXTENSION,
                   if negb (dp_total_sectors drp =? 0) then u32 (dp_total_sectors drp)
                   else u32 (dp_cylinders drp * dp_heads drp * dp_sectors drp))
             else (flags g, 0)
        else (flags g, 0) in
      let '(err, (c, h, s)) := get_diskinfo_standard b drive in
      if negb (err =? 0) then (err, Geometry c h s (total_sectors g) (sector_size g) flags)
      else (0, Geometry c h s (if total =? 0 then u32 (c * h * s) else total) SECTOR_SIZE flags)
  else
    let '(err, (c, h, s)) := get_diskinfo_standard b drive in
    if negb (err =? 0) then (err, Geometry c h s (total_sectors g) (sector_size g) (flags g))
    else (0, Geometry c h s (u32 (c * h * s)) SECTOR_SIZE (flags g)).
End Disk.

(** ** Specifications *)

(** The [len] bytes at [a] are now those of [f]. *)
Definition loaded (m : mem) (a len : Z) (f : Z -> Z) (m' : mem) : Prop :=
  forall x, ld m' x = if decide (a <= x < a + len) then f (x - a) else ld m x.

(** A drive of geometry [g] that works: reads of sectors it has succeed. *)
Record drive_ok (b : bios) (drive : Z) (g : geometry) : Prop := {
  ok_info : forall g0, get_diskinfo b drive g0 = (0, g);
  ok_size : exists k, 9 <= k <= 11 /\ sector_size g = 2 ^ k;
  ok_sectors : 0 < sectors g < 65536;
  ok_heads : 0 < heads g;
  ok_total : 0 < total_sectors g < 2147483648;
  ok_chs : flags g .& BIOSDISK_FLAG_LBA_EXTENSION = 0 -> total_sectors g = cylinders g * heads g * sectors g;
  ok_lba_read : forall m disk block n seg, flags g .& BIOSDISK_FLAG_LBA_EXTENSION <> 0 ->
    0 <= block -> 0 < n < 65536 -> block + n <= total_sectors g -> 0 <= seg < 65536 ->
    exists m', biosdisk_int13_extensions b 0x4200 drive (DiskAddressPacket 0x10 0 n (65536 * seg) block) (World m disk)
               = (0, World m' disk) /\
      loaded m (16 * seg) (n * sector_size g) (fun i => disk drive (block * sector_size g + i)) m';
  ok_std_read : forall m disk c h s n seg, flags g .& BIOSDISK_FLAG_LBA_EXTENSION = 0 ->
    0 <= c < cylinders g -> 0 <= h < heads g -> 1 <= s -> 0 < n -> s - 1 + n <= sectors g -> 0 <= seg < 65536 ->
    exists m', biosdisk_standard b 2 drive (c, h, s) n seg (World m disk) = (0, World m' disk) /\
      loaded m (16 * seg) (n * sector_size g)
             (fun i => disk drive (((c * heads g + h) * sectors g + (s - 1)) * sector_size g + i)) m' }.

(** ** Proofs *)

Lemma div_le_self a b : 0 <= a -> 0 < b -> 0 <= a / b <= a.
Proof. intros Ha Hb. split; [apply Z.div_pos; lia |]. apply Z.div_le_upper_bound; nia. Qed.

Lemma below_product c h s i j n : 0 <= i -> 0 <= j -> 0 < h -> 0 < s -> (h * c + i) * s + j < n * h * s -> c < n.
Proof. intros Hi Hj Hh Hs H. apply Z.nle_gt. intros Hle. assert (n * h <= c * h) by nia. nia. Qed.

Lemma biosdisk_reads b drive g sector n seg m disk : drive_ok b drive g ->
  0 <= sector -> 0 < n < 65536 -> sector + n <= total_sectors g -> 0 <= seg < 65536 ->
  (flags g .& BIOSDISK_FLAG_LBA_EXTENSION = 0 -> sector mod sectors g + n <= sectors g) ->
  exists m', biosdisk b BIOSDISK_READ drive g sector n seg (World m disk) = Some (0, g, World m' disk) /\
    loaded m (16 * seg) (n * sector_size g) (fun i => disk drive (sector * sector_size g + i)) m'.
Proof.
  intros [Hi Hs Hsp Hh Ht Hc Hl Hstd] H0 Hn Htot Hseg Htrack. unfold biosdisk.
  destruct (Z.eqb_spec (flags g .& BIOSDISK_FLAG_LBA_EXTENSION) 0) as [E | E]; cbn [negb].
  - unfold biosdisk_chs. rewrite (proj2 (Z.eqb_neq (sectors g) 0)), (proj2 (Z.eqb_neq (heads g) 0)) by lia. cbn [orb].
    specialize (Hc E). specialize (Htrack E).
    assert (u32 sector = sector) as Hu by (apply u32_small; lia).
    pose proof (Z.div_mod sector (sectors g) ltac:(lia)) as Hd. pose proof (Z.mod_pos_bound sector (sectors g) ltac:(lia)).
    set (q := sector / sectors g) in *. set (r := sector mod sectors g) in *.
    assert (0 <= q <= sector) as Hq by (apply div_le_self; lia).
    cbv zeta. rewrite !Hu. fold q r. rewrite (s32_small q) by lia. rewrite (u32_small q) by lia.
    pose proof (Z.div_mod q (heads g) ltac:(lia)) as Hd2. pose proof (Z.mod_pos_bound q (heads g) ltac:(lia)).
    set (c := q / heads g) in *. set (h := q mod heads g) in *.
    assert (0 <= c <= q) as Hcq by (apply div_le_self; lia).
    rewrite (s32_small c), (u32_small c) by lia.
    assert (c < cylinders g) as Hcc.
    { apply (below_product c (heads g) (sectors g) h r); lia. }
    rewrite (proj2 (Z.leb_gt _ _)) by lia.
    destruct (Hstd m disk c h (r + 1) n seg E) as (m' & E' & Hm); [lia | lia | lia | lia | lia | lia |].
    change (BIOSDISK_READ + 0x02) with 2. rewrite E'. exists m'. split; [done |].
    replace ((c * heads g + h) * sectors g + (r + 1 - 1)) with sector in Hm by lia. done.
  - destruct (Hl m disk sector n seg E H0 Hn Htot Hseg) as (m' & E' & Hm).
    change ((BIOSDISK_READ + 0x42) .<< 8) with 0x4200.
    assert (u16 n = n) as -> by cint_lia.
    assert (u32 (seg .<< 16) = 65536 * seg) as ->.
    { rewrite Z.shiftl_mul_pow2 by lia. change (2 ^ 16) with 65536. rewrite u32_small by lia. lia. }
    rewrite E'. exists m'. done.
Qed.
