(* ===== verification/GrubDisk.v ===== *)
(** * GRUB's track buffer

    The lowest layer of [src/legacy/SZoS/grub-0.97/stage2/disk_io.c]: reading
    bytes of a drive or of the open partition through a buffer that holds one
    track, writing sectors, and the active flag of a partition.  Sectors come
    from [biosdisk] of [GrubBios]. *)

From S2P Require Import Prelude Machine LibcString GrubString GrubBios.

(** ** The code *)

Definition BUFFERLEN : Z := 0x7e00.
Definition BUFFERADDR : Z := 0x70000.
Definition BUFFERSEG : Z := 0x7000.
Definition SCRATCHADDR : Z := 0x77e00.
Definition SCRATCHSEG : Z := 0x77e0.

Definition PC_SLICE_OFFSET : Z := 446.
Definition PC_SLICE_MAX : Z := 4.
Definition PC_SLICE_TYPE_EZD : Z := 0x55.
Definition PC_SLICE_FLAG_BOOTABLE : Z := 0x80.

(** The macros of [pc_slice.h] give the place of a member. *)
Definition PC_SLICE_FLAG (part : Z) : Z := PC_SLICE_OFFSET + (part .<< 4).
Definition PC_SLICE_TYPE (part : Z) : Z := PC_SLICE_OFFSET + 4 + (part .<< 4).

Definition IS_PC_SLICE_TYPE_EXTENDED (type : Z) : bool := (type =? 5) || (type =? 0xf) || (type =? 0x85).

(** The variables of [disk_io.c], memory and the drives.  [disk_read_func] is
    absent or records its calls. *)
Record dstate := DState {
  d_world : world; d_err : grub_error;
  buf_drive : Z; buf_track : Z; buf_geom : geometry;
  disk_read_func : option (list (Z * Z * Z)) }.

Definition set_world (w : world) (s : dstate) : dstate :=
  DState w (d_err s) (buf_drive s) (buf_track s) (buf_geom s) (disk_read_func s).
Definition set_err (e : grub_error) (s : dstate) : dstate :=
  DState (d_world s) e (buf_drive s) (buf_track s) (buf_geom s) (disk_read_func s).
Definition set_track (t : Z) (s : dstate) : dstate :=
  DState (d_world s) (d_err s) (buf_drive s) t (buf_geom s) (disk_read_func s).
Definition set_geom (drive track : Z) (g : geometry) (s : dstate) : dstate :=
  DState (d_world s) (d_err s) drive track g (disk_read_func s).
Definition set_reads (l : option (list (Z * Z * Z))) (s : dstate) : dstate :=
  DState (d_world s) (d_err s) (buf_drive s) (buf_track s) (buf_geom s) l.
Definition d_mem (s : dstate) : mem := w_mem (d_world s).
Definition set_mem (m : mem) (s : dstate) : dstate := set_world (World m (w_disk (d_world s))) s.

(** [bsfl]: the index of the lowest bit that is set. *)
Fixpoint pos_log2 (p : positive) : Z :=
  match p with xO p' => pos_log2 p' + 1 | _ => 0 end.
Definition log2 (word : Z) : Z := match word with Zpos p => pos_log2 p | _ => 0 end.

Definition ezd_at (m : mem) (a : Z) : bool :=
  existsb (fun part => ld m (a + PC_SLICE_TYPE part) =? PC_SLICE_TYPE_EZD) [0; 1; 2; 3].

Section Disk.
Variables (b : bios) (mem_lower mem_upper : Z).

Definition move (to from len : Z) (s : dstate) : dstate :=
  let '(_, (e, m)) := grub_memmove mem_lower mem_upper to from len (d_err s, d_mem s) in set_mem m (set_err e s).

(** A call of [biosdisk] with [&buf_geom]. *)
Definition bios_call (read drive sector nsec segment : Z) (s : dstate) : option (Z * dstate) :=
  '(err, g, w) ← biosdisk b read drive (buf_geom s) sector nsec segment (d_world s);
  Some (err, set_world w (set_geom (buf_drive s) (buf_track s) g s)).

(** [if (buf_drive != drive) ...]: [false] when [ERR_NO_DISK] is returned. *)
Definition check_drive (drive : Z) (s : dstate) : bool * dstate :=
  if buf_drive s =? drive then (true, s)
  else
    let '(err, g) := get_diskinfo b drive (buf_geom s) in
    if negb (err =? 0) then (false, set_err ERR_NO_DISK (set_geom (buf_drive s) (buf_track s) g s))
    else (true, set_geom drive (-1) g s).

(** The EZD part of a read: sector 1 takes the place of sector 0. *)
Definition ezd_remap (drive sector slen : Z) (s : dstate) : option dstate :=
  if ((buf_track s =? 0) || (sector =? 0)) && ezd_at (d_mem s) BUFFERADDR
  then if (buf_track s =? 0) || (2 <=? slen)
       then Some (move BUFFERADDR (BUFFERADDR + sector_size (buf_geom s)) (sector_size (buf_geom s)) s)
       else '(err, s) ← bios_call BIOSDISK_READ drive 1 1 BUFFERSEG s;
            Some (if negb (err =? 0) then set_err ERR_READ s else s)
  else Some s.

(** The block for [track != buf_track]; the result is [bufaddr]. *)
Definition load_track (drive sector byte_offset slen spv soff track num_sect bufaddr : Z) (s : dstate) : option (Z * dstate) :=
  let '(read_start, read_len, bufaddr) :=
    if num_sect <? slen then (sector, num_sect, BUFFERADDR + byte_offset) else (track, spv, bufaddr) in
  '(bios_err, s) ← bios_call BIOSDISK_READ drive read_start read_len BUFFERSEG s;
  '(bufaddr, s) ←
    (if negb (bios_err =? 0)
     then
       let s := set_track (-1) s in
       if bios_err =? BIOSDISK_ERROR_GEOMETRY then Some (bufaddr, set_err ERR_GEOM s)
       else if num_sect <? slen then Some (BUFFERADDR + byte_offset, set_err ERR_READ s)
       else '(err, s) ← bios_call BIOSDISK_READ drive sector slen BUFFERSEG s;
            Some (BUFFERADDR + byte_offset, if negb (err =? 0) then set_err ERR_READ s else s)
     else Some (bufaddr, set_track track s));
  s ← ezd_remap drive sector slen s;
  Some (bufaddr, s).

(** [while (length > buf_geom.sector_size)] *)
Fixpoint hook_sectors (fuel : nat) (ss sector_num length : Z) (l : list (Z * Z * Z)) : Z * Z * list (Z * Z * Z) :=
  match fuel with
  | O => (sector_num, length, l)
  | S f => if ss <? u32 length then hook_sectors f ss (sector_num + 1) (length - ss) ((sector_num, 0, ss) :: l)
           else (sector_num, length, l)
  end.

Definition read_hook (sector byte_offset size : Z) (s : dstate) : dstate :=
  match disk_read_func s with
  | None => s
  | Some l =>
      let ss := sector_size (buf_geom s) in
      let length := if size <? ss - byte_offset then size else ss - byte_offset in
      let l := (sector, byte_offset, length) :: l in
      let rest := size - length in
      if 0 <? rest
      then let '(n, rest, l) := hook_sectors (Z.to_nat rest) ss (sector + 1) rest l in
           set_reads (Some ((n, 0, rest) :: l)) s
      else set_reads (Some l) s
  end.

(** The loop; its result is what is returned.  [None]: a division by zero, or
    [fuel] rounds did not end it. *)
Fixpoint rawread_loop (fuel : nat) (drive sector byte_offset byte_len buf : Z) (s : dstate) : option (Z * dstate) :=
  if negb (0 <? byte_len) || negb (bool_decide (d_err s = ERR_NONE))
  then Some (if decide (d_err s = ERR_NONE) then 1 else 0, s)
  else
  match fuel with
  | O => None
  | S f =>
      let '(found, s) := check_drive drive s in
      if negb found then Some (0, s)
      else if (sector <? 0) || (total_sectors (buf_geom s) <=? sector) then Some (0, set_err ERR_GEOM s)
      else
        let bits := log2 (sector_size (buf_geom s)) in
        let slen := s32 (u32 (byte_offset + byte_len + sector_size (buf_geom s) - 1) .>> bits) in
        let spv := if BUFFERLEN <? u32 (sectors (buf_geom s) .<< bits) then BUFFERLEN .>> bits else s32 (sectors (buf_geom s)) in
        if spv =? 0 then None
        else
          let soff := Z.rem sector spv in
          let track := sector - soff in
          let num_sect := spv - soff in
          let bufaddr := BUFFERADDR + (soff .<< bits) + byte_offset in
          '(bufaddr, s) ← (if track =? buf_track s then Some (bufaddr, s)
                           else load_track drive sector byte_offset slen spv soff track num_sect bufaddr s);
          let size := if (num_sect .<< bits) - byte_offset <? byte_len then (num_sect .<< bits) - byte_offset else byte_len in
          let s := move buf bufaddr size (read_hook sector byte_offset size s) in
          rawread_loop f drive (sector + num_sect) 0 (byte_len - size) (buf + size) s
  end.

(** Every round takes at least one byte. *)
Definition rawread (drive sector byte_offset byte_len buf : Z) (s : dstate) : option (Z * dstate) :=
  if byte_len <=? 0 then Some (1, s) else rawread_loop (Z.to_nat byte_len) drive sector byte_offset byte_len buf s.

(** [current_drive], [part_start] and [part_length] are the partition that is
    open. *)
Definition devread (current_drive part_start part_length sector byte_offset byte_len buf : Z) (s : dstate) : option (Z * dstate) :=
  if (sector <? 0) || (part_length <=? u32 (sector + ((byte_offset + byte_len - 1) .>> SECTOR_BITS)))
  then Some (0, set_err ERR_OUTSIDE_PART s)
  else
    let sector := sector + (byte_offset .>> SECTOR_BITS) in
    let byte_offset := byte_offset .& (SECTOR_SIZE - 1) in
    rawread current_drive (s32 (u32 (part_start + sector))) byte_offset byte_len buf s.

Definition rawwrite (drive sector buf : Z) (s : dstate) : option (Z * dstate) :=
  '(failed, sector, s) ←
    (if sector =? 0
     then '(err, s) ← bios_call BIOSDISK_READ drive 0 1 SCRATCHSEG s;
          Some (negb (err =? 0), if ezd_at (d_mem s) SCRATCHADDR then 1 else 0, s)
     else Some (false, sector, s));
  if (failed : bool) then Some (0, set_err ERR_WRITE s)
  else
    let s := move SCRATCHADDR buf SECTOR_SIZE s in
    '(err, s) ← bios_call BIOSDISK_WRITE drive sector 1 SCRATCHSEG s;
    if negb (err =? 0) then Some (0, set_err ERR_WRITE s)
    else if sectors (buf_geom s) =? 0 then None
    else if u32 (sector - u32 sector mod sectors (buf_geom s)) =? u32 (buf_track s)
         then Some (1, set_track (-1) s) else Some (1, s).

(** [for (i = 0; i < sector_count; i++)] *)
Fixpoint devwrite_loop (n : nat) (drive sector buf : Z) (s : dstate) : option (Z * dstate) :=
  match n with
  | O => Some (1, s)
  | S n' =>
      '(ok, s) ← rawwrite drive sector buf s;
      if ok =? 0 then Some (0, s) else devwrite_loop n' drive (sector + 1) (buf + SECTOR_SIZE) s
  end.

Definition devwrite (current_drive part_start sector sector_count buf : Z) (s : dstate) : option (Z * dstate) :=
  devwrite_loop (Z.to_nat sector_count) current_drive (s32 (u32 (part_start + sector))) buf s.

(** [mbr] is the address of the local array. *)
Definition make_saved_active (saved_drive saved_partition mbr : Z) (s : dstate) : option (Z * dstate) :=
  if negb (saved_drive .& 0x80 =? 0)
  then
    let part := saved_partition .>> 16 in
    if 3 <? part then Some (0, set_err ERR_DEV_VALUES s)
    else
      '(ok, s) ← rawread saved_drive 0 0 SECTOR_SIZE mbr s;
      if ok =? 0 then Some (0, s)
      else if IS_PC_SLICE_TYPE_EXTENDED (ld (d_mem s) (mbr + PC_SLICE_TYPE part)) then Some (0, set_err ERR_DEV_VALUES s)
      else if ld (d_mem s) (mbr + PC_SLICE_FLAG part) =? PC_SLICE_FLAG_BOOTABLE then Some (1, s)
      else
        let m := for_range 0 4 (fun i m => st m (mbr + PC_SLICE_FLAG i) 0) (d_mem s) in
        let s := set_mem (st m (mbr + PC_SLICE_FLAG part) PC_SLICE_FLAG_BOOTABLE) s in
        '(ok, s) ← rawwrite saved_drive 0 mbr s;
        Some (if ok =? 0 then 0 else 1, s)
  else Some (0, set_err ERR_DEV_VALUES s).
End Disk.

(** ** Specifications *)

Section Spec.
Variables (drive : Z) (g : geometry) (D : Z -> Z).

(** The sectors of a track of the buffer. *)
Definition vtrack : Z :=
  if BUFFERLEN <? u32 (sectors g .<< log2 (sector_size g)) then BUFFERLEN .>> log2 (sector_size g) else s32 (sectors g).

(** A sector with a slice of the type that marks an EZD disk. *)
Definition ezd_mark (sector : Z) : bool :=
  existsb (fun part => D (sector * sector_size g + PC_SLICE_TYPE part) =? PC_SLICE_TYPE_EZD) [0; 1; 2; 3].

(** The byte that the program is to see at a place of the drive: on an EZD disk
    sector 1 is seen in the place of sector 0. *)
Definition seen (x : Z) : Z :=
  if (x <? sector_size g) && ezd_mark 0 then D (sector_size g + x) else D x.

(** The whole tracks of the drive can be read, and no sector of the first track
    but sector 0 looks like the first sector of an EZD disk. *)
Record tracks_ok : Prop := {
  tr_whole : (vtrack | total_sectors g);
  tr_chs : flags g .& BIOSDISK_FLAG_LBA_EXTENSION = 0 -> sectors g * sector_size g <= BUFFERLEN;
  tr_mark : forall s, 0 < s < vtrack -> ezd_mark s = false;
  tr_ezd : ezd_mark 0 = true -> 2 <= vtrack;
  tr_bytes : total_sectors g * sector_size g < 2147483648 }.

(** What is in the buffer is the track that [buf_track] says. *)
Definition cache_ok (s : dstate) : Prop :=
  buf_drive s = drive ->
  buf_geom s = g /\
  (buf_track s = -1 \/
   (vtrack | buf_track s) /\ 0 <= buf_track s < total_sectors g /\
   forall i, 0 <= i < vtrack * sector_size g -> ld (d_mem s) (BUFFERADDR + i) = seen (buf_track s * sector_size g + i)).

Definition in_buffer (x : Z) : Prop := BUFFERADDR <= x < BUFFERADDR + BUFFERLEN.

(** The [len] bytes at [buf] are those at [x] on the drive; apart from them only
    the buffer may have changed. *)
Definition has_read (buf len x : Z) (s s' : dstate) : Prop :=
  (forall i, 0 <= i < len -> ld (d_mem s') (buf + i) = seen (x + i)) /\
  (forall a, ~ in_buffer a -> ~ (buf <= a < buf + len) -> ld (d_mem s') a = ld (d_mem s) a).
End Spec.

(** ** Proofs *)

Section Reading.
Variables (b : bios) (mem_lower mem_upper drive : Z) (g : geometry).
Variable disks : Z -> Z -> Z.
Hypothesis drive_works : drive_ok b drive g.
Abbreviation D := (disks drive).
Hypothesis whole_tracks : tracks_ok g D.

Abbreviation ss := (sector_size g).
Abbreviation spv := (vtrack g).
Abbreviation seen := (seen g D).
Abbreviation cache_ok := (cache_ok drive g D).

Lemma size_log : exists k, 9 <= k <= 11 /\ ss = 2 ^ k /\ log2 ss = k.
Proof.
  destruct (ok_size _ _ _ drive_works) as (k & Hk & E). exists k. split; [done |]. split; [done |]. rewrite E.
  assert (k = 9 \/ k = 10 \/ k = 11) as [-> | [-> | ->]] by lia; done.
Qed.

Lemma size_range : 512 <= ss <= 2048.
Proof. destruct size_log as (k & Hk & -> & _). assert (k = 9 \/ k = 10 \/ k = 11) as [-> | [-> | ->]] by lia; lia. Qed.

Lemma shift_size x : x .<< log2 ss = x * ss.
Proof. destruct size_log as (k & Hk & E & ->). rewrite E. apply Z.shiftl_mul_pow2. lia. Qed.

Lemma unshift_size x : x .>> log2 ss = x / ss.
Proof. destruct size_log as (k & Hk & E & ->). rewrite E. apply Z.shiftr_div_pow2. lia. Qed.

Lemma vtrack_range : 0 < spv /\ spv * ss <= BUFFERLEN /\ spv <= sectors g /\ spv < 65536.
Proof.
  pose proof size_range as Hs. pose proof (ok_sectors _ _ _ drive_works) as H1. unfold vtrack. rewrite shift_size, unshift_size.
  change BUFFERLEN with 32256. rewrite u32_small by nia. destruct (Z.ltb_spec 32256 (sectors g * ss)) as [H | H].
  - assert (0 < 32256 / ss) by (apply Z.div_str_pos; lia). pose proof (Z.mul_div_le 32256 ss ltac:(lia)).
    assert (32256 / ss < 65536) by (apply Z.div_lt_upper_bound; lia).
    split_and!; try lia. nia.
  - rewrite s32_small by lia. lia.
Qed.

Lemma track_room v k q x : 0 < v -> k * v <= x -> x < q * v -> k * v + v <= q * v.
Proof. intros Hv H1 H2. assert (k < q) by nia. nia. Qed.

(** The reading of a whole track, or of its end. *)
Lemma read_ok s sector n : buf_geom s = g -> w_disk (d_world s) = disks ->
  0 <= sector -> 0 < n <= spv -> (exists t, (spv | t) /\ t <= sector /\ sector + n <= t + spv) -> sector < total_sectors g ->
  exists m', bios_call b BIOSDISK_READ drive sector n BUFFERSEG s = Some (0, set_mem m' s) /\
    loaded (d_mem s) BUFFERADDR (n * ss) (fun i => D (sector * ss + i)) m'.
Proof.
  intros Hg Hw H0 Hn (t & [k Hk] & Ht1 & Ht2) Htot. pose proof vtrack_range as (V1 & V2 & V3 & V4). pose proof size_range as Hs.
  destruct (tr_whole _ _ whole_tracks) as [q Hq].
  assert (sector + n <= total_sectors g) as Hin.
  { pose proof (track_room spv k q sector V1). lia. }
  unfold bios_call. destruct s as [[m dk] e bd bt bg hk]. cbn [d_world w_disk buf_geom] in *. subst dk bg.
  destruct (biosdisk_reads b drive g sector n BUFFERSEG m disks drive_works) as (m' & -> & Hm);
    [lia | lia | lia | unfold BUFFERSEG; lia | |].
  - intros E. pose proof (tr_chs _ _ whole_tracks E) as Hc.
    assert (spv = sectors g) as Es.
    { unfold vtrack. rewrite shift_size, u32_small by (pose proof (ok_sectors _ _ _ drive_works); nia).
      rewrite (proj2 (Z.ltb_ge _ _)) by lia. apply s32_small. pose proof (ok_sectors _ _ _ drive_works). lia. }
    rewrite <- Es. rewrite (Z.mod_eq sector spv) by lia.
    assert (sector / spv = k) as ->; [| lia]. symmetry. apply (Z.div_unique_pos _ _ _ (sector - k * spv)); nia.
  - exists m'. split; [done |]. exact Hm.
Qed.

Hypothesis lower_memory : 512 <= mem_lower <= 1024.
Hypothesis upper_memory : 0 <= mem_upper < 4194304.

Lemma move_ok to from len s : d_err s = ERR_NONE -> 0 <= len < 2147483648 -> mem_ok mem_lower mem_upper to len -> to < 2147483648 ->
  exists m', move mem_lower mem_upper to from len s = set_mem m' s /\ copied (d_mem s) to from len m'.
Proof.
  intros He Hl Hok Ht. unfold move. rewrite He.
  destruct (grub_memmove_copied mem_lower mem_upper to from len (d_mem s)) as (m' & -> & Hc);
    [unfold mem_ok in Hok; lia | lia | lia | lia | done |].
  exists m'. split; [| done]. destruct s as [[] ? ? ? ? ?]. cbn in *. by subst.
Qed.

Lemma ezd_at_mark s sector n : 0 < n -> (forall i, 0 <= i < n * ss -> ld (d_mem s) (BUFFERADDR + i) = D (sector * ss + i)) ->
  ezd_at (d_mem s) BUFFERADDR = ezd_mark g D sector.
Proof.
  intros Hn H. pose proof size_range. unfold ezd_at, ezd_mark. cbn [existsb].
  assert (512 <= n * ss) by nia.
  change (PC_SLICE_TYPE 0) with 450. change (PC_SLICE_TYPE 1) with 466. change (PC_SLICE_TYPE 2) with 482. change (PC_SLICE_TYPE 3) with 498.
  by rewrite !H by lia.
Qed.

Lemma remap_ok s sector slen first n :
  buf_geom s = g -> d_err s = ERR_NONE -> 0 < n -> n * ss <= BUFFERLEN ->
  (forall i, 0 <= i < n * ss -> ld (d_mem s) (BUFFERADDR + i) = D (first * ss + i)) ->
  0 <= buf_track s <= first -> first < buf_track s + spv -> 0 <= first <= sector -> (first = 0 -> n = spv) ->
  exists m', ezd_remap b mem_lower mem_upper drive sector slen s = Some (set_mem m' s) /\
    (forall i, 0 <= i < n * ss -> ld m' (BUFFERADDR + i) = seen (first * ss + i)) /\
    (forall a, ~ in_buffer a -> ld m' a = ld (d_mem s) a).
Proof.
  intros Hg He Hn Hlen Hbuf Ht Hf Hfs H0. pose proof size_range as Hs. unfold ezd_remap.
  rewrite (ezd_at_mark s first n Hn Hbuf). 
  destruct (((buf_track s =? 0) || (sector =? 0)) && ezd_mark g D first) eqn:E.
  - apply andb_true_iff in E as [E1 E2].
    assert (first = 0) as ->.
    { destruct (Z.eq_dec first 0); [done |]. exfalso. apply orb_true_iff in E1 as [E1%Z.eqb_eq | E1%Z.eqb_eq]; [| lia].
      by rewrite (tr_mark _ _ whole_tracks first) in E2 by lia. }
    rewrite (proj2 (Z.eqb_eq (buf_track s) 0)) by lia. cbn [orb]. rewrite Hg. pose proof (tr_ezd _ _ whole_tracks E2). rewrite H0 in * by done.
    destruct (move_ok BUFFERADDR (BUFFERADDR + ss) ss s He) as (m' & -> & Hc);
      [lia | unfold mem_ok, BUFFERADDR; lia | unfold BUFFERADDR; lia |].
    exists m'. split; [done |]. unfold copied in Hc. split.
    + intros i Hi. rewrite Hc. unfold GrubDisk.seen. rewrite E2, Z.mul_0_l, Z.add_0_l, andb_true_r.
      case_decide.
      * rewrite (proj2 (Z.ltb_lt _ _)) by lia. replace (BUFFERADDR + ss + (BUFFERADDR + i - BUFFERADDR)) with (BUFFERADDR + (ss + i)) by lia.
        rewrite Hbuf by nia. f_equal; lia.
      * rewrite (proj2 (Z.ltb_ge _ _)) by lia. rewrite Hbuf by lia. f_equal.
    + intros a Ha. rewrite Hc, decide_False; [done |]. unfold in_buffer in Ha. nia.
  - exists (d_mem s). split; [by destruct s as [[] ? ? ? ? ?] |]. split; [| done].
    intros i Hi. rewrite Hbuf by done. unfold GrubDisk.seen.
    destruct (Z.ltb_spec (first * ss + i) ss); cbn [andb]; [| done].
    assert (first = 0) as -> by nia. assert (buf_track s = 0) as Eb by lia. rewrite Eb in E. cbn [Z.eqb orb andb] in E. by rewrite E.
Qed.

Lemma load_ok s sector byte_offset slen :
  let soff := Z.rem sector spv in
  let track := sector - soff in
  let num_sect := spv - soff in
  buf_geom s = g -> w_disk (d_world s) = disks -> d_err s = ERR_NONE -> 0 <= sector < total_sectors g ->
  exists bufaddr m', load_track b mem_lower mem_upper drive sector byte_offset slen spv soff track num_sect (BUFFERADDR + soff * ss + byte_offset) s
                 = Some (bufaddr + byte_offset, set_mem m' (set_track track s)) /\
    bufaddr = BUFFERADDR + (if num_sect <? slen then 0 else soff * ss) /\
    (forall i, 0 <= i < num_sect * ss -> ld m' (bufaddr + i) = seen (sector * ss + i)) /\
    (slen <= num_sect -> forall i, 0 <= i < spv * ss -> ld m' (BUFFERADDR + i) = seen (track * ss + i)) /\
    (forall a, ~ in_buffer a -> ld m' a = ld (d_mem s) a).
Proof.
  intros soff track num_sect Hg Hw He Hsec. pose proof vtrack_range as (V1 & V2 & V3 & V4). pose proof size_range as Hs.
  assert (0 <= soff < spv) as Hsoff by (apply Z.rem_bound_pos; lia).
  assert (exists k, track = k * spv) as [k Hk].
  { exists (Z.quot sector spv). unfold track, soff. pose proof (Z.quot_rem' sector spv). lia. }
  assert (0 <= track) as Ht0 by (unfold track, soff; pose proof (Z.rem_le sector spv ltac:(lia) ltac:(lia)); lia).
  unfold load_track. destruct (Z.ltb_spec num_sect slen) as [Hp | Hp].
  - destruct (read_ok s sector num_sect Hg Hw) as (m1 & -> & L1); [lia | lia | | lia |].
    { exists track. split; [by exists k | lia]. }
    cbn [mbind option_bind Z.eqb negb]. unfold loaded in L1.
    destruct (remap_ok (set_track track (set_mem m1 s)) sector slen sector num_sect) as (m2 & E & R1 & R2);
      cbn [set_track set_mem set_world buf_geom d_err d_world d_mem w_mem buf_track]; try done; try nia.
    { intros i Hi. unfold d_mem. cbn. rewrite L1, decide_True by lia. f_equal. lia. }
    rewrite E. cbn [mbind option_bind]. exists BUFFERADDR, m2. split; [done |]. split; [lia |].
    split; [done |]. split; [lia |]. intros a Ha. rewrite R2 by done. unfold d_mem. cbn. rewrite L1, decide_False; [done |].
    unfold in_buffer in Ha. nia.
  - destruct (read_ok s track spv Hg Hw) as (m1 & -> & L1); [lia | lia | | lia |].
    { exists track. split; [by exists k | lia]. }
    cbn [mbind option_bind Z.eqb negb]. unfold loaded in L1.
    destruct (remap_ok (set_track track (set_mem m1 s)) sector slen track spv) as (m2 & E & R1 & R2);
      cbn [set_track set_mem set_world buf_geom d_err d_world d_mem w_mem buf_track]; try done; try nia.
    { intros i Hi. unfold d_mem. cbn. rewrite L1, decide_True by lia. f_equal. lia. }
    rewrite E. cbn [mbind option_bind]. exists (BUFFERADDR + soff * ss), m2. split; [done |]. split; [lia |].
    split; [| split; [done |]].
    + intros i Hi. replace (BUFFERADDR + soff * ss + i) with (BUFFERADDR + (soff * ss + i)) by lia.
      rewrite R1 by nia. f_equal. unfold track. nia.
    + intros a Ha. rewrite R2 by done. unfold d_mem. cbn. rewrite L1, decide_False; [done |]. unfold in_buffer in Ha. nia.
Qed.

Lemma read_hook_reads sector byte_offset size s : exists l, read_hook sector byte_offset size s = set_reads l s.
Proof.
  unfold read_hook. destruct (disk_read_func s) as [l|] eqn:E.
  - destruct (0 <? _); [destruct (hook_sectors _ _ _ _ _) as [[]] |]; eauto.
  - exists None. by destruct s; cbn in *; subst.
Qed.

(** The buffer holds the track that begins with sector [t]. *)
Definition holds (t : Z) (s : dstate) : Prop := forall i, 0 <= i < spv * ss -> ld (d_mem s) (BUFFERADDR + i) = seen (t * ss + i).

(** Before a round for [sector]: a stale buffer is that of another track. *)
Definition ready (sector : Z) (s : dstate) : Prop :=
  w_disk (d_world s) = disks /\ d_err s = ERR_NONE /\
  (buf_drive s = drive -> buf_geom s = g /\ (buf_track s = sector - Z.rem sector spv -> holds (buf_track s) s)).

Lemma has_read_trans buf n len x s1 s2 s3 : 0 <= n <= len -> (forall a, buf <= a < buf + len -> ~ in_buffer a) ->
  has_read g D buf n x s1 s2 -> has_read g D (buf + n) (len - n) (x + n) s2 s3 -> has_read g D buf len x s1 s3.
Proof.
  intros Hn Hap [A1 A2] [B1 B2]. split.
  - intros i Hi. destruct (Z.lt_ge_cases i n).
    + rewrite B2 by (apply Hap || idtac; lia). by apply A1; lia.
    + replace (buf + i) with (buf + n + (i - n)) by lia. rewrite B1 by lia. f_equal. lia.
  - intros a Ha Hb. rewrite B2 by (done || lia). apply A2; [done | lia].
Qed.

Lemma slen_fits byte_offset byte_len n : 0 <= byte_offset < ss -> 0 < byte_len < 2147479552 ->
  byte_offset + byte_len <= n * ss -> s32 (u32 (byte_offset + byte_len + ss - 1) .>> log2 ss) <= n.
Proof.
  intros Ho Hl Hn. pose proof size_range. rewrite unshift_size, u32_small by lia.
  assert ((byte_offset + byte_len + ss - 1) / ss <= n) by (apply Z.lt_succ_r, Z.div_lt_upper_bound; nia).
  assert (0 <= (byte_offset + byte_len + ss - 1) / ss) by (apply Z.div_pos; lia).
  assert ((byte_offset + byte_len + ss - 1) / ss < 2147483648) by (apply Z.div_lt_upper_bound; nia).
  by rewrite s32_small by lia.
Qed.

Lemma slen_long byte_offset byte_len n : 0 <= byte_offset < ss -> 0 < byte_len < 2147479552 ->
  n * ss < byte_offset + byte_len -> n < s32 (u32 (byte_offset + byte_len + ss - 1) .>> log2 ss).
Proof.
  intros Ho Hl Hn. pose proof size_range. rewrite unshift_size, u32_small by lia.
  assert (n + 1 <= (byte_offset + byte_len + ss - 1) / ss) by (apply Z.div_le_lower_bound; nia).
  assert (0 <= (byte_offset + byte_len + ss - 1) / ss) by (apply Z.div_pos; lia).
  assert ((byte_offset + byte_len + ss - 1) / ss < 2147483648) by (apply Z.div_lt_upper_bound; nia).
  rewrite s32_small by lia. lia.
Qed.

Lemma round_ok f s sector byte_offset byte_len buf :
  let track := sector - Z.rem sector spv in
  let room := (spv - Z.rem sector spv) * ss - byte_offset in
  ready sector s -> 0 <= sector < total_sectors g -> 0 <= byte_offset < ss -> 0 < byte_len < 2147479552 ->
  mem_ok mem_lower mem_upper buf byte_len -> buf < 2147483648 -> (forall a, buf <= a < buf + byte_len -> ~ in_buffer a) ->
  let size := if room <? byte_len then room else byte_len in
  exists s', rawread_loop b mem_lower mem_upper (S f) drive sector byte_offset byte_len buf s
             = rawread_loop b mem_lower mem_upper f drive (sector + (spv - Z.rem sector spv)) 0 (byte_len - size) (buf + size) s' /\
    has_read g D buf size (sector * ss + byte_offset) s s' /\
    w_disk (d_world s') = disks /\ d_err s' = ERR_NONE /\ buf_drive s' = drive /\ buf_geom s' = g /\ buf_track s' = track /\
    (byte_len <= room -> holds track s') /\
    (room < byte_len -> buf_drive s <> drive \/ buf_track s <> track ->
     forall i, 0 <= i < (spv - Z.rem sector spv) * ss -> ld (d_mem s') (BUFFERADDR + i) = seen (sector * ss + i)).
Proof.
  intros track room (Hw & He & Hr) Hsec Ho Hl Hok Hb Hap size.
  pose proof vtrack_range as (V1 & V2 & V3 & V4). pose proof size_range as Hs.
  set (soff := Z.rem sector spv) in *. assert (0 <= soff < spv) as Hsoff by (apply Z.rem_bound_pos; lia).
  assert (0 <= track) as Ht0 by (unfold track, soff; pose proof (Z.rem_le sector spv ltac:(lia) ltac:(lia)); lia).
  assert (0 < room) as Hroom by (unfold room; nia).
  assert (0 < size <= byte_len /\ size <= room) as Hsize by (unfold size; zcase; lia).
  cbn [rawread_loop]. rewrite He, (proj2 (Z.ltb_lt 0 byte_len)) by lia. cbn [negb orb bool_decide_true]. rewrite bool_decide_true by done. cbn [negb].
  assert (exists s0, check_drive b drive s = (true, s0) /\ buf_drive s0 = drive /\ buf_geom s0 = g /\ d_world s0 = d_world s /\ d_err s0 = ERR_NONE /\
            (buf_track s0 = track -> holds track s0 /\ buf_drive s = drive /\ buf_track s = track)) as (s0 & -> & Hd0 & Hg0 & Hw0 & He0 & Hh0).
  { unfold check_drive. destruct (Z.eqb_spec (buf_drive s) drive) as [E | E].
    - destruct (Hr E) as [Hg Hh]. exists s. split_and!; try done. intros Et. rewrite <- Et. split; [by apply Hh | done].
    - rewrite (ok_info _ _ _ drive_works). eexists. split; [reflexivity |]. split_and!; try done. cbn. lia. }
  cbn [negb]. rewrite (proj2 (Z.ltb_ge sector 0)) by lia. cbn [orb]. rewrite Hg0, (proj2 (Z.leb_gt _ _)) by lia.
  fold spv. rewrite (proj2 (Z.eqb_neq spv 0)) by lia. fold soff. fold track. rewrite !shift_size. fold room.
  set (slen := s32 _). change ((spv - soff) * ss - byte_offset) with room.
  assert (exists ba m', (if track =? buf_track s0 then Some (BUFFERADDR + soff * ss + byte_offset, s0)
            else load_track b mem_lower mem_upper drive sector byte_offset slen spv soff track (spv - soff) (BUFFERADDR + soff * ss + byte_offset) s0)
          = Some (ba + byte_offset, set_mem m' (set_track track s0)) /\
          (BUFFERADDR <= ba /\ (track <> buf_track s0 -> spv - soff < slen -> ba = BUFFERADDR)) /\
          (forall i, 0 <= i < (spv - soff) * ss -> ld m' (ba + i) = seen (sector * ss + i)) /\
          (slen <= spv - soff -> forall i, 0 <= i < spv * ss -> ld m' (BUFFERADDR + i) = seen (track * ss + i)) /\
          (forall a, ~ in_buffer a -> ld m' a = ld (d_mem s0) a)) as (ba & m1 & -> & Hba & Hread & Hhold & Hout).
  { destruct (Z.eqb_spec track (buf_track s0)) as [E | E].
    - exists (BUFFERADDR + soff * ss), (d_mem s0). destruct (Hh0 (eq_sym E)) as [Hh1 _]. split; [rewrite E; by destruct s0 as [[] ? ? ? ? ?] |].
      split; [split; [nia | done] |]. split; [| by split_and!]. intros i Hi.
      replace (BUFFERADDR + soff * ss + i) with (BUFFERADDR + (soff * ss + i)) by lia. rewrite Hh1 by nia. f_equal. unfold track. nia.
    - destruct (load_ok s0 sector byte_offset slen Hg0) as (ba & m' & L1 & L2 & L3); [congruence | done | done |].
      exists ba, m'. split; [exact L1 |]. split; [| exact L3]. rewrite L2. split; [zcase; nia |]. intros _ Hlen.
      rewrite (proj2 (Z.ltb_lt _ _)) by exact Hlen. lia. }
  cbn [mbind option_bind]. fold size. destruct (read_hook_reads sector byte_offset size (set_mem m1 (set_track track s0))) as [l ->].
  set (s1 := set_reads l _).
  destruct (move_ok buf (ba + byte_offset) size s1) as (m2 & -> & Hc); [done | lia | | lia |].
  { unfold mem_ok in *. lia. }
  change (d_mem s1) with m1 in Hc. unfold copied in Hc.
  exists (set_mem m2 s1). split; [done |]. split; [| split_and!; try done].
  - split.
    + intros i Hi. change (d_mem (set_mem m2 s1)) with m2. rewrite Hc, decide_True by lia.
      replace (ba + byte_offset + (buf + i - buf)) with (ba + (byte_offset + i)) by lia. rewrite Hread by (unfold room in *; lia). f_equal. lia.
    + intros a Ha Hna. change (d_mem (set_mem m2 s1)) with m2. rewrite Hc, decide_False by done. rewrite Hout by done.
      unfold d_mem. by rewrite Hw0.
  - cbn. by rewrite Hw0.
  - intros Hlast i Hi. change (d_mem (set_mem m2 s1)) with m2. rewrite Hc, decide_False.
    + apply Hhold; [| done]. apply slen_fits; [done | done |]. unfold room in Hlast. lia.
    + intros Ha. apply (Hap (BUFFERADDR + i)); [lia |]. unfold in_buffer. nia.
  - intros Hlong Hnew i Hi. change (d_mem (set_mem m2 s1)) with m2. rewrite Hc, decide_False.
    + destruct Hba as [_ Hba]. rewrite Hba in Hread; [by apply Hread | intros Et; destruct (Hh0 (eq_sym Et)) as (_ & ? & ?); by destruct Hnew |].
      unfold slen. apply slen_long; [done | done |]. unfold room in Hlong. lia.
    + intros Ha. apply (Hap (BUFFERADDR + i)); [lia |]. unfold in_buffer. nia.
Qed.

Lemma rem_next sector : 0 <= sector -> Z.rem (sector + (spv - Z.rem sector spv)) spv = 0.
Proof.
  intros H. pose proof vtrack_range. pose proof (Z.quot_rem' sector spv).
  replace (sector + (spv - Z.rem sector spv)) with ((Z.quot sector spv + 1) * spv) by lia. apply Z.rem_mul. lia.
Qed.

Lemma loop_ok f : forall s sector byte_offset byte_len buf, (Z.to_nat byte_len <= f)%nat ->
  ready sector s -> 0 <= sector -> 0 <= byte_offset < ss -> 0 < byte_len < 2147479552 ->
  sector * ss + byte_offset + byte_len <= total_sectors g * ss ->
  mem_ok mem_lower mem_upper buf byte_len -> buf + byte_len < 2147483648 -> (forall a, buf <= a < buf + byte_len -> ~ in_buffer a) ->
  exists s', rawread_loop b mem_lower mem_upper f drive sector byte_offset byte_len buf s = Some (1, s') /\
    has_read g D buf byte_len (sector * ss + byte_offset) s s' /\
    w_disk (d_world s') = disks /\ d_err s' = ERR_NONE /\ cache_ok s'.
Proof.
  induction f as [|f IH]; intros s sector byte_offset byte_len buf Hf Hr Hsec Ho Hl Htot Hok Hb Hap; [lia |].
  pose proof vtrack_range as (V1 & V2 & V3 & V4). pose proof size_range as Hs. pose proof (Z.rem_bound_pos sector spv Hsec V1) as Hsoff.
  assert (sector < total_sectors g) as Hlt by nia.
  destruct (round_ok f s sector byte_offset byte_len buf Hr) as (s1 & -> & R1 & W1 & E1 & B1 & G1 & T1 & H1 & _); [lia | lia | lia | done | lia | done |].
  set (room := (spv - Z.rem sector spv) * ss - byte_offset) in *.
  assert (0 < room) as Hroom by (unfold room; nia).
  destruct (Z.ltb_spec room byte_len) as [Hlong | Hshort].
  - destruct (IH s1 (sector + (spv - Z.rem sector spv)) 0 (byte_len - room) (buf + room)) as (s2 & -> & R2 & W2 & E2 & C2).
    + lia.
    + split_and!; [done | done |]. intros _. split; [done |]. rewrite T1, rem_next by done. lia.
    + lia.
    + lia.
    + lia.
    + unfold room. nia.
    + unfold mem_ok in *. lia.
    + lia.
    + intros a Ha. apply Hap. lia.
    + exists s2. split; [done |]. split; [| done].
      eapply has_read_trans; [| exact Hap | exact R1 |]; [lia |].
      replace (sector * ss + byte_offset + room) with ((sector + (spv - Z.rem sector spv)) * ss + 0) by (unfold room; lia). done.
  - exists s1. rewrite Z.sub_diag. split.
    { destruct f; cbn [rawread_loop]; rewrite E1; done. }
    split; [done |]. split; [done |]. split; [done |]. intros _. split; [done |]. right. rewrite T1.
    split; [| split; [| rewrite <- T1; by rewrite T1; apply H1]].
    + exists (Z.quot sector spv). pose proof (Z.quot_rem' sector spv). lia.
    + pose proof (Z.rem_le sector spv Hsec V1). lia.
Qed.

Lemma past_end f sector byte_offset byte_len buf s : buf_drive s = drive -> buf_geom s = g -> d_err s = ERR_NONE ->
  total_sectors g <= sector -> 0 < byte_len ->
  rawread_loop b mem_lower mem_upper (S f) drive sector byte_offset byte_len buf s = Some (0, set_err ERR_GEOM s).
Proof.
  intros Hd Hg He Hs Hl. cbn [rawread_loop]. rewrite He, bool_decide_true, (proj2 (Z.ltb_lt 0 byte_len)) by done. cbn [negb orb].
  unfold check_drive. rewrite Hd, Z.eqb_refl. cbn [negb]. rewrite Hg, (proj2 (Z.leb_le _ _)) by done. by rewrite orb_true_r.
Qed.

(** A sector at the start of the track that is in the buffer. *)
Lemma cached_read f track buf s : buf_drive s = drive -> buf_geom s = g -> d_err s = ERR_NONE -> buf_track s = track ->
  Z.rem track spv = 0 -> 0 <= track < total_sectors g -> mem_ok mem_lower mem_upper buf ss -> buf < 2147483648 ->
  exists s', rawread_loop b mem_lower mem_upper (S f) drive track 0 ss buf s = Some (1, s') /\ d_err s' = ERR_NONE /\
    forall i, 0 <= i < ss -> ld (d_mem s') (buf + i) = ld (d_mem s) (BUFFERADDR + i).
Proof.
  intros Hd Hg He Ht Hr Hs Hok Hb. pose proof vtrack_range as (V1 & V2 & V3 & V4). pose proof size_range as Hss.
  cbn [rawread_loop]. rewrite He, bool_decide_true, (proj2 (Z.ltb_lt 0 ss)) by (done || lia). cbn [negb orb].
  unfold check_drive. rewrite Hd, Z.eqb_refl. cbn [negb]. rewrite Hg.
  rewrite (proj2 (Z.ltb_ge track 0)), (proj2 (Z.leb_gt (total_sectors g) track)) by lia. cbn [orb].
  fold spv. rewrite (proj2 (Z.eqb_neq spv 0)) by lia. rewrite Hr, !Z.sub_0_r, Ht, Z.eqb_refl. cbn [mbind option_bind].
  rewrite !shift_size, Z.mul_0_l, !Z.add_0_r. rewrite (proj2 (Z.ltb_ge (spv * ss) ss)) by nia.
  destruct (read_hook_reads track 0 ss s) as [l ->]. set (s4 := set_reads l s).
  destruct (move_ok buf BUFFERADDR ss s4) as (m2 & -> & Hc2); [done | lia | done | lia |].
  unfold copied in Hc2. change (d_mem s4) with (d_mem s) in Hc2.
  exists (set_mem m2 s4). rewrite Z.sub_diag. split; [destruct f; cbn [rawread_loop]; cbn [set_mem set_world s4 set_reads d_err]; by rewrite He |]. split; [done |].
  intros i Hi. change (d_mem (set_mem m2 s4)) with m2. rewrite Hc2, decide_True by lia. f_equal. lia.
Qed.

Lemma ready_start s sector : w_disk (d_world s) = disks -> d_err s = ERR_NONE -> cache_ok s -> 0 <= sector -> ready sector s.
Proof.
  intros Hw He Hc Hsec. split_and!; [done | done |]. intros Hd. destruct (Hc Hd) as [Hg Hb]. split; [done |]. intros Ht.
  destruct Hb as [Hb | (_ & _ & Hb)]; [| done]. pose proof vtrack_range. pose proof (Z.rem_le sector spv). lia.
Qed.
End Reading.

(** ** Properties *)

(** A place in memory for what is read: allowed by [memcheck], apart from the
    track buffer. *)
Record target_ok (mem_lower mem_upper buf len : Z) : Prop := {
  tg_lower : 512 <= mem_lower <= 1024;
  tg_upper : 0 <= mem_upper < 4194304;
  tg_mem : mem_ok mem_lower mem_upper buf len;
  tg_below : buf + len < 2147483648;
  tg_apart : forall a, buf <= a < buf + len -> ~ in_buffer a }.

Lemma shiftr_block x : x .>> SECTOR_BITS = x / 512.
Proof. apply Z.shiftr_div_pow2. done. Qed.

Lemma devread_ok b mem_lower mem_upper drive g disks part_start part_length sector byte_offset byte_len buf s :
  drive_ok b drive g -> tracks_ok g (disks drive) -> sector_size g = SECTOR_SIZE ->
  target_ok mem_lower mem_upper buf byte_len ->
  0 <= part_start -> 0 <= part_length -> part_start + part_length <= total_sectors g ->
  w_disk (d_world s) = disks -> d_err s = ERR_NONE -> cache_ok drive g (disks drive) s ->
  0 <= sector < 1073741824 -> 0 <= byte_offset -> 0 < byte_len -> byte_offset + byte_len < 2147479552 ->
  let x := sector * 512 + byte_offset in
  if part_length * 512 <? x + byte_len
  then devread b mem_lower mem_upper drive part_start part_length sector byte_offset byte_len buf s
       = Some (0, set_err ERR_OUTSIDE_PART s)
  else exists s', devread b mem_lower mem_upper drive part_start part_length sector byte_offset byte_len buf s = Some (1, s') /\
         has_read g (disks drive) buf byte_len (part_start * 512 + x) s s' /\
         w_disk (d_world s') = disks /\ d_err s' = ERR_NONE /\ cache_ok drive g (disks drive) s'.
Proof.
  intros Hd Ht Hss [T1 T2 T3 T4 T5] Hps Hpl Hpt Hw He Hc Hs Ho Hl Hol x. unfold devread. rewrite !shiftr_block.
  pose proof (ok_total _ _ _ Hd) as Htot.
  pose proof (Z.div_mod (byte_offset + byte_len - 1) 512 ltac:(lia)) as D1.
  pose proof (Z.mod_pos_bound (byte_offset + byte_len - 1) 512 ltac:(lia)) as M1.
  set (q := (byte_offset + byte_len - 1) / 512) in *. assert (0 <= q < 4194304) as Hq by lia.
  rewrite (proj2 (Z.ltb_ge sector 0)) by lia. cbn [orb]. rewrite u32_small by lia.
  destruct (Z.ltb_spec (part_length * 512) (x + byte_len)) as [Hout | Hin].
  - rewrite (proj2 (Z.leb_le _ _)) by (unfold x in Hout; lia). done.
  - rewrite (proj2 (Z.leb_gt _ _)) by (unfold x in Hin; lia).
    change (SECTOR_SIZE - 1) with (Z.ones 9). rewrite Z.land_ones by lia. change (2 ^ 9) with 512.
    pose proof (Z.div_mod byte_offset 512 ltac:(lia)) as D2. pose proof (Z.mod_pos_bound byte_offset 512 ltac:(lia)) as M2.
    set (k := byte_offset / 512) in *. set (r := byte_offset mod 512) in *. unfold x in Hin.
    assert (0 <= k) by (unfold k; apply Z.div_pos; lia).
    rewrite u32_small, s32_small by lia. unfold rawread. rewrite (proj2 (Z.leb_gt byte_len 0)) by lia.
    change SECTOR_SIZE with 512 in Hss.
    destruct (loop_ok b mem_lower mem_upper drive g disks Hd Ht T1 T2 (Z.to_nat byte_len) s (part_start + (sector + k)) r byte_len buf)
      as (s' & E & R & W & Er & C); rewrite ?Hss; try done; try lia.
    + eapply ready_start; done || lia.
    + exists s'. split; [exact E |]. split; [| done]. rewrite Hss in R.
      replace (part_start * 512 + x) with ((part_start + (sector + k)) * 512 + r) by (unfold x; lia). exact R.
Qed.

(** C11. Bytes of an open partition, inside it, are read across tracks into
    memory exactly as they are on the drive (sector 0 of an EZD disk being
    sector 1), the buffer keeping what it claims to hold; a request that
    leaves the partition sets the error and touches nothing. The drive has
    sectors of 512 bytes, less than 2^31 bytes and whole tracks. *)
Theorem devread_partition b mem_lower mem_upper drive g disks part_start part_length sector byte_offset byte_len buf s :
  drive_ok b drive g -> tracks_ok g (disks drive) -> sector_size g = SECTOR_SIZE ->
  target_ok mem_lower mem_upper buf byte_len ->
  0 <= part_start -> 0 <= part_length -> part_start + part_length <= total_sectors g ->
  w_disk (d_world s) = disks -> d_err s = ERR_NONE -> cache_ok drive g (disks drive) s ->
  0 <= sector < 1073741824 -> 0 <= byte_offset -> 0 < byte_len -> byte_offset + byte_len < 2147479552 ->
  let x := sector * 512 + byte_offset in
  if part_length * 512 <? x + byte_len
  then devread b mem_lower mem_upper drive part_start part_length sector byte_offset byte_len buf s
       = Some (0, set_err ERR_OUTSIDE_PART s)
  else exists s', devread b mem_lower mem_upper drive part_start part_length sector byte_offset byte_len buf s = Some (1, s') /\
         has_read g (disks drive) buf byte_len (part_start * 512 + x) s s' /\
         w_disk (d_world s') = disks /\ d_err s' = ERR_NONE /\ cache_ok drive g (disks drive) s'.
Proof. apply devread_ok. Qed.

(** A BIOS that serves one diskette. *)
Definition fill (m : mem) (a len : Z) (f : Z -> Z) : mem := for_range 0 len (fun i m => st m (a + i) (f i)) m.

Lemma fill_loaded m a len f : 0 <= len -> loaded m a len f (fill m a len f).
Proof.
  intros Hl. unfold fill.
  refine (for_range_inv (fun k m' => loaded m a k f m') _ 0 len m Hl _ _).
  - intros x. by rewrite decide_False by lia.
  - intros j t Hj H x. rewrite ld_st, H. destruct (decide (a + j = x)) as [<- |].
    + rewrite decide_True by lia. f_equal. lia.
    + destruct (decide (a <= x < a + j)); [rewrite decide_True by lia | rewrite decide_False by lia]; done.
Qed.

Definition floppy : geometry := Geometry 80 2 18 2880 512 0.

Definition floppy_bios : bios :=
  Bios (fun _ => 0) (fun _ => (1, IsoSpecPacket 0 0 0 0 0)) (fun _ => (1, DriveParameters 0 0 0 0)) (fun _ => (0, (80, 2, 18)))
       (fun _ _ _ w => (1, w))
       (fun _ drive '(c, h, s) n seg w =>
          (0, World (fill (w_mem w) (16 * seg) (n * 512) (fun i => w_disk w drive (((c * 2 + h) * 18 + (s - 1)) * 512 + i))) (w_disk w))).

Lemma floppy_ok : drive_ok floppy_bios 0 floppy.
Proof.
  constructor; cbn; try done; try lia.
  - exists 9. done.
  - intros. eexists. split; [reflexivity |]. apply fill_loaded. lia.
Qed.

(** Every byte of sector [n] is [n mod 80]. *)
Definition numbered (drive x : Z) : Z := (x / 512) mod 80.

Lemma numbered_tracks : tracks_ok floppy (numbered 0).
Proof.
  assert (forall s, ezd_mark floppy (numbered 0) s = false) as Hm.
  { intros s. unfold ezd_mark. cbn [existsb]. unfold numbered, PC_SLICE_TYPE_EZD.
    assert (forall x, (x mod 80 =? 0x55) = false) as Hx by (intros x; apply Z.eqb_neq; pose proof (Z.mod_pos_bound x 80); lia).
    by rewrite !Hx. }
  constructor; try done. by exists 160.
Qed.

Definition fresh : dstate := DState (World ∅ numbered) ERR_NONE (-1) 0 (Geometry 0 0 0 0 0 0) None.

Lemma low_target buf len : 0x1000 <= buf -> 0 <= len -> buf + len <= BUFFERADDR -> target_ok 640 0 buf len.
Proof.
  unfold BUFFERADDR. intros H1 H2 H3. constructor; [lia | lia | left; lia | lia |].
  intros a Ha. unfold in_buffer, BUFFERADDR, BUFFERLEN. lia.
Qed.

Lemma devread_partition_witness :
  exists s', devread floppy_bios 640 0 0 0 2880 17 500 600 0x20000 fresh = Some (1, s') /\
    has_read floppy (numbered 0) 0x20000 600 (0 * 512 + (17 * 512 + 500)) fresh s' /\
    w_disk (d_world s') = numbered /\ d_err s' = ERR_NONE /\ cache_ok 0 floppy (numbered 0) s'.
Proof.
  apply (devread_partition floppy_bios 640 0 0 floppy numbered 0 2880 17 500 600 0x20000 fresh);
    [apply floppy_ok | apply numbered_tracks | done | by apply low_target | done..].
Defined.

(** A read that runs off the end of the drive from the middle of its last
    track leaves the rest of that track in the buffer under the number of the
    whole track: the next read of its first sector succeeds with the bytes of
    another sector. *)
Theorem rawread_stale_track b mem_lower mem_upper drive g disks sector byte_len buf buf2 s :
  drive_ok b drive g -> tracks_ok g (disks drive) ->
  target_ok mem_lower mem_upper buf byte_len -> target_ok mem_lower mem_upper buf2 (sector_size g) ->
  w_disk (d_world s) = disks -> d_err s = ERR_NONE -> cache_ok drive g (disks drive) s ->
  let track := sector - Z.rem sector (vtrack g) in
  0 <= sector -> track + vtrack g = total_sectors g -> buf_track s <> track ->
  (total_sectors g - sector) * sector_size g < byte_len < 2147479552 ->
  exists s1 s2, rawread b mem_lower mem_upper drive sector 0 byte_len buf s = Some (0, s1) /\ d_err s1 = ERR_GEOM /\
    rawread b mem_lower mem_upper drive track 0 (sector_size g) buf2 (set_err ERR_NONE s1) = Some (1, s2) /\
    d_err s2 = ERR_NONE /\
    forall i, 0 <= i < sector_size g -> ld (d_mem s2) (buf2 + i) = seen g (disks drive) (sector * sector_size g + i).
Proof.
  intros Hd Ht [T1 T2 T3 T4 T5] [_ _ U3 U4 U5] Hw He Hc track Hs Htot Hnew Hl.
  pose proof (vtrack_range b drive g Hd) as (V1 & V2 & V3 & V4). pose proof (size_range b drive g Hd) as Hss.
  pose proof (Z.rem_bound_pos sector (vtrack g) Hs V1) as Hr. pose proof (Z.rem_le sector (vtrack g) Hs V1).
  unfold rawread. rewrite (proj2 (Z.leb_gt byte_len 0)), (proj2 (Z.leb_gt (sector_size g) 0)) by nia.
  assert (exists f, Z.to_nat byte_len = S (S f)) as [f ->] by (exists (Z.to_nat byte_len - 2)%nat; nia).
  assert (exists k, Z.to_nat (sector_size g) = S k) as [k ->] by (exists (Z.to_nat (sector_size g) - 1)%nat; lia).
  destruct (round_ok b mem_lower mem_upper drive g disks Hd Ht T1 T2 (S f) s sector 0 byte_len buf)
    as (s1 & -> & R1 & W1 & E1 & B1 & G1 & Tr1 & _ & Stale); try done; try nia.
  { eapply ready_start; done. }
  set (room := (vtrack g - Z.rem sector (vtrack g)) * sector_size g - 0) in *.
  assert (room < byte_len) as Hroom by (unfold room, track in *; nia). rewrite (proj2 (Z.ltb_lt _ _)) by done.
  specialize (Stale Hroom (or_intror Hnew)). fold track in Tr1.
  replace (sector + (vtrack g - Z.rem sector (vtrack g))) with (total_sectors g) by (unfold track in Htot; lia).
  rewrite (past_end b mem_lower mem_upper drive g) by (done || lia).
  assert (Z.rem track (vtrack g) = 0) as Hrt.
  { unfold track. pose proof (Z.quot_rem' sector (vtrack g)).
    replace (sector - Z.rem sector (vtrack g)) with (Z.quot sector (vtrack g) * vtrack g) by lia. apply Z.rem_mul. lia. }
  destruct (cached_read b mem_lower mem_upper drive g Hd T1 T2 k track buf2 (set_err ERR_NONE (set_err ERR_GEOM s1)))
    as (s2 & E2 & Er2 & M2); try done; [unfold track in *; lia | lia |].
  exists (set_err ERR_GEOM s1), s2. split; [done |]. split; [done |]. split; [done |]. split; [done |].
  intros i Hi. rewrite M2 by done. apply Stale. unfold track in Htot. nia.
Qed.

Lemma rawread_stale_track_witness :
  exists s1 s2, rawread floppy_bios 640 0 0 2879 0 1024 0x20000 fresh = Some (0, s1) /\ d_err s1 = ERR_GEOM /\
    rawread floppy_bios 640 0 0 2862 0 512 0x30000 (set_err ERR_NONE s1) = Some (1, s2) /\ d_err s2 = ERR_NONE /\
    forall i, 0 <= i < 512 -> ld (d_mem s2) (0x30000 + i) = seen floppy (numbered 0) (2879 * 512 + i).
Proof.
  apply (rawread_stale_track floppy_bios 640 0 0 floppy numbered 2879 1024 0x20000 0x30000 fresh);
    [apply floppy_ok | apply numbered_tracks | by apply low_target | by apply low_target | done..].
Defined.
