(* ===== verification/GrubDevice.v ===== *)
(** * GRUB's device names

    [set_device] of [src/legacy/SZoS/grub-0.97/stage2/disk_io.c] reads a device
    such as [(hd0,1,a)] into a drive and a partition number;
    [sane_partition] checks the numbers.  Without network support. *)

From S2P Require Import Prelude Machine LibcString GrubString.

(** ** The code *)

Definition GRUB_INVALID_DRIVE : Z := 0xFF.
Definition NETWORK_DRIVE : Z := 0x20.

Inductive part_choice_t := PART_UNSPECIFIED | PART_DISK | PART_CHOSEN.

Record dev := Dev {
  saved_drive : Z; saved_partition : Z; cdrom_drive : Z;
  current_drive : Z; current_partition : Z;
  incomplete : bool; disk_choice : bool; part_choice : part_choice_t; v_err : grub_error }.

Definition set_drive (d : Z) (s : dev) : dev :=
  Dev (saved_drive s) (saved_partition s) (cdrom_drive s) d (current_partition s) (incomplete s) (disk_choice s) (part_choice s) (v_err s).
Definition set_part (p : Z) (s : dev) : dev :=
  Dev (saved_drive s) (saved_partition s) (cdrom_drive s) (current_drive s) p (incomplete s) (disk_choice s) (part_choice s) (v_err s).
Definition set_choice (inc disk : bool) (part : part_choice_t) (s : dev) : dev :=
  Dev (saved_drive s) (saved_partition s) (cdrom_drive s) (current_drive s) (current_partition s) inc disk part (v_err s).
Definition set_verr (e : grub_error) (s : dev) : dev :=
  Dev (saved_drive s) (saved_partition s) (cdrom_drive s) (current_drive s) (current_partition s) (incomplete s) (disk_choice s) (part_choice s) e.

Definition sane_partition (s : dev) : bool * dev :=
  if current_drive s =? NETWORK_DRIVE then (true, s)
  else if (current_partition s .& 0xFF000000 =? 0)
     && ((current_drive s .& 0xFFFFFF7F <? 8) || (current_drive s =? cdrom_drive s))
     && (current_partition s .& 0xFF =? 0xFF)
     && ((current_partition s .& 0xFF00 =? 0xFF00) || (current_partition s .& 0xFF00 <? 0x800))
     && ((current_partition s .>> 16 =? 0xFF) || negb (current_drive s .& 0x80 =? 0))
  then (true, s)
  else (false, set_verr ERR_DEV_VALUES s).

Definition has_cdrom (s : dev) : bool := negb (cdrom_drive s =? GRUB_INVALID_DRIVE).

(** [*device == 'f' || *device == 'h' || ( *device == 'c' && cdrom_drive != GRUB_INVALID_DRIVE)] *)
Definition names_disk (c : Z) (s : dev) : bool := (c =? 102) || (c =? 104) || ((c =? 99) && has_cdrom s).

(** The drive: the string from its first character; what is left of it. *)
Definition parse_drive (device : list Z) (s : dev) : list Z * dev :=
  let c := ch device in
  let '(device, s) :=
    if names_disk c s
    then (tail (tail device), if ch (tail device) =? 100 then s else set_verr ERR_NUMBER_PARSING s)
    else (device, s) in
  if (c =? 99) && has_cdrom s then (device, set_drive (cdrom_drive s) s)
  else
    let '(device, s) :=
      match safe_parse_maxint device with
      | Parsed rest n => (rest, set_drive n s)
      | ParseError e => (device, set_verr e s)
      end in
    let s := set_choice (incomplete s) false (part_choice s) s in
    (device, if c =? 104 then set_drive (u32 (current_drive s + 0x80)) s else s).

(** The partition, from the comma on; [None] is the return with [ERR_DEV_FORMAT]. *)
Definition parse_partition (device : list Z) (s : dev) : option (list Z) * dev :=
  let s := set_choice (incomplete s) false PART_DISK s in
  let device := tail device in
  if (48 <=? ch device) && (ch device <=? 57)
  then
    let s := set_part 0 (set_choice (incomplete s) false PART_CHOSEN s) in
    if current_drive s .& 0x80 =? 0 then (None, set_verr ERR_DEV_FORMAT s)
    else
      match safe_parse_maxint device with
      | ParseError e => (None, set_verr ERR_DEV_FORMAT s)
      | Parsed device n =>
          let s := set_part n s in
          if 254 <? n then (None, set_verr ERR_DEV_FORMAT s)
          else
            let s := set_part (u32 ((n .<< 16) + 0xFFFF)) s in
            let device := if ch device =? 44 then tail device else device in
            if (97 <=? ch device) && (ch device <=? 104)
            then (Some (tail device), set_part (((ch device - 97) .<< 8) .| (current_partition s .& 0xFF00FF)) s)
            else (Some device, s)
      end
  else if (97 <=? ch device) && (ch device <=? 104)
  then (Some (tail device), set_part (((ch device - 97) .<< 8) .| 0xFF00FF) (set_choice (incomplete s) false PART_CHOSEN s))
  else (Some device, s).

(** The end of [set_device]: [result] and the character after it. *)
Definition finish_device (result : bool) (device : list Z) (s : dev) : option (list Z) * dev :=
  let '(sane, s) := sane_partition s in
  if negb sane then (None, s)
  else if result then (Some (tail device), s)
  else (None, set_verr ERR_DEV_FORMAT (set_choice (incomplete s || (ch device =? 0)) (disk_choice s) (part_choice s) s)).

(** The pointer returned, as the string from there on, and the string afterwards:
    a missing [d] is written. *)
Definition set_device (device : list Z) (s : dev) : option (list Z) * list Z * dev :=
  let s := set_part 0xFFFFFF (set_drive (saved_drive s) (set_choice false true PART_UNSPECIFIED s)) in
  let body := tail device in
  if (ch device =? 40) && (ch body =? 0) then (Some body, device, s)
  else if ch device =? 40
  then
    if negb (ch body =? 44) && negb (ch body =? 41) && names_disk (ch body) s && (ch (tail body) =? 0)
    then (Some [], device ++ [100], s)
    else if negb (ch body =? 44) && negb (ch body =? 41) && names_disk (ch body) s && (ch (tail body) =? 100) && (ch (tail (tail body)) =? 0)
    then (Some (tail (tail body)), device, s)
    else
      let '(body, s) := if negb (ch body =? 44) && negb (ch body =? 41) then parse_drive body s else (body, s) in
      if negb (bool_decide (v_err s = ERR_NONE)) then (None, device, s)
      else if ch body =? 41
      then let '(r, s) := finish_device true body (set_choice (incomplete s) (disk_choice s) PART_CHOSEN s) in (r, device, s)
      else if ch body =? 44
      then
        let '(r, s) := parse_partition body s in
        match r with
        | None => (None, device, s)
        | Some body =>
            let closed := ch body =? 41 in
            let s := match part_choice s with
                     | PART_DISK => if closed then set_part (saved_partition s) (set_choice (incomplete s) (disk_choice s) PART_CHOSEN s) else s
                     | _ => s
                     end in
            let '(r, s) := finish_device closed body s in (r, device, s)
        end
      else let '(r, s) := finish_device false body s in (r, device, s)
  else let '(r, s) := finish_device false device s in (r, device, s).

(** ** Specifications *)

(** The names of disks and partitions: [fd0], [hd0], [cd]; nothing, [,1], [,1,a]
    or [,a]. *)
Inductive disk_name := Floppy (n : Z) | Hard (n : Z) | Cdrom.
Inductive part_name := Whole | Slice (p : Z) | SliceBsd (p l : Z) | Bsd (l : Z).

Definition print_disk (d : disk_name) : list Z :=
  match d with
  | Floppy n => bytes "fd" ++ convert_to_ascii 100 n
  | Hard n => bytes "hd" ++ convert_to_ascii 100 n
  | Cdrom => bytes "cd"
  end.
Definition print_part (p : part_name) : list Z :=
  match p with
  | Whole => []
  | Slice p => 44 :: convert_to_ascii 100 p
  | SliceBsd p l => 44 :: convert_to_ascii 100 p ++ [44; 97 + l]
  | Bsd l => [44; 97 + l]
  end.
Definition print_device (d : disk_name) (p : part_name) : list Z := [40] ++ print_disk d ++ print_part p ++ [41].

Definition drive_number (s : dev) (d : disk_name) : Z :=
  match d with Floppy n => n | Hard n => 128 + n | Cdrom => cdrom_drive s end.
Definition partition_number (p : part_name) : Z :=
  match p with
  | Whole => 0xFFFFFF
  | Slice p => p * 65536 + 0xFFFF
  | SliceBsd p l => p * 65536 + l * 256 + 0xFF
  | Bsd l => 0xFF0000 + l * 256 + 0xFF
  end.

(** Numbers that can be written, and letters from [a] to [h]. *)
Definition name_ok (s : dev) (d : disk_name) (p : part_name) : Prop :=
  match d with Floppy n | Hard n => 0 <= n < 128 | Cdrom => cdrom_drive s <> GRUB_INVALID_DRIVE /\ 0x80 <= cdrom_drive s < 0xFF end /\
  match p with Whole => True | Slice p => 0 <= p <= MAXINT | SliceBsd p l => 0 <= p <= MAXINT /\ 0 <= l < 8 | Bsd l => 0 <= l < 8 end.

(** The error of a name: a PC slice needs a hard disk and a number up to 254; there
    are eight diskettes and eight hard disks, besides the CD-ROM drive and drive
    0x20, the network. *)
Definition slice_ok (d : disk_name) (p : part_name) : bool :=
  match p with
  | Slice p | SliceBsd p _ => match d with Floppy _ => false | _ => p <=? 254 end
  | _ => true
  end.
Definition disk_ok (s : dev) (d : disk_name) : bool :=
  match d with
  | Floppy n => (n <? 8) || (n =? cdrom_drive s) || (n =? NETWORK_DRIVE)
  | Hard n => (n <? 8) || (128 + n =? cdrom_drive s)
  | Cdrom => true
  end.
Definition device_error (s : dev) (d : disk_name) (p : part_name) : grub_error :=
  if slice_ok d p then if disk_ok s d then ERR_NONE else ERR_DEV_VALUES else ERR_DEV_FORMAT.

(** ** Proofs *)

Lemma decimal_text n : 0 <= n <= MAXINT -> exists ds, convert_to_ascii 100 n = map digit_char ds /\ ds <> [] /\ Forall (fun d => 0 <= d < 10) ds.
Proof.
  intros Hn. unfold MAXINT in Hn. destruct (convert_text 100 n ltac:(lia)) as (ds & E & Hne & Hd & _).
  exists ds. rewrite E. split; [| done]. unfold printed_sign. by rewrite (proj2 (Z.leb_gt 2147483648 n)), andb_false_r by lia.
Qed.

Lemma parse_decimal n c r : 0 <= n <= MAXINT -> c = 41 \/ c = 44 -> Forall is_char r ->
  safe_parse_maxint (convert_to_ascii 100 n ++ c :: r) = Parsed (c :: r) n.
Proof.
  intros Hn Hc Hr. pose proof (number_parsed 100 n (c :: r) Hn) as H. cbn [printed_base Z.eqb Pos.eqb app] in H. apply H.
  - constructor; [unfold is_char; lia | done].
  - intros c' r' [= <- <-]. by destruct Hc as [-> | ->].
  - destruct (decimal_text n Hn) as (ds & -> & Hne & Hd). intros (x & t & E & Hx).
    destruct ds as [|d [|d2 ds]]; [done | |]; cbn in E; injection E as _ E _.
    + lia.
    + apply Forall_cons_iff in Hd as [_ Hd]. apply Forall_cons_iff in Hd as [Hd _].
      unfold digit_char in E. rewrite (proj2 (Z.ltb_ge 9 d2)) in E by lia. lia.
Qed.

(** Checking all numbers of a range. *)
Lemma forall_range (f : Z -> bool) n : forallb f (seqZ 0 n) = true -> forall x, 0 <= x < n -> f x = true.
Proof. intros H x Hx. apply (proj1 (forallb_forall _ _) H). apply list_elem_of_In, elem_of_seqZ. lia. Qed.

Definition part_test (has_slice : bool) (p : Z) : bool :=
  (p .& 0xFF000000 =? 0) && (p .& 0xFF =? 0xFF) && ((p .& 0xFF00 =? 0xFF00) || (p .& 0xFF00 <? 0x800)) &&
  Bool.eqb (p .>> 16 =? 0xFF) (negb has_slice) && (u32 p =? p).

Lemma slice_numbers p l : 0 <= p < 255 -> 0 <= l < 8 ->
  part_test true (p * 65536 + 0xFFFF) = true /\ part_test true (p * 65536 + l * 256 + 0xFF) = true /\
  part_test false (0xFF0000 + l * 256 + 0xFF) = true /\
  u32 ((p .<< 16) + 0xFFFF) = p * 65536 + 0xFFFF /\
  (l .<< 8) .| ((p * 65536 + 0xFFFF) .& 0xFF00FF) = p * 65536 + l * 256 + 0xFF /\
  (l .<< 8) .| 0xFF00FF = 0xFF0000 + l * 256 + 0xFF.
Proof.
  intros Hp Hl.
  pose (f p l := part_test true (p * 65536 + 0xFFFF) && part_test true (p * 65536 + l * 256 + 0xFF) &&
    part_test false (0xFF0000 + l * 256 + 0xFF) && (u32 ((p .<< 16) + 0xFFFF) =? p * 65536 + 0xFFFF) &&
    ((l .<< 8) .| ((p * 65536 + 0xFFFF) .& 0xFF00FF) =? p * 65536 + l * 256 + 0xFF) &&
    ((l .<< 8) .| 0xFF00FF =? 0xFF0000 + l * 256 + 0xFF)).
  assert (f p l = true) as E.
  { pose proof (forall_range (fun p => forallb (f p) (seqZ 0 8)) 255) as H. apply forall_range with (n := 8); [| done].
    apply H; [vm_compute; reflexivity | done]. }
  unfold f in E. rewrite !andb_true_iff, !Z.eqb_eq in E. tauto.
Qed.

Lemma drive_test n : 0 <= n < 128 ->
  (n .& 0xFFFFFF7F <? 8) = (n <? 8) /\ (n .& 0x80 =? 0) = true /\
  ((128 + n) .& 0xFFFFFF7F <? 8) = (n <? 8) /\ ((128 + n) .& 0x80 =? 0) = false.
Proof.
  intros Hn.
  pose (f n := Bool.eqb (n .& 0xFFFFFF7F <? 8) (n <? 8) && (n .& 0x80 =? 0) &&
               Bool.eqb ((128 + n) .& 0xFFFFFF7F <? 8) (n <? 8) && negb ((128 + n) .& 0x80 =? 0)).
  assert (f n = true) as E by (apply (forall_range f 128); [vm_compute; reflexivity | done]).
  unfold f in E. rewrite !andb_true_iff, !Bool.eqb_true_iff, negb_true_iff in E. tauto.
Qed.

Lemma hard_drive_test s d : name_ok s d Whole -> (drive_number s d .& 0x80 =? 0) = match d with Floppy _ => true | _ => false end.
Proof.
  intros [Hn _]. destruct d as [n | n |]; cbn [drive_number].
  - by apply drive_test.
  - by apply drive_test.
  - replace (cdrom_drive s) with (128 + (cdrom_drive s - 128)) by lia. apply drive_test. lia.
Qed.

(** [sane_partition] on the numbers of a name. *)
Definition has_slice (p : part_name) : bool := match p with Slice _ | SliceBsd _ _ => true | _ => false end.

Lemma part_number_test s d p : name_ok s d p -> slice_ok d p = true -> part_test (has_slice p) (partition_number p) = true.
Proof.
  intros [_ Hp] Hs. destruct p as [| p | p l | l]; cbn in *; [reflexivity | | | ].
  - destruct d; [done | |]; apply (slice_numbers p 0); lia.
  - destruct d; [done | |]; apply (slice_numbers p l); lia.
  - apply (slice_numbers 0 l); lia.
Qed.

Lemma sane_number s d p : name_ok s d p -> slice_ok d p = true ->
  current_drive s = drive_number s d -> current_partition s = partition_number p ->
  sane_partition s = if disk_ok s d then (true, s) else (false, set_verr ERR_DEV_VALUES s).
Proof.
  intros Hn Hs Hd Hp. pose proof (part_number_test s d p Hn Hs) as T. unfold part_test in T.
  rewrite !andb_true_iff, Bool.eqb_true_iff in T. destruct T as ((((T1 & T2) & T3) & T4) & _).
  unfold sane_partition. rewrite Hd, Hp, T1, T2, T3, T4. cbn [andb]. rewrite !andb_true_r.
  rewrite (hard_drive_test s d) by (split; [apply Hn | done]).
  destruct Hn as [Hn _]. destruct d as [n | n |]; cbn [drive_number disk_ok] in *.
  - destruct (drive_test n Hn) as (-> & _). rewrite orb_false_r.
    assert (has_slice p = false) as -> by (by destruct p). cbn [negb]. rewrite andb_true_r.
    destruct (n =? NETWORK_DRIVE); [by rewrite orb_true_r | by rewrite orb_false_r].
  - destruct (drive_test n Hn) as (_ & _ & -> & _). rewrite (proj2 (Z.eqb_neq (128 + n) NETWORK_DRIVE)) by (unfold NETWORK_DRIVE; lia).
    by rewrite orb_true_r, andb_true_r.
  - rewrite (proj2 (Z.eqb_neq (cdrom_drive s) NETWORK_DRIVE)) by (unfold NETWORK_DRIVE; lia).
    by rewrite Z.eqb_refl, !orb_true_r.
Qed.

(** *** The parts of a name *)

Lemma decimal_head n r : 0 <= n <= MAXINT -> 48 <= ch (convert_to_ascii 100 n ++ r) <= 57.
Proof.
  intros Hn. destruct (decimal_text n Hn) as ([|d ds] & -> & Hne & Hd); [done |]. apply Forall_cons_iff in Hd as [Hd _].
  cbn. unfold digit_char. rewrite (proj2 (Z.ltb_ge 9 d)) by lia. lia.
Qed.

Lemma parse_drive_ok s d c r : name_ok s d Whole -> v_err s = ERR_NONE -> c = 41 \/ c = 44 -> Forall is_char r ->
  exists s', parse_drive (print_disk d ++ c :: r) s = (c :: r, s') /\ current_drive s' = drive_number s d /\
    current_partition s' = current_partition s /\ v_err s' = ERR_NONE /\ saved_partition s' = saved_partition s /\
    cdrom_drive s' = cdrom_drive s /\ saved_drive s' = saved_drive s.
Proof.
  intros [Hn _] He Hc Hr. unfold MAXINT in *.
  destruct d as [n | n |]; cbn [print_disk bytes app]; unfold parse_drive, names_disk, has_cdrom; cbn [ch hd tail Z.eqb Pos.eqb orb andb].
  - change (bytes "fd") with [102; 100]. cbn [ch hd tail app Z.eqb Pos.eqb orb andb].
    rewrite parse_decimal by (done || (unfold MAXINT; lia)). eexists. split; [reflexivity |]. by split_and!.
  - change (bytes "hd") with [104; 100]. cbn [ch hd tail app Z.eqb Pos.eqb orb andb].
    rewrite parse_decimal by (done || (unfold MAXINT; lia)). eexists. split; [reflexivity |]. split_and!; try done.
    cbn. rewrite u32_small; lia.
  - change (bytes "cd") with [99; 100]. cbn [ch hd tail app Z.eqb Pos.eqb orb andb].
    destruct Hn as [Hn _]. rewrite (proj2 (Z.eqb_neq _ _) Hn). cbn [negb]. rewrite (proj2 (Z.eqb_neq _ _) Hn). cbn [negb].
    eexists. split; [reflexivity |]. by split_and!.
Qed.

Lemma bsd_letter l c r : 0 <= l < 8 -> ((97 <=? ch (97 + l :: c :: r)) && (ch (97 + l :: c :: r) <=? 104)) = true.
Proof. intros Hl. cbn. by rewrite (proj2 (Z.leb_le 97 _)), (proj2 (Z.leb_le _ 104)) by lia. Qed.

Lemma parse_partition_ok s d p r : name_ok s d p -> p <> Whole -> v_err s = ERR_NONE -> current_drive s = drive_number s d ->
  Forall is_char r ->
  exists s', parse_partition (print_part p ++ 41 :: r) s
             = (if slice_ok d p then Some (41 :: r) else None, s') /\
    v_err s' = (if slice_ok d p then ERR_NONE else ERR_DEV_FORMAT) /\ current_drive s' = current_drive s /\
    (slice_ok d p = true -> current_partition s' = partition_number p /\ part_choice s' = PART_CHOSEN) /\
    cdrom_drive s' = cdrom_drive s.
Proof.
  intros [Hd Hp] Hw He Hdr Hr. pose proof (hard_drive_test s d (conj Hd I)) as Hh.
  assert (Forall is_char (41 :: r)) as Hr' by (constructor; [unfold is_char; lia | done]).
  destruct p as [| p | p l | l]; [done | | |]; cbn [print_part slice_ok partition_number] in *; unfold parse_partition; cbn [tail app].
  - destruct (decimal_head p (41 :: r) Hp) as [H1%Z.leb_le H2%Z.leb_le]. rewrite H1, H2. cbn [andb]. cbn [set_part set_choice current_drive].
    rewrite Hdr, Hh. rewrite parse_decimal by (done || auto).
    destruct d as [n | n |]; [eexists; by split_and! | |];
      (destruct (Z.leb_spec p 254); [rewrite (proj2 (Z.ltb_ge 254 p)) by lia; cbn [ch hd Z.eqb Pos.eqb Z.leb andb]; change ((97 <=? 41) && (41 <=? 104)) with false |
         rewrite (proj2 (Z.ltb_lt 254 p)) by lia]; eexists; (split; [reflexivity |]); split_and!; try done;
       intros _; split; [apply (slice_numbers p 0); lia | done]).
  - destruct Hp as [Hp Hl]. rewrite <- app_assoc. cbn [app].
    destruct (decimal_head p (44 :: 97 + l :: 41 :: r) Hp) as [H1%Z.leb_le H2%Z.leb_le]. rewrite H1, H2. cbn [andb]. cbn [set_part set_choice current_drive].
    rewrite Hdr, Hh. rewrite parse_decimal by (done || auto || (repeat constructor; unfold is_char; done || lia)).
    destruct d as [n | n |]; [eexists; by split_and! | |];
      (destruct (Z.leb_spec p 254); [rewrite (proj2 (Z.ltb_ge 254 p)) by lia; cbn [ch hd Z.eqb Pos.eqb tail];
           rewrite (proj2 (Z.leb_le 97 (97 + l))), (proj2 (Z.leb_le (97 + l) 104)) by lia; cbn [andb] |
         rewrite (proj2 (Z.ltb_lt 254 p)) by lia]; eexists; (split; [reflexivity |]); split_and!; try done;
       intros _; split; [| done]; cbn; replace (97 + l - 97) with l by lia;
       destruct (slice_numbers p l) as (_ & _ & _ & -> & -> & _); [lia | done | done]).
  - rewrite (proj2 (Z.leb_gt (ch (97 + l :: 41 :: r)) 57)) by (cbn; lia). rewrite andb_false_r, bsd_letter by done. cbn [ch hd tail].
    eexists. split; [reflexivity |]. split_and!; try done. intros _. split; [| done]. cbn. replace (97 + l - 97) with l by lia.
    by apply (slice_numbers 0 l).
Qed.

Lemma part_chars s d p : name_ok s d p -> Forall is_char (print_part p).
Proof.
  assert (forall n, 0 <= n <= MAXINT -> Forall is_char (convert_to_ascii 100 n)) as Hc.
  { intros n Hn. destruct (decimal_text n Hn) as (ds & -> & _ & H). by destruct (digits_form 10 ds (or_introl eq_refl) H). }
  intros [_ Hp]. unfold is_char in *. destruct p as [| p | p l | l]; cbn [print_part].
  - done.
  - constructor; [lia | by apply Hc].
  - destruct Hp as [Hp Hl]. constructor; [lia |]. apply Forall_app. split; [by apply Hc |]. repeat constructor; lia.
  - repeat constructor; lia.
Qed.

(** A disk name has two letters and then something else. *)
Lemma disk_letters s d c r : name_ok s d Whole -> c = 41 \/ c = 44 ->
  exists x y t, print_disk d ++ c :: r = x :: 100 :: y :: t /\ x <> 44 /\ x <> 41 /\ x <> 0 /\ y <> 0.
Proof.
  intros [Hn _] Hc. destruct d as [n | n |]; cbn [print_disk].
  - pose proof (decimal_head n (c :: r) ltac:(unfold MAXINT; lia)). change (bytes "fd") with [102; 100]. cbn [app].
    destruct (convert_to_ascii 100 n ++ c :: r) as [|y t]; cbn in *; [lia |]. exists 102, y, t. split_and!; done || lia.
  - pose proof (decimal_head n (c :: r) ltac:(unfold MAXINT; lia)). change (bytes "hd") with [104; 100]. cbn [app].
    destruct (convert_to_ascii 100 n ++ c :: r) as [|y t]; cbn in *; [lia |]. exists 104, y, t. split_and!; done || lia.
  - exists 99, c, r. split_and!; done || lia.
Qed.

Lemma set_device_ok d p rest s :
  name_ok s d p -> v_err s = ERR_NONE -> Forall is_char rest ->
  exists s', set_device (print_device d p ++ rest) s
             = (if decide (device_error s d p = ERR_NONE) then Some rest else None, print_device d p ++ rest, s') /\
    v_err s' = device_error s d p /\
    (device_error s d p = ERR_NONE -> current_drive s' = drive_number s d /\ current_partition s' = partition_number p /\ sane_partition s' = (true, s')).
Proof.
  intros Hn He Hr. pose proof Hn as [Hd Hp]. set (str := print_device d p ++ rest).
  assert (str = 40 :: print_disk d ++ print_part p ++ 41 :: rest) as Es
    by (unfold str, print_device; cbn [app]; by rewrite <- !app_assoc).
  assert (exists c r, print_part p ++ 41 :: rest = c :: r /\ (c = 41 /\ p = Whole /\ r = rest \/ c = 44 /\ p <> Whole) /\ Forall is_char r) as (c & r & Ep & Hc & Hcr).
  { pose proof (part_chars s d p Hn) as Hpc. destruct p as [| p | p l | l]; cbn [print_part app] in *; eexists _, _;
      (split; [reflexivity |]); (split; [first [by left | by right] |]); [done | ..];
      apply Forall_cons_iff in Hpc as [_ Hpc]; rewrite ?Forall_app, ?Forall_cons_iff in *; split_and!; try done; tauto. }
  assert (c = 41 \/ c = 44) as Hc' by (destruct Hc as [(-> & _) | (-> & _)]; auto).
  destruct (disk_letters s d c r (conj Hd I) Hc') as (x & y & t & El & H44 & H41 & Hx0 & Hy0).
  unfold set_device. rewrite Es, Ep. cbn [ch hd tail Z.eqb Pos.eqb]. rewrite El. cbn [ch hd tail].
  rewrite (proj2 (Z.eqb_neq x 0)), (proj2 (Z.eqb_neq x 44)), (proj2 (Z.eqb_neq x 41)), (proj2 (Z.eqb_neq y 0)) by done.
  cbn [andb negb Z.eqb Pos.eqb]. rewrite !andb_false_r. rewrite <- El. rewrite <- Ep, <- Es, Ep.
  set (s0 := set_part 0xFFFFFF (set_drive (saved_drive s) (set_choice false true PART_UNSPECIFIED s))).
  destruct (parse_drive_ok s0 d c r (conj Hd I) He Hc' Hcr) as (s1 & -> & D1 & P1 & E1 & _ & C1 & _).
  change (drive_number s0 d) with (drive_number s d) in D1. change (cdrom_drive s0) with (cdrom_drive s) in C1.
  rewrite E1, bool_decide_true by done. cbn [negb].
  assert (forall s', current_drive s' = drive_number s d -> current_partition s' = partition_number p -> v_err s' = ERR_NONE ->
            cdrom_drive s' = cdrom_drive s -> slice_ok d p = true ->
            exists s'', (let '(r, s) := finish_device true (41 :: rest) s' in (r, str, s))
                        = (if decide (device_error s d p = ERR_NONE) then Some rest else None, str, s'') /\
              v_err s'' = device_error s d p /\
              (device_error s d p = ERR_NONE -> current_drive s'' = drive_number s d /\ current_partition s'' = partition_number p /\ sane_partition s'' = (true, s''))) as F.
  { intros s' Hd' Hp' He' Hc'' Hs. unfold finish_device.
    assert (sane_partition s' = if disk_ok s d then (true, s') else (false, set_verr ERR_DEV_VALUES s')) as Hsn.
    { rewrite (sane_number s' d p); [by unfold disk_ok; rewrite Hc'' | by unfold name_ok in *; rewrite Hc'' | done | | done].
      rewrite Hd'. unfold drive_number. by rewrite Hc''. }
    rewrite Hsn. unfold device_error. rewrite Hs.
    destruct (disk_ok s d); cbn [negb]; [rewrite decide_True by done | rewrite decide_False by done]; eexists; by split_and!. }
  destruct Hc as [(-> & -> & ->) | (-> & Hw)].
  - cbn [ch hd Z.eqb Pos.eqb]. apply F; done.
  - cbn [ch hd Z.eqb Pos.eqb]. rewrite <- Ep.
    destruct (parse_partition_ok s1 d p rest) as (s2 & -> & E2 & D2 & P2 & C2); [split; [| done] | done | done | | done |].
    { unfold name_ok in *. rewrite C1. done. }
    { rewrite D1. unfold drive_number. by rewrite C1. }
    destruct (slice_ok d p) eqn:Hs.
    + destruct (P2 eq_refl) as [P2' ->]. cbn [ch hd Z.eqb Pos.eqb]. apply F; try done; congruence.
    + exists s2. unfold device_error in *. rewrite Hs in *. rewrite decide_False by done. by split_and!.
Qed.

(** ** Properties *)

(** C35. The name of a device, with decimal numbers and a letter, is read back
    to its drive and partition numbers and to what follows it; a PC slice of a
    diskette or above 254 is a format error, a ninth drive an error of values. *)
Theorem set_device_reads d p rest s :
  name_ok s d p -> v_err s = ERR_NONE -> Forall is_char rest ->
  exists s', set_device (print_device d p ++ rest) s
             = (if decide (device_error s d p = ERR_NONE) then Some rest else None, print_device d p ++ rest, s') /\
    v_err s' = device_error s d p /\
    (device_error s d p = ERR_NONE -> current_drive s' = drive_number s d /\ current_partition s' = partition_number p /\ sane_partition s' = (true, s')).
Proof. apply set_device_ok. Qed.

Lemma set_device_reads_witness :
  let s := Dev 0x80 0xFFFFFF 0xFF 0 0 false false PART_UNSPECIFIED ERR_NONE in
  print_device (Hard 1) (SliceBsd 2 0) ++ bytes "/boot" = bytes "(hd1,2,a)/boot" /\
  exists s', set_device (bytes "(hd1,2,a)/boot") s = (Some (bytes "/boot"), bytes "(hd1,2,a)/boot", s') /\
    v_err s' = ERR_NONE /\ (ERR_NONE = ERR_NONE -> current_drive s' = 129 /\ current_partition s' = 0x200FF /\ sane_partition s' = (true, s')).
Proof.
  split; [reflexivity |].
  apply (set_device_reads (Hard 1) (SliceBsd 2 0) (bytes "/boot")); [| reflexivity | repeat constructor; done].
  repeat split; done.
Defined.
