(* ===== verification/GrubPart.v ===== *)
(** * GRUB's partitions

    [next_partition] of [src/legacy/SZoS/grub-0.97/stage2/disk_io.c] goes
    through the PC slices of a disk, those of the extended partitions included,
    and through the BSD partitions inside a slice; [open_partition] looks for
    one of them.  The listing of partitions ([real_open_partition] with [flags])
    is not modelled. *)

From S2P Require Import Prelude Machine LibcString GrubString GrubBios GrubDisk GrubDevice.

(** ** The code *)

Definition PC_MBR_SIG_OFFSET : Z := 510.
Definition PC_MBR_SIGNATURE : Z := 0xaa55.
Definition PC_SLICE_TYPE_NONE : Z := 0.
Definition PC_SLICE_TYPE_FREEBSD : Z := 0xa5.
Definition PC_SLICE_TYPE_OPENBSD : Z := 0xa6.
Definition PC_SLICE_TYPE_NETBSD : Z := 0xa9.
Definition BSD_LABEL_SECTOR : Z := 1.
Definition BSD_LABEL_MAGIC : Z := 0x82564557.
Definition BSD_LABEL_NPARTS_OFFSET : Z := 138.
Definition BSD_PART_OFFSET : Z := 148.
Definition DTYPE_SCSI : Z := 4.

Definition ld16 (m : mem) (a : Z) : Z := ld m a + 256 * ld m (a + 1).
Definition ld32 (m : mem) (a : Z) : Z := ld16 m a + 65536 * ld16 m (a + 2).

Definition PC_SLICE_START (part : Z) : Z := PC_SLICE_OFFSET + 8 + (part .<< 4).
Definition PC_SLICE_LENGTH (part : Z) : Z := PC_SLICE_OFFSET + 12 + (part .<< 4).
Definition BSD_PART_LENGTH (part : Z) : Z := BSD_PART_OFFSET + (part .<< 4).
Definition BSD_PART_START (part : Z) : Z := BSD_PART_OFFSET + 4 + (part .<< 4).
Definition BSD_PART_TYPE (part : Z) : Z := BSD_PART_OFFSET + 12 + (part .<< 4).

Definition IS_PC_SLICE_TYPE_BSD (type : Z) : bool :=
  (type =? PC_SLICE_TYPE_FREEBSD) || (type =? PC_SLICE_TYPE_OPENBSD) || (type =? PC_SLICE_TYPE_NETBSD).

(** What the pointer arguments of [next_partition] refer to, besides [buf]. *)
Record iter := Iter { partition : Z; type : Z; start : Z; len : Z; offset : Z; entry : Z; ext_offset : Z }.

(** [bsd_evil_hack] and the disk. *)
Record pstate := PState { hack : Z; p_disk : dstate }.
Definition set_disk (d : dstate) (s : pstate) : pstate := PState (hack s) d.
Definition fail (e : grub_error) (s : pstate) : pstate := PState (hack s) (set_err e (p_disk s)).
Definition p_mem (s : pstate) : mem := d_mem (p_disk s).

Section Partitions.
Variables (b : bios) (mem_lower mem_upper buf : Z).

Definition read_sector (drive sector : Z) (s : pstate) : option (bool * pstate) :=
  '(ok, d) ← rawread b mem_lower mem_upper drive (s32 sector) 0 SECTOR_SIZE buf (p_disk s);
  Some (negb (ok =? 0), set_disk d s).

(** [for (i = bsd_part_no + 1; i < BSD_LABEL_NPARTS (buf); i++) if (BSD_PART_TYPE (buf, i))] *)
Fixpoint find_bsd (n : nat) (i : Z) (m : mem) : option Z :=
  match n with
  | O => None
  | S n' => if ld m (buf + BSD_PART_TYPE i) =? 0 then find_bsd n' (i + 1) m else Some i
  end.

Definition next_bsd_partition (drive : Z) (it : iter) (s : pstate) : option (bool * iter * pstate) :=
  let no := (partition it .& 0xFF00) .>> 8 in
  '(label, no, s) ←
    (if no =? 0xFF
     then if len it <? BSD_LABEL_SECTOR + 1 then Some (false, no, fail ERR_BAD_PART_TABLE s)
          else '(ok, s) ← read_sector drive (u32 (start it + BSD_LABEL_SECTOR)) s;
               if negb ok then Some (false, no, s)
               else if ld32 (p_mem s) buf =? BSD_LABEL_MAGIC then Some (true, -1, s)
               else Some (false, no, fail ERR_BAD_PART_TABLE s)
     else Some (true, no, s));
  if negb (label : bool) then Some (false, it, s)
  else
    let m := p_mem s in
    match find_bsd (Z.to_nat (ld16 m (buf + BSD_LABEL_NPARTS_OFFSET) - (no + 1))) (no + 1) m with
    | Some i =>
        let it := Iter ((partition it .& 0xFF00FF) .| (i .<< 8)) ((ld m (buf + BSD_PART_TYPE i) .<< 8) .| (type it .& 0xFF))
                       (ld32 m (buf + BSD_PART_START i)) (ld32 m (buf + BSD_PART_LENGTH i)) (offset it) (entry it) (ext_offset it) in
        let s := if negb (drive .& 0x80 =? 0) && (ld16 m (buf + 4) =? DTYPE_SCSI) then PState 4 (p_disk s) else s in
        Some (true, it, s)
    | None => Some (false, it, fail ERR_NO_PART s)
    end.

(** The first extended partition of the table in [buf]. *)
Definition find_extended (m : mem) : option Z :=
  find (fun i => IS_PC_SLICE_TYPE_EXTENDED (ld m (buf + PC_SLICE_TYPE i))) [0; 1; 2; 3].

(** It calls itself at most once. *)
Fixpoint next_pc_slice (depth : nat) (drive : Z) (it : iter) (s : pstate) : option (bool * iter * pstate) :=
  match depth with
  | O => None
  | S depth' =>
      let no := (partition it .& 0xFF0000) .>> 16 in
      let '(no, it) := if no =? 0xFF then (-1, Iter (partition it) (type it) (start it) (len it) 0 (-1) 0) else (no, it) in
      '(ok, s) ← read_sector drive (offset it) s;
      if negb ok then Some (false, it, s)
      else
        let m := p_mem s in
        if negb (ld16 m (buf + PC_MBR_SIG_OFFSET) =? PC_MBR_SIGNATURE) then Some (false, it, fail ERR_BAD_PART_TABLE s)
        else
          let e := entry it + 1 in
          if e =? PC_SLICE_MAX
          then
            match find_extended m with
            | Some i =>
                let off := u32 (ext_offset it + ld32 m (buf + PC_SLICE_START i)) in
                let ext := if ext_offset it =? 0 then off else ext_offset it in
                next_pc_slice depth' drive (Iter (partition it) (type it) (start it) (len it) off (-1) ext) s
            | None => Some (false, Iter (partition it) (type it) (start it) (len it) (offset it) e (ext_offset it), fail ERR_NO_PART s)
            end
          else
            let t := ld m (buf + PC_SLICE_TYPE e) in
            let no := if (no <? PC_SLICE_MAX) || (negb (IS_PC_SLICE_TYPE_EXTENDED t) && negb (t =? PC_SLICE_TYPE_NONE)) then no + 1 else no in
            Some (true, Iter (u32 (no .<< 16) .| 0xFFFF) t (u32 (offset it + ld32 m (buf + PC_SLICE_START e)))
                             (ld32 m (buf + PC_SLICE_LENGTH e)) (offset it) e (ext_offset it), s)
  end.

Definition next_partition (current_drive drive dest : Z) (it : iter) (s : pstate) : option (bool * iter * pstate) :=
  if current_drive =? NETWORK_DRIVE then Some (false, it, s)
  else if (negb (partition it =? 0xFFFFFF) && IS_PC_SLICE_TYPE_BSD (type it .& 0xff)) || (drive .& 0x80 =? 0)
  then
    let it := if type it =? PC_SLICE_TYPE_NONE
              then Iter (partition it) PC_SLICE_TYPE_FREEBSD (start it) (len it) (offset it) (entry it) (ext_offset it) else it in
    '(found, it, s) ← next_bsd_partition drive it s;
    if (found : bool) then Some (true, it, s)
    else if negb (dest .& 0xFF00 =? 0xFF00)
         && ((dest .& 0xFF0000 =? 0xFF0000) || (dest .& 0xFF0000 =? partition it .& 0xFF0000))
    then Some (false, it, s)
    else next_pc_slice 2 drive it (fail ERR_NONE s)
  else next_pc_slice 2 drive it s.

(** The loop of [real_open_partition] for [flags] zero; [None] when [fuel]
    partitions do not end it. *)
Fixpoint open_loop (fuel : nat) (drive dest : Z) (it : iter) (s : pstate) : option (bool * iter * pstate) :=
  match fuel with
  | O => None
  | S f =>
      '(ok, it, s) ← next_partition drive drive dest it s;
      if negb (ok : bool) then Some (false, it, s)
      else
        let bsd_part := (partition it .>> 8) .& 0xFF in
        if negb (type it =? 0)
        then
          let s := fail ERR_NONE s in
          if (dest =? partition it) || ((dest .>> 16 =? 0xFF) && ((dest .>> 8) .& 0xFF =? bsd_part))
          then Some (true, it, s) else open_loop f drive dest it s
        else open_loop f drive dest it s
  end.

(** [open_partition ()]; the members [partition], [type], [start] and [len] of the
    result are [current_partition], [current_slice], [part_start] and
    [part_length]. *)
Definition open_partition (fuel : nat) (v : dev) (it : iter) (s : pstate) : option (bool * iter * pstate) :=
  let drive := current_drive v in
  if drive =? NETWORK_DRIVE then Some (true, it, s)
  else
    let '(sane, v) := sane_partition v in
    if negb sane then Some (false, it, fail (v_err v) s)
    else
      let dest := current_partition v in
      let it := Iter dest 0 0 (len it) (offset it) (entry it) (ext_offset it) in
      let s := PState 0 (p_disk s) in
      let '(err, d) :=
        if buf_drive (p_disk s) =? drive then (0, p_disk s)
        else let '(err, g) := get_diskinfo b drive (buf_geom (p_disk s)) in
             if negb (err =? 0) then (err, set_geom (buf_drive (p_disk s)) (buf_track (p_disk s)) g (p_disk s))
             else (0, set_geom drive (-1) g (p_disk s)) in
      let s := set_disk d s in
      if negb (err =? 0) then Some (false, it, fail ERR_NO_DISK s)
      else
        let it := Iter dest 0 0 (total_sectors (buf_geom d)) (offset it) (entry it) (ext_offset it) in
        if dest =? 0xFFFFFF then Some (true, it, s)
        else open_loop fuel drive dest (Iter 0xFFFFFF 0 0 (len it) (offset it) (entry it) (ext_offset it)) s.
End Partitions.

(** ** The disk as partitions see it

    What this component relies on: a sector that the disk has can be read into
    [buf], and then the disk can be read again. *)

Class SectorReader (b : bios) (mem_lower mem_upper buf drive total : Z) (byte : Z -> Z) := {
  sr_good : dstate -> Prop;
  sr_no_error s : sr_good s -> d_err s = ERR_NONE;
  sr_set_err s : sr_good s -> sr_good (set_err ERR_NONE s);
  sr_read s sector : sr_good s -> 0 <= sector < total -> total < 2147483648 ->
    exists s', rawread b mem_lower mem_upper drive sector 0 SECTOR_SIZE buf s = Some (1, s') /\ sr_good s' /\
      forall i, 0 <= i < SECTOR_SIZE -> ld (d_mem s') (buf + i) = byte (sector * SECTOR_SIZE + i) }.

(** A drive that works is such a disk. *)
Section DriveReader.
Variables (b : bios) (mem_lower mem_upper buf drive : Z) (g : geometry) (disks : Z -> Z -> Z).
Hypothesis drive_works : drive_ok b drive g.
Hypothesis tracks : tracks_ok g (disks drive).
Hypothesis size : sector_size g = SECTOR_SIZE.
Hypothesis buffer : target_ok mem_lower mem_upper buf SECTOR_SIZE.

Definition drive_good (s : dstate) : Prop :=
  w_disk (d_world s) = disks /\ d_err s = ERR_NONE /\ cache_ok drive g (disks drive) s.

Lemma drive_read s sector : drive_good s -> 0 <= sector < total_sectors g -> total_sectors g < 2147483648 ->
  exists s', rawread b mem_lower mem_upper drive sector 0 SECTOR_SIZE buf s = Some (1, s') /\ drive_good s' /\
    (forall i, 0 <= i < SECTOR_SIZE -> ld (d_mem s') (buf + i) = seen g (disks drive) (sector * SECTOR_SIZE + i)) /\
    (forall a, ~ in_buffer a -> ~ (buf <= a < buf + SECTOR_SIZE) -> ld (d_mem s') a = ld (d_mem s) a).
Proof.
  intros (Hw & He & Hc) Hs _. destruct buffer as [T1 T2 T3 T4 T5]. unfold SECTOR_SIZE in *.
  unfold rawread. cbn [Z.leb Z.compare Pos.compare Pos.compare_cont].
  destruct (loop_ok b mem_lower mem_upper drive g disks drive_works tracks T1 T2 (Z.to_nat 512) s sector 0 512 buf)
    as (s' & E & [R F] & W & Er & C); rewrite ?size; try done; try lia.
  - eapply ready_start; done || lia.
  - exists s'. split; [exact E |]. split; [done |]. split; [| done]. intros i Hi. rewrite R by done. f_equal. rewrite size. lia.
Qed.

#[export] Program Instance drive_reader : SectorReader b mem_lower mem_upper buf drive (total_sectors g) (seen g (disks drive)) := {|
  sr_good := drive_good |}.
Next Obligation. intros s (_ & He & _). done. Qed.
Next Obligation. intros s (Hw & He & Hc). split_and!; done. Qed.
Next Obligation. intros s sector G Hs Ht. destruct (drive_read s sector G Hs Ht) as (s' & E & G' & R & _). eauto. Qed.

(** The memory that reading into [buf] leaves alone is that of [m]. *)
Definition framed (m : mem) (s : dstate) : Prop :=
  forall a, ~ in_buffer a -> ~ (buf <= a < buf + SECTOR_SIZE) -> ld (d_mem s) a = ld m a.

Program Definition framed_reader (m : mem) : SectorReader b mem_lower mem_upper buf drive (total_sectors g) (seen g (disks drive)) := {|
  sr_good := fun s => drive_good s /\ framed m s |}.
Next Obligation. intros m s ((_ & He & _) & _). done. Qed.
Next Obligation. intros m s ((Hw & He & Hc) & F). split; [by split_and! | done]. Qed.
Next Obligation.
  intros m s sector (G & F) Hs Ht. destruct (drive_read s sector G Hs Ht) as (s' & E & G' & R & F').
  exists s'. split; [done |]. split; [| done]. split; [done |]. intros a H1 H2. rewrite F' by done. by apply F.
Qed.
End DriveReader.

(** ** Specifications *)

Section Tables.
Variable byte : Z -> Z.

(** Little-endian numbers of a sector. *)
Definition byte16 (x : Z) : Z := byte x + 256 * byte (x + 1).
Definition byte32 (x : Z) : Z := byte16 x + 65536 * byte16 (x + 2).
Definition at_sector (t off : Z) : Z := t * SECTOR_SIZE + off.

Definition table_type (t i : Z) : Z := byte (at_sector t (PC_SLICE_TYPE i)).
Definition table_start (t i : Z) : Z := byte32 (at_sector t (PC_SLICE_START i)).
Definition table_len (t i : Z) : Z := byte32 (at_sector t (PC_SLICE_LENGTH i)).
Definition has_signature (t : Z) : Prop := byte16 (at_sector t PC_MBR_SIG_OFFSET) = PC_MBR_SIGNATURE.
Definition first_extended (t : Z) : option Z := find (fun i => IS_PC_SLICE_TYPE_EXTENDED (table_type t i)) [0; 1; 2; 3].

(** The tables of a disk from table [t] on: each has a signature and links the
    next one with its first extended slice; the links count from [ext], the first
    extended partition, which is 0 in the first table. *)
Inductive chain (total : Z) : Z -> Z -> list Z -> Prop :=
| chain_last ext t : 0 <= t < total -> has_signature t -> first_extended t = None -> chain total ext t [t]
| chain_next ext t i l : 0 <= t < total -> has_signature t -> first_extended t = Some i ->
    chain total (if ext =? 0 then ext + table_start t i else ext) (ext + table_start t i) l -> 0 < ext + table_start t i ->
    chain total ext t (t :: l).

(** A partition: its number, type, start and length. *)
Record slice := Slice_ { sl_no : Z; sl_type : Z; sl_start : Z; sl_len : Z }.

(** The numbering: the four entries of the first table and the first entry that
    follows always count, later ones unless they are empty or extended. *)
Definition next_no (no t : Z) : Z :=
  if (no <? 4) || (negb (IS_PC_SLICE_TYPE_EXTENDED t) && negb (t =? 0)) then no + 1 else no.

Fixpoint slices_of (entries : list (Z * Z)) (no : Z) : list slice :=
  match entries with
  | [] => []
  | (t, i) :: rest =>
      let no := next_no no (table_type t i) in
      Slice_ no (table_type t i) (u32 (t + table_start t i)) (table_len t i) :: slices_of rest no
  end.

Definition entries_of (tables : list Z) : list (Z * Z) := flat_map (fun t => [(t, 0); (t, 1); (t, 2); (t, 3)]) tables.

(** The partitions of the disk in the order of their tables. *)
Definition slices (tables : list Z) : list slice := slices_of (entries_of tables) (-1).

Definition no_bsd (tables : list Z) : Prop :=
  Forall (fun '(t, i) => IS_PC_SLICE_TYPE_BSD (table_type t i) = false) (entries_of tables).

(** The first partition of that number that is not empty. *)
Definition find_slice (p : Z) (l : list slice) : option slice := find (fun x => (sl_no x =? p) && negb (sl_type x =? 0)) l.
End Tables.

(** ** Proofs *)

Lemma number_partition no : 0 <= no < 255 ->
  u32 (no .<< 16) .| 0xFFFF = no * 65536 + 0xFFFF /\ ((no * 65536 + 0xFFFF) .& 0xFF0000) .>> 16 = no /\
  (no * 65536 + 0xFFFF =? 0xFFFFFF) = false /\ (no * 65536 + 0xFFFF) .>> 16 = no.
Proof.
  intros Hn.
  pose (f no := (u32 (no .<< 16) .| 0xFFFF =? no * 65536 + 0xFFFF) && (((no * 65536 + 0xFFFF) .& 0xFF0000) .>> 16 =? no) &&
                negb (no * 65536 + 0xFFFF =? 0xFFFFFF) && ((no * 65536 + 0xFFFF) .>> 16 =? no)).
  assert (f no = true) as E by (apply (forall_range f 255); [vm_compute; reflexivity | done]).
  unfold f in E. rewrite !andb_true_iff, !Z.eqb_eq, negb_true_iff in E. tauto.
Qed.

Lemma low_byte x : 0 <= x < 256 -> x .& 0xff = x.
Proof. intros H. change 0xff with (Z.ones 8). rewrite Z.land_ones by lia. apply Z.mod_small. lia. Qed.

Lemma next_no_range no t : -1 <= no -> no <= next_no no t <= no + 1 /\ 0 <= next_no no t.
Proof. intros H. unfold next_no. destruct (Z.ltb_spec no 4); cbn [orb]; [lia |]. destruct (_ && _); lia. Qed.

Section Walk.
Context (b : bios) (mem_lower mem_upper buf drive total : Z) (byte : Z -> Z) {R : SectorReader b mem_lower mem_upper buf drive total byte}.
Hypothesis bytes_ok : forall x, 0 <= byte x < 256.
Hypothesis total_ok : total < 2147483648.
Hypothesis hard_disk : (drive .& 0x80 =? 0) = false.
Hypothesis not_network : drive <> NETWORK_DRIVE.

Abbreviation good s := (sr_good (p_disk s)).

(** [buf] holds sector [t]. *)
Definition holds_sector (t : Z) (s : pstate) : Prop :=
  forall i, 0 <= i < SECTOR_SIZE -> ld (p_mem s) (buf + i) = byte (at_sector t i).

Lemma read_sector_ok t s : good s -> 0 <= t < total ->
  exists s', read_sector b mem_lower mem_upper buf drive t s = Some (true, s') /\ good s' /\ holds_sector t s' /\ hack s' = hack s.
Proof.
  intros G Ht. unfold read_sector. rewrite s32_small by lia.
  destruct (sr_read (p_disk s) t G Ht total_ok) as (d & -> & Gd & Hd). eexists. split; [reflexivity |]. split_and!; try done.
Qed.

Lemma holds_16 t s i : holds_sector t s -> 0 <= i -> i + 1 < SECTOR_SIZE -> ld16 (p_mem s) (buf + i) = byte16 byte (at_sector t i).
Proof.
  intros H Hi Hl. unfold ld16, byte16. rewrite <- Z.add_assoc, !H by lia. do 3 f_equal. unfold at_sector. lia.
Qed.

Lemma holds_32 t s i : holds_sector t s -> 0 <= i -> i + 3 < SECTOR_SIZE -> ld32 (p_mem s) (buf + i) = byte32 byte (at_sector t i).
Proof.
  intros H Hi Hl. unfold ld32, byte32. rewrite <- Z.add_assoc, !(holds_16 t) by (done || lia). do 3 f_equal. unfold at_sector. lia.
Qed.

Lemma entry_offsets i : 0 <= i < 4 ->
  0 <= PC_SLICE_TYPE i < SECTOR_SIZE /\ 0 <= PC_SLICE_START i < 508 /\ 0 <= PC_SLICE_LENGTH i < 508.
Proof.
  intros Hi. unfold PC_SLICE_TYPE, PC_SLICE_START, PC_SLICE_LENGTH, PC_SLICE_OFFSET, SECTOR_SIZE.
  rewrite Z.shiftl_mul_pow2 by lia. lia.
Qed.

(** The entry after [entry it] of the table at [offset it], when there is one. *)
Lemma slice_in_table depth it s t : good s -> 0 <= offset it < total -> offset it = t -> has_signature byte t ->
  (partition it .& 0xFF0000) .>> 16 <> 0xFF -> 0 <= entry it + 1 < 4 ->
  let i := entry it + 1 in
  let no := next_no ((partition it .& 0xFF0000) .>> 16) (table_type byte t i) in
  exists s', next_pc_slice b mem_lower mem_upper buf (S depth) drive it s
             = Some (true, Iter (u32 (no .<< 16) .| 0xFFFF) (table_type byte t i) (u32 (t + table_start byte t i)) (table_len byte t i) t i (ext_offset it), s') /\
    good s' /\ hack s' = hack s.
Proof.
  intros G Ho <- Hsig Hno He i no. cbn [next_pc_slice]. rewrite (proj2 (Z.eqb_neq _ 0xFF)) by done.
  destruct (read_sector_ok (offset it) s G Ho) as (s' & -> & G' & H' & Hh). cbn [mbind option_bind negb].
  rewrite (holds_16 (offset it)) by (done || (unfold PC_MBR_SIG_OFFSET, SECTOR_SIZE; lia)).
  rewrite Hsig, Z.eqb_refl. cbn [negb]. unfold PC_SLICE_MAX. rewrite (proj2 (Z.eqb_neq _ 4)) by lia.
  destruct (entry_offsets i He) as (O1 & O2 & O3). fold i.
  rewrite H' by done. rewrite !(holds_32 (offset it)) by (done || (unfold SECTOR_SIZE; lia)).
  exists s'. split; [done |]. done.
Qed.
(** The first entry of the first table. *)
Lemma slice_first depth it s : good s -> 0 < total -> has_signature byte 0 ->
  (partition it .& 0xFF0000) .>> 16 = 0xFF ->
  let no := next_no (-1) (table_type byte 0 0) in
  exists s', next_pc_slice b mem_lower mem_upper buf (S depth) drive it s
             = Some (true, Iter (u32 (no .<< 16) .| 0xFFFF) (table_type byte 0 0) (u32 (0 + table_start byte 0 0)) (table_len byte 0 0) 0 0 0, s') /\
    good s' /\ hack s' = hack s.
Proof.
  intros G Ho Hsig Hno no. cbn [next_pc_slice]. rewrite Hno, Z.eqb_refl. cbn [offset entry ext_offset partition type start len].
  destruct (read_sector_ok 0 s G ltac:(lia)) as (s' & -> & G' & H' & Hh). cbn [mbind option_bind negb].
  rewrite (holds_16 0) by (done || (unfold PC_MBR_SIG_OFFSET, SECTOR_SIZE; lia)).
  rewrite Hsig, Z.eqb_refl. cbn [negb]. change (-1 + 1 =? PC_SLICE_MAX) with false. cbn iota.
  destruct (entry_offsets 0 ltac:(lia)) as (O1 & O2 & O3). change (-1 + 1) with 0.
  rewrite H' by done. rewrite !(holds_32 0) by (done || (unfold SECTOR_SIZE; lia)).
  exists s'. split; [done |]. done.
Qed.

Lemma find_map_eq (f g : Z -> bool) l : (forall x, List.In x l -> f x = g x) -> find f l = find g l.
Proof. induction l as [|x l IH]; intros H; cbn; [done |]. rewrite <- H by (by left). destruct (f x); [done |]. apply IH. intros y Hy. apply H. by right. Qed.

(** After the last entry of a table: the table that it links, or the end. *)
Lemma slice_after_table it s t l : good s -> chain byte total (ext_offset it) t (t :: l) -> offset it = t ->
  (partition it .& 0xFF0000) .>> 16 <> 0xFF -> entry it = 3 ->
  match l with
  | [] => exists it' s', next_pc_slice b mem_lower mem_upper buf 2 drive it s = Some (false, it', s') /\ d_err (p_disk s') = ERR_NO_PART /\ good (fail ERR_NONE s')
  | t' :: _ =>
      exists it' s', next_pc_slice b mem_lower mem_upper buf 2 drive it s = next_pc_slice b mem_lower mem_upper buf 1 drive it' s' /\
        partition it' = partition it /\ offset it' = t' /\ entry it' = -1 /\ chain byte total (ext_offset it') t' l /\ good s' /\ hack s' = hack s
  end.
Proof.
  intros G Hc Ho Hno He. subst t. inversion Hc as [? ? Ht Hsig Hext | ? ? i ? Ht Hsig Hext Hl Hpos]; subst.
  - remember 1%nat as one. cbn [next_pc_slice]. rewrite (proj2 (Z.eqb_neq _ 0xFF)) by done.
    destruct (read_sector_ok (offset it) s G Ht) as (s' & -> & G' & H' & Hh). cbn [mbind option_bind negb].
    rewrite (holds_16 (offset it)) by (done || (unfold PC_MBR_SIG_OFFSET, SECTOR_SIZE; lia)).
    rewrite Hsig, Z.eqb_refl. cbn [negb]. rewrite He. change (3 + 1 =? PC_SLICE_MAX) with true. cbn iota.
    assert (find_extended buf (p_mem s') = None) as ->.
    { rewrite <- Hext. apply find_map_eq. intros x Hx. rewrite H'; [done |]. apply entry_offsets. cbn in Hx. lia. }
    eexists _, _. split; [done |]. split; [done |]. cbn. by apply sr_set_err in G'.
  - assert (exists t' l', l = t' :: l' /\ t' = ext_offset it + table_start byte (offset it) i) as (t' & l' & -> & Et').
    { inversion Hl; subst; eauto. }
    remember 1%nat as one. cbn [next_pc_slice]. rewrite (proj2 (Z.eqb_neq _ 0xFF)) by done.
    destruct (read_sector_ok (offset it) s G Ht) as (s' & -> & G' & H' & Hh). cbn [mbind option_bind negb].
    rewrite (holds_16 (offset it)) by (done || (unfold PC_MBR_SIG_OFFSET, SECTOR_SIZE; lia)).
    rewrite Hsig, Z.eqb_refl. cbn [negb]. rewrite He. change (3 + 1 =? PC_SLICE_MAX) with true. cbn iota.
    assert (find_extended buf (p_mem s') = Some i) as ->.
    { rewrite <- Hext. apply find_map_eq. intros x Hx. rewrite H'; [done |]. apply entry_offsets. cbn in Hx. lia. }
    assert (0 <= i < 4) as Hi by (apply find_some in Hext as [Hi _]; cbn in Hi; lia).
    destruct (entry_offsets i Hi) as (_ & O2 & _).
    rewrite (holds_32 (offset it)) by (done || (unfold SECTOR_SIZE; lia)).
    assert (0 <= t' < total) as Ht' by (inversion Hl; subst; lia).
    change (byte32 byte (at_sector (offset it) (PC_SLICE_START i))) with (table_start byte (offset it) i).
    rewrite <- Et', u32_small by lia. eexists _, _. split; [reflexivity |]. cbn. split_and!; try done.
    by rewrite <- Et' in Hl.
Qed.
(** *** The walk through all the tables *)

Definition not_bsd (e : Z * Z) : Prop := IS_PC_SLICE_TYPE_BSD (table_type byte (fst e) (snd e)) = false.

(** What the arguments refer to after [no] and before the entries [E]. *)
Inductive walking (E : list (Z * Z)) (no : Z) (it : iter) (s : pstate) : Prop :=
| walking_start tables : E = entries_of tables -> no = -1 -> partition it = 0xFFFFFF ->
    chain byte total 0 0 tables -> good s -> walking E no it s
| walking_in l (i : nat) : E = map (fun k => (offset it, Z.of_nat k)) (seq (S i) (3 - i)) ++ entries_of l ->
    entry it = Z.of_nat i -> (i < 4)%nat -> partition it = no * 65536 + 0xFFFF -> 0 <= no < 255 ->
    IS_PC_SLICE_TYPE_BSD (type it .& 0xff) = false ->
    chain byte total (ext_offset it) (offset it) (offset it :: l) -> good s -> walking E no it s.

Lemma walking_no E no it s : walking E no it s -> -1 <= no.
Proof. intros []; lia. Qed.

Lemma entries_app t l : entries_of (t :: l) = [(t, 0); (t, 1); (t, 2); (t, 3)] ++ entries_of l.
Proof. done. Qed.

Lemma chain_valid ext t l : chain byte total ext t l -> 0 <= t < total /\ has_signature byte t /\ exists l', l = t :: l'.
Proof. intros []; eauto. Qed.

(** The iterator that a slice leaves. *)
Lemma walking_next t k no l it s ext : good s -> chain byte total ext t (t :: l) -> 0 <= no < 255 -> (k < 4)%nat ->
  not_bsd (t, Z.of_nat k) ->
  it = Iter (u32 (no .<< 16) .| 0xFFFF) (table_type byte t (Z.of_nat k)) (u32 (t + table_start byte t (Z.of_nat k)))
            (table_len byte t (Z.of_nat k)) t (Z.of_nat k) ext ->
  walking (map (fun k => (t, Z.of_nat k)) (seq (S k) (3 - k)) ++ entries_of l) no it s /\
  partition it = no * 65536 + 0xFFFF.
Proof.
  intros G Hc Hn Hk Hb ->. destruct (number_partition no Hn) as (-> & _). split; [| done].
  eapply walking_in; cbn [offset entry partition type ext_offset]; try done.
  unfold not_bsd in Hb. cbn [fst snd] in Hb. by rewrite low_byte by apply bytes_ok.
Qed.

Lemma next_slice dest E no it s : walking E no it s -> no + Z.of_nat (length E) < 255 -> Forall not_bsd E ->
  match E with
  | [] => exists it' s', next_partition b mem_lower mem_upper buf drive drive dest it s = Some (false, it', s') /\ d_err (p_disk s') = ERR_NO_PART /\ good (fail ERR_NONE s')
  | (t, k) :: E' =>
      exists it' s', next_partition b mem_lower mem_upper buf drive drive dest it s = Some (true, it', s') /\
        let no' := next_no no (table_type byte t k) in
        walking E' no' it' s' /\ partition it' = no' * 65536 + 0xFFFF /\ type it' = table_type byte t k /\
        start it' = u32 (t + table_start byte t k) /\ len it' = table_len byte t k /\ hack s' = hack s
  end.
Proof.
  intros W Hlen Hb. unfold next_partition. rewrite (proj2 (Z.eqb_neq _ _) not_network), hard_disk, orb_false_r.
  pose proof (walking_no _ _ _ _ W) as Hno1.
  destruct W as [tables HE Hno Hp Hc G | l i HE He Hi Hp Hno Ht Hc G].
  - rewrite Hp, Z.eqb_refl. cbn [negb andb]. subst no. destruct (chain_valid _ _ _ Hc) as (H0 & Hsig & l & ->).
    rewrite entries_app in HE. cbn [app] in HE. subst E. apply Forall_cons_iff in Hb as [Hb _]. cbn [length] in Hlen.
    destruct (slice_first 1 it s G ltac:(lia) Hsig) as (s' & -> & G' & Hh); [rewrite Hp; reflexivity |].
    pose proof (next_no_range (-1) (table_type byte 0 0) ltac:(lia)) as Hr.
    set (no' := next_no (-1) _) in *. eexists _, s'. split; [reflexivity |].
    destruct (walking_next 0 0 no' l _ s' 0 G' Hc ltac:(lia) ltac:(lia) Hb eq_refl) as [W' P'].
    split; [exact W' |]. split_and!; done.
  - rewrite Ht, andb_false_r. destruct (number_partition no Hno) as (_ & Hnum & _). rewrite <- Hp in Hnum.
    destruct (decide (i = 3%nat)) as [-> | Hi3].
    + cbn [seq map Nat.sub app] in HE. pose proof (slice_after_table it s (offset it) l G Hc eq_refl ltac:(lia) He) as A.
      destruct l as [|t l].
      * subst E. change (entries_of []) with (@nil (Z * Z)). destruct A as (it' & s' & -> & A). eauto.
      * destruct A as (it1 & s1 & -> & P1 & O1 & E1 & C1 & G1 & Hh1). rewrite entries_app in HE. cbn [app] in HE. subst E.
        apply Forall_cons_iff in Hb as [Hb _]. cbn [length] in Hlen. destruct (chain_valid _ _ _ C1) as (H0 & Hsig & _).
        destruct (slice_in_table 0 it1 s1 t G1) as (s' & -> & G' & Hh); rewrite ?O1, ?E1, ?P1; try done; [lia |].
        rewrite ?E1, ?P1, ?Hnum. change (-1 + 1) with 0. pose proof (next_no_range no (table_type byte t 0) ltac:(lia)) as Hr.
        set (no' := next_no no _) in *. eexists _, s'. split; [reflexivity |].
        destruct (walking_next t 0 no' l _ s' (ext_offset it1) G' C1 ltac:(lia) ltac:(lia) Hb eq_refl) as [W' P'].
        split; [exact W' |]. split_and!; done || congruence.
    + destruct (chain_valid _ _ _ Hc) as (H0 & Hsig & _).
      assert (seq (S i) (3 - i) = S i :: seq (S (S i)) (3 - S i)) as Es by (replace (3 - i)%nat with (S (3 - S i)) by lia; done).
      rewrite Es in HE. cbn [map app] in HE. subst E. apply Forall_cons_iff in Hb as [Hb _]. cbn [length] in Hlen.
      destruct (slice_in_table 1 it s (offset it) G H0 eq_refl Hsig ltac:(lia) ltac:(lia)) as (s' & -> & G' & Hh).
      rewrite Hnum. replace (entry it + 1) with (Z.of_nat (S i)) by lia.
      pose proof (next_no_range no (table_type byte (offset it) (Z.of_nat (S i))) ltac:(lia)) as Hr.
      set (no' := next_no no _) in *. eexists _, s'. split; [reflexivity |].
      destruct (walking_next (offset it) (S i) no' l _ s' (ext_offset it) G' Hc ltac:(lia) ltac:(lia) Hb eq_refl) as [W' P'].
      split; [exact W' |]. split_and!; done.
Qed.

Lemma open_loop_ok p E : forall fuel no it s, walking E no it s -> no + Z.of_nat (length E) < 255 -> Forall not_bsd E ->
  (length E < fuel)%nat -> 0 <= p < 255 ->
  exists it' s', open_loop b mem_lower mem_upper buf fuel drive (p * 65536 + 0xFFFF) it s
    = Some (match find_slice p (slices_of byte E no) with Some _ => true | None => false end, it', s') /\
    match find_slice p (slices_of byte E no) with
    | Some x => partition it' = p * 65536 + 0xFFFF /\ type it' = sl_type x /\ start it' = sl_start x /\ len it' = sl_len x /\
                d_err (p_disk s') = ERR_NONE
    | None => d_err (p_disk s') = ERR_NO_PART
    end /\ good (fail ERR_NONE s').
Proof.
  induction E as [|[t k] E IH]; intros [|fuel] no it s W Hlen Hb Hf Hp; try (cbn in Hf; lia); pose proof (next_slice (p * 65536 + 0xFFFF) _ _ _ _ W Hlen Hb) as N.
  - destruct N as (it' & s' & E' & He). cbn [open_loop]. rewrite E'. cbn. eauto.
  - destruct N as (it1 & s1 & E' & W1 & P1 & T1 & S1 & L1 & Hh). cbn [open_loop]. rewrite E'. cbn [mbind option_bind negb].
    apply Forall_cons_iff in Hb as [Hb0 Hb]. cbn [length] in Hlen, Hf.
    pose proof (next_no_range no (table_type byte t k) (walking_no _ _ _ _ W)) as Hr.
    cbn [slices_of]. set (no' := next_no no _) in *. unfold find_slice in *. cbn [find sl_no sl_type].
    rewrite T1, P1. destruct (number_partition p Hp) as (_ & _ & _ & ->). rewrite (proj2 (Z.eqb_neq p 0xFF)) by lia. cbn [andb]. rewrite orb_false_r.
    assert ((p * 65536 + 65535 =? no' * 65536 + 65535) = (no' =? p)) as -> by (destruct (Z.eqb_spec no' p); [apply Z.eqb_eq | apply Z.eqb_neq]; lia).
    destruct (table_type byte t k =? 0) eqn:Et; cbn [negb].
    + rewrite andb_false_r. apply (IH fuel no' it1 s1 W1); done || lia.
    + rewrite andb_true_r. destruct (Z.eqb_spec no' p) as [En |].
      * eexists it1, _. split; [done |]. subst p. split; [by split_and! |].
        assert (good s1) as G by (by destruct W1). by apply sr_set_err in G.
      * apply (IH fuel no' it1 (fail ERR_NONE s1)); [| lia | done | lia | done].
        destruct W1; [eapply walking_start | eapply walking_in]; try done; by apply sr_set_err.
Qed.
End Walk.

(** ** Properties *)

Lemma seen_range g D : (forall x, 0 <= D x < 256) -> forall x, 0 <= seen g D x < 256.
Proof. intros H x. unfold seen. destruct (_ && _); apply H. Qed.

(** Opening leaves the drive as a partition can be read from, and other memory
    alone. *)
Definition opened_disk_ok drive g disks buf (d d' : dstate) : Prop :=
  drive_good drive g disks (set_err ERR_NONE d') /\ framed buf (d_mem d) d'.

(** The geometry of the drive, read when the buffer is another drive's. *)
Lemma geometry_ok b drive g disks d : drive_ok b drive g -> w_disk (d_world d) = disks -> d_err d = ERR_NONE -> cache_ok drive g (disks drive) d ->
  exists d', (if buf_drive d =? drive then (0, d)
       else let '(err, g) := get_diskinfo b drive (buf_geom d) in
            if negb (err =? 0) then (err, set_geom (buf_drive d) (buf_track d) g d)
            else (0, set_geom drive (-1) g d)) = (0, d') /\ drive_good drive g disks d' /\ d_mem d' = d_mem d /\ buf_geom d' = g.
Proof.
  intros Hd Hw He Hc. destruct (Z.eqb_spec (buf_drive d) drive) as [E |].
  - exists d. split; [done |]. split; [by split_and! |]. split; [done |]. by apply Hc.
  - rewrite (ok_info _ _ _ Hd). eexists. split; [reflexivity |]. split; [| done]. split_and!; [done | done |]. intros _. cbn. auto.
Qed.

Lemma open_partition_ok b mem_lower mem_upper buf g disks tables p v it s fuel :
  let drive := current_drive v in
  let byte := seen g (disks drive) in
  drive_ok b drive g -> tracks_ok g (disks drive) -> sector_size g = SECTOR_SIZE -> target_ok mem_lower mem_upper buf SECTOR_SIZE ->
  (forall x, 0 <= disks drive x < 256) ->
  drive .& 0x80 <> 0 -> drive <> NETWORK_DRIVE -> 0 <= p < 255 -> current_partition v = p * 65536 + 0xFFFF ->
  sane_partition v = (true, v) ->
  w_disk (d_world (p_disk s)) = disks -> d_err (p_disk s) = ERR_NONE -> cache_ok drive g (disks drive) (p_disk s) ->
  chain byte (total_sectors g) 0 0 tables -> no_bsd byte tables -> (4 * length tables < fuel)%nat -> (length tables < 64)%nat ->
  exists it' s', open_partition b mem_lower mem_upper buf fuel v it s
    = Some (match find_slice p (slices byte tables) with Some _ => true | None => false end, it', s') /\
    match find_slice p (slices byte tables) with
    | Some x => partition it' = p * 65536 + 0xFFFF /\ type it' = sl_type x /\ start it' = sl_start x /\ len it' = sl_len x /\
                d_err (p_disk s') = ERR_NONE
    | None => d_err (p_disk s') = ERR_NO_PART
    end /\ opened_disk_ok drive g disks buf (p_disk s) (p_disk s').
Proof.
  intros drive byte Hd Ht Hss Hbuf Hb Hhd Hnet Hp Hcp Hsane Hw He Hc Hch Hnb Hfu Hl. unfold open_partition. fold drive.
  rewrite (proj2 (Z.eqb_neq _ _) Hnet), Hsane. cbn [negb]. rewrite Hcp. cbn [p_disk].
  destruct (geometry_ok b drive g disks (p_disk s) Hd Hw He Hc) as (d & -> & G & Em & _). cbn [Z.eqb negb].
  destruct (number_partition p Hp) as (_ & _ & -> & _).
  assert (length (entries_of tables) = (4 * length tables)%nat) as Hle.
  { clear. unfold entries_of. induction tables as [|t l IH]; [done |]. cbn [flat_map]. rewrite length_app, IH. cbn. lia. }
  apply (@open_loop_ok b mem_lower mem_upper buf drive (total_sectors g) byte
    (framed_reader b mem_lower mem_upper buf drive g disks Hd Ht Hss Hbuf (d_mem (p_disk s)))); try done; try lia.
  - intros x. by apply seen_range.
  - apply (ok_total _ _ _ Hd).
  - eapply walking_start; try done. split; [done |]. intros a _ _. cbn. by rewrite Em.
  - unfold no_bsd, not_bsd in *. eapply Forall_impl; [| exact Hnb]. by intros [].
Qed.

(** The whole disk. *)
Lemma open_whole_ok b mem_lower mem_upper buf g disks v it s fuel :
  let drive := current_drive v in
  drive_ok b drive g -> drive <> NETWORK_DRIVE -> current_partition v = 0xFFFFFF -> sane_partition v = (true, v) ->
  w_disk (d_world (p_disk s)) = disks -> d_err (p_disk s) = ERR_NONE -> cache_ok drive g (disks drive) (p_disk s) ->
  exists it' s', open_partition b mem_lower mem_upper buf fuel v it s = Some (true, it', s') /\
    partition it' = 0xFFFFFF /\ type it' = 0 /\ start it' = 0 /\ len it' = total_sectors g /\ d_err (p_disk s') = ERR_NONE /\
    opened_disk_ok drive g disks buf (p_disk s) (p_disk s').
Proof.
  intros drive Hd Hnet Hcp Hsane Hw He Hc. unfold open_partition. fold drive.
  rewrite (proj2 (Z.eqb_neq _ _) Hnet), Hsane. cbn [negb]. rewrite Hcp. cbn [p_disk].
  destruct (geometry_ok b drive g disks (p_disk s) Hd Hw He Hc) as (d & -> & G & Em & Eg). cbn [Z.eqb negb].
  eexists _, _. split; [reflexivity |]. cbn. rewrite Eg. split_and!; try done; [apply G |]. split.
  - destruct G as (G1 & G2 & G3). by split_and!.
  - intros a _ _. cbn. by rewrite Em.
Qed.

(** C10. On a hard disk whose tables form a finite chain, opening partition p
    finds the first partition of number p that is not empty in the list that
    the tables denote, with its type, start and length, or sets ERR_NO_PART.
    No table has a BSD slice, and there are less than 64 tables. *)
Theorem open_partition_finds b mem_lower mem_upper buf g disks tables p v it s fuel :
  let drive := current_drive v in
  let byte := seen g (disks drive) in
  drive_ok b drive g -> tracks_ok g (disks drive) -> sector_size g = SECTOR_SIZE -> target_ok mem_lower mem_upper buf SECTOR_SIZE ->
  (forall x, 0 <= disks drive x < 256) ->
  drive .& 0x80 <> 0 -> drive <> NETWORK_DRIVE -> 0 <= p < 255 -> current_partition v = p * 65536 + 0xFFFF ->
  sane_partition v = (true, v) ->
  w_disk (d_world (p_disk s)) = disks -> d_err (p_disk s) = ERR_NONE -> cache_ok drive g (disks drive) (p_disk s) ->
  chain byte (total_sectors g) 0 0 tables -> no_bsd byte tables -> (4 * length tables < fuel)%nat -> (length tables < 64)%nat ->
  exists it' s', open_partition b mem_lower mem_upper buf fuel v it s
    = Some (match find_slice p (slices byte tables) with Some _ => true | None => false end, it', s') /\
    match find_slice p (slices byte tables) with
    | Some x => partition it' = p * 65536 + 0xFFFF /\ type it' = sl_type x /\ start it' = sl_start x /\ len it' = sl_len x /\
                d_err (p_disk s') = ERR_NONE
    | None => d_err (p_disk s') = ERR_NO_PART
    end /\ opened_disk_ok drive g disks buf (p_disk s) (p_disk s').
Proof. apply open_partition_ok. Qed.

(** A disk of 63 sectors per track: one slice, and an extended partition with two
    logical ones. *)
Definition hard_disk_0 : geometry := Geometry 4 2 63 504 512 0.

Definition hard_bios : bios :=
  Bios (fun _ => 0) (fun _ => (1, IsoSpecPacket 0 0 0 0 0)) (fun _ => (1, DriveParameters 0 0 0 0)) (fun _ => (0, (4, 2, 63)))
       (fun _ _ _ w => (1, w))
       (fun _ drive '(c, h, s) n seg w =>
          (0, World (fill (w_mem w) (16 * seg) (n * 512) (fun i => w_disk w drive (((c * 2 + h) * 63 + (s - 1)) * 512 + i))) (w_disk w))).

Lemma hard_ok : drive_ok hard_bios 0x80 hard_disk_0.
Proof.
  constructor; cbn; try done; try lia.
  - exists 9. done.
  - intros. eexists. split; [reflexivity |]. apply fill_loaded. lia.
Qed.

Definition sector_bytes (entries : list (Z * (Z * Z))) (i : Z) : Z :=
  if i =? 510 then 0x55 else if i =? 511 then 0xaa
  else if (i <? 446) || (510 <=? i) then 0
  else
    let '(t, (s, l)) := nth (Z.to_nat ((i - 446) / 16)) entries (0, (0, 0)) in
    let o := (i - 446) mod 16 in
    if o =? 4 then t else if o =? 8 then s else if o =? 12 then l else 0.

Definition hard_bytes (drive x : Z) : Z :=
  if x / 512 =? 0 then sector_bytes [(0x83, (63, 60)); (5, (126, 200)); (0, (0, 0)); (0, (0, 0))] (x mod 512)
  else if x / 512 =? 126 then sector_bytes [(0x83, (1, 60)); (5, (100, 60)); (0, (0, 0)); (0, (0, 0))] (x mod 512)
  else if x / 512 =? 226 then sector_bytes [(0x83, (1, 50)); (0, (0, 0)); (0, (0, 0)); (0, (0, 0))] (x mod 512)
  else 0.

Lemma hard_bytes_range x : 0 <= hard_bytes 0x80 x < 256.
Proof.
  assert (forall es i, Forall (fun e => 0 <= fst e < 256 /\ 0 <= fst (snd e) < 256 /\ 0 <= snd (snd e) < 256) es -> 0 <= sector_bytes es i < 256) as H.
  { intros es i He. unfold sector_bytes. repeat (zcase; [lia |]). destruct (_ || _); [lia |].
    assert (0 <= fst (nth (Z.to_nat ((i - 446) / 16)) es (0, (0, 0))) < 256 /\ 0 <= fst (snd (nth (Z.to_nat ((i - 446) / 16)) es (0, (0, 0)))) < 256 /\
            0 <= snd (snd (nth (Z.to_nat ((i - 446) / 16)) es (0, (0, 0)))) < 256) as Hn.
    { destruct (nth_in_or_default (Z.to_nat ((i - 446) / 16)) es (0, (0, 0))) as [Hi | ->]; [| cbn; lia].
      rewrite List.Forall_forall in He. by apply He. }
    destruct (nth _ es _) as [t [s l]]. cbn in Hn. repeat (zcase; [lia |]). lia. }
  unfold hard_bytes. repeat (zcase; [apply H; repeat constructor; cbn; lia |]). lia.
Qed.

Lemma hard_tracks : tracks_ok hard_disk_0 (hard_bytes 0x80).
Proof.
  constructor; try done.
  - by exists 8.
  - intros s Hs. assert (forallb (fun s => negb (ezd_mark hard_disk_0 (hard_bytes 0x80) (s + 1))) (seqZ 0 62) = true) as H by (vm_compute; reflexivity).
    pose proof (forall_range _ _ H (s - 1) ltac:(change (vtrack hard_disk_0) with 63 in Hs; lia)) as E. cbn beta in E.
    replace (s - 1 + 1) with s in E by lia. by apply negb_true_iff.
Qed.

Lemma open_partition_finds_witness :
  let v := Dev 0x80 0xFFFFFF 0xFF 0x80 0x5FFFF false false PART_CHOSEN ERR_NONE in
  let s := PState 0 (DState (World ∅ hard_bytes) ERR_NONE (-1) 0 (Geometry 0 0 0 0 0 0) None) in
  exists it' s', open_partition hard_bios 640 0 0x20000 20 v (Iter 0 0 0 0 0 0 0) s = Some (true, it', s') /\
    (partition it' = 5 * 65536 + 0xFFFF /\ type it' = 0x83 /\ start it' = 227 /\ len it' = 50 /\ d_err (p_disk s') = ERR_NONE) /\
    opened_disk_ok 0x80 hard_disk_0 hard_bytes 0x20000 (p_disk s) (p_disk s').
Proof.
  apply (open_partition_finds hard_bios 640 0 0x20000 hard_disk_0 hard_bytes [0; 126; 226] 5
           (Dev 0x80 0xFFFFFF 0xFF 0x80 0x5FFFF false false PART_CHOSEN ERR_NONE));
    [apply hard_ok | apply hard_tracks | reflexivity | by apply low_target | apply hard_bytes_range | done | done | done | reflexivity | reflexivity
    | reflexivity | reflexivity | done | | | cbn; lia | cbn; lia].
  - apply (chain_next _ _ 0 0 1); [done | reflexivity | reflexivity | | reflexivity].
    apply (chain_next _ _ _ _ 1); [done | reflexivity | reflexivity | | reflexivity].
    apply chain_last; [done | reflexivity | reflexivity].
  - apply (bool_decide_unpack _); vm_compute; exact I.
Defined.
