(* ===== verification/GrubFsys.v ===== *)
(** * What GRUB's file systems share

    The variables of [src/legacy/SZoS/grub-0.97/stage2/disk_io.c] that the file
    systems and the file interface use, the completion of file names, and
    reading from the open partition.  [PartReader] is what a file system relies
    on; the partition of a working drive provides it. *)

From S2P Require Import Prelude Machine LibcString GrubString GrubTerm GrubReadline GrubBios GrubDisk GrubDevice GrubPart.

(** ** The code *)

Definition FSYS_BUF : Z := 0x68000.
Definition UNIQUE_BUF : Z := 0x78000 + 0x200 + 0x60 + 1600 + 1600 * 5 + 1600.

(** A 32-bit store. *)
Definition st_dword (m : mem) (a v : Z) : mem :=
  st (st (st (st m a (u8 v)) (a + 1) (u8 (v / 256))) (a + 2) (u8 (v / 65536))) (a + 3) (u8 (v / 16777216)).

(** [f_dev] has the drives and what names chose, [f_part] the open partition
    (its members are [current_partition], [current_slice], [part_start] and
    [part_length]).  [disk_read_hook] is absent or records its calls;
    [mapblock1] and [mapblock2] are the static variables of [fsys_ext2fs.c]. *)
Record fs := Fs {
  f_disk : dstate; f_dev : dev; f_part : iter; f_io : io;
  filepos : Z; filemax : Z; fsmax : Z; fsys_type : Z;
  block_file : bool; compressed_file : bool;
  print_possibilities : Z; do_completion : bool; unique : Z;
  disk_read_hook : option (list (Z * Z * Z));
  mapblock1 : Z; mapblock2 : Z }.

Definition set_fdisk (d : dstate) (s : fs) : fs :=
  Fs d (f_dev s) (f_part s) (f_io s) (filepos s) (filemax s) (fsmax s) (fsys_type s) (block_file s) (compressed_file s)
     (print_possibilities s) (do_completion s) (unique s) (disk_read_hook s) (mapblock1 s) (mapblock2 s).
Definition set_place (v : dev) (p : iter) (s : fs) : fs :=
  Fs (f_disk s) v p (f_io s) (filepos s) (filemax s) (fsmax s) (fsys_type s) (block_file s) (compressed_file s)
     (print_possibilities s) (do_completion s) (unique s) (disk_read_hook s) (mapblock1 s) (mapblock2 s).
Definition set_fio (i : io) (s : fs) : fs :=
  Fs (f_disk s) (f_dev s) (f_part s) i (filepos s) (filemax s) (fsmax s) (fsys_type s) (block_file s) (compressed_file s)
     (print_possibilities s) (do_completion s) (unique s) (disk_read_hook s) (mapblock1 s) (mapblock2 s).
Definition set_file (pos max : Z) (s : fs) : fs :=
  Fs (f_disk s) (f_dev s) (f_part s) (f_io s) pos max (fsmax s) (fsys_type s) (block_file s) (compressed_file s)
     (print_possibilities s) (do_completion s) (unique s) (disk_read_hook s) (mapblock1 s) (mapblock2 s).
Definition set_fsys (type max : Z) (block compressed : bool) (s : fs) : fs :=
  Fs (f_disk s) (f_dev s) (f_part s) (f_io s) (filepos s) (filemax s) max type block compressed
     (print_possibilities s) (do_completion s) (unique s) (disk_read_hook s) (mapblock1 s) (mapblock2 s).
Definition set_completion (poss : Z) (compl : bool) (u : Z) (s : fs) : fs :=
  Fs (f_disk s) (f_dev s) (f_part s) (f_io s) (filepos s) (filemax s) (fsmax s) (fsys_type s) (block_file s) (compressed_file s)
     poss compl u (disk_read_hook s) (mapblock1 s) (mapblock2 s).
Definition set_hook (h : option (list (Z * Z * Z))) (s : fs) : fs :=
  Fs (f_disk s) (f_dev s) (f_part s) (f_io s) (filepos s) (filemax s) (fsmax s) (fsys_type s) (block_file s) (compressed_file s)
     (print_possibilities s) (do_completion s) (unique s) h (mapblock1 s) (mapblock2 s).
Definition set_maps (a b : Z) (s : fs) : fs :=
  Fs (f_disk s) (f_dev s) (f_part s) (f_io s) (filepos s) (filemax s) (fsmax s) (fsys_type s) (block_file s) (compressed_file s)
     (print_possibilities s) (do_completion s) (unique s) (disk_read_hook s) a b.

Definition f_mem (s : fs) : mem := d_mem (f_disk s).
Definition f_err (s : fs) : grub_error := d_err (f_disk s).
Definition set_fmem (m : mem) (s : fs) : fs := set_fdisk (set_mem m (f_disk s)) s.
Definition set_ferr (e : grub_error) (s : fs) : fs := set_fdisk (set_err e (f_disk s)) s.
Definition set_pos (pos : Z) (s : fs) : fs := set_file pos (filemax s) s.

Section Sharing.
Variables (b : bios) (mem_lower mem_upper : Z).
Variables (current_term : term_entry) (max_lines : Z).

(** A call of [devread] from a file system. *)
Definition fs_devread (sector byte_offset byte_len buf : Z) (s : fs) : option (Z * fs) :=
  '(ok, d) ← devread b mem_lower mem_upper (current_drive (f_dev s)) (start (f_part s)) (len (f_part s)) sector byte_offset byte_len buf (f_disk s);
  Some (ok, set_fdisk d s).

(** [disk_read_func = disk_read_hook; devread (...); disk_read_func = NULL;] *)
Definition hooked_devread (sector byte_offset byte_len buf : Z) (s : fs) : option (Z * fs) :=
  '(ok, s) ← fs_devread sector byte_offset byte_len buf (set_fdisk (set_reads (disk_read_hook s) (f_disk s)) s);
  Some (ok, set_fdisk (set_reads None (f_disk s)) (set_hook (disk_read_func (f_disk s)) s)).

(** The two loops over [buf] and [name]; [buf] stays in [unique_string]. *)
Fixpoint copy_name (fuel : nat) (buf name : Z) (m : mem) : mem :=
  match fuel with
  | O => m
  | S f => let m := st m buf (ld m name) in if ld m name =? 0 then m else copy_name f (buf + 1) (name + 1) m
  end.

Fixpoint strip_name (fuel : nat) (buf name : Z) (m : mem) : mem :=
  match fuel with
  | O => m
  | S f => if negb (ld m buf =? 0) && (ld m buf =? ld m name) then strip_name f (buf + 1) (name + 1) m else st m buf 0
  end.

(** [print_a_completion]; names are shorter than [UNIQUE_BUFLEN]. *)
Definition print_a_completion (name : Z) (s : fs) : option fs :=
  let text := cstring (f_mem s) name in
  if (grub_strcmp text (bytes ".") =? 0) || (grub_strcmp text (bytes "..") =? 0) then Some s
  else
    s ← (if do_completion s
         then Some (set_fmem ((if unique s =? 0 then copy_name else strip_name) (Z.to_nat 1600) UNIQUE_BUF name (f_mem s)) s)
         else i ← grub_printf current_term max_lines (bytes " %s") [ArgStr text] (f_io s); Some (set_fio i s));
    Some (set_completion (print_possibilities s) (do_completion s) (unique s + 1) s).
End Sharing.

(** ** The partition as a file system sees it

    Bytes inside the partition can be read to any place that is not the track
    buffer, and other memory keeps its contents; memory outside the track buffer
    may be written. *)

Class PartReader (b : bios) (mem_lower mem_upper drive start length : Z) (byte : Z -> Z) := {
  pr_good : dstate -> Prop;
  pr_no_error s : pr_good s -> d_err s = ERR_NONE;
  pr_write s m : pr_good s -> (forall a, in_buffer a -> ld m a = ld (d_mem s) a) -> pr_good (set_mem m s);
  pr_reads s l : pr_good s -> pr_good (set_reads l s);
  pr_read s sector byte_offset byte_len buf : pr_good s ->
    target_ok mem_lower mem_upper buf byte_len -> 0 <= sector < 1073741824 -> 0 <= byte_offset -> 0 < byte_len ->
    byte_offset + byte_len < 2147479552 -> sector * 512 + byte_offset + byte_len <= length * 512 ->
    exists s', devread b mem_lower mem_upper drive start length sector byte_offset byte_len buf s = Some (1, s') /\ pr_good s' /\
      (forall i, 0 <= i < byte_len -> ld (d_mem s') (buf + i) = byte (sector * 512 + byte_offset + i)) /\
      (forall a, ~ in_buffer a -> ~ (buf <= a < buf + byte_len) -> ld (d_mem s') a = ld (d_mem s) a);
  pr_nothing s sector byte_offset buf : pr_good s -> 0 <= sector < 1073741824 -> 0 < byte_offset < 2147483648 ->
    sector * 512 + byte_offset <= length * 512 ->
    devread b mem_lower mem_upper drive start length sector byte_offset 0 buf s = Some (1, s) }.

Section DrivePartition.
Variables (b : bios) (mem_lower mem_upper drive start length : Z) (g : geometry) (disks : Z -> Z -> Z).
Hypothesis drive_works : drive_ok b drive g.
Hypothesis tracks : tracks_ok g (disks drive).
Hypothesis size : sector_size g = SECTOR_SIZE.
Hypothesis start_ok : 0 <= start.
Hypothesis length_ok : 0 <= length.
Hypothesis inside : start + length <= total_sectors g.

Lemma cache_frame s m : cache_ok drive g (disks drive) s -> (forall a, in_buffer a -> ld m a = ld (d_mem s) a) ->
  cache_ok drive g (disks drive) (set_mem m s).
Proof.
  intros C H Hd. destruct (C Hd) as [Hg [Ht | (T1 & T2 & T3)]]; (split; [done |]); [by left | right].
  split; [done |]. split; [done |]. intros i Hi. change (d_mem (set_mem m s)) with m. rewrite H; [by apply T3 |].
  pose proof (vtrack_range b drive g drive_works) as (_ & V & _). unfold in_buffer. clear - Hi V. nia.
Qed.

#[export] Program Instance partition_reader :
  PartReader b mem_lower mem_upper drive start length (fun x => seen g (disks drive) (start * 512 + x)) := {|
  pr_good := drive_good drive g disks |}.
Next Obligation. intros s (_ & He & _). done. Qed.
Next Obligation. intros s m (Hw & He & Hc) H. split_and!; [done | done |]. by apply cache_frame. Qed.
Next Obligation. intros s l (Hw & He & Hc). split_and!; done. Qed.
Next Obligation.
  intros s sector byte_offset byte_len buf (Hw & He & Hc) Hbuf Hs Ho Hl Hol Hin.
  pose proof (devread_ok b mem_lower mem_upper drive g disks start length sector byte_offset byte_len buf s
    drive_works tracks size Hbuf start_ok length_ok inside Hw He Hc Hs Ho Hl Hol) as D. cbn zeta in D.
  rewrite (proj2 (Z.ltb_ge _ _)) in D by lia. destruct D as (s' & E & [R1 R2] & W & Er & C).
  exists s'. split; [exact E |]. split; [done |]. split; [| exact R2].
  intros i Hi. rewrite R1 by done. f_equal. lia.
Qed.
Next Obligation.
  intros s sector byte_offset buf G Hs Ho Hin. unfold devread. rewrite !shiftr_block.
  pose proof (ok_total _ _ _ drive_works) as Ht.
  rewrite (proj2 (Z.ltb_ge sector 0)) by lia. cbn [orb]. rewrite u32_small by dlia.
  rewrite (proj2 (Z.leb_gt _ _)) by dlia. done.
Qed.
End DrivePartition.

(** ** 32-bit cells *)

Lemma bytes_dword v : u8 v + 256 * u8 (v / 256) + 65536 * (u8 (v / 65536) + 256 * u8 (v / 16777216)) = u32 v.
Proof. unfold u8, u32. dlia. Qed.

Lemma ld_st_dword m a v x : ~ (a <= x < a + 4) -> ld (st_dword m a v) x = ld m x.
Proof. intros H. unfold st_dword. rewrite !ld_st_ne by lia. done. Qed.

Lemma ld32_st_dword m a v : ld32 (st_dword m a v) a = u32 v.
Proof.
  rewrite <- bytes_dword. unfold ld32, ld16, st_dword. replace (a + 2 + 1) with (a + 3) by lia.
  rewrite !ld_st. repeat case_decide; lia.
Qed.

Lemma ld32_frame m m' a : (forall x, a <= x < a + 4 -> ld m' x = ld m x) -> ld32 m' a = ld32 m a.
Proof. intros H. unfold ld32, ld16. rewrite !H by lia. done. Qed.

Lemma ld32_st_dword_ne m a v x : x + 4 <= a \/ a + 4 <= x -> ld32 (st_dword m a v) x = ld32 m x.
Proof. intros H. apply ld32_frame. intros y Hy. apply ld_st_dword. lia. Qed.
