(* ===== verification/GrubFat.v ===== *)
(** * GRUB's FAT file system

    [src/legacy/SZoS/grub-0.97/stage2/fsys_fat.c]: mounting a volume and reading
    a file along its chain of clusters, through a cache of the allocation table,
    in the memory that [FSYS_BUF] names.  The search of directories is in
    [GrubFatDir]. *)

From S2P Require Import Prelude Machine LibcString GrubString GrubTerm GrubReadline GrubBios GrubDisk GrubDevice GrubPart GrubFsys.

(** ** The code *)

(** The members of [struct fat_superblock], 32-bit integers in this order. *)
Inductive fat_field :=
  fat_offset | fat_length | fat_size | root_offset | root_max | data_offset | num_sectors | num_clust |
  clust_eof_marker | sects_per_clust | sectsize_bits | clustsize_bits | root_cluster | cached_fat |
  file_cluster | current_cluster_num | current_cluster.

#[global] Instance fat_field_eq_dec : EqDecision fat_field.
Proof. solve_decision. Defined.

Definition field_no (f : fat_field) : Z :=
  match f with
  | fat_offset => 0 | fat_length => 1 | fat_size => 2 | root_offset => 3 | root_max => 4 | data_offset => 5
  | num_sectors => 6 | num_clust => 7 | clust_eof_marker => 8 | sects_per_clust => 9 | sectsize_bits => 10
  | clustsize_bits => 11 | root_cluster => 12 | cached_fat => 13 | file_cluster => 14
  | current_cluster_num => 15 | current_cluster => 16
  end.

Definition FAT_SUPER : Z := FSYS_BUF + 32256.
Definition FAT_BUF : Z := FSYS_BUF + 30208.
Definition NAME_BUF : Z := FSYS_BUF + 29184.
Definition FAT_CACHE_SIZE : Z := 2048.

(** [FAT_SUPER->f], and its assignment. *)
Definition sget (f : fat_field) (m : mem) : Z := s32 (ld32 m (FAT_SUPER + 4 * field_no f)).
Definition sput (f : fat_field) (v : Z) (m : mem) : mem := st_dword m (FAT_SUPER + 4 * field_no f) v.
Definition get (f : fat_field) (s : fs) : Z := sget f (f_mem s).
Definition put (f : fat_field) (v : Z) (s : fs) : fs := set_fmem (sput f v (f_mem s)) s.

Definition FAT_MAX_12BIT_CLUST : Z := 4087.
Definition FAT_DIRENTRY_LENGTH : Z := 32.
Definition FS_MSDOS : Z := 8.

Definition IS_PC_SLICE_TYPE_FAT (type : Z) : bool :=
  let t := Z.land type (Z.lnot 0x10) in
  existsb (Z.eqb t) [0x01; 0x04; 0x06; 0x0e; 0x0b; 0x0c; 0xde].
Definition IS_PC_SLICE_TYPE_BSD_WITH_FS (type fs : Z) : bool :=
  existsb (Z.eqb type) [PC_SLICE_TYPE_FREEBSD .| (fs .<< 8); PC_SLICE_TYPE_OPENBSD .| (fs .<< 8); PC_SLICE_TYPE_NETBSD .| (fs .<< 8)].

(** The members of [struct fat_bpb] the code reads, in the structure at [a]. *)
Definition bytes_per_sect (m : mem) (a : Z) : Z := ld16 m (a + 11).
Definition bpb_sects_per_clust (m : mem) (a : Z) : Z := ld m (a + 13).
Definition reserved_sects (m : mem) (a : Z) : Z := ld16 m (a + 14).
Definition num_fats (m : mem) (a : Z) : Z := ld m (a + 16).
Definition dir_entries (m : mem) (a : Z) : Z := ld16 m (a + 17).
Definition short_sectors (m : mem) (a : Z) : Z := ld16 m (a + 19).
Definition media (m : mem) (a : Z) : Z := ld m (a + 21).
Definition bpb_fat_length (m : mem) (a : Z) : Z := ld16 m (a + 22).
Definition long_sectors (m : mem) (a : Z) : Z := ld32 m (a + 32).
Definition fat32_length (m : mem) (a : Z) : Z := ld32 m (a + 36).
Definition bpb_flags (m : mem) (a : Z) : Z := ld16 m (a + 40).
Definition bpb_root_cluster (m : mem) (a : Z) : Z := ld32 m (a + 44).
Definition BPB_SIZE : Z := 64.

Section Fat.
Variables (b : bios) (mem_lower mem_upper : Z).
(** The places of the local variables [bpb], [first_fat] and [dir_buf]. *)
Variables (bpb first_fat dir_buf : Z).

Abbreviation devread := (fs_devread b mem_lower mem_upper).

(** The assignments from [num_sectors] to [sects_per_clust]. *)
Definition fill_super (s : fs) : fs :=
  let m := f_mem s in
  let s := put sectsize_bits (log2 (bytes_per_sect m bpb)) s in
  let s := put clustsize_bits (get sectsize_bits s + log2 (bpb_sects_per_clust m bpb)) s in
  let s := put num_sectors (if negb (short_sectors m bpb =? 0) then short_sectors m bpb else long_sectors m bpb) s in
  let s := put fat_offset (reserved_sects m bpb) s in
  let s := put fat_length (if negb (bpb_fat_length m bpb =? 0) then bpb_fat_length m bpb else fat32_length m bpb) s in
  let s := put root_offset (get fat_offset s + num_fats m bpb * get fat_length s) s in
  let s := put root_max (FAT_DIRENTRY_LENGTH * dir_entries m bpb) s in
  let s := put data_offset (get root_offset s + ((get root_max s - 1) .>> get sectsize_bits s) + 1) s in
  let s := put num_clust (2 + Z.quot (get num_sectors s - get data_offset s) (bpb_sects_per_clust m bpb)) s in
  put sects_per_clust (bpb_sects_per_clust m bpb) s.

(** The kind of table: [false] when [fat_mount] returns 0. *)
Definition choose_kind (s : fs) : bool * fs :=
  let m := f_mem s in
  if bpb_fat_length m bpb =? 0
  then
    if negb (dir_entries m bpb =? 0) then (false, s)
    else
      let active_fat := bpb_flags m bpb .& 0x000f in
      if negb (bpb_flags m bpb .& 0x0080 =? 0) && (num_fats m bpb <=? active_fat) then (false, s)
      else
        let s := if negb (bpb_flags m bpb .& 0x0080 =? 0) then put fat_offset (get fat_offset s + active_fat * get fat_length s) s else s in
        let s := put fat_size 8 s in
        let s := put root_cluster (bpb_root_cluster m bpb) s in
        (true, put clust_eof_marker 0xffffff8 s)
  else
    if get root_max s =? 0 then (false, s)
    else
      let s := put root_cluster (-1) s in
      if FAT_MAX_12BIT_CLUST <? get num_clust s
      then (true, put clust_eof_marker 0xfff8 (put fat_size 4 s))
      else (true, put clust_eof_marker 0xff8 (put fat_size 3 s)).

(** The conditions that reject the volume. *)
Definition insane (s : fs) : bool :=
  let m := f_mem s in
  negb (bytes_per_sect m bpb =? 1 .<< get sectsize_bits s)
  || negb (bytes_per_sect m bpb =? SECTOR_SIZE)
  || negb (bpb_sects_per_clust m bpb =? 1 .<< (get clustsize_bits s - get sectsize_bits s))
  || (get num_clust s <=? 2)
  || (get fat_length s <? Z.quot (s32 (get fat_size s * get num_clust s)) (2 * SECTOR_SIZE)).

Definition fat_mount (s : fs) : option (Z * fs) :=
  if (negb (current_drive (f_dev s) .& 0x80 =? 0) || negb (type (f_part s) =? 0))
     && negb (IS_PC_SLICE_TYPE_FAT (type (f_part s)))
     && negb (IS_PC_SLICE_TYPE_BSD_WITH_FS (type (f_part s)) FS_MSDOS)
  then Some (0, s)
  else
    '(ok, s) ← devread 0 0 BPB_SIZE bpb s;
    if ok =? 0 then Some (0, s)
    else if bpb_sects_per_clust (f_mem s) bpb =? 0 then Some (0, s)
    else
      let '(ok, s) := choose_kind (fill_super s) in
      if negb ok then Some (0, s)
      else if insane s then Some (0, s)
      else
        '(ok, s) ← devread (get fat_offset s) 0 4 first_fat s;
        if ok =? 0 then Some (0, s)
        else
          let first := ld32 (f_mem s) first_fat in
          let '(first, magic) := if get fat_size s =? 8 then (first .& 0x0fffffff, 0x0fffff00)
                                 else if get fat_size s =? 4 then (first .& 0x0000ffff, 0xff00)
                                 else (first .& 0x00000fff, 0x0f00) in
          if negb (first .| 0x8 =? ((magic .| media (f_mem s) bpb) .| 0x8)) then Some (0, s)
          else Some (1, put cached_fat (-2 * FAT_CACHE_SIZE) s).

(** One turn of the loop that moves [current_cluster]; [Stop] is a [return]. *)
Inductive hop := Hop | Stop (ret : Z).

(** The entry at [fat_entry], counted in half bytes, is brought into the cache;
    what [devread] returned, and [cached_pos]. *)
Definition cache_entry (fat_entry : Z) (s : fs) : option (Z * Z * fs) :=
  let cached_pos := fat_entry - get cached_fat s in
  if (cached_pos <? 0) || (2 * FAT_CACHE_SIZE <? cached_pos + get fat_size s)
  then
    let s := put cached_fat (Z.land fat_entry (Z.lnot (2 * SECTOR_SIZE - 1))) s in
    let cached_pos := fat_entry - get cached_fat s in
    let sector := get fat_offset s + Z.quot (get cached_fat s) (2 * SECTOR_SIZE) in
    '(ok, s) ← devread sector 0 FAT_CACHE_SIZE FAT_BUF s;
    Some (ok, cached_pos, s)
  else Some (1, cached_pos, s).

(** The entry in the cache. *)
Definition cached_entry (size cached_pos : Z) (m : mem) : Z :=
  let next := s32 (ld32 m (FAT_BUF + (cached_pos .>> 1))) in
  if size =? 3 then (if negb (cached_pos .& 1 =? 0) then next .>> 4 else next) .& 0xFFF
  else if size =? 4 then next .& 0xFFFF else next.

Definition next_cluster (ret : Z) (s : fs) : option (hop * fs) :=
  '(ok, cached_pos, s) ← cache_entry (s32 (get current_cluster s * get fat_size s)) s;
  if ok =? 0 then Some (Stop 0, s)
  else
    let next := cached_entry (get fat_size s) cached_pos (f_mem s) in
    if get clust_eof_marker s <=? next then Some (Stop ret, s)
    else if (next <? 2) || (get num_clust s <=? next) then Some (Stop 0, set_ferr ERR_FSYS_CORRUPT s)
    else
      let s := put current_cluster next s in
      Some (Hop, put current_cluster_num (get current_cluster_num s + 1) s).

(** [while (logical_clust > current_cluster_num)]: one turn for each number. *)
Fixpoint hops (n : nat) (ret : Z) (s : fs) : option (hop * fs) :=
  match n with
  | O => Some (Hop, s)
  | S n' =>
      '(h, s) ← next_cluster ret s;
      match h with Stop _ => Some (h, s) | Hop => hops n' ret s end
  end.

(** [while (len > 0)]: a turn takes at least one byte. *)
Fixpoint read_clusters (fuel : nat) (logical_clust offset len buf ret : Z) (s : fs) : option (Z * fs) :=
  if negb (0 <? len) then Some (if decide (f_err s = ERR_NONE) then ret else 0, s)
  else
    match fuel with
    | O => None
    | S f =>
        '(h, s) ← hops (Z.to_nat (logical_clust - get current_cluster_num s)) ret s;
        match h with
        | Stop ret => Some (ret, s)
        | Hop =>
            let sector := get data_offset s + ((get current_cluster s - 2) .<< (get clustsize_bits s - get sectsize_bits s)) in
            let size := (1 .<< get clustsize_bits s) - offset in
            let size := if len <? size then len else size in
            '(_, s) ← hooked_devread b mem_lower mem_upper (s32 sector) offset size buf s;
            read_clusters f (logical_clust + 1) 0 (len - size) (buf + size) (ret + size) (set_pos (filepos s + size) s)
        end
    end.

Definition fat_read (buf len : Z) (s : fs) : option (Z * fs) :=
  if get file_cluster s <? 0
  then
    let size := get root_max s - filepos s in
    let size := if len <? size then len else size in
    '(ok, s) ← devread (get root_offset s) (filepos s) size buf s;
    if ok =? 0 then Some (0, s) else Some (size, set_pos (filepos s + size) s)
  else
    let logical_clust := filepos s .>> get clustsize_bits s in
    let offset := filepos s .& ((1 .<< get clustsize_bits s) - 1) in
    let s := if logical_clust <? get current_cluster_num s
             then put current_cluster (get file_cluster s) (put current_cluster_num 0 s) else s in
    read_clusters (Z.to_nat len) logical_clust offset len buf 0 s.
End Fat.

(** ** Specifications *)

(** A volume as its superblock describes it: the kind of its table, the first
    sectors of the table, the root directory (with its length in bytes, or its
    first cluster) and the clusters, the number of clusters plus two, and the
    size of a cluster in bits. *)
Inductive fat_kind := Fat12 | Fat16 | Fat32.

Record volume := Volume {
  v_kind : fat_kind; v_table : Z; v_root : Z; v_root_max : Z; v_root_cluster : Z; v_data : Z; v_clusters : Z; v_bits : Z }.

Definition kind_nibbles (k : fat_kind) : Z := match k with Fat12 => 3 | Fat16 => 4 | Fat32 => 8 end.
Definition kind_eof (k : fat_kind) : Z := match k with Fat12 => 0xff8 | Fat16 => 0xfff8 | Fat32 => 0xffffff8 end.

Section Volume.
Variable byte : Z -> Z.
Variable v : volume.

Definition cluster_size : Z := 2 ^ v_bits v.

(** Entry [n] of the allocation table. *)
Definition table_entry (n : Z) : Z :=
  let t := v_table v * 512 in
  match v_kind v with
  | Fat12 => let x := byte16 byte (t + 3 * n / 2) in if Z.even n then x mod 4096 else x / 16
  | Fat16 => byte16 byte (t + 2 * n)
  | Fat32 => byte32 byte (t + 4 * n)
  end.

(** The clusters of the file that starts with a cluster. *)
Inductive cluster_chain : Z -> list Z -> Prop :=
| chain_end c : 2 <= c < v_clusters v -> kind_eof (v_kind v) <= table_entry c < 2147483648 -> cluster_chain c [c]
| chain_link c l : 2 <= c < v_clusters v -> table_entry c < kind_eof (v_kind v) -> cluster_chain (table_entry c) l ->
    cluster_chain c (c :: l).

(** The byte at a place of the file, and the bytes that a read returns. *)
Definition chain_byte (l : list Z) (p : Z) : Z :=
  byte (v_data v * 512 + (nth (Z.to_nat (p / cluster_size)) l 0 - 2) * cluster_size + p mod cluster_size).

Definition available (size pos len : Z) : Z := Z.max 0 (Z.min len (size - pos)).

(** The volume lies in a partition of [length] sectors, and so do the sectors that
    the cache of the table reads after it. *)
Record volume_ok (length : Z) : Prop := {
  vo_table : 0 <= v_table v;
  vo_cache : v_table v * 1024 + v_clusters v * kind_nibbles (v_kind v) + 4096 <= length * 1024;
  vo_bits : 9 <= v_bits v <= 16;
  vo_data : 0 <= v_data v;
  vo_clusters : 2 < v_clusters v;
  vo_end : v_data v * 512 + (v_clusters v - 2) * cluster_size <= length * 512;
  vo_length : length < 4194296;
  vo_root : v_root_max v = 0 \/ (0 < v_root_max v /\ 0 <= v_root v /\ v_root v * 512 + v_root_max v <= length * 512) }.

Definition super_is (m : mem) : Prop :=
  sget fat_offset m = v_table v /\ sget fat_size m = kind_nibbles (v_kind v) /\ sget clust_eof_marker m = kind_eof (v_kind v) /\
  sget root_offset m = v_root v /\ sget root_max m = v_root_max v /\ sget root_cluster m = v_root_cluster v /\
  sget data_offset m = v_data v /\ sget num_clust m = v_clusters v /\
  sget sectsize_bits m = 9 /\ sget clustsize_bits m = v_bits v.

(** The cache of the table is empty or holds what it says. *)
Definition table_cached (m : mem) : Prop :=
  sget cached_fat m = -4096 \/
  (0 <= sget cached_fat m /\ (1024 | sget cached_fat m) /\
   forall i, 0 <= i < 2048 -> ld m (FAT_BUF + i) = byte (v_table v * 512 + sget cached_fat m / 2 + i)).

(** The position in the chain: a cluster of it, or that of a file just opened. *)
Definition in_chain (l : list Z) (m : mem) : Prop :=
  (0 <= sget current_cluster_num m /\ l !! Z.to_nat (sget current_cluster_num m) = Some (sget current_cluster m)) \/
  sget current_cluster_num m = MAXINT.
End Volume.

(** The memory of the table's cache and of the superblock. *)
Definition in_fat (a : Z) : Prop := FAT_BUF <= a < FAT_SUPER + 68.

(** ** Proofs *)

Lemma field_no_range f : 0 <= field_no f < 17.
Proof. by destruct f. Qed.

Lemma field_no_inj f g : field_no f = field_no g -> f = g.
Proof. by destruct f, g. Qed.

Lemma s32_u32 x : s32 (u32 x) = s32 x.
Proof. unfold s32, u32. dlia. Qed.

Lemma sget_sput f g x m : sget f (sput g x m) = if decide (f = g) then s32 x else sget f m.
Proof.
  unfold sget, sput. destruct (decide (f = g)) as [-> | Hne]; [by rewrite ld32_st_dword, s32_u32 |].
  rewrite ld32_st_dword_ne; [done |]. assert (field_no f <> field_no g) by (intros E; by apply Hne, field_no_inj). lia.
Qed.

Lemma sget_eq f x m : -2147483648 <= x < 2147483648 -> sget f (sput f x m) = x.
Proof. intros H. by rewrite sget_sput, decide_True, s32_small. Qed.

Lemma sget_ne f g x m : f <> g -> sget f (sput g x m) = sget f m.
Proof. intros H. by rewrite sget_sput, decide_False. Qed.

Lemma sget_frame f m m' : (forall a, FAT_SUPER <= a < FAT_SUPER + 68 -> ld m' a = ld m a) -> sget f m' = sget f m.
Proof. intros H. unfold sget. pose proof (field_no_range f). f_equal. apply ld32_frame. intros a Ha. apply H. lia. Qed.

Lemma ld_sput f x m a : ~ (FAT_SUPER <= a < FAT_SUPER + 68) -> ld (sput f x m) a = ld m a.
Proof. intros H. apply ld_st_dword. pose proof (field_no_range f). lia. Qed.

(** A change of the position or of the cache leaves the description. *)
Lemma super_is_sput v f x m : f = cached_fat \/ f = current_cluster_num \/ f = current_cluster \/ f = file_cluster ->
  super_is v m -> super_is v (sput f x m).
Proof. unfold super_is. intros Hf H. rewrite !sget_ne by (by destruct Hf as [-> | [-> | [-> | ->]]]). done. Qed.

Lemma super_is_frame v m m' : (forall a, FAT_SUPER <= a < FAT_SUPER + 68 -> ld m' a = ld m a) -> super_is v m -> super_is v m'.
Proof. unfold super_is. intros Hf H. rewrite !(sget_frame _ m m') by done. done. Qed.

Lemma kind_nibbles_range k : 3 <= kind_nibbles k <= 8.
Proof. by destruct k. Qed.

Lemma land_even x : x .& 1 = x mod 2.
Proof. change 1 with (Z.ones 1). by rewrite Z.land_ones. Qed.

Lemma entry_12 a x : 0 <= a < 65536 -> s32 (a + 65536 * x) .& 0xFFF = a mod 4096 /\ (s32 (a + 65536 * x) .>> 4) .& 0xFFF = a / 16.
Proof.
  intros Ha. change 0xFFF with (Z.ones 12). rewrite !Z.land_ones, Z.shiftr_div_pow2 by lia.
  change (2 ^ 12) with 4096. change (2 ^ 4) with 16. unfold s32. split; dlia.
Qed.

Lemma entry_16 a x : 0 <= a < 65536 -> s32 (a + 65536 * x) .& 0xFFFF = a.
Proof. intros Ha. change 0xFFFF with (Z.ones 16). rewrite Z.land_ones by lia. change (2 ^ 16) with 65536. unfold s32. dlia. Qed.

Lemma ld32_at m a p :
  ld32 m (a + p) = ld m (a + p) + 256 * ld m (a + (p + 1)) + 65536 * (ld m (a + (p + 2)) + 256 * ld m (a + (p + 3))).
Proof. unfold ld32, ld16. rewrite <- !(Z.add_assoc a). by rewrite <- !(Z.add_assoc p). Qed.

(** The entry in the cache is that of the table. *)
Lemma cached_entry_value byte v m c cf :
  (forall x, 0 <= byte x < 256) -> 0 <= cf -> (1024 | cf) -> 0 <= c ->
  (forall i, 0 <= i < 2048 -> ld m (FAT_BUF + i) = byte (v_table v * 512 + cf / 2 + i)) ->
  let cp := c * kind_nibbles (v_kind v) - cf in
  0 <= cp -> cp + kind_nibbles (v_kind v) <= 4096 ->
  cached_entry (kind_nibbles (v_kind v)) cp m
  = match v_kind v with Fat32 => s32 (table_entry byte v c) | _ => table_entry byte v c end.
Proof.
  intros Hb H0 [k Hk] Hc Hm cp Hcp Hend. unfold cached_entry.
  assert (forall i, 0 <= i < 2048 -> ld m (FAT_BUF + i) = byte (v_table v * 512 + 512 * k + i)) as Hm'.
  { intros i Hi. rewrite Hm by done. f_equal. subst cf. dlia. }
  set (p := cp / 2). assert (cp .>> 1 = p) as -> by (apply Z.shiftr_div_pow2; lia).
  assert (forall x, 0 <= byte x + 256 * byte (x + 1) < 65536) as H16 by (intros x; pose proof (Hb x); pose proof (Hb (x + 1)); lia).
  rewrite land_even, ld32_at. unfold table_entry. destruct (v_kind v); cbn [kind_nibbles Z.eqb Pos.eqb] in *.
  - rewrite (Hm' p), (Hm' (p + 1)) by (subst p; dlia).
    set (x := v_table v * 512 + 512 * k + p). replace (v_table v * 512 + 512 * k + (p + 1)) with (x + 1) by (subst x; lia).
    destruct (entry_12 _ (ld m (FAT_BUF + (p + 2)) + 256 * ld m (FAT_BUF + (p + 3))) (H16 x)) as [E1 E2].
    assert (v_table v * 512 + 3 * c / 2 = x) as -> by (subst x p cp; dlia).
    assert (cp mod 2 = c mod 2) as -> by (subst cp cf; dlia). rewrite Zmod_even. unfold byte16.
    destruct (Z.even c); [exact E1 | exact E2].
  - rewrite (Hm' p), (Hm' (p + 1)) by (subst p; dlia).
    set (x := v_table v * 512 + 512 * k + p). replace (v_table v * 512 + 512 * k + (p + 1)) with (x + 1) by (subst x; lia).
    rewrite entry_16 by apply H16. unfold byte16. assert (v_table v * 512 + 2 * c = x) as -> by (subst x p cp; dlia). done.
  - rewrite !Hm' by (subst p cp cf; dlia).
    unfold byte32, byte16. assert (v_table v * 512 + 4 * c = v_table v * 512 + 512 * k + p) as -> by (subst p cp; dlia).
    rewrite <- !(Z.add_assoc (v_table v * 512 + 512 * k + p)), <- !(Z.add_assoc (v_table v * 512 + 512 * k)). done.
Qed.

(** *** Reading *)

Section Reading.
Context (b : bios) (mem_lower mem_upper drive part_start part_length : Z) (byte : Z -> Z)
        {R : PartReader b mem_lower mem_upper drive part_start part_length byte}.
Variable v : volume.
Hypothesis bytes_ok : forall x, 0 <= byte x < 256.
Hypothesis vol : volume_ok v part_length.
Hypothesis lower_memory : 512 <= mem_lower <= 1024.
Hypothesis upper_memory : 0 <= mem_upper < 4194304.

Abbreviation nibbles := (kind_nibbles (v_kind v)).
Abbreviation super_is := (super_is v).
Abbreviation table_cached := (table_cached byte v).

(** The open partition is this one; the superblock and the cache are those of the
    volume. *)
Record opened (s : fs) : Prop := {
  op_good : pr_good (f_disk s);
  op_drive : current_drive (f_dev s) = drive;
  op_start : start (f_part s) = part_start;
  op_length : len (f_part s) = part_length }.

Record mounted (s : fs) : Prop := {
  mo_opened : opened s;
  mo_super : super_is (f_mem s);
  mo_table : table_cached (f_mem s) }.

Lemma opened_disk d s : opened s -> pr_good d -> opened (set_fdisk d s).
Proof. intros [] G. by constructor. Qed.

Lemma fs_devread_ok s sector byte_offset byte_len buf : opened s ->
  target_ok mem_lower mem_upper buf byte_len -> 0 <= sector < 1073741824 -> 0 <= byte_offset -> 0 < byte_len ->
  byte_offset + byte_len < 2147479552 -> sector * 512 + byte_offset + byte_len <= part_length * 512 ->
  exists d, fs_devread b mem_lower mem_upper sector byte_offset byte_len buf s = Some (1, set_fdisk d s) /\ opened (set_fdisk d s) /\
    (forall i, 0 <= i < byte_len -> ld (d_mem d) (buf + i) = byte (sector * 512 + byte_offset + i)) /\
    (forall a, ~ in_buffer a -> ~ (buf <= a < buf + byte_len) -> ld (d_mem d) a = ld (f_mem s) a).
Proof.
  intros M Ht H1 H2 H3 H4 H5. unfold fs_devread. rewrite (op_drive _ M), (op_start _ M), (op_length _ M).
  destruct (pr_read (f_disk s) sector byte_offset byte_len buf (op_good _ M) Ht H1 H2 H3 H4 H5) as (d & -> & G & B & F).
  exists d. split; [done |]. split; [by apply opened_disk | done].
Qed.

Lemma super_in_fat a : FAT_SUPER <= a < FAT_SUPER + 68 -> in_fat a.
Proof. unfold in_fat, FAT_BUF, FAT_SUPER. lia. Qed.

Lemma buf_in_fat a : FAT_BUF <= a < FAT_BUF + FAT_CACHE_SIZE -> in_fat a /\ ~ (FAT_SUPER <= a < FAT_SUPER + 68).
Proof. unfold in_fat, FAT_BUF, FAT_SUPER, FAT_CACHE_SIZE. lia. Qed.

Lemma fat_apart a : in_buffer a -> ~ in_fat a.
Proof. unfold in_buffer, in_fat, BUFFERADDR, BUFFERLEN, FAT_BUF, FAT_SUPER, FSYS_BUF. lia. Qed.

Lemma fat_buf_target : target_ok mem_lower mem_upper FAT_BUF FAT_CACHE_SIZE.
Proof.
  constructor; [lia | lia | left | done |]; unfold FAT_BUF, FSYS_BUF, FAT_CACHE_SIZE; [lia |].
  intros a Ha Hb. apply (fat_apart a Hb). unfold in_fat, FAT_BUF, FAT_SUPER, FSYS_BUF. lia.
Qed.

Lemma opened_put f x s : opened s -> opened (put f x s).
Proof.
  intros O. apply opened_disk; [done |]. apply pr_write; [apply O |]. intros a Ha. apply ld_sput. intros Hs. by apply (fat_apart a Ha), super_in_fat.
Qed.

Lemma not_super a : ~ in_fat a -> ~ (FAT_SUPER <= a < FAT_SUPER + 68).
Proof. intros H Ha. by apply H, super_in_fat. Qed.

Lemma cluster_size_range : 512 <= cluster_size v <= 65536 /\ (512 | cluster_size v).
Proof.
  pose proof (vo_bits _ _ vol). unfold cluster_size. replace (v_bits v) with (9 + (v_bits v - 9)) by lia.
  rewrite Z.pow_add_r by lia. change (2 ^ 9) with 512.
  pose proof (Z.pow_le_mono_r 2 (v_bits v - 9) 7). pose proof (Z.pow_pos_nonneg 2 (v_bits v - 9)). split; [lia |]. exists (2 ^ (v_bits v - 9)). lia.
Qed.

Lemma clusters_few : v_clusters v < 4194306.
Proof. pose proof cluster_size_range. pose proof (vo_end _ _ vol). pose proof (vo_length _ _ vol). pose proof (vo_data _ _ vol). nia. Qed.

(** The sectors of the cache of an entry are in the partition. *)
Lemma cache_sector c : 2 <= c < v_clusters v ->
  let cf := Z.land (c * nibbles) (Z.lnot 1023) in
  0 <= cf < 2147483648 /\ 0 <= v_table v + cf / 1024 /\ (1024 | cf) /\ cf <= c * nibbles < cf + 1024 /\ (v_table v + cf / 1024) * 512 + 2048 <= part_length * 512 /\
  v_table v + cf / 1024 < 4194304 /\ c * nibbles + nibbles < 1073741824 * 2.
Proof.
  intros Hc cf. pose proof (kind_nibbles_range (v_kind v)). pose proof clusters_few. destruct vol.
  assert (0 <= c * nibbles) by nia. assert (c * nibbles + nibbles <= v_clusters v * nibbles) by nia.
  assert (cf = c * nibbles / 1024 * 1024) as E.
  { subst cf. change 1023 with (Z.ones 10). rewrite <- Z.ldiff_land, Z.ldiff_ones_r, Z.shiftr_div_pow2, Z.shiftl_mul_pow2 by lia. done. }
  assert (cf / 1024 = c * nibbles / 1024) as E' by (rewrite E; apply Z.div_mul; done).
  rewrite E'. clearbody cf. subst cf. assert (c * nibbles + nibbles < 2147483648) by nia. set (x := c * nibbles) in *. clearbody x.
  split_and!; try (dlia || lia). by eexists.
Qed.

Lemma cache_entry_ok s c : mounted s -> 2 <= c < v_clusters v ->
  exists d, cache_entry b mem_lower mem_upper (c * nibbles) s = Some (1, c * nibbles - sget cached_fat (d_mem d), set_fdisk d s) /\
    mounted (set_fdisk d s) /\
    (forall f, f <> cached_fat -> sget f (d_mem d) = sget f (f_mem s)) /\
    (forall a, ~ in_buffer a -> ~ in_fat a -> ld (d_mem d) a = ld (f_mem s) a) /\
    cached_entry nibbles (c * nibbles - sget cached_fat (d_mem d)) (d_mem d)
    = match v_kind v with Fat32 => s32 (table_entry byte v c) | _ => table_entry byte v c end.
Proof.
  intros M Hc. unfold cache_entry. pose proof (mo_super _ M) as (S1 & S2 & _).
  pose proof (kind_nibbles_range (v_kind v)) as Hn. pose proof (cache_sector c Hc) as (C1 & C0 & C2 & C3 & C4 & C5 & C6).
  unfold get. rewrite S2. change (2 * FAT_CACHE_SIZE) with 4096.
  destruct ((_ <? 0) || (4096 <? _)) eqn:Miss.
  - change (2 * SECTOR_SIZE - 1) with 1023. change (2 * SECTOR_SIZE) with 1024. set (cf := Z.land (c * nibbles) (Z.lnot 1023)) in *.
    unfold put. change (f_mem (set_fmem ?m s)) with m. rewrite sget_eq, sget_ne by (done || lia). rewrite S1, Z.quot_div_nonneg by lia.
    pose (s1 := put cached_fat cf s).
    destruct (fs_devread_ok s1 (v_table v + cf / 1024) 0 FAT_CACHE_SIZE FAT_BUF) as (d & E & O & B & F);
      [by apply opened_put, mo_opened | apply fat_buf_target | unfold FAT_CACHE_SIZE; lia.. |].
    unfold s1, put in E. rewrite E. cbn [mbind option_bind]. change (set_fdisk d (set_fmem ?m s)) with (set_fdisk d s).
    assert (forall f, sget f (d_mem d) = sget f (sput cached_fat cf (f_mem s))) as Hs.
    { intros f. apply sget_frame. intros a Ha. apply F.
      - intros Hb. by apply (fat_apart a Hb), super_in_fat.
      - intros Hb. by apply (buf_in_fat a Hb). }
    exists d. rewrite (Hs cached_fat), sget_eq by lia. split; [done |].
    assert (forall i, 0 <= i < 2048 -> ld (d_mem d) (FAT_BUF + i) = byte (v_table v * 512 + cf / 2 + i)) as Hd.
    { intros i Hi. rewrite B by done. f_equal. destruct C2 as [k ->]. dlia. }
    split_and!.
    + constructor; [exact O | |].
      * unfold super_is, GrubFat.super_is. change (f_mem (set_fdisk d s)) with (d_mem d). rewrite !Hs. apply super_is_sput; [by left | apply M].
      * right. change (f_mem (set_fdisk d s)) with (d_mem d). rewrite Hs, sget_eq by lia. by split; [lia |].
    + intros f Hf. by rewrite Hs, sget_ne.
    + intros a Ha Hfa. rewrite F; [| done |].
      * apply ld_sput. by apply not_super.
      * intros Hb. by apply Hfa, (buf_in_fat a Hb).
    + apply cached_entry_value; done || lia.
  - exists (f_disk s). change (set_fdisk (f_disk s) s) with (set_fdisk (f_disk s) s).
    assert (set_fdisk (f_disk s) s = s) as -> by by destruct s. split; [done |]. split; [done |]. split; [done |]. split; [done |].
    apply orb_false_iff in Miss as [M1%Z.ltb_ge M2%Z.ltb_ge].
    destruct (mo_table _ M) as [Ec | (T1 & T2 & T3)]; [rewrite Ec in M2; lia |].
    apply cached_entry_value; done || lia.
Qed.

(** *** Along the chain *)

Abbreviation cluster_chain := (cluster_chain byte v).

Lemma cluster_chain_step first l (i : nat) c : cluster_chain first l -> l !! i = Some c ->
  2 <= c < v_clusters v /\
  match l !! S i with
  | Some c' => c' = table_entry byte v c /\ 2 <= c' < v_clusters v /\ c' < kind_eof (v_kind v)
  | None => kind_eof (v_kind v) <= table_entry byte v c < 2147483648
  end.
Proof.
  intros H. revert i. induction H as [c0 Hc He | c0 l Hc He H IH]; intros i Hi.
  - destruct i as [|i]; [| done]. cbn in Hi. injection Hi as <-. done.
  - destruct i as [|i]; [| by apply IH]. cbn in Hi. injection Hi as <-. split; [done |]. cbn [lookup list_lookup].
    inversion H; subst; cbn; (split; [done |]; split; [done |]; done).
Qed.

Lemma cluster_chain_head first l : cluster_chain first l -> l !! 0%nat = Some first.
Proof. by intros []. Qed.

(** A file of the volume is open at a cluster of its chain. *)
Record at_cluster (first : Z) (l : list Z) (i : nat) (s : fs) : Prop := {
  ac_mounted : mounted s;
  ac_first : sget file_cluster (f_mem s) = first;
  ac_no : sget current_cluster_num (f_mem s) = Z.of_nat i;
  ac_cluster : l !! i = Some (sget current_cluster (f_mem s)) }.

(** Only the cache, the superblock and the track buffer changed. *)
Definition only_fat (m m' : mem) : Prop := forall a, ~ in_buffer a -> ~ in_fat a -> ld m' a = ld m a.

Lemma mounted_put f x s : f = current_cluster_num \/ f = current_cluster \/ f = file_cluster -> mounted s -> mounted (put f x s).
Proof.
  intros Hf M. constructor.
  - by apply opened_put, mo_opened.
  - apply super_is_sput; [by right | apply M].
  - change (f_mem (put f x s)) with (sput f x (f_mem s)). unfold table_cached, GrubFat.table_cached.
    rewrite !sget_ne by (by destruct Hf as [-> | [-> | ->]]).
    destruct (mo_table _ M) as [T | (T1 & T2 & T3)]; [by left | right]. split_and!; [done | done |].
    intros i Hi. rewrite ld_sput; [by apply T3 |]. apply buf_in_fat. unfold FAT_CACHE_SIZE. lia.
Qed.

Lemma only_fat_put f x m : only_fat m (sput f x m).
Proof. intros a _ Ha. apply ld_sput. by apply not_super. Qed.

Lemma next_cluster_ok first l i ret s : cluster_chain first l -> at_cluster first l i s -> Z.of_nat i < MAXINT ->
  exists d, next_cluster b mem_lower mem_upper ret s = Some (match l !! S i with Some _ => Hop | None => Stop ret end, set_fdisk d s) /\
    at_cluster first l (match l !! S i with Some _ => S i | None => i end) (set_fdisk d s) /\ only_fat (f_mem s) (d_mem d).
Proof.
  intros Hch [M Hf Hn Hc] Hi. destruct (cluster_chain_step _ _ _ _ Hch Hc) as [Hcr Hstep].
  unfold next_cluster, get. pose proof (mo_super _ M) as (_ & -> & _).
  set (c := sget current_cluster (f_mem s)) in *. pose proof (kind_nibbles_range (v_kind v)) as Hk.
  rewrite s32_small by (pose proof clusters_few; nia).
  destruct (cache_entry_ok s c M Hcr) as (d & -> & Md & Hs & Hfr & Hv). cbn [mbind option_bind Z.eqb].
  pose proof (mo_super _ Md) as (_ & Q1 & Q2 & _ & _ & _ & _ & Q3 & _). change (f_mem (set_fdisk d s)) with (d_mem d) in *.
  rewrite Q1, Q2, Q3, Hv. pose proof clusters_few.
  assert (kind_eof (v_kind v) < 2147483648) as Hke by by destruct (v_kind v).
  assert ((match v_kind v with Fat32 => s32 (table_entry byte v c) | _ => table_entry byte v c end) = table_entry byte v c) as ->.
  { destruct (l !! S i); destruct (v_kind v); try done; cbn [kind_eof] in *; apply s32_small; lia. }
  destruct (l !! S i) as [c' |] eqn:El.
  - destruct Hstep as (E & Hcr' & Heof). rewrite <- E. rewrite (proj2 (Z.leb_gt _ _)) by lia.
    rewrite (proj2 (Z.ltb_ge _ _)), (proj2 (Z.leb_gt _ _)) by lia. cbn [orb].
    eexists. split; [unfold put; reflexivity |]. split.
    + constructor.
      * apply (mounted_put current_cluster_num _ (put current_cluster c' (set_fdisk d s))); [by left |]. apply mounted_put; [by right; left | done].
      * unfold f_mem. cbn. rewrite !sget_ne by done. by rewrite Hs.
      * unfold f_mem. cbn. rewrite sget_eq; rewrite sget_ne by done; unfold f_mem; cbn; rewrite Hs by done; unfold MAXINT in Hi; lia.
      * unfold f_mem. cbn. rewrite sget_ne by done. rewrite sget_eq by lia. done.
    + intros a H1 H2. cbn. rewrite !ld_sput by (by apply not_super). by apply Hfr.
  - rewrite (proj2 (Z.leb_le _ _)) by lia. exists d. split; [done |]. split; [| done].
    constructor; change (f_mem (set_fdisk d s)) with (d_mem d); rewrite ?Hs by done; done.
Qed.

Lemma hops_ok first l ret n : forall i s, cluster_chain first l -> at_cluster first l i s -> Z.of_nat (length l) <= MAXINT ->
  exists d, hops b mem_lower mem_upper n ret s = Some (if (i + n <? length l)%nat then Hop else Stop ret, set_fdisk d s) /\
    at_cluster first l (Nat.min (i + n) (length l - 1)) (set_fdisk d s) /\ only_fat (f_mem s) (d_mem d).
Proof.
  induction n as [|n IH]; intros i s Hch Hat Hlen; pose proof (lookup_lt_Some _ _ _ (ac_cluster _ _ _ _ Hat)) as Hi.
  - exists (f_disk s). assert (set_fdisk (f_disk s) s = s) as -> by by destruct s. rewrite Nat.add_0_r, (proj2 (Nat.ltb_lt _ _)) by done.
    rewrite Nat.min_l by lia. done.
  - cbn [hops]. destruct (next_cluster_ok first l i ret s Hch Hat ltac:(lia)) as (d & -> & A & F). cbn [mbind option_bind].
    destruct (l !! S i) eqn:El.
    + destruct (IH (S i) (set_fdisk d s) Hch A Hlen) as (d' & -> & A' & F'). exists d'.
      change (set_fdisk d' (set_fdisk d s)) with (set_fdisk d' s) in *. replace (i + S n)%nat with (S i + n)%nat by lia.
      split; [done |]. split; [done |]. intros a H1 H2. rewrite F' by done. by apply F.
    + apply lookup_ge_None in El. exists d. rewrite (proj2 (Nat.ltb_ge _ _)) by lia.
      rewrite Nat.min_r by lia. replace (length l - 1)%nat with i by lia. done.
Qed.

(** A chain does not come back to a cluster, so it is not longer than the volume. *)
Lemma cluster_chain_fun c l : cluster_chain c l -> forall l', cluster_chain c l' -> l = l'.
Proof.
  induction 1 as [c Hc He | c l Hc He H IH]; intros l' H'; inversion H'; subst; try lia; [done |]. f_equal. by apply IH.
Qed.

Lemma cluster_chain_suffix c l (i : nat) x : cluster_chain c l -> l !! i = Some x -> cluster_chain x (drop i l).
Proof.
  intros H. revert i. induction H as [c Hc He | c l Hc He H IH]; intros [|i] Hi; cbn in Hi; try done.
  - injection Hi as <-. by constructor.
  - injection Hi as <-. by constructor.
  - by apply IH.
Qed.

Lemma cluster_chain_nodup c l : cluster_chain c l -> NoDup l.
Proof.
  intros H. induction H as [c Hc He | c l Hc He H IH]; [by apply NoDup_singleton |]. apply NoDup_cons_2; [| done].
  intros [i Hi]%list_elem_of_lookup.
  assert (cluster_chain c (c :: l)) as Hcl by by constructor.
  pose proof (cluster_chain_suffix _ _ _ _ H Hi) as Hs. pose proof (cluster_chain_fun _ _ Hcl _ Hs) as E.
  apply (f_equal length) in E. rewrite length_drop in E. cbn in E. lia.
Qed.

Lemma cluster_chain_length c l : cluster_chain c l -> Z.of_nat (length l) <= v_clusters v - 2.
Proof.
  intros H. pose proof (vo_clusters _ _ vol).
  assert (length l <= length (seqZ 2 (v_clusters v - 2)))%nat as Hl; [| rewrite length_seqZ in Hl; lia].
  apply submseteq_length, NoDup_submseteq; [by eapply cluster_chain_nodup |]. intros x [i Hi]%list_elem_of_lookup.
  apply elem_of_seqZ. destruct (cluster_chain_step _ _ _ _ H Hi). lia.
Qed.

(** *** The data *)

(** A place for what is read, apart from the table's cache. *)
Definition place_ok (buf len : Z) : Prop := target_ok mem_lower mem_upper buf len /\ forall a, buf <= a < buf + len -> ~ in_fat a.

Lemma place_part buf len n : place_ok buf len -> 0 <= n <= len -> place_ok buf n /\ place_ok (buf + n) (len - n).
Proof.
  intros [[T1 T2 T3 T4 T5] Hf] Hn. split; (split; [constructor; try done |]); try (intros a Ha; (apply T5 || apply Hf); lia); try lia.
  - unfold mem_ok in *. lia.
  - unfold mem_ok in *. lia.
Qed.

Definition moved (n : Z) (s s' : fs) : Prop := exists d h a b, s' = set_pos (filepos s + n) (set_hook h (set_maps a b (set_fdisk d s))).

(** Without a change of the static variables. *)
Lemma moved_intro n s d h : moved n s (set_pos (filepos s + n) (set_hook h (set_fdisk d s))).
Proof. exists d, h, (mapblock1 s), (mapblock2 s). done. Qed.

Lemma moved_trans n k s1 s2 s3 : moved n s1 s2 -> moved k s2 s3 -> moved (n + k) s1 s3.
Proof. intros (d & h & x & y & ->) (d' & h' & x' & y' & ->). exists d', h', x', y'. unfold set_pos. cbn. by rewrite Z.add_assoc. Qed.

Lemma hooked_devread_ok s sector byte_offset byte_len buf : opened s ->
  target_ok mem_lower mem_upper buf byte_len -> 0 <= sector < 1073741824 -> 0 <= byte_offset -> 0 < byte_len ->
  byte_offset + byte_len < 2147479552 -> sector * 512 + byte_offset + byte_len <= part_length * 512 ->
  exists d h, hooked_devread b mem_lower mem_upper sector byte_offset byte_len buf s = Some (1, set_hook h (set_fdisk d s)) /\
    opened (set_hook h (set_fdisk d s)) /\
    (forall i, 0 <= i < byte_len -> ld (d_mem d) (buf + i) = byte (sector * 512 + byte_offset + i)) /\
    (forall a, ~ in_buffer a -> ~ (buf <= a < buf + byte_len) -> ld (d_mem d) a = ld (f_mem s) a).
Proof.
  intros O Ht H1 H2 H3 H4 H5. unfold hooked_devread.
  destruct (fs_devread_ok (set_fdisk (set_reads (disk_read_hook s) (f_disk s)) s) sector byte_offset byte_len buf) as (d & -> & O' & B & F);
    try done; [by apply opened_disk, pr_reads, op_good |].
  cbn [mbind option_bind]. exists (set_reads None d), (disk_read_func d). split; [done |]. split; [| done].
  destruct O' as [G D1 D2 D3]. constructor; [by apply (pr_reads _ None) in G | done..].
Qed.

Abbreviation cs := (cluster_size v).

Lemma cluster_sector c : 2 <= c < v_clusters v ->
  let sector := v_data v + ((c - 2) .<< (v_bits v - 9)) in
  sector * 512 = v_data v * 512 + (c - 2) * cs /\ 0 <= sector < 4194304 /\ sector * 512 + cs <= part_length * 512.
Proof.
  intros Hc sector. pose proof cluster_size_range as [Hs _]. destruct vol.
  assert (cs = 2 ^ (v_bits v - 9) * 512) as E.
  { unfold cluster_size. replace (v_bits v) with (v_bits v - 9 + 9) at 1 by lia. rewrite Z.pow_add_r by lia. done. }
  subst sector. rewrite Z.shiftl_mul_pow2 by lia. set (q := 2 ^ (v_bits v - 9)) in *. clearbody q. rewrite E in *. split_and!; nia.
Qed.

(** What a read does to the state and to memory. *)
Record reads (first : Z) (l : list Z) (buf len : Z) (n : Z) (s s' : fs) : Prop := {
  rd_moved : moved n s s';
  rd_at : exists j, at_cluster first l j s';
  rd_bytes : forall x, 0 <= x < n -> ld (f_mem s') (buf + x) = chain_byte byte v l (filepos s + x);
  rd_frame : forall a, ~ in_buffer a -> ~ in_fat a -> ~ (buf <= a < buf + len) -> ld (f_mem s') a = ld (f_mem s) a }.

Lemma moved_0 d s : moved 0 s (set_fdisk d s).
Proof. exists d, (disk_read_hook s), (mapblock1 s), (mapblock2 s). rewrite Z.add_0_r. by destruct s. Qed.

(** One cluster of a read. *)
Lemma read_cluster_ok first l i s c offset size buf : cluster_chain first l -> at_cluster first l i s -> l !! i = Some c ->
  0 <= offset -> 0 < size -> offset + size <= cs -> filepos s = Z.of_nat i * cs + offset -> place_ok buf size ->
  let sector := get data_offset s + ((get current_cluster s - 2) .<< (get clustsize_bits s - get sectsize_bits s)) in
  exists s', hooked_devread b mem_lower mem_upper (s32 sector) offset size buf s = Some (1, s') /\
    filepos s' = filepos s /\ reads first l buf size size s (set_pos (filepos s' + size) s') /\ at_cluster first l i (set_pos (filepos s' + size) s').
Proof.
  intros Hch [M Hf Hn Hc] Hi Ho Hs Hos Hp [Ht Hfat] sector. rewrite Hi in Hc. injection Hc as Hc.
  destruct (cluster_chain_step _ _ _ _ Hch Hi) as [Hcr _]. destruct (cluster_sector c Hcr) as (E1 & E2 & E3).
  pose proof (mo_super _ M) as (_ & _ & _ & _ & _ & _ & Q1 & _ & Q2 & Q3). pose proof cluster_size_range as [Hcs _].
  assert (sector = v_data v + ((c - 2) .<< (v_bits v - 9))) as -> by (subst sector; unfold get; by rewrite Q1, Q2, Q3, <- Hc).
  rewrite s32_small by lia. set (sec := v_data v + ((c - 2) .<< (v_bits v - 9))) in *.
  destruct (hooked_devread_ok s sec offset size buf (mo_opened _ M) Ht) as (d & h & -> & O & B & F); try lia.
  exists (set_hook h (set_fdisk d s)). split; [done |]. split; [done |].
  set (s' := set_pos _ _). assert (forall f, sget f (f_mem s') = sget f (f_mem s)) as Hget.
  { intros f. apply sget_frame. intros a Ha. apply F; [intros Hb; by apply (fat_apart a Hb), super_in_fat |].
    intros Hb. by apply (Hfat a Hb), super_in_fat. }
  assert (at_cluster first l i s') as A.
  { constructor; rewrite ?Hget; try done; [| by rewrite Hi, Hc].
    constructor.
    - destruct O. by constructor.
    - unfold super_is, GrubFat.super_is. rewrite !Hget. apply M.
    - unfold table_cached, GrubFat.table_cached. rewrite Hget. destruct (mo_table _ M) as [T | (T1 & T2 & T3)]; [by left | right].
      split; [done |]. split; [done |]. intros x Hx. rewrite <- T3 by done.
      destruct (buf_in_fat (FAT_BUF + x)) as [Hb _]; [unfold FAT_CACHE_SIZE; lia |].
      apply F; [intros Hb'; by apply (fat_apart _ Hb') | intros Hb'; by apply (Hfat _ Hb')]. }
  split; [| done]. constructor.
  - apply (moved_intro size s d h).
  - by exists i.
  - intros x Hx. change (f_mem s') with (d_mem d). rewrite B by done. unfold chain_byte. rewrite Hp.
    replace (Z.of_nat i * cs + offset + x) with ((offset + x) + Z.of_nat i * cs) by lia.
    rewrite Z.div_add, Z.mod_add by lia. rewrite Z.div_small, Z.mod_small by lia. rewrite Z.add_0_l, Nat2Z.id.
    rewrite (nth_lookup_Some _ _ _ _ Hi). f_equal. lia.
  - intros a H1 H2 H3. by apply F.
Qed.

Lemma reads_trans first l buf len n k s1 s2 s3 : 0 <= n -> n <= len -> (forall a, buf <= a < buf + len -> ~ in_buffer a /\ ~ in_fat a) ->
  reads first l buf n n s1 s2 -> reads first l (buf + n) (len - n) k s2 s3 -> reads first l buf len (n + k) s1 s3.
Proof.
  intros H0 Hn Hapart [M1 A1 B1 F1] [M2 A2 B2 F2]. constructor.
  - by eapply moved_trans.
  - done.
  - intros x Hx. destruct M1 as (d & h & u & w & ->). destruct (decide (x < n)).
    + destruct (Hapart (buf + x) ltac:(lia)). rewrite F2 by (done || lia). apply B1. lia.
    + replace (buf + x) with (buf + n + (x - n)) by lia. rewrite B2 by lia. cbn. f_equal. lia.
  - intros a Ha1 Ha2 Ha3. rewrite F2 by (done || lia). apply F1; done || lia.
Qed.

Lemma reads_hop first l buf len n d s s' : only_fat (f_mem s) (d_mem d) -> reads first l buf len n (set_fdisk d s) s' -> reads first l buf len n s s'.
Proof.
  intros F [(d' & h & u & w & ->) A B Fr]. constructor; [by exists d', h, u, w | done | done |].
  intros a H1 H2 H3. rewrite Fr by done. by apply F.
Qed.

Lemma reads_none first l i buf len d s : only_fat (f_mem s) (d_mem d) -> at_cluster first l i (set_fdisk d s) ->
  reads first l buf len 0 s (set_fdisk d s).
Proof. intros F A. constructor; [apply moved_0 | by exists i | intros x Hx; lia | intros a H1 H2 _; by apply F]. Qed.

Lemma read_clusters_end fuel k offset buf ret s : opened s -> read_clusters b mem_lower mem_upper fuel k offset 0 buf ret s = Some (ret, s).
Proof.
  intros O. assert (f_err s = ERR_NONE) as E by (apply pr_no_error, op_good, O).
  destruct fuel; cbn [read_clusters]; change (0 <? 0) with false; cbn [negb]; by rewrite decide_True.
Qed.

Lemma read_clusters_ok fuel : forall s first l i k offset len buf ret, cluster_chain first l -> at_cluster first l i s -> (i <= k)%nat ->
  0 <= offset < cs -> 0 <= len -> (Z.to_nat len <= fuel)%nat -> filepos s = Z.of_nat k * cs + offset -> place_ok buf len ->
  let n := available (Z.of_nat (length l) * cs) (filepos s) len in
  exists s', read_clusters b mem_lower mem_upper fuel (Z.of_nat k) offset len buf ret s = Some (ret + n, s') /\ reads first l buf len n s s'.
Proof.
  induction fuel as [|fuel IH]; intros s first l i k offset len buf ret Hch A Hik Ho Hl Hf Hp Hb n.
  all: destruct (decide (len = 0)) as [-> | Hnz].
  1, 3: rewrite read_clusters_end by (apply (mo_opened _ (ac_mounted _ _ _ _ A)));
    replace n with 0 by (subst n; unfold available; lia); rewrite Z.add_0_r; exists s; (split; [done |]);
    pose proof (reads_none first l i buf 0 (f_disk s) s) as Rn; replace (set_fdisk (f_disk s) s) with s in Rn by (by destruct s); by apply Rn.
  { lia. }
  cbn [read_clusters]. rewrite (proj2 (Z.ltb_lt 0 len)) by lia. cbn [negb].
  pose proof (cluster_chain_length _ _ Hch) as Hlen. pose proof clusters_few. pose proof cluster_size_range as [Hcs _].
  assert (get current_cluster_num s = Z.of_nat i) as -> by apply A. replace (Z.to_nat (Z.of_nat k - Z.of_nat i)) with (k - i)%nat by lia.
  destruct (hops_ok first l ret (k - i) i s Hch A ltac:(unfold MAXINT; lia)) as (d & -> & A' & F). cbn [mbind option_bind].
  replace (i + (k - i))%nat with k in * by lia. pose proof (lookup_lt_Some _ _ _ (ac_cluster _ _ _ _ A)) as Hi.
  destruct (Nat.ltb_spec k (length l)) as [Hk | Hk].
  2: { replace n with 0 by (subst n; unfold available; nia). rewrite Z.add_0_r. exists (set_fdisk d s). split; [done |]. by eapply reads_none. }
  rewrite Nat.min_l in A' by lia. destruct (lookup_lt_is_Some_2 l k Hk) as [c Hc].
  set (s1 := set_fdisk d s) in *.
  assert (1 .<< get clustsize_bits s1 = cs) as Ecs.
  { unfold get. pose proof (mo_super _ (ac_mounted _ _ _ _ A')) as (_ & _ & _ & _ & _ & _ & _ & _ & _ & ->).
    rewrite Z.shiftl_mul_pow2 by (pose proof (vo_bits _ _ vol); lia). apply Z.mul_1_l. }
  rewrite Ecs. set (size := if len <? cs - offset then len else cs - offset).
  assert (0 < size <= len /\ offset + size <= cs /\ (size = len \/ offset + size = cs)) as (Hs1 & Hs2 & Hs3) by (subst size; zcase; lia).
  destruct (place_part buf len size Hb ltac:(lia)) as [Hb1 Hb2].
  destruct (read_cluster_ok first l k s1 c offset size buf Hch A' Hc) as (s2 & -> & Ep & R1 & A2); try done; try lia.
  cbn [mbind option_bind]. replace (Z.of_nat k + 1) with (Z.of_nat (S k)) by lia.
  set (s3 := set_pos (filepos s2 + size) s2) in *.
  assert (filepos s3 = filepos s + size) as E3 by (change (filepos s2 + size = filepos s + size); rewrite Ep; done).
  destruct (decide (size = len)) as [E | Hne].
  - rewrite E, Z.sub_diag in *. rewrite read_clusters_end by (apply (mo_opened _ (ac_mounted _ _ _ _ A2))).
    replace n with len by (subst n; unfold available; nia). exists s3. split; [done |]. by eapply reads_hop.
  - assert (offset + size = cs) as Eo by lia.
    destruct (IH s3 first l k (S k) 0 (len - size) (buf + size) (ret + size) Hch A2) as (s' & -> & R2); try lia; try done.
    set (n2 := available _ _ _) in R2 |- *. assert (n = size + n2) as -> by (subst n n2; rewrite E3; unfold available; nia).
    exists s'. split; [f_equal; f_equal; lia |]. eapply reads_hop; [done |].
    eapply reads_trans; [lia | lia | | exact R1 | exact R2]. intros a Ha. destruct Hb as [Ht Hfat]. split; [by apply (tg_apart _ _ _ _ Ht) | by apply Hfat].
Qed.

(** *** [fat_read] *)

(** A file that is open: its first cluster, its chain, and a position of the
    chain that is right or that of a file just opened. *)
Record opened_file (first : Z) (l : list Z) (s : fs) : Prop := {
  of_mounted : mounted s;
  of_first : sget file_cluster (f_mem s) = first;
  of_chain : cluster_chain first l;
  of_place : in_chain l (f_mem s) }.

Lemma at_opened first l i s : cluster_chain first l -> at_cluster first l i s -> opened_file first l s.
Proof.
  intros Hch [M Hf Hn Hc]. constructor; [done | done | done |]. left. rewrite Hn, Nat2Z.id. split; [lia | done].
Qed.

(** Before the loop the position is not after the place to read. *)
Lemma rewind_ok first l k s : opened_file first l s -> 0 <= k < MAXINT ->
  let s1 := if k <? get current_cluster_num s then put current_cluster (get file_cluster s) (put current_cluster_num 0 s) else s in
  exists d i, s1 = set_fdisk d s /\ at_cluster first l i s1 /\ Z.of_nat i <= k /\ only_fat (f_mem s) (d_mem d).
Proof.
  intros [M Hf Hch Hp] Hk s1. pose proof (cluster_chain_head _ _ Hch) as Hh. pose proof clusters_few.
  destruct (cluster_chain_step _ _ _ _ Hch Hh) as [Hr _].
  unfold get in s1. destruct (Z.ltb_spec k (sget current_cluster_num (f_mem s))) as [Hlt | Hge]; subst s1.
  - set (s1 := put _ _ _). exists (f_disk s1), 0%nat.
    assert (f_mem s1 = sput current_cluster (sget file_cluster (f_mem s)) (sput current_cluster_num 0 (f_mem s))) as E by done.
    split; [done |]. split; [| split; [lia |]].
    + constructor.
      * apply mounted_put; [by right; left |]. apply mounted_put; [by left | done].
      * rewrite E. by rewrite !sget_ne.
      * rewrite E. rewrite sget_ne, sget_eq by done. done.
      * rewrite E. rewrite sget_eq by lia. by rewrite Hf.
    + intros a H1 H2. change (d_mem (f_disk s1)) with (f_mem s1). rewrite E. rewrite !ld_sput by (by apply not_super). done.
  - exists (f_disk s). assert (set_fdisk (f_disk s) s = s) as Es by by destruct s.
    destruct Hp as [[H0 Hc] | E]; [| rewrite E in Hge; lia]. exists (Z.to_nat (sget current_cluster_num (f_mem s))).
    split; [done |]. split; [| split; [lia | done]]. constructor; [done | done | lia | done].
Qed.

Lemma fat_read_ok first l s buf n : opened_file first l s -> 0 <= filepos s < 2147483648 -> 0 <= n -> place_ok buf n ->
  exists s', fat_read b mem_lower mem_upper buf n s = Some (available (Z.of_nat (length l) * cs) (filepos s) n, s') /\
    reads first l buf n (available (Z.of_nat (length l) * cs) (filepos s) n) s s'.
Proof.
  intros O Hp Hn Hb. pose proof (of_chain _ _ _ O) as Hch. pose proof cluster_size_range as [Hcs _].
  destruct (cluster_chain_step _ _ _ _ Hch (cluster_chain_head _ _ Hch)) as [Hr _].
  unfold fat_read. assert (get file_cluster s = first) as Ef by apply O. rewrite Ef. rewrite (proj2 (Z.ltb_ge first 0)) by lia.
  assert (get clustsize_bits s = v_bits v) as -> by apply (mo_super _ (of_mounted _ _ _ O)).
  pose proof (vo_bits _ _ vol) as Hbits.
  rewrite Z.shiftr_div_pow2 by lia. fold cs.
  assert (filepos s .& ((1 .<< v_bits v) - 1) = filepos s mod cs) as ->.
  { rewrite Z.shiftl_1_l, Z.sub_1_r, <- Z.ones_equiv. apply Z.land_ones. lia. }
  pose proof (Z.div_mod (filepos s) cs ltac:(lia)) as Hdm. pose proof (Z.mod_pos_bound (filepos s) cs ltac:(lia)) as Hmb.
  set (k := filepos s / cs) in *. set (o := filepos s mod cs) in *.
  assert (0 <= k < MAXINT) as Hk by (unfold MAXINT; nia).
  destruct (rewind_ok first l k s O Hk) as (d & i & E & A & Hi & F). rewrite Ef in E, A. rewrite E in A |- *.
  destruct (read_clusters_ok (Z.to_nat n) (set_fdisk d s) first l i (Z.to_nat k) o n buf 0 Hch A) as (s' & Es & Rd); try done; try lia.
  { change (filepos (set_fdisk d s)) with (filepos s). lia. }
  rewrite Z2Nat.id in Es by lia. rewrite Z.add_0_l in Es. exists s'. split; [exact Es |]. by eapply reads_hop.
Qed.
End Reading.

(** *** [fat_mount] *)

(** The volume that the boot sector of a partition describes. *)
Section BootSector.
Variable byte : Z -> Z.

Definition bs_total : Z := if byte16 byte 19 =? 0 then byte32 byte 32 else byte16 byte 19.
Definition bs_table_length : Z := if byte16 byte 22 =? 0 then byte32 byte 36 else byte16 byte 22.
Definition bs_root : Z := byte16 byte 14 + byte 16 * bs_table_length.
Definition bs_root_max : Z := 32 * byte16 byte 17.
Definition bs_data : Z := bs_root + (bs_root_max + 511) / 512.
Definition bs_clusters : Z := (bs_total - bs_data) / byte 13.
Definition bs_mirrored : bool := byte16 byte 40 / 128 mod 2 =? 0.
Definition bs_active : Z := if bs_mirrored then 0 else byte16 byte 40 mod 16.

Definition bs_kind : fat_kind :=
  if byte16 byte 22 =? 0 then Fat32 else if bs_clusters <=? 4085 then Fat12 else Fat16.

Definition bs_volume (bits : Z) : volume :=
  Volume bs_kind (match bs_kind with Fat32 => byte16 byte 14 + bs_active * bs_table_length | _ => byte16 byte 14 end)
         bs_root bs_root_max (match bs_kind with Fat32 => s32 (byte32 byte 44) | _ => -1 end) bs_data (bs_clusters + 2) bits.

(** A boot sector of 512-byte sectors and clusters of [2 ^ bits] bytes whose
    parts lie one after the other; the table has an entry for each cluster and
    starts with the media byte. *)
Record boot_sector_ok (bits : Z) : Prop := {
  bo_sector : byte16 byte 11 = 512;
  bo_bits : 9 <= bits <= 16 /\ byte 13 * 512 = 2 ^ bits;
  bo_dir : (byte16 byte 17 = 0) <-> (bs_kind = Fat32);
  bo_active : bs_kind = Fat32 -> bs_active < byte 16;
  bo_total : bs_data < bs_total < 4194304;
  bo_clusters : 0 < bs_clusters;
  bo_table : kind_nibbles bs_kind * (bs_clusters + 2) <= bs_table_length * 1024;
  bo_media : let v := bs_volume bits in
    table_entry byte v 0 mod (2 ^ (match bs_kind with Fat12 => 12 | Fat16 => 16 | Fat32 => 28 end)) .| 8
    = (match bs_kind with Fat12 => 0xf00 | Fat16 => 0xff00 | Fat32 => 0xfffff00 end + byte 21) .| 8 }.
End BootSector.

Section Mount.
Context (b : bios) (mem_lower mem_upper drive part_start part_length : Z) (byte : Z -> Z)
        {R : PartReader b mem_lower mem_upper drive part_start part_length byte}.
Variables (bits bpb first_fat : Z).
Hypothesis bytes_ok : forall x, 0 <= byte x < 256.
Hypothesis boot : boot_sector_ok byte bits.

Definition bpb_at (m : mem) : Prop := forall i, 0 <= i < BPB_SIZE -> ld m (bpb + i) = byte i.

Lemma bpb_8 m i : bpb_at m -> 0 <= i < 64 -> ld m (bpb + i) = byte i.
Proof. intros H Hi. by apply H. Qed.

Lemma bpb_16 m i : bpb_at m -> 0 <= i < 63 -> ld16 m (bpb + i) = byte16 byte i.
Proof. intros H Hi. unfold ld16, byte16, BPB_SIZE in *. rewrite <- Z.add_assoc, !H by (unfold BPB_SIZE; lia). done. Qed.

Lemma bpb_32 m i : bpb_at m -> 0 <= i < 61 -> ld32 m (bpb + i) = byte32 byte i.
Proof. intros H Hi. unfold ld32, byte32. rewrite <- Z.add_assoc, !bpb_16 by (done || lia). done. Qed.

Lemma byte16_range x : 0 <= byte16 byte x < 65536.
Proof. unfold byte16. pose proof (bytes_ok x). pose proof (bytes_ok (x + 1)). lia. Qed.

Lemma byte32_range x : 0 <= byte32 byte x < 4294967296.
Proof. unfold byte32. pose proof (byte16_range x). pose proof (byte16_range (x + 2)). lia. Qed.

Lemma log2_bits k : 0 <= k <= 7 -> log2 (2 ^ k) = k.
Proof. intros Hk. assert (k = 0 \/ k = 1 \/ k = 2 \/ k = 3 \/ k = 4 \/ k = 5 \/ k = 6 \/ k = 7) as E by lia. by repeat destruct E as [-> | E]; [..| subst]. Qed.

Lemma boot_cluster : 9 <= bits <= 16 /\ byte 13 = 2 ^ (bits - 9) /\ 1 <= byte 13 <= 128.
Proof.
  destruct (bo_bits _ _ boot) as [H1 H2]. split; [done |].
  assert (2 ^ bits = 2 ^ (bits - 9) * 512) as E by (change 512 with (2 ^ 9); rewrite <- Z.pow_add_r by lia; f_equal; lia).
  assert (byte 13 = 2 ^ (bits - 9)) as -> by lia. split; [done |].
  pose proof (Z.pow_le_mono_r 2 (bits - 9) 7). pose proof (Z.pow_pos_nonneg 2 (bits - 9)). lia.
Qed.

Lemma boot_ranges :
  0 <= bs_table_length byte < 4194304 /\ 0 <= byte 16 * bs_table_length byte /\ 0 <= bs_root byte < 4194304 /\
  0 <= bs_root_max byte < 2097152 /\ 0 <= bs_data byte < 4194304 /\ 0 <= bs_total byte < 4194304 /\ 0 < bs_clusters byte < 4194304 /\
  byte16 byte 14 <= bs_root byte /\ bs_root byte <= bs_data byte.
Proof.
  pose proof (bo_total _ _ boot) as Ht. pose proof (bo_clusters _ _ boot) as Hc. pose proof boot_cluster as (_ & _ & Hs).
  pose proof (byte16_range 14). pose proof (byte16_range 17). pose proof (byte16_range 22). pose proof (byte32_range 36). pose proof (bytes_ok 16).
  assert (0 <= bs_table_length byte) as HL by (unfold bs_table_length; destruct (_ =? 0); lia).
  assert (0 <= bs_root_max byte < 2097152) as Hm by (unfold bs_root_max; lia).
  assert (bs_root byte <= bs_data byte) as Hd by (unfold bs_data; dlia).
  assert (0 <= byte 16 * bs_table_length byte) as Hp by nia.
  assert (byte16 byte 14 <= bs_root byte) as Hr by (unfold bs_root; lia).
  assert (bs_table_length byte < 4194304) as HL2.
  { destruct (Z.eqb_spec (byte16 byte 22) 0) as [E | E].
    - assert (bs_kind byte = Fat32) as Ek by (unfold bs_kind; by rewrite E). pose proof (bo_active _ _ boot Ek).
      assert (0 <= bs_active byte) by (unfold bs_active; destruct (bs_mirrored _); [lia | apply Z.mod_pos_bound; lia]).
      unfold bs_root in *. nia.
    - unfold bs_table_length. rewrite (proj2 (Z.eqb_neq _ _)) by done. lia. }
  assert (bs_clusters byte < 4194304) as Hc2.
  { unfold bs_clusters. apply Z.div_lt_upper_bound; nia. }
  split_and!; lia.
Qed.

(** Fields that are assigned. *)
Lemma get_put_eq f x s : -2147483648 <= x < 2147483648 -> get f (put f x s) = x.
Proof. intros H. unfold get, put. cbn. by apply sget_eq. Qed.

Lemma get_put_ne f g x s : f <> g -> get f (put g x s) = get f s.
Proof. intros H. unfold get, put. cbn. by apply sget_ne. Qed.

Lemma bpb_at_put f x s : (forall i, 0 <= i < BPB_SIZE -> ~ in_fat (bpb + i)) -> bpb_at (f_mem s) -> bpb_at (f_mem (put f x s)).
Proof. intros Ha H i Hi. cbn. rewrite ld_sput; [by apply H |]. intros Hs. by apply (Ha i Hi), super_in_fat. Qed.

(** Only the superblock changed. *)
Definition only_super (s s' : fs) : Prop := exists m, s' = set_fmem m s /\ forall a, ~ (FAT_SUPER <= a < FAT_SUPER + 68) -> ld m a = ld (f_mem s) a.

Lemma only_super_put f x s s' : only_super s s' -> only_super s (put f x s').
Proof.
  intros (m & -> & H). exists (sput f x m). split; [done |]. intros a Ha. rewrite ld_sput by done. by apply H.
Qed.

Lemma only_super_refl s : only_super s s.
Proof. exists (f_mem s). split; [by destruct s as [[[] ? ? ? ? ?]] | done]. Qed.

Ltac field_step :=
  match goal with
  | |- context [get ?f (put ?g ?x ?s)] => first [rewrite (get_put_ne f g x s) by done | rewrite (get_put_eq f x s) by lia]
  end.

Lemma fill_super_ok s : bpb_at (f_mem s) ->
  let s' := fill_super bpb s in
  only_super s s' /\ get sectsize_bits s' = 9 /\ get clustsize_bits s' = bits /\ get fat_offset s' = byte16 byte 14 /\
  get fat_length s' = bs_table_length byte /\ get root_offset s' = bs_root byte /\ get root_max s' = bs_root_max byte /\
  get data_offset s' = bs_data byte /\ get num_clust s' = bs_clusters byte + 2.
Proof.
  intros Hb s'. pose proof boot_cluster as (B1 & B2 & B3). pose proof boot_ranges as (R1 & R2 & R3 & R4 & R5 & R6 & R7 & R8 & R9).
  pose proof (byte16_range 14) as H14. pose proof (bo_total _ _ boot) as Ht. split; [subst s'; unfold fill_super; do 10 apply only_super_put; apply only_super_refl |].
  subst s'. unfold fill_super, bytes_per_sect, bpb_sects_per_clust, short_sectors, long_sectors, reserved_sects, bpb_fat_length, fat32_length, num_fats, dir_entries.
  rewrite !bpb_16, !bpb_32, !bpb_8 by (done || lia). rewrite (bo_sector _ _ boot). change (log2 512) with 9.
  rewrite B2, log2_bits by lia.
  assert ((if negb (byte16 byte 19 =? 0) then byte16 byte 19 else byte32 byte 32) = bs_total byte) as -> by (unfold bs_total; by destruct (_ =? 0)).
  assert ((if negb (byte16 byte 22 =? 0) then byte16 byte 22 else byte32 byte 36) = bs_table_length byte) as -> by (unfold bs_table_length; by destruct (_ =? 0)).
  rewrite <- B2. unfold FAT_DIRENTRY_LENGTH. fold (bs_root_max byte).
  assert (bs_root byte + ((bs_root_max byte - 1) .>> 9) + 1 = bs_data byte) as Ed.
  { rewrite Z.shiftr_div_pow2 by lia. change (2 ^ 9) with 512. unfold bs_data. dlia. }
  repeat first [field_step | progress fold (bs_root byte) | rewrite Ed].
  rewrite Z.quot_div_nonneg by lia. fold (bs_clusters byte). field_step. split_and!; lia.
Qed.

Lemma bpb_at_super s s' : place_ok mem_lower mem_upper bpb BPB_SIZE -> only_super s s' -> bpb_at (f_mem s) -> bpb_at (f_mem s').
Proof.
  intros [_ Hp] (m & -> & H) Hb i Hi. cbn. rewrite H; [by apply Hb |]. intros Hs. apply (Hp (bpb + i)); [lia | by apply super_in_fat].
Qed.

Lemma only_super_trans s1 s2 s3 : only_super s1 s2 -> only_super s2 s3 -> only_super s1 s3.
Proof. intros (m & -> & H) (m' & -> & H'). exists m'. split; [done |]. intros a Ha. rewrite H' by done. by apply H. Qed.

Lemma flag_bit x : (x .& 0x0080 =? 0) = (x / 128 mod 2 =? 0).
Proof.
  replace (x / 128 mod 2) with (Z.b2z (Z.testbit x 7)) by (rewrite Z.testbit_spec' by lia; done).
  destruct (Z.testbit x 7) eqn:E.
  - apply Z.eqb_neq. intros H. assert (Z.testbit (x .& 0x80) 7 = true) as Ht by (rewrite Z.land_spec, E; done). by rewrite H in Ht.
  - apply Z.eqb_eq. apply Z.bits_inj'. intros n Hn. rewrite Z.land_spec, Z.bits_0.
    change 0x80 with (2 ^ 7). rewrite Z.pow2_bits_eqb by lia. destruct (Z.eqb_spec 7 n) as [<- |]; [by rewrite E | apply andb_false_r].
Qed.

Lemma super_is_fields v s : get fat_offset s = v_table v -> get fat_size s = kind_nibbles (v_kind v) -> get clust_eof_marker s = kind_eof (v_kind v) ->
  get root_offset s = v_root v -> get root_max s = v_root_max v -> get root_cluster s = v_root_cluster v ->
  get data_offset s = v_data v -> get num_clust s = v_clusters v -> get sectsize_bits s = 9 -> get clustsize_bits s = v_bits v ->
  super_is v (f_mem s).
Proof. done. Qed.

Lemma get_put_s32 f x s : get f (put f x s) = s32 x.
Proof. unfold get, put. cbn. by rewrite sget_sput, decide_True. Qed.

Lemma choose_kind_ok s : place_ok mem_lower mem_upper bpb BPB_SIZE -> bpb_at (f_mem s) ->
  let v := bs_volume byte bits in
  exists s', choose_kind bpb (fill_super bpb s) = (true, s') /\ only_super s s' /\ super_is v (f_mem s') /\ get fat_length s' = bs_table_length byte.
Proof.
  intros Hp Hb v. pose proof (fill_super_ok s Hb) as H. cbn zeta in H. set (s1 := fill_super bpb s) in *. clearbody s1.
  destruct H as (Os & F1 & F2 & F3 & F4 & F5 & F6 & F7 & F8). pose proof (bpb_at_super s s1 Hp Os Hb) as Hb1.
  pose proof boot_ranges as (R1 & R2 & R3 & R4 & R5 & R6 & R7 & R8 & R9). pose proof (byte16_range 14) as H14.
  unfold choose_kind, bpb_fat_length, dir_entries, bpb_flags, num_fats, bpb_root_cluster.
  rewrite !bpb_16, !bpb_32, !bpb_8 by (done || lia). rewrite flag_bit. fold (bs_mirrored byte).
  change 0x000f with (Z.ones 4). rewrite Z.land_ones by lia. change (2 ^ 4) with 16.
  pose proof (bo_dir _ _ boot) as Hdir. unfold bs_kind in Hdir.
  subst v. unfold bs_volume, bs_kind. destruct (Z.eqb_spec (byte16 byte 22) 0) as [E22 | E22].
  - rewrite (proj2 Hdir eq_refl). change (negb (0 =? 0)) with false. cbn iota.
    assert (bs_kind byte = Fat32) as Ek by (unfold bs_kind; by rewrite E22). pose proof (bo_active _ _ boot Ek) as Ha. unfold bs_active in *.
    pose proof (Z.mod_pos_bound (byte16 byte 40) 16 ltac:(lia)). unfold bs_root in *.
    assert (forall s2, only_super s1 s2 -> get fat_offset s2 = byte16 byte 14 + (if bs_mirrored byte then 0 else byte16 byte 40 mod 16) * bs_table_length byte ->
      (forall f, f <> fat_offset -> get f s2 = get f s1) ->
      exists s', (true, put clust_eof_marker 0xffffff8 (put root_cluster (byte32 byte 44) (put fat_size 8 s2))) = (true, s') /\
        only_super s s' /\ super_is (Volume Fat32 (byte16 byte 14 + (if bs_mirrored byte then 0 else byte16 byte 40 mod 16) * bs_table_length byte)
          (byte16 byte 14 + byte 16 * bs_table_length byte) (bs_root_max byte) (s32 (byte32 byte 44)) (bs_data byte) (bs_clusters byte + 2) bits) (f_mem s') /\
        get fat_length s' = bs_table_length byte) as Fin.
    { intros s2 O2 Ho Hs. eexists. split; [reflexivity |]. split; [eapply only_super_trans; [exact Os |]; by do 3 apply only_super_put |].
      split; [| repeat field_step; by rewrite Hs].
      apply super_is_fields; cbn [v_kind v_table v_root v_root_max v_root_cluster v_data v_clusters v_bits kind_nibbles kind_eof];
        repeat field_step; rewrite ?Hs by done; try done. by rewrite get_put_s32. }
    destruct (bs_mirrored byte); cbn [negb andb].
    + apply Fin; [apply only_super_refl | lia | done].
    + rewrite (proj2 (Z.leb_gt _ _)) by lia. cbn iota. rewrite F3, F4. apply Fin.
      * apply only_super_put, only_super_refl.
      * apply get_put_eq. nia.
      * intros f Hf. by apply get_put_ne.
  - cbn iota. rewrite F6. assert (0 < byte16 byte 17) as H17.
    { destruct (Z.eqb_spec (byte16 byte 17) 0) as [E0 | E0]; [| pose proof (byte16_range 17); lia]. apply Hdir in E0. by destruct (_ <=? _). }
    rewrite (proj2 (Z.eqb_neq _ 0)) by (unfold bs_root_max; lia). rewrite get_put_ne, F8 by done. unfold FAT_MAX_12BIT_CLUST.
    destruct (Z.leb_spec (bs_clusters byte) 4085).
    + rewrite (proj2 (Z.ltb_ge _ _)) by lia. eexists. split; [reflexivity |].
      split; [eapply only_super_trans; [exact Os |]; do 3 apply only_super_put; apply only_super_refl |].
      split; [| by repeat field_step].
      apply super_is_fields; cbn [v_kind v_table v_root v_root_max v_root_cluster v_data v_clusters v_bits kind_nibbles kind_eof]; by repeat field_step.
    + rewrite (proj2 (Z.ltb_lt _ _)) by lia. eexists. split; [reflexivity |].
      split; [eapply only_super_trans; [exact Os |]; do 3 apply only_super_put; apply only_super_refl |].
      split; [| by repeat field_step].
      apply super_is_fields; cbn [v_kind v_table v_root v_root_max v_root_cluster v_data v_clusters v_bits kind_nibbles kind_eof]; by repeat field_step.
Qed.

Lemma boot_sane s : place_ok mem_lower mem_upper bpb BPB_SIZE -> bpb_at (f_mem s) -> super_is (bs_volume byte bits) (f_mem s) ->
  get fat_length s = bs_table_length byte -> insane bpb s = false.
Proof.
  intros Hp Hb S FL. pose proof boot_cluster as (B1 & B2 & B3). pose proof boot_ranges as (R1 & R2 & R3 & R4 & R5 & R6 & R7 & R8 & R9).
  destruct S as (_ & S2 & _ & _ & _ & _ & _ & S8 & S9 & S10). unfold insane, bytes_per_sect, bpb_sects_per_clust, get in *.
  rewrite S2, S8, S9, S10, FL, bpb_16, bpb_8 by (done || lia). rewrite (bo_sector _ _ boot).
  cbn [v_kind v_bits v_clusters bs_volume]. rewrite B2, !Z.shiftl_1_l, !Z.eqb_refl.
  pose proof (bo_table _ _ boot) as Ht. pose proof (kind_nibbles_range (bs_kind byte)).
  rewrite (proj2 (Z.leb_gt _ _)), s32_small by nia. rewrite Z.quot_div_nonneg by (unfold SECTOR_SIZE; nia).
  change (2 * SECTOR_SIZE) with 1024.
  rewrite (proj2 (Z.ltb_ge _ _)); [done |]. apply Z.div_le_upper_bound; lia.
Qed.

Lemma media_or x : 0 <= x < 256 -> 0xfffff00 .| x = 0xfffff00 + x /\ 0xff00 .| x = 0xff00 + x /\ 0xf00 .| x = 0xf00 + x.
Proof.
  intros Hx. pose (f x := (0xfffff00 .| x =? 0xfffff00 + x) && (0xff00 .| x =? 0xff00 + x) && (0xf00 .| x =? 0xf00 + x)).
  assert (f x = true) as E by (apply (forall_range f 256); [vm_compute; reflexivity | done]).
  unfold f in E. rewrite !andb_true_iff, !Z.eqb_eq in E. tauto.
Qed.

(** The types of partition that are tried. *)
Definition fat_partition (s : fs) : Prop :=
  (current_drive (f_dev s) .& 0x80 = 0 /\ type (f_part s) = 0) \/
  IS_PC_SLICE_TYPE_FAT (type (f_part s)) = true \/ IS_PC_SLICE_TYPE_BSD_WITH_FS (type (f_part s)) FS_MSDOS = true.

Lemma fat_partition_tried s : fat_partition s ->
  (negb (current_drive (f_dev s) .& 0x80 =? 0) || negb (type (f_part s) =? 0))
  && negb (IS_PC_SLICE_TYPE_FAT (type (f_part s))) && negb (IS_PC_SLICE_TYPE_BSD_WITH_FS (type (f_part s)) FS_MSDOS) = false.
Proof. intros [[-> ->] | [-> | ->]]; [done | by rewrite andb_false_r | by rewrite andb_false_r]. Qed.

Lemma only_super_disk d s s' : only_super (set_fdisk d s) s' -> exists d', s' = set_fdisk d' s.
Proof. intros (m & -> & _). by eexists. Qed.

Lemma opened_super s s' : opened b mem_lower mem_upper drive part_start part_length byte s -> only_super s s' ->
  opened b mem_lower mem_upper drive part_start part_length byte s'.
Proof.
  intros O (m & -> & H). apply opened_disk; [done |]. apply pr_write; [apply O |]. intros a Ha. apply H. intros Hs. by apply (fat_apart a Ha), super_in_fat.
Qed.

(** The first entry of the table, as the media check sees it. *)
Lemma first_entry x : (forall i, 0 <= byte i < 256) ->
  byte32 byte x .& 0x0fffffff = byte32 byte x mod 2 ^ 28 /\ byte32 byte x .& 0xffff = byte16 byte x mod 2 ^ 16 /\
  byte32 byte x .& 0xfff = byte16 byte x mod 4096 mod 2 ^ 12.
Proof.
  intros Hb. change 0x0fffffff with (Z.ones 28). change 0xffff with (Z.ones 16). change 0xfff with (Z.ones 12).
  rewrite !Z.land_ones by lia. unfold byte32. change (2 ^ 16) with 65536. change (2 ^ 12) with 4096. split_and!; dlia.
Qed.

Lemma fat_mount_ok s : bs_total byte <= part_length -> part_length < 4194304 ->
  place_ok mem_lower mem_upper bpb BPB_SIZE -> place_ok mem_lower mem_upper first_fat 4 ->
  (forall a, bpb <= a < bpb + BPB_SIZE -> ~ (first_fat <= a < first_fat + 4)) ->
  opened b mem_lower mem_upper drive part_start part_length byte s -> fat_partition s ->
  exists d, fat_mount b mem_lower mem_upper bpb first_fat s = Some (1, set_fdisk d s) /\
    mounted b mem_lower mem_upper drive part_start part_length byte (bs_volume byte bits) (set_fdisk d s) /\
    (forall a, ~ in_buffer a -> ~ in_fat a -> ~ (bpb <= a < bpb + BPB_SIZE) -> ~ (first_fat <= a < first_fat + 4) -> ld (d_mem d) a = ld (f_mem s) a).
Proof.
  intros Htot Hpl Hp Hf Hap O Hty. unfold fat_mount. rewrite (fat_partition_tried s Hty).
  pose proof boot_cluster as (B1 & B2 & B3). pose proof boot_ranges as (R1 & R2 & R3 & R4 & R5 & R6 & R7 & R8 & R9).
  pose proof (bo_total _ _ boot) as Hbt. pose proof (byte16_range 14) as H14.
  destruct (fs_devread_ok b mem_lower mem_upper drive part_start part_length byte s 0 0 BPB_SIZE bpb O (proj1 Hp))
    as (d1 & -> & O1 & Hd1 & F1); [lia | lia | done | done | unfold BPB_SIZE; lia |].
  cbn [mbind option_bind Z.eqb]. set (s1 := set_fdisk d1 s) in *.
  assert (bpb_at (f_mem s1)) as Hb1 by (intros i Hi; apply Hd1; done).
  unfold bpb_sects_per_clust at 1. rewrite bpb_8 by (done || lia). rewrite (proj2 (Z.eqb_neq _ 0)) by lia.
  destruct (choose_kind_ok s1 Hp Hb1) as (s2 & -> & Os & Sv & FL). cbn [negb].
  pose proof (bpb_at_super s1 s2 Hp Os Hb1) as Hb2. rewrite (boot_sane s2 Hp Hb2 Sv FL).
  pose proof (opened_super s1 s2 O1 Os) as O2.
  set (v := bs_volume byte bits) in *. pose proof Sv as (S1 & S2 & _). assert (get fat_offset s2 = v_table v) as -> by exact S1.
  assert (0 <= v_table v /\ v_table v < bs_total byte) as Hvt.
  { assert (bs_kind byte = Fat32 -> 0 <= bs_active byte) as Hba by (intros _; unfold bs_active; destruct (bs_mirrored _); [lia | apply Z.mod_pos_bound; lia]).
    subst v. cbn [v_table bs_volume]. pose proof (bo_active _ _ boot) as Ha. destruct (bs_kind byte); try lia.
    specialize (Hba eq_refl). specialize (Ha eq_refl). unfold bs_root in *. nia. }
  destruct (fs_devread_ok b mem_lower mem_upper drive part_start part_length byte s2 (v_table v) 0 4 first_fat O2 (proj1 Hf))
    as (d3 & -> & O3 & Hd3 & F3); [lia | lia | done | done | lia |].
  cbn [mbind option_bind Z.eqb]. set (s3 := set_fdisk d3 s2) in *.
  assert (ld32 (f_mem s3) first_fat = byte32 byte (v_table v * 512)) as ->.
  { rewrite <- (Z.add_0_r first_fat), ld32_at. rewrite !Hd3 by lia. unfold byte32, byte16.
    rewrite <- !(Z.add_assoc (v_table v * 512)), !Z.add_0_l, Z.add_0_r. done. }
  assert (forall f, sget f (f_mem s3) = sget f (f_mem s2)) as Hget.
  { intros f. apply sget_frame. intros a Ha. apply F3; [intros Hb'; by apply (fat_apart a Hb'), super_in_fat |].
    intros Hb'. by apply (proj2 Hf a Hb'), super_in_fat. }
  assert (media (f_mem s3) bpb = byte 21) as ->.
  { unfold media. change (f_mem s3) with (d_mem d3). rewrite F3; [by apply Hb2 | |].
    - apply (tg_apart _ _ _ _ (proj1 Hp)). unfold BPB_SIZE. lia.
    - apply Hap. unfold BPB_SIZE. lia. }
  unfold get. rewrite Hget, S2. destruct (first_entry (v_table v * 512) bytes_ok) as (E28 & E16 & E12).
  destruct (media_or (byte 21) (bytes_ok 21)) as (M28 & M16 & M12). pose proof (bo_media _ _ boot) as Hm. fold v in Hm.
  assert (v_kind v = bs_kind byte) as Ek by done. unfold table_entry in Hm. rewrite Ek in *.
  assert (super_is v (f_mem s3)) as Sv3 by (unfold super_is; by rewrite !Hget).
  assert (exists d, put cached_fat (-2 * FAT_CACHE_SIZE) s3 = set_fdisk d s) as [d Ed].
  { destruct (only_super_disk _ _ _ Os) as [d2 ->]. by eexists. }
  assert (mounted b mem_lower mem_upper drive part_start part_length byte v (set_fdisk d s)) as Md.
  { rewrite <- Ed. constructor.
    - eapply opened_super; [exact O3 |]. apply only_super_put, only_super_refl.
    - apply super_is_sput; [by left | done].
    - left. apply get_put_eq. unfold FAT_CACHE_SIZE. lia. }
  exists d. split; [| split; [done |]].
  2: { intros a H1 H2 H3 H4. change (d_mem d) with (f_mem (set_fdisk d s)). rewrite <- Ed. unfold put. cbn [f_mem].
       change (f_mem (set_fmem ?m s3)) with m. rewrite ld_sput by (by apply not_super). change (f_mem s3) with (d_mem d3). rewrite F3 by done.
       destruct Os as (m & Es & Hsup). rewrite Es. change (f_mem (set_fmem m s1)) with m. rewrite Hsup by (by apply not_super). by apply F1. }
  rewrite <- Ed.
  destruct (bs_kind byte); cbn [kind_nibbles Z.eqb Pos.eqb] in *.
  - rewrite E12, M12. change (3 * 0 / 2) with 0 in Hm. rewrite Z.add_0_r in Hm. cbn [Z.even] in Hm. by rewrite Hm, Z.eqb_refl.
  - rewrite E16, M16. change (2 * 0) with 0 in Hm. rewrite Z.add_0_r in Hm. by rewrite Hm, Z.eqb_refl.
  - rewrite E28, M28. change (4 * 0) with 0 in Hm. rewrite Z.add_0_r in Hm. by rewrite Hm, Z.eqb_refl.
Qed.
End Mount.

(** ** Properties *)

(** fat_mount accepts a well-formed FAT12, FAT16 or FAT32 boot sector with the
    media byte in its table and leaves the superblock that describes the
    volume: kind of table, places of the table in use, the root directory and
    the clusters. *)
Theorem fat_mount_describes (b : bios) mem_lower mem_upper drive part_start part_length byte
    {R : PartReader b mem_lower mem_upper drive part_start part_length byte} bits bpb first_fat s :
  (forall x, 0 <= byte x < 256) -> boot_sector_ok byte bits ->
  bs_total byte <= part_length -> part_length < 4194296 ->
  place_ok mem_lower mem_upper bpb BPB_SIZE -> place_ok mem_lower mem_upper first_fat 4 ->
  (forall a, bpb <= a < bpb + BPB_SIZE -> ~ (first_fat <= a < first_fat + 4)) ->
  opened b mem_lower mem_upper drive part_start part_length byte s -> fat_partition s ->
  exists d, fat_mount b mem_lower mem_upper bpb first_fat s = Some (1, set_fdisk d s) /\
    mounted b mem_lower mem_upper drive part_start part_length byte (bs_volume byte bits) (set_fdisk d s) /\
    (forall a, ~ in_buffer a -> ~ in_fat a -> ~ (bpb <= a < bpb + BPB_SIZE) -> ~ (first_fat <= a < first_fat + 4) -> ld (d_mem d) a = ld (f_mem s) a).
Proof. intros. apply fat_mount_ok; done || lia. Qed.

(** fat_read, at any position of an open file or root directory, returns as
    many of the bytes asked for as there are up to the end, stores exactly
    these bytes of the chain, moves the position and writes nothing else but
    its cache and the track buffer. *)
Theorem fat_read_reads (b : bios) mem_lower mem_upper drive part_start part_length byte
    {R : PartReader b mem_lower mem_upper drive part_start part_length byte} v first l buf n s :
  (forall x, 0 <= byte x < 256) -> volume_ok v part_length -> 512 <= mem_lower <= 1024 -> 0 <= mem_upper < 4194304 ->
  opened_file b mem_lower mem_upper drive part_start part_length byte v first l s ->
  0 <= filepos s < 2147483648 -> 0 <= n -> place_ok mem_lower mem_upper buf n ->
  let size := Z.of_nat (length l) * cluster_size v in
  let k := available size (filepos s) n in
  exists s', fat_read b mem_lower mem_upper buf n s = Some (k, s') /\ filepos s' = filepos s + k /\
    opened_file b mem_lower mem_upper drive part_start part_length byte v first l s' /\
    (forall x, 0 <= x < k -> ld (f_mem s') (buf + x) = chain_byte byte v l (filepos s + x)) /\
    (forall a, ~ in_buffer a -> ~ in_fat a -> ~ (buf <= a < buf + n) -> ld (f_mem s') a = ld (f_mem s) a).
Proof.
  intros Hb Hv Hl Hu O Hp Hn Hbuf size k.
  destruct (fat_read_ok b mem_lower mem_upper drive part_start part_length byte v Hb Hv Hl Hu first l s buf n O Hp Hn Hbuf) as (s' & E & [M [j A] B F]).
  exists s'. split; [exact E |]. split; [by destruct M as (d & h & u & w & ->) |]. split; [by eapply at_opened; [apply O | exact A] | done].
Qed.

(** A small kernel: its first 152 bytes are the headers of an ELF program with
    two segments and, at 128, a Multiboot header. *)
Definition le_num (n : nat) (x : Z) : list Z := map (fun i => (x .>> (8 * Z.of_nat i)) .& 0xff) (seq 0 n).
Definition kernel_head : list Z := Eval vm_compute in
  ([0x7f; 69; 76; 70; 1; 1; 1; 0; 0; 0; 0; 0; 0; 0; 0; 0]
  ++ le_num 2 2 ++ le_num 2 3 ++ le_num 4 1 ++ le_num 4 0xC0100010 ++ le_num 4 52 ++ le_num 4 0 ++ le_num 4 0 ++ le_num 2 52 ++ le_num 2 32
  ++ le_num 2 2 ++ le_num 2 40 ++ le_num 2 0 ++ le_num 2 0
  ++ le_num 4 1 ++ le_num 4 512 ++ le_num 4 0xC0100000 ++ le_num 4 0x100000 ++ le_num 4 188 ++ le_num 4 1000 ++ le_num 4 7 ++ le_num 4 4096
  ++ le_num 4 1 ++ le_num 4 100 ++ le_num 4 0xC0101000 ++ le_num 4 0x101000 ++ le_num 4 64 ++ le_num 4 64 ++ le_num 4 7 ++ le_num 4 4096
  ++ le_num 4 0 ++ le_num 4 0 ++ le_num 4 0 ++ le_num 4 0x1BADB002 ++ le_num 4 0 ++ le_num 4 (2 ^ 32 - 0x1BADB002) ++ le_num 4 0 ++ le_num 4 0 ++ le_num 4 0).

(** A diskette with a FAT12 volume: a root directory in sector 10, the directory
    [boot] in cluster 2 with one file, in clusters 3 and 5. *)
Definition fat_image : mem :=
  let m := st_bytes ∅ 0 [0xEB; 0x3C; 0x90; 83; 90; 79; 83; 32; 32; 32; 32; 0; 2; 1; 1; 0; 1; 16; 0; 0x40; 0x0B; 0xF0; 9; 0] in
  let m := st_bytes m 512 [0xF0; 0xFF; 0xFF; 0xFF; 0x5F; 0; 0; 0xF0; 0xFF] in
  let m := st_bytes m 5120 (bytes "SZOS       " ++ [8]) in
  let m := st_bytes m 5152 ([0xE5] ++ bytes "OLDNAME  " ++ [0; 15]) in
  let m := st_bytes m 5184 (bytes "BOOT       " ++ [16]) in
  let m := st_bytes m 5210 [2; 0] in
  let m := st_bytes m 5632 (0x42 :: flat_map (fun c => [c; 0]) (bytes "SzOS.") ++ [15; 0; 0xe2] ++ flat_map (fun c => [c; 0]) (bytes "bin" ++ [0])) in
  let m := st_bytes m 5664 (1 :: flat_map (fun c => [c; 0]) (bytes "Kerne") ++ [15; 0; 0xe2] ++ flat_map (fun c => [c; 0]) (bytes "l-32b-") ++ [0; 0] ++ flat_map (fun c => [c; 0]) (bytes "of")) in
  let m := st_bytes m 5696 (bytes "KERNEL~1BIN" ++ [32]) in
  let m := st_bytes m 5722 [3; 0; 0xBC; 2; 0; 0] in
  st_bytes m 6144 kernel_head.

Definition fat_bytes (drive x : Z) : Z :=
  if x / 512 =? 14 then x mod 251 else ld fat_image x.

Lemma fat_bytes_range x : 0 <= fat_bytes 0 x < 256.
Proof.
  unfold fat_bytes. destruct (_ =? _); [pose proof (Z.mod_pos_bound x 251); lia |].
  assert (map_Forall (fun _ c => 0 <= c < 256) fat_image) as H by (apply (bool_decide_unpack _); vm_compute; exact I).
  unfold ld. destruct (fat_image !! x) as [c |] eqn:E; [by apply (H x c) | cbn; lia].
Qed.

Lemma fat_tracks : tracks_ok floppy (fat_bytes 0).
Proof.
  constructor; try done.
  - by exists 160.
  - intros s Hs. assert (forallb (fun s => negb (ezd_mark floppy (fat_bytes 0) (s + 1))) (seqZ 0 17) = true) as H by (vm_compute; reflexivity).
    pose proof (forall_range _ _ H (s - 1) ltac:(change (vtrack floppy) with 18 in Hs; lia)) as E. cbn beta in E.
    replace (s - 1 + 1) with s in E by lia. by apply negb_true_iff.
Qed.

Definition fat_seen (x : Z) : Z := seen floppy (fat_bytes 0) (0 * 512 + x).

Lemma fat_seen_range x : 0 <= fat_seen x < 256.
Proof. apply (seen_range floppy (fat_bytes 0) fat_bytes_range). Qed.

#[export] Instance diskette : PartReader floppy_bios 640 0 0 0 2880 fat_seen :=
  partition_reader floppy_bios 640 0 0 0 2880 floppy fat_bytes floppy_ok fat_tracks eq_refl ltac:(done) ltac:(done) ltac:(done).

Lemma fat_boot : boot_sector_ok fat_seen 9.
Proof.
  constructor.
  - vm_compute. reflexivity.
  - vm_compute. repeat split; discriminate.
  - vm_compute. split; discriminate.
  - vm_compute. discriminate.
  - vm_compute. split; reflexivity.
  - vm_compute. reflexivity.
  - vm_compute. discriminate.
  - vm_compute. reflexivity.
Qed.

Lemma low_place buf n : 0x1000 <= buf -> 0 <= n -> buf + n <= FAT_BUF -> place_ok 640 0 buf n.
Proof.
  intros H1 H2 H3. split; [apply low_target; [done | done | unfold FAT_BUF, FSYS_BUF, BUFFERADDR in *; lia] |].
  intros a Ha. unfold in_fat. lia.
Qed.

(** The diskette is open. *)
Definition diskette_fs : fs :=
  Fs (DState (World ∅ fat_bytes) ERR_NONE (-1) 0 (Geometry 0 0 0 0 0 0) None) (Dev 0 0xFFFFFF 0xFF 0 0xFFFFFF false false PART_UNSPECIFIED ERR_NONE)
     (Iter 0xFFFFFF 0 0 2880 0 0 0) (Io [] [] (-1)) 0 0 MAXINT 0 false false 0 false 0 None 0 0.

Lemma diskette_opened : opened floppy_bios 640 0 0 0 2880 fat_seen diskette_fs.
Proof. by constructor. Qed.

Lemma fat_mount_describes_witness :
  exists d, fat_mount floppy_bios 640 0 0x20000 0x20100 diskette_fs = Some (1, set_fdisk d diskette_fs) /\
    mounted floppy_bios 640 0 0 0 2880 fat_seen (Volume Fat12 1 10 512 (-1) 11 2871 9) (set_fdisk d diskette_fs) /\
    (forall a, ~ in_buffer a -> ~ in_fat a -> ~ (0x20000 <= a < 0x20000 + BPB_SIZE) -> ~ (0x20100 <= a < 0x20100 + 4) -> ld (d_mem d) a = ld (f_mem diskette_fs) a).
Proof.
  apply (fat_mount_describes floppy_bios 640 0 0 0 2880 fat_seen 9 0x20000 0x20100 diskette_fs);
    [apply fat_seen_range | apply fat_boot | done | done | by apply low_place | by apply low_place | unfold BPB_SIZE; lia | apply diskette_opened | by left].
Defined.

Definition diskette_volume : volume := Volume Fat12 1 10 512 (-1) 11 2871 9.

Lemma diskette_volume_ok : volume_ok diskette_volume 2880.
Proof. constructor; cbn; try done; try lia; right; done. Qed.

(** The diskette is mounted and a file that starts at a cluster is open. *)
Definition mounted_memory (first : Z) : mem :=
  foldl (fun m '(f, x) => sput f x m) ∅
    [(fat_offset, 1); (fat_size, 3); (clust_eof_marker, 0xff8); (root_offset, 10); (root_max, 512); (root_cluster, -1); (data_offset, 11);
     (num_clust, 2871); (sectsize_bits, 9); (clustsize_bits, 9); (cached_fat, -4096); (file_cluster, first); (current_cluster_num, MAXINT)].

Definition file_fs (first pos : Z) : fs := set_pos pos (set_fmem (mounted_memory first) diskette_fs).

Lemma file_fs_mounted first pos : 0 <= first < 2871 -> mounted floppy_bios 640 0 0 0 2880 fat_seen diskette_volume (file_fs first pos).
Proof.
  intros H. constructor; [by constructor | |].
  - unfold super_is. cbn. rewrite !sget_sput. cbn. done.
  - left. cbn. rewrite !sget_sput. done.
Qed.

Lemma kernel_chain : cluster_chain fat_seen diskette_volume 3 [3; 5].
Proof.
  apply chain_link; [done | vm_compute; reflexivity |].
  replace (table_entry fat_seen diskette_volume 3) with 5 by (vm_compute; reflexivity).
  apply chain_end; [done |]. vm_compute. split; [discriminate | reflexivity].
Qed.

Lemma file_fs_opened pos : opened_file floppy_bios 640 0 0 0 2880 fat_seen diskette_volume 3 [3; 5] (file_fs 3 pos).
Proof.
  constructor; [by apply file_fs_mounted | vm_compute; reflexivity | apply kernel_chain | right; vm_compute; reflexivity].
Qed.

(** The read stops at the end of the second cluster. *)
Lemma fat_read_reads_witness :
  exists s', fat_read floppy_bios 640 0 0x20000 600 (file_fs 3 500) = Some (524, s') /\ filepos s' = 500 + 524 /\
    opened_file floppy_bios 640 0 0 0 2880 fat_seen diskette_volume 3 [3; 5] s' /\
    (forall x, 0 <= x < 524 -> ld (f_mem s') (0x20000 + x) = chain_byte fat_seen diskette_volume [3; 5] (500 + x)) /\
    (forall a, ~ in_buffer a -> ~ in_fat a -> ~ (0x20000 <= a < 0x20000 + 600) -> ld (f_mem s') a = ld (f_mem (file_fs 3 500)) a).
Proof.
  apply (fat_read_reads floppy_bios 640 0 0 0 2880 fat_seen diskette_volume 3 [3; 5] 0x20000 600 (file_fs 3 500));
    [apply fat_seen_range | apply diskette_volume_ok | done | done | apply file_fs_opened | done | done | by apply low_place].
Defined.
