(* ===== verification/GrubFatDir.v ===== *)
(** * The directories of GRUB's FAT file system

    [fat_dir] of [src/legacy/SZoS/grub-0.97/stage2/fsys_fat.c]: a path is looked
    up along the directories of a volume, whose entries carry short names and
    pieces of long names; or the names that start with its last component are
    listed. *)

From S2P Require Import Prelude Machine LibcString GrubString GrubTerm GrubReadline GrubBios GrubDisk GrubDevice GrubPart GrubFsys GrubFat.

(** ** The code *)

Definition FAT_ATTRIB_NOT_OK_MASK : Z := 0xC8.
Definition FAT_ATTRIB_DIR : Z := 0x10.
Definition FAT_ATTRIB_LONGNAME : Z := 0x0F.

(** The macros of [fat.h] on the entry at [e]. *)
Definition FAT_DIRENTRY_ATTRIB (m : mem) (e : Z) : Z := ld m (e + 11).
Definition FAT_DIRENTRY_VALID (m : mem) (e : Z) : bool :=
  negb (ld m e =? 0) && negb (ld m e =? 0xE5) && (FAT_DIRENTRY_ATTRIB m e .& FAT_ATTRIB_NOT_OK_MASK =? 0).
Definition FAT_DIRENTRY_FIRST_CLUSTER (m : mem) (e : Z) : Z := s32 (ld16 m (e + 26) + (ld16 m (e + 20) .<< 16)).
Definition FAT_DIRENTRY_FILELENGTH (m : mem) (e : Z) : Z := ld32 m (e + 28).
Definition FAT_LONGDIR_ID (m : mem) (e : Z) : Z := ld m e.
Definition FAT_LONGDIR_ALIASCHECKSUM (m : mem) (e : Z) : Z := ld m (e + 13).

Definition longdir_pos : list Z := [1; 3; 5; 7; 9; 14; 16; 18; 20; 22; 24; 28; 30].

Section FatDir.
Variables (b : bios) (mem_lower mem_upper : Z).
Variables (current_term : term_entry) (max_lines : Z).
(** The place of the local array [dir_buf]; [filename] is [NAME_BUF]. *)
Variable dir_buf : Z.

Abbreviation filename := NAME_BUF.

(** An entry with a piece of a long name. *)
Definition long_entry (slot alias_checksum : Z) (s : fs) : Z * Z * fs :=
  let m := f_mem s in
  let id := FAT_LONGDIR_ID m dir_buf in
  let '(id, slot, alias_checksum, m) :=
    if negb (id .& 0x40 =? 0)
    then let id := id .& 0x3f in (id, id, FAT_LONGDIR_ALIASCHECKSUM m dir_buf, st m (filename + id * 13) 0)
    else (id, slot, alias_checksum, m) in
  if negb (id =? slot) || (slot =? 0) || negb (alias_checksum =? FAT_LONGDIR_ALIASCHECKSUM m dir_buf)
  then (slot, -1, set_fmem m s)
  else
    let slot := slot - 1 in
    let offset := slot * 13 in
    let m := for_range 0 13 (fun i m => st m (filename + (offset + i)) (ld m (dir_buf + nth (Z.to_nat i) longdir_pos 0))) m in
    (slot, alias_checksum, set_fmem m s).

(** [sum] over the short name. *)
Definition name_checksum (m : mem) : Z :=
  for_range 0 11 (fun i sum => u8 (((sum .>> 1) .| (sum .<< 7)) + ld m (dir_buf + i))) 0.

(** [for (i = 0; i < n && (c = dest[i] = tolower (src[i])) && !isspace (c); i++)] *)
Fixpoint name_part (n : nat) (src dest i : Z) (m : mem) : Z * mem :=
  match n with
  | O => (i, m)
  | S n' =>
      let c := grub_tolower (s8 (ld m (src + i))) in
      let m := st m (dest + i) (u8 c) in
      if (c =? 0) || grub_isspace c then (i, m) else name_part n' src dest (i + 1) m
  end.

(** The 8.3 name of the entry, in [filename]. *)
Definition short_name (m : mem) : mem :=
  let '(i, m) := name_part 8 dir_buf filename 0 m in
  let m := st m (filename + i) 46 in
  let i := i + 1 in
  let '(j, m) := name_part 3 (dir_buf + 8) (filename + i) 0 m in
  let i := if j =? 0 then i - 1 else i in
  st m (filename + (i + j)) 0.

(** [substring (dirname, filename)] *)
Definition compare_name (dirname : Z) (m : mem) : Z := substring (cstring m dirname) (cstring m filename).

(** The code at [print_filename]. *)
Definition print_filename (dirname : Z) (s : fs) : option fs :=
  if compare_name dirname (f_mem s) <=? 0
  then
    let poss := if 0 <? print_possibilities s then - print_possibilities s else print_possibilities s in
    print_a_completion current_term max_lines filename (set_completion poss (do_completion s) (unique s) s)
  else Some s.

(** What becomes of the loop over the entries. *)
Inductive found := Leave (ret : Z) | Found (slot alias_checksum : Z).

(** [while (1)], for [fuel] entries at most. *)
Fixpoint scan_entries (fuel : nat) (dirname rest ch : Z) (do_possibilities : bool) (slot alias_checksum : Z) (s : fs) : option (found * fs) :=
  match fuel with
  | O => None
  | S f =>
      '(n, s) ← fat_read b mem_lower mem_upper dir_buf FAT_DIRENTRY_LENGTH s;
      if negb (n =? FAT_DIRENTRY_LENGTH) || (ld (f_mem s) dir_buf =? 0)
      then
        if decide (f_err s = ERR_NONE)
        then if print_possibilities s <? 0 then Some (Leave 1, s)
             else let s := set_ferr ERR_FILE_NOT_FOUND s in
                  Some (Leave 0, set_fmem (st (f_mem s) rest ch) s)
        else Some (Leave 0, s)
      else if FAT_DIRENTRY_ATTRIB (f_mem s) dir_buf =? FAT_ATTRIB_LONGNAME
      then let '(slot, alias_checksum, s) := long_entry slot alias_checksum s in
           scan_entries f dirname rest ch do_possibilities slot alias_checksum s
      else if negb (FAT_DIRENTRY_VALID (f_mem s) dir_buf)
      then scan_entries f dirname rest ch do_possibilities slot alias_checksum s
      else
        let '(complete, slot) :=
          if negb (alias_checksum =? -1) && (slot =? 0) then (name_checksum (f_mem s) =? alias_checksum, -2) else (false, slot) in
        if complete && do_possibilities
        then s ← print_filename dirname s; scan_entries f dirname rest ch do_possibilities slot alias_checksum s
        else if complete && (compare_name dirname (f_mem s) =? 0) then Some (Found slot alias_checksum, s)
        else
          let s := set_fmem (short_name (f_mem s)) s in
          if do_possibilities
          then s ← print_filename dirname s; scan_entries f dirname rest ch do_possibilities slot alias_checksum s
          else if compare_name dirname (f_mem s) =? 0 then Some (Found slot alias_checksum, s)
          else scan_entries f dirname rest ch do_possibilities slot alias_checksum s
  end.

(** [while ( *dirname == '/')] and the loop that looks for [rest], in a string of
    less than 64 kilobytes. *)
Fixpoint skip_slashes (fuel : nat) (m : mem) (a : Z) : Z :=
  match fuel with
  | O => a
  | S f => if ld m a =? 47 then skip_slashes f m (a + 1) else a
  end.

Fixpoint word_end (fuel : nat) (m : mem) (a : Z) : Z :=
  match fuel with
  | O => a
  | S f => if (ld m a =? 0) || grub_isspace (s8 (ld m a)) || (ld m a =? 47) then a else word_end f m (a + 1)
  end.

(** From the label [loop] on, for [fuel] components of the path at most. *)
Fixpoint dir_loop (fuel entries : nat) (dirname attrib : Z) (do_possibilities : bool) (slot alias_checksum : Z) (s : fs) : option (Z * fs) :=
  match fuel with
  | O => None
  | S f =>
      let c := ld (f_mem s) dirname in
      if (c =? 0) || grub_isspace (s8 c)
      then if negb (attrib .& FAT_ATTRIB_DIR =? 0) then Some (0, set_ferr ERR_BAD_FILETYPE s) else Some (1, s)
      else
        let dirname := skip_slashes (Z.to_nat 0x10000) (f_mem s) dirname in
        if attrib .& FAT_ATTRIB_DIR =? 0 then Some (0, set_ferr ERR_BAD_FILETYPE s)
        else
          let s := set_file (filepos s) MAXINT s in
          let rest := word_end (Z.to_nat 0x10000) (f_mem s) dirname in
          let ch := ld (f_mem s) rest in
          let s := set_fmem (st (f_mem s) rest 0) s in
          let do_possibilities := do_possibilities || (negb (print_possibilities s =? 0) && negb (ch =? 47)) in
          '(r, s) ← scan_entries entries dirname rest ch do_possibilities slot alias_checksum s;
          match r with
          | Leave ret => Some (ret, s)
          | Found slot alias_checksum =>
              let m := st (f_mem s) rest ch in
              let s := set_file 0 (s32 (FAT_DIRENTRY_FILELENGTH m dir_buf)) (set_fmem m s) in
              let s := put file_cluster (FAT_DIRENTRY_FIRST_CLUSTER m dir_buf) s in
              let s := put current_cluster_num MAXINT s in
              dir_loop f entries rest (FAT_DIRENTRY_ATTRIB m dir_buf) do_possibilities slot alias_checksum s
          end
  end.

Definition fat_dir (fuel entries : nat) (dirname : Z) (s : fs) : option (Z * fs) :=
  let s := put file_cluster (get root_cluster s) s in
  let s := set_pos 0 s in
  let s := put current_cluster_num MAXINT s in
  dir_loop fuel entries dirname FAT_ATTRIB_DIR false (-2) (-1) s.
End FatDir.

(** ** Specifications *)

(** Entries of a directory, as functions from the offset of a byte. *)
Section Entries.
Variable e : Z -> Z.

Definition e_attrib : Z := e 11.
Definition e_used : Prop := e 0 <> 0.
Definition e_valid : Prop := e 0 <> 0 /\ e 0 <> 0xE5 /\ e_attrib .& 0xC8 = 0 /\ e_attrib <> 0x0F.
Definition e_cluster : Z := s32 (byte16 e 26 + 65536 * byte16 e 20).
Definition e_size : Z := s32 (byte32 e 28).

(** The characters up to a blank, in lower case, and the 8.3 name they make. *)
Definition lower (c : Z) : Z := u8 (grub_tolower (s8 c)).
Fixpoint word_of (l : list Z) : list Z :=
  match l with
  | [] => []
  | c :: l => if (c =? 0) || grub_isspace c then [] else c :: word_of l
  end.
Definition e_part (from n : nat) : list Z := word_of (map (fun i => lower (e (Z.of_nat i))) (seq from n)).
Definition dotted (ext : list Z) : list Z := if decide (ext = []) then [] else 46 :: ext.
Definition e_short : list Z := e_part 0 8 ++ dotted (e_part 8 3).

(** The checksum of the name: each turn rotates to the right. *)
Definition rotate_right (x : Z) : Z := x / 2 + 128 * (x mod 2).
Definition e_sum : Z := foldl (fun sum i => (rotate_right sum + e (Z.of_nat i)) mod 256) 0 (seq 0 11).
End Entries.

(** The directory at [D], of [size] bytes, from place [p] on: the files, each with
    its long name if it has one and its entry. *)
Section Listing.
Variables (D : Z -> Z) (size : Z).

Definition entry_at (p : Z) (i : Z) : Z := D (p + i).

(** [k] entries from [p] on hold the pieces of a long name, the last piece first,
    for the entry with this checksum. *)
Definition long_pieces (p : Z) (k : Z) (name : list Z) (sum : Z) : Prop :=
  1 <= k <= 63 /\ is_cstr name /\ Z.of_nat (length name) <= 13 * k /\
  forall j, 0 <= j < k ->
    let e := entry_at (p + 32 * j) in
    e 0 = (if j =? 0 then 64 + k else k - j) /\ e_attrib e = 0x0F /\ e 13 = sum /\
    forall i, 0 <= i < 13 -> let n := (k - j - 1) * 13 + i in
      n <= Z.of_nat (length name) -> e (nth (Z.to_nat i) longdir_pos 0) = nth (Z.to_nat n) name 0.

Inductive listing : Z -> list (option (list Z) * (Z -> Z)) -> Prop :=
| li_end p : size < p + 32 \/ entry_at p 0 = 0 -> listing p []
| li_skip p l : p + 32 <= size -> entry_at p 0 <> 0 -> e_attrib (entry_at p) <> 0x0F -> ~ e_valid (entry_at p) ->
    listing (p + 32) l -> listing p l
| li_deleted p l : p + 32 <= size -> entry_at p 0 = 0xE5 -> e_attrib (entry_at p) = 0x0F -> listing (p + 32) l -> listing p l
| li_short p l : p + 32 <= size -> e_valid (entry_at p) -> listing (p + 32) l -> listing p ((None, entry_at p) :: l)
| li_long p k name l : p + 32 * k + 32 <= size -> e_valid (entry_at (p + 32 * k)) ->
    long_pieces p k name (e_sum (entry_at (p + 32 * k))) -> listing (p + 32 * k + 32) l ->
    listing p ((Some name, entry_at (p + 32 * k)) :: l).
End Listing.

(** A file is found by its long name or by its short one. *)
Definition has_name (n : list Z) (f : option (list Z) * (Z -> Z)) : bool :=
  bool_decide (fst f = Some n) || bool_decide (e_short (snd f) = n).
Definition lookup_name (n : list Z) (l : list (option (list Z) * (Z -> Z))) : option (Z -> Z) := snd <$> find (has_name n) l.

(** ** Proofs: strings *)

Lemma s8_u8 c : s8 (u8 c) = s8 c.
Proof. unfold s8, u8. dlia. Qed.

Lemma s8_zero c : 0 <= c < 256 -> s8 c = 0 -> c = 0.
Proof. unfold s8. dlia. Qed.

Lemma s8_inj c d : 0 <= c < 256 -> 0 <= d < 256 -> s8 c = s8 d -> c = d.
Proof. unfold s8. dlia. Qed.

Lemma read_cstr_bytes fuel : forall m a l, cstr_at m a l -> (length l < fuel)%nat -> read_cstr fuel m a = map s8 l.
Proof.
  induction fuel as [|f IH]; intros m a l (H1 & H2 & H3) Hl; [lia |]. cbn [read_cstr]. destruct l as [|c l].
  - cbn in H3. rewrite Z.add_0_r in H3. by rewrite H3.
  - pose proof (H2 0%nat c eq_refl) as H0. cbn in H0. rewrite Z.add_0_r in H0. apply Forall_cons_iff in H1 as [Hc H1].
    rewrite H0, (proj2 (Z.eqb_neq c 0)) by lia. cbn [map]. f_equal. apply IH; [| cbn in Hl; lia]. split; [done |]. split.
    + intros i d Hi. rewrite <- (H2 (S i) d Hi). f_equal. lia.
    + rewrite <- H3. f_equal. cbn. lia.
Qed.

Lemma cstring_bytes m a l : cstr_at m a l -> Z.of_nat (length l) < 65536 -> cstring m a = map s8 l.
Proof. intros H Hl. apply read_cstr_bytes; [done | lia]. Qed.

Lemma map_s8_inj l l' : is_cstr l -> is_cstr l' -> map s8 l = map s8 l' -> l = l'.
Proof.
  revert l'. induction l as [|c l IH]; intros [|d l'] H H' E; try done.
  apply Forall_cons_iff in H as [Hc H]. apply Forall_cons_iff in H' as [Hd H']. injection E as E1 E2.
  f_equal; [apply s8_inj; lia | by apply IH].
Qed.

Lemma map_s8_nonzero l : is_cstr l -> Forall (fun c => c <> 0) (map s8 l).
Proof. intros H. apply Forall_map. eapply Forall_impl; [| exact H]. intros c Hc E. cbn in *. apply s8_zero in E; lia. Qed.

Lemma substring_equal l l' : is_cstr l -> is_cstr l' -> (substring (map s8 l) (map s8 l') =? 0) = bool_decide (l' = l).
Proof.
  intros H H'. rewrite substring_cases by (by apply map_s8_nonzero). destruct (decide (map s8 l = map s8 l')) as [E | E].
  - apply map_s8_inj in E; [| done | done]. subst. by rewrite bool_decide_eq_true_2.
  - rewrite bool_decide_eq_false_2 by (intros ->; done). by destruct (decide _).
Qed.

Lemma compare_name_ok m dirname n l : cstr_at m dirname n -> cstr_at m NAME_BUF l ->
  Z.of_nat (length n) < 65536 -> Z.of_nat (length l) < 65536 -> (compare_name dirname m =? 0) = bool_decide (l = n).
Proof.
  intros Hn Hl H1 H2. unfold compare_name. rewrite (cstring_bytes m dirname n), (cstring_bytes m NAME_BUF l) by done.
  apply substring_equal; [apply Hn | apply Hl].
Qed.

(** *** Short names *)

Lemma checksum_turn s c : 0 <= s < 256 -> u8 (((s .>> 1) .| (s .<< 7)) + c) = (rotate_right s + c) mod 256.
Proof.
  intros Hs. assert (forallb (fun s => ((s .>> 1) .| (s .<< 7)) mod 256 =? rotate_right s) (seqZ 0 256) = true) as H by (vm_compute; reflexivity).
  pose proof (forall_range _ _ H s Hs) as E. cbn beta in E. apply Z.eqb_eq in E. unfold u8. rewrite <- Z.add_mod_idemp_l by lia. by rewrite E.
Qed.

Lemma name_checksum_ok dir_buf m e : (forall i, 0 <= i < 32 -> ld m (dir_buf + i) = e i) -> name_checksum dir_buf m = e_sum e.
Proof.
  intros He. unfold name_checksum, e_sum.
  enough (for_range 0 11 (fun i sum => u8 (((sum .>> 1) .| (sum .<< 7)) + ld m (dir_buf + i))) 0
          = foldl (fun sum i => (rotate_right sum + e (Z.of_nat i)) mod 256) 0 (seq 0 (Z.to_nat 11)) /\
          0 <= for_range 0 11 (fun i sum => u8 (((sum .>> 1) .| (sum .<< 7)) + ld m (dir_buf + i))) 0 < 256) as [H _] by exact H.
  apply (for_range_inv (fun j s => s = foldl (fun sum i => (rotate_right sum + e (Z.of_nat i)) mod 256) 0 (seq 0 (Z.to_nat j)) /\ 0 <= s < 256));
    [lia | done |].
  intros j t Hj [-> Ht]. rewrite checksum_turn, He by lia. split; [| apply Z.mod_pos_bound; lia].
  replace (Z.to_nat (j + 1)) with (S (Z.to_nat j)) by lia. rewrite seq_S, foldl_app. cbn [foldl]. rewrite Nat.add_0_l, Z2Nat.id by lia. done.
Qed.

Lemma lower_tests x : 0 <= x < 256 ->
  let c := grub_tolower (s8 x) in ((c =? 0) || grub_isspace c) = ((lower x =? 0) || grub_isspace (lower x)) /\ u8 c = lower x /\ 0 <= lower x < 256.
Proof.
  intros Hx c. split; [| split; [done | apply u8_range]].
  pose (f x := Bool.eqb ((grub_tolower (s8 x) =? 0) || grub_isspace (grub_tolower (s8 x))) ((lower x =? 0) || grub_isspace (lower x))).
  assert (f x = true) as E by (apply (forall_range f 256); [vm_compute; reflexivity | done]). by apply eqb_prop in E.
Qed.

Lemma word_of_cstr l : Forall (fun c => 0 <= c < 256) l -> is_cstr (word_of l).
Proof.
  induction l as [|c l IH]; intros H; cbn [word_of]; [constructor |]. apply Forall_cons_iff in H as [Hc H].
  destruct (Z.eqb_spec c 0); cbn [orb]; [constructor |]. destruct (grub_isspace c); [constructor |]. apply is_cstr_cons. split; [lia | by apply IH].
Qed.

Lemma word_of_length l : (length (word_of l) <= length l)%nat.
Proof. induction l as [|c l IH]; cbn [word_of]; [done |]. destruct (_ || _); cbn; lia. Qed.

(** [name_part] stores the word that starts at [src + i]. *)
Lemma name_part_ok n : forall src dest i m, 0 <= i ->
  (forall j, i <= j < i + Z.of_nat n -> 0 <= ld m (src + j) < 256) ->
  (forall j k, i <= j < i + Z.of_nat n -> i <= k < i + Z.of_nat n -> src + j <> dest + k) ->
  let w := word_of (map (fun j => lower (ld m (src + (i + Z.of_nat j)))) (seq 0 n)) in
  exists m', name_part n src dest i m = (i + Z.of_nat (length w), m') /\
    (forall (x : nat) c, w !! x = Some c -> ld m' (dest + (i + Z.of_nat x)) = c) /\
    (forall a, ~ (dest + i <= a < dest + i + Z.of_nat n) -> ld m' a = ld m a).
Proof.
  induction n as [|n IH]; intros src dest i m Hi Hr Hd w.
  - exists m. cbn. rewrite Z.add_0_r. done.
  - cbn [name_part]. destruct (lower_tests (ld m (src + i)) (Hr i ltac:(lia))) as (E1 & E2 & E3). rewrite E1, E2.
    assert (w = if (lower (ld m (src + i)) =? 0) || grub_isspace (lower (ld m (src + i))) then []
                else lower (ld m (src + i)) :: word_of (map (fun j => lower (ld m (src + (i + 1 + Z.of_nat j)))) (seq 0 n))) as Ew.
    { subst w. cbn [seq map word_of]. change (Z.of_nat 0) with 0. rewrite Z.add_0_r.
      match goal with |- (if ?t then _ else _) = _ => destruct t end; [reflexivity |]. do 2 f_equal.
      rewrite <- seq_shift, map_map. apply map_ext. intros j. do 3 f_equal. lia. }
    clearbody w. subst w. clear E1. match goal with |- context [if ?t then _ else _] => destruct t end.
    + eexists. cbn. rewrite Z.add_0_r. split; [done |]. split; [by intros [|x] c' |]. intros a Ha. apply ld_st_ne. lia.
    + set (m1 := st m (dest + i) _).
      assert (forall j, i < j < i + Z.of_nat (S n) -> ld m1 (src + j) = ld m (src + j)) as Hm1.
      { intros j Hj. apply ld_st_ne. intros E. apply (Hd j i); lia. }
      destruct (IH src dest (i + 1) m1) as (m' & Em & H1 & H2); [lia | | |].
      * intros j Hj. rewrite Hm1 by lia. apply Hr. lia.
      * intros j k Hj Hk. apply Hd; lia.
      * assert (map (fun j => lower (ld m1 (src + (i + 1 + Z.of_nat j)))) (seq 0 n) = map (fun j => lower (ld m (src + (i + 1 + Z.of_nat j)))) (seq 0 n)) as Eq.
        { apply map_ext_in. intros j Hj%in_seq. by rewrite Hm1 by lia. }
        rewrite Eq in Em, H1. exists m'. split; [rewrite Em; cbn [length]; f_equal; lia |]. split.
        -- intros [|x] c Hc; cbn in Hc.
           ++ injection Hc as <-. rewrite H2 by lia. rewrite Z.add_0_r. apply ld_st_eq.
           ++ apply H1 in Hc. rewrite <- Hc. f_equal. lia.
        -- intros a Ha. rewrite H2 by lia. apply ld_st_ne. lia.
Qed.

Lemma e_part_length e from n : (length (e_part e from n) <= n)%nat.
Proof. unfold e_part. etransitivity; [apply word_of_length |]. by rewrite length_map, length_seq. Qed.

Lemma e_part_cstr e from n : is_cstr (e_part e from n).
Proof. apply word_of_cstr, List.Forall_map. apply List.Forall_forall. intros i _. apply u8_range. Qed.

Lemma e_short_cstr e : is_cstr (e_short e) /\ (length (e_short e) <= 12)%nat.
Proof.
  unfold e_short, dotted. pose proof (e_part_length e 0 8). pose proof (e_part_length e 8 3). pose proof (e_part_cstr e 8 3).
  rewrite length_app, is_cstr_app. split; [split; [apply e_part_cstr |] |]; case_decide.
  - constructor.
  - by apply is_cstr_cons.
  - cbn [length]. lia.
  - cbn [length]. lia.
Qed.

Lemma short_name_ok dir_buf m e : (forall i, 0 <= i < 32 -> ld m (dir_buf + i) = e i) -> (forall i, 0 <= i < 32 -> 0 <= e i < 256) ->
  (forall i k, 0 <= i < 32 -> 0 <= k < 13 -> dir_buf + i <> NAME_BUF + k) ->
  cstr_at (short_name dir_buf m) NAME_BUF (e_short e) /\
  (forall a, ~ (NAME_BUF <= a < NAME_BUF + 13) -> ld (short_name dir_buf m) a = ld m a).
Proof.
  intros He Hr Hd. unfold short_name.
  destruct (name_part_ok 8 dir_buf NAME_BUF 0 m) as (m1 & E1 & W1 & F1); [lia | | |].
  { intros j Hj. rewrite He by lia. apply Hr. lia. }
  { intros j k Hj Hk. apply Hd; lia. }
  assert (word_of (map (fun j => lower (ld m (dir_buf + (0 + Z.of_nat j)))) (seq 0 8)) = e_part e 0 8) as Q.
  { unfold e_part. f_equal. apply map_ext_in. intros j Hj%in_seq. rewrite He by lia. do 2 f_equal. }
  rewrite Q in E1, W1. rewrite E1. clear Q. rewrite Z.add_0_l. pose proof (e_part_length e 0 8) as L1. set (w1 := e_part e 0 8) in *.
  set (n1 := Z.of_nat (length w1)) in *. set (m2 := st m1 (NAME_BUF + n1) 46).
  destruct (name_part_ok 3 (dir_buf + 8) (NAME_BUF + (n1 + 1)) 0 m2) as (m3 & E3 & W3 & F3); [lia | | |].
  { intros j Hj. unfold m2. rewrite ld_st_ne by (intros E; apply (Hd (8 + j) n1); lia). rewrite F1 by (intros Hc; apply (Hd (8 + j) (dir_buf + 8 + j - NAME_BUF)); lia).
    rewrite <- Z.add_assoc, He by lia. apply Hr. lia. }
  { intros j k Hj Hk E. apply (Hd (8 + j) (n1 + 1 + k)); lia. }
  assert (word_of (map (fun j => lower (ld m2 (dir_buf + 8 + (0 + Z.of_nat j)))) (seq 0 3)) = e_part e 8 3) as Q.
  { unfold e_part. f_equal. change (seq 8 3) with (map (fun x => (8 + x)%nat) (seq 0 3)). rewrite map_map. apply map_ext_in. intros j Hj%in_seq. f_equal.
    unfold m2. rewrite ld_st_ne by (intros E; apply (Hd (8 + Z.of_nat j) n1); lia).
    rewrite F1 by (intros Hc; apply (Hd (8 + Z.of_nat j) (dir_buf + 8 + Z.of_nat j - NAME_BUF)); lia).
    rewrite <- Z.add_assoc, He by lia. f_equal. lia. }
  rewrite Q in E3, W3. rewrite E3. clear Q. rewrite Z.add_0_l. pose proof (e_part_length e 8 3) as L3. unfold e_short. fold w1. set (w3 := e_part e 8 3) in *.
  destruct (e_short_cstr e) as [Hc Hlen]. unfold e_short in Hc, Hlen. fold w1 w3 in Hc, Hlen.
  set (n := if Z.of_nat (length w3) =? 0 then n1 + 1 - 1 else n1 + 1).
  assert (n + Z.of_nat (length w3) = Z.of_nat (length (w1 ++ dotted w3))) as En.
  { subst n n1. rewrite length_app. unfold dotted. clearbody w3. destruct w3; [rewrite decide_True by done; change (Z.of_nat (length []) =? 0) with true; cbn [length]; lia |].
    rewrite decide_False by done. cbn [length]. rewrite (proj2 (Z.eqb_neq _ 0)) by lia. lia. }
  rewrite En. split.
  - split; [done |]. split; [| apply ld_st_eq].
    intros i c Hi. pose proof (lookup_lt_Some _ _ _ Hi) as Hl. rewrite ld_st_ne by lia.
    apply lookup_app_Some in Hi as [Hi | [Hge Hi]].
    + pose proof (lookup_lt_Some _ _ _ Hi). rewrite F3 by lia. unfold m2. rewrite ld_st_ne by lia. by apply (W1 i).
    + unfold dotted in Hi. case_decide; [done |]. destruct (i - length w1)%nat as [|j] eqn:Ej.
      * cbn in Hi. injection Hi as <-. rewrite F3 by lia. unfold m2. replace (Z.of_nat i) with n1 by lia. apply ld_st_eq.
      * cbn in Hi. apply W3 in Hi. rewrite <- Hi. f_equal. lia.
  - intros a Ha. rewrite ld_st_ne by lia. rewrite F3 by lia. unfold m2. rewrite ld_st_ne by lia. apply F1. lia.
Qed.

(** *** Reading entries *)

(** A directory: the fixed root of a small volume, or a chain of clusters. *)
Inductive source := Root | Chain (first : Z) (l : list Z).

Section Scan.
Context (b : bios) (mem_lower mem_upper drive part_start part_length : Z) (byte : Z -> Z)
        {R : PartReader b mem_lower mem_upper drive part_start part_length byte}.
Variables (current_term : term_entry) (max_lines : Z).
Variable v : volume.
Hypothesis bytes_ok : forall x, 0 <= byte x < 256.
Hypothesis vol : volume_ok v part_length.
Hypothesis lower_memory : 512 <= mem_lower <= 1024.
Hypothesis upper_memory : 0 <= mem_upper < 4194304.
Variable dir_buf : Z.
Hypothesis dir_place : place_ok mem_lower mem_upper dir_buf 32.
Hypothesis dir_apart : forall i k, 0 <= i < 32 -> 0 <= k < 833 -> dir_buf + i <> NAME_BUF + k.

Abbreviation mounted := (mounted b mem_lower mem_upper drive part_start part_length byte v).
Abbreviation opened_file := (opened_file b mem_lower mem_upper drive part_start part_length byte v).
Abbreviation fat_read := (fat_read b mem_lower mem_upper).
Abbreviation scan_entries := (scan_entries b mem_lower mem_upper current_term max_lines dir_buf).

Definition src_byte (src : source) (p : Z) : Z :=
  match src with Root => byte (v_root v * 512 + p) | Chain _ l => chain_byte byte v l p end.
Definition src_size (src : source) : Z :=
  match src with Root => v_root_max v | Chain _ l => Z.of_nat (length l) * cluster_size v end.

Definition dir_open (src : source) (s : fs) : Prop :=
  match src with
  | Root => mounted s /\ get file_cluster s < 0 /\ 0 < v_root_max v
  | Chain first l => opened_file first l s
  end.

Definition scratch (a : Z) : Prop := in_buffer a \/ in_fat a \/ dir_buf <= a < dir_buf + 32 \/ NAME_BUF <= a < NAME_BUF + 833.

(** Apart from the disk, the hook and the position the state is the same. *)
Definition same_fs (s s' : fs) : Prop := exists d h u w p, s' = set_pos p (set_hook h (set_maps u w (set_fdisk d s))).
(** What a search leaves alone besides. *)
Definition same_conf (s s' : fs) : Prop :=
  f_dev s' = f_dev s /\ f_part s' = f_part s /\ fsmax s' = fsmax s /\ fsys_type s' = fsys_type s /\
  block_file s' = block_file s /\ compressed_file s' = compressed_file s /\ f_io s' = f_io s.
Definition only_scratch (s s' : fs) : Prop := forall a, ~ scratch a -> ld (f_mem s') a = ld (f_mem s) a.

Lemma same_fs_trans s1 s2 s3 : same_fs s1 s2 -> same_fs s2 s3 -> same_fs s1 s3.
Proof. intros (d & h & u & w & p & ->) (d' & h' & u' & w' & p' & ->). by exists d', h', u', w', p'. Qed.

Lemma same_fs_mem s m : same_fs s (set_fmem m s).
Proof. exists (set_mem m (f_disk s)), (disk_read_hook s), (mapblock1 s), (mapblock2 s), (filepos s). by destruct s. Qed.

Lemma src_size_range src s : dir_open src s -> 0 < src_size src <= part_length * 512 /\ src_size src < 2147483648.
Proof.
  pose proof (cluster_size_range part_length v vol) as [Hc _]. destruct vol. destruct src as [| first l]; cbn.
  - intros (_ & _ & H). lia.
  - intros O. pose proof (cluster_chain_length part_length byte v vol _ _ (of_chain _ _ _ _ _ _ _ _ _ _ _ O)) as Hl.
    pose proof (cluster_chain_head byte v _ _ (of_chain _ _ _ _ _ _ _ _ _ _ _ O)) as Hh. apply lookup_lt_Some in Hh. nia.
Qed.

Lemma mounted_write s m : mounted s -> (forall a, in_buffer a \/ in_fat a -> ld m a = ld (f_mem s) a) -> mounted (set_fmem m s).
Proof.
  intros [O S T] H.
  assert (forall f, sget f m = sget f (f_mem s)) as Hget by (intros f; apply sget_frame; intros a Ha; apply H; right; by apply super_in_fat).
  constructor.
  - apply opened_disk; [done |]. apply pr_write; [apply O |]. intros a Ha. apply H. by left.
  - unfold super_is. cbn. by rewrite !Hget.
  - unfold table_cached. cbn. rewrite Hget. destruct T as [T | (T1 & T2 & T3)]; [by left | right]. split; [done |]. split; [done |].
    intros i Hi. rewrite <- T3 by done. apply H. right. apply buf_in_fat. unfold FAT_CACHE_SIZE. lia.
Qed.

Lemma dir_open_write src s m : dir_open src s -> (forall a, in_buffer a \/ in_fat a -> ld m a = ld (f_mem s) a) -> dir_open src (set_fmem m s).
Proof.
  intros O H.
  assert (forall f, sget f m = sget f (f_mem s)) as Hget by (intros f; apply sget_frame; intros a Ha; apply H; right; by apply super_in_fat).
  destruct src as [| first l]; cbn in *.
  - destruct O as (M & F & P). split; [by apply mounted_write |]. unfold get in *. cbn. by rewrite Hget.
  - destruct O as [M F C P]. constructor; [by apply mounted_write | cbn; by rewrite Hget | done |]. unfold in_chain in *. cbn. by rewrite !Hget.
Qed.

Lemma name_not_fat k : 0 <= k < 833 -> ~ in_buffer (NAME_BUF + k) /\ ~ in_fat (NAME_BUF + k).
Proof. unfold in_buffer, in_fat, BUFFERADDR, BUFFERLEN, FAT_BUF, FAT_SUPER, NAME_BUF, FSYS_BUF. lia. Qed.

Lemma dir_open_name src s m : dir_open src s -> (forall a, ~ (NAME_BUF <= a < NAME_BUF + 833) -> ld m a = ld (f_mem s) a) ->
  dir_open src (set_fmem m s).
Proof.
  intros O H. apply dir_open_write; [done |]. intros a Ha. apply H. intros Hn.
  destruct (name_not_fat (a - NAME_BUF) ltac:(lia)) as [H1 H2]. replace (NAME_BUF + (a - NAME_BUF)) with a in * by lia. tauto.
Qed.

(** An entry that has been read. *)
Record entry_read (src : source) (s s' : fs) : Prop := {
  er_same : same_fs s s';
  er_pos : filepos s' = filepos s + 32;
  er_open : dir_open src s';
  er_bytes : forall i, 0 <= i < 32 -> ld (f_mem s') (dir_buf + i) = entry_at (src_byte src) (filepos s) i;
  er_frame : forall a, ~ in_buffer a -> ~ in_fat a -> ~ (dir_buf <= a < dir_buf + 32) -> ld (f_mem s') a = ld (f_mem s) a }.

Lemma root_fields s : mounted s -> get root_offset s = v_root v /\ get root_max s = v_root_max v.
Proof. intros M. by destruct (mo_super _ _ _ _ _ _ _ _ _ M) as (_ & _ & _ & Q1 & Q2 & _). Qed.

(** The superblock and the cache do not notice a read to another place. *)
Lemma mounted_read s d buf len : mounted s -> place_ok mem_lower mem_upper buf len -> opened b mem_lower mem_upper drive part_start part_length byte (set_fdisk d s) ->
  (forall a, ~ in_buffer a -> ~ (buf <= a < buf + len) -> ld (d_mem d) a = ld (f_mem s) a) -> mounted (set_fdisk d s) /\ forall f, sget f (d_mem d) = sget f (f_mem s).
Proof.
  intros [O S T] [_ Hp] Od F.
  assert (forall a, in_fat a -> ld (d_mem d) a = ld (f_mem s) a) as Hf.
  { intros a Ha. apply F; [intros Hb; by apply (fat_apart a Hb) | intros Hb; by apply (Hp a Hb)]. }
  assert (forall f, sget f (d_mem d) = sget f (f_mem s)) as Hget by (intros f; apply sget_frame; intros a Ha; by apply Hf, super_in_fat).
  split; [| done]. constructor; [done | |].
  - unfold super_is. change (f_mem (set_fdisk d s)) with (d_mem d). by rewrite !Hget.
  - unfold table_cached. change (f_mem (set_fdisk d s)) with (d_mem d). rewrite Hget. destruct T as [T | (T1 & T2 & T3)]; [by left | right].
    split; [done |]. split; [done |]. intros i Hi. rewrite <- T3 by done. apply Hf. apply buf_in_fat. unfold FAT_CACHE_SIZE. lia.
Qed.

Lemma mounted_pos s x : mounted s -> mounted (set_pos x s).
Proof. intros [[] S T]. constructor; [by constructor | done | done]. Qed.

Lemma dir_read src s : dir_open src s -> 0 <= filepos s -> filepos s + 32 <= src_size src ->
  exists s', fat_read dir_buf 32 s = Some (32, s') /\ entry_read src s s'.
Proof.
  intros O Hp Hs. pose proof (src_size_range src s O) as Hr. destruct src as [| first l].
  - destruct O as (M & F & P). unfold GrubFat.fat_read. rewrite (proj2 (Z.ltb_lt _ 0)) by done.
    destruct (root_fields s M) as [-> ->]. cbn [src_size] in *.
    assert ((if 32 <? v_root_max v - filepos s then 32 else v_root_max v - filepos s) = 32) as -> by (zcase; lia).
    destruct (vo_root _ _ vol) as [E | (_ & V1 & V2)]; [lia |]. pose proof (vo_length _ _ vol).
    destruct (fs_devread_ok b mem_lower mem_upper drive part_start part_length byte s (v_root v) (filepos s) 32 dir_buf
      (mo_opened _ _ _ _ _ _ _ _ _ M) (proj1 dir_place)) as (d & -> & Od & B & Fr); [lia | lia | lia | lia | lia |].
    cbn [mbind option_bind Z.eqb]. eexists. split; [reflexivity |].
    destruct (mounted_read s d dir_buf 32 M dir_place Od Fr) as [Md Hget].
    constructor.
    + exists d, (disk_read_hook s), (mapblock1 s), (mapblock2 s), (filepos s + 32). by destruct s.
    + done.
    + cbn. split; [by apply mounted_pos |]. split; [| done]. unfold get in *. change (f_mem (set_pos _ _)) with (d_mem d). by rewrite Hget.
    + intros i Hi. change (f_mem (set_pos _ _)) with (d_mem d). rewrite B by done. unfold entry_at. cbn. f_equal. lia.
    + intros a H1 H2 H3. change (f_mem (set_pos _ _)) with (d_mem d). by apply Fr.
  - cbn in O, Hs, Hr. pose proof (of_chain _ _ _ _ _ _ _ _ _ _ _ O) as Hch.
    destruct (fat_read_ok b mem_lower mem_upper drive part_start part_length byte v bytes_ok vol lower_memory upper_memory first l s dir_buf 32 O)
      as (s' & E & [Mv [j A] B Fr]); [lia | lia | done |].
    assert (available (Z.of_nat (length l) * cluster_size v) (filepos s) 32 = 32) as Ea by (unfold available; lia). rewrite Ea in *.
    exists s'. split; [exact E |]. destruct Mv as (d & h & u & w & Es). constructor.
    + exists d, h, u, w, (filepos s + 32). done.
    + by rewrite Es.
    + cbn. by eapply at_opened.
    + intros i Hi. rewrite B by done. done.
    + done.
Qed.

Lemma dir_read_end src s : dir_open src s -> filepos s = src_size src ->
  exists s', fat_read dir_buf 32 s = Some (0, s') /\ same_fs s s' /\ dir_open src s' /\ only_scratch s s'.
Proof.
  intros O Hp. pose proof (src_size_range src s O) as Hr. destruct src as [| first l].
  - destruct O as (M & F & P). unfold GrubFat.fat_read. rewrite (proj2 (Z.ltb_lt _ 0)) by done.
    destruct (root_fields s M) as [-> ->]. cbn [src_size] in *. rewrite Hp, Z.sub_diag. change (32 <? 0) with false. cbn iota.
    destruct (vo_root _ _ vol) as [E | (_ & V1 & V2)]; [lia |]. pose proof (vo_length _ _ vol).
    unfold fs_devread. destruct (mo_opened _ _ _ _ _ _ _ _ _ M) as [G D1 D2 D3]. rewrite D1, D2, D3.
    rewrite (pr_nothing (f_disk s) (v_root v) (v_root_max v) dir_buf G) by lia. cbn [mbind option_bind Z.eqb].
    replace (set_fdisk (f_disk s) s) with s by (by destruct s). rewrite Hp, Z.add_0_r, <- Hp. exists (set_pos (filepos s) s). split; [done |].
    assert (set_pos (filepos s) s = s) as -> by (by destruct s). split; [| done]. exists (f_disk s), (disk_read_hook s), (mapblock1 s), (mapblock2 s), (filepos s). by destruct s.
  - cbn in O, Hp, Hr. pose proof (of_chain _ _ _ _ _ _ _ _ _ _ _ O) as Hch.
    destruct (fat_read_ok b mem_lower mem_upper drive part_start part_length byte v bytes_ok vol lower_memory upper_memory first l s dir_buf 32 O)
      as (s' & E & [Mv [j A] B Fr]); [lia | lia | done |].
    assert (available (Z.of_nat (length l) * cluster_size v) (filepos s) 32 = 0) as Ea by (unfold available; lia). rewrite Ea in *.
    exists s'. split; [exact E |]. destruct Mv as (d & h & u & w & Es). split; [by exists d, h, u, w, (filepos s + 0) |]. split; [by eapply at_opened |].
    intros a Ha. unfold scratch in Ha. apply Fr; tauto.
Qed.

(** *** Long names *)

Lemma id_bits k : 1 <= k <= 63 -> ((64 + k) .& 0x40 =? 0) = false /\ (64 + k) .& 0x3f = k /\ (k .& 0x40 =? 0) = true.
Proof.
  intros Hk. pose (f k := negb ((64 + k) .& 0x40 =? 0) && ((64 + k) .& 0x3f =? k) && (k .& 0x40 =? 0)).
  assert (f k = true) as E by (apply (forall_range f 64); [vm_compute; reflexivity | lia]).
  unfold f in E. rewrite !andb_true_iff, negb_true_iff, Z.eqb_eq in E. tauto.
Qed.

Lemma longdir_pos_range i : 0 <= i < 13 -> 0 <= nth (Z.to_nat i) longdir_pos 0 < 32.
Proof.
  intros Hi. pose (f i := (0 <=? nth (Z.to_nat i) longdir_pos 0) && (nth (Z.to_nat i) longdir_pos 0 <? 32)).
  assert (f i = true) as E by (apply (forall_range f 13); [vm_compute; reflexivity | done]).
  unfold f in E. rewrite andb_true_iff, Z.leb_le, Z.ltb_lt in E. done.
Qed.

(** Only the buffer of names changed. *)
Definition only_name (s s' : fs) : Prop := exists m, s' = set_fmem m s /\ forall a, ~ (NAME_BUF <= a < NAME_BUF + 833) -> ld m a = ld (f_mem s) a.

(** The copy of a piece. *)
Lemma piece_copied m e offset : (forall i, 0 <= i < 32 -> ld m (dir_buf + i) = e i) -> 0 <= offset -> offset + 13 <= 833 ->
  let m' := for_range 0 13 (fun i m => st m (NAME_BUF + (offset + i)) (ld m (dir_buf + nth (Z.to_nat i) longdir_pos 0))) m in
  (forall i, 0 <= i < 13 -> ld m' (NAME_BUF + (offset + i)) = e (nth (Z.to_nat i) longdir_pos 0)) /\
  (forall a, ~ (NAME_BUF + offset <= a < NAME_BUF + offset + 13) -> ld m' a = ld m a).
Proof.
  intros He Ho1 Ho2 m'. subst m'.
  refine (for_range_inv (fun k m' => (forall i, 0 <= i < k -> ld m' (NAME_BUF + (offset + i)) = e (nth (Z.to_nat i) longdir_pos 0)) /\
    (forall a, ~ (NAME_BUF + offset <= a < NAME_BUF + offset + k) -> ld m' a = ld m a)) _ 0 13 m ltac:(lia) _ _).
  - split; [intros i Hi; lia | done].
  - intros j t Hj [H1 H2]. pose proof (longdir_pos_range j Hj) as Hp. split.
    + intros i Hi. rewrite ld_st. case_decide as E; [| apply H1; lia]. assert (i = j) as -> by lia.
      rewrite H2; [by apply He |]. intros Hb. apply (dir_apart (nth (Z.to_nat j) longdir_pos 0) (dir_buf + nth (Z.to_nat j) longdir_pos 0 - NAME_BUF)); lia.
    + intros a Ha. rewrite ld_st_ne by lia. apply H2. lia.
Qed.

(** One piece: the first of a name, or the next. *)
Lemma long_entry_ok s e k slot alias (first : bool) : (forall i, 0 <= i < 32 -> ld (f_mem s) (dir_buf + i) = e i) -> 1 <= k <= 63 ->
  e 0 = (if first then 64 + k else k) -> (if first then True else slot = k /\ alias = e 13) ->
  exists s', long_entry dir_buf slot alias s = (k - 1, e 13, s') /\ only_name s s' /\
    (forall i, 0 <= i < 13 -> ld (f_mem s') (NAME_BUF + ((k - 1) * 13 + i)) = e (nth (Z.to_nat i) longdir_pos 0)) /\
    (forall n, k * 13 <= n -> ld (f_mem s') (NAME_BUF + n) = if first && (n =? k * 13) then 0 else ld (f_mem s) (NAME_BUF + n)).
Proof.
  intros He Hk Hid Hst. destruct (id_bits k Hk) as (I1 & I2 & I3). unfold long_entry, FAT_LONGDIR_ID, FAT_LONGDIR_ALIASCHECKSUM.
  assert (ld (f_mem s) dir_buf = e 0) as E0 by (rewrite <- (He 0) by lia; by rewrite Z.add_0_r). rewrite E0, Hid.
  set (m1 := if first then st (f_mem s) (NAME_BUF + k * 13) 0 else f_mem s).
  assert (forall i, 0 <= i < 32 -> ld m1 (dir_buf + i) = e i) as He1.
  { intros i Hi. subst m1. destruct first; [| by apply He]. rewrite ld_st_ne; [by apply He |]. intros E. apply (dir_apart i (k * 13)); lia. }
  assert (forall a, ~ (NAME_BUF <= a < NAME_BUF + 833) -> ld m1 a = ld (f_mem s) a) as Hm1.
  { intros a Ha. subst m1. destruct first; [| done]. apply ld_st_ne. lia. }
  destruct (piece_copied m1 e ((k - 1) * 13) He1) as [P1 P2]; [lia | lia |].
  assert (long_entry dir_buf slot alias s = (k - 1, e 13, set_fmem (for_range 0 13 (fun i m => st m (NAME_BUF + ((k - 1) * 13 + i)) (ld m (dir_buf + nth (Z.to_nat i) longdir_pos 0))) m1) s)) as E.
  { unfold long_entry, FAT_LONGDIR_ID, FAT_LONGDIR_ALIASCHECKSUM. rewrite E0, Hid. destruct first.
    - rewrite I1. cbn [negb]. rewrite I2, Z.eqb_refl. fold m1. rewrite (He1 13), (He 13), Z.eqb_refl by lia.
      rewrite (proj2 (Z.eqb_neq k 0)) by lia. done.
    - rewrite I3. cbn [negb]. destruct Hst as [-> ->]. fold m1. rewrite (He1 13), !Z.eqb_refl by lia. rewrite (proj2 (Z.eqb_neq k 0)) by lia. done. }
  unfold long_entry, FAT_LONGDIR_ID, FAT_LONGDIR_ALIASCHECKSUM in E. rewrite E0, Hid in E. rewrite E. clear E.
  set (m2 := for_range 0 13 _ m1) in *. exists (set_fmem m2 s). split; [done |]. split; [| split].
  - exists m2. split; [done |]. intros a Ha. rewrite P2 by lia. by apply Hm1.
  - intros i Hi. by apply P1.
  - intros n Hn. change (f_mem (set_fmem m2 s)) with m2. rewrite P2 by lia. subst m1. destruct first; cbn [andb]; [| done].
    rewrite ld_st. destruct (Z.eqb_spec n (k * 13)) as [-> |]; [by rewrite decide_True |]. rewrite decide_False by lia. done.
Qed.

(** A step of the loop on an entry of a long name. *)
Lemma scan_long fuel dirname rest ch src s slot alias : dir_open src s -> 0 <= filepos s -> filepos s + 32 <= src_size src ->
  let e := entry_at (src_byte src) (filepos s) in
  e 0 <> 0 -> e_attrib e = 0x0F ->
  exists s1, entry_read src s s1 /\
    scan_entries (S fuel) dirname rest ch false slot alias s =
    let '(slot, alias, s2) := long_entry dir_buf slot alias s1 in scan_entries fuel dirname rest ch false slot alias s2.
Proof.
  intros O Hp Hs e H0 Ha. destruct (dir_read src s O Hp Hs) as (s1 & E & Er). exists s1. split; [done |].
  cbn [GrubFatDir.scan_entries]. change FAT_DIRENTRY_LENGTH with 32. rewrite E. cbn [mbind option_bind Z.eqb Pos.eqb negb orb].
  pose proof (er_bytes _ _ _ Er) as B. rewrite <- (Z.add_0_r dir_buf) at 1. rewrite (B 0), (proj2 (Z.eqb_neq _ 0)) by (done || lia).
  unfold FAT_DIRENTRY_ATTRIB. rewrite (B 11) by lia. rewrite (proj2 (Z.eqb_eq _ _)) by exact Ha. done.
Qed.

(** What the steps keep. *)
Record progress (src : source) (s s' : fs) : Prop := {
  pg_same : same_fs s s';
  pg_open : dir_open src s';
  pg_frame : only_scratch s s' }.

Lemma progress_refl src s : dir_open src s -> progress src s s.
Proof. intros O. constructor; [| done | done]. exists (f_disk s), (disk_read_hook s), (mapblock1 s), (mapblock2 s), (filepos s). by destruct s. Qed.

Lemma progress_trans src s1 s2 s3 : progress src s1 s2 -> progress src s2 s3 -> progress src s1 s3.
Proof. intros [A1 O1 F1] [A2 O2 F2]. constructor; [by eapply same_fs_trans | done |]. intros a Ha. rewrite F2 by done. by apply F1. Qed.

Lemma entry_progress src s s' : entry_read src s s' -> progress src s s'.
Proof. intros [A P O B F]. constructor; [done | done |]. intros a Ha. unfold scratch in Ha. apply F; tauto. Qed.

Lemma name_progress src s s' : dir_open src s -> only_name s s' -> progress src s s' /\ filepos s' = filepos s.
Proof.
  intros O (m & -> & H). split; [| done]. constructor; [apply same_fs_mem | by apply dir_open_name |].
  intros a Ha. apply H. unfold scratch in Ha. tauto.
Qed.

Lemma scan_pieces src p k name sum dirname rest ch (j : nat) : long_pieces (src_byte src) p k name sum -> Z.of_nat j <= k ->
  forall fuel s slot alias, dir_open src s -> filepos s = p -> 0 <= p -> p + 32 * k <= src_size src ->
  exists s' slot' alias', scan_entries (j + fuel) dirname rest ch false slot alias s = scan_entries fuel dirname rest ch false slot' alias' s' /\
    progress src s s' /\ filepos s' = p + 32 * Z.of_nat j /\ (0 < Z.of_nat j -> slot' = k - Z.of_nat j /\ alias' = sum /\
    forall n, (k - Z.of_nat j) * 13 <= n <= Z.of_nat (length name) -> ld (f_mem s') (NAME_BUF + n) = nth (Z.to_nat n) name 0).
Proof.
  intros (Hk & Hn & Hl & Hp) Hj. induction j as [|j IH]; intros fuel s slot alias O Ep H0 Hs.
  - exists s, slot, alias. split; [done |]. split; [by apply progress_refl |]. split; [lia |]. lia.
  - destruct (IH ltac:(lia) (S fuel) s slot alias O Ep H0 Hs) as (s1 & slot1 & alias1 & E1 & P1 & Ep1 & St1).
    replace (S j + fuel)%nat with (j + S fuel)%nat by lia. rewrite E1. clear E1 IH.
    destruct (Hp (Z.of_nat j) ltac:(lia)) as (Q1 & Q2 & Q3 & Q4). rewrite <- Ep1 in Q1, Q2, Q3, Q4.
    destruct (scan_long fuel dirname rest ch src s1 slot1 alias1 (pg_open _ _ _ P1)) as (s2 & Er & ->); [lia | lia | | exact Q2 |].
    { rewrite Q1. zcase; lia. }
    destruct (long_entry_ok s2 (entry_at (src_byte src) (filepos s1)) (k - Z.of_nat j) slot1 alias1 (Z.of_nat j =? 0) (er_bytes _ _ _ Er))
      as (s3 & -> & On & B3 & F3); [lia | | |].
    { rewrite Q1. destruct (Z.eqb_spec (Z.of_nat j) 0); lia. }
    { destruct (Z.eqb_spec (Z.of_nat j) 0); [done |]. destruct St1 as (-> & -> & _); [lia |]. by rewrite Q3. }
    destruct (name_progress src s2 s3 (er_open _ _ _ Er) On) as [P3 Ep3].
    exists s3, (k - Z.of_nat j - 1), sum. rewrite Q3. split; [done |]. split; [eapply progress_trans; [done |]; eapply progress_trans; [by apply entry_progress | done] |].
    split; [rewrite Ep3, (er_pos _ _ _ Er); lia |]. intros _. split; [lia |]. split; [done |].
    intros n Hn'. destruct (Z.ltb_spec n ((k - Z.of_nat j) * 13)) as [Hlt | Hge].
    + pose proof (Q4 (n - (k - Z.of_nat j - 1) * 13) ltac:(lia)) as Q. cbn zeta in Q.
      replace ((k - Z.of_nat j - 1) * 13 + (n - (k - Z.of_nat j - 1) * 13)) with n in Q by lia. rewrite <- Q by lia.
      rewrite <- B3 by lia. f_equal. lia.
    + rewrite F3 by done. destruct (Z.eqb_spec (Z.of_nat j) 0) as [Ej | Ej]; cbn [andb].
      * assert (n = 13 * k) as En by lia. rewrite (proj2 (Z.eqb_eq _ _)) by lia. rewrite nth_overflow by lia. done.
      * destruct St1 as (_ & _ & Sn); [lia |]. rewrite (er_frame _ _ _ Er).
        -- apply Sn. lia.
        -- apply name_not_fat. lia.
        -- apply name_not_fat. lia.
        -- intros Hb. apply (dir_apart (NAME_BUF + n - dir_buf) n); lia.
Qed.

(** The name that the pieces leave. *)
Lemma name_read m name : is_cstr name -> (forall n, 0 <= n <= Z.of_nat (length name) -> ld m (NAME_BUF + n) = nth (Z.to_nat n) name 0) ->
  cstr_at m NAME_BUF name.
Proof.
  intros Hc H. split; [done |]. split.
  - intros i c Hi. pose proof (lookup_lt_Some _ _ _ Hi). rewrite H by lia. rewrite Nat2Z.id. by apply nth_lookup_Some.
  - rewrite H by lia. rewrite Nat2Z.id. by apply nth_overflow.
Qed.

(** *** The search of a directory *)

Lemma e_sum_range e : 0 <= e_sum e < 256.
Proof.
  unfold e_sum. change (seq 0 11) with (seq 0 10 ++ [10%nat]). rewrite foldl_app. cbn [foldl]. apply Z.mod_pos_bound. lia.
Qed.

Lemma src_byte_range src p : 0 <= src_byte src p < 256.
Proof. destruct src; apply bytes_ok. Qed.

Section Search.
Variables (n : list Z) (dirname ch : Z) (src : source).
Hypothesis name_ok : is_cstr n /\ Z.of_nat (length n) < 65536.
Hypothesis name_apart : forall x, dirname <= x <= dirname + Z.of_nat (length n) -> ~ scratch x.
Abbreviation rest := (dirname + Z.of_nat (length n)).
Abbreviation D := (src_byte src).

(** The name to look for is in memory. *)
Definition named (s : fs) : Prop := dir_open src s /\ cstr_at (f_mem s) dirname n /\ print_possibilities s = 0.

Lemma named_progress s s' : named s -> progress src s s' -> named s'.
Proof.
  intros (O & C & P) [(d & h & u & w & p & ->) O' F]. split; [done |]. split; [| done].
  eapply cstr_at_frame; [| exact C]. intros x Hx. apply F. by apply name_apart.
Qed.

Lemma compare_named s l : named s -> cstr_at (f_mem s) NAME_BUF l -> Z.of_nat (length l) < 833 ->
  (compare_name dirname (f_mem s) =? 0) = bool_decide (l = n).
Proof. intros (_ & C & _) H Hl. apply compare_name_ok; [done | done | apply name_ok | lia]. Qed.

(** [dir_buf] holds an entry. *)
Definition buffered (e : Z -> Z) (s : fs) : Prop := forall i, 0 <= i < 32 -> ld (f_mem s) (dir_buf + i) = e i.

Lemma buffered_name e s s' : buffered e s -> only_name s s' -> buffered e s'.
Proof.
  intros B (m & -> & H) i Hi. cbn. rewrite H; [by apply B |]. intros Hb. apply (dir_apart i (dir_buf + i - NAME_BUF)); lia.
Qed.

Lemma short_step e s : named s -> buffered e s -> (forall i, 0 <= i < 32 -> 0 <= e i < 256) ->
  let s' := set_fmem (short_name dir_buf (f_mem s)) s in
  only_name s s' /\ (compare_name dirname (f_mem s') =? 0) = bool_decide (e_short e = n).
Proof.
  intros N B He s'.
  destruct (short_name_ok dir_buf (f_mem s) e B He) as [C F]; [intros i k Hi Hk; apply dir_apart; lia |].
  assert (only_name s s') as On by (exists (short_name dir_buf (f_mem s)); split; [done |]; intros a Ha; apply F; lia).
  split; [done |]. apply compare_named; [| exact C | pose proof (e_short_cstr e); lia].
  eapply named_progress; [exact N |]. by apply name_progress; [apply N |].
Qed.

Lemma valid_tests e s : buffered e s -> e_valid e ->
  (ld (f_mem s) dir_buf =? 0) = false /\ (FAT_DIRENTRY_ATTRIB (f_mem s) dir_buf =? FAT_ATTRIB_LONGNAME) = false /\
  FAT_DIRENTRY_VALID (f_mem s) dir_buf = true.
Proof.
  intros B (V1 & V2 & V3 & V4). unfold FAT_DIRENTRY_VALID, FAT_DIRENTRY_ATTRIB.
  rewrite <- (Z.add_0_r dir_buf) at 1. rewrite (B 0), (B 11) by lia.
  assert (ld (f_mem s) dir_buf = e 0) as -> by (rewrite <- (B 0) by lia; by rewrite Z.add_0_r).
  unfold e_attrib in *. split; [by apply Z.eqb_neq |]. split; [by apply Z.eqb_neq |].
  rewrite !(proj2 (Z.eqb_neq _ _)) by done. unfold FAT_ATTRIB_NOT_OK_MASK. by rewrite V3.
Qed.

Lemma scan_valid fuel s slot alias long : named s -> 0 <= filepos s -> filepos s + 32 <= src_size src ->
  let e := entry_at D (filepos s) in
  e_valid e ->
  match long with
  | None => slot <> 0 \/ alias = -1
  | Some name => slot = 0 /\ alias = e_sum e /\ cstr_at (f_mem s) NAME_BUF name /\ Z.of_nat (length name) < 833
  end ->
  exists s' slot', (slot' <> 0 \/ alias = -1) /\ progress src s s' /\ filepos s' = filepos s + 32 /\ buffered e s' /\
    scan_entries (S fuel) dirname rest ch false slot alias s
    = if has_name n (long, e) then Some (Found slot' alias, s') else scan_entries fuel dirname rest ch false slot' alias s'.
Proof.
  intros N Hp Hs e V Hl. destruct (dir_read src s (proj1 N) Hp Hs) as (s1 & E & Er).
  pose proof (entry_progress _ _ _ Er) as P1. pose proof (named_progress _ _ N P1) as N1.
  pose proof (er_bytes _ _ _ Er) as B1. fold e in B1. fold (buffered e s1) in B1. destruct (valid_tests e s1 B1 V) as (T1 & T2 & T3).
  destruct (short_step e s1 N1 B1 (fun i _ => src_byte_range src _)) as [On Hshort].
  set (s2 := set_fmem (short_name dir_buf (f_mem s1)) s1) in *.
  destruct (name_progress src s1 s2 (er_open _ _ _ Er) On) as [P2 Ep2].
  cbn [GrubFatDir.scan_entries]. change FAT_DIRENTRY_LENGTH with 32. rewrite E. cbn [mbind option_bind].
  change (negb (32 =? 32)) with false. cbn [orb]. rewrite T1, T2, T3. cbn [negb]. fold s2.
  unfold has_name. cbn [fst snd]. destruct long as [name |].
  - destruct Hl as (-> & -> & C & Hlen). pose proof (e_sum_range e) as Hsum. rewrite (proj2 (Z.eqb_neq (e_sum e) (-1))) by lia. cbn [negb andb].
    change (0 =? 0) with true. cbn iota. rewrite (name_checksum_ok dir_buf (f_mem s1) e B1), Z.eqb_refl. cbn [andb].
    assert (cstr_at (f_mem s1) NAME_BUF name) as C1.
    { eapply cstr_at_frame; [| exact C]. intros x Hx. replace x with (NAME_BUF + (x - NAME_BUF)) by lia.
      apply (er_frame _ _ _ Er); [apply name_not_fat; lia | apply name_not_fat; lia |]. intros Hb. apply (dir_apart (x - dir_buf) (x - NAME_BUF)); lia. }
    rewrite (compare_named s1 name N1 C1 Hlen). rewrite (bool_decide_ext (Some name = Some n) (name = n)) by (split; congruence).
    destruct (bool_decide (name = n)); cbn [orb].
    + exists s1, (-2). split; [by left |]. split; [done |]. split; [by apply Er |]. done.
    + exists s2, (-2). split; [by left |]. split; [by eapply progress_trans |]. split; [rewrite Ep2; by apply Er |].
      split; [by eapply buffered_name |]. by rewrite Hshort.
  - assert (negb (alias =? -1) && (slot =? 0) = false) as ->.
    { destruct Hl as [H | ->]; [rewrite (proj2 (Z.eqb_neq slot 0)) by done; apply andb_false_r | done]. }
    cbn [andb]. rewrite bool_decide_eq_false_2 by done. cbn [orb].
    exists s2, slot. split; [done |]. split; [by eapply progress_trans |]. split; [rewrite Ep2; by apply Er |].
    split; [by eapply buffered_name |]. by rewrite Hshort.
Qed.

Lemma deleted_entry e s slot alias : buffered e s -> e 0 = 0xE5 ->
  exists s' slot', long_entry dir_buf slot alias s = (slot', e 13, s') /\ slot' <> 0 /\ only_name s s'.
Proof.
  intros B E0. unfold long_entry, FAT_LONGDIR_ID, FAT_LONGDIR_ALIASCHECKSUM.
  assert (ld (f_mem s) dir_buf = 0xE5) as -> by (rewrite <- E0, <- (B 0) by lia; by rewrite Z.add_0_r).
  change (0xE5 .& 0x40 =? 0) with false. change (0xE5 .& 0x3f) with 37. cbn [negb]. rewrite (B 13) by lia.
  change (37 =? 37) with true. change (37 =? 0) with false. cbn [negb orb].
  set (m1 := st (f_mem s) (NAME_BUF + 37 * 13) 0).
  assert (forall i, 0 <= i < 32 -> ld m1 (dir_buf + i) = e i) as B1.
  { intros i Hi. subst m1. rewrite ld_st_ne; [by apply B |]. intros E. apply (dir_apart i (37 * 13)); lia. }
  rewrite (B1 13), Z.eqb_refl by lia. cbn [negb].
  destruct (piece_copied m1 e ((37 - 1) * 13) B1) as [_ P2]; [lia | lia |].
  eexists _, _. split; [reflexivity |]. split; [done |]. eexists. split; [reflexivity |].
  intros a Ha. rewrite P2 by lia. subst m1. apply ld_st_ne. lia.
Qed.

Lemma skip_tests e s : buffered e s -> e 0 <> 0 -> e_attrib e <> 0x0F -> ~ e_valid e ->
  (ld (f_mem s) dir_buf =? 0) = false /\ (FAT_DIRENTRY_ATTRIB (f_mem s) dir_buf =? FAT_ATTRIB_LONGNAME) = false /\
  FAT_DIRENTRY_VALID (f_mem s) dir_buf = false.
Proof.
  intros B H0 Ha Hv. unfold FAT_DIRENTRY_VALID, FAT_DIRENTRY_ATTRIB. rewrite (B 11) by lia.
  assert (ld (f_mem s) dir_buf = e 0) as -> by (rewrite <- (B 0) by lia; by rewrite Z.add_0_r).
  split; [by apply Z.eqb_neq |]. split; [by apply Z.eqb_neq |]. rewrite (proj2 (Z.eqb_neq _ 0)) by done. cbn [negb andb].
  destruct (Z.eqb_spec (e 0) 0xE5); [done |]. cbn [negb andb]. apply Z.eqb_neq. intros E. by apply Hv.
Qed.

(** The result of the search. *)
Definition searched (files : list (option (list Z) * (Z -> Z))) (s : fs) (r : option (found * fs)) : Prop :=
  match lookup_name n files with
  | Some e => exists slot alias s', r = Some (Found slot alias, s') /\ (slot <> 0 \/ alias = -1) /\ progress src s s' /\ buffered e s'
  | None => exists s1, progress src s s1 /\
      r = Some (Leave 0, let s := set_ferr ERR_FILE_NOT_FOUND s1 in set_fmem (st (f_mem s) rest ch) s)
  end.

Lemma searched_after files s1 s2 r : progress src s1 s2 -> searched files s2 r -> searched files s1 r.
Proof.
  unfold searched. intros P H. destruct (lookup_name n files) as [e |].
  - destruct H as (slot & alias & s' & -> & I & P' & B). eexists _, _, _. split; [done |]. split; [done |]. split; [by eapply progress_trans | done].
  - destruct H as (s3 & P' & ->). eexists. split; [by eapply progress_trans | done].
Qed.

Lemma searched_cons f files s r : searched (f :: files) s r <->
  if has_name n f then exists slot alias s', r = Some (Found slot alias, s') /\ (slot <> 0 \/ alias = -1) /\ progress src s s' /\ buffered (snd f) s'
  else searched files s r.
Proof. unfold searched, lookup_name. cbn [find]. by destruct (has_name n f). Qed.

Lemma scan_end fuel s slot alias : named s ->
  (filepos s = src_size src \/ (0 <= filepos s /\ filepos s + 32 <= src_size src /\ entry_at D (filepos s) 0 = 0)) ->
  searched [] s (scan_entries (S fuel) dirname rest ch false slot alias s).
Proof.
  intros N H. cbn [GrubFatDir.scan_entries]. change FAT_DIRENTRY_LENGTH with 32.
  assert (exists s1 k, fat_read dir_buf 32 s = Some (k, s1) /\ progress src s s1 /\ (negb (k =? 32) || (ld (f_mem s1) dir_buf =? 0) = true)) as (s1 & k & -> & P & T).
  { destruct H as [E | (H0 & H1 & E)].
    - destruct (dir_read_end src s (proj1 N) E) as (s1 & Er & A & O & F). exists s1, 0. split; [done |]. split; [by constructor | done].
    - destruct (dir_read src s (proj1 N) H0 H1) as (s1 & Er & R1). exists s1, 32. split; [done |]. split; [by apply entry_progress |].
      change (negb (32 =? 32)) with false. cbn [orb]. rewrite <- (Z.add_0_r dir_buf), (er_bytes _ _ _ R1), E by lia. done. }
  cbn [mbind option_bind]. rewrite T. pose proof (named_progress _ _ N P) as (O1 & _ & Pp).
  assert (f_err s1 = ERR_NONE) as Ee.
  { apply pr_no_error. destruct src; [destruct O1 as [M _]; apply M | destruct O1 as [M _ _ _]; apply M]. }
  rewrite decide_True by done. rewrite Pp. change (0 <? 0) with false. cbn iota. exists s1. done.
Qed.

Lemma scan_ok files p : listing D (src_size src) p files -> forall fuel s slot alias,
  named s -> filepos s = p -> 0 <= p <= src_size src -> (32 | p) -> (32 | src_size src) -> slot <> 0 \/ alias = -1 ->
  src_size src - p < 32 * Z.of_nat fuel -> searched files s (scan_entries fuel dirname rest ch false slot alias s).
Proof.
  intros L Hf s slot alias. revert Hf s slot alias.
  induction L as [p He | p l Hin H0 Ha Hv L IH | p l Hin H0 Ha L IH | p l Hin Hv L IH | p k name l Hin Hv Hl L IH];
    intros [|fuel] s slot alias N Ep Hp Dp Ds I Hf; try lia.
  - apply scan_end; [done |]. destruct Dp as [x ->], Ds as [y Ey]. destruct He as [He | He].
    + left. lia.
    + destruct (Z.leb_spec (x * 32 + 32) (src_size src)); [right; rewrite Ep; split; [lia | done] | left; lia].
  - rewrite <- Ep in *. destruct (dir_read src s (proj1 N)) as (s1 & E & Er); [lia | lia |].
    destruct (skip_tests _ s1 (er_bytes _ _ _ Er) H0 Ha Hv) as (T1 & T2 & T3).
    cbn [GrubFatDir.scan_entries]. change FAT_DIRENTRY_LENGTH with 32. rewrite E. cbn [mbind option_bind].
    change (negb (32 =? 32)) with false. cbn [orb]. rewrite T1, T2, T3. cbn [negb].
    pose proof (entry_progress _ _ _ Er) as P1. eapply searched_after; [exact P1 |].
    apply IH; [by eapply named_progress | apply Er | lia | by apply Z.divide_add_r; [| by exists 1] | done | done | lia].
  - rewrite <- Ep in *. destruct (scan_long fuel dirname rest ch src s slot alias (proj1 N)) as (s1 & Er & ->); [lia | lia | by rewrite H0 | done |].
    destruct (deleted_entry _ s1 slot alias (er_bytes _ _ _ Er) H0) as (s2 & slot2 & -> & Hn & On).
    destruct (name_progress src s1 s2 (er_open _ _ _ Er) On) as [P2 Ep2].
    assert (progress src s s2) as P by (eapply progress_trans; [by apply entry_progress | done]).
    eapply searched_after; [exact P |].
    apply IH; [by eapply named_progress | rewrite Ep2; apply Er | lia | by apply Z.divide_add_r; [| by exists 1] | done | by left | lia].
  - rewrite <- Ep in *. destruct (scan_valid fuel s slot alias None N) as (s1 & slot1 & I1 & P1 & Ep1 & B1 & ->); [lia | lia | done | done |].
    apply searched_cons. destruct (has_name n (None, entry_at D (filepos s))).
    + exists slot1, alias, s1. done.
    + eapply searched_after; [exact P1 |].
      apply IH; [by eapply named_progress | done | lia | by apply Z.divide_add_r; [| by exists 1] | done | done | lia].
  - pose proof Hl as (Hk & Hcn & Hln & _).
    destruct (scan_pieces src p k name _ dirname rest ch (Z.to_nat k) Hl ltac:(lia) (S fuel - Z.to_nat k) s slot alias (proj1 N) Ep) as (s1 & slot1 & alias1 & E1 & P1 & Ep1 & St1); [lia | lia |].
    replace (Z.to_nat k + (S fuel - Z.to_nat k))%nat with (S fuel) in E1 by lia. rewrite E1. clear E1.
    destruct St1 as (-> & -> & Hname); [lia |]. rewrite Z2Nat.id in * by lia. rewrite Z.sub_diag in *.
    pose proof (named_progress _ _ N P1) as N1. replace (S fuel - Z.to_nat k)%nat with (S (fuel - Z.to_nat k)) by lia.
    rewrite <- Ep1 in Hv, L, IH |- *.
    destruct (scan_valid (fuel - Z.to_nat k) s1 0 (e_sum (entry_at D (filepos s1))) (Some name) N1) as (s2 & slot2 & I2 & P2 & Ep2 & B2 & ->); [lia | lia | done | |].
    { split; [done |]. split; [done |]. split; [by apply name_read | lia]. }
    assert (progress src s s2) as P by by eapply progress_trans.
    apply searched_cons. destruct (has_name n (Some name, entry_at D (filepos s1))).
    + eexists _, _, s2. done.
    + eapply searched_after; [exact P |].
      apply IH; [by eapply named_progress | done | lia | | done | done | lia].
      rewrite Ep1. apply Z.divide_add_r; [| by exists 1]. apply Z.divide_add_r; [done |]. by exists k; lia.
Qed.
End Search.

(** *** Paths *)

Definition name_char (c : Z) : Prop := 0 < c < 256 /\ c <> 47 /\ grub_isspace (s8 c) = false.
Definition path_text (ns : list (list Z)) : list Z := flat_map (fun n => 47 :: n) ns.
Definition path_tail (tail : list Z) : Prop := is_cstr tail /\ match tail with [] => True | c :: _ => grub_isspace (s8 c) = true end.
Definition path_ok (ns : list (list Z)) : Prop := Forall (fun n => n <> [] /\ Forall name_char n) ns.

Definition is_dir (e : Z -> Z) : bool := negb (e_attrib e .& 0x10 =? 0).

(** Where a path leads from a directory. *)
Inductive outcome := IsFile (e : Z -> Z) | Missing | WrongType.

Inductive leads : source -> list (list Z) -> outcome -> Prop :=
| leads_file src n files e : listing (src_byte src) (src_size src) 0 files -> lookup_name n files = Some e -> is_dir e = false ->
    leads src [n] (IsFile e)
| leads_missing src n ns files : listing (src_byte src) (src_size src) 0 files -> lookup_name n files = None -> leads src (n :: ns) Missing
| leads_not_file src n files e l : listing (src_byte src) (src_size src) 0 files -> lookup_name n files = Some e -> is_dir e = true ->
    cluster_chain byte v (e_cluster e) l -> leads src [n] WrongType
| leads_not_dir src n n' ns files e : listing (src_byte src) (src_size src) 0 files -> lookup_name n files = Some e -> is_dir e = false ->
    leads src (n :: n' :: ns) WrongType
| leads_dir src n ns files e l o : listing (src_byte src) (src_size src) 0 files -> lookup_name n files = Some e -> is_dir e = true ->
    cluster_chain byte v (e_cluster e) l -> leads (Chain (e_cluster e) l) ns o -> leads src (n :: ns) o.

(** The directory to start from. *)
Definition root_source (src : source) : Prop :=
  match src with
  | Root => v_root_cluster v = -1 /\ 0 < v_root_max v /\ (32 | v_root_max v)
  | Chain c l => v_root_cluster v = c /\ cluster_chain byte v c l
  end.

(** A file that has just been found. *)
Record file_found (e : Z -> Z) (s : fs) : Prop := {
  ff_mounted : mounted s;
  ff_cluster : get file_cluster s = e_cluster e;
  ff_start : get current_cluster_num s = MAXINT;
  ff_pos : filepos s = 0;
  ff_size : filemax s = e_size e }.

Lemma src_divides src s : dir_open src s -> (src = Root -> (32 | v_root_max v)) -> (32 | src_size src).
Proof.
  intros O H. destruct src as [| first l]; cbn; [by apply H |]. destruct (cluster_size_range part_length v vol) as [_ [k Hk]].
  exists (Z.of_nat (length l) * k * 16). lia.
Qed.

Lemma cstr_char m a l (i : nat) : cstr_at m a l -> (i <= length l)%nat -> ld m (a + Z.of_nat i) = nth i l 0.
Proof.
  intros (_ & H1 & H2) Hi. destruct (decide (i = length l)) as [-> |].
  - rewrite H2. by rewrite nth_overflow.
  - destruct (lookup_lt_is_Some_2 l i) as [c Hc]; [lia |]. rewrite (H1 i c Hc). symmetry. by apply nth_lookup_Some.
Qed.

Lemma cstr_at_app m a l1 l2 : cstr_at m a (l1 ++ l2) -> cstr_at m (a + Z.of_nat (length l1)) l2.
Proof.
  intros (H1 & H2 & H3). apply is_cstr_app in H1 as [_ H1]. split; [done |]. split.
  - intros i c Hi. rewrite <- Z.add_assoc, <- Nat2Z.inj_add. apply H2. rewrite lookup_app_r by lia. by replace (length l1 + i - length l1)%nat with i by lia.
  - rewrite <- H3. rewrite length_app. f_equal. lia.
Qed.

Lemma word_end_ok m n : forall fuel a, Forall name_char n -> (forall i : nat, (i < length n)%nat -> ld m (a + Z.of_nat i) = nth i n 0) ->
  (let c := ld m (a + Z.of_nat (length n)) in (c =? 0) || grub_isspace (s8 c) || (c =? 47) = true) -> (length n < fuel)%nat ->
  word_end fuel m a = a + Z.of_nat (length n).
Proof.
  induction n as [|c n IH]; intros [|fuel] a Hn Hm He Hf; cbn [length] in *; try lia; cbn [word_end].
  - rewrite Z.add_0_r in *. by rewrite He.
  - apply Forall_cons_iff in Hn as [(Hc1 & Hc2 & Hc3) Hn]. pose proof (Hm 0%nat ltac:(lia)) as H0. cbn in H0. rewrite Z.add_0_r in H0.
    rewrite H0, Hc3, !(proj2 (Z.eqb_neq _ _)) by lia. cbn [orb]. rewrite (IH fuel (a + 1)); [lia | done | | | lia].
    + intros i Hi. rewrite <- (Hm (S i) ltac:(lia) : _ = nth i n 0). f_equal. lia.
    + replace (a + 1 + Z.of_nat (length n)) with (a + Z.of_nat (S (length n))) by lia. done.
Qed.

Lemma path_next ns tail : path_ok ns -> path_tail tail ->
  let c := nth 0 (path_text ns ++ tail) 0 in (c =? 0) || grub_isspace (s8 c) || (c =? 47) = true.
Proof.
  intros Hn [Ht Hh] c. subst c. destruct ns as [|n ns]; [| done]. cbn. destruct tail as [|c tail]; [done |]. cbn. rewrite Hh. by rewrite orb_true_r.
Qed.

Section Path.
Variables (tail : list Z) (entries : nat).
Hypothesis tail_ok : path_tail tail.
Hypothesis entries_ok : part_length * 512 < 32 * Z.of_nat entries.

(** Before a component: the rest of the path is at [a]. *)
Record at_path (src : source) (ns : list (list Z)) (a : Z) (slot alias : Z) (s : fs) : Prop := {
  ap_open : dir_open src s;
  ap_root : src = Root -> (32 | v_root_max v);
  ap_pos : filepos s = 0;
  ap_text : cstr_at (f_mem s) a (path_text ns ++ tail);
  ap_quiet : print_possibilities s = 0;
  ap_slot : slot <> 0 \/ alias = -1 }.

Lemma path_cons n ns : path_text (n :: ns) ++ tail = 47 :: (n ++ (path_text ns ++ tail)).
Proof. unfold path_text. cbn [flat_map]. by rewrite <- !app_assoc. Qed.

Lemma skip_ok fuel m a : (2 <= fuel)%nat -> ld m a = 47 -> ld m (a + 1) <> 47 -> skip_slashes fuel m a = a + 1.
Proof.
  intros Hf H1 H2. destruct fuel as [|[|fuel]]; [lia | lia |]. cbn [skip_slashes]. rewrite H1, Z.eqb_refl. by rewrite (proj2 (Z.eqb_neq _ _)).
Qed.

Lemma mounted_file p x s : mounted s -> mounted (set_file p x s).
Proof. intros [[] S T]. constructor; [by constructor | done | done]. Qed.

Lemma dir_open_file src x s : dir_open src s -> dir_open src (set_file (filepos s) x s).
Proof.
  destruct src as [| first l]; cbn.
  - intros (M & F & P). split; [by apply mounted_file | done].
  - intros [M F C P]. constructor; [by apply mounted_file | done..].
Qed.

Lemma dir_good src s : dir_open src s -> mounted s.
Proof. destruct src; [by intros (M & _) | by intros []]. Qed.

Lemma entry_fields e m : (forall i, 0 <= i < 32 -> ld m (dir_buf + i) = e i) ->
  FAT_DIRENTRY_FIRST_CLUSTER m dir_buf = e_cluster e /\ s32 (FAT_DIRENTRY_FILELENGTH m dir_buf) = e_size e /\ FAT_DIRENTRY_ATTRIB m dir_buf = e_attrib e.
Proof.
  intros H. unfold FAT_DIRENTRY_FIRST_CLUSTER, FAT_DIRENTRY_FILELENGTH, FAT_DIRENTRY_ATTRIB, e_cluster, e_size, e_attrib, byte32, byte16.
  rewrite ld32_at. unfold ld16. rewrite <- !Z.add_assoc, !H, Z.shiftl_mul_pow2 by lia. split_and!; [f_equal; lia | f_equal; lia | done].
Qed.

Lemma mounted_found s' m e rest ch : mounted s' -> m = st (f_mem s') rest ch -> ~ in_buffer rest -> ~ in_fat rest -> ~ (dir_buf <= rest < dir_buf + 32) ->
  buffered e s' ->
  let s2 := set_file 0 (s32 (FAT_DIRENTRY_FILELENGTH m dir_buf)) (set_fmem m s') in
  let s3 := put current_cluster_num MAXINT (put file_cluster (FAT_DIRENTRY_FIRST_CLUSTER m dir_buf) s2) in
  file_found e s3 /\ FAT_DIRENTRY_ATTRIB m dir_buf = e_attrib e /\ (forall a, ~ in_fat a -> ld (f_mem s3) a = if decide (rest = a) then ch else ld (f_mem s') a).
Proof.
  intros M -> Hb Hf Hd B s2 s3.
  destruct (entry_fields e (st (f_mem s') rest ch)) as (E1 & E2 & E3); [intros i Hi; rewrite ld_st_ne by lia; by apply B |].
  split; [| split; [done |]].
  - constructor.
    + apply mounted_put; [by left |]. apply mounted_put; [by right; right |]. apply mounted_file, mounted_write; [done |].
      intros a [Ha | Ha]; apply ld_st_ne; by intros <-.
    + subst s3. rewrite get_put_ne by done. rewrite get_put_eq; [done |]. rewrite E1. apply s32_range.
    + subst s3. apply get_put_eq. unfold MAXINT. lia.
    + done.
    + exact E2.
  - intros a Ha. subst s3. unfold put. cbn. rewrite !ld_sput by (by apply not_super). apply ld_st.
Qed.

(** The search for the next component. *)
Lemma component_ok src n ns a slot alias s files fuel : at_path src (n :: ns) a slot alias s -> path_ok (n :: ns) ->
  Z.of_nat (length (path_text (n :: ns) ++ tail)) < 65536 ->
  (forall x, a <= x <= a + Z.of_nat (length (path_text (n :: ns) ++ tail)) -> ~ scratch x) ->
  listing (src_byte src) (src_size src) 0 files ->
  let rest := a + 1 + Z.of_nat (length n) in
  let loop fuel a attrib slot alias s := dir_loop b mem_lower mem_upper current_term max_lines dir_buf fuel entries a attrib false slot alias s in
  match lookup_name n files with
  | Some e => exists slot' alias' s', loop (S fuel) a FAT_ATTRIB_DIR slot alias s = loop fuel rest (e_attrib e) slot' alias' s' /\
      file_found e s' /\ (slot' <> 0 \/ alias' = -1) /\ print_possibilities s' = 0 /\ same_conf s s' /\
      (forall x, ~ scratch x -> ld (f_mem s') x = ld (f_mem s) x)
  | None => exists s', loop (S fuel) a FAT_ATTRIB_DIR slot alias s = Some (0, s') /\ f_err s' = ERR_FILE_NOT_FOUND /\ same_conf s s' /\
      (forall x, ~ scratch x -> ld (f_mem s') x = ld (f_mem s) x)
  end.
Proof.
  intros [O Hroot Hp Ht Hq Hsl] Hok Hlen Hap L rest loop. apply Forall_cons_iff in Hok as [[Hne Hnc] Hns].
  rewrite path_cons in *. cbn [length] in Hlen, Hap. rewrite length_app in Hlen, Hap.
  assert (forall i : nat, (i <= S (length n + length (path_text ns ++ tail)))%nat -> ld (f_mem s) (a + Z.of_nat i) = nth i (47 :: n ++ path_text ns ++ tail) 0) as Hch.
  { intros i Hi. apply cstr_char; [done |]. cbn [length]. rewrite length_app. lia. }
  pose proof (Hch 0%nat ltac:(lia)) as H0. cbn in H0. rewrite Z.add_0_r in H0.
  subst loop. cbn [dir_loop]. rewrite H0. change ((47 =? 0) || grub_isspace (s8 47)) with false. cbn iota.
  set (big := Z.to_nat 65536). assert (Z.of_nat big = 65536) as Hbig by done. clearbody big.
  rewrite (skip_ok big (f_mem s) a); [| lia | done |].
  2: { pose proof (Hch 1%nat ltac:(lia)) as H1. change (Z.of_nat 1) with 1 in H1. rewrite H1. destruct n as [|c n]; [done |].
       apply Forall_cons_iff in Hnc as [(_ & Hc & _) _]. exact Hc. }
  change (FAT_ATTRIB_DIR .& FAT_ATTRIB_DIR =? 0) with false. cbn iota.
  change (f_mem (set_file (filepos s) MAXINT s)) with (f_mem s).
  assert (forall i : nat, (i <= length n + length (path_text ns ++ tail))%nat -> ld (f_mem s) (a + 1 + Z.of_nat i) = nth i (n ++ path_text ns ++ tail) 0) as Hch1.
  { intros i Hi. rewrite <- (Hch (S i) ltac:(lia) : _ = nth i (n ++ path_text ns ++ tail) 0). f_equal. lia. }
  rewrite (word_end_ok (f_mem s) n big (a + 1) Hnc); [fold rest | | | lia].
  2: { intros i Hi. rewrite Hch1 by lia. by rewrite app_nth1. }
  2: { rewrite Hch1 by lia. rewrite app_nth2 by lia. rewrite Nat.sub_diag. by apply path_next. }
  change (print_possibilities (set_fmem _ _)) with (print_possibilities s). rewrite Hq. change (negb (0 =? 0)) with false. cbn [andb orb].
  set (ch := ld (f_mem s) rest). set (s1 := set_fmem (st (f_mem s) rest 0) (set_file (filepos s) MAXINT s)).
  assert (~ scratch rest) as Hrest by (apply Hap; subst rest; lia).
  assert (named n (a + 1) src s1) as N.
  { split; [| split; [| done]].
    - apply dir_open_write; [by apply dir_open_file |]. intros x Hx. apply ld_st_ne. intros <-. apply Hrest. unfold scratch. tauto.
    - split; [eapply Forall_impl; [| exact Hnc]; by intros c (Hc & _) |]. change (f_mem s1) with (st (f_mem s) rest 0). split.
      + intros i c Hi. pose proof (lookup_lt_Some _ _ _ Hi). rewrite ld_st_ne by (subst rest; lia). rewrite Hch1, app_nth1 by lia.
        by apply nth_lookup_Some.
      + apply ld_st_eq. }
  pose proof (src_size_range src s O) as [Hsz _].
  pose proof (scan_ok n (a + 1) ch src) as Scan.
  assert (searched n (a + 1) ch src files s1 (scan_entries entries (a + 1) rest ch false slot alias s1)) as Sd.
  { eapply Scan; clear Scan; try done; try lia.
    - split; [by apply N | lia].
    - intros x Hx. apply Hap. subst rest. lia.
    - by exists 0.
    - by eapply src_divides. }
  unfold searched in Sd. fold rest in Sd. destruct (lookup_name n files) as [e |].
  - destruct Sd as (slot' & alias' & s' & -> & I & [(d & h & u & w & p & ->) O' F] & B). cbn [mbind option_bind].
    set (s' := set_pos _ _) in *. exists slot', alias'.
    destruct (mounted_found s' (st (f_mem s') rest ch) e rest ch) as (Ff & Ea & Fr); try done; try (intros H; apply Hrest; unfold scratch; tauto).
    { by eapply dir_good. }
    rewrite Ea. eexists. split; [reflexivity |]. split; [exact Ff |]. split; [done |]. split; [done |]. split; [done |].
    intros x Hx. rewrite Fr by (intros H; apply Hx; unfold scratch; tauto). destruct (decide (rest = x)) as [<- | Hn]; [done |].
    rewrite F by done. by apply ld_st_ne.
  - destruct Sd as (s' & [(d & h & u & w & p & ->) O' F] & ->). cbn [mbind option_bind]. set (s' := set_pos _ _) in *. eexists. split; [reflexivity |]. split; [done |]. split; [done |].
    intros x Hx. cbn. destruct (decide (rest = x)) as [<- | Hn]; [by rewrite ld_st_eq |]. rewrite ld_st_ne by done.
    rewrite <- (ld_st_ne (f_mem s) rest x 0) by done. by apply F.
Qed.

Definition dir_result (o : outcome) (s : fs) (r : option (Z * fs)) : Prop :=
  exists ret s', r = Some (ret, s') /\ (forall x, ~ scratch x -> ld (f_mem s') x = ld (f_mem s) x) /\ same_conf s s' /\
    match o with
    | IsFile e => ret = 1 /\ file_found e s'
    | Missing => ret = 0 /\ f_err s' = ERR_FILE_NOT_FOUND
    | WrongType => ret = 0 /\ f_err s' = ERR_BAD_FILETYPE
    end.

Lemma same_conf_trans s1 s2 s3 : same_conf s1 s2 -> same_conf s2 s3 -> same_conf s1 s3.
Proof. unfold same_conf. intuition congruence. Qed.

Lemma dir_result_after o s1 s2 r : (forall x, ~ scratch x -> ld (f_mem s2) x = ld (f_mem s1) x) -> same_conf s1 s2 ->
  dir_result o s2 r -> dir_result o s1 r.
Proof.
  intros H S (ret & s' & -> & F & S' & O). exists ret, s'. split; [done |].
  split; [| split; [by eapply same_conf_trans | done]]. intros x Hx. rewrite F by done. by apply H.
Qed.

(** The text after a component. *)
Lemma path_after n ns a m m' : cstr_at m a (path_text (n :: ns) ++ tail) ->
  (forall x, a <= x <= a + Z.of_nat (length (path_text (n :: ns) ++ tail)) -> ld m' x = ld m x) ->
  cstr_at m' (a + 1 + Z.of_nat (length n)) (path_text ns ++ tail).
Proof.
  intros Ht H. assert (cstr_at m' a (path_text (n :: ns) ++ tail)) as Ht' by by eapply cstr_at_frame.
  rewrite path_cons in Ht'. change (47 :: n ++ path_text ns ++ tail) with ((47 :: n) ++ path_text ns ++ tail) in Ht'.
  apply cstr_at_app in Ht'. cbn [length] in Ht'. by replace (a + 1 + Z.of_nat (length n)) with (a + Z.of_nat (S (length n))) by lia.
Qed.

Lemma dir_loop_ok src ns o : leads src ns o -> forall fuel a slot alias s, at_path src ns a slot alias s -> path_ok ns ->
  Z.of_nat (length (path_text ns ++ tail)) < 65536 ->
  (forall x, a <= x <= a + Z.of_nat (length (path_text ns ++ tail)) -> ~ scratch x) -> (length ns < fuel)%nat ->
  dir_result o s (dir_loop b mem_lower mem_upper current_term max_lines dir_buf fuel entries a FAT_ATTRIB_DIR false slot alias s).
Proof.
  induction 1 as [src n files e L E Hd | src n ns files L E | src n files e l L E Hd Hc | src n n' ns files e L E Hd | src n ns files e l o L E Hd Hc Hl IH];
    intros [|fuel] a slot alias s A Hok Hlen Hap Hf; cbn [length] in Hf; try lia;
    pose proof (component_ok src n _ a slot alias s files fuel A Hok Hlen Hap L) as C; cbn zeta in C; rewrite E in C.
  2: { destruct C as (s' & -> & He & S & F). by exists 0, s'. }
  all: destruct C as (slot' & alias' & s' & -> & Ff & I & Q & S & F);
    pose proof (path_after _ _ _ _ (f_mem s') (ap_text _ _ _ _ _ _ A) (fun x Hx => F x (Hap x Hx))) as Ht';
    (eapply dir_result_after; [exact F | exact S |]);
    set (rest := a + 1 + Z.of_nat (length n)) in *.
  1, 2: destruct fuel as [|fuel]; [lia |]; cbn [dir_loop path_text flat_map app] in *;
    pose proof (cstr_char _ _ _ 0%nat Ht' ltac:(lia)) as H0; cbn [Z.of_nat] in H0; rewrite Z.add_0_r in H0; rewrite H0;
    assert ((nth 0 tail 0 =? 0) || grub_isspace (s8 (nth 0 tail 0)) = true) as -> by
      (destruct tail_ok as [_ Hh]; destruct tail as [|c t]; [done |]; cbn; rewrite Hh; apply orb_true_r);
    unfold is_dir in Hd; unfold FAT_ATTRIB_DIR; rewrite Hd; eexists _, _; split; [reflexivity |]; done.
  - destruct fuel as [|fuel]; [lia |]. cbn [dir_loop]. rewrite path_cons in Ht'.
    pose proof (cstr_char _ _ _ 0%nat Ht' ltac:(lia)) as H0. cbn [Z.of_nat nth] in H0. rewrite Z.add_0_r in H0. rewrite H0.
    change ((47 =? 0) || grub_isspace (s8 47)) with false. cbn iota. unfold is_dir in Hd. apply negb_false_iff in Hd. unfold FAT_ATTRIB_DIR. rewrite Hd.
    eexists _, _. split; [reflexivity |]. done.
  - apply Forall_cons_iff in Hok as [_ Hok]. pose proof Hlen as Hlen'. rewrite path_cons in Hlen', Hap. cbn [length] in Hlen', Hap. rewrite length_app in Hlen', Hap.
    assert (at_path (Chain (e_cluster e) l) ns rest slot' alias' s') as A'.
    { destruct Ff as [M Fc Fs Fp Fz]. constructor; try done. constructor; [done | done | done | by right]. }
    assert (forall fuel, dir_loop b mem_lower mem_upper current_term max_lines dir_buf fuel entries rest (e_attrib e) false slot' alias' s'
            = dir_loop b mem_lower mem_upper current_term max_lines dir_buf fuel entries rest FAT_ATTRIB_DIR false slot' alias' s') as ->.
    { intros [|f]; [done |]. cbn [dir_loop]. unfold is_dir in Hd. unfold FAT_ATTRIB_DIR at 1 2. rewrite Hd. apply negb_true_iff in Hd. rewrite Hd. done. }
    apply IH; [done | done | lia | | lia]. intros x Hx. apply Hap. subst rest. lia.
Qed.

Lemma fat_dir_ok src ns o fuel a s : mounted s -> root_source src -> leads src ns o -> path_ok ns -> print_possibilities s = 0 ->
  cstr_at (f_mem s) a (path_text ns ++ tail) -> Z.of_nat (length (path_text ns ++ tail)) < 65536 ->
  (forall x, a <= x <= a + Z.of_nat (length (path_text ns ++ tail)) -> ~ scratch x) -> (length ns < fuel)%nat ->
  dir_result o s (fat_dir b mem_lower mem_upper current_term max_lines dir_buf fuel entries a s).
Proof.
  intros M Hr Hl Hok Hq Ht Hlen Hap Hf. unfold fat_dir.
  set (s1 := put current_cluster_num MAXINT (set_pos 0 (put file_cluster (get root_cluster s) s))).
  assert (forall x, ~ scratch x -> ld (f_mem s1) x = ld (f_mem s) x) as F.
  { intros x Hx. subst s1. unfold put. cbn. rewrite !ld_sput by (apply not_super; unfold scratch in Hx; tauto). done. }
  assert (mounted s1) as M1 by (apply mounted_put; [by left |]; apply mounted_pos, mounted_put; [by right; right | done]).
  assert (get file_cluster s1 = get root_cluster s) as Fc.
  { subst s1. rewrite get_put_ne by done. change (get file_cluster (set_pos 0 ?x)) with (get file_cluster x). apply get_put_eq. apply s32_range. }
  assert (get current_cluster_num s1 = MAXINT) as Fn by (subst s1; apply get_put_eq; unfold MAXINT; lia).
  assert (get root_cluster s = v_root_cluster v) as Er by by destruct (mo_super _ _ _ _ _ _ _ _ _ M) as (_ & _ & _ & _ & _ & Q & _).
  eapply dir_result_after; [exact F | done |]. eapply dir_loop_ok; [exact Hl | | done | done | done | done].
  constructor; [| | done | | done | by left].
  - destruct src as [| c l]; cbn in *.
    + destruct Hr as (E & Hm & _). split; [done |]. split; [lia | done].
    + destruct Hr as [E Hc]. constructor; [done | unfold get in *; congruence | done | by right].
  - intros ->. by destruct Hr as (_ & _ & D).
  - eapply cstr_at_frame; [| exact Ht]. intros x Hx. apply F. by apply Hap.
Qed.
End Path.
End Scan.

(** ** Properties *)

(** The local variables and the name buffer are apart, and the path is apart from
    what the search writes. *)
Record dir_space (mem_lower mem_upper dir_buf a : Z) (text : list Z) : Prop := {
  ds_place : place_ok mem_lower mem_upper dir_buf 32;
  ds_apart : forall i k, 0 <= i < 32 -> 0 <= k < 833 -> dir_buf + i <> NAME_BUF + k;
  ds_length : Z.of_nat (length text) < 65536;
  ds_text : forall x, a <= x <= a + Z.of_nat (length text) -> ~ scratch dir_buf x }.

(** C38. On a mounted volume fat_dir follows a path through its directories,
    by long or short name: it returns 1 with the file open, or 0 with
    ERR_FILE_NOT_FOUND when a name is missing and ERR_BAD_FILETYPE when a file
    is used as a directory or a directory as a file; only its work areas are
    written. *)
Theorem fat_dir_finds (b : bios) mem_lower mem_upper drive part_start part_length byte
    {R : PartReader b mem_lower mem_upper drive part_start part_length byte} term max_lines v dir_buf src ns tail o fuel entries a s :
  (forall x, 0 <= byte x < 256) -> volume_ok v part_length -> 512 <= mem_lower <= 1024 -> 0 <= mem_upper < 4194304 ->
  mounted b mem_lower mem_upper drive part_start part_length byte v s -> print_possibilities s = 0 ->
  root_source byte v src -> leads byte v src ns o -> path_ok ns -> path_tail tail ->
  cstr_at (f_mem s) a (path_text ns ++ tail) -> dir_space mem_lower mem_upper dir_buf a (path_text ns ++ tail) ->
  (length ns < fuel)%nat -> part_length * 512 < 32 * Z.of_nat entries ->
  exists ret s', fat_dir b mem_lower mem_upper term max_lines dir_buf fuel entries a s = Some (ret, s') /\
    (forall x, ~ scratch dir_buf x -> ld (f_mem s') x = ld (f_mem s) x) /\ same_conf s s' /\
    match o with
    | IsFile e => ret = 1 /\ file_found b mem_lower mem_upper drive part_start part_length byte v e s'
    | Missing => ret = 0 /\ f_err s' = ERR_FILE_NOT_FOUND
    | WrongType => ret = 0 /\ f_err s' = ERR_BAD_FILETYPE
    end.
Proof.
  intros Hb Hv Hl Hu M Hq Hr Hld Hok Htl Ht [P1 P2 P3 P4] Hf He.
  by apply (fat_dir_ok b mem_lower mem_upper drive part_start part_length byte term max_lines v Hb Hv Hl Hu dir_buf P1 P2 tail entries Htl He src ns o fuel a s).
Qed.

Lemma found_opened (b : bios) mem_lower mem_upper drive part_start part_length byte
    {R : PartReader b mem_lower mem_upper drive part_start part_length byte} v e l s :
  cluster_chain byte v (e_cluster e) l -> file_found b mem_lower mem_upper drive part_start part_length byte v e s ->
  opened_file b mem_lower mem_upper drive part_start part_length byte v (e_cluster e) l s.
Proof. intros Hc [M C S P Z]. constructor; [done | done | done | by right]. Qed.

(** C9. On a partition with a FAT boot sector, mounting, looking up a path
    that leads to a file and reading it succeed: the file has the size of its
    entry and the bytes stored are those of the clusters of its chain, from
    the first on. *)
Theorem fat_file_loads (b : bios) mem_lower mem_upper drive part_start part_length byte
    {R : PartReader b mem_lower mem_upper drive part_start part_length byte} term max_lines bits bpb first_fat dir_buf src ns e l fuel entries a buf n s :
  let v := bs_volume byte bits in
  (forall x, 0 <= byte x < 256) -> boot_sector_ok byte bits -> volume_ok v part_length -> bs_total byte <= part_length ->
  512 <= mem_lower <= 1024 -> 0 <= mem_upper < 4194304 ->
  place_ok mem_lower mem_upper bpb BPB_SIZE -> place_ok mem_lower mem_upper first_fat 4 -> place_ok mem_lower mem_upper buf n -> 0 <= n ->
  (forall x, bpb <= x < bpb + BPB_SIZE -> ~ (first_fat <= x < first_fat + 4)) ->
  opened b mem_lower mem_upper drive part_start part_length byte s -> fat_partition s -> print_possibilities s = 0 ->
  root_source byte v src -> leads byte v src ns (IsFile e) -> cluster_chain byte v (e_cluster e) l -> path_ok ns ->
  cstr_at (f_mem s) a (path_text ns) -> dir_space mem_lower mem_upper dir_buf a (path_text ns) ->
  (forall x, a <= x <= a + Z.of_nat (length (path_text ns)) -> ~ (bpb <= x < bpb + BPB_SIZE) /\ ~ (first_fat <= x < first_fat + 4)) ->
  (length ns < fuel)%nat -> part_length * 512 < 32 * Z.of_nat entries ->
  exists s1 s2 s3,
    fat_mount b mem_lower mem_upper bpb first_fat s = Some (1, s1) /\
    fat_dir b mem_lower mem_upper term max_lines dir_buf fuel entries a s1 = Some (1, s2) /\ filemax s2 = e_size e /\
    fat_read b mem_lower mem_upper buf n s2 = Some (Z.min n (Z.of_nat (length l) * cluster_size v), s3) /\
    forall x, 0 <= x < Z.min n (Z.of_nat (length l) * cluster_size v) -> ld (f_mem s3) (buf + x) = chain_byte byte v l x.
Proof.
  intros v Hb Hboot Hv Htot Hl Hu Hbpb Hff Hbuf Hn Hap O Hty Hq Hr Hld Hch Hok Ht [P1 P2 P3 P4] Hap2 Hf He.
  pose proof (vo_length _ _ Hv) as Hpl.
  destruct (fat_mount_ok b mem_lower mem_upper drive part_start part_length byte bits bpb first_fat Hb Hboot s) as (d & E1 & M & F1); try done; try lia.
  set (s1 := set_fdisk d s) in *.
  assert (cstr_at (f_mem s1) a (path_text ns)) as Ht1.
  { eapply cstr_at_frame; [| exact Ht]. intros x Hx. destruct (Hap2 x Hx). pose proof (P4 x Hx) as Hs. unfold scratch in Hs.
    apply F1; tauto. }
  destruct (fat_dir_ok b mem_lower mem_upper drive part_start part_length byte term max_lines v Hb Hv Hl Hu dir_buf P1 P2 [] entries (conj (Forall_nil _) I) He
    src ns (IsFile e) fuel a s1 M) as (ret & s2 & E2 & _ & _ & -> & Ff); rewrite ?app_nil_r; try done.
  destruct (fat_read_ok b mem_lower mem_upper drive part_start part_length byte v Hb Hv Hl Hu (e_cluster e) l s2 buf n) as (s3 & E3 & [_ _ B _]); try done.
  { by apply found_opened. }
  { rewrite (ff_pos _ _ _ _ _ _ _ _ _ _ Ff). lia. }
  pose proof (cluster_size_range part_length v Hv) as [Hcs _].
  rewrite (ff_pos _ _ _ _ _ _ _ _ _ _ Ff) in E3, B.
  assert (available (Z.of_nat (length l) * cluster_size v) 0 n = Z.min n (Z.of_nat (length l) * cluster_size v)) as Ea by (unfold available; lia).
  rewrite Ea in E3, B. exists s1, s2, s3. split; [exact E1 |]. split; [exact E2 |]. split; [by apply Ff |]. split; [exact E3 |].
  intros x Hx. rewrite B by done. done.
Qed.

(** The path [/BOOT/Kernel-32b-ofSzOS.bin] on the diskette, without regard to the
    case of short names. *)
Definition kernel_path : list (list Z) := [bytes "boot"; bytes "Kernel-32b-ofSzOS.bin"].
Definition root_byte : Z -> Z := src_byte fat_seen diskette_volume Root.
Definition boot_byte : Z -> Z := src_byte fat_seen diskette_volume (Chain 2 [2]).
Definition boot_entry : Z -> Z := entry_at root_byte 64.
Definition kernel_entry : Z -> Z := entry_at boot_byte 64.

Lemma root_listing : listing root_byte 512 0 [(None, boot_entry)].
Proof.
  apply li_skip; [done | vm_compute; discriminate | vm_compute; discriminate | intros (_ & _ & H & _); vm_compute in H; discriminate |].
  apply li_deleted; [done | vm_compute; reflexivity | vm_compute; reflexivity |].
  apply li_short; [done | repeat split; vm_compute; discriminate || reflexivity |].
  apply li_end. right. vm_compute. reflexivity.
Qed.

Lemma kernel_pieces : long_pieces boot_byte 0 2 (bytes "Kernel-32b-ofSzOS.bin") (e_sum kernel_entry).
Proof.
  split; [lia |]. split; [by apply (bool_decide_unpack _); vm_compute |]. split; [cbn; lia |].
  intros j Hj. assert (j = 0 \/ j = 1) as [-> | ->] by lia; (split; [vm_compute; reflexivity |]; split; [vm_compute; reflexivity |]; split; [vm_compute; reflexivity |]);
    intros i Hi n Hn; subst n.
  - assert (i < 9) as Hi9 by (cbn in Hn; lia).
    pose proof (forall_range (fun i => entry_at boot_byte 0 (nth (Z.to_nat i) longdir_pos 0) =? nth (Z.to_nat (13 + i)) (bytes "Kernel-32b-ofSzOS.bin") 0) 9
      ltac:(vm_compute; reflexivity) i ltac:(lia)) as E. cbn beta in E. apply Z.eqb_eq in E. exact E.
  - pose proof (forall_range (fun i => entry_at boot_byte 32 (nth (Z.to_nat i) longdir_pos 0) =? nth (Z.to_nat (0 + i)) (bytes "Kernel-32b-ofSzOS.bin") 0) 13
      ltac:(vm_compute; reflexivity) i ltac:(lia)) as E. cbn beta in E. apply Z.eqb_eq in E. exact E.
Qed.

Lemma boot_listing : listing boot_byte 512 0 [(Some (bytes "Kernel-32b-ofSzOS.bin"), kernel_entry)].
Proof.
  apply (li_long _ _ 0 2); [done | repeat split; vm_compute; discriminate || reflexivity | apply kernel_pieces |].
  apply li_end. right. vm_compute. reflexivity.
Qed.

Lemma boot_chain : cluster_chain fat_seen diskette_volume 2 [2].
Proof. apply chain_end; [done |]. vm_compute. split; [discriminate | reflexivity]. Qed.

Lemma lookup_first n f l : has_name n f = true -> lookup_name n (f :: l) = Some (snd f).
Proof. intros H. unfold lookup_name. cbn [find]. by rewrite H. Qed.

Lemma kernel_leads : leads fat_seen diskette_volume Root kernel_path (IsFile kernel_entry).
Proof.
  eapply (leads_dir _ _ Root _ _ [(None, boot_entry)] boot_entry [2]); [apply root_listing | apply lookup_first; vm_compute; reflexivity | vm_compute; reflexivity | |].
  - replace (e_cluster boot_entry) with 2 by (vm_compute; reflexivity). apply boot_chain.
  - replace (e_cluster boot_entry) with 2 by (vm_compute; reflexivity).
    eapply (leads_file _ _ _ _ [(Some (bytes "Kernel-32b-ofSzOS.bin"), kernel_entry)]); [apply boot_listing | apply lookup_first; vm_compute; reflexivity | vm_compute; reflexivity].
Qed.

(** A path is in memory at [0x10000]. *)
Definition path_fs (ns : list (list Z)) (s : fs) : fs := set_fmem (st_bytes (f_mem s) 0x10000 (path_text ns)) s.

Lemma path_at ns s : is_cstr (path_text ns) -> Z.of_nat (length (path_text ns)) < 0x1000 -> (forall x, 0x10000 <= x < 0x11000 -> ld (f_mem s) x = 0) ->
  cstr_at (f_mem (path_fs ns s)) 0x10000 (path_text ns).
Proof.
  intros Hc Hl Hm. unfold path_fs. change (f_mem (set_fmem ?m s)) with m. split; [done |]. split.
  - intros i c Hi. apply ld_st_bytes_in; [lia |]. by replace (Z.to_nat (0x10000 + Z.of_nat i - 0x10000)) with i by lia.
  - rewrite ld_st_bytes_out by lia. apply Hm. lia.
Qed.

Lemma path_space text : Z.of_nat (length text) < 0x1000 -> dir_space 640 0 0x20200 0x10000 text.
Proof.
  intros Hl. constructor.
  - by apply low_place.
  - intros i k Hi Hk. unfold NAME_BUF, FSYS_BUF. lia.
  - lia.
  - unfold scratch, in_buffer, in_fat, BUFFERADDR, BUFFERLEN, FAT_BUF, FAT_SUPER, NAME_BUF, FSYS_BUF. lia.
Qed.

Lemma kernel_path_ok : path_ok kernel_path.
Proof.
  repeat constructor; try discriminate; apply (bool_decide_unpack _); vm_compute; exact I.
Qed.

Lemma fat_file_loads_witness :
  exists s1 s2 s3,
    fat_mount floppy_bios 640 0 0x20000 0x20100 (path_fs kernel_path diskette_fs) = Some (1, s1) /\
    fat_dir floppy_bios 640 0 (TermEntry 0 None false None) 24 0x20200 3 (Z.to_nat 60000) 0x10000 s1 = Some (1, s2) /\ filemax s2 = 700 /\
    fat_read floppy_bios 640 0 0x30000 700 s2 = Some (700, s3) /\
    forall x, 0 <= x < 700 -> ld (f_mem s3) (0x30000 + x) = chain_byte fat_seen diskette_volume [3; 5] x.
Proof.
  apply (fat_file_loads floppy_bios 640 0 0 0 2880 fat_seen (TermEntry 0 None false None) 24 9 0x20000 0x20100 0x20200 Root kernel_path kernel_entry [3; 5]
    3 (Z.to_nat 60000) 0x10000 0x30000 700 (path_fs kernel_path diskette_fs)).
  - apply fat_seen_range.
  - apply fat_boot.
  - apply diskette_volume_ok.
  - vm_compute. discriminate.
  - lia.
  - lia.
  - by apply low_place.
  - by apply low_place.
  - by apply low_place.
  - lia.
  - unfold BPB_SIZE. lia.
  - by constructor.
  - by left.
  - reflexivity.
  - split; [reflexivity |]. split; [reflexivity |]. by exists 16.
  - apply kernel_leads.
  - replace (e_cluster kernel_entry) with 3 by (vm_compute; reflexivity). apply kernel_chain.
  - apply kernel_path_ok.
  - apply path_at; [by apply (bool_decide_unpack _); vm_compute | done | done].
  - by apply path_space.
  - intros x Hx. assert (Z.of_nat (length (path_text kernel_path)) = 27) as E by reflexivity. rewrite E in Hx. unfold BPB_SIZE. lia.
  - cbn. lia.
  - lia.
Defined.

(** A file that is not there. *)
Lemma fat_dir_finds_witness :
  let s := path_fs [bytes "boot"; bytes "nosuch"] (file_fs 0 0) in
  exists ret s', fat_dir floppy_bios 640 0 (TermEntry 0 None false None) 24 0x20200 3 (Z.to_nat 60000) 0x10000 s = Some (ret, s') /\
    (forall x, ~ scratch 0x20200 x -> ld (f_mem s') x = ld (f_mem s) x) /\ same_conf s s' /\ ret = 0 /\ f_err s' = ERR_FILE_NOT_FOUND.
Proof.
  apply (fat_dir_finds floppy_bios 640 0 0 0 2880 fat_seen (TermEntry 0 None false None) 24 diskette_volume 0x20200 Root [bytes "boot"; bytes "nosuch"] []
    Missing 3 (Z.to_nat 60000) 0x10000 (path_fs [bytes "boot"; bytes "nosuch"] (file_fs 0 0))).
  - apply fat_seen_range.
  - apply diskette_volume_ok.
  - lia.
  - lia.
  - constructor; [by constructor | unfold super_is; split_and!; vm_compute; reflexivity | left; vm_compute; reflexivity].
  - reflexivity.
  - split; [reflexivity |]. split; [reflexivity |]. by exists 16.
  - eapply (leads_dir _ _ Root _ _ [(None, boot_entry)] boot_entry [2]); [apply root_listing | apply lookup_first; vm_compute; reflexivity | vm_compute; reflexivity | |].
    + replace (e_cluster boot_entry) with 2 by (vm_compute; reflexivity). apply boot_chain.
    + replace (e_cluster boot_entry) with 2 by (vm_compute; reflexivity).
      eapply (leads_missing _ _ _ _ [] [(Some (bytes "Kernel-32b-ofSzOS.bin"), kernel_entry)]); [apply boot_listing | vm_compute; reflexivity].
  - repeat constructor; try discriminate; apply (bool_decide_unpack _); vm_compute; exact I.
  - split; constructor.
  - rewrite app_nil_r. apply path_at; [by apply (bool_decide_unpack _); vm_compute | done |].
    intros x Hx. change (f_mem (file_fs 0 0)) with (mounted_memory 0). unfold mounted_memory. cbn [foldl]. rewrite !ld_sput; [done | ..]; unfold FAT_SUPER, FSYS_BUF; lia.
  - rewrite app_nil_r. by apply path_space.
  - cbn. lia.
  - lia.
Defined.
