(* ===== verification/GrubFile.v ===== *)
(** * GRUB's file interface

    The rest of [src/legacy/SZoS/grub-0.97/stage2/disk_io.c]: mounting the open
    partition, names of files with a device, block lists, and opening, reading
    and positioning a file; with [gunzip_test_header] of [gunzip.c], which looks
    at each file that is opened.  The decompression itself is an argument. *)

From S2P Require Import Prelude Machine LibcString GrubString GrubTerm GrubReadline GrubBios GrubDisk GrubDevice GrubPart GrubFsys GrubFat GrubFatDir.

(** ** The code *)

Definition BLK_CUR_FILEPOS : Z := FSYS_BUF.
Definition BLK_CUR_BLKLIST : Z := FSYS_BUF + 4.
Definition BLK_CUR_BLKNUM : Z := FSYS_BUF + 8.
Definition BLK_MAX_ADDR : Z := FSYS_BUF + 0x7FF9.
Definition BLK_BLKLIST_START : Z := FSYS_BUF + 12.
Definition BLK_BLKLIST_INC_VAL : Z := 8.

(** A 32-bit integer in memory. *)
Definition ldi (m : mem) (a : Z) : Z := s32 (ld32 m a).
Definition BLK_BLKSTART (m : mem) (l : Z) : Z := ldi m l.
Definition BLK_BLKLENGTH (m : mem) (l : Z) : Z := ldi m (l + 4).

(** [struct fsys_entry], without [embed_func]. *)
Record fsys_entry := FsysEntry {
  fsys_name : list Z;
  mount_func : fs -> option (Z * fs);
  read_func : Z -> Z -> fs -> option (Z * fs);
  dir_func : Z -> fs -> option (Z * fs);
  close_func : option (fs -> option fs) }.

(** The static variables of [inflate], in [gunzip.c]; the window [slide] and the
    buffer [inbuf] are in memory. *)
Record inflater := Inflater {
  bb : Z; bk : Z; block_type : Z; block_len : Z; last_block : Z; code_state : Z; linalloc_topaddr : Z; hufts : Z;
  tl : Z; td : Z; bl : Z; bd : Z; wp : Z; inflate_n : Z; inflate_d : Z; bufloc : Z }.

(** The other static variables of [gunzip.c]. *)
Record gz := Gz {
  no_decompression : bool; gzip_data_offset : Z; gzip_filepos : Z; gzip_filemax : Z; gzip_fsmax : Z; saved_filepos : Z;
  gzip_crc : Z; inflate : inflater }.

(** The files' state: the file system's, [bsd_evil_hack] and the variables of the
    decompression. *)
Record files := Files { g_fs : fs; bsd_evil_hack : Z; g_gz : gz }.
Definition set_gfs (s : fs) (g : files) : files := Files s (bsd_evil_hack g) (g_gz g).
Definition set_gz (z : gz) (g : files) : files := Files (g_fs g) (bsd_evil_hack g) z.
Definition upd (f : fs -> fs) (g : files) : files := set_gfs (f (g_fs g)) g.

Definition set_type (t : Z) (s : fs) : fs := set_fsys t (fsmax s) (block_file s) (compressed_file s) s.
Definition set_fsmax (n : Z) (s : fs) : fs := set_fsys (fsys_type s) n (block_file s) (compressed_file s) s.
Definition set_block (b : bool) (s : fs) : fs := set_fsys (fsys_type s) (fsmax s) b (compressed_file s) s.
Definition set_compressed (b : bool) (s : fs) : fs := set_fsys (fsys_type s) (fsmax s) (block_file s) b s.
Definition set_max (n : Z) (s : fs) : fs := set_file (filepos s) n s.
Definition set_int (a v : Z) (s : fs) : fs := set_fmem (st_dword (f_mem s) a v) s.

Definition set_bits (b k : Z) (v : inflater) : inflater :=
  Inflater b k (block_type v) (block_len v) (last_block v) (code_state v) (linalloc_topaddr v) (hufts v) (tl v) (td v) (bl v) (bd v) (wp v) (inflate_n v) (inflate_d v) (bufloc v).
Definition set_block_kind (t last : Z) (v : inflater) : inflater :=
  Inflater (bb v) (bk v) t (block_len v) last (code_state v) (linalloc_topaddr v) (hufts v) (tl v) (td v) (bl v) (bd v) (wp v) (inflate_n v) (inflate_d v) (bufloc v).
Definition set_block_len (n : Z) (v : inflater) : inflater :=
  Inflater (bb v) (bk v) (block_type v) n (last_block v) (code_state v) (linalloc_topaddr v) (hufts v) (tl v) (td v) (bl v) (bd v) (wp v) (inflate_n v) (inflate_d v) (bufloc v).
Definition set_code_state (n : Z) (v : inflater) : inflater :=
  Inflater (bb v) (bk v) (block_type v) (block_len v) (last_block v) n (linalloc_topaddr v) (hufts v) (tl v) (td v) (bl v) (bd v) (wp v) (inflate_n v) (inflate_d v) (bufloc v).
Definition set_linalloc (a : Z) (v : inflater) : inflater :=
  Inflater (bb v) (bk v) (block_type v) (block_len v) (last_block v) (code_state v) a (hufts v) (tl v) (td v) (bl v) (bd v) (wp v) (inflate_n v) (inflate_d v) (bufloc v).
Definition set_hufts (n : Z) (v : inflater) : inflater :=
  Inflater (bb v) (bk v) (block_type v) (block_len v) (last_block v) (code_state v) (linalloc_topaddr v) n (tl v) (td v) (bl v) (bd v) (wp v) (inflate_n v) (inflate_d v) (bufloc v).
Definition set_lit (t b : Z) (v : inflater) : inflater :=
  Inflater (bb v) (bk v) (block_type v) (block_len v) (last_block v) (code_state v) (linalloc_topaddr v) (hufts v) t (td v) b (bd v) (wp v) (inflate_n v) (inflate_d v) (bufloc v).
Definition set_dist (t b : Z) (v : inflater) : inflater :=
  Inflater (bb v) (bk v) (block_type v) (block_len v) (last_block v) (code_state v) (linalloc_topaddr v) (hufts v) (tl v) t (bl v) b (wp v) (inflate_n v) (inflate_d v) (bufloc v).
Definition set_window (w : Z) (v : inflater) : inflater :=
  Inflater (bb v) (bk v) (block_type v) (block_len v) (last_block v) (code_state v) (linalloc_topaddr v) (hufts v) (tl v) (td v) (bl v) (bd v) w (inflate_n v) (inflate_d v) (bufloc v).
Definition set_copy (n d : Z) (v : inflater) : inflater :=
  Inflater (bb v) (bk v) (block_type v) (block_len v) (last_block v) (code_state v) (linalloc_topaddr v) (hufts v) (tl v) (td v) (bl v) (bd v) (wp v) n d (bufloc v).
Definition set_bufloc (n : Z) (v : inflater) : inflater :=
  Inflater (bb v) (bk v) (block_type v) (block_len v) (last_block v) (code_state v) (linalloc_topaddr v) (hufts v) (tl v) (td v) (bl v) (bd v) (wp v) (inflate_n v) (inflate_d v) n.
Definition set_inflate (v : inflater) (z : gz) : gz :=
  Gz (no_decompression z) (gzip_data_offset z) (gzip_filepos z) (gzip_filemax z) (gzip_fsmax z) (saved_filepos z) (gzip_crc z) v.
Definition set_saved (n : Z) (z : gz) : gz :=
  Gz (no_decompression z) (gzip_data_offset z) (gzip_filepos z) (gzip_filemax z) (gzip_fsmax z) n (gzip_crc z) (inflate z).

Definition g_mem (g : files) : mem := f_mem (g_fs g).
Definition g_err (g : files) : grub_error := f_err (g_fs g).
Definition fail_with (e : grub_error) (g : files) : files := upd (set_ferr e) g.

Section Files.
Variables (b : bios) (mem_lower mem_upper : Z).
Variables (current_term : term_entry) (max_lines : Z).
Variable fsys_table : list fsys_entry.
(** The places of [buf] in [real_open_partition], of [buf] in
    [gunzip_test_header] and of [ch] in [bad_field]; how many partitions are
    looked at. *)
Variables (part_buf header_buf ch_buf : Z) (parts : nat).
(** [gunzip_read]. *)
Variable gunzip_read : Z -> Z -> files -> option (Z * files).

Definition NUM_FSYS : Z := Z.of_nat (length fsys_table).

Fixpoint try_mounts (table : list fsys_entry) (i : Z) (s : fs) : option fs :=
  match table with
  | [] => Some (set_type i s)
  | e :: table =>
      '(ok, s) ← mount_func e (set_type i s);
      if ok =? 0 then try_mounts table (i + 1) s else Some s
  end.

Definition attempt_mount (s : fs) : option fs :=
  s ← try_mounts fsys_table 0 s;
  Some (if (fsys_type s =? NUM_FSYS) && bool_decide (f_err s = ERR_NONE) then set_ferr ERR_FSYS_MOUNT s else s).

(** [open_partition ()] on the variables; what it returns. *)
Definition open_part (g : files) : option (bool * files) :=
  let s := g_fs g in
  let p := f_part s in
  let it := Iter (current_partition (f_dev s)) (type p) (start p) (len p) (offset p) (entry p) (ext_offset p) in
  '(ok, it, ps) ← open_partition b mem_lower mem_upper part_buf parts (f_dev s) it (PState (bsd_evil_hack g) (f_disk s));
  Some (ok, Files (set_place (set_part (partition it) (f_dev s)) it (set_fdisk (p_disk ps) s)) (hack ps) (g_gz g)).

Definition open_device (g : files) : option (bool * files) :=
  '(ok, g) ← open_part g;
  g ← (if (ok : bool) then s ← attempt_mount (g_fs g); Some (set_gfs s g) else Some g);
  Some (bool_decide (g_err g = ERR_NONE), g).

(** [set_device] on the string at [filename]: the pointer it returns. *)
Definition set_device_at (filename : Z) (s : fs) : option Z * fs :=
  let name := cstring (f_mem s) filename in
  let '(r, name', v) := set_device name (set_verr (f_err s) (f_dev s)) in
  let m := if (length name <? length name')%nat then st_bytes (f_mem s) filename (map u8 name' ++ [0]) else f_mem s in
  let s := set_place v (f_part s) (set_ferr (v_err v) (set_fmem m s)) in
  ((fun rest => filename + Z.of_nat (length name' - length rest)) <$> r, s).

(** [if ( *filename != '/') open_partition (); else open_device ();] *)
Definition open_for (filename : Z) (g : files) : option files :=
  '(_, g) ← (if negb (ld (g_mem g) filename =? 47) then open_part g else open_device g); Some g.

Definition setup_part (filename : Z) (g : files) : option (option Z * files) :=
  '(r, g) ←
    (if ld (g_mem g) filename =? 40
     then
       let '(r, s) := set_device_at filename (g_fs g) in
       match r with
       | None => Some (None, set_gfs (set_place (set_drive GRUB_INVALID_DRIVE (f_dev s)) (f_part s) s) g)
       | Some filename => g ← open_for filename (set_gfs s g); Some (Some filename, g)
       end
     else
       let v := f_dev (g_fs g) in
       if negb (saved_drive v =? current_drive v) || negb (saved_partition v =? current_partition v)
          || ((ld (g_mem g) filename =? 47) && (fsys_type (g_fs g) =? NUM_FSYS)) || (buf_drive (f_disk (g_fs g)) =? -1)
       then
         let v := set_part (saved_partition v) (set_drive (saved_drive v) v) in
         g ← open_for filename (upd (set_place v (f_part (g_fs g))) g); Some (Some filename, g)
       else Some (Some filename, g));
  match r with
  | None => Some (None, g)
  | Some filename =>
      if negb (bool_decide (g_err g = ERR_NONE)) && ((ld (g_mem g) filename =? 47) || negb (bool_decide (g_err g = ERR_FSYS_MOUNT)))
      then Some (None, g)
      else
        let g := fail_with ERR_NONE g in
        let '(sane, v) := sane_partition (f_dev (g_fs g)) in
        if (sane : bool) then Some (Some filename, g) else Some (None, fail_with ERR_DEV_VALUES g)
  end.

(** [print_fsys_type] *)
Definition print_fsys_type (s : fs) : option fs :=
  if do_completion s then Some s
  else
    i ← grub_printf current_term max_lines (bytes " Filesystem type ") [] (f_io s);
    i ← (match fsys_table !! Z.to_nat (fsys_type s) with
         | Some e => grub_printf current_term max_lines (bytes "is %s, ") [ArgStr (fsys_name e)] i
         | None => grub_printf current_term max_lines (bytes "unknown, ") [] i
         end);
    i ← (if current_partition (f_dev s) =? 0xFFFFFF
         then grub_printf current_term max_lines (bytes "using whole disk" ++ [10]) [] i
         else grub_printf current_term max_lines (bytes "partition type 0x%x" ++ [10]) [ArgInt (type (f_part s) .& 0xFF)] i);
    Some (set_fio i s).

(** *** Reading *)

(** [while (filepos > BLK_CUR_FILEPOS)]: each turn moves on by a byte at least. *)
Fixpoint block_seek (fuel : nat) (s : fs) : fs :=
  match fuel with
  | O => s
  | S f =>
      let m := f_mem s in
      let cur := ldi m BLK_CUR_FILEPOS in
      if filepos s <=? cur then s
      else if SECTOR_SIZE <=? filepos s - Z.land cur (Z.lnot (SECTOR_SIZE - 1))
      then
        let s := set_int BLK_CUR_FILEPOS (cur + SECTOR_SIZE) s in
        let s := set_int BLK_CUR_BLKNUM (ldi (f_mem s) BLK_CUR_BLKNUM + 1) s in
        let m := f_mem s in
        block_seek f
          (if BLK_BLKLENGTH m (ldi m BLK_CUR_BLKLIST) <=? ldi m BLK_CUR_BLKNUM
           then set_int BLK_CUR_BLKNUM 0 (set_int BLK_CUR_BLKLIST (ldi m BLK_CUR_BLKLIST + BLK_BLKLIST_INC_VAL) s)
           else s)
      else block_seek f (set_int BLK_CUR_FILEPOS (filepos s) s)
  end.

(** [while (len && !errnum)] over a block list, for [fuel] turns. *)
Fixpoint block_read (fuel : nat) (buf len ret : Z) (s : fs) : option (Z * fs) :=
  if (len =? 0) || negb (bool_decide (f_err s = ERR_NONE))
  then Some (if bool_decide (f_err s = ERR_NONE) then ret else 0, s)
  else
    match fuel with
    | O => None
    | S f =>
        let s := if filepos s <? ldi (f_mem s) BLK_CUR_FILEPOS
                 then set_int BLK_CUR_BLKNUM 0 (set_int BLK_CUR_BLKLIST BLK_BLKLIST_START (set_int BLK_CUR_FILEPOS 0 s)) else s in
        let s := block_seek (Z.to_nat (filepos s - ldi (f_mem s) BLK_CUR_FILEPOS)) s in
        let m := f_mem s in
        let off := filepos s .& (SECTOR_SIZE - 1) in
        let size := s32 ((BLK_BLKLENGTH m (ldi m BLK_CUR_BLKLIST) - ldi m BLK_CUR_BLKNUM) * SECTOR_SIZE) - off in
        let size := if len <? size then len else size in
        '(_, s) ← hooked_devread b mem_lower mem_upper (BLK_BLKSTART m (ldi m BLK_CUR_BLKLIST) + ldi m BLK_CUR_BLKNUM) off size buf s;
        block_read f (buf + size) (len - size) (ret + size) (set_pos (filepos s + size) s)
    end.

Definition grub_read (buf len : Z) (g : files) : option (Z * files) :=
  let s := g_fs g in
  let s := if (filepos s <? 0) || (filemax s <? filepos s) then set_pos (filemax s) s else s in
  let len := if (len <? 0) || (filemax s - filepos s <? len) then filemax s - filepos s else len in
  let g := set_gfs s g in
  if fsmax s <? s32 (filepos s + len) then Some (0, fail_with ERR_FILELENGTH g)
  else if compressed_file s then gunzip_read buf len g
  else if block_file s then '(n, s) ← block_read (Z.to_nat len) buf len 0 s; Some (n, set_gfs s g)
  else
    match fsys_table !! Z.to_nat (fsys_type s) with
    | Some e => '(n, s) ← read_func e buf len s; Some (n, set_gfs s g)
    | None => Some (0, fail_with ERR_FSYS_MOUNT g)
    end.

Definition grub_seek (offset : Z) (g : files) : Z * files :=
  if (filemax (g_fs g) <? offset) || (offset <? 0) then (-1, g) else (offset, upd (set_pos offset) g).

(** *** The header of a compressed file *)

Definition GZIP_HDR_LE : Z := 0x8B1F.
Definition OLD_GZIP_HDR_LE : Z := 0x9E1F.
Definition DEFLATED : Z := 8.
Definition EXTRA_FIELD : Z := 0x04.
Definition ORIG_NAME : Z := 0x08.
Definition COMMENT : Z := 0x10.
Definition UNSUPP_FLAGS : Z := (0x02 .| 0x20) .| 0xC0.

Definition reset_linalloc (z : gz) : gz :=
  set_inflate (set_linalloc (u32 ((mem_upper .<< 10) + 0x100000)) (inflate z)) z.

Definition gunzip_swap_values (g : files) : files :=
  let s := g_fs g in
  let z := g_gz g in
  set_gz (Gz (no_decompression z) (gzip_data_offset z) (filepos s) (filemax s) (fsmax s) (saved_filepos z) (gzip_crc z) (inflate z))
    (set_gfs (set_fsmax (gzip_fsmax z) (set_file (gzip_filepos z) (gzip_filemax z) s)) g).

Definition initialize_tables (g : files) : files :=
  let z := g_gz g in
  let g := upd (set_pos (gzip_data_offset z)) g in
  let v := set_bits 0 0 (inflate z) in
  set_gz (reset_linalloc (set_inflate (set_block_len 0 (set_block_kind (block_type v) 0 v)) (set_saved 0 z))) g.

(** [bad_field]: each turn reads a byte, so [fuel] is the bytes that are left. *)
Fixpoint bad_field_loop (fuel : nat) (len ch : Z) (g : files) : option (bool * files) :=
  if if 0 <=? len then len =? 0 else ch =? 0 then Some (false, g)
  else
    match fuel with
    | O => None
    | S f =>
        '(n, g) ← grub_read ch_buf 1 g;
        if n =? 1 then bad_field_loop f (if 0 <=? len then len - 1 else len) (ld (g_mem g) ch_buf) g
        else Some (n =? 0, g)
    end.

Definition bad_field (len : Z) (g : files) : option (bool * files) :=
  bad_field_loop (S (S (Z.to_nat (filemax (g_fs g))))) len 1 g.

(** [a () || b ()] for conditions with effects. *)
Definition or_else (c : option (bool * files)) (k : files -> option (bool * files)) : option (bool * files) :=
  '(r, g) ← c; if (r : bool) then Some (true, g) else k g.

(** The conditions that make the header bad, after its ten bytes. *)
Definition bad_header (g : files) : option (bool * files) :=
  let flags := ld (g_mem g) (header_buf + 3) in
  if negb (ld (g_mem g) (header_buf + 2) =? DEFLATED) || negb (flags .& UNSUPP_FLAGS =? 0) then Some (true, g)
  else
    or_else
      (if flags .& EXTRA_FIELD =? 0 then Some (false, g)
       else '(n, g) ← grub_read header_buf 2 g;
            if negb (n =? 2) then Some (true, g) else bad_field (ld16 (g_mem g) header_buf) g)
      (fun g => or_else
        (if ld (g_mem g) (header_buf + 3) .& ORIG_NAME =? 0 then Some (false, g) else bad_field (-1) g)
        (fun g => if ld (g_mem g) (header_buf + 3) .& COMMENT =? 0 then Some (false, g) else bad_field (-1) g)).

Definition bad_gzip (g : files) : files := if bool_decide (g_err g = ERR_NONE) then fail_with ERR_BAD_GZIP_HEADER g else g.

Definition gunzip_test_header (g : files) : option (Z * files) :=
  '(plain, g) ←
    (if no_decompression (g_gz g) then Some (true, g)
     else '(n, g) ← grub_read header_buf 10 g;
          let magic := ld16 (g_mem g) header_buf in
          Some (negb (n =? 10) || (negb (magic =? GZIP_HDR_LE) && negb (magic =? OLD_GZIP_HDR_LE)), g));
  if (plain : bool) then Some (if bool_decide (g_err g = ERR_NONE) then 1 else 0, upd (set_pos 0) g)
  else
    '(bad, g) ← bad_header g;
    if (bad : bool) then Some (0, bad_gzip g)
    else
      let offset := filepos (g_fs g) in
      '(n, g) ← grub_read header_buf 8 (upd (set_pos (filemax (g_fs g) - 8)) g);
      if negb (n =? 8) then Some (0, bad_gzip g)
      else
        let crc := ld32 (g_mem g) header_buf in
        let size := s32 (ld32 (g_mem g) (header_buf + 4)) in
        let z := g_gz g in
        let g := set_gz (Gz (no_decompression z) offset (gzip_filepos z) size size (saved_filepos z) crc (inflate z)) g in
        Some (1, upd (set_pos 0) (gunzip_swap_values (upd (set_compressed true) (initialize_tables g)))).

(** *** Opening *)

(** The loop over a block list, [ptr] being what is left of the name: that, and
    [list_addr], when it ends. *)
Fixpoint parse_blocks (fuel : nat) (ptr : list Z) (list_addr : Z) (s : fs) : list Z * Z * fs :=
  match fuel with
  | O => (ptr, list_addr, s)
  | S f =>
      if BLK_MAX_ADDR <=? list_addr then (ptr, list_addr, s)
      else
        let '(ptr, tmp) := match safe_parse_maxint ptr with Parsed rest n => (rest, n) | ParseError _ => (ptr, 0) end in
        let s := set_ferr ERR_NONE s in
        if negb (ch ptr =? 43)
        then
          (ptr, list_addr,
           if (negb (ch ptr =? 0) && negb (ch ptr =? 47) && negb (grub_isspace (ch ptr))) || (tmp =? 0) || (filemax s <? tmp)
           then set_ferr ERR_BAD_FILENAME s else set_max tmp s)
        else
          let s := set_int list_addr tmp (set_type NUM_FSYS s) in
          let ptr := tail ptr in
          match safe_parse_maxint ptr with
          | ParseError _ => (ptr, list_addr, set_ferr ERR_BAD_FILENAME s)
          | Parsed ptr tmp =>
              if (tmp =? 0) || (negb (ch ptr =? 0) && negb (ch ptr =? 44) && negb (ch ptr =? 47) && negb (grub_isspace (ch ptr)))
              then (ptr, list_addr, set_ferr ERR_BAD_FILENAME s)
              else
                let s := set_int (list_addr + 4) tmp s in
                let s := set_max (s32 (filemax s + s32 (tmp * SECTOR_SIZE))) s in
                let list_addr := list_addr + BLK_BLKLIST_INC_VAL in
                if negb (ch ptr =? 44) then (ptr, list_addr, s) else parse_blocks f (tail ptr) list_addr s
          end
  end.

(** The name is outside the list of blocks, which has room for 4093. *)
Definition grub_open (filename : Z) (g : files) : option (Z * files) :=
  let g := upd (set_pos 0) (upd (set_compressed false) g) in
  '(r, g) ← setup_part filename g;
  match r with
  | None => Some (0, g)
  | Some filename =>
      let g := upd (fun s => set_fsmax MAXINT (set_block false s)) g in
      let '(blocks, g) :=
        if negb (ld (g_mem g) filename =? 47)
        then
          let name := cstring (g_mem g) filename in
          let '(ptr, list_addr, s) := parse_blocks (Z.to_nat 4095) name BLK_BLKLIST_START (set_max 0 (g_fs g)) in
          if (list_addr <? BLK_MAX_ADDR) && negb (length ptr =? length name)%nat && bool_decide (f_err s = ERR_NONE)
          then (true, set_gfs (set_int BLK_CUR_BLKNUM 0 (set_int BLK_CUR_BLKLIST BLK_BLKLIST_START (set_int BLK_CUR_FILEPOS 0 (set_block true s)))) g)
          else (false, set_gfs s g)
        else (false, g) in
      if (blocks : bool) then gunzip_test_header g
      else
        let g := if bool_decide (g_err g = ERR_NONE) && (fsys_type (g_fs g) =? NUM_FSYS) then fail_with ERR_FSYS_MOUNT g else g in
        let g := upd (fun s => set_completion 0 (do_completion s) (unique s) s) g in
        if negb (bool_decide (g_err g = ERR_NONE)) then Some (0, g)
        else
          e ← fsys_table !! Z.to_nat (fsys_type (g_fs g));
          '(ok, s) ← dir_func e filename (g_fs g);
          if ok =? 0 then Some (0, set_gfs s g) else gunzip_test_header (set_gfs s g)
  end.

Definition dir (dirname : Z) (g : files) : option (Z * files) :=
  '(r, g) ← setup_part dirname (upd (set_compressed false) g);
  match r with
  | None => Some (0, g)
  | Some dirname =>
      let g := if negb (ld (g_mem g) dirname =? 47) then fail_with ERR_BAD_FILENAME g else g in
      let g := if fsys_type (g_fs g) =? NUM_FSYS then fail_with ERR_FSYS_MOUNT g else g in
      if negb (bool_decide (g_err g = ERR_NONE)) then Some (0, g)
      else
        let g := upd (fun s => set_completion 1 (do_completion s) (unique s) s) g in
        e ← fsys_table !! Z.to_nat (fsys_type (g_fs g));
        '(ok, s) ← dir_func e dirname (g_fs g); Some (ok, set_gfs s g)
  end.

Definition grub_close (g : files) : option files :=
  if block_file (g_fs g) then Some g
  else
    match fsys_table !! Z.to_nat (fsys_type (g_fs g)) with
    | Some (FsysEntry _ _ _ _ (Some close)) => s ← close (g_fs g); Some (set_gfs s g)
    | _ => Some g
    end.
End Files.

(** ** Specifications *)

(** The areas that the files use: the buffer of the file systems. *)
Definition in_fsys (a : Z) : Prop := FSYS_BUF <= a < FSYS_BUF + 0x8000.

(** A place for what is read. *)
Definition file_place (mem_lower mem_upper buf len : Z) : Prop :=
  target_ok mem_lower mem_upper buf len /\ forall a, buf <= a < buf + len -> ~ in_fsys a.

(** What a file is made of promises to [grub_read]: the bytes [content] up to
    [size] can be read from any position, into any place. *)
Class FileReader (mem_lower mem_upper : Z) (read : Z -> Z -> fs -> option (Z * fs)) (content : Z -> Z) (size : Z) := {
  fr_open : fs -> Prop;
  fr_size : 0 <= size <= MAXINT;
  fr_no_error s : fr_open s -> f_err s = ERR_NONE;
  fr_seek s pos : fr_open s -> fr_open (set_pos pos s);
  fr_io s i : fr_open s -> fr_open (set_fio i s);
  fr_frame s m : fr_open s -> (forall a, in_buffer a \/ in_fsys a -> ld m a = ld (f_mem s) a) -> fr_open (set_fmem m s);
  fr_read s buf n : fr_open s -> 0 <= filepos s -> 0 <= n -> filepos s + n <= size -> file_place mem_lower mem_upper buf n ->
    exists s', read buf n s = Some (n, s') /\ fr_open s' /\ moved n s s' /\
      (forall x, 0 <= x < n -> ld (f_mem s') (buf + x) = content (filepos s + x)) /\
      (forall a, ~ in_buffer a -> ~ in_fsys a -> ~ (buf <= a < buf + n) -> ld (f_mem s') a = ld (f_mem s) a) }.

Section Open.
Context (b : bios) (mem_lower mem_upper : Z) (fsys_table : list fsys_entry).
Context (read : Z -> Z -> fs -> option (Z * fs)) (content : Z -> Z) (size : Z) {R : FileReader mem_lower mem_upper read content size}.
Variable gunzip_read : Z -> Z -> files -> option (Z * files).

(** The function that [grub_read] calls. *)
Definition active_read (s : fs) : option (Z -> Z -> fs -> option (Z * fs)) :=
  if block_file s then Some (fun buf len => block_read b mem_lower mem_upper (Z.to_nat len) buf len 0)
  else read_func <$> fsys_table !! Z.to_nat (fsys_type s).

(** The abstract file: its contents and the position. *)
Record file_open (g : files) : Prop := {
  fo_plain : compressed_file (g_fs g) = false;
  fo_size : filemax (g_fs g) = size;
  fo_max : fsmax (g_fs g) = MAXINT;
  fo_read : active_read (g_fs g) = Some read;
  fo_open : fr_open (g_fs g) }.

(** The position after [grub_read]'s first test, and the number of bytes. *)
Definition read_from (pos : Z) : Z := if (pos <? 0) || (size <? pos) then size else pos.
Definition read_count (pos n : Z) : Z := if (n <? 0) || (size - read_from pos <? n) then size - read_from pos else n.

(** It is not a compressed file. *)
Definition not_gzip (z : gz) : Prop :=
  no_decompression z = true \/ size < 10 \/
  (content 0 + 256 * content 1 <> GZIP_HDR_LE /\ content 0 + 256 * content 1 <> OLD_GZIP_HDR_LE).

(** ** Proofs *)

Lemma read_from_range pos : 0 <= read_from pos <= size.
Proof. pose proof fr_size. unfold read_from. destruct (Z.ltb_spec pos 0), (Z.ltb_spec size pos); cbn; lia. Qed.

Lemma read_count_range pos n : 0 <= read_count pos n /\ read_from pos + read_count pos n <= size /\ (0 <= n -> read_count pos n <= n).
Proof.
  pose proof (read_from_range pos). unfold read_count.
  destruct (Z.ltb_spec n 0), (Z.ltb_spec (size - read_from pos) n); cbn; lia.
Qed.

Lemma file_open_moved g s' n : file_open g -> moved n (g_fs g) s' -> fr_open s' -> file_open (set_gfs s' g).
Proof. intros [] (d & h & u & w & ->) O. by constructor. Qed.

Lemma file_open_pos g pos : file_open g -> file_open (upd (set_pos pos) g).
Proof. intros []. constructor; try done. by apply fr_seek. Qed.

Lemma grub_read_ok buf n g : file_open g ->
  let k := read_count (filepos (g_fs g)) n in
  file_place mem_lower mem_upper buf k ->
  exists s', grub_read b mem_lower mem_upper fsys_table gunzip_read buf n g = Some (k, set_gfs s' g) /\
    file_open (set_gfs s' g) /\ moved k (set_pos (read_from (filepos (g_fs g))) (g_fs g)) s' /\
    (forall x, 0 <= x < k -> ld (f_mem s') (buf + x) = content (read_from (filepos (g_fs g)) + x)) /\
    (forall a, ~ in_buffer a -> ~ in_fsys a -> ~ (buf <= a < buf + k) -> ld (f_mem s') a = ld (g_mem g) a).
Proof.
  intros O k Hb. unfold grub_read. rewrite (fo_size _ O).
  set (pos := read_from (filepos (g_fs g))) in *.
  pose proof (read_from_range (filepos (g_fs g))) as Hp. fold pos in Hp.
  pose proof (read_count_range (filepos (g_fs g)) n) as Hk. fold pos k in Hk.
  assert ((if (filepos (g_fs g) <? 0) || (size <? filepos (g_fs g)) then set_pos size (g_fs g) else g_fs g) = set_pos pos (g_fs g)) as ->.
  { unfold pos, read_from. destruct (_ || _); [done |]. by destruct (g_fs g). }
  cbn [filepos filemax set_pos set_file fsmax compressed_file]. rewrite (fo_size _ O). unfold read_count in k. fold pos in k. fold k.
  rewrite (fo_max _ O), (fo_plain _ O). pose proof fr_size as Hs.
  rewrite s32_small, (proj2 (Z.ltb_ge MAXINT _)) by (unfold MAXINT in *; lia).
  destruct (fr_read (set_pos pos (g_fs g)) buf k) as (s' & E & O' & M & B & F); try done; cbn; try lia.
  { by apply fr_seek, fo_open. }
  assert (file_open (set_gfs s' g)) as Of.
  { change (set_gfs s' g) with (set_gfs s' (set_gfs (set_pos pos (g_fs g)) g)). eapply file_open_moved; try done. by apply (file_open_pos g pos). }
  exists s'. split; [| done]. pose proof (fo_read _ O) as Hr. unfold active_read in Hr.
  cbn [block_file set_pos set_file g_fs set_gfs fsys_type].
  destruct (block_file (g_fs g)).
  - apply (f_equal (fun r => r ← r; r buf k (set_pos pos (g_fs g)))) in Hr. cbn in Hr. by rewrite Hr, E.
  - destruct (fsys_table !! _) as [e |]; [| done]. apply (f_equal (fun r => r ← r; r buf k (set_pos pos (g_fs g)))) in Hr.
    cbn in Hr. by rewrite Hr, E.
Qed.

Lemma place_prefix buf n k : file_place mem_lower mem_upper buf n -> 0 <= k <= n -> file_place mem_lower mem_upper buf k.
Proof.
  intros [[T1 T2 T3 T4 T5] F] Hk. split; [constructor; try done; [unfold mem_ok in *; lia | lia |] |]; intros a Ha; [apply T5 | apply F]; lia.
Qed.

(** What opening leaves: the file at its beginning, other memory untouched. *)
Record opened_at_start (scratch : Z -> Prop) (g g' : files) : Prop := {
  os_open : file_open g';
  os_start : filepos (g_fs g') = 0;
  os_io : f_io (g_fs g') = f_io (g_fs g);
  os_frame : forall a, ~ in_buffer a -> ~ in_fsys a -> ~ scratch a -> ld (g_mem g') a = ld (g_mem g) a }.

Lemma gunzip_test_header_ok header_buf ch_buf g : file_open g -> filepos (g_fs g) = 0 -> not_gzip (g_gz g) ->
  file_place mem_lower mem_upper header_buf 10 ->
  exists g', gunzip_test_header b mem_lower mem_upper fsys_table header_buf ch_buf gunzip_read g = Some (1, g') /\
    opened_at_start (fun a => header_buf <= a < header_buf + 10) g g' /\ g_gz g' = g_gz g.
Proof.
  intros O Hp Hz Hb. unfold gunzip_test_header. destruct (no_decompression (g_gz g)) eqn:En.
  { cbn [mbind option_bind]. unfold g_err. rewrite (fr_no_error _ (fo_open _ O)), bool_decide_true by done.
    eexists. split; [done |]. split; [| done]. constructor; [by apply file_open_pos | done | done | done]. }
  pose proof (read_count_range (filepos (g_fs g)) 10) as Hk.
  destruct (grub_read_ok header_buf 10 g O) as (s' & -> & O' & M & B & F); [eapply place_prefix; [done | lia] |].
  pose proof fr_size as Hs. assert (read_from (filepos (g_fs g)) = 0) as E0 by (rewrite Hp; unfold read_from; by rewrite (proj2 (Z.ltb_ge size 0)) by lia).
  assert (read_count (filepos (g_fs g)) 10 = Z.min 10 size) as Ec.
  { unfold read_count. rewrite E0. cbn. destruct (Z.ltb_spec (size - 0) 10); lia. }
  rewrite Ec, E0 in *. cbn [mbind option_bind]. change (g_mem (set_gfs s' g)) with (f_mem s').
  assert (negb (Z.min 10 size =? 10) || (negb (ld16 (f_mem s') header_buf =? GZIP_HDR_LE) && negb (ld16 (f_mem s') header_buf =? OLD_GZIP_HDR_LE)) = true) as ->.
  { destruct (Z.eqb_spec (Z.min 10 size) 10) as [Em |]; [| done]. cbn [negb orb]. unfold ld16.
    pose proof (B 0 ltac:(lia)) as B0. rewrite Z.add_0_r in B0. rewrite B0, (B 1) by lia. cbn [Z.add].
    destruct Hz as [? | [? | [Z1 Z2]]]; [congruence | lia |]. by rewrite !(proj2 (Z.eqb_neq _ _)). }
  unfold g_err. rewrite (fr_no_error _ (fo_open _ O')), bool_decide_true by done.
  eexists. split; [done |]. split; [| done]. constructor; [by apply file_open_pos | done | by destruct M as (? & ? & ? & ? & ->) |].
  intros a A1 A2 A3. apply F; [done | done | lia].
Qed.

Lemma plain_opened header_buf ch_buf (scratch : Z -> Prop) g g1 : opened_at_start scratch g g1 -> not_gzip (g_gz g1) ->
  file_place mem_lower mem_upper header_buf 10 -> (forall a, header_buf <= a < header_buf + 10 -> scratch a) ->
  exists g', gunzip_test_header b mem_lower mem_upper fsys_table header_buf ch_buf gunzip_read g1 = Some (1, g') /\ opened_at_start scratch g g'.
Proof.
  intros [O P I F] Hz Hh Hs. destruct (gunzip_test_header_ok header_buf ch_buf g1 O P Hz Hh) as (g' & E & [O' P' I' F'] & _).
  exists g'. split; [done |]. constructor; [done | done | congruence |]. intros a A1 A2 A3. rewrite F' by auto. by apply F.
Qed.
End Open.
