(* ===== verification/Deflate.v ===== *)
(** * The deflate format

    What compressed data means, after RFC 1951 and independent of the decoder in
    [gunzip.c]: numbers and codes in a sequence of bits, and the output that a
    sequence of blocks denotes. *)

From S2P Require Import Prelude.

(** ** Codes *)

(** The bits of a code are the first ones in a tree: the code of a symbol counts,
    in units of its own length, the codes before it, which are the shorter ones
    and those of the same length with a smaller symbol.  A length of 0 is no
    code. *)
Definition before_code (len : Z) (s : nat) (x : nat * Z) : bool :=
  (0 <? x.2) && ((x.2 <? len) || ((x.2 =? len) && (x.1 <? s)%nat)).
Definition weight (n : Z) (l : list (nat * Z)) : Z := foldr (fun x a => 2 ^ (n - x.2) + a) 0 l.
Definition numbered (lens : list Z) : list (nat * Z) := zip (seq 0 (length lens)) lens.
Definition code_value (lens : list Z) (s : nat) (len : Z) : Z := weight len (filter (fun x => before_code len s x) (numbered lens)).

(** The space that the codes take, of [2 ^ n]. *)
Definition space (n : Z) (lens : list Z) : Z := weight n (filter (fun x => 0 <? x.2) (numbered lens)).

(** A code is complete, or has a single bit. *)
Definition usable (lens : list Z) : Prop :=
  Forall (fun x => 0 <= x <= 15) lens /\ (space 15 lens = 2 ^ 15 \/ (Forall (fun x => x <= 1) lens /\ space 15 lens <= 2 ^ 15)).

(** ** Lengths and distances *)

(** The base and the number of extra bits. *)
Definition length_code (s : Z) : option (Z * Z) :=
  if (s <? 257) || (285 <? s) then None
  else if s <? 265 then Some (s - 254, 0)
  else if s =? 285 then Some (258, 0)
  else let x := (s - 261) / 4 in Some (3 + (4 + (s - 1) mod 4) * 2 ^ x, x).
Definition distance_code (s : Z) : option (Z * Z) :=
  if (s <? 0) || (29 <? s) then None
  else if s <? 4 then Some (s + 1, 0)
  else let x := s / 2 - 1 in Some (1 + (2 + s mod 2) * 2 ^ x, x).

(** [n] bytes from the distance [d] back, which may repeat what they append. *)
Fixpoint repeat_from (n d : nat) (o : list Z) : list Z :=
  match n with O => o | S n => repeat_from n d (o ++ [nth (length o - d) o 0]) end.

Definition fixed_lit : list Z := map (fun s => if s <? 144 then 8 else if s <? 256 then 9 else if s <? 280 then 7 else 8) (seqZ 0 288).
Definition fixed_dist : list Z := replicate 30 5.

(** The order of the lengths of the codes for lengths. *)
Definition length_order : list nat := [16; 17; 18; 0; 8; 7; 9; 6; 10; 5; 11; 4; 12; 3; 13; 2; 14; 1; 15]%nat.

Section Bits.
Variable bit : Z -> bool.

(** A number is stored from its low bit on, a code from its high bit on. *)
Fixpoint field (n : nat) (p : Z) : Z :=
  match n with O => 0 | S n => Z.b2z (bit p) + 2 * field n (p + 1) end.
Fixpoint word (n : nat) (p : Z) : Z :=
  match n with O => 0 | S n => Z.b2z (bit p) * 2 ^ Z.of_nat n + word n (p + 1) end.

(** The code of symbol [s] is at [p], of [len] bits. *)
Definition symbol_at (lens : list Z) (p : Z) (s : nat) (len : Z) : Prop :=
  lens !! s = Some len /\ 0 < len /\ word (Z.to_nat len) p = code_value lens s len.

(** ** Blocks *)

Section Codes.
Variables (lit dist : list Z).

(** From [p] on, after the output [o]: up to the end of the block. *)
Inductive codes : Z -> list Z -> Z -> list Z -> Prop :=
| codes_end p o n : symbol_at lit p 256 n -> codes p o (p + n) o
| codes_literal p o c n p' o' : symbol_at lit p c n -> (c < 256)%nat -> codes (p + n) (o ++ [Z.of_nat c]) p' o' -> codes p o p' o'
| codes_copy p o c n base x c2 n2 base2 x2 p' o' :
    symbol_at lit p c n -> length_code (Z.of_nat c) = Some (base, x) ->
    let p1 := p + n + x in
    symbol_at dist p1 c2 n2 -> distance_code (Z.of_nat c2) = Some (base2, x2) ->
    let len := base + field (Z.to_nat x) (p + n) in
    let d := base2 + field (Z.to_nat x2) (p1 + n2) in
    d <= Z.of_nat (length o) -> codes (p1 + n2 + x2) (repeat_from (Z.to_nat len) (Z.to_nat d) o) p' o' -> codes p o p' o'.
End Codes.

(** The run lengths in which the lengths of the codes are written, up to [n]. *)
Inductive run_lengths (lens : list Z) (n : nat) : Z -> list Z -> Z -> list Z -> Prop :=
| runs_end p l : length l = n -> run_lengths lens n p l p l
| runs_one p l s k p' l' : symbol_at lens p s k -> (s < 16)%nat -> (length l < n)%nat ->
    run_lengths lens n (p + k) (l ++ [Z.of_nat s]) p' l' -> run_lengths lens n p l p' l'
| runs_many p l s k base x p' l' : symbol_at lens p s k -> (length l < n)%nat ->
    (s, base, x) ∈ [(16, 3, 2); (17, 3, 3); (18, 11, 7)]%nat ->
    let r := replicate (base + Z.to_nat (field x (p + k))) (if (s =? 16)%nat then nth (length l - 1) l 0 else 0) in
    (length (l ++ r) <= n)%nat -> run_lengths lens n (p + k + Z.of_nat x) (l ++ r) p' l' -> run_lengths lens n p l p' l'.

(** The codes of a dynamic block, described from [p] to [p']. *)
Definition given_length (p : Z) (count s : nat) : Z :=
  match list_find (eq s) length_order with
  | Some (i, _) => if (i <? count)%nat then field 3 (p + 3 * Z.of_nat i) else 0
  | None => 0
  end.
Definition given_lengths (p : Z) (count : nat) : list Z := map (given_length p count) (seq 0 19).

Definition described (p : Z) (lit dist : list Z) (p' : Z) : Prop :=
  let nl := 257 + field 5 p in
  let nd := 1 + field 5 (p + 5) in
  let count := Z.to_nat (4 + field 4 (p + 10)) in
  let lens := given_lengths (p + 14) count in
  nl <= 286 /\ nd <= 30 /\ usable lens /\
  run_lengths lens (Z.to_nat (nl + nd)) (p + 14 + 3 * Z.of_nat count) [] p' (lit ++ dist) /\
  Z.of_nat (length lit) = nl /\ usable lit /\ usable dist.

(** The bytes of a stored block begin at the next byte. *)
Definition next_byte (p : Z) : Z := (p + 7) / 8 * 8.
Definition bytes_at (p : Z) (n : nat) : list Z := map (fun i => field 8 (p + 8 * Z.of_nat i)) (seq 0 n).

(** A block after its first bit. *)
Inductive block : Z -> list Z -> Z -> list Z -> Prop :=
| block_stored p o : field 2 p = 0 ->
    let q := next_byte (p + 2) in
    let n := field 16 q in
    field 16 (q + 16) = 65535 - n -> block p o (q + 32 + 8 * n) (o ++ bytes_at (q + 32) (Z.to_nat n))
| block_fixed p o p' o' : field 2 p = 1 -> codes fixed_lit fixed_dist (p + 2) o p' o' -> block p o p' o'
| block_dynamic p o lit dist p1 p' o' : field 2 p = 2 -> described (p + 2) lit dist p1 -> codes lit dist p1 o p' o' -> block p o p' o'.

(** The bits from [p] to [p'] extend the output [o] to [o']. *)
Inductive deflate : Z -> list Z -> Z -> list Z -> Prop :=
| deflate_last p o p' o' : bit p = true -> block (p + 1) o p' o' -> deflate p o p' o'
| deflate_more p o p1 o1 p' o' : bit p = false -> block (p + 1) o p1 o1 -> deflate p1 o1 p' o' -> deflate p o p' o'.
End Bits.
