(* ===== verification/Canonical.v ===== *)
(** * Canonical codes

    The positions that the codes of [Deflate] take in the tree: sums over the
    lengths of the symbols, and numbers with their bits reversed. *)

From S2P Require Import Prelude Deflate.

(** ** Sums over a list with its indices *)

Fixpoint sum_over (f : nat -> Z -> Z) (i : nat) (l : list Z) : Z :=
  match l with [] => 0 | x :: l => f i x + sum_over f (S i) l end.

Lemma sum_over_ext f g i l : (forall j x, l !! j = Some x -> f (i + j)%nat x = g (i + j)%nat x) -> sum_over f i l = sum_over g i l.
Proof.
  revert i. induction l as [|x l IH]; intros i H; [done |]. cbn. f_equal.
  - specialize (H 0%nat x eq_refl). by rewrite Nat.add_0_r in H.
  - apply IH. intros j y Hj. specialize (H (S j) y Hj). by rewrite Nat.add_succ_r in H.
Qed.

Lemma sum_over_add f g i l : sum_over (fun j x => f j x + g j x) i l = sum_over f i l + sum_over g i l.
Proof. revert i. induction l as [|x l IH]; intros i; [done |]. cbn. rewrite IH. lia. Qed.

Lemma sum_over_scale c f i l : sum_over (fun j x => c * f j x) i l = c * sum_over f i l.
Proof. revert i. induction l as [|x l IH]; intros i; cbn; [lia |]. rewrite IH. lia. Qed.

Lemma sum_over_zero f i l : (forall j x, l !! j = Some x -> f (i + j)%nat x = 0) -> sum_over f i l = 0.
Proof.
  intros H. rewrite (sum_over_ext f (fun _ _ => 0)) by done. generalize i as k. clear. induction l; intros; cbn; [done | apply IHl].
Qed.

Lemma sum_over_shift (h : Z -> Z) l : forall i j, sum_over (fun _ x => h x) i l = sum_over (fun _ x => h x) j l.
Proof. induction l as [|x l IH]; intros i j; [done |]. cbn. f_equal. apply IH. Qed.

Lemma sum_over_le f g i l : (forall j x, l !! j = Some x -> f (i + j)%nat x <= g (i + j)%nat x) -> sum_over f i l <= sum_over g i l.
Proof.
  revert i. induction l as [|x l IH]; intros i H; [done |]. cbn.
  pose proof (H 0%nat x eq_refl) as H0. rewrite Nat.add_0_r in H0.
  assert (sum_over f (S i) l <= sum_over g (S i) l); [| lia]. apply IH. intros j y Hj. specialize (H (S j) y Hj). by rewrite Nat.add_succ_r in H.
Qed.

Lemma sum_over_single (h : Z -> Z) y l : forall s i, l !! s = Some y -> sum_over (fun j x => if (j =? i + s)%nat then h x else 0) i l = h y.
Proof.
  induction l as [|x l IH]; intros [|s] i Hs; [done.. | |]; cbn in Hs |- *.
  - injection Hs as ->. rewrite Nat.add_0_r, Nat.eqb_refl, sum_over_zero; [lia |]. intros j z _. cbn beta. by rewrite (proj2 (Nat.eqb_neq _ _)) by lia.
  - rewrite (proj2 (Nat.eqb_neq i (i + S s))) by lia. rewrite Z.add_0_l, <- (IH s (S i) Hs). apply sum_over_ext. intros j z _. cbn beta.
    by replace (i + S s)%nat with (S i + s)%nat by lia.
Qed.

(** An element's share. *)
Lemma sum_over_le_at f g s y l : l !! s = Some y -> (forall j x, l !! j = Some x -> f j x <= g j x) ->
  sum_over f 0 l + (g s y - f s y) <= sum_over g 0 l.
Proof.
  intros Hs H. rewrite <- (sum_over_single (fun _ => g s y - f s y) y l s 0 Hs), <- sum_over_add.
  apply sum_over_le. intros j x Hj. cbn [Nat.add]. destruct (Nat.eqb_spec j s) as [-> |].
  - assert (x = y) as -> by congruence. lia.
  - specialize (H j x Hj). lia.
Qed.

Lemma weight_sum n P `{forall x, Decision (P x)} i l :
  weight n (filter P (zip (seq i (length l)) l)) = sum_over (fun j x => if decide (P (j, x)) then 2 ^ (n - x) else 0) i l.
Proof.
  revert i. induction l as [|x l IH]; intros i; [done |]. cbn [length seq zip zip_with sum_over]. rewrite filter_cons.
  destruct (decide (P (i, x))); [cbn [weight foldr snd]; f_equal |]; apply IH.
Qed.

(** ** Reversed bits *)

Fixpoint rev_bits (n : nat) (x : Z) : Z :=
  match n with O => 0 | S n => (x mod 2) * 2 ^ Z.of_nat n + rev_bits n (x / 2) end.
Definition rev (n x : Z) : Z := rev_bits (Z.to_nat n) x.

Lemma rev_bits_range n : forall x, 0 <= rev_bits n x < 2 ^ Z.of_nat n.
Proof.
  induction n as [|n IH]; intros x; [done |]. cbn [rev_bits]. specialize (IH (x / 2)).
  pose proof (Z.mod_pos_bound x 2 ltac:(lia)). rewrite Nat2Z.inj_succ, Z.pow_succ_r by lia. nia.
Qed.

Lemma rev_bits_spec n : forall x i, 0 <= i -> Z.testbit (rev_bits n x) i = (i <? Z.of_nat n) && Z.testbit x (Z.of_nat n - 1 - i).
Proof.
  induction n as [|n IH]; intros x i Hi.
  - cbn [rev_bits]. rewrite Z.bits_0. by rewrite (proj2 (Z.ltb_ge _ _)) by lia.
  - cbn [rev_bits]. pose proof (rev_bits_range n (x / 2)) as Hr.
    rewrite Z.add_comm, <- lor_shiftl_add by lia. rewrite Z.lor_spec, Z.shiftl_spec by lia. rewrite IH by done.
    destruct (Z.ltb_spec i (Z.of_nat n)).
    + rewrite (Z.testbit_neg_r _ (i - Z.of_nat n)) by lia. rewrite orb_false_r. rewrite (proj2 (Z.ltb_lt i (Z.of_nat (S n)))) by lia. cbn [andb].
      rewrite <- (Z.pow_1_r 2) at 1. rewrite Z.div_pow2_bits by lia. f_equal. lia.
    + cbn [andb orb]. rewrite <- Z.bit0_mod. destruct (Z.ltb_spec i (Z.of_nat (S n))).
      * replace (i - Z.of_nat n) with 0 by lia. replace (Z.of_nat (S n) - 1 - i) with 0 by lia. cbn [andb]. by destruct (Z.testbit x 0).
      * cbn [andb]. apply (testbit_high _ 1); [by destruct (Z.testbit x 0) | lia].
Qed.

Lemma rev_range n x : 0 <= n -> 0 <= rev n x < 2 ^ n.
Proof. intros Hn. unfold rev. pose proof (rev_bits_range (Z.to_nat n) x). by rewrite Z2Nat.id in * by done. Qed.

Lemma rev_spec n x i : 0 <= n -> 0 <= i -> Z.testbit (rev n x) i = (i <? n) && Z.testbit x (n - 1 - i).
Proof. intros Hn Hi. unfold rev. rewrite rev_bits_spec by done. by rewrite Z2Nat.id by done. Qed.

Ltac by_bits := apply Z.bits_inj'; intros i Hi.

Lemma rev_rev n x : 0 <= n -> rev n (rev n x) = x mod 2 ^ n.
Proof.
  intros Hn. by_bits. rewrite rev_spec by done. destruct (Z.ltb_spec i n).
  - rewrite rev_spec by lia. rewrite (proj2 (Z.ltb_lt _ _)) by lia. cbn [andb]. rewrite Z.mod_pow2_bits_low by lia. f_equal. lia.
  - by rewrite Z.mod_pow2_bits_high by lia.
Qed.

Lemma rev_low n w x : 0 <= w <= n -> rev n x mod 2 ^ w = rev w (x / 2 ^ (n - w)).
Proof.
  intros Hw. by_bits. rewrite rev_spec by lia. destruct (Z.ltb_spec i w); [| by rewrite Z.mod_pow2_bits_high by lia].
  rewrite Z.mod_pow2_bits_low, rev_spec by lia. rewrite (proj2 (Z.ltb_lt _ _)) by lia. cbn [andb].
  rewrite Z.div_pow2_bits by lia. f_equal. lia.
Qed.

Lemma rev_high n w x : 0 <= w <= n -> rev n x / 2 ^ w = rev (n - w) x.
Proof.
  intros Hw. by_bits. rewrite Z.div_pow2_bits, !rev_spec by lia.
  replace (i + w <? n) with (i <? n - w) by (destruct (Z.ltb_spec i (n - w)), (Z.ltb_spec (i + w) n); lia || done).
  destruct (i <? n - w); [| done]. cbn [andb]. f_equal. lia.
Qed.

Lemma rev_mul n m x : 0 <= m <= n -> rev n (x * 2 ^ m) = rev (n - m) x.
Proof.
  intros Hm. by_bits. rewrite !rev_spec by lia. destruct (Z.ltb_spec i (n - m)).
  - rewrite (proj2 (Z.ltb_lt i n)) by lia. cbn [andb]. rewrite Z.mul_pow2_bits by lia. f_equal. lia.
  - destruct (Z.ltb_spec i n); [| done]. cbn [andb]. by rewrite Z.mul_pow2_bits_low by lia.
Qed.

Lemma rev_mod n x : 0 <= n -> rev n (x mod 2 ^ n) = rev n x.
Proof.
  intros Hn. by_bits. rewrite !rev_spec by lia. destruct (Z.ltb_spec i n); [| done]. cbn [andb]. by rewrite Z.mod_pow2_bits_low by lia.
Qed.

Lemma div_mod_pow b n m : 0 <= n <= m -> (b / 2 ^ n) mod 2 ^ (m - n) = (b mod 2 ^ m) / 2 ^ n.
Proof.
  intros H. by_bits. rewrite Z.div_pow2_bits by lia. destruct (Z.lt_ge_cases i (m - n)).
  - rewrite !Z.mod_pow2_bits_low, Z.div_pow2_bits by lia. done.
  - by rewrite !Z.mod_pow2_bits_high by lia.
Qed.

Lemma rev_inj n x y : 0 <= n -> 0 <= x < 2 ^ n -> 0 <= y < 2 ^ n -> rev n x = rev n y -> x = y.
Proof. intros Hn Hx Hy E. apply (f_equal (rev n)) in E. rewrite !rev_rev, !Z.mod_small in E by lia. done. Qed.

(** ** Positions *)

Section Positions.
Variable lens : list Z.

(** The symbols with codes of [k] bits, those among them before [i], the symbols
    with shorter codes. *)
Definition cnt (k : Z) : Z := sum_over (fun _ x => if x =? k then 1 else 0) 0 lens.
Definition rank (k : Z) (i : nat) : Z := sum_over (fun t x => if (x =? k) && (t <? i)%nat then 1 else 0) 0 lens.
Definition first_of (k : Z) : Z := sum_over (fun _ x => if (0 <? x) && (x <? k) then 1 else 0) 0 lens.
(** The space, of [2 ^ g], of the codes of at most [k] bits. *)
Definition upto (g k : Z) : Z := sum_over (fun _ x => if (0 <? x) && (x <=? k) then 2 ^ (g - x) else 0) 0 lens.

Ltac pointwise :=
  intros ? ? _; cbn beta;
  repeat match goal with
         | |- context [?x <? ?y] => destruct (Z.ltb_spec x y)
         | |- context [?x <=? ?y] => destruct (Z.leb_spec x y)
         | |- context [?x =? ?y] => destruct (Z.eqb_spec x y)
         end; cbn [andb]; lia.

Lemma sum_over_nonneg f : (forall j x, lens !! j = Some x -> 0 <= f j x) -> 0 <= sum_over f 0 lens.
Proof. intros H. rewrite <- (sum_over_zero (fun _ _ => 0) 0 lens) by done. by apply sum_over_le. Qed.

Lemma cnt_range k : 0 <= cnt k.
Proof. apply sum_over_nonneg. pointwise. Qed.

Lemma rank_0 k : rank k 0 = 0.
Proof. apply sum_over_zero. intros j x _. cbn beta. destruct (Nat.ltb_spec (0 + j) 0); [lia |]. by rewrite andb_false_r. Qed.

Lemma rank_step k i x : lens !! i = Some x -> rank k (S i) = rank k i + (if x =? k then 1 else 0).
Proof.
  intros Hx. rewrite <- (sum_over_single (fun x => if x =? k then 1 else 0) x lens i 0 Hx). unfold rank. rewrite <- sum_over_add.
  apply sum_over_ext. intros j y Hj. cbn [Nat.add]. destruct (Nat.eqb_spec j i) as [-> |].
  - assert (y = x) as -> by congruence. destruct (x =? k), (Nat.ltb_spec i (S i)), (Nat.ltb_spec i i); cbn; lia.
  - destruct (y =? k), (Nat.ltb_spec j (S i)), (Nat.ltb_spec j i); cbn; lia.
Qed.

Lemma rank_total k : rank k (length lens) = cnt k.
Proof.
  apply sum_over_ext. intros j x Hj. cbn [Nat.add]. apply lookup_lt_Some in Hj. rewrite (proj2 (Nat.ltb_lt _ _)) by done. by rewrite andb_true_r.
Qed.

Lemma rank_mono k i j : (i <= j)%nat -> rank k i <= rank k j.
Proof. intros H. apply sum_over_le. intros t x _. cbn [Nat.add]. destruct (x =? k), (Nat.ltb_spec t i), (Nat.ltb_spec t j); cbn; lia. Qed.

Lemma rank_nonneg k i : 0 <= rank k i.
Proof. rewrite <- (rank_0 k). apply rank_mono. lia. Qed.

Lemma rank_before k s i : lens !! s = Some k -> (s < i)%nat -> rank k s + 1 <= rank k i.
Proof.
  intros Hs Hi. pose proof (rank_step k s k Hs) as E. rewrite Z.eqb_refl in E. rewrite <- E. apply rank_mono. lia.
Qed.

Lemma rank_cnt k s : lens !! s = Some k -> 0 <= rank k s < cnt k.
Proof.
  intros Hs. pose proof (rank_nonneg k s). rewrite <- rank_total. pose proof (lookup_lt_Some _ _ _ Hs). pose proof (rank_before k s (length lens) Hs). lia.
Qed.

Lemma first_1 : first_of 1 = 0.
Proof. apply sum_over_zero. pointwise. Qed.

Lemma first_step k : 1 <= k -> first_of (k + 1) = first_of k + cnt k.
Proof.
  intros Hk. unfold first_of, cnt. rewrite <- sum_over_add. apply sum_over_ext. intros j x _. cbn beta.
  destruct (Z.ltb_spec 0 x), (Z.ltb_spec x (k + 1)), (Z.ltb_spec x k), (Z.eqb_spec x k); cbn; lia.
Qed.

Lemma first_mono j k : j <= k -> first_of j <= first_of k.
Proof. intros H. apply sum_over_le. intros t x _. cbn beta. destruct (Z.ltb_spec 0 x), (Z.ltb_spec x j), (Z.ltb_spec x k); cbn; lia. Qed.

Lemma first_nonneg k : 0 <= first_of k.
Proof. apply sum_over_nonneg. pointwise. Qed.

Lemma first_length k : first_of k <= Z.of_nat (length lens).
Proof.
  assert (forall i, sum_over (fun _ _ => 1) i lens = Z.of_nat (length lens)) as H.
  { clear. induction lens as [|x l IH]; intros i; cbn [sum_over length]; [done |]. rewrite IH. lia. }
  rewrite <- (H 0%nat). apply sum_over_le. pointwise.
Qed.

(** Different symbols have different indices. *)
Lemma index_injective s1 s2 k1 k2 : lens !! s1 = Some k1 -> lens !! s2 = Some k2 -> 0 < k1 -> 0 < k2 ->
  first_of k1 + rank k1 s1 = first_of k2 + rank k2 s2 -> s1 = s2.
Proof.
  intros H1 H2 P1 P2 E. pose proof (rank_cnt _ _ H1). pose proof (rank_cnt _ _ H2).
  destruct (Z.lt_trichotomy k1 k2) as [Hk | [-> | Hk]].
  - pose proof (first_step k1 ltac:(lia)). pose proof (first_mono (k1 + 1) k2 ltac:(lia)). lia.
  - destruct (Nat.lt_trichotomy s1 s2) as [Hs | [-> | Hs]]; [| done |].
    + pose proof (rank_before _ _ _ H1 Hs). lia.
    + pose proof (rank_before _ _ _ H2 Hs). lia.
  - pose proof (first_step k2 ltac:(lia)). pose proof (first_mono (k2 + 1) k1 ltac:(lia)). lia.
Qed.

Lemma upto_0 g : upto g 0 = 0.
Proof. apply sum_over_zero. pointwise. Qed.

Lemma upto_step g k : 1 <= k -> upto g k = upto g (k - 1) + cnt k * 2 ^ (g - k).
Proof.
  intros Hk. unfold upto, cnt. rewrite Z.mul_comm, <- sum_over_scale, <- sum_over_add. apply sum_over_ext. intros j x _. cbn beta.
  destruct (Z.ltb_spec 0 x), (Z.leb_spec x k), (Z.leb_spec x (k - 1)), (Z.eqb_spec x k); cbn [andb]; subst; lia.
Qed.

Lemma upto_mono g j k : j <= k -> upto g j <= upto g k.
Proof.
  intros H. apply sum_over_le. intros t x _. cbn beta. pose proof (Z.pow_nonneg 2 (g - x) ltac:(lia)).
  destruct (Z.ltb_spec 0 x), (Z.leb_spec x j), (Z.leb_spec x k); cbn; lia.
Qed.

Lemma upto_divide g k : 0 <= k <= g -> (2 ^ (g - k) | upto g k).
Proof.
  intros Hk. unfold upto. generalize 0%nat. induction lens as [|x l IH]; intros i; [apply Z.divide_0_r |]. cbn [sum_over].
  apply Z.divide_add_r; [| apply IH]. destruct (Z.ltb_spec 0 x), (Z.leb_spec x k); cbn [andb]; try apply Z.divide_0_r.
  exists (2 ^ (k - x)). rewrite <- Z.pow_add_r by lia. f_equal. lia.
Qed.

(** The position of a code. *)
Lemma code_position g s k : lens !! s = Some k -> 0 < k <= g ->
  code_value lens s k * 2 ^ (g - k) = upto g (k - 1) + rank k s * 2 ^ (g - k).
Proof.
  intros Hs Hk. unfold code_value, numbered, upto, rank. rewrite weight_sum, !(Z.mul_comm _ (2 ^ (g - k))), <- !sum_over_scale, <- sum_over_add.
  apply sum_over_ext. intros j x _. cbn beta. unfold before_code. cbn [fst snd Nat.add].
  destruct (Z.ltb_spec 0 x), (Z.ltb_spec x k), (Z.eqb_spec x k), (Nat.ltb_spec j s), (Z.leb_spec x (k - 1)); cbn [andb orb]; try lia.
  all: rewrite ?decide_True by done; rewrite ?decide_False by tauto; rewrite <- ?Z.pow_add_r by lia; try lia.
  all: replace (g - k + (k - x)) with (g - x) by lia; try lia; replace (g - x) with (g - k) by lia; lia.
Qed.

Lemma space_upto n g : Forall (fun x => x <= g) lens -> 0 <= g <= n -> space n lens = upto g g * 2 ^ (n - g).
Proof.
  intros Hl Hg. unfold space, numbered, upto. rewrite weight_sum, Z.mul_comm, <- sum_over_scale. apply sum_over_ext. intros j x Hj. cbn beta. cbn [snd].
  pose proof (Forall_lookup_1 _ _ _ _ Hl Hj) as Hx. cbn beta in Hx.
  destruct (Z.ltb_spec 0 x); cbn [andb]; [rewrite decide_True by done | by rewrite decide_False by tauto; lia].
  rewrite (proj2 (Z.leb_le _ _)) by done. rewrite <- Z.pow_add_r by lia. f_equal. lia.
Qed.
End Positions.

(** ** Bits of a stream *)

Section Stream.
Variable bit : Z -> bool.
Abbreviation field := (field bit).
Abbreviation word := (word bit).

Lemma field_range n : forall p, 0 <= field n p < 2 ^ Z.of_nat n.
Proof.
  induction n as [|n IH]; intros p; [done |]. cbn [Deflate.field]. specialize (IH (p + 1)). rewrite Nat2Z.inj_succ, Z.pow_succ_r by lia.
  destruct (bit p); cbn [Z.b2z]; lia.
Qed.

Lemma field_app m n : forall p, field (m + n) p = field m p + 2 ^ Z.of_nat m * field n (p + Z.of_nat m).
Proof.
  induction m as [|m IH]; intros p; cbn [Nat.add Deflate.field]; [rewrite Z.add_0_r; change (2 ^ Z.of_nat 0) with 1; lia |].
  rewrite IH, Nat2Z.inj_succ, Z.pow_succ_r by lia. replace (p + 1 + Z.of_nat m) with (p + Z.succ (Z.of_nat m)) by lia. ring.
Qed.

Lemma field_low m n p : (m <= n)%nat -> field n p mod 2 ^ Z.of_nat m = field m p.
Proof.
  intros H. replace n with (m + (n - m))%nat by lia. rewrite field_app, Z.mul_comm, Z.mod_add by (pose proof (Z.pow_pos_nonneg 2 (Z.of_nat m)); lia).
  apply Z.mod_small, field_range.
Qed.

Lemma field_high m n p : (m <= n)%nat -> field n p / 2 ^ Z.of_nat m = field (n - m) (p + Z.of_nat m).
Proof.
  intros H. replace n with (m + (n - m))%nat at 1 by lia. rewrite field_app, Z.mul_comm, Z.div_add by (pose proof (Z.pow_pos_nonneg 2 (Z.of_nat m)); lia).
  rewrite Z.div_small by apply field_range. lia.
Qed.

Lemma rev_field n p : rev (Z.of_nat n) (field n p) = word n p.
Proof.
  unfold rev. rewrite Nat2Z.id. revert p. induction n as [|n IH]; intros p; [done |]. cbn [rev_bits Deflate.word]. rewrite <- IH.
  assert (field (S n) p mod 2 = Z.b2z (bit p) /\ field (S n) p / 2 = field n (p + 1)) as [-> ->]; [| done].
  cbn [Deflate.field]. destruct (bit p); cbn [Z.b2z]; dlia.
Qed.

(** The bits of a symbol's code. *)
Lemma symbol_bits lens p s len n : symbol_at bit lens p s len -> (Z.to_nat len <= n)%nat -> field n p mod 2 ^ len = rev len (code_value lens s len).
Proof.
  intros (_ & H1 & H2) Hn. replace len with (Z.of_nat (Z.to_nat len)) at 1 2 by lia. rewrite field_low by done.
  rewrite <- H2, <- rev_field, rev_rev by lia. symmetry. apply Z.mod_small, field_range.
Qed.
End Stream.
