(* ===== verification/GrubGunzip.v ===== *)
(** * Decompression

    [gunzip.c] below [gunzip_read]: the bits of the compressed file, the tables
    of a Huffman code, the kinds of blocks, and the window of 32 kilobytes.
    [linalloc] hands out the upper end of the memory for the tables. *)

From S2P Require Import Prelude Machine LibcString GrubString GrubTerm GrubReadline GrubBios GrubDisk GrubDevice GrubPart GrubFsys GrubFile.

(** ** The code *)

Definition WSIZE : Z := 0x8000.
Definition INBUFSIZ : Z := 0x2000.
Definition BMAX : Z := 16.
Definition N_MAX : Z := 288.
Definition INFLATE_STORED : Z := 0.
Definition INFLATE_FIXED : Z := 1.
Definition INFLATE_DYNAMIC : Z := 2.
Definition lbits : Z := 9.
Definition dbits : Z := 6.

Definition bitorder : list Z := [16; 17; 18; 0; 8; 7; 9; 6; 10; 5; 11; 4; 12; 3; 13; 2; 14; 1; 15].
Definition cplens : list Z :=
  [3; 4; 5; 6; 7; 8; 9; 10; 11; 13; 15; 17; 19; 23; 27; 31; 35; 43; 51; 59; 67; 83; 99; 115; 131; 163; 195; 227; 258; 0; 0].
Definition cplext : list Z :=
  [0; 0; 0; 0; 0; 0; 0; 0; 1; 1; 1; 1; 2; 2; 2; 2; 3; 3; 3; 3; 4; 4; 4; 4; 5; 5; 5; 5; 0; 99; 99].
Definition cpdist : list Z :=
  [1; 2; 3; 4; 5; 7; 9; 13; 17; 25; 33; 49; 65; 97; 129; 193; 257; 385; 513; 769; 1025; 1537; 2049; 3073; 4097; 6145; 8193; 12289; 16385; 24577].
Definition cpdext : list Z :=
  [0; 0; 0; 0; 1; 1; 2; 2; 3; 3; 4; 4; 5; 5; 6; 6; 7; 7; 8; 8; 9; 9; 10; 10; 11; 11; 12; 12; 13; 13].
Definition mask_bits : list Z :=
  [0x0000; 0x0001; 0x0003; 0x0007; 0x000f; 0x001f; 0x003f; 0x007f; 0x00ff;
   0x01ff; 0x03ff; 0x07ff; 0x0fff; 0x1fff; 0x3fff; 0x7fff; 0xffff].

(** The elements of an array; outside of it the behaviour is undefined. *)
Definition get (l : list Z) (i : Z) : option Z := if i <? 0 then None else l !! Z.to_nat i.
Definition put (l : list Z) (i v : Z) : option (list Z) :=
  if (0 <=? i) && (i <? Z.of_nat (length l)) then Some (<[Z.to_nat i := v]> l) else None.

(** [struct huft]: [h_v] is the number, or the pointer to the next table. *)
Record huft := Huft { h_e : Z; h_b : Z; h_v : Z }.
Definition huft_size : Z := 8.
Definition ld_huft (m : mem) (a : Z) : huft := Huft (ld m a) (ld m (a + 1)) (ld32 m (a + 4)).
Definition st_huft (m : mem) (a : Z) (r : huft) : mem := st_dword (st (st m a (h_e r)) (a + 1) (h_b r)) (a + 4) (h_v r).

(** *** The tables of a code *)

(** What [huft_build] changes outside of itself: memory, the allocator, [hufts],
    and the pointer [*t] to the starting table. *)
Record heap := Heap { hp_mem : mem; hp_top : Z; hp_hufts : Z; hp_root : Z }.

Definition linalloc (size top : Z) : Z := u32 (top - size) .& u32 (Z.lnot 3).

(** The local variables of its loops; [t] is [None] for the caller's pointer. *)
Record build := Build {
  heap_of : heap; link : option Z; level : Z; before_table : Z; code : Z; next_value : Z; table : Z; entries : Z;
  stack : list Z; patterns : list Z }.

(** [c[ *p]++] for every length. *)
Definition count_lengths (b : list Z) : option (list Z) :=
  foldM (fun x c => n ← get c x; put c x (n + 1)) b (replicate 17 0).

Definition at_len (c : list Z) (j : Z) : Z := nth (Z.to_nat j) c 0.

(** [for (j = 1; j <= BMAX; j++) if (c[j]) break;] and the same from above. *)
Fixpoint first_used (fuel : nat) (c : list Z) (j : Z) : Z :=
  match fuel with O => j | S f => if negb (at_len c j =? 0) then j else first_used f c (j + 1) end.
Fixpoint last_used (fuel : nat) (c : list Z) (i : Z) : Z :=
  match fuel with O => i | S f => if negb (at_len c i =? 0) then i else last_used f c (i - 1) end.

(** [for (y = 1 << j; j < i; j++, y <<= 1) if ((y -= c[j]) < 0) return 2;] and the
    last length; [None]: more codes than bits. *)
Fixpoint dummy_codes (fuel : nat) (c : list Z) (j y : Z) : option Z :=
  let y := y - at_len c j in
  if y <? 0 then None else match fuel with O => Some y | S f => dummy_codes f c (j + 1) (y .<< 1) end.

(** [while (--i) *xp++ = (j += *p++);] from [x[1] = 0]. *)
Fixpoint offsets (fuel : nat) (c : list Z) (k j : Z) (x : list Z) : option (list Z) :=
  match fuel with
  | O => Some x
  | S f => let j := j + at_len c k in x ← put x (k + 1) j; offsets f c (k + 1) j x
  end.

(** [if ((j = *p++) != 0) v[x[j]++] = i;] for every [i]. *)
Definition sort_values (b : list Z) (x v : list Z) : option (list Z * list Z) :=
  foldM (fun '(i, j) '(x, v) =>
           if negb (j =? 0) then n ← get x j; v ← put v n i; x ← put x j (n + 1); Some (x, v) else Some (x, v))
        (zip (seqZ 0 (Z.of_nat (length b))) b) (x, v).

(** Tables smaller than [z] bits: [while (++j < z) ...]. *)
Fixpoint table_bits (fuel : nat) (c : list Z) (k j z f : Z) : Z :=
  match fuel with
  | O => j
  | S fuel =>
      let j := j + 1 in
      if j <? z then
        let f := f .<< 1 in
        let k := k + 1 in
        if f <=? at_len c k then j else table_bits fuel c k j z (f - at_len c k)
      else j
  end.

(** [for (j = i >> w; j < z; j += f) q[j] = r;] *)
Fixpoint fill (fuel : nat) (j f z q : Z) (r : huft) (m : mem) : mem :=
  match fuel with
  | O => m
  | S fuel => if j <? z then fill fuel (j + f) f z q r (st_huft m (q + huft_size * j) r) else m
  end.

(** [for (j = 1 << (k - 1); i & j; j >>= 1) i ^= j; i ^= j;] *)
Fixpoint backwards_increment (fuel : nat) (i j : Z) : Z :=
  match fuel with
  | O => Z.lxor i j
  | S f => if negb (i .& j =? 0) then backwards_increment f (Z.lxor i j) (j .>> 1) else Z.lxor i j
  end.

Section Build.
Variables (n s : Z) (d e : list Z) (l g : Z) (c v : list Z).
(** What is read beyond the end of [d] or [e]. *)
Variable stray : Z -> Z.
Definition look (a : list Z) (i : Z) : Z := match get a i with Some x => x | None => stray i end.

(** A new table for the codes of [k] bits and more, [a] of [k] bits following
    this one. *)
Definition new_table (k a : Z) (b : build) : option build :=
  let h := level b + 1 in
  let w := before_table b + l in
  let z := u32 (g - w) in
  let z := if l <? z then l else z in
  let j := k - w in
  let f := 1 .<< j in
  let j := if a + 1 <? f then table_bits 16 c k j z (f - (a + 1)) else j in
  let z := 1 .<< j in
  let hp := heap_of b in
  let q := linalloc ((z + 1) * huft_size) (hp_top hp) in
  let hp := match link b with
            | None => Heap (hp_mem hp) q (u32 (hp_hufts hp + z + 1)) (q + huft_size)
            | Some t => Heap (st_dword (hp_mem hp) t (q + huft_size)) q (u32 (hp_hufts hp + z + 1)) (hp_root hp)
            end in
  let t := q + 4 in
  let m := st_dword (hp_mem hp) t 0 in
  let q := q + huft_size in
  u ← put (stack b) h q;
  '(m, x) ← (if negb (h =? 0)
             then x ← put (patterns b) h (code b);
                  q' ← get u (h - 1);
                  Some (st_huft m (q' + huft_size * (code b .>> (w - l))) (Huft (u8 (16 + j)) (u8 l) q), x)
             else Some (m, patterns b));
  Some (Build (Heap m (hp_top hp) (hp_hufts hp) (hp_root hp)) (Some t) h w (code b) (next_value b) q z u x).

(** The entry for the next value; the unused [v] of an invalid code is 0 here. *)
Definition next_entry (bits p : Z) : option (huft * Z) :=
  if n <=? p then Some (Huft 99 bits 0, p)
  else
    x ← get v p;
    Some (if x <? s then (Huft (if x <? 256 then 16 else 15) bits (u16 x), p + 1)
          else (Huft (u8 (look e (x - s))) bits (u16 (look d (x - s))), p + 1)).

(** [while ((i & ((1 << w) - 1)) != x[h])] *)
Fixpoint backup (fuel : nat) (b : build) : option build :=
  x ← get (patterns b) (level b);
  if code b .& ((1 .<< before_table b) - 1) =? x then Some b
  else
    match fuel with
    | O => None
    | S f => backup f (Build (heap_of b) (link b) (level b - 1) (before_table b - l) (code b) (next_value b) (table b) (entries b)
                             (stack b) (patterns b))
    end.

(** One code of [k] bits, with [a] more to come. *)
Definition place_code (k a : Z) (b : build) : option build :=
  b ← while 17 (fun b => before_table b + l <? k) (new_table k a) b;
  let w := before_table b in
  '(r, p) ← next_entry (u8 (k - w)) (next_value b);
  let hp := heap_of b in
  let m := fill (Z.to_nat (entries b)) (code b .>> w) (1 .<< (k - w)) (entries b) (table b) r (hp_mem hp) in
  let i := backwards_increment (Z.to_nat k) (code b) (1 .<< (k - 1)) in
  backup 17 (Build (Heap m (hp_top hp) (hp_hufts hp) (hp_root hp)) (link b) (level b) w i p (table b) (entries b) (stack b) (patterns b)).
End Build.

(** The return value, [*m], and what has been changed.  [junk] is what the stack
    holds in [v], [stray] what is read beyond the arrays. *)
Definition huft_build (junk : list Z) (stray : Z -> Z) (b : list Z) (s : Z) (d e : list Z) (m : Z) (hp : heap) : option (Z * Z * heap) :=
  let n := Z.of_nat (length b) in
  c ← count_lengths b;
  if at_len c 0 =? n then Some (0, 0, Heap (hp_mem hp) (hp_top hp) (hp_hufts hp) 0)
  else
    let j := first_used 16 c 1 in
    let l := if m <? j then j else m in
    let g := last_used 16 c BMAX in
    let l := if g <? l then g else l in
    match dummy_codes (Z.to_nat (g - j)) c j (1 .<< j) with
    | None => Some (2, l, hp)
    | Some y =>
        c ← put c g (at_len c g + y);
        x ← offsets (Z.to_nat (g - 1)) c 1 0 (replicate 17 0);
        '(x, v) ← sort_values b x junk;
        x ← put x 0 0;
        r ← foldM (fun k => foldM (place_code n s d e l g c v stray k) (reverse (seqZ 0 (at_len c k)))) (seqZ j (g - j + 1))
              (Build hp None (-1) (- l) 0 0 0 0 (replicate 16 0) x);
        Some (if negb (y =? 0) && negb (g =? 1) then 1 else 0, l, heap_of r)
    end.

(** *** The compressed bits *)

Section Inflate.
Variables (mem_lower mem_upper : Z).
(** [slide] and [inbuf], and what the stack holds. *)
Variables (slide inbuf : Z) (junk : list Z) (stray : Z -> Z).
(** [grub_read]; how many symbols and blocks are decoded at most for a window. *)
Variable read : Z -> Z -> files -> option (Z * files).
Variable rounds : nat.

Definition inf (g : files) : inflater := inflate (g_gz g).
Definition upd_inf (f : inflater -> inflater) (g : files) : files := set_gz (set_inflate (f (inf g)) (g_gz g)) g.
Definition bad_data (g : files) : files := fail_with ERR_BAD_GZIP_DATA g.
Definition no_error (g : files) : bool := bool_decide (g_err g = ERR_NONE).

Definition get_byte (g : files) : option (Z * files) :=
  g ← (if (filepos (g_fs g) =? gzip_data_offset (g_gz g)) || (bufloc (inf g) =? INBUFSIZ)
       then '(_, g) ← read inbuf INBUFSIZ (upd_inf (set_bufloc 0) g); Some g
       else Some g);
  Some (ld (g_mem g) (inbuf + bufloc (inf g)), upd_inf (set_bufloc (bufloc (inf g) + 1)) g).

(** [NEEDBITS (n)] on the local [b] and [k]. *)
Fixpoint needbits_loop (fuel : nat) (n b k : Z) (g : files) : option (Z * Z * files) :=
  if k <? n then
    match fuel with
    | O => None
    | S f => '(x, g) ← get_byte g; needbits_loop f n (b .| u32 (x .<< k)) (k + 8) g
    end
  else Some (b, k, g).
Definition NEEDBITS (n b k : Z) (g : files) : option (Z * Z * files) := needbits_loop (Z.to_nat n) n b k g.

(** [NEEDBITS (n)], the [n] bits, [DUMPBITS (n)]. *)
Definition take_bits (n b k : Z) (g : files) : option (Z * Z * Z * files) :=
  '(b, k, g) ← NEEDBITS n b k g; Some (b .& ((1 .<< n) - 1), b .>> n, k - n, g).

(** The loop over tables; [None] for the entry: the code is not used. *)
Fixpoint walk_tables (fuel : nat) (t b k : Z) (g : files) : option (option huft * Z * Z * files) :=
  let r := ld_huft (g_mem g) t in
  if 16 <? h_e r then
    if h_e r =? 99 then Some (None, b, k, bad_data g)
    else
      match fuel with
      | O => None
      | S f =>
          let e := h_e r - 16 in
          '(b, k, g) ← NEEDBITS e (b .>> h_b r) (k - h_b r) g;
          mask ← get mask_bits e;
          walk_tables f (h_v r + huft_size * (b .& mask)) b k g
      end
  else Some (Some r, b .>> h_b r, k - h_b r, g).

Definition decode (table bits b k : Z) (g : files) : option (option huft * Z * Z * files) :=
  '(b, k, g) ← NEEDBITS bits b k g;
  mask ← get mask_bits bits;
  walk_tables 16 (table + huft_size * (b .& mask)) b k g.

(** *** The codes of a block *)

(** The local variables of [inflate_codes_in_window]. *)
Record locals := Locals { c_n : Z; c_d : Z; c_w : Z; c_b : Z; c_k : Z }.
Inductive control := Continue | Break | Return.

(** [if (!code_state) ...] *)
Definition decode_symbol (s : locals) (g : files) : option (control * locals * files) :=
  '(r, b, k, g) ← decode (tl (inf g)) (bl (inf g)) (c_b s) (c_k s) g;
  match r with
  | None => Some (Return, Locals (c_n s) (c_d s) (c_w s) b k, g)
  | Some r =>
      if h_e r =? 16 then
        let g := upd (fun f => set_fmem (st (f_mem f) (slide + c_w s) (u8 (u16 (h_v r)))) f) g in
        let w := c_w s + 1 in
        Some (if w =? WSIZE then Break else Continue, Locals (c_n s) (c_d s) w b k, g)
      else if h_e r =? 15 then
        Some (Break, Locals (c_n s) (c_d s) (c_w s) b k, upd_inf (set_block_len 0) g)
      else
        '(b, k, g) ← NEEDBITS (h_e r) b k g;
        mask ← get mask_bits (h_e r);
        let n := u16 (h_v r) + (b .& mask) in
        '(r, b, k, g) ← decode (td (inf g)) (bd (inf g)) (b .>> h_e r) (k - h_e r) g;
        match r with
        | None => Some (Return, Locals n (c_d s) (c_w s) b k, g)
        | Some r =>
            '(b, k, g) ← NEEDBITS (h_e r) b k g;
            mask ← get mask_bits (h_e r);
            let d := u32 (c_w s - u16 (h_v r) - (b .& mask)) in
            Some (Continue, Locals n d (c_w s) (b .>> h_e r) (k - h_e r), upd_inf (set_code_state (code_state (inf g) + 1)) g)
        end
  end.

(** [do ... while (n);] *)
Fixpoint copy_loop (fuel : nat) (n d w : Z) (g : files) : option (Z * Z * Z * files) :=
  match fuel with
  | O => None
  | S f =>
      let d := d .& (WSIZE - 1) in
      let e := WSIZE - (if w <? d then d else w) in
      let e := if n <? e then n else e in
      let n := n - e in
      let g :=
        if e <=? u32 (w - d)
        then upd (fun s => set_fdisk (move mem_lower mem_upper (slide + w) (slide + d) e (f_disk s)) s) g
        else upd (fun s => set_fmem (for_range 0 e (fun i m => st m (slide + (w + i)) (ld m (slide + (d + i)))) (f_mem s)) s) g in
      let w := w + e in
      let d := d + e in
      if (w =? WSIZE) || (n =? 0) then Some (n, d, w, g) else copy_loop f n d w g
  end.

(** [if (code_state) ...] *)
Definition copy_string (s : locals) (g : files) : option (control * locals * files) :=
  '(n, d, w, g) ← copy_loop (S (Z.to_nat (c_n s))) (c_n s) (c_d s) (c_w s) g;
  let g := if n =? 0 then upd_inf (set_code_state (code_state (inf g) - 1)) g else g in
  Some (if w =? WSIZE then Break else Continue, Locals n d w (c_b s) (c_k s), g).

Fixpoint codes_loop (fuel : nat) (s : locals) (g : files) : option (control * locals * files) :=
  match fuel with
  | O => None
  | S f =>
      '(c, s, g) ← (if code_state (inf g) =? 0 then decode_symbol s g else Some (Continue, s, g));
      match c with
      | Continue =>
          '(c, s, g) ← (if code_state (inf g) =? 0 then Some (Continue, s, g) else copy_string s g);
          match c with Continue => codes_loop f s g | _ => Some (c, s, g) end
      | _ => Some (c, s, g)
      end
  end.

Definition inflate_codes_in_window (g : files) : option (Z * files) :=
  let v := inf g in
  '(c, s, g) ← codes_loop rounds (Locals (inflate_n v) (inflate_d v) (wp v) (bb v) (bk v)) g;
  match c with
  | Return => Some (0, g)
  | _ =>
      let g := upd_inf (fun v => set_bits (c_b s) (c_k s) (set_window (c_w s) (set_copy (c_n s) (c_d s) v))) g in
      Some (if block_len (inf g) =? 0 then 1 else 0, g)
  end.

(** *** The headers of the blocks *)

Definition init_stored_block (g : files) : option files :=
  let b := bb (inf g) in
  let k := bk (inf g) in
  let n := k .& 7 in
  '(len, b, k, g) ← take_bits 16 (b .>> n) (k - n) g;
  let g := upd_inf (set_block_len len) g in
  '(b, k, g) ← NEEDBITS 16 b k g;
  let g := if block_len (inf g) =? Z.lnot b .& 0xffff then g else bad_data g in
  Some (upd_inf (set_bits (b .>> 16) (k - 16)) g).

(** [huft_build] on the memory and the allocator, from the pointer [t]. *)
Definition build_tables (b : list Z) (s : Z) (d e : list Z) (m t : Z) (g : files) : option (Z * Z * Z * files) :=
  '(r, m, hp) ← huft_build junk stray b s d e m (Heap (g_mem g) (linalloc_topaddr (inf g)) (hufts (inf g)) t);
  Some (r, m, hp_root hp, upd (set_fmem (hp_mem hp)) (upd_inf (fun v => set_hufts (hp_hufts hp) (set_linalloc (hp_top hp) v)) g)).

Definition fixed_lengths : list Z := replicate 144 8 ++ replicate 112 9 ++ replicate 24 7 ++ replicate 8 8.
Definition fixed_distances : list Z := replicate 30 5.

Definition init_fixed_block (g : files) : option files :=
  '(i, m, t, g) ← build_tables fixed_lengths 257 cplens cplext 7 (tl (inf g)) g;
  let g := upd_inf (set_lit t m) g in
  if negb (i =? 0) then Some (bad_data g)
  else
    '(i, m, t, g) ← build_tables fixed_distances 0 cpdist cpdext 5 (td (inf g)) g;
    let g := upd_inf (set_dist t m) g in
    if 1 <? i then Some (bad_data g)
    else Some (upd_inf (fun v => set_block_len (block_len v + 1) (set_code_state 0 v)) g).

(** The lengths of the codes for lengths, in the order of [bitorder]; those that
    are not given are 0. *)
Fixpoint bit_lengths (order : list Z) (nb : Z) (ll : list Z) (b k : Z) (g : files) : option (list Z * Z * Z * files) :=
  match order with
  | [] => Some (ll, b, k, g)
  | o :: order =>
      if 0 <? nb then '(x, b, k, g) ← take_bits 3 b k g; ll ← put ll o x; bit_lengths order (nb - 1) ll b k g
      else ll ← put ll o 0; bit_lengths order nb ll b k g
  end.

(** [while (j--) ll[i++] = x;] *)
Fixpoint repeat_length (j : nat) (i x : Z) (ll : list Z) : option (list Z) :=
  match j with O => Some ll | S j => ll ← put ll i x; repeat_length j (i + 1) x ll end.

(** [while (i < n)], [l] being the last length; [None] for the lengths: they
    overrun. *)
Fixpoint code_lengths (fuel : nat) (n i l : Z) (ll : list Z) (b k : Z) (g : files) : option (option (list Z) * Z * Z * files) :=
  if i <? n then
    match fuel with
    | O => None
    | S f =>
        let bits := bl (inf g) in
        '(b, k, g) ← NEEDBITS bits b k g;
        mask ← get mask_bits bits;
        let t := tl (inf g) + huft_size * (b .& mask) in
        let g := upd_inf (set_dist t (bd (inf g))) g in
        let r := ld_huft (g_mem g) t in
        let b := b .>> h_b r in
        let k := k - h_b r in
        let j := u16 (h_v r) in
        if j <? 16 then ll ← put ll i j; code_lengths f n (i + 1) j ll b k g
        else
          '(j, b, k, g) ← (if j =? 16 then '(x, b, k, g) ← take_bits 2 b k g; Some (3 + x, b, k, g)
                           else if j =? 17 then '(x, b, k, g) ← take_bits 3 b k g; Some (3 + x, b, k, g)
                           else '(x, b, k, g) ← take_bits 7 b k g; Some (11 + x, b, k, g));
          let l := if u16 (h_v r) =? 16 then l else 0 in
          if n <? i + j then Some (None, b, k, bad_data g)
          else ll ← repeat_length (Z.to_nat j) i l ll; code_lengths f n (i + j) l ll b k g
    end
  else Some (Some ll, b, k, g).

Definition init_dynamic_block (g : files) : option files :=
  '(x, b, k, g) ← take_bits 5 (bb (inf g)) (bk (inf g)) g;
  let nl := 257 + x in
  '(x, b, k, g) ← take_bits 5 b k g;
  let nd := 1 + x in
  '(x, b, k, g) ← take_bits 4 b k g;
  let nb := 4 + x in
  if (286 <? nl) || (30 <? nd) then Some (bad_data g)
  else
    '(ll, b, k, g) ← bit_lengths bitorder nb (replicate 316 0) b k g;
    '(i, m, t, g) ← build_tables (take 19 ll) 19 [] [] 7 (tl (inf g)) g;
    let g := upd_inf (set_lit t m) g in
    if negb (i =? 0) then Some (bad_data g)
    else
      '(ll, b, k, g) ← code_lengths (Z.to_nat (nl + nd)) (nl + nd) 0 0 ll b k g;
      match ll with
      | None => Some g
      | Some ll =>
          let g := upd_inf (set_bits b k) (set_gz (reset_linalloc mem_upper (g_gz g)) g) in
          '(i, m, t, g) ← build_tables (take (Z.to_nat nl) ll) 257 cplens cplext lbits (tl (inf g)) g;
          let g := upd_inf (set_lit t m) g in
          if negb (i =? 0) then Some (bad_data g)
          else
            '(i, m, t, g) ← build_tables (take (Z.to_nat nd) (drop (Z.to_nat nl) ll)) 0 cpdist cpdext dbits (td (inf g)) g;
            let g := upd_inf (set_dist t m) g in
            if negb (i =? 0) then Some (bad_data g)
            else Some (upd_inf (fun v => set_block_len (block_len v + 1) (set_code_state 0 v)) g)
      end.

Definition get_new_block (g : files) : option files :=
  let g := upd_inf (set_hufts 0) g in
  '(last, b, k, g) ← take_bits 1 (bb (inf g)) (bk (inf g)) g;
  let g := upd_inf (set_block_kind (block_type (inf g)) last) g in
  '(type, b, k, g) ← take_bits 2 b k g;
  let g := upd_inf (fun v => set_bits b k (set_block_kind type (last_block v) v)) g in
  if type =? INFLATE_STORED then init_stored_block g
  else if type =? INFLATE_FIXED then init_fixed_block g
  else if type =? INFLATE_DYNAMIC then init_dynamic_block g
  else Some g.

(** [while (block_len && w < WSIZE && !errnum)] *)
Fixpoint stored_loop (fuel : nat) (w : Z) (g : files) : option (Z * files) :=
  if negb (block_len (inf g) =? 0) && (w <? WSIZE) && no_error g then
    match fuel with
    | O => None
    | S f =>
        '(x, g) ← get_byte g;
        let g := upd (fun s => set_fmem (st (f_mem s) (slide + w) x) s) g in
        stored_loop f (w + 1) (upd_inf (fun v => set_block_len (block_len v - 1) v) g)
    end
  else Some (w, g).

(** The loop of [inflate_window]; [false]: it returns from inside. *)
Fixpoint window_loop (fuel : nat) (g : files) : option (bool * files) :=
  if (wp (inf g) <? WSIZE) && no_error g then
    match fuel with
    | O => None
    | S f =>
        if (block_len (inf g) =? 0) && negb (last_block (inf g) =? 0) then Some (true, g)
        else
          g ← (if block_len (inf g) =? 0 then get_new_block g else Some g);
          let g := if INFLATE_DYNAMIC <? block_type (inf g) then bad_data g else g in
          if negb (no_error g) then Some (false, g)
          else if block_type (inf g) =? INFLATE_STORED then
            '(w, g) ← stored_loop (Z.to_nat WSIZE) (wp (inf g)) g; window_loop f (upd_inf (set_window w) g)
          else
            '(r, g) ← inflate_codes_in_window g;
            window_loop f (if negb (r =? 0) then set_gz (reset_linalloc mem_upper (g_gz g)) g else g)
    end
  else Some (true, g).

Definition inflate_window (g : files) : option files :=
  '(r, g) ← window_loop rounds (upd_inf (set_window 0) g);
  Some (if (r : bool) then set_gz (set_saved (s32 (saved_filepos (g_gz g) + WSIZE)) (g_gz g)) g else g).

(** *** Reading *)

(** [while (gzip_filepos >= saved_filepos) inflate_window ();] *)
Definition next_windows (g : files) : option files :=
  while (Z.to_nat ((gzip_filepos (g_gz g) - saved_filepos (g_gz g)) / WSIZE + 2))
    (fun g => saved_filepos (g_gz g) <=? gzip_filepos (g_gz g)) inflate_window g.

(** [while (len > 0 && !errnum)] *)
Fixpoint gunzip_loop (fuel : nat) (buf len ret : Z) (g : files) : option (Z * files) :=
  if (0 <? len) && no_error g then
    match fuel with
    | O => None
    | S f =>
        g ← next_windows g;
        let z := g_gz g in
        let size := saved_filepos z - gzip_filepos z in
        let size := if len <? size then len else size in
        let g := upd (fun s => set_fdisk (move mem_lower mem_upper buf ((gzip_filepos z .& (WSIZE - 1)) + slide) size (f_disk s)) s) g in
        let z := Gz (no_decompression z) (gzip_data_offset z) (gzip_filepos z + size) (gzip_filemax z) (gzip_fsmax z) (saved_filepos z)
                   (gzip_crc z) (inflate z) in
        gunzip_loop f (buf + size) (len - size) (ret + size) (set_gz z g)
    end
  else Some (ret, g).

Definition gunzip_body (buf len : Z) (g : files) : option (Z * files) :=
  let g := gunzip_swap_values (upd (set_compressed false) g) in
  let g := if s32 (gzip_filepos (g_gz g) + WSIZE) <? saved_filepos (g_gz g) then initialize_tables mem_upper g else g in
  '(ret, g) ← gunzip_loop (Z.to_nat len) buf len 0 g;
  let g := gunzip_swap_values (upd (set_compressed true) g) in
  Some (if no_error g then ret else 0, g).
End Inflate.

(** [gunzip_read] reads through [grub_read], which calls it back when the file is
    compressed; it is not while [gunzip_read] runs, so [depth] 1 is enough. *)
Fixpoint gunzip_read (b : bios) (mem_lower mem_upper : Z) (fsys_table : list fsys_entry) (slide inbuf : Z) (junk : list Z) (stray : Z -> Z)
    (rounds depth : nat) (buf len : Z) (g : files) : option (Z * files) :=
  match depth with
  | O => None
  | S d =>
      gunzip_body mem_lower mem_upper slide inbuf junk stray
        (grub_read b mem_lower mem_upper fsys_table (gunzip_read b mem_lower mem_upper fsys_table slide inbuf junk stray rounds d))
        rounds buf len g
  end.
