(* ===== verification/GrubHuffman.v ===== *)
(** * The tables of a code

    [huft_build] against the positions of the codes: following its tables along
    the bits of a code leads to the entry of its symbol. *)

From S2P Require Import Prelude Machine GrubDisk GrubPart GrubFsys GrubFile Deflate Canonical GrubGunzip.

(** ** Arrays *)

Lemma get_nth l i : 0 <= i < Z.of_nat (length l) -> get l i = Some (nth (Z.to_nat i) l 0).
Proof.
  intros H. unfold get. rewrite (proj2 (Z.ltb_ge _ _)) by lia. destruct (l !! Z.to_nat i) as [x |] eqn:E.
  - by rewrite (nth_lookup_Some _ _ _ _ E).
  - apply lookup_ge_None in E. lia.
Qed.

Lemma put_some l i x : 0 <= i < Z.of_nat (length l) -> put l i x = Some (<[Z.to_nat i := x]> l).
Proof. intros H. unfold put. by rewrite (proj2 (Z.leb_le _ _)), (proj2 (Z.ltb_lt _ _)) by lia. Qed.

Lemma at_insert l i j x : 0 <= i < Z.of_nat (length l) -> 0 <= j -> at_len (<[Z.to_nat i := x]> l) j = if j =? i then x else at_len l j.
Proof.
  intros Hi Hj. unfold at_len. destruct (Z.eqb_spec j i) as [-> |].
  - apply nth_lookup_Some. rewrite list_lookup_insert_eq; [done | lia].
  - rewrite !nth_lookup, list_lookup_insert_ne by lia. done.
Qed.

Lemma at_replicate n j : at_len (replicate n 0) j = 0.
Proof. unfold at_len. rewrite nth_lookup. destruct (replicate n 0 !! _) as [x |] eqn:E; [| done]. by apply lookup_replicate in E as [-> _]. Qed.

(** ** Counting lengths *)

Lemma count_cons x l k : cnt (x :: l) k = (if x =? k then 1 else 0) + cnt l k.
Proof. unfold cnt. cbn [sum_over]. f_equal. apply (sum_over_shift (fun y => if y =? k then 1 else 0)). Qed.

Lemma count_lengths_ok l : forall c0, Forall (fun x => 0 <= x <= 15) l -> length c0 = 17%nat ->
  exists c, foldM (fun x c => n ← get c x; put c x (n + 1)) l c0 = Some c /\ length c = 17%nat /\
    forall k, 0 <= k <= 16 -> at_len c k = at_len c0 k + cnt l k.
Proof.
  induction l as [|x l IH]; intros c0 Hl Hc; cbn [foldM].
  - exists c0. split_and!; [done | done |]. intros k _. unfold cnt. cbn. lia.
  - apply Forall_cons_iff in Hl as [Hx Hl]. rewrite get_nth by lia. cbn [mbind option_bind]. rewrite put_some by lia. cbn [mbind option_bind].
    destruct (IH (<[Z.to_nat x := nth (Z.to_nat x) c0 0 + 1]> c0) Hl) as (c & -> & Hlc & Hk); [by rewrite length_insert |].
    exists c. split_and!; [done | done |]. intros k Hk'. rewrite Hk, at_insert, count_cons by lia. rewrite (Z.eqb_sym k x).
    unfold at_len. destruct (Z.eqb_spec x k); subst; lia.
Qed.

Lemma first_used_ok c : forall f j k, j <= k < j + Z.of_nat f -> at_len c k <> 0 ->
  let r := first_used f c j in j <= r <= k /\ at_len c r <> 0 /\ forall i, j <= i < r -> at_len c i = 0.
Proof.
  induction f as [|f IH]; intros j k Hk Hc; [lia |]. cbn [first_used]. destruct (Z.eqb_spec (at_len c j) 0) as [E | E]; cbn [negb].
  - assert (j <> k) by congruence. destruct (IH (j + 1) k ltac:(lia) Hc) as (H1 & H2 & H3). cbn zeta. split_and!; [lia | lia | done |].
    intros i Hi. destruct (Z.eq_dec i j) as [-> |]; [done |]. apply H3. lia.
  - cbn zeta. split_and!; [lia | lia | done |]. lia.
Qed.

Lemma last_used_ok c : forall f i k, i - Z.of_nat f < k <= i -> at_len c k <> 0 ->
  let r := last_used f c i in k <= r <= i /\ at_len c r <> 0 /\ forall j, r < j <= i -> at_len c j = 0.
Proof.
  induction f as [|f IH]; intros i k Hk Hc; [lia |]. cbn [last_used]. destruct (Z.eqb_spec (at_len c i) 0) as [E | E]; cbn [negb].
  - assert (i <> k) by congruence. destruct (IH (i - 1) k ltac:(lia) Hc) as (H1 & H2 & H3). cbn zeta. split_and!; [lia | lia | done |].
    intros j Hj. destruct (Z.eq_dec j i) as [-> |]; [done |]. apply H3. lia.
  - cbn zeta. split_and!; [lia | lia | done |]. lia.
Qed.

(** The space of the lengths from [j] on. *)
Fixpoint space_from (f : nat) (c : list Z) (j : Z) : Z :=
  at_len c j * 2 ^ Z.of_nat f + match f with O => 0 | S f => space_from f c (j + 1) end.

Lemma space_from_nonneg c f : forall j, (forall i, j <= i <= j + Z.of_nat f -> 0 <= at_len c i) -> 0 <= space_from f c j.
Proof.
  induction f as [|f IH]; intros j H; cbn [space_from].
  - specialize (H j ltac:(lia)). lia.
  - pose proof (H j ltac:(lia)). assert (0 <= space_from f c (j + 1)) by (apply IH; intros; apply H; lia). nia.
Qed.

Lemma dummy_codes_ok c f : forall j y, (forall i, j <= i <= j + Z.of_nat f -> 0 <= at_len c i) ->
  space_from f c j <= y * 2 ^ Z.of_nat f -> dummy_codes f c j y = Some (y * 2 ^ Z.of_nat f - space_from f c j).
Proof.
  induction f as [|f IH]; intros j y Hn H; cbn [space_from dummy_codes] in *.
  - rewrite (proj2 (Z.ltb_ge _ _)) by lia. f_equal. lia.
  - assert (0 <= space_from f c (j + 1)) by (apply space_from_nonneg; intros; apply Hn; lia).
    assert (2 ^ Z.of_nat (S f) = 2 * 2 ^ Z.of_nat f) as E by (rewrite Nat2Z.inj_succ, Z.pow_succ_r by lia; done). rewrite E in *.
    assert (0 < 2 ^ Z.of_nat f) by (apply Z.pow_pos_nonneg; lia).
    rewrite (proj2 (Z.ltb_ge _ _)) by nia. rewrite shiftl_mul by lia. change (2 ^ 1) with 2.
    rewrite IH; [f_equal; lia | intros; apply Hn; lia | lia].
Qed.

Section Build.
Variables (lens : list Z) (g : Z).
Hypothesis lens_ok : Forall (fun x => 0 <= x <= 15) lens.

Lemma space_from_upto c f : forall j, 1 <= j -> j + Z.of_nat f = g -> (forall k, j <= k <= g -> at_len c k = cnt lens k) ->
  space_from f c j = upto lens g g - upto lens g (j - 1).
Proof.
  induction f as [|f IH]; intros j Hj Hf Hc; cbn [space_from].
  - replace j with g in * by lia. rewrite Hc, (upto_step lens g g) by lia. rewrite Z.sub_diag. cbn. lia.
  - rewrite IH by (lia || (intros; apply Hc; lia)). rewrite Hc by lia. replace (j + 1 - 1) with j by lia.
    rewrite (upto_step lens g j) by lia. replace (g - j) with (Z.of_nat (S f)) by lia. lia.
Qed.

Lemma offsets_ok c f : forall k x, 1 <= k -> k + Z.of_nat f <= 16 -> length x = 17%nat -> (forall i, k <= i < k + Z.of_nat f -> at_len c i = cnt lens i) ->
  (forall i, 1 <= i <= k -> at_len x i = first_of lens i) ->
  exists x', offsets f c k (first_of lens k) x = Some x' /\ length x' = 17%nat /\ forall i, 1 <= i <= k + Z.of_nat f -> at_len x' i = first_of lens i.
Proof.
  induction f as [|f IH]; intros k x Hk Hf Hx Hc Hi; cbn [offsets].
  - exists x. split_and!; [done | done |]. intros i Hi'. apply Hi. lia.
  - rewrite put_some by lia. cbn [mbind option_bind]. rewrite Hc, <- first_step by lia.
    destruct (IH (k + 1) (<[Z.to_nat (k + 1) := first_of lens (k + 1)]> x)) as (x' & -> & Hl & H); [lia | lia | by rewrite length_insert | intros; apply Hc; lia | |].
    + intros i Hi'. rewrite at_insert by lia. destruct (Z.eqb_spec i (k + 1)) as [-> |]; [done |]. apply Hi. lia.
    + exists x'. split_and!; [done | done |]. intros i Hi'. apply H. lia.
Qed.

(** [v] lists the symbols by length, then by number. *)
Definition sorted_upto (i : nat) (v : list Z) : Prop :=
  forall s k, (s < i)%nat -> lens !! s = Some k -> 0 < k -> nth (Z.to_nat (first_of lens k + rank lens k s)) v 0 = Z.of_nat s.

Lemma index_range k s : lens !! s = Some k -> 0 < k -> 0 <= first_of lens k + rank lens k s < Z.of_nat (length lens).
Proof.
  intros Hs Hk. pose proof (first_nonneg lens k). pose proof (rank_cnt lens k s Hs). pose proof (first_step lens k ltac:(lia)).
  pose proof (first_length lens (k + 1)). lia.
Qed.

Lemma sort_values_ok x v : (length lens <= 288)%nat -> length x = 17%nat -> length v = 288%nat -> Forall (fun y => y <= g) lens -> g <= 16 ->
  (forall i, 1 <= i <= g -> at_len x i = first_of lens i) ->
  exists x' v', sort_values lens x v = Some (x', v') /\ length x' = 17%nat /\ length v' = 288%nat /\ sorted_upto (length lens) v'.
Proof.
  intros Hn Hx Hv Hg H16 Hi. unfold sort_values.
  destruct (foldM_index (fun i '(x, v) => length x = 17%nat /\ length v = 288%nat /\ sorted_upto i v /\
      forall k, 1 <= k <= g -> at_len x k = first_of lens k + rank lens k i)
    (fun '(i, j) '(x, v) => if negb (j =? 0) then n ← get x j; v ← put v n i; x ← put x j (n + 1); Some (x, v) else Some (x, v))
    (zip (seqZ 0 (Z.of_nat (length lens))) lens) 0 (x, v)) as ([x' v'] & E & H).
  - intros i [a j] [y w] Hl (H1 & H2 & H3 & H4). cbn [Nat.add] in *.
    apply lookup_zip_with_Some in Hl as (a' & j' & [= -> ->] & Ha & Hj). apply lookup_seqZ in Ha as [-> Ha]. rewrite Z.add_0_l.
    pose proof (Forall_lookup_1 _ _ _ _ lens_ok Hj) as Hr. pose proof (Forall_lookup_1 _ _ _ _ Hg Hj) as Hjg. cbn beta in *.
    destruct (Z.eqb_spec j' 0) as [-> |]; cbn [negb].
    + exists (y, w). split; [done |]. split_and!; [done | done | |].
      * intros s k Hs Hk Hp. apply H3; [| done | done]. destruct (Nat.eq_dec s i) as [-> |]; [| lia]. assert (k = 0) by congruence. lia.
      * intros k Hk. rewrite (rank_step _ _ _ _ Hj), H4 by done. destruct (Z.eqb_spec 0 k); lia.
    + rewrite get_nth by lia. cbn [mbind option_bind]. change (nth (Z.to_nat j') y 0) with (at_len y j'). rewrite H4 by lia.
      pose proof (index_range j' i Hj ltac:(lia)) as Hir. rewrite put_some by lia. cbn [mbind option_bind]. rewrite put_some by lia. cbn [mbind option_bind].
      eexists (_, _). split; [done |]. rewrite !length_insert. split_and!; [done | done | |].
      * intros s k Hs Hk Hp. pose proof (index_range k s Hk Hp) as Hir2.
        destruct (Nat.eq_dec s i) as [-> |].
        -- assert (k = j') as -> by congruence. apply nth_lookup_Some. rewrite list_lookup_insert_eq; [done | lia].
        -- rewrite nth_lookup, list_lookup_insert_ne, <- nth_lookup; [apply H3; try done; lia |]. intros En.
           apply n0. apply (index_injective lens s i k j'); try done; lia.
      * intros k Hk. rewrite at_insert by lia. rewrite (rank_step _ _ _ _ Hj). destruct (Z.eqb_spec k j') as [-> |].
        -- rewrite Z.eqb_refl. lia.
        -- rewrite (proj2 (Z.eqb_neq j' k)) by lia. rewrite H4 by lia. lia.
  - split_and!; [done | done | intros s k Hs; lia |]. intros k Hk. rewrite Hi, rank_0 by done. lia.
  - exists x', v'. destruct H as (H1 & H2 & H3 & _). split_and!; try done. rewrite length_zip_with, length_seqZ in H3.
    by replace (0 + Init.Nat.min (Z.to_nat (Z.of_nat (length lens))) (length lens))%nat with (length lens) in H3 by lia.
Qed.
End Build.

(** ** Tables *)

(** A table that has been made: its place, the bits that index it, its level, the
    first position whose code it decodes, and its entries in memory. *)
Record tbl := Tbl { tb_base : Z; tb_width : Z; tb_level : Z; tb_start : Z; tb_size : Z }.

#[export] Instance tbl_eq_dec : EqDecision tbl.
Proof. solve_decision. Defined.

(** *** Numbers and entries *)

Lemma mod_divide_floor P a b : 0 <= a <= b -> (2 ^ b | P) -> (2 ^ a | P).
Proof. intros H [q ->]. exists (q * 2 ^ (b - a)). rewrite <- Z.mul_assoc, <- Z.pow_add_r by lia. do 2 f_equal. lia. Qed.

Lemma below_aligned x z n : (n | x) -> (n | z) -> 0 < n -> x < z + n -> x <= z.
Proof. intros [p ->] [q ->] Hn H. assert (p < q + 1) by (apply (Z.mul_lt_mono_pos_r n); lia). apply Z.mul_le_mono_nonneg_r; lia. Qed.

Lemma pow_split a b : 0 <= a <= b -> 2 ^ b = 2 ^ (b - a) * 2 ^ a.
Proof. intros H. rewrite <- Z.pow_add_r by lia. f_equal. lia. Qed.

Lemma aligned_step n P x : (n | P) -> (n | x) -> 0 < n -> P < x -> P + n <= x.
Proof.
  intros [p ->] [q ->] Hn H. assert (p < q) by (apply (Z.mul_lt_mono_pos_r n); lia). nia.
Qed.

Lemma linalloc_ok size top : (4 | size) -> (4 | top) -> 0 <= size <= top -> top < 4294967296 -> linalloc size top = top - size.
Proof.
  intros [p ->] [q ->] H Ht. unfold linalloc. rewrite u32_small by lia. change (u32 (Z.lnot 3)) with (Z.ones 32 - Z.ones 2).
  replace (q * 4 - p * 4) with ((q - p) * 2 ^ 2) by lia. by_bits. rewrite Z.land_spec.
  replace (Z.ones 32 - Z.ones 2) with (Z.shiftl (Z.ones 30) 2) by reflexivity. rewrite Z.shiftl_spec by lia.
  destruct (Z.ltb_spec i 2).
  - by rewrite Z.mul_pow2_bits_low by lia.
  - destruct (Z.ltb_spec i 32).
    + rewrite Z.ones_spec_low by lia. apply andb_true_r.
    + rewrite Z.ones_spec_high, andb_false_r by lia. symmetry. apply (testbit_high _ 32); lia.
Qed.

Lemma ld_huft_frame m m' a : (forall x, a <= x < a + 8 -> ld m' x = ld m x) -> ld_huft m' a = ld_huft m a.
Proof. intros H. unfold ld_huft. rewrite !H by lia. rewrite (ld32_frame m m'); [done |]. intros x Hx. apply H. lia. Qed.

Lemma ld_st_huft m a r : 0 <= h_v r < 4294967296 -> ld_huft (st_huft m a r) a = r.
Proof.
  intros H. unfold ld_huft, st_huft. rewrite !ld_st_dword by lia. rewrite ld32_st_dword, u32_small by done.
  rewrite (ld_st_ne _ (a + 1)), !ld_st_eq by lia. by destruct r.
Qed.

Lemma ld_st_huft_ne m a r x : ~ (a <= x < a + 8) -> ld (st_huft m a r) x = ld m x.
Proof. intros H. unfold st_huft. rewrite ld_st_dword by lia. by rewrite !ld_st_ne by lia. Qed.

Lemma fill_ok q r z f : 0 < f -> 0 <= h_v r < 4294967296 -> forall fuel j m, z - j <= Z.of_nat fuel ->
  let m' := fill fuel j f z q r m in
  (forall n, 0 <= n -> j + n * f < z -> ld_huft m' (q + 8 * (j + n * f)) = r) /\
  (forall a, (forall n, 0 <= n -> j + n * f < z -> ~ (q + 8 * (j + n * f) <= a < q + 8 * (j + n * f) + 8)) -> ld m' a = ld m a).
Proof.
  intros Hf Hr. induction fuel as [|fuel IH]; intros j m Hz; cbn [fill].
  - split; [intros; lia | done].
  - destruct (Z.ltb_spec j z) as [Hj | Hj]; [| split; [intros; nia | done]]. unfold huft_size.
    destruct (IH (j + f) (st_huft m (q + 8 * j) r)) as [I1 I2]; [lia |]. cbn zeta. split.
    + intros n Hn Hl. destruct (Z.eq_dec n 0) as [-> |].
      * rewrite Z.mul_0_l, Z.add_0_r. etransitivity; [| apply (ld_st_huft m (q + 8 * j) r Hr)].
        apply ld_huft_frame. intros x Hx. apply I2. intros n Hn' _. nia.
      * specialize (I1 (n - 1) ltac:(lia)). replace (j + f + (n - 1) * f) with (j + n * f) in I1 by lia. by apply I1.
    + intros a Ha. rewrite I2.
      * apply ld_st_huft_ne. specialize (Ha 0 ltac:(lia)). rewrite Z.mul_0_l, Z.add_0_r in Ha. by apply Ha.
      * intros n Hn Hl. specialize (Ha (n + 1) ltac:(lia)). replace (j + (n + 1) * f) with (j + f + n * f) in Ha by lia. by apply Ha.
Qed.

Lemma backwards_increment_ok n : forall x, backwards_increment n (rev (Z.of_nat n) x) (1 .<< (Z.of_nat n - 1)) = rev (Z.of_nat n) (x + 1).
Proof.
  induction n as [|n IH]; intros x; [done |]. replace (Z.of_nat (S n) - 1) with (Z.of_nat n) by lia. rewrite shiftl_mul, Z.mul_1_l by lia.
  assert (forall z, rev (Z.of_nat (S n)) z = z mod 2 * 2 ^ Z.of_nat n + rev (Z.of_nat n) (z / 2)) as E by (intros z; unfold rev; by rewrite !Nat2Z.id).
  pose proof (rev_range (Z.of_nat n) (x / 2) ltac:(lia)) as Hr.
  assert (Z.testbit (rev (Z.of_nat (S n)) x) (Z.of_nat n) = Z.odd x) as Hb.
  { rewrite rev_spec by lia. rewrite (proj2 (Z.ltb_lt _ _)) by lia. replace (Z.of_nat (S n) - 1 - Z.of_nat n) with 0 by lia. apply Z.bit0_odd. }
  assert (rev (Z.of_nat (S n)) x .& 2 ^ Z.of_nat n = if Z.odd x then 2 ^ Z.of_nat n else 0) as Hl.
  { by_bits. rewrite Z.land_spec, Z.pow2_bits_eqb by lia. destruct (Z.eqb_spec (Z.of_nat n) i) as [<- |].
    - rewrite Hb, andb_true_r. destruct (Z.odd x); [by rewrite Z.pow2_bits_true by lia | by rewrite Z.bits_0].
    - rewrite andb_false_r. destruct (Z.odd x); [by rewrite Z.pow2_bits_false | by rewrite Z.bits_0]. }
  assert (Z.lxor (rev (Z.of_nat (S n)) x) (2 ^ Z.of_nat n) = (if Z.odd x then 0 else 2 ^ Z.of_nat n) + rev (Z.of_nat n) (x / 2)) as Hx.
  { assert (forall u, 0 <= u < 2 ^ Z.of_nat n -> Z.lxor (2 ^ Z.of_nat n + u) (2 ^ Z.of_nat n) = u) as Hone.
    { intros u Hu. assert (u .& 2 ^ Z.of_nat n = 0) as Hz.
      { by_bits. rewrite Z.land_spec, Z.pow2_bits_eqb, Z.bits_0 by lia. destruct (Z.eqb_spec (Z.of_nat n) i) as [<- |]; [| apply andb_false_r].
        by rewrite (testbit_high u (Z.of_nat n)) by lia. }
      rewrite Z.add_comm, Z.add_nocarry_lxor by done. by rewrite Z.lxor_assoc, Z.lxor_nilpotent, Z.lxor_0_r. }
    rewrite E, Zmod_odd. destruct (Z.odd x).
    - rewrite Z.mul_1_l, Hone by done. lia.
    - rewrite Z.mul_0_l, !Z.add_0_l. symmetry. rewrite <- (Hone (rev (Z.of_nat n) (x / 2)) Hr) at 2. by rewrite Z.lxor_assoc, Z.lxor_nilpotent, Z.lxor_0_r. }
  cbn [backwards_increment]. rewrite Hl, Hx, E, Zmod_odd. rewrite Z.odd_add. change (Z.odd 1) with true.
  pose proof (Z.pow_pos_nonneg 2 (Z.of_nat n) ltac:(lia) ltac:(lia)). pose proof (Z.div_mod x 2 ltac:(lia)) as Dx. rewrite Zmod_odd in Dx.
  destruct (Z.odd x); cbn [xorb].
  - rewrite (proj2 (Z.eqb_neq _ 0)) by lia. cbn [negb]. rewrite shiftr_div by lia. rewrite Z.mul_0_l, !Z.add_0_l.
    replace ((x + 1) / 2) with (x / 2 + 1) by (apply (Z.div_unique _ _ _ 0); lia). rewrite <- IH. f_equal.
    destruct (Z.eq_dec (Z.of_nat n) 0) as [-> |]; [done |]. rewrite shiftl_mul, Z.mul_1_l by lia.
    rewrite (pow_split 1 (Z.of_nat n)) by lia. by rewrite Z.div_mul by done.
  - rewrite Z.eqb_refl. cbn [negb]. replace ((x + 1) / 2) with (x / 2) by (apply (Z.div_unique _ _ _ 1); lia). lia.
Qed.

Section Tables.
Variables (lens : list Z) (g l y : Z) (c v : list Z) (s : Z) (d e : list Z) (stray : Z -> Z).
Hypothesis lens_range : Forall (fun x => 0 <= x <= g) lens.
Hypothesis few : (length lens <= 288)%nat.
Hypothesis l_range : 1 <= l <= g.
Hypothesis g_range : g <= 15.
Hypothesis y_range : 0 <= y.
Hypothesis all_space : upto lens g g + y = 2 ^ g.
Hypothesis counts : forall k, 1 <= k < g -> at_len c k = cnt lens k.
Hypothesis counts_g : at_len c g = cnt lens g + y.
Hypothesis used_g : 0 < at_len c g.
Hypothesis v_length : length v = 288%nat.
Hypothesis v_sorted : sorted_upto lens (length lens) v.

(** The positions before the end of the codes of [k] bits, the invalid ones
    included. *)
Definition filled (k : Z) : Z := upto lens g k + (if g <=? k then y else 0).

Lemma filled_0 : filled 0 = 0.
Proof. unfold filled. rewrite upto_0, (proj2 (Z.leb_gt _ _)) by lia. done. Qed.

Lemma filled_step k : 1 <= k <= g -> filled k = filled (k - 1) + at_len c k * 2 ^ (g - k).
Proof.
  intros Hk. unfold filled. rewrite (upto_step lens g k) by lia. rewrite (proj2 (Z.leb_gt g (k - 1))) by lia.
  destruct (Z.leb_spec g k).
  - replace k with g by lia. rewrite counts_g, Z.sub_diag. cbn. lia.
  - rewrite counts by lia. lia.
Qed.

Lemma filled_mono j k : j <= k -> filled j <= filled k.
Proof. intros H. unfold filled. pose proof (upto_mono lens g j k H). destruct (Z.leb_spec g j), (Z.leb_spec g k); lia. Qed.

Lemma filled_divide k : 0 <= k <= g -> (2 ^ (g - k) | filled k).
Proof.
  intros Hk. unfold filled. destruct (Z.leb_spec g k).
  - replace (g - k) with 0 by lia. apply Z.divide_1_l.
  - rewrite Z.add_0_r. by apply upto_divide.
Qed.

Lemma filled_all k : g <= k -> filled k = 2 ^ g.
Proof.
  intros H. unfold filled. rewrite (proj2 (Z.leb_le g k)) by done. rewrite <- all_space. f_equal.
  apply sum_over_ext. intros j x Hj. cbn beta. pose proof (Forall_lookup_1 _ _ _ _ lens_range Hj) as Hx. cbn beta in Hx.
  by rewrite !(proj2 (Z.leb_le x _)) by lia.
Qed.

Lemma counts_nonneg k : 1 <= k <= g -> 0 <= at_len c k.
Proof. intros Hk. destruct (Z.eq_dec k g) as [-> |]; [lia |]. rewrite counts by lia. apply cnt_range. Qed.

(** Only the last length reaches the end. *)
Lemma filled_end k : 0 <= k -> 2 ^ g <= filled k -> g <= k.
Proof.
  intros Hk H. destruct (Z.lt_ge_cases k g) as [Hlt |]; [| done]. exfalso.
  pose proof (filled_all g ltac:(lia)) as Eg. rewrite filled_step, Z.sub_diag in Eg by lia. pose proof (filled_mono k (g - 1) ltac:(lia)). lia.
Qed.

(** A symbol's code begins at a position. *)
Definition pos (a : nat) (k : Z) : Z := code_value lens a k * 2 ^ (g - k).

Lemma pos_filled a k : lens !! a = Some k -> 0 < k -> pos a k = filled (k - 1) + rank lens k a * 2 ^ (g - k).
Proof.
  intros Ha Hk. pose proof (Forall_lookup_1 _ _ _ _ lens_range Ha) as Hr. cbn beta in Hr.
  unfold pos, filled. rewrite code_position by (done || lia). rewrite (proj2 (Z.leb_gt g (k - 1))) by lia. lia.
Qed.

Lemma pos_range a k : lens !! a = Some k -> 0 < k -> filled (k - 1) <= pos a k /\ pos a k + 2 ^ (g - k) <= filled k.
Proof.
  intros Ha Hk. pose proof (Forall_lookup_1 _ _ _ _ lens_range Ha) as Hr. cbn beta in Hr.
  rewrite pos_filled, (filled_step k) by (done || lia). pose proof (rank_cnt lens k a Ha).
  assert (cnt lens k <= at_len c k) by (destruct (Z.eq_dec k g) as [-> |]; [lia | rewrite counts; lia]).
  assert (0 < 2 ^ (g - k)) by (apply Z.pow_pos_nonneg; lia). nia.
Qed.

(** The number of codes bounds how long those in a part of the tree can be. *)
Definition total : Z := first_of lens (g + 1) + y.

Lemma rest_total k a P : 1 <= k <= g -> 0 <= a < at_len c k -> filled k = P + (a + 1) * 2 ^ (g - k) -> 2 ^ g - P <= total * 2 ^ (g - k).
Proof.
  intros Hk Ha HP. pose proof (filled_all g ltac:(lia)) as Eg. assert (0 < 2 ^ (g - k)) as Hp by (apply Z.pow_pos_nonneg; lia).
  assert (filled g - filled k + at_len c k * 2 ^ (g - k) <= total * 2 ^ (g - k)); [| nia].
  unfold filled, total. rewrite (proj2 (Z.leb_le g g)) by lia.
  assert (upto lens g g - upto lens g k + cnt lens k * 2 ^ (g - k) <= first_of lens (g + 1) * 2 ^ (g - k)) as H.
  { assert (upto lens g g + cnt lens k * 2 ^ (g - k) <= upto lens g k + first_of lens (g + 1) * 2 ^ (g - k)); [| lia].
    unfold upto, cnt, first_of. rewrite !(Z.mul_comm _ (2 ^ (g - k))), <- !sum_over_scale, <- !sum_over_add. apply sum_over_le.
    intros j x Hj. cbn beta. pose proof (Forall_lookup_1 _ _ _ _ lens_range Hj) as Hx. cbn beta in Hx.
    assert (k < x -> 2 ^ (g - x) <= 2 ^ (g - k)) by (intros; apply Z.pow_le_mono_r; lia).
    destruct (Z.ltb_spec 0 x), (Z.leb_spec x g), (Z.leb_spec x k), (Z.eqb_spec x k), (Z.ltb_spec x (g + 1)); cbn [andb]; subst; lia. }
  destruct (Z.leb_spec g k).
  - replace k with g in * by lia. rewrite counts_g, Z.sub_diag in *. lia.
  - rewrite counts by lia. nia.
Qed.

Abbreviation before T := (l * tb_level T).

(** The position of an entry. *)
Definition slot_pos (T : tbl) (i : Z) : Z := tb_start T + rev (tb_width T) i * 2 ^ (g - before T - tb_width T).

(** The entry of a symbol whose code has [bits] bits in its table. *)
Definition entry (a : nat) (bits : Z) : huft :=
  let x := Z.of_nat a in
  if x <? s then Huft (if x <? 256 then 16 else 15) bits x
  else Huft (u8 (look stray e (x - s))) bits (u16 (look stray d (x - s))).

Definition links_to (m : mem) (T : tbl) (i : Z) (T' : tbl) : Prop :=
  tb_level T' = tb_level T + 1 /\ tb_start T' = slot_pos T i /\
  ld_huft m (tb_base T + 8 * i) = Huft (16 + tb_width T') l (tb_base T').

Definition leaf_ok (m : mem) (T : tbl) (i : Z) : Prop :=
  forall a k, lens !! a = Some k -> 0 < k -> pos a k <= slot_pos T i < pos a k + 2 ^ (g - k) ->
  ld_huft m (tb_base T + 8 * i) = entry a (k - before T).

(** An entry is right: a link when the codes at its position are too long for its
    table. *)
Definition slot_ok (m : mem) (tabs : list tbl) (T : tbl) (i : Z) : Prop :=
  if filled (before T + l) <=? slot_pos T i then exists T', T' ∈ tabs /\ links_to m T i T' else leaf_ok m T i.

Record table_ok (T : tbl) : Prop := {
  to_level : 0 <= tb_level T;
  to_width : 1 <= tb_width T <= l /\ before T + tb_width T <= g;
  to_start : (2 ^ (g - before T) | tb_start T) /\ 0 <= tb_start T /\ tb_start T + 2 ^ (g - before T) <= 2 ^ g;
  to_fits : tb_start T + 2 ^ (g - before T) <= filled (before T + tb_width T) \/ tb_width T = l;
  to_long : filled (before T) <= tb_start T;
  to_size : 2 ^ tb_width T <= tb_size T }.

Definition in_block (T : tbl) (P : Z) : Prop := tb_start T <= P < tb_start T + 2 ^ (g - before T).

(** *** Following the tables *)

(** Along the bits of [b] a code of [n] bits leads to an entry, by tables between
    [lo] and [hi]. *)
Inductive leads (m : mem) (lo hi : Z) : Z -> Z -> Z -> Z -> Z -> Z -> Prop :=
| leads_leaf t w b n r x : 0 < n <= w -> lo <= t /\ t + 8 * 2 ^ w <= hi ->
    ld_huft m (t + 8 * (b mod 2 ^ w)) = Huft r n x -> leads m lo hi t w b n r x
| leads_link t w b n r x j t' : 0 < w < n -> lo <= t /\ t + 8 * 2 ^ w <= hi ->
    ld_huft m (t + 8 * (b mod 2 ^ w)) = Huft (16 + j) w t' -> 1 <= j <= 15 ->
    leads m lo hi t' j (b / 2 ^ w) (n - w) r x -> leads m lo hi t w b n r x.

(** A code in the part of a table is longer than the way to it. *)
Lemma block_longer T a k : table_ok T -> lens !! a = Some k -> 0 < k -> in_block T (pos a k) -> before T < k.
Proof.
  intros T0 Ha Hk [B1 B2]. pose proof (pos_range a k Ha Hk) as [P1 P2]. pose proof (to_long _ T0) as H.
  pose proof (Forall_lookup_1 _ _ _ _ lens_range Ha) as Hr. cbn beta in Hr.
  destruct (Z.lt_ge_cases (before T) k) as [|Hle]; [done |]. pose proof (filled_mono k (before T) Hle).
  assert (0 < 2 ^ (g - k)) by (apply Z.pow_pos_nonneg; lia). lia.
Qed.

(** The first bits of a code give the entry's position. *)
Lemma slot_prefix T a k b n : table_ok T -> lens !! a = Some k -> in_block T (pos a k) -> before T < k <= g ->
  b mod 2 ^ (k - before T) = rev (k - before T) (code_value lens a k) ->
  0 <= n -> n <= tb_width T -> n <= k - before T ->
  slot_pos T (b mod 2 ^ tb_width T) / 2 ^ (g - before T - n) = pos a k / 2 ^ (g - before T - n).
Proof.
  intros [T1 [T2 T3] [[S HS] T4] _ _ _] Ha [B1 B2] Hk Hb Hn H1 H2. set (w := before T) in *. set (x := code_value lens a k) in *.
  set (j := tb_width T) in *. assert (0 <= w) by nia.
  assert (forall p, 0 <= p -> 0 < 2 ^ p) as Hp by (intros; apply Z.pow_pos_nonneg; lia).
  assert (rev j (b mod 2 ^ j) / 2 ^ (j - n) = x / 2 ^ (k - w - n) mod 2 ^ n) as E.
  { rewrite rev_high by lia. replace (j - (j - n)) with n by lia.
    rewrite <- (rev_mod n (b mod 2 ^ j)), Z.mod_mod_divide by (done || (exists (2 ^ (j - n)); by apply pow_split)).
    rewrite <- (Z.mod_mod_divide b (2 ^ (k - w)) (2 ^ n)) by (exists (2 ^ (k - w - n)); by apply pow_split).
    by rewrite Hb, rev_low, rev_rev by lia. }
  assert (x / 2 ^ (k - w) = S) as EX.
  { symmetry. apply (Z.div_unique _ _ _ (x - S * 2 ^ (k - w))); [left | lia].
    unfold pos in *. fold x in B1, B2. rewrite HS, (pow_split (g - k) (g - w)) in B1, B2 by lia. replace (g - w - (g - k)) with (k - w) in * by lia.
    pose proof (Hp (g - k) ltac:(lia)). split; [assert (S * 2 ^ (k - w) <= x) | assert (x < S * 2 ^ (k - w) + 2 ^ (k - w))]; try lia;
      [apply (Z.mul_le_mono_pos_r _ _ (2 ^ (g - k))) | apply (Z.mul_lt_mono_pos_r (2 ^ (g - k)))]; lia. }
  transitivity (x / 2 ^ (k - w - n)).
  - unfold slot_pos. fold w j. rewrite HS, (pow_split (g - w - n) (g - w)) by lia. replace (g - w - (g - w - n)) with n by lia.
    rewrite Z.mul_assoc, Z.div_add_l by (pose proof (Hp (g - w - n)); lia).
    rewrite (pow_split (g - w - j) (g - w - n)), Z.div_mul_cancel_r by (pose proof (Hp (g - w - j)); pose proof (Hp (g - w - n - (g - w - j))); lia).
    replace (g - w - n - (g - w - j)) with (j - n) by lia. rewrite E, <- EX.
    rewrite (pow_split n (k - w)), <- Z.div_div by (pose proof (Hp n); pose proof (Hp (k - w - n)); lia).
    rewrite Z.mul_comm. symmetry. apply Z.div_mod. pose proof (Hp n). lia.
  - unfold pos. fold x. rewrite (pow_split (g - k) (g - w - n)), Z.div_mul_cancel_r by (pose proof (Hp (g - k)); pose proof (Hp (g - w - n - (g - k))); lia).
    do 2 f_equal. lia.
Qed.

(** What the bits of a code say of the entry they lead to. *)
Lemma slot_code T a k b : table_ok T -> lens !! a = Some k -> 0 < k -> in_block T (pos a k) ->
  b mod 2 ^ (k - before T) = rev (k - before T) (code_value lens a k) ->
  let X := slot_pos T (b mod 2 ^ tb_width T) in
  before T < k /\
  (k <= before T + l -> k - before T <= tb_width T /\ X < filled (before T + l) /\ pos a k <= X < pos a k + 2 ^ (g - k)) /\
  (before T + l < k -> tb_width T = l /\ filled (before T + l) <= X /\ X <= pos a k < X + 2 ^ (g - before T - l)).
Proof.
  intros T0 Ha Hk B Hb X. pose proof (Forall_lookup_1 _ _ _ _ lens_range Ha) as Hr. cbn beta in Hr.
  pose proof (block_longer T a k T0 Ha Hk B) as Hw. pose proof (pos_range a k Ha Hk) as [P1 P2].
  assert (forall p, 0 <= p -> 0 < 2 ^ p) as Hp by (intros; apply Z.pow_pos_nonneg; lia).
  pose proof T0 as [T1 [T2 T3] _ T5 _ _]. destruct B as [B1 B2].
  assert (tb_width T = l \/ k - before T <= tb_width T) as Hfit.
  { destruct T5 as [T5 | T5]; [right | by left]. destruct (Z.lt_ge_cases (before T + tb_width T) k) as [H |]; [| lia].
    pose proof (filled_mono (before T + tb_width T) (k - 1) ltac:(lia)). lia. }
  split; [done |]. split; intros Hl.
  - assert (k - before T <= tb_width T) as Hkw by lia. split; [done |].
    pose proof (slot_prefix T a k b (k - before T) T0 Ha (conj B1 B2) ltac:(lia) Hb ltac:(lia) Hkw ltac:(lia)) as E. fold X in E.
    replace (g - before T - (k - before T)) with (g - k) in E by lia. pose proof (Hp (g - k) ltac:(lia)) as Hpk.
    assert (pos a k / 2 ^ (g - k) * 2 ^ (g - k) = pos a k) as Em by (unfold pos; rewrite Z.div_mul by lia; done).
    pose proof (Z.div_mod X (2 ^ (g - k)) ltac:(lia)). pose proof (Z.mod_pos_bound X (2 ^ (g - k)) Hpk).
    assert (pos a k <= X < pos a k + 2 ^ (g - k)) as HX by nia. split; [| done].
    pose proof (filled_mono k (before T + l) ltac:(lia)). lia.
  - assert (tb_width T = l) as Hwl by lia. split; [done |].
    pose proof (slot_prefix T a k b l T0 Ha (conj B1 B2) ltac:(lia) Hb ltac:(lia) ltac:(lia) ltac:(lia)) as E. fold X in E.
    pose proof (Hp (g - before T - l) ltac:(lia)) as Hpl.
    assert ((2 ^ (g - before T - l) | X)) as [q Hq].
    { unfold X, slot_pos. rewrite Hwl. apply Z.divide_add_r; [| by eexists].
      apply (mod_divide_floor _ _ (g - before T)); [lia | apply (to_start _ T0)]. }
    rewrite Hq, Z.div_mul in E by lia.
    pose proof (Z.div_mod (pos a k) (2 ^ (g - before T - l)) ltac:(lia)). pose proof (Z.mod_pos_bound (pos a k) (2 ^ (g - before T - l)) Hpl).
    assert (X <= pos a k < X + 2 ^ (g - before T - l)) as HX by (rewrite Hq; nia). split; [| done].
    apply (below_aligned _ _ (2 ^ (g - before T - l))); [| by exists q | done |].
    + replace (g - before T - l) with (g - (before T + l)) by lia. apply filled_divide. nia.
    + pose proof (filled_mono (before T + l) (k - 1) ltac:(lia)). lia.
Qed.

(** When every entry is right, the bits of a code lead to its entry. *)
Lemma follow m lo hi tabs : (forall T, T ∈ tabs -> table_ok T) -> (forall T, T ∈ tabs -> lo <= tb_base T /\ tb_base T + 8 * tb_size T <= hi) ->
  (forall T i, T ∈ tabs -> 0 <= i < 2 ^ tb_width T -> slot_ok m tabs T i) ->
  forall n T a k b, (Z.to_nat (k - before T) <= n)%nat -> T ∈ tabs -> lens !! a = Some k -> 0 < k -> in_block T (pos a k) ->
    b mod 2 ^ (k - before T) = rev (k - before T) (code_value lens a k) ->
    exists bits, 0 < bits /\ leads m lo hi (tb_base T) (tb_width T) b (k - before T) (h_e (entry a bits)) (h_v (entry a bits)).
Proof.
  intros Ht Hp Hs. induction n as [|n IH]; intros T a k b Hn HT Ha Hk B Hb; pose proof (Ht T HT) as T0;
    destruct (slot_code T a k b T0 Ha Hk B Hb) as (Hw & H1 & H2); [lia |].
  pose proof (Forall_lookup_1 _ _ _ _ lens_range Ha) as Hr. cbn beta in Hr. pose proof T0 as [T1 [T2 T3] _ _ _ _].
  assert (0 <= b mod 2 ^ tb_width T < 2 ^ tb_width T) as Hi by (apply Z.mod_pos_bound, Z.pow_pos_nonneg; lia).
  pose proof (Hs T _ HT Hi) as Hslot. unfold slot_ok in Hslot.
  destruct (Z.le_gt_cases k (before T + l)) as [Hle | Hgt].
  - destruct (H1 Hle) as (K1 & K2 & K3). rewrite (proj2 (Z.leb_gt _ _)) in Hslot by done.
    specialize (Hslot a k Ha Hk K3). exists (k - before T). split; [lia |]. apply leads_leaf; [lia | destruct (Hp T HT); pose proof (to_size _ T0); lia |]. rewrite Hslot. unfold entry. by destruct (_ <? s).
  - destruct (H2 Hgt) as (K1 & K2 & K3 & K4). rewrite (proj2 (Z.leb_le _ _)) in Hslot by done.
    destruct Hslot as (T' & HT' & E1 & E2 & E3). pose proof (Ht T' HT') as [T1' [T2' T3'] _ _ _ _].
    replace (before T') with (before T + l) in * by (rewrite E1; lia).
    assert (l * tb_level T' = before T + l) as El by (rewrite E1; lia).
    destruct (IH T' a k (b / 2 ^ tb_width T)) as (bits & Hbits & L); try done; try lia.
    + unfold in_block. rewrite E2, El. replace (g - (before T + l)) with (g - before T - l) by lia. lia.
    + rewrite El, K1. replace (k - (before T + l)) with (k - before T - l) by lia. rewrite <- (rev_high (k - before T) l) by lia. rewrite <- Hb. by rewrite div_mod_pow by lia.
    + exists bits. split; [done |]. eapply leads_link; [| destruct (Hp T HT); pose proof (to_size _ T0); lia | rewrite E3; by rewrite K1 | lia |]; [lia |]. rewrite El in L. by replace (k - before T - tb_width T) with (k - (before T + l)) by lia.
Qed.

(** *** The bits of a new table *)

(** It starts at [P], below [w] bits, with the first code of [k] bits there and
    [a] more of them. *)
Record starts (P w k a : Z) : Prop := {
  st_len : 0 <= w < k /\ 1 <= k <= g;
  st_count : 0 <= a < at_len c k;
  st_filled : filled k = P + (a + 1) * 2 ^ (g - k);
  st_align : (2 ^ (g - w) | P);
  st_pos : 0 <= P < 2 ^ g }.

Lemma aligned_room P w : 0 <= w <= g -> (2 ^ (g - w) | P) -> P < 2 ^ g -> P + 2 ^ (g - w) <= 2 ^ g.
Proof.
  intros Hw [q ->] H. rewrite (pow_split (g - w) g) in * by lia. assert (0 < 2 ^ (g - w)) by (apply Z.pow_pos_nonneg; lia).
  assert (q < 2 ^ (g - (g - w))) by (apply (Z.mul_lt_mono_pos_r (2 ^ (g - w))); lia). nia.
Qed.

Lemma table_bits_ok P w z : 0 <= w -> w + z <= g -> forall f k r, w < k -> k - w < z -> z - (k - w) <= Z.of_nat f ->
  r * 2 ^ (g - k) = P + 2 ^ (g - w) - filled k ->
  let j := table_bits f c k (k - w) z r in k - w < j <= z /\ (j = z \/ P + 2 ^ (g - w) <= filled (w + j)).
Proof.
  intros Hw Hz. induction f as [|f IH]; intros k r Hk Hkz Hf Hr; [lia |]. cbn [table_bits]. rewrite shiftl_mul by lia. change (2 ^ 1) with 2.
  destruct (Z.ltb_spec (k - w + 1) z) as [Hj | Hj]; [| cbn zeta; split; [lia | left; lia]].
  pose proof (filled_step (k + 1) ltac:(lia)) as Es. replace (k + 1 - 1) with k in Es by lia.
  assert (2 ^ (g - k) = 2 * 2 ^ (g - (k + 1))) as Ep by (rewrite <- Z.pow_succ_r by lia; f_equal; lia).
  assert (0 < 2 ^ (g - (k + 1))) by (apply Z.pow_pos_nonneg; lia).
  destruct (Z.leb_spec (r * 2) (at_len c (k + 1))).
  - cbn zeta. split; [lia |]. right. replace (w + (k - w + 1)) with (k + 1) by lia. rewrite Es. nia.
  - replace (k - w + 1) with (k + 1 - w) by lia. destruct (IH (k + 1) (r * 2 - at_len c (k + 1))) as [H1 H2]; [lia | lia | lia | nia |].
    cbn zeta. split; [lia | exact H2].
Qed.

(** The bits that [new_table] chooses. *)
Definition new_bits (w k a : Z) : Z :=
  let z := Z.min l (g - w) in
  if a + 1 <? 2 ^ (k - w) then table_bits 16 c k (k - w) z (2 ^ (k - w) - (a + 1)) else k - w.

Lemma starts_room P w k a : starts P w k a -> 2 ^ (k - w) * 2 ^ (g - k) = 2 ^ (g - w) /\ P + 2 ^ (g - w) <= 2 ^ g /\
  (2 ^ (k - w) - (a + 1)) * 2 ^ (g - k) = P + 2 ^ (g - w) - filled k.
Proof.
  intros [S1 S2 S3 S4 S5]. assert (2 ^ (k - w) * 2 ^ (g - k) = 2 ^ (g - w)) as E by (rewrite <- Z.pow_add_r by lia; f_equal; lia).
  split; [done |]. split; [apply aligned_room; lia || done |]. rewrite S3, Z.mul_sub_distr_r, E. lia.
Qed.

(** Too few codes for [k] bits: there are longer ones. *)
Lemma starts_longer P w k a : starts P w k a -> a + 1 < 2 ^ (k - w) -> k < g.
Proof.
  intros S H. destruct (starts_room P w k a S) as (R1 & R2 & R3). destruct S as [S1 S2 S3 S4 S5].
  destruct (Z.eq_dec k g) as [-> |]; [| lia]. rewrite (filled_all g) in * by lia. rewrite Z.sub_diag in *. lia.
Qed.

Lemma new_bits_sub P w k a : starts P w k a -> k - w < l ->
  1 <= new_bits w k a <= Z.min l (g - w) /\ (P + 2 ^ (g - w) <= filled (w + new_bits w k a) \/ new_bits w k a = l).
Proof.
  intros S Hl. pose proof (starts_longer P w k a S) as Hg. destruct (starts_room P w k a S) as (R1 & R2 & R3). destruct S as [S1 S2 S3 S4 S5].
  unfold new_bits. destruct (Z.ltb_spec (a + 1) (2 ^ (k - w))) as [Ha | Ha].
  - destruct (table_bits_ok P w (Z.min l (g - w)) ltac:(lia) ltac:(lia) 16 k _ ltac:(lia) ltac:(lia) ltac:(lia) R3) as [J1 J2].
    split; [lia |]. destruct J2 as [J2 | J2]; [| by left]. rewrite J2. destruct (Z.min_spec l (g - w)) as [[_ ->] | [_ ->]]; [by right |].
    left. rewrite (filled_all (w + (g - w))) by lia. done.
  - split; [lia |]. left. replace (w + (k - w)) with k by lia. assert (0 < 2 ^ (g - k)) by (apply Z.pow_pos_nonneg; lia). nia.
Qed.

Lemma new_bits_root k a : starts 0 0 k a -> k <= l -> l <= new_bits 0 k a <= l + 1.
Proof.
  intros S Hl. pose proof (starts_longer 0 0 k a S) as Hg. destruct (starts_room 0 0 k a S) as (R1 & R2 & R3). destruct S as [S1 S2 S3 S4 S5].
  unfold new_bits. rewrite !Z.sub_0_r in *. replace (Z.min l g) with l by lia. destruct (Z.ltb_spec (a + 1) (2 ^ k)) as [Ha | Ha].
  - destruct (Z.eq_dec k l) as [-> |].
    + cbn [table_bits]. rewrite (proj2 (Z.ltb_ge (l + 1) l)) by lia. lia.
    + pose proof (table_bits_ok 0 0 l ltac:(lia) ltac:(lia) 16 k (2 ^ k - (a + 1)) ltac:(lia) ltac:(lia) ltac:(lia)) as J.
      rewrite !Z.sub_0_r in J. destruct (J R3) as [J1 [J2 | J2]]; [lia |].
      rewrite !Z.add_0_l in J2. apply filled_end in J2; lia.
  - assert (2 ^ g <= filled k) as H by (assert (0 < 2 ^ (g - k)) by (apply Z.pow_pos_nonneg; lia); nia).
    pose proof (filled_end k ltac:(lia) H). lia.
Qed.

(** *** Building *)

Variables (top0 : Z) (m0 : mem).

Definition apart (T T' : tbl) : Prop := tb_base T + 8 * tb_size T + 8 <= tb_base T'.

(** The tables made so far and, among them, those on the way to the position
    [P], where the next code goes, of [k] bits or more. *)
Record building (R : tbl -> Z -> Prop) (P k : Z) (tabs chain : list tbl) (b : build) : Prop := {
  bu_code : code b = rev g P;
  bu_pos : 0 <= P <= 2 ^ g;
  bu_level : level b = Z.of_nat (length chain) - 1;
  bu_before : before_table b = l * level b;
  bu_next : before_table b + l <= g -> (2 ^ (g - (before_table b + l)) | P);
  bu_tabs : forall T, T ∈ tabs -> table_ok T;
  bu_slots : forall T i, T ∈ tabs -> 0 <= i < 2 ^ tb_width T -> slot_pos T i < P -> slot_ok (hp_mem (heap_of b)) tabs T i;
  bu_done : forall T, T ∈ tabs -> T ∈ chain \/ tb_start T + 2 ^ (g - before T) <= P;
  bu_chain : forall h T, chain !! h = Some T ->
    T ∈ tabs /\ tb_level T = Z.of_nat h /\ stack b !! h = Some (tb_base T) /\
    patterns b !! h = Some (rev (before T) (tb_start T / 2 ^ (g - before T))) /\ R T P;
  bu_links : forall h T T', chain !! h = Some T -> chain !! S h = Some T' ->
    exists i, 0 <= i < 2 ^ tb_width T /\ links_to (hp_mem (heap_of b)) T i T' /\ filled (before T + l) <= tb_start T';
  bu_top : forall T, chain !! (length chain - 1)%nat = Some T -> k <= before T + l -> table b = tb_base T /\ entries b = tb_size T;
  bu_link : link b = match tabs with [] => None | T :: _ => Some (tb_base T - 4) end;
  bu_root : forall T, T ∈ tabs -> tb_level T = 0 -> hp_root (heap_of b) = tb_base T /\ tb_width T = l /\ tb_start T = 0;
  bu_first : chain = [] -> tabs = [] /\ P = 0;
  bu_places : forall T, T ∈ tabs -> hp_top (heap_of b) + 8 <= tb_base T /\ tb_base T + 8 * tb_size T <= top0;
  bu_apart : forall T T', T ∈ tabs -> T' ∈ tabs -> T = T' \/ apart T T' \/ apart T' T;
  bu_heap : 0 <= hp_top (heap_of b) /\ (4 | hp_top (heap_of b)) /\ hp_top (heap_of b) <= top0 < 4294967296;
  bu_frame : forall a, ~ (hp_top (heap_of b) <= a < top0) -> ld (hp_mem (heap_of b)) a = ld m0 a;
  bu_lengths : length (stack b) = 16%nat /\ length (patterns b) = 17%nat /\ patterns b !! 0%nat = Some 0 }.

Abbreviation built := (building (fun T P => P < 2 ^ g -> in_block T P)).

(** An entry survives what is written elsewhere. *)
Lemma slot_frame m m' tabs tabs' T i : (forall T, T ∈ tabs -> T ∈ tabs') ->
  ld_huft m' (tb_base T + 8 * i) = ld_huft m (tb_base T + 8 * i) -> slot_ok m tabs T i -> slot_ok m' tabs' T i.
Proof.
  intros Ht Hm. unfold slot_ok, leaf_ok, links_to. rewrite Hm. destruct (_ <=? _); [| done]. intros (T' & HT & H). exists T'. split; [by apply Ht | done].
Qed.

Lemma slots_apart T T' i i' : table_ok T -> table_ok T' -> T = T' \/ apart T T' \/ apart T' T -> 0 <= i < tb_size T -> 0 <= i' < tb_size T' ->
  (T, i) <> (T', i') -> tb_base T + 8 * i + 8 <= tb_base T' + 8 * i' \/ tb_base T' + 8 * i' + 8 <= tb_base T + 8 * i.
Proof.
  intros _ _ [-> | [H | H]] Hi Hi' Hne; unfold apart in *; [| lia..]. assert (i <> i') by congruence. lia.
Qed.

Lemma new_z w : 0 <= w < g -> (if l <? u32 (g - w) then l else u32 (g - w)) = Z.min l (g - w).
Proof. intros H. rewrite u32_small by lia. destruct (Z.ltb_spec l (g - w)); lia. Qed.

(** The starting table. *)
Lemma new_root k a b : built 0 k [] [] b -> starts 0 0 k a -> k <= l -> 8 * (2 ^ (l + 1) + 1) <= hp_top (heap_of b) ->
  exists T b', new_table l g c k a b = Some b' /\ built 0 k [T] [T] b' /\
    hp_top (heap_of b) - 8 * (2 ^ (l + 1) + 1) <= hp_top (heap_of b') /\ next_value b' = next_value b.
Proof.
  intros B S Hkl Hroom. pose proof (new_bits_root k a S Hkl) as J. destruct B as [B1 B2 B3 B4 B5 _ _ _ _ _ _ B6 _ _ _ _ B7 B8 B9].
  destruct S as [S1 S2 S3 S4 S5]. change (Z.of_nat (length []) - 1) with (-1) in B3.
  unfold new_table. rewrite B4, B3. replace (l * -1 + l) with 0 by lia. rewrite B6. cbn zeta.
  rewrite new_z, (shiftl_mul 1 (k - 0)), Z.mul_1_l by lia. change (-1 + 1) with 0. fold (new_bits 0 k a).
  set (j := new_bits 0 k a) in *. rewrite !(shiftl_mul 1 j), !Z.mul_1_l by lia.
  assert (2 ^ l <= 2 ^ j <= 2 ^ (l + 1)) as Hz by (split; apply Z.pow_le_mono_r; lia).
  assert (0 < 2 ^ l) as Hpl by (apply Z.pow_pos_nonneg; lia).
  rewrite linalloc_ok by (unfold huft_size; try lia; try (exists (2 * (2 ^ j + 1)); lia); tauto).
  unfold huft_size. set (top := hp_top (heap_of b)) in *. set (q := top - (2 ^ j + 1) * 8).
  cbn [hp_mem hp_top hp_hufts hp_root]. rewrite (put_some (stack b)) by lia. cbn [mbind option_bind]. change (negb (0 =? 0)) with false. cbn iota. cbn [mbind option_bind].
  set (T := Tbl (q + 8) l 0 0 (2 ^ j)). exists T. eexists. split; [reflexivity |]. cbn [heap_of hp_top next_value]. split; [| unfold q; lia].
  assert (forall T', T' ∈ [T] -> T' = T) as HT by (intros T' H; by apply list_elem_of_singleton in H).
  assert (before T = 0) as EB by (cbn; lia).
  constructor; cbn [code level before_table heap_of stack patterns table entries link hp_mem hp_top hp_root]; try done.
  - intros _. apply Z.divide_0_r.
  - intros T' H. apply HT in H as ->. constructor; cbn [tb_level tb_width tb_start tb_size T]; rewrite ?Z.mul_0_r, ?Z.sub_0_r; try lia.
    + split; [apply Z.divide_0_r | lia].
    + rewrite filled_0. lia.
  - intros T' i H Hi Hs. exfalso. apply HT in H as ->. unfold slot_pos in Hs. cbn [tb_start tb_width T] in Hs.
    pose proof (rev_range l i ltac:(lia)). pose proof (Z.pow_nonneg 2 (g - before T - l) ltac:(lia)). nia.
  - intros T' H. by left.
  - intros h T' H. destruct h as [|h]; [| done]. injection H as <-. split; [by left |]. split; [done |].
    split; [by rewrite list_lookup_insert_eq by lia |]. split; [| intros Hg; unfold in_block; rewrite EB; cbn [tb_start T]; rewrite Z.sub_0_r; lia].
    rewrite EB. tauto.
  - intros T' H. injection H as <-. done.
  - f_equal. cbn. lia.
  - intros T' H _. apply HT in H as ->. done.
  - intros T' H. apply HT in H as ->. cbn [tb_base tb_size T]. unfold q. lia.
  - intros T1 T2 H1 H2. apply HT in H1 as ->. apply HT in H2 as ->. by left.
  - unfold q. split; [lia |]. split; [| lia]. destruct B7 as (_ & [p Hp] & _). exists (p - (2 ^ j + 1) * 2). lia.
  - intros x Hx. rewrite ld_st_dword by (unfold q in *; lia). apply B8. unfold q in Hx. lia.
  - by rewrite length_insert.
Qed.

Lemma starts_filled P w k a : starts P w k a -> filled (k - 1) <= P /\ P + 2 ^ (g - k) <= filled k.
Proof.
  intros [S1 S2 S3 S4 S5]. pose proof (filled_step k ltac:(lia)). assert (0 < 2 ^ (g - k)) by (apply Z.pow_pos_nonneg; lia). nia.
Qed.

(** The entry of a table at whose position a longer code starts. *)
Lemma parent_slot P k a T : table_ok T -> in_block T P -> starts P (before T + l) k a ->
  tb_width T = l /\ 0 <= rev g P / 2 ^ before T < 2 ^ l /\ slot_pos T (rev g P / 2 ^ before T) = P /\ filled (before T + l) <= P.
Proof.
  intros [T1 [T2 T3] [[S HS] T4] T5 _ _] [B1 B2] St. destruct (starts_filled _ _ _ _ St) as [F1 F2]. destruct St as [S1 S2 S3 [Q S4] S5].
  set (w0 := before T) in *. assert (0 <= w0) by nia.
  assert (tb_width T = l) as Hw.
  { destruct T5 as [T5 |]; [| done]. pose proof (filled_mono (w0 + tb_width T) (k - 1) ltac:(lia)). lia. }
  split; [done |].
  assert (rev g P / 2 ^ w0 = rev l Q) as E.
  { rewrite S4, rev_mul, rev_high by lia. f_equal. lia. }
  rewrite E. split; [apply rev_range; lia |]. split; [| pose proof (filled_mono (w0 + l) (k - 1) ltac:(lia)); lia].
  unfold slot_pos. fold w0. rewrite Hw, rev_rev by lia. replace (g - w0 - l) with (g - (w0 + l)) by lia.
  assert (0 < 2 ^ (g - (w0 + l))) as Hp by (apply Z.pow_pos_nonneg; lia). assert (0 < 2 ^ l) by (apply Z.pow_pos_nonneg; lia).
  rewrite (pow_split (g - (w0 + l)) (g - w0)) in * by lia. replace (g - w0 - (g - (w0 + l))) with l in * by lia.
  set (u := 2 ^ (g - (w0 + l))) in *.
  assert (S * 2 ^ l <= Q) by (apply (Z.mul_le_mono_pos_r _ _ u); lia).
  assert (Q < S * 2 ^ l + 2 ^ l) by (apply (Z.mul_lt_mono_pos_r u); lia).
  rewrite (Z.mod_eq Q) by lia. rewrite <- (Z.div_unique Q (2 ^ l) S (Q - S * 2 ^ l)) by lia. rewrite HS, S4. lia.
Qed.

Lemma chain_snoc chain0 (T0 : tbl) h T : (chain0 ++ [T0]) !! h = Some T ->
  chain0 !! h = Some T /\ (h < length chain0)%nat \/ h = length chain0 /\ T = T0.
Proof.
  intros H. destruct (Nat.lt_ge_cases h (length chain0)) as [Hl | Hl].
  - left. by rewrite lookup_app_l in H.
  - right. rewrite lookup_app_r in H by done. destruct (h - length chain0)%nat eqn:E; [| done]. injection H as <-. split; [lia | done].
Qed.

Definition sub_room : Z := 8 * (2 ^ Z.min l (g - l) + 1).

(** The memory after a table has been linked: the link in the header of the last
    one, the new header, and the entry of its parent. *)
Definition linked (m : mem) (t q slot : Z) (r : huft) : mem := st_huft (st_dword (st_dword m t q) (q - 4) 0) slot r.

Lemma linked_frame m t q slot r x : ~ (t <= x < t + 4) -> ~ (q - 4 <= x < q) -> ~ (slot <= x < slot + 8) ->
  ld (linked m t q slot r) x = ld m x.
Proof. intros H1 H2 H3. unfold linked. rewrite ld_st_huft_ne, !ld_st_dword by lia. done. Qed.

Lemma new_sub_eval P k a tabs chain0 T0 b : built P k tabs (chain0 ++ [T0]) b -> starts P (before_table b + l) k a ->
  k - (before_table b + l) < l -> sub_room <= hp_top (heap_of b) ->
  let w := before_table b + l in
  let h := level b + 1 in
  let j := new_bits w k a in
  let q := hp_top (heap_of b) - 8 * 2 ^ j in
  exists t n, link b = Some t /\ 8 * (2 ^ j + 1) <= sub_room /\ 1 <= j <= 15 /\ 0 <= h < 16 /\
    new_table l g c k a b = Some (Build
      (Heap (linked (hp_mem (heap_of b)) t q (tb_base T0 + 8 * (rev g P / 2 ^ before T0)) (Huft (16 + j) l q)) (q - 8) n (hp_root (heap_of b)))
      (Some (q - 4)) h w (code b) (next_value b) q (2 ^ j) (<[Z.to_nat h := q]> (stack b)) (<[Z.to_nat h := code b]> (patterns b))).
Proof.
  intros B S Hl Hroom w h j q. destruct (new_bits_sub P w k a S Hl) as [J1 J2]. fold j in J1, J2.
  assert ((chain0 ++ [T0]) !! length chain0 = Some T0) as Hlast by (by rewrite lookup_app_r, Nat.sub_diag by lia).
  destruct (bu_chain _ _ _ _ _ _ B _ _ Hlast) as (C1 & C2 & C3 & C4 & C5). pose proof (bu_tabs _ _ _ _ _ _ B T0 C1) as [D1 [D2 D3] _ _ _ _].
  pose proof (bu_level _ _ _ _ _ _ B) as Lv. rewrite length_app in Lv. cbn [length] in Lv. replace (Z.of_nat (length chain0 + 1) - 1) with (tb_level T0) in Lv by lia.
  pose proof (bu_before _ _ _ _ _ _ B) as Bf. rewrite Lv in Bf.
  destruct (bu_heap _ _ _ _ _ _ B) as (H1 & [p Hp] & H2). destruct (bu_lengths _ _ _ _ _ _ B) as (L1 & L2 & _).
  pose proof (bu_link _ _ _ _ _ _ B) as Lk. destruct tabs as [|Th tabs]; [by apply elem_of_nil in C1 |].
  destruct S as [S1 S2 S3 S4 S5].
  assert (tb_level T0 < 15) as Hlev by (unfold w in S1; nia).
  assert (2 ^ j <= 2 ^ Z.min l (g - l)) as Hj by (apply Z.pow_le_mono_r; unfold w in *; nia).
  exists (tb_base Th - 4). eexists. split; [exact Lk |]. unfold sub_room in *. split; [lia |]. split; [lia |]. split; [unfold h; lia |].
  unfold new_table. rewrite Lk. cbn zeta. fold w h.
  rewrite new_z, (shiftl_mul 1 (k - w)), Z.mul_1_l by lia. fold (new_bits w k a). fold j. rewrite !(shiftl_mul 1 j), !Z.mul_1_l by lia.
  rewrite linalloc_ok by (unfold huft_size; try lia; try (exists (2 * (2 ^ j + 1)); lia); exists p; lia). unfold huft_size.
  cbn [hp_mem hp_top hp_hufts hp_root]. rewrite (put_some (stack b)) by (unfold h; lia). cbn [mbind option_bind].
  rewrite (proj2 (Z.eqb_neq h 0)) by (unfold h; lia). cbn [negb]. rewrite (put_some (patterns b)) by (unfold h; lia). cbn [mbind option_bind].
  rewrite get_nth by (rewrite length_insert; unfold h; lia). cbn [mbind option_bind].
  assert (nth (Z.to_nat (h - 1)) (<[Z.to_nat h := hp_top (heap_of b) - (2 ^ j + 1) * 8 + 8]> (stack b)) 0 = tb_base T0) as ->.
  { apply nth_lookup_Some. rewrite list_lookup_insert_ne by (unfold h; lia). replace (Z.to_nat (h - 1)) with (length chain0) by (unfold h; lia). exact C3. }
  rewrite shiftr_div by (unfold w; nia). rewrite (bu_code _ _ _ _ _ _ B). replace (w - l) with (before T0) by (unfold w; lia).
  rewrite !u8_small by lia. unfold linked.
  replace (hp_top (heap_of b) - (2 ^ j + 1) * 8 + 8) with q by (unfold q; lia). replace (hp_top (heap_of b) - (2 ^ j + 1) * 8) with (q - 8) by (unfold q; lia).
  replace (q - 8 + 4) with (q - 4) by lia. reflexivity.
Qed.

(** Entries of the tables, but the one of the parent, are kept. *)
Lemma linked_entry P k tabs chain b t q j T0 i0 r : built P k tabs chain b -> link b = Some t -> 0 <= j ->
  q = hp_top (heap_of b) - 8 * 2 ^ j -> T0 ∈ tabs -> 0 <= i0 < 2 ^ tb_width T0 -> 0 <= h_v r < 4294967296 ->
  let m := linked (hp_mem (heap_of b)) t q (tb_base T0 + 8 * i0) r in
  (forall T i, T ∈ tabs -> 0 <= i < 2 ^ tb_width T -> (T, i) <> (T0, i0) -> ld_huft m (tb_base T + 8 * i) = ld_huft (hp_mem (heap_of b)) (tb_base T + 8 * i)) /\
  ld_huft m (tb_base T0 + 8 * i0) = r /\
  forall a, ~ (q - 8 <= a < top0) -> ld m a = ld m0 a.
Proof.
  intros B Lk Hj -> HT0 Hi0 Hr m. pose proof (bu_link _ _ _ _ _ _ B) as Lk'. rewrite Lk in Lk'. destruct tabs as [|Th tabs0]; [done |].
  set (tabs := Th :: tabs0) in *. injection Lk' as Et. assert (Th ∈ tabs) as Hh by (by left).
  assert (0 < 2 ^ j) by (apply Z.pow_pos_nonneg; lia). pose proof (bu_places _ _ _ _ _ _ B) as Pl. pose proof (bu_tabs _ _ _ _ _ _ B) as Tb.
  destruct (bu_heap _ _ _ _ _ _ B) as (H1 & _ & H2).
  assert (forall T, T ∈ tabs -> 2 ^ tb_width T <= tb_size T) as Hsz by (intros T HT; apply (to_size _ (Tb T HT))).
  split; [| split].
  - intros T i HT Hi Hne. apply ld_huft_frame. intros x Hx. pose proof (Hsz T HT). pose proof (Hsz T0 HT0). pose proof (Pl T HT). pose proof (Pl Th Hh).
    pose proof (slots_apart T T0 i i0 (Tb T HT) (Tb T0 HT0) (bu_apart _ _ _ _ _ _ B T T0 HT HT0) ltac:(lia) ltac:(lia) Hne) as Hs.
    apply linked_frame; [| lia | lia]. rewrite Et. destruct (bu_apart _ _ _ _ _ _ B T Th HT Hh) as [-> | [Ha | Ha]]; unfold apart in *; [lia.. |].
    pose proof (Hsz Th Hh). pose proof (Z.pow_nonneg 2 (tb_width Th) ltac:(lia)). lia.
  - apply ld_st_huft, Hr.
  - intros a Ha. pose proof (Pl Th Hh). pose proof (Pl T0 HT0). pose proof (Hsz T0 HT0). pose proof (Hsz Th Hh). pose proof (Z.pow_nonneg 2 (tb_width Th) ltac:(lia)).
    unfold m. rewrite linked_frame by lia. apply (bu_frame _ _ _ _ _ _ B). lia.
Qed.

(** A table below another one. *)
Lemma new_sub P k a tabs chain0 T0 b : built P k tabs (chain0 ++ [T0]) b -> starts P (before_table b + l) k a ->
  k - (before_table b + l) < l -> sub_room <= hp_top (heap_of b) ->
  exists T b', new_table l g c k a b = Some b' /\ built P k (T :: tabs) ((chain0 ++ [T0]) ++ [T]) b' /\
    hp_top (heap_of b) - sub_room <= hp_top (heap_of b') /\ next_value b' = next_value b.
Proof.
  intros B S Hl Hroom. destruct (new_sub_eval P k a tabs chain0 T0 b B S Hl Hroom) as (t & n & Lk & Hsr & Hj & Hh & E). rewrite E. clear E.
  destruct (new_bits_sub P _ k a S Hl) as [J1 J2]. set (w := before_table b + l) in *. set (h := level b + 1) in *. set (j := new_bits w k a) in *.
  set (q := hp_top (heap_of b) - 8 * 2 ^ j) in *.
  assert ((chain0 ++ [T0]) !! length chain0 = Some T0) as Hlast by (by rewrite lookup_app_r, Nat.sub_diag by lia).
  destruct (bu_chain _ _ _ _ _ _ B _ _ Hlast) as (C1 & C2 & C3 & C4 & C5). specialize (C5 (proj2 (st_pos _ _ _ _ S))).
  pose proof (bu_tabs _ _ _ _ _ _ B T0 C1) as D.
  pose proof (bu_level _ _ _ _ _ _ B) as Lv. rewrite length_app in Lv. cbn [length] in Lv. replace (Z.of_nat (length chain0 + 1) - 1) with (tb_level T0) in Lv by lia.
  pose proof (bu_before _ _ _ _ _ _ B) as Bf. rewrite Lv in Bf.
  assert (w = before T0 + l) as Ew by (unfold w; lia). pose proof S as S'. rewrite Ew in S'.
  destruct (parent_slot P k a T0 D C5 S') as (W & I & X & F). set (i0 := rev g P / 2 ^ before T0) in *. rewrite <- W in I.
  destruct (bu_heap _ _ _ _ _ _ B) as (H1 & [p Hp] & H2). assert (0 < 2 ^ j) as Hpj by (apply Z.pow_pos_nonneg; lia).
  destruct (linked_entry P k tabs (chain0 ++ [T0]) b t q j T0 i0 (Huft (16 + j) l q) B Lk ltac:(lia) eq_refl C1 I) as (M1 & M2 & M3); [cbn; unfold q; lia |].
  set (m := linked _ _ _ _ _) in *. set (T := Tbl q j h P (2 ^ j)).
  assert (before T = w) as EB by (cbn; unfold w, h; lia). pose proof S as [S1 S2 S3 S4 S5].
  exists T. eexists. split; [reflexivity |]. cbn [heap_of hp_top next_value]. split; [| unfold q; lia].
  destruct (bu_lengths _ _ _ _ _ _ B) as (L1 & L2 & L3).
  assert (forall h' T', (chain0 ++ [T0]) !! h' = Some T' -> (h' < Z.to_nat h)%nat) as Hlow.
  { intros h' T' Hc. apply lookup_lt_Some in Hc. rewrite length_app in Hc. cbn in Hc. unfold h. lia. }
  assert (length (chain0 ++ [T0]) = Z.to_nat h) as Hlen by (rewrite length_app; cbn; unfold h; lia).
  constructor; cbn [code level before_table heap_of stack patterns table entries link hp_mem hp_top hp_root].
  - apply (bu_code _ _ _ _ _ _ B).
  - lia.
  - rewrite length_app, Hlen. cbn. lia.
  - unfold w, h. lia.
  - intros Hg. apply (mod_divide_floor _ _ (g - w)); [lia | done].
  - intros T' [-> | HT'] %elem_of_cons; [| by apply (bu_tabs _ _ _ _ _ _ B)].
    destruct (starts_room P w k a S) as (_ & R & _). destruct (starts_filled P w k a S) as [R2 _]. pose proof (filled_mono w (k - 1) ltac:(lia)).
    constructor; rewrite ?EB; cbn [tb_level tb_width tb_start tb_size T]; [lia | lia | split_and!; [done | lia | done] | exact J2 | lia | lia].
  - intros T' i [-> | HT'] %elem_of_cons Hi Hs.
    + exfalso. unfold slot_pos in Hs. rewrite EB in Hs. cbn [tb_start tb_width T] in Hs. pose proof (rev_range j i ltac:(lia)).
      pose proof (Z.pow_nonneg 2 (g - w - j) ltac:(lia)). nia.
    + apply (slot_frame (hp_mem (heap_of b)) _ tabs); [intros; by right | | by apply (bu_slots _ _ _ _ _ _ B)].
      apply M1; try done. intros [= -> ->]. lia.
  - intros T' [-> | HT'] %elem_of_cons.
    + left. apply elem_of_app. right. by left.
    + destruct (bu_done _ _ _ _ _ _ B T' HT') as [H | H]; [left; apply elem_of_app; by left | by right].
  - intros h' T' Hc. apply chain_snoc in Hc as [[Hc Hl'] | [-> ->]].
    + destruct (bu_chain _ _ _ _ _ _ B _ _ Hc) as (K1 & K2 & K3 & K4 & K5). rewrite Hlen in Hl'.
      split; [by right |]. split; [done |]. rewrite !list_lookup_insert_ne by lia. done.
    + rewrite Hlen. split; [by left |]. split; [cbn; lia |]. rewrite !list_lookup_insert_eq by lia. split; [done |]. rewrite EB. cbn [tb_start T].
      split; [| intros _; unfold in_block; rewrite EB; cbn [tb_start T]; pose proof (Z.pow_pos_nonneg 2 (g - w) ltac:(lia) ltac:(lia)); lia].
      f_equal. rewrite (bu_code _ _ _ _ _ _ B). destruct S4 as [Q ->]. rewrite Z.div_mul by (pose proof (Z.pow_pos_nonneg 2 (g - w) ltac:(lia) ltac:(lia)); lia).
      rewrite rev_mul by lia. f_equal. lia.
  - intros h' T1 T2 Hc1 Hc2. apply chain_snoc in Hc2 as [[Hc2 Hl2] | [E2 ->]].
    + assert ((chain0 ++ [T0]) !! h' = Some T1) as Hc1' by (by rewrite lookup_app_l in Hc1 by lia).
      destruct (bu_links _ _ _ _ _ _ B _ _ _ Hc1' Hc2) as (i & Hi & (K1 & K2 & K3) & K4). exists i. split; [done |]. split; [| done].
      split; [done |]. split; [done |]. rewrite M1; [done | apply (bu_chain _ _ _ _ _ _ B _ _ Hc1') | done |]. intros [= -> ->].
      destruct (bu_chain _ _ _ _ _ _ B _ _ Hc1') as (_ & Q & _). rewrite length_app in Hl2. cbn in Hl2. lia.
    + assert (h' = length chain0) as -> by (rewrite length_app in E2; cbn in E2; lia). rewrite lookup_app_l in Hc1 by (rewrite length_app; cbn; lia).
      rewrite Hlast in Hc1. injection Hc1 as <-. exists i0. split; [done |]. split; [| cbn [tb_start T]; done].
      split; [cbn; unfold h; lia |]. split; [cbn [tb_start T]; done | exact M2].
  - intros T' Hc _. rewrite length_app in Hc. cbn in Hc. replace (length (chain0 ++ [T0]) + 1 - 1)%nat with (length (chain0 ++ [T0])) in Hc by lia.
    rewrite lookup_app_r, Nat.sub_diag in Hc by lia. injection Hc as <-. done.
  - done.
  - intros T' [-> | HT'] %elem_of_cons H0; [cbn in H0; pose proof (to_level _ D); unfold h in H0; lia | by apply (bu_root _ _ _ _ _ _ B)].
  - intros H. by destruct chain0.
  - intros T' [-> | HT'] %elem_of_cons; [cbn [tb_base tb_size T]; unfold q; lia |]. pose proof (bu_places _ _ _ _ _ _ B T' HT'). unfold q. lia.
  - intros T1 T2 [-> | K1] %elem_of_cons [-> | K2] %elem_of_cons; [by left | | | by apply (bu_apart _ _ _ _ _ _ B)];
      right; [left | right]; unfold apart; cbn [tb_base tb_size T]; [pose proof (bu_places _ _ _ _ _ _ B T2 K2) | pose proof (bu_places _ _ _ _ _ _ B T1 K1)]; unfold q; lia.
  - unfold q. split; [unfold sub_room in *; lia |]. split; [| lia]. exists (p - 2 * 2 ^ j - 2). lia.
  - exact M3.
  - rewrite !length_insert. split; [done |]. split; [done |]. rewrite list_lookup_insert_ne by lia. done.
Qed.

(** *** Placing a code *)

(** Where the position is inside its table, or has just left it. *)
Definition near (T : tbl) (P : Z) : Prop := tb_start T < P <= tb_start T + 2 ^ (g - before T).

(** The position is in a block if and only if its first bits are the block's. *)
Lemma same_prefix T P : table_ok T -> near T P -> P < 2 ^ g ->
  rev (before T) (P / 2 ^ (g - before T)) = rev (before T) (tb_start T / 2 ^ (g - before T)) <-> P < tb_start T + 2 ^ (g - before T).
Proof.
  intros [T1 [T2 T3] [[S HS] [T4 T4']] _ _ _] [N1 N2] HP. set (w := before T) in *. assert (0 <= w <= g) by nia.
  assert (0 < 2 ^ (g - w)) as Hp by (apply Z.pow_pos_nonneg; lia). rewrite HS in *. rewrite Z.div_mul by lia.
  pose proof (Z.div_mod P (2 ^ (g - w)) ltac:(lia)) as Hd. pose proof (Z.mod_pos_bound P (2 ^ (g - w)) Hp) as Hm.
  rewrite (pow_split (g - w) g) in HP, T4' by lia. replace (g - (g - w)) with w in * by lia.
  split.
  - intros E. apply rev_inj in E; [| lia | split; [apply Z.div_pos; lia | apply Z.div_lt_upper_bound; lia] | nia]. rewrite E in Hd. lia.
  - intros H1. f_equal. symmetry. apply (Z.div_unique _ _ _ (P - S * 2 ^ (g - w))); lia.
Qed.

(** Being in the block of a table is being in those of the tables above it. *)
Lemma in_blocks P k tabs chain T b : building near P k tabs (chain ++ [T]) b -> P < 2 ^ g -> P < tb_start T + 2 ^ (g - before T) ->
  built P k tabs (chain ++ [T]) b.
Proof.
  intros B HP HT. assert ((chain ++ [T]) !! length chain = Some T) as Hlast by (by rewrite lookup_app_r, Nat.sub_diag by lia).
  destruct (bu_chain _ _ _ _ _ _ B _ _ Hlast) as (C1 & C2 & _ & _ & [N1 N2]).
  pose proof (bu_tabs _ _ _ _ _ _ B T C1) as [T1 [T2 T3] [[S HS] T4] _ _ _].
  destruct B. constructor; try done. intros h T' H. destruct (bu_chain0 h T' H) as (K1 & K2 & K3 & K4 & [M1 M2]). split_and!; try done.
  intros _. split; [lia |]. destruct (Z.eq_dec P (tb_start T' + 2 ^ (g - before T'))) as [E |]; [| lia].
  exfalso. assert ((2 ^ (g - before T) | P)) as [q Hq].
  { destruct (bu_tabs0 T' K1) as [U1 _ [U2 _] _ _ _]. apply (mod_divide_floor _ _ (g - before T')).
    - rewrite K2, C2. apply lookup_lt_Some in H. rewrite length_app in H. cbn in H. nia.
    - rewrite E. apply Z.divide_add_r; [done | apply Z.divide_refl]. }
  assert (0 < 2 ^ (g - before T)) as Hp by (apply Z.pow_pos_nonneg; lia). set (u := 2 ^ (g - before T)) in *.
  assert (S < q) by (apply (Z.mul_lt_mono_pos_r u); lia). assert (q < S + 1) by (apply (Z.mul_lt_mono_pos_r u); lia). lia.
Qed.

Lemma pop_table P k tabs chain T b : building near P k tabs (chain ++ [T]) b -> chain <> [] -> before T < k ->
  tb_start T + 2 ^ (g - before T) = P ->
  building near P k tabs chain (Build (heap_of b) (link b) (level b - 1) (before_table b - l) (code b) (next_value b) (table b) (entries b) (stack b) (patterns b)).
Proof.
  intros B Hne Hk HP. assert ((chain ++ [T]) !! length chain = Some T) as Hlast by (by rewrite lookup_app_r, Nat.sub_diag by lia).
  destruct (bu_chain _ _ _ _ _ _ B _ _ Hlast) as (C1 & C2 & _). pose proof (bu_tabs _ _ _ _ _ _ B T C1) as D.
  pose proof (bu_level _ _ _ _ _ _ B) as Lv. rewrite length_app in Lv. cbn [length] in Lv. pose proof (bu_before _ _ _ _ _ _ B) as Bf.
  assert (forall h T', chain !! h = Some T' -> (chain ++ [T]) !! h = Some T') as Hc by (intros; by apply lookup_app_l_Some).
  destruct B. constructor; cbn [code level before_table heap_of stack patterns table entries link]; try done.
  - lia.
  - rewrite Bf. lia.
  - intros _. replace (before_table b - l + l) with (before T) by (rewrite Bf, Lv, C2; lia). rewrite <- HP.
    apply Z.divide_add_r; [apply (to_start _ D) | apply Z.divide_refl].
  - intros T' HT'. destruct (bu_done0 T' HT') as [H |]; [| by right]. apply elem_of_app in H as [H | H]; [by left |].
    apply list_elem_of_singleton in H as ->. right. lia.
  - intros h T' H. by apply bu_chain0, Hc.
  - intros h T1 T2 H1 H2. apply (bu_links0 h); by apply Hc.
  - intros T' H Hle. exfalso. destruct (bu_chain0 _ _ (Hc _ _ H)) as (_ & K & _). apply lookup_lt_Some in H. rewrite K in Hle. rewrite C2 in Hk. nia.
Qed.

Lemma backup_eval P k tabs chain T b f : building near P k tabs (chain ++ [T]) b ->
  backup l f b =
    if rev (before T) (P / 2 ^ (g - before T)) =? rev (before T) (tb_start T / 2 ^ (g - before T)) then Some b
    else match f with
         | O => None
         | S f => backup l f (Build (heap_of b) (link b) (level b - 1) (before_table b - l) (code b) (next_value b) (table b) (entries b) (stack b) (patterns b))
         end.
Proof.
  intros B. assert ((chain ++ [T]) !! length chain = Some T) as Hlast by (by rewrite lookup_app_r, Nat.sub_diag by lia).
  destruct (bu_chain _ _ _ _ _ _ B _ _ Hlast) as (C1 & C2 & C3 & C4 & C5). pose proof (bu_tabs _ _ _ _ _ _ B T C1) as D.
  pose proof (bu_level _ _ _ _ _ _ B) as Lv. rewrite length_app in Lv. cbn [length] in Lv. pose proof (bu_before _ _ _ _ _ _ B) as Bf.
  assert (before_table b = before T) as Eb by (rewrite Bf, Lv, C2; f_equal; lia). destruct (to_width _ D) as [W1 W2].
  assert (0 <= before T) as Hw by (pose proof (to_level _ D); nia). pose proof (lookup_lt_Some _ _ _ C4).
  assert (get (patterns b) (level b) = Some (rev (before T) (tb_start T / 2 ^ (g - before T)))) as Eg.
  { rewrite get_nth by lia. replace (Z.to_nat (level b)) with (length chain) by lia. by rewrite (nth_lookup_Some _ _ _ _ C4). }
  assert (code b .& ((1 .<< before_table b) - 1) = rev (before T) (P / 2 ^ (g - before T))) as Ec.
  { rewrite shiftl_mul, Z.mul_1_l by lia. replace (2 ^ before_table b - 1) with (Z.ones (before T)) by (rewrite Z.ones_equiv, Eb; lia).
    by rewrite land_low, (bu_code _ _ _ _ _ _ B), rev_low by lia. }
  destruct f; cbn [backup]; by rewrite Eg, <- Ec.
Qed.

Lemma backup_ok P k tabs : forall f chain b, building near P k tabs chain b -> chain <> [] -> (length chain <= S f)%nat ->
  (forall T, T ∈ chain -> before T < k) ->
  exists chain' b', backup l f b = Some b' /\ built P k tabs chain' b' /\ chain' <> [] /\ heap_of b' = heap_of b /\ next_value b' = next_value b.
Proof.
  induction f as [f IH] using lt_wf_ind. intros chain b B Hne Hf Hlong. destruct (exists_last Hne) as (chain0 & T & ->).
  rewrite (backup_eval P k tabs chain0 T b f B). rewrite length_app in Hf. cbn [length] in Hf.
  assert ((chain0 ++ [T]) !! length chain0 = Some T) as Hlast by (by rewrite lookup_app_r, Nat.sub_diag by lia).
  destruct (bu_chain _ _ _ _ _ _ B _ _ Hlast) as (C1 & C2 & _ & _ & C5). pose proof (bu_tabs _ _ _ _ _ _ B T C1) as D. pose proof (bu_pos _ _ _ _ _ _ B) as HP.
  destruct (to_start _ D) as (_ & D4 & D5).
  destruct (Z.eqb_spec (rev (before T) (P / 2 ^ (g - before T))) (rev (before T) (tb_start T / 2 ^ (g - before T)))) as [E | E].
  - exists (chain0 ++ [T]), b. split_and!; try done. destruct (Z.eq_dec P (2 ^ g)) as [-> |].
    + destruct B. constructor; try done. intros h T' H. destruct (bu_chain0 h T' H) as (K1 & K2 & K3 & K4 & _). split_and!; try done. lia.
    + assert (P < 2 ^ g) as HP2 by lia. apply in_blocks; [done | done |]. by apply (same_prefix T P D C5 HP2).
  - assert (tb_start T + 2 ^ (g - before T) = P) as HE.
    { destruct C5 as [N1 N2]. destruct (Z.eq_dec P (tb_start T + 2 ^ (g - before T))) as [|Hn]; [done |]. exfalso. apply E.
      apply (same_prefix T P D (conj N1 N2)); lia. }
    assert (chain0 <> []) as Hne0.
    { intros ->. apply E. rewrite C2. cbn [length]. rewrite Z.mul_0_r. reflexivity. }
    destruct f as [|f]; [destruct chain0; [done | cbn in Hf; lia] |].
    destruct (IH f ltac:(lia) chain0 _ (pop_table P k tabs chain0 T b B Hne0 ltac:(apply Hlong, elem_of_app; right; by left) HE) Hne0 ltac:(lia))
      as (chain' & b' & E' & B' & N' & Hh & Hv); [intros T' HT'; apply Hlong, elem_of_app; by left |].
    exists chain', b'. by split_and!.
Qed.

Lemma slot_div T i n : table_ok T -> 0 <= n <= tb_width T ->
  slot_pos T i / 2 ^ (g - before T - n) = tb_start T / 2 ^ (g - before T - n) + rev n i.
Proof.
  intros [T1 [T2 T3] [[S HS] T4] _ _ _] Hn. set (w := before T) in *. set (j := tb_width T) in *. assert (0 <= w) by nia.
  assert (forall p, 0 <= p -> 0 < 2 ^ p) as Hp by (intros; apply Z.pow_pos_nonneg; lia).
  unfold slot_pos. fold w j. rewrite HS, (pow_split (g - w - n) (g - w)) by lia. replace (g - w - (g - w - n)) with n by lia.
  rewrite Z.mul_assoc, Z.div_add_l, Z.div_mul by (pose proof (Hp (g - w - n)); lia). f_equal.
  rewrite (pow_split (g - w - j) (g - w - n)), Z.div_mul_cancel_r by (pose proof (Hp (g - w - j)); pose proof (Hp (g - w - n - (g - w - j))); lia).
  replace (g - w - n - (g - w - j)) with (j - n) by lia. rewrite rev_high by lia. f_equal. lia.
Qed.

Lemma slot_inj T i i' : table_ok T -> 0 <= i < 2 ^ tb_width T -> 0 <= i' < 2 ^ tb_width T -> slot_pos T i = slot_pos T i' -> i = i'.
Proof.
  intros D Hi Hi' E. pose proof (to_width _ D) as [W1 W2]. pose proof (slot_div T i (tb_width T) D ltac:(lia)) as E1.
  rewrite E, (slot_div T i' (tb_width T) D) in E1 by lia. apply (rev_inj (tb_width T)); lia.
Qed.

Lemma slot_range T i : table_ok T -> tb_start T <= slot_pos T i < tb_start T + 2 ^ (g - before T).
Proof.
  intros [T1 [T2 T3] [[S HS] T4] _ _ _]. unfold slot_pos. pose proof (rev_range (tb_width T) i ltac:(lia)).
  rewrite (pow_split (g - before T - tb_width T) (g - before T)) by lia. replace (g - before T - (g - before T - tb_width T)) with (tb_width T) by lia.
  assert (0 < 2 ^ (g - before T - tb_width T)) by (apply Z.pow_pos_nonneg; lia). nia.
Qed.

(** A code of [k] bits is placed at [P]. *)
Record places (P k a : Z) : Prop := {
  pl_len : 1 <= k <= g;
  pl_count : 0 <= a < at_len c k;
  pl_filled : filled k = P + (a + 1) * 2 ^ (g - k);
  pl_align : (2 ^ (g - k) | P);
  pl_pos : 0 <= P < 2 ^ g }.

(** The symbols whose codes are at a position of this code. *)
Lemma placed_symbol P k a X sym k' : places P k a -> P <= X < P + 2 ^ (g - k) -> lens !! sym = Some k' -> 0 < k' ->
  pos sym k' <= X < pos sym k' + 2 ^ (g - k') -> k' = k /\ pos sym k = P.
Proof.
  intros [P1 P2 P3 P4 P5] HX Hs Hk' Hp. pose proof (pos_range sym k' Hs Hk') as [R1 R2].
  pose proof (filled_step k ltac:(lia)) as Fs. assert (0 < 2 ^ (g - k)) as Hpk by (apply Z.pow_pos_nonneg; lia).
  assert (k' = k) as ->.
  { destruct (Z.lt_trichotomy k' k) as [H | [H | H]]; [| done |].
    - pose proof (filled_mono k' (k - 1) ltac:(lia)). nia.
    - pose proof (filled_mono k (k' - 1) ltac:(lia)). nia. }
  split; [done |]. apply Z.le_antisymm.
  - apply (below_aligned _ _ (2 ^ (g - k))); [by eexists | done | done | lia].
  - apply (below_aligned _ _ (2 ^ (g - k))); [done | by eexists | done | lia].
Qed.

(** The entries that [fill] writes are those at the positions of the code. *)
Lemma filled_slot P k T i : table_ok T -> in_block T P -> before T < k <= g -> k - before T <= tb_width T -> (2 ^ (g - k) | P) ->
  let i0 := rev g P / 2 ^ before T in
  0 <= i0 < 2 ^ (k - before T) /\ (P <= slot_pos T i < P + 2 ^ (g - k) <-> i mod 2 ^ (k - before T) = i0).
Proof.
  intros D [B1 B2] Hk Hw [Q HQ] i0. pose proof D as [T1 [T2 T3] [[S HS] T4] _ _ _]. set (w := before T) in *. assert (0 <= w) by nia.
  assert (0 < 2 ^ (g - k)) as Hp by (apply Z.pow_pos_nonneg; lia). assert (0 < 2 ^ (k - w)) as Hp2 by (apply Z.pow_pos_nonneg; lia).
  assert (i0 = rev (k - w) Q) as E.
  { unfold i0. rewrite HQ, rev_mul, rev_high by lia. f_equal. lia. }
  split; [rewrite E; apply rev_range; lia |].
  pose proof (slot_div T i (k - w) D ltac:(fold w; lia)) as Ed. fold w in Ed. replace (g - w - (k - w)) with (g - k) in Ed by lia.
  rewrite HS, (pow_split (g - k) (g - w)) in B1, B2, Ed by lia. replace (g - w - (g - k)) with (k - w) in * by lia.
  rewrite Z.mul_assoc, Z.div_mul in Ed by lia.
  assert (rev (k - w) i0 = Q - S * 2 ^ (k - w)) as Ei.
  { rewrite E, rev_rev by lia. symmetry. apply (Z.mod_unique _ _ S); [left | lia].
    assert (S * 2 ^ (k - w) <= Q) by (apply (Z.mul_le_mono_pos_r _ _ (2 ^ (g - k))); lia).
    assert (Q < S * 2 ^ (k - w) + 2 ^ (k - w)) by (apply (Z.mul_lt_mono_pos_r (2 ^ (g - k))); lia). lia. }
  assert (P <= slot_pos T i < P + 2 ^ (g - k) <-> slot_pos T i / 2 ^ (g - k) = Q) as ->.
  { rewrite HQ. split; [intros Hx; symmetry; apply (Z.div_unique _ _ _ (slot_pos T i - Q * 2 ^ (g - k))); lia |].
    intros Hd. pose proof (Z.div_mod (slot_pos T i) (2 ^ (g - k)) ltac:(lia)). pose proof (Z.mod_pos_bound (slot_pos T i) _ Hp). rewrite Hd in *. lia. }
  rewrite Ed. split.
  - intros Hm. apply (rev_inj (k - w)); [lia | apply Z.mod_pos_bound; lia | rewrite E; apply rev_range; lia |]. rewrite rev_mod by lia. lia.
  - intros Hm. apply (f_equal (rev (k - w))) in Hm. rewrite rev_mod in Hm by lia. lia.
Qed.

(** Filling the entries of a code changes nothing else. *)
Lemma fill_entries P k tabs chain T b r : built P k tabs chain b -> T ∈ tabs -> in_block T P -> before T < k <= g -> k - before T <= tb_width T ->
  (2 ^ (g - k) | P) -> 0 <= h_v r < 4294967296 ->
  let m := fill (Z.to_nat (tb_size T)) (code b .>> before T) (1 .<< (k - before T)) (tb_size T) (tb_base T) r (hp_mem (heap_of b)) in
  (forall i, 0 <= i < 2 ^ tb_width T -> P <= slot_pos T i < P + 2 ^ (g - k) -> ld_huft m (tb_base T + 8 * i) = r) /\
  (forall T' i, T' ∈ tabs -> 0 <= i < 2 ^ tb_width T' -> T' <> T \/ ~ (P <= slot_pos T i < P + 2 ^ (g - k)) ->
     ld_huft m (tb_base T' + 8 * i) = ld_huft (hp_mem (heap_of b)) (tb_base T' + 8 * i)) /\
  forall a, ~ (hp_top (heap_of b) <= a < top0) -> ld m a = ld m0 a.
Proof.
  intros B HT HB Hk Hw HP Hr m. pose proof (bu_tabs _ _ _ _ _ _ B T HT) as D. pose proof (to_level _ D) as D1. pose proof (to_size _ D) as Dz.
  destruct (filled_slot P k T 0 D HB Hk Hw HP) as [I0 _]. set (i0 := rev g P / 2 ^ before T) in *. assert (0 <= before T) as Hb0 by nia.
  set (f := 2 ^ (k - before T)) in *. assert (0 < f) as Hf by (apply Z.pow_pos_nonneg; lia).
  destruct (fill_ok (tb_base T) r (tb_size T) f Hf Hr (Z.to_nat (tb_size T)) i0 (hp_mem (heap_of b)) ltac:(lia)) as [F1 F2].
  assert (m = fill (Z.to_nat (tb_size T)) i0 f (tb_size T) (tb_base T) r (hp_mem (heap_of b))) as Em.
  { unfold m, i0, f. rewrite shiftr_div, shiftl_mul, Z.mul_1_l, (bu_code _ _ _ _ _ _ B) by lia. done. }
  rewrite <- Em in F1, F2. clearbody m.
  assert (forall n, 0 <= n -> (i0 + n * f) mod f = i0) as Hm by (intros n Hn; rewrite Z.mod_add, Z.mod_small by lia; done).
  split; [| split].
  - intros i Hi HX. apply (filled_slot P k T i D HB Hk Hw HP) in HX. fold i0 f in HX. pose proof (Z.div_mod i f ltac:(lia)) as Hd. rewrite HX in Hd.
    pose proof (F1 (i / f) ltac:(apply Z.div_pos; lia)) as E. replace (i0 + i / f * f) with i in E by lia. apply E. lia.
  - intros T' i HT' Hi Hne. apply ld_huft_frame. intros x Hx. apply F2. intros n Hn Hl.
    pose proof (bu_tabs _ _ _ _ _ _ B T' HT') as D'. pose proof (to_size _ D').
    pose proof (slots_apart T' T i (i0 + n * f) D' D (bu_apart _ _ _ _ _ _ B T' T HT' HT) ltac:(lia) ltac:(nia)) as Hs.
    assert ((T', i) <> (T, i0 + n * f)) as Hne2; [| specialize (Hs Hne2); lia].
    intros [= -> ->]. destruct Hne as [Hne | Hne]; [done |]. apply Hne. apply (filled_slot P k T _ D HB Hk Hw HP). fold i0 f. by apply Hm.
  - intros a Ha. rewrite F2; [by apply (bu_frame _ _ _ _ _ _ B) |]. intros n Hn Hl Hin. apply Ha. pose proof (bu_places _ _ _ _ _ _ B T HT). nia.
Qed.

(** The tables on the way to the position index all their bits, but the last. *)
Lemma way_width P k tabs chain b h T T' : built P k tabs chain b -> chain !! h = Some T -> chain !! S h = Some T' -> tb_width T = l.
Proof.
  intros B H H'. destruct (bu_links _ _ _ _ _ _ B h T T' H H') as (i & Hi & (L1 & L2 & L3) & L4).
  destruct (bu_chain _ _ _ _ _ _ B h T H) as (C1 & _). pose proof (bu_tabs _ _ _ _ _ _ B T C1) as D.
  destruct (to_fits _ D) as [F |]; [| done]. exfalso. pose proof (slot_range T i D). pose proof (to_width _ D).
  pose proof (filled_mono (before T + tb_width T) (before T + l) ltac:(lia)). lia.
Qed.

(** The entries before the next position are right. *)
Lemma placed_slots P k a tabs chain T b r m : built P k tabs (chain ++ [T]) b -> places P k a -> before T < k -> k <= before T + l ->
  (forall sym, lens !! sym = Some k -> pos sym k = P -> r = entry sym (k - before T)) -> in_block T P ->
  (forall i, 0 <= i < 2 ^ tb_width T -> P <= slot_pos T i < P + 2 ^ (g - k) -> ld_huft m (tb_base T + 8 * i) = r) ->
  (forall T' i, T' ∈ tabs -> 0 <= i < 2 ^ tb_width T' -> T' <> T \/ ~ (P <= slot_pos T i < P + 2 ^ (g - k)) ->
     ld_huft m (tb_base T' + 8 * i) = ld_huft (hp_mem (heap_of b)) (tb_base T' + 8 * i)) ->
  forall T' i, T' ∈ tabs -> 0 <= i < 2 ^ tb_width T' -> slot_pos T' i < P + 2 ^ (g - k) -> slot_ok m tabs T' i.
Proof.
  intros B S Hk1 Hk2 Hsym C5 M1 M2 T' i HT' Hi Hs. pose proof S as [S1 S2 S3 S4 S5]. pose proof (filled_step k S1) as Fs.
  assert (0 < 2 ^ (g - k)) as Hpk by (apply Z.pow_pos_nonneg; lia).
  destruct (Z.lt_ge_cases (slot_pos T' i) P) as [HX | HX].
  { apply (slot_frame (hp_mem (heap_of b)) _ tabs); [done | | by apply (bu_slots _ _ _ _ _ _ B)].
    apply M2; try done. destruct (decide (T' = T)) as [-> |]; [right; lia | by left]. }
  pose proof (bu_tabs _ _ _ _ _ _ B T' HT') as D'. pose proof (slot_range T' i D') as HR.
  destruct (decide (T' = T)) as [-> | Hne].
  - unfold slot_ok. pose proof (filled_mono k (before T + l) ltac:(lia)). rewrite (proj2 (Z.leb_gt _ _)) by nia.
    intros sym k' Hs1 Hk' Hp. destruct (placed_symbol P k a (slot_pos T i) sym k' S ltac:(lia) Hs1 Hk' Hp) as [-> Hpos].
    rewrite M1 by (done || lia). by apply Hsym.
  - destruct (bu_done _ _ _ _ _ _ B T' HT') as [Hc | Hc]; [| lia]. apply list_elem_of_lookup in Hc as [h Hc].
    destruct (bu_chain _ _ _ _ _ _ B _ _ Hc) as (_ & K2 & _). pose proof Hc as Hc0. apply chain_snoc in Hc as [[Hc Hh] | [_ ->]]; [| done].
    destruct (lookup_lt_is_Some_2 (chain ++ [T]) (Datatypes.S h)) as [T2 Hc2]; [rewrite length_app; cbn; lia |].
    pose proof (way_width P k tabs _ b h T' T2 B Hc0 Hc2) as HW.
    destruct (bu_links _ _ _ _ _ _ B h T' T2 Hc0 Hc2) as (i' & Hi' & (L1 & L2 & L3) & L4).
    destruct (bu_chain _ _ _ _ _ _ B _ _ Hc2) as (HT2 & K2' & _ & _ & IB). specialize (IB (proj2 S5)). destruct IB as [B1 B2].
    assert (before T2 = before T' + l) as E2 by (rewrite L1; lia).
    assert (before T2 <= before T) as Hle.
    { assert ((chain ++ [T]) !! length chain = Some T) as Hlast by (by rewrite lookup_app_r, Nat.sub_diag by lia).
      destruct (bu_chain _ _ _ _ _ _ B _ _ Hlast) as (_ & KT & _). rewrite KT, K2'. nia. }
    pose proof (to_width _ D') as [W1 W2]. pose proof (to_level _ D') as W0.
    assert (forall j, (2 ^ (g - before T2) | slot_pos T' j)) as Hal.
    { intros j. unfold slot_pos. rewrite HW, E2. replace (g - before T' - l) with (g - (before T' + l)) by lia.
      apply Z.divide_add_r; [| by eexists]. apply (mod_divide_floor _ _ (g - before T')); [nia | apply (to_start _ D')]. }
    assert (i = i') as ->.
    { apply (slot_inj T'); try done. rewrite <- L2. apply Z.le_antisymm.
      - apply (below_aligned _ _ (2 ^ (g - before T2))); [apply Hal | rewrite L2; apply Hal | apply Z.pow_pos_nonneg; lia |].
        assert ((2 ^ (g - k) | tb_start T2 + 2 ^ (g - before T2))) as Hend.
        { apply (mod_divide_floor _ _ (g - before T2)); [nia |]. apply Z.divide_add_r; [rewrite L2; apply Hal | apply Z.divide_refl]. }
        pose proof (aligned_step _ _ _ S4 Hend Hpk B2). lia.
      - lia. }
    unfold slot_ok. rewrite (proj2 (Z.leb_le _ _)) by lia. exists T2. split; [done |]. split; [done |]. split; [done |]. rewrite M2; [done | done | done | by left].
Qed.

Lemma place_entry P k a tabs chain T b r p' : built P k tabs (chain ++ [T]) b -> places P k a -> before T < k -> k <= before T + l ->
  0 <= h_v r < 4294967296 -> (forall sym, lens !! sym = Some k -> pos sym k = P -> r = entry sym (k - before T)) ->
  let hp := heap_of b in
  let m := fill (Z.to_nat (entries b)) (code b .>> before_table b) (1 .<< (k - before_table b)) (entries b) (table b) r (hp_mem hp) in
  building near (P + 2 ^ (g - k)) k tabs (chain ++ [T])
    (Build (Heap m (hp_top hp) (hp_hufts hp) (hp_root hp)) (link b) (level b) (before_table b) (rev g (P + 2 ^ (g - k))) p' (table b) (entries b)
       (stack b) (patterns b)).
Proof.
  intros B S Hk1 Hk2 Hr Hsym hp. pose proof S as [S1 S2 S3 S4 S5].
  assert ((chain ++ [T]) !! length chain = Some T) as Hlast by (by rewrite lookup_app_r, Nat.sub_diag by lia).
  destruct (bu_chain _ _ _ _ _ _ B _ _ Hlast) as (C1 & C2 & C3 & C4 & C5). specialize (C5 (proj2 S5)).
  pose proof (bu_tabs _ _ _ _ _ _ B T C1) as D. pose proof (filled_step k S1) as Fs. assert (0 < 2 ^ (g - k)) as Hpk by (apply Z.pow_pos_nonneg; lia).
  destruct (bu_top _ _ _ _ _ _ B T) as [-> ->]; [rewrite length_app; cbn; by replace (length chain + 1 - 1)%nat with (length chain) by lia | done |].
  pose proof (bu_level _ _ _ _ _ _ B) as Lv. rewrite length_app in Lv. cbn [length] in Lv. pose proof (bu_before _ _ _ _ _ _ B) as Bf.
  assert (before_table b = before T) as Eb by (rewrite Bf, Lv, C2; f_equal; lia). rewrite Eb.
  assert (k - before T <= tb_width T) as Hw.
  { destruct (to_fits _ D) as [F |]; [| lia]. destruct (Z.lt_ge_cases (before T + tb_width T) k) as [H |]; [| lia].
    pose proof (filled_mono (before T + tb_width T) (k - 1) ltac:(lia)). destruct C5. nia. }
  destruct (fill_entries P k tabs (chain ++ [T]) T b r B C1 C5 ltac:(lia) Hw S4 Hr) as (M1 & M2 & M3). cbn zeta.
  set (m := fill _ _ _ _ _ _ _) in *. clearbody m. set (P' := P + 2 ^ (g - k)) in *.
  assert (P' <= 2 ^ g) as HP' by (apply aligned_step; [done | exists (2 ^ k); rewrite <- Z.pow_add_r by lia; f_equal; lia | done | lia]).
  assert (forall h T', (chain ++ [T]) !! h = Some T' -> (h <= length chain)%nat) as Hlen.
  { intros h T' H. apply lookup_lt_Some in H. rewrite length_app in H. cbn in H. lia. }
  assert (forall h T', (chain ++ [T]) !! h = Some T' -> T' <> T -> (h < length chain)%nat) as Hlow.
  { intros h T' H Hne. pose proof (Hlen h T' H). destruct (Nat.eq_dec h (length chain)) as [-> |]; [| lia]. congruence. }
  constructor; cbn [code level before_table heap_of stack patterns table entries link hp_mem hp_top hp_root]; try done.
  - lia.
  - rewrite length_app. cbn. lia.
  - lia.
  - intros Hg. apply (mod_divide_floor _ _ (g - k)); [lia |]. apply Z.divide_add_r; [done | apply Z.divide_refl].
  - apply B.
  - by eapply placed_slots.
  - intros T' HT'. destruct (bu_done _ _ _ _ _ _ B T' HT') as [H |]; [by left | right; lia].
  - intros h T' H. destruct (bu_chain _ _ _ _ _ _ B _ _ H) as (K1 & K2 & K3 & K4 & K5). specialize (K5 (proj2 S5)). destruct K5 as [I1 I2].
    split_and!; try done. split; [lia |]. pose proof (bu_tabs _ _ _ _ _ _ B T' K1) as D'. pose proof (Hlen h T' H). pose proof (to_level _ D').
    apply aligned_step; [done | | done | done]. apply (mod_divide_floor _ _ (g - before T')); [rewrite K2 in *; rewrite C2 in Hk1; nia |].
    apply Z.divide_add_r; [apply (to_start _ D') | apply Z.divide_refl].
  - intros h T1 T2 H1 H2. destruct (bu_links _ _ _ _ _ _ B h T1 T2 H1 H2) as (i & Hi & (L1 & L2 & L3) & L4). exists i. split; [done |]. split; [| done].
    split; [done |]. split; [done |]. destruct (bu_chain _ _ _ _ _ _ B _ _ H1) as (K1 & K2 & _). rewrite M2; [done | done | done |]. left. intros ->.
    pose proof (Hlen _ _ H2). lia.
  - intros T' H. rewrite length_app in H. cbn in H. replace (length chain + 1 - 1)%nat with (length chain) in H by lia.
    rewrite Hlast in H. injection H as <-. done.
  - apply B.
  - apply (bu_root _ _ _ _ _ _ B).
  - intros H. by destruct chain.
  - apply (bu_places _ _ _ _ _ _ B).
  - apply (bu_apart _ _ _ _ _ _ B).
  - apply (bu_heap _ _ _ _ _ _ B).
  - apply (bu_lengths _ _ _ _ _ _ B).
Qed.

(** *** All the codes *)

Hypothesis few_codes : total < 2 ^ l \/ g < 2 * l.
Variable kmin : Z.
Hypothesis kmin_ok : 1 <= kmin <= l /\ 0 < cnt lens kmin.

(** The room that the tables need: the first, and some for each code. *)
Definition root_room : Z := 8 * (2 ^ (l + 1) + 1).
Definition code_room : Z := sub_room * ((g - 1) / l).

Lemma sub_room_pos : 0 < sub_room.
Proof. unfold sub_room. pose proof (Z.pow_pos_nonneg 2 (Z.min l (g - l)) ltac:(lia) ltac:(lia)). lia. Qed.

Lemma before_range P k tabs chain b : built P k tabs chain b -> 0 <= before_table b + l.
Proof.
  intros B. rewrite (bu_before _ _ _ _ _ _ B), (bu_level _ _ _ _ _ _ B). replace (l * (Z.of_nat (length chain) - 1) + l) with (l * Z.of_nat (length chain)) by lia.
  apply Z.mul_nonneg_nonneg; lia.
Qed.

Lemma starts_here P k a tabs chain b : built P k tabs chain b -> places P k a -> before_table b + l < k -> starts P (before_table b + l) k a.
Proof.
  intros B [P1 P2 P3 P4 P5] H. pose proof (before_range P k tabs chain b B). constructor; try done. apply (bu_next _ _ _ _ _ _ B). lia.
Qed.

Lemma short_block P w k a : starts P w k a -> l <= w -> k - w < l.
Proof.
  intros S Hw. destruct (starts_room P w k a S) as (R1 & R2 & _). destruct S as [S1 S2 S3 S4 S5]. destruct few_codes as [H |]; [| lia].
  pose proof (rest_total k a P ltac:(lia) S2 S3) as Ht. apply (Z.pow_lt_mono_r_iff 2); [lia | lia |].
  assert (0 < 2 ^ (g - k)) by (apply Z.pow_pos_nonneg; lia). assert (2 ^ (k - w) <= total); [| lia].
  apply (Z.mul_le_mono_pos_r _ _ (2 ^ (g - k))); lia.
Qed.

(** The room for the tables down to the last level. *)
Definition grow_room (chain : list tbl) : Z :=
  match chain with [] => root_room + code_room | _ => sub_room * Z.max 0 ((g - 1) / l - (Z.of_nat (length chain) - 1)) end.

Lemma levels_range : 0 <= (g - 1) / l.
Proof. apply Z.div_pos; lia. Qed.

Lemma grow_room_range chain : 0 <= grow_room chain /\ (chain <> [] -> grow_room chain <= code_room).
Proof.
  pose proof sub_room_pos. pose proof levels_range. unfold grow_room, code_room, root_room. pose proof (Z.pow_pos_nonneg 2 (l + 1) ltac:(lia) ltac:(lia)).
  destruct chain as [|T chain]; [split; [nia | done] |]. cbn [length]. nia.
Qed.

Lemma level_bound P k a tabs chain b : built P k tabs chain b -> places P k a -> before_table b + l < k -> level b + 1 <= (g - 1) / l.
Proof.
  intros B S H. apply Z.div_le_lower_bound; [lia |]. destruct S. rewrite (bu_before _ _ _ _ _ _ B) in H. lia.
Qed.

Lemma grow_step P k a tabs chain b : places P k a -> built P k tabs chain b -> (chain = [] -> k <= l) ->
  before_table b + l < k -> grow_room chain <= hp_top (heap_of b) ->
  exists tabs' chain' b', new_table l g c k a b = Some b' /\ built P k tabs' chain' b' /\ chain' <> [] /\ before_table b' = before_table b + l /\
    hp_top (heap_of b) - grow_room chain <= hp_top (heap_of b') - grow_room chain' /\ next_value b' = next_value b.
Proof.
  intros S B Hne Hlt Hroom. pose proof (starts_here P k a tabs chain b B S Hlt) as St. pose proof sub_room_pos as Hs. pose proof levels_range as Hlv.
  pose proof (bu_level _ _ _ _ _ _ B) as Lv. pose proof (bu_before _ _ _ _ _ _ B) as Bf. pose proof (level_bound P k a tabs chain b B S Hlt) as Hl.
  destruct chain as [|T1 chain0].
  - destruct (bu_first _ _ _ _ _ _ B eq_refl) as [-> ->]. cbn [length] in Lv. replace (before_table b + l) with 0 in * by (rewrite Bf, Lv; lia).
    unfold grow_room, code_room, root_room in *. destruct (new_root k a b B St (Hne eq_refl)) as (T & b' & E & B' & H1 & H2); [nia |].
    exists [T], [T], b'. split_and!; try done.
    + rewrite (bu_before _ _ _ _ _ _ B'), (bu_level _ _ _ _ _ _ B'). cbn. lia.
    + cbn [length]. rewrite Z.max_r by (cbn; lia). replace ((g - 1) / l - (Z.of_nat 1 - 1)) with ((g - 1) / l) by lia. lia.
  - destruct (@exists_last _ (T1 :: chain0)) as (chain1 & T & Ec); [done |]. assert (T1 :: chain0 <> []) as Hc by done. rewrite Ec in B, Lv, Hroom, Hc |- *.
    clear Hne Ec T1 chain0. rewrite length_app in Lv. cbn [length] in Lv.
    assert (grow_room (chain1 ++ [T]) = sub_room * ((g - 1) / l - level b)) as Eg.
    { unfold grow_room. destruct (chain1 ++ [T]) eqn:E; [done |]. rewrite <- E, length_app. cbn [length]. rewrite Z.max_r by lia. f_equal. lia. }
    assert (grow_room ((chain1 ++ [T]) ++ [T]) = sub_room * ((g - 1) / l - level b - 1)) as Eg'.
    { unfold grow_room. destruct ((chain1 ++ [T]) ++ [T]) eqn:E; [by destruct chain1 |]. rewrite <- E, !length_app. cbn [length]. rewrite Z.max_r by lia. f_equal. lia. }
    destruct (new_sub P k a tabs chain1 T b B St) as (T' & b' & E & B' & H1 & H2).
    + apply (short_block P _ k a St). rewrite Bf. nia.
    + rewrite Eg in Hroom. nia.
    + exists (T' :: tabs), ((chain1 ++ [T]) ++ [T']), b'. split_and!; try done.
      * by destruct chain1.
      * rewrite (bu_before _ _ _ _ _ _ B'), (bu_level _ _ _ _ _ _ B'), Bf, Lv, !length_app. cbn [length]. lia.
      * assert (grow_room ((chain1 ++ [T]) ++ [T']) = grow_room ((chain1 ++ [T]) ++ [T])) as ->.
        { unfold grow_room. destruct chain1; cbn [app]; [done |]. cbn [length]. by rewrite !length_app. }
        rewrite Eg, Eg'. lia.
Qed.

Lemma grow_ok P k a : places P k a -> forall f tabs chain b, built P k tabs chain b -> (chain = [] -> k <= l) ->
  k - (before_table b + l) <= Z.of_nat f -> grow_room chain <= hp_top (heap_of b) ->
  exists tabs' chain' b', while f (fun b => before_table b + l <? k) (new_table l g c k a) b = Some b' /\ built P k tabs' chain' b' /\ chain' <> [] /\
    k <= before_table b' + l /\ hp_top (heap_of b) - grow_room chain <= hp_top (heap_of b') /\ next_value b' = next_value b.
Proof.
  intros S. induction f as [|f IH]; intros tabs chain b B Hne Hf Hroom; cbn [while]; destruct (Z.ltb_spec (before_table b + l) k) as [Hlt | Hle].
  1: lia.
  1, 3: exists tabs, chain, b; pose proof (grow_room_range chain); split_and!; try done; [| lia];
    intros ->; pose proof (bu_level _ _ _ _ _ _ B) as Lv; cbn in Lv; rewrite (bu_before _ _ _ _ _ _ B), Lv in Hle; destruct S; lia.
  destruct (grow_step P k a tabs chain b S B Hne Hlt Hroom) as (tabs1 & chain1 & b1 & E & B1 & Hc & Eb & H1 & H2).
  rewrite E. cbn [mbind option_bind].
  destruct (IH tabs1 chain1 b1 B1) as (tabs2 & chain2 & b2 & E2 & B2 & Hc2 & K1 & K2 & K3); [done | lia | pose proof (grow_room_range chain1); lia |].
  exists tabs2, chain2, b2. split_and!; try done; [lia | congruence].
Qed.
(** The next value of [v], after [r] codes of [k] bits. *)
Definition next_ok (k r p : Z) : Prop := 0 <= p /\ (k <= g -> r <= cnt lens k -> p = first_of lens k + r).

Lemma next_entry_ok P k a w p : places P k a -> 0 <= w < k -> next_ok k (at_len c k - 1 - a) p ->
  exists r p', next_entry (Z.of_nat (length lens)) s d e v stray (u8 (k - w)) p = Some (r, p') /\ 0 <= h_v r < 4294967296 /\
    next_ok k (at_len c k - a) p' /\ forall sym, lens !! sym = Some k -> pos sym k = P -> r = entry sym (k - w).
Proof.
  intros [P1 P2 P3 P4 P5] Hw [N1 N2]. rewrite u8_small by lia. unfold next_entry.
  pose proof (filled_step k P1) as Fs. assert (0 < 2 ^ (g - k)) as Hp by (apply Z.pow_pos_nonneg; lia).
  assert (forall x, 0 <= u16 x < 4294967296) as Hu by (intros x; pose proof (u16_range x); lia).
  assert (forall sym, lens !! sym = Some k -> pos sym k = P -> rank lens k sym = at_len c k - 1 - a /\ p = first_of lens k + rank lens k sym) as Hs.
  { intros sym Hs HP. rewrite pos_filled in HP by (done || lia). pose proof (rank_cnt lens k sym Hs).
    assert (rank lens k sym = at_len c k - 1 - a) as E.
    { apply (Z.mul_reg_r _ _ (2 ^ (g - k))); [lia |]. set (u := 2 ^ (g - k)) in *. clearbody u. nia. }
    split; [done |]. rewrite E. apply N2; lia. }
  pose proof (first_length lens (k + 1)) as Fl. pose proof (first_step lens k ltac:(lia)) as Ff. pose proof (first_nonneg lens k).
  destruct (Z.leb_spec (Z.of_nat (length lens)) p) as [Hn | Hn].
  - exists (Huft 99 (k - w) 0), p. split; [done |]. split; [cbn; lia |]. split.
    + split; [done |]. intros _ Hr. specialize (N2 ltac:(lia) ltac:(lia)). lia.
    + intros sym Hsym HP. destruct (Hs sym Hsym HP) as [E1 E2]. pose proof (rank_cnt lens k sym Hsym). lia.
  - rewrite get_nth by lia. cbn [mbind option_bind]. set (x := nth (Z.to_nat p) v 0).
    assert (next_ok k (at_len c k - a) (p + 1)) as Nx by (split; [lia |]; intros _ Hr; specialize (N2 ltac:(lia) ltac:(lia)); lia).
    assert (forall sym, lens !! sym = Some k -> pos sym k = P -> x = Z.of_nat sym) as Hx.
    { intros sym Hsym HP. destruct (Hs sym Hsym HP) as [E1 E2]. unfold x. rewrite E2. apply v_sorted; [by apply lookup_lt_Some in Hsym | done | lia]. }
    clearbody x. destruct (Z.ltb_spec x s) as [Hxs | Hxs]; eexists _, _; (split; [reflexivity |]); cbn [h_v]; (split; [apply Hu |]); (split; [done |]);
      intros sym Hsym HP; specialize (Hx sym Hsym HP); subst x; unfold entry.
    + rewrite (proj2 (Z.ltb_lt (Z.of_nat sym) s)) by done. rewrite u16_small by (apply lookup_lt_Some in Hsym; lia). done.
    + rewrite (proj2 (Z.ltb_ge (Z.of_nat sym) s)) by done. done.
Qed.

Lemma chain_levels P k tabs chain b : built P k tabs chain b -> (length chain <= 16)%nat.
Proof.
  intros B. destruct (decide (length chain = 0)%nat); [lia |]. destruct (lookup_lt_is_Some_2 chain (length chain - 1)) as [T H]; [lia |].
  destruct (bu_chain _ _ _ _ _ _ B _ _ H) as (_ & _ & K & _). apply lookup_lt_Some in K. destruct (bu_lengths _ _ _ _ _ _ B). lia.
Qed.

(** One code of [k] bits. *)
Lemma place_code_ok P k a tabs chain b : built P k tabs chain b -> places P k a -> (chain = [] -> k <= l) ->
  grow_room chain <= hp_top (heap_of b) -> next_ok k (at_len c k - 1 - a) (next_value b) ->
  exists tabs' chain' b', place_code (Z.of_nat (length lens)) s d e l g c v stray k a b = Some b' /\ built (P + 2 ^ (g - k)) k tabs' chain' b' /\
    chain' <> [] /\ hp_top (heap_of b) - grow_room chain <= hp_top (heap_of b') /\ next_ok k (at_len c k - a) (next_value b').
Proof.
  intros B S Hne Hroom Hnx. pose proof S as [P1 P2 P3 P4 P5]. pose proof (before_range P k tabs chain b B) as Hb.
  unfold place_code. destruct (grow_ok P k a S 17 tabs chain b B Hne ltac:(lia) Hroom) as (tabs1 & chain1 & b1 & -> & B1 & Hc & Hk & Ht & Hv).
  cbn [mbind option_bind]. destruct (exists_last Hc) as (chain0 & T & ->).
  assert ((chain0 ++ [T]) !! length chain0 = Some T) as Hlast by (by rewrite lookup_app_r, Nat.sub_diag by lia).
  pose proof (bu_level _ _ _ _ _ _ B1) as Lv. rewrite length_app in Lv. cbn [length] in Lv. pose proof (bu_before _ _ _ _ _ _ B1) as Bf.
  assert (0 < 2 ^ (g - k)) as Hp by (apply Z.pow_pos_nonneg; lia).
  assert (forall T2, T2 ∈ chain0 ++ [T] -> before T2 < k) as Hlong.
  { clear Hlast. intros T' [h H] %list_elem_of_lookup. destruct (bu_chain _ _ _ _ _ _ B1 _ _ H) as (C1 & _ & _ & _ & C5). specialize (C5 (proj2 P5)).
    destruct C5 as [C5 _]. pose proof (to_long _ (bu_tabs _ _ _ _ _ _ B1 T' C1)). destruct (Z.lt_ge_cases (before T') k) as [|H']; [done |].
    pose proof (filled_mono k (before T') H'). nia. }
  destruct (bu_chain _ _ _ _ _ _ B1 _ _ Hlast) as (C1 & C2 & _). pose proof (Hlong T ltac:(apply elem_of_app; right; by left)) as HT.
  assert (before_table b1 = before T) as Eb by (rewrite Bf, Lv, C2; f_equal; lia). pose proof (to_level _ (bu_tabs _ _ _ _ _ _ B1 T C1)) as T1.
  destruct (next_entry_ok P k a (before T) (next_value b1) S ltac:(nia) ltac:(by rewrite Hv)) as (r & p' & E & Hr & Hn & Hsym).
  rewrite Eb, E. cbn [mbind option_bind]. rewrite <- Eb.
  pose proof (place_entry P k a tabs1 chain0 T b1 r p' B1 S HT ltac:(lia) Hr Hsym) as B2. cbn zeta in B2.
  assert (backwards_increment (Z.to_nat k) (code b1) (1 .<< (k - 1)) = rev g (P + 2 ^ (g - k))) as ->.
  { rewrite (bu_code _ _ _ _ _ _ B1). destruct P4 as [Q ->]. replace (Q * 2 ^ (g - k) + 2 ^ (g - k)) with ((Q + 1) * 2 ^ (g - k)) by lia.
    rewrite !rev_mul by lia. replace (g - (g - k)) with (Z.of_nat (Z.to_nat k)) by lia. replace (k - 1) with (Z.of_nat (Z.to_nat k) - 1) by lia.
    apply backwards_increment_ok. }
  set (b2 := Build _ _ _ _ _ _ _ _ _ _) in *. pose proof (chain_levels P k tabs1 _ b1 B1).
  destruct (backup_ok (P + 2 ^ (g - k)) k tabs1 17 (chain0 ++ [T]) b2 B2) as (chain' & b' & E' & B' & Hc' & Eh & Ev); [done | lia | exact Hlong |].
  exists tabs1, chain', b'. split_and!; [by rewrite E' | done | done | | by rewrite Ev]. rewrite Eh. unfold b2. cbn [heap_of hp_top]. done.
Qed.
(** The codes of [k] bits after [i] of them; [m] codes are left and [z] is what
    they leave of the memory. *)
Record progress (z k i m : Z) (b : build) : Prop := {
  pg_built : exists tabs chain, built (filled (k - 1) + i * 2 ^ (g - k)) k tabs chain b /\
    z + (match chain with [] => root_room | _ => 0 end) + code_room * m <= hp_top (heap_of b);
  pg_next : next_ok k i (next_value b) }.

Lemma places_here k i : 1 <= k <= g -> 0 <= i < at_len c k -> places (filled (k - 1) + i * 2 ^ (g - k)) k (at_len c k - 1 - i).
Proof.
  intros Hk Hi. pose proof (filled_step k Hk) as Fs. assert (0 < 2 ^ (g - k)) as Hp by (apply Z.pow_pos_nonneg; lia).
  pose proof (filled_mono 0 (k - 1) ltac:(lia)) as F0. rewrite filled_0 in F0. pose proof (filled_mono k g ltac:(lia)) as Fg. rewrite (filled_all g) in Fg by lia.
  constructor; [done | lia | | | nia].
  - rewrite Fs. ring.
  - apply Z.divide_add_r; [| by eexists]. apply (mod_divide_floor _ _ (g - (k - 1))); [lia |]. apply filled_divide. lia.
Qed.

Lemma place_step z k i m b : 0 <= z -> 1 <= k <= g -> 0 <= i < at_len c k -> 1 <= m -> progress z k i m b ->
  exists b', place_code (Z.of_nat (length lens)) s d e l g c v stray k (at_len c k - 1 - i) b = Some b' /\ progress z k (i + 1) (m - 1) b'.
Proof.
  intros Hz Hk Hi Hm [(tabs & chain & B & H) N]. pose proof (places_here k i Hk Hi) as S. pose proof sub_room_pos as Hs. pose proof levels_range as Hl.
  assert (0 <= code_room) as Hc by (unfold code_room; nia).
  assert (chain = [] -> k <= l) as Hne.
  { intros E. destruct (bu_first _ _ _ _ _ _ B E) as [_ HP]. destruct (Z.le_gt_cases k kmin) as [|Hk']; [lia |]. exfalso.
    pose proof (filled_mono kmin (k - 1) ltac:(lia)) as F1. pose proof (filled_step kmin ltac:(lia)) as F2.
    pose proof (filled_mono 0 (kmin - 1) ltac:(lia)) as F3. rewrite filled_0 in F3. rewrite counts in F2 by lia.
    assert (0 < 2 ^ (g - kmin)) by (apply Z.pow_pos_nonneg; lia). assert (0 < 2 ^ (g - k)) by (apply Z.pow_pos_nonneg; lia). nia. }
  assert (grow_room chain <= (match chain with [] => root_room | _ => 0 end) + code_room) as Hg.
  { destruct chain; [cbn; lia |]. pose proof (proj2 (grow_room_range (t :: chain)) ltac:(done)). lia. }
  destruct (place_code_ok _ k _ tabs chain b B S Hne) as (tabs' & chain' & b' & E & B' & Hc' & H1 & H2).
  - nia.
  - by replace (at_len c k - 1 - (at_len c k - 1 - i)) with i by lia.
  - exists b'. split; [done |]. constructor.
    + exists tabs', chain'. replace (filled (k - 1) + (i + 1) * 2 ^ (g - k)) with (filled (k - 1) + i * 2 ^ (g - k) + 2 ^ (g - k)) by lia. split; [done |].
      destruct chain'; [done |]. nia.
    + by replace (i + 1) with (at_len c k - (at_len c k - 1 - i)) by lia.
Qed.

(** All the codes of [k] bits. *)
Lemma place_length z k m b : 0 <= z -> 1 <= k <= g -> at_len c k <= m -> progress z k 0 m b ->
  exists b', foldM (place_code (Z.of_nat (length lens)) s d e l g c v stray k) (reverse (seqZ 0 (at_len c k))) b = Some b' /\
    progress z k (at_len c k) (m - at_len c k) b'.
Proof.
  intros Hz Hk Hm B. pose proof (counts_nonneg k Hk) as Hn.
  destruct (foldM_index (fun i => progress z k (Z.of_nat i) (m - Z.of_nat i)) (place_code (Z.of_nat (length lens)) s d e l g c v stray k)
    (reverse (seqZ 0 (at_len c k))) 0 b) as (b' & E & H).
  - intros i a t Hi Ht. cbn [Nat.add] in *. pose proof (lookup_lt_Some _ _ _ Hi) as Hlt. rewrite length_reverse, length_seqZ in Hlt.
    rewrite reverse_lookup in Hi by (rewrite length_seqZ; lia). apply lookup_seqZ in Hi as [-> Hi]. rewrite length_seqZ in *.
    destruct (place_step z k (Z.of_nat i) (m - Z.of_nat i) t Hz Hk ltac:(lia) ltac:(lia) Ht) as (t' & E & Ht').
    exists t'. split; [assert (0 + Z.of_nat (Z.to_nat (at_len c k) - S i) = at_len c k - 1 - Z.of_nat i) as -> by lia; exact E |].
    replace (Z.of_nat (S i)) with (Z.of_nat i + 1) by lia. by replace (m - (Z.of_nat i + 1)) with (m - Z.of_nat i - 1) by lia.
  - by rewrite Z.sub_0_r.
  - exists b'. split; [done |]. cbn [Nat.add] in H. rewrite length_reverse, length_seqZ, Z2Nat.id in H by done. done.
Qed.

Lemma built_longer P k k' tabs chain b : k <= k' -> built P k tabs chain b -> built P k' tabs chain b.
Proof.
  intros Hk [B1 B2 B3 B4 B5 B6 B7 B8 B9 B10 B11 B12 B13 B14 B15 B16 B17 B18 B19].
  constructor; [exact B1 | exact B2 | exact B3 | exact B4 | exact B5 | exact B6 | exact B7 | exact B8 | exact B9 | exact B10 | | exact B12 | exact B13
    | exact B14 | exact B15 | exact B16 | exact B17 | exact B18 | exact B19].
  intros T HT Hle. apply B11; [done | lia].
Qed.

(** The next length begins where this one ends. *)
Lemma next_length z k m b : 1 <= k <= g -> progress z k (at_len c k) m b -> progress z (k + 1) 0 m b.
Proof.
  intros Hk [(tabs & chain & B & H) [N1 N2]]. constructor.
  - exists tabs, chain. split; [| done]. pose proof (filled_step k Hk) as Fs. replace (k + 1 - 1) with k by lia. rewrite Z.mul_0_l, Z.add_0_r, Fs.
    apply (built_longer _ k); [lia | done].
  - split; [done |]. intros Hg _. rewrite Z.add_0_r, first_step by lia. rewrite counts in N2 by lia. apply N2; lia.
Qed.

(** The codes that are left from [k] bits on. *)
Definition rest (k : Z) : Z := first_of lens (g + 1) + y - first_of lens k - (if g <? k then y else 0).

Lemma rest_step k : 1 <= k <= g -> rest (k + 1) = rest k - at_len c k /\ at_len c k <= rest k.
Proof.
  intros Hk. unfold rest. rewrite (first_step lens k) by lia. pose proof (first_mono lens (k + 1) (g + 1) ltac:(lia)) as Hm. rewrite (first_step lens k) in Hm by lia.
  rewrite (proj2 (Z.ltb_ge g k)) by lia. destruct (Z.ltb_spec g (k + 1)).
  - replace k with g in * by lia. rewrite counts_g. lia.
  - rewrite counts by lia. lia.
Qed.

Lemma place_all z b : 0 <= z -> progress z kmin 0 (rest kmin) b ->
  exists b', foldM (fun k => foldM (place_code (Z.of_nat (length lens)) s d e l g c v stray k) (reverse (seqZ 0 (at_len c k)))) (seqZ kmin (g - kmin + 1)) b
    = Some b' /\ progress z (g + 1) 0 (rest (g + 1)) b'.
Proof.
  intros Hz B.
  destruct (foldM_index (fun i t => progress z (kmin + Z.of_nat i) 0 (rest (kmin + Z.of_nat i)) t)
    (fun k => foldM (place_code (Z.of_nat (length lens)) s d e l g c v stray k) (reverse (seqZ 0 (at_len c k)))) (seqZ kmin (g - kmin + 1)) 0 b) as (b' & E & H).
  - intros i k t Hi Ht. cbn [Nat.add] in *. apply lookup_seqZ in Hi as [-> Hi]. set (k := kmin + Z.of_nat i) in *.
    destruct (rest_step k ltac:(lia)) as [R1 R2]. destruct (place_length z k (rest k) t Hz ltac:(lia) R2 Ht) as (t' & E & Ht'). exists t'. split; [done |].
    replace (kmin + Z.of_nat (S i)) with (k + 1) by lia. rewrite R1. apply next_length; [lia | done].
  - by rewrite Z.add_0_r.
  - exists b'. split; [done |]. cbn [Nat.add] in H. rewrite length_seqZ, Z2Nat.id in H by lia. by replace (kmin + (g - kmin + 1)) with (g + 1) in H by lia.
Qed.

(** Tables that decode the code, in memory between [lo] and [hi]. *)
Definition decodes (m : mem) (lo hi t w : Z) : Prop :=
  forall a k n, lens !! a = Some k -> 0 < k -> n mod 2 ^ k = rev k (code_value lens a k) ->
  exists bits, 0 < bits /\ leads m lo hi t w n k (h_e (entry a bits)) (h_v (entry a bits)).

(** At the end every code leads to its entry. *)
Lemma built_decodes P tabs chain b : 2 ^ g <= P -> built P (g + 1) tabs chain b ->
  decodes (hp_mem (heap_of b)) (hp_top (heap_of b)) top0 (hp_root (heap_of b)) l.
Proof.
  intros HP B a k n Ha Hk Hn. assert (0 < 2 ^ g) as Hg by (apply Z.pow_pos_nonneg; lia).
  destruct chain as [|T chain]; [destruct (bu_first _ _ _ _ _ _ B eq_refl); lia |].
  destruct (bu_chain _ _ _ _ _ _ B 0%nat T eq_refl) as (C1 & C2 & _). destruct (bu_root _ _ _ _ _ _ B T C1 C2) as (R1 & R2 & R3).
  assert (before T = 0) as E0 by (rewrite C2; lia). pose proof (bu_tabs _ _ _ _ _ _ B) as Ht.
  assert (forall T i, T ∈ tabs -> 0 <= i < 2 ^ tb_width T -> slot_ok (hp_mem (heap_of b)) tabs T i) as Hs.
  { intros T' i HT' Hi. pose proof (slot_range T' i (Ht T' HT')). destruct (to_start _ (Ht T' HT')) as (_ & _ & H3).
    apply (bu_slots _ _ _ _ _ _ B); [done | done | lia]. }
  assert (forall T, T ∈ tabs -> hp_top (heap_of b) <= tb_base T /\ tb_base T + 8 * tb_size T <= top0) as Hpl.
  { intros T' HT'. pose proof (bu_places _ _ _ _ _ _ B T' HT'). lia. }
  pose proof (pos_range a k Ha Hk) as [P1 P2]. pose proof (Forall_lookup_1 _ _ _ _ lens_range Ha) as Hr. cbn beta in Hr.
  pose proof (filled_mono 0 (k - 1) ltac:(lia)) as F0. rewrite filled_0 in F0. pose proof (filled_mono k g ltac:(lia)) as Fg. rewrite (filled_all g) in Fg by lia.
  assert (0 < 2 ^ (g - k)) by (apply Z.pow_pos_nonneg; lia).
  destruct (follow _ _ _ tabs Ht Hpl Hs (Z.to_nat k) T a k n) as (bits & Hb & L); rewrite ?E0, ?Z.sub_0_r; try done.
  - unfold in_block. rewrite E0, R3, Z.sub_0_r. lia.
  - exists bits. split; [done |]. rewrite E0, R2, Z.sub_0_r, <- R1 in L. done.
Qed.

(** Where the construction begins. *)
Lemma start_built hp x : hp_top hp = top0 -> hp_mem hp = m0 -> 0 <= top0 < 4294967296 -> (4 | top0) -> length x = 17%nat -> x !! 0%nat = Some 0 ->
  built 0 kmin [] [] (Build hp None (-1) (- l) 0 0 0 0 (replicate 16 0) x).
Proof.
  intros Ht Hm H0 H4 Hx Hx0. assert (0 < 2 ^ g) by (apply Z.pow_pos_nonneg; lia).
  constructor; cbn [code level before_table heap_of stack patterns table entries link]; try done.
  - symmetry. rewrite <- (Z.mul_0_l (2 ^ g)), rev_mul by lia. by rewrite Z.sub_diag.
  - lia.
  - lia.
  - intros _. apply Z.divide_0_r.
  - intros T HT. by apply elem_of_nil in HT.
  - intros T i HT. by apply elem_of_nil in HT.
  - intros T HT. by apply elem_of_nil in HT.
  - intros T HT. by apply elem_of_nil in HT.
  - intros T HT. by apply elem_of_nil in HT.
  - intros T T' HT. by apply elem_of_nil in HT.
  - rewrite Ht. split; [lia |]. split; [done | lia].
  - intros a _. by rewrite Hm.
Qed.
End Tables.

(** ** The whole construction *)

Lemma none_above (lens : list Z) k : cnt lens k = 0 -> forall a, lens !! a <> Some k.
Proof. intros H a Ha. pose proof (rank_cnt lens k a Ha). lia. Qed.

Lemma zero_count lens : Forall (fun x => 0 <= x) lens -> cnt lens 0 <= Z.of_nat (length lens) /\
  (cnt lens 0 = Z.of_nat (length lens) -> Forall (fun x => x = 0) lens).
Proof.
  induction lens as [|x lens IH]; intros H; [done |]. apply Forall_cons_iff in H as [Hx H]. destruct (IH H) as [H1 H2].
  rewrite count_cons. cbn [length]. destruct (Z.eqb_spec x 0); (split; [lia |]); intros E; [constructor; [done | apply H2; lia] | lia].
Qed.

(** The room that the tables take at most: for codes of at most [g] bits, [n] of
    them, and [m] bits for the first table. *)
Definition tables_room (m g n : Z) : Z := 8 * (2 ^ (m + 1) + 1) + 8 * (2 ^ Z.min m (g - m) + 1) * ((g - 1) / m) * n.

(** How long the codes are at least, at most, and how many positions are free. *)
Record profile (lens : list Z) (kmin g y : Z) : Prop := {
  pr_lens : Forall (fun x => 0 <= x <= g) lens;
  pr_range : 1 <= kmin <= g /\ g <= 15;
  pr_used : 0 < cnt lens kmin /\ 0 < cnt lens g;
  pr_least : forall k, 0 < k < kmin -> cnt lens k = 0;
  pr_free : 0 <= y /\ upto lens g g + y = 2 ^ g }.

Lemma profile_ok lens c : Forall (fun x => 0 <= x <= 15) lens -> space 15 lens <= 2 ^ 15 -> Exists (fun x => 0 < x) lens ->
  (forall k, 0 <= k <= 16 -> at_len c k = cnt lens k) ->
  let kmin := first_used 16 c 1 in
  let g := last_used 16 c BMAX in
  exists y, profile lens kmin g y /\ dummy_codes (Z.to_nat (g - kmin)) c kmin (1 .<< kmin) = Some y.
Proof.
  intros Hl Hs Hx Hc kmin g. apply Exists_exists in Hx as (x & Hin %list_elem_of_In & Hx). apply list_elem_of_lookup in Hin as [a Ha].
  pose proof (Forall_lookup_1 _ _ _ _ Hl Ha) as Hr. cbn beta in Hr. pose proof (rank_cnt lens x a Ha) as Hcx.
  destruct (first_used_ok c 16 1 x ltac:(lia)) as (F1 & F2 & F3); [rewrite Hc by lia; lia |].
  destruct (last_used_ok c 16 BMAX x ltac:(unfold BMAX; lia)) as (G1 & G2 & G3); [rewrite Hc by lia; lia |]. fold kmin in F1, F2, F3. fold g in G1, G2, G3. unfold BMAX in *.
  assert (Forall (fun x => 0 <= x <= g) lens) as Hg.
  { apply Forall_lookup_2. intros b z Hb. pose proof (Forall_lookup_1 _ _ _ _ Hl Hb) as Hz. cbn beta in Hz. split; [lia |].
    destruct (Z.le_gt_cases z g) as [|H]; [done |]. exfalso. apply (none_above lens z) with (a := b); [| done]. rewrite <- Hc by lia. apply G3. lia. }
  assert (g <= 15) as H15.
  { destruct (Z.le_gt_cases g 15) as [|H]; [done |]. exfalso. apply G2. rewrite Hc by lia. apply sum_over_zero. intros j z Hz.
    pose proof (Forall_lookup_1 _ _ _ _ Hl Hz) as H'. cbn beta in *. by rewrite (proj2 (Z.eqb_neq _ _)) by lia. }
  rewrite Hc in F2, G2 by lia. pose proof (cnt_range lens kmin). pose proof (cnt_range lens g).
  assert (upto lens g g <= 2 ^ g) as Hu.
  { rewrite (space_upto lens 15 g) in Hs; [| eapply Forall_impl; [| exact Hg]; cbn; lia | lia].
    apply (Z.mul_le_mono_pos_r _ _ (2 ^ (15 - g))); [apply Z.pow_pos_nonneg; lia |]. rewrite <- Z.pow_add_r by lia. by replace (g + (15 - g)) with 15 by lia. }
  assert (upto lens g (kmin - 1) = 0) as Hnone.
  { apply sum_over_zero. intros j z Hz. cbn beta. destruct (Z.ltb_spec 0 z), (Z.leb_spec z (kmin - 1)); try done. exfalso.
    apply (none_above lens z) with (a := j); [| done]. rewrite <- Hc by lia. apply F3. lia. }
  assert (space_from (Z.to_nat (g - kmin)) c kmin = upto lens g g) as Es.
  { rewrite (space_from_upto lens g) by (lia || (intros; apply Hc; lia)). lia. }
  assert (2 ^ kmin * 2 ^ Z.of_nat (Z.to_nat (g - kmin)) = 2 ^ g) as Ep by (rewrite <- Z.pow_add_r by lia; f_equal; lia).
  exists (2 ^ g - upto lens g g). split.
  - constructor; try done; try lia. intros k Hk. rewrite <- Hc by lia. apply F3. lia.
  - rewrite shiftl_mul, Z.mul_1_l by lia. rewrite dummy_codes_ok, Es, Ep; [done | | lia]. intros i Hi. rewrite Hc by lia. apply cnt_range.
Qed.

(** A code with room in its tables: few enough codes, or short ones. *)
Record suits (lens : list Z) (m : Z) : Prop := {
  su_lens : Forall (fun x => 0 <= x <= 15) lens;
  su_space : space 15 lens <= 2 ^ 15;
  su_count : (length lens <= 288)%nat;
  su_bits : 1 <= m <= 15;
  su_short : Exists (fun x => 0 < x <= m) lens;
  su_tables : usable lens \/ Forall (fun x => x <= m) lens;
  su_few : Z.of_nat (length lens) < 2 ^ m \/ Forall (fun x => x < 2 * m) lens }.

Lemma kmin_below lens kmin g y m : profile lens kmin g y -> Exists (fun x => 0 < x <= m) lens -> kmin <= m.
Proof.
  intros [P1 P2 P3 P4 P5] Hx. apply Exists_exists in Hx as (x & Hin %list_elem_of_In & Hx). apply list_elem_of_lookup in Hin as [a Ha].
  destruct (Z.le_gt_cases kmin x) as [|H]; [lia |]. exfalso. by apply (none_above lens x (P4 x ltac:(lia)) a).
Qed.

Lemma used_length lens k : 0 < cnt lens k -> exists a, lens !! a = Some k.
Proof.
  intros H. destruct (decide (k ∈ lens)) as [Hin | Hin]; [by apply list_elem_of_lookup in Hin |]. exfalso.
  assert (cnt lens k = 0); [| lia]. apply sum_over_zero. intros j x Hx. cbn beta. destruct (Z.eqb_spec x k) as [-> |]; [| done].
  exfalso. apply Hin. by apply list_elem_of_lookup_2 in Hx.
Qed.

(** What the code's space says of its tables. *)
Lemma tables_fit lens m kmin g y : suits lens m -> profile lens kmin g y ->
  let l := Z.min m g in
  (total lens g y < 2 ^ l \/ g < 2 * l) /\
  (g <= l \/ y = 0 /\ l = m /\ total lens g y <= Z.of_nat (length lens)) /\
  (usable lens -> y = 0 \/ g = 1).
Proof.
  intros [S1 S2 S3 S4 S5 S6 S7] [P1 P2 P3 P4 P5] l.
  destruct (used_length lens g (proj2 P3)) as [a Ha].
  assert (usable lens -> y = 0 \/ g = 1) as Hu.
  { intros [_ [U | [U _]]].
    - left. rewrite (space_upto lens 15 g) in U; [| eapply Forall_impl; [| exact P1]; cbn; lia | lia].
      assert (upto lens g g = 2 ^ g); [| lia]. apply (Z.mul_reg_r _ _ (2 ^ (15 - g))); [pose proof (Z.pow_pos_nonneg 2 (15 - g)); lia |].
      rewrite <- Z.pow_add_r by lia. by replace (g + (15 - g)) with 15 by lia.
    - right. pose proof (Forall_lookup_1 _ _ _ _ U Ha) as H. cbn beta in H. lia. }
  assert (g <= m \/ y = 0 /\ total lens g y <= Z.of_nat (length lens)) as Ht.
  { destruct S6 as [U | U].
    - destruct (Hu U) as [-> | ->]; [right; split; [done |] | left; lia]. unfold total. rewrite Z.add_0_r. apply first_length.
    - left. pose proof (Forall_lookup_1 _ _ _ _ U Ha) as H. cbn beta in H. lia. }
  unfold l. destruct (Z.le_gt_cases g m) as [Hg | Hg]; [rewrite Z.min_r by lia; split; [right; lia |]; split; [left; lia | done] |].
  rewrite Z.min_l by lia. destruct Ht as [|[-> Ht]]; [lia |]. split; [| split; [by right | done]].
  destruct S7 as [H | H]; [left; lia | right]. pose proof (Forall_lookup_1 _ _ _ _ H Ha) as H'. cbn beta in H'. lia.
Qed.

Lemma room_fits lens m kmin g y G : suits lens m -> profile lens kmin g y -> g <= G ->
  root_room (Z.min m g) + code_room g (Z.min m g) * total lens g y <= tables_room m G (Z.of_nat (length lens)).
Proof.
  intros S P HG. destruct (tables_fit lens m kmin g y S P) as (_ & Hl & _). pose proof (su_bits _ _ S) as Hm. destruct (pr_range _ _ _ _ P) as [R1 R2].
  set (l := Z.min m g) in *. unfold root_room, code_room, sub_room, tables_room.
  assert (2 ^ (l + 1) <= 2 ^ (m + 1)) as H1 by (apply Z.pow_le_mono_r; lia).
  assert (0 <= (G - 1) / m) as H2 by (apply Z.div_pos; lia). pose proof (Z.pow_nonneg 2 (Z.min m (G - m)) ltac:(lia)) as H3.
  assert (0 <= 8 * (2 ^ Z.min m (G - m) + 1) * ((G - 1) / m)) as H4 by nia.
  destruct Hl as [Hl | (-> & El & Ht)].
  - rewrite (Z.div_small (g - 1) l) by lia. rewrite Z.mul_0_r, Z.mul_0_l. nia.
  - rewrite El in *. assert (0 <= total lens g 0) as H0 by (unfold total; pose proof (first_nonneg lens (g + 1)); lia).
    assert (2 ^ Z.min m (g - m) <= 2 ^ Z.min m (G - m)) as H5 by (apply Z.pow_le_mono_r; lia).
    assert ((g - 1) / m <= (G - 1) / m) as H6 by (apply Z.div_le_mono; lia).
    assert (0 <= (g - 1) / m) as H7 by (apply Z.div_pos; lia). pose proof (Z.pow_nonneg 2 (Z.min m (g - m)) ltac:(lia)).
    assert (8 * (2 ^ Z.min m (g - m) + 1) * ((g - 1) / m) <= 8 * (2 ^ Z.min m (G - m) + 1) * ((G - 1) / m)) as H8 by nia. nia.
Qed.

(** What [huft_build] leaves: [w] bits for the first table, tables that decode
    the code below the old top of the memory, and nothing else changed. *)
Record built_tables (lens : list Z) (s : Z) (d e : list Z) (stray : Z -> Z) (m room w : Z) (hp hp' : heap) : Prop := {
  bt_bits : 1 <= w <= m;
  bt_direct : Forall (fun x => x <= m) lens -> Forall (fun x => x <= w) lens;
  bt_top : hp_top hp - room <= hp_top hp' <= hp_top hp;
  bt_align : (4 | hp_top hp');
  bt_frame : forall a, ~ (hp_top hp' <= a < hp_top hp) -> ld (hp_mem hp') a = ld (hp_mem hp) a;
  bt_decodes : decodes lens s d e stray (hp_mem hp') (hp_top hp') (hp_top hp) (hp_root hp') w }.

Section Assemble.
Variables (lens : list Z) (s : Z) (d e : list Z) (stray : Z -> Z).

(** The loops over the codes, once the lengths have been counted and sorted. *)
Lemma assemble m kmin g y c v x hp G : suits lens m -> profile lens kmin g y -> Forall (fun z => z <= G) lens ->
  (forall k, 1 <= k < g -> at_len c k = cnt lens k) -> at_len c g = cnt lens g + y ->
  length v = 288%nat -> sorted_upto lens (length lens) v -> length x = 17%nat -> x !! 0%nat = Some 0 ->
  tables_room m G (Z.of_nat (length lens)) <= hp_top hp < 4294967296 -> (4 | hp_top hp) ->
  let l := Z.min m g in
  exists b, foldM (fun k => foldM (place_code (Z.of_nat (length lens)) s d e l g c v stray k) (reverse (seqZ 0 (at_len c k)))) (seqZ kmin (g - kmin + 1))
      (Build hp None (-1) (- l) 0 0 0 0 (replicate 16 0) x) = Some b /\
    built_tables lens s d e stray m (tables_room m G (Z.of_nat (length lens))) l hp (heap_of b).
Proof.
  intros S P HG Hc Hcg Hv Hsort Hx Hx0 Hroom H4 l. destruct (tables_fit lens m kmin g y S P) as (Hfew & Hl & _).
  pose proof (kmin_below lens kmin g y m P (su_short _ _ S)) as Hk. pose proof (su_bits _ _ S) as Hm. pose proof (su_count _ _ S) as Hn.
  pose proof P as [P1 P2 [P3 P3'] P4 [P5 P6]].
  assert (g <= G) as HgG.
  { destruct (used_length lens g P3') as [a Ha]. pose proof (Forall_lookup_1 _ _ _ _ HG Ha) as H. cbn beta in H. lia. }
  pose proof (room_fits lens m kmin g y G S P HgG) as Hrf. fold l in Hrf, Hfew. set (room := tables_room m G (Z.of_nat (length lens))) in *.
  assert (1 <= l <= g) as Lr by lia. assert (1 <= kmin <= l /\ 0 < cnt lens kmin) as Hkmin by lia. assert (0 < at_len c g) as Ug by lia.
  assert (0 <= code_room g l) as Hcr.
  { unfold code_room, sub_room. pose proof (Z.pow_nonneg 2 (Z.min l (g - l)) ltac:(lia)). apply Z.mul_nonneg_nonneg; [lia | apply Z.div_pos; lia]. }
  assert (0 <= root_room l) as Hrr by (unfold root_room; pose proof (Z.pow_nonneg 2 (l + 1) ltac:(lia)); lia).
  assert (0 <= total lens g y) as Htt by (unfold total; pose proof (first_nonneg lens (g + 1)); lia). assert (0 <= code_room g l * total lens g y) as Hct by nia.
  destruct (place_all lens g l y c v s d e stray P1 Hn Lr (proj2 P2) P5 P6 Hc Hcg Ug Hv Hsort (hp_top hp) (hp_mem hp) Hfew kmin Hkmin
    (hp_top hp - (root_room l + code_room g l * total lens g y)) (Build hp None (-1) (- l) 0 0 0 0 (replicate 16 0) x)) as (b & E & [(tabs & chain & B & Hz) _]).
  - lia.
  - assert (filled lens g y (kmin - 1) = 0) as F0.
    { unfold filled. rewrite (proj2 (Z.leb_gt g (kmin - 1))) by lia. rewrite Z.add_0_r. apply sum_over_zero. intros j z Hz. cbn beta.
      destruct (Z.ltb_spec 0 z), (Z.leb_spec z (kmin - 1)); try done. exfalso. by apply (none_above lens z (P4 z ltac:(lia)) j). }
    assert (first_of lens kmin = 0) as F1.
    { apply sum_over_zero. intros j z Hz. cbn beta. destruct (Z.ltb_spec 0 z), (Z.ltb_spec z kmin); try done. exfalso.
      by apply (none_above lens z (P4 z ltac:(lia)) j). }
    constructor.
    + exists [], []. rewrite F0, Z.mul_0_l, Z.add_0_r. split; [apply (start_built lens g l y v s d e stray); done || lia |]. cbn [heap_of]. unfold rest, total.
      rewrite F1, (proj2 (Z.ltb_ge g kmin)) by lia. rewrite !Z.sub_0_r. lia.
    + split; [done |]. intros _ _. cbn [next_value]. lia.
  - exists b. split; [exact E |]. replace (g + 1 - 1) with g in B by lia. rewrite Z.mul_0_l, Z.add_0_r in B. assert (filled lens g y g = 2 ^ g) as Fg by (eapply filled_all; eassumption || lia). rewrite Fg in B.
    destruct (bu_heap _ _ _ _ _ _ _ _ _ _ _ _ _ _ _ _ B) as (H1 & H2 & H3). constructor.
    + lia.
    + intros Hall. apply Forall_lookup_2. intros a z Ha. pose proof (Forall_lookup_1 _ _ _ _ Hall Ha) as Z1. pose proof (Forall_lookup_1 _ _ _ _ P1 Ha) as Z2. cbn beta in *. lia.
    + split; [| lia]. unfold rest in Hz. rewrite (proj2 (Z.ltb_lt g (g + 1))) in Hz by lia.
      replace (first_of lens (g + 1) + y - first_of lens (g + 1) - y) with 0 in Hz by lia. rewrite Z.mul_0_r in Hz.
      destruct chain; lia.
    + done.
    + apply (bu_frame _ _ _ _ _ _ _ _ _ _ _ _ _ _ _ _ B).
    + eapply (built_decodes lens g l y c v s d e stray); try exact B; try done; lia.
Qed.
End Assemble.

(** [huft_build] makes the tables of a code; it says so when the code is complete,
    or has a single bit. *)
Lemma huft_build_ok junk stray lens s d e m hp G : suits lens m -> length junk = 288%nat -> Forall (fun z => z <= G) lens ->
  tables_room m G (Z.of_nat (length lens)) <= hp_top hp < 4294967296 -> (4 | hp_top hp) ->
  exists r w hp', huft_build junk stray lens s d e m hp = Some (r, w, hp') /\ (usable lens -> r = 0) /\ 0 <= r <= 1 /\
    built_tables lens s d e stray m (tables_room m G (Z.of_nat (length lens))) w hp hp'.
Proof.
  intros S Hj HG Hroom H4. pose proof S as [S1 S2 S3 S4 S5 S6 S7]. unfold huft_build, count_lengths.
  destruct (count_lengths_ok lens (replicate 17 0) S1) as (c & -> & Lc & Hc); [by rewrite length_replicate |]. cbn [mbind option_bind].
  assert (forall k, 0 <= k <= 16 -> at_len c k = cnt lens k) as Hcnt by (intros; rewrite Hc, at_replicate by done; lia). clear Hc.
  assert (Exists (fun x => 0 < x) lens) as Hx by (eapply Exists_impl; [| exact S5]; cbn; lia).
  destruct (zero_count lens) as [_ Hz]; [eapply Forall_impl; [| exact S1]; cbn; lia |]. rewrite (Hcnt 0) by lia.
  destruct (Z.eqb_spec (cnt lens 0) (Z.of_nat (length lens))) as [E | _].
  { exfalso. apply Exists_exists in Hx as (x & Hin %list_elem_of_In & Hx). specialize (Hz E). rewrite Forall_forall in Hz. specialize (Hz x).
    rewrite list_elem_of_In in Hin. specialize (Hz Hin). lia. }
  destruct (profile_ok lens c S1 S2 Hx Hcnt) as (y & P & Hd). set (kmin := first_used 16 c 1) in *. set (g := last_used 16 c BMAX) in *.
  pose proof (kmin_below lens kmin g y m P S5) as Hk. pose proof P as [P1 P2 P3 P4 [P5 P6]]. clearbody kmin g.
  rewrite (proj2 (Z.ltb_ge m kmin)) by done. replace (if g <? m then g else m) with (Z.min m g) by (destruct (Z.ltb_spec g m); lia).
  rewrite Hd. rewrite put_some by lia. cbn [mbind option_bind]. set (c' := <[Z.to_nat g := at_len c g + y]> c).
  assert (forall k, 1 <= k <= 16 -> at_len c' k = if k =? g then cnt lens g + y else cnt lens k) as Hc'.
  { intros k Hk'. unfold c'. rewrite at_insert, !Hcnt by lia. done. }
  pose proof (offsets_ok lens c' (Z.to_nat (g - 1)) 1 (replicate 17 0)) as HO. rewrite first_1 in HO.
  destruct HO as (x & -> & Lx & Hxi); [lia | lia | by rewrite length_replicate | | |].
  { intros i Hi. rewrite Hc', (proj2 (Z.eqb_neq i g)) by lia. done. }
  { intros i Hi. rewrite at_replicate. replace i with 1 by lia. by rewrite first_1. }
  cbn [mbind option_bind].
  destruct (sort_values_ok lens g S1 x junk S3 Lx Hj) as (x' & v & -> & Lx' & Lv & Hs); [eapply Forall_impl; [| exact P1]; cbn; lia | lia | intros; apply Hxi; lia |].
  cbn [mbind option_bind]. rewrite put_some by lia. cbn [mbind option_bind].
  destruct (assemble lens s d e stray m kmin g y c' v (<[Z.to_nat 0 := 0]> x') hp G S P HG) as (b & Eb & B); try done.
  - intros k Hk'. rewrite Hc', (proj2 (Z.eqb_neq k g)) by lia. done.
  - rewrite Hc', Z.eqb_refl by lia. done.
  - by rewrite length_insert.
  - change (Z.to_nat 0) with 0%nat. by rewrite list_lookup_insert_eq by lia.
  - rewrite Eb. cbn [mbind option_bind]. eexists _, _, (heap_of b). split; [reflexivity |].
    destruct (tables_fit lens m kmin g y S P) as (_ & _ & Hu). split; [| split; [by destruct (_ && _) | exact B]].
    intros U. destruct (Hu U) as [-> | ->]; [done |]. by rewrite andb_false_r.
Qed.

(** A code without symbols has no tables. *)
Lemma huft_build_none junk stray lens s d e m hp : Forall (fun x => x = 0) lens ->
  huft_build junk stray lens s d e m hp = Some (0, 0, Heap (hp_mem hp) (hp_top hp) (hp_hufts hp) 0).
Proof.
  intros H. unfold huft_build, count_lengths.
  destruct (count_lengths_ok lens (replicate 17 0)) as (c & -> & Lc & Hc); [eapply Forall_impl; [| exact H]; cbn; lia | by rewrite length_replicate |].
  cbn [mbind option_bind]. rewrite Hc, at_replicate by lia.
  assert (cnt lens 0 = Z.of_nat (length lens)) as ->; [| by rewrite Z.add_0_l, Z.eqb_refl].
  clear -H. induction H as [|x lens -> H IH]; [done |]. rewrite count_cons, IH. cbn [length]. change (0 =? 0) with true. cbn iota. lia.
Qed.

Lemma leads_frame m m' lo hi t w n k r x : (forall a, lo <= a < hi -> ld m' a = ld m a) -> leads m lo hi t w n k r x -> leads m' lo hi t w n k r x.
Proof.
  intros H L. assert (forall t w n, 0 < w -> lo <= t /\ t + 8 * 2 ^ w <= hi -> ld_huft m' (t + 8 * (n mod 2 ^ w)) = ld_huft m (t + 8 * (n mod 2 ^ w))) as E.
  { intros t0 w0 n0 Hw Hb. apply ld_huft_frame. intros a Ha. apply H. pose proof (Z.mod_pos_bound n0 (2 ^ w0) ltac:(apply Z.pow_pos_nonneg; lia)). lia. }
  induction L as [t w n k r x Hk Hb Hl | t w n k r x j t' Hk Hb Hl Hj L IH].
  - apply leads_leaf; [done | done |]. by rewrite E by (done || lia).
  - eapply leads_link; [done | done | | exact Hj | exact IH]. by rewrite E by (done || lia).
Qed.

(** Between wider bounds, in other memory that is the same there. *)
Lemma leads_widen m m' lo hi lo' hi' t w n k r x : lo' <= lo -> hi <= hi' -> (forall a, lo <= a < hi -> ld m' a = ld m a) ->
  leads m lo hi t w n k r x -> leads m' lo' hi' t w n k r x.
Proof.
  intros Hlo Hhi H L. apply (leads_frame m m') in L; [| done].
  induction L as [t w n k r x Hk Hb Hl | t w n k r x j t' Hk Hb Hl Hj L IH]; [apply leads_leaf; done || lia | eapply leads_link; done || lia].
Qed.

Lemma decodes_widen lens s d e stray m m' lo hi lo' hi' t w : lo' <= lo -> hi <= hi' -> (forall a, lo <= a < hi -> ld m' a = ld m a) ->
  decodes lens s d e stray m lo hi t w -> decodes lens s d e stray m' lo' hi' t w.
Proof. intros Hlo Hhi H D a k n Ha Hk Hn. destruct (D a k n Ha Hk Hn) as (bits & Hb & L). exists bits. split; [done |]. by eapply leads_widen. Qed.

(** A usable code with few symbols suits. *)
Lemma usable_suits lens m : usable lens -> (length lens <= 288)%nat -> Z.of_nat (length lens) < 2 ^ m -> 1 <= m <= 15 ->
  Forall (fun x => x = 0) lens \/ suits lens m.
Proof.
  intros U Hn Hl Hm. pose proof U as [U1 U2].
  destruct (decide (Exists (fun x => 0 < x <= m) lens)) as [Hs | Hs].
  { right. constructor; try done; [lia | by left | by left]. }
  assert (Forall (fun x => x = 0 \/ m < x) lens) as Hlong.
  { apply Forall_lookup_2. intros i x Hx. pose proof (Forall_lookup_1 _ _ _ _ U1 Hx) as Hr. cbn beta in Hr.
    destruct (decide (x = 0)) as [|H]; [by left | right]. destruct (Z.le_gt_cases x m) as [H' |]; [| done]. exfalso. apply Hs.
    apply Exists_exists. exists x. split; [apply list_elem_of_In; by apply list_elem_of_lookup_2 in Hx | lia]. }
  left. apply Forall_lookup_2. intros i x Hx. destruct U2 as [U2 | [U2 _]].
  - exfalso. unfold space, numbered in U2. rewrite weight_sum in U2.
    assert (sum_over (fun j x => if decide (0 <? x) then 2 ^ (15 - x) else 0) 0 lens <= Z.of_nat (length lens) * 2 ^ (15 - m)) as H.
    { assert (forall i, sum_over (fun _ _ => 1) i lens = Z.of_nat (length lens)) as Hc.
      { clear. induction lens as [|x l IH]; intros i; cbn [sum_over length]; [done |]. rewrite IH. lia. }
      rewrite <- (Hc 0%nat), Z.mul_comm, <- sum_over_scale. apply sum_over_le. intros j z Hz. cbn beta.
      pose proof (Forall_lookup_1 _ _ _ _ Hlong Hz) as H. cbn beta in H. pose proof (Z.pow_nonneg 2 (15 - m) ltac:(lia)).
      destruct (decide _); [| lia]. assert (2 ^ (15 - z) <= 2 ^ (15 - m)); [| lia]. apply Z.pow_le_mono_r; destruct (Z.ltb_spec 0 z); done || lia. }
    cbn [snd] in U2. rewrite U2 in H. assert (2 ^ m * 2 ^ (15 - m) = 2 ^ 15) as E by (rewrite <- Z.pow_add_r by lia; f_equal; lia).
    assert (0 < 2 ^ (15 - m)) by (apply Z.pow_pos_nonneg; lia). nia.
  - pose proof (Forall_lookup_1 _ _ _ _ U2 Hx) as H1. pose proof (Forall_lookup_1 _ _ _ _ Hlong Hx) as H2. cbn beta in *. lia.
Qed.
