(* ===== verification/GrubBits.v ===== *)
(** * The bits of a compressed file

    [get_byte], [NEEDBITS] and the walk through the tables of a code, on a file
    that can be read: they give the bits of the file from a position on, and the
    entry that the tables have for them. *)

From S2P Require Import Prelude Machine LibcString GrubString GrubTerm GrubReadline GrubBios GrubDisk GrubDevice GrubPart GrubFsys GrubFat GrubFile Deflate Canonical GrubGunzip GrubHuffman.

Section Bits.
Context (b : bios) (mem_lower mem_upper : Z) (fsys_table : list fsys_entry).
Context (read : Z -> Z -> fs -> option (Z * fs)) (content : Z -> Z) (size : Z) {R : FileReader mem_lower mem_upper read content size}.
Context (callback : Z -> Z -> files -> option (Z * files)).
(** The buffer and where the compressed data begins. *)
Context (inbuf data : Z).
Hypothesis content_byte : forall x, 0 <= content x < 256.
Hypothesis data_range : 0 <= data <= size.
Hypothesis inbuf_place : file_place mem_lower mem_upper inbuf INBUFSIZ.

Abbreviation opened_file := (file_open b mem_lower mem_upper fsys_table read content size).
Abbreviation rd := (grub_read b mem_lower mem_upper fsys_table callback).

(** The bits of the file. *)
Definition bit (p : Z) : bool := Z.testbit (content (data + p / 8)) (p mod 8).
Abbreviation fld := (field bit).

(** The bytes from number [base] of the data on are in the buffer, and number [q]
    is the next. *)
Record buffered (g : files) (q base : Z) : Prop := {
  bf_base : 0 <= base < size - data;
  bf_pos : filepos (g_fs g) = Z.min size (data + base + INBUFSIZ);
  bf_loc : bufloc (inf g) = q - base;
  bf_range : 0 <= q - base <= INBUFSIZ;
  bf_bytes : forall x, 0 <= x < INBUFSIZ -> data + base + x < size -> ld (g_mem g) (inbuf + x) = content (data + base + x) }.

(** The next byte to be read is number [q] of the data. *)
Record reading (g : files) (q : Z) : Prop := {
  rg_open : opened_file g;
  rg_data : gzip_data_offset (g_gz g) = data;
  rg_next : 0 <= q;
  rg_buffer : q = 0 /\ filepos (g_fs g) = data \/ exists base, buffered g q base }.

(** Memory that reading may change, and what it leaves of the rest. *)
Definition volatile (a : Z) : Prop := in_buffer a \/ in_fsys a \/ inbuf <= a < inbuf + INBUFSIZ.
Record quiet (g g' : files) : Prop := {
  qu_vars : exists n, g_gz g' = set_inflate (set_bufloc n (inf g)) (g_gz g);
  qu_mem : forall a, ~ volatile a -> ld (g_mem g') a = ld (g_mem g) a }.

Lemma quiet_refl g : quiet g g.
Proof. constructor; [| done]. exists (bufloc (inf g)). unfold inf. by destruct g as [? ? [? ? ? ? ? ? ? []]]. Qed.

Lemma quiet_trans g1 g2 g3 : quiet g1 g2 -> quiet g2 g3 -> quiet g1 g3.
Proof.
  intros [[n1 E1] F1] [[n2 E2] F2]. constructor.
  - exists n2. rewrite E2. unfold inf. by rewrite E1.
  - intros a Ha. by rewrite F2, F1.
Qed.

Lemma reading_no_error g q : reading g q -> g_err g = ERR_NONE.
Proof. intros []. apply (fr_no_error _ (fo_open _ _ _ _ _ _ _ _ rg_open0)). Qed.

(** The variables that are not about reading may be changed. *)
Lemma reading_gz g q z : reading g q -> gzip_data_offset z = data -> bufloc (inflate z) = bufloc (inf g) -> reading (set_gz z g) q.
Proof.
  intros [O D N B] Hd H. constructor; [destruct O; by constructor | exact Hd | exact N |].
  destruct B as [B | (base & [B1 B2 B3 B4 B5])]; [by left | right]. exists base. constructor; try done. rewrite <- B3. exact H.
Qed.

Lemma reading_vars g q f : reading g q -> (forall v, bufloc (f v) = bufloc v) -> reading (upd_inf f g) q.
Proof. intros G H. apply reading_gz; [done | apply (rg_data _ _ G) | apply H]. Qed.

Lemma reading_mem g q m : reading g q -> (forall a, volatile a -> ld m a = ld (g_mem g) a) -> reading (upd (set_fmem m) g) q.
Proof.
  intros [O D N B] H. constructor; [| exact D | exact N |].
  - destruct O. constructor; try done. apply (fr_frame (g_fs g)); [done |]. intros a [Ha | Ha]; apply H; [by left | right; by left].
  - destruct B as [B | (base & [B1 B2 B3 B4 B5])]; [by left | right]. exists base. constructor; try done.
    intros x Hx Hs. rewrite <- B5 by done. apply H. right. right. lia.
Qed.

(** Filling the buffer. *)
Lemma fill_buffer_ok g q : reading g q -> filepos (g_fs g) = data + q -> data + q < size ->
  exists n g', rd inbuf INBUFSIZ (upd_inf (set_bufloc 0) g) = Some (n, g') /\ reading g' q /\ quiet g g' /\ buffered g' q q.
Proof.
  intros G Hp Hq. pose proof (rg_next g q G) as Hq0.
  assert (opened_file (upd_inf (set_bufloc 0) g)) as O by (destruct (rg_open _ _ G); by constructor).
  pose proof (grub_read_ok b mem_lower mem_upper fsys_table read content size callback inbuf INBUFSIZ _ O) as H. cbn zeta in H.
  change (filepos (g_fs (upd_inf (set_bufloc 0) g))) with (filepos (g_fs g)) in H. rewrite Hp in H.
  assert (read_from size (data + q) = data + q) as E1.
  { unfold read_from. by rewrite (proj2 (Z.ltb_ge _ _)), (proj2 (Z.ltb_ge _ _)) by lia. }
  assert (read_count size (data + q) INBUFSIZ = Z.min (size - (data + q)) INBUFSIZ) as E2.
  { unfold read_count. rewrite E1, (proj2 (Z.ltb_ge _ _)) by (unfold INBUFSIZ; lia). cbn [orb]. destruct (Z.ltb_spec (size - (data + q)) INBUFSIZ); lia. }
  rewrite E1, E2 in H. assert (INBUFSIZ = 8192) as E8 by done.
  destruct H as (s' & E & O' & (dd & hh & u1 & u2 & M) & B & F); [eapply place_prefix; [exact inbuf_place | lia] |].
  exists (Z.min (size - (data + q)) INBUFSIZ), (set_gfs s' (upd_inf (set_bufloc 0) g)). split; [exact E |].
  assert (buffered (set_gfs s' (upd_inf (set_bufloc 0) g)) q q) as Bf.
  { constructor; [lia | rewrite M; cbn [g_fs set_gfs filepos set_pos set_file set_hook set_maps set_fdisk]; lia | cbn; lia | lia |]. intros x Hx Hs. apply B. lia. }
  split; [constructor; [exact O' | exact (rg_data _ _ G) | done | right; by exists q] |]. split; [| done].
  constructor; [by exists 0 |]. intros a Ha. unfold volatile in Ha. apply F; [tauto | tauto | lia].
Qed.

Lemma next_byte_ok g q base : reading g q -> buffered g q base -> q - base < INBUFSIZ -> data + q < size ->
  exists g', Some (ld (g_mem g) (inbuf + bufloc (inf g)), upd_inf (set_bufloc (bufloc (inf g) + 1)) g) = Some (content (data + q), g') /\
    reading g' (q + 1) /\ quiet g g'.
Proof.
  intros [O D N _] [B1 B2 B3 B4 B5] Hl Hq. eexists. rewrite B3, B5 by lia. replace (data + base + (q - base)) with (data + q) by lia. split; [done |]. split.
  - constructor; [destruct O; by constructor | exact D | lia |]. right. exists base. constructor; [done | exact B2 | cbn; lia | lia | exact B5].
  - constructor; [by eexists | done].
Qed.

Lemma get_byte_ok g q : reading g q -> data + q < size ->
  exists g', get_byte inbuf rd g = Some (content (data + q), g') /\ reading g' (q + 1) /\ quiet g g'.
Proof.
  intros G Hq. unfold get_byte. rewrite (rg_data _ _ G). assert (INBUFSIZ = 8192) as E8 by done.
  assert (filepos (g_fs g) = data + q -> exists g', (g ← ('(_, g) ← rd inbuf INBUFSIZ (upd_inf (set_bufloc 0) g); Some g);
      Some (ld (g_mem g) (inbuf + bufloc (inf g)), upd_inf (set_bufloc (bufloc (inf g) + 1)) g)) = Some (content (data + q), g') /\ reading g' (q + 1) /\ quiet g g') as Hfill.
  { intros Hp. destruct (fill_buffer_ok g q G Hp Hq) as (n & g1 & -> & G1 & Q1 & B1). cbn [mbind option_bind].
    destruct (next_byte_ok g1 q q G1 B1 ltac:(lia) Hq) as (g' & -> & G' & Q'). exists g'. split; [done |]. split; [done |]. by eapply quiet_trans. }
  destruct (rg_buffer _ _ G) as [[-> Hp] | (base & B)].
  - rewrite Hp, Z.eqb_refl. cbn [orb]. apply Hfill. lia.
  - pose proof B as [B1 B2 B3 B4 B5]. rewrite (proj2 (Z.eqb_neq (filepos (g_fs g)) data)) by lia. cbn [orb]. rewrite B3.
    destruct (Z.eqb_spec (q - base) INBUFSIZ) as [E | E].
    + apply Hfill. lia.
    + cbn [mbind option_bind]. apply (next_byte_ok g q base); done || lia.
Qed.

(** *** The bit buffer *)

(** [k] bits from the position [p] on are in [x], before the next byte. *)
Record at_bit (g : files) (p x k : Z) : Prop := {
  ab_pos : 0 <= p;
  ab_size : 0 <= k <= 24;
  ab_byte : (8 | p + k);
  ab_reading : reading g ((p + k) / 8);
  ab_bits : x = fld (Z.to_nat k) p }.

Lemma bit_of_byte c j : bit (8 * c + j) = Z.testbit (content (data + c + j / 8)) (j mod 8).
Proof. unfold bit. f_equal; [f_equal; dlia | dlia]. Qed.

Lemma byte_bits q n : forall j, 0 <= j -> j + Z.of_nat n <= 8 -> fld n (8 * q + j) = content (data + q) / 2 ^ j mod 2 ^ Z.of_nat n.
Proof.
  induction n as [|n IH]; intros j Hj Hn; [by rewrite Z.mod_1_r |]. cbn [field]. replace (8 * q + j + 1) with (8 * q + (j + 1)) by lia. rewrite IH by lia.
  rewrite bit_of_byte. replace (j / 8) with 0 by dlia. rewrite Z.add_0_r, (Z.mod_small j) by lia.
  rewrite Z.pow_add_r, <- Z.div_div by lia. change (2 ^ 1) with 2. set (c := content (data + q) / 2 ^ j).
  assert (Z.b2z (Z.testbit (content (data + q)) j) = c mod 2) as ->.
  { unfold c. rewrite <- Z.shiftr_div_pow2 by done. replace j with (0 + j) at 1 by lia. rewrite <- Z.shiftr_spec by done. by rewrite Z.bit0_mod. }
  rewrite Nat2Z.inj_succ, Z.pow_succ_r, Z.rem_mul_r by lia. done.
Qed.

Lemma whole_byte q : fld 8 (8 * q) = content (data + q).
Proof.
  pose proof (byte_bits q 8 0 ltac:(lia) ltac:(lia)) as H. rewrite Z.add_0_r in H. rewrite H, Z.div_1_r. apply Z.mod_small, content_byte.
Qed.

(** One more byte. *)
Lemma more_bits p k : 0 <= k <= 24 -> (8 | p + k) ->
  fld (Z.to_nat k) p .| u32 (content (data + (p + k) / 8) .<< k) = fld (Z.to_nat (k + 8)) p.
Proof.
  intros Hk [q Hq]. rewrite Hq, Z.div_mul by lia. replace (Z.to_nat (k + 8)) with (Z.to_nat k + 8)%nat by lia.
  rewrite field_app. replace (Z.of_nat (Z.to_nat k)) with k by lia. rewrite Hq. replace (q * 8) with (8 * q) by lia. rewrite whole_byte.
  pose proof (content_byte (data + q)) as Hc. set (c := content (data + q)) in *. rewrite shiftl_mul by lia.
  pose proof (field_range bit (Z.to_nat k) p) as Hf. replace (Z.of_nat (Z.to_nat k)) with k in Hf by lia.
  assert (0 < 2 ^ k <= 2 ^ 24) as Hp by (split; [apply Z.pow_pos_nonneg; lia | apply Z.pow_le_mono_r; lia]). rewrite u32_small by (change (2 ^ 24) with 16777216 in Hp; nia).
  rewrite (Z.mul_comm (2 ^ k)). set (f := fld _ _) in *. clearbody f c. rewrite Z.add_nocarry_lxor.
  - symmetry. apply Z.bits_inj'. intros i Hi. rewrite Z.lxor_spec, Z.lor_spec. destruct (Z.lt_ge_cases i k).
    + rewrite (Z.mul_pow2_bits_low c k i) by done. by destruct (Z.testbit f i).
    + rewrite (testbit_high f k) by lia. done.
  - apply Z.bits_inj'. intros i Hi. rewrite Z.land_spec, Z.bits_0. destruct (Z.lt_ge_cases i k).
    + rewrite (Z.mul_pow2_bits_low c k i) by done. apply andb_false_r.
    + by rewrite (testbit_high f k) by lia.
Qed.

Lemma at_bit_keep g g' p x k : at_bit g p x k -> (forall q, reading g q -> reading g' q) -> at_bit g' p x k.
Proof. intros [P1 P2 P3 P4 P5] H. constructor; try done. by apply H. Qed.

(** How many bits there are. *)
Abbreviation limit := (8 * (size - data)).

Lemma needbits_loop_ok n p : n <= 16 -> p + n <= limit -> forall f x k g, at_bit g p x k -> n - k <= Z.of_nat f ->
  exists x' k' g', needbits_loop inbuf rd f n x k g = Some (x', k', g') /\ at_bit g' p x' k' /\ n <= k' /\ quiet g g'.
Proof.
  intros Hn Hp. induction f as [|f IH]; intros x k g A Hf; cbn [needbits_loop]; destruct (Z.ltb_spec k n) as [Hk | Hk]; try lia.
  1, 3: exists x, k, g; split_and!; try done; apply quiet_refl.
  pose proof A as [P1 P2 P3 P4 P5]. pose proof P3 as [q Hq]. rewrite Hq, Z.div_mul in P4 by lia.
  destruct (get_byte_ok g q P4 ltac:(lia)) as (g1 & -> & G1 & Q1). cbn [mbind option_bind].
  assert (at_bit g1 p (x .| u32 (content (data + q) .<< k)) (k + 8)) as A1.
  { constructor; [done | lia | exists (q + 1); lia | replace (p + (k + 8)) with ((q + 1) * 8) by lia; by rewrite Z.div_mul by lia |].
    rewrite P5, <- more_bits by done. do 4 f_equal. by rewrite Hq, Z.div_mul by lia. }
  destruct (IH _ _ g1 A1 ltac:(lia)) as (x' & k' & g' & -> & A' & Hk' & Q'). exists x', k', g'. split_and!; try done. by eapply quiet_trans.
Qed.

Lemma needbits_ok n p x k g : at_bit g p x k -> 0 <= n <= 16 -> p + n <= limit ->
  exists x' k' g', NEEDBITS inbuf rd n x k g = Some (x', k', g') /\ at_bit g' p x' k' /\ n <= k' /\ quiet g g'.
Proof. intros A Hn Hp. apply (needbits_loop_ok n p); try done; try lia. destruct A. lia. Qed.

Lemma dump_ok n p x k g : at_bit g p x k -> 0 <= n <= k -> at_bit g (p + n) (x .>> n) (k - n) /\ x .& ((1 .<< n) - 1) = fld (Z.to_nat n) p.
Proof.
  intros [P1 P2 P3 P4 P5] Hn. replace (Z.to_nat n) with (Z.to_nat n)%nat by done.
  pose proof (field_high bit (Z.to_nat n) (Z.to_nat k) p ltac:(lia)) as Hh. pose proof (field_low bit (Z.to_nat n) (Z.to_nat k) p ltac:(lia)) as Hl.
  replace (Z.of_nat (Z.to_nat n)) with n in * by lia. split.
  - constructor; [lia | lia | by replace (p + n + (k - n)) with (p + k) by lia.. |].
    rewrite P5, shiftr_div, Hh by lia. f_equal. lia.
  - rewrite shiftl_mul, Z.mul_1_l by lia. replace (2 ^ n - 1) with (Z.ones n) by (rewrite Z.ones_equiv; lia). by rewrite land_low, P5, Hl by lia.
Qed.

Lemma mask_bits_ok n : 0 <= n <= 16 -> get mask_bits n = Some ((1 .<< n) - 1).
Proof.
  intros H. assert (forallb (fun n => bool_decide (get mask_bits n = Some ((1 .<< n) - 1))) (seqZ 0 17) = true) as A by reflexivity.
  rewrite forallb_forall in A. specialize (A n). rewrite <- list_elem_of_In, elem_of_seqZ in A. apply (bool_decide_unpack _). apply Is_true_true. apply A. lia.
Qed.

Lemma take_bits_ok n p x k g : at_bit g p x k -> 0 <= n <= 16 -> p + n <= limit ->
  exists x' k' g', take_bits inbuf rd n x k g = Some (fld (Z.to_nat n) p, x', k', g') /\ at_bit g' (p + n) x' k' /\ quiet g g'.
Proof.
  intros A Hn Hp. unfold take_bits. destruct (needbits_ok n p x k g A Hn Hp) as (x' & k' & g' & -> & A' & Hk & Q). cbn [mbind option_bind].
  destruct (dump_ok n p x' k' g' A' ltac:(lia)) as [D ->]. by exists (x' .>> n), (k' - n), g'.
Qed.

(** *** Decoding a symbol *)

(** The tables are between [lo] and [hi], and reading does not touch them. *)
Context (lo hi : Z).
Hypothesis tables_apart : forall a, lo <= a < hi -> ~ volatile a.

Lemma quiet_leads g g' t w n k r x : quiet g g' -> leads (g_mem g) lo hi t w n k r x -> leads (g_mem g') lo hi t w n k r x.
Proof. intros Q. apply leads_frame. intros a Ha. apply (qu_mem _ _ Q), tables_apart, Ha. Qed.

Lemma walk_tables_ok : forall f N t w p n e v x k g, leads (g_mem g) lo hi t w (fld N p) n e v -> e <= 16 -> w <= 15 -> n <= Z.of_nat f ->
  n + 15 <= Z.of_nat N -> p + n + 15 <= limit -> at_bit g p x k -> w <= k ->
  exists bits x' k' g', walk_tables inbuf rd f (t + huft_size * (x .& ((1 .<< w) - 1))) x k g = Some (Some (Huft e bits v), x', k', g') /\
    at_bit g' (p + n) x' k' /\ quiet g g'.
Proof.
  induction f as [|f IH]; intros N t w p n e v x k g L He Hw Hf HN Hp A Hk.
  { exfalso. inversion L; subst; lia. }
  assert (0 < w) as Hw0 by (inversion L; subst; lia).
  destruct (dump_ok w p x k g A ltac:(lia)) as [_ E]. rewrite E. unfold huft_size.
  assert (fld N p mod 2 ^ w = fld (Z.to_nat w) p) as Em.
  { replace w with (Z.of_nat (Z.to_nat w)) at 1 by lia. apply field_low. destruct (Z.le_gt_cases w n); inversion L; subst; lia. }
  rewrite <- Em. inversion L as [? ? ? ? ? ? Hn Hb Hl | ? ? ? ? ? ? j t' Hn Hb Hl Hj L']; subst; cbn [walk_tables]; rewrite Hl; cbn [h_e h_b h_v].
  - rewrite (proj2 (Z.ltb_ge _ _)) by done. destruct (dump_ok n p x k g A ltac:(lia)) as [D _].
    eexists n, _, _, g. split; [done |]. split; [exact D | apply quiet_refl].
  - rewrite (proj2 (Z.ltb_lt _ _)), (proj2 (Z.eqb_neq _ 99)) by lia. replace (16 + j - 16) with j by lia.
    destruct (dump_ok w p x k g A ltac:(lia)) as [D _].
    destruct (needbits_ok j (p + w) _ _ g D ltac:(lia) ltac:(lia)) as (x1 & k1 & g1 & -> & A1 & K1 & Q1). cbn [mbind option_bind].
    rewrite mask_bits_ok by lia. cbn [mbind option_bind]. apply (quiet_leads g g1 _ _ _ _ _ _ Q1) in L'.
    assert (fld N p / 2 ^ w = fld (N - Z.to_nat w) (p + w)) as Eh.
    { replace w with (Z.of_nat (Z.to_nat w)) at 1 3 by lia. apply field_high. lia. }
    rewrite Eh in L'.
    destruct (IH (N - Z.to_nat w)%nat t' j (p + w) (n - w) e v x1 k1 g1) as (bits & x' & k' & g' & E' & A' & Q'); try done; try lia.
    rewrite E'. exists bits, x', k', g'. split; [done |]. split; [by replace (p + n) with (p + w + (n - w)) by lia | by eapply quiet_trans].
Qed.

(** [decode] gives the entry of the symbol whose code comes next. *)
Lemma decode_ok lens s d e stray t w p c len x k g : decodes lens s d e stray (g_mem g) lo hi t w -> 1 <= w <= 15 ->
  symbol_at bit lens p c len -> len <= 15 -> (forall bits, h_e (entry s d e stray c bits) <= 16) -> p + len + 15 <= limit -> at_bit g p x k ->
  exists bits x' k' g', decode inbuf rd t w x k g = Some (Some (entry s d e stray c bits), x', k', g') /\ at_bit g' (p + len) x' k' /\ quiet g g'.
Proof.
  intros D Hw S Hl He Hp A. pose proof S as (S1 & S2 & S3). unfold decode.
  destruct (needbits_ok w p x k g A ltac:(lia) ltac:(lia)) as (x1 & k1 & g1 & -> & A1 & K1 & Q1). cbn [mbind option_bind].
  rewrite mask_bits_ok by lia. cbn [mbind option_bind].
  destruct (D c len (fld 30 p) S1 S2) as (bits & Hb & L); [apply symbol_bits; [done | lia] |].
  apply (quiet_leads g g1 _ _ _ _ _ _ Q1) in L.
  destruct (walk_tables_ok 16 30 t w p len _ _ x1 k1 g1 L) as (bits' & x' & k' & g' & E' & A' & Q'); try done; try lia.
  rewrite E'. exists bits', x', k', g'. split; [| split; [done | by eapply quiet_trans]].
  unfold entry. destruct (_ <? s); done.
Qed.
End Bits.
