(* ===== verification/GrubWindow.v ===== *)
(** * The window of the decoder

    The last 32 kilobytes of the output are in [slide], which is used as a ring;
    the copying loop of [inflate_codes_in_window] repeats a part of the output
    up to the end of the ring. *)

From S2P Require Import Prelude Machine LibcString GrubString GrubTerm GrubReadline GrubBios GrubDisk GrubDevice GrubPart GrubFsys GrubFat GrubFile Deflate Canonical GrubGunzip.

(** ** Repeating *)

Lemma repeat_app n : forall m d o, repeat_from (n + m) d o = repeat_from m d (repeat_from n d o).
Proof. induction n as [|n IH]; intros m d o; [done |]. cbn [Nat.add repeat_from]. apply IH. Qed.

Lemma repeat_length_from n : forall d o, length (repeat_from n d o) = (length o + n)%nat.
Proof. induction n as [|n IH]; intros d o; cbn [repeat_from]; [lia |]. rewrite IH, length_app. cbn. lia. Qed.

Lemma repeat_old n : forall d o i, (i < length o)%nat -> nth i (repeat_from n d o) 0 = nth i o 0.
Proof. induction n as [|n IH]; intros d o i Hi; cbn [repeat_from]; [done |]. rewrite IH by (rewrite length_app; lia). by apply app_nth1. Qed.

Lemma repeat_new n : forall d o i, (1 <= d <= length o)%nat -> (length o <= i < length o + n)%nat ->
  nth i (repeat_from n d o) 0 = nth (i - d) (repeat_from n d o) 0.
Proof.
  induction n as [|n IH]; intros d o i Hd Hi; [lia |]. cbn [repeat_from]. set (o1 := o ++ [nth (length o - d) o 0]).
  assert (length o1 = S (length o)) as Hl by (unfold o1; rewrite length_app; cbn; lia).
  destruct (Nat.eq_dec i (length o)) as [-> |]; [| apply IH; lia].
  rewrite !repeat_old by lia. unfold o1. rewrite nth_middle, app_nth1 by lia. done.
Qed.

Lemma repeat_prefix n : forall d o, exists l, repeat_from n d o = o ++ l.
Proof.
  induction n as [|n IH]; intros d o; [exists []; by rewrite app_nil_r |]. cbn [repeat_from]. destruct (IH d (o ++ [nth (length o - d) o 0])) as [l ->].
  rewrite <- app_assoc. by eexists.
Qed.

Section Window.
Context (mem_lower mem_upper slide : Z).
Hypothesis slide_place : file_place mem_lower mem_upper slide WSIZE.

Abbreviation len o := (Z.of_nat (length o)).
Definition at_ (o : list Z) (i : Z) : Z := nth (Z.to_nat i) o 0.

(** The end of the output is in the ring. *)
Definition window (m : mem) (o : list Z) : Prop :=
  forall i, 0 <= i < len o -> len o - WSIZE <= i -> ld m (slide + i mod WSIZE) = at_ o i.

(** Memory outside the ring is kept. *)
Definition only_ring (m m' : mem) : Prop := forall a, ~ (slide <= a < slide + WSIZE) -> ld m' a = ld m a.

Lemma window_frame m m' o : window m o -> (forall a, slide <= a < slide + WSIZE -> ld m' a = ld m a) -> window m' o.
Proof.
  intros H F i Hi Hw. rewrite F; [by apply H |]. pose proof (Z.mod_pos_bound i WSIZE ltac:(done)). lia.
Qed.

(** Output that is written at its place, up to the end of the ring. *)
Lemma window_extend m m' o l start w : window m o -> len o = start + w -> (WSIZE | start) -> 0 <= w -> w + len l <= WSIZE ->
  (forall i, 0 <= i < len l -> ld m' (slide + (w + i)) = at_ l i) ->
  (forall a, ~ (slide + w <= a < slide + (w + len l)) -> ld m' a = ld m a) -> window m' (o ++ l).
Proof.
  intros H Ho [q Hq] Hw Hl Hn Hf i Hi Hin. rewrite length_app in Hi, Hin. unfold at_.
  assert (WSIZE = 32768) as EW by done. rewrite EW in *. clear EW.
  destruct (Z.lt_ge_cases i (len o)) as [Hlt | Hge].
  - rewrite app_nth1 by lia. rewrite Hf; [apply H; change WSIZE with 32768; lia |]. pose proof (Z.mod_pos_bound i 32768 ltac:(done)).
    assert (i mod 32768 < w \/ w + len l <= i mod 32768); [| lia].
    destruct (Z.lt_ge_cases i start); [right | left].
    + assert (i mod 32768 = i - (q - 1) * 32768) as -> by (symmetry; apply (Z.mod_unique _ _ (q - 1)); lia). lia.
    + assert (i mod 32768 = i - q * 32768) as -> by (symmetry; apply (Z.mod_unique _ _ q); lia). lia.
  - rewrite app_nth2 by lia. assert (i mod 32768 = w + (i - len o)) as -> by (symmetry; apply (Z.mod_unique _ _ q); lia).
    rewrite Hn by lia. unfold at_. f_equal. lia.
Qed.

(** *** Copying *)

(** [e] bytes from the place [d] in the ring. *)
Lemma copy_bytes m m' o start w d dist e : window m o -> len o = start + w -> (WSIZE | start) -> 0 <= w -> w + e <= WSIZE ->
  1 <= dist <= WSIZE -> dist <= len o -> d = (w - dist) mod WSIZE -> 0 <= e -> d + e <= WSIZE ->
  (forall i, 0 <= i < e -> ld m' (slide + (w + i)) = if i <? dist then ld m (slide + (d + i)) else ld m' (slide + (w + (i - dist)))) ->
  (forall a, ~ (slide + w <= a < slide + (w + e)) -> ld m' a = ld m a) -> window m' (repeat_from (Z.to_nat e) (Z.to_nat dist) o).
Proof.
  intros H Ho Hs Hw He Hd Hdo Ed He0 Hde Hn Hf. set (o' := repeat_from (Z.to_nat e) (Z.to_nat dist) o).
  assert (length o' = (length o + Z.to_nat e)%nat) as Lo by apply repeat_length_from.
  assert (o' = o ++ drop (length o) o') as E.
  { rewrite <- (take_drop (length o) o') at 1. f_equal. apply nth_ext with (d := 0) (d' := 0); [rewrite length_take; lia |].
    intros i Hi. rewrite length_take in Hi. rewrite nth_lookup, lookup_take_lt, <- nth_lookup by lia. apply repeat_old. lia. }
  assert (len (drop (length o) o') = e) as Ll by (rewrite length_drop; lia).
  assert (WSIZE = 32768) as EW by done.
  assert (forall n, forall i, 0 <= i < e -> i < Z.of_nat n -> ld m' (slide + (w + i)) = at_ o' (len o + i)) as Hbytes.
  { induction n as [|n IH]; intros i Hi Hin; [lia |]. rewrite Hn by done.
    assert (at_ o' (len o + i) = at_ o' (len o + i - dist)) as ->.
    { unfold at_, o'. rewrite repeat_new by lia. f_equal. lia. }
    destruct (Z.ltb_spec i dist) as [Hid | Hid].
    - destruct Hs as [q Hq]. assert ((len o + i - dist) mod WSIZE = d + i) as Em.
      { symmetry. apply (Z.mod_unique _ _ (q + (w - dist) / WSIZE)); [left; pose proof (Z.mod_pos_bound (w - dist) WSIZE); lia |].
        pose proof (Z.div_mod (w - dist) WSIZE ltac:(done)). lia. }
      rewrite <- Em. rewrite H by lia. unfold at_, o'. symmetry. apply repeat_old. lia.
    - rewrite IH by lia. f_equal. lia. }
  rewrite E. apply (window_extend m m' o _ start w); try done; rewrite Ll; try done.
  intros i Hi. rewrite (Hbytes (S (Z.to_nat i))) by lia. unfold at_. rewrite E at 1. rewrite app_nth2 by lia. f_equal. lia.
Qed.

(** The bytes that one turn of the loop stores. *)
Definition copy_turn (e d w : Z) (g : files) : files :=
  if e <=? u32 (w - d)
  then upd (fun s => set_fdisk (move mem_lower mem_upper (slide + w) (slide + d) e (f_disk s)) s) g
  else upd (fun s => set_fmem (for_range 0 e (fun i m => st m (slide + (w + i)) (ld m (slide + (d + i)))) (f_mem s)) s) g.

Lemma copy_turn_ok g o start w d dist e : g_err g = ERR_NONE -> window (g_mem g) o -> len o = start + w -> (WSIZE | start) -> 0 <= w < WSIZE ->
  1 <= dist <= WSIZE -> dist <= len o -> d = (w - dist) mod WSIZE -> 0 < e <= WSIZE - Z.max w d ->
  exists m', copy_turn e d w g = upd (set_fmem m') g /\ window m' (repeat_from (Z.to_nat e) (Z.to_nat dist) o) /\ only_ring (g_mem g) m'.
Proof.
  intros He H Ho Hs Hw Hd Hdo Ed Hb. assert (WSIZE = 32768) as EW by done. pose proof (Z.mod_pos_bound (w - dist) WSIZE ltac:(done)) as Hdr. rewrite <- Ed in Hdr.
  assert (dist = if d <? w then w - d else w - d + WSIZE) as Edist.
  { pose proof (Z.div_mod (w - dist) WSIZE ltac:(done)) as Hdm. rewrite <- Ed in Hdm. rewrite EW in *. destruct (Z.ltb_spec d w); nia. }
  destruct slide_place as [[T1 T2 T3 T4 T5] T6].
  unfold copy_turn. destruct (Z.leb_spec e (u32 (w - d))) as [Hmove | Hbytes].
  - destruct (move_ok mem_lower mem_upper T1 T2 (slide + w) (slide + d) e (f_disk (g_fs g)) He) as (m' & Em & C); [lia | unfold mem_ok in *; lia | lia |].
    exists m'. split; [unfold upd; by rewrite Em |]. change (d_mem (f_disk (g_fs g))) with (g_mem g) in C. unfold copied in C.
    assert (e <= dist) as Hed.
    { destruct (Z.ltb_spec d w) as [Hdw |]; [| lia]. rewrite u32_small in Hmove by lia. lia. }
    split.
    + apply (copy_bytes (g_mem g) m' o start w d dist e); try done; try lia.
      * intros i Hi. rewrite (proj2 (Z.ltb_lt i dist)) by lia. rewrite C, decide_True by lia. f_equal. lia.
      * intros a Ha. rewrite C, decide_False by lia. done.
    + intros a Ha. rewrite C, decide_False by lia. done.
  - eexists. split; [reflexivity |]. change (f_mem (g_fs g)) with (g_mem g).
    assert (e <= dist \/ d + dist = w) as Hed by (destruct (Z.ltb_spec d w); lia).
    pose proof (for_range_inv (fun k m => (forall i, 0 <= i < k -> ld m (slide + (w + i)) = if i <? dist then ld (g_mem g) (slide + (d + i)) else ld m (slide + (w + (i - dist)))) /\
        (forall a, ~ (slide + w <= a < slide + (w + k)) -> ld m a = ld (g_mem g) a))
      (fun i m => st m (slide + (w + i)) (ld m (slide + (d + i)))) 0 e (g_mem g) ltac:(lia)) as [I1 I2].
    { split; [lia | done]. }
    { intros k m Hk [I1 I2]. split.
      - intros i Hi. rewrite !ld_st. destruct (Z.eq_dec i k) as [-> |].
        + rewrite decide_True by done. destruct (Z.ltb_spec k dist) as [Hkd | Hkd].
          * apply I2. destruct (Z.ltb_spec d w); lia.
          * rewrite decide_False by lia. f_equal. lia.
        + rewrite decide_False by lia. rewrite I1 by lia. destruct (Z.ltb_spec i dist); [done |]. by rewrite decide_False by lia.
      - intros a Ha. rewrite ld_st_ne by lia. apply I2. lia. }
    split.
    + apply (copy_bytes (g_mem g) _ o start w d dist e); try done; lia.
    + intros a Ha. apply I2. lia.
Qed.

Lemma copy_loop_unfold f n d w g :
  copy_loop mem_lower mem_upper slide (S f) n d w g =
  let d := d .& (WSIZE - 1) in
  let e := Z.min n (WSIZE - Z.max w d) in
  let g := copy_turn e d w g in
  if (w + e =? WSIZE) || (n - e =? 0) then Some (n - e, d + e, w + e, g) else copy_loop mem_lower mem_upper slide f (n - e) (d + e) (w + e) g.
Proof.
  cbn [copy_loop]. set (d' := d .& (WSIZE - 1)). cbv zeta.
  assert ((if n <? WSIZE - (if w <? d' then d' else w) then n else WSIZE - (if w <? d' then d' else w)) = Z.min n (WSIZE - Z.max w d')) as ->.
  { destruct (Z.ltb_spec w d'); [replace (Z.max w d') with d' by lia | replace (Z.max w d') with w by lia]; zcase; lia. }
  done.
Qed.

(** The copying loop repeats [n] bytes, or as many as there is room for. *)
Lemma copy_loop_ok dist : 1 <= dist <= WSIZE -> forall f n d w g o start, g_err g = ERR_NONE -> window (g_mem g) o -> len o = start + w -> (WSIZE | start) -> 0 <= w < WSIZE ->
  dist <= len o -> d mod WSIZE = (w - dist) mod WSIZE -> 0 < n <= Z.of_nat f ->
  exists e d' m', copy_loop mem_lower mem_upper slide f n d w g = Some (n - e, d', w + e, upd (set_fmem m') g) /\ 0 < e <= n /\ w + e <= WSIZE /\
    (e = n \/ w + e = WSIZE) /\ d' mod WSIZE = (w + e - dist) mod WSIZE /\ window m' (repeat_from (Z.to_nat e) (Z.to_nat dist) o) /\ only_ring (g_mem g) m'.
Proof.
  intros Hd. assert (WSIZE = 32768) as EW by done. induction f as [|f IH]; intros n d w g o start He H Ho Hs Hw Hdo Ed Hn; [lia |]. rewrite copy_loop_unfold.
  assert (d .& (WSIZE - 1) = (w - dist) mod WSIZE) as ->.
  { rewrite <- Ed. change (WSIZE - 1) with (Z.ones 15). rewrite Z.land_ones by lia. done. }
  cbv zeta. set (d0 := (w - dist) mod WSIZE). pose proof (Z.mod_pos_bound (w - dist) WSIZE ltac:(done)) as Hdr. fold d0 in Hdr.
  set (e := Z.min n (WSIZE - Z.max w d0)). assert (0 < e <= WSIZE - Z.max w d0 /\ e <= n) as Hb by lia.
  destruct (copy_turn_ok g o start w d0 dist e He H Ho Hs Hw Hd Hdo eq_refl ltac:(lia)) as (m1 & E1 & W1 & O1).
  assert ((d0 + e) mod WSIZE = (w + e - dist) mod WSIZE) as Ed1.
  { unfold d0. rewrite Zplus_mod_idemp_l. f_equal. lia. }
  destruct (Z.eqb_spec (w + e) WSIZE) as [Ew | Ew]; cbn [orb].
  { exists e, (d0 + e), m1. rewrite E1. split_and!; try done; lia. }
  destruct (Z.eqb_spec (n - e) 0) as [En | En].
  { exists e, (d0 + e), m1. rewrite E1. split_and!; try done; lia. }
  set (o1 := repeat_from (Z.to_nat e) (Z.to_nat dist) o) in *.
  assert (len o1 = len o + e) as Lo by (unfold o1; rewrite repeat_length_from; lia). rewrite E1.
  destruct (IH (n - e) (d0 + e) (w + e) (upd (set_fmem m1) g) o1 start) as (e' & d' & m' & E & B1 & B2 & B3 & B4 & B5 & B6); try done; try lia.
  exists (e + e'), d', m'. rewrite E. replace (n - (e + e')) with (n - e - e') by lia. replace (w + (e + e')) with (w + e + e') by lia. split; [reflexivity |].
  split; [lia |]. split; [lia |]. split; [lia |]. split; [rewrite B4; f_equal; lia |]. split.
  - replace (Z.to_nat (e + e')) with (Z.to_nat e + Z.to_nat e')%nat by lia. rewrite repeat_app. exact B5.
  - intros a Ha. rewrite B6 by done. by apply O1.
Qed.
End Window.
