(* ===== verification/GrubInflate.v ===== *)
(** * The codes of a block

    [inflate_codes_in_window]: what it writes to the window, and where it stops
    when the window is full, against the codes of [Deflate]. *)

From S2P Require Import Prelude Machine LibcString GrubString GrubTerm GrubReadline GrubBios GrubDisk GrubDevice GrubPart GrubFsys GrubFat GrubFile Deflate Canonical GrubGunzip GrubHuffman GrubBits GrubWindow.

(** ** The entries of lengths and distances *)

Lemma look_some stray l i x : get l i = Some x -> look stray l i = x.
Proof. unfold look. by intros ->. Qed.

Lemma length_tables c base x : length_code (Z.of_nat c) = Some (base, x) ->
  (257 <= c)%nat /\ get cplext (Z.of_nat c - 257) = Some x /\ get cplens (Z.of_nat c - 257) = Some base /\ 0 <= x <= 5 /\ 0 < base /\ base + 2 ^ x <= 259.
Proof.
  intros H. assert ((257 <= c < 286)%nat) as Hc.
  { unfold length_code in H. destruct (Z.ltb_spec (Z.of_nat c) 257), (Z.ltb_spec 285 (Z.of_nat c)); try done. lia. }
  assert (forallb (fun c => match length_code (Z.of_nat c) with
    | Some (base, x) => bool_decide ((257 <= c)%nat /\ get cplext (Z.of_nat c - 257) = Some x /\ get cplens (Z.of_nat c - 257) = Some base /\ (0 <= x <= 5) /\ 0 < base /\ base + 2 ^ x <= 259)
    | None => true end) (seq 257 29) = true) as A by (vm_compute; reflexivity).
  rewrite forallb_forall in A. specialize (A c ltac:(apply in_seq; lia)). rewrite H in A. by apply bool_decide_eq_true_1 in A.
Qed.

Lemma distance_tables c base x : distance_code (Z.of_nat c) = Some (base, x) ->
  get cpdext (Z.of_nat c) = Some x /\ get cpdist (Z.of_nat c) = Some base /\ 0 <= x <= 13 /\ 0 < base /\ base + 2 ^ x <= 32769.
Proof.
  intros H. assert ((c < 30)%nat) as Hc.
  { unfold distance_code in H. destruct (Z.ltb_spec (Z.of_nat c) 0), (Z.ltb_spec 29 (Z.of_nat c)); try done. lia. }
  assert (forallb (fun c => match distance_code (Z.of_nat c) with
    | Some (base, x) => bool_decide (get cpdext (Z.of_nat c) = Some x /\ get cpdist (Z.of_nat c) = Some base /\ (0 <= x <= 13) /\ 0 < base /\ base + 2 ^ x <= 32769)
    | None => true end) (seq 0 30) = true) as A by (vm_compute; reflexivity).
  rewrite forallb_forall in A. specialize (A c ltac:(apply in_seq; lia)). rewrite H in A. by apply bool_decide_eq_true_1 in A.
Qed.

Lemma length_entry stray c base x bits : length_code (Z.of_nat c) = Some (base, x) -> entry 257 cplens cplext stray c bits = Huft x bits base.
Proof.
  intros H. destruct (length_tables c base x H) as (H1 & H2 & H3 & H4 & H5 & H6). unfold entry.
  rewrite (proj2 (Z.ltb_ge _ _)), (look_some _ _ _ _ H2), (look_some _ _ _ _ H3) by lia. pose proof (Z.pow_nonneg 2 x ltac:(lia)).
  by rewrite u8_small, u16_small by lia.
Qed.

Lemma distance_entry stray c base x bits : distance_code (Z.of_nat c) = Some (base, x) -> entry 0 cpdist cpdext stray c bits = Huft x bits base.
Proof.
  intros H. destruct (distance_tables c base x H) as (H2 & H3 & H4 & H5 & H6). unfold entry.
  rewrite (proj2 (Z.ltb_ge _ _)), Z.sub_0_r, (look_some _ _ _ _ H2), (look_some _ _ _ _ H3) by lia. pose proof (Z.pow_nonneg 2 x ltac:(lia)).
  by rewrite u8_small, u16_small by lia.
Qed.

Lemma literal_entry stray c bits : (c <= 256)%nat -> entry 257 cplens cplext stray c bits = Huft (if (c <? 256)%nat then 16 else 15) bits (Z.of_nat c).
Proof.
  intros H. unfold entry. rewrite (proj2 (Z.ltb_lt _ _)) by lia. f_equal. destruct (Nat.ltb_spec c 256), (Z.ltb_spec (Z.of_nat c) 256); done || lia.
Qed.

(** Codes move on and extend the output. *)
Lemma codes_forward bit lit dist p o p' o' : codes bit lit dist p o p' o' -> p < p' /\ exists l, o' = o ++ l.
Proof.
  induction 1 as [p o n H | p o c n p' o' H Hc _ [IH1 [l IH2]] | p o c n base x c2 n2 base2 x2 p' o' H Hl p1 H2 Hd len d Hdo _ [IH1 [l IH2]]].
  - destruct H as (_ & H & _). split; [lia |]. exists []. by rewrite app_nil_r.
  - destruct H as (_ & H & _). split; [lia |]. rewrite IH2, <- app_assoc. by eexists.
  - destruct H as (_ & H & _), H2 as (_ & H2 & _). pose proof (length_tables _ _ _ Hl). pose proof (distance_tables _ _ _ Hd). split; [lia |].
    rewrite IH2. destruct (repeat_prefix (Z.to_nat len) (Z.to_nat d) o) as [l' ->]. rewrite <- app_assoc. by eexists.
Qed.

Section Codes.
Context (b : bios) (mem_lower mem_upper : Z) (fsys_table : list fsys_entry).
Context (read : Z -> Z -> fs -> option (Z * fs)) (content : Z -> Z) (size : Z) {R : FileReader mem_lower mem_upper read content size}.
Context (callback : Z -> Z -> files -> option (Z * files)).
Context (slide inbuf data lo hi : Z) (stray : Z -> Z).
Hypothesis content_byte : forall x, 0 <= content x < 256.
Hypothesis data_range : 0 <= data <= size.
Hypothesis inbuf_place : file_place mem_lower mem_upper inbuf INBUFSIZ.
Hypothesis slide_place : file_place mem_lower mem_upper slide WSIZE.
Hypothesis tables_apart : forall a, lo <= a < hi -> ~ volatile inbuf a.
Hypothesis slide_apart : forall a, slide <= a < slide + WSIZE -> ~ volatile inbuf a /\ ~ (lo <= a < hi).

Abbreviation rd := (grub_read b mem_lower mem_upper fsys_table callback).
Abbreviation bits := (bit content data).
Abbreviation fld := (field bits).
Abbreviation limit := (8 * (size - data)).
Abbreviation at_ := (at_bit b mem_lower mem_upper fsys_table read content size inbuf data).
Abbreviation len o := (Z.of_nat (length o)).

(** What decoding leaves: of the variables, all but three of the decoder's; of the
    memory, what is not the window or for reading. *)
Record steady (g g' : files) : Prop := {
  sd_vars : exists n m c, g_gz g' = set_inflate (set_bufloc n (set_block_len m (set_code_state c (inf g)))) (g_gz g);
  sd_mem : forall a, ~ volatile inbuf a -> ~ (slide <= a < slide + WSIZE) -> ld (g_mem g') a = ld (g_mem g) a }.

Lemma steady_refl g : steady g g.
Proof.
  constructor; [| done]. exists (bufloc (inf g)), (block_len (inf g)), (code_state (inf g)). unfold inf. by destruct g as [? ? [? ? ? ? ? ? ? []]].
Qed.

Lemma steady_trans g1 g2 g3 : steady g1 g2 -> steady g2 g3 -> steady g1 g3.
Proof.
  intros [(n1 & m1 & c1 & E1) F1] [(n2 & m2 & c2 & E2) F2]. constructor.
  - exists n2, m2, c2. rewrite E2. unfold inf. by rewrite E1.
  - intros a Ha Hs. by rewrite F2, F1.
Qed.

Lemma quiet_steady g g' : quiet inbuf g g' -> steady g g'.
Proof.
  intros [[n E] F]. constructor; [| intros a Ha _; by apply F]. exists n, (block_len (inf g)), (code_state (inf g)). rewrite E. unfold inf.
  by destruct g as [? ? [? ? ? ? ? ? ? []]].
Qed.

Lemma steady_vars g m c : steady g (upd_inf (fun v => set_block_len m (set_code_state c v)) g).
Proof. constructor; [| done]. exists (bufloc (inf g)), m, c. unfold inf. by destruct g as [? ? [? ? ? ? ? ? ? []]]. Qed.

Lemma steady_ring g m : only_ring slide (g_mem g) m -> steady g (upd (set_fmem m) g).
Proof. intros H. constructor; [| intros a _ Ha; by apply H]. destruct (steady_refl g) as [E _]. exact E. Qed.

(** The tables of the codes of a block. *)
Record coding (g : files) (lit dist : list Z) : Prop := {
  cd_lit : 1 <= bl (inf g) <= 15 /\ decodes lit 257 cplens cplext stray (g_mem g) lo hi (tl (inf g)) (bl (inf g));
  cd_dist : Forall (fun x => x = 0) dist \/ 1 <= bd (inf g) <= 15 /\ decodes dist 0 cpdist cpdext stray (g_mem g) lo hi (td (inf g)) (bd (inf g));
  cd_lens : Forall (fun x => x <= 15) lit /\ Forall (fun x => x <= 15) dist }.

Lemma coding_steady g g' lit dist : steady g g' -> coding g lit dist -> coding g' lit dist.
Proof.
  intros [(n & m & c & E) F] [[L1 L2] D H].
  assert (forall a, lo <= a < hi -> ld (g_mem g') a = ld (g_mem g) a) as Hm.
  { intros a Ha. apply F; [by apply tables_apart |]. intros Hs. by destruct (slide_apart a Hs). }
  assert (inf g' = set_bufloc n (set_block_len m (set_code_state c (inf g)))) as Ei by (unfold inf at 1; by rewrite E).
  constructor; [| | done]; rewrite Ei; cbn [bl tl bd td set_bufloc set_block_len set_code_state].
  - split; [done |]. eapply decodes_widen; [done | done | exact Hm | done].
  - destruct D as [D | [D1 D2]]; [by left | right]. split; [done |]. eapply decodes_widen; [done | done | exact Hm | done].
Qed.

Abbreviation quiet := (quiet inbuf).

Lemma need_bits n p x k g : at_ g p x k -> 0 <= n <= 16 -> p + n <= limit ->
  exists x' k' g', NEEDBITS inbuf rd n x k g = Some (x', k', g') /\ at_ g' p x' k' /\ n <= k' /\ quiet g g'.
Proof. apply needbits_ok; done. Qed.

(** The extra bits after a symbol: [x & mask_bits[n]], and [x >> n]. *)
Lemma extra_bits n p x k g : at_ g p x k -> 0 <= n <= 16 -> p + n <= limit ->
  exists x' k' g', NEEDBITS inbuf rd n x k g = Some (x', k', g') /\ x' .& ((1 .<< n) - 1) = fld (Z.to_nat n) p /\ at_ g' (p + n) (x' .>> n) (k' - n) /\ quiet g g'.
Proof.
  intros A Hn Hp. destruct (need_bits n p x k g A Hn Hp) as (x' & k' & g' & E & A' & Hk & Q). exists x', k', g'.
  destruct (dump_ok b mem_lower mem_upper fsys_table read content size inbuf data n p x' k' g' A') as [D ->]; [lia |]. done.
Qed.

Lemma next_symbol lens s d e t w p c n x k g : decodes lens s d e stray (g_mem g) lo hi t w -> 1 <= w <= 15 -> symbol_at bits lens p c n ->
  Forall (fun x => x <= 15) lens -> (forall m, h_e (entry s d e stray c m) <= 16) -> p + n + 15 <= limit -> at_ g p x k ->
  exists m x' k' g', decode inbuf rd t w x k g = Some (Some (entry s d e stray c m), x', k', g') /\ at_ g' (p + n) x' k' /\ quiet g g'.
Proof.
  intros D Hw S Hl He Hp A. pose proof S as (S1 & S2 & S3). pose proof (Forall_lookup_1 _ _ _ _ Hl S1) as Hn. cbn beta in Hn.
  by apply (decode_ok b mem_lower mem_upper fsys_table read content size callback inbuf data content_byte data_range inbuf_place lo hi tables_apart lens).
Qed.

(** *** One symbol *)

Lemma decode_end s p n g lit dist : coding g lit dist -> symbol_at bits lit p 256 n -> p + n + 15 <= limit -> at_ g p (c_b s) (c_k s) ->
  exists x k g', decode_symbol slide inbuf rd s g = Some (Break, Locals (c_n s) (c_d s) (c_w s) x k, upd_inf (set_block_len 0) g') /\
    at_ g' (p + n) x k /\ quiet g g'.
Proof.
  intros [[L1 L2] _ [L3 _]] S Hp A. unfold decode_symbol.
  destruct (next_symbol lit 257 cplens cplext (tl (inf g)) (bl (inf g)) p 256 n (c_b s) (c_k s) g L2 L1 S L3) as (m & x & k & g' & -> & A' & Q); [| done | done |].
  { intros m. by rewrite literal_entry by lia. }
  cbn [mbind option_bind]. rewrite literal_entry by lia. cbn [h_e]. change (Nat.ltb 256 256) with false. cbn iota. change (15 =? 16) with false. change (15 =? 15) with true. cbn iota.
  by exists x, k, g'.
Qed.

Lemma decode_literal s p c n g lit dist : coding g lit dist -> symbol_at bits lit p c n -> (c < 256)%nat -> p + n + 15 <= limit -> at_ g p (c_b s) (c_k s) ->
  exists x k g', decode_symbol slide inbuf rd s g
      = Some (if c_w s + 1 =? WSIZE then Break else Continue, Locals (c_n s) (c_d s) (c_w s + 1) x k, upd (fun f => set_fmem (st (f_mem f) (slide + c_w s) (Z.of_nat c)) f) g') /\
    at_ g' (p + n) x k /\ quiet g g'.
Proof.
  intros [[L1 L2] _ [L3 _]] S Hc Hp A. unfold decode_symbol.
  destruct (next_symbol lit 257 cplens cplext (tl (inf g)) (bl (inf g)) p c n (c_b s) (c_k s) g L2 L1 S L3) as (m & x & k & g' & -> & A' & Q); [| done | done |].
  { intros m. rewrite literal_entry by lia. by rewrite (proj2 (Nat.ltb_lt _ _)) by done. }
  cbn [mbind option_bind]. rewrite literal_entry, (proj2 (Nat.ltb_lt _ _)) by lia. cbn [h_e h_v]. change (16 =? 16) with true. cbn iota.
  rewrite u16_small, u8_small by lia. by exists x, k, g'.
Qed.

Lemma decode_copy s p c n base x c2 n2 base2 x2 g lit dist : coding g lit dist ->
  symbol_at bits lit p c n -> length_code (Z.of_nat c) = Some (base, x) ->
  let p1 := p + n + x in
  symbol_at bits dist p1 c2 n2 -> distance_code (Z.of_nat c2) = Some (base2, x2) -> p1 + n2 + x2 + 40 <= limit -> at_ g p (c_b s) (c_k s) ->
  exists y k g', decode_symbol slide inbuf rd s g
      = Some (Continue, Locals (base + fld (Z.to_nat x) (p + n)) (u32 (c_w s - (base2 + fld (Z.to_nat x2) (p1 + n2)))) (c_w s) y k,
          upd_inf (set_code_state (code_state (inf g') + 1)) g') /\
    at_ g' (p1 + n2 + x2) y k /\ quiet g g'.
Proof.
  intros C S Hl p1 S2 Hd Hp A. pose proof (length_tables _ _ _ Hl) as (T1 & _ & _ & T4 & T5 & T6). pose proof (distance_tables _ _ _ Hd) as (_ & _ & U4 & U5 & U6).
  pose proof S as (_ & Hn & _). pose proof S2 as (S2a & Hn2 & _). pose proof C as [[L1 L2] D [L3 L4]]. unfold decode_symbol.
  assert (1 <= bd (inf g) <= 15 /\ decodes dist 0 cpdist cpdext stray (g_mem g) lo hi (td (inf g)) (bd (inf g))) as [D1 D2].
  { destruct D as [D | D]; [| done]. pose proof (Forall_lookup_1 _ _ _ _ D S2a) as H. cbn beta in H. lia. }
  assert (forall m, h_e (entry 257 cplens cplext stray c m) <= 16) as H1 by (intros m; rewrite (length_entry _ _ base x) by done; cbn; lia).
  assert (forall m, h_e (entry 0 cpdist cpdext stray c2 m) <= 16) as H2 by (intros m; rewrite (distance_entry _ _ base2 x2) by done; cbn; lia).
  destruct (next_symbol lit 257 cplens cplext (tl (inf g)) (bl (inf g)) p c n (c_b s) (c_k s) g L2 L1 S L3 H1 ltac:(lia) A) as (m1 & y1 & k1 & g1 & -> & A1 & Q1).
  cbn [mbind option_bind]. rewrite (length_entry _ _ base x) by done. cbn [h_e h_v]. rewrite !(proj2 (Z.eqb_neq x _)) by lia.
  destruct (extra_bits x (p + n) y1 k1 g1 A1 ltac:(lia) ltac:(lia)) as (y2 & k2 & g2 & -> & E2 & A2 & Q2). cbn [mbind option_bind].
  rewrite mask_bits_ok by lia. cbn [mbind option_bind]. rewrite E2. pose proof (quiet_trans _ _ _ _ Q1 Q2) as Q12.
  assert (td (inf g2) = td (inf g) /\ bd (inf g2) = bd (inf g)) as [-> ->] by (destruct Q12 as [[z Ez] _]; unfold inf; by rewrite Ez).
  assert (decodes dist 0 cpdist cpdext stray (g_mem g2) lo hi (td (inf g)) (bd (inf g))) as D3.
  { eapply decodes_widen; [done | done | | exact D2]. intros a Ha. apply (qu_mem _ _ _ Q12), tables_apart, Ha. }
  destruct (next_symbol dist 0 cpdist cpdext (td (inf g)) (bd (inf g)) p1 c2 n2 _ _ g2 D3 D1 S2 L4 H2 ltac:(lia) A2) as (m3 & y3 & k3 & g3 & -> & A3 & Q3).
  cbn [mbind option_bind]. rewrite (distance_entry _ _ base2 x2) by done. cbn [h_e h_v].
  destruct (extra_bits x2 (p1 + n2) y3 k3 g3 A3 ltac:(lia) ltac:(lia)) as (y4 & k4 & g4 & -> & E4 & A4 & Q4). cbn [mbind option_bind].
  rewrite mask_bits_ok by lia. cbn [mbind option_bind]. rewrite E4. pose proof (Z.pow_nonneg 2 x ltac:(lia)). pose proof (Z.pow_nonneg 2 x2 ltac:(lia)).
  rewrite !u16_small by lia. exists (y4 .>> x2), (k4 - x2), g4. replace (c_w s - base2 - fld (Z.to_nat x2) (p1 + n2)) with (c_w s - (base2 + fld (Z.to_nat x2) (p1 + n2))) by lia.
  split; [done |]. split; [done |]. eapply quiet_trans; [exact Q12 |]. by eapply quiet_trans.
Qed.

Lemma at_vars g p x k f : at_ g p x k -> (forall v, bufloc (f v) = bufloc v) -> at_ (upd_inf f g) p x k.
Proof. intros A H. apply (at_bit_keep _ _ _ _ _ _ _ _ _ g); [done |]. intros q G. by apply reading_vars. Qed.

Lemma at_ring g p x k m : at_ g p x k -> only_ring slide (g_mem g) m -> at_ (upd (set_fmem m) g) p x k.
Proof.
  intros A H. apply (at_bit_keep _ _ _ _ _ _ _ _ _ g); [done |]. intros q G. apply reading_mem; [done |]. intros a Ha. apply H. intros Hs.
  by destruct (slide_apart a Hs).
Qed.

(** *** The codes up to the end of the window *)

(** What is still to be copied, and the output with it. *)
Definition todo (copy : option (Z * Z)) (o : list Z) : list Z :=
  match copy with None => o | Some (n, d) => repeat_from (Z.to_nat n) (Z.to_nat d) o end.

(** Inside the codes of a block: [o] has been written, [p] is the next bit. *)
Record in_codes (lit dist : list Z) (start : Z) (g : files) (s : locals) (o : list Z) (p : Z) (copy : option (Z * Z)) : Prop := {
  ic_bits : at_ g p (c_b s) (c_k s);
  ic_coding : coding g lit dist;
  ic_window : window slide (g_mem g) o;
  ic_len : len o = start + c_w s;
  ic_start : (WSIZE | start);
  ic_place : 0 <= c_w s;
  ic_copy : match copy with
            | None => code_state (inf g) = 0
            | Some (n, d) => code_state (inf g) = 1 /\ c_n s = n /\ 0 < n /\ 1 <= d <= WSIZE /\ d <= len o /\ c_d s mod WSIZE = (c_w s - d) mod WSIZE
            end }.

Lemma in_codes_error lit dist start g s o p copy : in_codes lit dist start g s o p copy -> g_err g = ERR_NONE.
Proof. intros []. destruct ic_bits0. by eapply reading_no_error. Qed.

Lemma copy_step lit dist start g s o p n d : in_codes lit dist start g s o p (Some (n, d)) -> c_w s < WSIZE ->
  exists s' g' o' copy', copy_string mem_lower mem_upper slide s g = Some (if c_w s' =? WSIZE then Break else Continue, s', g') /\
    in_codes lit dist start g' s' o' p copy' /\ todo copy' o' = todo (Some (n, d)) o /\ (copy' = None \/ c_w s' = WSIZE) /\ c_w s' <= WSIZE /\
    steady g g' /\ block_len (inf g') = block_len (inf g).
Proof.
  intros I Hw. pose proof (in_codes_error _ _ _ _ _ _ _ _ I) as He. destruct I as [A C W L S P (K1 & K2 & K3 & K4 & K5 & K6)]. unfold copy_string. subst n.
  destruct (copy_loop_ok mem_lower mem_upper slide slide_place d K4 (Datatypes.S (Z.to_nat (c_n s))) (c_n s) (c_d s) (c_w s) g o start He W L S ltac:(lia) K5 K6 ltac:(lia))
    as (e & d' & m & -> & E1 & E2 & E3 & E4 & E5 & E6).
  cbn [mbind option_bind]. set (o' := repeat_from (Z.to_nat e) (Z.to_nat d) o) in *.
  assert (len o' = len o + e) as Lo by (unfold o'; rewrite repeat_length_from; lia).
  pose proof (steady_ring g m E6) as St. pose proof (at_ring g p _ _ m A E6) as A'.
  assert (todo (Some (c_n s, d)) o = repeat_from (Z.to_nat (c_n s - e)) (Z.to_nat d) o') as Et.
  { unfold todo, o'. rewrite <- repeat_app. f_equal. lia. }
  destruct (Z.eqb_spec (c_n s - e) 0) as [En | En].
  - set (g' := upd_inf (set_code_state (code_state (inf (upd (set_fmem m) g)) - 1)) (upd (set_fmem m) g)).
    assert (steady g g') as St'.
    { eapply steady_trans; [exact St |]. apply (steady_vars _ (block_len (inf (upd (set_fmem m) g)))). }
    exists (Locals (c_n s - e) d' (c_w s + e) (c_b s) (c_k s)), g', o', None. split; [reflexivity |]. cbn [c_w c_n c_d c_b c_k]. split; [| split; [| split; [by left | split; [done | split; [exact St' | done]]]]].
    + constructor; cbn [c_w c_n c_d c_b c_k]; try done; try lia.
      * by apply at_vars.
      * by eapply coding_steady.
      * change (code_state (inf g) - 1 = 0). lia.
    + rewrite Et, En. done.
  - exists (Locals (c_n s - e) d' (c_w s + e) (c_b s) (c_k s)), (upd (set_fmem m) g), o', (Some (c_n s - e, d)). split; [reflexivity |]. cbn [c_w c_n c_d c_b c_k].
    split; [| split; [done | split; [right; lia | split; [done | split; [exact St | done]]]]].
    constructor; cbn [c_w c_n c_d c_b c_k]; try done; try lia.
    + by eapply coding_steady.
    + split; [exact K1 |]. split; [done |]. split; [lia |]. split; [done |]. split; [lia | done].
Qed.

(** How [codes_loop] ends: with the block, or with the window. *)
Record ended (start : Z) (g g' : files) (s' : locals) (p' : Z) (o' : list Z) : Prop := {
  en_bits : at_ g' p' (c_b s') (c_k s');
  en_window : window slide (g_mem g') o';
  en_len : len o' = start + c_w s';
  en_place : 0 <= c_w s' < WSIZE;
  en_block : block_len (inf g') = 0 }.

Record suspended (lit dist : list Z) (start : Z) (g g' : files) (s' : locals) (p' : Z) (o' : list Z) : Prop := {
  su_full : c_w s' = WSIZE;
  su_block : block_len (inf g') = block_len (inf g);
  su_codes : exists p o copy, in_codes lit dist start g' s' o p copy /\ codes bits lit dist p (todo copy o) p' o' }.

Lemma in_codes_quiet lit dist start g g' s o p p1 x k : in_codes lit dist start g s o p None -> quiet g g' -> at_ g' p1 x k ->
  in_codes lit dist start g' (Locals (c_n s) (c_d s) (c_w s) x k) o p1 None.
Proof.
  intros [A C W L S P K] Q A'. pose proof (quiet_steady _ _ Q) as St. constructor; cbn [c_b c_k c_w]; try done.
  - by eapply coding_steady.
  - eapply window_frame; [exact W |]. intros a Ha. apply (qu_mem _ _ _ Q). by destruct (slide_apart a Ha).
  - destruct Q as [[n E] _]. unfold inf. by rewrite E.
Qed.

Lemma in_codes_literal lit dist start g s o p c : in_codes lit dist start g s o p None -> c_w s < WSIZE ->
  let g' := upd (fun f => set_fmem (st (f_mem f) (slide + c_w s) c) f) g in
  steady g g' /\ in_codes lit dist start g' (Locals (c_n s) (c_d s) (c_w s + 1) (c_b s) (c_k s)) (o ++ [c]) p None.
Proof.
  intros [A C W L S P K] Hw g'.
  assert (only_ring slide (g_mem g) (st (g_mem g) (slide + c_w s) c)) as Or by (intros a Ha; rewrite ld_st_ne by lia; done).
  assert (steady g g') as St by (by apply steady_ring). split; [done |]. constructor; cbn [c_b c_k c_w]; try done; try lia.
  - by apply at_ring.
  - by eapply coding_steady.
  - apply (window_extend mem_lower mem_upper slide slide_place (g_mem g) (st (g_mem g) (slide + c_w s) c) o [c] start (c_w s)); try done; cbn [length]; try lia.
    + intros i Hi. replace i with 0 by lia. rewrite Z.add_0_r. apply ld_st_eq.
    + intros a Ha. by rewrite ld_st_ne by lia.
  - rewrite length_app. cbn. lia.
Qed.

Lemma in_codes_copy lit dist start g s o p n d : in_codes lit dist start g s o p None -> 0 < n -> 1 <= d <= WSIZE -> d <= len o ->
  let g' := upd_inf (set_code_state (code_state (inf g) + 1)) g in
  steady g g' /\ in_codes lit dist start g' (Locals n (u32 (c_w s - d)) (c_w s) (c_b s) (c_k s)) o p (Some (n, d)).
Proof.
  intros [A C W L S P K] Hn Hd Ho g'. assert (steady g g') as St by (apply (steady_vars g (block_len (inf g)))).
  split; [done |]. constructor; cbn [c_b c_k c_w c_n c_d]; try done.
  - by apply at_vars.
  - by eapply coding_steady.
  - split; [change (code_state (inf g) + 1 = 1); cbn in K; lia |]. split; [done |]. split; [done |]. split; [done |]. split; [done |].
    unfold u32. change WSIZE with 32768. apply Z.mod_mod_divide. by exists 131072.
Qed.

Lemma codes_loop_ok lit dist start p' o' : p' + 40 <= limit -> forall f g s o p copy, in_codes lit dist start g s o p copy -> c_w s < WSIZE ->
  codes bits lit dist p (todo copy o) p' o' -> p' - p + (match copy with None => 0 | _ => 1 end) < Z.of_nat f ->
  exists s' g', codes_loop mem_lower mem_upper slide inbuf rd f s g = Some (Break, s', g') /\ steady g g' /\
    (ended start g g' s' p' o' \/ suspended lit dist start g g' s' p' o').
Proof.
  intros Hp. induction f as [|f IH]; intros g s o p copy I Hw C Hf.
  { apply codes_forward in C as [C _]. destruct copy; lia. }
  cbn [codes_loop]. destruct copy as [[n d]|].
  - destruct (ic_copy _ _ _ _ _ _ _ _ I) as (K1 & _). rewrite K1. change (1 =? 0) with false. cbn iota. cbn [mbind option_bind]. rewrite K1. change (1 =? 0) with false. cbn iota.
    destruct (copy_step _ _ _ _ _ _ _ _ _ I Hw) as (s1 & g1 & o1 & copy1 & -> & I1 & Et & H1 & H2 & S1 & B1). cbn [mbind option_bind]. rewrite <- Et in C.
    destruct (Z.eqb_spec (c_w s1) WSIZE) as [E | E].
    + exists s1, g1. split; [done |]. split; [done |]. right. constructor; [done | done |]. by exists p, o1, copy1.
    + destruct H1 as [-> | H1]; [| done]. destruct (IH g1 s1 o1 p None I1 ltac:(lia) C ltac:(lia)) as (s' & g' & -> & S' & H).
      exists s', g'. split; [done |]. split; [by eapply steady_trans |].
      destruct H as [H | [U1 U2 U3]]; [left; destruct H; by constructor | right]. constructor; [done | congruence | done].
  - cbn [todo] in C. pose proof I as [A Cd W L S P K]. cbn in K. rewrite K. change (0 =? 0) with true. cbn iota.
    inversion C as [? ? n Hs | ? ? c n ? ? Hs Hc C1 | ? ? c n base x c2 n2 base2 x2 ? ? Hs Hl q1 Hs2 Hd ln dd Hdo C1]; subst.
    + destruct (decode_end s p n g lit dist Cd Hs ltac:(lia) A) as (x & k & g1 & -> & A1 & Q1). cbn [mbind option_bind].
      pose proof (quiet_steady _ _ Q1) as S1. eexists _, _. split; [reflexivity |]. split.
      * eapply steady_trans; [exact S1 |]. apply (steady_vars g1 0 (code_state (inf g1))).
      * left. constructor; cbn [c_b c_k c_w]; try done.
        -- by apply at_vars.
        -- eapply window_frame; [exact W |]. intros a Ha. apply (qu_mem _ _ _ Q1). by destruct (slide_apart a Ha).
    + pose proof (codes_forward _ _ _ _ _ _ _ C1) as [Hpp _]. destruct (decode_literal s p c n g lit dist Cd Hs Hc ltac:(lia) A) as (x & k & g1 & -> & A1 & Q1). cbn [mbind option_bind].
      destruct (in_codes_literal _ _ _ _ _ _ _ (Z.of_nat c) (in_codes_quiet _ _ _ _ _ _ _ _ _ _ _ I Q1 A1) Hw) as [S2 I2]. cbn [c_w c_n c_d c_b c_k] in S2, I2.
      set (g2 := upd _ g1) in *. pose proof (steady_trans _ _ _ (quiet_steady _ _ Q1) S2) as S3.
      assert (block_len (inf g2) = block_len (inf g)) as B1 by (destruct Q1 as [[z Ez] _]; change (block_len (inf g1) = block_len (inf g)); unfold inf; by rewrite Ez).
      destruct (Z.eqb_spec (c_w s + 1) WSIZE) as [E | E].
      * eexists _, _. split; [reflexivity |]. split; [exact S3 |]. right. constructor; [done | done |]. by exists (p + n), (o ++ [Z.of_nat c]), None.
      * cbn [mbind option_bind]. pose proof (ic_copy _ _ _ _ _ _ _ _ I2) as K2. cbn in K2. rewrite K2. change (0 =? 0) with true. cbn iota. cbn [mbind option_bind].
        destruct (IH g2 _ _ _ None I2 ltac:(cbn; lia) C1 ltac:(destruct Hs; lia)) as (s' & g' & -> & S' & H).
        exists s', g'. split; [done |]. split; [by eapply steady_trans |].
        destruct H as [H | [U1 U2 U3]]; [left; destruct H; by constructor | right]. constructor; [done | congruence | done].
    + pose proof (codes_forward _ _ _ _ _ _ _ C1) as [Hpp _]. pose proof (length_tables _ _ _ Hl) as (T1 & _ & _ & T4 & T5 & T6). pose proof (distance_tables _ _ _ Hd) as (_ & _ & U4 & U5 & U6).
      destruct (decode_copy s p c n base x c2 n2 base2 x2 g lit dist Cd Hs Hl Hs2 Hd ltac:(lia) A) as (y & k & g1 & -> & A1 & Q1). fold q1 ln dd in A1 |- *. cbn [mbind option_bind].
      pose proof (field_range bits (Z.to_nat x) (p + n)) as F1. pose proof (field_range bits (Z.to_nat x2) (q1 + n2)) as F2. rewrite Z2Nat.id in F1, F2 by lia.
      destruct (in_codes_copy _ _ _ _ _ _ _ ln dd (in_codes_quiet _ _ _ _ _ _ _ _ _ _ _ I Q1 A1)) as [S2 I2]; [unfold ln; lia | unfold dd; change WSIZE with 32768; lia | done |].
      cbn [c_w c_n c_d c_b c_k] in S2, I2. set (g2 := upd_inf _ g1) in *. pose proof (steady_trans _ _ _ (quiet_steady _ _ Q1) S2) as S3.
      assert (block_len (inf g2) = block_len (inf g)) as B1 by (destruct Q1 as [[z Ez] _]; change (block_len (inf g1) = block_len (inf g)); unfold inf; by rewrite Ez).
      destruct (ic_copy _ _ _ _ _ _ _ _ I2) as (K2 & _). rewrite K2. change (1 =? 0) with false. cbn iota.
      destruct (copy_step _ _ _ _ _ _ _ _ _ I2 Hw) as (s3 & g3 & o3 & copy3 & -> & I3 & Et & H1 & H2 & S4 & B3). cbn [mbind option_bind]. cbn [todo] in Et. rewrite <- Et in C1.
      pose proof (steady_trans _ _ _ S3 S4) as S5.
      destruct (Z.eqb_spec (c_w s3) WSIZE) as [E | E].
      * exists s3, g3. split; [done |]. split; [done |]. right. constructor; [done | congruence |]. by exists (q1 + n2 + x2), o3, copy3.
      * destruct H1 as [-> | H1]; [| done]. cbn [todo] in C1. assert (p < q1 + n2 + x2) as Hadv by (destruct Hs as (_ & ? & _), Hs2 as (_ & ? & _); lia).
        destruct (IH g3 s3 o3 _ None I3 ltac:(lia) C1 ltac:(lia)) as (s' & g' & -> & S' & H).
        exists s', g'. split; [done |]. split; [by eapply steady_trans |].
        destruct H as [H | [V1 V2 V3]]; [left; destruct H; by constructor | right]. constructor; [done | congruence | done].
Qed.
End Codes.
