(* ===== verification/GrubHeader.v ===== *)
(** * The headers of the blocks

    [get_new_block] and the functions for the three kinds of blocks: they leave
    the tables that the description of the block in [Deflate] calls for. *)

From S2P Require Import Prelude Machine LibcString GrubString GrubTerm GrubReadline GrubBios GrubDisk GrubDevice GrubPart GrubFsys GrubFat GrubFile Deflate Canonical GrubGunzip GrubHuffman GrubBits GrubWindow GrubInflate.

(** The memory that the tables of a block need. *)
Definition heap_room : Z := 190000.

Lemma fixed_lengths_are : fixed_lengths = fixed_lit.
Proof. vm_compute. reflexivity. Qed.

Lemma all_short (P : Z -> Prop) `{forall x, Decision (P x)} l : forallb (fun x => bool_decide (P x)) l = true -> Forall P l.
Proof. intros E. apply Forall_forall. intros x Hx. rewrite forallb_forall in E. specialize (E x Hx). by apply bool_decide_eq_true_1 in E. Qed.

Lemma fixed_lit_suits : suits fixed_lit 7 /\ Forall (fun x => x <= 9) fixed_lit /\ usable fixed_lit.
Proof.
  assert (Forall (fun x => 0 <= x <= 9) fixed_lit) as H by (apply (all_short (fun x => 0 <= x <= 9)); vm_compute; reflexivity).
  assert (usable fixed_lit) as U by (split; [eapply Forall_impl; [| exact H]; cbn; lia | left; vm_compute; reflexivity]).
  split; [| split; [eapply Forall_impl; [| exact H]; cbn; lia | done]].
  constructor.
  - apply U.
  - vm_compute. discriminate.
  - vm_compute. lia.
  - lia.
  - apply Exists_exists. exists 7. split; [| lia]. apply list_elem_of_In. apply (list_elem_of_lookup_2 _ 256%nat). vm_compute. reflexivity.
  - by left.
  - right. eapply Forall_impl; [| exact H]; cbn; lia.
Qed.

Lemma fixed_dist_suits : suits fixed_dist 5 /\ Forall (fun x => x <= 5) fixed_dist.
Proof.
  assert (Forall (fun x => 0 <= x <= 5) fixed_dist) as H by (apply (all_short (fun x => 0 <= x <= 5)); vm_compute; reflexivity).
  split; [| eapply Forall_impl; [| exact H]; cbn; lia].
  constructor.
  - eapply Forall_impl; [| exact H]; cbn; lia.
  - vm_compute. discriminate.
  - cbn. lia.
  - lia.
  - by apply Exists_cons_hd.
  - right. eapply Forall_impl; [| exact H]; cbn; lia.
  - right. eapply Forall_impl; [| exact H]; cbn; lia.
Qed.

(** *** Lengths of codes for lengths *)

Lemma bitorder_is : bitorder = map Z.of_nat length_order.
Proof. reflexivity. Qed.

Lemma order_nodup : NoDup length_order.
Proof. by apply (bool_decide_unpack _); vm_compute. Qed.

Lemma order_small i o : length_order !! i = Some o -> (o < 19)%nat.
Proof.
  intros H. assert (Forall (fun o => o < 19)%nat length_order) as F by (by apply (bool_decide_unpack _); vm_compute). exact (Forall_lookup_1 _ _ _ _ F H).
Qed.

Lemma order_find s : (s < 19)%nat -> exists i, list_find (eq s) length_order = Some (i, s) /\ length_order !! i = Some s.
Proof.
  intros H. assert (forallb (fun s => match list_find (eq s) length_order with Some (i, y) => bool_decide (y = s /\ length_order !! i = Some s) | None => false end)
    (seq 0 19) = true) as A by (vm_compute; reflexivity).
  rewrite forallb_forall in A. specialize (A s ltac:(apply in_seq; lia)). destruct (list_find (eq s) length_order) as [[i y] |]; [| done].
  apply bool_decide_eq_true_1 in A as [-> A]. by exists i.
Qed.

(** *** Lengths of codes *)

Lemma take_put ll i x : (i < length ll)%nat -> exists ll', put ll (Z.of_nat i) x = Some ll' /\ take (S i) ll' = take i ll ++ [x] /\ length ll' = length ll.
Proof.
  intros H. rewrite put_some by lia. rewrite Nat2Z.id. eexists. split; [done |]. split; [| apply length_insert].
  rewrite (take_S_r _ _ x) by (by rewrite list_lookup_insert_eq). by rewrite take_insert_ge.
Qed.

Lemma repeat_length_ok x j : forall i ll, (i + j <= length ll)%nat ->
  exists ll', repeat_length j (Z.of_nat i) x ll = Some ll' /\ take (i + j) ll' = take i ll ++ replicate j x /\ length ll' = length ll.
Proof.
  induction j as [|j IH]; intros i ll H; cbn [repeat_length].
  - exists ll. rewrite Nat.add_0_r, app_nil_r. done.
  - destruct (take_put ll i x ltac:(lia)) as (ll1 & -> & T1 & L1). cbn [mbind option_bind].
    replace (Z.of_nat i + 1) with (Z.of_nat (S i)) by lia. destruct (IH (S i) ll1 ltac:(lia)) as (ll' & -> & T' & L').
    exists ll'. split; [done |]. split; [| lia]. replace (i + S j)%nat with (S i + j)%nat by lia. rewrite T', T1, <- app_assoc. done.
Qed.

Lemma runs_forward bit lens n p l p' l' : run_lengths bit lens n p l p' l' -> p <= p' /\ (length l <= n)%nat /\ length l' = n.
Proof.
  induction 1 as [p l H | p l s k p' l' H Hs Hl _ IH | p l s k base x p' l' H Hl Hin r Hr _ IH]; [lia | |].
  - destruct H as (_ & H & _). lia.
  - destruct H as (_ & H & _). lia.
Qed.

Section Header.
Context (b : bios) (mem_lower mem_upper : Z) (fsys_table : list fsys_entry).
Context (read : Z -> Z -> fs -> option (Z * fs)) (content : Z -> Z) (size : Z) {R : FileReader mem_lower mem_upper read content size}.
Context (callback : Z -> Z -> files -> option (Z * files)).
Context (slide inbuf data lo : Z) (junk : list Z) (stray : Z -> Z).
Definition heap_end : Z := u32 ((mem_upper .<< 10) + 0x100000).
Abbreviation hi := heap_end.
Hypothesis content_byte : forall x, 0 <= content x < 256.
Hypothesis data_range : 0 <= data <= size.
Hypothesis inbuf_place : file_place mem_lower mem_upper inbuf INBUFSIZ.
Hypothesis slide_place : file_place mem_lower mem_upper slide WSIZE.
Hypothesis tables_apart : forall a, lo <= a < hi -> ~ volatile inbuf a.
Hypothesis slide_apart : forall a, slide <= a < slide + WSIZE -> ~ volatile inbuf a /\ ~ (lo <= a < hi).
Hypothesis room : 0 <= lo /\ lo + heap_room <= hi.
Hypothesis junk_length : length junk = 288%nat.

Abbreviation rd := (grub_read b mem_lower mem_upper fsys_table callback).
Abbreviation bits := (bit content data).
Abbreviation fld := (field bits).
Abbreviation limit := (8 * (size - data)).
Abbreviation at_ := (at_bit b mem_lower mem_upper fsys_table read content size inbuf data).
Abbreviation coding := (coding lo hi stray).

Lemma heap_end_ok : (4 | hi) /\ hi < 4294967296.
Proof.
  unfold heap_end. split; [| apply u32_range]. unfold u32. rewrite shiftl_mul by lia. change (2 ^ 10) with 1024.
  exists ((mem_upper * 256 + 262144) mod 1073741824). dlia.
Qed.

(** What a header leaves of the rest: it writes to the tables' memory and to the
    decoder's variables, but not to those of the window. *)
Record header_only (g g' : files) : Prop := {
  ho_vars : exists v, g_gz g' = set_inflate v (g_gz g) /\ wp v = wp (inf g);
  ho_mem : forall a, ~ volatile inbuf a -> ~ (lo <= a < hi) -> ld (g_mem g') a = ld (g_mem g) a }.

Lemma header_trans g1 g2 g3 : header_only g1 g2 -> header_only g2 g3 -> header_only g1 g3.
Proof.
  intros [(v1 & E1 & W1) F1] [(v2 & E2 & W2) F2]. constructor.
  - exists v2. rewrite E2, E1. split; [done |]. rewrite W2. unfold inf. by rewrite E1.
  - intros a Ha Hb. by rewrite F2, F1.
Qed.

Lemma header_quiet g g' : quiet inbuf g g' -> header_only g g'.
Proof. intros [[n E] F]. constructor; [eexists; split; [exact E | done] |]. intros a Ha _. by apply F. Qed.

Lemma header_vars g f : (forall v, wp (f v) = wp v) -> header_only g (upd_inf f g).
Proof. intros H. constructor; [| done]. eexists. split; [reflexivity | apply H]. Qed.

Lemma at_set g p x k f : at_ g p x k -> (forall v, bufloc (f v) = bufloc v) -> at_ (upd_inf f g) p x k.
Proof. intros A H. apply (at_bit_keep _ _ _ _ _ _ _ _ _ g); [done |]. intros q G. by apply reading_vars. Qed.

Lemma at_gz g p x k z : at_ g p x k -> gzip_data_offset z = data -> bufloc (inflate z) = bufloc (inf g) -> at_ (set_gz z g) p x k.
Proof. intros A H1 H2. apply (at_bit_keep _ _ _ _ _ _ _ _ _ g); [done |]. intros q G. by apply reading_gz. Qed.

(** *** Building tables *)

(** The tables of the code [lens] are at [t] and what has been taken for them is
    above the new top. *)
Record tables_built (lens : list Z) (s : Z) (d e : list Z) (m need : Z) (g g' : files) (w t : Z) : Prop := {
  tb_bits : 1 <= w <= m;
  tb_direct : Forall (fun x => x <= m) lens -> Forall (fun x => x <= w) lens;
  tb_decodes : decodes lens s d e stray (g_mem g') (linalloc_topaddr (inf g')) (linalloc_topaddr (inf g)) t w;
  tb_top : linalloc_topaddr (inf g) - need <= linalloc_topaddr (inf g') <= linalloc_topaddr (inf g) /\ (4 | linalloc_topaddr (inf g'));
  tb_vars : exists h, g_gz g' = set_inflate (set_hufts h (set_linalloc (linalloc_topaddr (inf g')) (inf g))) (g_gz g);
  tb_mem : forall a, ~ (lo <= a < linalloc_topaddr (inf g)) -> ld (g_mem g') a = ld (g_mem g) a }.

Lemma build_tables_ok lens s d e m G t g p x k : suits lens m -> Forall (fun z => z <= G) lens ->
  let need := tables_room m G (Z.of_nat (length lens)) in
  lo + need <= linalloc_topaddr (inf g) <= hi -> (4 | linalloc_topaddr (inf g)) -> at_ g p x k ->
  exists r w t' g', build_tables junk stray lens s d e m t g = Some (r, w, t', g') /\ (usable lens -> r = 0) /\ 0 <= r <= 1 /\
    tables_built lens s d e m need g g' w t' /\ at_ g' p x k.
Proof.
  intros S HG need Hn H4 A. destruct heap_end_ok as [_ Hhi]. unfold build_tables. set (hp := Heap (g_mem g) (linalloc_topaddr (inf g)) (hufts (inf g)) t).
  destruct (huft_build_ok junk stray lens s d e m hp G S junk_length HG) as (r & w & hp' & -> & Hu & Hr & [B1 B2 B3 B4 B5 B6]); [cbn [hp_top hp]; fold need; lia | done |].
  cbn [mbind option_bind]. set (g' := upd (set_fmem (hp_mem hp')) _). exists r, w, (hp_root hp'), g'. cbn [hp_top hp_mem hp] in B3, B5, B6.
  fold need in B3. split; [done |]. split; [done |]. split; [done |]. split.
  - constructor; [done | done | | | | ].
    + exact B6.
    + cbn. split; [lia | done].
    + by exists (hp_hufts hp').
    + intros a Ha. apply B5. lia.
  - unfold g'. apply (at_bit_keep _ _ _ _ _ _ _ _ _ g); [done |]. intros q Hq. apply reading_mem; [by apply reading_vars |].
    intros a Ha. change (ld (hp_mem hp') a = ld (g_mem g) a). apply B5. intros Hb. apply (tables_apart a); [lia | done].
Qed.

Lemma built_header lens s d e m need g g' w t : linalloc_topaddr (inf g) <= hi -> tables_built lens s d e m need g g' w t -> header_only g g'.
Proof.
  intros Hl [_ _ _ T [h E] F]. constructor.
  - eexists. split; [exact E | done].
  - intros a _ Ha. apply F. lia.
Qed.

Lemma room_fixed : tables_room 7 9 288 = 13576 /\ tables_room 5 5 30 = 520.
Proof. split; vm_compute; reflexivity. Qed.

Lemma room_lit n : tables_room 9 15 n = 8200 + 520 * n /\ tables_room 6 15 n = 1032 + 1040 * n /\ tables_room 7 7 n = 2056.
Proof.
  unfold tables_room. change (2 ^ (9 + 1)) with 1024. change (2 ^ Z.min 9 (15 - 9)) with 64. change ((15 - 1) / 9) with 1.
  change (2 ^ (6 + 1)) with 128. change (2 ^ Z.min 6 (15 - 6)) with 64. change ((15 - 1) / 6) with 2.
  change (2 ^ (7 + 1)) with 256. change ((7 - 1) / 7) with 0. lia.
Qed.

(** The same for a code that may have no symbols. *)
Record tables_for (lens : list Z) (s : Z) (d e : list Z) (m need : Z) (g g' : files) (w t : Z) : Prop := {
  tf_decodes : Forall (fun x => x = 0) lens \/
    1 <= w <= m /\ decodes lens s d e stray (g_mem g') (linalloc_topaddr (inf g')) (linalloc_topaddr (inf g)) t w;
  tf_top : linalloc_topaddr (inf g) - need <= linalloc_topaddr (inf g') <= linalloc_topaddr (inf g) /\ (4 | linalloc_topaddr (inf g'));
  tf_vars : exists h, g_gz g' = set_inflate (set_hufts h (set_linalloc (linalloc_topaddr (inf g')) (inf g))) (g_gz g);
  tf_mem : forall a, ~ (lo <= a < linalloc_topaddr (inf g)) -> ld (g_mem g') a = ld (g_mem g) a }.

Lemma built_for lens s d e m need g g' w t : tables_built lens s d e m need g g' w t -> tables_for lens s d e m need g g' w t.
Proof. intros []. constructor; try done. right. done. Qed.

Lemma build_none_ok lens s d e m need t g p x k : Forall (fun x => x = 0) lens -> 0 <= need -> (4 | linalloc_topaddr (inf g)) -> at_ g p x k ->
  exists g', build_tables junk stray lens s d e m t g = Some (0, 0, 0, g') /\ tables_for lens s d e m need g g' 0 0 /\ at_ g' p x k.
Proof.
  intros Hz Hn H4 A. unfold build_tables. rewrite huft_build_none by done. cbn [mbind option_bind hp_root hp_mem hp_top hp_hufts]. set (g' := upd _ _).
  exists g'. split; [done |]. split.
  - constructor; [by left | change (linalloc_topaddr (inf g')) with (linalloc_topaddr (inf g)); split; [lia | done] | by exists (hufts (inf g)) | done].
  - unfold g'. apply (at_bit_keep _ _ _ _ _ _ _ _ _ g); [done |]. intros q Hq. apply reading_mem; [by apply reading_vars | done].
Qed.

(** A usable code of few symbols. *)
Lemma usable_tables lens s d e m G t g p x k : usable lens -> (length lens <= 288)%nat -> Z.of_nat (length lens) < 2 ^ m -> 1 <= m <= 15 ->
  Forall (fun z => z <= G) lens ->
  let need := tables_room m G (Z.of_nat (length lens)) in
  0 <= need -> lo + need <= linalloc_topaddr (inf g) <= hi -> (4 | linalloc_topaddr (inf g)) -> at_ g p x k ->
  exists w t' g', build_tables junk stray lens s d e m t g = Some (0, w, t', g') /\ tables_for lens s d e m need g g' w t' /\ at_ g' p x k.
Proof.
  intros U Hn Hl Hm HG need H0 Hb H4 A. destruct (usable_suits lens m U Hn Hl Hm) as [Hz | S].
  - destruct (build_none_ok lens s d e m need t g p x k Hz H0 H4 A) as (g' & E & T & A'). by exists 0, 0, g'.
  - destruct (build_tables_ok lens s d e m G t g p x k S HG Hb H4 A) as (r & w & t' & g' & E & Hr & _ & T & A'). rewrite (Hr U) in E.
    exists w, t', g'. split; [done |]. split; [by apply built_for | done].
Qed.

Lemma for_header lens s d e m need g g' w t : linalloc_topaddr (inf g) <= hi -> tables_for lens s d e m need g g' w t -> header_only g g'.
Proof.
  intros Hl [_ T [h E] F]. constructor.
  - eexists. split; [exact E | done].
  - intros a _ Ha. apply F. lia.
Qed.

(** Two codes, the second one below the first. *)
Lemma coding_two lit dist g g1 g2 g3 w1 t1 w2 t2 m1 m2 n1 n2 : Forall (fun x => x <= 15) lit -> Forall (fun x => x <= 15) dist -> m1 <= 15 -> m2 <= 15 ->
  Exists (fun x => 0 < x) lit ->
  tables_for lit 257 cplens cplext m1 n1 g g1 w1 t1 -> tables_for dist 0 cpdist cpdext m2 n2 (upd_inf (set_lit t1 w1) g1) g2 w2 t2 ->
  linalloc_topaddr (inf g) <= hi -> lo + (n1 + n2) <= linalloc_topaddr (inf g) -> 0 <= n2 ->
  g_mem g3 = g_mem g2 -> tl (inf g3) = t1 -> bl (inf g3) = w1 -> td (inf g3) = t2 -> bd (inf g3) = w2 -> coding g3 lit dist.
Proof.
  intros Hl Hd Hm1 Hm2 Hx B1 B2 Hhi Hlo Hn E T1 T2 T3 T4.
  pose proof (tf_top _ _ _ _ _ _ _ _ _ _ B1) as [L1 _]. pose proof (tf_top _ _ _ _ _ _ _ _ _ _ B2) as [L2 _].
  change (linalloc_topaddr (inf (upd_inf (set_lit t1 w1) g1))) with (linalloc_topaddr (inf g1)) in *.
  constructor; [| | done]; rewrite ?T1, ?T2, ?T3, ?T4, E.
  - destruct (tf_decodes _ _ _ _ _ _ _ _ _ _ B1) as [Hz | [W D]].
    { exfalso. apply Exists_exists in Hx as (x & Hin & Hx). rewrite Forall_forall in Hz. specialize (Hz x Hin). lia. }
    split; [lia |]. eapply decodes_widen; [| | | exact D]; [lia | lia |].
    intros a Ha. apply (tf_mem _ _ _ _ _ _ _ _ _ _ B2). change (linalloc_topaddr (inf (upd_inf (set_lit t1 w1) g1))) with (linalloc_topaddr (inf g1)). lia.
  - destruct (tf_decodes _ _ _ _ _ _ _ _ _ _ B2) as [Hz | [W D]]; [by left | right]. split; [lia |]. eapply decodes_widen; [| | | exact D];
      [lia | change (linalloc_topaddr (inf (upd_inf (set_lit t1 w1) g1))) with (linalloc_topaddr (inf g1)); lia | done].
Qed.

(** The variables when the codes of a block begin. *)
Record block_begun (g g' : files) (lit dist : list Z) (p : Z) : Prop := {
  bb_bits : at_ g' p (bb (inf g')) (bk (inf g'));
  bb_coding : coding g' lit dist;
  bb_open : block_len (inf g') = 1 /\ code_state (inf g') = 0;
  bb_kind : block_type (inf g') = block_type (inf g) /\ last_block (inf g') = last_block (inf g);
  bb_only : header_only g g' }.

Lemma init_fixed_ok g p : at_ g p (bb (inf g)) (bk (inf g)) -> block_len (inf g) = 0 -> linalloc_topaddr (inf g) = hi ->
  exists g', init_fixed_block junk stray g = Some g' /\ block_begun g g' fixed_lit fixed_dist p.
Proof.
  intros A Hb Hl. destruct fixed_lit_suits as (S1 & G1 & U1). destruct fixed_dist_suits as (S2 & G2). destruct room_fixed as [R1 R2].
  destruct heap_end_ok as [H4 _]. unfold heap_room in room. unfold init_fixed_block. rewrite fixed_lengths_are. change fixed_distances with fixed_dist.
  destruct (build_tables_ok fixed_lit 257 cplens cplext 7 9 (tl (inf g)) g p _ _ S1 G1 ltac:(change (Z.of_nat (length fixed_lit)) with 288; lia) ltac:(by rewrite Hl) A)
    as (r1 & w1 & t1 & g1 & -> & Hr1 & _ & B1 & A1).
  change (Z.of_nat (length fixed_lit)) with 288 in B1. rewrite R1 in B1. cbn [mbind option_bind]. rewrite (Hr1 U1). change (negb (0 =? 0)) with false. cbn iota.
  pose proof (tb_top _ _ _ _ _ _ _ _ _ _ B1) as [L1 L1']. destruct (tb_vars _ _ _ _ _ _ _ _ _ _ B1) as [h1 E1].
  set (g2 := upd_inf (set_lit t1 w1) g1) in *. assert (at_ g2 p (bb (inf g)) (bk (inf g))) as A2 by (by apply at_set).
  destruct (build_tables_ok fixed_dist 0 cpdist cpdext 5 5 (td (inf g2)) g2 p _ _ S2 G2
    ltac:(change (Z.of_nat (length fixed_dist)) with 30; change (linalloc_topaddr (inf g2)) with (linalloc_topaddr (inf g1)); lia) L1' A2)
    as (r2 & w2 & t2 & g3 & -> & _ & Hr2 & B2 & A3).
  change (Z.of_nat (length fixed_dist)) with 30 in B2. rewrite R2 in B2. cbn [mbind option_bind]. rewrite (proj2 (Z.ltb_ge 1 r2)) by lia.
  destruct (tb_vars _ _ _ _ _ _ _ _ _ _ B2) as [h2 E2]. eexists. split; [reflexivity |]. set (g5 := upd_inf _ (upd_inf _ g3)).
  assert (inf g5 = set_block_len (block_len (inf g) + 1) (set_code_state 0 (set_dist t2 w2 (set_hufts h2 (set_linalloc (linalloc_topaddr (inf g3)) (set_lit t1 w1 (set_hufts h1 (set_linalloc (linalloc_topaddr (inf g1)) (inf g))))))))) as E5.
  { unfold g5, upd_inf, inf. cbn [g_gz set_gz set_inflate inflate]. rewrite E2. unfold g2, upd_inf, inf. cbn [g_gz set_gz set_inflate inflate]. by rewrite E1. }
  constructor; rewrite ?E5; try done.
  - change (at_ g5 p (bb (inf g)) (bk (inf g))). apply at_set; [by apply at_set | done].
  - eapply (coding_two fixed_lit fixed_dist g g1 g3 g5); [| | | | | apply built_for, B1 | apply built_for, B2 | ..]; rewrite ?E5; try done; try lia;
      [eapply Forall_impl; [| exact G1]; cbn; lia | eapply Forall_impl; [| exact G2]; cbn; lia | eapply Exists_impl; [| apply (su_short _ _ S1)]; cbn; lia].
  - change (block_len (inf g) + 1 = 1 /\ 0 = 0). lia.
  - eapply header_trans; [eapply built_header; [| exact B1]; lia |]. eapply header_trans; [apply (header_vars g1 (set_lit t1 w1)); done |]. fold g2.
    eapply header_trans; [eapply built_header; [| exact B2]; change (linalloc_topaddr (inf g2)) with (linalloc_topaddr (inf g1)); lia |].
    eapply header_trans; [apply (header_vars g3 (set_dist t2 w2)); done |]. apply header_vars. done.
Qed.

(** *** Lengths *)

Abbreviation quiet := (quiet inbuf).

Lemma number n p x k g : at_ g p x k -> 0 <= n <= 16 -> p + n <= limit ->
  exists x' k' g', take_bits inbuf rd n x k g = Some (fld (Z.to_nat n) p, x', k', g') /\ at_ g' (p + n) x' k' /\ quiet g g'.
Proof. apply take_bits_ok; done. Qed.

(** The lengths that are given for the first [i] symbols of the order. *)
Definition bit_length (p : Z) (count i : nat) : Z := if (i <? count)%nat then fld 3 (p + 3 * Z.of_nat i) else 0.
Definition lengths_upto (p : Z) (count i : nat) (ll : list Z) : Prop :=
  length ll = 316%nat /\ forall j o, (j < i)%nat -> length_order !! j = Some o -> nth o ll 0 = bit_length p count j.

Lemma lengths_put p count i o ll : lengths_upto p count i ll -> length_order !! i = Some o ->
  exists ll', put ll (Z.of_nat o) (bit_length p count i) = Some ll' /\ lengths_upto p count (S i) ll'.
Proof.
  intros [L H] Ho. pose proof (order_small _ _ Ho). rewrite put_some by lia. rewrite Nat2Z.id. eexists. split; [done |]. split; [by rewrite length_insert |].
  intros j o' Hj Ho'. destruct (Nat.eq_dec j i) as [-> |].
  - assert (o' = o) as -> by congruence. apply nth_lookup_Some, list_lookup_insert_eq. lia.
  - rewrite nth_lookup, list_lookup_insert_ne, <- nth_lookup; [apply H; [lia | done] |]. intros ->.
    apply n. by apply (NoDup_lookup length_order j i o' order_nodup).
Qed.

Lemma bit_lengths_ok p count : (count <= 19)%nat -> p + 3 * Z.of_nat count <= limit -> forall r i ll x k g, (r + i = 19)%nat -> lengths_upto p count i ll ->
  at_ g (p + 3 * Z.of_nat (Nat.min i count)) x k ->
  exists ll' x' k' g', bit_lengths inbuf rd (map Z.of_nat (drop i length_order)) (Z.of_nat (count - i)) ll x k g = Some (ll', x', k', g') /\
    lengths_upto p count 19 ll' /\ at_ g' (p + 3 * Z.of_nat count) x' k' /\ quiet g g'.
Proof.
  intros Hc Hp. induction r as [|r IH]; intros i ll x k g Hi L A.
  - assert (i = 19%nat) as -> by lia. exists ll, x, k, g. split; [done |]. split; [done |]. split; [by rewrite Nat.min_r in A by lia | apply quiet_refl].
  - destruct (lookup_lt_is_Some_2 length_order i) as [o Ho]; [change (length length_order) with 19%nat; lia |].
    rewrite (drop_S _ _ _ Ho). cbn [map bit_lengths]. destruct (lengths_put p count i o ll L Ho) as (ll1 & E1 & L1). unfold bit_length in E1.
    destruct (Nat.ltb_spec i count) as [Hic | Hic].
    + rewrite (proj2 (Z.ltb_lt _ _)) by lia. rewrite Nat.min_l in A by lia.
      destruct (number 3 _ x k g A ltac:(lia) ltac:(lia)) as (x1 & k1 & g1 & -> & A1 & Q1). cbn [mbind option_bind]. change (Z.to_nat 3) with 3%nat. rewrite E1. cbn [mbind option_bind].
      replace (Z.of_nat (count - i) - 1) with (Z.of_nat (count - S i)) by lia.
      destruct (IH (S i) ll1 x1 k1 g1 ltac:(lia) L1) as (ll' & x' & k' & g' & -> & L' & A' & Q').
      { rewrite Nat.min_l by lia. by replace (p + 3 * Z.of_nat (S i)) with (p + 3 * Z.of_nat i + 3) by lia. }
      exists ll', x', k', g'. split; [done |]. split; [done |]. split; [done |]. by eapply quiet_trans.
    + replace (count - i)%nat with 0%nat by lia. change (0 <? Z.of_nat 0) with false. cbn iota. rewrite E1. cbn [mbind option_bind].
      replace (Z.of_nat 0) with (Z.of_nat (count - S i)) by lia. apply IH; [lia | done |]. rewrite Nat.min_r in A by lia. by rewrite Nat.min_r by lia.
Qed.

Lemma given_lengths_are p count ll : lengths_upto p count 19 ll -> take 19 ll = given_lengths bits p count.
Proof.
  intros [L H]. apply nth_ext with (d := 0) (d' := 0).
  - rewrite length_take, L. done.
  - intros s Hs. rewrite length_take in Hs. rewrite nth_lookup, lookup_take_lt, <- nth_lookup by lia.
    destruct (order_find s ltac:(lia)) as (i & Ef & Ho). rewrite (H i s) by (done || (apply lookup_lt_Some in Ho; change (length length_order) with 19%nat in Ho; lia)).
    unfold given_lengths. rewrite (nth_lookup_Some _ _ _ (given_length bits p count s)).
    + unfold given_length, bit_length. by rewrite Ef.
    + rewrite list_lookup_fmap, lookup_seq_lt by lia. done.
Qed.

(** A code without longer tables. *)
Definition direct (g : files) (lens : list Z) : Prop :=
  1 <= bl (inf g) <= 15 /\ Forall (fun x => x <= bl (inf g)) lens /\ decodes lens 19 [] [] stray (g_mem g) lo hi (tl (inf g)) (bl (inf g)).

(** What [code_lengths] leaves. *)
Record looked (g g' : files) : Prop := {
  lk_vars : exists n t, g_gz g' = set_inflate (set_bufloc n (set_dist t (bd (inf g)) (inf g))) (g_gz g);
  lk_mem : forall a, ~ volatile inbuf a -> ld (g_mem g') a = ld (g_mem g) a }.

Lemma looked_trans g1 g2 g3 : looked g1 g2 -> looked g2 g3 -> looked g1 g3.
Proof.
  intros [(n1 & t1 & E1) F1] [(n2 & t2 & E2) F2]. constructor.
  - exists n2, t2. rewrite E2. unfold inf. by rewrite E1.
  - intros a Ha. by rewrite F2, F1.
Qed.

Lemma looked_quiet g g' : quiet g g' -> looked g g'.
Proof.
  intros [[n E] F]. constructor; [| done]. exists n, (td (inf g)). rewrite E. unfold inf. by destruct g as [? ? [? ? ? ? ? ? ? []]].
Qed.

Lemma looked_dist g t : looked g (upd_inf (set_dist t (bd (inf g))) g).
Proof. constructor; [| done]. exists (bufloc (inf g)), t. unfold inf. by destruct g as [? ? [? ? ? ? ? ? ? []]]. Qed.

Lemma direct_looked g g' lens : looked g g' -> direct g lens -> direct g' lens.
Proof.
  intros [(n & t & E) F] (D1 & D2 & D3). unfold direct. assert (inf g' = set_bufloc n (set_dist t (bd (inf g)) (inf g))) as -> by (unfold inf at 1; by rewrite E).
  split; [done |]. split; [done |]. eapply decodes_widen; [done | done | | exact D3]. intros a Ha. apply F, tables_apart, Ha.
Qed.

(** The next symbol, from the first table. *)
Lemma direct_symbol lens g p c n x k : direct g lens -> symbol_at bits lens p c n -> (c < 19)%nat -> p + n + 40 <= limit -> at_ g p x k ->
  exists x' k' g' e, NEEDBITS inbuf rd (bl (inf g)) x k g = Some (x', k', g') /\ quiet g g' /\ get mask_bits (bl (inf g)) = Some ((1 .<< bl (inf g)) - 1) /\
    ld_huft (g_mem g') (tl (inf g) + huft_size * (x' .& ((1 .<< bl (inf g)) - 1))) = Huft e n (Z.of_nat c) /\ at_ g' (p + n) (x' .>> n) (k' - n).
Proof.
  intros (D1 & D2 & D3) S Hc Hp A. pose proof S as (S1 & S2 & S3). pose proof (Forall_lookup_1 _ _ _ _ D2 S1) as Hn. cbn beta in Hn.
  set (w := bl (inf g)) in *. destruct (needbits_ok b mem_lower mem_upper fsys_table read content size callback inbuf data content_byte data_range inbuf_place w p x k g A ltac:(lia) ltac:(lia))
    as (x1 & k1 & g1 & E1 & A1 & K1 & Q1).
  destruct (D3 c n (fld 30 p) S1 S2) as (m & Hm & L); [apply symbol_bits; [done | lia] |].
  apply (quiet_leads inbuf lo hi tables_apart g g1 _ _ _ _ _ _ Q1) in L.
  destruct (dump_ok b mem_lower mem_upper fsys_table read content size inbuf data w p x1 k1 g1 A1 ltac:(lia)) as [_ Ew].
  destruct (dump_ok b mem_lower mem_upper fsys_table read content size inbuf data n p x1 k1 g1 A1 ltac:(lia)) as [A2 _].
  exists x1, k1, g1, (h_e (entry 19 [] [] stray c m)). split; [done |]. split; [done |]. split; [apply mask_bits_ok; lia |]. split; [| done].
  rewrite Ew. unfold huft_size. replace (fld (Z.to_nat w) p) with (fld 30 p mod 2 ^ w) by (replace w with (Z.of_nat (Z.to_nat w)) at 1 by lia; apply field_low; lia).
  inversion L as [? ? ? ? ? ? Hk Hb Hl | ? ? ? ? ? ? j t' Hk Hb Hl Hj L']; subst; [| lia]. rewrite Hl. f_equal. unfold entry. by rewrite (proj2 (Z.ltb_lt _ _)) by lia.
Qed.

(** What [code_lengths] does with a symbol. *)
Definition length_step (f n : nat) (i l : Z) (ll : list Z) (j b k : Z) (g : files) : option (option (list Z) * Z * Z * files) :=
  if j <? 16 then ll ← put ll i j; code_lengths inbuf rd f (Z.of_nat n) (i + 1) j ll b k g
  else
    '(c, b, k, g) ← (if j =? 16 then '(x, b, k, g) ← take_bits inbuf rd 2 b k g; Some (3 + x, b, k, g)
                     else if j =? 17 then '(x, b, k, g) ← take_bits inbuf rd 3 b k g; Some (3 + x, b, k, g)
                     else '(x, b, k, g) ← take_bits inbuf rd 7 b k g; Some (11 + x, b, k, g));
    let l := if j =? 16 then l else 0 in
    if Z.of_nat n <? i + c then Some (None, b, k, bad_data g)
    else ll ← repeat_length (Z.to_nat c) i l ll; code_lengths inbuf rd f (Z.of_nat n) (i + c) l ll b k g.

Lemma code_lengths_step lens f n i l ll p c m x k g : direct g lens -> symbol_at bits lens p c m -> (c < 19)%nat -> p + m + 40 <= limit -> at_ g p x k ->
  i < Z.of_nat n ->
  exists x' k' g', code_lengths inbuf rd (S f) (Z.of_nat n) i l ll x k g = length_step f n i l ll (Z.of_nat c) x' k' g' /\ at_ g' (p + m) x' k' /\ looked g g'.
Proof.
  intros D S Hc Hp A Hi. destruct (direct_symbol lens g p c m x k D S Hc Hp A) as (x1 & k1 & g1 & e & E1 & Q1 & Em & Er & A1).
  cbn [code_lengths]. rewrite (proj2 (Z.ltb_lt _ _)) by done. rewrite E1. cbn [mbind option_bind]. rewrite Em. cbn [mbind option_bind].
  assert (tl (inf g1) = tl (inf g)) as -> by (destruct Q1 as [[z Ez] _]; unfold inf; by rewrite Ez).
  set (t := tl (inf g) + _) in *. set (g2 := upd_inf (set_dist t (bd (inf g1))) g1). change (g_mem g2) with (g_mem g1). rewrite Er. cbn [h_b h_v]. rewrite u16_small by lia.
  exists (x1 .>> m), (k1 - m), g2. split; [done |]. split; [by apply at_set |]. eapply looked_trans; [by apply looked_quiet | apply looked_dist].
Qed.

Lemma code_lengths_ok lens n p l p' l' : length lens = 19%nat -> (n <= 316)%nat -> run_lengths bits lens n p l p' l' -> p' + 40 <= limit ->
  forall f ll x k g, (n - length l <= f)%nat -> length ll = 316%nat -> take (length l) ll = l -> direct g lens -> at_ g p x k ->
  exists ll' x' k' g', code_lengths inbuf rd f (Z.of_nat n) (Z.of_nat (length l)) (nth (length l - 1) l 0) ll x k g = Some (Some ll', x', k', g') /\
    length ll' = 316%nat /\ take n ll' = l' /\ at_ g' p' x' k' /\ looked g g'.
Proof.
  intros H19 Hn H Hp. induction H as [p l Hl | p l c m p' l' S Hs Hl H IH | p l c m base x p' l' S Hl Hin r Hr H IH]; intros f ll y k g Hf L T D A.
  - exists ll, y, k, g. split; [destruct f; cbn [code_lengths]; by rewrite (proj2 (Z.ltb_ge _ _)) by lia |]. rewrite <- Hl.
    split_and!; try done. apply looked_quiet, quiet_refl.
  - destruct (runs_forward _ _ _ _ _ _ _ H) as (Hpp & _ & _). pose proof S as (_ & Hm & _). destruct f as [|f]; [lia |].
    destruct (code_lengths_step lens f n (Z.of_nat (length l)) (nth (length l - 1) l 0) ll p c m y k g D S ltac:(lia) ltac:(lia) A ltac:(lia)) as (y1 & k1 & g1 & -> & A1 & Q1).
    unfold length_step. rewrite (proj2 (Z.ltb_lt _ _)) by lia. destruct (take_put ll (length l) (Z.of_nat c) ltac:(lia)) as (ll1 & -> & T1 & L1). cbn [mbind option_bind].
    destruct (IH Hp f ll1 y1 k1 g1) as (ll' & y' & k' & g' & E & L' & T' & A' & Q'); [rewrite length_app; cbn; lia | lia | | by eapply direct_looked | done |].
    { rewrite length_app. cbn [length]. rewrite Nat.add_1_r, T1, T. done. }
    exists ll', y', k', g'. split; [| split_and!; try done; by eapply looked_trans]. rewrite <- E. rewrite length_app. cbn [length]. f_equal; [lia |].
    replace (length l + 1 - 1)%nat with (length l) by lia. by rewrite nth_middle.
  - destruct (runs_forward _ _ _ _ _ _ _ H) as (Hpp & _ & _). pose proof S as (S1 & Hm & _). destruct f as [|f]; [lia |].
    assert ((c < 19)%nat) as Hc by (apply lookup_lt_Some in S1; lia).
    destruct (code_lengths_step lens f n (Z.of_nat (length l)) (nth (length l - 1) l 0) ll p c m y k g D S Hc ltac:(lia) A ltac:(lia)) as (y1 & k1 & g1 & -> & A1 & Q1).
    unfold length_step.
    assert (exists y2 k2 g2, (if Z.of_nat c =? 16 then '(x, b, k, g) ← take_bits inbuf rd 2 y1 k1 g1; Some (3 + x, b, k, g)
                     else if Z.of_nat c =? 17 then '(x, b, k, g) ← take_bits inbuf rd 3 y1 k1 g1; Some (3 + x, b, k, g)
                     else '(x, b, k, g) ← take_bits inbuf rd 7 y1 k1 g1; Some (11 + x, b, k, g)) = Some (Z.of_nat (length r), y2, k2, g2) /\
      at_ g2 (p + m + Z.of_nat x) y2 k2 /\ quiet g1 g2) as (y2 & k2 & g2 & -> & A2 & Q2).
    { unfold r. rewrite length_replicate. clear - Hin A1 Hp Hpp content_byte data_range inbuf_place.
      repeat (apply elem_of_cons in Hin as [[= -> -> ->] | Hin]); [| | | by apply elem_of_nil in Hin].
      - destruct (number 2 (p + m) y1 k1 g1 A1 ltac:(lia) ltac:(lia)) as (y2 & k2 & g2 & E & A2 & Q2). exists y2, k2, g2. change (Z.of_nat 16 =? 16) with true. cbn iota.
        rewrite E. cbn [mbind option_bind]. pose proof (field_range bits 2 (p + m)). change (Z.to_nat 2) with 2%nat. split; [do 4 f_equal; lia | done].
      - destruct (number 3 (p + m) y1 k1 g1 A1 ltac:(lia) ltac:(lia)) as (y2 & k2 & g2 & E & A2 & Q2). exists y2, k2, g2. change (Z.of_nat 17 =? 16) with false. change (Z.of_nat 17 =? 17) with true. cbn iota.
        rewrite E. cbn [mbind option_bind]. pose proof (field_range bits 3 (p + m)). change (Z.to_nat 3) with 3%nat. split; [do 4 f_equal; lia | done].
      - destruct (number 7 (p + m) y1 k1 g1 A1 ltac:(lia) ltac:(lia)) as (y2 & k2 & g2 & E & A2 & Q2). exists y2, k2, g2. change (Z.of_nat 18 =? 16) with false. change (Z.of_nat 18 =? 17) with false. cbn iota.
        rewrite E. cbn [mbind option_bind]. pose proof (field_range bits 7 (p + m)). change (Z.to_nat 7) with 7%nat. split; [do 4 f_equal; lia | done]. }
    assert ((16 <= c)%nat /\ (0 < length r)%nat) as [Hc16 Hr0].
    { unfold r. rewrite length_replicate. clear - Hin. repeat (apply elem_of_cons in Hin as [[= -> -> ->] | Hin]); [lia.. | by apply elem_of_nil in Hin]. }
    rewrite (proj2 (Z.ltb_ge (Z.of_nat c) 16)) by lia. cbn [mbind option_bind]. rewrite length_app in Hr.
    rewrite (proj2 (Z.ltb_ge (Z.of_nat n) _)) by lia. rewrite Nat2Z.id.
    set (v := if Z.of_nat c =? 16 then nth (length l - 1) l 0 else 0).
    assert (r = replicate (length r) v) as Er.
    { unfold r at 1. f_equal; [unfold r; by rewrite length_replicate |]. unfold v. destruct (Nat.eqb_spec c 16), (Z.eqb_spec (Z.of_nat c) 16); done || lia. }
    destruct (repeat_length_ok v (length r) (length l) ll ltac:(lia)) as (ll1 & -> & T1 & L1). cbn [mbind option_bind]. rewrite <- Er, T in T1.
    destruct (IH Hp f ll1 y2 k2 g2) as (ll' & y' & k' & g' & E & L' & T' & A' & Q').
    + rewrite length_app. lia.
    + lia.
    + by rewrite length_app.
    + eapply direct_looked; [| exact D]. eapply looked_trans; [exact Q1 | by apply looked_quiet].
    + done.
    + exists ll', y', k', g'. split; [| split_and!; try done; eapply looked_trans; [exact Q1 |]; eapply looked_trans; [by apply looked_quiet | done]].
      rewrite <- E. rewrite length_app. f_equal; [lia |]. rewrite Er at 2. rewrite app_nth2 by lia. replace (length l + length r - 1 - length l)%nat with (length r - 1)%nat by lia.
      rewrite nth_lookup, lookup_replicate_2 by lia. done.
Qed.

(** *** A block with its own codes *)

Lemma runs_some bit lens n p p' l' : run_lengths bit lens n p [] p' l' -> (0 < n)%nat -> ~ Forall (fun x => x = 0) lens.
Proof.
  intros H Hn Hz. assert (exists q c m, symbol_at bit lens q c m) as (q & c & m & S1 & S2 & _).
  { inversion H as [? ? Hl | ? ? c m ? ? S Hs Hl H' | ? ? c m base x ? ? S Hl Hin r Hr H']; subst; [cbn in Hn; lia | by eauto..]. }
  pose proof (Forall_lookup_1 _ _ _ _ Hz S1) as Hm. cbn beta in Hm. lia.
Qed.

Lemma given_lengths_range p count : length (given_lengths bits p count) = 19%nat /\ Forall (fun x => x <= 7) (given_lengths bits p count).
Proof.
  split; [by unfold given_lengths; rewrite length_map, length_seq |]. unfold given_lengths. apply Forall_fmap, Forall_forall. intros s Hs. cbn [compose]. unfold compose, given_length.
  destruct (list_find _ _) as [[i y] |]; [| lia]. destruct (Nat.ltb i count); [| lia]. pose proof (field_range bits 3 (p + 3 * Z.of_nat i)) as H. change (2 ^ Z.of_nat 3) with 8 in H. lia.
Qed.

(** The codes for lengths: their tables, from the description. *)
Lemma length_tables_ok p g x k : let count := Z.to_nat (4 + fld 4 (p + 10)) in let lens := given_lengths bits (p + 14) count in
  p + 14 + 3 * Z.of_nat count <= limit -> usable lens -> ~ Forall (fun x => x = 0) lens -> linalloc_topaddr (inf g) = hi -> at_ g (p + 14) x k ->
  exists ll x1 k1 g1 w t g2, bit_lengths inbuf rd bitorder (4 + fld 4 (p + 10)) (replicate 316 0) x k g = Some (ll, x1, k1, g1) /\ length ll = 316%nat /\
    build_tables junk stray (take 19 ll) 19 [] [] 7 (tl (inf g1)) g1 = Some (0, w, t, g2) /\
    direct (upd_inf (set_lit t w) g2) lens /\ header_only g g2 /\ at_ g2 (p + 14 + 3 * Z.of_nat count) x1 k1 /\
    exists n h, g_gz g2 = set_inflate (set_hufts h (set_linalloc (linalloc_topaddr (inf g2)) (set_bufloc n (inf g)))) (g_gz g).
Proof.
  intros count lens Hp U Hz Hl A. destruct heap_end_ok as [H4 _]. unfold heap_room in room.
  pose proof (field_range bits 4 (p + 10)) as F4. change (2 ^ Z.of_nat 4) with 16 in F4. assert (count <= 19)%nat as Hc by lia.
  destruct (bit_lengths_ok (p + 14) count Hc Hp 19 0 (replicate 316 0) x k g) as (ll & x1 & k1 & g1 & E1 & L1 & A1 & Q1); [lia | | by rewrite Z.mul_0_r, Z.add_0_r |].
  { split; [by rewrite length_replicate | intros j o Hj; lia]. }
  rewrite drop_0, <- bitorder_is, Nat.sub_0_r in E1. replace (Z.of_nat count) with (4 + fld 4 (p + 10)) in E1 by lia.
  pose proof (given_lengths_are _ _ _ L1) as El. fold lens in El. destruct (given_lengths_range (p + 14) count) as [Ll L7]. fold lens in Ll, L7.
  destruct (usable_suits lens 7 U) as [H | S]; [lia | change (2 ^ 7) with 128; lia | lia | done |].
  assert (inf g1 = set_bufloc (bufloc (inf g1)) (inf g)) as Ei by (destruct Q1 as [[z Ez] _]; unfold inf; rewrite !Ez; done).
  assert (linalloc_topaddr (inf g1) = hi) as Hl1 by (rewrite Ei; exact Hl).
  destruct (room_lit 19) as (_ & _ & R7).
  destruct (build_tables_ok lens 19 [] [] 7 7 (tl (inf g1)) g1 _ x1 k1 S L7 ltac:(rewrite Ll; change (Z.of_nat 19) with 19; rewrite R7; lia) ltac:(by rewrite Hl1) A1)
    as (r & w & t & g2 & E2 & Hr & _ & B & A2). rewrite (Hr U) in E2.
  exists ll, x1, k1, g1, w, t, g2. split; [done |]. split; [apply L1 |]. split; [by rewrite El |]. split; [| split; [| split; [done |]]].
  - unfold direct. change (bl (inf (upd_inf (set_lit t w) g2))) with w. change (tl (inf (upd_inf (set_lit t w) g2))) with t. pose proof (tb_bits _ _ _ _ _ _ _ _ _ _ B).
    split; [lia |]. split; [by apply (tb_direct _ _ _ _ _ _ _ _ _ _ B) |]. pose proof (tb_top _ _ _ _ _ _ _ _ _ _ B) as [T _]. rewrite Ll in T. change (Z.of_nat 19) with 19 in T. rewrite R7 in T.
    eapply decodes_widen; [| | | exact (tb_decodes _ _ _ _ _ _ _ _ _ _ B)]; [lia | lia | done].
  - eapply header_trans; [by apply header_quiet |]. eapply built_header; [| exact B]. lia.
  - destruct (tb_vars _ _ _ _ _ _ _ _ _ _ B) as [h Eh]. destruct Q1 as [[z Ez] _]. exists z, h. rewrite Eh, Ez. unfold inf at 2. rewrite Ez. done.
Qed.

(** The tables of both codes, once the lengths are known. *)
Lemma two_tables_ok lit dist g p x k : usable lit -> usable dist -> Exists (fun x => 0 < x) lit -> (length lit <= 286)%nat -> (length dist <= 30)%nat ->
  linalloc_topaddr (inf g) = hi -> at_ g p x k ->
  exists w1 t1 g1 w2 t2 g3, build_tables junk stray lit 257 cplens cplext lbits (tl (inf g)) g = Some (0, w1, t1, g1) /\
    let g2 := upd_inf (set_lit t1 w1) g1 in
    build_tables junk stray dist 0 cpdist cpdext dbits (td (inf g2)) g2 = Some (0, w2, t2, g3) /\
    let g4 := upd_inf (set_dist t2 w2) g3 in
    coding g4 lit dist /\ at_ g4 p x k /\ header_only g g4 /\
    exists a n m, inf g4 = set_dist t2 w2 (set_hufts n (set_linalloc a (set_lit t1 w1 (set_hufts m (set_linalloc (linalloc_topaddr (inf g1)) (inf g)))))).
Proof.
  intros U1 U2 Hx H1 H2 Hl A. destruct heap_end_ok as [H4 _]. unfold heap_room in room. pose proof U1 as [V1 _]. pose proof U2 as [V2 _].
  destruct (room_lit (Z.of_nat (length lit))) as (R1 & _ & _). destruct (room_lit (Z.of_nat (length dist))) as (_ & R2 & _).
  destruct (usable_tables lit 257 cplens cplext 9 15 (tl (inf g)) g p x k U1 ltac:(lia) ltac:(change (2 ^ 9) with 512; lia) ltac:(lia)
    ltac:(eapply Forall_impl; [| exact V1]; cbn; lia) ltac:(lia) ltac:(lia) ltac:(by rewrite Hl) A) as (w1 & t1 & g1 & E1 & T1 & A1).
  set (g2 := upd_inf (set_lit t1 w1) g1). assert (at_ g2 p x k) as A2 by (by apply at_set). rewrite R1 in T1.
  pose proof (tf_top _ _ _ _ _ _ _ _ _ _ T1) as [L1 L1']. destruct (tf_vars _ _ _ _ _ _ _ _ _ _ T1) as [h1 W1].
  destruct (usable_tables dist 0 cpdist cpdext 6 15 (td (inf g2)) g2 p x k U2 ltac:(lia) ltac:(change (2 ^ 6) with 64; lia) ltac:(lia)
    ltac:(eapply Forall_impl; [| exact V2]; cbn; lia) ltac:(lia) ltac:(change (linalloc_topaddr (inf g2)) with (linalloc_topaddr (inf g1)); lia) L1' A2)
    as (w2 & t2 & g3 & E2 & T2 & A3). rewrite R2 in T2. destruct (tf_vars _ _ _ _ _ _ _ _ _ _ T2) as [h2 W2].
  exists w1, t1, g1, w2, t2, g3. split; [exact E1 |]. split; [exact E2 |]. set (g4 := upd_inf (set_dist t2 w2) g3).
  assert (inf g4 = set_dist t2 w2 (set_hufts h2 (set_linalloc (linalloc_topaddr (inf g3)) (set_lit t1 w1 (set_hufts h1 (set_linalloc (linalloc_topaddr (inf g1)) (inf g))))))) as E4.
  { unfold g4, upd_inf, inf. cbn [g_gz set_gz set_inflate inflate]. rewrite W2. unfold g2, upd_inf, inf. cbn [g_gz set_gz set_inflate inflate]. by rewrite W1. }
  split; [| split; [by apply at_set | split; [| by exists (linalloc_topaddr (inf g3)), h2, h1]]].
  - eapply (coding_two lit dist g g1 g3 g4); [| | | | exact Hx | exact T1 | exact T2 | ..]; rewrite ?E4; try done; try lia; eapply Forall_impl; [| exact V1 | | exact V2]; cbn; lia.
  - eapply header_trans; [eapply for_header; [| exact T1]; lia |]. eapply header_trans; [apply (header_vars g1 (set_lit t1 w1)); done |]. fold g2.
    eapply header_trans; [eapply for_header; [| exact T2]; change (linalloc_topaddr (inf g2)) with (linalloc_topaddr (inf g1)); lia |]. by apply header_vars.
Qed.

Lemma header_looked g g' : looked g g' -> header_only g g'.
Proof. intros [(n & t & E) F]. constructor; [eexists; split; [exact E | done] |]. intros a Ha _. by apply F. Qed.

Lemma init_dynamic_ok g p lit dist p' : described bits p lit dist p' -> Exists (fun x => 0 < x) lit -> p' + 40 <= limit ->
  at_ g p (bb (inf g)) (bk (inf g)) -> block_len (inf g) = 0 -> linalloc_topaddr (inf g) = hi ->
  exists g', init_dynamic_block mem_upper inbuf junk stray rd g = Some g' /\ block_begun g g' lit dist p'.
Proof.
  intros (D1 & D2 & U0 & Hruns & D5 & U1 & U2) Hx Hp A Hb Hl. unfold init_dynamic_block.
  set (nl := 257 + fld 5 p) in *. set (nd := 1 + fld 5 (p + 5)) in *. set (count := Z.to_nat (4 + fld 4 (p + 10))) in *. set (lens := given_lengths bits (p + 14) count) in *.
  pose proof (field_range bits 5 p) as F1. pose proof (field_range bits 5 (p + 5)) as F2. pose proof (field_range bits 4 (p + 10)) as F3.
  destruct (runs_forward _ _ _ _ _ _ _ Hruns) as (Hpp & _ & Hlen). rewrite length_app in Hlen.
  destruct (number 5 p _ _ g A ltac:(lia) ltac:(lia)) as (x1 & k1 & g1 & -> & A1 & Q1). cbn [mbind option_bind].
  destruct (number 5 (p + 5) _ _ g1 A1 ltac:(lia) ltac:(lia)) as (x2 & k2 & g2 & -> & A2 & Q2). cbn [mbind option_bind]. replace (p + 5 + 5) with (p + 10) in A2 by lia.
  destruct (number 4 (p + 10) _ _ g2 A2 ltac:(lia) ltac:(lia)) as (x3 & k3 & g3 & -> & A3 & Q3). cbn [mbind option_bind]. replace (p + 10 + 4) with (p + 14) in A3 by lia.
  change (Z.to_nat 5) with 5%nat. change (Z.to_nat 4) with 4%nat. fold nl nd. rewrite !(proj2 (Z.ltb_ge _ _)) by lia. cbn [orb].
  pose proof (quiet_trans _ _ _ _ Q1 (quiet_trans _ _ _ _ Q2 Q3)) as Q. destruct (qu_vars _ _ _ Q) as [z0 Ez0].
  assert (inf g3 = set_bufloc z0 (inf g)) as E3 by (unfold inf; by rewrite Ez0).
  assert (linalloc_topaddr (inf g3) = hi) as Hl3 by (rewrite E3; exact Hl).
  destruct (length_tables_ok p g3 x3 k3 ltac:(fold count; lia) U0 (runs_some _ _ _ _ _ _ Hruns ltac:(lia)) Hl3 A3)
    as (ll & x4 & k4 & g4 & w & t & g5 & -> & Lll & Eb & Dr & Ho5 & A5 & (z5 & h5 & E5)).
  cbn [mbind option_bind]. rewrite Eb. cbn [mbind option_bind]. change (negb (0 =? 0)) with false. cbn iota.
  set (g6 := upd_inf (set_lit t w) g5) in *. assert (at_ g6 (p + 14 + 3 * Z.of_nat count) x4 k4) as A6 by (by apply at_set).
  destruct (code_lengths_ok lens (Z.to_nat (nl + nd)) _ [] p' (lit ++ dist) (proj1 (given_lengths_range _ _)) ltac:(lia) Hruns Hp (Z.to_nat (nl + nd)) ll x4 k4 g6
    ltac:(cbn; lia) Lll eq_refl Dr A6) as (ll' & x7 & k7 & g7 & E7 & L7 & T7 & A7 & Q7).
  cbn [length] in E7. change (nth (0 - 1) [] 0) with 0 in E7. rewrite Z2Nat.id in E7 by lia. change (Z.of_nat 0) with 0 in E7. rewrite E7. cbn [mbind option_bind].
  assert (take (Z.to_nat nl) ll' = lit /\ take (Z.to_nat nd) (drop (Z.to_nat nl) ll') = dist) as [-> ->].
  { replace (Z.to_nat (nl + nd)) with (Z.to_nat nl + Z.to_nat nd)%nat in T7 by lia. split.
    - replace (take (Z.to_nat nl) ll') with (take (Z.to_nat nl) (take (Z.to_nat nl + Z.to_nat nd) ll')) by (rewrite take_take; f_equal; lia).
      rewrite T7, take_app_le by lia. apply take_ge. lia.
    - rewrite take_drop_commute, T7. rewrite drop_app_ge by lia. replace (Z.to_nat nl - length lit)%nat with 0%nat by lia. done. }
  set (g8 := upd_inf (set_bits x7 k7) (set_gz (reset_linalloc mem_upper (g_gz g7)) g7)).
  assert (inf g8 = set_bits x7 k7 (set_linalloc hi (inf g7))) as E8 by done.
  assert (at_ g8 p' x7 k7) as A8.
  { apply at_set; [| done]. apply at_gz; [done | | done]. change (gzip_data_offset (g_gz g7) = data). destruct A7. eapply rg_data; eassumption. }
  destruct (two_tables_ok lit dist g8 p' x7 k7 U1 U2 Hx ltac:(lia) ltac:(lia) ltac:(by rewrite E8) A8) as (w1 & t1 & g9 & w2 & t2 & g11 & -> & F).
  cbn zeta in F. destruct F as (EF & C12 & A12 & Ho12 & (a & n & m & E12)). cbn [mbind option_bind]. change (negb (0 =? 0)) with false. cbn iota.
  rewrite EF. cbn [mbind option_bind]. change (negb (0 =? 0)) with false. cbn iota.
  eexists. split; [reflexivity |]. set (g12 := upd_inf (set_dist t2 w2) g11) in *. set (g13 := upd_inf _ g12).
  destruct Q7 as [(z7 & t7 & E7') F7].
  assert (inf g7 = set_bufloc z7 (set_dist t7 (bd (inf g6)) (set_lit t w (set_hufts h5 (set_linalloc (linalloc_topaddr (inf g5)) (set_bufloc z5 (set_bufloc z0 (inf g)))))))) as E7i.
  { unfold inf at 1. rewrite E7'. cbn [inflate set_inflate]. rewrite <- E3. unfold g6 at 2, upd_inf, inf at 2. cbn [g_gz set_gz set_inflate inflate]. unfold inf at 2. rewrite E5. done. }
  assert (inf g13 = set_block_len (block_len (inf g12) + 1) (set_code_state 0 (inf g12))) as E13 by done.
  constructor.
  - rewrite E13, E12, E8. apply at_set; [exact A12 | done].
  - destruct C12 as [C1 C2 C3]. constructor; done.
  - rewrite E13. rewrite E12, E8, E7i. split; [| done]. change (block_len (inf g) + 1 = 1). lia.
  - rewrite E13, E12, E8, E7i. done.
  - eapply header_trans; [by apply header_quiet |]. eapply header_trans; [exact Ho5 |].
    eapply header_trans; [by apply (header_vars g5 (set_lit t w)) |]. fold g6. eapply header_trans; [apply (header_looked g6 g7); by constructor; eauto |].
    eapply (header_trans _ g8).
    { constructor; [| done]. exists (inf g8). split; [done |]. by rewrite E8. }
    eapply header_trans; [exact Ho12 |]. by apply header_vars.
Qed.

(** *** A stored block *)

Lemma needbits_bound get n f : forall x k g x' k' g', needbits_loop inbuf get f n x k g = Some (x', k', g') -> k' <= Z.max k (n + 7).
Proof.
  induction f as [|f IH]; intros x k g x' k' g' E; cbn [needbits_loop] in E; destruct (Z.ltb_spec k n); try done; try (injection E as <- <- <-; lia).
  destruct (get_byte inbuf get g) as [[c g1] |]; [| done]. cbn [mbind option_bind] in E. apply IH in E. lia.
Qed.

Lemma init_stored_ok g p : at_ g p (bb (inf g)) (bk (inf g)) -> let q := next_byte p in let n := fld 16 q in
  fld 16 (q + 16) = 65535 - n -> q + 32 <= limit ->
  exists g', init_stored_block inbuf rd g = Some g' /\ at_ g' (q + 32) (bb (inf g')) 0 /\ bk (inf g') = 0 /\ block_len (inf g') = n /\
    block_type (inf g') = block_type (inf g) /\ last_block (inf g') = last_block (inf g) /\ linalloc_topaddr (inf g') = linalloc_topaddr (inf g) /\ header_only g g'.
Proof.
  intros A q n Hf Hp. unfold init_stored_block. set (b0 := bb (inf g)) in *. set (k0 := bk (inf g)) in *.
  pose proof A as [P1 P2 P3 _ _]. destruct P3 as [c Hc].
  assert (k0 .& 7 = k0 mod 8) as E7 by (change 7 with (Z.ones 3); by rewrite Z.land_ones by lia). rewrite E7.
  assert (p + k0 mod 8 = q) as Eq by (unfold q, next_byte; dlia).
  destruct (dump_ok b mem_lower mem_upper fsys_table read content size inbuf data (k0 mod 8) p b0 k0 g A ltac:(dlia)) as [A0 _]. rewrite Eq in A0.
  unfold take_bits.
  destruct (needbits_ok b mem_lower mem_upper fsys_table read content size callback inbuf data content_byte data_range inbuf_place 16 q _ _ g A0 ltac:(lia) ltac:(lia))
    as (x1 & k1 & g1 & E1 & A1 & K1 & Q1). rewrite E1. cbn [mbind option_bind].
  destruct (dump_ok b mem_lower mem_upper fsys_table read content size inbuf data 16 q x1 k1 g1 A1 ltac:(lia)) as [A1' ->]. change (Z.to_nat 16) with 16%nat. fold n.
  pose proof A1 as [_ K1' _ _ _]. set (g2 := upd_inf (set_block_len n) g1).
  assert (at_ g2 (q + 16) (x1 .>> 16) (k1 - 16)) as A2 by (by apply at_set).
  destruct (needbits_ok b mem_lower mem_upper fsys_table read content size callback inbuf data content_byte data_range inbuf_place 16 (q + 16) _ _ g2 A2 ltac:(lia) ltac:(lia))
    as (x3 & k3 & g3 & E3 & A3 & K3 & Q3). rewrite E3. cbn [mbind option_bind].
  destruct (dump_ok b mem_lower mem_upper fsys_table read content size inbuf data 16 (q + 16) x3 k3 g3 A3 ltac:(lia)) as [A3' F3]. change (Z.to_nat 16) with 16%nat in F3. rewrite Hf in F3.
  destruct (qu_vars _ _ _ Q1) as [z1 W1]. destruct (qu_vars _ _ _ Q3) as [z3 W3].
  assert (inf g3 = set_bufloc z3 (set_block_len n (set_bufloc z1 (inf g)))) as Ei.
  { unfold inf at 1. rewrite W3. unfold g2, upd_inf, inf. cbn [g_gz set_gz set_inflate inflate]. by rewrite W1. }
  assert (block_len (inf g3) = n) as En by (by rewrite Ei).
  assert (Z.lnot x3 .& 0xffff = n) as El.
  { change 0xffff with (Z.ones 16). rewrite Z.land_ones by lia. pose proof (Z.add_lnot_diag x3) as Hn.
    assert (x3 mod 2 ^ 16 = 65535 - n) as Hm by (rewrite <- F3; change ((1 .<< 16) - 1) with (Z.ones 16); by rewrite Z.land_ones by lia). change (2 ^ 16) with 65536 in *. dlia. }
  rewrite En, El, Z.eqb_refl. eexists. split; [reflexivity |]. set (g4 := upd_inf (set_bits (x3 .>> 16) (k3 - 16)) g3).
  assert (k3 - 16 = 0) as K0.
  { apply needbits_bound in E3. pose proof A3 as [_ _ [c3 Hc3] _ _]. unfold q, next_byte in Hc3. lia. }
  assert (inf g4 = set_bits (x3 .>> 16) 0 (inf g3)) as E4 by (unfold g4; by rewrite K0). rewrite E4, Ei.
  split; [| split_and!; try done].
  - rewrite K0 in A3'. replace (q + 16 + 16) with (q + 32) in A3' by lia. apply at_set; done.
  - eapply header_trans; [apply header_quiet, Q1 |]. eapply header_trans; [by apply (header_vars g1 (set_block_len n)) |]. fold g2.
    eapply header_trans; [apply header_quiet, Q3 |]. by apply header_vars.
Qed.

(** *** A new block *)

(** What is open after the header: the bytes of a stored block from [q] on, or the
    codes from there. *)
Record stored_opened (g : files) (q : Z) (o : list Z) (p' : Z) (o' : list Z) : Prop := {
  so_type : block_type (inf g) = INFLATE_STORED;
  so_len : 0 <= block_len (inf g) <= 65535;
  so_bits : bk (inf g) = 0 /\ at_ g q (bb (inf g)) 0;
  so_top : linalloc_topaddr (inf g) = hi;
  so_end : p' = q + 8 * block_len (inf g);
  so_bytes : o' = o ++ bytes_at bits q (Z.to_nat (block_len (inf g))) }.

Record codes_opened (g : files) (q : Z) (o : list Z) (p' : Z) (o' : list Z) : Prop := {
  co_type : block_type (inf g) = INFLATE_FIXED \/ block_type (inf g) = INFLATE_DYNAMIC;
  co_open : block_len (inf g) = 1 /\ code_state (inf g) = 0;
  co_bits : at_ g q (bb (inf g)) (bk (inf g));
  co_codes : exists lit dist, coding g lit dist /\ codes bits lit dist q o p' o' }.

Lemma codes_some lit dist p o p' o' : codes bits lit dist p o p' o' -> Exists (fun x => 0 < x) lit.
Proof.
  intros H. assert (exists c n, symbol_at bits lit p c n) as (c & n & H1 & H2 & _) by (inversion H; eauto).
  apply Exists_exists. exists n. split; [| done]. apply list_elem_of_In. by eapply list_elem_of_lookup_2.
Qed.

Lemma field_one p : fld 1 p = Z.b2z (bits p).
Proof. cbn [field]. lia. Qed.

Lemma get_new_block_ok g p o p' o' : at_ g p (bb (inf g)) (bk (inf g)) -> block_len (inf g) = 0 -> linalloc_topaddr (inf g) = hi ->
  block bits (p + 1) o p' o' -> p' + 40 <= limit ->
  exists g' q, get_new_block mem_upper inbuf junk stray rd g = Some g' /\ header_only g g' /\ last_block (inf g') = Z.b2z (bits p) /\ p + 3 <= q <= p' /\
    (stored_opened g' q o p' o' \/ codes_opened g' q o p' o').
Proof.
  intros A Hb Hl B Hp. unfold get_new_block. set (g0 := upd_inf (set_hufts 0) g).
  assert (p + 3 <= p') as Hpp.
  { inversion B as [? ? Hf q n Hn | ? ? ? ? Hf C | ? ? lit dist p1 ? ? Hf D C]; subst.
    - pose proof (field_range bits 16 q) as F. fold n in F. assert (p + 3 <= q) by (unfold q, next_byte; dlia). lia.
    - apply codes_forward in C as [C _]. lia.
    - apply codes_forward in C as [C _]. destruct D as (_ & _ & _ & D & _). apply runs_forward in D as [D _]. lia. }
  assert (at_ g0 p (bb (inf g)) (bk (inf g))) as A0 by (by apply at_set). change (bb (inf g0)) with (bb (inf g)). change (bk (inf g0)) with (bk (inf g)).
  destruct (number 1 p _ _ g0 A0 ltac:(lia) ltac:(lia)) as (x1 & k1 & g1 & -> & A1 & Q1). cbn [mbind option_bind]. change (Z.to_nat 1) with 1%nat. rewrite field_one.
  set (g2 := upd_inf (set_block_kind (block_type (inf g1)) (Z.b2z (bits p))) g1). assert (at_ g2 (p + 1) x1 k1) as A2 by (by apply at_set).
  destruct (number 2 (p + 1) _ _ g2 A2 ltac:(lia) ltac:(lia)) as (x3 & k3 & g3 & -> & A3 & Q3). cbn [mbind option_bind]. change (Z.to_nat 2) with 2%nat. replace (p + 1 + 2) with (p + 3) in A3 by lia.
  set (type := fld 2 (p + 1)). set (g4 := upd_inf (fun v => set_bits x3 k3 (set_block_kind type (last_block v) v)) g3).
  destruct (qu_vars _ _ _ Q1) as [z1 W1]. destruct (qu_vars _ _ _ Q3) as [z3 W3].
  assert (inf g4 = set_bits x3 k3 (set_block_kind type (Z.b2z (bits p)) (set_bufloc z3 (set_block_kind (block_type (inf g)) (Z.b2z (bits p)) (set_bufloc z1 (set_hufts 0 (inf g))))))) as E4.
  { assert (inf g1 = set_bufloc z1 (set_hufts 0 (inf g))) as E1 by (unfold inf at 1; by rewrite W1).
    assert (inf g3 = set_bufloc z3 (inf g2)) as E3 by (unfold inf at 1; by rewrite W3).
    change (inf g4) with (set_bits x3 k3 (set_block_kind type (last_block (inf g3)) (inf g3))). rewrite E3.
    change (inf g2) with (set_block_kind (block_type (inf g1)) (Z.b2z (bits p)) (inf g1)). by rewrite E1. }
  assert (header_only g g4) as H4.
  { eapply header_trans; [by apply (header_vars g (set_hufts 0)) |]. fold g0. eapply header_trans; [apply header_quiet, Q1 |].
    eapply header_trans; [by apply (header_vars g1 (set_block_kind (block_type (inf g1)) (Z.b2z (bits p)))) |]. fold g2.
    eapply header_trans; [apply header_quiet, Q3 |]. by apply header_vars. }
  assert (at_ g4 (p + 3) (bb (inf g4)) (bk (inf g4))) as A4 by (rewrite E4; by apply at_set).
  assert (block_len (inf g4) = 0) as Hb4 by (rewrite E4; exact Hb). assert (linalloc_topaddr (inf g4) = hi) as Hl4 by (rewrite E4; exact Hl).
  assert (block_type (inf g4) = type /\ last_block (inf g4) = Z.b2z (bits p)) as [Ht4 Hz4] by (rewrite E4; done).
  inversion B as [? ? Hf q n Hn | ? ? ? ? Hf C | ? ? lit dist p1 ? ? Hf D C]; subst; fold type in Hf; rewrite Hf.
  - change (0 =? INFLATE_STORED) with true. cbn iota.
    assert (next_byte (p + 3) = q) as Eq by (unfold q; f_equal; lia). pose proof (init_stored_ok g4 (p + 3) A4) as IS. cbn zeta in IS. rewrite Eq in IS.
    pose proof (field_range bits 16 q) as Fn. fold n in Fn. change (2 ^ Z.of_nat 16) with 65536 in Fn.
    destruct (IS Hn ltac:(lia)) as (g' & E & A' & K' & L' & T' & Z' & O' & H'). fold n in L'.
    exists g', (q + 32). split; [exact E |]. split; [by eapply header_trans |]. split; [congruence |].
    split; [unfold q, next_byte; split; [dlia |]; unfold q, next_byte; lia |]. left.
    constructor; [rewrite T', Ht4; exact Hf | rewrite L'; lia | done | congruence | by rewrite L' | by rewrite L'].
  - change (1 =? INFLATE_STORED) with false. change (1 =? INFLATE_FIXED) with true. cbn iota. replace (p + 1 + 2) with (p + 3) in C by lia.
    pose proof (codes_forward _ _ _ _ _ _ _ C) as [Hc _].
    destruct (init_fixed_ok g4 (p + 3) A4 Hb4 Hl4) as (g' & E & [B1 B2 B3 [B4 B4'] B5]).
    exists g', (p + 3). split; [exact E |]. split; [by eapply header_trans |]. split; [congruence |]. split; [lia |]. right.
    constructor; [left; rewrite B4, Ht4; exact Hf | exact B3 | exact B1 |]. exists fixed_lit, fixed_dist. split; [exact B2 | exact C].
  - change (2 =? INFLATE_STORED) with false. change (2 =? INFLATE_FIXED) with false. change (2 =? INFLATE_DYNAMIC) with true. cbn iota.
    replace (p + 1 + 2) with (p + 3) in D by lia. pose proof (codes_forward _ _ _ _ _ _ _ C) as [Hc _].
    destruct (init_dynamic_ok g4 (p + 3) lit dist p1 D (codes_some _ _ _ _ _ _ C) ltac:(lia) A4 Hb4 Hl4) as (g' & E & [B1 B2 B3 [B4 B4'] B5]).
    destruct D as (_ & _ & _ & D & _). apply runs_forward in D as [D _].
    exists g', p1. split; [exact E |]. split; [by eapply header_trans |]. split; [congruence |]. split; [lia |]. right.
    constructor; [right; rewrite B4, Ht4; exact Hf | exact B3 | exact B1 |]. exists lit, dist. split; [exact B2 | exact C].
Qed.
End Header.
