(* ===== verification/GrubUnzip.v ===== *)
(** * Windows of the output

    [inflate_window] and [gunzip_read] against the format: whatever is read of a
    compressed file, in any order, are bytes of the output that its compressed
    data denotes. *)

From S2P Require Import Prelude Machine LibcString GrubString GrubTerm GrubReadline GrubBios GrubDisk GrubDevice GrubPart GrubFsys GrubFat GrubFile Deflate Canonical GrubGunzip GrubHuffman GrubBits GrubWindow GrubInflate GrubHeader.

(** ** The output grows *)

Lemma bytes_at_app bit p m n : bytes_at bit p (m + n) = bytes_at bit p m ++ bytes_at bit (p + 8 * Z.of_nat m) n.
Proof.
  unfold bytes_at. rewrite seq_app, map_app. f_equal. cbn [Nat.add]. apply nth_ext with (d := 0) (d' := 0); [by rewrite !length_map, !length_seq |].
  intros i Hi. rewrite length_map, length_seq in Hi. rewrite !nth_lookup, !list_lookup_fmap, !lookup_seq_lt by lia.
  change (field bit 8 (p + 8 * Z.of_nat (m + i)) = field bit 8 (p + 8 * Z.of_nat m + 8 * Z.of_nat i)). f_equal. lia.
Qed.

Lemma bytes_at_length bit p n : length (bytes_at bit p n) = n.
Proof. unfold bytes_at. by rewrite length_map, length_seq. Qed.

Lemma block_forward bit p o p' o' : block bit p o p' o' -> p < p' /\ exists l, o' = o ++ l.
Proof.
  intros B. inversion B as [? ? Hf q n Hn | ? ? ? ? Hf C | ? ? lit dist p1 ? ? Hf D C]; subst.
  - pose proof (field_range bit 16 q) as F. fold n in F. assert (p + 2 <= q) by (unfold q, next_byte; dlia). split; [lia | by eexists].
  - apply codes_forward in C as [C L]. split; [lia | done].
  - apply codes_forward in C as [C L]. destruct D as (_ & _ & _ & D & _). apply runs_forward in D as [D _]. split; [lia | done].
Qed.

Lemma deflate_forward bit p o p' o' : deflate bit p o p' o' -> p < p' /\ exists l, o' = o ++ l.
Proof.
  induction 1 as [p o p' o' Hb B | p o p1 o1 p' o' Hb B _ [IH1 [l IH2]]]; apply block_forward in B as [B [l' L]].
  - split; [lia | by exists l'].
  - split; [lia |]. exists (l' ++ l). by rewrite IH2, L, app_assoc.
Qed.

Section Unzip.
Context (b : bios) (mem_lower mem_upper : Z) (fsys_table : list fsys_entry).
Context (read : Z -> Z -> fs -> option (Z * fs)) (content : Z -> Z) (size : Z) {R : FileReader mem_lower mem_upper read content size}.
Context (callback : Z -> Z -> files -> option (Z * files)).
Context (slide inbuf data lo : Z) (junk : list Z) (stray : Z -> Z) (rounds : nat).
Abbreviation hi := (heap_end mem_upper).
Hypothesis content_byte : forall x, 0 <= content x < 256.
Hypothesis data_range : 0 <= data <= size.
Hypothesis inbuf_place : file_place mem_lower mem_upper inbuf INBUFSIZ.
Hypothesis slide_place : file_place mem_lower mem_upper slide WSIZE.
Hypothesis tables_apart : forall a, lo <= a < hi -> ~ volatile inbuf a.
Hypothesis slide_apart : forall a, slide <= a < slide + WSIZE -> ~ volatile inbuf a /\ ~ (lo <= a < hi).
Hypothesis room : 0 <= lo /\ lo + heap_room <= hi.
Hypothesis junk_length : length junk = 288%nat.

Abbreviation rd := (grub_read b mem_lower mem_upper fsys_table callback).
Abbreviation bits := (bit content data).
Abbreviation fld := (field bits).
Abbreviation limit := (8 * (size - data)).
Abbreviation at_ := (at_bit b mem_lower mem_upper fsys_table read content size inbuf data).
Abbreviation len o := (Z.of_nat (length o)).
Abbreviation in_codes := (in_codes b mem_lower mem_upper fsys_table read content size slide inbuf data lo hi stray).
Abbreviation steady := (steady slide inbuf).
Abbreviation header_only := (header_only mem_upper inbuf lo).

(** The compressed data ends at bit [pe] and denotes [out]; there are at least 5
    bytes after it. *)
Variables (pe : Z) (out : list Z).
Hypothesis pe_limit : pe + 40 <= limit.
Hypothesis enough_rounds : pe + 3 <= Z.of_nat rounds.

(** What decoding may change: the decoder's variables, and memory for reading,
    for the tables and the window. *)
Record worked (g g' : files) : Prop := {
  wk_vars : exists v, g_gz g' = set_inflate v (g_gz g);
  wk_mem : forall a, ~ volatile inbuf a -> ~ (lo <= a < hi) -> ~ (slide <= a < slide + WSIZE) -> ld (g_mem g') a = ld (g_mem g) a }.

Lemma worked_trans g1 g2 g3 : worked g1 g2 -> worked g2 g3 -> worked g1 g3.
Proof.
  intros [(v1 & E1) F1] [(v2 & E2) F2]. constructor.
  - exists v2. by rewrite E2, E1.
  - intros a H1 H2 H3. by rewrite F2, F1.
Qed.

Lemma worked_steady g g' : steady g g' -> worked g g'.
Proof. intros [(n & m & c & E) F]. constructor; [by eexists |]. intros a H1 _ H3. by apply F. Qed.

Lemma worked_header g g' : header_only g g' -> worked g g'.
Proof. intros [(v & E & _) F]. constructor; [by eexists |]. intros a H1 H2 _. by apply F. Qed.

Lemma worked_vars g f : worked g (upd_inf f g).
Proof. constructor; [| done]. by eexists. Qed.

Lemma worked_refl g : worked g g.
Proof. constructor; [| done]. exists (inf g). unfold inf. by destruct g as [? ? []]. Qed.

(** The open block, from the bit [p] and the output [o] on, ends with [p'] and
    [o']. *)
Inductive stage (start : Z) (g : files) (p : Z) (o : list Z) (p' : Z) (o' : list Z) : Prop :=
| stage_idle : block_len (inf g) = 0 -> linalloc_topaddr (inf g) = hi -> at_ g p (bb (inf g)) (bk (inf g)) -> p' = p -> o' = o -> stage start g p o p' o'
| stage_stored : block_type (inf g) = INFLATE_STORED -> 0 < block_len (inf g) -> linalloc_topaddr (inf g) = hi -> bk (inf g) = 0 -> at_ g p (bb (inf g)) 0 ->
    p' = p + 8 * block_len (inf g) -> o' = o ++ bytes_at bits p (Z.to_nat (block_len (inf g))) -> stage start g p o p' o'
| stage_codes lit dist copy : block_type (inf g) = INFLATE_FIXED \/ block_type (inf g) = INFLATE_DYNAMIC -> block_len (inf g) = 1 ->
    in_codes lit dist start g (Locals (inflate_n (inf g)) (inflate_d (inf g)) (wp (inf g)) (bb (inf g)) (bk (inf g))) o p copy ->
    codes bits lit dist p (todo copy o) p' o' -> stage start g p o p' o'.

(** What follows the block. *)
Definition after (last p : Z) (o : list Z) : Prop := if last =? 0 then deflate bits p o pe out else p = pe /\ o = out.

Record running (start : Z) (g : files) (p : Z) (o : list Z) : Prop := {
  ru_stage : exists p' o', stage start g p o p' o' /\ after (last_block (inf g)) p' o';
  ru_window : window slide (g_mem g) o;
  ru_len : len o = start + wp (inf g);
  ru_wp : 0 <= wp (inf g) <= WSIZE;
  ru_start : (WSIZE | start) }.

Lemma after_forward last p o : after last p o -> p <= pe /\ exists l, out = o ++ l.
Proof.
  unfold after. destruct (last =? 0); [intros [D L] %deflate_forward; split; [lia | done] |]. intros [-> ->]. split; [lia |]. exists []. by rewrite app_nil_r.
Qed.

Lemma stage_forward start g p o p' o' : stage start g p o p' o' -> p <= p' /\ exists l, o' = o ++ l.
Proof.
  intros [H1 H2 A -> -> | H1 H2 H3 H4 A -> -> | lit dist copy H1 H2 I C].
  - split; [lia |]. exists []. by rewrite app_nil_r.
  - split; [lia | by eexists].
  - apply codes_forward in C as [C [l L]]. split; [lia |]. rewrite L. destruct copy as [[n d] |]; cbn [todo]; [| by eexists].
    destruct (repeat_prefix (Z.to_nat n) (Z.to_nat d) o) as [l' ->]. rewrite <- app_assoc. by eexists.
Qed.

Lemma running_forward start g p o : running start g p o -> p <= pe /\ exists l, out = o ++ l.
Proof.
  intros [(p' & o' & S & A) _ _ _ _]. apply stage_forward in S as [S [l L]]. apply after_forward in A as [A [l' L']]. split; [lia |].
  rewrite L', L, <- app_assoc. by eexists.
Qed.

Lemma stage_error start g p o p' o' : stage start g p o p' o' -> g_err g = ERR_NONE.
Proof.
  intros [H1 H2 A H3 H4 | H1 H2 H3 H4 A H5 H6 | lit dist copy H1 H2 I C].
  - destruct A. by eapply reading_no_error.
  - destruct A. by eapply reading_no_error.
  - by eapply in_codes_error.
Qed.

(** *** A stored block *)

Abbreviation quiet := (quiet inbuf).

Lemma window_quiet g g' o : quiet g g' -> window slide (g_mem g) o -> window slide (g_mem g') o.
Proof. intros Q W. eapply window_frame; [exact W |]. intros a Ha. apply (qu_mem _ _ _ Q). by destruct (slide_apart a Ha). Qed.

Lemma at_unzip g p x k f : at_ g p x k -> (forall v, bufloc (f v) = bufloc v) -> at_ (upd_inf f g) p x k.
Proof. intros A H. apply (at_bit_keep _ _ _ _ _ _ _ _ _ g); [done |]. intros q G. by apply reading_vars. Qed.

(** One byte: read, and put at its place in the window. *)
Lemma stored_byte g p x o start w : at_ g p x 0 -> p + 8 <= limit -> window slide (g_mem g) o -> len o = start + w -> (WSIZE | start) -> 0 <= w < WSIZE ->
  exists c g1, get_byte inbuf rd g = Some (c, g1) /\
    let g2 := upd (fun s => set_fmem (st (f_mem s) (slide + w) c) s) g1 in
    let g3 := upd_inf (fun v => set_block_len (block_len v - 1) v) g2 in
    at_ g3 (p + 8) x 0 /\ window slide (g_mem g3) (o ++ bytes_at bits p 1) /\ steady g g3 /\ block_len (inf g3) = block_len (inf g) - 1.
Proof.
  intros [P1 P2 [q Hq] P4 P5] Hp W L S Hw. rewrite Z.add_0_r in P4, Hq. rewrite Hq, Z.div_mul in P4 by lia.
  destruct (get_byte_ok b mem_lower mem_upper fsys_table read content size callback inbuf data data_range inbuf_place g q P4 ltac:(lia)) as (g1 & E & G1 & Q1).
  exists (content (data + q)), g1. split; [exact E |]. cbn zeta. set (g2 := upd _ g1). set (g3 := upd_inf _ g2).
  assert (only_ring slide (g_mem g1) (st (g_mem g1) (slide + w) (content (data + q)))) as Or by (intros a Ha; rewrite ld_st_ne by lia; done).
  assert (reading b mem_lower mem_upper fsys_table read content size inbuf data g2 (q + 1)) as G2.
  { apply reading_mem; [done |]. intros a Ha. apply Or. intros Hs. by destruct (slide_apart a Hs). }
  split; [| split; [| split]].
  - constructor; [lia | lia | exists (q + 1); lia | | exact P5]. replace (p + 8 + 0) with ((q + 1) * 8) by lia. rewrite Z.div_mul by lia. by apply reading_vars.
  - change (g_mem g3) with (st (g_mem g1) (slide + w) (content (data + q))).
    assert (bytes_at bits p 1 = [content (data + q)]) as ->.
    { unfold bytes_at. cbn [seq map]. rewrite Z.mul_0_r, Z.add_0_r, Hq, Z.mul_comm. by rewrite whole_byte. }
    apply (window_extend mem_lower mem_upper slide slide_place (g_mem g1) _ o [content (data + q)] start w); try done; cbn [length]; try lia.
    + by eapply window_quiet.
    + intros i Hi. replace i with 0 by lia. rewrite Z.add_0_r. apply ld_st_eq.
    + intros a Ha. by rewrite ld_st_ne by lia.
  - eapply steady_trans; [apply quiet_steady, Q1 |]. eapply steady_trans; [apply (steady_ring slide inbuf g1), Or |].
    apply (steady_vars slide inbuf g2 (block_len (inf g2) - 1) (code_state (inf g2))).
  - destruct Q1 as [[z Ez] _]. change (block_len (inf g1) - 1 = block_len (inf g) - 1). unfold inf. by rewrite Ez.
Qed.

Lemma stored_loop_ok start : (WSIZE | start) -> forall f g w p x o, 0 <= w <= WSIZE -> WSIZE - w <= Z.of_nat f -> 0 <= block_len (inf g) ->
  at_ g p x 0 -> p + 8 * block_len (inf g) <= limit -> window slide (g_mem g) o -> len o = start + w ->
  let e := Z.min (block_len (inf g)) (WSIZE - w) in
  exists g', stored_loop slide inbuf rd f w g = Some (w + e, g') /\ at_ g' (p + 8 * e) x 0 /\ window slide (g_mem g') (o ++ bytes_at bits p (Z.to_nat e)) /\
    steady g g' /\ block_len (inf g') = block_len (inf g) - e.
Proof.
  intros S. induction f as [|f IH]; intros g w p x o Hw Hf Hb A Hp W L e.
  all: assert (no_error g = true) as He by (unfold no_error; apply bool_decide_true; destruct A; by eapply reading_no_error).
  all: assert (e = 0 -> exists g', Some (w, g) = Some (w + e, g') /\ at_ g' (p + 8 * e) x 0 /\ window slide (g_mem g') (o ++ bytes_at bits p (Z.to_nat e)) /\
    steady g g' /\ block_len (inf g') = block_len (inf g) - e) as Hstop
    by (intros ->; exists g; rewrite Z.mul_0_r, !Z.add_0_r, Z.sub_0_r, app_nil_r; split; [done |]; split; [done |]; split; [done |]; split; [apply steady_refl | done]).
  all: cbn [stored_loop]; rewrite He, andb_true_r; destruct (Z.eqb_spec (block_len (inf g)) 0) as [E0 | E0]; cbn [negb andb]; [apply Hstop; lia |];
    destruct (Z.ltb_spec w WSIZE) as [Hlt | Hge]; [| apply Hstop; lia].
  { lia. }
  destruct (stored_byte g p x o start w A ltac:(lia) W L S ltac:(lia)) as (c & g1 & -> & A3 & W3 & S3 & B3). cbn [mbind option_bind].
  set (g3 := upd_inf _ _) in *. cbn zeta in IH.
  destruct (IH g3 (w + 1) (p + 8) x (o ++ bytes_at bits p 1)) as (g' & -> & A' & W' & S' & B'); try done; rewrite ?B3; try lia.
  { rewrite length_app, bytes_at_length. lia. }
  rewrite B3 in *. replace (Z.min (block_len (inf g) - 1) (WSIZE - (w + 1))) with (e - 1) in * by lia. exists g'. split; [do 2 f_equal; lia |].
  split; [by replace (p + 8 * e) with (p + 8 + 8 * (e - 1)) by lia |]. split; [| split; [by eapply steady_trans | lia]].
  replace (Z.to_nat e) with (1 + Z.to_nat (e - 1))%nat by lia. rewrite bytes_at_app, app_assoc. exact W'.
Qed.

(** *** The loop over blocks *)

(** What [inflate_window] does with an open block. *)
Definition block_part (f : nat) (g : files) : option (bool * files) :=
  let g := if INFLATE_DYNAMIC <? block_type (inf g) then bad_data g else g in
  if negb (no_error g) then Some (false, g)
  else if block_type (inf g) =? INFLATE_STORED then
    '(w, g) ← stored_loop slide inbuf rd (Z.to_nat WSIZE) (wp (inf g)) g;
    window_loop mem_lower mem_upper slide inbuf junk stray rd rounds f (upd_inf (set_window w) g)
  else
    '(r, g) ← inflate_codes_in_window mem_lower mem_upper slide inbuf rd rounds g;
    window_loop mem_lower mem_upper slide inbuf junk stray rd rounds f (if negb (r =? 0) then set_gz (reset_linalloc mem_upper (g_gz g)) g else g).

(** The state after a turn: [q] is before it. *)
Record turned (start q : Z) (g g' : files) (p' : Z) (o' : list Z) : Prop := {
  tu_stage : exists p1 o1, stage start g' p1 o1 p' o' /\ window slide (g_mem g') o1 /\ len o1 = start + wp (inf g') /\
    (wp (inf g') = WSIZE \/ q <= p1 /\ (0 < block_len (inf g) -> q < p1));
  tu_wp : 0 <= wp (inf g') <= WSIZE;
  tu_last : last_block (inf g') = last_block (inf g);
  tu_worked : worked g g' }.

Lemma steady_inf g g' : steady g g' -> exists n m c, inf g' = set_bufloc n (set_block_len m (set_code_state c (inf g))).
Proof. intros [(n & m & c & E) _]. exists n, m, c. unfold inf at 1. by rewrite E. Qed.

Lemma stored_turn f start g q o p' o' : block_type (inf g) = INFLATE_STORED -> 0 <= block_len (inf g) -> linalloc_topaddr (inf g) = hi -> bk (inf g) = 0 ->
  at_ g q (bb (inf g)) 0 -> p' = q + 8 * block_len (inf g) -> o' = o ++ bytes_at bits q (Z.to_nat (block_len (inf g))) -> p' <= limit ->
  window slide (g_mem g) o -> len o = start + wp (inf g) -> (WSIZE | start) -> 0 <= wp (inf g) < WSIZE ->
  exists g', block_part f g = window_loop mem_lower mem_upper slide inbuf junk stray rd rounds f g' /\ turned start q g g' p' o'.
Proof.
  intros Ht Hb Hl Hk A -> -> Hp W L S Hw. unfold block_part. rewrite Ht. change (INFLATE_DYNAMIC <? INFLATE_STORED) with false. cbn iota.
  assert (no_error g = true) as -> by (unfold no_error; apply bool_decide_true; destruct A; by eapply reading_no_error).
  rewrite Ht, Z.eqb_refl. cbn [negb].
  destruct (stored_loop_ok start S (Z.to_nat WSIZE) g (wp (inf g)) q (bb (inf g)) o ltac:(lia) ltac:(lia) Hb A Hp W L) as (g1 & -> & A1 & W1 & S1 & B1). cbn [mbind option_bind].
  set (e := Z.min (block_len (inf g)) (WSIZE - wp (inf g))) in *. set (g' := upd_inf (set_window (wp (inf g) + e)) g1). exists g'. split; [done |].
  destruct (steady_inf _ _ S1) as (n & m & c & E1). assert (inf g' = set_window (wp (inf g) + e) (set_bufloc n (set_block_len m (set_code_state c (inf g))))) as E' by (unfold g'; by rewrite <- E1).
  assert (block_len (inf g') = block_len (inf g) - e) as B' by exact B1.
  assert (at_ g' (q + 8 * e) (bb (inf g')) 0) as A' by (rewrite E'; by apply at_unzip).
  constructor.
  - exists (q + 8 * e), (o ++ bytes_at bits q (Z.to_nat e)). split; [| split; [exact W1 | split; [rewrite length_app, bytes_at_length, E'; cbn; lia |]]].
    + destruct (Z.eq_dec (block_len (inf g) - e) 0) as [E0 | E0].
      * apply stage_idle; [lia | rewrite E'; exact Hl | | lia | by replace (block_len (inf g)) with e by lia].
        assert (bk (inf g') = 0) as -> by (rewrite E'; exact Hk). exact A'.
      * apply stage_stored; [rewrite E'; exact Ht | lia | rewrite E'; exact Hl | rewrite E'; exact Hk | exact A' | lia |].
        rewrite B', <- app_assoc. f_equal. replace (Z.to_nat (block_len (inf g))) with (Z.to_nat e + Z.to_nat (block_len (inf g) - e))%nat by lia.
        rewrite bytes_at_app. do 2 f_equal. lia.
    + rewrite E'. change (wp (inf g) + e = WSIZE \/ q <= q + 8 * e /\ (0 < block_len (inf g) -> q < q + 8 * e)). right. lia.
  - rewrite E'. change (0 <= wp (inf g) + e <= WSIZE). lia.
  - by rewrite E'.
  - eapply worked_trans; [apply worked_steady, S1 | apply worked_vars].
Qed.

Lemma codes_turn f start g q o copy lit dist p' o' : block_type (inf g) = INFLATE_FIXED \/ block_type (inf g) = INFLATE_DYNAMIC -> block_len (inf g) = 1 ->
  in_codes lit dist start g (Locals (inflate_n (inf g)) (inflate_d (inf g)) (wp (inf g)) (bb (inf g)) (bk (inf g))) o q copy ->
  codes bits lit dist q (todo copy o) p' o' -> p' <= pe -> wp (inf g) < WSIZE ->
  exists g', block_part f g = window_loop mem_lower mem_upper slide inbuf junk stray rd rounds f g' /\ turned start q g g' p' o'.
Proof.
  intros Ht Hb I C Hp Hw. unfold block_part. rewrite (proj2 (Z.ltb_ge INFLATE_DYNAMIC (block_type (inf g)))) by (unfold INFLATE_FIXED, INFLATE_DYNAMIC in *; lia).
  assert (no_error g = true) as -> by (unfold no_error; apply bool_decide_true; by eapply in_codes_error).
  rewrite (proj2 (Z.eqb_neq (block_type (inf g)) INFLATE_STORED)) by (unfold INFLATE_FIXED, INFLATE_DYNAMIC, INFLATE_STORED in *; lia). cbn [negb].
  unfold inflate_codes_in_window. pose proof (codes_forward _ _ _ _ _ _ _ C) as [Hpp _]. pose proof (ab_pos _ _ _ _ _ _ _ _ _ _ _ _ _ (ic_bits _ _ _ _ _ _ _ _ _ _ _ _ _ _ _ _ _ _ _ _ _ I)) as Hq.
  destruct (codes_loop_ok b mem_lower mem_upper fsys_table read content size callback slide inbuf data lo hi stray content_byte data_range inbuf_place slide_place tables_apart slide_apart
    lit dist start p' o' ltac:(lia) rounds g _ o q copy I Hw C ltac:(destruct copy; lia)) as (s' & g1 & -> & S1 & H). cbn [mbind option_bind].
  destruct (steady_inf _ _ S1) as (n & m & c & E1). set (g2 := upd_inf _ g1).
  assert (inf g2 = set_bits (c_b s') (c_k s') (set_window (c_w s') (set_copy (c_n s') (c_d s') (inf g1)))) as E2 by done.
  assert (worked g g2) as W2 by (eapply worked_trans; [apply worked_steady, S1 | apply worked_vars]).
  destruct H as [[A1 W1 L1 P1 B1] | [F1 B1 (p1 & o1 & copy1 & I1 & C1)]].
  - assert (block_len (inf g2) = 0) as -> by exact B1. change (negb ((if 0 =? 0 then 1 else 0) =? 0)) with true. cbn iota.
    eexists. split; [reflexivity |]. set (g3 := set_gz _ g2). assert (inf g3 = set_linalloc hi (inf g2)) as E3 by done.
    assert (at_ g2 p' (c_b s') (c_k s')) as A2 by (by apply at_unzip).
    constructor.
    + exists p', o'. split; [| split; [exact W1 | split; [exact L1 | right; lia]]].
      apply stage_idle; [exact B1 | done | | done | done]. rewrite E3. change (at_ g3 p' (c_b s') (c_k s')).
      apply (at_bit_keep _ _ _ _ _ _ _ _ _ g2); [done |]. intros r G. apply reading_gz; [done | | done]. eapply rg_data; exact G.
    + rewrite E3, E2. change (0 <= c_w s' <= WSIZE). lia.
    + rewrite E3, E2, E1. done.
    + eapply worked_trans; [exact W2 |]. constructor; [by eexists | done].
  - assert (block_len (inf g2) = 1) as -> by (change (block_len (inf g1) = 1); congruence). change (negb ((if 1 =? 0 then 1 else 0) =? 0)) with false. cbn iota.
    exists g2. split; [done |]. pose proof I1 as [J1 J2 J3 J4 J5 J6 J7]. constructor.
    + exists p1, o1. split; [| split; [exact J3 | split; [rewrite E2; change (wp _) with (c_w s'); exact J4 | left; rewrite E2; exact F1]]].
      apply (stage_codes _ _ _ _ _ _ lit dist copy1); [rewrite E2, E1; exact Ht | change (block_len (inf g1) = 1); congruence | | exact C1].
      rewrite E2. constructor; cbn [c_n c_d c_w c_b c_k inflate_n inflate_d wp bb bk set_bits set_window set_copy]; try done.
      * by apply at_unzip.
      * destruct J2 as [T1 T2 T3]. constructor; done.
    + rewrite E2. change (0 <= c_w s' <= WSIZE). lia.
    + rewrite E2, E1. done.
    + exact W2.
Qed.

Abbreviation wloop := (window_loop mem_lower mem_upper slide inbuf junk stray rd rounds).

Lemma window_loop_step f g : wp (inf g) < WSIZE -> no_error g = true ->
  wloop (S f) g = if (block_len (inf g) =? 0) && negb (last_block (inf g) =? 0) then Some (true, g)
                  else (g ← (if block_len (inf g) =? 0 then get_new_block mem_upper inbuf junk stray rd g else Some g); block_part f g).
Proof. intros Hw He. cbn [window_loop]. by rewrite (proj2 (Z.ltb_lt _ _)), He by done. Qed.

(** What is to do, in turns. *)
Definition turns (g : files) (p : Z) : Z := if wp (inf g) =? WSIZE then 0 else pe - p + 1.

Lemma turned_running start q g0 g g' p' o' : (WSIZE | start) -> turned start q g g' p' o' -> after (last_block (inf g)) p' o' -> worked g0 g ->
  exists p1 o1, running start g' p1 o1 /\ worked g0 g' /\ (wp (inf g') = WSIZE \/ q <= p1 /\ (0 < block_len (inf g) -> q < p1)).
Proof.
  intros S [(p1 & o1 & St & W & L & H) Hw Hl Wk] A W0. exists p1, o1. split; [| split; [by eapply worked_trans | done]].
  constructor; [exists p', o'; by rewrite Hl | done..].
Qed.

(** A new block is opened and decoded. *)
Lemma new_block_turn start f g p o : running start g p o -> block_len (inf g) = 0 -> last_block (inf g) = 0 -> wp (inf g) < WSIZE ->
  exists g' p1 o1, (g ← get_new_block mem_upper inbuf junk stray rd g; block_part f g) = wloop f g' /\ running start g' p1 o1 /\ worked g g' /\
    (wp (inf g') = WSIZE \/ p < p1).
Proof.
  intros [(p' & o' & St & A) W L Hw S] Hb Hl Hlt. destruct St as [_ Htop At -> -> | H1 H2 H3 H4 H5 H6 H7 | lit dist copy H1 H2 I C]; [| lia..].
  unfold after in A. rewrite Hl in A. change (0 =? 0) with true in A. cbn iota in A.
  assert (exists p2 o2, block bits (p + 1) o p2 o2 /\ after (Z.b2z (bits p)) p2 o2) as (p2 & o2 & B & A2).
  { unfold after. inversion A as [? ? ? ? Hbit B | ? ? p2 o2 ? ? Hbit B D]; subst; rewrite Hbit; [by exists pe, out | by exists p2, o2]. }
  destruct (after_forward _ _ _ A2) as [Hp2 _].
  destruct (get_new_block_ok b mem_lower mem_upper fsys_table read content size callback inbuf data lo junk stray content_byte data_range inbuf_place tables_apart room junk_length
    g p o p2 o2 At Hb Htop B ltac:(lia)) as (g1 & q & -> & Ho & Hl1 & Hq & Hopen). cbn [mbind option_bind].
  assert (wp (inf g1) = wp (inf g)) as Ew by (destruct Ho as [(v & Ev & Ew) _]; unfold inf at 1; by rewrite Ev).
  assert (window slide (g_mem g1) o) as W1.
  { eapply window_frame; [exact W |]. intros a Ha. destruct (slide_apart a Ha). by apply (ho_mem _ _ _ _ _ Ho). }
  assert (exists g', block_part f g1 = wloop f g' /\ turned start q g1 g' p2 o2) as (g' & -> & T).
  { destruct Hopen as [[T1 T2 [T3 T4] T5 T6 T7] | [T1 [T2 T3] T4 (lit & dist & T5 & T6)]].
    - apply (stored_turn f start g1 q o p2 o2); try done; rewrite ?Ew; try done; lia.
    - apply (codes_turn f start g1 q o None lit dist p2 o2); [exact T1 | exact T2 | | exact T6 | exact Hp2 | by rewrite Ew].
      constructor; cbn [c_n c_d c_w c_b c_k]; rewrite ?Ew; [exact T4 | exact T5 | exact W1 | exact L | exact S | lia | exact T3]. }
  destruct (turned_running start q g g1 g' p2 o2 S T ltac:(by rewrite Hl1) (worked_header _ _ Ho)) as (p1 & o1 & R1 & W' & Hd).
  exists g', p1, o1. split; [done |]. split; [done |]. split; [done |]. destruct Hd as [Hd | [Hd _]]; [by left | right; lia].
Qed.

(** The open block goes on. *)
Lemma open_block_turn start f g p o : running start g p o -> block_len (inf g) <> 0 -> wp (inf g) < WSIZE ->
  exists g' p1 o1, block_part f g = wloop f g' /\ running start g' p1 o1 /\ worked g g' /\ (wp (inf g') = WSIZE \/ p < p1).
Proof.
  intros [(p' & o' & St & A) W L Hw S] Hb Hlt. destruct (after_forward _ _ _ A) as [Hp' _].
  assert (0 < block_len (inf g) /\ exists g', block_part f g = wloop f g' /\ turned start p g g' p' o') as [Hb' (g' & -> & T)].
  { destruct St as [H1 H2 H3 H4 H5 | H1 H2 H3 H4 H5 H6 H7 | lit dist copy H1 H2 I C]; [lia | |].
    - split; [done |]. apply (stored_turn f start g p o p' o'); done || lia.
    - split; [lia |]. apply (codes_turn f start g p o copy lit dist p' o'); done || lia. }
  destruct (turned_running start p g g g' p' o' S T A (worked_refl g)) as (p1 & o1 & R1 & W' & Hd).
  exists g', p1, o1. split; [done |]. split; [done |]. split; [done |]. destruct Hd as [Hd | [_ Hd]]; [by left | right; auto].
Qed.

Lemma window_loop_ok start : forall f g p o, running start g p o -> turns g p <= Z.of_nat f ->
  exists g' p1 o1, wloop f g = Some (true, g') /\ running start g' p1 o1 /\ worked g g' /\
    (wp (inf g') = WSIZE \/ o1 = out /\ block_len (inf g') = 0 /\ last_block (inf g') <> 0).
Proof.
  intros f. induction f as [|f IH]; intros g p o Rn Hf; pose proof (running_forward _ _ _ _ Rn) as [Hp _]; pose proof (ru_wp _ _ _ _ Rn) as Hw; unfold turns in Hf.
  all: destruct (Z.eqb_spec (wp (inf g)) WSIZE) as [E | E];
    [exists g, p, o; split; [cbn [window_loop]; by rewrite E, Z.ltb_irrefl |]; split; [done |]; split; [apply worked_refl | by left] |].
  { lia. }
  assert (no_error g = true) as He by (unfold no_error; apply bool_decide_true; destruct (ru_stage _ _ _ _ Rn) as (? & ? & ? & _); by eapply stage_error).
  rewrite window_loop_step by (done || lia).
  assert (forall g' p1 o1, running start g' p1 o1 -> worked g g' -> wp (inf g') = WSIZE \/ p < p1 -> exists g2 p2 o2, wloop f g' = Some (true, g2) /\ running start g2 p2 o2 /\ worked g g2 /\
    (wp (inf g2) = WSIZE \/ o2 = out /\ block_len (inf g2) = 0 /\ last_block (inf g2) <> 0)) as Hnext.
  { intros g' p1 o1 R1 W1 Hd. destruct (IH g' p1 o1 R1) as (g2 & p2 & o2 & E2 & R2 & W2 & H2); [unfold turns; destruct (Z.eqb_spec (wp (inf g')) WSIZE); lia |].
    exists g2, p2, o2. split; [done |]. split; [done |]. split; [by eapply worked_trans | done]. }
  destruct (Z.eqb_spec (block_len (inf g)) 0) as [Hb | Hb]; cbn [andb].
  - destruct (Z.eqb_spec (last_block (inf g)) 0) as [Hl | Hl]; cbn [negb].
    + destruct (new_block_turn start f g p o Rn Hb Hl ltac:(lia)) as (g' & p1 & o1 & -> & R1 & W1 & Hd). by eapply Hnext.
    + exists g, p, o. split; [done |]. split; [done |]. split; [apply worked_refl |]. right. split; [| done].
      destruct Rn as [(p' & o' & St & A) _ _ _ _]. destruct St as [H1 H2 H3 H4 H5 | H1 H2 H3 H4 H5 H6 H7 | lit dist copy H1 H2 I C]; [| lia..].
      unfold after in A. rewrite (proj2 (Z.eqb_neq _ _)) in A by done. destruct A. congruence.
  - cbn [mbind option_bind]. destruct (open_block_turn start f g p o Rn Hb ltac:(lia)) as (g' & p1 & o1 & -> & R1 & W1 & Hd). by eapply Hnext.
Qed.

(** *** Windows *)

Hypothesis denotes : deflate bits 0 [] pe out.
Hypothesis out_small : len out + 0x10000 <= 2147483648.

Abbreviation reading := (reading b mem_lower mem_upper fsys_table read content size inbuf data).
Definition rewound (g : files) : files := upd_inf (set_window 0) g.

(** Between windows: the output up to [saved] has been written, and decoding can
    go on, unless that is all of it. *)
Record unpacked (saved : Z) (g : files) : Prop := {
  un_reading : exists q, reading g q;
  un_saved : saved_filepos (g_gz g) = saved;
  un_range : (WSIZE | saved) /\ 0 <= saved;
  un_output : exists o, window slide (g_mem g) o /\ (exists l, out = o ++ l) /\
    (len o = saved /\ (exists p, running saved (rewound g) p o) \/ o = out /\ len out <= saved) }.

Lemma running_reading start g p o : running start g p o -> exists q, reading g q /\ 0 <= p.
Proof.
  intros [(p' & o' & S & _) _ _ _ _]. destruct S as [H1 H2 A H3 H4 | H1 H2 H3 H4 A H5 H6 | lit dist copy H1 H2 [A I2 I3 I4 I5 I6 I7] C];
    destruct A as [P1 P2 P3 P4 P5]; eexists; split; [exact P4 | done | exact P4 | done | exact P4 | done].
Qed.

(** A full window becomes the one before. *)
Lemma roll start g g' p o : running start g p o -> wp (inf g) = WSIZE -> inf g' = set_window 0 (inf g) -> g_mem g' = g_mem g ->
  (forall q, reading g q -> reading g' q) -> running (start + WSIZE) g' p o.
Proof.
  intros [(p' & o' & S & A) W L Hw Hs] E Ei Em Hr.
  assert (forall q x k, at_ g q x k -> at_ g' q x k) as Ha by (intros q x k H; eapply at_bit_keep; [exact H | exact Hr]).
  constructor; rewrite ?Ei, ?Em; [| done | change (wp _) with 0; lia | change (wp _) with 0; change WSIZE with 32768; lia | apply Z.divide_add_r; [done | apply Z.divide_refl]].
  exists p', o'. split; [| exact A].
  destruct S as [H1 H2 At H3 H4 | H1 H2 H3 H4 At H5 H6 | lit dist copy H1 H2 I C].
  - apply stage_idle; rewrite ?Ei; try done. by apply Ha.
  - apply stage_stored; rewrite ?Ei; try done. by apply Ha.
  - apply (stage_codes _ _ _ _ _ _ lit dist copy); rewrite ?Ei; try done.
    destruct I as [I1 [T1 T2 T3] I3 I4 I5 I6 I7]. cbn [c_w c_b c_k c_n c_d inflate_n inflate_d wp bb bk set_window] in *. rewrite E in *.
    constructor; cbn [c_w c_b c_k c_n c_d inflate_n inflate_d wp bb bk set_window]; rewrite ?Em; try done; try lia.
    + by apply Ha.
    + constructor; rewrite ?Ei, ?Em; done.
    + apply Z.divide_add_r; [done | apply Z.divide_refl].
    + destruct copy as [[n d] |]; rewrite ?Ei; [| done]. destruct I7 as (K1 & K2 & K3 & K4 & K5 & K6). split_and!; try done; try lia.
      rewrite K6. replace (WSIZE - d) with (0 - d + 1 * WSIZE) by lia. by apply Z.mod_add.
Qed.

Lemma inflate_window_ok saved g : unpacked saved g -> saved < len out ->
  exists g', inflate_window mem_lower mem_upper slide inbuf junk stray rd rounds g = Some g' /\ unpacked (saved + WSIZE) g' /\
    (exists v, g_gz g' = set_saved (saved + WSIZE) (set_inflate v (g_gz g))) /\
    forall a, ~ volatile inbuf a -> ~ (lo <= a < hi) -> ~ (slide <= a < slide + WSIZE) -> ld (g_mem g') a = ld (g_mem g) a.
Proof.
  intros [_ Hs [Hd H0] (o & W & Ho & [[L (p & Rn)] | [-> L]])] Hlt; [| lia]. unfold inflate_window. fold (rewound g).
  destruct (running_reading _ _ _ _ Rn) as (q & Hq & Hp0). destruct (running_forward _ _ _ _ Rn) as [Hp _].
  destruct (window_loop_ok saved rounds (rewound g) p o Rn) as (g1 & p1 & o1 & -> & R1 & [[v Ev] F] & Hend).
  { unfold turns. change (wp (inf (rewound g))) with 0. change (0 =? WSIZE) with false. cbn iota. lia. }
  cbn [mbind option_bind]. destruct (running_reading _ _ _ _ R1) as (q1 & Hq1 & _). destruct (running_forward _ _ _ _ R1) as [_ Ho1].
  pose proof R1 as [_ W1 L1 Hw1 S1].
  assert (saved_filepos (g_gz g1) = saved) as E1 by (rewrite Ev; exact Hs). rewrite E1. assert (WSIZE = 32768) as EW by done. rewrite s32_small by lia.
  eexists. split; [reflexivity |]. set (g' := set_gz _ g1).
  assert (reading g' q1) as Hq' by (apply reading_gz; [done | eapply rg_data; exact Hq1 | done]). split; [| split].
  - constructor; [by eexists | done | split; [apply Z.divide_add_r; [done | apply Z.divide_refl] | lia] |].
    exists o1. split; [exact W1 |]. split; [done |]. destruct Hend as [Hw | (-> & _ & _)].
    + left. split; [lia |]. exists p1. eapply (roll saved g1); [exact R1 | done | done | done |]. intros r G. apply reading_vars; [| done].
      apply reading_gz; [done | eapply rg_data; exact G | done].
    + right. split; [done | lia].
  - exists v. unfold g'. cbn [g_gz set_gz]. by rewrite Ev.
  - intros a H1 H2 H3. apply F; done.
Qed.

(** *** Reading from the window *)

(** Nothing that decoding relies on is different. *)
Record kept (g g' : files) : Prop := {
  kp_inf : inf g' = inf g;
  kp_mem : forall a, lo <= a < hi \/ slide <= a < slide + WSIZE -> ld (g_mem g') a = ld (g_mem g) a;
  kp_reading : forall q, reading g q -> reading g' q }.

Lemma running_kept start g g' p o : running start g p o -> kept g g' -> running start g' p o.
Proof.
  intros [(p' & o' & S & A) W L Hw Hs] [Ei Em Hr].
  assert (forall q x k, at_ g q x k -> at_ g' q x k) as Ha by (intros q x k H; eapply at_bit_keep; [exact H | exact Hr]).
  assert (forall o, window slide (g_mem g) o -> window slide (g_mem g') o) as Hwin by (intros w Hwin; eapply window_frame; [exact Hwin |]; auto).
  constructor; rewrite ?Ei; try done; [| by apply Hwin]. exists p', o'. split; [| exact A].
  destruct S as [H1 H2 At H3 H4 | H1 H2 H3 H4 At H5 H6 | lit dist copy H1 H2 I C].
  - apply stage_idle; rewrite ?Ei; try done. by apply Ha.
  - apply stage_stored; rewrite ?Ei; try done. by apply Ha.
  - apply (stage_codes _ _ _ _ _ _ lit dist copy); rewrite ?Ei; try done. destruct I as [I1 [[T1 T1'] T2 T3] I3 I4 I5 I6 I7].
    constructor; try done; [by apply Ha | | by apply Hwin | by rewrite Ei]. constructor; rewrite ?Ei; [| | done].
    + split; [done |]. eapply decodes_widen; [done | done | | exact T1']. auto.
    + destruct T2 as [T2 | [T2 T2']]; [by left | right]. split; [done |]. eapply decodes_widen; [done | done | | exact T2']. auto.
Qed.

Lemma unpacked_kept saved g g' : unpacked saved g -> kept g g' -> saved_filepos (g_gz g') = saved -> unpacked saved g'.
Proof.
  intros [[q Hq] Hs Hr (o & W & Ho & H)] K E. constructor; [exists q; by apply (kp_reading _ _ K) | done | done |].
  exists o. split; [eapply window_frame; [exact W |]; intros a Ha; apply (kp_mem _ _ K); by right |]. split; [done |].
  destruct H as [[L (p & Rn)] | H]; [left | by right]. split; [done |]. exists p. eapply running_kept; [exact Rn |]. destruct K as [K1 K2 K3].
  constructor; [unfold rewound; change (set_window 0 (inf g') = set_window 0 (inf g)); by rewrite K1 | exact K2 |].
  intros r G. apply reading_vars; [| done]. apply K3.
  assert (reading (set_gz (g_gz g) (rewound g)) r) as G' by (apply reading_gz; [exact G | change (gzip_data_offset (g_gz (rewound g)) = data); eapply rg_data; exact G | done]).
  replace g with (set_gz (g_gz g) (rewound g)) by (by destruct g). done.
Qed.

(** The variables [v] with the window at [saved]. *)
Definition at_window (saved : Z) (v : inflater) (z : gz) : gz := set_saved saved (set_inflate v z).

Definition outside_work (g g' : files) : Prop :=
  forall a, ~ volatile inbuf a -> ~ (lo <= a < hi) -> ~ (slide <= a < slide + WSIZE) -> ld (g_mem g') a = ld (g_mem g) a.

Lemma next_windows_loop fp : 0 <= fp < len out -> forall f saved g, unpacked saved g -> gzip_filepos (g_gz g) = fp -> fp - saved < WSIZE * Z.of_nat f ->
  exists saved' g', while f (fun g => saved_filepos (g_gz g) <=? gzip_filepos (g_gz g)) (inflate_window mem_lower mem_upper slide inbuf junk stray rd rounds) g = Some g' /\
    unpacked saved' g' /\ fp < saved' <= Z.max saved (fp + WSIZE) /\ (exists v, g_gz g' = at_window saved' v (g_gz g)) /\ outside_work g g'.
Proof.
  intros Hfp f. assert (WSIZE = 32768) as EW by done. induction f as [|f IH]; intros saved g U Ef Hf; pose proof (un_saved _ _ U) as Es; cbn [while]; rewrite Es, Ef.
  all: destruct (Z.leb_spec saved fp) as [Hle | Hgt];
    [| exists saved, g; split; [done |]; split; [done |]; split; [lia |]; split; [| done]; exists (inf g); unfold at_window; rewrite <- Es; unfold inf; by destruct g as [? ? []]].
  { lia. }
  destruct (inflate_window_ok saved g U ltac:(lia)) as (g1 & -> & U1 & [v1 E1] & F1). cbn [mbind option_bind].
  destruct (IH (saved + WSIZE) g1 U1) as (saved' & g' & E & U' & H' & [v' E'] & F'); [by rewrite E1 | lia |].
  exists saved', g'. split; [done |]. split; [done |]. split; [lia |]. split.
  - exists v'. rewrite E', E1. done.
  - intros a H1 H2 H3. by rewrite F', F1.
Qed.

Lemma next_windows_ok saved g : unpacked saved g -> 0 <= gzip_filepos (g_gz g) < len out ->
  exists saved' g', next_windows mem_lower mem_upper slide inbuf junk stray rd rounds g = Some g' /\ unpacked saved' g' /\
    gzip_filepos (g_gz g) < saved' <= Z.max saved (gzip_filepos (g_gz g) + WSIZE) /\ (exists v, g_gz g' = at_window saved' v (g_gz g)) /\ outside_work g g'.
Proof.
  intros U Hfp. apply next_windows_loop; try done. rewrite (un_saved _ _ U). assert (WSIZE = 32768) as EW by done.
  pose proof (Z.div_mod (gzip_filepos (g_gz g) - saved) WSIZE ltac:(done)). pose proof (Z.mod_pos_bound (gzip_filepos (g_gz g) - saved) WSIZE ltac:(done)).
  destruct (Z.le_gt_cases 0 ((gzip_filepos (g_gz g) - saved) / WSIZE + 2)); lia.
Qed.

(** A place for the output, apart from what decoding uses. *)
Definition output_place (buf n : Z) : Prop :=
  target_ok mem_lower mem_upper buf n /\ forall a, buf <= a < buf + n -> ~ volatile inbuf a /\ ~ (lo <= a < hi) /\ ~ (slide <= a < slide + WSIZE).

Lemma output_part buf n k m : output_place buf n -> 0 <= k -> 0 <= m -> k + m <= n -> output_place (buf + k) m.
Proof.
  intros [[T1 T2 T3 T4 T5] H] Hk Hm Hs. split; [constructor; try done; [unfold mem_ok in *; lia | lia |]; intros a Ha; apply T5; lia |]. intros a Ha. apply H. lia.
Qed.

Definition set_gzip_pos (n : Z) (z : gz) : gz :=
  Gz (no_decompression z) (gzip_data_offset z) n (gzip_filemax z) (gzip_fsmax z) (saved_filepos z) (gzip_crc z) (inflate z).

(** Copying out of the window. *)
Lemma copy_out saved g buf n : unpacked saved g -> let fp := gzip_filepos (g_gz g) in
  0 <= fp < len out -> saved - WSIZE <= fp < saved -> 0 <= n -> n <= saved - fp -> fp + n <= len out -> output_place buf n ->
  let g1 := upd (fun s => set_fdisk (move mem_lower mem_upper buf ((fp .& (WSIZE - 1)) + slide) n (f_disk s)) s) g in
  exists m, g1 = upd (set_fmem m) g /\ (forall i, 0 <= i < n -> ld m (buf + i) = nth (Z.to_nat (fp + i)) out 0) /\
    (forall a, ~ (buf <= a < buf + n) -> ld m a = ld (g_mem g) a).
Proof.
  intros [[q Hq] Hs [[c Hc] H0] (o & W & [l Ho] & H)] fp Hfp Hw Hn Hns Hno [[T1 T2 T3 T4 T5] _] g1.
  assert (WSIZE = 32768) as EW by done. pose proof (reading_no_error _ _ _ _ _ _ _ _ _ _ _ Hq) as He.
  assert (0 <= buf) as Hbuf by (unfold mem_ok in T3; lia).
  destruct (move_ok mem_lower mem_upper T1 T2 buf ((fp .& (WSIZE - 1)) + slide) n (f_disk (g_fs g)) He) as (m & Em & C); [lia | done | lia |].
  exists m. split; [unfold g1, upd; by rewrite Em |]. change (d_mem (f_disk (g_fs g))) with (g_mem g) in C.
  assert (fp .& (WSIZE - 1) = fp mod WSIZE) as El by (change (WSIZE - 1) with (Z.ones 15); by rewrite Z.land_ones by lia). rewrite El in C.
  assert (fp mod WSIZE = fp - (saved - WSIZE)) as Ef by (symmetry; apply (Z.mod_unique _ _ (c - 1)); lia).
  split.
  - intros i Hi. rewrite C, decide_True by lia. replace (buf + i - buf) with i by lia.
    assert (fp + i < len o) as Hlo by (destruct H as [[L _] | [-> L]]; lia).
    replace (fp mod WSIZE + slide + i) with (slide + (fp + i) mod WSIZE).
    + rewrite W by (destruct H as [[L _] | [-> L]]; lia). unfold GrubWindow.at_. rewrite Ho, app_nth1 by lia. done.
    + rewrite Ef. assert ((fp + i) mod WSIZE = fp + i - (saved - WSIZE)) as ->; [| lia]. symmetry. apply (Z.mod_unique _ _ (c - 1)); lia.
  - intros a Ha. rewrite C, decide_False by done. done.
Qed.

Lemma gunzip_loop_ok : forall f buf n ret g saved, unpacked saved g -> let fp := gzip_filepos (g_gz g) in
  0 <= fp -> 0 <= n <= Z.of_nat f -> fp + n <= len out -> saved - WSIZE <= fp -> output_place buf n ->
  exists saved' g', gunzip_loop mem_lower mem_upper slide inbuf junk stray rd rounds f buf n ret g = Some (ret + n, g') /\ unpacked saved' g' /\
    (exists v, g_gz g' = set_gzip_pos (fp + n) (at_window saved' v (g_gz g))) /\
    (forall i, 0 <= i < n -> ld (g_mem g') (buf + i) = nth (Z.to_nat (fp + i)) out 0) /\
    (forall a, ~ volatile inbuf a -> ~ (lo <= a < hi) -> ~ (slide <= a < slide + WSIZE) -> ~ (buf <= a < buf + n) -> ld (g_mem g') a = ld (g_mem g) a).
Proof.
  assert (WSIZE = 32768) as EW by done.
  induction f as [|f IH]; intros buf n ret g saved U fp Hfp Hn Hout Hs Hb; cbn [gunzip_loop]; destruct (Z.ltb_spec 0 n) as [Hpos | Hneg]; cbn [andb]; try lia.
  1, 3: assert (n = 0) as -> by lia; exists saved, g; rewrite !Z.add_0_r; split; [done |]; split; [done |]; split;
    [exists (inf g); unfold at_window; rewrite <- (un_saved _ _ U); unfold fp, inf; by destruct g as [? ? []] | split; [lia | done]].
  assert (no_error g = true) as -> by (unfold no_error; apply bool_decide_true; destruct (un_reading _ _ U) as [q Hq]; by eapply reading_no_error).
  destruct (next_windows_ok saved g U ltac:(lia)) as (saved1 & g1 & -> & U1 & Hs1 & [v1 E1] & F1). cbn [mbind option_bind].
  assert (gzip_filepos (g_gz g1) = fp /\ saved_filepos (g_gz g1) = saved1) as [Ef1 Es1] by (by rewrite E1). rewrite Ef1, Es1.
  set (k := if n <? saved1 - fp then n else saved1 - fp). assert (0 < k <= n /\ k <= saved1 - fp) as Hk by (unfold k; zcase; lia).
  pose proof (output_part buf n 0 k Hb ltac:(lia) ltac:(lia) ltac:(lia)) as Hb0. rewrite Z.add_0_r in Hb0.
  pose proof (copy_out saved1 g1 buf k U1) as HC. cbn zeta in HC. rewrite Ef1 in HC.
  destruct (HC ltac:(lia) ltac:(lia) ltac:(lia) ltac:(lia) ltac:(lia) Hb0) as (m & -> & B & F2).
  set (g2 := set_gz _ (upd (set_fmem m) g1)).
  assert (g_gz g2 = set_gzip_pos (fp + k) (at_window saved1 v1 (g_gz g))) as E2 by (unfold g2; cbn [g_gz set_gz upd set_gfs]; rewrite E1; done).
  assert (kept g1 g2) as K.
  { constructor; [done | |].
    - intros a Ha. change (ld m a = ld (g_mem g1) a). apply F2. intros Hin. destruct Hb0 as [_ Hb0]. destruct (Hb0 a Hin) as (_ & H1 & H2). by destruct Ha.
    - intros q Hq. apply reading_gz; [apply reading_mem; [done |] | eapply rg_data; exact Hq | done].
      intros a Ha. apply F2. intros Hin. destruct Hb0 as [_ Hb0]. by destruct (Hb0 a Hin). }
  pose proof (unpacked_kept saved1 g1 g2 U1 K ltac:(by rewrite E2)) as U2.
  pose proof (IH (buf + k) (n - k) (ret + k) g2 saved1 U2) as HI. cbn zeta in HI. assert (gzip_filepos (g_gz g2) = fp + k) as Ef2 by (by rewrite E2). rewrite Ef2 in HI.
  destruct HI as (saved' & g' & E' & U' & [v' Ev'] & B' & F'); [lia | lia | lia | lia | apply (output_part buf n); [exact Hb | lia | lia | lia] |].
  exists saved', g'. split; [rewrite E'; do 2 f_equal; lia |]. split; [done |]. split; [| split].
  - exists v'. rewrite Ev', E2. replace (fp + k + (n - k)) with (fp + n) by lia. done.
  - intros i Hi. destruct (Z.lt_ge_cases i k).
    + destruct Hb as [_ Hb]. destruct (Hb (buf + i) ltac:(lia)) as (H1 & H2 & H3). rewrite F' by (done || lia). change (ld m (buf + i) = nth (Z.to_nat (fp + i)) out 0). apply B. lia.
    + replace (buf + i) with (buf + k + (i - k)) by lia. rewrite B' by lia. f_equal. lia.
  - intros a H1 H2 H3 H4. rewrite F' by (done || lia). change (ld m a = ld (g_mem g) a). rewrite F2 by lia. by apply F1.
Qed.
End Unzip.
