(* ===== verification/GrubGzip.v ===== *)
(** * Reading a compressed file

    [gunzip_read] of [gunzip.c] as [grub_read] calls it: on a compressed file the
    bytes that are read are those that the data denotes, at any position and in
    any order of the positions.  Then [gunzip_test_header], which finds the data
    behind the header of the file. *)

From S2P Require Import Prelude Machine LibcString GrubString GrubTerm GrubReadline GrubBios GrubDisk GrubDevice GrubPart GrubFsys GrubFat GrubFile Deflate Canonical GrubGunzip GrubHuffman GrubBits GrubWindow GrubInflate GrubHeader GrubUnzip.

(** ** Specifications *)

(** The memory that decoding uses: the buffer, the window, and from [lo] up to
    the end of the memory the tables. *)
Record work_areas (mem_lower mem_upper slide inbuf lo : Z) : Prop := {
  wa_inbuf : file_place mem_lower mem_upper inbuf INBUFSIZ;
  wa_slide : file_place mem_lower mem_upper slide WSIZE;
  wa_tables : forall a, lo <= a < heap_end mem_upper -> ~ volatile inbuf a;
  wa_apart : forall a, slide <= a < slide + WSIZE -> ~ volatile inbuf a /\ ~ (lo <= a < heap_end mem_upper);
  wa_room : 0 <= lo /\ lo + heap_room <= heap_end mem_upper }.

(** The compressed data of a file, from [data] on and of [pe] bits, denotes [out];
    what follows it is as long as a trailer is, at least but for 3 bytes. *)
Record gzip_data (content : Z -> Z) (size data pe : Z) (out : list Z) : Prop := {
  gd_byte : forall x, 0 <= content x < 256;
  gd_range : 0 <= data <= size;
  gd_limit : pe + 40 <= 8 * (size - data);
  gd_denotes : deflate (bit content data) 0 [] pe out;
  gd_small : Z.of_nat (length out) + 0x10000 <= 2147483648 }.

(** The header of RFC 1952: the magic number, the method, the flags, and the
    fields that the flags announce; the size is in the last four bytes. *)
Section Fields.
Variables (content : Z -> Z) (size : Z).

(** A string at [x] up to [y]. *)
Definition field_string (x y : Z) : Prop := exists n, 0 <= n /\ y = x + n + 1 /\ content (x + n) = 0 /\ forall i, 0 <= i < n -> content (x + i) <> 0.
Definition optional_string (flag x y : Z) : Prop := if content 3 .& flag =? 0 then y = x else field_string x y.
Definition extra_end : Z := if content 3 .& EXTRA_FIELD =? 0 then 10 else 12 + (content 10 + 256 * content 11).

Record gzip_header (data total : Z) : Prop := {
  gh_magic : content 0 + 256 * content 1 = GZIP_HDR_LE \/ content 0 + 256 * content 1 = OLD_GZIP_HDR_LE;
  gh_method : content 2 = DEFLATED;
  gh_flags : content 3 .& UNSUPP_FLAGS = 0;
  gh_fields : exists y, optional_string ORIG_NAME extra_end y /\ optional_string COMMENT y data;
  gh_data : data + 8 <= size;
  gh_total : content (size - 4) + 256 * content (size - 3) + 65536 * content (size - 2) + 16777216 * content (size - 1) = total }.
End Fields.

Section Gzip.
Context (b : bios) (mem_lower mem_upper : Z) (fsys_table : list fsys_entry).
Context (read : Z -> Z -> fs -> option (Z * fs)) (content : Z -> Z) (size : Z) {R : FileReader mem_lower mem_upper read content size}.
Context (slide inbuf data lo : Z) (junk : list Z) (stray : Z -> Z) (rounds : nat) (pe : Z) (out : list Z).
Hypothesis areas : work_areas mem_lower mem_upper slide inbuf lo.
Hypothesis compressed : gzip_data content size data pe out.
Hypothesis junk_length : length junk = 288%nat.
Hypothesis enough_rounds : pe + 3 <= Z.of_nat rounds.

Abbreviation len o := (Z.of_nat (length o)).
Abbreviation unpacked := (unpacked b mem_lower mem_upper fsys_table read content size slide inbuf data lo stray pe out).
Abbreviation opened_file := (file_open b mem_lower mem_upper fsys_table read content size).
Abbreviation output_place := (output_place mem_lower mem_upper slide inbuf lo).
Abbreviation depth_read := (gunzip_read b mem_lower mem_upper fsys_table slide inbuf junk stray rounds).

(** The variables as [gunzip_read] has them while it works. *)
Definition inside (g : files) : files := gunzip_swap_values (upd (set_compressed false) g).

(** A compressed file is open: the size is that of the output, and decoding has
    come to some point. *)
Record gzip_open (g : files) : Prop := {
  go_compressed : compressed_file (g_fs g) = true;
  go_size : filemax (g_fs g) = len out;
  go_max : fsmax (g_fs g) = len out;
  go_inside : exists saved, unpacked saved (inside g) }.

(** Memory that is left as it is, but for [n] bytes at [buf]. *)
Definition only_output (buf n : Z) (g g' : files) : Prop :=
  forall a, ~ volatile inbuf a -> ~ (lo <= a < heap_end mem_upper) -> ~ (slide <= a < slide + WSIZE) -> ~ (buf <= a < buf + n) -> ld (g_mem g') a = ld (g_mem g) a.

(** ** Proofs *)

Lemma swap_back g : compressed_file (g_fs g) = false -> inside (gunzip_swap_values (upd (set_compressed true) g)) = g.
Proof. intros E. destruct g as [[? ? ? ? ? ? ? ? ? ? ?] ? [? ? ? ? ? ? ?]]. cbn in *. by subst. Qed.

Lemma swap_out g : compressed_file (g_fs g) = true -> gunzip_swap_values (upd (set_compressed true) (inside g)) = g.
Proof. intros E. destruct g as [[? ? ? ? ? ? ? ? ? ? ?] ? [? ? ? ? ? ? ?]]. cbn in *. by subst. Qed.

Lemma gzip_open_error g : gzip_open g -> g_err g = ERR_NONE.
Proof. intros [_ _ _ [saved [[q Hq] _ _ _]]]. apply reading_no_error in Hq. done. Qed.

Lemma running_start g : opened_file g -> gzip_data_offset (g_gz g) = data -> filepos (g_fs g) = data -> block_len (inf g) = 0 -> last_block (inf g) = 0 ->
  linalloc_topaddr (inf g) = heap_end mem_upper -> bb (inf g) = 0 -> bk (inf g) = 0 -> wp (inf g) = 0 ->
  running b mem_lower mem_upper fsys_table read content size slide inbuf data lo stray pe out 0 g 0 [].
Proof.
  intros O D P E1 E2 E3 E4 E5 E6.
  constructor; rewrite ?E6; [| intros i Hi; cbn in Hi; lia | done | done | by exists 0].
  exists 0, []. rewrite E2. split; [| apply compressed]. apply stage_idle; try done. rewrite E4, E5. constructor; [done | done | by exists 0 | | done].
  constructor; [done | done | done | by left].
Qed.

Lemma initialize_ok g : opened_file g -> gzip_data_offset (g_gz g) = data -> unpacked 0 (initialize_tables mem_upper g).
Proof.
  intros O D. assert (opened_file (initialize_tables mem_upper g)) as O'.
  { apply (file_open_pos b mem_lower mem_upper fsys_table read content size g (gzip_data_offset (g_gz g))) in O. destruct O. by constructor. }
  assert (filepos (g_fs (initialize_tables mem_upper g)) = data) as P by done.
  constructor; [| done | split; [by exists 0 | done] |].
  - exists 0. constructor; [done | done | done | by left].
  - exists []. split; [intros i Hi; cbn in Hi; lia |]. split; [by exists out |]. left. split; [done |]. exists 0.
    apply running_start; [| done..]. destruct O'. by constructor.
Qed.

(** What [gunzip_body] does with the variables that are swapped. *)
Lemma gzip_open_pos g pos : gzip_open g -> gzip_open (upd (set_pos pos) g).
Proof.
  intros [E1 E2 E3 [saved U]]. constructor; [done | done | done |]. exists saved.
  apply (unpacked_kept b mem_lower mem_upper fsys_table read content size slide inbuf data lo stray pe out saved _ _ U).
  - constructor; [done | done |]. intros q G.
    change (inside (upd (set_pos pos) g)) with (set_gz (set_gzip_pos pos (g_gz (inside g))) (inside g)).
    apply reading_gz; [done | exact (rg_data _ _ _ _ _ _ _ _ _ _ _ G) | done].
  - apply U.
Qed.

(** The window is put where the position is not behind it. *)
Lemma rewind_window saved g : unpacked saved g -> 0 <= gzip_filepos (g_gz g) <= len out ->
  let g1 := if s32 (gzip_filepos (g_gz g) + WSIZE) <? saved_filepos (g_gz g) then initialize_tables mem_upper g else g in
  exists saved1, unpacked saved1 g1 /\ saved1 - WSIZE <= gzip_filepos (g_gz g) /\ g_mem g1 = g_mem g /\
    (exists v, g_gz g1 = at_window saved1 v (g_gz g)).
Proof.
  intros U Hfp g1. assert (WSIZE = 32768) as EW by done. pose proof (gd_small _ _ _ _ _ compressed) as Hsmall. pose proof U as [[q Hq] Es Hr _].
  unfold g1. rewrite s32_small, Es by lia. destruct (Z.ltb_spec (gzip_filepos (g_gz g) + WSIZE) saved) as [Hlt | Hge].
  - exists 0. split; [apply initialize_ok; apply Hq |]. split; [lia |]. split; [done |]. by eexists.
  - exists saved. split; [done |]. split; [lia |]. split; [done |]. exists (inf g). unfold at_window. rewrite <- Es. unfold inf. by destruct g as [? ? []].
Qed.

Section Body.
Variable callback : Z -> Z -> files -> option (Z * files).
Abbreviation rd := (grub_read b mem_lower mem_upper fsys_table callback).

Lemma gunzip_body_ok buf n g : gzip_open g -> let fp := filepos (g_fs g) in
  0 <= fp -> 0 <= n -> fp + n <= len out -> output_place buf n ->
  exists g', gunzip_body mem_lower mem_upper slide inbuf junk stray rd rounds buf n g = Some (n, g') /\ gzip_open g' /\ filepos (g_fs g') = fp + n /\
    (forall i, 0 <= i < n -> ld (g_mem g') (buf + i) = nth (Z.to_nat (fp + i)) out 0) /\ only_output buf n g g'.
Proof.
  intros [E1 E2 E3 [saved U]] fp Hfp Hn Hs Hb. unfold gunzip_body. fold (inside g).
  destruct (rewind_window saved (inside g) U) as (saved1 & U1 & Hw & Em & [v1 Ev]); [cbn; lia |].
  set (g1 := if s32 _ <? _ then _ else _) in *. cbn zeta. destruct areas as [A1 A2 A3 A4 A5]. destruct compressed as [C1 C2 C3 C4 C5].
  assert (gzip_filepos (g_gz g1) = fp) as Efp by (by rewrite Ev).
  destruct (gunzip_loop_ok b mem_lower mem_upper fsys_table read content size callback slide inbuf data lo junk stray rounds
              C1 C2 A1 A2 A3 A4 A5 junk_length pe out C3 enough_rounds C5 (Z.to_nat n) buf n 0 g1 saved1 U1)
    as (saved2 & g2 & -> & U2 & [v2 Ev2] & B & F); rewrite ?Efp; try done; try lia.
  rewrite Efp in *. cbn [mbind option_bind]. set (g3 := gunzip_swap_values (upd (set_compressed true) g2)). rewrite Z.add_0_l.
  assert (inside g3 = g2) as Ei by (apply swap_back; destruct U2 as [[q [[] _ _ _]] _ _ _]; done).
  assert (gzip_open g3) as O3.
  { constructor; [done | cbn; rewrite Ev2, Ev; exact E2 | cbn; rewrite Ev2, Ev; exact E3 | exists saved2; by rewrite Ei]. }
  exists g3. split; [| split; [done |]; split; [cbn; by rewrite Ev2 |]; split; [exact B |]].
  - unfold no_error. rewrite (gzip_open_error _ O3), bool_decide_true by done. done.
  - intros a H1 H2 H3 H4. change (ld (g_mem g2) a = ld (g_mem g) a). rewrite F by done. by rewrite Em.
Qed.
End Body.

Lemma gzip_read_ok depth buf n g : gzip_open g -> let pos := filepos (g_fs g) in let k := read_count (len out) pos n in
  output_place buf k ->
  exists g', grub_read b mem_lower mem_upper fsys_table (depth_read (S depth)) buf n g = Some (k, g') /\ gzip_open g' /\
    filepos (g_fs g') = read_from (len out) pos + k /\
    (forall i, 0 <= i < k -> ld (g_mem g') (buf + i) = nth (Z.to_nat (read_from (len out) pos + i)) out 0) /\ only_output buf k g g'.
Proof.
  intros O pos k Hb. unfold grub_read. rewrite (go_size _ O). fold pos.
  assert (0 <= read_from (len out) pos <= len out) as Hp by (unfold read_from; destruct (Z.ltb_spec pos 0), (Z.ltb_spec (len out) pos); cbn; lia).
  assert (0 <= k /\ read_from (len out) pos + k <= len out) as Hk
    by (unfold k, read_count; destruct (Z.ltb_spec n 0), (Z.ltb_spec (len out - read_from (len out) pos) n); cbn; lia).
  assert ((if (pos <? 0) || (len out <? pos) then set_pos (len out) (g_fs g) else g_fs g) = set_pos (read_from (len out) pos) (g_fs g)) as ->.
  { unfold read_from. destruct (_ || _); [done |]. unfold pos. by destruct (g_fs g). }
  cbn [filepos filemax set_pos set_file fsmax compressed_file]. rewrite (go_size _ O), (go_max _ O), (go_compressed _ O).
  fold (read_count (len out) pos n). fold k. pose proof (gd_small _ _ _ _ _ compressed) as Hsmall.
  change (if (n <? 0) || (len out - read_from (len out) pos <? n) then len out - read_from (len out) pos else n) with k.
  rewrite s32_small, (proj2 (Z.ltb_ge _ _)) by lia.
  change (set_gfs (set_file _ _ _) g) with (upd (set_pos (read_from (len out) pos)) g).
  destruct (gunzip_body_ok (depth_read depth) buf k _ (gzip_open_pos g (read_from (len out) pos) O)) as (g' & E & O' & P' & B & F); [cbn; lia | lia | cbn; lia | done |].
  exists g'. split; [| done]. cbn [gunzip_read]. exact E.
Qed.

(** *** The header *)

Variable callback : Z -> Z -> files -> option (Z * files).
Abbreviation rd := (grub_read b mem_lower mem_upper fsys_table callback).

(** [n] bytes have been read, and memory has changed at [w] only. *)
Record advanced (w : Z -> Prop) (n : Z) (g g' : files) : Prop := {
  ad_open : opened_file g';
  ad_pos : filepos (g_fs g') = filepos (g_fs g) + n;
  ad_gz : g_gz g' = g_gz g;
  ad_mem : forall a, ~ in_buffer a -> ~ in_fsys a -> ~ w a -> ld (g_mem g') a = ld (g_mem g) a }.

Lemma advanced_trans w1 w2 w n k g1 g2 g3 : advanced w1 n g1 g2 -> advanced w2 k g2 g3 -> (forall a, w1 a \/ w2 a -> w a) -> advanced w (n + k) g1 g3.
Proof.
  intros [O1 P1 E1 F1] [O2 P2 E2 F2] H. constructor; [done | lia | congruence |]. intros a H1 H2 H3. rewrite F2, F1; auto.
Qed.

Lemma advanced_refl w g : opened_file g -> advanced w 0 g g.
Proof. intros O. constructor; [done | lia | done | done]. Qed.

Lemma read_some buf n g : opened_file g -> 0 <= filepos (g_fs g) -> 0 <= n -> filepos (g_fs g) + n <= size -> file_place mem_lower mem_upper buf n ->
  exists g', rd buf n g = Some (n, g') /\ advanced (fun a => buf <= a < buf + n) n g g' /\
    (forall x, 0 <= x < n -> ld (g_mem g') (buf + x) = content (filepos (g_fs g) + x)).
Proof.
  intros O Hp Hn Hs Hb. assert (read_from size (filepos (g_fs g)) = filepos (g_fs g)) as Er
    by (unfold read_from; rewrite (proj2 (Z.ltb_ge _ 0)), (proj2 (Z.ltb_ge _ _)) by lia; done).
  assert (read_count size (filepos (g_fs g)) n = n) as Ec
    by (unfold read_count; rewrite Er, (proj2 (Z.ltb_ge _ 0)), (proj2 (Z.ltb_ge _ _)) by lia; done).
  destruct (grub_read_ok b mem_lower mem_upper fsys_table read content size callback buf n g O) as (s' & E & O' & M & B & F); rewrite ?Ec in *; [done |].
  rewrite Er in *. exists (set_gfs s' g). split; [exact E |]. split; [| exact B].
  constructor; [exact O' | | done | exact F]. destruct M as (d & h & u & w & ->). done.
Qed.

Section Header.
Context (header_buf ch_buf : Z).
Hypothesis header_place : file_place mem_lower mem_upper header_buf 10.
Hypothesis ch_place : file_place mem_lower mem_upper ch_buf 1.
Hypothesis ch_apart : ~ (header_buf <= ch_buf < header_buf + 10).
Abbreviation at_ch := (fun a => ch_buf <= a < ch_buf + 1).

Lemma skip_bytes : forall f n ch g, opened_file g -> 0 <= filepos (g_fs g) -> 0 <= n <= Z.of_nat f -> filepos (g_fs g) + n <= size ->
  exists g', bad_field_loop b mem_lower mem_upper fsys_table ch_buf callback f n ch g = Some (false, g') /\ advanced at_ch n g g'.
Proof.
  induction f as [|f IH]; intros n ch g O Hp Hn Hs; cbn [bad_field_loop]; rewrite (proj2 (Z.leb_le 0 n)) by lia; destruct (Z.eqb_spec n 0) as [-> | Hne]; try lia.
  1, 2: exists g; split; [done | by apply advanced_refl].
  destruct (read_some ch_buf 1 g O) as (g1 & -> & A1 & _); [lia | lia | lia | done |]. cbn [mbind option_bind Z.eqb Pos.eqb]. pose proof (ad_pos _ _ _ _ A1) as P1.
  destruct (IH (n - 1) (ld (g_mem g1) ch_buf) g1) as (g' & -> & A'); [apply A1 | lia.. |].
  exists g'. split; [done |]. replace n with (1 + (n - 1)) by lia. eapply advanced_trans; [exact A1 | exact A' | tauto].
Qed.

Lemma skip_chars : forall f n ch g, opened_file g -> 0 <= filepos (g_fs g) -> ch <> 0 -> 0 <= n < Z.of_nat f ->
  filepos (g_fs g) + n < size -> content (filepos (g_fs g) + n) = 0 -> (forall i, 0 <= i < n -> content (filepos (g_fs g) + i) <> 0) ->
  exists g', bad_field_loop b mem_lower mem_upper fsys_table ch_buf callback f (-1) ch g = Some (false, g') /\ advanced at_ch (n + 1) g g'.
Proof.
  induction f as [|f IH]; intros n ch g O Hp Hch Hn Hs Hz Hi; [lia |]. cbn [bad_field_loop Z.leb Z.compare]. rewrite (proj2 (Z.eqb_neq ch 0)) by done.
  destruct (read_some ch_buf 1 g O) as (g1 & -> & A1 & B); [lia | lia | lia | done |]. cbn [mbind option_bind Z.eqb Pos.eqb].
  specialize (B 0 ltac:(lia)). rewrite !Z.add_0_r in B. rewrite B. destruct (Z.eq_dec n 0) as [-> | Hne].
  - rewrite Z.add_0_r in Hz. rewrite Hz. exists g1. split; [by destruct f | exact A1].
  - destruct (IH (n - 1) (content (filepos (g_fs g))) g1) as (g' & -> & A'); rewrite ?(ad_pos _ _ _ _ A1) in *; try done; try lia.
    + apply A1.
    + specialize (Hi 0 ltac:(lia)). by rewrite Z.add_0_r in Hi.
    + rewrite <- Hz. f_equal. lia.
    + intros i H. replace (filepos (g_fs g) + 1 + i) with (filepos (g_fs g) + (i + 1)) by lia. apply Hi. lia.
    + exists g'. split; [done |]. replace (n + 1) with (1 + (n - 1 + 1)) by lia. eapply advanced_trans; [exact A1 | exact A' | tauto].
Qed.

Lemma bad_field_bytes n g : opened_file g -> 0 <= filepos (g_fs g) -> 0 <= n -> filepos (g_fs g) + n <= size ->
  exists g', bad_field b mem_lower mem_upper fsys_table ch_buf callback n g = Some (false, g') /\ advanced at_ch n g g'.
Proof. intros O Hp Hn Hs. apply skip_bytes; try done. rewrite (fo_size _ _ _ _ _ _ _ _ O). lia. Qed.

Lemma bad_field_string y g : opened_file g -> 0 <= filepos (g_fs g) -> field_string content (filepos (g_fs g)) y -> y <= size ->
  exists g', bad_field b mem_lower mem_upper fsys_table ch_buf callback (-1) g = Some (false, g') /\ advanced at_ch (y - filepos (g_fs g)) g g'.
Proof.
  intros O Hp (n & Hn & -> & Hz & Hi) Hs. replace (filepos (g_fs g) + n + 1 - filepos (g_fs g)) with (n + 1) by lia.
  apply skip_chars; try done; try lia. rewrite (fo_size _ _ _ _ _ _ _ _ O). lia.
Qed.

Abbreviation touched := (fun a => header_buf <= a < header_buf + 10 \/ ch_buf <= a < ch_buf + 1).

Lemma optional_string_ok flag x y g : opened_file g -> 0 <= x -> filepos (g_fs g) = x -> ld (g_mem g) (header_buf + 3) = content 3 ->
  optional_string content flag x y -> y <= size ->
  exists g', (if ld (g_mem g) (header_buf + 3) .& flag =? 0 then Some (false, g) else bad_field b mem_lower mem_upper fsys_table ch_buf callback (-1) g) = Some (false, g') /\
    advanced at_ch (y - x) g g'.
Proof.
  intros O Hx <- -> S Hy. unfold optional_string in S. destruct (_ =? 0).
  - exists g. split; [done |]. rewrite S, Z.sub_diag. by apply advanced_refl.
  - by apply bad_field_string.
Qed.

Lemma flags_kept n g g' : advanced at_ch n g g' -> ld (g_mem g) (header_buf + 3) = content 3 -> ld (g_mem g') (header_buf + 3) = content 3.
Proof.
  intros A E. destruct header_place as [[_ _ _ _ P1] P2]. rewrite (ad_mem _ _ _ _ A), E; [done | apply P1; lia | apply P2; lia |]. lia.
Qed.

Lemma optional_string_end flag x y : optional_string content flag x y -> x <= y.
Proof. unfold optional_string. destruct (_ =? 0); [lia |]. intros (n & ? & ? & _). lia. Qed.

Lemma extra_ok g : opened_file g -> filepos (g_fs g) = 10 -> ld (g_mem g) (header_buf + 3) = content 3 -> extra_end content <= size ->
  exists g', (if ld (g_mem g) (header_buf + 3) .& EXTRA_FIELD =? 0 then Some (false, g)
       else '(n, g) ← rd header_buf 2 g;
            if negb (n =? 2) then Some (true, g) else bad_field b mem_lower mem_upper fsys_table ch_buf callback (ld16 (g_mem g) header_buf) g) = Some (false, g') /\
    advanced touched (extra_end content - 10) g g' /\ ld (g_mem g') (header_buf + 3) = content 3.
Proof.
  intros O Hp Ef Hx. rewrite Ef. unfold extra_end in *. destruct (_ =? 0).
  - exists g. split; [done |]. split; [by apply advanced_refl | done].
  - pose proof (gd_byte _ _ _ _ _ compressed) as Hc. pose proof (Hc 10). pose proof (Hc 11).
    destruct (read_some header_buf 2 g O) as (g1 & -> & A1 & B); [lia.. | eapply place_prefix; [done | lia] |]. cbn [mbind option_bind].
    pose proof (B 0 ltac:(lia)) as B0. pose proof (B 1 ltac:(lia)) as B1. rewrite Hp, !Z.add_0_r in *. change (10 + 1) with 11 in B1. unfold ld16. rewrite B0, B1.
    pose proof (ad_pos _ _ _ _ A1) as P1.
    destruct (bad_field_bytes (content 10 + 256 * content 11) g1) as (g2 & -> & A2); [apply A1 | lia.. |].
    assert (ld (g_mem g1) (header_buf + 3) = content 3) as Ef1.
    { destruct header_place as [[_ _ _ _ H1] H2]. rewrite (ad_mem _ _ _ _ A1), Ef; [done | apply H1; lia | apply H2; lia | lia]. }
    exists g2. split; [done |]. split; [| by eapply flags_kept].
    replace (12 + (content 10 + 256 * content 11) - 10) with (2 + (content 10 + 256 * content 11)) by lia.
    eapply advanced_trans; [exact A1 | exact A2 |]. intros a [? | ?]; [left; lia | by right].
Qed.

Lemma bad_header_ok total g : gzip_header content size data total -> opened_file g -> filepos (g_fs g) = 10 ->
  ld (g_mem g) (header_buf + 2) = content 2 -> ld (g_mem g) (header_buf + 3) = content 3 ->
  exists g', bad_header b mem_lower mem_upper fsys_table header_buf ch_buf callback g = Some (false, g') /\ advanced touched (data - 10) g g'.
Proof.
  intros [_ Hm Hf (y & S1 & S2) Hd _] O Hp E2 E3. unfold bad_header. rewrite E2, Hm.
  replace (ld (g_mem g) (header_buf + 3) .& UNSUPP_FLAGS) with 0 by (by rewrite E3).
  change (negb (DEFLATED =? DEFLATED) || negb (0 =? 0)) with false. cbv iota.
  pose proof (optional_string_end _ _ _ S1) as L1. pose proof (optional_string_end _ _ _ S2) as L2.
  assert (10 <= extra_end content) as L0.
  { unfold extra_end. pose proof (gd_byte _ _ _ _ _ compressed) as Hc. pose proof (Hc 10). pose proof (Hc 11). destruct (_ =? 0); lia. }
  destruct (extra_ok g O Hp E3 ltac:(lia)) as (g1 & Eq1 & A1 & F1). unfold or_else. rewrite Eq1. cbn [mbind option_bind].
  pose proof (ad_pos _ _ _ _ A1) as P1.
  destruct (optional_string_ok ORIG_NAME (extra_end content) y g1) as (g2 & -> & A2); [apply A1 | lia | lia | done | done | lia |]. cbn [mbind option_bind].
  pose proof (flags_kept _ _ _ A2 F1) as F2. pose proof (ad_pos _ _ _ _ A2) as P2.
  destruct (optional_string_ok COMMENT y data g2) as (g3 & -> & A3); [apply A2 | lia | lia | done | done | lia |].
  exists g3. split; [done |].
  replace (data - 10) with (extra_end content - 10 + ((y - extra_end content) + (data - y))) by lia.
  eapply advanced_trans; [exact A1 | eapply (advanced_trans _ _ touched); [exact A2 | exact A3 |] |]; tauto.
Qed.

Lemma gzip_file_open g z : opened_file g -> gzip_data_offset z = data -> gzip_filemax z = len out -> gzip_fsmax z = len out ->
  gzip_open (upd (set_pos 0) (gunzip_swap_values (upd (set_compressed true) (initialize_tables mem_upper (set_gz z g))))).
Proof.
  intros O D E1 E2. apply gzip_open_pos. constructor; [done | exact E1 | exact E2 |].
  exists 0. rewrite swap_back by exact (fo_plain _ _ _ _ _ _ _ _ O). apply initialize_ok; [destruct O; by constructor | exact D].
Qed.

Lemma gunzip_header_ok g : opened_file g -> filepos (g_fs g) = 0 -> no_decompression (g_gz g) = false -> gzip_header content size data (len out) ->
  exists g', gunzip_test_header b mem_lower mem_upper fsys_table header_buf ch_buf callback g = Some (1, g') /\ gzip_open g' /\ filepos (g_fs g') = 0 /\
    (forall a, ~ in_buffer a -> ~ in_fsys a -> ~ touched a -> ld (g_mem g') a = ld (g_mem g) a).
Proof.
  intros O Hp Hn G. unfold gunzip_test_header. rewrite Hn. pose proof G as [Hmagic _ _ (y & S1 & S2) Hd Ht].
  pose proof (gd_byte _ _ _ _ _ compressed) as Hc. pose proof (gd_small _ _ _ _ _ compressed) as Hsmall.
  pose proof (optional_string_end _ _ _ S1) as L1. pose proof (optional_string_end _ _ _ S2) as L2.
  assert (10 <= extra_end content) as L0 by (unfold extra_end; pose proof (Hc 10); pose proof (Hc 11); destruct (_ =? 0); lia).
  destruct (read_some header_buf 10 g O) as (g1 & -> & A1 & B); [lia.. | done |]. cbn [mbind option_bind]. rewrite Hp in B.
  pose proof (B 0 ltac:(lia)) as B0. rewrite Z.add_0_r in B0. change (0 + 0) with 0 in B0.
  replace (ld16 (g_mem g1) header_buf) with (content 0 + 256 * content 1) by (unfold ld16; rewrite B0; by rewrite (B 1) by lia).
  replace (negb (10 =? 10) || _) with false
    by (destruct Hmagic as [-> | ->]; rewrite Z.eqb_refl; cbn; by rewrite ?andb_false_r).
  pose proof (ad_pos _ _ _ _ A1) as P1.
  destruct (bad_header_ok _ g1 G) as (g2 & -> & A2); [apply A1 | lia | by apply (B 2); lia | by apply (B 3); lia |]. cbn [mbind option_bind].
  pose proof (ad_pos _ _ _ _ A2) as P2. assert (opened_file g2) as O2 by apply A2. rewrite (fo_size _ _ _ _ _ _ _ _ O2).
  destruct (read_some header_buf 8 (upd (set_pos (size - 8)) g2)) as (g3 & -> & A3 & B3); [by apply file_open_pos | cbn; lia.. | eapply place_prefix; [done | lia] |].
  cbn [mbind option_bind]. change (filepos (g_fs (upd (set_pos (size - 8)) g2))) with (size - 8) in *.
  change (negb (8 =? 8)) with false. cbv iota.
  assert (s32 (ld32 (g_mem g3) (header_buf + 4)) = len out) as ->.
  { replace (ld32 (g_mem g3) (header_buf + 4)) with (len out); [rewrite s32_small by lia; done |]. rewrite <- Ht. unfold ld32, ld16.
    replace (header_buf + 4 + 2 + 1) with (header_buf + 7) by lia. replace (header_buf + 4 + 2) with (header_buf + 6) by lia. replace (header_buf + 4 + 1) with (header_buf + 5) by lia.
    rewrite !B3 by lia. replace (size - 8 + 4) with (size - 4) by lia. replace (size - 8 + 5) with (size - 3) by lia.
    replace (size - 8 + 6) with (size - 2) by lia. replace (size - 8 + 7) with (size - 1) by lia. lia. }
  assert (filepos (g_fs g2) = data) as -> by lia. assert (g_gz g3 = g_gz g) as -> by (rewrite (ad_gz _ _ _ _ A3); cbn; by rewrite (ad_gz _ _ _ _ A2), (ad_gz _ _ _ _ A1)).
  eexists. split; [reflexivity |]. split; [apply gzip_file_open; [apply A3 | done..] |]. split; [done |].
  intros a H1 H2 H3. change (ld (g_mem g3) a = ld (g_mem g) a). rewrite (ad_mem _ _ _ _ A3) by (done || lia).
  change (ld (g_mem g2) a = ld (g_mem g) a). rewrite (ad_mem _ _ _ _ A2), (ad_mem _ _ _ _ A1) by (done || lia). done.
Qed.
End Header.
End Gzip.
