(* ===== verification/GrubBlocks.v ===== *)
(** * Block lists

    A file named by its sectors, [10+3,20+1]: the list that [grub_open] writes at
    [FSYS_BUF] is read as the sectors one after the other. *)

From S2P Require Import Prelude Machine LibcString GrubString GrubTerm GrubReadline GrubBios GrubDisk GrubDevice GrubPart GrubFsys GrubFat GrubFatDir GrubFile.

(** ** Specifications *)

(** The sectors of a list of blocks, a first sector and a number of sectors each. *)
Definition block_sectors (l : list (Z * Z)) : list Z := flat_map (fun '(s, n) => seqZ s n) l.

Section Spec.
Variable byte : Z -> Z.
Variable blocks : list (Z * Z).

Definition block_total : Z := Z.of_nat (length (block_sectors blocks)).
Definition block_byte (p : Z) : Z := byte (nth (Z.to_nat (p / 512)) (block_sectors blocks) 0 * 512 + p mod 512).

(** Blocks inside a partition of [length] sectors, for a file of at most 2
    gigabytes. *)
Record blocks_ok (length : Z) : Prop := {
  bk_each : Forall (fun '(s, n) => 0 <= s /\ 0 < n /\ s + n <= length) blocks;
  bk_total : block_total * 512 <= MAXINT;
  bk_some : blocks <> [];
  bk_count : (List.length blocks <= 4093)%nat;
  bk_length : length < 4194296 }.

(** The list in memory. *)
Definition block_addr (i : nat) : Z := BLK_BLKLIST_START + 8 * Z.of_nat i.
Definition blocks_at (m : mem) : Prop :=
  forall i st ln, blocks !! i = Some (st, ln) -> BLK_BLKSTART m (block_addr i) = st /\ BLK_BLKLENGTH m (block_addr i) = ln.

Definition before (i : nat) : Z := Z.of_nat (length (block_sectors (take i blocks))).

(** The place that [BLK_CUR_FILEPOS] stands for: sector [k] of block [i]. *)
Record cursor (cur : Z) (i : nat) (st ln k : Z) (m : mem) : Prop := {
  cu_block : blocks !! i = Some (st, ln);
  cu_num : 0 <= k < ln;
  cu_sector : cur / 512 = before i + k;
  cu_pos : 0 <= cur <= MAXINT;
  cu_filepos : ldi m BLK_CUR_FILEPOS = cur;
  cu_list : ldi m BLK_CUR_BLKLIST = block_addr i;
  cu_blknum : ldi m BLK_CUR_BLKNUM = k }.
End Spec.

(** ** Proofs *)

Lemma ldi_set m a v : -2147483648 <= v < 2147483648 -> ldi (st_dword m a v) a = v.
Proof. intros H. unfold ldi. rewrite ld32_st_dword, s32_u32. by apply s32_small. Qed.

Lemma ldi_set_ne m a v x : x + 4 <= a \/ a + 4 <= x -> ldi (st_dword m a v) x = ldi m x.
Proof. intros H. unfold ldi. by rewrite ld32_st_dword_ne. Qed.

Lemma ldi_frame m m' a : (forall x, a <= x < a + 4 -> ld m' x = ld m x) -> ldi m' a = ldi m a.
Proof. intros H. unfold ldi. by rewrite (ld32_frame m m'). Qed.

Lemma nth_seqZ s n k : 0 <= k < n -> nth (Z.to_nat k) (seqZ s n) 0 = s + k.
Proof. intros H. rewrite (nth_lookup_Some _ _ 0 (s + k)); [done |]. apply lookup_seqZ. lia. Qed.

Section Blocks.
Variable byte : Z -> Z.
Variable blocks : list (Z * Z).
Variable part_length : Z.
Hypothesis ok : blocks_ok blocks part_length.

Abbreviation before := (before blocks).
Abbreviation total := (block_total blocks).
Abbreviation cursor := (cursor blocks).
Abbreviation blocks_at := (blocks_at blocks).

Lemma block_range i st ln : blocks !! i = Some (st, ln) -> 0 <= st /\ 0 < ln /\ st + ln <= part_length.
Proof. intros H. pose proof (bk_each _ _ ok) as F. rewrite Forall_lookup in F. exact (F i _ H). Qed.

Lemma before_next i st ln : blocks !! i = Some (st, ln) -> before (S i) = before i + ln.
Proof.
  intros H. pose proof (block_range _ _ _ H). unfold before. rewrite (take_S_r _ _ _ H). unfold block_sectors.
  rewrite flat_map_app, length_app. cbn [flat_map]. rewrite app_nil_r, length_seqZ. lia.
Qed.

Lemma before_total i : before i <= total.
Proof.
  unfold before, block_total. rewrite <- (take_drop i blocks) at 2. unfold block_sectors. rewrite flat_map_app, length_app. lia.
Qed.

Lemma before_end i : blocks !! i = None -> before i = total.
Proof. intros H. unfold before. rewrite take_ge; [done |]. by apply lookup_ge_None. Qed.

(** Sector [k] of block [i] is that number of the whole. *)
Lemma block_sector i st ln k : blocks !! i = Some (st, ln) -> 0 <= k < ln ->
  nth (Z.to_nat (before i + k)) (block_sectors blocks) 0 = st + k.
Proof.
  intros H Hk. pose proof (take_drop_middle _ _ _ H) as E. unfold before. rewrite <- E at 2. unfold block_sectors.
  rewrite flat_map_app. cbn [flat_map]. rewrite app_nth2 by (unfold block_sectors; lia).
  replace (Z.to_nat (Z.of_nat (length (flat_map (fun '(s, n) => seqZ s n) (take i blocks))) + k)
           - length (flat_map (fun '(s, n) => seqZ s n) (take i blocks)))%nat with (Z.to_nat k) by lia.
  rewrite app_nth1 by (rewrite length_seqZ; lia). by apply nth_seqZ.
Qed.

Lemma block_addr_range i st ln : blocks !! i = Some (st, ln) -> BLK_BLKLIST_START <= block_addr i /\ block_addr i + 8 <= FSYS_BUF + 0x8000.
Proof.
  intros H%lookup_lt_Some. pose proof (bk_count _ _ ok). unfold block_addr, BLK_BLKLIST_START, FSYS_BUF in *. lia.
Qed.

(** The state of the loops: what is in memory. *)
Definition listed (m : mem) : Prop := blocks_at m.

Lemma listed_frame m m' : listed m -> (forall a, BLK_BLKLIST_START <= a < FSYS_BUF + 0x8000 -> ld m' a = ld m a) -> listed m'.
Proof.
  intros L F i st ln H. destruct (L i st ln H) as [L1 L2]. pose proof (block_addr_range _ _ _ H).
  split; [rewrite <- L1 | rewrite <- L2]; apply ldi_frame; intros x Hx; apply F; lia.
Qed.

Lemma cursor_frame cur i st ln k m m' : cursor cur i st ln k m -> (forall a, FSYS_BUF <= a < FSYS_BUF + 12 -> ld m' a = ld m a) -> cursor cur i st ln k m'.
Proof.
  intros [] F. constructor; try done; (etransitivity; [apply ldi_frame; intros x Hx; apply F; unfold BLK_CUR_FILEPOS, BLK_CUR_BLKLIST, BLK_CUR_BLKNUM in Hx; lia | done]).
Qed.

(** A store to one of the three cells. *)
Definition in_cells (a : Z) : Prop := FSYS_BUF <= a < FSYS_BUF + 12.
Definition only_cells (s s' : fs) : Prop := exists m, s' = set_fmem m s /\ forall a, ~ in_cells a -> ld m a = ld (f_mem s) a.

Lemma only_cells_refl s : only_cells s s.
Proof. exists (f_mem s). split; [| done]. by destruct s as [[[] ? ? ? ? ?] ? ? ? ? ? ? ? ? ? ? ? ? ?]. Qed.

Lemma only_cells_trans s1 s2 s3 : only_cells s1 s2 -> only_cells s2 s3 -> only_cells s1 s3.
Proof. intros (m & -> & F) (m' & -> & F'). exists m'. split; [done |]. intros a Ha. rewrite F' by done. by apply F. Qed.

Lemma only_cells_set a v s : a = BLK_CUR_FILEPOS \/ a = BLK_CUR_BLKLIST \/ a = BLK_CUR_BLKNUM -> only_cells s (set_int a v s).
Proof.
  intros Ha. eexists. split; [reflexivity |]. intros x Hx. apply ld_st_dword.
  unfold in_cells, BLK_CUR_FILEPOS, BLK_CUR_BLKLIST, BLK_CUR_BLKNUM in *. lia.
Qed.

Lemma only_cells_listed s s' : only_cells s s' -> listed (f_mem s) -> listed (f_mem s').
Proof. intros (m & -> & F) L. eapply listed_frame; [exact L |]. intros a Ha. apply F. unfold in_cells, BLK_BLKLIST_START in *. lia. Qed.

Lemma only_cells_conf s s' : only_cells s s' ->
  compressed_file s' = compressed_file s /\ filemax s' = filemax s /\ fsmax s' = fsmax s /\ block_file s' = block_file s /\ filepos s' = filepos s /\ f_io s' = f_io s.
Proof. by intros (m & -> & _). Qed.

Lemma only_cells_pos s s' : only_cells s s' -> filepos s' = filepos s.
Proof. by intros (m & -> & _). Qed.

Ltac cells := unfold BLK_CUR_FILEPOS, BLK_CUR_BLKLIST, BLK_CUR_BLKNUM in *; lia.

(** The cells after stores to them. *)
Lemma ldi_int a v s x : ldi (f_mem (set_int a v s)) x = ldi (st_dword (f_mem s) a v) x.
Proof. done. Qed.

Lemma land_sector cur : 0 <= cur -> Z.land cur (Z.lnot (SECTOR_SIZE - 1)) = cur / 512 * 512.
Proof.
  intros H. change (SECTOR_SIZE - 1) with (Z.ones 9). rewrite <- Z.ldiff_land, Z.ldiff_ones_r by lia.
  rewrite Z.shiftr_div_pow2, Z.shiftl_mul_pow2 by lia. done.
Qed.

(** One turn that goes on to the next sector. *)
Lemma seek_step cur i st ln k s : cursor cur i st ln k (f_mem s) -> listed (f_mem s) -> cur / 512 + 1 < total -> cur + 512 <= MAXINT ->
  let s1 := set_int BLK_CUR_FILEPOS (cur + SECTOR_SIZE) s in
  let s2 := set_int BLK_CUR_BLKNUM (ldi (f_mem s1) BLK_CUR_BLKNUM + 1) s1 in
  let m := f_mem s2 in
  let s3 := if BLK_BLKLENGTH m (ldi m BLK_CUR_BLKLIST) <=? ldi m BLK_CUR_BLKNUM
            then set_int BLK_CUR_BLKNUM 0 (set_int BLK_CUR_BLKLIST (ldi m BLK_CUR_BLKLIST + BLK_BLKLIST_INC_VAL) s2) else s2 in
  only_cells s s3 /\ exists i' st' ln' k', cursor (cur + 512) i' st' ln' k' (f_mem s3).
Proof.
  intros [C1 C2 C3 C4 C5 C6 C7] L Ht Hm s1 s2 m s3. pose proof (block_range _ _ _ C1) as Hr. pose proof (bk_length _ _ ok) as Hl.
  unfold MAXINT, SECTOR_SIZE in *.
  assert (ldi (f_mem s1) BLK_CUR_BLKNUM = k) as E1 by (subst s1; rewrite ldi_int, ldi_set_ne by cells; done).
  assert (only_cells s s2) as O2 by (eapply only_cells_trans; [| apply only_cells_set; auto]; apply only_cells_set; auto).
  assert (ldi m BLK_CUR_BLKNUM = k + 1 /\ ldi m BLK_CUR_BLKLIST = block_addr i /\ ldi m BLK_CUR_FILEPOS = cur + 512) as (E2 & E3 & E4).
  { subst m s2. rewrite E1. subst s1. rewrite !ldi_int. split_and!.
    - apply ldi_set. lia.
    - rewrite ldi_set_ne, ldi_int, ldi_set_ne by cells. done.
    - rewrite ldi_set_ne, ldi_int, ldi_set by cells. done. }
  destruct (only_cells_listed _ _ O2 L i st ln C1) as [_ L2]. fold m in L2.
  subst s3. rewrite E2, E3, L2.
  assert ((cur + 512) / 512 = before i + k + 1) as Eq by (replace (cur + 512) with (cur + 1 * 512) by lia; rewrite Z.div_add by lia; lia).
  destruct (Z.leb_spec ln (k + 1)).
  - split; [do 2 (eapply only_cells_trans; [| apply only_cells_set; auto]); done |].
    pose proof (before_next _ _ _ C1) as Eb.
    destruct (blocks !! S i) as [[st' ln'] |] eqn:Eb'; [| rewrite (before_end _ Eb') in Eb; lia].
    pose proof (block_range _ _ _ Eb'). pose proof (block_addr_range _ _ _ Eb') as Ha. unfold FSYS_BUF in Ha.
    exists (S i), st', ln', 0. constructor; rewrite ?ldi_int; try done; try (unfold MAXINT; lia).
    + rewrite ldi_set_ne, ldi_int, ldi_set_ne by cells. done.
    + rewrite ldi_set_ne, ldi_int, ldi_set by (cells || (unfold block_addr, BLK_BLKLIST_START, BLK_BLKLIST_INC_VAL, FSYS_BUF in *; lia)).
      unfold block_addr, BLK_BLKLIST_INC_VAL. lia.
    + apply ldi_set. lia.
  - split; [done |]. exists i, st, ln, (k + 1). constructor; try done; unfold MAXINT; lia.
Qed.

(** The cells hold some place of the file. *)
Definition placed (m : mem) : Prop := exists cur i st ln k, cursor cur i st ln k m.

Lemma seek_ok f : forall s cur i st ln k, cursor cur i st ln k (f_mem s) -> listed (f_mem s) ->
  cur / 512 <= filepos s / 512 -> 0 <= filepos s -> filepos s / 512 < total -> filepos s - cur <= Z.of_nat f ->
  only_cells s (block_seek f s) /\
  exists cur' i' st' ln' k', cursor cur' i' st' ln' k' (f_mem (block_seek f s)) /\ cur' / 512 = filepos s / 512.
Proof.
  pose proof (bk_total _ _ ok) as Htot. unfold MAXINT in Htot.
  induction f as [|f IH]; intros s cur i st ln k C L Hc Hp Ht Hf; cbn [block_seek].
  { split; [apply only_cells_refl |]. exists cur, i, st, ln, k. split; [done |]. dlia. }
  rewrite (cu_filepos _ _ _ _ _ _ _ C). pose proof (cu_pos _ _ _ _ _ _ _ C) as Hcur.
  destruct (Z.leb_spec (filepos s) cur) as [Hle | Hlt].
  { split; [apply only_cells_refl |]. exists cur, i, st, ln, k. split; [done |]. dlia. }
  rewrite land_sector by lia. change SECTOR_SIZE with 512. destruct (Z.leb_spec 512 (filepos s - cur / 512 * 512)) as [Hnext | Hsame].
  - assert (cur / 512 + 1 <= filepos s / 512) as Hq by dlia.
    destruct (seek_step cur i st ln k s C L) as [O (i' & st' & ln' & k' & C')]; [lia | unfold MAXINT; dlia |].
    change SECTOR_SIZE with 512 in O, C'. set (s3 := if _ <=? _ then _ else _) in *.
    pose proof (only_cells_pos _ _ O) as Ep.
    assert ((cur + 512) / 512 = cur / 512 + 1) as Eq by (replace (cur + 512) with (cur + 1 * 512) by lia; rewrite Z.div_add by lia; lia).
    destruct (IH s3 (cur + 512) i' st' ln' k' C') as [O' H']; rewrite ?Ep; try lia; [by eapply only_cells_listed |].
    split; [by eapply only_cells_trans |]. by rewrite Ep in H'.
  - assert (filepos s / 512 = cur / 512) as Eq by dlia.
    assert (filepos s <= MAXINT) as Hm by (unfold MAXINT; dlia).
    pose proof (only_cells_set BLK_CUR_FILEPOS (filepos s) s ltac:(auto)) as O. set (s1 := set_int _ _ s) in *.
    assert (cursor (filepos s) i st ln k (f_mem s1)) as C1.
    { destruct C as [C1 C2 C3 C4 C5 C6 C7]. unfold MAXINT in *. subst s1. constructor; rewrite ?ldi_int; try done; try lia;
        [apply ldi_set; lia | by rewrite ldi_set_ne by cells..]. }
    destruct (IH s1 (filepos s) i st ln k C1) as [O' H']; rewrite ?(only_cells_pos _ _ O); try lia; [by eapply only_cells_listed |].
    split; [by eapply only_cells_trans |]. by rewrite (only_cells_pos _ _ O) in H'.
Qed.

Context (b : bios) (mem_lower mem_upper drive part_start : Z) {R : PartReader b mem_lower mem_upper drive part_start part_length byte}.

(** An open block list. *)
Record block_open (s : fs) : Prop := {
  bo_opened : opened b mem_lower mem_upper drive part_start part_length byte s;
  bo_listed : listed (f_mem s);
  bo_placed : placed (f_mem s) }.

Lemma opened_set_mem s m : opened b mem_lower mem_upper drive part_start part_length byte s ->
  (forall a, in_buffer a -> ld m a = ld (f_mem s) a) -> opened b mem_lower mem_upper drive part_start part_length byte (set_fmem m s).
Proof. intros [G D S L] F. constructor; try done. by apply pr_write. Qed.

Lemma cells_not_buffer a : in_buffer a -> ~ in_cells a.
Proof. unfold in_buffer, in_cells, BUFFERADDR, FSYS_BUF. lia. Qed.

Lemma opened_cells s s' : only_cells s s' -> opened b mem_lower mem_upper drive part_start part_length byte s ->
  opened b mem_lower mem_upper drive part_start part_length byte s'.
Proof. intros (m & -> & F) O. apply opened_set_mem; [done |]. intros a Ha. by apply F, cells_not_buffer. Qed.

(** Back to the first sector. *)
Definition reset_cells (s : fs) : fs := set_int BLK_CUR_BLKNUM 0 (set_int BLK_CUR_BLKLIST BLK_BLKLIST_START (set_int BLK_CUR_FILEPOS 0 s)).

Lemma reset_ok s : only_cells s (reset_cells s) /\ exists st ln, cursor 0 0 st ln 0 (f_mem (reset_cells s)).
Proof.
  split; [do 3 (eapply only_cells_trans; [| apply only_cells_set; auto]); apply only_cells_refl |].
  destruct (blocks !! 0%nat) as [[st0 ln0] |] eqn:Eb.
  2: { apply lookup_ge_None in Eb. by destruct (bk_some _ _ ok), (nil_length_inv blocks ltac:(lia)). }
  pose proof (block_range 0 st0 ln0 Eb) as Hr. exists st0, ln0. unfold reset_cells.
  constructor; rewrite ?ldi_int; try done; try (unfold MAXINT; lia).
  - rewrite ldi_set_ne, ldi_int, ldi_set_ne, ldi_int, ldi_set by (cells || lia). done.
  - rewrite ldi_set_ne, ldi_int, ldi_set by (cells || done). done.
  - by apply ldi_set.
Qed.

(** The place before a read: from the beginning again when it is behind. *)
Lemma rewind_list_ok s : block_open s -> 0 <= filepos s ->
  let s1 := if filepos s <? ldi (f_mem s) BLK_CUR_FILEPOS
            then set_int BLK_CUR_BLKNUM 0 (set_int BLK_CUR_BLKLIST BLK_BLKLIST_START (set_int BLK_CUR_FILEPOS 0 s)) else s in
  only_cells s s1 /\ exists cur i st ln k, cursor cur i st ln k (f_mem s1) /\ cur <= filepos s.
Proof.
  intros [O L (cur & i & st & ln & k & C)] Hp. cbn zeta. rewrite (cu_filepos _ _ _ _ _ _ _ C).
  destruct (Z.ltb_spec (filepos s) cur).
  - destruct (reset_ok s) as [C0 (st0 & ln0 & C1)]. split; [exact C0 |]. by exists 0, 0%nat, st0, ln0, 0.
  - split; [apply only_cells_refl |]. by exists cur, i, st, ln, k.
Qed.

(** The bytes from a place of block [i] to its end. *)
Lemma block_bytes i st ln k p x : blocks !! i = Some (st, ln) -> 0 <= k < ln -> 0 <= p -> p / 512 = before i + k -> 0 <= x ->
  p mod 512 + x < (ln - k) * 512 -> byte ((st + k) * 512 + p mod 512 + x) = block_byte byte blocks (p + x).
Proof.
  intros H Hk Hp E Hx Hl. unfold block_byte.
  assert ((p + x) / 512 = before i + (k + (p mod 512 + x) / 512)) as -> by dlia.
  rewrite (block_sector i st ln (k + (p mod 512 + x) / 512)) by (done || dlia). f_equal. dlia.
Qed.

(** One turn of the loop of [grub_read]. *)
Lemma block_round_ok f buf n ret s : block_open s -> 0 <= filepos s -> 0 < n -> filepos s + n <= total * 512 ->
  file_place mem_lower mem_upper buf n ->
  exists size s', 0 < size <= n /\
    block_read b mem_lower mem_upper (S f) buf n ret s = block_read b mem_lower mem_upper f (buf + size) (n - size) (ret + size) s' /\
    block_open s' /\ moved size s s' /\
    (forall x, 0 <= x < size -> ld (f_mem s') (buf + x) = block_byte byte blocks (filepos s + x)) /\
    (forall a, ~ in_buffer a -> ~ in_fsys a -> ~ (buf <= a < buf + size) -> ld (f_mem s') a = ld (f_mem s) a).
Proof.
  intros O Hp Hn Hin Hb. pose proof (bk_total _ _ ok) as Htot. pose proof (bk_length _ _ ok) as Hlen. unfold MAXINT in Htot.
  cbn [block_read]. pose proof (pr_no_error _ (op_good _ _ _ _ _ _ _ _ (bo_opened _ O)) : f_err s = ERR_NONE) as He.
  rewrite He, bool_decide_true, (proj2 (Z.eqb_neq n 0)) by (done || lia). cbn [orb negb].
  destruct (rewind_list_ok s O Hp) as [O1 (cur & i & st & ln & k & C & Hc)]. set (s1 := if _ <? _ then _ else s) in *.
  rewrite (only_cells_pos _ _ O1), (cu_filepos _ _ _ _ _ _ _ C).
  destruct (seek_ok (Z.to_nat (filepos s - cur)) s1 cur i st ln k C) as [O2 (cur' & i' & st' & ln' & k' & C' & Hq)];
    rewrite ?(only_cells_pos _ _ O1); try lia; [eapply only_cells_listed; [exact O1 | apply O] | dlia | dlia |].
  set (s2 := block_seek _ s1) in *. pose proof (only_cells_trans _ _ _ O1 O2) as O12.
  rewrite (only_cells_pos _ _ O1) in Hq. rewrite (only_cells_pos _ _ O12).
  pose proof (only_cells_listed _ _ O12 (bo_listed _ O)) as L2. destruct (L2 i' st' ln' (cu_block _ _ _ _ _ _ _ C')) as [L3 L4].
  rewrite (cu_list _ _ _ _ _ _ _ C'), (cu_blknum _ _ _ _ _ _ _ C'), L3, L4.
  pose proof (cu_block _ _ _ _ _ _ _ C') as Hi. pose proof (cu_num _ _ _ _ _ _ _ C') as Hk. pose proof (cu_sector _ _ _ _ _ _ _ C') as Hs.
  pose proof (block_range _ _ _ Hi) as Hr. pose proof (before_next _ _ _ Hi) as Hbn. pose proof (before_total (S i')) as Hbt.
  assert (0 <= before i') as Hb0 by (unfold before; lia).
  change (filepos s .& (SECTOR_SIZE - 1)) with (filepos s .& Z.ones 9). rewrite Z.land_ones by lia. change (2 ^ 9) with 512.
  change SECTOR_SIZE with 512. rewrite s32_small by lia. pose proof (Z.mod_pos_bound (filepos s) 512 ltac:(lia)) as Hm.
  set (room := (ln' - k') * 512 - filepos s mod 512). set (size := if n <? room then n else room).
  assert (0 < size <= n /\ size <= room) as Hsz by (unfold size, room; zcase; lia). unfold room in Hsz.
  destruct (place_prefix mem_lower mem_upper buf n size Hb ltac:(lia)) as [Ht Hf].
  destruct (hooked_devread_ok b mem_lower mem_upper drive part_start part_length byte s2 (st' + k') (filepos s mod 512) size buf)
    as (d & h & E & Od & B & F); [by eapply opened_cells; [| apply O] | done | lia | lia | lia | lia | lia |].
  rewrite E. cbn [mbind option_bind]. set (s3 := set_hook h (set_fdisk d s2)) in *.
  change (filepos s3) with (filepos s2). rewrite (only_cells_pos _ _ O12).
  assert (forall a, ~ in_buffer a -> ~ (buf <= a < buf + size) -> ld (f_mem s3) a = ld (f_mem s2) a) as F' by done.
  assert (forall a, in_fsys a -> ld (f_mem s3) a = ld (f_mem s2) a) as Ff.
  { intros a Ha. apply F'; [unfold in_fsys, in_buffer, BUFFERADDR, FSYS_BUF in *; lia |]. intros H. by apply (Hf a). }
  exists size, (set_pos (filepos s + size) s3). split; [lia |]. split; [done |]. split_and!.
  - constructor.
    + destruct Od. by constructor.
    + eapply listed_frame; [exact L2 |]. intros a Ha. apply Ff. unfold in_fsys, BLK_BLKLIST_START in *. lia.
    + exists cur', i', st', ln', k'. eapply cursor_frame; [exact C' |]. intros a Ha. apply Ff. unfold in_fsys. lia.
  - destruct O12 as (m & Em & _). exists d, h, (mapblock1 s), (mapblock2 s). unfold s3. by rewrite Em.
  - intros x Hx. change (f_mem (set_pos _ s3)) with (f_mem s3). change (f_mem s3) with (d_mem d). rewrite B by done.
    apply (block_bytes i' st' ln' k'); done || lia.
  - intros a Ha Hfa Hba. change (f_mem (set_pos _ s3)) with (f_mem s3). rewrite F' by done.
    destruct O12 as (m & -> & F12). apply F12. unfold in_cells, in_fsys in *. lia.
Qed.

Lemma block_read_ok f : forall buf n ret s, block_open s -> 0 <= filepos s -> 0 <= n <= Z.of_nat f -> filepos s + n <= total * 512 ->
  file_place mem_lower mem_upper buf n ->
  exists s', block_read b mem_lower mem_upper f buf n ret s = Some (ret + n, s') /\ block_open s' /\ moved n s s' /\
    (forall x, 0 <= x < n -> ld (f_mem s') (buf + x) = block_byte byte blocks (filepos s + x)) /\
    (forall a, ~ in_buffer a -> ~ in_fsys a -> ~ (buf <= a < buf + n) -> ld (f_mem s') a = ld (f_mem s) a).
Proof.
  induction f as [|f IH]; intros buf n ret s O Hp Hn Hin Hb.
  all: pose proof (pr_no_error _ (op_good _ _ _ _ _ _ _ _ (bo_opened _ O)) : f_err s = ERR_NONE) as He.
  all: destruct (decide (n = 0)) as [-> |]; [exists s; cbn [block_read]; rewrite He, Z.add_0_r; split; [done |];
    split; [done |]; split; [destruct s; by exists f_disk, disk_read_hook, mapblock1, mapblock2; rewrite Z.add_0_r | split; [lia | done]] |].
  { lia. }
  destruct (block_round_ok f buf n ret s O Hp ltac:(lia) Hin Hb) as (size & s1 & Hs & -> & O1 & M1 & B1 & F1).
  assert (filepos s1 = filepos s + size) as Ep by (destruct M1 as (? & ? & ? & ? & ->); done).
  assert (file_place mem_lower mem_upper (buf + size) (n - size)) as Hb'.
  { destruct Hb as [[T1 T2 T3 T4 T5] Hf]. split; [constructor; try done; [unfold mem_ok in *; lia | lia |] |]; intros a Ha; [apply T5 | apply Hf]; lia. }
  destruct (IH (buf + size) (n - size) (ret + size) s1 O1) as (s2 & -> & O2 & M2 & B2 & F2); rewrite ?Ep; try lia; [done |].
  exists s2. replace (ret + size + (n - size)) with (ret + n) by lia. split; [done |]. split; [done |].
  split; [replace n with (size + (n - size)) by lia; by eapply moved_trans |]. split.
  - intros x Hx. destruct (Z.ltb_spec x size).
    + rewrite F2; [by apply B1; lia | | | lia]; destruct Hb as [[] Hf]; [apply tg_apart | apply Hf]; lia.
    + replace (buf + x) with (buf + size + (x - size)) by lia. rewrite B2, Ep by lia. f_equal. lia.
  - intros a A1 A2 A3. rewrite F2 by (done || lia). apply F1; done || lia.
Qed.

(** A block list as a file of [grub_read]. *)
#[export] Program Instance block_reader (size : Z) (Hsize : 0 <= size <= total * 512) :
  FileReader mem_lower mem_upper (fun buf len => block_read b mem_lower mem_upper (Z.to_nat len) buf len 0) (block_byte byte blocks) size := {|
  fr_open := block_open |}.
Next Obligation. intros size Hs. pose proof (bk_total _ _ ok). lia. Qed.
Next Obligation. intros size _ s O. apply (pr_no_error _ (op_good _ _ _ _ _ _ _ _ (bo_opened _ O))). Qed.
Next Obligation. intros size _ s pos [[] L C]. constructor; [by constructor | done | done]. Qed.
Next Obligation. intros size _ s i [[] L C]. constructor; [by constructor | done | done]. Qed.
Next Obligation.
  intros size _ s m [O L (cur & i & st & ln & k & C)] F. constructor.
  - apply opened_set_mem; auto.
  - eapply listed_frame; [exact L |]. intros a Ha. apply F. right. unfold in_fsys, BLK_BLKLIST_START in *. lia.
  - exists cur, i, st, ln, k. eapply cursor_frame; [exact C |]. intros a Ha. apply F. right. unfold in_fsys. lia.
Qed.
Next Obligation.
  intros size Hs s buf n O Hp Hn Hin Hb. destruct (block_read_ok (Z.to_nat n) buf n 0 s O Hp) as (s' & E & H); try done; try lia.
  exists s'. by rewrite E.
Qed.
End Blocks.
