(* ===== verification/GrubOpen.v ===== *)
(** * Opening files by name

    [grub_open] from the name of a file to its bytes: the device, the partition,
    and a block list or a path.  The components come together here: names
    ([GrubDevice]), partitions ([GrubPart]), the drive behind its track buffer
    ([GrubDisk]) and files ([GrubFile], [GrubBlocks]).  What a file system
    promises is the class [PathFinder]; [GrubPaths] and [GrubExt2Open] have the
    instances for FAT and ext2. *)

From S2P Require Import Prelude Machine LibcString GrubString GrubTerm GrubReadline GrubBios GrubDisk GrubDevice GrubPart GrubFsys GrubFat GrubFatDir GrubFile GrubBlocks.

(** ** Specifications *)

(** The text of a block, of a list of them, and of the size after it. *)
Definition print_block (x : Z * Z) : list Z :=
  (if fst x =? 0 then [] else convert_to_ascii 100 (fst x)) ++ 43 :: convert_to_ascii 100 (snd x).
Fixpoint print_blocks (l : list (Z * Z)) : list Z :=
  match l with
  | [] => []
  | [x] => print_block x
  | x :: l => print_block x ++ 44 :: print_blocks l
  end.
Definition print_size (size : option Z) : list Z :=
  match size with None => [] | Some n => 44 :: convert_to_ascii 100 n end.

(** What may follow: a slash or white space, or nothing. *)
Definition name_end (rest : list Z) : Prop :=
  Forall is_char rest /\ match rest with [] => True | c :: _ => c = 47 \/ grub_isspace c = true end.

(** The size of the file: that of the blocks, or a smaller one that is given. *)
Definition file_size (blocks : list (Z * Z)) (size : option Z) : option Z :=
  match size with
  | None => Some (block_total blocks * 512)
  | Some n => if (0 <? n) && (n <=? block_total blocks * 512) then Some n else None
  end.

(** ** Proofs *)

(** *** Numbers in a name *)

Definition ends_number (rest : list Z) : Prop :=
  Forall is_char rest /\ match rest with [] => True | c :: _ => digit_of 10 c = None /\ c <> 120 /\ c <> 88 end.

Lemma parse_decimal_end n rest : 0 <= n <= MAXINT -> ends_number rest -> safe_parse_maxint (convert_to_ascii 100 n ++ rest) = Parsed rest n.
Proof.
  intros Hn [Hr Hc]. pose proof (number_parsed 100 n rest Hn Hr) as H. cbn [printed_base Z.eqb Pos.eqb app] in H. apply H.
  - intros c r ->. by destruct Hc.
  - destruct (decimal_text n Hn) as (ds & -> & Hne & Hd). intros (x & t & E & Hx).
    destruct ds as [|d [|d2 ds]]; [done | |]; cbn in E.
    + destruct rest as [|c rest]; [done |]. injection E as _ -> _. lia.
    + apply Forall_cons_iff in Hd as [_ Hd]. apply Forall_cons_iff in Hd as [Hd _]. injection E as _ E _.
      unfold digit_char in E. rewrite (proj2 (Z.ltb_ge 9 d2)) in E by lia. lia.
Qed.

Lemma space_chars c : grub_isspace c = true -> c = 32 \/ c = 9 \/ c = 13 \/ c = 10.
Proof. unfold grub_isspace. rewrite !orb_true_iff, !Z.eqb_eq. lia. Qed.

Lemma name_end_ends rest : name_end rest -> ends_number rest.
Proof.
  intros [H1 H2]. split; [done |]. destruct rest as [|c rest]; [done |].
  destruct H2 as [-> | [-> | [-> | [-> | ->]]]%space_chars]; done.
Qed.

Lemma ends_char c rest : c = 43 \/ c = 44 -> Forall is_char rest -> ends_number (c :: rest).
Proof. intros Hc Hr. split; [constructor; [unfold is_char; lia | done] |]. destruct Hc as [-> | ->]; done. Qed.

Lemma decimal_is_char n : 0 <= n <= MAXINT -> Forall is_char (convert_to_ascii 100 n).
Proof. intros Hn. destruct (decimal_text n Hn) as (ds & -> & _ & H). by destruct (digits_form 10 ds (or_introl eq_refl) H). Qed.

(** *** The loop over a block list *)

Lemma print_blocks_cons x l : print_blocks (x :: l) = print_block x ++ match l with [] => [] | _ => 44 :: print_blocks l end.
Proof. destruct l; [by rewrite app_nil_r | done]. Qed.

Lemma print_block_text x rest : print_block x ++ rest = (if fst x =? 0 then [] else convert_to_ascii 100 (fst x)) ++ 43 :: (convert_to_ascii 100 (snd x) ++ rest).
Proof. unfold print_block. by rewrite <- app_assoc. Qed.

(** The first number of a block; nothing stands for zero. *)
Lemma block_start s rest : 0 <= s <= MAXINT -> Forall is_char rest ->
  match safe_parse_maxint ((if s =? 0 then [] else convert_to_ascii 100 s) ++ 43 :: rest) with
  | Parsed r n => (r, n)
  | ParseError _ => ((if s =? 0 then [] else convert_to_ascii 100 s) ++ 43 :: rest, 0)
  end = (43 :: rest, s).
Proof.
  intros Hs Hr. destruct (Z.eqb_spec s 0) as [-> |]; [done |].
  by rewrite parse_decimal_end by (done || by apply ends_char; [left |]).
Qed.

Lemma file_size_range blocks size n : file_size blocks size = Some n -> 0 <= n <= block_total blocks * 512.
Proof.
  unfold file_size, block_total. destruct size as [k |]; [| intros [= <-]; lia].
  destruct (Z.ltb_spec 0 k), (Z.leb_spec k (Z.of_nat (length (block_sectors blocks)) * 512)); cbn; intros [= <-]. lia.
Qed.

Section ParseBlocks.
Variables (fsys_table : list fsys_entry) (byte : Z -> Z) (blocks : list (Z * Z)) (part_length : Z) (size : option Z) (rest : list Z).
Hypothesis ok : blocks_ok blocks part_length.
Hypothesis size_ok : match size with Some n => 0 <= n <= MAXINT | None => True end.
Hypothesis rest_ok : name_end rest.

Lemma block_numbers i st ln : blocks !! i = Some (st, ln) -> 0 <= st <= MAXINT /\ 0 < ln <= MAXINT.
Proof. intros H. pose proof (block_range _ _ ok _ _ _ H). pose proof (bk_length _ _ ok). unfold MAXINT. lia. Qed.

Lemma text_chars l : Forall (fun x => 0 <= fst x <= MAXINT /\ 0 < snd x <= MAXINT) l -> Forall is_char (print_blocks l).
Proof.
  assert (forall x, 0 <= fst x <= MAXINT /\ 0 < snd x <= MAXINT -> Forall is_char (print_block x)) as Hb.
  { intros x [H1 H2]. unfold print_block. apply Forall_app. split; [destruct (_ =? _); [done | by apply decimal_is_char] |].
    constructor; [unfold is_char; lia |]. apply decimal_is_char. lia. }
  induction 1 as [|x l Hx Hl IH]; [done |]. rewrite print_blocks_cons. apply Forall_app. split; [by apply Hb |].
  destruct l; [done |]. constructor; [unfold is_char; lia | done].
Qed.

Lemma size_chars : Forall is_char (print_size size ++ rest).
Proof.
  destruct rest_ok as [Hr _]. destruct size as [n |]; [| done]. cbn. constructor; [unfold is_char; lia |]. apply Forall_app. split; [by apply decimal_is_char | done].
Qed.

(** What the loop changes: the list, the error, the size and the type. *)
Definition only_list (s s' : fs) : Prop :=
  exists m e max t, s' = set_max max (set_type t (set_ferr e (set_fmem m s))) /\ forall a, ~ in_fsys a -> ld m a = ld (f_mem s) a.

Lemma only_list_trans s1 s2 s3 : only_list s1 s2 -> only_list s2 s3 -> only_list s1 s3.
Proof.
  intros (m & e & x & t & -> & F) (m' & e' & x' & t' & -> & F'). exists m', e', x', t'. split; [done |].
  intros a Ha. rewrite F' by done. by apply F.
Qed.

Lemma only_list_same s e max : only_list s (set_max max (set_ferr e s)) /\ only_list s (set_ferr e s).
Proof.
  split; [exists (f_mem s), e, max, (fsys_type s) | exists (f_mem s), e, (filemax s), (fsys_type s)]; (split; [| done]);
    by destruct s as [[[] ? ? ? ? ?] ? ? ? ? ? ? ? ? ? ? ? ? ?].
Qed.

(** The entries before [i] are in memory. *)
Definition listed_to (i : nat) (m : mem) : Prop :=
  forall j st ln, (j < i)%nat -> blocks !! j = Some (st, ln) -> BLK_BLKSTART m (block_addr j) = st /\ BLK_BLKLENGTH m (block_addr j) = ln.

(** Block [i] is stored. *)
Lemma store_block i st ln s : blocks !! i = Some (st, ln) -> listed_to i (f_mem s) -> filemax s = before blocks i * 512 ->
  let s1 := set_int (block_addr i) st (set_type (NUM_FSYS fsys_table) (set_ferr ERR_NONE s)) in
  let s2 := set_int (block_addr i + 4) ln s1 in
  let s3 := set_max (s32 (filemax s2 + s32 (ln * SECTOR_SIZE))) s2 in
  only_list s s3 /\ listed_to (S i) (f_mem s3) /\ filemax s3 = before blocks (S i) * 512 /\ f_err s3 = ERR_NONE /\ fsys_type s3 = NUM_FSYS fsys_table.
Proof.
  intros H L Hm s1 s2 s3. pose proof (block_range _ _ ok _ _ _ H) as Hr. pose proof (bk_length _ _ ok) as Hl.
  pose proof (block_addr_range _ _ ok _ _ _ H) as Ha. pose proof (before_next _ _ ok _ _ _ H) as Hb.
  pose proof (before_total blocks (S i)) as Ht. pose proof (bk_total _ _ ok) as Htot. unfold MAXINT in Htot.
  assert (0 <= before blocks i) as H0 by (unfold before; lia).
  split; [| split; [| split; [| done]]].
  - eexists _, ERR_NONE, _, _. split; [reflexivity |]. intros a Hn. cbn.
    rewrite !ld_st_dword by (unfold in_fsys, BLK_BLKLIST_START in *; lia). done.
  - intros j st' ln' Hj Hj'. change (f_mem s3) with (st_dword (st_dword (f_mem s) (block_addr i) st) (block_addr i + 4) ln).
    unfold BLK_BLKSTART, BLK_BLKLENGTH. destruct (decide (j = i)) as [-> | Hne].
    + rewrite H in Hj'. injection Hj' as <- <-. rewrite ldi_set_ne, !ldi_set by lia. done.
    + destruct (L j st' ln' ltac:(lia) Hj') as [L1 L2].
      rewrite !ldi_set_ne by (unfold block_addr in *; lia). done.
  - cbn. rewrite Hm. change SECTOR_SIZE with 512. rewrite (s32_small (ln * 512)) by lia. rewrite s32_small by lia. lia.
Qed.

Lemma end_char : (negb (ch rest =? 0) && negb (ch rest =? 47) && negb (grub_isspace (ch rest))) = false /\ (ch rest =? 44) = false /\ (ch rest =? 43) = false.
Proof.
  destruct rest_ok as [_ H]. destruct rest as [|c r]; [done |]. destruct H as [-> | Hs]; [done |]. cbn.
  destruct (space_chars _ Hs) as [-> | [-> | [-> | ->]]]; done.
Qed.

(** What the end of the loop leaves: the file's size, or the error. *)
Definition parsed_list (s s' : fs) : Prop :=
  only_list s s' /\ blocks_at blocks (f_mem s') /\ fsys_type s' = NUM_FSYS fsys_table /\
  match file_size blocks size with
  | Some n => filemax s' = n /\ f_err s' = ERR_NONE
  | None => f_err s' = ERR_BAD_FILENAME
  end.

(** After the last block. *)
Lemma parse_end f s : listed_to (length blocks) (f_mem s) -> filemax s = block_total blocks * 512 -> f_err s = ERR_NONE ->
  fsys_type s = NUM_FSYS fsys_table ->
  exists s', (if negb (ch (print_size size ++ rest) =? 44) then (print_size size ++ rest, block_addr (length blocks), s)
              else parse_blocks fsys_table (S f) (tail (print_size size ++ rest)) (block_addr (length blocks)) s)
             = (rest, block_addr (length blocks), s') /\ parsed_list s s'.
Proof.
  intros L Hm He Ht. assert (blocks_at blocks (f_mem s)) as B by (intros j st ln Hj; apply L; [by eapply lookup_lt_Some | done]).
  destruct end_char as (E1 & E2 & E3). unfold parsed_list. destruct size as [n |]; cbn [print_size app ch hd tail file_size].
  - change (44 =? 44) with true. cbn [negb parse_blocks].
    pose proof (bk_count _ _ ok). rewrite (proj2 (Z.leb_gt BLK_MAX_ADDR _)) by (unfold block_addr, BLK_MAX_ADDR, BLK_BLKLIST_START; lia).
    rewrite parse_decimal_end by (done || by apply name_end_ends). rewrite E3, E1. cbn [negb orb].
    change (filemax (set_ferr ERR_NONE s)) with (filemax s). rewrite Hm.
    eexists. split; [reflexivity |].
    destruct (Z.eqb_spec n 0) as [-> |]; [| destruct (Z.ltb_spec (block_total blocks * 512) n)]; cbn [orb andb Z.ltb Z.compare].
    + split; [apply (only_list_same s ERR_BAD_FILENAME 0) | by split_and!].
    + rewrite (proj2 (Z.leb_gt n _)), andb_false_r by lia. split; [apply (only_list_same s ERR_BAD_FILENAME 0) | by split_and!].
    + rewrite (proj2 (Z.ltb_lt 0 n)), (proj2 (Z.leb_le n _)) by lia. cbn [andb]. split; [apply (only_list_same s ERR_NONE n) | by split_and!].
  - rewrite E2. exists s. split; [done |]. split; [| split_and!; done].
    exists (f_mem s), (f_err s), (filemax s), (fsys_type s). split; [| done]. by destruct s as [[[] ? ? ? ? ?] ? ? ? ? ? ? ? ? ? ? ? ? ?].
Qed.

(** The text after a block. *)
Definition after_block (l : list (Z * Z)) : list Z := (match l with [] => [] | _ => 44 :: print_blocks l end) ++ print_size size ++ rest.

Lemma print_cons x l : print_blocks (x :: l) ++ print_size size ++ rest = print_block x ++ after_block l.
Proof. rewrite print_blocks_cons. unfold after_block. by rewrite <- !app_assoc. Qed.

Lemma after_chars l : Forall (fun x => 0 <= fst x <= MAXINT /\ 0 < snd x <= MAXINT) l -> Forall is_char (after_block l).
Proof.
  intros H. unfold after_block. apply Forall_app. split; [| apply size_chars]. destruct l; [done |].
  constructor; [unfold is_char; lia | by apply text_chars].
Qed.

Lemma after_ends l : Forall (fun x => 0 <= fst x <= MAXINT /\ 0 < snd x <= MAXINT) l -> ends_number (after_block l) /\
  (negb (ch (after_block l) =? 0) && negb (ch (after_block l) =? 44) && negb (ch (after_block l) =? 47) && negb (grub_isspace (ch (after_block l)))) = false.
Proof.
  intros H. pose proof (after_chars l H) as Hc. unfold after_block in *. destruct l; cbn [app] in *.
  - destruct size; cbn [print_size app] in *.
    + split; [apply ends_char; [by right |]; by inversion Hc | done].
    + split; [by apply name_end_ends |]. destruct end_char as (E & _ & _).
      destruct (ch rest =? 0), (ch rest =? 44), (ch rest =? 47), (grub_isspace (ch rest)); done.
  - split; [apply ends_char; [by right |]; by inversion Hc | done].
Qed.

Lemma parse_ok l : forall f i s, drop i blocks = l -> l <> [] -> (length l < f)%nat -> listed_to i (f_mem s) ->
  filemax s = before blocks i * 512 ->
  exists s', parse_blocks fsys_table f (print_blocks l ++ print_size size ++ rest) (block_addr i) s = (rest, block_addr (length blocks), s') /\
    parsed_list s s'.
Proof.
  induction l as [|[st ln] l IH]; intros [|f] i s Hd Hne Hf L Hm; try done; try (cbn in Hf; lia).
  assert (blocks !! i = Some (st, ln)) as Hi by (rewrite <- (Nat.add_0_r i), <- lookup_drop, Hd; done).
  assert (drop (S i) blocks = l) as Hd' by (replace (S i) with (i + 1)%nat by lia; by rewrite <- drop_drop, Hd).
  assert (Forall (fun x => 0 <= fst x <= MAXINT /\ 0 < snd x <= MAXINT) l) as Hl.
  { rewrite <- Hd'. apply Forall_drop, Forall_lookup. intros j [a n] Hj. cbn. by eapply block_numbers. }
  destruct (block_numbers _ _ _ Hi) as [N1 N2]. pose proof (block_addr_range _ _ ok _ _ _ Hi) as Ha.
  pose proof (lookup_lt_Some _ _ _ Hi) as Hlt. pose proof (bk_count _ _ ok) as Hcount.
  cbn [parse_blocks]. rewrite (proj2 (Z.leb_gt BLK_MAX_ADDR _)) by (unfold block_addr, BLK_MAX_ADDR, BLK_BLKLIST_START; lia).
  rewrite print_cons, print_block_text. cbn [fst snd]. destruct (after_ends l Hl) as [Ea Eb].
  rewrite block_start; [| done | apply Forall_app; split; [apply decimal_is_char; lia | by apply after_chars]].
  cbn [ch hd tail]. change (43 =? 43) with true. cbn [negb]. rewrite parse_decimal_end by (done || lia).
  rewrite (proj2 (Z.eqb_neq ln 0)) by lia. cbn [orb]. rewrite Eb.
  destruct (store_block i st ln s Hi L Hm) as (O & L' & Hm' & He' & Ht'). set (s3 := set_max _ _) in *.
  replace (block_addr i + BLK_BLKLIST_INC_VAL) with (block_addr (S i)) by (unfold block_addr, BLK_BLKLIST_INC_VAL; lia).
  destruct l as [|x l].
  - assert (length blocks = S i) as Ei by (pose proof (length_drop blocks (S i)) as E; rewrite Hd' in E; cbn in E; lia).
    unfold after_block. cbn [app]. destruct f as [|f]; [cbn in Hf; lia |]. rewrite <- Ei.
    rewrite <- Ei in L', Hm'. rewrite before_end in Hm' by (apply lookup_ge_None; lia).
    destruct (parse_end f s3 L' Hm' He' Ht') as (s' & -> & P & Q). exists s'. split; [done |]. split; [by eapply only_list_trans | done].
  - unfold after_block. cbn [app ch hd tail]. change (44 =? 44) with true. cbn [negb].
    destruct (IH f (S i) s3 Hd') as (s' & -> & P & Q); [done | cbn [length] in *; lia | done | done |].
    exists s'. split; [done |]. split; [by eapply only_list_trans | done].
Qed.
End ParseBlocks.

(** *** What [grub_open] relies on

    The interface of a file system, for the partition of a type [t] whose bytes
    are [byte] and for one path: it is mounted there, and finds what the path
    leads to.  It writes to [FSYS_BUF] and to the places [scr]. *)

(** A file that can be read, or the error. *)
Inductive opening (mem_lower mem_upper : Z) (read : Z -> Z -> fs -> option (Z * fs)) :=
| Opens (content : Z -> Z) (size : Z) (R : FileReader mem_lower mem_upper read content size)
| Refused (e : grub_error).

(** A file system is asked for a path by [grub_open]. *)
Record asked (fsys_table : list fsys_entry) (e : fsys_entry) (s : fs) : Prop := {
  as_pos : filepos s = 0;
  as_max : fsmax s = MAXINT;
  as_plain : compressed_file s = false;
  as_block : block_file s = false;
  as_entry : fsys_table !! Z.to_nat (fsys_type s) = Some e;
  as_quiet : print_possibilities s = 0 }.

(** What it answers. *)
Definition path_found {mem_lower mem_upper : Z} {read} (r : option (Z * fs)) (scr : Z -> Prop) (s : fs) (result : opening mem_lower mem_upper read) : Prop :=
  exists ret s', r = Some (ret, s') /\ same_conf s s' /\
    (forall a, ~ in_buffer a -> ~ in_fsys a -> ~ scr a -> ld (f_mem s') a = ld (f_mem s) a) /\
    match result with
    | Opens _ _ _ content size R => ret = 1 /\ fr_open (FileReader := R) s' /\ filepos s' = 0 /\ filemax s' = size
    | Refused _ _ _ e => ret = 0 /\ f_err s' = e
    end.

Section Interface.
Context (b : bios) (mem_lower mem_upper drive part_start part_length : Z) (byte : Z -> Z)
        {R : PartReader b mem_lower mem_upper drive part_start part_length byte}.

Abbreviation opened := (opened b mem_lower mem_upper drive part_start part_length byte).

Class PathFinder (t : Z) (fsys_table : list fsys_entry) (e : fsys_entry) (path : list Z) (scr : Z -> Prop) (result : opening mem_lower mem_upper (read_func e)) := {
  pf_mounted : fs -> Prop;
  pf_opened s : pf_mounted s -> opened s;
  pf_conf s s' : pf_mounted s -> f_disk s' = f_disk s -> f_dev s' = f_dev s -> f_part s' = f_part s -> pf_mounted s';
  pf_mount s : opened s -> type (f_part s) = t ->
    exists d, mount_func e s = Some (1, set_fdisk d s) /\ pf_mounted (set_fdisk d s) /\
      (forall a, ~ in_buffer a -> ~ in_fsys a -> ~ scr a -> ld (d_mem d) a = ld (f_mem s) a);
  pf_dir s a : pf_mounted s -> asked fsys_table e s -> cstr_at (f_mem s) a path -> Z.of_nat (length path) < 65536 ->
    (forall y, a <= y <= a + Z.of_nat (length path) -> ~ in_buffer y /\ ~ in_fsys y /\ ~ scr y) ->
    path_found (dir_func e a s) scr s result }.
End Interface.

#[global] Arguments pf_mounted {b mem_lower mem_upper drive part_start part_length byte R t fsys_table e path scr result PathFinder}.
#[global] Arguments pf_opened {b mem_lower mem_upper drive part_start part_length byte R t fsys_table e path scr result PathFinder}.
#[global] Arguments pf_conf {b mem_lower mem_upper drive part_start part_length byte R t fsys_table e path scr result PathFinder}.
#[global] Arguments pf_mount {b mem_lower mem_upper drive part_start part_length byte R t fsys_table e path scr result PathFinder}.
#[global] Arguments pf_dir {b mem_lower mem_upper drive part_start part_length byte R t fsys_table e path scr result PathFinder}.

(** A file system that does not take the partition. *)
Definition refuses (b : bios) (mem_lower mem_upper drive part_start part_length : Z) (byte : Z -> Z)
    {R : PartReader b mem_lower mem_upper drive part_start part_length byte} (t : Z) (e : fsys_entry) : Prop :=
  forall s, opened b mem_lower mem_upper drive part_start part_length byte s -> type (f_part s) = t -> mount_func e s = Some (0, s).

(** *** The partition that a name denotes *)

(** A drive that works, with sectors of 512 bytes. *)
Record disk_good (b : bios) (drive : Z) (g : geometry) (disks : Z -> Z -> Z) : Prop := {
  dg_works : drive_ok b drive g;
  dg_tracks : tracks_ok g (disks drive);
  dg_sector : sector_size g = SECTOR_SIZE;
  dg_bytes : forall x, 0 <= disks drive x < 256;
  dg_local : drive <> NETWORK_DRIVE }.

(** The drive can be read, its buffer being right. *)
Record disk_ready (drive : Z) (g : geometry) (disks : Z -> Z -> Z) (s : fs) : Prop := {
  dr_world : w_disk (d_world (f_disk s)) = disks;
  dr_err : f_err s = ERR_NONE;
  dr_cache : cache_ok drive g (disks drive) (f_disk s) }.

(** The type, the start and the length of a disk or of a slice of it, whose tables
    are [tables]. *)
Inductive region (byte : Z -> Z) (total : Z) (tables : list Z) : disk_name -> part_name -> Z -> Z -> Z -> Prop :=
| region_whole d : region byte total tables d Whole 0 0 total
| region_slice n p x : 0 <= p < 255 -> chain byte total 0 0 tables -> no_bsd byte tables -> (length tables < 64)%nat ->
    find_slice p (slices byte tables) = Some x -> 0 <= sl_start x -> 0 <= sl_len x -> sl_start x + sl_len x <= total ->
    region byte total tables (Hard n) (Slice p) (sl_type x) (sl_start x) (sl_len x).

Lemma region_inside byte total tables d p t start len : region byte total tables d p t start len -> 0 <= total ->
  0 <= start /\ 0 <= len /\ start + len <= total.
Proof. intros R Ht. destruct R; lia. Qed.

Lemma set_err_none d : d_err d = ERR_NONE -> set_err ERR_NONE d = d.
Proof. destruct d as [? ? ? ? ? ?]. cbn. by intros ->. Qed.

Lemma set_part_same v : set_part (current_partition v) v = v.
Proof. by destruct v. Qed.

Lemma open_named b mem_lower mem_upper part_buf parts g disks tables d p t pstart plen drive v it ps :
  disk_good b drive g disks -> target_ok mem_lower mem_upper part_buf SECTOR_SIZE -> (4 * length tables < parts)%nat ->
  region (seen g (disks drive)) (total_sectors g) tables d p t pstart plen -> (forall n, d = Hard n -> drive .& 0x80 <> 0) ->
  current_drive v = drive -> current_partition v = partition_number p -> sane_partition v = (true, v) ->
  w_disk (d_world (p_disk ps)) = disks -> d_err (p_disk ps) = ERR_NONE -> cache_ok drive g (disks drive) (p_disk ps) ->
  exists it' ps', open_partition b mem_lower mem_upper part_buf parts v it ps = Some (true, it', ps') /\
    partition it' = partition_number p /\ type it' = t /\ start it' = pstart /\ len it' = plen /\ d_err (p_disk ps') = ERR_NONE /\
    opened_disk_ok drive g disks part_buf (p_disk ps) (p_disk ps').
Proof.
  intros [W T S B N] Hbuf Hfuel Hr Hhard <- D2 D3 R1 R2 R3. destruct Hr as [d | n k x Hk Hc Hb Hl Hf S1 S2 S3].
  - by apply open_whole_ok.
  - destruct (open_partition_ok b mem_lower mem_upper part_buf g disks tables k v it ps parts) as (it' & ps' & E & Q & O); try done; [by eapply Hhard |].
    rewrite Hf in E, Q. exists it', ps'. split; [done |]. destruct Q as (P & Ty & St & Le & He). by split_and!.
Qed.

Section Device.
Variables (b : bios) (mem_lower mem_upper part_buf : Z) (parts : nat).
Variables (g : geometry) (disks : Z -> Z -> Z) (tables : list Z) (d : disk_name) (p : part_name) (t pstart plen : Z) (drive : Z).
Hypothesis good : disk_good b drive g disks.
Hypothesis buf_ok : target_ok mem_lower mem_upper part_buf SECTOR_SIZE.
Hypothesis fuel_ok : (4 * length tables < parts)%nat.

Abbreviation disk_byte := (seen g (disks drive)).
Hypothesis found : region disk_byte (total_sectors g) tables d p t pstart plen.

(** The partition as the file system reads it. *)
Definition part_byte (x : Z) : Z := disk_byte (pstart * 512 + x).

Lemma part_inside : 0 <= pstart /\ 0 <= plen /\ pstart + plen <= total_sectors g.
Proof using good found. eapply region_inside; [exact found |]. apply Z.lt_le_incl, (ok_total _ _ _ (dg_works _ _ _ _ good)). Qed.

#[export] Instance named_reader : PartReader b mem_lower mem_upper drive pstart plen part_byte :=
  partition_reader b mem_lower mem_upper drive pstart plen g disks (dg_works _ _ _ _ good) (dg_tracks _ _ _ _ good)
    (dg_sector _ _ _ _ good) (proj1 part_inside) (proj1 (proj2 part_inside)) (proj2 (proj2 part_inside)).

(** The device of the name has been set. *)
Record device_set (s : fs) : Prop := {
  ds_drive : current_drive (f_dev s) = drive;
  ds_part : current_partition (f_dev s) = partition_number p;
  ds_sane : sane_partition (f_dev s) = (true, f_dev s) }.

(** The partition is open: what [open_partition] changes. *)
Record part_open (s s' : fs) : Prop := {
  po_opened : opened b mem_lower mem_upper drive pstart plen part_byte s';
  po_type : type (f_part s') = t;
  po_same : exists it d', s' = set_place (f_dev s) it (set_fdisk d' s);
  po_frame : forall a, ~ in_buffer a -> ~ (part_buf <= a < part_buf + SECTOR_SIZE) -> ld (f_mem s') a = ld (f_mem s) a }.

Hypothesis hard : forall n, d = Hard n -> drive .& 0x80 <> 0.

Lemma part_open_intro it ps s : partition it = current_partition (f_dev s) -> type it = t -> start it = pstart -> len it = plen ->
  d_err ps = ERR_NONE -> device_set s -> opened_disk_ok drive g disks part_buf (f_disk s) ps ->
  part_open s (set_place (set_part (partition it) (f_dev s)) it (set_fdisk ps s)).
Proof.
  intros Hp Ht Hs Hl He [D1 D2 D3] [G F]. rewrite set_err_none in G by done. rewrite Hp, set_part_same.
  constructor; [by constructor | done | by exists it, ps | done].
Qed.

Lemma open_part_ok gs : device_set (g_fs gs) -> disk_ready drive g disks (g_fs gs) ->
  exists gs', open_part b mem_lower mem_upper part_buf parts gs = Some (true, gs') /\ part_open (g_fs gs) (g_fs gs') /\ g_gz gs' = g_gz gs.
Proof.
  intros D [R1 R2 R3]. pose proof D as [D1 D2 D3]. unfold open_part. set (it := Iter _ _ _ _ _ _ _). set (ps := PState _ _).
  destruct (open_named b mem_lower mem_upper part_buf parts g disks tables d p t pstart plen drive (f_dev (g_fs gs)) it ps)
    as (it' & s' & -> & P & Ty & St & Le & He & O); try done.
  cbn [mbind option_bind]. eexists. split; [reflexivity |]. split; [| done]. apply part_open_intro; try done. by rewrite P, D2.
Qed.

(** *** The device of a name *)

Variables (current_term : term_entry) (max_lines : Z) (fsys_table : list fsys_entry).
Variables (filename : Z) (rest : list Z).

Abbreviation dev_text := (print_device d p).
Abbreviation after := (filename + Z.of_nat (length dev_text)).

(** The name is in memory, and the drive is the one it says. *)
Record named (s : fs) : Prop := {
  nm_text : cstr_at (f_mem s) filename (dev_text ++ rest);
  nm_length : Z.of_nat (length (dev_text ++ rest)) < 65536;
  nm_ok : name_ok (f_dev s) d p;
  nm_error : device_error (f_dev s) d p = ERR_NONE;
  nm_drive : drive_number (f_dev s) d = drive;
  nm_ready : disk_ready drive g disks s }.

Lemma s8_char c : is_char c -> 0 < c < 256 -> s8 c = c.
Proof. unfold is_char, s8. intros. dlia. Qed.

Lemma device_chars v : name_ok v d p -> Forall is_char dev_text.
Proof.
  intros Hn. pose proof (part_chars v d p Hn) as Hp. unfold print_device. rewrite !Forall_app.
  assert (Forall is_char (print_disk d)) as Hd.
  { destruct Hn as [Hd _]. destruct d as [n | n |]; cbn [print_disk]; rewrite ?Forall_app.
    1, 2: split; [by repeat constructor | apply decimal_is_char; unfold MAXINT; lia].
    by repeat constructor. }
  split; [by repeat constructor |]. split; [done |]. split; [done |]. by repeat constructor.
Qed.

(** What opening the device does not change. *)
Definition keeps (s s' : fs) : Prop := compressed_file s' = compressed_file s /\ filepos s' = filepos s /\ f_io s' = f_io s.

Lemma set_device_at_ok s : named s ->
  exists s', set_device_at filename s = (Some after, s') /\ device_set s' /\ disk_ready drive g disks s' /\ f_mem s' = f_mem s /\
    keeps s s'.
Proof.
  intros [Ht Hl Hn He Hd [R1 R2 R3]]. unfold set_device_at.
  assert (cstring (f_mem s) filename = dev_text ++ map s8 rest) as ->.
  { rewrite (cstring_bytes _ _ _ Ht Hl), map_app. f_equal. destruct Ht as [Hc _]. apply is_cstr_app in Hc as [Hc _].
    rewrite <- (map_id dev_text) at 2. apply map_ext_Forall. apply Forall_lookup. intros i c Hi.
    apply s8_char; [exact (Forall_lookup_1 _ _ _ _ (device_chars _ Hn) Hi) | exact (Forall_lookup_1 _ _ _ _ Hc Hi)]. }
  destruct (set_device_ok d p (map s8 rest) (set_verr (f_err s) (f_dev s))) as (v & -> & Ev & Hv); [done | done | |].
  { apply Forall_map, Forall_true. intros c. unfold is_char. apply s8_range. }
  change (device_error (set_verr (f_err s) (f_dev s)) d p) with (device_error (f_dev s) d p) in *. rewrite He in *.
  rewrite decide_True by done. rewrite Nat.ltb_irrefl. destruct (Hv eq_refl) as (V1 & V2 & V3).
  change (drive_number (set_verr (f_err s) (f_dev s)) d) with (drive_number (f_dev s) d) in V1.
  eexists. split; [cbn [fmap option_fmap option_map]; do 2 f_equal; rewrite length_app; lia |]. split; [constructor; [by transitivity (drive_number (f_dev s) d) | done | done] |].
  split; [| done]. constructor; [done | exact Ev | done].
Qed.

(** [setup_part] when opening succeeds. *)
Lemma setup_named (Q : files -> Prop) gs : named (g_fs gs) ->
  (forall s1, device_set s1 -> disk_ready drive g disks s1 -> f_mem s1 = g_mem gs -> keeps (g_fs gs) s1 ->
     exists gs', open_for b mem_lower mem_upper fsys_table part_buf parts after (set_gfs s1 gs) = Some gs' /\
       g_err gs' = ERR_NONE /\ sane_partition (f_dev (g_fs gs')) = (true, f_dev (g_fs gs')) /\ Q gs') ->
  exists gs', setup_part b mem_lower mem_upper fsys_table part_buf parts filename gs = Some (Some after, gs') /\ Q gs'.
Proof.
  intros N H. destruct (set_device_at_ok _ N) as (s1 & E & D & R & M & C). destruct (H s1 D R M C) as (gs' & E' & He & Hs & HQ).
  exists gs'. split; [| done]. unfold setup_part. pose proof (nm_text _ N) as Ht.
  assert (ld (g_mem gs) filename = 40) as ->.
  { pose proof (cstr_char _ _ _ 0%nat Ht ltac:(lia)) as H0. by rewrite Z.add_0_r in H0. }
  change (40 =? 40) with true. cbn iota. rewrite E, E'. cbn [mbind option_bind].
  rewrite He, bool_decide_true by done. cbn [negb andb].
  assert (fail_with ERR_NONE gs' = gs') as ->.
  { unfold fail_with, upd, set_ferr. change (d_err (f_disk (g_fs gs')) = ERR_NONE) in He. rewrite set_err_none by done. by destruct gs' as [[] ? ?]. }
  by rewrite Hs.
Qed.

(** The text is apart from what opening the partition writes. *)
Definition text_apart (P : Z -> Prop) : Prop :=
  forall x, filename <= x <= filename + Z.of_nat (length (dev_text ++ rest)) -> ~ P x.

Definition part_scratch (a : Z) : Prop := in_buffer a \/ part_buf <= a < part_buf + SECTOR_SIZE.

Lemma name_frame m m' P : cstr_at m filename (dev_text ++ rest) -> text_apart P -> (forall a, ~ P a -> ld m' a = ld m a) -> cstr_at m' after rest.
Proof. intros Ht Hap F. apply cstr_at_app. eapply cstr_at_frame; [| exact Ht]. intros x Hx. by apply F, Hap. Qed.

Lemma after_char m : cstr_at m filename (dev_text ++ rest) -> ld m after = nth 0 rest 0.
Proof. intros Ht. apply cstr_at_app in Ht. pose proof (cstr_char _ _ _ 0%nat Ht ltac:(lia)) as H0. by rewrite Z.add_0_r in H0. Qed.

(** The partition of the name is open, and nothing was mounted. *)
Record part_ready (gs gs' : files) : Prop := {
  pt_opened : opened b mem_lower mem_upper drive pstart plen part_byte (g_fs gs');
  pt_type : type (f_part (g_fs gs')) = t;
  pt_drive : current_drive (f_dev (g_fs gs')) = drive;
  pt_keeps : keeps (g_fs gs) (g_fs gs');
  pt_frame : forall a, ~ part_scratch a -> ld (g_mem gs') a = ld (g_mem gs) a;
  pt_gz : g_gz gs' = g_gz gs }.

Lemma open_part_ready gs s1 : device_set s1 -> disk_ready drive g disks s1 -> f_mem s1 = g_mem gs -> keeps (g_fs gs) s1 ->
  exists gs', open_part b mem_lower mem_upper part_buf parts (set_gfs s1 gs) = Some (true, gs') /\ part_ready gs gs' /\
    g_err gs' = ERR_NONE /\ sane_partition (f_dev (g_fs gs')) = (true, f_dev (g_fs gs')).
Proof.
  intros D R M C. destruct (open_part_ok (set_gfs s1 gs) D R) as (gs' & E & [O Ty (it & d' & Es) F] & Z). exists gs'. split; [done |].
  assert (f_dev (g_fs gs') = f_dev s1) as Ed by (by rewrite Es). pose proof D as [D1 D2 D3].
  split; [| split; [by apply (pr_no_error _ (op_good _ _ _ _ _ _ _ _ O)) | by rewrite Ed]].
  constructor; try done; [by rewrite Ed | by rewrite Es |].
  intros a Ha. unfold part_scratch in Ha. change (g_mem gs') with (f_mem (g_fs gs')). rewrite F by tauto. change (f_mem (g_fs (set_gfs s1 gs))) with (f_mem s1). by rewrite M.
Qed.

Lemma setup_blocks gs : named (g_fs gs) -> nth 0 rest 0 <> 47 -> 
  exists gs', setup_part b mem_lower mem_upper fsys_table part_buf parts filename gs = Some (Some after, gs') /\ part_ready gs gs'.
Proof.
  intros N Hr. apply setup_named; [done |]. intros s1 D R M C. destruct (open_part_ready gs s1 D R M C) as (gs' & E & P & He & Hs).
  exists gs'. split; [| done]. unfold open_for. change (g_mem (set_gfs s1 gs)) with (f_mem s1). rewrite M. change (g_mem gs) with (f_mem (g_fs gs)).
  rewrite (after_char _ (nm_text _ N)), (proj2 (Z.eqb_neq _ _) Hr). cbn [negb]. by rewrite E.
Qed.

(** *** A block list *)

Lemma blocks_head l tl : l <> [] -> Forall (fun x => 0 <= fst x <= MAXINT /\ 0 < snd x <= MAXINT) l ->
  nth 0 (print_blocks l ++ tl) 0 <> 47 /\ (0 < length (print_blocks l))%nat.
Proof.
  intros Hne Hl. destruct l as [|[st ln] l]; [done |]. apply Forall_cons_iff in Hl as [[Hst _] _]. cbn [fst] in Hst.
  rewrite print_blocks_cons. unfold print_block. cbn [fst snd]. destruct (st =? 0); [split; [done | cbn; lia] |].
  pose proof (decimal_head st [] Hst) as Hh. rewrite app_nil_r in Hh.
  destruct (convert_to_ascii 100 st) as [|c ds]; cbn in *; lia.
Qed.

Variables (header_buf ch_buf : Z) (gunzip_read : Z -> Z -> files -> option (Z * files)).

Abbreviation grub_open := (grub_open b mem_lower mem_upper fsys_table part_buf header_buf ch_buf parts gunzip_read).

(** What opening writes besides the track buffer and [FSYS_BUF]. *)
Definition open_scratch (a : Z) : Prop := part_buf <= a < part_buf + SECTOR_SIZE \/ header_buf <= a < header_buf + 10.

Section BlockName.
Variables (blocks : list (Z * Z)) (size : option Z) (tl : list Z).
Hypothesis blocks_good : blocks_ok blocks plen.
Hypothesis size_ok : match size with Some n => 0 <= n <= MAXINT | None => True end.
Hypothesis tl_ok : name_end tl.

(** The cells at the start of the list. *)
Lemma start_cells s : listed blocks (f_mem s) ->
  opened b mem_lower mem_upper drive pstart plen part_byte s ->
  block_open part_byte blocks plen b mem_lower mem_upper drive pstart (reset_cells s) /\ only_cells s (reset_cells s).
Proof.
  intros L O. destruct (reset_ok blocks plen blocks_good s) as [C (st0 & ln0 & Cu)].
  split; [| done]. constructor; [by eapply opened_cells | by eapply only_cells_listed | by exists 0, 0%nat, st0, ln0, 0].
Qed.

(** The state after the loop is that of an open partition. *)
Lemma opened_list s s' : only_list s s' -> opened b mem_lower mem_upper drive pstart plen part_byte s -> f_err s' = ERR_NONE ->
  opened b mem_lower mem_upper drive pstart plen part_byte s'.
Proof.
  intros (m & e & x & ty & -> & F) O He. change (f_err _) with e in He. subst e.
  destruct (opened_set_mem part_byte plen b mem_lower mem_upper drive pstart s m O) as [G D S L].
  { intros a Ha. apply F. unfold in_fsys, in_buffer, BUFFERADDR, FSYS_BUF in *. lia. }
  constructor; try done. destruct G as (G1 & G2 & G3). by split_and!.
Qed.

Hypothesis rest_is : rest = print_blocks blocks ++ print_size size ++ tl.

Lemma block_list_numbers : Forall (fun x => 0 <= fst x <= MAXINT /\ 0 < snd x <= MAXINT) blocks.
Proof. apply Forall_lookup. intros j [a n] Hj. cbn. by eapply block_numbers. Qed.

Lemma rest_text m a : cstr_at m a rest -> Z.of_nat (length rest) < 65536 -> cstring m a = rest.
Proof.
  intros Ht Hl. rewrite (cstring_bytes _ _ _ Ht Hl). rewrite <- (map_id rest) at 2. apply map_ext_Forall, Forall_lookup. intros i c Hi.
  apply s8_char; [| exact (Forall_lookup_1 _ _ _ _ (proj1 Ht) Hi)].
  assert (Forall is_char rest) as Hc; [| exact (Forall_lookup_1 _ _ _ _ Hc Hi)].
  rewrite rest_is. apply Forall_app. split; [apply text_chars, block_list_numbers | by apply size_chars].
Qed.

(** The loop of [grub_open] when the partition has just been opened. *)
Lemma parse_opened gs gs1 s : part_ready gs gs1 -> s = set_max 0 (set_fsmax MAXINT (set_block false (g_fs gs1))) ->
  exists s', parse_blocks fsys_table (Z.to_nat 4095) rest BLK_BLKLIST_START s = (tl, block_addr (length blocks), s') /\
    parsed_list fsys_table blocks size s s'.
Proof.
  intros P ->. rewrite rest_is. replace BLK_BLKLIST_START with (block_addr 0) by (unfold block_addr; lia).
  pose proof (bk_count _ _ blocks_good). set (big := Z.to_nat 4095). assert (4095 = Z.of_nat big) by done. clearbody big.
  apply (parse_ok fsys_table blocks plen size tl blocks_good size_ok tl_ok blocks big 0); [done | apply (bk_some _ _ blocks_good) | lia | intros j st ln Hj; lia | done].
Qed.

Lemma grub_open_list gs : named (g_fs gs) -> text_apart (fun a => part_scratch a \/ in_fsys a) ->
  match file_size blocks size with
  | Some n => forall Hn : 0 <= n <= block_total blocks * 512,
      exists gs1, grub_open filename gs = gunzip_test_header b mem_lower mem_upper fsys_table header_buf ch_buf gunzip_read gs1 /\
        opened_at_start b mem_lower mem_upper fsys_table _ _ _ (R := block_reader part_byte blocks plen blocks_good b mem_lower mem_upper drive pstart n Hn)
          open_scratch gs gs1 /\ g_gz gs1 = g_gz gs
  | None => exists gs', grub_open filename gs = Some (0, gs') /\ g_err gs' = ERR_BAD_FILENAME
  end.
Proof.
  intros N Hap. unfold GrubFile.grub_open.
  set (gs0 := upd (set_pos 0) (upd (set_compressed false) gs)).
  assert (named (g_fs gs0)) as N0 by (destruct N as [? ? ? ? ? []]; constructor; [done.. | by constructor]).
  destruct (blocks_head blocks (print_size size ++ tl) (bk_some _ _ blocks_good) block_list_numbers) as [Hhead Hlen]. rewrite <- rest_is in Hhead.
  destruct (setup_blocks gs0 N0) as (gs1 & -> & P); [done |]. cbn [mbind option_bind].
  assert (cstr_at (g_mem gs1) after rest) as Ht1.
  { eapply name_frame; [apply N0 | exact Hap |]. intros a Ha. apply (pt_frame _ _ P). tauto. }
  change (g_mem (upd _ gs1)) with (g_mem gs1).
  assert (ld (g_mem gs1) after = nth 0 rest 0) as ->.
  { pose proof (cstr_char _ _ _ 0%nat Ht1 ltac:(lia)) as H0. by rewrite Z.add_0_r in H0. }
  rewrite (proj2 (Z.eqb_neq _ 47) Hhead). cbn [negb].
  rewrite (rest_text _ _ Ht1) by (pose proof (nm_length _ N) as Hl; rewrite length_app in Hl; lia).
  destruct (parse_opened gs0 gs1 _ P eq_refl) as (s' & E & (OL & BL & FT & FS)).
  cbn [g_fs upd set_gfs]. rewrite E.
  pose proof (bk_count _ _ blocks_good) as Hcount.
  rewrite (proj2 (Z.ltb_lt (block_addr (length blocks)) BLK_MAX_ADDR)) by (unfold block_addr, BLK_MAX_ADDR, BLK_BLKLIST_START; lia).
  rewrite (proj2 (Nat.eqb_neq (length tl) (length rest))) by (rewrite rest_is, !length_app; lia). cbn [negb andb].
  destruct (file_size blocks size) as [n |] eqn:Efs.
  - destruct FS as [Fm Fe]. rewrite Fe, bool_decide_true by done. intros Hn.
    destruct (start_cells (set_block true s')) as [BO C]; [exact BL | |].
    { assert (opened b mem_lower mem_upper drive pstart plen part_byte (set_block true s')) as Ho; [| exact Ho].
      destruct (opened_list _ _ OL) as [G D S L]; [| done | by constructor]. destruct (pt_opened _ _ P). by constructor. }
    set (s2 := reset_cells _) in *. set (R := block_reader _ _ _ _ _ _ _ _ _ n Hn).
    destruct OL as (m & e & x & ty & Es & F).
    assert (compressed_file s2 = false /\ filemax s2 = n /\ fsmax s2 = MAXINT /\ block_file s2 = true /\ filepos s2 = 0 /\ f_io s2 = f_io (g_fs gs)) as (X1 & X2 & X3 & X4 & X5 & X6).
    { destruct (only_cells_conf _ _ C) as (-> & -> & -> & -> & -> & ->). destruct (pt_keeps _ _ P) as (K1 & K2 & K3). cbn [set_block set_fsys compressed_file filemax fsmax block_file filepos f_io].
      rewrite Fm. split; [by rewrite Es |]. split; [done |]. split; [by rewrite Es |]. split; [done |]. split; by rewrite Es. }
    assert (file_open b mem_lower mem_upper fsys_table _ _ _ (R := R) (set_gfs s2 (upd (fun s => set_fsmax MAXINT (set_block false s)) gs1))) as FO.
    { constructor; [exact X1 | exact X2 | exact X3 | unfold active_read; cbn [g_fs set_gfs]; by rewrite X4 | exact BO]. }
    eexists. split; [reflexivity |]. split; [| exact (pt_gz _ _ P)]. constructor; [exact FO | exact X5 | exact X6 |]. intros a A1 A2 A3. unfold open_scratch in A3.
    change (ld (f_mem s2) a = ld (g_mem gs0) a). destruct C as (mc & -> & Fc). change (f_mem (set_fmem mc _)) with mc.
      rewrite Fc by (unfold in_cells, in_fsys in *; lia). change (ld (f_mem s') a = ld (g_mem gs0) a). rewrite Es. change (ld m a = ld (g_mem gs0) a). rewrite F by done.
      apply (pt_frame _ _ P). unfold part_scratch. tauto.
  - assert (bool_decide (f_err s' = ERR_NONE) = false) as Fb by (by rewrite FS).
    rewrite Fb. cbn [andb]. set (gs2 := set_gfs s' _). change (g_err gs2) with (f_err s'). rewrite Fb. cbn [andb].
    set (gs3 := upd _ gs2). change (g_err gs3) with (f_err s'). rewrite Fb. cbn [negb]. by exists gs3.
Qed.

End BlockName.

(** *** A path *)

Variables (before others : list fsys_entry) (e : fsys_entry) (scr : Z -> Prop) (result : opening mem_lower mem_upper (read_func e)).

(** The table of the file systems: those before refuse the partition. *)
Hypothesis table_is : fsys_table = before ++ e :: others.
Hypothesis refused : Forall (refuses b mem_lower mem_upper drive pstart plen part_byte t) before.
Context {F : PathFinder b mem_lower mem_upper drive pstart plen part_byte t fsys_table e rest scr result}.
Hypothesis rest_path : nth 0 rest 0 = 47.

Lemma table_entry : fsys_table !! length before = Some e /\ (Z.of_nat (length before) =? NUM_FSYS fsys_table) = false.
Proof.
  rewrite table_is. split; [by apply list_lookup_middle |]. unfold NUM_FSYS. rewrite length_app. cbn [length]. apply Z.eqb_neq. lia.
Qed.

Lemma try_mounts_ok l : Forall (refuses b mem_lower mem_upper drive pstart plen part_byte t) l -> forall i s,
  opened b mem_lower mem_upper drive pstart plen part_byte s -> type (f_part s) = t ->
  let i' := i + Z.of_nat (length l) in
  try_mounts (l ++ e :: others) i s = '(ok, s) ← mount_func e (set_type i' s); if ok =? 0 then try_mounts others (i' + 1) s else Some s.
Proof.
  induction 1 as [|e0 l R Hl IH]; intros i s O T.
  - cbn. by rewrite Z.add_0_r.
  - cbn [app try_mounts length]. rewrite R; [| by destruct O | done]. cbn [mbind option_bind]. change (0 =? 0) with true. cbn iota.
    pose proof (IH (i + 1) (set_type i s)) as E. cbn zeta in E. rewrite E by (done || by destruct O).
    replace (i + 1 + Z.of_nat (length l)) with (i + Z.of_nat (S (length l))) by lia. done.
Qed.

(** The partition is open and mounted, for a path. *)
Record path_ready (gs gs' : files) : Prop := {
  pr_mounted : pf_mounted (PathFinder := F) (g_fs gs');
  pr_type : fsys_type (g_fs gs') = Z.of_nat (length before);
  pr_keeps : keeps (g_fs gs) (g_fs gs');
  pr_gz : g_gz gs' = g_gz gs;
  pr_frame : forall a, ~ in_buffer a -> ~ in_fsys a -> ~ open_scratch a -> ~ scr a -> ld (g_mem gs') a = ld (g_mem gs) a }.

Lemma setup_path gs : named (g_fs gs) ->
  exists gs', setup_part b mem_lower mem_upper fsys_table part_buf parts filename gs = Some (Some after, gs') /\ path_ready gs gs'.
Proof.
  intros N. apply setup_named; [done |]. intros s1 D Rd M C. destruct (open_part_ready gs s1 D Rd M C) as (gs' & E & [P1 P2 P3 P4 P5 P6] & He & Hs).
  destruct (pf_mount (set_type (Z.of_nat (length before)) (g_fs gs'))) as (d' & Em & Mo & Fr); [by destruct P1 | done |].
  exists (set_gfs (set_fdisk d' (set_type (Z.of_nat (length before)) (g_fs gs'))) gs'). set (s2 := set_fdisk d' _) in *.
  assert (attempt_mount fsys_table (g_fs gs') = Some s2) as Ea.
  { unfold attempt_mount. rewrite table_is at 1. rewrite (try_mounts_ok before refused 0 (g_fs gs') P1 P2). cbn zeta. rewrite Z.add_0_l, Em.
    cbn [mbind option_bind]. change (1 =? 0) with false. cbn iota. cbn [mbind option_bind].
    change (fsys_type s2) with (Z.of_nat (length before)). by rewrite (proj2 table_entry). }
  unfold open_for. change (g_mem (set_gfs s1 gs)) with (f_mem s1). rewrite M. change (g_mem gs) with (f_mem (g_fs gs)).
  rewrite (after_char _ (nm_text _ N)), rest_path. change (negb (47 =? 47)) with false. cbn iota. unfold open_device. rewrite E. cbn [mbind option_bind].
  rewrite Ea. cbn [mbind option_bind].
  split; [done |]. split; [exact (pr_no_error _ (op_good _ _ _ _ _ _ _ _ (pf_opened _ Mo))) |]. split; [exact Hs |].
  constructor; [exact Mo | done | exact P4 | exact P6 |]. intros a A1 A2 A3 A4. change (ld (d_mem d') a = ld (g_mem gs) a).
  unfold open_scratch in A3. rewrite Fr by done. apply P5. unfold part_scratch. tauto.
Qed.

Definition path_scratch (a : Z) : Prop := open_scratch a \/ scr a.
Definition path_apart : Prop := text_apart (fun a => in_buffer a \/ in_fsys a \/ path_scratch a).

(** [grub_open] up to the search of the path. *)
Lemma open_to_path gs : named (g_fs gs) -> path_apart ->
  exists gs1 s, grub_open filename gs =
      ('(ok, s) ← dir_func e after s;
       if ok =? 0 then Some (0, set_gfs s gs1) else gunzip_test_header b mem_lower mem_upper fsys_table header_buf ch_buf gunzip_read (set_gfs s gs1)) /\
    path_found (dir_func e after s) scr s result /\ asked fsys_table e s /\ g_gz gs1 = g_gz gs /\
    f_io s = f_io (g_fs gs) /\ (forall a, ~ in_buffer a -> ~ in_fsys a -> ~ path_scratch a -> ld (f_mem s) a = ld (g_mem gs) a).
Proof.
  intros N Hap. unfold GrubFile.grub_open. set (gs0 := upd (set_pos 0) (upd (set_compressed false) gs)).
  assert (named (g_fs gs0)) as N0 by (destruct N as [? ? ? ? ? []]; constructor; [done.. | by constructor]).
  destruct (setup_path gs0 N0) as (gs1 & -> & [Mo Ty (K1 & K2 & K3) Zg Fr]). cbn [mbind option_bind].
  assert (forall a, ~ in_buffer a -> ~ in_fsys a -> ~ path_scratch a -> ld (g_mem gs1) a = ld (g_mem gs0) a) as Fr'.
  { intros a A1 A2 A3. unfold path_scratch in A3. apply Fr; tauto. }
  assert (cstr_at (g_mem gs1) after rest) as Ht1.
  { eapply name_frame; [apply N0 | exact Hap |]. intros a Ha. apply Fr'; tauto. }
  set (gs2 := upd (fun s => set_fsmax MAXINT (set_block false s)) gs1). change (g_mem gs2) with (g_mem gs1).
  assert (ld (g_mem gs1) after = 47) as ->.
  { pose proof (cstr_char _ _ _ 0%nat Ht1 ltac:(lia)) as H0. rewrite Z.add_0_r in H0. by rewrite H0. }
  change (negb (47 =? 47)) with false. cbn iota.
  assert (f_err (g_fs gs1) = ERR_NONE) as He by exact (pr_no_error _ (op_good _ _ _ _ _ _ _ _ (pf_opened _ Mo))).
  destruct table_entry as [Te Tn]. change (fsys_type (g_fs gs2)) with (fsys_type (g_fs gs1)). rewrite Ty, Tn, andb_false_r.
  set (gs3 := upd _ gs2). set (s := g_fs gs3). change (g_err gs3) with (f_err (g_fs gs1)).
  rewrite He, bool_decide_true by done. cbn [negb]. change (fsys_type s) with (fsys_type (g_fs gs1)). rewrite Ty, Nat2Z.id, Te. cbn [mbind option_bind].
  assert (asked fsys_table e s) as As.
  { constructor; [exact K2 | done | exact K1 | done | change (fsys_type s) with (fsys_type (g_fs gs1)); by rewrite Ty, Nat2Z.id | done]. }
  exists gs3, s. split; [done |]. split; [| split; [exact As |]; split; [exact Zg |]; split; [exact K3 | exact Fr']].
  pose proof (nm_length _ N) as Hl. rewrite length_app in Hl. apply pf_dir; [by apply (pf_conf (g_fs gs1)) | exact As | exact Ht1 | lia |].
  intros x Hx. assert (~ (in_buffer x \/ in_fsys x \/ path_scratch x)) as Hn; [| unfold path_scratch in Hn; tauto].
  apply Hap. rewrite length_app. lia.
Qed.

Lemma grub_open_path gs : named (g_fs gs) -> path_apart ->
  match result with
  | Opens _ _ _ content size Rd =>
      exists gs1, grub_open filename gs = gunzip_test_header b mem_lower mem_upper fsys_table header_buf ch_buf gunzip_read gs1 /\
        opened_at_start b mem_lower mem_upper fsys_table _ content size (R := Rd) path_scratch gs gs1 /\ g_gz gs1 = g_gz gs
  | Refused _ _ _ er => exists gs', grub_open filename gs = Some (0, gs') /\ g_err gs' = er
  end.
Proof.
  intros N Hap. destruct (open_to_path gs N Hap) as (gs1 & s & -> & (ret & s' & -> & (S1 & S2 & S3 & S4 & S5 & S6 & S7) & Fr & O) & [C1 C2 C3 C4 C5 C6] & Zg & Io & Fs).
  cbn [mbind option_bind]. destruct result as [content size Rd | er].
  - destruct O as (-> & Of & Hp & Hm). change (1 =? 0) with false. cbn iota.
    assert (file_open b mem_lower mem_upper fsys_table _ content size (R := Rd) (set_gfs s' gs1)) as FO.
    { constructor; [exact (eq_trans S6 C3) | exact Hm | exact (eq_trans S3 C2) | | exact Of].
      unfold active_read. change (g_fs (set_gfs s' gs1)) with s'. rewrite S5, C4, S4, C5. done. }
    exists (set_gfs s' gs1). split; [done |]. split; [| exact Zg]. constructor; [exact FO | exact Hp | exact (eq_trans S7 Io) |]. intros a A1 A2 A3.
    change (ld (f_mem s') a = ld (g_mem gs) a). unfold path_scratch in A3. rewrite Fr by tauto. by apply Fs.
  - destruct O as (-> & Er). by exists (set_gfs s' gs1).
Qed.
End Device.
