(* ===== verification/GrubPaths.v ===== *)
(** * Paths of a FAT volume

    The entry of [src/legacy/SZoS/grub-0.97/stage2/fsys_fat.c] in the table of
    file systems, and what it promises to [grub_open]: the instance of
    [PathFinder] for the paths of a volume. *)

From S2P Require Import Prelude Machine LibcString GrubString GrubTerm GrubReadline GrubBios GrubDisk GrubDevice GrubPart GrubFsys GrubFat GrubFatDir GrubFile GrubBlocks GrubOpen.

(** ** The code *)

(** The places of its local variables and the lengths of a path and of a
    directory come first. *)
Definition fat_fsys (b : bios) (mem_lower mem_upper : Z) (current_term : term_entry) (max_lines bpb first_fat dir_buf : Z)
    (fuel entries : nat) : fsys_entry :=
  FsysEntry (bytes "fat") (fat_mount b mem_lower mem_upper bpb first_fat) (fat_read b mem_lower mem_upper)
    (fat_dir b mem_lower mem_upper current_term max_lines dir_buf fuel entries) None.

(** ** Proofs *)

Lemma in_fat_fsys a : in_fat a -> in_fsys a.
Proof. unfold in_fat, in_fsys, FAT_BUF, FAT_SUPER. lia. Qed.

Lemma file_place_ok mem_lower mem_upper buf n : file_place mem_lower mem_upper buf n -> place_ok mem_lower mem_upper buf n.
Proof. intros [T F]. split; [done |]. intros a Ha Hf. by apply (F a Ha), in_fat_fsys. Qed.

Section FatFile.
Context (b : bios) (mem_lower mem_upper drive part_start part_length : Z) (byte : Z -> Z)
        {R : PartReader b mem_lower mem_upper drive part_start part_length byte}.
Hypothesis bytes_ok : forall x, 0 <= byte x < 256.
Hypothesis lower_ok : 512 <= mem_lower <= 1024.
Hypothesis upper_ok : 0 <= mem_upper < 4194304.

Section Reader.
Variables (v : volume) (first : Z) (l : list Z) (size : Z).
Hypothesis vol : volume_ok v part_length.
Hypothesis size_range : 0 <= size <= MAXINT.
Hypothesis size_chain : size <= Z.of_nat (length l) * cluster_size v.

#[export] Program Instance fat_reader : FileReader mem_lower mem_upper (fat_read b mem_lower mem_upper) (chain_byte byte v l) size := {|
  fr_open := opened_file b mem_lower mem_upper drive part_start part_length byte v first l |}.
Next Obligation. exact size_range. Qed.
Next Obligation. intros s O. exact (pr_no_error _ (op_good _ _ _ _ _ _ _ _ (mo_opened _ _ _ _ _ _ _ _ _ (of_mounted _ _ _ _ _ _ _ _ _ _ _ O)))). Qed.
Next Obligation. intros s pos [M F C P]. constructor; [by apply mounted_pos | done | done | done]. Qed.
Next Obligation. intros s i [[[] S T] F C P]. constructor; [constructor; [by constructor | done | done] | done..]. Qed.
Next Obligation.
  intros s m O F. apply (dir_open_write _ _ _ _ _ _ _ v (Chain first l)); [exact O |].
  intros a [Ha | Ha]; apply F; [by left | right; by apply in_fat_fsys].
Qed.
Next Obligation.
  intros s buf n O Hp Hn Hin Hb. unfold MAXINT in size_range.
  destruct (fat_read_ok b mem_lower mem_upper drive part_start part_length byte v bytes_ok vol lower_ok upper_ok first l s buf n O)
    as (s' & E & [M [j A] B F]); [lia | done | by apply file_place_ok |].
  assert (available (Z.of_nat (length l) * cluster_size v) (filepos s) n = n) as Ea by (unfold available; lia).
  rewrite Ea in *. exists s'. split; [done |]. split; [| split; [done | split; [done |]]].
  - eapply at_opened; [apply O | exact A].
  - intros a A1 A2 A3. apply F; [done | | done]. intros Hf. by apply A2, in_fat_fsys.
Qed.
End Reader.

(** *** A path *)

Variables (current_term : term_entry) (max_lines bits bpb first_fat dir_buf t : Z) (depth entries : nat).

Abbreviation v := (bs_volume byte bits).
Abbreviation entry := (fat_fsys b mem_lower mem_upper current_term max_lines bpb first_fat dir_buf depth entries).

(** The partition has a FAT volume, and the local variables have their places. *)
Record fat_setting : Prop := {
  fs_boot : boot_sector_ok byte bits;
  fs_volume : volume_ok v part_length;
  fs_total : bs_total byte <= part_length;
  fs_tried : (drive .& 0x80 = 0 /\ t = 0) \/ IS_PC_SLICE_TYPE_FAT t = true \/ IS_PC_SLICE_TYPE_BSD_WITH_FS t FS_MSDOS = true;
  fs_bpb : file_place mem_lower mem_upper bpb BPB_SIZE;
  fs_first : file_place mem_lower mem_upper first_fat 4;
  fs_apart : forall a, bpb <= a < bpb + BPB_SIZE -> ~ (first_fat <= a < first_fat + 4);
  fs_dir : file_place mem_lower mem_upper dir_buf 32;
  fs_entries : part_length * 512 < 32 * Z.of_nat entries }.

(** Its local variables. *)
Definition fat_scratch (a : Z) : Prop := bpb <= a < bpb + BPB_SIZE \/ first_fat <= a < first_fat + 4 \/ dir_buf <= a < dir_buf + 32.

Hypothesis fat : fat_setting.
Variables (src : source) (ns : list (list Z)) (ptail : list Z).
Hypothesis path_good : path_ok ns.
Hypothesis tail_good : path_tail ptail.
Hypothesis depth_ok : (length ns < depth)%nat.
Hypothesis root : root_source byte v src.

(** Where the path leads, as [grub_open] sees it. *)
Inductive fat_opening : opening mem_lower mem_upper (fat_read b mem_lower mem_upper) -> Prop :=
| fo_file e l H1 H2 : leads byte v src ns (IsFile e) -> cluster_chain byte v (e_cluster e) l ->
    fat_opening (Opens _ _ _ (chain_byte byte v l) (e_size e) (fat_reader v (e_cluster e) l (e_size e) (fs_volume fat) H1 H2))
| fo_missing : leads byte v src ns Missing -> fat_opening (Refused _ _ _ ERR_FILE_NOT_FOUND)
| fo_wrong : leads byte v src ns WrongType -> fat_opening (Refused _ _ _ ERR_BAD_FILETYPE).

Lemma fat_dir_result o s a : leads byte v src ns o -> mounted b mem_lower mem_upper drive part_start part_length byte v s -> print_possibilities s = 0 ->
  cstr_at (f_mem s) a (path_text ns ++ ptail) -> Z.of_nat (length (path_text ns ++ ptail)) < 65536 ->
  (forall x, a <= x <= a + Z.of_nat (length (path_text ns ++ ptail)) -> ~ in_buffer x /\ ~ in_fsys x /\ ~ fat_scratch x) ->
  dir_result b mem_lower mem_upper drive part_start part_length byte v dir_buf o s (dir_func entry a s).
Proof.
  intros Hl Mo Hq Ht Hlen Hap. pose proof fat as [_ F3 _ _ _ _ _ F9 F10]. cbn [dir_func fat_fsys].
  eapply (fat_dir_ok b mem_lower mem_upper drive part_start part_length byte current_term max_lines v bytes_ok F3 lower_ok upper_ok dir_buf
    (file_place_ok _ _ _ _ F9)); [| exact tail_good | exact F10 | exact Mo | exact root | exact Hl | done..| | done].
  - intros i k Hi Hk E. destruct F9 as [_ F9]. apply (F9 (dir_buf + i) ltac:(lia)). rewrite E. unfold in_fsys, NAME_BUF. lia.
  - intros x Hx [H | [H | [H | H]]]; destruct (Hap x Hx) as (H1 & H2 & H3); [done | by apply H2, in_fat_fsys | apply H3; unfold fat_scratch; tauto |].
    apply H2. unfold in_fsys, NAME_BUF in *. lia.
Qed.

Lemma dir_frame a : ~ in_buffer a -> ~ in_fsys a -> ~ fat_scratch a -> ~ scratch dir_buf a.
Proof.
  intros A1 A2 A3 [H | [H | [H | H]]]; [done | by apply A2, in_fat_fsys | unfold fat_scratch in A3; tauto |].
  apply A2. unfold in_fsys, NAME_BUF in *. lia.
Qed.

Lemma fat_found result s a : fat_opening result -> mounted b mem_lower mem_upper drive part_start part_length byte v s -> print_possibilities s = 0 ->
  cstr_at (f_mem s) a (path_text ns ++ ptail) -> Z.of_nat (length (path_text ns ++ ptail)) < 65536 ->
  (forall x, a <= x <= a + Z.of_nat (length (path_text ns ++ ptail)) -> ~ in_buffer x /\ ~ in_fsys x /\ ~ fat_scratch x) ->
  path_found (dir_func entry a s) fat_scratch s result.
Proof.
  intros H Mo Hq Ht Hlen Hap. destruct H as [e l H1 H2 Hl Hc | Hl | Hl];
    destruct (fat_dir_result _ s a Hl Mo Hq Ht Hlen Hap) as (ret & s' & E & F & S & -> & O); rewrite E; eexists _, s';
    (split; [done |]; split; [done |]; split; [intros y Y1 Y2 Y3; by apply F, dir_frame |]); [| done..].
  split; [done |]. split; [exact (found_opened b mem_lower mem_upper drive part_start part_length byte v e l s' Hc O) |].
  split; [exact (ff_pos _ _ _ _ _ _ _ _ _ _ O) | exact (ff_size _ _ _ _ _ _ _ _ _ _ O)].
Qed.

#[export] Program Instance fat_finder (fsys_table : list fsys_entry) (result : opening mem_lower mem_upper (fat_read b mem_lower mem_upper)) (H : fat_opening result) :
  PathFinder b mem_lower mem_upper drive part_start part_length byte t fsys_table entry (path_text ns ++ ptail) fat_scratch result := {|
  pf_mounted := mounted b mem_lower mem_upper drive part_start part_length byte v |}.
Next Obligation. by intros _ result _ s []. Qed.
Next Obligation.
  intros _ result _ s s' [[G D S L] Ms Mt] E1 E2 E3. constructor; unfold super_is, table_cached, f_mem in *; rewrite ?E1; [| done..].
  constructor; congruence.
Qed.
Next Obligation.
  intros _ result _ s O Ty. pose proof fat as [F2 F3 F4 F5 F6 F7 F8 _ _]. pose proof (vo_length _ _ F3) as Hpl.
  destruct (fat_mount_ok b mem_lower mem_upper drive part_start part_length byte bits bpb first_fat bytes_ok F2 s)
    as (d & Em & Mo & Fr); try done; [lia | by apply file_place_ok | by apply file_place_ok | unfold fat_partition; by rewrite Ty, (op_drive _ _ _ _ _ _ _ _ O) |].
  exists d. split; [exact Em |]. split; [exact Mo |]. intros a A1 A2 A3. unfold fat_scratch in A3.
  apply Fr; [done | intros Hf; by apply A2, in_fat_fsys | tauto | tauto].
Qed.
Next Obligation. intros table result H s a Mo As Ht Hl Hap. apply fat_found; [done | done | apply As | done..]. Qed.
End FatFile.

(** A partition of another type is not looked at. *)
Lemma fat_refuses b mem_lower mem_upper drive part_start part_length byte {R : PartReader b mem_lower mem_upper drive part_start part_length byte}
    current_term max_lines bpb first_fat dir_buf depth entries t :
  t <> 0 -> IS_PC_SLICE_TYPE_FAT t = false -> IS_PC_SLICE_TYPE_BSD_WITH_FS t FS_MSDOS = false ->
  refuses b mem_lower mem_upper drive part_start part_length byte t (fat_fsys b mem_lower mem_upper current_term max_lines bpb first_fat dir_buf depth entries).
Proof.
  intros H0 H1 H2 s O Ty. cbn [mount_func fat_fsys]. unfold fat_mount. rewrite Ty, H1, H2, (proj2 (Z.eqb_neq t 0)) by done. by rewrite orb_true_r.
Qed.
