(* ===== verification/GrubLoad.v ===== *)
(** * Loading files

    What the user of [grub_open] and [grub_read] relies on: the name of a file,
    a block list or a path of a FAT volume, gives the bytes of that file. *)

From S2P Require Import Prelude Machine LibcString GrubString GrubTerm GrubReadline GrubBios GrubDisk GrubDevice GrubPart GrubFsys GrubFat GrubFatDir GrubFile GrubBlocks GrubOpen GrubPaths.

Section Load.
Variables (b : bios) (mem_lower mem_upper : Z) (fsys_table : list fsys_entry).
Variable gunzip_read : Z -> Z -> files -> option (Z * files).

(** A file of [size] bytes is open at its beginning and [grub_read] gives its
    bytes; opening and reading write nothing but what they say. *)
Record loads (content : Z -> Z) (size : Z) (scratch : Z -> Prop) (gs gs' : files) : Prop := {
  lo_start : filepos (g_fs gs') = 0;
  lo_size : filemax (g_fs gs') = size;
  lo_frame : forall a, ~ in_buffer a -> ~ in_fsys a -> ~ scratch a -> ld (g_mem gs') a = ld (g_mem gs) a;
  lo_read : forall buf n, let k := read_count size 0 n in
    file_place mem_lower mem_upper buf k ->
    exists gs2, grub_read b mem_lower mem_upper fsys_table gunzip_read buf n gs' = Some (k, gs2) /\
      filepos (g_fs gs2) = k /\
      (forall x, 0 <= x < k -> ld (g_mem gs2) (buf + x) = content x) /\
      (forall a, ~ in_buffer a -> ~ in_fsys a -> ~ (buf <= a < buf + k) -> ld (g_mem gs2) a = ld (g_mem gs') a) }.

Lemma opened_loads read content size {R : FileReader mem_lower mem_upper read content size} scratch gs gs' :
  opened_at_start b mem_lower mem_upper fsys_table read content size scratch gs gs' -> loads content size scratch gs gs'.
Proof.
  intros [O P _ F]. constructor; [done | exact (fo_size _ _ _ _ _ _ _ _ O) | done |]. intros buf n k Hb.
  pose proof fr_size as Hs. assert (read_from size 0 = 0) as E0 by (unfold read_from; by rewrite (proj2 (Z.ltb_ge size 0)) by lia).
  pose proof (grub_read_ok b mem_lower mem_upper fsys_table read content size gunzip_read buf n gs' O) as H.
  rewrite P, E0 in H. fold k in H. destruct (H Hb) as (s' & E & _ & (d & h & u & w & ->) & B & Fr).
  eexists. split; [exact E |]. split; [done |]. split; [exact B | exact Fr].
Qed.
End Load.

(** [grub_open] of a path, for any file system. *)
Section Finds.
Context b mem_lower mem_upper part_buf parts g disks tables d p t pstart plen drive
    (good : disk_good b drive g disks) (Hbuf : target_ok mem_lower mem_upper part_buf SECTOR_SIZE) (Hp : (4 * length tables < parts)%nat)
    (found : region (seen g (disks drive)) (total_sectors g) tables d p t pstart plen) (Hh : forall n, d = Hard n -> drive .& 0x80 <> 0)
    (fsys_table : list fsys_entry) (filename : Z) (rest : list Z) (header_buf ch_buf : Z) (gunzip_read : Z -> Z -> files -> option (Z * files))
    (before others : list fsys_entry) (e : fsys_entry) (scr : Z -> Prop) (result : opening mem_lower mem_upper (read_func e)).
Let Rd := named_reader b mem_lower mem_upper g disks tables d p t pstart plen drive good found.
Let byte := part_byte g disks pstart drive.
Hypothesis table_is : fsys_table = before ++ e :: others.
Hypothesis refused : Forall (refuses b mem_lower mem_upper drive pstart plen byte t (R := Rd)) before.
Hypothesis F : PathFinder b mem_lower mem_upper drive pstart plen byte t fsys_table e rest scr result (R := Rd).
Hypothesis rest_path : nth 0 rest 0 = 47.
Hypothesis header_place : file_place mem_lower mem_upper header_buf 10.
Let opening_file := grub_open b mem_lower mem_upper fsys_table part_buf header_buf ch_buf parts gunzip_read filename.

Lemma grub_open_starts gs : named g disks d p drive filename rest (g_fs gs) -> path_apart part_buf d p filename rest header_buf scr ->
  match result with
  | Opens _ _ _ content size _ => not_gzip content size (g_gz gs) ->
      exists gs', opening_file gs = Some (1, gs') /\
        opened_at_start b mem_lower mem_upper fsys_table _ content size (path_scratch part_buf header_buf scr) gs gs'
  | Refused _ _ _ er => exists gs', opening_file gs = Some (0, gs') /\ g_err gs' = er
  end.
Proof.
  intros N A. pose proof (grub_open_path b mem_lower mem_upper part_buf parts g disks tables d p t pstart plen drive good Hbuf Hp found Hh fsys_table filename
    rest header_buf ch_buf gunzip_read before others e scr result table_is refused (F := F) rest_path gs N A) as H.
  destruct result as [content size Rf | er]; [| exact H]. intros Z1. destruct H as (gs1 & E & O1 & Eg). rewrite <- Eg in Z1.
  eapply plain_opened in O1 as (gs' & E' & O); [exists gs'; split; [exact (eq_trans E E') | exact O] | exact Z1 | done | intros a Ha; left; by right].
Qed.

Lemma grub_open_finds gs : named g disks d p drive filename rest (g_fs gs) -> path_apart part_buf d p filename rest header_buf scr ->
  match result with
  | Opens _ _ _ content size _ => not_gzip content size (g_gz gs) ->
      exists gs', opening_file gs = Some (1, gs') /\ loads b mem_lower mem_upper fsys_table gunzip_read content size (path_scratch part_buf header_buf scr) gs gs'
  | Refused _ _ _ er => exists gs', opening_file gs = Some (0, gs') /\ g_err gs' = er
  end.
Proof.
  intros N A. pose proof (grub_open_starts gs N A) as H. destruct result as [content size Rf | er]; [| exact H].
  intros Z1. destruct (H Z1) as (gs' & E & O). exists gs'. split; [exact E |]. eapply opened_loads, O.
Qed.
End Finds.

(** C37. On an open file grub_read returns the number of bytes asked for that
    are left (all of them when the number is negative), stores exactly these
    bytes of the file, moves the position by it and leaves the file open; a
    position outside the file reads nothing, from its end. *)
Theorem grub_read_streams b mem_lower mem_upper fsys_table read content size {R : FileReader mem_lower mem_upper read content size} gunzip_read buf n g :
  file_open b mem_lower mem_upper fsys_table read content size g ->
  let pos := read_from size (filepos (g_fs g)) in
  let k := read_count size (filepos (g_fs g)) n in
  file_place mem_lower mem_upper buf k ->
  exists s', grub_read b mem_lower mem_upper fsys_table gunzip_read buf n g = Some (k, set_gfs s' g) /\
    file_open b mem_lower mem_upper fsys_table read content size (set_gfs s' g) /\
    filepos s' = pos + k /\
    (forall x, 0 <= x < k -> ld (f_mem s') (buf + x) = content (pos + x)) /\
    (forall a, ~ in_buffer a -> ~ in_fsys a -> ~ (buf <= a < buf + k) -> ld (f_mem s') a = ld (g_mem g) a).
Proof.
  intros O pos k Hb. destruct (grub_read_ok b mem_lower mem_upper fsys_table read content size gunzip_read buf n g O Hb)
    as (s' & E & O' & (d & h & u & w & ->) & B & F). eexists. split; [exact E |]. by split_and!.
Qed.

(** C36. Opening a block list written as device, blocks and an optional size
    opens a file whose bytes are those of the listed sectors one after the
    other, up to the size; a size that is 0 or beyond the blocks is refused as
    ERR_BAD_FILENAME. The blocks lie inside the partition, are at most 4093,
    and the file is plain. *)
Theorem grub_open_loads_blocks b mem_lower mem_upper part_buf parts g disks tables d p t pstart plen drive fsys_table filename
    header_buf ch_buf gunzip_read blocks size tl gs :
  disk_good b drive g disks -> target_ok mem_lower mem_upper part_buf SECTOR_SIZE -> (4 * length tables < parts)%nat ->
  region (seen g (disks drive)) (total_sectors g) tables d p t pstart plen -> (forall n, d = Hard n -> drive .& 0x80 <> 0) ->
  blocks_ok blocks plen -> match size with Some n => 0 <= n <= MAXINT | None => True end -> name_end tl ->
  let rest := print_blocks blocks ++ print_size size ++ tl in
  named g disks d p drive filename rest (g_fs gs) ->
  text_apart d p filename rest (fun a => part_scratch part_buf a \/ in_fsys a) -> file_place mem_lower mem_upper header_buf 10 ->
  let byte := part_byte g disks pstart drive in
  let open := grub_open b mem_lower mem_upper fsys_table part_buf header_buf ch_buf parts gunzip_read filename gs in
  match file_size blocks size with
  | Some n => not_gzip (block_byte byte blocks) n (g_gz gs) ->
      exists gs', open = Some (1, gs') /\
        loads b mem_lower mem_upper fsys_table gunzip_read (block_byte byte blocks) n (open_scratch part_buf header_buf) gs gs'
  | None => exists gs', open = Some (0, gs') /\ g_err gs' = ERR_BAD_FILENAME
  end.
Proof.
  intros good Hbuf Hp found Hh Hb Hs Ht rest N A Hhb byte open. subst open.
  pose proof (grub_open_list b mem_lower mem_upper part_buf parts g disks tables d p t pstart plen drive good Hbuf Hp found Hh fsys_table filename
    rest header_buf ch_buf gunzip_read blocks size tl Hb Hs Ht eq_refl gs N A) as H.
  destruct (file_size blocks size) as [n |] eqn:E; [| exact H]. intros Z1.
  destruct (H (file_size_range blocks size n E)) as (gs1 & -> & O1 & Eg). rewrite <- Eg in Z1.
  eapply plain_opened in O1 as (gs' & E' & O); [exists gs'; split; [exact E' |]; eapply opened_loads, O | exact Z1 | done | by right].
Qed.

(** C4. Opening the name of a file on a FAT volume, a device with its
    partition and a path, leads to that file: grub_open returns 1 and
    grub_read then gives the bytes of the clusters of its chain, up to the
    size of its entry; a name that is missing or used as the wrong kind gives
    0 and the error. Only the work areas are written. The partition is a whole
    disk or a PC slice of a drive below 2 GB, the file plain. *)
Theorem grub_open_loads_path b mem_lower mem_upper part_buf parts g disks tables d p t pstart plen drive current_term max_lines fsys_table filename
    rest header_buf ch_buf gunzip_read bits bpb first_fat dir_buf depth entries before others src ns ptail o gs
    (good : disk_good b drive g disks) (found : region (seen g (disks drive)) (total_sectors g) tables d p t pstart plen) :
  target_ok mem_lower mem_upper part_buf SECTOR_SIZE -> (4 * length tables < parts)%nat -> (forall n, d = Hard n -> drive .& 0x80 <> 0) ->
  let byte := part_byte g disks pstart drive in
  let v := bs_volume byte bits in
  fsys_table = before ++ fat_fsys b mem_lower mem_upper current_term max_lines bpb first_fat dir_buf depth entries :: others ->
  Forall (refuses b mem_lower mem_upper drive pstart plen byte t (R := named_reader b mem_lower mem_upper g disks tables d p t pstart plen drive good found)) before ->
  fat_setting mem_lower mem_upper drive plen byte bits bpb first_fat dir_buf t entries ->
  rest = path_text ns ++ ptail -> path_ok ns -> path_tail ptail -> (length ns < depth)%nat ->
  root_source byte v src -> leads byte v src ns o ->
  named g disks d p drive filename rest (g_fs gs) ->
  path_apart part_buf d p filename rest header_buf (fat_scratch bpb first_fat dir_buf) -> file_place mem_lower mem_upper header_buf 10 ->
  let open := grub_open b mem_lower mem_upper fsys_table part_buf header_buf ch_buf parts gunzip_read filename gs in
  match o with
  | IsFile e => forall l, cluster_chain byte v (e_cluster e) l -> 0 <= e_size e <= MAXINT ->
      e_size e <= Z.of_nat (length l) * cluster_size v -> not_gzip (chain_byte byte v l) (e_size e) (g_gz gs) ->
      exists gs', open = Some (1, gs') /\
        loads b mem_lower mem_upper fsys_table gunzip_read (chain_byte byte v l) (e_size e)
          (path_scratch part_buf header_buf (fat_scratch bpb first_fat dir_buf)) gs gs'
  | Missing => exists gs', open = Some (0, gs') /\ g_err gs' = ERR_FILE_NOT_FOUND
  | WrongType => exists gs', open = Some (0, gs') /\ g_err gs' = ERR_BAD_FILETYPE
  end.
Proof.
  intros Hbuf Hp Hh byte v Htab Href fat -> Hn Ht Hd root Hl N A Hhb open. subst open. pose proof Hbuf as [T1 T2 _ _ _].
  assert (forall x, 0 <= byte x < 256) as Hb by (intros x; apply seen_range, good).
  set (Rd := named_reader _ _ _ _ _ _ _ _ _ _ _ _ _ _) in Href.
  assert (nth 0 (path_text ns ++ ptail) 0 = 47) as Hs by (by destruct Hl).
  pose proof (fun result Hr => grub_open_finds b mem_lower mem_upper part_buf parts g disks tables d p t pstart plen drive good Hbuf Hp found Hh fsys_table filename
    _ header_buf ch_buf gunzip_read before others _ _ result Htab Href
    (fat_finder b mem_lower mem_upper drive pstart plen byte Hb T1 T2 current_term max_lines bits bpb first_fat dir_buf t depth entries fat src ns ptail
       Hn Ht Hd root fsys_table result Hr) Hs Hhb gs N A) as H.
  destruct o as [e | |]; [| apply (H _ (fo_missing _ _ _ _ _ _ _ _ _ _ _ _ _ _ _ _ _ _ _ Hl)) | apply (H _ (fo_wrong _ _ _ _ _ _ _ _ _ _ _ _ _ _ _ _ _ _ _ Hl))].
  intros l Hc H1 H2. apply (H _ (fo_file _ _ _ _ _ _ _ _ _ _ _ _ _ _ _ _ _ _ _ e l H1 H2 Hl Hc)).
Qed.

(** ** Witnesses *)

Abbreviation low_term := (TermEntry 0 None false None).
Abbreviation no_gunzip := (fun (_ _ : Z) (_ : files) => None : option (Z * files)).

(** The diskette's FAT file system is the only one in the table. *)
Definition one_fsys : list fsys_entry := [fat_fsys floppy_bios 640 0 low_term 24 0x20000 0x20100 0x20200 3 (Z.to_nat 60000)].
Definition plain_gz : gz := Gz false 0 0 0 0 0 0 (Inflater 0 0 0 0 0 0 0 0 0 0 0 0 0 0 0 0).

(** A name is in memory at [0x10000]. *)
Definition name_gs (text : list Z) : files := Files (set_fmem (st_bytes ∅ 0x10000 text) diskette_fs) 0 plain_gz.

Lemma diskette_good : disk_good floppy_bios 0 floppy fat_bytes.
Proof. constructor; [apply floppy_ok | apply fat_tracks | done | apply fat_bytes_range | done]. Qed.

Lemma low_file_place buf n : 0x1000 <= buf -> 0 <= n -> buf + n <= FSYS_BUF -> file_place 640 0 buf n.
Proof.
  intros H1 H2 H3. split; [apply low_target; [done | done | unfold FSYS_BUF, BUFFERADDR in *; lia] |].
  intros a Ha. unfold in_fsys. lia.
Qed.

Lemma text_named disks s rest : let text := print_device (Floppy 0) Whole ++ rest in
  is_cstr text -> Z.of_nat (length text) < 0x1000 -> f_mem s = st_bytes ∅ 0x10000 text -> f_dev s = f_dev diskette_fs -> disk_ready 0 floppy disks s ->
  named floppy disks (Floppy 0) Whole 0 0x10000 rest s.
Proof.
  intros text Hc Hl Em Ed Rd. fold text in Em, Hl.
  constructor; [| fold text; lia | rewrite Ed; by split | by rewrite Ed | by rewrite Ed | exact Rd].
  rewrite Em. fold text. clearbody text. split; [done |]. split.
  - intros i c Hi. apply ld_st_bytes_in; [lia |]. by replace (Z.to_nat (0x10000 + Z.of_nat i - 0x10000)) with i by lia.
  - rewrite ld_st_bytes_out by lia. done.
Qed.

Lemma name_named rest : is_cstr (print_device (Floppy 0) Whole ++ rest) -> Z.of_nat (length (print_device (Floppy 0) Whole ++ rest)) < 0x1000 ->
  named floppy fat_bytes (Floppy 0) Whole 0 0x10000 rest (g_fs (name_gs (print_device (Floppy 0) Whole ++ rest))).
Proof. intros Hc Hl. apply text_named; try done. Qed.

Lemma active_head e l s : block_file s = false -> fsys_type s = 0 -> active_read floppy_bios 640 0 (e :: l) s = Some (read_func e).
Proof. unfold active_read. by intros -> ->. Qed.

Lemma opened_set_max first l n s : opened_file floppy_bios 640 0 0 0 2880 fat_seen diskette_volume first l s ->
  opened_file floppy_bios 640 0 0 0 2880 fat_seen diskette_volume first l (set_max n s).
Proof. intros [[[] S T] F C P]. constructor; [constructor; [by constructor | exact S | exact T] | exact F | exact C | exact P]. Qed.

Definition three_blocks : list (Z * Z) := [(0, 1); (12, 2)].

Lemma three_blocks_ok : blocks_ok three_blocks 2880.
Proof. constructor; [by apply (bool_decide_unpack _); vm_compute | done | done | cbn; lia | done]. Qed.

(** Reading 300 bytes of the kernel's 700 from the byte 500 gives 200. *)
Lemma grub_read_streams_witness :
  exists s', grub_read floppy_bios 640 0 one_fsys no_gunzip 0x30000 300 (Files (set_max 700 (file_fs 3 500)) 0 plain_gz)
      = Some (200, Files s' 0 plain_gz) /\ filepos s' = 700 /\
    forall x, 0 <= x < 200 -> ld (f_mem s') (0x30000 + x) = chain_byte fat_seen diskette_volume [3; 5] (500 + x).
Proof.
  pose proof (grub_read_streams floppy_bios 640 0 one_fsys (fat_read floppy_bios 640 0) (chain_byte fat_seen diskette_volume [3; 5]) 700
    (R := fat_reader floppy_bios 640 0 0 0 2880 fat_seen fat_seen_range ltac:(done) ltac:(done) diskette_volume 3 [3; 5] 700 diskette_volume_ok
       ltac:(done) ltac:(done)) no_gunzip 0x30000 300 (Files (set_max 700 (file_fs 3 500)) 0 plain_gz)) as H.
  change (filepos (g_fs (Files (set_max 700 (file_fs 3 500)) 0 plain_gz))) with 500 in H.
  change (read_count 700 500 300) with 200 in H. change (read_from 700 500) with 500 in H.
  destruct H as (s' & E & _ & P & B & _).
  - constructor.
    + exact eq_refl.
    + exact eq_refl.
    + exact eq_refl.
    + by apply active_head.
    + apply opened_set_max, file_fs_opened.
  - by apply low_file_place.
  - exists s'. split; [exact E |]. split; [exact P | exact B].
Defined.

(** The boot sector and two sectors of the file. *)
Lemma grub_open_loads_blocks_witness :
  let gs := name_gs (bytes "(fd0)+1,12+2") in
  exists gs', grub_open floppy_bios 640 0 one_fsys 0x20300 0x20600 0x20700 1 no_gunzip 0x10000 gs = Some (1, gs') /\
    loads floppy_bios 640 0 one_fsys no_gunzip (block_byte fat_seen three_blocks) 1536 (open_scratch 0x20300 0x20600) gs gs'.
Proof.
  apply (grub_open_loads_blocks floppy_bios 640 0 0x20300 1 floppy fat_bytes [] (Floppy 0) Whole 0 0 2880 0 one_fsys 0x10000 0x20600 0x20700 no_gunzip
    three_blocks None [] (name_gs (bytes "(fd0)+1,12+2"))).
  - apply diskette_good.
  - by apply low_target.
  - cbn. lia.
  - apply (region_whole _ 2880).
  - discriminate.
  - apply three_blocks_ok.
  - exact I.
  - by split.
  - apply name_named; [by apply (bool_decide_unpack _); vm_compute | done].
  - intros x Hx. change (Z.of_nat _) with 12 in Hx. unfold part_scratch, in_buffer, in_fsys, BUFFERADDR, BUFFERLEN, FSYS_BUF, SECTOR_SIZE. lia.
  - by apply low_file_place.
  - right. right. vm_compute. split; discriminate.
Defined.

Lemma diskette_boot_volume : bs_volume fat_seen 9 = diskette_volume.
Proof. vm_compute. reflexivity. Qed.

Lemma diskette_setting : fat_setting 640 0 0 2880 fat_seen 9 0x20000 0x20100 0x20200 0 (Z.to_nat 60000).
Proof.
  constructor.
  - apply fat_boot.
  - change (volume_ok (bs_volume fat_seen 9) 2880). rewrite diskette_boot_volume. apply diskette_volume_ok.
  - vm_compute. discriminate.
  - by left.
  - by apply low_file_place.
  - by apply low_file_place.
  - unfold BPB_SIZE. lia.
  - by apply low_file_place.
  - lia.
Qed.

Definition kernel_name : list Z := bytes "(fd0)/boot/Kernel-32b-ofSzOS.bin".

Lemma grub_open_loads_path_witness :
  exists gs', grub_open floppy_bios 640 0 one_fsys 0x20300 0x20600 0x20700 1 no_gunzip 0x10000 (name_gs kernel_name) = Some (1, gs') /\
    loads floppy_bios 640 0 one_fsys no_gunzip (chain_byte fat_seen diskette_volume [3; 5]) 700 (path_scratch 0x20300 0x20600 (fat_scratch 0x20000 0x20100 0x20200))
      (name_gs kernel_name) gs'.
Proof.
  pose proof (grub_open_loads_path floppy_bios 640 0 0x20300 1 floppy fat_bytes [] (Floppy 0) Whole 0 0 2880 0 low_term 24 one_fsys 0x10000
    (path_text kernel_path ++ []) 0x20600 0x20700 no_gunzip 9 0x20000 0x20100 0x20200 3 (Z.to_nat 60000) [] [] Root kernel_path [] (IsFile kernel_entry)
    (name_gs kernel_name) diskette_good (region_whole _ 2880 _ _)) as H.
  cbv zeta in H. change (part_byte floppy fat_bytes 0 0) with fat_seen in H. rewrite diskette_boot_volume in H.
  assert (e_size kernel_entry = 700) as Es by (vm_compute; reflexivity). assert (e_cluster kernel_entry = 3) as Ec by (vm_compute; reflexivity).
  rewrite Es, Ec in H. apply H; clear H.
  - by apply low_target.
  - cbn. lia.
  - discriminate.
  - done.
  - constructor.
  - apply diskette_setting.
  - done.
  - apply kernel_path_ok.
  - split; constructor.
  - cbn. lia.
  - split; [reflexivity |]. split; [reflexivity |]. by exists 16.
  - apply kernel_leads.
  - apply name_named; [by apply (bool_decide_unpack _); vm_compute | done].
  - intros x Hx. change (Z.of_nat _) with 32 in Hx. unfold path_scratch, fat_scratch, open_scratch, in_buffer, in_fsys, BPB_SIZE, BUFFERADDR, BUFFERLEN, FSYS_BUF, SECTOR_SIZE. lia.
  - by apply low_file_place.
  - apply kernel_chain.
  - split; vm_compute; discriminate.
  - vm_compute. discriminate.
  - right. right. vm_compute. split; discriminate.
Defined.
