(* ===== verification/GrubUncompress.v ===== *)
(** * Compressed files, opened and read

    The theorems on [gunzip.c]: the tables of a code, reading a compressed file
    at any position, and opening one by a list of blocks. *)

From S2P Require Import Prelude Machine LibcString GrubString GrubTerm GrubReadline GrubBios GrubDisk GrubDevice GrubPart GrubFsys GrubFat GrubFatDir GrubFile Deflate Canonical GrubGunzip GrubHuffman GrubBits GrubWindow GrubInflate GrubHeader GrubUnzip GrubGzip GrubBlocks GrubOpen GrubLoad.

Section Gzip.
Variables (b : bios) (mem_lower mem_upper : Z) (fsys_table : list fsys_entry) (slide inbuf lo : Z) (junk : list Z) (stray : Z -> Z) (rounds depth : nat).

(** A compressed file is open at its beginning and [grub_read] gives what it
    denotes. *)
Record inflates (out : list Z) (scratch : Z -> Prop) (gs gs' : files) : Prop := {
  inf_start : filepos (g_fs gs') = 0;
  inf_size : filemax (g_fs gs') = Z.of_nat (length out);
  inf_frame : forall a, ~ in_buffer a -> ~ in_fsys a -> ~ scratch a -> ld (g_mem gs') a = ld (g_mem gs) a;
  inf_read : forall buf n, let k := read_count (Z.of_nat (length out)) 0 n in
    output_place mem_lower mem_upper slide inbuf lo buf k ->
    exists gs2, grub_read b mem_lower mem_upper fsys_table (gunzip_read b mem_lower mem_upper fsys_table slide inbuf junk stray rounds (S depth)) buf n gs' = Some (k, gs2) /\
      filepos (g_fs gs2) = k /\
      (forall x, 0 <= x < k -> ld (g_mem gs2) (buf + x) = nth (Z.to_nat x) out 0) /\
      only_output mem_upper slide inbuf lo buf k gs' gs2 }.
End Gzip.

(** ** Properties *)

(** C8. For code lengths that leave no code out of its space, huft_build
    writes linked tables below the top of its memory, at most the room
    computed for them, such that looking up bits that begin with a code leads
    in as many bits to the entry of its symbol; it returns 0 for a complete
    code, otherwise 0 or 1, and changes nothing else. Some code fits the first
    table, all of them unless the code is complete or of single bits; the
    lengths are fewer than the entries of the first table or less than twice
    its bits. *)
Theorem huft_build_decodes junk stray lens s d e m hp G : suits lens m -> length junk = 288%nat -> Forall (fun z => z <= G) lens ->
  tables_room m G (Z.of_nat (length lens)) <= hp_top hp < 4294967296 -> (4 | hp_top hp) ->
  exists r w hp', huft_build junk stray lens s d e m hp = Some (r, w, hp') /\ (usable lens -> r = 0) /\ 0 <= r <= 1 /\
    built_tables lens s d e stray m (tables_room m G (Z.of_nat (length lens))) w hp hp'.
Proof. apply huft_build_ok. Qed.

(** C6. On an open compressed file, wherever the position is and whatever has
    been decoded before, grub_read returns the number of bytes asked for that
    are left, stores exactly these bytes of the output that RFC 1951 gives the
    data, moves the position and keeps the file open. *)
Theorem gunzip_read_streams b mem_lower mem_upper fsys_table read content size {R : FileReader mem_lower mem_upper read content size}
    slide inbuf data lo junk stray rounds depth pe out buf n g :
  work_areas mem_lower mem_upper slide inbuf lo -> gzip_data content size data pe out -> length junk = 288%nat -> pe + 3 <= Z.of_nat rounds ->
  gzip_open b mem_lower mem_upper fsys_table read content size slide inbuf data lo stray pe out g ->
  let pos := read_from (Z.of_nat (length out)) (filepos (g_fs g)) in
  let k := read_count (Z.of_nat (length out)) (filepos (g_fs g)) n in
  output_place mem_lower mem_upper slide inbuf lo buf k ->
  exists g', grub_read b mem_lower mem_upper fsys_table (gunzip_read b mem_lower mem_upper fsys_table slide inbuf junk stray rounds (S depth)) buf n g = Some (k, g') /\
    gzip_open b mem_lower mem_upper fsys_table read content size slide inbuf data lo stray pe out g' /\
    filepos (g_fs g') = pos + k /\
    (forall i, 0 <= i < k -> ld (g_mem g') (buf + i) = nth (Z.to_nat (pos + i)) out 0) /\
    only_output mem_upper slide inbuf lo buf k g g'.
Proof.
  intros A D J Hr O pos k Hb. by apply (gzip_read_ok b mem_lower mem_upper fsys_table read content size slide inbuf data lo junk stray rounds pe out).
Qed.

(** C2. Opening a list of blocks whose bytes are a gzip header with any of its
    optional fields and data in the deflate format opens the file that the
    data denotes: grub_open returns 1, the size is that of the output, and
    grub_read through gunzip_read gives the bytes of the output. Only the work
    areas are written. The blocks lie inside the partition. *)
Theorem grub_open_inflates_blocks b mem_lower mem_upper part_buf parts g disks tables d p t pstart plen drive fsys_table filename
    header_buf ch_buf slide inbuf lo junk stray rounds depth blocks size tl n data pe out gs :
  disk_good b drive g disks -> target_ok mem_lower mem_upper part_buf SECTOR_SIZE -> (4 * length tables < parts)%nat ->
  region (seen g (disks drive)) (total_sectors g) tables d p t pstart plen -> (forall n, d = Hard n -> drive .& 0x80 <> 0) ->
  blocks_ok blocks plen -> match size with Some n => 0 <= n <= MAXINT | None => True end -> name_end tl ->
  let rest := print_blocks blocks ++ print_size size ++ tl in
  named g disks d p drive filename rest (g_fs gs) ->
  text_apart d p filename rest (fun a => part_scratch part_buf a \/ in_fsys a) ->
  file_place mem_lower mem_upper header_buf 10 -> file_place mem_lower mem_upper ch_buf 1 -> ~ (header_buf <= ch_buf < header_buf + 10) ->
  file_size blocks size = Some n ->
  let content := block_byte (part_byte g disks pstart drive) blocks in
  no_decompression (g_gz gs) = false -> gzip_header content n data (Z.of_nat (length out)) -> gzip_data content n data pe out ->
  work_areas mem_lower mem_upper slide inbuf lo -> length junk = 288%nat -> pe + 3 <= Z.of_nat rounds ->
  let gunzip := gunzip_read b mem_lower mem_upper fsys_table slide inbuf junk stray rounds (S depth) in
  exists gs', grub_open b mem_lower mem_upper fsys_table part_buf header_buf ch_buf parts gunzip filename gs = Some (1, gs') /\
    inflates b mem_lower mem_upper fsys_table slide inbuf lo junk stray rounds depth out
      (fun a => open_scratch part_buf header_buf a \/ a = ch_buf) gs gs'.
Proof.
  intros good Hbuf Hp found Hh Hb Hs Ht rest N A Hhb Hch Hap Hn content Hz Gh Gd W J Hr gunzip.
  pose proof (grub_open_list b mem_lower mem_upper part_buf parts g disks tables d p t pstart plen drive good Hbuf Hp found Hh fsys_table filename
    rest header_buf ch_buf gunzip blocks size tl Hb Hs Ht eq_refl gs N A) as H. rewrite Hn in H.
  destruct (H (file_size_range blocks size n Hn)) as (gs1 & -> & [O P _ F] & Eg). rewrite <- Eg in Hz.
  destruct (gunzip_header_ok b mem_lower mem_upper fsys_table _ content n slide inbuf data lo junk stray rounds pe out Gd J gunzip header_buf ch_buf Hhb Hch Hap gs1 O P Hz Gh)
    as (gs' & -> & O' & P' & F').
  exists gs'. split; [done |]. constructor; [done | exact (go_size _ _ _ _ _ _ _ _ _ _ _ _ _ _ _ O') | |].
  - intros a A1 A2 A3. unfold open_scratch in A3. rewrite F' by (done || lia). apply F; [done | done | unfold open_scratch; tauto].
  - intros buf m k Hk.
    pose proof (gzip_read_ok b mem_lower mem_upper fsys_table _ content n slide inbuf data lo junk stray rounds pe out W Gd J Hr depth buf m gs' O') as HR.
    cbn zeta in HR. rewrite P' in HR. assert (read_from (Z.of_nat (length out)) 0 = 0) as E0 by (unfold read_from; rewrite (proj2 (Z.ltb_ge (Z.of_nat (length out)) 0)) by lia; done).
    rewrite E0 in HR. destruct (HR Hk) as (gs2 & E & _ & P2 & B & Fr). by exists gs2.
Qed.

(** ** Witnesses *)

(** A diskette with a compressed file in sector 3: a header with a name, a block
    with the fixed codes, and the size in its last bytes. *)
Definition gz_image : mem :=
  let m := st_bytes ∅ 1536 ([0x1F; 0x8B; 8; 8; 0; 0; 0; 0; 0; 3] ++ bytes "boot" ++ [0] ++ [11; 174; 242; 15; 86; 8; 134; 19; 0]) in
  st_bytes m 2044 [15; 0; 0; 0].
Definition gz_bytes (drive x : Z) : Z := ld gz_image x.
Definition gz_text : list Z := bytes "SzOS SzOS SzOS ".

Lemma gz_bytes_range x : 0 <= gz_bytes 0 x < 256.
Proof.
  assert (map_Forall (fun _ c => 0 <= c < 256) gz_image) as H by (apply (bool_decide_unpack _); vm_compute; exact I).
  unfold gz_bytes, ld. destruct (gz_image !! x) as [c |] eqn:E; [by apply (H x c) | cbn; lia].
Qed.

Lemma gz_good : disk_good floppy_bios 0 floppy gz_bytes.
Proof.
  constructor; [apply floppy_ok | | done | apply gz_bytes_range | done]. constructor; try done.
  - by exists 160.
  - intros s Hs. assert (forallb (fun s => negb (ezd_mark floppy (gz_bytes 0) (s + 1))) (seqZ 0 17) = true) as H by (vm_compute; reflexivity).
    pose proof (forall_range _ _ H (s - 1) ltac:(change (vtrack floppy) with 18 in Hs; lia)) as E. cbn beta in E.
    replace (s - 1 + 1) with s in E by lia. by apply negb_true_iff.
Qed.

Definition gz_content : Z -> Z := block_byte (part_byte floppy gz_bytes 0 0) [(3, 1)].

Lemma gz_content_range x : 0 <= gz_content x < 256.
Proof. apply (seen_range floppy (gz_bytes 0) gz_bytes_range). Qed.

Lemma gz_symbol lens p s n : bool_decide (lens !! s = Some n /\ 0 < n /\ word (bit gz_content 15) (Z.to_nat n) p = code_value lens s n) = true ->
  symbol_at (bit gz_content 15) lens p s n.
Proof. by intros H %bool_decide_eq_true. Qed.

Ltac gz_literal s n := eapply (codes_literal _ _ _ _ _ s n); [apply gz_symbol; vm_compute; reflexivity | lia |].

Lemma gz_denotes : deflate (bit gz_content 15) 0 [] 71 gz_text.
Proof.
  apply deflate_last; [vm_compute; reflexivity |]. apply block_fixed; [vm_compute; reflexivity |].
  gz_literal 83%nat 8. gz_literal 122%nat 8. gz_literal 79%nat 8. gz_literal 83%nat 8. gz_literal 32%nat 8. gz_literal 83%nat 8.
  eapply (codes_copy _ _ _ _ _ 263%nat 7 9 0 4%nat 5 5 1);
    [apply gz_symbol; vm_compute; reflexivity | reflexivity | apply gz_symbol; vm_compute; reflexivity | reflexivity | vm_compute; discriminate |].
  match goal with |- codes _ _ _ ?p ?o _ _ => replace p with 64 by reflexivity; replace o with gz_text by (vm_compute; reflexivity) end.
  change 71 with (64 + 7). apply (codes_end _ _ _ 64 gz_text 7). apply gz_symbol. vm_compute. reflexivity.
Qed.

Lemma gz_data : gzip_data gz_content 512 15 71 gz_text.
Proof. constructor; [apply gz_content_range | lia | lia | apply gz_denotes | vm_compute; discriminate]. Qed.

Lemma gz_header : gzip_header gz_content 512 15 15.
Proof.
  constructor.
  - left. vm_compute. reflexivity.
  - vm_compute. reflexivity.
  - vm_compute. reflexivity.
  - exists 15. split; [| vm_compute; reflexivity]. replace (extra_end gz_content) with 10 by (vm_compute; reflexivity).
    unfold optional_string. replace (gz_content 3 .& ORIG_NAME =? 0) with false by (vm_compute; reflexivity). exists 4. split; [lia |]. split; [lia |]. split; [vm_compute; reflexivity |].
    intros i Hi. assert (i = 0 \/ i = 1 \/ i = 2 \/ i = 3) as [-> | [-> | [-> | ->]]] by lia; vm_compute; discriminate.
  - lia.
  - vm_compute. reflexivity.
Qed.

(** The decoder's memory: the buffer, the window, and the tables above 1.5 MB. *)
Lemma mid_target buf n : 0x1000 <= buf -> 0 <= n -> buf + n <= FSYS_BUF -> target_ok 640 1024 buf n.
Proof.
  unfold FSYS_BUF. intros H1 H2 H3. constructor; [lia | lia | left; lia | lia |].
  intros a Ha. unfold in_buffer, BUFFERADDR, BUFFERLEN. lia.
Qed.

Lemma mid_place buf n : 0x1000 <= buf -> 0 <= n -> buf + n <= FSYS_BUF -> file_place 640 1024 buf n.
Proof. intros H1 H2 H3. split; [by apply mid_target |]. intros a Ha. unfold in_fsys. lia. Qed.

Lemma volatile_low a : volatile 0x30000 a -> 0x30000 <= a < 0x32000 \/ FSYS_BUF <= a < 0x80000.
Proof. unfold volatile, in_buffer, in_fsys, INBUFSIZ, BUFFERADDR, BUFFERLEN, FSYS_BUF. lia. Qed.

Lemma gz_areas : work_areas 640 1024 0x40000 0x30000 0x180000.
Proof.
  assert (heap_end 1024 = 0x200000) as E by reflexivity.
  constructor; rewrite ?E; [by apply mid_place | by apply mid_place | | | unfold heap_room; lia].
  - intros a Ha H %volatile_low. unfold FSYS_BUF in H. lia.
  - intros a Ha. change WSIZE with 0x8000 in Ha. split; [intros H %volatile_low; unfold FSYS_BUF in H; lia | lia].
Qed.

Lemma gz_output buf n : 0x50000 <= buf -> 0 <= n -> buf + n <= FSYS_BUF -> output_place 640 1024 0x40000 0x30000 0x180000 buf n.
Proof.
  intros H1 H2 H3. split; [apply mid_target; lia |]. intros a Ha. change (heap_end 1024) with 0x200000. change WSIZE with 0x8000. unfold FSYS_BUF in H3.
  split; [intros H %volatile_low; unfold FSYS_BUF in H; lia | lia].
Qed.

Definition gz_name : list Z := bytes "(fd0)3+1".
Definition gz_gs : files :=
  Files (set_fmem (st_bytes ∅ 0x10000 gz_name)
    (Fs (DState (World ∅ gz_bytes) ERR_NONE (-1) 0 (Geometry 0 0 0 0 0 0) None) (f_dev diskette_fs) (Iter 0xFFFFFF 0 0 2880 0 0 0) (Io [] [] (-1)) 0 0 MAXINT 0
       false false 0 false 0 None 0 0)) 0 plain_gz.

Definition gz_junk : list Z := replicate 288 0.
Definition gz_gunzip : Z -> Z -> files -> option (Z * files) := gunzip_read floppy_bios 640 1024 one_fsys 0x40000 0x30000 gz_junk (fun _ => 0) 80 1.

Lemma gz_named : named floppy gz_bytes (Floppy 0) Whole 0 0x10000 (bytes "3+1") (g_fs gz_gs).
Proof. apply text_named; [by apply (bool_decide_unpack _); vm_compute | done | done | done | by constructor]. Qed.

Lemma gz_blocks : blocks_ok [(3, 1)] 2880.
Proof. constructor; [by apply (bool_decide_unpack _); vm_compute | done | done | cbn; lia | done]. Qed.

Lemma gz_apart : text_apart (Floppy 0) Whole 0x10000 (bytes "3+1") (fun a => part_scratch 0x20300 a \/ in_fsys a).
Proof.
  intros x Hx. change (Z.of_nat _) with 8 in Hx. unfold part_scratch, in_buffer, in_fsys, BUFFERADDR, BUFFERLEN, FSYS_BUF, SECTOR_SIZE. lia.
Qed.

Lemma grub_open_inflates_blocks_witness :
  exists gs', grub_open floppy_bios 640 1024 one_fsys 0x20300 0x20600 0x20700 1 gz_gunzip 0x10000 gz_gs = Some (1, gs') /\
    inflates floppy_bios 640 1024 one_fsys 0x40000 0x30000 0x180000 gz_junk (fun _ => 0) 80 0 gz_text
      (fun a => open_scratch 0x20300 0x20600 a \/ a = 0x20700) gz_gs gs'.
Proof.
  apply (grub_open_inflates_blocks floppy_bios 640 1024 0x20300 1 floppy gz_bytes [] (Floppy 0) Whole 0 0 2880 0 one_fsys 0x10000 0x20600 0x20700
    0x40000 0x30000 0x180000 gz_junk (fun _ => 0) 80 0 [(3, 1)] None [] 512 15 71 gz_text gz_gs).
  - apply gz_good.
  - by apply mid_target.
  - cbn. lia.
  - apply (region_whole _ 2880).
  - discriminate.
  - apply gz_blocks.
  - exact I.
  - by split.
  - exact gz_named.
  - exact gz_apart.
  - by apply mid_place.
  - by apply mid_place.
  - lia.
  - reflexivity.
  - reflexivity.
  - exact gz_header.
  - exact gz_data.
  - exact gz_areas.
  - reflexivity.
  - lia.
Defined.

Lemma gz_region : region (seen floppy (gz_bytes 0)) (total_sectors floppy) [] (Floppy 0) Whole 0 0 2880.
Proof. apply (region_whole _ 2880). Qed.

Lemma gz_size : 0 <= 512 <= block_total [(3, 1)] * 512.
Proof. vm_compute. split; discriminate. Qed.

Definition gz_reader : FileReader 640 1024 (fun buf len => block_read floppy_bios 640 1024 (Z.to_nat len) buf len 0) gz_content 512 :=
  block_reader (part_byte floppy gz_bytes 0 0) [(3, 1)] 2880 gz_blocks floppy_bios 640 1024 0 0
    (R := named_reader floppy_bios 640 1024 floppy gz_bytes [] (Floppy 0) Whole 0 0 2880 0 gz_good gz_region) 512 gz_size.

Lemma gz_opened : exists g, grub_open floppy_bios 640 1024 one_fsys 0x20300 0x20600 0x20700 1 gz_gunzip 0x10000 gz_gs = Some (1, g) /\
  gzip_open floppy_bios 640 1024 one_fsys _ gz_content 512 (R := gz_reader) 0x40000 0x30000 15 0x180000 (fun _ => 0) 71 gz_text g.
Proof.
  destruct (grub_open_list floppy_bios 640 1024 0x20300 1 floppy gz_bytes [] (Floppy 0) Whole 0 0 2880 0 gz_good ltac:(by apply mid_target) ltac:(cbn; lia)
    gz_region ltac:(discriminate) one_fsys 0x10000 _ 0x20600 0x20700 gz_gunzip [(3, 1)] None [] gz_blocks I ltac:(by split) eq_refl gz_gs gz_named gz_apart gz_size)
    as (g1 & E & [O P _] & Eg).
  destruct (gunzip_header_ok floppy_bios 640 1024 one_fsys _ gz_content 512 (R := gz_reader) 0x40000 0x30000 15 0x180000 gz_junk (fun _ => 0) 80 71 gz_text
    gz_data eq_refl gz_gunzip 0x20600 0x20700 ltac:(by apply mid_place) ltac:(by apply mid_place) ltac:(lia) g1 O P ltac:(by rewrite Eg) gz_header)
    as (g & E' & Og & _).
  exists g. split; [by rewrite E | exact Og].
Qed.

(** Six bytes from the position 9 on. *)
Lemma gunzip_read_streams_witness : exists g g',
  grub_open floppy_bios 640 1024 one_fsys 0x20300 0x20600 0x20700 1 gz_gunzip 0x10000 gz_gs = Some (1, g) /\
  grub_read floppy_bios 640 1024 one_fsys gz_gunzip 0x50000 100 (upd (set_pos 9) g) = Some (6, g') /\ filepos (g_fs g') = 15 /\
  forall i, 0 <= i < 6 -> ld (g_mem g') (0x50000 + i) = nth (Z.to_nat (9 + i)) gz_text 0.
Proof.
  destruct gz_opened as (g & E & O).
  destruct (gunzip_read_streams floppy_bios 640 1024 one_fsys _ gz_content 512 (R := gz_reader) 0x40000 0x30000 15 0x180000 gz_junk (fun _ => 0) 80 0 71 gz_text
    0x50000 100 (upd (set_pos 9) g)) as (g' & E' & _ & P & B & _).
  - exact gz_areas.
  - exact gz_data.
  - reflexivity.
  - lia.
  - apply gzip_open_pos. exact O.
  - by apply gz_output.
  - exists g, g'. split; [exact E |]. split; [exact E' |]. split; [exact P | exact B].
Defined.

(** The code for A to H in RFC 1951, 3.2.2, from tables of 3 and 1 bits. *)
Lemma huft_build_decodes_witness : exists w hp',
  huft_build gz_junk (fun _ => 0) [3; 3; 3; 3; 3; 2; 4; 4] 8 [] [] 3 (Heap ∅ 0x200000 0 0x1000) = Some (0, w, hp') /\
  built_tables [3; 3; 3; 3; 3; 2; 4; 4] 8 [] [] (fun _ => 0) 3 (tables_room 3 4 8) w (Heap ∅ 0x200000 0 0x1000) hp'.
Proof.
  destruct (huft_build_decodes gz_junk (fun _ => 0) [3; 3; 3; 3; 3; 2; 4; 4] 8 [] [] 3 (Heap ∅ 0x200000 0 0x1000) 4) as (r & w & hp' & E & U & _ & B).
  - constructor.
    + by apply (bool_decide_unpack _); vm_compute.
    + vm_compute. discriminate.
    + cbn. lia.
    + lia.
    + by apply (bool_decide_unpack _); vm_compute.
    + left. split; [by apply (bool_decide_unpack _); vm_compute | left; vm_compute; reflexivity].
    + right. by apply (bool_decide_unpack _); vm_compute.
  - reflexivity.
  - by apply (bool_decide_unpack _); vm_compute.
  - vm_compute. split; [discriminate | reflexivity].
  - by exists 0x80000.
  - rewrite U in E; [exists w, hp'; split; [exact E | exact B] |]. split; [by apply (bool_decide_unpack _); vm_compute | left; vm_compute; reflexivity].
Defined.
