(* ===== verification/GrubExt2.v ===== *)
(** * GRUB's ext2 file system

    [src/legacy/SZoS/grub-0.97/stage2/fsys_ext2fs.c] but for the search of
    directories: mounting, and reading a file through the block pointers of its
    inode and their indirect blocks.  The superblock, an inode and two blocks of
    pointers are in the memory at [FSYS_BUF]; two static variables say which. *)

From S2P Require Import Prelude Machine LibcString GrubString GrubTerm GrubReadline GrubBios GrubDisk GrubDevice GrubPart GrubFsys GrubFat GrubFile.

(** ** The code *)

Definition DEV_BSIZE : Z := 512.
Definition BLOCK_SIZE : Z := 1024.
Definition WHICH_SUPER : Z := 1.
Definition SBLOCK : Z := WHICH_SUPER * BLOCK_SIZE / DEV_BSIZE.
Definition EXT2_NDIR_BLOCKS : Z := 12.
Definition EXT2_IND_BLOCK : Z := EXT2_NDIR_BLOCKS.
Definition EXT2_DIND_BLOCK : Z := EXT2_IND_BLOCK + 1.
Definition EXT2_TIND_BLOCK : Z := EXT2_DIND_BLOCK + 1.
Definition EXT2_SUPER_MAGIC : Z := 0xEF53.
Definition PC_SLICE_TYPE_EXT2FS : Z := 0x83.
Definition PC_SLICE_TYPE_LINUX_RAID : Z := 0xfd.
Definition FS_OTHER : Z := 10.
Definition FS_EXT2FS : Z := 17.

(** The sizes of the structures. *)
Definition super_size : Z := 1024.
Definition inode_size : Z := 128.

(** [struct ext2_super_block] *)
Definition SUPERBLOCK : Z := FSYS_BUF.
Definition s_first_data_block (m : mem) : Z := ld32 m (SUPERBLOCK + 20).
Definition s_log_block_size (m : mem) : Z := ld32 m (SUPERBLOCK + 24).
Definition s_inodes_per_group (m : mem) : Z := ld32 m (SUPERBLOCK + 40).
Definition s_magic (m : mem) : Z := ld16 m (SUPERBLOCK + 56).

Definition EXT2_BLOCK_SIZE_BITS (m : mem) : Z := u32 (s_log_block_size m + 10).
Definition EXT2_BLOCK_SIZE (m : mem) : Z := 1 .<< EXT2_BLOCK_SIZE_BITS m.
Definition EXT2_ADDR_PER_BLOCK (m : mem) : Z := EXT2_BLOCK_SIZE m / 4.
Definition EXT2_ADDR_PER_BLOCK_BITS (m : mem) : Z := log2 (EXT2_ADDR_PER_BLOCK m).

(** Where the group descriptors, the inode and the two blocks are. *)
Definition GROUP_DESC : Z := SUPERBLOCK + super_size.
Definition INODE (m : mem) : Z := GROUP_DESC + EXT2_BLOCK_SIZE m.
Definition DATABLOCK1 (m : mem) : Z := INODE m + inode_size.
Definition DATABLOCK2 (m : mem) : Z := DATABLOCK1 m + EXT2_BLOCK_SIZE m.

(** [struct ext2_inode] *)
Definition i_mode (m : mem) : Z := ld16 m (INODE m).
Definition i_size (m : mem) : Z := ld32 m (INODE m + 4).
Definition i_blocks (m : mem) : Z := ld32 m (INODE m + 28).
Definition i_block (m : mem) (n : Z) : Z := ld32 m (INODE m + 40 + 4 * n).
Definition i_file_acl (m : mem) : Z := ld32 m (INODE m + 104).

Section Ext2.
Variables (b : bios) (mem_lower mem_upper : Z).

Abbreviation devread := (fs_devread b mem_lower mem_upper).

Definition ext2fs_mount (s : fs) : option (Z * fs) :=
  let t := type (f_part s) in
  if ((negb (current_drive (f_dev s) .& 0x80 =? 0) || negb (t =? 0)) && negb (t =? PC_SLICE_TYPE_EXT2FS) && negb (t =? PC_SLICE_TYPE_LINUX_RAID)
      && negb (IS_PC_SLICE_TYPE_BSD_WITH_FS t FS_EXT2FS) && negb (IS_PC_SLICE_TYPE_BSD_WITH_FS t FS_OTHER))
     || (u32 (len (f_part s)) <? SBLOCK + super_size / DEV_BSIZE)
  then Some (0, s)
  else
    '(ok, s) ← devread SBLOCK 0 super_size SUPERBLOCK s;
    Some (if (ok =? 0) || negb (s_magic (f_mem s) =? EXT2_SUPER_MAGIC) then 0 else 1, s).

Definition ext2_rdfsb (fsblock buffer : Z) (s : fs) : option (Z * fs) :=
  let m := f_mem s in
  devread (s32 (fsblock * Z.quot (EXT2_BLOCK_SIZE m) DEV_BSIZE)) 0 (EXT2_BLOCK_SIZE m) buffer s.

(** [if (!ext2_rdfsb (...)) { errnum = ERR_FSYS_CORRUPT; return -1; }] unless the
    block is there; then [k]. *)
Definition with_block (there : bool) (fsblock buffer : Z) (s : fs) (k : fs -> option (Z * fs)) : option (Z * fs) :=
  '(ok, s) ← (if there then Some (1, s) else ext2_rdfsb (s32 fsblock) buffer s);
  if ok =? 0 then Some (-1, set_ferr ERR_FSYS_CORRUPT s) else k s.

Definition ext2fs_block_map (logical_block : Z) (s : fs) : option (Z * fs) :=
  let ptrs := EXT2_ADDR_PER_BLOCK (f_mem s) in
  let bits := EXT2_ADDR_PER_BLOCK_BITS (f_mem s) in
  let data1 s i := ld32 (f_mem s) (DATABLOCK1 (f_mem s) + 4 * i) in
  let data2 s i := ld32 (f_mem s) (DATABLOCK2 (f_mem s) + 4 * i) in
  if logical_block <? EXT2_NDIR_BLOCKS then Some (s32 (i_block (f_mem s) logical_block), s)
  else
    let n := logical_block - EXT2_NDIR_BLOCKS in
    if n <? ptrs then
      with_block (mapblock1 s =? 1) (i_block (f_mem s) EXT2_IND_BLOCK) (DATABLOCK1 (f_mem s)) s (fun s =>
        let s := set_maps 1 (mapblock2 s) s in
        Some (s32 (data1 s n), s))
    else
      let n := n - ptrs in
      if n <? 1 .<< (bits * 2) then
        with_block (mapblock1 s =? 2) (i_block (f_mem s) EXT2_DIND_BLOCK) (DATABLOCK1 (f_mem s)) s (fun s =>
          let s := set_maps 2 (mapblock2 s) s in
          let bnum := s32 (data1 s (n .>> bits)) in
          with_block (bnum =? mapblock2 s) bnum (DATABLOCK2 (f_mem s)) s (fun s =>
            let s := set_maps 2 bnum s in
            Some (s32 (data2 s (n .& (ptrs - 1))), s)))
      else
        let s := set_maps (mapblock1 s) (-1) s in
        let n := n - (1 .<< (bits * 2)) in
        with_block (mapblock1 s =? 3) (i_block (f_mem s) EXT2_TIND_BLOCK) (DATABLOCK1 (f_mem s)) s (fun s =>
          let s := set_maps 3 (mapblock2 s) s in
          with_block false (data1 s (n .>> (bits * 2))) (DATABLOCK2 (f_mem s)) s (fun s =>
            with_block false (data2 s ((n .>> bits) .& (ptrs - 1))) (DATABLOCK2 (f_mem s)) s (fun s =>
              Some (s32 (data2 s (n .& (ptrs - 1))), s)))).

Definition fs_memset (start c len : Z) (s : fs) : fs :=
  let '(_, (e, m)) := grub_memset mem_lower mem_upper start c len (f_err s, f_mem s) in set_ferr e (set_fmem m s).

(** [while (len > 0)]: a turn takes at least one byte. *)
Fixpoint ext2_read_loop (fuel : nat) (buf len ret : Z) (s : fs) : option (Z * fs) :=
  let finish s := Some (if decide (f_err s = ERR_NONE) then ret else 0, s) in
  if negb (0 <? len) then finish s
  else
    match fuel with
    | O => None
    | S f =>
        let logical_block := filepos s .>> EXT2_BLOCK_SIZE_BITS (f_mem s) in
        let offset := filepos s .& (EXT2_BLOCK_SIZE (f_mem s) - 1) in
        '(map, s) ← ext2fs_block_map logical_block s;
        if map <? 0 then finish s
        else
          let size := EXT2_BLOCK_SIZE (f_mem s) - offset in
          let size := if len <? size then len else size in
          s ← (if map =? 0 then Some (fs_memset buf 0 size s)
               else '(_, s) ← hooked_devread b mem_lower mem_upper (s32 (map * Z.quot (EXT2_BLOCK_SIZE (f_mem s)) DEV_BSIZE)) offset size buf s; Some s);
          ext2_read_loop f (buf + size) (len - size) (ret + size) (set_pos (filepos s + size) s)
    end.

Definition ext2fs_read (buf len : Z) (s : fs) : option (Z * fs) := ext2_read_loop (Z.to_nat len) buf len 0 s.
End Ext2.

(** ** Specifications *)

(** A volume: the size of its blocks in bits, the block before the descriptors of
    the groups, and the inodes of a group. *)
Record ext2 := Ext2 { x_bits : Z; x_first : Z; x_group : Z }.

Section Volume.
Variable byte : Z -> Z.
Variable x : ext2.

Definition block_size : Z := 2 ^ x_bits x.
Definition block_ptrs : Z := block_size / 4.

(** Pointer [i] of the block [k]. *)
Definition pointer (k i : Z) : Z := byte32 byte (k * block_size + 4 * i).

(** The inode whose place is [ip]: its pointers, block [n] of its file, and the
    blocks of pointers that lead there. *)
Section Inode.
Variable ip : Z.

Definition inode_pointer (n : Z) : Z := byte32 byte (ip + 40 + 4 * n).
Definition inode_bytes : Z := byte32 byte (ip + 4).

Definition file_block (n : Z) : Z :=
  if n <? 12 then inode_pointer n
  else let n := n - 12 in
  if n <? block_ptrs then pointer (inode_pointer 12) n
  else let n := n - block_ptrs in
  if n <? block_ptrs ^ 2 then pointer (pointer (inode_pointer 13) (n / block_ptrs)) (n mod block_ptrs)
  else let n := n - block_ptrs ^ 2 in
  pointer (pointer (pointer (inode_pointer 14) (n / block_ptrs ^ 2)) (n / block_ptrs mod block_ptrs)) (n mod block_ptrs).

Definition indirect_blocks (n : Z) : list Z :=
  if n <? 12 then []
  else let n := n - 12 in
  if n <? block_ptrs then [inode_pointer 12]
  else let n := n - block_ptrs in
  if n <? block_ptrs ^ 2 then [inode_pointer 13; pointer (inode_pointer 13) (n / block_ptrs)]
  else let n := n - block_ptrs ^ 2 in
  let k := pointer (inode_pointer 14) (n / block_ptrs ^ 2) in
  [inode_pointer 14; k; pointer k (n / block_ptrs mod block_ptrs)].

(** The bytes of the file; block 0 stands for one that is not stored. *)
Definition file_byte (p : Z) : Z :=
  let k := file_block (p / block_size) in
  if k =? 0 then 0 else byte (k * block_size + p mod block_size).
End Inode.

(** A block of a partition of [length] sectors. *)
Definition block_inside (length k : Z) : Prop := 0 <= k /\ (k + 1) * block_size <= length * 512.

(** The first [size] bytes of the file are in the partition, and the blocks of
    pointers to them are stored. *)
Definition file_inside (length ip size : Z) : Prop :=
  forall n, 0 <= n -> n * block_size < size ->
    block_inside length (file_block ip n) /\ Forall (fun k => 0 < k /\ block_inside length k) (indirect_blocks ip n).

(** The superblock in memory. *)
Definition super_in (m : mem) : Prop :=
  s_log_block_size m = x_bits x - 10 /\ s_first_data_block m = x_first x /\ s_inodes_per_group m = x_group x.

(** A partition of this type is tried, if it can hold a superblock. *)
Definition ext2_tried (drive t length : Z) : bool :=
  ((drive .& 0x80 =? 0) && (t =? 0) || (t =? PC_SLICE_TYPE_EXT2FS) || (t =? PC_SLICE_TYPE_LINUX_RAID)
   || IS_PC_SLICE_TYPE_BSD_WITH_FS t FS_EXT2FS || IS_PC_SLICE_TYPE_BSD_WITH_FS t FS_OTHER) && (4 <=? length).

Record ext2_ok (length : Z) : Prop := {
  xo_bits : 10 <= x_bits x <= 12;
  xo_first : 0 <= x_first x < 4194304;
  xo_group : 0 < x_group x < 4294967296;
  xo_whole : (block_size / inode_size | x_group x);
  xo_length : length < 4194296 }.
End Volume.

(** The volume that a superblock describes. *)
Definition volume_at (byte : Z -> Z) : ext2 := Ext2 (byte32 byte 1048 + 10) (byte32 byte 1044) (byte32 byte 1064).
Definition super_magic (byte : Z -> Z) : Z := byte16 byte 1080.

(** ** Proofs *)

Lemma ld16_frame m m' a : (forall x, a <= x < a + 2 -> ld m' x = ld m x) -> ld16 m' a = ld16 m a.
Proof. intros H. unfold ld16. rewrite !H by lia. done. Qed.

Lemma byte32_bytes byte a m p : (forall i, 0 <= i < 4 -> ld m (a + i) = byte (p + i)) -> ld32 m a = byte32 byte p.
Proof.
  intros H. rewrite <- (Z.add_0_r a), ld32_at, !Z.add_0_l, !H by lia. rewrite Z.add_0_r. unfold byte32, byte16.
  replace (p + 2 + 1) with (p + 3) by lia. done.
Qed.

Lemma super_in_frame x m m' : (forall a, FSYS_BUF <= a < FSYS_BUF + super_size -> ld m' a = ld m a) -> super_in x m -> super_in x m'.
Proof.
  unfold super_in, s_log_block_size, s_first_data_block, s_inodes_per_group, SUPERBLOCK, super_size. intros F H.
  rewrite !(ld32_frame m m') by (intros a Ha; apply F; lia). done.
Qed.

(** A byte after [p] in the same block. *)
Lemma div_mod_block p y k q r : p = k * q + r -> 0 <= r -> 0 <= y -> r + y < k -> (p + y) / k = q /\ (p + y) mod k = r + y.
Proof.
  intros -> Hr Hy Hk. split; [symmetry; apply (Z.div_unique _ _ _ (r + y)) | symmetry; apply (Z.mod_unique _ _ q)]; lia.
Qed.

(** *** Mounting *)

Section Mounting.
Context (b : bios) (mem_lower mem_upper drive part_start part_length : Z) (byte : Z -> Z)
        {R : PartReader b mem_lower mem_upper drive part_start part_length byte}.
Hypothesis lower_memory : 512 <= mem_lower <= 1024.
Hypothesis upper_memory : 0 <= mem_upper < 4194304.
Hypothesis length_ok : 0 <= part_length < 4194296.

Abbreviation opened := (opened b mem_lower mem_upper drive part_start part_length byte).

Lemma ext2fs_mount_ok s : opened s ->
  if ext2_tried drive (type (f_part s)) part_length
  then exists d, ext2fs_mount b mem_lower mem_upper s = Some (if super_magic byte =? EXT2_SUPER_MAGIC then 1 else 0, set_fdisk d s) /\
         opened (set_fdisk d s) /\ super_in (volume_at byte) (d_mem d) /\
         (forall a, ~ in_buffer a -> ~ (FSYS_BUF <= a < FSYS_BUF + super_size) -> ld (d_mem d) a = ld (f_mem s) a)
  else ext2fs_mount b mem_lower mem_upper s = Some (0, s).
Proof.
  intros O. pose proof O as [G D S L]. unfold ext2fs_mount, ext2_tried. rewrite D, L, u32_small by lia. change (SBLOCK + super_size / DEV_BSIZE) with 4.
  set (t := type (f_part s)).
  replace ((_ && _ && _ && _ && _) || (part_length <? 4)) with (negb (((drive .& 128 =? 0) && (t =? 0) || (t =? PC_SLICE_TYPE_EXT2FS)
    || (t =? PC_SLICE_TYPE_LINUX_RAID) || IS_PC_SLICE_TYPE_BSD_WITH_FS t FS_EXT2FS || IS_PC_SLICE_TYPE_BSD_WITH_FS t FS_OTHER) && (4 <=? part_length))).
  2: { rewrite (Z.leb_antisym part_length 4), negb_andb, !negb_orb, negb_andb, negb_involutive. done. }
  destruct (Z.leb_spec 4 part_length) as [Hlen | Hlen]; [rewrite !andb_true_r | by rewrite !andb_false_r].
  destruct (_ || _ || _ || _ || _); [| done]. cbn [negb].
  destruct (fs_devread_ok b mem_lower mem_upper drive part_start part_length byte s SBLOCK 0 super_size SUPERBLOCK O) as (d & -> & O' & B & F); try done; change SBLOCK with 2; change super_size with 1024; try lia.
  { constructor; try done; [left; unfold SUPERBLOCK, FSYS_BUF; lia |]. intros a Ha. unfold SUPERBLOCK, super_size, FSYS_BUF, in_buffer, BUFFERADDR, BUFFERLEN in *. lia. }
  cbn [mbind option_bind]. change (1 =? 0) with false. cbn [orb]. exists d. change (SBLOCK * 512 + 0) with 1024 in B.
  assert (forall o n, 0 <= o -> o + n <= super_size -> forall i, 0 <= i < n -> ld (d_mem d) (SUPERBLOCK + o + i) = byte (1024 + o + i)) as W.
  { intros o n H1 H2 i Hi. rewrite <- !Z.add_assoc. apply B. lia. }
  assert (s_magic (f_mem (set_fdisk d s)) = super_magic byte) as ->.
  { unfold s_magic, super_magic, ld16, byte16. pose proof (W 56 2 ltac:(lia) ltac:(unfold super_size; lia) 0 ltac:(lia)) as W0. rewrite !Z.add_0_r in W0.
    change (f_mem (set_fdisk d s)) with (d_mem d). rewrite W0, (W 56 2 ltac:(lia) ltac:(unfold super_size; lia) 1) by lia. done. }
  split; [by destruct (_ =? _) |]. split; [done |]. split; [| exact F].
  unfold super_in, volume_at, s_log_block_size, s_first_data_block, s_inodes_per_group. cbn [x_bits x_first x_group].
  rewrite (byte32_bytes byte _ _ 1048) by (apply (W 24 4); unfold super_size; lia). rewrite (byte32_bytes byte _ _ 1044) by (apply (W 20 4); unfold super_size; lia).
  rewrite (byte32_bytes byte _ _ 1064) by (apply (W 40 4); unfold super_size; lia). split; [lia | done].
Qed.
End Mounting.

Section Reading.
Context (b : bios) (mem_lower mem_upper drive part_start part_length : Z) (byte : Z -> Z)
        {R : PartReader b mem_lower mem_upper drive part_start part_length byte}.
Variable x : ext2.
Hypothesis bytes_ok : forall p, 0 <= byte p < 256.
Hypothesis vol : ext2_ok x part_length.
Hypothesis lower_memory : 512 <= mem_lower <= 1024.
Hypothesis upper_memory : 0 <= mem_upper < 4194304.

Abbreviation opened := (opened b mem_lower mem_upper drive part_start part_length byte).
Abbreviation bs := (block_size x).
Abbreviation np := (block_ptrs x).
Abbreviation block_inside := (block_inside x part_length).
Abbreviation pointer := (pointer byte x).

Lemma sizes : (x_bits x = 10 /\ bs = 1024 /\ np = 256) \/ (x_bits x = 11 /\ bs = 2048 /\ np = 512) \/ (x_bits x = 12 /\ bs = 4096 /\ np = 1024).
Proof.
  pose proof (xo_bits _ _ vol). unfold block_ptrs, block_size.
  assert (x_bits x = 10 \/ x_bits x = 11 \/ x_bits x = 12) as [-> | [-> | ->]] by lia; auto.
Qed.

(** Where the structures are. *)
Definition inode_buf : Z := FSYS_BUF + 1024 + bs.
Definition data1_buf : Z := inode_buf + 128.
Definition data2_buf : Z := data1_buf + bs.

Lemma super_sizes m : super_in x m ->
  EXT2_BLOCK_SIZE_BITS m = x_bits x /\ EXT2_BLOCK_SIZE m = bs /\ EXT2_ADDR_PER_BLOCK m = np /\ EXT2_ADDR_PER_BLOCK_BITS m = x_bits x - 2 /\
  INODE m = inode_buf /\ DATABLOCK1 m = data1_buf /\ DATABLOCK2 m = data2_buf.
Proof.
  intros (E & _ & _). assert (EXT2_BLOCK_SIZE_BITS m = x_bits x) as E1.
  { unfold EXT2_BLOCK_SIZE_BITS. rewrite E. destruct sizes as [(-> & _) | [(-> & _) | (-> & _)]]; done. }
  assert (EXT2_BLOCK_SIZE m = bs) as E2 by (unfold EXT2_BLOCK_SIZE; rewrite E1; destruct sizes as [(-> & -> & _) | [(-> & -> & _) | (-> & -> & _)]]; done).
  unfold EXT2_ADDR_PER_BLOCK_BITS, EXT2_ADDR_PER_BLOCK, DATABLOCK2, DATABLOCK1, INODE. rewrite E1, E2.
  split_and!; try done. fold np. destruct sizes as [(-> & _ & ->) | [(-> & _ & ->) | (-> & _ & ->)]]; done.
Qed.

Lemma fsys_target buf n : FSYS_BUF <= buf -> 0 <= n -> buf + n <= FSYS_BUF + 0x8000 -> target_ok mem_lower mem_upper buf n.
Proof.
  unfold FSYS_BUF. intros H1 H2 H3. constructor; try done; [left; lia | lia |]. intros a Ha. unfold in_buffer, BUFFERADDR, BUFFERLEN. lia.
Qed.

Record core (s : fs) : Prop := { co_opened : opened s; co_super : super_in x (f_mem s) }.

Definition loaded (k buf : Z) (m : mem) : Prop := forall i, 0 <= i < bs -> ld m (buf + i) = byte (k * bs + i).

Lemma loaded_word k buf m i : loaded k buf m -> 0 <= i < np -> ld32 m (buf + 4 * i) = pointer k i.
Proof.
  intros L Hi. apply byte32_bytes. intros j Hj. rewrite <- !Z.add_assoc. apply L. destruct sizes as [(_ & ? & ?) | [(_ & ? & ?) | (_ & ? & ?)]]; lia.
Qed.

Lemma loaded_frame k buf m m' : loaded k buf m -> (forall a, buf <= a < buf + bs -> ld m' a = ld m a) -> loaded k buf m'.
Proof. intros L F i Hi. rewrite F by lia. by apply L. Qed.

Lemma inside_range k : block_inside k -> 0 <= k < 2097152 /\ k * bs + bs <= part_length * 512 /\ 0 <= k * (bs / 512) < 4194296.
Proof.
  intros [H1 H2]. pose proof (xo_length _ _ vol). destruct sizes as [(_ & E & _) | [(_ & E & _) | (_ & E & _)]]; rewrite E in *; split_and!; try lia.
  all: [> change (1024 / 512) with 2 | change (1024 / 512) with 2 | change (2048 / 512) with 4 | change (2048 / 512) with 4 | change (4096 / 512) with 8 | change (4096 / 512) with 8]; lia.
Qed.

Lemma block_sectors k : Z.quot bs DEV_BSIZE = bs / 512 /\ k * (bs / 512) * 512 = k * bs.
Proof. unfold DEV_BSIZE. destruct sizes as [(_ & -> & _) | [(_ & -> & _) | (_ & -> & _)]]; (split; [done |]); rewrite <- Z.mul_assoc; done. Qed.

Lemma ext2_rdfsb_ok k buf s : core s -> block_inside k -> FSYS_BUF + super_size <= buf -> buf + bs <= FSYS_BUF + 0x8000 ->
  exists d, ext2_rdfsb b mem_lower mem_upper k buf s = Some (1, set_fdisk d s) /\ core (set_fdisk d s) /\ loaded k buf (d_mem d) /\
    (forall a, ~ in_buffer a -> ~ (buf <= a < buf + bs) -> ld (d_mem d) a = ld (f_mem s) a).
Proof.
  intros [O S] Hk H1 H2. destruct (super_sizes _ S) as (_ & E & _). unfold ext2_rdfsb. rewrite E. unfold super_size in H1.
  destruct (inside_range k Hk) as (K1 & K2 & K3). destruct (block_sectors k) as [-> Em]. rewrite s32_small by lia.
  assert (1024 <= bs <= 4096) as Hbs by (destruct sizes as [(_ & ? & _) | [(_ & ? & _) | (_ & ? & _)]]; lia).
  destruct (fs_devread_ok b mem_lower mem_upper drive part_start part_length byte s (k * (bs / 512)) 0 bs buf O) as (d & -> & O' & B & F);
    try lia; [apply fsys_target; lia |].
  exists d. split; [done |]. split; [| split; [| done]].
  - constructor; [done |]. eapply super_in_frame; [| exact S]. intros a Ha. unfold super_size in Ha. apply F; [| lia].
    unfold in_buffer, BUFFERADDR, BUFFERLEN, FSYS_BUF in *. lia.
  - intros i Hi. rewrite B by done. f_equal. lia.
Qed.

(** A block of pointers, unless it is there. *)
Lemma with_block_ok there k buf s K : core s -> (there = true -> loaded k buf (f_mem s)) -> block_inside k ->
  FSYS_BUF + super_size <= buf -> buf + bs <= FSYS_BUF + 0x8000 ->
  exists d, with_block b mem_lower mem_upper there k buf s K = K (set_fdisk d s) /\ core (set_fdisk d s) /\ loaded k buf (d_mem d) /\
    (forall a, ~ in_buffer a -> ~ (buf <= a < buf + bs) -> ld (d_mem d) a = ld (f_mem s) a).
Proof.
  intros C Ht Hk H1 H2. unfold with_block. destruct there.
  - exists (f_disk s). replace (set_fdisk (f_disk s) s) with s by (by destruct s). split; [done |]. split; [done |]. split; [by apply Ht | done].
  - destruct (inside_range k Hk) as (K1 & _ & _). rewrite s32_small by lia. destruct (ext2_rdfsb_ok k buf s C Hk H1 H2) as (d & -> & H).
    exists d. split; [done | exact H].
Qed.

(** *** The blocks of a file *)

Section File.
Variable ip : Z.

Abbreviation inode_pointer := (inode_pointer byte ip).

(** The inode is in memory, and the blocks of pointers are those that the static
    variables say. *)
Record ext2_open (s : fs) : Prop := {
  eo_core : core s;
  eo_inode : forall i, 0 <= i < inode_size -> ld (f_mem s) (inode_buf + i) = byte (ip + i);
  eo_map1 : forall n, 1 <= n <= 3 -> mapblock1 s = n -> loaded (inode_pointer (11 + n)) data1_buf (f_mem s);
  eo_map2 : 0 <= mapblock2 s -> loaded (mapblock2 s) data2_buf (f_mem s) }.

Definition same_file (s s' : fs) : Prop := exists d h u w, s' = set_hook h (set_maps u w (set_fdisk d s)).
Definition in_data (a : Z) : Prop := data1_buf <= a < data2_buf + bs.

Lemma same_file_trans s1 s2 s3 : same_file s1 s2 -> same_file s2 s3 -> same_file s1 s3.
Proof. intros (d & h & u & w & ->) (d' & h' & u' & w' & ->). by exists d', h', u', w'. Qed.

Lemma inode_word s n : ext2_open s -> 0 <= n < 15 -> i_block (f_mem s) n = inode_pointer n.
Proof.
  intros O Hn. destruct (super_sizes _ (co_super _ (eo_core _ O))) as (_ & _ & _ & _ & E & _). unfold i_block. rewrite E.
  apply byte32_bytes. intros j Hj. rewrite <- !Z.add_assoc. apply O. unfold inode_size. lia.
Qed.

Lemma bufs : FSYS_BUF + 1024 <= inode_buf /\ data1_buf = inode_buf + 128 /\ data2_buf = data1_buf + bs /\ data2_buf + bs < FSYS_BUF + 0x8000 /\
  1024 <= bs <= 4096.
Proof.
  unfold data2_buf, data1_buf, inode_buf. destruct sizes as [(_ & ? & _) | [(_ & ? & _) | (_ & ? & _)]]; split_and!; lia.
Qed.

Lemma not_buffer a : FSYS_BUF <= a < FSYS_BUF + 0x8000 -> ~ in_buffer a.
Proof. unfold in_buffer, BUFFERADDR, BUFFERLEN, FSYS_BUF. lia. Qed.

(** The inode and what is known of the blocks after a change of a block. *)
Lemma ext2_open_after s d n k : ext2_open s -> core (set_fdisk d s) ->
  (forall a, ~ in_buffer a -> ~ in_data a -> ld (d_mem d) a = ld (f_mem s) a) ->
  (1 <= n <= 3 -> loaded (inode_pointer (11 + n)) data1_buf (d_mem d)) -> (0 <= k -> loaded k data2_buf (d_mem d)) ->
  ext2_open (set_maps n k (set_fdisk d s)).
Proof.
  intros O C F H1 H2. destruct bufs as (B1 & B2 & B3 & B4 & B5). constructor.
  - destruct C as [[O1 O2 O3 O4] S]. constructor; [by constructor | exact S].
  - intros i Hi. change (f_mem _) with (d_mem d). rewrite F; [by apply O | apply not_buffer; unfold inode_size in *; lia | unfold in_data, inode_size in *; lia].
  - intros n' Hn <-. by apply H1.
  - exact H2.
Qed.

(** The block of pointers that pointer [11 + n] of the inode leads to. *)
Lemma first_block n s K : ext2_open s -> 1 <= n <= 3 -> block_inside (inode_pointer (11 + n)) ->
  exists d, with_block b mem_lower mem_upper (mapblock1 s =? n) (i_block (f_mem s) (11 + n)) (DATABLOCK1 (f_mem s)) s K = K (set_fdisk d s) /\
    loaded (inode_pointer (11 + n)) data1_buf (d_mem d) /\
    (forall a, ~ in_buffer a -> ~ (data1_buf <= a < data1_buf + bs) -> ld (d_mem d) a = ld (f_mem s) a) /\
    ext2_open (set_maps n (mapblock2 s) (set_fdisk d s)).
Proof.
  intros O Hn Hk. destruct bufs as (B1 & B2 & B3 & B4 & B5). destruct (super_sizes _ (co_super _ (eo_core _ O))) as (_ & _ & _ & _ & _ & -> & _).
  rewrite inode_word by (done || lia).
  destruct (with_block_ok (mapblock1 s =? n) (inode_pointer (11 + n)) data1_buf s K) as (d & E & C & L & F); try done.
  - apply O.
  - intros Ht. apply (eo_map1 _ O); [done | by apply Z.eqb_eq].
  - unfold super_size. lia.
  - lia.
  - exists d. split; [done |]. split; [done |]. split; [done |]. apply ext2_open_after; try done.
    + intros a H1 H2. apply F; [done | unfold in_data in H2; lia].
    + intros Hm. eapply loaded_frame; [by apply O |]. intros a Ha. apply F; [apply not_buffer; lia | lia].
Qed.

(** Another block of pointers. *)
Lemma second_block there k s K : ext2_open s -> (there = true -> k = mapblock2 s) -> block_inside k ->
  exists d, with_block b mem_lower mem_upper there k (DATABLOCK2 (f_mem s)) s K = K (set_fdisk d s) /\
    loaded k data2_buf (d_mem d) /\
    (forall a, ~ in_buffer a -> ~ (data2_buf <= a < data2_buf + bs) -> ld (d_mem d) a = ld (f_mem s) a) /\
    ext2_open (set_maps (mapblock1 s) k (set_fdisk d s)).
Proof.
  intros O Ht Hk. destruct bufs as (B1 & B2 & B3 & B4 & B5). destruct (super_sizes _ (co_super _ (eo_core _ O))) as (_ & _ & _ & _ & _ & _ & ->).
  destruct (with_block_ok there k data2_buf s K) as (d & E & C & L & F); try done.
  - apply O.
  - intros H. specialize (Ht H). subst k. apply (eo_map2 _ O). apply Hk.
  - unfold super_size. lia.
  - lia.
  - exists d. split; [done |]. split; [done |]. split; [done |]. apply ext2_open_after; try done.
    + intros a H1 H2. apply F; [done | unfold in_data in H2; lia].
    + intros Hm. eapply loaded_frame; [by apply O |]. intros a Ha. apply F; [apply not_buffer; lia | lia].
Qed.

Lemma ptr_ops n : 0 <= n ->
  n .>> (x_bits x - 2) = n / np /\ n .& (np - 1) = n mod np /\ n .>> ((x_bits x - 2) * 2) = n / np ^ 2 /\ 1 .<< ((x_bits x - 2) * 2) = np ^ 2 /\ 0 <= n mod np < np.
Proof.
  intros Hn. assert (np = 2 ^ (x_bits x - 2) /\ 8 <= x_bits x - 2) as [E Hb] by (destruct sizes as [(-> & _ & ->) | [(-> & _ & ->) | (-> & _ & ->)]]; done || lia).
  rewrite E. set (k := x_bits x - 2) in *. assert (0 < 2 ^ k) by (apply Z.pow_pos_nonneg; lia).
  split_and!; [by apply Z.shiftr_div_pow2; lia | | | | apply Z.mod_pos_bound; lia | apply Z.mod_pos_bound; lia].
  - rewrite Z.sub_1_r, <- Z.ones_equiv. apply Z.land_ones. lia.
  - rewrite Z.shiftr_div_pow2 by lia. by rewrite Z.pow_mul_r by lia.
  - rewrite Z.shiftl_1_l. by rewrite Z.pow_mul_r by lia.
Qed.

Lemma data_words s : core s -> (forall i, ld32 (f_mem s) (DATABLOCK1 (f_mem s) + 4 * i) = ld32 (f_mem s) (data1_buf + 4 * i)) /\
  (forall i, ld32 (f_mem s) (DATABLOCK2 (f_mem s) + 4 * i) = ld32 (f_mem s) (data2_buf + 4 * i)).
Proof. intros [_ S]. destruct (super_sizes _ S) as (_ & _ & _ & _ & _ & -> & ->). done. Qed.

Lemma s32_inside k : block_inside k -> s32 k = k.
Proof. intros H. destruct (inside_range k H) as (K & _). apply s32_small. lia. Qed.

Record mapped (s s' : fs) : Prop := {
  mp_same : exists d u w, s' = set_maps u w (set_fdisk d s);
  mp_open : ext2_open s';
  mp_frame : forall a, ~ in_buffer a -> ~ in_data a -> ld (f_mem s') a = ld (f_mem s) a }.

Lemma mapped_single n s : ext2_open s -> let m := n - 12 in 12 <= n -> m < np -> block_inside (inode_pointer 12) -> block_inside (pointer (inode_pointer 12) m) ->
  exists s', ext2fs_block_map b mem_lower mem_upper n s = Some (pointer (inode_pointer 12) m, s') /\ mapped s s'.
Proof.
  intros O m H1 H2 Hk Hp. unfold ext2fs_block_map. destruct (super_sizes _ (co_super _ (eo_core _ O))) as (_ & _ & -> & -> & _).
  rewrite (proj2 (Z.ltb_ge n EXT2_NDIR_BLOCKS)) by done. unfold EXT2_NDIR_BLOCKS. fold m. rewrite (proj2 (Z.ltb_lt m np)) by done.
  match goal with |- context [with_block _ _ _ _ _ _ _ ?K] => destruct (first_block 1 s K O ltac:(lia) Hk) as (d & E & L & F & O') end.
  change EXT2_IND_BLOCK with (11 + 1). rewrite E. clear E. cbn beta zeta. set (s' := set_maps 1 _ _) in *. exists s'. split.
  - destruct (data_words s' (eo_core _ O')) as [-> _]. rewrite (loaded_word (inode_pointer 12) data1_buf) by (done || lia). by rewrite s32_inside.
  - constructor; [by exists d, 1, (mapblock2 s) | done |]. intros a A1 A2. apply F; [done |]. destruct bufs. unfold in_data in A2. lia.
Qed.

Lemma mapped_double n s : ext2_open s -> let m := n - 12 - np in 12 + np <= n -> m < np ^ 2 -> let k := pointer (inode_pointer 13) (m / np) in
  block_inside (inode_pointer 13) -> block_inside k -> block_inside (pointer k (m mod np)) ->
  exists s', ext2fs_block_map b mem_lower mem_upper n s = Some (pointer k (m mod np), s') /\ mapped s s'.
Proof.
  intros O m H1 H2 k Hi Hk Hp. assert (0 < np) as Hnp by (destruct sizes as [(_ & _ & ->) | [(_ & _ & ->) | (_ & _ & ->)]]; lia).
  destruct (ptr_ops m ltac:(lia)) as (Q1 & Q2 & _ & Q4 & Q5). assert (0 <= m / np < np) as Hd by (split; [apply Z.div_pos; lia | apply Z.div_lt_upper_bound; lia]).
  unfold ext2fs_block_map. destruct (super_sizes _ (co_super _ (eo_core _ O))) as (_ & _ & -> & -> & _).
  rewrite (proj2 (Z.ltb_ge n EXT2_NDIR_BLOCKS)) by (unfold EXT2_NDIR_BLOCKS; lia). unfold EXT2_NDIR_BLOCKS.
  rewrite (proj2 (Z.ltb_ge (n - 12) np)) by lia. fold m. rewrite Q4, (proj2 (Z.ltb_lt m _)) by done.
  match goal with |- context [with_block _ _ _ _ _ _ _ ?K] => destruct (first_block 2 s K O ltac:(lia) Hi) as (d & E & L & F & O1) end.
  change EXT2_DIND_BLOCK with (11 + 2). rewrite E. clear E. cbn beta zeta. set (s1 := set_maps 2 _ _) in *.
  destruct (data_words s1 (eo_core _ O1)) as [-> _]. change (f_mem s1) with (d_mem d). rewrite Q1, (loaded_word (inode_pointer 13) data1_buf) by done.
  fold k. rewrite s32_inside by done. change (d_mem d) with (f_mem s1).
  match goal with |- context [with_block _ _ _ _ _ _ _ ?K] => destruct (second_block (k =? mapblock2 s1) k s1 K O1 ltac:(intros ?%Z.eqb_eq; done) Hk) as (d2 & E & L2 & F2 & O2) end.
  rewrite E. clear E. cbn beta zeta. change (mapblock1 s1) with 2 in O2. set (s2 := set_maps 2 k _) in *. exists s2. split.
  - destruct (data_words s2 (eo_core _ O2)) as [_ ->]. change (f_mem s2) with (d_mem d2). rewrite Q2, (loaded_word k data2_buf) by done. by rewrite s32_inside.
  - constructor; [by exists d2, 2, k | done |]. intros a A1 A2. destruct bufs as (_ & _ & B3 & _). unfold in_data in A2.
    change (f_mem s2) with (d_mem d2). rewrite F2 by (done || lia). apply F; [done | lia].
Qed.

Lemma forget_second s : ext2_open s -> ext2_open (set_maps (mapblock1 s) (-1) s).
Proof. intros [[[O1 O2 O3 O4] S] I M1 M2]. constructor; [constructor; [by constructor | exact S] | exact I | exact M1 | cbn; lia]. Qed.

Lemma mapped_triple n s : ext2_open s -> let m := n - 12 - np - np ^ 2 in 12 + np + np ^ 2 <= n -> m < np ^ 3 ->
  let k := pointer (inode_pointer 14) (m / np ^ 2) in let k2 := pointer k (m / np mod np) in
  block_inside (inode_pointer 14) -> block_inside k -> block_inside k2 -> block_inside (pointer k2 (m mod np)) ->
  exists s', ext2fs_block_map b mem_lower mem_upper n s = Some (pointer k2 (m mod np), s') /\ mapped s s'.
Proof.
  intros O m H1 H2 k k2 Hi Hk Hk2 Hp. assert (0 < np) as Hnp by (destruct sizes as [(_ & _ & ->) | [(_ & _ & ->) | (_ & _ & ->)]]; lia).
  destruct (ptr_ops m ltac:(lia)) as (Q1 & Q2 & Q3 & Q4 & Q5). destruct (ptr_ops (m / np) ltac:(apply Z.div_pos; lia)) as (_ & Q6 & _ & _ & Q7).
  assert (0 <= m / np ^ 2 < np) as Hd by (split; [apply Z.div_pos; lia | apply Z.div_lt_upper_bound; lia]).
  unfold ext2fs_block_map. destruct (super_sizes _ (co_super _ (eo_core _ O))) as (_ & _ & -> & -> & _).
  rewrite (proj2 (Z.ltb_ge n EXT2_NDIR_BLOCKS)) by (unfold EXT2_NDIR_BLOCKS; lia). unfold EXT2_NDIR_BLOCKS.
  rewrite (proj2 (Z.ltb_ge (n - 12) np)) by lia. rewrite Q4, (proj2 (Z.ltb_ge (n - 12 - np) _)) by lia. fold m.
  pose proof (forget_second s O) as O0. set (s0 := set_maps _ (-1) s) in *. cbn zeta.
  match goal with |- context [with_block _ _ _ _ _ _ _ ?K] => destruct (first_block 3 s0 K O0 ltac:(lia) Hi) as (d & E & L & F & O1) end.
  change EXT2_TIND_BLOCK with (11 + 3). rewrite E. clear E. cbn beta zeta. set (s1 := set_maps 3 _ _) in *.
  destruct (data_words s1 (eo_core _ O1)) as [-> _]. change (f_mem s1) with (d_mem d). rewrite Q3, (loaded_word (inode_pointer 14) data1_buf) by done.
  fold k. change (d_mem d) with (f_mem s1).
  match goal with |- context [with_block _ _ _ _ _ _ _ ?K] => destruct (second_block false k s1 K O1 ltac:(done) Hk) as (d2 & E & L2 & F2 & O2) end.
  rewrite E. clear E. cbn beta. apply forget_second in O2. change (ext2_open (set_fdisk d2 s1)) in O2. set (s2 := set_fdisk d2 s1) in *.
  destruct (data_words s2 (eo_core _ O2)) as [_ ->]. change (f_mem s2) with (d_mem d2). rewrite Q1, Q6, (loaded_word k data2_buf) by done.
  fold k2. change (d_mem d2) with (f_mem s2).
  match goal with |- context [with_block _ _ _ _ _ _ _ ?K] => destruct (second_block false k2 s2 K O2 ltac:(done) Hk2) as (d3 & E & L3 & F3 & O3) end.
  rewrite E. clear E. cbn beta. apply forget_second in O3. change (ext2_open (set_fdisk d3 s2)) in O3. set (s3 := set_fdisk d3 s2) in *. exists s3. split.
  - destruct (data_words s3 (eo_core _ O3)) as [_ ->]. change (f_mem s3) with (d_mem d3). rewrite Q2, (loaded_word k2 data2_buf) by done. by rewrite s32_inside.
  - constructor; [by exists d3, 3, (-1) | done |]. intros a A1 A2. destruct bufs as (_ & _ & B3 & _). unfold in_data in A2.
    change (f_mem s3) with (d_mem d3). rewrite F3 by (done || lia). change (f_mem s2) with (d_mem d2). rewrite F2 by (done || lia). apply F; [done | lia].
Qed.

(** [ext2fs_block_map] gives the block of the file. *)
Lemma block_map_ok n s : ext2_open s -> 0 <= n < 2097152 -> block_inside (file_block byte x ip n) ->
  Forall (fun k => 0 < k /\ block_inside k) (indirect_blocks byte x ip n) ->
  exists s', ext2fs_block_map b mem_lower mem_upper n s = Some (file_block byte x ip n, s') /\ mapped s s'.
Proof.
  intros O Hn Hk Hi. unfold file_block, indirect_blocks in *. destruct (Z.ltb_spec n 12) as [H1 | H1].
  { exists s. unfold ext2fs_block_map. rewrite (proj2 (Z.ltb_lt n EXT2_NDIR_BLOCKS)) by done. rewrite inode_word, s32_inside by (done || lia).
    split; [done |]. constructor; [| done | done]. exists (f_disk s), (mapblock1 s), (mapblock2 s). by destruct s. }
  cbn zeta in *. destruct (Z.ltb_spec (n - 12) np) as [H2 | H2].
  { inversion_clear Hi as [|? ? [_ Hi1] _]. by apply (mapped_single n s). }
  destruct (Z.ltb_spec (n - 12 - np) (np ^ 2)) as [H3 | H3].
  { inversion_clear Hi as [|? ? [_ Hi1] Hr]. inversion_clear Hr as [|? ? [_ Hi2] _]. apply (mapped_double n s); done || lia. }
  inversion_clear Hi as [|? ? [_ Hi1] Hr]. inversion_clear Hr as [|? ? [_ Hi2] Hr2]. inversion_clear Hr2 as [|? ? [_ Hi3] _]. apply (mapped_triple n s); try done; [lia |].
  destruct sizes as [(_ & _ & ->) | [(_ & _ & ->) | (_ & _ & ->)]]; lia.
Qed.
(** *** Reading *)

Lemma ext2_open_frame s s' : ext2_open s -> opened s' -> mapblock1 s' = mapblock1 s /\ mapblock2 s' = mapblock2 s ->
  (forall a, FSYS_BUF <= a < FSYS_BUF + 0x8000 -> ld (f_mem s') a = ld (f_mem s) a) -> ext2_open s'.
Proof.
  intros [[O S] I M1 M2] O' [E1 E2] F. destruct bufs as (B1 & B2 & B3 & B4 & B5). constructor.
  - constructor; [done |]. eapply super_in_frame; [| exact S]. intros a Ha. apply F. unfold super_size in Ha. lia.
  - intros i Hi. rewrite F by (unfold inode_size in Hi; lia). by apply I.
  - intros n Hn E. eapply loaded_frame; [apply M1; congruence |]. intros a Ha. apply F. lia.
  - intros Hm. rewrite E2 in *. eapply loaded_frame; [by apply M2 |]. intros a Ha. apply F. lia.
Qed.

Lemma ext2_write s m : ext2_open s -> (forall a, in_buffer a \/ in_fsys a -> ld m a = ld (f_mem s) a) -> ext2_open (set_fmem m s).
Proof.
  intros O F. apply (ext2_open_frame s); [done | | done | intros a Ha; apply F; by right].
  pose proof (co_opened _ (eo_core _ O)) as Oo. apply opened_disk; [done |]. apply pr_write; [apply Oo | auto].
Qed.

Lemma ext2_seek s pos : ext2_open s -> ext2_open (set_pos pos s).
Proof. intros [[[O1 O2 O3 O4] S] I M1 M2]. constructor; [constructor; [by constructor | exact S] | exact I | exact M1 | exact M2]. Qed.

(** A block of the file that is not stored. *)
Lemma fs_memset_ok s buf n : ext2_open s -> file_place mem_lower mem_upper buf n -> 0 <= n ->
  exists m, fs_memset mem_lower mem_upper buf 0 n s = set_fmem m s /\ ext2_open (set_fmem m s) /\
    (forall i, 0 <= i < n -> ld m (buf + i) = 0) /\ (forall a, ~ (buf <= a < buf + n) -> ld m a = ld (f_mem s) a).
Proof.
  intros O [[T1 T2 T3 T4 T5] Hf] Hn. pose proof (pr_no_error _ (op_good _ _ _ _ _ _ _ _ (co_opened _ (eo_core _ O))) : f_err s = ERR_NONE) as He.
  assert (0 <= buf < 2147483648) as Hb by (unfold mem_ok in T3; lia).
  pose proof (fill_loaded (f_mem s) buf n (fun _ => 0) Hn) as L. set (m := fill _ _ _ _) in L. exists m.
  assert (forall a, ~ (buf <= a < buf + n) -> ld m a = ld (f_mem s) a) as F by (intros a Ha; rewrite L; by rewrite decide_False).
  split; [| split; [| split; [| done]]].
  - unfold fs_memset, grub_memset. rewrite s32_small by lia. rewrite (proj1 (memcheck_spec mem_lower mem_upper buf n (f_err s) Hb ltac:(lia) ltac:(lia) ltac:(lia)) T3).
    rewrite He, !decide_True by done. rewrite <- He at 1. by destruct s as [[]].
  - apply ext2_write; [done |]. intros a Ha. apply F. intros Hab. destruct Ha as [Ha | Ha]; [by apply (T5 a) | by apply (Hf a)].
  - intros i Hi. rewrite L. by rewrite decide_True by lia.
Qed.

Variable size : Z.
Hypothesis size_range : 0 <= size <= MAXINT.
Hypothesis inside : file_inside byte x part_length ip size.

Abbreviation content := (file_byte byte x ip).

(** One turn of the loop. *)
Lemma ext2_round f buf n ret s : ext2_open s -> 0 <= filepos s -> 0 < n -> filepos s + n <= size -> file_place mem_lower mem_upper buf n ->
  exists k s', 0 < k <= n /\
    ext2_read_loop b mem_lower mem_upper (S f) buf n ret s = ext2_read_loop b mem_lower mem_upper f (buf + k) (n - k) (ret + k) s' /\
    ext2_open s' /\ moved k s s' /\
    (forall y, 0 <= y < k -> ld (f_mem s') (buf + y) = content (filepos s + y)) /\
    (forall a, ~ in_buffer a -> ~ in_fsys a -> ~ (buf <= a < buf + k) -> ld (f_mem s') a = ld (f_mem s) a).
Proof.
  intros O Hp Hn Hin Hb. cbn [ext2_read_loop]. rewrite (proj2 (Z.ltb_lt 0 n)) by lia. cbn [negb].
  destruct (super_sizes _ (co_super _ (eo_core _ O))) as (E1 & E2 & _). rewrite E1, E2.
  destruct bufs as (B1 & B2 & B3 & B4 & B5).
  assert (bs = 2 ^ x_bits x /\ 0 <= x_bits x) as [Eb Hx] by (split; [done | pose proof (xo_bits _ _ vol); lia]).
  rewrite Z.shiftr_div_pow2 by done. rewrite <- Eb. set (q := filepos s / bs).
  pose proof (Z.div_mod (filepos s) bs ltac:(lia)) as Hd. pose proof (Z.mod_pos_bound (filepos s) bs ltac:(lia)) as Hm.
  assert (0 <= q) as Hq by (apply Z.div_pos; lia). fold q in Hd. unfold MAXINT in size_range.
  destruct (inside q Hq ltac:(nia)) as [K1 K2].
  destruct (block_map_ok q s O ltac:(nia) K1 K2) as (s1 & -> & [(d1 & u & w & Es1) O1 F1]). cbn [mbind option_bind].
  destruct (inside_range _ K1) as (K3 & K4 & K5). set (k := file_block byte x ip q) in *.
  rewrite (proj2 (Z.ltb_ge k 0)) by lia. destruct (super_sizes _ (co_super _ (eo_core _ O1))) as (_ & E3 & _). rewrite E3.
  assert (filepos s .& (bs - 1) = filepos s mod bs) as -> by (rewrite Eb, Z.sub_1_r, <- Z.ones_equiv; by apply Z.land_ones).
  set (off := filepos s mod bs) in *. set (sz := if n <? bs - off then n else bs - off).
  assert (0 < sz <= n /\ off + sz <= bs) as [Hs1 Hs2] by (subst sz; zcase; lia).
  assert (filepos s1 = filepos s) as Ep by (by rewrite Es1).
  destruct (place_prefix mem_lower mem_upper buf n sz Hb ltac:(lia)) as [Ht Hf].
  assert (forall y, 0 <= y < sz -> content (filepos s + y) = if k =? 0 then 0 else byte (k * bs + off + y)) as Ec.
  { intros y Hy. unfold file_byte. destruct (div_mod_block (filepos s) y bs q off) as [-> ->]; try lia. fold k. by rewrite <- Z.add_assoc. }
  exists sz. destruct (Z.eqb_spec k 0) as [Ek | Ek].
  - destruct (fs_memset_ok s1 buf sz O1 (conj Ht Hf) ltac:(lia)) as (m & -> & O2 & Z2 & F2). cbn [mbind option_bind].
    exists (set_pos (filepos s + sz) (set_fmem m s1)). split; [done |]. split; [by rewrite <- Ep |]. split; [by apply ext2_seek |].
    split; [| split].
    + exists (set_mem m d1), (disk_read_hook s), u, w. by rewrite Es1.
    + intros y Hy. rewrite Ec by done. by apply Z2.
    + intros a A1 A2 A3. change (f_mem (set_pos _ _)) with m. rewrite F2 by done. apply F1; [done |]. unfold in_data, in_fsys in *. lia.
  - destruct (block_sectors k) as [-> Em]. rewrite s32_small by lia.
    destruct (hooked_devread_ok b mem_lower mem_upper drive part_start part_length byte s1 (k * (bs / 512)) off sz buf (co_opened _ (eo_core _ O1)))
      as (d2 & h & E & Od & Bd & Fd); try done; try lia.
    rewrite E. cbn [mbind option_bind]. set (s2 := set_hook h _) in *. exists (set_pos (filepos s + sz) s2).
    assert (forall a, in_buffer a \/ in_fsys a -> ~ (buf <= a < buf + sz)) as Hba.
    { intros a [Ha | Ha] Hab; [by apply (tg_apart _ _ _ _ Ht a) | by apply (Hf a)]. }
    split; [done |]. split; [by rewrite <- Ep |]. split; [| split; [| split]].
    + apply ext2_seek. apply (ext2_open_frame s1); [done | exact Od | exact (conj eq_refl eq_refl) |].
      intros a Ha. apply Fd; [by apply not_buffer | apply Hba; by right].
    + exists d2, h, u, w. subst s2. by rewrite Es1.
    + intros y Hy. change (f_mem (set_pos _ _)) with (d_mem d2). rewrite Bd, Ec by done. by rewrite Em.
    + intros a A1 A2 A3. change (f_mem (set_pos _ _)) with (d_mem d2). rewrite Fd by done. apply F1; [done |]. unfold in_data, in_fsys in *. lia.
Qed.

Lemma ext2_loop_ok f : forall buf n ret s, ext2_open s -> 0 <= filepos s -> 0 <= n <= Z.of_nat f -> filepos s + n <= size ->
  file_place mem_lower mem_upper buf n ->
  exists s', ext2_read_loop b mem_lower mem_upper f buf n ret s = Some (ret + n, s') /\ ext2_open s' /\ moved n s s' /\
    (forall y, 0 <= y < n -> ld (f_mem s') (buf + y) = content (filepos s + y)) /\
    (forall a, ~ in_buffer a -> ~ in_fsys a -> ~ (buf <= a < buf + n) -> ld (f_mem s') a = ld (f_mem s) a).
Proof.
  induction f as [|f IH]; intros buf n ret s O Hp Hn Hin Hb.
  all: pose proof (pr_no_error _ (op_good _ _ _ _ _ _ _ _ (co_opened _ (eo_core _ O))) : f_err s = ERR_NONE) as He.
  all: destruct (decide (n = 0)) as [-> |]; [exists s; cbn [ext2_read_loop]; rewrite (decide_True _ _ He), Z.add_0_r; split; [done |];
    split; [done |]; split; [destruct s; by exists f_disk, disk_read_hook, mapblock1, mapblock2; rewrite Z.add_0_r | split; [lia | done]] |].
  { lia. }
  destruct (ext2_round f buf n ret s O Hp ltac:(lia) Hin Hb) as (k & s1 & Hs & -> & O1 & M1 & B1 & F1).
  assert (filepos s1 = filepos s + k) as Ep by (destruct M1 as (? & ? & ? & ? & ->); done).
  assert (file_place mem_lower mem_upper (buf + k) (n - k)) as Hb'.
  { destruct Hb as [[T1 T2 T3 T4 T5] Hf]. split; [constructor; try done; [unfold mem_ok in *; lia | lia |] |]; intros a Ha; [apply T5 | apply Hf]; lia. }
  destruct (IH (buf + k) (n - k) (ret + k) s1 O1) as (s2 & -> & O2 & M2 & B2 & F2); rewrite ?Ep; try lia; [done |].
  exists s2. replace (ret + k + (n - k)) with (ret + n) by lia. split; [done |]. split; [done |].
  split; [replace n with (k + (n - k)) by lia; by eapply moved_trans |]. split.
  - intros y Hy. destruct (Z.ltb_spec y k).
    + rewrite F2; [by apply B1; lia | | | lia]; destruct Hb as [[] Hf]; [apply tg_apart | apply Hf]; lia.
    + replace (buf + y) with (buf + k + (y - k)) by lia. rewrite B2, Ep by lia. f_equal. lia.
  - intros a Ha Hfa Hba. rewrite F2 by (done || lia). apply F1; done || lia.
Qed.

(** The files of ext2 for [grub_read]. *)
#[export] Program Instance ext2_reader : FileReader mem_lower mem_upper (ext2fs_read b mem_lower mem_upper) content size := {|
  fr_open := ext2_open |}.
Next Obligation. exact size_range. Qed.
Next Obligation. intros s O. exact (pr_no_error _ (op_good _ _ _ _ _ _ _ _ (co_opened _ (eo_core _ O)))). Qed.
Next Obligation. intros s pos. apply ext2_seek. Qed.
Next Obligation. intros s i [[[] S] I M1 M2]. constructor; [constructor; [by constructor | done] | done..]. Qed.
Next Obligation. intros s m. apply ext2_write. Qed.
Next Obligation.
  intros s buf n O Hp Hn Hin Hb. destruct (ext2_loop_ok (Z.to_nat n) buf n 0 s O Hp) as (s' & E & H); try done; try lia.
  exists s'. split; [exact E | exact H].
Qed.
End File.
End Reading.
