(* ===== verification/GrubExt2Dir.v ===== *)
(** * The directories of GRUB's ext2 file system

    [ext2fs_dir] of [src/legacy/SZoS/grub-0.97/stage2/fsys_ext2fs.c]: a path is
    followed through directories and symbolic links to the inode of a file; or
    the names that start with its last component are listed. *)

From S2P Require Import Prelude Machine LibcString GrubString GrubTerm GrubReadline GrubBios GrubDisk GrubDevice GrubPart GrubFsys GrubFat GrubFatDir GrubFile GrubExt2.

(** ** The code *)

Definition EXT2_ROOT_INO : Z := 2.
Definition PATH_MAX : Z := 1024.
Definition MAX_LINK_COUNT : Z := 5.

Definition S_IFMT : Z := 0xF000.
Definition S_IFLNK : Z := 0xA000.
Definition S_IFREG : Z := 0x8000.
Definition S_IFDIR : Z := 0x4000.
Definition S_ISLNK (mode : Z) : bool := mode .& S_IFMT =? S_IFLNK.
Definition S_ISREG (mode : Z) : bool := mode .& S_IFMT =? S_IFREG.
Definition S_ISDIR (mode : Z) : bool := mode .& S_IFMT =? S_IFDIR.

(** [struct ext2_group_desc] *)
Definition group_desc_size : Z := 32.
Definition EXT2_DESC_PER_BLOCK (m : mem) : Z := EXT2_BLOCK_SIZE m / group_desc_size.
Definition bg_inode_table (m : mem) (desc : Z) : Z := ld32 m (GROUP_DESC + group_desc_size * desc + 8).

(** [struct ext2_dir_entry] at [dp] *)
Definition d_inode (m : mem) (dp : Z) : Z := ld32 m dp.
Definition d_rec_len (m : mem) (dp : Z) : Z := ld16 m (dp + 4).
Definition d_name_len (m : mem) (dp : Z) : Z := ld m (dp + 6).
Definition d_name (dp : Z) : Z := dp + 8.

Section Ext2Dir.
Variables (b : bios) (mem_lower mem_upper : Z).
Variables (current_term : term_entry) (max_lines : Z).
(** [grub_read], and the place of the local variable [linkbuf]. *)
Variable grub_read : Z -> Z -> fs -> option (Z * fs).
Variable linkbuf : Z.

Abbreviation ext2_rdfsb := (ext2_rdfsb b mem_lower mem_upper).

Definition ext2_is_fast_symlink (m : mem) : bool :=
  let ea_blocks := if i_file_acl m =? 0 then 0 else Z.quot (EXT2_BLOCK_SIZE m) DEV_BSIZE in
  i_blocks m =? ea_blocks.

(** [memmove] on the state. *)
Definition fs_memmove (to from len : Z) (s : fs) : fs :=
  let '(_, (e, m)) := grub_memmove mem_lower mem_upper to from len (f_err s, f_mem s) in set_ferr e (set_fmem m s).

(** "look up an inode": [None] for a division by zero. *)
Definition load_inode (current_ino : Z) (s : fs) : option (bool * fs) :=
  let m := f_mem s in
  if s_inodes_per_group m =? 0 then None
  else
    let group_id := s32 (u32 (current_ino - 1) / s_inodes_per_group m) in
    let group_desc := group_id .>> log2 (EXT2_DESC_PER_BLOCK m) in
    let desc := group_id .& (EXT2_DESC_PER_BLOCK m - 1) in
    '(ok, s) ← ext2_rdfsb (s32 (WHICH_SUPER + group_desc + s_first_data_block m)) GROUP_DESC s;
    if ok =? 0 then Some (false, s)
    else
      let m := f_mem s in
      let ino_blk := s32 (bg_inode_table m desc
                          + ((u32 (current_ino - 1) mod s_inodes_per_group m) .>> log2 (EXT2_BLOCK_SIZE m / inode_size))) in
      '(ok, s) ← ext2_rdfsb ino_blk (INODE m) s;
      if ok =? 0 then Some (false, s)
      else
        let s := set_maps (-1) (-1) s in
        let m := f_mem s in
        let raw_inode := INODE m + inode_size * ((current_ino - 1) .& (EXT2_BLOCK_SIZE m / inode_size - 1)) in
        Some (true, fs_memmove (INODE m) raw_inode inode_size s).

(** [while (dirname[len] && !isspace (dirname[len])) len++;] in a string of less
    than 64 kilobytes *)
Fixpoint name_length (fuel : nat) (m : mem) (a : Z) : Z :=
  match fuel with
  | O => 0
  | S f => if (ld m a =? 0) || grub_isspace (s8 (ld m a)) then 0 else 1 + name_length f m (a + 1)
  end.

(** "chase it": the new path is in [linkbuf]; [None] when the function returns 0. *)
Definition chase_link (link_count dirname : Z) (s : fs) : option (bool * fs) :=
  if MAX_LINK_COUNT <? link_count then Some (false, set_ferr ERR_SYMLINK_LOOP s)
  else
    let len := name_length (Z.to_nat 0x10000) (f_mem s) dirname in
    let s := set_file (filepos s) (s32 (i_size (f_mem s))) s in
    if PATH_MAX - 2 <? u32 (filemax s + len) then Some (false, set_ferr ERR_FILELENGTH s)
    else
      let s := if len =? 0 then s else fs_memmove (linkbuf + filemax s) dirname len s in
      let s := set_fmem (st (f_mem s) (linkbuf + (filemax s + len)) 0) s in
      if negb (ext2_is_fast_symlink (f_mem s))
      then
        '(len, s) ← grub_read linkbuf (filemax s) s;
        Some (negb (len =? 0), set_pos 0 s)
      else Some (true, fs_memmove linkbuf (INODE (f_mem s) + 40) (filemax s) s).

(** What becomes of the loop over the entries. *)
Inductive search := Return (ret : Z) | Entry (dp : Z).

(** [do ... while (!dp->inode || (str_chk || (print_possibilities && ch != '/')))],
    for [fuel] entries at most. *)
Fixpoint search_entries (fuel : nat) (dirname rest ch loc str_chk : Z) (s : fs) : option (search * fs) :=
  match fuel with
  | O => None
  | S f =>
      let restore s := set_fmem (st (f_mem s) rest ch) s in
      if i_size (f_mem s) <=? u32 loc
      then if print_possibilities s <? 0 then Some (Return 1, s) else Some (Return 0, restore (set_ferr ERR_FILE_NOT_FOUND s))
      else
        let blk := loc .>> EXT2_BLOCK_SIZE_BITS (f_mem s) in
        '(map, s) ← ext2fs_block_map b mem_lower mem_upper blk s;
        let s := set_maps (mapblock1 s) (-1) s in
        '(ok, s) ← (if map <? 0 then Some (0, s) else ext2_rdfsb map (DATABLOCK2 (f_mem s)) s);
        if ok =? 0 then Some (Return 0, restore (set_ferr ERR_FSYS_CORRUPT s))
        else
          let m := f_mem s in
          let off := loc .& (EXT2_BLOCK_SIZE m - 1) in
          let dp := DATABLOCK2 m + off in
          let loc := s32 (loc + d_rec_len m dp) in
          '(str_chk, s) ←
            (if d_inode m dp =? 0 then Some (str_chk, s)
             else
               let last := d_name dp + d_name_len m dp in
               let saved_c := ld m last in
               let s := set_fmem (st m last 0) s in
               let str_chk := substring (cstring (f_mem s) dirname) (cstring (f_mem s) (d_name dp)) in
               s ← (if negb (print_possibilities s =? 0) && negb (ch =? 47) && ((ld (f_mem s) dirname =? 0) || (str_chk <=? 0))
                    then
                      let poss := if 0 <? print_possibilities s then - print_possibilities s else print_possibilities s in
                      print_a_completion current_term max_lines (d_name dp) (set_completion poss (do_completion s) (unique s) s)
                    else Some s);
               Some (str_chk, set_fmem (st (f_mem s) last saved_c) s));
          if (d_inode (f_mem s) dp =? 0) || negb (str_chk =? 0) || (negb (print_possibilities s =? 0) && negb (ch =? 47))
          then search_entries f dirname rest ch loc str_chk s
          else Some (Entry dp, s)
  end.

(** [while (1)], for [fuel] components and links at most. *)
Fixpoint path_loop (fuel entries : nat) (current_ino updir_ino str_chk link_count dirname : Z) (s : fs) : option (Z * fs) :=
  match fuel with
  | O => None
  | S f =>
      '(ok, s) ← load_inode current_ino s;
      if negb ok then Some (0, s)
      else if S_ISLNK (i_mode (f_mem s))
      then
        '(ok, s) ← chase_link (link_count + 1) dirname s;
        if negb ok then Some (0, s)
        else if ld (f_mem s) linkbuf =? 47
        then path_loop f entries EXT2_ROOT_INO EXT2_ROOT_INO str_chk (link_count + 1) linkbuf s
        else path_loop f entries updir_ino updir_ino str_chk (link_count + 1) linkbuf s
      else
        let c := ld (f_mem s) dirname in
        if (c =? 0) || grub_isspace (s8 c)
        then
          if negb (S_ISREG (i_mode (f_mem s))) then Some (0, set_ferr ERR_BAD_FILETYPE s)
          else Some (1, set_file (filepos s) (s32 (i_size (f_mem s))) s)
        else
          let dirname := skip_slashes (Z.to_nat 0x10000) (f_mem s) dirname in
          if (i_size (f_mem s) =? 0) || negb (S_ISDIR (i_mode (f_mem s))) then Some (0, set_ferr ERR_BAD_FILETYPE s)
          else
            let rest := word_end (Z.to_nat 0x10000) (f_mem s) dirname in
            let ch := ld (f_mem s) rest in
            let s := set_fmem (st (f_mem s) rest 0) s in
            '(r, s) ← search_entries entries dirname rest ch 0 str_chk s;
            match r with
            | Return ret => Some (ret, s)
            | Entry dp =>
                path_loop f entries (s32 (d_inode (f_mem s) dp)) current_ino 0 link_count rest (set_fmem (st (f_mem s) rest ch) s)
            end
  end.

Definition ext2fs_dir (fuel entries : nat) (dirname : Z) (s : fs) : option (Z * fs) :=
  path_loop fuel entries EXT2_ROOT_INO EXT2_ROOT_INO 0 0 dirname s.
End Ext2Dir.

(** [grub_read] of disk_io.c as a file system calls it.  Files are opened with
    [compressed_file] unset, and then it leaves the other variables alone. *)
Definition call_grub_read (b : bios) (mem_lower mem_upper : Z) (fsys_table : list fsys_entry) (gunzip_read : Z -> Z -> files -> option (Z * files))
    (hack : Z) (z : gz) (buf len : Z) (s : fs) : option (Z * fs) :=
  '(n, g) ← grub_read b mem_lower mem_upper fsys_table gunzip_read buf len (Files s hack z); Some (n, g_fs g).

(** ** Specifications *)

Section Paths.
Variable byte : Z -> Z.
Variable x : ext2.

Abbreviation bs := (block_size x).

(** Where inode [ino] is: its block of the descriptors of the groups, the block
    of the table of its group, and its place. *)
Definition desc_block (ino : Z) : Z := 1 + x_first x + (ino - 1) / x_group x / (bs / 32).
Definition inode_block (ino : Z) : Z :=
  byte32 byte (desc_block ino * bs + 32 * ((ino - 1) / x_group x mod (bs / 32)) + 8) + (ino - 1) mod x_group x / (bs / 128).
Definition inode_pos (ino : Z) : Z := inode_block ino * bs + 128 * ((ino - 1) mod x_group x mod (bs / 128)).

Definition inode_mode (ino : Z) : Z := byte16 byte (inode_pos ino).
Definition ino_size (ino : Z) : Z := inode_bytes byte (inode_pos ino).
Definition ino_byte (ino : Z) : Z -> Z := file_byte byte x (inode_pos ino).

(** An inode that can be read. *)
Definition inode_inside (length ino : Z) : Prop :=
  1 <= ino < 2147483648 /\ block_inside x length (desc_block ino) /\ block_inside x length (inode_block ino).

(** The entries of a directory of [size] bytes, from place [p] on. *)
Section Entries.
Variables (D : Z -> Z) (size : Z).

Definition entry_bytes (p n : Z) : list Z := map (fun i => D (p + i)) (seqZ 8 n).

Definition entry_sound (p : Z) : Prop :=
  let rec := byte16 D (p + 4) in
  0 <= p < size /\ 8 + D (p + 6) <= rec /\ p mod bs + rec <= bs /\ is_cstr (entry_bytes p (D (p + 6))).

Inductive entries : Z -> list (list Z * Z) -> Prop :=
| en_end p : size <= p -> entries p []
| en_unused p l : entry_sound p -> byte32 D p = 0 -> entries (p + byte16 D (p + 4)) l -> entries p l
| en_used p l : entry_sound p -> byte32 D p <> 0 -> entries (p + byte16 D (p + 4)) l ->
    entries p ((entry_bytes p (D (p + 6)), byte32 D p) :: l).
End Entries.

Definition entry_named (n : list Z) (l : list (list Z * Z)) : option Z := snd <$> find (fun e => bool_decide (fst e = n)) l.

(** A directory of at most [limit] bytes that can be searched: its blocks are
    stored. *)
Record directory (length limit ino : Z) (l : list (list Z * Z)) : Prop := {
  dr_kind : S_ISDIR (inode_mode ino) = true;
  dr_size : 0 < ino_size ino <= limit;
  dr_inside : file_inside byte x length (inode_pos ino) (ino_size ino);
  dr_stored : forall n, 0 <= n -> n * bs < ino_size ino -> 0 < file_block byte x (inode_pos ino) n;
  dr_entries : entries (ino_byte ino) (ino_size ino) 0 l }.

(** What a symbolic link says: it is in the inode when no block is counted but
    those of attributes. *)
Definition fast_link (ino : Z) : bool :=
  byte32 byte (inode_pos ino + 28) =? (if byte32 byte (inode_pos ino + 104) =? 0 then 0 else bs / 512).
Definition link_text (ino : Z) : list Z :=
  map (fun i => if fast_link ino then byte (inode_pos ino + 40 + i) else ino_byte ino i) (seqZ 0 (ino_size ino)).
Definition link_sound (length ino : Z) : Prop :=
  Forall (fun c => 0 < c < 256 /\ grub_isspace (s8 c) = false) (link_text ino) /\
  if fast_link ino then ino_size ino <= 60 else 0 < ino_size ino /\ file_inside byte x length (inode_pos ino) (ino_size ino).

(** The first name of a path without the slashes before it, and what follows. *)
Definition is_slash (c : Z) : bool := c =? 47.
Fixpoint strip_slashes (l : list Z) : list Z :=
  match l with
  | c :: l' => if is_slash c then strip_slashes l' else l
  | [] => []
  end.
Fixpoint first_name (l : list Z) : list Z :=
  match l with
  | c :: l' => if is_slash c then [] else c :: first_name l'
  | [] => []
  end.
Fixpoint after_name (l : list Z) : list Z :=
  match l with
  | c :: l' => if is_slash c then l else after_name l'
  | [] => []
  end.

(** Where a path leads from an inode, [links] links having been followed;
    [up] is the directory the inode was found in. *)
Inductive target := Regular (ino : Z) | Failure (e : grub_error).

Inductive resolves (length limit : Z) : Z -> Z -> Z -> list Z -> target -> Prop :=
| rs_file links ino up : inode_inside length ino -> S_ISREG (inode_mode ino) = true -> resolves length limit links ino up [] (Regular ino)
| rs_no_file links ino up : inode_inside length ino -> S_ISREG (inode_mode ino) = false -> S_ISLNK (inode_mode ino) = false ->
    resolves length limit links ino up [] (Failure ERR_BAD_FILETYPE)
| rs_no_dir links ino up p : inode_inside length ino -> p <> [] -> S_ISLNK (inode_mode ino) = false ->
    S_ISDIR (inode_mode ino) = false \/ ino_size ino = 0 -> resolves length limit links ino up p (Failure ERR_BAD_FILETYPE)
| rs_missing links ino up p l : inode_inside length ino -> p <> [] -> directory length limit ino l ->
    entry_named (first_name (strip_slashes p)) l = None -> resolves length limit links ino up p (Failure ERR_FILE_NOT_FOUND)
| rs_entry links ino up p l k t : inode_inside length ino -> p <> [] -> directory length limit ino l ->
    entry_named (first_name (strip_slashes p)) l = Some k -> resolves length limit links k ino (after_name (strip_slashes p)) t ->
    resolves length limit links ino up p t
| rs_loop ino up p : inode_inside length ino -> S_ISLNK (inode_mode ino) = true ->
    resolves length limit MAX_LINK_COUNT ino up p (Failure ERR_SYMLINK_LOOP)
| rs_long links ino up p : inode_inside length ino -> S_ISLNK (inode_mode ino) = true -> 0 <= links < MAX_LINK_COUNT ->
    ino_size ino < 2147483648 -> PATH_MAX - 2 < ino_size ino + Z.of_nat (List.length p) -> resolves length limit links ino up p (Failure ERR_FILELENGTH)
| rs_link links ino up p t : inode_inside length ino -> S_ISLNK (inode_mode ino) = true -> 0 <= links < MAX_LINK_COUNT ->
    ino_size ino + Z.of_nat (List.length p) <= PATH_MAX - 2 -> link_sound length ino ->
    (let q := link_text ino ++ p in let dir := if nth 0 q 0 =? 47 then EXT2_ROOT_INO else up in resolves length limit (links + 1) dir dir q t) ->
    resolves length limit links ino up p t.
End Paths.

(** ** Proofs *)

Lemma pow_ops k y : 0 <= k -> y .>> k = y / 2 ^ k /\ y .& (2 ^ k - 1) = y mod 2 ^ k.
Proof.
  intros Hk. split; [by apply Z.shiftr_div_pow2 |]. rewrite Z.sub_1_r, <- Z.ones_equiv. by apply Z.land_ones.
Qed.

Lemma mod_mod_mul a k m : 0 < m -> 0 < k -> a mod (k * m) mod m = a mod m.
Proof.
  intros Hm Hk. rewrite (Z.mod_eq a (k * m)) by nia. replace (a - k * m * (a / (k * m))) with (a + (- k * (a / (k * m))) * m) by lia. by apply Z.mod_add; lia.
Qed.

Section Following.
Context (b : bios) (mem_lower mem_upper drive part_start part_length : Z) (byte : Z -> Z)
        {R : PartReader b mem_lower mem_upper drive part_start part_length byte}.
Variables (current_term : term_entry) (max_lines : Z).
Variable x : ext2.
Hypothesis bytes_ok : forall p, 0 <= byte p < 256.
Hypothesis vol : ext2_ok x part_length.
Hypothesis lower_memory : 512 <= mem_lower <= 1024.
Hypothesis upper_memory : 0 <= mem_upper < 4194304.

Abbreviation bs := (block_size x).
Abbreviation core := (core b mem_lower mem_upper drive part_start part_length byte x).
Abbreviation ext2_open := (ext2_open b mem_lower mem_upper drive part_start part_length byte x).
Abbreviation inode_buf := (inode_buf x).
Abbreviation inode_inside := (inode_inside byte x part_length).
Abbreviation inode_pos := (inode_pos byte x).

Lemma core_no_error s : core s -> f_err s = ERR_NONE.
Proof. intros C. exact (pr_no_error _ (op_good _ _ _ _ _ _ _ _ (co_opened _ _ _ _ _ _ _ _ _ C))). Qed.

Lemma fs_memmove_ok to from len s : f_err s = ERR_NONE -> 0 <= to < 2147483648 -> 0 <= len < 2147483648 -> mem_ok mem_lower mem_upper to len ->
  exists m, fs_memmove mem_lower mem_upper to from len s = set_fmem m s /\ copied (f_mem s) to from len m.
Proof.
  intros He Ht Hl Hm. unfold fs_memmove. rewrite He.
  destruct (grub_memmove_copied mem_lower mem_upper to from len (f_mem s)) as (m & -> & C); try done; try lia.
  exists m. split; [| done]. rewrite <- He. by destruct s as [[]].
Qed.

(** Descriptors and inodes of a block. *)
Lemma block_counts : 
  (bs / 32 = 2 ^ (x_bits x - 5) /\ log2 (bs / 32) = x_bits x - 5) /\ (bs / 128 = 2 ^ (x_bits x - 7) /\ log2 (bs / 128) = x_bits x - 7) /\
  10 <= x_bits x /\ 32 * (bs / 32) = bs /\ 128 * (bs / 128) = bs.
Proof. destruct (sizes part_length x vol) as [(-> & -> & _) | [(-> & -> & _) | (-> & -> & _)]]; split_and!; done. Qed.

Lemma load_inode_ok ino s : core s -> inode_inside ino ->
  exists d, let s' := set_maps (-1) (-1) (set_fdisk d s) in
    load_inode b mem_lower mem_upper ino s = Some (true, s') /\ ext2_open (inode_pos ino) s' /\
    (forall a, ~ in_buffer a -> ~ in_fsys a -> ld (d_mem d) a = ld (f_mem s) a).
Proof.
  intros C (Hi & Hd & Hb). pose proof (co_super _ _ _ _ _ _ _ _ _ C) as (_ & Sf & Sg).
  destruct (bufs part_length x vol) as (B1 & B2 & B3 & B4 & B5).
  destruct block_counts as ((E1 & L1) & (E2 & L2) & Hx & M1 & M2).
  destruct (super_sizes part_length x vol _ (co_super _ _ _ _ _ _ _ _ _ C)) as (_ & Eb & _).
  pose proof (xo_group _ _ vol) as Hg. pose proof (xo_first _ _ vol) as Hf.
  assert (0 <= (ino - 1) / x_group x < 2147483648) as Hq by (split; [apply Z.div_pos; lia | apply Z.div_lt_upper_bound; nia]).
  destruct (pow_ops (x_bits x - 5) ((ino - 1) / x_group x)) as [P1 P2]; [lia |].
  destruct (pow_ops (x_bits x - 7) ((ino - 1) mod x_group x)) as [P3 _]; [lia |].
  destruct (pow_ops (x_bits x - 7) (ino - 1)) as [_ P6]; [lia |]. rewrite <- E1, <- E2 in *.
  unfold load_inode, EXT2_DESC_PER_BLOCK, group_desc_size. rewrite Sg, Sf, Eb, (proj2 (Z.eqb_neq (x_group x) 0)) by lia.
  rewrite u32_small, s32_small, L1, P1, P2 by lia. unfold WHICH_SUPER.
  destruct (inside_range part_length x vol _ Hd) as (D1 & _ & _). destruct (inside_range part_length x vol _ Hb) as (D2 & _ & _). unfold inode_size.
  replace (1 + (ino - 1) / x_group x / (bs / 32) + x_first x) with (desc_block x ino) by (unfold desc_block; lia).
  rewrite s32_small by lia.
  destruct (ext2_rdfsb_ok b mem_lower mem_upper drive part_start part_length byte x vol lower_memory upper_memory (desc_block x ino) GROUP_DESC s C Hd)
    as (d & -> & C1 & Ld & F1); [unfold GROUP_DESC, SUPERBLOCK; lia | unfold GROUP_DESC, SUPERBLOCK, super_size; lia |].
  cbn [mbind option_bind]. change (1 =? 0) with false. cbn iota zeta. set (s1 := set_fdisk d s) in *.
  destruct (super_sizes part_length x vol _ (co_super _ _ _ _ _ _ _ _ _ C1)) as (_ & Eb1 & _ & _ & Ei & _).
  set (desc := (ino - 1) / x_group x mod (bs / 32)) in *. change (f_mem s1) with (d_mem d) in *.
  assert (0 <= desc < bs / 32) as Hdesc by (apply Z.mod_pos_bound; lia).
  assert (bg_inode_table (d_mem d) desc = byte32 byte (desc_block x ino * bs + 32 * desc + 8)) as ->.
  { unfold bg_inode_table, group_desc_size. replace (GROUP_DESC + 32 * desc + 8) with (GROUP_DESC + 4 * (8 * desc + 2)) by lia.
    rewrite (loaded_word part_length byte x vol _ _ _ _ Ld); [unfold pointer; f_equal; lia |].
    destruct (sizes part_length x vol) as [(_ & ? & ?) | [(_ & ? & ?) | (_ & ? & ?)]]; lia. }
  rewrite (proj2 (proj2 (co_super _ _ _ _ _ _ _ _ _ C1 : super_in x (d_mem d)))), Eb1, Ei, L2, P3.
  change (byte32 byte (desc_block x ino * bs + 32 * desc + 8) + (ino - 1) mod x_group x / (bs / 128)) with (inode_block byte x ino).
  rewrite s32_small by lia.
  destruct (ext2_rdfsb_ok b mem_lower mem_upper drive part_start part_length byte x vol lower_memory upper_memory (inode_block byte x ino) inode_buf s1 C1 Hb)
    as (d2 & -> & C2 & Li & F2); [unfold super_size; lia | lia |].
  cbn [mbind option_bind]. change (1 =? 0) with false. cbn iota zeta. set (s2 := set_maps (-1) (-1) (set_fdisk d2 s1)).
  destruct (super_sizes part_length x vol _ (co_super _ _ _ _ _ _ _ _ _ C2)) as (_ & Eb2 & _ & _ & Ei2 & _).
  change (f_mem s2) with (f_mem (set_fdisk d2 s1)). rewrite Ei2, Eb2, P6.
  assert ((ino - 1) mod (bs / 128) = (ino - 1) mod x_group x mod (bs / 128)) as ->.
  { pose proof (xo_whole _ _ vol) as [k Hk]. unfold inode_size in Hk. symmetry. rewrite Hk. apply mod_mod_mul; [lia | nia]. }
  set (j := (ino - 1) mod x_group x mod (bs / 128)). assert (0 <= j < bs / 128) as Hj by (apply Z.mod_pos_bound; lia).
  destruct (fs_memmove_ok inode_buf (inode_buf + 128 * j) 128 s2) as (m & -> & Cm);
    [apply (core_no_error _ C2) | unfold FSYS_BUF in *; lia | lia | unfold mem_ok, FSYS_BUF in *; lia |].
  change (f_mem s2) with (d_mem d2) in *. exists (set_mem m d2). split; [done |].
  assert (forall a, ~ in_buffer a -> ~ in_fsys a -> ld m a = ld (f_mem s) a) as F.
  { intros a H1 H2. unfold in_fsys in H2. rewrite Cm, decide_False by lia. rewrite F2 by (done || lia).
    apply F1; [done |]. unfold GROUP_DESC, SUPERBLOCK, super_size. lia. }
  split; [| exact F]. constructor.
  - destruct C2 as [O S]. constructor.
    + destruct (opened_disk b mem_lower mem_upper drive part_start part_length byte (set_mem m d2) _ O) as [O1 O2 O3 O4]; [| by constructor].
      apply pr_write; [apply O |]. intros a Ha. rewrite Cm, decide_False; [done |]. intros H. by apply (not_buffer a ltac:(lia)).
    + eapply super_in_frame; [| exact S]. intros a Ha. unfold super_size in Ha. change (ld m a = ld (d_mem d2) a). by rewrite Cm, decide_False by lia.
  - intros i Hi2. unfold inode_size in Hi2. change (f_mem _) with m. rewrite Cm, decide_True by lia.
    replace (inode_buf + 128 * j + (inode_buf + i - inode_buf)) with (inode_buf + (128 * j + i)) by lia.
    rewrite Li by lia. unfold inode_pos, GrubExt2Dir.inode_pos. f_equal. fold j. lia.
  - cbn. lia.
  - cbn. lia.
Qed.

(** *** Symbolic links *)

Variables (fsys_table : list fsys_entry) (gunzip_read : Z -> Z -> files -> option (Z * files)) (hack : Z) (z : gz).
Variable linkbuf : Z.
Hypothesis link_place : file_place mem_lower mem_upper linkbuf PATH_MAX.

Abbreviation read := (call_grub_read b mem_lower mem_upper fsys_table gunzip_read hack z).

(** A file of the file system is being looked up. *)
Record ready (s : fs) : Prop := {
  ry_pos : filepos s = 0;
  ry_max : fsmax s = MAXINT;
  ry_plain : compressed_file s = false;
  ry_block : block_file s = false;
  ry_read : read_func <$> fsys_table !! Z.to_nat (fsys_type s) = Some (ext2fs_read b mem_lower mem_upper);
  ry_quiet : print_possibilities s = 0 }.

Definition scratch (a : Z) : Prop := in_buffer a \/ in_fsys a \/ linkbuf <= a < linkbuf + PATH_MAX.

(** What a step leaves alone. *)
Record kept (s s' : fs) : Prop := {
  kp_conf : same_conf s s';
  kp_ready : ready s -> ready s';
  kp_frame : forall a, ~ scratch a -> ld (f_mem s') a = ld (f_mem s) a }.

Lemma kept_trans s1 s2 s3 : kept s1 s2 -> kept s2 s3 -> kept s1 s3.
Proof.
  intros [C1 R1 F1] [C2 R2 F2]. constructor; [by eapply same_conf_trans | auto |]. intros a Ha. rewrite F2 by done. by apply F1.
Qed.

Definition name_text (p : list Z) : Prop := Forall (fun c => 0 < c < 256 /\ grub_isspace (s8 c) = false) p.

Lemma name_length_ok p : forall fuel m a, name_text p -> (forall i : nat, (i < length p)%nat -> ld m (a + Z.of_nat i) = nth i p 0) ->
  (let c := ld m (a + Z.of_nat (length p)) in (c =? 0) || grub_isspace (s8 c) = true) -> (length p < fuel)%nat ->
  name_length fuel m a = Z.of_nat (length p).
Proof.
  induction p as [|c p IH]; intros [|fuel] m a Hp Hm He Hf; cbn [length] in *; try lia; cbn [name_length].
  - rewrite Z.add_0_r in He. by rewrite He.
  - apply Forall_cons_iff in Hp as [[Hc1 Hc2] Hp]. pose proof (Hm 0%nat ltac:(lia)) as H0. cbn in H0. rewrite Z.add_0_r in H0.
    rewrite H0, Hc2, (proj2 (Z.eqb_neq _ _)) by lia. cbn [orb]. rewrite (IH fuel m (a + 1)); [lia | done | | | lia].
    + intros i Hi. rewrite <- (Hm (S i) ltac:(lia) : _ = nth i p 0). f_equal. lia.
    + replace (a + 1 + Z.of_nat (length p)) with (a + Z.of_nat (S (length p))) by lia. done.
Qed.

(** The field of the inode at [o]. *)
Lemma inode_field ip s o : ext2_open ip s -> 0 <= o <= 124 -> ld32 (f_mem s) (INODE (f_mem s) + o) = byte32 byte (ip + o).
Proof.
  intros O Ho. destruct (super_sizes part_length x vol _ (co_super _ _ _ _ _ _ _ _ _ (eo_core _ _ _ _ _ _ _ _ _ _ O))) as (_ & _ & _ & _ & -> & _).
  apply byte32_bytes. intros i Hi. rewrite <- !Z.add_assoc. apply O. unfold inode_size. lia.
Qed.

Lemma fast_link_ok ino s : ext2_open (inode_pos ino) s -> ext2_is_fast_symlink (f_mem s) = fast_link byte x ino.
Proof.
  intros O. unfold ext2_is_fast_symlink, fast_link, i_blocks, i_file_acl. rewrite !(inode_field (inode_pos ino) s) by (done || lia).
  destruct (super_sizes part_length x vol _ (co_super _ _ _ _ _ _ _ _ _ (eo_core _ _ _ _ _ _ _ _ _ _ O))) as (_ & -> & _).
  by destruct (block_sectors part_length x vol 0) as [-> _].
Qed.


Lemma write_kept ip s m : ext2_open ip s -> (forall a, ~ (linkbuf <= a < linkbuf + PATH_MAX) -> ld m a = ld (f_mem s) a) ->
  ext2_open ip (set_fmem m s) /\ kept s (set_fmem m s).
Proof.
  intros O F. split.
  - apply (ext2_write b mem_lower mem_upper drive part_start part_length byte x vol); [done |]. intros a Ha. apply F. intros Hl.
    destruct link_place as [T Hf]. destruct Ha as [Ha | Ha]; [by apply (tg_apart _ _ _ _ T a) | by apply (Hf a)].
  - constructor; [done | intros []; by constructor |]. intros a Ha. apply F. unfold scratch in Ha. tauto.
Qed.

Lemma link_range : mem_ok mem_lower mem_upper linkbuf PATH_MAX /\ 0x1000 <= linkbuf /\ linkbuf + PATH_MAX < 2147483648.
Proof. destruct link_place as [[T1 T2 T3 T4 T5] _]. unfold mem_ok in *. lia. Qed.

(** The rest of the path is moved to where the link's text will end. *)
Lemma rest_moved ip s p tail dirname size : ext2_open ip s -> cstr_at (f_mem s) dirname (p ++ tail) -> 0 <= size -> size + Z.of_nat (length p) <= PATH_MAX - 2 ->
  exists m, let s1 := set_fmem m s in
    (if Z.of_nat (length p) =? 0 then s else fs_memmove mem_lower mem_upper (linkbuf + size) dirname (Z.of_nat (length p)) s) = s1 /\
    ext2_open ip s1 /\ kept s s1 /\ (forall (i : nat) c, p !! i = Some c -> ld m (linkbuf + (size + Z.of_nat i)) = c).
Proof.
  intros O C Hs Hl. pose proof link_range as (L1 & L2 & L3). unfold PATH_MAX in *.
  destruct (Z.eqb_spec (Z.of_nat (length p)) 0) as [E | E].
  - exists (f_mem s). assert (set_fmem (f_mem s) s = s) as Es by (by destruct s as [[[]]]). cbn zeta. rewrite Es.
    split; [done |]. split; [done |]. split; [by constructor |]. intros i c Hi. apply lookup_lt_Some in Hi. lia.
  - destruct (fs_memmove_ok (linkbuf + size) dirname (Z.of_nat (length p)) s) as (m & Em & Cm);
      [apply (core_no_error _ (eo_core _ _ _ _ _ _ _ _ _ _ O)) | lia | lia | unfold mem_ok in *; lia |].
    exists m. split; [done |]. destruct (write_kept ip s m O) as [O1 K1].
    { intros a Ha. unfold PATH_MAX in Ha. rewrite Cm, decide_False by lia. done. }
    split; [done |]. split; [done |]. intros i c Hi. pose proof (lookup_lt_Some _ _ _ Hi). rewrite Cm, decide_True by lia.
    destruct C as (_ & C & _). rewrite <- (C i c) by (rewrite lookup_app_l by lia; done). f_equal. lia.
Qed.

(** The text that is read in front of it. *)
Lemma text_joined m t p size : size = Z.of_nat (length t) -> is_cstr t -> is_cstr p ->
  (forall (i : nat) c, t !! i = Some c -> ld m (linkbuf + Z.of_nat i) = c) ->
  (forall (i : nat) c, p !! i = Some c -> ld m (linkbuf + (size + Z.of_nat i)) = c) ->
  ld m (linkbuf + (size + Z.of_nat (length p))) = 0 -> cstr_at m linkbuf (t ++ p).
Proof.
  intros -> Ht Hp H1 H2 H3. split; [by apply is_cstr_app |]. split.
  - intros i c Hi. destruct (decide (i < length t)%nat).
    + apply H1. by rewrite lookup_app_l in Hi by done.
    + rewrite lookup_app_r in Hi by lia. rewrite <- (H2 (i - length t)%nat c Hi). f_equal. lia.
  - rewrite length_app, Nat2Z.inj_add. done.
Qed.

(** The link's text, from the inode or from its file. *)
Definition read_text (s : fs) : option (bool * fs) :=
  if negb (ext2_is_fast_symlink (f_mem s))
  then '(len, s) ← read linkbuf (filemax s) s; Some (negb (len =? 0), set_pos 0 s)
  else Some (true, fs_memmove mem_lower mem_upper linkbuf (INODE (f_mem s) + 40) (filemax s) s).

Lemma read_text_ok ino s : ext2_open (inode_pos ino) s -> ready s -> filemax s = ino_size byte x ino ->
  ino_size byte x ino <= PATH_MAX - 2 -> link_sound byte x part_length ino ->
  exists s', read_text s = Some (true, s') /\ core s' /\ kept s s' /\
    (forall i, 0 <= i < ino_size byte x ino -> ld (f_mem s') (linkbuf + i) = if fast_link byte x ino then byte (inode_pos ino + 40 + i) else ino_byte byte x ino i) /\
    (forall a, linkbuf + ino_size byte x ino <= a < linkbuf + PATH_MAX -> ld (f_mem s') a = ld (f_mem s) a).
Proof.
  intros O Rd Em Hs [_ Hl]. unfold read_text. rewrite (fast_link_ok ino s O), Em. set (size := ino_size byte x ino) in *.
  pose proof link_range as (L1 & L2 & L3). unfold PATH_MAX in *.
  assert (0 <= size) as Hs0 by (by apply (byte32_range byte bytes_ok)).
  destruct (fast_link byte x ino); cbn [negb].
  - destruct (fs_memmove_ok linkbuf (INODE (f_mem s) + 40) size s) as (m & Ef & Cm);
      [apply (core_no_error _ (eo_core _ _ _ _ _ _ _ _ _ _ O)) | lia | lia | unfold mem_ok in *; lia |].
    destruct (write_kept (inode_pos ino) s m O) as [O1 K1].
    { intros a Ha. unfold PATH_MAX in Ha. rewrite Cm, decide_False by lia. done. }
    exists (set_fmem m s). rewrite Ef. split; [done |]. split; [apply (eo_core _ _ _ _ _ _ _ _ _ _ O1) |]. split; [done |]. split.
    + intros i Hi. change (f_mem (set_fmem m s)) with m. rewrite Cm, decide_True by lia.
      destruct (super_sizes part_length x vol _ (co_super _ _ _ _ _ _ _ _ _ (eo_core _ _ _ _ _ _ _ _ _ _ O))) as (_ & _ & _ & _ & -> & _).
      rewrite <- (Z.add_assoc (inode_pos ino)), <- (eo_inode _ _ _ _ _ _ _ _ _ _ O) by (unfold inode_size; lia). f_equal. lia.
    + intros a Ha. change (f_mem (set_fmem m s)) with m. rewrite Cm, decide_False by lia. done.
  - destruct Hl as [Hpos Hin]. unfold call_grub_read. assert (0 <= size <= MAXINT) as Hmax by (unfold MAXINT; lia).
    pose (Rdr := ext2_reader b mem_lower mem_upper drive part_start part_length byte x vol lower_memory upper_memory (inode_pos ino) size Hmax Hin).
    destruct Rd as [Q1 Q2 Q3 Q4 Q5 Q6]. assert (read_from size 0 = 0) as E0.
    { unfold read_from. by rewrite (proj2 (Z.ltb_ge size 0)) by lia. }
    assert (read_count size 0 size = size) as Ec by (unfold read_count; rewrite E0, Z.sub_0_r, Z.ltb_irrefl, (proj2 (Z.ltb_ge size 0)) by lia; done).
    destruct (grub_read_ok b mem_lower mem_upper fsys_table (ext2fs_read b mem_lower mem_upper) (ino_byte byte x ino) size gunzip_read linkbuf size (Files s hack z))
      as (s' & -> & O' & M & B & F).
    { constructor; try done. unfold active_read. cbn [g_fs]. by rewrite Q4. }
    { cbn [g_fs]. rewrite Q1, Ec. apply (place_prefix mem_lower mem_upper linkbuf 1024); [exact link_place | lia]. }
    cbn [g_fs] in *. rewrite Q1, E0, Ec in *. cbn [mbind option_bind]. destruct O' as [_ _ _ _ O'].
    set (s2 := set_pos 0 s'). assert (ext2_open (inode_pos ino) s2) as O2 by by apply (ext2_seek b mem_lower mem_upper drive part_start part_length byte x).
    assert (forall a, ~ in_buffer a -> ~ in_fsys a -> ~ (linkbuf <= a < linkbuf + size) -> ld (f_mem s2) a = ld (f_mem s) a) as F2 by exact F.
    exists s2. rewrite (proj2 (Z.eqb_neq size 0)) by lia. split; [done |]. split; [apply (eo_core _ _ _ _ _ _ _ _ _ _ O2) |]. split; [| split].
    + destruct M as (d & h & u & w & ->). constructor; [done | by constructor |]. unfold scratch, PATH_MAX. intros a Ha. apply F2; [tauto | tauto | lia].
    + intros i Hi. apply (B i Hi).
    + intros a Ha. destruct link_place as [T Hf]. apply F2; [apply (tg_apart _ _ _ _ T); unfold PATH_MAX; lia | apply Hf; unfold PATH_MAX; lia | lia].
Qed.

(** What is left of the path: [p] at [a], and what follows it. *)
Record at_text (p tail : list Z) (a : Z) (s : fs) : Prop := {
  at_cstr : cstr_at (f_mem s) a (p ++ tail);
  at_name : name_text p;
  at_tail : path_tail tail;
  at_length : Z.of_nat (length (p ++ tail)) < 65536;
  at_apart : forall y, a <= y <= a + Z.of_nat (length (p ++ tail)) -> ~ in_buffer y /\ ~ in_fsys y }.

Lemma at_text_after p tail a s s' : at_text p tail a s -> (forall y, ~ in_buffer y -> ~ in_fsys y -> ld (f_mem s') y = ld (f_mem s) y) -> at_text p tail a s'.
Proof.
  intros [C N T L A] F. constructor; try done. eapply cstr_at_frame; [| exact C]. intros y Hy. destruct (A y Hy). by apply F.
Qed.

Lemma at_char p tail a s (i : nat) : at_text p tail a s -> (i <= length (p ++ tail))%nat -> ld (f_mem s) (a + Z.of_nat i) = nth i (p ++ tail) 0.
Proof. intros T Hi. apply (cstr_char _ _ _ _ (at_cstr _ _ _ _ T) Hi). Qed.

Lemma tail_ends tail : path_tail tail -> let c := nth 0 tail 0 in (c =? 0) || grub_isspace (s8 c) = true.
Proof. intros [_ Hh]. destruct tail as [|c t]; [done |]. cbn. rewrite Hh. apply orb_true_r. Qed.

Lemma at_end p tail a s : at_text p tail a s -> let c := ld (f_mem s) (a + Z.of_nat (length p)) in (c =? 0) || grub_isspace (s8 c) = true.
Proof.
  intros T c. subst c. rewrite (at_char p tail a s) by (rewrite ?length_app; done || lia). rewrite app_nth2, Nat.sub_diag by lia. apply tail_ends, T.
Qed.

Lemma at_length_ok p tail a s : at_text p tail a s -> name_length (Z.to_nat 0x10000) (f_mem s) a = Z.of_nat (length p).
Proof.
  intros T. pose proof (at_length _ _ _ _ T) as Hl. rewrite length_app in Hl. apply name_length_ok; [apply T | | by apply (at_end p tail) | lia].
  intros i Hi. rewrite (at_char p tail) by (rewrite ?length_app; done || lia). by rewrite app_nth1.
Qed.

(** The path through a link. *)
Lemma chase_link_ok ino n p tail a s : ext2_open (inode_pos ino) s -> ready s -> at_text p tail a s -> n <= MAX_LINK_COUNT ->
  ino_size byte x ino + Z.of_nat (length p) <= PATH_MAX - 2 -> link_sound byte x part_length ino ->
  exists s', chase_link mem_lower mem_upper read linkbuf n a s = Some (true, s') /\ core s' /\ ready s' /\ kept s s' /\
    at_text (link_text byte x ino ++ p) [] linkbuf s'.
Proof.
  intros O Rd T Hn Hl Hs. set (size := ino_size byte x ino) in *. pose proof link_range as (L1 & L2 & L3).
  assert (0 <= size) as Hs0 by (by apply (byte32_range byte bytes_ok)). unfold PATH_MAX in Hl.
  unfold chase_link. rewrite (proj2 (Z.ltb_ge _ _)) by done. rewrite (at_length_ok p tail a s T).
  assert (i_size (f_mem s) = size) as -> by (apply (inode_field (inode_pos ino) s 4 O); lia).
  rewrite s32_small by lia. set (s1 := set_file (filepos s) size s).
  assert (ext2_open (inode_pos ino) s1) as O1 by (destruct O as [[[O1 O2 O3 O4] S] I M1 M2]; constructor; [constructor; [by constructor | exact S] | exact I | exact M1 | exact M2]).
  assert (kept s s1) as K1 by (constructor; [done | intros []; by constructor | done]).
  cbn zeta. change (filemax s1) with size. rewrite u32_small, (proj2 (Z.ltb_ge _ _)) by (unfold PATH_MAX; lia).
  destruct (rest_moved (inode_pos ino) s1 p tail a size O1 (at_cstr _ _ _ _ T) Hs0 ltac:(unfold PATH_MAX; lia)) as (m & -> & O2 & K2 & B2).
  set (s2 := set_fmem m s1) in *. change (filemax s2) with size. change (f_mem s2) with m.
  destruct (write_kept (inode_pos ino) s2 (st m (linkbuf + (size + Z.of_nat (length p))) 0) O2) as [O3 K3].
  { intros y Hy. apply ld_st_ne. unfold PATH_MAX in Hy. lia. }
  set (s3 := set_fmem _ s2) in *.
  pose proof (kept_trans _ _ _ K1 (kept_trans _ _ _ K2 K3)) as K13. pose proof (kp_ready _ _ K13 Rd) as R3.
  destruct (read_text_ok ino s3 O3 R3 eq_refl ltac:(unfold PATH_MAX; fold size; lia) Hs) as (s4 & E4 & C4 & K4 & B4 & F4).
  unfold read_text in E4. rewrite E4. exists s4. split; [done |]. split; [done |]. pose proof (kept_trans _ _ _ K13 K4) as K.
  split; [by apply (kp_ready _ _ K) |]. split; [done |].
  assert (length (link_text byte x ino) = Z.to_nat size) as Elen by (unfold link_text; by rewrite length_map, length_seqZ).
  destruct Hs as [Ht _]. assert (Z.of_nat (length (link_text byte x ino ++ p)) = size + Z.of_nat (length p)) as El by (rewrite length_app; lia).
  constructor; rewrite ?app_nil_r.
  - apply (text_joined _ _ _ size); [lia | eapply Forall_impl; [| exact Ht]; tauto | eapply Forall_impl; [| apply T]; tauto | | |].
    + intros i c Hi. pose proof (lookup_lt_Some _ _ _ Hi). rewrite B4 by (fold size; lia). unfold link_text in Hi.
      apply list_lookup_fmap_Some in Hi as (j & -> & Hj). apply lookup_seqZ in Hj as [-> _]. done.
    + intros i c Hi. pose proof (lookup_lt_Some _ _ _ Hi). rewrite F4 by (fold size; unfold PATH_MAX; lia).
      change (f_mem s3) with (st m (linkbuf + (size + Z.of_nat (length p))) 0). rewrite ld_st_ne by lia. by apply B2.
    + rewrite F4 by (fold size; unfold PATH_MAX; lia). apply ld_st_eq.
  - apply Forall_app. split; [done | apply T].
  - split; [constructor | done].
  - rewrite El. lia.
  - intros y Hy. rewrite El in Hy. destruct link_place as [[] Hf]. split; [apply tg_apart | apply Hf]; unfold PATH_MAX; lia.
Qed.

Lemma chase_refused ino n p tail a s : ext2_open (inode_pos ino) s -> ready s -> at_text p tail a s ->
  MAX_LINK_COUNT < n \/ (PATH_MAX - 2 < ino_size byte x ino + Z.of_nat (length p) /\ ino_size byte x ino < 2147483648) ->
  exists s', chase_link mem_lower mem_upper read linkbuf n a s = Some (false, s') /\ kept s s' /\
    f_err s' = if MAX_LINK_COUNT <? n then ERR_SYMLINK_LOOP else ERR_FILELENGTH.
Proof.
  intros O Rd T H. unfold chase_link. destruct (Z.ltb_spec MAX_LINK_COUNT n) as [Hn | Hn].
  { exists (set_ferr ERR_SYMLINK_LOOP s). split; [done |]. split; [constructor; [done | intros []; by constructor | done] | done]. }
  destruct H as [H | [H Hs]]; [lia |]. set (size := ino_size byte x ino) in *. assert (0 <= size) as Hs0 by (by apply (byte32_range byte bytes_ok)).
  rewrite (at_length_ok p tail a s T). assert (i_size (f_mem s) = size) as -> by (apply (inode_field (inode_pos ino) s 4 O); lia).
  rewrite s32_small by lia. cbn zeta. change (filemax (set_file _ _ _)) with size. pose proof (at_length _ _ _ _ T) as Hl. rewrite length_app in Hl.
  rewrite u32_small, (proj2 (Z.ltb_lt _ _)) by lia. eexists. split; [done |]. split; [constructor; [done | intros []; by constructor | done] | done].
Qed.

(** *** Searching a directory *)

Variable limit : Z.
Hypothesis limit_ok : limit <= 2147479552.

Section Directory.
Variables (ino : Z) (l0 : list (list Z * Z)).
Hypothesis dir : directory byte x part_length limit ino l0.

Abbreviation ip := (inode_pos ino).
Abbreviation size := (ino_size byte x ino).
Abbreviation D := (ino_byte byte x ino).
Abbreviation mapped := (mapped b mem_lower mem_upper drive part_start part_length byte x ip).

Lemma mapped_trans s1 s2 s3 : mapped s1 s2 -> mapped s2 s3 -> mapped s1 s3.
Proof.
  intros [(d & u & w & ->) O1 F1] [(d' & u' & w' & ->) O2 F2]. constructor; [by exists d', u', w' | done |]. intros a H1 H2. rewrite F2 by done. by apply F1.
Qed.

(** The block of the entry at [p], and the entry. *)
Lemma entry_loaded p s : ext2_open ip s -> entry_sound x D size p ->
  exists s1 s2, let map := file_block byte x ip (p / bs) in let off := p mod bs in
    ext2fs_block_map b mem_lower mem_upper (p .>> EXT2_BLOCK_SIZE_BITS (f_mem s)) s = Some (map, s1) /\ 0 < map /\
    ext2_rdfsb b mem_lower mem_upper map (DATABLOCK2 (f_mem (set_maps (mapblock1 s1) (-1) s1))) (set_maps (mapblock1 s1) (-1) s1) = Some (1, s2) /\
    mapped s s2 /\ DATABLOCK2 (f_mem s2) + (p .& (EXT2_BLOCK_SIZE (f_mem s2) - 1)) = data2_buf x + off /\
    (forall i, 0 <= i < byte16 D (p + 4) -> ld (f_mem s2) (data2_buf x + off + i) = D (p + i)).
Proof.
  intros O (Hp & Hrec & Hoff & Hname). destruct (dr_size _ _ _ _ _ _ dir) as [_ Hmax]. destruct (bufs part_length x vol) as (B1 & B2 & B3 & B4 & B5).
  assert (bs = 2 ^ x_bits x /\ 0 <= x_bits x) as [Eb Hx] by (split; [done | pose proof (xo_bits _ _ vol); lia]).
  destruct (super_sizes part_length x vol _ (co_super _ _ _ _ _ _ _ _ _ (eo_core _ _ _ _ _ _ _ _ _ _ O))) as (-> & _).
  destruct (pow_ops (x_bits x) p Hx) as [-> Em]. rewrite <- Eb in *.
  pose proof (Z.div_mod p bs ltac:(lia)) as Hd. pose proof (Z.mod_pos_bound p bs ltac:(lia)) as Hm.
  assert (0 <= p / bs) as Hq by (apply Z.div_pos; lia).
  destruct (dr_inside _ _ _ _ _ _ dir (p / bs) Hq ltac:(nia)) as [K1 K2]. pose proof (dr_stored _ _ _ _ _ _ dir (p / bs) Hq ltac:(nia)) as K3.
  destruct (block_map_ok b mem_lower mem_upper drive part_start part_length byte x vol lower_memory upper_memory ip (p / bs) s O ltac:(nia) K1 K2) as (s1 & E1 & M1).
  pose proof (forget_second b mem_lower mem_upper drive part_start part_length byte x ip s1 (mp_open _ _ _ _ _ _ _ _ _ _ _ M1)) as O2. set (s1' := set_maps _ (-1) s1) in *.
  destruct (super_sizes part_length x vol _ (co_super _ _ _ _ _ _ _ _ _ (eo_core _ _ _ _ _ _ _ _ _ _ O2))) as (_ & _ & _ & _ & _ & _ & Ed2).
  destruct (ext2_rdfsb_ok b mem_lower mem_upper drive part_start part_length byte x vol lower_memory upper_memory (file_block byte x ip (p / bs)) (data2_buf x) s1'
    (eo_core _ _ _ _ _ _ _ _ _ _ O2) K1) as (d & E2 & C & L & F); [unfold super_size; lia | lia |].
  pose proof (ext2_open_after b mem_lower mem_upper drive part_start part_length byte x vol ip s1' d (mapblock1 s1) (-1) O2 C) as O3.
  set (s2 := set_fdisk d s1') in *. exists s1, s2. split; [done |]. split; [done |]. cbn zeta. fold s1'. rewrite Ed2. split; [done |].
  destruct (super_sizes part_length x vol _ (co_super _ _ _ _ _ _ _ _ _ C)) as (_ & -> & _ & _ & _ & _ & ->). rewrite Em.
  split; [| split; [done |]].
  - destruct M1 as [(d1 & u & w & E) O1 F1]. pose proof (eo_map1 _ _ _ _ _ _ _ _ _ _ O2) as Hm1. change (f_mem s1') with (f_mem s1) in *.
    assert (forall a, ~ in_buffer a -> ~ in_data x a -> ld (d_mem d) a = ld (f_mem s1) a) as Fd.
    { intros a A1 A2. apply F; [done |]. unfold in_data in A2. lia. }
    constructor; [exists d, (mapblock1 s1), (-1); unfold s2, s1'; by rewrite E | | intros a A1 A2; rewrite <- F1 by done; by apply Fd].
    apply O3; [done | | lia]. intros Hn. eapply loaded_frame; [by apply (Hm1 (mapblock1 s1)) |].
    intros a Ha. apply F; [apply not_buffer; lia | lia].
  - intros i Hi. change (f_mem s2) with (d_mem d). rewrite <- Z.add_assoc, L by lia. unfold ino_byte, file_byte.
    destruct (div_mod_block p i bs (p / bs) (p mod bs)) as [-> ->]; try lia. by rewrite (proj2 (Z.eqb_neq _ 0)) by lia.
Qed.

(** The name that is sought, and where it ends. *)
Variables (n : list Z) (a ch : Z).
Hypothesis n_text : is_cstr n.
Hypothesis n_length : Z.of_nat (length n) < 65536.
Hypothesis n_apart : forall y, a <= y <= a + Z.of_nat (length n) -> ~ in_buffer y /\ ~ in_fsys y.

Abbreviation rest := (a + Z.of_nat (length n)).
Abbreviation search_entries := (search_entries b mem_lower mem_upper current_term max_lines).

Record sought (s : fs) : Prop := {
  so_open : ext2_open ip s;
  so_name : cstr_at (f_mem s) a n;
  so_quiet : print_possibilities s = 0 }.

Lemma sought_after s s' : sought s -> mapped s s' -> sought s'.
Proof.
  intros [O C Q] [(d & u & w & ->) O' F]. constructor; [done | | done]. eapply cstr_at_frame; [| exact C]. intros y Hy.
  destruct (n_apart y Hy) as [H1 H2]. apply F; [done |]. destruct (bufs part_length x vol). unfold in_data, in_fsys in *. lia.
Qed.

Lemma read_word m at_ p k : (forall i, 0 <= i < k -> ld m (at_ + i) = D (p + i)) -> 8 <= k ->
  d_inode m at_ = byte32 D p /\ d_rec_len m at_ = byte16 D (p + 4) /\ d_name_len m at_ = D (p + 6).
Proof.
  intros H Hk. split; [| split].
  - unfold d_inode. apply byte32_bytes. intros i Hi. apply H. lia.
  - unfold d_rec_len, ld16, byte16. rewrite H by lia. rewrite <- Z.add_assoc, H by lia. by rewrite <- !Z.add_assoc.
  - unfold d_name_len. by apply H; lia.
Qed.

(** The comparison, with a zero in the place of the byte after the entry's name. *)
Lemma entry_compared s dp p k : sought s -> (forall i, 0 <= i < k -> ld (f_mem s) (dp + i) = D (p + i)) -> 8 + D (p + 6) <= k ->
  is_cstr (entry_bytes D p (D (p + 6))) -> 0 <= D (p + 6) < 256 -> FSYS_BUF <= dp -> dp + 8 + D (p + 6) < FSYS_BUF + 0x8000 ->
  let m := st (f_mem s) (dp + 8 + D (p + 6)) 0 in
  (substring (cstring m a) (cstring m (dp + 8)) =? 0) = bool_decide (entry_bytes D p (D (p + 6)) = n).
Proof.
  intros S B Hk Hc Hr H1 H2 m. assert (length (entry_bytes D p (D (p + 6))) = Z.to_nat (D (p + 6))) as El by (unfold entry_bytes; by rewrite length_map, length_seqZ).
  rewrite (cstring_bytes m a n), (cstring_bytes m (dp + 8) (entry_bytes D p (D (p + 6)))).
  - by apply substring_equal.
  - split; [done |]. split.
    + intros i c Hi. pose proof (lookup_lt_Some _ _ _ Hi) as Hl. rewrite El in Hl. subst m. rewrite ld_st_ne by lia.
      unfold entry_bytes in Hi. apply list_lookup_fmap_Some in Hi as (j & -> & Hj). apply lookup_seqZ in Hj as [-> _].
      rewrite <- Z.add_assoc, B by lia. done.
    + rewrite El, Z2Nat.id by lia. apply ld_st_eq.
  - rewrite El. lia.
  - eapply cstr_at_frame; [| apply S]. intros y Hy. apply ld_st_ne. intros <-. destruct (n_apart _ Hy) as [_ Hf]. apply Hf. unfold in_fsys. lia.
  - done.
Qed.

Lemma restored_open s last c : ext2_open ip s -> c = ld (f_mem s) last -> mapped s (set_fmem (st (st (f_mem s) last 0) last c) s).
Proof.
  intros O ->. assert (forall y, ld (st (st (f_mem s) last 0) last (ld (f_mem s) last)) y = ld (f_mem s) y) as E.
  { intros y. destruct (decide (y = last)) as [-> | H]; [apply ld_st_eq | by rewrite !ld_st_ne]. }
  constructor; [| | intros y _ _; apply E].
  - exists (set_mem (st (st (f_mem s) last 0) last (ld (f_mem s) last)) (f_disk s)), (mapblock1 s), (mapblock2 s). by destruct s.
  - apply (ext2_write b mem_lower mem_upper drive part_start part_length byte x vol); [done |]. intros y _. apply E.
Qed.

Lemma next_entry p : entry_sound x D size p -> p + 8 <= p + byte16 D (p + 4) < 2147483648.
Proof.
  intros ((Hp1 & Hp2) & Hrec & Hoff & _). assert (0 <= D (p + 6)) by (unfold ino_byte, file_byte; destruct (_ =? 0); [lia | apply bytes_ok]).
  destruct (dr_size _ _ _ _ _ _ dir) as [_ Hmax]. destruct (bufs part_length x vol) as (_ & _ & _ & _ & Hbs).
  pose proof (Z.mod_pos_bound p bs ltac:(lia)). lia.
Qed.

(** One turn of the loop. *)
Lemma entry_turn f p str s : sought s -> entry_sound x D size p ->
  exists dp str' s', mapped s s' /\ d_inode (f_mem s') dp = byte32 D p /\
    search_entries (S f) a rest ch p str s =
      if negb (byte32 D p =? 0) && bool_decide (entry_bytes D p (D (p + 6)) = n) then Some (Entry dp, s')
      else search_entries f a rest ch (p + byte16 D (p + 4)) str' s'.
Proof.
  intros So Sd. pose proof Sd as ((Hp1 & Hp2) & Hrec & Hoff & Hname). destruct (dr_size _ _ _ _ _ _ dir) as [Hpos Hmax].
  destruct (entry_loaded p s (so_open _ So) Sd) as (s1 & s2 & E1 & K & E2 & M & Edp & B). cbn zeta in *.
  destruct (bufs part_length x vol) as (B1 & B2 & B3 & B4 & B5). pose proof (Z.mod_pos_bound p bs ltac:(lia)) as Hm.
  pose proof (sought_after _ _ So M) as So2. set (dp := data2_buf x + p mod bs) in *.
  pose proof (next_entry p Sd) as Hnext. assert (0 <= D (p + 6) < 256) as Hn6.
  { unfold ino_byte, file_byte. destruct (_ =? 0); [lia | apply bytes_ok]. }
  destruct (read_word (f_mem s2) dp p (byte16 D (p + 4)) B ltac:(lia)) as (F1 & F2 & F3).
  cbn [GrubExt2Dir.search_entries]. assert (i_size (f_mem s) = size) as -> by (apply (inode_field ip s 4 (so_open _ So)); lia).
  rewrite u32_small, (proj2 (Z.leb_gt _ _)) by lia. rewrite E1. cbn [mbind option_bind]. rewrite (proj2 (Z.ltb_ge _ 0)) by lia. rewrite E2. cbn [mbind option_bind].
  change (1 =? 0) with false. cbn iota zeta. rewrite Edp, F1, F2, F3. unfold d_name. rewrite s32_small by lia.
  destruct (Z.eqb_spec (byte32 D p) 0) as [E0 | E0]; cbn [negb andb].
  - exists dp, str, s2. split; [done |]. split; [done |]. cbn [mbind option_bind]. by rewrite F1, E0.
  - set (last := dp + 8 + D (p + 6)). set (m := st (f_mem s2) last 0). change (print_possibilities (set_fmem m s2)) with (print_possibilities s2).
    rewrite (so_quiet _ So2). change (negb (0 =? 0)) with false. cbn [andb]. cbn [mbind option_bind]. change (f_mem (set_fmem m s2)) with m.
    change (set_fmem (st m last (ld (f_mem s2) last)) (set_fmem m s2)) with (set_fmem (st m last (ld (f_mem s2) last)) s2).
    set (s3 := set_fmem _ s2). pose proof (restored_open s2 last _ (so_open _ So2) eq_refl) as M3. fold m s3 in M3.
    assert (d_inode (f_mem s3) dp = byte32 D p) as F4.
    { rewrite <- F1. unfold d_inode. apply ld32_frame. intros y Hy. change (ld (st m last (ld (f_mem s2) last)) y = ld (f_mem s2) y).
      subst m. destruct (decide (y = last)) as [-> |]; [apply ld_st_eq | by rewrite !ld_st_ne]. }
    exists dp, (substring (cstring m a) (cstring m (dp + 8))), s3. split; [by eapply mapped_trans |]. split; [done |].
    change (print_possibilities s3) with (print_possibilities s2). rewrite (so_quiet _ So2), F4, (proj2 (Z.eqb_neq _ 0)) by done.
    change (negb (0 =? 0)) with false. cbn [andb orb]. rewrite orb_false_r.
    pose proof (entry_compared s2 dp p (byte16 D (p + 4)) So2 B ltac:(lia) Hname Hn6 ltac:(lia) ltac:(lia)) as Hc. cbn zeta in Hc.
    fold last m in Hc. rewrite Hc. by destruct (bool_decide _).
Qed.

Definition searched (l : list (list Z * Z)) (s : fs) (r : option (search * fs)) : Prop :=
  match entry_named n l with
  | Some k => exists dp s', r = Some (Entry dp, s') /\ mapped s s' /\ d_inode (f_mem s') dp = k
  | None => exists s', mapped s s' /\ r = Some (Return 0, let s := set_ferr ERR_FILE_NOT_FOUND s' in set_fmem (st (f_mem s) rest ch) s)
  end.

Lemma search_after l s1 s2 r : mapped s1 s2 -> searched l s2 r -> searched l s1 r.
Proof.
  unfold searched. intros M H. destruct (entry_named n l) as [k |].
  - destruct H as (dp & s' & -> & M' & E). exists dp, s'. split; [done |]. split; [by eapply mapped_trans | done].
  - destruct H as (s' & M' & ->). exists s'. split; [by eapply mapped_trans | done].
Qed.

Lemma search_ok p l : entries x D size p l -> forall fuel str s, sought s -> 0 <= p < 2147483648 ->
  size - p + 8 <= 8 * Z.of_nat fuel -> (1 <= fuel)%nat -> searched l s (search_entries fuel a rest ch p str s).
Proof.
  induction 1 as [p Hend | p l Sd E L IH | p l Sd E L IH]; intros [|f] str s So Hp Hf H1; try lia.
  - cbn [GrubExt2Dir.search_entries]. assert (i_size (f_mem s) = size) as -> by (apply (inode_field ip s 4 (so_open _ So)); lia).
    rewrite u32_small, (proj2 (Z.leb_le _ _)) by lia. rewrite (so_quiet _ So). change (0 <? 0) with false. cbn iota.
    exists s. split; [| done]. constructor; [| apply So | done]. exists (f_disk s), (mapblock1 s), (mapblock2 s). by destruct s.
  - destruct (entry_turn f p str s So Sd) as (dp & str' & s' & M & Ed & ->). rewrite E, Z.eqb_refl. cbn [negb andb].
    pose proof (next_entry p Sd). pose proof (proj1 Sd) as Hpp. eapply search_after; [exact M |]. apply IH; [by eapply sought_after | lia | lia | lia].
  - destruct (entry_turn f p str s So Sd) as (dp & str' & s' & M & Ed & ->). rewrite (proj2 (Z.eqb_neq _ 0)) by done. cbn [negb andb].
    pose proof (next_entry p Sd). pose proof (proj1 Sd) as Hpp. unfold searched, entry_named. cbn [find fst]. destruct (bool_decide _).
    + by exists dp, s'.
    + eapply search_after; [exact M |]. apply IH; [by eapply sought_after | lia | lia | lia].
Qed.
End Directory.

(** *** The names of a path *)

Lemma strip_split p : exists l, p = l ++ strip_slashes p /\ Forall (fun c => c = 47) l /\ hd 0 (strip_slashes p) <> 47.
Proof.
  induction p as [|c p (l & E & Hl & Hh)]; [by exists [] |]. cbn [strip_slashes]. unfold is_slash. destruct (Z.eqb_spec c 47) as [-> | Hc].
  - exists (47 :: l). split; [cbn; by f_equal | split; [by constructor | done]].
  - exists []. split; [done |]. split; [constructor | done].
Qed.

Lemma name_split p : p = first_name p ++ after_name p /\ Forall (fun c => c <> 47) (first_name p) /\ (after_name p = [] \/ hd 0 (after_name p) = 47).
Proof.
  induction p as [|c p (E & Hn & Ha)]; [by split; [| split; [| left]] |]. cbn [first_name after_name]. unfold is_slash. destruct (Z.eqb_spec c 47) as [-> | Hc].
  - split; [done |]. split; [constructor | by right].
  - split; [cbn; by f_equal |]. split; [by constructor | done].
Qed.

Lemma names_shorter p : p <> [] -> (length (after_name (strip_slashes p)) < length p)%nat.
Proof.
  intros Hp. destruct (strip_split p) as (l & E & Hl & Hh). destruct (name_split (strip_slashes p)) as (E2 & _ & Ha).
  apply (f_equal (@length Z)) in E. apply (f_equal (@length Z)) in E2. rewrite length_app in E, E2.
  destruct (strip_slashes p) as [|c q] eqn:Es; cbn [length] in *; [destruct p; [done | cbn [length] in *; lia] |].
  cbn [first_name after_name length] in *. unfold is_slash in *. cbn in Hh. rewrite (proj2 (Z.eqb_neq c 47)) in * by done. cbn [length] in *. lia.
Qed.

Lemma skip_all l : forall fuel m a, Forall (fun c => c = 47) l -> (forall i : nat, (i < length l)%nat -> ld m (a + Z.of_nat i) = nth i l 0) ->
  ld m (a + Z.of_nat (length l)) <> 47 -> (length l < fuel)%nat -> skip_slashes fuel m a = a + Z.of_nat (length l).
Proof.
  induction l as [|c l IH]; intros [|fuel] m a Hl Hm He Hf; cbn [length] in *; try lia; cbn [skip_slashes].
  - rewrite Z.add_0_r in *. by rewrite (proj2 (Z.eqb_neq _ _)).
  - apply Forall_cons_iff in Hl as [-> Hl]. pose proof (Hm 0%nat ltac:(lia)) as H0. cbn in H0. rewrite Z.add_0_r in H0. rewrite H0, Z.eqb_refl.
    rewrite (IH fuel m (a + 1)); [lia | done | | | lia].
    + intros i Hi. rewrite <- (Hm (S i) ltac:(lia) : _ = nth i l 0). f_equal. lia.
    + replace (a + 1 + Z.of_nat (length l)) with (a + Z.of_nat (S (length l))) by lia. done.
Qed.

Lemma at_text_drop p1 p2 tail a s : at_text (p1 ++ p2) tail a s -> at_text p2 tail (a + Z.of_nat (length p1)) s.
Proof.
  intros [C N T L A]. apply Forall_app in N as [_ N]. rewrite <- app_assoc in *. rewrite length_app in *. constructor; try done.
  - by apply cstr_at_app.
  - lia.
  - intros y Hy. apply A. lia.
Qed.

(** The head of the text, or of what follows the path. *)
Lemma at_head p tail a s : at_text p tail a s -> ld (f_mem s) a = hd (hd 0 tail) p.
Proof.
  intros T. pose proof (at_char p tail a s 0 T ltac:(lia)) as H. cbn in H. rewrite Z.add_0_r in H. rewrite H.
  destruct p; [by destruct tail | done].
Qed.

Lemma tail_not_slash tail : path_tail tail -> hd 0 tail <> 47.
Proof. intros T E. pose proof (tail_ends tail T) as H. destruct tail as [|c l]; cbn in *; [done |]. by subst c. Qed.

Lemma slashes_ok p tail a s : at_text p tail a s -> exists k, skip_slashes (Z.to_nat 0x10000) (f_mem s) a = a + k /\ at_text (strip_slashes p) tail (a + k) s.
Proof.
  intros T. destruct (strip_split p) as (l & E & Hl & Hh). exists (Z.of_nat (length l)). rewrite E in T. pose proof (at_text_drop _ _ _ _ _ T) as T2.
  split; [| done]. pose proof (at_length _ _ _ _ T) as Hlen. rewrite !length_app in Hlen. apply skip_all; [done | | | lia].
  - intros i Hi. rewrite (at_char _ _ _ _ i T) by (rewrite !length_app; lia). rewrite <- app_assoc. by rewrite app_nth1.
  - rewrite (at_head _ _ _ _ T2). destruct (strip_slashes p); [apply tail_not_slash, T | done].
Qed.

Lemma word_ok q tail a s : at_text q tail a s -> hd 0 q <> 47 ->
  word_end (Z.to_nat 0x10000) (f_mem s) a = a + Z.of_nat (length (first_name q)) /\ at_text (after_name q) tail (a + Z.of_nat (length (first_name q))) s.
Proof.
  intros T Hh. destruct (name_split q) as (E & Hn & Ha). rewrite E in T. pose proof (at_text_drop _ _ _ _ _ T) as T2. split; [| done].
  pose proof (at_length _ _ _ _ T) as Hlen. rewrite !length_app in Hlen. apply word_end_ok; [| | | lia].
  - pose proof (at_name _ _ _ _ T) as N. apply Forall_app in N as [N _].
    apply Forall_forall. intros c Hc. split; [| split]; [by apply (proj1 (Forall_forall _ _) N c Hc) | by apply (proj1 (Forall_forall _ _) Hn) | by apply (proj1 (Forall_forall _ _) N c Hc)].
  - intros i Hi. rewrite (at_char _ _ _ _ i T) by (rewrite !length_app; lia). rewrite <- app_assoc. by rewrite app_nth1.
  - cbn zeta. rewrite (at_head _ _ _ _ T2). destruct Ha as [-> | Ha].
    + cbn [hd]. pose proof (tail_ends tail (at_tail _ _ _ _ T)) as H. destruct tail as [|c l]; [done |]. cbn in *. by rewrite H.
    + destruct (after_name q); [done |]. cbn in Ha |- *. subst. done.
Qed.

(** *** Following a path *)

Variable entries_fuel : nat.
Hypothesis entries_enough : limit + 8 <= 8 * Z.of_nat entries_fuel.

Lemma mapped_kept ip s s' : mapped b mem_lower mem_upper drive part_start part_length byte x ip s s' -> kept s s'.
Proof.
  intros [(d & u & w & ->) O F]. constructor; [done | intros []; by constructor |]. intros a Ha. destruct (bufs part_length x vol). unfold scratch in Ha.
  apply F; [tauto |]. intros Hd. apply Ha. right. left. unfold in_data, in_fsys in *. lia.
Qed.

(** The search for the first name of the path in a directory. *)
Lemma next_component_ok ino l p tail a s str : ext2_open (inode_pos ino) s -> ready s -> at_text p tail a s ->
  directory byte x part_length limit ino l ->
  let a1 := skip_slashes (Z.to_nat 0x10000) (f_mem s) a in
  let rest := word_end (Z.to_nat 0x10000) (f_mem s) a1 in
  let ch := ld (f_mem s) rest in
  let r := search_entries b mem_lower mem_upper current_term max_lines entries_fuel a1 rest ch 0 str (set_fmem (st (f_mem s) rest 0) s) in
  match entry_named (first_name (strip_slashes p)) l with
  | Some k => exists dp s', r = Some (Entry dp, s') /\ d_inode (f_mem s') dp = k /\
      let s2 := set_fmem (st (f_mem s') rest ch) s' in core s2 /\ kept s s2 /\ at_text (after_name (strip_slashes p)) tail rest s2
  | None => exists s', r = Some (Return 0, s') /\ f_err s' = ERR_FILE_NOT_FOUND /\ kept s s'
  end.
Proof.
  intros O Rd T Dir a1 rest ch r. destruct (slashes_ok p tail a s T) as (k0 & E1 & T1). fold a1 in E1. rewrite <- E1 in T1.
  destruct (strip_split p) as (_ & _ & _ & Hh). destruct (word_ok _ tail a1 s T1 Hh) as [E2 T2]. fold rest in E2. rewrite <- E2 in T2.
  set (n := first_name (strip_slashes p)) in *. destruct (name_split (strip_slashes p)) as (Ep & Hn & _). fold n in Ep, Hn.
  pose proof (at_length _ _ _ _ T1) as Hlen. rewrite Ep in Hlen. rewrite !length_app in Hlen.
  assert (forall y, a1 <= y <= rest -> ~ in_buffer y /\ ~ in_fsys y) as Hap.
  { intros y Hy. apply (at_apart _ _ _ _ T1). rewrite Ep, !length_app. lia. }
  assert (is_cstr n) as Hc.
  { pose proof (at_name _ _ _ _ T1) as N. rewrite Ep in N. apply Forall_app in N as [N _]. eapply Forall_impl; [| exact N]. tauto. }
  set (s1 := set_fmem (st (f_mem s) rest 0) s).
  assert (sought ino n a1 s1) as So.
  { constructor; [| | by destruct Rd].
    - apply (ext2_write b mem_lower mem_upper drive part_start part_length byte x vol); [done |]. intros y Hy. apply ld_st_ne. intros <-.
      destruct (Hap rest ltac:(lia)). tauto.
    - split; [done |]. change (f_mem s1) with (st (f_mem s) rest 0). split; [| rewrite E2; apply ld_st_eq].
      intros i c Hi. pose proof (lookup_lt_Some _ _ _ Hi). rewrite ld_st_ne by lia.
      rewrite (at_char _ _ _ _ i T1) by (rewrite Ep, !length_app; lia). rewrite Ep, <- app_assoc, app_nth1 by done. by apply nth_lookup_Some. }
  assert (searched ino n a1 ch l s1 r) as Sd.
  { pose proof (dr_size _ _ _ _ _ _ Dir). rewrite E2 in Hap.
    pose proof (search_ok ino l Dir n a1 ch Hc ltac:(lia) Hap 0 l (dr_entries _ _ _ _ _ _ Dir) entries_fuel str s1 So ltac:(lia) ltac:(lia) ltac:(lia)) as Hse.
    by rewrite <- E2 in Hse. }
  assert (forall s', mapped b mem_lower mem_upper drive part_start part_length byte x (inode_pos ino) s1 s' ->
    let s2 := set_fmem (st (f_mem s') rest ch) s' in
    core s2 /\ kept s s2 /\ (forall y, ~ in_buffer y -> ~ in_fsys y -> ld (f_mem s2) y = ld (f_mem s) y)) as Back.
  { intros s' M s2. pose proof (mp_open _ _ _ _ _ _ _ _ _ _ _ M) as O'. destruct M as [(d & u & w & Es) _ F].
    assert (forall y, ~ in_buffer y -> ~ in_fsys y -> ld (f_mem s2) y = ld (f_mem s) y) as F2.
    { intros y H1 H2. change (f_mem s2) with (st (f_mem s') rest ch). destruct (decide (y = rest)) as [-> | Hy]; [apply ld_st_eq |].
      rewrite ld_st_ne by done. rewrite F; [by apply ld_st_ne | done |]. destruct (bufs part_length x vol). unfold in_data, in_fsys in *. lia. }
    assert (ext2_open (inode_pos ino) s2) as O2.
    { apply (ext2_write b mem_lower mem_upper drive part_start part_length byte x vol); [done |]. intros y Hy. apply ld_st_ne. intros <-.
      destruct (Hap rest ltac:(lia)). tauto. }
    split; [apply O2 |]. split; [| done]. constructor; [unfold s2; by rewrite Es | intros []; unfold s2; rewrite Es; by constructor |].
    intros y Hy. unfold scratch in Hy. apply F2; tauto. }
  unfold searched in Sd. destruct (entry_named n l) as [k |].
  - destruct Sd as (dp & s' & E & M & Ed). exists dp, s'. split; [done |]. split; [done |]. destruct (Back s' M) as (C & K & F).
    split; [done |]. split; [done |]. by eapply at_text_after.
  - destruct Sd as (s' & M & E). rewrite <- E2 in E. eexists. split; [exact E |]. split; [done |]. destruct (Back s' M) as (C & [K1 K2 K3] & F).
    constructor; [exact K1 | intros Q; destruct (K2 Q); by constructor | exact K3].
Qed.

Definition path_result (t : target) (s : fs) (r : option (Z * fs)) : Prop :=
  exists ret s', r = Some (ret, s') /\ kept s s' /\
    match t with
    | Regular ino => ret = 1 /\ ext2_open (inode_pos ino) s' /\ filemax s' = s32 (ino_size byte x ino)
    | Failure e => ret = 0 /\ f_err s' = e
    end.

Lemma path_result_after t s1 s2 r : kept s1 s2 -> path_result t s2 r -> path_result t s1 r.
Proof. intros K (ret & s' & E & K' & H). exists ret, s'. split; [done |]. split; [by eapply kept_trans | done]. Qed.

Lemma resolves_inside links ino up p t : resolves byte x part_length limit links ino up p t -> inode_inside ino.
Proof. by destruct 1. Qed.

Lemma mode_ok ino s : ext2_open (inode_pos ino) s -> i_mode (f_mem s) = inode_mode byte x ino.
Proof.
  intros O. destruct (super_sizes part_length x vol _ (co_super _ _ _ _ _ _ _ _ _ (eo_core _ _ _ _ _ _ _ _ _ _ O))) as (_ & _ & _ & _ & E & _).
  unfold i_mode, inode_mode, ld16, byte16. rewrite E. pose proof (eo_inode _ _ _ _ _ _ _ _ _ _ O 0 ltac:(done)) as H0. rewrite !Z.add_0_r in H0.
  rewrite H0, (eo_inode _ _ _ _ _ _ _ _ _ _ O 1) by done. done.
Qed.

Lemma load_kept ino s : core s -> inode_inside ino ->
  exists s', load_inode b mem_lower mem_upper ino s = Some (true, s') /\ ext2_open (inode_pos ino) s' /\ kept s s' /\
    i_mode (f_mem s') = inode_mode byte x ino /\ i_size (f_mem s') = ino_size byte x ino /\
    (forall y, ~ in_buffer y -> ~ in_fsys y -> ld (f_mem s') y = ld (f_mem s) y).
Proof.
  intros C Hi. destruct (load_inode_ok ino s C Hi) as (d & E & O & F). exists (set_maps (-1) (-1) (set_fdisk d s)). split; [done |]. split; [done |].
  split; [| split; [by apply mode_ok | split; [apply (inode_field (inode_pos ino) _ 4 O); lia | done]]].
  constructor; [done | intros []; by constructor |]. intros a Ha. unfold scratch in Ha. apply F; tauto.
Qed.

Lemma kinds mode : (S_ISREG mode = true -> S_ISLNK mode = false) /\ (S_ISDIR mode = true -> S_ISLNK mode = false).
Proof.
  unfold S_ISREG, S_ISDIR, S_ISLNK. split; intros ->%Z.eqb_eq; done.
Qed.
Abbreviation path_loop := (path_loop b mem_lower mem_upper current_term max_lines read linkbuf).

Lemma at_start p tail a s : at_text p tail a s -> let c := ld (f_mem s) a in ((c =? 0) || grub_isspace (s8 c)) = bool_decide (p = []).
Proof.
  intros T c. subst c. rewrite (at_head p tail a s T). destruct p as [|c p]; cbn [hd].
  - rewrite bool_decide_eq_true_2 by done. pose proof (tail_ends tail (at_tail _ _ _ _ T)) as H. by destruct tail.
  - rewrite bool_decide_eq_false_2 by done. pose proof (at_name _ _ _ _ T) as N. apply Forall_cons_iff in N as [[Hc ->] _].
    by rewrite (proj2 (Z.eqb_neq c 0)) by lia.
Qed.

Lemma path_loop_ok links ino up p t : resolves byte x part_length limit links ino up p t -> forall fuel tail a str s,
  core s -> ready s -> at_text p tail a s -> 0 <= links <= MAX_LINK_COUNT ->
  Z.of_nat (length p) + (MAX_LINK_COUNT - links) * PATH_MAX < Z.of_nat fuel ->
  path_result t s (path_loop fuel entries_fuel ino up str links a s).
Proof.
  induction 1 as [links ino up Hi Hm | links ino up Hi Hm Hl | links ino up p Hi Hp Hl Hm | links ino up p l Hi Hp Hd He | links ino up p l k t Hi Hp Hd He Hr IH |
    ino up p Hi Hl | links ino up p Hi Hl Hn Hmax Hlong | links ino up p t Hi Hl Hn Hlen Hs Hr IH];
    intros [|fuel] tail a str s C Rd T Hk Hf; unfold MAX_LINK_COUNT, PATH_MAX in Hf, Hk; try lia;
    cbn [GrubExt2Dir.path_loop]; destruct (load_kept ino s C Hi) as (s1 & -> & O & K & Em & Ez & F); cbn [mbind option_bind negb];
    pose proof (kp_ready _ _ K Rd) as Rd1; pose proof (at_text_after _ _ _ _ _ T F) as T1; rewrite Em.
  - rewrite (proj1 (kinds _) Hm), (at_start _ _ _ _ T1), Hm. cbn [negb]. rewrite bool_decide_eq_true_2 by done. eexists _, _. split; [done |].
    split; [eapply kept_trans; [exact K |]; constructor; [done | intros []; by constructor | done] |]. split; [done |]. cbn. rewrite Ez. split; [| done].
    destruct O as [[[O1 O2 O3 O4] S] I M1 M2]. constructor; [constructor; [by constructor | exact S] | exact I | exact M1 | exact M2].
  - rewrite Hl, (at_start _ _ _ _ T1), Hm. cbn [negb]. rewrite bool_decide_eq_true_2 by done. eexists _, _. split; [done |].
    split; [eapply kept_trans; [exact K |]; constructor; [done | intros []; by constructor | done] | done].
  - rewrite Hl, (at_start _ _ _ _ T1). rewrite bool_decide_eq_false_2 by done. rewrite Ez.
    assert ((ino_size byte x ino =? 0) || negb (S_ISDIR (inode_mode byte x ino)) = true) as ->.
    { destruct Hm as [-> | ->]; [apply orb_true_r | done]. }
    eexists _, _. split; [done |]. split; [eapply kept_trans; [exact K |]; constructor; [done | intros []; by constructor | done] | done].
  - pose proof (dr_kind _ _ _ _ _ _ Hd) as Hm. rewrite (proj2 (kinds _) Hm), (at_start _ _ _ _ T1). rewrite bool_decide_eq_false_2 by done.
    pose proof (dr_size _ _ _ _ _ _ Hd) as Hz. rewrite Ez, Hm, (proj2 (Z.eqb_neq _ 0)) by lia. cbn [orb negb].
    pose proof (next_component_ok ino l p tail a s1 str O Rd1 T1 Hd) as Co. cbn zeta in Co. rewrite He in Co. destruct Co as (s2 & -> & Ee & K2). cbn [mbind option_bind].
    exists 0, s2. split; [done |]. split; [by eapply kept_trans | done].
  - pose proof (dr_kind _ _ _ _ _ _ Hd) as Hm. rewrite (proj2 (kinds _) Hm), (at_start _ _ _ _ T1). rewrite bool_decide_eq_false_2 by done.
    pose proof (dr_size _ _ _ _ _ _ Hd) as Hz. rewrite Ez, Hm, (proj2 (Z.eqb_neq _ 0)) by lia. cbn [orb negb].
    pose proof (next_component_ok ino l p tail a s1 str O Rd1 T1 Hd) as Co. cbn zeta in Co. rewrite He in Co. destruct Co as (dp & s2 & -> & Ed & C2 & K2 & T2). cbn [mbind option_bind].
    rewrite Ed. destruct (resolves_inside _ _ _ _ _ Hr) as [Hk0 _]. rewrite s32_small by lia.
    eapply path_result_after; [by eapply kept_trans |]. pose proof (names_shorter p Hp).
    eapply IH; [exact C2 | by apply (kp_ready _ _ K2) | exact T2 | done | unfold MAX_LINK_COUNT, PATH_MAX; lia].
  - rewrite Hl. destruct (chase_refused ino (MAX_LINK_COUNT + 1) p tail a s1 O Rd1 T1) as (s2 & -> & K2 & Ee); [left; lia |]. cbn [mbind option_bind negb].
    exists 0, s2. split; [done |]. split; [by eapply kept_trans | done].
  - rewrite Hl. destruct (chase_refused ino (links + 1) p tail a s1 O Rd1 T1) as (s2 & -> & K2 & Ee); [by right |]. cbn [mbind option_bind negb].
    exists 0, s2. split; [done |]. split; [by eapply kept_trans |]. rewrite (proj2 (Z.ltb_ge _ _)) in Ee by lia. done.
  - rewrite Hl. destruct (chase_link_ok ino (links + 1) p tail a s1 O Rd1 T1) as (s2 & -> & C2 & Rd2 & K2 & T2); [lia | done | done |]. cbn [mbind option_bind negb].
    assert (ld (f_mem s2) linkbuf = nth 0 (link_text byte x ino ++ p) 0) as ->.
    { rewrite (at_head _ _ _ _ T2). by destruct (link_text byte x ino ++ p). }
    eapply path_result_after; [by eapply kept_trans |]. cbn zeta in IH.
    assert (Z.of_nat (length (link_text byte x ino ++ p)) <= 1022) as Hq.
    { assert (0 <= ino_size byte x ino) by (by apply (byte32_range byte bytes_ok)).
      unfold link_text. rewrite length_app, length_map, length_seqZ. unfold PATH_MAX in Hlen. lia. }
    destruct (nth 0 _ 0 =? 47); (eapply IH; [exact C2 | exact Rd2 | exact T2 | unfold MAX_LINK_COUNT in *; lia | unfold MAX_LINK_COUNT, PATH_MAX; lia]).
Qed.
End Following.
