(* ===== verification/GrubExt2Open.v ===== *)
(** * Paths of an ext2 volume

    The entry of [src/legacy/SZoS/grub-0.97/stage2/fsys_ext2fs.c] in the table
    of file systems, what it promises to [grub_open] ([PathFinder]), and the
    theorems on ext2 with their witnesses. *)

From S2P Require Import Prelude Machine LibcString GrubString GrubTerm GrubReadline GrubBios GrubDisk GrubDevice GrubPart GrubFsys GrubFat GrubFatDir GrubFile GrubBlocks GrubOpen GrubPaths GrubLoad GrubExt2 GrubExt2Dir.

(** ** The code *)

(** [ext2fs_dir] calls [grub_read], for which the file systems are those of
    [read_table]. *)
Definition ext2_fsys (b : bios) (mem_lower mem_upper : Z) (current_term : term_entry) (max_lines : Z) (read_table : list fsys_entry)
    (gunzip_read : Z -> Z -> files -> option (Z * files)) (hack : Z) (z : gz) (linkbuf : Z) (fuel entries : nat) : fsys_entry :=
  FsysEntry (bytes "ext2fs") (ext2fs_mount b mem_lower mem_upper) (ext2fs_read b mem_lower mem_upper)
    (ext2fs_dir b mem_lower mem_upper current_term max_lines (call_grub_read b mem_lower mem_upper read_table gunzip_read hack z) linkbuf fuel entries) None.

(** ** Proofs *)

Section Ext2File.
Context (b : bios) (mem_lower mem_upper drive part_start part_length : Z) (byte : Z -> Z)
        {R : PartReader b mem_lower mem_upper drive part_start part_length byte}.
Hypothesis bytes_ok : forall x, 0 <= byte x < 256.
Hypothesis lower_ok : 512 <= mem_lower <= 1024.
Hypothesis upper_ok : 0 <= mem_upper < 4194304.
Variables (current_term : term_entry) (max_lines : Z) (read_table fsys_table : list fsys_entry) (gunzip_read : Z -> Z -> files -> option (Z * files))
  (hack : Z) (z : gz) (linkbuf t limit : Z) (fuel entries : nat).

Abbreviation x := (volume_at byte).
Abbreviation entry := (ext2_fsys b mem_lower mem_upper current_term max_lines read_table gunzip_read hack z linkbuf fuel entries).

(** The partition has an ext2 volume, [linkbuf] has its place, and directories
    have at most [limit] bytes. *)
Record ext2_setting : Prop := {
  xs_volume : ext2_ok x part_length;
  xs_magic : super_magic byte = EXT2_SUPER_MAGIC;
  xs_length : 0 <= part_length;
  xs_tried : ext2_tried drive t part_length = true;
  xs_link : file_place mem_lower mem_upper linkbuf PATH_MAX;
  xs_limit : limit <= 2147479552;
  xs_entries : limit + 8 <= 8 * Z.of_nat entries }.

Definition link_scratch (a : Z) : Prop := linkbuf <= a < linkbuf + PATH_MAX.

Hypothesis ext2 : ext2_setting.

(** The file systems that [grub_read] calls have the same functions. *)
Hypothesis same_reads : read_func <$> read_table = read_func <$> fsys_table.
Variables (p tail : list Z).
Hypothesis path_name : name_text p.
Hypothesis tail_good : path_tail tail.
Hypothesis fuel_ok : Z.of_nat (length p) + MAX_LINK_COUNT * PATH_MAX < Z.of_nat fuel.

Definition file_reader (ino : Z) (H1 : ino_size byte x ino <= MAXINT) (H2 : file_inside byte x part_length (inode_pos byte x ino) (ino_size byte x ino)) :
  FileReader mem_lower mem_upper (ext2fs_read b mem_lower mem_upper) (ino_byte byte x ino) (ino_size byte x ino) :=
  ext2_reader b mem_lower mem_upper drive part_start part_length byte x (xs_volume ext2) lower_ok upper_ok (inode_pos byte x ino) (ino_size byte x ino)
    (conj (proj1 (byte32_range byte bytes_ok _)) H1) H2.

(** Where the path leads, as [grub_open] sees it. *)
Inductive ext2_opening : opening mem_lower mem_upper (ext2fs_read b mem_lower mem_upper) -> Prop :=
| xo_file ino H1 H2 : resolves byte x part_length limit 0 EXT2_ROOT_INO EXT2_ROOT_INO p (Regular ino) ->
    ext2_opening (Opens _ _ _ (ino_byte byte x ino) (ino_size byte x ino) (file_reader ino H1 H2))
| xo_refused er : resolves byte x part_length limit 0 EXT2_ROOT_INO EXT2_ROOT_INO p (Failure er) -> ext2_opening (Refused _ _ _ er).

Abbreviation core := (core b mem_lower mem_upper drive part_start part_length byte x).

Lemma asked_ready s : asked fsys_table entry s -> ready b mem_lower mem_upper read_table s.
Proof.
  intros [A1 A2 A3 A4 A5 A6]. constructor; try done.
  pose proof (f_equal (fun l => l !! Z.to_nat (fsys_type s)) same_reads) as E. cbn beta in E. rewrite !list_lookup_fmap in E. by rewrite E, A5.
Qed.

Lemma ext2_dir_result target s a : resolves byte x part_length limit 0 EXT2_ROOT_INO EXT2_ROOT_INO p target -> core s -> ready b mem_lower mem_upper read_table s ->
  cstr_at (f_mem s) a (p ++ tail) -> Z.of_nat (length (p ++ tail)) < 65536 ->
  (forall y, a <= y <= a + Z.of_nat (length (p ++ tail)) -> ~ in_buffer y /\ ~ in_fsys y) ->
  path_result b mem_lower mem_upper drive part_start part_length byte x read_table linkbuf target s (dir_func entry a s).
Proof.
  intros Hr C Rd Ht Hl Hap. pose proof ext2 as [X1 X2 X3 X4 X5 X6 X7]. cbn [dir_func ext2_fsys]. unfold ext2fs_dir.
  eapply (path_loop_ok b mem_lower mem_upper drive part_start part_length byte current_term max_lines x bytes_ok X1 lower_ok upper_ok read_table gunzip_read hack z
    linkbuf X5 limit X6 entries X7); [exact Hr | exact C | exact Rd | by constructor | unfold MAX_LINK_COUNT; lia | unfold MAX_LINK_COUNT, PATH_MAX in *; lia].
Qed.

Lemma ext2_found result s a : ext2_opening result -> core s -> asked fsys_table entry s ->
  cstr_at (f_mem s) a (p ++ tail) -> Z.of_nat (length (p ++ tail)) < 65536 ->
  (forall y, a <= y <= a + Z.of_nat (length (p ++ tail)) -> ~ in_buffer y /\ ~ in_fsys y) ->
  path_found (dir_func entry a s) link_scratch s result.
Proof.
  intros H C As Ht Hl Hap. pose proof (asked_ready s As) as Rd.
  destruct H as [ino H1 H2 Hr | er Hr]; destruct (ext2_dir_result _ s a Hr C Rd Ht Hl Hap) as (ret & s' & E & [S R' F] & O); rewrite E; exists ret, s';
    (split; [done |]; split; [done |]; split; [intros y Y1 Y2 Y3; apply F; unfold GrubExt2Dir.scratch, link_scratch in *; tauto |]); [| done].
  destruct O as (-> & O & Em). split; [done |]. split; [exact O |]. split; [by destruct (R' Rd) |]. rewrite Em. apply s32_small.
  pose proof (byte32_range byte bytes_ok (inode_pos byte x ino + 4) : 0 <= ino_size byte x ino < _). unfold MAXINT in H1. lia.
Qed.

#[export] Program Instance ext2_finder (result : opening mem_lower mem_upper (ext2fs_read b mem_lower mem_upper)) (H : ext2_opening result) :
  PathFinder b mem_lower mem_upper drive part_start part_length byte t fsys_table entry (p ++ tail) link_scratch result := {| pf_mounted := core |}.
Next Obligation. by intros result _ s []. Qed.
Next Obligation.
  intros result _ s s' [[G D S L] Sp] E1 E2 E3. constructor; unfold f_mem in *; rewrite ?E1; [| done]. constructor; congruence.
Qed.
Next Obligation.
  intros result _ s O Ty. pose proof ext2 as [X1 X2 X3 X4 X5 X6 X7]. pose proof (xo_length _ _ X1) as Xl.
  pose proof (ext2fs_mount_ok b mem_lower mem_upper drive part_start part_length byte lower_ok upper_ok ltac:(lia) s O) as H. rewrite Ty, X4, X2, Z.eqb_refl in H.
  destruct H as (d & E & O' & Sp & F). exists d. split; [exact E |]. split; [by constructor |]. intros a A1 A2 _. apply F; [done |]. unfold in_fsys, super_size in *. lia.
Qed.
Next Obligation. intros result H s a C As Ht Hl Hap. apply ext2_found; [done | done | done | done | done |]. intros y Hy. destruct (Hap y Hy) as (? & ? & _). done. Qed.
End Ext2File.

(** ** Properties *)

(** C3. Opening the name of a file on an ext2 volume, in a table of file
    systems where those before it refuse the partition, follows the path
    through directories and symbolic links: grub_open returns 1 and grub_read
    then gives the bytes of the file, with zeros where no block is stored;
    otherwise it returns 0 with the error of what is wrong on the way. For a
    sound volume with inodes of 128 bytes and a plain file whose blocks of
    pointers are stored. *)
Theorem grub_open_loads_ext2 b mem_lower mem_upper part_buf parts g disks tables d p t pstart plen drive current_term max_lines fsys_table read_table filename
    path tail header_buf ch_buf gunzip_read hack z linkbuf limit fuel entries before others target gs
    (good : disk_good b drive g disks) (found : region (seen g (disks drive)) (total_sectors g) tables d p t pstart plen) :
  target_ok mem_lower mem_upper part_buf SECTOR_SIZE -> (4 * length tables < parts)%nat -> (forall n, d = Hard n -> drive .& 0x80 <> 0) ->
  let byte := part_byte g disks pstart drive in
  let v := volume_at byte in
  fsys_table = before ++ ext2_fsys b mem_lower mem_upper current_term max_lines read_table gunzip_read hack z linkbuf fuel entries :: others ->
  read_func <$> read_table = read_func <$> fsys_table ->
  Forall (refuses b mem_lower mem_upper drive pstart plen byte t (R := named_reader b mem_lower mem_upper g disks tables d p t pstart plen drive good found)) before ->
  ext2_setting mem_lower mem_upper drive plen byte linkbuf t limit entries ->
  name_text path -> nth 0 path 0 = 47 -> path_tail tail -> Z.of_nat (length path) + MAX_LINK_COUNT * PATH_MAX < Z.of_nat fuel ->
  resolves byte v plen limit 0 EXT2_ROOT_INO EXT2_ROOT_INO path target ->
  named g disks d p drive filename (path ++ tail) (g_fs gs) ->
  path_apart part_buf d p filename (path ++ tail) header_buf (link_scratch linkbuf) -> file_place mem_lower mem_upper header_buf 10 ->
  let open := grub_open b mem_lower mem_upper fsys_table part_buf header_buf ch_buf parts gunzip_read filename gs in
  match target with
  | Regular ino => let size := ino_size byte v ino in
      size <= MAXINT -> file_inside byte v plen (inode_pos byte v ino) size -> not_gzip (ino_byte byte v ino) size (g_gz gs) ->
      exists gs', open = Some (1, gs') /\
        loads b mem_lower mem_upper fsys_table gunzip_read (ino_byte byte v ino) size (path_scratch part_buf header_buf (link_scratch linkbuf)) gs gs'
  | Failure e => exists gs', open = Some (0, gs') /\ g_err gs' = e
  end.
Proof.
  intros Hbuf Hp Hh byte v Htab Hsame Href X Hn H47 Ht Hf Hr N A Hhb open. subst open. pose proof Hbuf as [T1 T2 _ _ _].
  assert (forall y, 0 <= byte y < 256) as Hb by (intros y; apply seen_range, good).
  pose proof (fun result Hr => grub_open_finds b mem_lower mem_upper part_buf parts g disks tables d p t pstart plen drive good Hbuf Hp found Hh fsys_table filename
    _ header_buf ch_buf gunzip_read before others _ _ result Htab Href
    (ext2_finder b mem_lower mem_upper drive pstart plen byte Hb T1 T2 current_term max_lines read_table fsys_table gunzip_read hack z linkbuf t limit fuel entries X Hsame
       path tail Hn Ht Hf result Hr)) as H.
  assert (nth 0 (path ++ tail) 0 = 47) as Hs by (destruct path; [done | exact H47]).
  destruct target as [ino | er]; [intros size H1 H2 | ].
  - exact (H _ (xo_file _ _ _ _ _ _ _ _ _ _ _ _ _ _ _ _ ino H1 H2 Hr) Hs Hhb gs N A).
  - exact (H _ (xo_refused _ _ _ _ _ _ _ _ _ _ _ _ _ _ _ _ er Hr) Hs Hhb gs N A).
Qed.

(** C5. On a mounted ext2 volume ext2fs_dir ends and gives what the path
    resolves to: 1 with the inode of a regular file in memory, or 0 with
    ERR_FILE_NOT_FOUND, ERR_BAD_FILETYPE, ERR_SYMLINK_LOOP after five links or
    ERR_FILELENGTH for a path that outgrows linkbuf; the name is restored and
    only the work areas are written. For a sound volume, and when no names are
    listed. *)
Theorem ext2fs_dir_resolves b mem_lower mem_upper drive part_start part_length byte {R : PartReader b mem_lower mem_upper drive part_start part_length byte}
    current_term max_lines x fsys_table gunzip_read hack z linkbuf limit fuel entries path tail target a s :
  (forall p, 0 <= byte p < 256) -> ext2_ok x part_length -> 512 <= mem_lower <= 1024 -> 0 <= mem_upper < 4194304 ->
  file_place mem_lower mem_upper linkbuf PATH_MAX -> limit <= 2147479552 -> limit + 8 <= 8 * Z.of_nat entries ->
  core b mem_lower mem_upper drive part_start part_length byte x s -> ready b mem_lower mem_upper fsys_table s ->
  at_text path tail a s -> Z.of_nat (length path) + MAX_LINK_COUNT * PATH_MAX < Z.of_nat fuel ->
  resolves byte x part_length limit 0 EXT2_ROOT_INO EXT2_ROOT_INO path target ->
  exists ret s', ext2fs_dir b mem_lower mem_upper current_term max_lines (call_grub_read b mem_lower mem_upper fsys_table gunzip_read hack z) linkbuf fuel entries a s
      = Some (ret, s') /\
    same_conf s s' /\ (forall y, ~ scratch linkbuf y -> ld (f_mem s') y = ld (f_mem s) y) /\
    match target with
    | Regular ino => ret = 1 /\ ext2_open b mem_lower mem_upper drive part_start part_length byte x (inode_pos byte x ino) s' /\
        filepos s' = 0 /\ filemax s' = s32 (ino_size byte x ino)
    | Failure e => ret = 0 /\ f_err s' = e
    end.
Proof.
  intros Hb X T1 T2 Hl Hlim He C Rd T Hf Hr.
  destruct (path_loop_ok b mem_lower mem_upper drive part_start part_length byte current_term max_lines x Hb X T1 T2 fsys_table gunzip_read hack z linkbuf Hl limit Hlim
    entries He 0 EXT2_ROOT_INO EXT2_ROOT_INO path target Hr fuel tail a 0 s C Rd T) as (ret & s' & E & [S R' F] & O);
    [unfold MAX_LINK_COUNT; lia | unfold MAX_LINK_COUNT, PATH_MAX in *; lia |].
  exists ret, s'. split; [exact E |]. split; [exact S |]. split; [exact F |]. destruct target; [| exact O]. destruct O as (-> & O & Em). destruct (R' Rd). by split_and!.
Qed.

(** C39. Whatever blocks of pointers the two static variables say are in
    memory, ext2fs_block_map gives the same block of the file as following the
    pointers of the inode on the volume, direct or through one, two or three
    blocks, and what it leaves in memory is again what the variables say. The
    blocks of pointers on the way are stored and lie in the partition. *)
Theorem ext2fs_block_map_finds b mem_lower mem_upper drive part_start part_length byte {R : PartReader b mem_lower mem_upper drive part_start part_length byte} x ip n s :
  ext2_ok x part_length -> 512 <= mem_lower <= 1024 -> 0 <= mem_upper < 4194304 ->
  ext2_open b mem_lower mem_upper drive part_start part_length byte x ip s -> 0 <= n < 2097152 ->
  block_inside x part_length (file_block byte x ip n) -> Forall (fun k => 0 < k /\ block_inside x part_length k) (indirect_blocks byte x ip n) ->
  exists s', ext2fs_block_map b mem_lower mem_upper n s = Some (file_block byte x ip n, s') /\
    ext2_open b mem_lower mem_upper drive part_start part_length byte x ip s' /\ filepos s' = filepos s /\
    (forall a, ~ in_buffer a -> ~ in_data x a -> ld (f_mem s') a = ld (f_mem s) a).
Proof.
  intros X T1 T2 O Hn K1 K2. destruct (block_map_ok b mem_lower mem_upper drive part_start part_length byte x X T1 T2 ip n s O Hn K1 K2) as (s' & E & [(d & u & w & ->) O' F]).
  eexists. split; [exact E |]. by split_and!.
Qed.

(** ** Witnesses *)

(** A hard disk whose only partition, of 200 sectors from sector 63, has an ext2
    volume.  Its root has the directory [boot] and a symbolic link [vmlinuz] to
    [boot/kernel]: a file of 14 blocks, the sixth not stored and the last two
    behind an indirect block. *)
Definition dwords (l : list Z) : list Z := flat_map (fun v => [v mod 256; v / 256 mod 256; v / 65536 mod 256; v / 16777216 mod 256]) l.
Definition dir_entry (ino rec : Z) (name : list Z) : list Z := dwords [ino] ++ [rec mod 256; rec / 256; Z.of_nat (length name); 0] ++ name.
Definition small_inode (mode size : Z) (rest : list Z) : list Z := dwords [mode; size; 0; 0; 0; 0; 0; 0; 0; 0] ++ rest.

Definition ext2_volume_parts : list (Z * list Z) :=
  [(1044, dwords [1; 0]); (1064, dwords [32]); (1080, [0x53; 0xEF]); (2056, dwords [5]);
   (5248, small_inode 0x41ED 1024 (dwords [10])); (6400, small_inode 0x41ED 1024 (dwords [11]));
   (6528, small_inode 0xA1FF 11 (bytes "boot/kernel"));
   (6656, small_inode 0x81A4 13412 (dwords [20; 21; 22; 23; 24; 0; 26; 27; 28; 29; 30; 31; 40]));
   (10240, dir_entry 2 12 (bytes ".")); (10252, dir_entry 2 12 (bytes "..")); (10264, dir_entry 11 12 (bytes "boot")); (10276, dir_entry 12 988 (bytes "vmlinuz"));
   (11264, dir_entry 11 12 (bytes ".")); (11276, dir_entry 2 12 (bytes "..")); (11288, dir_entry 13 1000 (bytes "kernel"));
   (20480, bytes "SzOS"); (40960, dwords [32; 33])].

Definition ext2_image : mem :=
  foldr (fun e m => st_bytes m (63 * 512 + fst e) (snd e))
    (st_bytes (st_bytes ∅ 450 [0x83; 0; 0; 0; 63; 0; 0; 0; 200; 0; 0; 0]) 510 [0x55; 0xAA]) ext2_volume_parts.
Definition ext2_bytes (drive y : Z) : Z := ld ext2_image y.

Lemma ext2_bytes_range y : 0 <= ext2_bytes 0x80 y < 256.
Proof.
  assert (map_Forall (fun _ c => 0 <= c < 256) ext2_image) as H by (apply (bool_decide_unpack _); vm_compute; exact I).
  unfold ext2_bytes, ld. destruct (ext2_image !! y) as [c |] eqn:E; [by apply (H y c) | cbn; lia].
Qed.

Lemma ext2_disk : disk_good hard_bios 0x80 hard_disk_0 ext2_bytes.
Proof.
  constructor; [apply hard_ok | | done | apply ext2_bytes_range | done]. constructor; try done.
  - by exists 8.
  - intros s Hs. assert (forallb (fun s => negb (ezd_mark hard_disk_0 (ext2_bytes 0x80) (s + 1))) (seqZ 0 62) = true) as H by (vm_compute; reflexivity).
    pose proof (forall_range _ _ H (s - 1) ltac:(change (vtrack hard_disk_0) with 63 in Hs; lia)) as E. cbn beta in E.
    replace (s - 1 + 1) with s in E by lia. by apply negb_true_iff.
Qed.

Lemma ext2_region : region (seen hard_disk_0 (ext2_bytes 0x80)) (total_sectors hard_disk_0) [0] (Hard 0) (Slice 0) 0x83 63 200.
Proof.
  refine (region_slice _ _ _ 0 0 (Slice_ 0 0x83 63 200) _ _ _ _ _ _ _ _).
  - lia.
  - apply chain_last; [done | reflexivity | reflexivity].
  - apply (bool_decide_unpack _). vm_compute. exact I.
  - cbn. lia.
  - vm_compute. reflexivity.
  - done.
  - done.
  - done.
Qed.

Definition ext2_byte : Z -> Z := part_byte hard_disk_0 ext2_bytes 63 0x80.
Abbreviation vx := (volume_at ext2_byte).

Lemma ext2_byte_range y : 0 <= ext2_byte y < 256.
Proof. apply seen_range, ext2_bytes_range. Qed.

Lemma ext2_is : vx = Ext2 10 1 32.
Proof. vm_compute. reflexivity. Qed.

Lemma ext2_volume_ok : ext2_ok vx 200.
Proof. rewrite ext2_is. constructor; cbn; try lia. by exists 4. Qed.

Lemma entry_here x D size p rec name ino l : byte16 D (p + 4) = rec -> entry_bytes D p (D (p + 6)) = name -> byte32 D p = ino ->
  bool_decide (0 <= p < size /\ 8 + D (p + 6) <= rec /\ p mod block_size x + rec <= block_size x /\ is_cstr name /\ ino <> 0) = true ->
  entries x D size (p + rec) l -> entries x D size p ((name, ino) :: l).
Proof.
  intros <- <- <- (H1 & H2 & H3 & H4 & H5)%bool_decide_eq_true L. apply en_used; [unfold entry_sound; tauto | done | done].
Qed.

Ltac ext2_entry := eapply entry_here; [vm_compute; reflexivity | vm_compute; reflexivity | vm_compute; reflexivity | vm_compute; reflexivity |].

Definition sx : ext2 := Ext2 10 1 32.
Definition ext2_root_list : list (list Z * Z) := [(bytes ".", 2); (bytes "..", 2); (bytes "boot", 11); (bytes "vmlinuz", 12)].
Definition ext2_boot_list : list (list Z * Z) := [(bytes ".", 11); (bytes "..", 2); (bytes "kernel", 13)].

(** Blocks of a file, by computation. *)
Lemma inside_by ip size n : (n * 1024 >= size) ->
  forallb (fun k => bool_decide (0 <= file_block ext2_byte sx ip k /\ (file_block ext2_byte sx ip k + 1) * 1024 <= 102400 /\
    Forall (fun k => 0 < k /\ (k + 1) * 1024 <= 102400) (indirect_blocks ext2_byte sx ip k))) (seqZ 0 n) = true ->
  file_inside ext2_byte sx 200 ip size.
Proof.
  intros Hn H k Hk1 Hk2. change (block_size sx) with 1024 in Hk2. pose proof (forall_range _ _ H k ltac:(lia)) as E. cbn beta in E.
  apply bool_decide_eq_true in E as (E1 & E2 & E3). split; [by split |]. eapply Forall_impl; [| exact E3]. intros j [J1 J2]. split; [done | split; [lia | done]].
Qed.

Lemma ext2_root : directory ext2_byte sx 200 1024 2 ext2_root_list.
Proof.
  assert (ino_size ext2_byte sx 2 = 1024) as E by (vm_compute; reflexivity). constructor; rewrite ?E; [vm_compute; reflexivity | lia | | |].
  - apply (inside_by _ _ 1); [lia | vm_compute; reflexivity].
  - intros n H1 H2. change (block_size sx) with 1024 in H2. replace n with 0 by lia. vm_compute. reflexivity.
  - do 4 ext2_entry. apply en_end. vm_compute. discriminate.
Qed.

Lemma ext2_boot : directory ext2_byte sx 200 1024 11 ext2_boot_list.
Proof.
  assert (ino_size ext2_byte sx 11 = 1024) as E by (vm_compute; reflexivity). constructor; rewrite ?E; [vm_compute; reflexivity | lia | | |].
  - apply (inside_by _ _ 1); [lia | vm_compute; reflexivity].
  - intros n H1 H2. change (block_size sx) with 1024 in H2. replace n with 0 by lia. vm_compute. reflexivity.
  - do 3 ext2_entry. apply en_end. vm_compute. discriminate.
Qed.

Lemma ext2_inode ino : bool_decide (1 <= ino < 2147483648 /\ (0 <= desc_block sx ino /\ (desc_block sx ino + 1) * 1024 <= 102400) /\
  (0 <= inode_block ext2_byte sx ino /\ (inode_block ext2_byte sx ino + 1) * 1024 <= 102400)) = true -> inode_inside ext2_byte sx 200 ino.
Proof. intros H %bool_decide_eq_true. exact H. Qed.

(** From the root to the link, and from there to the kernel. *)
Lemma ext2_kernel : resolves ext2_byte sx 200 1024 0 EXT2_ROOT_INO EXT2_ROOT_INO (bytes "/vmlinuz") (Regular 13).
Proof.
  eapply (rs_entry _ _ _ _ _ _ _ _ ext2_root_list 12); [apply ext2_inode; vm_compute; reflexivity | done | apply ext2_root | reflexivity |].
  change (after_name _) with (@nil Z). apply rs_link; [apply ext2_inode; vm_compute; reflexivity | vm_compute; reflexivity | unfold MAX_LINK_COUNT; lia
    | vm_compute; discriminate | split; [apply (bool_decide_unpack _); vm_compute; exact I | replace (fast_link ext2_byte sx 12) with true by (vm_compute; reflexivity); vm_compute; discriminate] |].
  replace (link_text ext2_byte sx 12) with (bytes "boot/kernel") by (vm_compute; reflexivity). cbn zeta. change (nth 0 _ 0 =? 47) with false. cbn iota.
  eapply (rs_entry _ _ _ _ _ _ _ _ ext2_root_list 11); [apply ext2_inode; vm_compute; reflexivity | done | apply ext2_root | reflexivity |].
  eapply (rs_entry _ _ _ _ _ _ _ _ ext2_boot_list 13); [apply ext2_inode; vm_compute; reflexivity | done | apply ext2_boot | reflexivity |].
  apply rs_file; [apply ext2_inode; vm_compute; reflexivity | vm_compute; reflexivity].
Qed.

Lemma ext2_kernel_inside : file_inside ext2_byte sx 200 (inode_pos ext2_byte sx 13) (ino_size ext2_byte sx 13).
Proof.
  assert (ino_size ext2_byte sx 13 = 13412) as -> by (vm_compute; reflexivity). apply (inside_by _ _ 14); [lia | vm_compute; reflexivity].
Qed.

(** The name is in memory at [0x10000]; FAT comes before ext2 in the table, and does
    not take the partition. *)
Definition ext2_fs (text : list Z) : fs :=
  set_fmem (st_bytes ∅ 0x10000 text)
    (Fs (DState (World ∅ ext2_bytes) ERR_NONE (-1) 0 (Geometry 0 0 0 0 0 0) None) (f_dev diskette_fs) (Iter 0xFFFFFF 0 0 2880 0 0 0) (Io [] [] (-1)) 0 0 MAXINT 0
       false false 0 false 0 None 0 0).

Definition fat_first : fsys_entry := fat_fsys hard_bios 640 0 low_term 24 0x20000 0x20100 0x20200 3 (Z.to_nat 60000).
Definition read_tables : list fsys_entry := [fat_first; FsysEntry (bytes "ext2fs") (fun _ => None) (ext2fs_read hard_bios 640 0) (fun _ _ => None) None].
Definition ext2_second : fsys_entry := ext2_fsys hard_bios 640 0 low_term 24 read_tables no_gunzip 0 plain_gz 0x30000 (Z.to_nat 6000) 129.
Definition two_fsys : list fsys_entry := [fat_first; ext2_second].

Definition vmlinuz_gs : files := Files (ext2_fs (bytes "(hd0,0)/vmlinuz quiet")) 0 plain_gz.

Lemma vmlinuz_named : named hard_disk_0 ext2_bytes (Hard 0) (Slice 0) 0x80 0x10000 (bytes "/vmlinuz" ++ bytes " quiet") (g_fs vmlinuz_gs).
Proof.
  assert (is_cstr (bytes "(hd0,0)/vmlinuz quiet")) as Hc by (apply (bool_decide_unpack _); vm_compute; exact I).
  assert (print_device (Hard 0) (Slice 0) ++ bytes "/vmlinuz" ++ bytes " quiet" = bytes "(hd0,0)/vmlinuz quiet") as E by (vm_compute; reflexivity).
  constructor; rewrite ?E; [| cbn; lia | split; [lia | unfold MAXINT; lia] | reflexivity | reflexivity | by constructor].
  change (f_mem (g_fs vmlinuz_gs)) with (st_bytes ∅ 0x10000 (bytes "(hd0,0)/vmlinuz quiet")). set (text := bytes "(hd0,0)/vmlinuz quiet") in *. clearbody text.
  split; [done |]. split.
  - intros i c Hi. apply ld_st_bytes_in; [lia |]. by replace (Z.to_nat (0x10000 + Z.of_nat i - 0x10000)) with i by lia.
  - rewrite ld_st_bytes_out by lia. done.
Qed.

Lemma ext2_settings : ext2_setting 640 0 0x80 200 ext2_byte 0x30000 0x83 1024 129.
Proof.
  constructor; [apply ext2_volume_ok | vm_compute; reflexivity | lia | vm_compute; reflexivity | | lia | lia].
  apply low_file_place; [lia | unfold PATH_MAX; lia | unfold PATH_MAX, FSYS_BUF; lia].
Qed.

Lemma quiet_tail : path_tail (bytes " quiet").
Proof. split; [apply (bool_decide_unpack _); vm_compute; exact I | reflexivity]. Qed.

Lemma vmlinuz_text : name_text (bytes "/vmlinuz").
Proof. apply (bool_decide_unpack _). vm_compute. exact I. Qed.

Lemma grub_open_loads_ext2_witness :
  exists gs', grub_open hard_bios 640 0 two_fsys 0x20300 0x20600 0x20700 5 no_gunzip 0x10000 vmlinuz_gs = Some (1, gs') /\
    loads hard_bios 640 0 two_fsys no_gunzip (ino_byte ext2_byte sx 13) 13412 (path_scratch 0x20300 0x20600 (link_scratch 0x30000)) vmlinuz_gs gs'.
Proof.
  pose proof (grub_open_loads_ext2 hard_bios 640 0 0x20300 5 hard_disk_0 ext2_bytes [0] (Hard 0) (Slice 0) 0x83 63 200 0x80 low_term 24 two_fsys read_tables 0x10000
    (bytes "/vmlinuz") (bytes " quiet") 0x20600 0x20700 no_gunzip 0 plain_gz 0x30000 1024 (Z.to_nat 6000) 129 [fat_first] [] (Regular 13) vmlinuz_gs
    ext2_disk ext2_region) as H.
  cbv zeta in H. change (part_byte hard_disk_0 ext2_bytes 63 0x80) with ext2_byte in H. rewrite ext2_is in H. change (Ext2 10 1 32) with sx in H.
  replace (ino_size ext2_byte sx 13) with 13412 in H by (vm_compute; reflexivity). apply H; clear H.
  - apply low_target; unfold SECTOR_SIZE, BUFFERADDR; lia.
  - cbn. lia.
  - intros n _. discriminate.
  - done.
  - done.
  - constructor; [| constructor]. by apply fat_refuses.
  - apply ext2_settings.
  - apply vmlinuz_text.
  - done.
  - apply quiet_tail.
  - cbn -[Z.to_nat]. unfold MAX_LINK_COUNT, PATH_MAX. lia.
  - apply ext2_kernel.
  - apply vmlinuz_named.
  - intros y Hy. change (Z.of_nat _) with 21 in Hy.
    unfold path_scratch, link_scratch, open_scratch, in_buffer, in_fsys, PATH_MAX, BUFFERADDR, BUFFERLEN, FSYS_BUF, SECTOR_SIZE. lia.
  - apply low_file_place; unfold FSYS_BUF; lia.
  - unfold MAXINT. lia.
  - exact ext2_kernel_inside.
  - right. right. vm_compute. split; discriminate.
Defined.

(** The partition is open, and then mounted. *)
Definition boot_fs : fs :=
  set_fmem (st_bytes ∅ 0x10000 (bytes "/boot/none"))
    (Fs (DState (World ∅ ext2_bytes) ERR_NONE (-1) 0 (Geometry 0 0 0 0 0 0) None) (Dev 0 0xFFFFFF 0xFF 0x80 0xFFFF false false PART_CHOSEN ERR_NONE)
       (Iter 0xFFFF 0x83 63 200 0 0 0) (Io [] [] (-1)) 0 0 MAXINT 1 false false 0 false 0 None 0 0).

Definition boot_reader : PartReader hard_bios 640 0 0x80 63 200 ext2_byte :=
  named_reader hard_bios 640 0 hard_disk_0 ext2_bytes [0] (Hard 0) (Slice 0) 0x83 63 200 0x80 ext2_disk ext2_region.

Lemma boot_opened : opened hard_bios 640 0 0x80 63 200 ext2_byte (R := boot_reader) boot_fs.
Proof. constructor; [| reflexivity..]. by repeat split. Qed.

Lemma boot_mounted : exists d, ext2fs_mount hard_bios 640 0 boot_fs = Some (1, set_fdisk d boot_fs) /\
  core hard_bios 640 0 0x80 63 200 ext2_byte (R := boot_reader) sx (set_fdisk d boot_fs) /\
  (forall a, ~ in_buffer a -> ~ (FSYS_BUF <= a < FSYS_BUF + super_size) -> ld (d_mem d) a = ld (f_mem boot_fs) a).
Proof.
  pose proof (ext2fs_mount_ok hard_bios 640 0 0x80 63 200 ext2_byte (R := boot_reader) ltac:(lia) ltac:(lia) ltac:(lia) boot_fs boot_opened) as H.
  replace (ext2_tried 0x80 (type (f_part boot_fs)) 200) with true in H by (vm_compute; reflexivity).
  replace (super_magic ext2_byte =? EXT2_SUPER_MAGIC) with true in H by (vm_compute; reflexivity). rewrite ext2_is in H.
  destruct H as (d & E & O & S & F). exists d. split; [exact E |]. split; [by constructor | exact F].
Qed.

Lemma sx_ok : ext2_ok sx 200.
Proof. pose proof ext2_volume_ok as H. by rewrite ext2_is in H. Qed.

Lemma boot_text : cstr_at (f_mem boot_fs) 0x10000 (bytes "/boot/none" ++ []).
Proof.
  rewrite app_nil_r. assert (is_cstr (bytes "/boot/none")) as Hc by (apply (bool_decide_unpack _); vm_compute; exact I).
  change (f_mem boot_fs) with (st_bytes ∅ 0x10000 (bytes "/boot/none")). set (text := bytes "/boot/none") in *. clearbody text. split; [done |]. split.
  - intros i c Hi. apply ld_st_bytes_in; [lia |]. by replace (Z.to_nat (0x10000 + Z.of_nat i - 0x10000)) with i by lia.
  - rewrite ld_st_bytes_out by lia. done.
Qed.

(** No file [none] in the directory [boot]. *)
Lemma none_missing : resolves ext2_byte sx 200 1024 0 EXT2_ROOT_INO EXT2_ROOT_INO (bytes "/boot/none") (Failure ERR_FILE_NOT_FOUND).
Proof.
  eapply (rs_entry _ _ _ _ _ _ _ _ ext2_root_list 11); [apply ext2_inode; vm_compute; reflexivity | done | apply ext2_root | reflexivity |].
  eapply (rs_missing _ _ _ _ _ _ _ _ ext2_boot_list); [apply ext2_inode; vm_compute; reflexivity | done | apply ext2_boot | reflexivity].
Qed.

Lemma ext2fs_dir_resolves_witness : exists d s',
  ext2fs_mount hard_bios 640 0 boot_fs = Some (1, set_fdisk d boot_fs) /\
  ext2fs_dir hard_bios 640 0 low_term 24 (call_grub_read hard_bios 640 0 read_tables no_gunzip 0 plain_gz) 0x30000 (Z.to_nat 6000) 129 0x10000 (set_fdisk d boot_fs)
    = Some (0, s') /\ f_err s' = ERR_FILE_NOT_FOUND.
Proof.
  destruct boot_mounted as (d & E & C & F).
  destruct (ext2fs_dir_resolves hard_bios 640 0 0x80 63 200 ext2_byte (R := boot_reader) low_term 24 sx read_tables no_gunzip 0 plain_gz 0x30000 1024 (Z.to_nat 6000) 129
    (bytes "/boot/none") [] (Failure ERR_FILE_NOT_FOUND) 0x10000 (set_fdisk d boot_fs)) as (ret & s' & E' & _ & _ & -> & He).
  - exact ext2_byte_range.
  - exact sx_ok.
  - lia.
  - lia.
  - apply low_file_place; [lia | unfold PATH_MAX; lia | unfold PATH_MAX, FSYS_BUF; lia].
  - lia.
  - lia.
  - exact C.
  - by constructor.
  - constructor.
    + eapply cstr_at_frame; [| apply boot_text]. intros y Hy. change (Z.of_nat _) with 10 in Hy.
      apply F; unfold in_buffer, BUFFERADDR, BUFFERLEN, FSYS_BUF; lia.
    + apply (bool_decide_unpack _). vm_compute. exact I.
    + split; [constructor | exact I].
    + cbn. lia.
    + intros y Hy. change (Z.of_nat _) with 10 in Hy. unfold in_buffer, in_fsys, BUFFERADDR, BUFFERLEN, FSYS_BUF. lia.
  - cbn -[Z.to_nat]. unfold MAX_LINK_COUNT, PATH_MAX. lia.
  - exact none_missing.
  - exists d, s'. split; [exact E |]. split; [exact E' | exact He].
Defined.

(** Block 13 of the kernel is behind the indirect block. *)
Lemma ext2fs_block_map_finds_witness : exists d s1 s2,
  ext2fs_mount hard_bios 640 0 boot_fs = Some (1, set_fdisk d boot_fs) /\
  load_inode hard_bios 640 0 13 (set_fdisk d boot_fs) = Some (true, s1) /\ ext2fs_block_map hard_bios 640 0 13 s1 = Some (33, s2).
Proof.
  destruct boot_mounted as (d & E & C & _).
  destruct (load_inode_ok hard_bios 640 0 0x80 63 200 ext2_byte (R := boot_reader) sx sx_ok ltac:(lia) ltac:(lia) 13 (set_fdisk d boot_fs) C
    ltac:(apply ext2_inode; vm_compute; reflexivity)) as (d1 & E1 & O & _).
  set (s1 := set_maps (-1) (-1) (set_fdisk d1 (set_fdisk d boot_fs))) in *.
  pose proof (ext2_kernel_inside 13) as [K1 K2]; [lia | vm_compute; reflexivity |].
  destruct (ext2fs_block_map_finds hard_bios 640 0 0x80 63 200 ext2_byte (R := boot_reader) sx (inode_pos ext2_byte sx 13) 13 s1) as (s2 & E2 & _ & _ & _).
  - exact sx_ok.
  - lia.
  - lia.
  - exact O.
  - lia.
  - exact K1.
  - exact K2.
  - exists d, s1, s2. split; [exact E |]. split; [exact E1 |].
    replace (file_block ext2_byte sx (inode_pos ext2_byte sx 13) 13) with 33 in E2 by (vm_compute; reflexivity). exact E2.
Defined.
