(* ===== verification/GrubMemory.v ===== *)
(** * What the BIOS says of memory and drives

    [src/legacy/SZoS/grub-0.97/stage2/common.c]: the information that is handed
    to a Multiboot kernel, the memory that is available without a hole, and the
    queries at the start.  The assembly that calls the BIOS is a parameter.  A
    memory map is described by its list of areas, in any order and with any
    overlaps. *)

From S2P Require Import Prelude Machine LibcString GrubString GrubTerm GrubReadline GrubBios GrubDisk GrubDevice GrubPart GrubFsys.

(** ** The code *)

(** [struct multiboot_info] without the members for video, which are not used
    here.  [syms] is a union: [tabsize] or [num], [strsize] or [size], [addr],
    [shndx]. *)
Record multiboot_info := Mbi {
  mb_flags : Z; mb_mem_lower : Z; mb_mem_upper : Z; mb_boot_device : Z; mb_cmdline : Z;
  mb_mods_count : Z; mb_mods_addr : Z; syms_num : Z; syms_size : Z; syms_addr : Z; syms_shndx : Z;
  mb_mmap_length : Z; mb_mmap_addr : Z; mb_drives_length : Z; mb_drives_addr : Z;
  mb_config_table : Z; mb_boot_loader_name : Z; mb_apm_table : Z }.

Definition MB_INFO_MEMORY : Z := 0x00000001.
Definition MB_INFO_BOOTDEV : Z := 0x00000002.
Definition MB_INFO_CMDLINE : Z := 0x00000004.
Definition MB_INFO_MODS : Z := 0x00000008.
Definition MB_INFO_AOUT_SYMS : Z := 0x00000010.
Definition MB_INFO_ELF_SHDR : Z := 0x00000020.
Definition MB_INFO_DRIVE_INFO : Z := 0x00000080.
Definition MB_INFO_CONFIG_TABLE : Z := 0x00000100.
Definition MB_INFO_BOOT_LOADER_NAME : Z := 0x00000200.
Definition MB_INFO_APM_TABLE : Z := 0x00000400.

(** [struct AddrRangeDesc], packed, at [addr]. *)
Definition MB_ARD_MEMORY : Z := 1.
Definition ld64 (m : mem) (a : Z) : Z := ld32 m a + 4294967296 * ld32 m (a + 4).
Definition desc_size (m : mem) (addr : Z) : Z := ld32 m addr.
Definition BaseAddr (m : mem) (addr : Z) : Z := ld64 m (addr + 4).
Definition Length (m : mem) (addr : Z) : Z := ld64 m (addr + 12).
Definition desc_Type (m : mem) (addr : Z) : Z := ld32 m (addr + 20).

(** The area after the one at [addr]: its size does not count the size itself. *)
Definition next_desc (m : mem) (addr : Z) : Z := u32 (addr + desc_size m addr + 4).

(** The [for] loop over the areas from [addr] to [stop], for [fuel] of them. *)
Fixpoint avail_pass (fuel : nat) (m : mem) (stop addr top cont : Z) : option (Z * Z) :=
  if addr <? stop
  then
    match fuel with
    | O => None
    | S f =>
        let last := u64 (BaseAddr m addr + Length m addr) in
        if (desc_Type m addr =? MB_ARD_MEMORY) && (BaseAddr m addr <=? top) && (top <? last)
        then avail_pass f m stop (next_desc m addr) last (cont + 1)
        else avail_pass f m stop (next_desc m addr) top cont
    end
  else Some (cont, top).

(** [do ... while (cont)] *)
Fixpoint avail_passes (fuel areas : nat) (m : mem) (mmap_addr mmap_length top : Z) : option Z :=
  match fuel with
  | O => None
  | S f =>
      '(cont, top) ← avail_pass areas m (u32 (mmap_addr + mmap_length)) mmap_addr top 0;
      if cont =? 0 then Some top else avail_passes f areas m mmap_addr mmap_length top
  end.

Definition mmap_avail_at (fuel areas : nat) (m : mem) (mmap_addr mmap_length bottom : Z) : option Z :=
  top ← avail_passes fuel areas m mmap_addr mmap_length bottom;
  let top := if 0xFFFFFFFF <? top then 0xFFFFFFFF else top in
  Some (u32 (top - bottom)).

(** The highest end of an area of memory, and where the loop ends. *)
Fixpoint highest (fuel : nat) (m : mem) (stop addr max_addr : Z) : option (Z * Z) :=
  if addr <? stop
  then
    match fuel with
    | O => None
    | S f =>
        let last := u64 (BaseAddr m addr + Length m addr) in
        highest f m stop (next_desc m addr)
          (if (desc_Type m addr =? MB_ARD_MEMORY) && (0 <? Length m addr) && (max_addr <? last) then last else max_addr)
    end
  else Some (max_addr, addr).

(** *** The queries at the start *)

(** A 64-bit store. *)
Definition st_qword (m : mem) (a v : Z) : mem := st_dword (st_dword m a v) (a + 4) (v / 4294967296).
Definition st_word (m : mem) (a v : Z) : mem := st (st m a (u8 v)) (a + 1) (u8 (v / 256)).

(** The routines of [asm.S] that ask the BIOS; [get_mmap_entry] stores an entry
    and gives the number to go on with, [get_apm_info] the version. *)
Record asm := Asm {
  get_memsize : Z -> Z; get_eisamemsize : Z; get_mmap_entry : Z -> Z -> mem -> Z * mem;
  get_rom_config_table : Z; get_apm_info : Z }.

(** What the start leaves: [mbi], the variables of [common.c] and memory. *)
Record probe := Probe {
  pb_mbi : multiboot_info; extended_memory : Z; saved_mem_upper : Z; pb_dev : dev; pb_err : grub_error; pb_mem : mem }.

(** [do ... while (cont)]: where the map ends, its length, and memory. *)
Fixpoint read_mmap (get : Z -> Z -> mem -> Z * mem) (fuel : nat) (addr cont length : Z) (m : mem) : option (Z * Z * mem) :=
  match fuel with
  | O => None
  | S f =>
      let '(cont, m) := get addr cont m in
      if ld32 m addr =? 0 then Some (addr, length, m)
      else
        let length := u32 (length + (ld32 m addr + 4)) in
        let addr := next_desc m addr in
        if cont =? 0 then Some (addr, length, m) else read_mmap get f addr cont length m
  end.

Definition MB_DI_CHS_MODE : Z := 0.
Definition MB_DI_LBA_MODE : Z := 1.
Definition drive_info_size : Z := 12.
Definition IO_MAP_SIZE : Z := 128.

Section Start.
Variables (a : asm) (b : bios) (code_end fakemap io_map apm_bios_info version_string : Z).

(** The loop over the ports of [io_map] up to a 0: the
    place after the last port stored. *)
Fixpoint copy_ports (fuel : nat) (port addr : Z) (m : mem) : Z * mem :=
  match fuel with
  | O => (addr, m)
  | S f => if ld16 m port =? 0 then (addr, m) else copy_ports f (port + 2) (u32 (addr + 2)) (st_word m addr (ld16 m port))
  end.

(** [info->drive_number = drive; ...] *)
Definition store_drive (m : mem) (info drive : Z) (geom : geometry) : mem :=
  let m := st m (info + 4) (u8 drive) in
  let m := st m (info + 5) (if flags geom .& BIOSDISK_FLAG_LBA_EXTENSION =? 0 then MB_DI_CHS_MODE else MB_DI_LBA_MODE) in
  let m := st_word m (info + 6) (cylinders geom) in
  st (st m (info + 8) (u8 (heads geom))) (info + 9) (u8 (sectors geom)).

(** [for (drive = 0x80; drive < 0x88; drive++)], [n] drives being left; [geom]
    is a variable of each turn. *)
Fixpoint probe_drives (n : nat) (mem_lower mem_upper drive addr drives_length : Z) (geom : geometry) (e : grub_error) (m : mem)
    : Z * grub_error * mem :=
  match n with
  | O => (drives_length, e, m)
  | S n =>
      let '(err, g) := get_diskinfo b drive geom in
      if negb (err =? 0) then (drives_length, e, m)
      else
        let '(_, (e, m)) := grub_memset mem_lower mem_upper io_map 0 (IO_MAP_SIZE * 2) (e, m) in
        let m := store_drive m addr drive g in
        let '(next, m) := copy_ports (Z.to_nat IO_MAP_SIZE) io_map (u32 (addr + drive_info_size)) m in
        let size := u32 (next - addr) in
        probe_drives n mem_lower mem_upper (drive + 1) next (u32 (drives_length + size)) geom e (st_dword m addr size)
  end.

Variables (boot_drive install_partition : Z).

(** Memory: [mem_lower], [mem_upper], [extended_memory], the place and length of
    the map, the place after what was stored, and memory. *)
Definition probe_memory (fuel areas : nat) (m : mem) : option (Z * Z * Z * (Z * Z) * Z * mem) :=
  let mem_lower := u32 (get_memsize a 0) in
  let mem_upper := u32 (get_memsize a 1) in
  '(addr, mmap_length, m) ← read_mmap (get_mmap_entry a) fuel code_end 0 0 m;
  if negb (mmap_length =? 0)
  then
    lower ← mmap_avail_at fuel areas m code_end mmap_length 0;
    upper ← mmap_avail_at fuel areas m code_end mmap_length 0x100000;
    '(max_addr, addr) ← highest areas m (u32 (code_end + mmap_length)) code_end 0;
    Some (lower .>> 10, upper .>> 10, u32 (u64 (max_addr - 0x100000) .>> 10), (code_end, mmap_length), addr, m)
  else
    let memtmp := u32 (get_eisamemsize a) in
    if memtmp =? 0xFFFFFFFF then Some (mem_lower, mem_upper, mem_upper, (code_end, 0), addr, m)
    else
      let cont := memtmp .& 0xFFFF0000 in
      let memtmp := memtmp .& 0xFFFF in
      let extended := if negb (cont =? 0) then (cont .>> 10) + 0x3c00 else memtmp in
      if (cont =? 0) || (memtmp =? 0x3c00)
      then Some (mem_lower, u32 (memtmp + (cont .>> 10)), extended, (code_end, 0), addr, m)
      else
        let m := st_qword m (fakemap + 12) (u32 (mem_lower .<< 10)) in
        let m := st_qword m (fakemap + 36) (u32 (memtmp .<< 10)) in
        Some (mem_lower, memtmp, extended, (fakemap, 72), addr, st_qword m (fakemap + 60) cont).

(** [init_bios_info] up to the call of [cmain]; [gateA20] only changes what
    addresses mean.  [geom0] is what an uninitialised [geom] holds. *)
Definition init_bios_info (fuel areas : nat) (geom0 : geometry) (v : dev) (e : grub_error) (m : mem) : option probe :=
  '(mem_lower, mem_upper, extended, (mmap_addr, mmap_length), addr, m) ← probe_memory fuel areas m;
  let '(drives_length, e, m) := probe_drives 8 mem_lower mem_upper 0x80 addr 0 geom0 e m in
  let version := get_apm_info a in
  let info := ((((MB_INFO_MEMORY .| MB_INFO_CMDLINE) .| MB_INFO_BOOTDEV) .| MB_INFO_DRIVE_INFO) .| MB_INFO_CONFIG_TABLE) .| MB_INFO_BOOT_LOADER_NAME in
  let info := if version =? 0 then info else info .| MB_INFO_APM_TABLE in
  let '(err, geom) := get_diskinfo b boot_drive geom0 in
  let cdrom := if negb (err =? 0) || (flags geom .& BIOSDISK_FLAG_CDROM =? 0) then GRUB_INVALID_DRIVE else boot_drive in
  Some (Probe (Mbi info mem_lower mem_upper 0 0 0 0 0 0 0 0 mmap_length mmap_addr drives_length addr
                 (get_rom_config_table a) version_string (if version =? 0 then 0 else apm_bios_info))
              extended mem_upper
              (Dev boot_drive install_partition cdrom (current_drive v) (current_partition v) (incomplete v) (disk_choice v) (part_choice v) (v_err v))
              e m).
End Start.

(** ** Specifications *)

(** An area of a memory map: its size in the map, and what it covers. *)
Record area := Area { a_size : Z; a_base : Z; a_length : Z; a_type : Z }.

Definition area_ok (e : area) : Prop :=
  0 <= a_size e < 4294967292 /\ 0 <= a_base e /\ 0 <= a_length e /\ a_base e + a_length e < 18446744073709551616.

(** The map from [addr] to [stop] lists the areas [l]. *)
Fixpoint map_at (m : mem) (addr stop : Z) (l : list area) : Prop :=
  match l with
  | [] => addr = stop
  | e :: l => desc_size m addr = a_size e /\ BaseAddr m addr = a_base e /\ Length m addr = a_length e /\ desc_Type m addr = a_type e /\
      map_at m (addr + a_size e + 4) stop l
  end.

Definition is_memory (e : area) : bool := a_type e =? MB_ARD_MEMORY.
Definition a_end (e : area) : Z := a_base e + a_length e.

(** Address [x] is memory. *)
Definition available (l : list area) (x : Z) : Prop := Exists (fun e => is_memory e = true /\ a_base e <= x < a_end e) l.

(** The bytes of memory that follow each other from [bottom] on are [n]. *)
Definition connected (l : list area) (bottom n : Z) : Prop :=
  0 <= n < 4294967296 - bottom /\ (forall x, bottom <= x < bottom + n -> available l x) /\
  (bottom + n = 4294967295 \/ ~ available l (bottom + n)).

(** The highest end of memory. *)
Fixpoint top_of (l : list area) (top : Z) : Z :=
  match l with
  | [] => top
  | e :: l => top_of l (if is_memory e && (0 <? a_length e) then Z.max top (a_end e) else top)
  end.

Definition total (l : list area) : Z := foldr (fun e n => a_size e + 4 + n) 0 l.

(** A call of [get_mmap_entry] stores the area and gives the next number. *)
Definition stores (get : Z -> Z -> mem -> Z * mem) (addr cont : Z) (e : area) (next : Z) : Prop :=
  forall m, exists m', get addr cont m = (next, m') /\
    desc_size m' addr = a_size e /\ BaseAddr m' addr = a_base e /\ Length m' addr = a_length e /\ desc_Type m' addr = a_type e /\
    (forall x, ~ (addr <= x < addr + a_size e + 4) -> ld m' x = ld m x).

(** The BIOS reports the areas [l], one call after the other. *)
Inductive reports (get : Z -> Z -> mem -> Z * mem) : Z -> Z -> list area -> Prop :=
  | reports_last addr cont e : stores get addr cont e 0 -> reports get addr cont [e]
  | reports_more addr cont e next l : next <> 0 -> stores get addr cont e next ->
      reports get (addr + a_size e + 4) next l -> reports get addr cont (e :: l).

(** The hard disks that answer, up to the first that does not. *)
Fixpoint drives_present (b : bios) (geom0 : geometry) (n : nat) (drive : Z) : list (Z * geometry) :=
  match n with
  | O => []
  | S n => let '(err, g) := get_diskinfo b drive geom0 in
           if err =? 0 then (drive, g) :: drives_present b geom0 n (drive + 1) else []
  end.

(** The description of a drive in memory. *)
Record drive_at (m : mem) (addr : Z) (x : Z * geometry) : Prop := {
  da_size : ld32 m addr = drive_info_size;
  da_number : ld m (addr + 4) = u8 (fst x);
  da_mode : ld m (addr + 5) = if flags (snd x) .& BIOSDISK_FLAG_LBA_EXTENSION =? 0 then MB_DI_CHS_MODE else MB_DI_LBA_MODE;
  da_cylinders : ld16 m (addr + 6) = u16 (cylinders (snd x));
  da_heads : ld m (addr + 8) = u8 (heads (snd x));
  da_sectors : ld m (addr + 9) = u8 (sectors (snd x)) }.

(** ** Proofs *)

(** The areas of memory that end above [top]. *)
Definition above (l : list area) (top : Z) : nat := length (filter (fun e => is_memory e = true /\ top < a_end e) l).

Lemma above_mono l t1 t2 : t1 <= t2 -> (above l t2 <= above l t1)%nat.
Proof.
  intros H. unfold above. induction l as [|e l IH]; [done |]. rewrite !filter_cons. repeat case_decide; cbn [length]; try lia. naive_solver lia.
Qed.

Lemma above_less l t1 e : e ∈ l -> is_memory e = true -> t1 < a_end e -> (above l (a_end e) < above l t1)%nat.
Proof.
  intros He Hm Ht. unfold above. induction l as [|e' l IH]; [by apply elem_of_nil in He |]. rewrite !filter_cons.
  apply elem_of_cons in He as [-> | He].
  - rewrite decide_False by (intros [_ ?]; lia). rewrite decide_True by done. cbn [length].
    pose proof (above_mono l t1 (a_end e') ltac:(lia)) as H. unfold above in H. lia.
  - specialize (IH He). repeat case_decide; cbn [length]; try lia. naive_solver lia.
Qed.

Lemma map_at_le m stop l : forall addr, map_at m addr stop l -> Forall area_ok l -> addr + 4 * Z.of_nat (length l) <= stop.
Proof.
  induction l as [|e l IH]; intros addr H Hl; cbn in *; [lia |]. apply Forall_cons_iff in Hl as [(?&?&?&?) Hl]. destruct H as (_&_&_&_&H).
  specialize (IH _ H Hl). lia.
Qed.

(** What a pass does: it raises [top] over memory, or finds that [top] is none. *)
Lemma avail_pass_ok all m stop l : forall fuel addr top cont, map_at m addr stop l -> Forall area_ok l -> l ⊆ all ->
  0 <= addr -> stop < 4294967296 -> (length l <= fuel)%nat ->
  exists k top', avail_pass fuel m stop addr top cont = Some (cont + k, top') /\ 0 <= k /\ top <= top' /\
    (forall x, top <= x < top' -> available all x) /\
    (k = 0 -> top' = top /\ ~ available l top) /\ (0 < k -> (above all top' < above all top)%nat).
Proof.
  induction l as [|e l IH]; intros fuel addr top cont Hm Hl Hin H0 Hs Hf; cbn [map_at] in Hm.
  - exists 0, top. destruct fuel; cbn [avail_pass]; rewrite (proj2 (Z.ltb_ge addr stop)) by lia; rewrite Z.add_0_r;
      (split_and!; [done | done | done | intros; lia | intros; split; [done |]; by inversion 1 | lia]).
  - destruct Hm as (E1 & E2 & E3 & E4 & Hm). pose proof (map_at_le _ _ _ _ Hm (Forall_inv_tail Hl)) as Hle.
    apply Forall_cons_iff in Hl as [(A1 & A2 & A3 & A4) Hl]. destruct fuel as [|f]; [cbn in Hf; lia |]. cbn [avail_pass].
    rewrite (proj2 (Z.ltb_lt addr stop)) by lia. rewrite E2, E3, E4. unfold next_desc. rewrite E1, u32_small, u64_small by lia.
    change (a_base e + a_length e) with (a_end e) in *. fold (is_memory e).
    assert (e ∈ all) as He by (apply Hin; left). assert (l ⊆ all) as Hin' by (intros x Hx; apply Hin; by right).
    destruct (is_memory e) eqn:Em; cbn [andb]; [destruct (Z.leb_spec (a_base e) top); cbn [andb]; [destruct (Z.ltb_spec top (a_end e)) |] |].
    1: { destruct (IH f (addr + a_size e + 4) (a_end e) (cont + 1) Hm Hl Hin' ltac:(lia) Hs ltac:(cbn in Hf; lia)) as (k & t & -> & K & T & B & Z1 & Z2).
         exists (1 + k), t. replace (cont + 1 + k) with (cont + (1 + k)) by lia. pose proof (above_less all top e He Em ltac:(lia)).
         split_and!; [done | lia | lia | | lia |].
         - intros x Hx. destruct (Z.lt_ge_cases x (a_end e)); [| apply B; lia]. apply Exists_exists. exists e. split; [by apply list_elem_of_In | split; [done | lia]].
         - intros _. pose proof (above_mono all (a_end e) t T). lia. }
    all: destruct (IH f (addr + a_size e + 4) top cont Hm Hl Hin' ltac:(lia) Hs ltac:(cbn in Hf; lia)) as (k & t & -> & K & T & B & Z1 & Z2).
    all: exists k, t; split_and!; [done | done | done | done | | done].
    all: intros Hk; destruct (Z1 Hk) as [-> N]; split; [done |]; unfold available; rewrite Exists_cons; intros [[? ?] | ?]; [try lia; congruence | done].
Qed.

Lemma avail_passes_ok m mmap_addr mmap_length l areas : map_at m mmap_addr (mmap_addr + mmap_length) l -> Forall area_ok l ->
  0 <= mmap_addr -> mmap_addr + mmap_length < 4294967296 -> (length l <= areas)%nat ->
  forall fuel top, (above l top < fuel)%nat ->
  exists top', avail_passes fuel areas m mmap_addr mmap_length top = Some top' /\ top <= top' /\
    (forall x, top <= x < top' -> available l x) /\ ~ available l top'.
Proof.
  intros Hm Hl H0 Hs Ha. pose proof (map_at_le _ _ _ _ Hm Hl). induction fuel as [|f IH]; intros top Hf; [lia |]. cbn [avail_passes].
  rewrite u32_small by lia.
  destruct (avail_pass_ok l m _ l areas mmap_addr top 0 Hm Hl ltac:(done) H0 Hs Ha) as (k & t & -> & K & T & B & Z1 & Z2). cbn [mbind option_bind].
  rewrite Z.add_0_l. destruct (Z.eqb_spec k 0) as [-> | Hk].
  - destruct (Z1 eq_refl) as [-> N]. exists top. by split_and!.
  - destruct (IH t ltac:(lia)) as (t' & -> & T' & B' & N'). exists t'. split_and!; [done | lia | | done].
    intros x Hx. destruct (Z.lt_ge_cases x t); [apply B | apply B']; lia.
Qed.

Lemma above_length l t : (above l t <= length l)%nat.
Proof. unfold above. apply length_filter. Qed.

Lemma mmap_avail m mmap_addr mmap_length l bottom fuel areas :
  map_at m mmap_addr (mmap_addr + mmap_length) l -> Forall area_ok l -> 0 <= mmap_addr -> mmap_addr + mmap_length < 4294967296 ->
  0 <= bottom < 4294967295 -> (length l <= areas)%nat -> (length l < fuel)%nat ->
  exists n, mmap_avail_at fuel areas m mmap_addr mmap_length bottom = Some n /\ connected l bottom n.
Proof.
  intros Hm Hl H0 Hs Hb Ha Hf. pose proof (above_length l bottom).
  destruct (avail_passes_ok m mmap_addr mmap_length l areas Hm Hl H0 Hs Ha fuel bottom ltac:(lia)) as (t & E & T & B & N).
  unfold mmap_avail_at. rewrite E. cbn [mbind option_bind].
  destruct (Z.ltb_spec 0xFFFFFFFF t); (eexists; split; [done |]); rewrite u32_small by lia; (split; [lia |]).
  - split; [intros; apply B; lia | left; lia].
  - replace (bottom + (t - bottom)) with t by lia. split; [intros; apply B; lia | by right].
Qed.

(** Whatever the order and the overlaps of the areas of a memory map, and
    whether or not they touch, mmap_avail_at ends and gives the number of
    bytes of memory that follow each other from bottom on: all of them are
    memory and the next address is none, or is 2^32 - 1, where the count
    stops. *)
Theorem mmap_avail_at_connected m mmap_addr mmap_length l bottom fuel areas :
  map_at m mmap_addr (mmap_addr + mmap_length) l -> Forall area_ok l -> 0 <= mmap_addr -> mmap_addr + mmap_length < 4294967296 ->
  0 <= bottom < 4294967295 -> (length l <= areas)%nat -> (length l < fuel)%nat ->
  exists n, mmap_avail_at fuel areas m mmap_addr mmap_length bottom = Some n /\ connected l bottom n.
Proof. apply mmap_avail. Qed.

Lemma desc_frame m m' addr : (forall x, addr <= x < addr + 24 -> ld m' x = ld m x) ->
  desc_size m' addr = desc_size m addr /\ BaseAddr m' addr = BaseAddr m addr /\ Length m' addr = Length m addr /\ desc_Type m' addr = desc_Type m addr.
Proof.
  intros H. unfold desc_size, BaseAddr, Length, desc_Type, ld64.
  rewrite !(ld32_frame m m') by (intros; apply H; lia). done.
Qed.

Lemma map_frame m m' stop l : forall addr, map_at m addr stop l -> Forall area_ok l -> Forall (fun e => 20 <= a_size e) l ->
  (forall x, addr <= x < stop -> ld m' x = ld m x) -> map_at m' addr stop l.
Proof.
  induction l as [|e l IH]; intros addr H Hl Hz F; cbn [map_at] in *; [done |]. destruct H as (E1 & E2 & E3 & E4 & H).
  apply Forall_cons_iff in Hl as [He Hl]. apply Forall_cons_iff in Hz as [Hz Hzl]. pose proof (map_at_le _ _ _ _ H Hl).
  destruct (desc_frame m m' addr) as (-> & -> & -> & ->); [intros; apply F; lia |]. split_and!; try done.
  apply IH; try done. intros x Hx. apply F. lia.
Qed.

Lemma highest_ok m stop l : forall fuel addr top, map_at m addr stop l -> Forall area_ok l -> 0 <= addr -> stop < 4294967296 -> (length l <= fuel)%nat ->
  highest fuel m stop addr top = Some (top_of l top, stop).
Proof.
  induction l as [|e l IH]; intros fuel addr top Hm Hl H0 Hs Hf; cbn [map_at top_of] in *.
  - subst. destruct fuel; cbn [highest]; by rewrite Z.ltb_irrefl.
  - destruct Hm as (E1 & E2 & E3 & E4 & Hm). apply Forall_cons_iff in Hl as [(A1 & A2 & A3 & A4) Hl]. pose proof (map_at_le _ _ _ _ Hm Hl).
    destruct fuel as [|f]; [cbn in Hf; lia |]. cbn [highest length] in *. rewrite (proj2 (Z.ltb_lt addr stop)) by lia.
    rewrite E2, E3, E4. unfold next_desc. rewrite E1, u32_small, u64_small by lia. fold (is_memory e) (a_end e).
    rewrite IH by (try done; lia). do 3 f_equal. destruct (is_memory e && _); cbn [andb]; [| done]. destruct (Z.ltb_spec top (a_end e)); lia.
Qed.

Lemma total_nonneg l : Forall area_ok l -> 0 <= total l.
Proof. unfold total. induction 1 as [|e l (? & _)]; cbn; lia. Qed.

Lemma read_mmap_ok get addr cont l : reports get addr cont l -> Forall area_ok l -> Forall (fun e => 20 <= a_size e) l ->
  forall fuel length0 m, 0 <= addr -> addr + total l < 4294967296 -> 0 <= length0 -> length0 + total l < 4294967296 -> (length l <= fuel)%nat ->
  exists m', read_mmap get fuel addr cont length0 m = Some (addr + total l, length0 + total l, m') /\
    map_at m' addr (addr + total l) l /\ (forall x, ~ (addr <= x < addr + total l) -> ld m' x = ld m x).
Proof.
  induction 1 as [addr cont e St | addr cont e next l Hn St _ IH]; intros Hl Hz fuel length0 m H0 Hs H1 H2 Hf;
    apply Forall_cons_iff in Hl as [He Hl]; apply Forall_cons_iff in Hz as [Hz Hzl]; cbn [total foldr length map_at] in *;
    (destruct fuel as [|f]; [lia |]); cbn [read_mmap]; destruct (St m) as (m1 & -> & E1 & E2 & E3 & E4 & F);
    pose proof He as (A1 & A2 & A3 & A4); unfold next_desc; change (ld32 m1 addr) with (desc_size m1 addr); rewrite E1.
  - rewrite (proj2 (Z.eqb_neq (a_size e) 0)) by lia. cbn [Z.eqb]. rewrite !u32_small by lia.
    exists m1. split; [do 3 f_equal; lia |]. split; [split_and!; try done; lia |]. intros x Hx. apply F. lia.
  - rewrite (proj2 (Z.eqb_neq (a_size e) 0)), (proj2 (Z.eqb_neq next 0)) by lia. fold (total l) in *.
    pose proof (total_nonneg l Hl) as Ht.
    rewrite !u32_small by lia. destruct (IH Hl Hzl f (length0 + (a_size e + 4)) m1) as (m' & -> & M & F'); try lia.
    exists m'. split; [do 3 f_equal; lia |]. split.
    + assert (forall x, addr <= x < addr + a_size e + 4 -> ld m' x = ld m1 x) as G by (intros; apply F'; lia).
      destruct (desc_frame m1 m' addr) as (-> & -> & -> & ->); [intros; apply G; lia |]. split_and!; try done.
      by replace (addr + (a_size e + 4 + total l)) with (addr + a_size e + 4 + total l) by lia.
    + intros x Hx. rewrite F' by lia. apply F. lia.
Qed.

Lemma grub_memset_ok mem_lower mem_upper start c len m :
  0 <= start < 2147483648 -> 0 <= len < 2147483648 -> 0 <= mem_lower < 4194304 -> 0 <= mem_upper < 4194304 -> mem_ok mem_lower mem_upper start len ->
  exists m', grub_memset mem_lower mem_upper start c len (ERR_NONE, m) = (start, (ERR_NONE, m')) /\ loaded m start len (fun _ => u8 c) m'.
Proof.
  intros Ha Hl H1 H2 Hok. unfold grub_memset. rewrite s32_small by lia. rewrite (proj1 (memcheck_spec _ _ _ _ ERR_NONE Ha Hl H1 H2)) by done.
  rewrite !decide_True by done. eexists. split; [done |]. apply (fill_loaded m start len (fun _ => u8 c)). lia.
Qed.

(** The ports: after the map has been cleared, there are none. *)
Lemma no_ports io_map fuel addr m : ld16 m io_map = 0 -> (0 < fuel)%nat -> copy_ports fuel io_map addr m = (addr, m).
Proof. intros H Hf. destruct fuel; [lia |]. cbn [copy_ports]. by rewrite H. Qed.

Lemma ld_st_word m a v x : ld (st_word m a v) x = if decide (x = a) then u8 v else if decide (x = a + 1) then u8 (v / 256) else ld m x.
Proof. unfold st_word. rewrite !ld_st. repeat case_decide; congruence || lia || done. Qed.

Lemma store_drive_ok m info drive g : let m' := st_dword (store_drive m info drive g) info drive_info_size in
  drive_at m' info (drive, g) /\ forall x, ~ (info <= x < info + drive_info_size) -> ld m' x = ld m x.
Proof.
  intros m'. split.
  - constructor; cbn [fst snd]; [by unfold m'; rewrite ld32_st_dword |..].
    all: unfold m', store_drive, ld16; rewrite ?ld_st_dword by lia; rewrite !ld_st, ?ld_st_word, ?ld_st.
    all: repeat case_decide; try lia; try done.
    unfold u8, u16. dlia.
  - intros x Hx. unfold m', store_drive, drive_info_size in *. rewrite ld_st_dword by lia. rewrite !ld_st, !ld_st_word, !ld_st.
    repeat case_decide; lia || done.
Qed.

Lemma probe_drives_ok b io_map mem_lower mem_upper geom0 :
  0 <= mem_lower < 4194304 -> 0 <= mem_upper < 4194304 -> 0 <= io_map < 2147483648 -> mem_ok mem_lower mem_upper io_map (IO_MAP_SIZE * 2) ->
  forall n drive addr length0 m, io_map + IO_MAP_SIZE * 2 <= addr -> addr + 12 * Z.of_nat n < 4294967296 -> 0 <= length0 -> length0 + 12 * Z.of_nat n < 4294967296 ->
  let ds := drives_present b geom0 n drive in let k := Z.of_nat (length ds) in
  exists m', probe_drives b io_map n mem_lower mem_upper drive addr length0 geom0 ERR_NONE m = (length0 + 12 * k, ERR_NONE, m') /\
    (forall (i : nat) x, ds !! i = Some x -> drive_at m' (addr + 12 * Z.of_nat i) x) /\
    (forall x, ~ (io_map <= x < io_map + IO_MAP_SIZE * 2) -> ~ (addr <= x < addr + 12 * k) -> ld m' x = ld m x).
Proof.
  intros H1 H2 H3 Hok. induction n as [|n IH]; intros drive addr length0 m Ha Hs Hl0 Hls; cbn zeta; cbn [probe_drives drives_present].
  - exists m. split; [do 2 f_equal; cbn; lia |]. by split; [intros i x ? |].
  - destruct (get_diskinfo b drive geom0) as [err g]. destruct (Z.eqb_spec err 0) as [-> |]; cbn [negb length].
    2: { exists m. split; [do 2 f_equal; cbn; lia |]. by split; [intros i x ? |]. }
    destruct (grub_memset_ok mem_lower mem_upper io_map 0 (IO_MAP_SIZE * 2) m H3 ltac:(done) H1 H2 Hok) as (m1 & -> & L1).
    unfold drive_info_size, IO_MAP_SIZE in *. rewrite (u32_small (addr + 12)) by lia.
    rewrite no_ports; [| | lia].
    2: { unfold ld16, store_drive. rewrite !ld_st, !ld_st_word, !ld_st. repeat case_decide; try lia.
         by rewrite !L1, !decide_True by lia. }
    replace (addr + 12 - addr) with 12 by lia. rewrite (u32_small 12), (u32_small (length0 + 12)) by lia.
    destruct (store_drive_ok m1 addr drive g) as [D F]. unfold drive_info_size in *. set (m2 := st_dword _ _ _) in *.
    destruct (IH (drive + 1) (addr + 12) (length0 + 12) m2) as (m' & E & Ds & F'); try lia.
    set (ds := drives_present b geom0 n (drive + 1)) in *. exists m'. split; [rewrite E; do 2 f_equal; cbn [length]; lia |].
    assert (forall x, addr <= x < addr + 12 -> ld m' x = ld m2 x) as G by (intros; apply F'; lia).
    split; [intros [|i] x Hx; cbn in Hx |].
    + injection Hx as <-. rewrite Z.mul_0_r, Z.add_0_r. destruct D as [D1 D2 D3 D4 D5 D6]; constructor; unfold ld16 in *;
        try (rewrite (ld32_frame m2 m') by (intros; apply G; lia)); rewrite ?G by lia; done.
    + replace (addr + 12 * Z.of_nat (S i)) with (addr + 12 + 12 * Z.of_nat i) by lia. by apply Ds.
    + intros x X1 X2. cbn [length] in X2. rewrite F' by lia. rewrite F by lia. by rewrite L1, decide_False by lia.
Qed.

Lemma drives_most b geom0 n : forall drive, (length (drives_present b geom0 n drive) <= n)%nat.
Proof.
  induction n as [|n IH]; intros drive; cbn [drives_present]; [done |]. destruct (get_diskinfo b drive geom0) as [err g].
  destruct (err =? 0); cbn [length]; [| lia]. specialize (IH (drive + 1)). lia.
Qed.

(** What the theorem below promises of the state that [init_bios_info] leaves. *)
Record machine_known (a : asm) (b : bios) (code_end boot_drive install_partition : Z) (geom0 : geometry) (l : list area) (p : probe) : Prop := {
  mk_map : map_at (pb_mem p) code_end (code_end + total l) l /\ mb_mmap_addr (pb_mbi p) = code_end /\ mb_mmap_length (pb_mbi p) = total l;
  mk_lower : exists n, connected l 0 n /\ mb_mem_lower (pb_mbi p) = n / 1024;
  mk_upper : exists n, connected l 0x100000 n /\ mb_mem_upper (pb_mbi p) = n / 1024 /\ saved_mem_upper p = n / 1024;
  mk_extended : extended_memory p = u32 (u64 (top_of l 0 - 0x100000) / 1024);
  mk_drives : let ds := drives_present b geom0 8 0x80 in
    mb_drives_addr (pb_mbi p) = code_end + total l /\ mb_drives_length (pb_mbi p) = 12 * Z.of_nat (length ds) /\
    forall (i : nat) x, ds !! i = Some x -> drive_at (pb_mem p) (code_end + total l + 12 * Z.of_nat i) x;
  mk_device : saved_drive (pb_dev p) = boot_drive /\ saved_partition (pb_dev p) = install_partition;
  mk_error : pb_err p = ERR_NONE }.

(** C40. When the BIOS reports a memory map, in any order and with any
    overlaps, init_bios_info leaves it in memory for the kernel, sets
    mem_lower and mem_upper to the kilobytes of memory without a hole from 0
    and from 1 MB, and extended_memory to the kilobytes from 1 MB to the
    highest end of memory, as the 32-bit number that this difference wraps to;
    the hard disks that answer are described behind the map, and no error is
    set. There is memory from 0 to 1 KB behind the work area of the ports,
    which lies below 1 MB and the map, and map and drives end below 4 GB. *)
Theorem init_bios_info_reports a b code_end fakemap io_map apm_bios_info version_string boot_drive install_partition l fuel areas geom0 v m :
  reports (get_mmap_entry a) code_end 0 l -> Forall area_ok l -> Forall (fun e => 20 <= a_size e) l ->
  0x1000 <= io_map -> io_map + IO_MAP_SIZE * 2 <= code_end -> code_end + total l + 96 < 4294967296 ->
  (forall x, 0 <= x < io_map + IO_MAP_SIZE * 2 + 1024 -> available l x) -> io_map + IO_MAP_SIZE * 2 < 0x100000 ->
  (length l <= areas)%nat -> (length l < fuel)%nat ->
  exists p, init_bios_info a b code_end fakemap io_map apm_bios_info version_string boot_drive install_partition fuel areas geom0 v ERR_NONE m = Some p /\
    machine_known a b code_end boot_drive install_partition geom0 l p.
Proof.
  intros R Hl Hz I1 I2 I3 Low I4 Ha Hf. pose proof (total_nonneg l Hl) as Ht. unfold IO_MAP_SIZE in *.
  destruct (read_mmap_ok _ _ _ _ R Hl Hz fuel 0 m ltac:(lia) ltac:(lia) ltac:(lia) ltac:(lia) ltac:(lia)) as (m1 & E1 & M1 & F1).
  assert (0 < total l) as Hpos.
  { inversion R; subst; apply Forall_cons_iff in Hl as [(A & _) Hl]; pose proof (total_nonneg _ Hl) as Hn; unfold total in *; cbn in *; lia. }
  destruct (mmap_avail m1 code_end (total l) l 0 fuel areas) as (n0 & E0 & C0); try done; try lia.
  destruct (mmap_avail m1 code_end (total l) l 0x100000 fuel areas) as (n1 & E2 & C1); try done; try lia.
  pose proof (highest_ok m1 _ l areas code_end 0 M1 Hl ltac:(lia) ltac:(lia) Ha) as E3.
  unfold init_bios_info, probe_memory. rewrite E1. cbn [mbind option_bind]. rewrite Z.add_0_l in *.
  rewrite (proj2 (Z.eqb_neq (total l) 0)) by lia. cbn [negb]. rewrite E0. cbn [mbind option_bind]. rewrite E2. cbn [mbind option_bind].
  rewrite u32_small by lia. rewrite E3. cbn [mbind option_bind].
  assert (io_map + 256 + 1024 <= n0) as Hn0.
  { destruct C0 as (N & _ & [? | Hn]); [lia |]. apply Z.nlt_ge. intros Hlt. apply Hn. apply Low. lia. }
  pose proof (proj1 C0) as N0. pose proof (proj1 C1) as N1.
  rewrite !(shiftr_div _ 10) by lia. change (2 ^ 10) with 1024.
  destruct (probe_drives_ok b io_map (n0 / 1024) (n1 / 1024) geom0) with (n := 8%nat) (drive := 0x80) (addr := code_end + total l) (length0 := 0) (m := m1)
    as (m2 & E4 & Ds & F2); try (unfold IO_MAP_SIZE; cbn [Z.of_nat]; dlia).
  { left. unfold IO_MAP_SIZE. dlia. }
  rewrite E4. destruct (get_diskinfo b boot_drive geom0) as [err g]. eexists. split; [done |].
  constructor; cbn [pb_mbi pb_mem pb_dev pb_err extended_memory saved_mem_upper mb_mmap_addr mb_mmap_length mb_mem_lower mb_mem_upper mb_drives_addr mb_drives_length saved_drive saved_partition]; try done.
  - split; [| done]. apply (map_frame m1); [done | done | done |]. intros x Hx. apply F2; unfold IO_MAP_SIZE; lia.
  - by exists n0.
  - by exists n1.
Qed.

(** A machine with 640 KB, 13 MB in two areas that overlap and a hole at 14 MB,
    reported in no order. *)
Definition some_areas : list area :=
  [Area 20 0x600000 0x800000 1; Area 20 0x1000000 0x100000 1; Area 24 0 0xA0000 1; Area 20 0xF0000 0x10000 2; Area 20 0x100000 0x700000 1].

Definition store_desc (m : mem) (addr : Z) (e : area) : mem :=
  st_dword (st_qword (st_qword (st_dword m addr (a_size e)) (addr + 4) (a_base e)) (addr + 12) (a_length e)) (addr + 20) (a_type e).

Definition report (l : list area) (addr cont : Z) (m : mem) : Z * mem :=
  match l !! Z.to_nat cont with
  | Some e => (if (Z.to_nat cont + 1 =? length l)%nat then 0 else cont + 1, store_desc m addr e)
  | None => (0, m)
  end.

Definition pc : asm := Asm (fun i => if i =? 0 then 640 else 0x3c00) (-1) (report some_areas) 0xFE000 0.

Lemma ld64_st_qword m a v : 0 <= v < 18446744073709551616 -> ld64 (st_qword m a v) a = v.
Proof.
  intros Hv. unfold ld64, st_qword. rewrite ld32_st_dword, ld32_st_dword_ne, ld32_st_dword by lia. unfold u32. dlia.
Qed.

Lemma ld_st_qword m a v x : ~ (a <= x < a + 8) -> ld (st_qword m a v) x = ld m x.
Proof. intros H. unfold st_qword. by rewrite !ld_st_dword by lia. Qed.

Lemma ld64_frame m m' a : (forall x, a <= x < a + 8 -> ld m' x = ld m x) -> ld64 m' a = ld64 m a.
Proof. intros H. unfold ld64. by rewrite !(ld32_frame m m') by (intros; apply H; lia). Qed.

Lemma report_stores l addr cont e next : l !! Z.to_nat cont = Some e -> area_ok e -> 20 <= a_size e -> 0 <= a_type e < 4294967296 ->
  (if (Z.to_nat cont + 1 =? length l)%nat then 0 else cont + 1) = next -> stores (report l) addr cont e next.
Proof.
  intros He (A1 & A2 & A3 & A4) Hs Ht <- m. unfold report. rewrite He. eexists. split; [done |].
  unfold desc_size, BaseAddr, Length, desc_Type, store_desc. split_and!.
  - rewrite ld32_st_dword_ne by lia. rewrite (ld32_frame (st_dword m addr (a_size e))) by (intros; rewrite !ld_st_qword by lia; done).
    rewrite ld32_st_dword. apply u32_small. lia.
  - rewrite (ld64_frame (st_qword (st_dword m addr (a_size e)) (addr + 4) (a_base e))) by (intros; rewrite ld_st_dword, ld_st_qword by lia; done).
    apply ld64_st_qword. lia.
  - rewrite (ld64_frame (st_qword (st_qword (st_dword m addr (a_size e)) (addr + 4) (a_base e)) (addr + 12) (a_length e)))
      by (intros; rewrite ld_st_dword by lia; done).
    apply ld64_st_qword. lia.
  - rewrite ld32_st_dword. by apply u32_small.
  - intros x Hx. rewrite ld_st_dword, !ld_st_qword, ld_st_dword by lia. done.
Qed.

Lemma pc_reports : reports (get_mmap_entry pc) 0x30000 0 some_areas.
Proof.
  assert (forall i addr e next, some_areas !! Z.to_nat i = Some e -> area_ok e -> 20 <= a_size e -> 0 <= a_type e < 4294967296 ->
    (if (Z.to_nat i + 1 =? length some_areas)%nat then 0 else i + 1) = next -> stores (report some_areas) addr i e next) as H
    by (intros; by apply report_stores).
  unfold some_areas at 1.
  eapply (reports_more _ _ _ _ 1); [done | apply H; unfold area_ok; cbn; lia || done |].
  eapply (reports_more _ _ _ _ 2); [done | apply H; unfold area_ok; cbn; lia || done |].
  eapply (reports_more _ _ _ _ 3); [done | apply H; unfold area_ok; cbn; lia || done |].
  eapply (reports_more _ _ _ _ 4); [done | apply H; unfold area_ok; cbn; lia || done |].
  apply reports_last. apply H; unfold area_ok; cbn; lia || done.
Qed.

Lemma some_areas_ok : Forall area_ok some_areas /\ Forall (fun e => 20 <= a_size e) some_areas.
Proof. unfold some_areas, area_ok. split; repeat constructor; cbn; lia. Qed.

Lemma init_bios_info_reports_witness :
  let geom0 := Geometry 0 0 0 0 0 0 in let v := Dev 0 0 0 0 0 false false PART_UNSPECIFIED ERR_NONE in
  let start := init_bios_info pc hard_bios 0x30000 0x20000 0x21000 0x22000 0x23000 0x80 0xFFFF 6 5 geom0 v ERR_NONE ∅ in
  (exists p, start = Some p /\ machine_known pc hard_bios 0x30000 0x80 0xFFFF geom0 some_areas p) /\
  match start with
  | Some p => mb_mem_lower (pb_mbi p) = 640 /\ mb_mem_upper (pb_mbi p) = 13 * 1024 /\ extended_memory p = 16 * 1024
  | None => False
  end.
Proof.
  split; [| vm_compute; done].
  apply init_bios_info_reports; try done; try apply pc_reports; try apply some_areas_ok; try (cbn; lia).
  intros x Hx. unfold IO_MAP_SIZE in Hx. do 2 right. left. unfold a_end. cbn. split; [done | lia].
Defined.

Lemma mmap_avail_at_connected_witness :
  let m := store_desc (store_desc ∅ 0x1000 (Area 20 0x200000 0x100000 1)) 0x1018 (Area 20 0x100000 0x180000 1) in
  exists n, mmap_avail_at 3 2 m 0x1000 48 0x100000 = Some n /\ connected [Area 20 0x200000 0x100000 1; Area 20 0x100000 0x180000 1] 0x100000 n.
Proof.
  apply mmap_avail_at_connected; try (cbn; lia); [vm_compute; done |]. unfold area_ok. repeat constructor; cbn; lia.
Defined.
