(* ===== verification/GrubCommand.v ===== *)
(** * Commands and their arguments

    The parts of [src/legacy/SZoS/grub-0.97/stage2/cmdline.c] that take a
    command line to pieces: the next word, and the command of the first word. *)

From S2P Require Import Prelude Machine LibcString GrubString GrubTerm.

(** ** The code *)

(** The two loops of [skip_to], in a string of less than 64 kilobytes. *)
Fixpoint to_blank (fuel : nat) (after_equal : bool) (m : mem) (a : Z) : Z :=
  match fuel with
  | O => a
  | S f =>
      let c := ld m a in
      if negb (c =? 0) && negb (c =? 32) && negb (c =? 9) && negb (after_equal && (c =? 61)) then to_blank f after_equal m (a + 1) else a
  end.

Fixpoint past_blank (fuel : nat) (after_equal : bool) (m : mem) (a : Z) : Z :=
  match fuel with
  | O => a
  | S f =>
      let c := ld m a in
      if (c =? 32) || (c =? 9) || (after_equal && (c =? 61)) then past_blank f after_equal m (a + 1) else a
  end.

Definition skip_to (after_equal : bool) (cmdline : Z) (m : mem) : Z :=
  past_blank (Z.to_nat 0x10000) after_equal m (to_blank (Z.to_nat 0x10000) after_equal m cmdline).
