(* ===== verification/GrubBoot.v ===== *)
(** * Loading a kernel

    [src/legacy/SZoS/grub-0.97/stage2/boot.c]: [load_image] for Multiboot, ELF,
    a.out and Linux images, [load_module], [load_initrd] and [bsd_boot].  The
    proofs are in the files on the formats. *)

From S2P Require Import Prelude Machine LibcString GrubString GrubTerm GrubReadline GrubBios GrubDisk GrubDevice GrubPart GrubFsys GrubFile GrubMemory GrubCommand.

(** ** Constants and structures *)

Inductive kernel_t :=
  | KERNEL_TYPE_NONE | KERNEL_TYPE_MULTIBOOT | KERNEL_TYPE_LINUX | KERNEL_TYPE_BIG_LINUX
  | KERNEL_TYPE_FREEBSD | KERNEL_TYPE_NETBSD | KERNEL_TYPE_CHAINLOADER.

#[global] Instance kernel_t_eq_dec : EqDecision kernel_t.
Proof. solve_decision. Defined.

Definition KERNEL_LOAD_NO_MEM_OPTION : Z := 1.

(** The Multiboot header, at address [h]. *)
Definition MULTIBOOT_SEARCH : Z := 8192.
Definition MULTIBOOT_MAGIC : Z := 0x1BADB002.
Definition MULTIBOOT_UNSUPPORTED : Z := 0x0000FFF8.
Definition MULTIBOOT_VIDEO_MODE : Z := 0x00000004.
Definition MULTIBOOT_AOUT_KLUDGE : Z := 0x00010000.
Definition mbh_flags (m : mem) (h : Z) : Z := ld32 m (h + 4).
Definition mbh_header_addr (m : mem) (h : Z) : Z := ld32 m (h + 12).
Definition mbh_load_addr (m : mem) (h : Z) : Z := ld32 m (h + 16).
Definition mbh_load_end_addr (m : mem) (h : Z) : Z := ld32 m (h + 20).
Definition mbh_bss_end_addr (m : mem) (h : Z) : Z := ld32 m (h + 24).
Definition mbh_entry_addr (m : mem) (h : Z) : Z := ld32 m (h + 28).

Definition MULTIBOOT_FOUND (m : mem) (addr len : Z) : bool :=
  (addr .& 3 =? 0) && (12 <=? len) && (ld32 m addr =? MULTIBOOT_MAGIC)
  && (u32 (ld32 m addr + ld32 m (addr + 4) + ld32 m (addr + 8)) =? 0)
  && ((MULTIBOOT_AOUT_KLUDGE .& ld32 m (addr + 4) =? 0) || (32 <=? len))
  && ((MULTIBOOT_VIDEO_MODE .& ld32 m (addr + 4) =? 0) || (48 <=? len)).

(** [Elf32_Ehdr] at address [h]. *)
Definition EI_OSABI : Z := 7.
Definition ELFOSABI_FREEBSD : Z := 9.
Definition EI_BRAND : Z := 8.
Definition ehdr_size : Z := 52.
Definition e_ident (m : mem) (h i : Z) : Z := ld m (h + i).
Definition e_type (m : mem) (h : Z) : Z := ld16 m (h + 16).
Definition e_machine (m : mem) (h : Z) : Z := ld16 m (h + 18).
Definition e_version (m : mem) (h : Z) : Z := ld32 m (h + 20).
Definition e_entry (m : mem) (h : Z) : Z := ld32 m (h + 24).
Definition e_phoff (m : mem) (h : Z) : Z := ld32 m (h + 28).
Definition e_shoff (m : mem) (h : Z) : Z := ld32 m (h + 32).
Definition e_phentsize (m : mem) (h : Z) : Z := ld16 m (h + 42).
Definition e_phnum (m : mem) (h : Z) : Z := ld16 m (h + 44).
Definition e_shentsize (m : mem) (h : Z) : Z := ld16 m (h + 46).
Definition e_shnum (m : mem) (h : Z) : Z := ld16 m (h + 48).
Definition e_shstrndx (m : mem) (h : Z) : Z := ld16 m (h + 50).

Definition BOOTABLE_I386_ELF (m : mem) (h : Z) : bool :=
  (e_ident m h 0 =? 0x7f) && (e_ident m h 1 =? 69) && (e_ident m h 2 =? 76) && (e_ident m h 3 =? 70)
  && (e_ident m h 4 =? 1) && (e_ident m h 5 =? 1) && (e_ident m h 6 =? 1)
  && (e_type m h =? 2) && (e_machine m h =? 3) && (e_version m h =? 1).

(** [Elf32_Phdr] and [Elf32_Shdr] at address [p]. *)
Definition PT_LOAD : Z := 1.
Definition p_type (m : mem) (p : Z) : Z := ld32 m p.
Definition p_offset (m : mem) (p : Z) : Z := ld32 m (p + 4).
Definition p_vaddr (m : mem) (p : Z) : Z := ld32 m (p + 8).
Definition p_paddr (m : mem) (p : Z) : Z := ld32 m (p + 12).
Definition p_filesz (m : mem) (p : Z) : Z := ld32 m (p + 16).
Definition p_memsz (m : mem) (p : Z) : Z := ld32 m (p + 20).
Definition shdr_size : Z := 40.
Definition sh_addr (m : mem) (p : Z) : Z := ld32 m (p + 12).
Definition sh_offset (m : mem) (p : Z) : Z := ld32 m (p + 16).
Definition sh_size (m : mem) (p : Z) : Z := ld32 m (p + 20).
Definition sh_addralign (m : mem) (p : Z) : Z := ld32 m (p + 32).

(** [struct exec] at address [h], and the macros of [imgact_aout.h]. *)
Definition OMAGIC : Z := 0x107.
Definition NMAGIC : Z := 0x108.
Definition ZMAGIC : Z := 0x10b.
Definition QMAGIC : Z := 0xcc.
Definition LDPGSZ : Z := 0x1000.
Definition exec_size : Z := 32.
Definition a_midmag (m : mem) (h : Z) : Z := ld32 m h.
Definition a_text (m : mem) (h : Z) : Z := ld32 m (h + 4).
Definition a_data (m : mem) (h : Z) : Z := ld32 m (h + 8).
Definition a_bss (m : mem) (h : Z) : Z := ld32 m (h + 12).
Definition a_syms (m : mem) (h : Z) : Z := ld32 m (h + 16).
Definition a_entry (m : mem) (h : Z) : Z := ld32 m (h + 20).
Definition ntohl (x : Z) : Z :=
  ((u32 (x .<< 24) .| ((x .& 0xFF00) .<< 8)) .| ((x .>> 8) .& 0xFF00)) .| (x .>> 24).
Definition N_GETMAGIC (mid : Z) : Z := mid .& 0xffff.
Definition N_GETMAGIC_NET (mid : Z) : Z := ntohl mid .& 0xffff.
Definition N_BADMAG (mid : Z) : bool :=
  let good x := (x =? OMAGIC) || (x =? NMAGIC) || (x =? ZMAGIC) || (x =? QMAGIC) in
  negb (good (N_GETMAGIC mid)) && negb (good (N_GETMAGIC_NET mid)).
Definition N_TXTOFF (mid : Z) : Z :=
  if N_GETMAGIC mid =? ZMAGIC then LDPGSZ
  else if (N_GETMAGIC mid =? QMAGIC) || (N_GETMAGIC_NET mid =? ZMAGIC) then 0 else exec_size.

(** [struct linux_kernel_header], packed, at address [h]. *)
Definition BOOTSEC_SIGNATURE : Z := 0xAA55.
Definition LINUX_MAGIC_SIGNATURE : Z := 0x53726448.
Definition LINUX_DEFAULT_SETUP_SECTS : Z := 4.
Definition LINUX_FLAG_CAN_USE_HEAP : Z := 0x80.
Definition LINUX_INITRD_MAX_ADDRESS : Z := 0x38000000.
Definition LINUX_MAX_SETUP_SECTS : Z := 64.
Definition LINUX_BOOT_LOADER_TYPE : Z := 0x71.
Definition LINUX_HEAP_END_OFFSET : Z := 0x9000 - 0x200.
Definition LINUX_BZIMAGE_ADDR : Z := 0x100000.
Definition LINUX_ZIMAGE_ADDR : Z := 0x10000.
Definition LINUX_OLD_REAL_MODE_ADDR : Z := 0x90000.
Definition LINUX_FLAG_BIG_KERNEL : Z := 0x1.
Definition LINUX_VID_MODE_NORMAL : Z := 0xFFFF.
Definition LINUX_VID_MODE_EXTENDED : Z := 0xFFFE.
Definition LINUX_VID_MODE_ASK : Z := 0xFFFD.
Definition LINUX_CL_OFFSET : Z := 0x9000.
Definition LINUX_CL_END_OFFSET : Z := 0x90FF.
Definition LINUX_SETUP_MOVE_SIZE : Z := 0x9100.
Definition LINUX_CL_MAGIC : Z := 0xA33F.
Definition lh_cl_magic (h : Z) : Z := h + 0x20.
Definition lh_cl_offset (h : Z) : Z := h + 0x22.
Definition lh_setup_sects (h : Z) : Z := h + 0x1F1.
Definition lh_vid_mode (h : Z) : Z := h + 0x1FA.
Definition lh_boot_flag (h : Z) : Z := h + 0x1FE.
Definition lh_header (h : Z) : Z := h + 0x202.
Definition lh_version (h : Z) : Z := h + 0x206.
Definition lh_type_of_loader (h : Z) : Z := h + 0x210.
Definition lh_loadflags (h : Z) : Z := h + 0x211.
Definition lh_setup_move_size (h : Z) : Z := h + 0x212.
Definition lh_ramdisk_image (h : Z) : Z := h + 0x218.
Definition lh_ramdisk_size (h : Z) : Z := h + 0x21C.
Definition lh_heap_end_ptr (h : Z) : Z := h + 0x224.
Definition lh_cmd_line_ptr (h : Z) : Z := h + 0x228.
Definition lh_initrd_addr_max (h : Z) : Z := h + 0x22C.

(** ** The state *)

(** The files, [mbi], and the variables of [boot.c]. *)
Record boot := Boot {
  k_files : files; k_mbi : multiboot_info; cur_addr : Z; entry_addr : Z;
  linux_mem_size : Z; linux_data_real_addr : Z; linux_data_tmp_addr : Z; linux_text_len : Z }.

Definition set_files (g : files) (k : boot) : boot :=
  Boot g (k_mbi k) (cur_addr k) (entry_addr k) (linux_mem_size k) (linux_data_real_addr k) (linux_data_tmp_addr k) (linux_text_len k).
Definition set_mbi (i : multiboot_info) (k : boot) : boot :=
  Boot (k_files k) i (cur_addr k) (entry_addr k) (linux_mem_size k) (linux_data_real_addr k) (linux_data_tmp_addr k) (linux_text_len k).
Definition set_cur (a : Z) (k : boot) : boot :=
  Boot (k_files k) (k_mbi k) a (entry_addr k) (linux_mem_size k) (linux_data_real_addr k) (linux_data_tmp_addr k) (linux_text_len k).
Definition set_entry (a : Z) (k : boot) : boot :=
  Boot (k_files k) (k_mbi k) (cur_addr k) a (linux_mem_size k) (linux_data_real_addr k) (linux_data_tmp_addr k) (linux_text_len k).
Definition set_linux_mem (n : Z) (k : boot) : boot :=
  Boot (k_files k) (k_mbi k) (cur_addr k) (entry_addr k) n (linux_data_real_addr k) (linux_data_tmp_addr k) (linux_text_len k).
Definition set_linux (real tmp text : Z) (k : boot) : boot :=
  Boot (k_files k) (k_mbi k) (cur_addr k) (entry_addr k) (linux_mem_size k) real tmp text.

Definition k_mem (k : boot) : mem := g_mem (k_files k).
Definition k_err (k : boot) : grub_error := g_err (k_files k).
Definition set_kmem (m : mem) (k : boot) : boot := set_files (upd (set_fmem m) (k_files k)) k.
Definition set_kerr (e : grub_error) (k : boot) : boot := set_files (fail_with e (k_files k)) k.
Definition no_error (k : boot) : bool := bool_decide (k_err k = ERR_NONE).

Definition set_modules (flags addr count : Z) (i : multiboot_info) : multiboot_info :=
  Mbi flags (mb_mem_lower i) (mb_mem_upper i) (mb_boot_device i) (mb_cmdline i) count addr (syms_num i) (syms_size i) (syms_addr i) (syms_shndx i)
      (mb_mmap_length i) (mb_mmap_addr i) (mb_drives_length i) (mb_drives_addr i) (mb_config_table i) (mb_boot_loader_name i) (mb_apm_table i).
Definition set_symbols (flags num size addr shndx : Z) (i : multiboot_info) : multiboot_info :=
  Mbi flags (mb_mem_lower i) (mb_mem_upper i) (mb_boot_device i) (mb_cmdline i) (mb_mods_count i) (mb_mods_addr i) num size addr shndx
      (mb_mmap_length i) (mb_mmap_addr i) (mb_drives_length i) (mb_drives_addr i) (mb_config_table i) (mb_boot_loader_name i) (mb_apm_table i).
Definition set_image (device arg : Z) (i : multiboot_info) : multiboot_info :=
  Mbi (mb_flags i) (mb_mem_lower i) (mb_mem_upper i) device arg (mb_mods_count i) (mb_mods_addr i) (syms_num i) (syms_size i) (syms_addr i) (syms_shndx i)
      (mb_mmap_length i) (mb_mmap_addr i) (mb_drives_length i) (mb_drives_addr i) (mb_config_table i) (mb_boot_loader_name i) (mb_apm_table i).

(** ** The code *)

Section Boot.
Variables (b : bios) (mem_lower mem_upper : Z).
Variables (current_term : term_entry) (max_lines : Z).
Variables (fsys_table : list fsys_entry) (gunzip_read : Z -> Z -> files -> option (Z * files)).
(** [grub_open] of this table. *)
Variable grub_open : Z -> files -> option (Z * files).
(** The places of the local variables [buffer] and [i], and of [mll]. *)
Variables (buffer local_i mll extended_memory : Z).

Definition k_read (buf len : Z) (k : boot) : option (Z * boot) :=
  '(n, g) ← grub_read b mem_lower mem_upper fsys_table gunzip_read (u32 buf) (s32 len) (k_files k); Some (n, set_files g k).
Definition k_seek (offset : Z) (k : boot) : boot := set_files (snd (grub_seek (s32 offset) (k_files k))) k.
Definition k_close (k : boot) : option boot := g ← grub_close fsys_table (k_files k); Some (set_files g k).
Definition k_printf (format : list Z) (args : list arg) (k : boot) : option boot :=
  i ← grub_printf current_term max_lines format args (f_io (g_fs (k_files k)));
  Some (set_files (upd (set_fio i) (k_files k)) k).
Definition k_memset (start len : Z) (k : boot) : boot :=
  let '(_, (e, m)) := grub_memset mem_lower mem_upper (u32 start) 0 (s32 len) (k_err k, k_mem k) in set_kerr e (set_kmem m k).
Definition k_memmove (to from len : Z) (k : boot) : boot :=
  let '(_, (e, m)) := grub_memmove mem_lower mem_upper (u32 to) (u32 from) (s32 len) (k_err k, k_mem k) in set_kerr e (set_kmem m k).
(** [memcheck (addr, len)] sets [errnum]; true is that it is clear. *)
Definition k_memcheck (addr len : Z) (k : boot) : bool * boot :=
  let e := memcheck mem_lower mem_upper (s32 addr) (s32 len) (k_err k) in (bool_decide (e = ERR_NONE), set_kerr e k).
(** [grub_close (); errnum = e; return KERNEL_TYPE_NONE;] *)
Definition refuse (k : boot) : option (kernel_t * boot) := k ← k_close k; Some (KERNEL_TYPE_NONE, k).

Definition set_err_if (c : bool) (e : grub_error) (k : boot) : boot := if c then set_kerr e k else k.
(** [(addr + 0xFFF) & 0xFFFFF000] as an [int]. *)
Definition page_align (addr : Z) : Z := s32 (u32 (addr + 0xFFF) .& 0xFFFFF000).

(** *** The format *)

(** The [for] loop over the header: the place of the Multiboot header. *)
Fixpoint find_multiboot (n : nat) (i len : Z) (m : mem) : option Z :=
  match n with
  | O => None
  | S n => if MULTIBOOT_FOUND m (buffer + i) (len - i) then Some i else find_multiboot n (i + 1) len m
  end.

(** What the first part of [load_image] has found: [type], [exec_type],
    [align_4k], [text_len], [data_len], [bss_len], [str2] and [str]. *)
Record image := Image {
  im_type : kernel_t; im_exec : Z; im_align : bool; im_text : Z; im_data : Z; im_bss : Z; im_str2 : list Z; im_str : list Z }.

Definition elf_image (type suggested : kernel_t) (str2 : list Z) (len : Z) (k : boot) : image * boot :=
  let m := k_mem k in
  let k := set_entry (if decide (type = KERNEL_TYPE_MULTIBOOT) then e_entry m buffer else e_entry m buffer .& 0xFFFFFF) k in
  let k := set_err_if (entry_addr k <? 0x100000) ERR_BELOW_1MB k in
  let k := set_err_if ((e_phoff m buffer =? 0) || (e_phnum m buffer =? 0)
                       || (len <=? u32 (e_phoff m buffer + e_phentsize m buffer * e_phnum m buffer))) ERR_EXEC_FORMAT k in
  let '(type, str2) :=
    if decide (type = KERNEL_TYPE_NONE)
    then if decide (suggested = KERNEL_TYPE_NETBSD) then (suggested, bytes "NetBSD") else (KERNEL_TYPE_FREEBSD, bytes "FreeBSD")
    else (type, str2) in
  (Image type 0 true 0 0 0 str2 (bytes "elf"), k).

Definition kludge_image (type : kernel_t) (str2 : list Z) (i : Z) (k : boot) : image * boot :=
  let h := buffer + i in
  let k := set_cur (s32 (mbh_load_addr (k_mem k) h)) (set_entry (mbh_entry_addr (k_mem k) h) k) in
  let k := k_seek (i - (mbh_header_addr (k_mem k) h - cur_addr k)) k in
  let k := if mbh_load_end_addr (k_mem k) h =? 0
           then set_kmem (st_dword (k_mem k) (h + 20) (cur_addr k + filemax (g_fs (k_files k)))) k else k in
  let text_len := u32 (mbh_load_end_addr (k_mem k) h - cur_addr k) in
  let k := if mbh_bss_end_addr (k_mem k) h =? 0 then set_kmem (st_dword (k_mem k) (h + 24) (mbh_load_end_addr (k_mem k) h)) k else k in
  let m := k_mem k in
  let bss_len := u32 (mbh_bss_end_addr m h - mbh_load_end_addr m h) in
  let k := set_err_if ((mbh_header_addr m h <? mbh_load_addr m h) || (mbh_load_end_addr m h <=? mbh_load_addr m h)
                       || (mbh_bss_end_addr m h <? mbh_load_end_addr m h) || (i <? u32 (mbh_header_addr m h - mbh_load_addr m h))) ERR_EXEC_FORMAT k in
  let k := set_err_if (cur_addr k <? 0x100000) ERR_BELOW_1MB k in
  (Image type 2 true text_len 0 bss_len str2 (bytes "kludge"), k).

Definition aout_image (type : kernel_t) (str2 : list Z) (k : boot) : image * boot :=
  let m := k_mem k in
  let k := set_entry (a_entry m buffer) k in
  let '(type, str2, align_4k, k) :=
    if decide (type = KERNEL_TYPE_NONE)
    then
      let k := set_entry (entry_addr k .& 0xFFFFFF) k in
      if (ld m buffer =? 0xb) && (ld m (buffer + 1) =? 1)
      then (KERNEL_TYPE_FREEBSD, bytes "FreeBSD", true, set_cur (entry_addr k) k)
      else (KERNEL_TYPE_NETBSD, bytes "NetBSD", N_GETMAGIC (a_midmag m buffer) =? NMAGIC, set_cur (entry_addr k .& 0xF00000) k)
    else (type, str2, true, k) in
  let k := k_seek (N_TXTOFF (a_midmag m buffer)) k in
  let k := set_err_if (cur_addr k <? 0x100000) ERR_BELOW_1MB k in
  (Image type 1 align_4k (a_text m buffer) (a_data m buffer) (a_bss m buffer) str2 (bytes "a.out"), k).

(** *** Linux *)

(** [linux_data_real_addr] and the members set for the boot protocol; the size of
    the setup in sectors, and whether it is a big kernel. *)
Definition linux_header (k : boot) : bool * Z * boot :=
  let m := k_mem k in
  let setup_sects := ld m (lh_setup_sects buffer) in
  if (ld32 m (lh_header buffer) =? LINUX_MAGIC_SIGNATURE) && (0x0200 <=? ld16 m (lh_version buffer))
  then
    let big_linux := negb (ld m (lh_loadflags buffer) .& LINUX_FLAG_BIG_KERNEL =? 0) in
    let m := st m (lh_type_of_loader buffer) LINUX_BOOT_LOADER_TYPE in
    let real := u32 (u32 (mem_lower .<< 10) - LINUX_SETUP_MOVE_SIZE) in
    let real := if LINUX_OLD_REAL_MODE_ADDR <? real then LINUX_OLD_REAL_MODE_ADDR else real in
    let m := if 0x0201 <=? ld16 m (lh_version buffer)
             then let m := st_word m (lh_heap_end_ptr buffer) LINUX_HEAP_END_OFFSET in
                  st m (lh_loadflags buffer) (ld m (lh_loadflags buffer) .| LINUX_FLAG_CAN_USE_HEAP)
             else m in
    let m := if 0x0202 <=? ld16 m (lh_version buffer)
             then st_dword m (lh_cmd_line_ptr buffer) (real + LINUX_CL_OFFSET)
             else st_word (st_word (st_word m (lh_cl_magic buffer) LINUX_CL_MAGIC) (lh_cl_offset buffer) LINUX_CL_OFFSET)
                    (lh_setup_move_size buffer) LINUX_SETUP_MOVE_SIZE in
    (big_linux, setup_sects, set_linux real (linux_data_tmp_addr k) (linux_text_len k) (set_kmem m k))
  else
    let m := st_word (st_word m (lh_cl_magic buffer) LINUX_CL_MAGIC) (lh_cl_offset buffer) LINUX_CL_OFFSET in
    (false, LINUX_DEFAULT_SETUP_SECTS, set_linux LINUX_OLD_REAL_MODE_ADDR (linux_data_tmp_addr k) (linux_text_len k) (set_kmem m k)).

(** The option [vga=] of the command line [arg]: [None] for a number that cannot
    be read. *)
Definition linux_vga (arg : list Z) (k : boot) : bool * boot :=
  match grub_strstr arg (bytes "vga=") with
  | None => (true, k)
  | Some p =>
      let value := drop (p + 4) arg in
      let set v := (true, set_kmem (st_word (k_mem k) (lh_vid_mode buffer) v) k) in
      if substring (bytes "normal") value <? 1 then set LINUX_VID_MODE_NORMAL
      else if substring (bytes "ext") value <? 1 then set LINUX_VID_MODE_EXTENDED
      else if substring (bytes "ask") value <? 1 then set LINUX_VID_MODE_ASK
      else match safe_parse_maxint value with Parsed _ v => set v | ParseError e => (false, set_kerr e k) end
  end.

(** The option [mem=]: [linux_mem_size] and what is left of an error [e] of
    before, which the [switch] takes for one of the number. *)
Definition linux_mem (arg : list Z) (e : grub_error) : Z * grub_error :=
  match grub_strstr arg (bytes "mem=") with
  | None => (0, e)
  | Some p =>
      match safe_parse_maxint (drop (p + 4) arg) with
      | ParseError ERR_NUMBER_OVERFLOW => (LINUX_INITRD_MAX_ADDRESS, ERR_NONE)
      | ParseError _ => (0, ERR_NONE)
      | Parsed rest n =>
          match e with
          | ERR_NONE =>
              let c := grub_tolower (ch rest) in
              let shift := if c =? 103 then 30 else if c =? 109 then 20 else if c =? 107 then 10 else 0 in
              (if MAXINT .>> shift <? n then LINUX_INITRD_MAX_ADDRESS else n .<< shift, ERR_NONE)
          | ERR_NUMBER_OVERFLOW => (LINUX_INITRD_MAX_ADDRESS, ERR_NONE)
          | _ => (0, ERR_NONE)
          end
      end
  end.

(** [while (dest < end && *src)]: the place after the copy. *)
Fixpoint copy_cmdline (fuel : nat) (dest src : Z) (m : mem) : Z * mem :=
  match fuel with
  | O => (dest, m)
  | S f => if ld m src =? 0 then (dest, m) else copy_cmdline f (dest + 1) (src + 1) (st m dest (ld m src))
  end.

(** The command line in the setup area [tmp]. *)
Definition linux_cmdline (arg load_flags tmp : Z) (m : mem) : mem :=
  let '(dest, m) := copy_cmdline (Z.to_nat (LINUX_CL_END_OFFSET - LINUX_CL_OFFSET)) (tmp + LINUX_CL_OFFSET) (skip_to false arg m) m in
  let text := cstring m arg in
  let '(dest, m) :=
    if negb (bool_decide (is_Some (grub_strstr text (bytes "mem=")))) && (load_flags .& KERNEL_LOAD_NO_MEM_OPTION =? 0)
       && (ld16 m (lh_version buffer) <? 0x0203) && (dest + 15 <? tmp + LINUX_CL_END_OFFSET)
    then let option := bytes " mem=" ++ convert_to_ascii 117 (u32 (extended_memory + 0x400)) ++ bytes "K" in
         (dest + Z.of_nat (length option), st_bytes m dest option)
    else (dest, m) in
  st m dest 0.

Definition linux_image (suggested : kernel_t) (load_flags arg : Z) (k : boot) : option (kernel_t * boot) :=
  let text := cstring (k_mem k) arg in
  let '(big_linux, setup_sects, k) := linux_header k in
  let setup_sects := if setup_sects =? 0 then LINUX_DEFAULT_SETUP_SECTS else setup_sects in
  let data_len := setup_sects .<< 9 in
  let text_len := u32 (filemax (g_fs (k_files k)) - data_len - SECTOR_SIZE) in
  let tmp := u32 (LINUX_BZIMAGE_ADDR + text_len) in
  let real := linux_data_real_addr k in
  let k := set_linux real tmp (linux_text_len k) k in
  if negb big_linux && (u32 (real - LINUX_ZIMAGE_ADDR) <? text_len)
  then
    k ← k_printf (bytes " linux 'zImage' kernel too big, try 'make bzImage'" ++ [10]) [] k; refuse (set_kerr ERR_WONT_FIT k)
  else if u32 (mem_lower .<< 10) <? u32 (real + LINUX_SETUP_MOVE_SIZE) then refuse (set_kerr ERR_WONT_FIT k)
  else
    k ← k_printf (bytes "   [Linux-%s, setup=0x%x, size=0x%x]" ++ [10])
          [ArgStr (if big_linux then bytes "bzImage" else bytes "zImage"); ArgInt data_len; ArgInt text_len] k;
    let '(ok, k) := linux_vga text k in
    if negb ok then refuse k
    else
      let '(mem_size, e) := linux_mem text (k_err k) in
      let k := set_kerr e (set_linux_mem mem_size k) in
      k ← (if data_len + SECTOR_SIZE <=? MULTIBOOT_SEARCH then Some (k_memmove tmp buffer (data_len + SECTOR_SIZE) k)
           else '(_, k) ← k_read (tmp + MULTIBOOT_SEARCH) (data_len + SECTOR_SIZE - MULTIBOOT_SEARCH) (k_memmove tmp buffer MULTIBOOT_SEARCH k); Some k);
      let m := k_mem k in
      let k := if negb (ld32 m (lh_header buffer) =? LINUX_MAGIC_SIGNATURE) || (ld16 m (lh_version buffer) <? 0x0200)
               then k_memset (tmp + ((setup_sects + 1) .<< 9)) ((64 - setup_sects - 1) .<< 9) k else k in
      let k := set_kmem (linux_cmdline arg load_flags tmp (k_mem k)) k in
      let k := set_cur (s32 (tmp + LINUX_SETUP_MOVE_SIZE)) (k_seek (data_len + SECTOR_SIZE) k) in
      '(_, k) ← k_read LINUX_BZIMAGE_ADDR text_len k;
      if negb (no_error k) then refuse k
      else
        k ← k_close k;
        let type := if big_linux then KERNEL_TYPE_BIG_LINUX else KERNEL_TYPE_LINUX in
        if negb (bool_decide (suggested = KERNEL_TYPE_NONE)) && negb (bool_decide (suggested = type))
        then Some (KERNEL_TYPE_NONE, set_kerr ERR_EXEC_FORMAT k)
        else Some (type, set_linux (linux_data_real_addr k) (linux_data_tmp_addr k) text_len k).

(** *** Loading *)

(** [if (exec_type)]: text, data, bss and symbols.  [header] is where [flags] were
    found. *)
Definition load_symtab (align_4k : bool) (k : boot) : option boot :=
  let syms := a_syms (k_mem k) buffer in
  if no_error k && negb (syms =? 0) && (syms <? u32 (filemax (g_fs (k_files k)) - filepos (g_fs (k_files k))))
  then
    let orig_addr := cur_addr k in
    let k := if align_4k then set_cur (page_align (cur_addr k)) k else k in
    let symbols num size addr k := set_mbi (set_symbols (mb_flags (k_mbi k)) num size addr (syms_shndx (k_mbi k)) (k_mbi k)) k in
    let k := symbols (syms_num (k_mbi k)) (syms_size (k_mbi k)) (u32 (cur_addr k)) k in
    let k := set_kmem (st_dword (k_mem k) (u32 (cur_addr k)) syms) k in
    let k := set_cur (s32 (cur_addr k + 4)) k in
    k ← k_printf (bytes ", symtab=0x%x") [ArgInt syms] k;
    '(n, k) ← k_read (cur_addr k) syms k;
    '(symtab_err, k) ←
      (if u32 n =? syms
       then
         let k := set_cur (s32 (cur_addr k + syms)) k in
         let k := symbols syms (syms_size (k_mbi k)) (syms_addr (k_mbi k)) k in
         '(n, k) ← k_read local_i 4 k;
         if n =? 4
         then
           let i := ld32 (k_mem k) local_i in
           let k := set_kmem (st_dword (k_mem k) (u32 (cur_addr k)) i) k in
           let k := set_cur (s32 (cur_addr k + 4)) k in
           let k := symbols (syms_num (k_mbi k)) i (syms_addr (k_mbi k)) k in
           let i := s32 (i - 4) in
           k ← k_printf (bytes ", strtab=0x%x") [ArgInt (u32 i)] k;
           '(n, k) ← k_read (cur_addr k) i k;
           Some (negb (n =? i), set_cur (s32 (cur_addr k + i)) k)
         else Some (true, k)
       else Some (true, k));
    if (symtab_err : bool)
    then k ← k_printf (bytes "(bad)") [] k; Some (symbols 0 0 0 (set_cur orig_addr k))
    else Some (set_mbi (set_symbols (mb_flags (k_mbi k) .| MB_INFO_AOUT_SYMS) (syms_num (k_mbi k)) (syms_size (k_mbi k)) (syms_addr (k_mbi k)) (syms_shndx (k_mbi k)) (k_mbi k)) k)
  else Some k.

Definition load_aout (kludge : bool) (im : image) (k : boot) : option boot :=
  k ← k_printf (bytes ", loadaddr=0x%x, text%s=0x%x") [ArgInt (u32 (cur_addr k)); ArgStr (if kludge then bytes "-and-data" else []); ArgInt (im_text im)] k;
  '(n, k) ← k_read (cur_addr k) (im_text im) k;
  k ← (if u32 n =? im_text im
       then
         let k := set_cur (s32 (cur_addr k + im_text im)) k in
         k ← (if kludge then Some k
              else
                k ← (if im_align im then Some (set_cur (page_align (cur_addr k)) k) else k_printf (bytes ", C") [] k);
                k ← k_printf (bytes ", data=0x%x") [ArgInt (im_data im)] k;
                '(n, k) ← k_read (cur_addr k) (im_data im) k;
                let k := set_err_if (negb (u32 n =? im_data im) && no_error k) ERR_EXEC_FORMAT k in
                Some (set_cur (s32 (cur_addr k + im_data im)) k));
         if no_error k
         then
           let k := k_memset (cur_addr k) (im_bss im) k in
           k_printf (bytes ", bss=0x%x") [ArgInt (im_bss im)] (set_cur (s32 (cur_addr k + im_bss im)) k)
         else Some k
       else Some (set_err_if (no_error k) ERR_EXEC_FORMAT k));
  load_symtab (im_align im) k.

(** [for (i = 0; i < pu.elf->e_phnum; i++)], from segment [i] with [n] to go:
    [loaded], [real_entry_addr] (0 when it is not known). *)
Fixpoint load_segments (n : nat) (type : kernel_t) (i loaded real_entry : Z) (k : boot) : option (Z * Z * boot) :=
  match n with
  | O => Some (loaded, real_entry, k)
  | S n =>
      let m := k_mem k in
      let phdr := e_phoff m buffer + buffer + e_phentsize m buffer * i in
      if negb (p_type m phdr =? PT_LOAD) then load_segments n type (i + 1) loaded real_entry k
      else
        let k := k_seek (p_offset m phdr) k in
        let filesiz := p_filesz m phdr in
        let memaddr := if bool_decide (type = KERNEL_TYPE_FREEBSD) || bool_decide (type = KERNEL_TYPE_NETBSD)
                       then p_paddr m phdr .& 0xFFFFFF else p_paddr m phdr in
        let memsiz := p_memsz m phdr in
        let k := set_err_if (memaddr <? 0x100000) ERR_BELOW_1MB k in
        let real_entry := if bool_decide (type = KERNEL_TYPE_MULTIBOOT) && (p_vaddr m phdr <=? entry_addr k) && (entry_addr k <? u32 (p_vaddr m phdr + memsiz))
                          then u32 (entry_addr k + memaddr - p_vaddr m phdr) else real_entry in
        let filesiz := if memsiz <? filesiz then memsiz else filesiz in
        let k := if u32 (cur_addr k) <? u32 (memaddr + memsiz) then set_cur (s32 (memaddr + memsiz)) k else k in
        k ← k_printf (bytes ", <0x%x:0x%x:0x%x>") [ArgInt memaddr; ArgInt filesiz; ArgInt (u32 (memsiz - filesiz))] k;
        let '(ok, k) := k_memcheck memaddr memsiz k in
        '(ok, k) ← (if ok then '(n, k) ← k_read memaddr filesiz k; Some (u32 n =? filesiz, k) else Some (false, k));
        if (ok : bool)
        then load_segments n type (i + 1) (loaded + 1) real_entry
               (if filesiz <? memsiz then k_memset (memaddr + filesiz) (memsiz - filesiz) k else k)
        else Some (loaded + 1, real_entry, k)
  end.

(** The loop over the section headers at [shdr]; true is [symtab_err]. *)
Fixpoint load_sections (n : nat) (shdr i : Z) (k : boot) : option (bool * boot) :=
  match n with
  | O => Some (false, k)
  | S n =>
      let sh := shdr + shdr_size * i in
      let m := k_mem k in
      if negb (sh_addr m sh =? 0) then load_sections n shdr (i + 1) k
      else if sh_size m sh =? 0 then load_sections n shdr (i + 1) k
      else
        let k := set_cur (s32 (u32 (cur_addr k + sh_addralign m sh) .& u32 (- sh_addralign m sh))) k in
        let k := k_seek (sh_offset m sh) k in
        let sec_size := s32 (sh_size m sh) in
        let '(ok, k) := k_memcheck (cur_addr k) sec_size k in
        '(ok, k) ← (if ok then '(n, k) ← k_read (cur_addr k) sec_size k; Some (n =? sec_size, k) else Some (false, k));
        if (ok : bool)
        then
          let k := set_kmem (st_dword (k_mem k) (sh + 12) (cur_addr k)) k in
          load_sections n shdr (i + 1) (set_cur (s32 (cur_addr k + sec_size)) k)
        else Some (true, k)
  end.

(** The end of it: what was found is kept when it is good. *)
Definition finish_elf_symbols (symtab_err : bool) (k : boot) : option boot :=
  let symbols flags num size addr shndx k := set_mbi (set_symbols flags num size addr shndx (k_mbi k)) k in
  let i := k_mbi k in
  if symtab_err || (syms_addr i <? 0x10000)
  then k ← k_printf (bytes "(bad)") [] k; Some (set_cur 0 (symbols (mb_flags (k_mbi k)) 0 0 0 0 k))
  else Some (symbols (mb_flags i .| MB_INFO_ELF_SHDR) (syms_num i) (syms_size i) (syms_addr i) (syms_shndx i) k).

(** "Load ELF symbols." *)
Definition load_elf_symbols (align_4k : bool) (k : boot) : option boot :=
  let m := k_mem k in
  let addr0 := syms_addr (k_mbi k) in
  let symbols num size addr shndx k := set_mbi (set_symbols (mb_flags (k_mbi k)) num size addr shndx (k_mbi k)) k in
  let k := symbols (e_shnum m buffer) (e_shentsize m buffer) addr0 (e_shstrndx m buffer) k in
  let k := if align_4k then set_cur (page_align (cur_addr k)) k else k in
  let tab_size := e_shentsize m buffer * e_shnum m buffer in
  let k := k_seek (e_shoff m buffer) k in
  '(n, k) ← k_read (cur_addr k) tab_size k;
  '(symtab_err, k) ←
    (if n =? tab_size
     then
       let shdr := u32 (cur_addr k) in
       let k := symbols (syms_num (k_mbi k)) (syms_size (k_mbi k)) shdr (syms_shndx (k_mbi k)) k in
       let k := set_cur (s32 (cur_addr k + tab_size)) k in
       k ← k_printf (bytes ", shtab=0x%x") [ArgInt (u32 (cur_addr k))] k;
       load_sections (Z.to_nat (syms_num (k_mbi k))) shdr 0 k
     else Some (true, k));
  finish_elf_symbols symtab_err k.

Definition load_elf (im : image) (k : boot) : option (Z * boot) :=
  '(loaded, real_entry, k) ← load_segments (Z.to_nat (e_phnum (k_mem k) buffer)) (im_type im) 0 0 0 (set_cur 0 k);
  k ← (if no_error k
       then if loaded =? 0 then Some (set_kerr ERR_EXEC_FORMAT k) else load_elf_symbols (im_align im) k
       else Some k);
  Some (real_entry, k).

(** The part of [load_image] after the format is known. *)
Definition load_contents (arg : Z) (suggested : kernel_t) (flags : Z) (im : image) (k : boot) : option (kernel_t * boot) :=
  if negb (no_error k) then refuse k
  else
    let v := f_dev (g_fs (k_files k)) in
    let kludge := negb (flags .& MULTIBOOT_AOUT_KLUDGE =? 0) in
    let i := set_modules (mb_flags (k_mbi k) .& u32 (Z.lnot (MB_INFO_MODS .| MB_INFO_AOUT_SYMS .| MB_INFO_ELF_SHDR))) 0 0
               (set_image (u32 (current_drive v .<< 24) .| current_partition v) arg (k_mbi k)) in
    let k := set_mbi (set_symbols (mb_flags i) 0 0 0 0 i) k in
    k ← k_printf (bytes "   [%s-%s") [ArgStr (im_str2 im); ArgStr (im_str im)] k;
    '(real_entry, k) ← (if negb (im_exec im =? 0) then k ← load_aout kludge im k; Some (0, k) else load_elf im k);
    '(type, k) ←
      (if no_error k
       then
         k ← k_printf (bytes ", entry=0x%x]" ++ [10]) [ArgInt (entry_addr k)] k;
         Some (im_type im, if real_entry =? 0 then k else set_entry real_entry k)
       else k ← k_printf [10] [] k; Some (KERNEL_TYPE_NONE, k));
    k ← k_close k;
    if negb (bool_decide (suggested = KERNEL_TYPE_NONE)) && negb (bool_decide (suggested = type))
    then Some (KERNEL_TYPE_NONE, set_kerr ERR_EXEC_FORMAT k)
    else Some (type, k).

Definition load_image (kernel arg : Z) (suggested : kernel_t) (load_flags : Z) (k : boot) : option (kernel_t * boot) :=
  '(ok, g) ← grub_open kernel (k_files k);
  let k := set_files g k in
  if ok =? 0 then Some (KERNEL_TYPE_NONE, k)
  else
    '(len, k) ← k_read buffer MULTIBOOT_SEARCH k;
    if len <? 32 then k ← k_close k; Some (KERNEL_TYPE_NONE, set_err_if (no_error k) ERR_EXEC_FORMAT k)
    else
      let m := k_mem k in
      let found := find_multiboot (Z.to_nat len) 0 len m in
      let flags := match found with Some i => mbh_flags m (buffer + i) | None => 0 end in
      if negb (flags .& MULTIBOOT_UNSUPPORTED =? 0) then k ← k_close k; Some (KERNEL_TYPE_NONE, set_kerr ERR_BOOT_FEATURES k)
      else
        let '(type, str2) := match found with Some _ => (KERNEL_TYPE_MULTIBOOT, bytes "Multiboot") | None => (KERNEL_TYPE_NONE, []) end in
        if (bool_decide (type = KERNEL_TYPE_MULTIBOOT) || (e_ident m buffer EI_OSABI =? ELFOSABI_FREEBSD)
            || (grub_strcmp (cstring m (buffer + EI_BRAND)) (bytes "FreeBSD") =? 0) || bool_decide (suggested = KERNEL_TYPE_NETBSD))
           && (ehdr_size <? len) && BOOTABLE_I386_ELF m buffer
        then let '(im, k) := elf_image type suggested str2 len k in load_contents arg suggested flags im k
        else if negb (flags .& MULTIBOOT_AOUT_KLUDGE =? 0)
        then let '(im, k) := kludge_image type str2 (default 0 found) k in load_contents arg suggested flags im k
        else if (exec_size <? len) && negb (N_BADMAG (a_midmag m buffer))
        then let '(im, k) := aout_image type str2 k in load_contents arg suggested flags im k
        else if (ld16 m (lh_boot_flag buffer) =? BOOTSEC_SIGNATURE) && (ld m (lh_setup_sects buffer) <=? LINUX_MAX_SETUP_SECTS)
        then linux_image suggested load_flags arg k
        else refuse (set_kerr ERR_EXEC_FORMAT k).

(** *** Modules and the initial ramdisk *)

Definition load_module (module arg : Z) (k : boot) : option (Z * boot) :=
  let k := set_cur (page_align (cur_addr k)) k in
  '(ok, g) ← grub_open module (k_files k);
  let k := set_files g k in
  if ok =? 0 then Some (0, k)
  else
    '(len, k) ← k_read (cur_addr k) (-1) k;
    if len =? 0 then k ← k_close k; Some (0, k)
    else
      k ← k_printf (bytes "   [Multiboot-module @ 0x%x, 0x%x bytes]" ++ [10]) [ArgInt (u32 (cur_addr k)); ArgInt (u32 len)] k;
      let count := mb_mods_count (k_mbi k) in
      let k := set_mbi (set_modules (mb_flags (k_mbi k) .| MB_INFO_MODS) mll count (k_mbi k)) k in
      let entry := mll + 16 * count in
      let k := set_kmem (st_dword (st_dword (k_mem k) (entry + 8) arg) entry (cur_addr k)) k in
      let k := set_cur (s32 (cur_addr k + len)) k in
      let k := set_kmem (st_dword (st_dword (k_mem k) (entry + 4) (cur_addr k)) (entry + 12) 0) k in
      let k := set_mbi (set_modules (mb_flags (k_mbi k)) mll (u32 (count + 1)) (k_mbi k)) k in
      k ← k_close k; Some (1, k).

Definition set_no_decompression (on : bool) (k : boot) : boot :=
  let z := g_gz (k_files k) in
  set_files (set_gz (Gz on (gzip_data_offset z) (gzip_filepos z) (gzip_filemax z) (gzip_fsmax z) (saved_filepos z) (gzip_crc z) (inflate z)) (k_files k)) k.

(** Where the ramdisk goes: [moveto]. *)
Definition initrd_place (mem_size max_addr len : Z) : Z :=
  let moveto := if negb (mem_size =? 0) then u32 mem_size else u32 (u32 (mem_upper + 0x400) .<< 10) in
  let moveto := u32 (moveto - len) .& 0xfffff000 in
  let moveto := if max_addr <=? u32 (moveto + len) then u32 (max_addr - len) .& 0xfffff000 else moveto in
  u32 (moveto - 0x10000).

Definition load_initrd (initrd : Z) (k : boot) : option (Z * boot) :=
  let lh := u32 (cur_addr k - LINUX_SETUP_MOVE_SIZE) in
  let finish k := Some (if no_error k then 1 else 0, set_no_decompression false k) in
  let k := set_no_decompression true k in
  '(ok, g) ← grub_open initrd (k_files k);
  let k := set_files g k in
  if ok =? 0 then finish k
  else
    '(len, k) ← k_read (cur_addr k) (-1) k;
    if len =? 0 then k ← k_close k; finish k
    else
      let m := k_mem k in
      let max_addr := if (ld32 m (lh_header lh) =? LINUX_MAGIC_SIGNATURE) && (0x0203 <=? ld16 m (lh_version lh))
                      then ld32 m (lh_initrd_addr_max lh) else LINUX_INITRD_MAX_ADDRESS in
      let moveto := initrd_place (linux_mem_size k) max_addr len in
      let k := k_memmove moveto (cur_addr k) len k in
      k ← k_printf (bytes "   [Linux-initrd @ 0x%x, 0x%x bytes]" ++ [10]) [ArgInt moveto; ArgInt (u32 len)] k;
      let k := set_kmem (st_dword (st_dword (k_mem k) (lh_ramdisk_image lh) moveto) (lh_ramdisk_size lh) len) k in
      k ← k_close k; finish k.
End Boot.

(** *** FreeBSD and NetBSD *)

Definition RB_ASKNAME : Z := 0x01.
Definition RB_SINGLE : Z := 0x02.
Definition RB_HALT : Z := 0x08.
Definition RB_DFLTROOT : Z := 0x20.
Definition RB_KDB : Z := 0x40.
Definition RB_CONFIG : Z := 0x400.
Definition RB_VERBOSE : Z := 0x800.
Definition RB_SERIAL : Z := 0x1000.
Definition RB_CDROM : Z := 0x2000.
Definition RB_GDB : Z := 0x8000.
Definition RB_MUTE : Z := 0x10000.
Definition RB_MULTIPLE : Z := 0x20000000.
Definition RB_BOOTINFO : Z := 0x80000000.
Definition BOOTINFO_VERSION : Z := 1.
Definition N_BIOS_GEOM : Z := 8.
Definition MB_CMDLINE_BUF : Z := 0x2000.

(** The flag of a letter. *)
Definition rb_flag (c : Z) : Z :=
  if c =? 67 then RB_CDROM else if c =? 97 then RB_ASKNAME else if c =? 98 then RB_HALT else if c =? 99 then RB_CONFIG
  else if c =? 100 then RB_KDB else if c =? 68 then RB_MULTIPLE else if c =? 103 then RB_GDB else if c =? 104 then RB_SERIAL
  else if c =? 109 then RB_MUTE else if c =? 114 then RB_DFLTROOT else if c =? 115 then RB_SINGLE else if c =? 118 then RB_VERBOSE else 0.

(** [while ( *str)] over the options: inside a word that begins with a dash every
    letter counts. *)
Fixpoint bsd_flags (str : list Z) (dash : bool) (clval : Z) : Z :=
  match str with
  | [] => clval
  | c :: str' =>
      if dash then if c =? 32 then bsd_flags str' false clval else bsd_flags str' true (clval .| rb_flag c)
      else if c =? 45 then bsd_flags str' true (clval .| rb_flag c) else bsd_flags str' false clval
  end.

(** [struct bootinfo] without [bi_size], the padding and the members that are
    always 0. *)
Record bootinfo := Bootinfo {
  bi_version : Z; bi_kernelname : Z; bi_bios_geom : list Z; bi_memsizes_valid : Z; bi_bios_dev : Z;
  bi_basemem : Z; bi_extmem : Z; bi_symtab : Z; bi_esymtab : Z }.

(** The call of [*entry_addr]: its arguments, and what [bi] holds. *)
Inductive bsd_call := CallFreeBSD (entry clval bootdev : Z) (bi : bootinfo) | CallNetBSD (entry clval bootdev end_mark extmem basemem : Z).

(** [while ( *(++arg) && *arg != ' ')] *)
Fixpoint bsd_word_end (fuel : nat) (m : mem) (a : Z) : Z :=
  match fuel with
  | O => a
  | S f => if (ld m a =? 0) || (ld m a =? 32) then a else bsd_word_end f m (a + 1)
  end.

(** [while ((--arg) > (char * ) MB_CMDLINE_BUF && *arg != '/')] *)
Fixpoint bsd_name (fuel : nat) (m : mem) (a : Z) : Z :=
  match fuel with
  | O => a
  | S f => let a := a - 1 in if (MB_CMDLINE_BUF <? a) && negb (ld m a =? 47) then bsd_name f m a else a
  end.

(** What is called and the memory at the call; the floppy motor is stopped first. *)
Definition bsd_boot (b : bios) (geom0 : geometry) (extended_memory : Z) (type : kernel_t) (bootdev arg : Z) (k : boot) : bsd_call * mem :=
  let m := k_mem k in
  let i := k_mbi k in
  let arg := bsd_word_end (Z.to_nat 0x10000) m (arg + 1) in
  let clval := bsd_flags (cstring m arg) false 0 in
  let aout := negb (mb_flags i .& MB_INFO_AOUT_SYMS =? 0) in
  let syms_end := u32 (syms_addr i + 4 + syms_num i + syms_size i) in
  if decide (type = KERNEL_TYPE_FREEBSD)
  then
    let m := st m arg 0 in
    let slash := bsd_name (S (Z.to_nat (arg - MB_CMDLINE_BUF))) m arg in
    let geom i := let g := snd (get_diskinfo b (Z.of_nat i + 0x80) geom0) in
                  u32 ((u32 (cylinders g - 1) .<< 16) + ((u32 (heads g - 1) .& 0xff) .<< 8) + (sectors g .& 0xff)) in
    (CallFreeBSD (entry_addr k) (clval .| RB_BOOTINFO) bootdev
       (Bootinfo BOOTINFO_VERSION (if ld m slash =? 47 then slash + 1 else 0) (map geom (seq 0 (Z.to_nat N_BIOS_GEOM))) 1
          (u8 (saved_drive (f_dev (g_fs (k_files k))))) (mb_mem_lower i) extended_memory
          (if aout then syms_addr i else 0) (if aout then syms_end else 0)), m)
  else (CallNetBSD (entry_addr k) clval bootdev (if aout then syms_end else 0) extended_memory (mb_mem_lower i), m).
