(* ===== verification/GrubStream.v ===== *)
(** * A file as its readers see it

    What [load_image] and its like rely on: an open file is a sequence of bytes
    with a position.  [Stream] states it of the files' state; a file of a
    [FileReader] that is not compressed is an instance.  The steps of [boot.c] on
    a stream follow: reading, seeking, printing, clearing memory. *)

From S2P Require Import Prelude Machine LibcString GrubString GrubTerm GrubReadline GrubBios GrubDisk GrubDevice GrubPart GrubFsys GrubFat GrubFile GrubMemory GrubCommand GrubBoot.

Section Streams.
Context (b : bios) (mem_lower mem_upper : Z) (fsys_table : list fsys_entry).
Variable gunzip_read : Z -> Z -> files -> option (Z * files).

(** The bytes [content] up to [size] are the file; [own] is the memory that
    reading needs and may write. *)
Class Stream (content : Z -> Z) (size : Z) (own : Z -> Prop) := {
  st_open : files -> Prop;
  st_range : 0 <= size <= MAXINT;
  st_size g : st_open g -> filemax (g_fs g) = size;
  st_no_error g : st_open g -> g_err g = ERR_NONE;
  st_seek g pos : st_open g -> 0 <= pos <= size -> st_open (upd (set_pos pos) g);
  st_io g i : st_open g -> st_open (upd (set_fio i) g);
  st_write g m : st_open g -> (forall a, own a -> ld m a = ld (g_mem g) a) -> st_open (upd (set_fmem m) g);
  st_close g : st_open g -> grub_close fsys_table g = Some g;
  st_read g buf n : st_open g -> 0 <= filepos (g_fs g) <= size ->
    let k := read_count size (filepos (g_fs g)) n in
    file_place mem_lower mem_upper buf k -> (forall a, buf <= a < buf + k -> ~ own a) ->
    exists g', grub_read b mem_lower mem_upper fsys_table gunzip_read buf n g = Some (k, g') /\ st_open g' /\
      filepos (g_fs g') = filepos (g_fs g) + k /\ f_dev (g_fs g') = f_dev (g_fs g) /\ f_io (g_fs g') = f_io (g_fs g) /\
      (forall x, 0 <= x < k -> ld (g_mem g') (buf + x) = content (filepos (g_fs g) + x)) /\
      (forall a, ~ own a -> ~ (buf <= a < buf + k) -> ld (g_mem g') a = ld (g_mem g) a) }.

(** A file that is not compressed. *)
Section Plain.
Context (read : Z -> Z -> fs -> option (Z * fs)) (content : Z -> Z) (size : Z) {R : FileReader mem_lower mem_upper read content size}.
Hypothesis no_close : Forall (fun e => close_func e = None) fsys_table.

Lemma plain_close g : file_open b mem_lower mem_upper fsys_table read content size g -> grub_close fsys_table g = Some g.
Proof.
  intros O. unfold grub_close. pose proof (fo_read _ _ _ _ _ _ _ _ O) as A. unfold active_read in A.
  destruct (block_file (g_fs g)); [done |]. destruct (fsys_table !! _) as [e |] eqn:E; [| done].
  rewrite Forall_lookup in no_close. specialize (no_close _ _ E). destruct e as [? ? ? ? []]; done.
Qed.

#[export] Program Instance plain_stream : Stream content size (fun a => in_buffer a \/ in_fsys a) := {|
  st_open := file_open b mem_lower mem_upper fsys_table read content size |}.
Next Obligation. exact fr_size. Qed.
Next Obligation. intros g []. done. Qed.
Next Obligation. intros g O. apply (fr_no_error _ (fo_open _ _ _ _ _ _ _ _ O)). Qed.
Next Obligation. intros g pos O _. by apply file_open_pos. Qed.
Next Obligation. intros g i []. constructor; try done. by apply fr_io. Qed.
Next Obligation. intros g m [] F. constructor; try done. by apply fr_frame. Qed.
Next Obligation. exact plain_close. Qed.
Next Obligation.
  intros g buf n O Hp k Hb Ho. pose proof fr_size as Hs.
  assert (read_from size (filepos (g_fs g)) = filepos (g_fs g)) as Ef.
  { unfold read_from. by rewrite (proj2 (Z.ltb_ge _ 0)), (proj2 (Z.ltb_ge size _)) by lia. }
  pose proof (grub_read_ok b mem_lower mem_upper fsys_table read content size gunzip_read buf n g O Hb) as H. cbn zeta in H. fold k in H.
  destruct H as (s' & E & O' & (d & h & u & w & ->) & B & F). rewrite Ef in B.
  eexists. split; [exact E |]. split; [exact O' |]. cbn. rewrite Ef. split_and!; try done.
  intros a A1 A2. apply F; [by contradict A1; left | by contradict A1; right | done].
Qed.
End Plain.
End Streams.

(** ** Printing

    With the pager off a text is always printed. *)

Lemma putchar_quiet current_term max_lines : forall d c s, (3 <= d)%nat -> count_lines s < 0 ->
  exists s', putchar_at current_term max_lines d c s = Some s' /\ count_lines s' = count_lines s.
Proof.
  assert (forall d n s, (2 <= d)%nat -> count_lines s < 0 -> exists s', foldM (putchar_at current_term max_lines d) (repeat 32 n) s = Some s' /\ count_lines s' = count_lines s) as Hs.
  { intros d n s Hd. revert s. induction n as [|n IH]; intros s Hc; cbn [repeat foldM]; [by exists s |].
    rewrite putchar_plain by done. cbn [mbind option_bind]. destruct (IH (Io (put_calls (crlf [32]) ++ calls s) (keys s) (count_lines s)) Hc) as (s' & -> & E). by exists s'. }
  intros d c s Hd Hc. destruct ((c =? 9) && bool_decide (is_Some (term_getxy current_term))) eqn:Et.
  - destruct d as [|d]; [lia |]. cbn [putchar_at]. apply andb_true_iff in Et as [E1 E2]. apply Z.eqb_eq in E1 as ->. cbn [Z.eqb Pos.eqb mbind option_bind].
    rewrite E2. cbn [andb]. apply Hs; [lia | done].
  - rewrite putchar_plain by (done || lia). by eexists.
Qed.

Lemma printf_quiet current_term max_lines format args text s : printf_text format args = Some text -> count_lines s < 0 ->
  exists s', grub_printf current_term max_lines format args s = Some s' /\ count_lines s' = count_lines s.
Proof.
  intros Ht Hc. unfold grub_printf. rewrite Ht. cbn [mbind option_bind]. unfold grub_putstr, grub_putchar. clear Ht. revert s Hc.
  induction text as [|c text IH]; intros s Hc; cbn [foldM]; [by exists s |].
  destruct (putchar_quiet current_term max_lines 3 c s ltac:(lia) Hc) as (s1 & -> & E1). cbn [mbind option_bind].
  destruct (IH s1 ltac:(lia)) as (s2 & -> & E2). exists s2. split; [done | lia].
Qed.

(** Every argument is one that its conversion takes. *)
Fixpoint args_fit (format : list Z) (args : list arg) : bool :=
  match format with
  | [] => true
  | c :: format1 =>
      if negb (c =? 37) then args_fit format1 args
      else match format1 with
           | [] => false
           | d :: format2 =>
               if (d =? 100) || (d =? 120) || (d =? 88) || (d =? 117) || (d =? 99)
               then match args with ArgInt _ :: args' => args_fit format2 args' | _ => false end
               else if d =? 115 then match args with ArgStr _ :: args' => args_fit format2 args' | _ => false end
               else args_fit format2 args
           end
  end.

Lemma args_fit_text format : forall args, args_fit format args = true -> exists text, printf_text format args = Some text.
Proof.
  induction format as [format IH] using (well_founded_induction (Wf_nat.well_founded_ltof _ (@length Z))). unfold Wf_nat.ltof in IH. intros args H.
  destruct format as [|c format1]; [by eexists |]. cbn [args_fit printf_text] in *. destruct (negb (c =? 37)).
  - destruct (IH format1 ltac:(cbn; lia) args H) as [t ->]. by eexists.
  - destruct format1 as [|d format2]; [done |].
    destruct ((d =? 100) || (d =? 120) || (d =? 88) || (d =? 117)); cbn [orb] in H; [| destruct (d =? 99); [| destruct (d =? 115)]].
    1-3: destruct args as [|[] args']; [done | ..]; try done; destruct (IH format2 ltac:(cbn; lia) args' H) as [t ->]; by eexists.
    apply IH; [cbn; lia | done].
Qed.

(** ** The steps of [boot.c] on a stream *)

Section Steps.
Context (b : bios) (mem_lower mem_upper : Z) (fsys_table : list fsys_entry) (gunzip_read : Z -> Z -> files -> option (Z * files)).
Context (current_term : term_entry) (max_lines : Z).
Context (content : Z -> Z) (size : Z) (own : Z -> Prop) {S : Stream b mem_lower mem_upper fsys_table gunzip_read content size own}.
Hypothesis lower_ok : 512 <= mem_lower <= 1024.
Hypothesis upper_ok : 0 <= mem_upper < 4194304.
Hypothesis own_low : forall a, own a -> a < 0x100000.

(** A file is open, the position is in it and the pager is off. *)
Record ready (g : files) : Prop := {
  rd_open : st_open _ _ _ _ _ (Stream := S) g;
  rd_pos : 0 <= filepos (g_fs g) <= size;
  rd_quiet : count_lines (f_io (g_fs g)) < 0 }.

(** What steps leave: at most the places [P] have changed. *)
Record after (P : Z -> Prop) (g g' : files) : Prop := {
  af_ready : ready g';
  af_dev : f_dev (g_fs g') = f_dev (g_fs g);
  af_frame : forall a, ~ own a -> ~ P a -> ld (g_mem g') a = ld (g_mem g) a }.

Lemma after_refl P g : ready g -> after P g g.
Proof. by constructor. Qed.

Lemma after_trans (P Q : Z -> Prop) g1 g2 g3 : after P g1 g2 -> after Q g2 g3 -> after (fun a => P a \/ Q a) g1 g3.
Proof.
  intros [R1 D1 F1] [R2 D2 F2]. constructor; [done | congruence |]. intros a A1 A2. rewrite F2; [apply F1; [done |] | done |]; contradict A2; [by left | by right].
Qed.

Lemma after_weaken (P Q : Z -> Prop) g g' : after P g g' -> (forall a, P a -> Q a) -> after Q g g'.
Proof. intros [R D F] H. constructor; [done | done |]. intros a A1 A2. apply F; [done |]. contradict A2. auto. Qed.

Lemma after_then (P : Z -> Prop) g1 g2 g3 : after P g1 g2 -> after P g2 g3 -> after P g1 g3.
Proof. intros A1 A2. eapply after_weaken; [by eapply after_trans |]. by intros a [|]. Qed.

(** A step that changes no memory. *)
Lemma after_nothing (P : Z -> Prop) g g' : after (fun _ => False) g g' -> after P g g'.
Proof. intros A. eapply after_weaken; [exact A | done]. Qed.

(** Memory above 1 MB. *)
Definition high (buf len : Z) : Prop := 0x100000 <= buf /\ 0 <= len /\ buf + len <= mem_upper * 1024 + 0x100000 /\ buf + len < 2147483648.

Lemma high_place buf len : high buf len -> file_place mem_lower mem_upper buf len /\ forall a, buf <= a < buf + len -> ~ own a.
Proof.
  intros (H1 & H2 & H3 & H4). split; [split; [constructor; try done; [right; lia |] |]|].
  - intros a Ha. unfold in_buffer, BUFFERADDR, BUFFERLEN. lia.
  - intros a Ha. unfold in_fsys, FSYS_BUF. lia.
  - intros a Ha Ho. specialize (own_low a Ho). lia.
Qed.

Lemma high_less buf n k : high buf n -> 0 <= k <= n -> high buf k.
Proof. unfold high. lia. Qed.

Lemma ready_no_error g : ready g -> g_err g = ERR_NONE.
Proof. intros [O _ _]. by eapply st_no_error. Qed.

Lemma k_no_error k : ready (k_files k) -> no_error k = true.
Proof. intros R. unfold no_error, k_err. by rewrite ready_no_error. Qed.

Lemma k_printf_ok format args k : args_fit format args = true -> ready (k_files k) ->
  exists g, k_printf current_term max_lines format args k = Some (set_files g k) /\ after (fun _ => False) (k_files k) g /\
    filepos (g_fs g) = filepos (g_fs (k_files k)).
Proof.
  intros [text Ht]%args_fit_text [O P Q]. unfold k_printf. destruct (printf_quiet current_term max_lines _ _ text _ Ht Q) as (i & -> & E).
  eexists. split; [done |]. split; [| done]. constructor; [| done | done]. constructor; [by apply st_io | done |]. cbn. lia.
Qed.

Lemma k_read_any buf n k : ready (k_files k) -> let c := read_count size (filepos (g_fs (k_files k))) (s32 n) in
  0 <= buf < 4294967296 -> file_place mem_lower mem_upper buf c -> (forall a, buf <= a < buf + c -> ~ own a) ->
  exists g, k_read b mem_lower mem_upper fsys_table gunzip_read buf n k = Some (c, set_files g k) /\
    after (fun a => buf <= a < buf + c) (k_files k) g /\ filepos (g_fs g) = filepos (g_fs (k_files k)) + c /\
    (forall x, 0 <= x < c -> ld (g_mem g) (buf + x) = content (filepos (g_fs (k_files k)) + x)).
Proof.
  intros [O P Q] c Hb Hp Ho. unfold k_read. rewrite u32_small by done.
  destruct (st_read _ _ _ _ _ (k_files k) buf (s32 n) O P Hp Ho) as (g & E & O' & P' & D & I & B & F). rewrite E. cbn [mbind option_bind].
  exists g. split; [done |]. fold c in P', B, F. split; [constructor; [constructor; [done | | by rewrite I] | done | done] | by split].
  pose proof (st_range _ _ _ _ _ (Stream := S)). pose proof (read_count_range size) as Hc. rewrite P'. unfold c, read_count, read_from in *.
  rewrite (proj2 (Z.ltb_ge (filepos (g_fs (k_files k))) 0)), (proj2 (Z.ltb_ge size (filepos _))) in * by lia. cbn [orb] in *.
  destruct (Z.ltb_spec (s32 n) 0); cbn [orb]; [lia |]. destruct (Z.ltb_spec (size - filepos (g_fs (k_files k))) (s32 n)); lia.
Qed.

(** A number of bytes that the file has. *)
Lemma read_count_all pos n : 0 <= pos -> 0 <= n -> pos + n <= size -> read_count size pos n = n.
Proof.
  intros H1 H2 H3. unfold read_count, read_from. rewrite (proj2 (Z.ltb_ge pos 0)), (proj2 (Z.ltb_ge size pos)) by lia. cbn [orb].
  by rewrite (proj2 (Z.ltb_ge n 0)), (proj2 (Z.ltb_ge (size - pos) n)) by lia.
Qed.

Lemma read_count_le pos n : 0 <= pos <= size -> 0 <= n -> 0 <= read_count size pos n <= n.
Proof.
  intros H1 H2. unfold read_count, read_from. rewrite (proj2 (Z.ltb_ge pos 0)), (proj2 (Z.ltb_ge size pos)) by lia. cbn [orb].
  rewrite (proj2 (Z.ltb_ge n 0)) by lia. destruct (Z.ltb_spec (size - pos) n); cbn [orb]; lia.
Qed.

Lemma k_seek_ok offset k : ready (k_files k) -> exists pos, k_seek offset k = set_files (upd (set_pos pos) (k_files k)) k /\
  ready (upd (set_pos pos) (k_files k)) /\ (0 <= offset <= size -> pos = offset).
Proof.
  intros [O P Q]. pose proof (st_range _ _ _ _ _ (Stream := S)) as Hs. unfold k_seek, grub_seek. rewrite (st_size _ _ _ _ _ _ O). unfold MAXINT in Hs.
  destruct (Z.ltb_spec size (s32 offset)); cbn [orb]; [| destruct (Z.ltb_spec (s32 offset) 0)]; cbn [snd].
  1,2: exists (filepos (g_fs (k_files k))); split; [f_equal; destruct (k_files k) as [[]]; done |]; split; [by constructor; [apply st_seek |..] |];
       intros Ho; rewrite s32_small in * by lia; lia.
  exists (s32 offset). split; [done |]. split; [constructor; [by apply st_seek | cbn; lia | done] |]. intros Ho. apply s32_small. lia.
Qed.

Lemma write_ready g m : ready g -> (forall a, own a -> ld m a = ld (g_mem g) a) -> ready (upd (set_fmem m) g).
Proof. intros [O P Q] F. constructor; [by apply st_write | done | done]. Qed.

Lemma after_write (P : Z -> Prop) g m : ready g -> (forall a, P a -> ~ own a) -> (forall a, ~ P a -> ld m a = ld (g_mem g) a) -> after P g (upd (set_fmem m) g).
Proof.
  intros R Hp F. constructor; [| done | intros a _; apply F]. apply write_ready; [done |]. intros a Ha. apply F. intros HP. by apply (Hp a).
Qed.

Lemma k_memset_ok start len k : ready (k_files k) -> high start len ->
  exists g, k_memset mem_lower mem_upper start len k = set_files g k /\ after (fun a => start <= a < start + len) (k_files k) g /\
    filepos (g_fs g) = filepos (g_fs (k_files k)) /\ (forall x, start <= x < start + len -> ld (g_mem g) x = 0).
Proof.
  intros R H. pose proof (high_place _ _ H) as [_ Ho]. destruct H as (H1 & H2 & H3 & H4). unfold k_memset. unfold k_err. rewrite (ready_no_error _ R).
  rewrite u32_small, s32_small by lia.
  destruct (grub_memset_ok mem_lower mem_upper start 0 len (k_mem k)) as (m & -> & L); try lia; [right; lia |].
  assert (set_kerr ERR_NONE (set_kmem m k) = set_files (upd (set_fmem m) (k_files k)) k) as ->.
  { pose proof (ready_no_error _ R) as E. destruct k as [[[[] ? ? ?]]]. cbn in E. subst. done. }
  eexists. split; [done |]. split; [apply after_write; try done; intros a Ha; by rewrite L, decide_False |]. split; [done |].
  intros x Hx. cbn. by rewrite L, decide_True.
Qed.

Lemma k_memcheck_ok addr len k : ready (k_files k) -> high addr len -> k_memcheck mem_lower mem_upper addr len k = (true, k).
Proof.
  intros R (H1 & H2 & H3 & H4). unfold k_memcheck. rewrite !s32_small by lia.
  pose proof (ready_no_error _ R) as E. unfold k_err. rewrite E.
  rewrite (proj1 (memcheck_spec mem_lower mem_upper addr len ERR_NONE ltac:(lia) ltac:(lia) ltac:(lia) ltac:(lia))) by (right; lia).
  f_equal. destruct k as [[[[] ? ? ?]]]. cbn in E. subst. done.
Qed.
End Steps.
