(* ===== verification/GrubElf.v ===== *)
(** * Multiboot kernels in ELF format

    What [load_image] of [boot.c] does for them, against a description of the
    kernel's file: its Multiboot header, its program headers and the bytes of
    memory that they ask for. *)

From S2P Require Import Prelude Machine LibcString GrubString GrubTerm GrubReadline GrubBios GrubDisk GrubDevice GrubPart GrubFsys GrubFat GrubExt2 GrubFile GrubMemory GrubCommand GrubBoot GrubStream.

(** ** Specification *)

Section Kernel.
Variables (content : Z -> Z) (size : Z).

(** The part of the file that is searched for headers. *)
Definition head : Z := Z.min size MULTIBOOT_SEARCH.

(** A Multiboot header at offset [i]. *)
Definition mb_header (i : Z) : bool :=
  let len := head - i in
  let flags := byte32 content (i + 4) in
  (i mod 4 =? 0) && (12 <=? len) && (byte32 content i =? MULTIBOOT_MAGIC)
  && (u32 (byte32 content i + flags + byte32 content (i + 8)) =? 0)
  && ((MULTIBOOT_AOUT_KLUDGE .& flags =? 0) || (32 <=? len)) && ((MULTIBOOT_VIDEO_MODE .& flags =? 0) || (48 <=? len)).

Definition first_header (i : Z) : Prop := 0 <= i < head /\ mb_header i = true /\ forall j, 0 <= j < i -> mb_header j = false.

(** The program headers that are loaded. *)
Record segment := Segment { g_offset : Z; g_vaddr : Z; g_paddr : Z; g_filesz : Z; g_memsz : Z }.

Definition phoff : Z := byte32 content 28.
Definition phentsize : Z := byte16 content 42.
Definition phnum : Z := byte16 content 44.
Definition phdr_at (i : Z) : Z := phoff + phentsize * i.
Definition segment_at (p : Z) : segment :=
  Segment (byte32 content (p + 4)) (byte32 content (p + 8)) (byte32 content (p + 12)) (byte32 content (p + 16)) (byte32 content (p + 20)).

(** From the header [i] on, [n] headers. *)
Fixpoint segments_from (n : nat) (i : Z) : list segment :=
  match n with
  | O => []
  | S n => if byte32 content (phdr_at i) =? PT_LOAD then segment_at (phdr_at i) :: segments_from n (i + 1) else segments_from n (i + 1)
  end.
Definition segments : list segment := segments_from (Z.to_nat phnum) 0.

(** The bytes of the file that a segment has, and what memory it asks for: the
    rest is 0. *)
Definition file_part (s : segment) : Z := Z.min (g_filesz s) (g_memsz s).
Definition covers (s : segment) (a : Z) : Prop := g_paddr s <= a < g_paddr s + g_memsz s.
Definition seg_byte (s : segment) (a : Z) : option Z :=
  if decide (covers s a) then Some (if a - g_paddr s <? file_part s then content (g_offset s + (a - g_paddr s)) else 0) else None.

(** Where segments overlap the later one wins. *)
Fixpoint image_byte (l : list segment) (a : Z) : option Z :=
  match l with
  | [] => None
  | s :: l => match image_byte l a with Some v => Some v | None => seg_byte s a end
  end.

(** The end of the image, and the physical address of the entry point. *)
Definition image_end (l : list segment) (e : Z) : Z := foldl (fun e s => Z.max e (g_paddr s + g_memsz s)) e l.
Definition physical (entry : Z) (l : list segment) (r : Z) : Z :=
  foldl (fun r s => if (g_vaddr s <=? entry) && (entry <? g_vaddr s + g_memsz s) then entry + g_paddr s - g_vaddr s else r) r l.

Variable mem_upper : Z.

(** A segment that memory has room for and that the file has. *)
Definition segment_ok (s : segment) : Prop :=
  high mem_upper (g_paddr s) (g_memsz s) /\ g_offset s + file_part s <= size /\ g_vaddr s + g_memsz s < 4294967296.

(** A Multiboot kernel in ELF format. *)
Record elf_kernel (i : Z) : Prop := {
  ek_bytes : forall x, 0 <= content x < 256;
  ek_header : first_header i;
  ek_flags : byte32 content (i + 4) .& MULTIBOOT_UNSUPPORTED = 0;
  ek_ident : map content [0; 1; 2; 3; 4; 5; 6] = [0x7f; 69; 76; 70; 1; 1; 1];
  ek_type : byte16 content 16 = 2 /\ byte16 content 18 = 3 /\ byte32 content 20 = 1;
  ek_entry : 0x100000 <= byte32 content 24;
  ek_phdrs : 52 < head /\ phoff <> 0 /\ phnum <> 0 /\ 32 <= phentsize /\ phoff + phentsize * phnum < head;
  ek_segments : segments <> [] /\ Forall segment_ok segments }.

(** Where the section headers go, and the sections that are in no segment: behind
    the image, each where its alignment says. *)
Definition shoff : Z := byte32 content 32.
Definition shentsize : Z := byte16 content 46.
Definition shnum : Z := byte16 content 48.
Definition align_up (e x : Z) : Z := (x + 2 ^ e - 1) / 2 ^ e * 2 ^ e.
Definition align_next (align x : Z) : Z := (x + align) / align * align.

Fixpoint sections_fit (n : nat) (i cur top : Z) : Prop :=
  match n with
  | O => True
  | S n =>
      let p := shoff + shdr_size * i in
      if (byte32 content (p + 12) =? 0) && negb (byte32 content (p + 20) =? 0)
      then
        let align := byte32 content (p + 32) in
        let at_ := align_next align cur in
        (exists e, 0 <= e <= 30 /\ align = 2 ^ e) /\ at_ + byte32 content (p + 20) <= top /\
        sections_fit n (i + 1) (at_ + byte32 content (p + 20)) top
      else sections_fit n (i + 1) cur top
  end.

Definition symbols_fit (cur top : Z) : Prop :=
  let tab := align_up 12 cur in
  (shnum = 0 \/ shentsize = shdr_size /\ shoff <= size) /\ tab + shentsize * shnum <= top /\
  sections_fit (Z.to_nat shnum) 0 (tab + shentsize * shnum) top.
End Kernel.

(** ** Proofs *)

(** Clearing the low bits rounds down. *)
Lemma land_align x e : 0 <= x < 4294967296 -> 0 <= e < 32 -> x .& u32 (- 2 ^ e) = x / 2 ^ e * 2 ^ e.
Proof.
  intros Hx He. unfold u32. change 4294967296 with (2 ^ 32). rewrite <- Z.land_ones by lia.
  rewrite (Z.land_comm (- 2 ^ e)), Z.land_assoc, Z.land_ones, Z.mod_small by lia.
  replace (- 2 ^ e) with (Z.lnot (Z.ones e)) by (rewrite Z.ones_equiv; unfold Z.lnot; lia).
  rewrite <- Z.ldiff_land, Z.ldiff_ones_r, Z.shiftl_mul_pow2, Z.shiftr_div_pow2 by lia. done.
Qed.

Lemma page_align_ok x : 0 <= x < 2147479552 -> page_align x = align_up 12 x.
Proof.
  intros Hx. unfold page_align, align_up. change 0xFFFFF000 with (u32 (- 2 ^ 12)). rewrite u32_small, land_align by lia.
  change (2 ^ 12) with 4096. replace (x + 4096 - 1) with (x + 4095) by lia. apply s32_small. dlia.
Qed.

Lemma align_up_range x : x <= align_up 12 x < x + 4096.
Proof. unfold align_up. change (2 ^ 12) with 4096. dlia. Qed.

Lemma align_next_ok x e : 0 <= x < 1073741824 -> 0 <= e <= 30 -> s32 (u32 (x + 2 ^ e) .& u32 (- 2 ^ e)) = align_next (2 ^ e) x.
Proof.
  intros Hx He. pose proof (Z.pow_le_mono_r 2 e 30 ltac:(lia) ltac:(lia)) as Hp. change (2 ^ 30) with 1073741824 in Hp.
  pose proof (Z.pow_pos_nonneg 2 e ltac:(lia) ltac:(lia)). rewrite u32_small, land_align by lia. unfold align_next.
  set (p := 2 ^ e) in *. pose proof (Z.div_mod (x + p) p ltac:(lia)). pose proof (Z.mod_pos_bound (x + p) p ltac:(lia)). apply s32_small. nia.
Qed.

Section Load.
Context (b : bios) (mem_lower mem_upper : Z) (fsys_table : list fsys_entry) (gunzip_read : Z -> Z -> files -> option (Z * files)).
Context (current_term : term_entry) (max_lines : Z).
Context (content : Z -> Z) (size : Z) (own : Z -> Prop) {S : Stream b mem_lower mem_upper fsys_table gunzip_read content size own}.
Hypothesis lower_ok : 512 <= mem_lower <= 1024.
Hypothesis upper_ok : 0 <= mem_upper < 4194304.
Hypothesis own_low : forall a, own a -> a < 0x100000.
Variables (buffer local_i : Z).
Hypothesis buffer_place : file_place mem_lower mem_upper buffer MULTIBOOT_SEARCH /\ 0x1000 <= buffer /\ buffer + MULTIBOOT_SEARCH <= 0x100000 /\ buffer mod 4 = 0.
Hypothesis buffer_apart : forall a, buffer <= a < buffer + MULTIBOOT_SEARCH -> ~ own a.

Abbreviation hd := (head size).
Abbreviation ready := (ready b mem_lower mem_upper fsys_table gunzip_read content size own).
Abbreviation after := (after b mem_lower mem_upper fsys_table gunzip_read content size own).
Abbreviation high := (high mem_upper).

(** The head of the file is in [buffer]. *)
Definition in_head (m : mem) : Prop := forall x, 0 <= x < hd -> ld m (buffer + x) = content x.

Lemma head_le : hd <= MULTIBOOT_SEARCH /\ hd <= size.
Proof. unfold head. lia. Qed.

Lemma head16 m x : in_head m -> 0 <= x -> x + 2 <= hd -> ld16 m (buffer + x) = byte16 content x.
Proof. intros H H0 Hx. unfold ld16, byte16. rewrite <- Z.add_assoc, !H by lia. done. Qed.

Lemma head32 m x : in_head m -> 0 <= x -> x + 4 <= hd -> ld32 m (buffer + x) = byte32 content x.
Proof. intros H H0 Hx. apply byte32_bytes. intros i Hi. rewrite <- Z.add_assoc. apply H. lia. Qed.

Lemma head_after (P : Z -> Prop) g g' : in_head (g_mem g) -> after P g g' -> (forall a, P a -> 0x100000 <= a) -> in_head (g_mem g').
Proof.
  intros H A HP x Hx. pose proof head_le as [? _]. rewrite (af_frame _ _ _ _ _ _ _ _ _ _ _ A); [by apply H | apply buffer_apart; lia |].
  intros Ha. specialize (HP _ Ha). lia.
Qed.

Hypothesis bytes_ok : forall x, 0 <= content x < 256.

(** One segment: memory asks for it and it is loaded. *)
Lemma segment_loaded n i loaded real_entry k : ready (k_files k) -> in_head (k_mem k) -> 0 <= phdr_at content i -> phdr_at content i + 32 <= hd ->
  e_phoff (k_mem k) buffer + e_phentsize (k_mem k) buffer * i = phdr_at content i -> byte32 content (phdr_at content i) = PT_LOAD ->
  let s := segment_at content (phdr_at content i) in
  segment_ok size mem_upper s -> 0 <= cur_addr k < 2147483648 ->
  exists g, load_segments b mem_lower mem_upper current_term max_lines fsys_table gunzip_read buffer (Datatypes.S n) KERNEL_TYPE_MULTIBOOT i loaded real_entry k
    = load_segments b mem_lower mem_upper current_term max_lines fsys_table gunzip_read buffer n KERNEL_TYPE_MULTIBOOT (i + 1) (loaded + 1)
        (physical (entry_addr k) [s] real_entry) (set_cur (Z.max (cur_addr k) (g_paddr s + g_memsz s)) (set_files g k)) /\
    after (covers s) (k_files k) g /\ (forall a v, seg_byte content s a = Some v -> ld (g_mem g) a = v).
Proof.
  intros R H P0 P1 Ep Hl s [(S1 & S2 & S3 & S4) [S5 S6]] Hc. cbn [load_segments].
  replace (e_phoff (k_mem k) buffer + buffer + e_phentsize (k_mem k) buffer * i) with (buffer + phdr_at content i) by lia.
  set (p := phdr_at content i) in *. unfold p_type, p_offset, p_vaddr, p_paddr, p_filesz, p_memsz. rewrite <- !Z.add_assoc.
  rewrite !(head32 (k_mem k)) by (done || lia). rewrite Hl. cbn [Z.eqb negb PT_LOAD Pos.eqb].
  pose proof (byte32_range content bytes_ok (p + 4)) as B1. pose proof (byte32_range content bytes_ok (p + 8)) as B2.
  pose proof (byte32_range content bytes_ok (p + 16)) as B3.
  change (byte32 content (p + 4)) with (g_offset s) in *. change (byte32 content (p + 8)) with (g_vaddr s) in *.
  change (byte32 content (p + 12)) with (g_paddr s) in *. change (byte32 content (p + 16)) with (g_filesz s) in *.
  change (byte32 content (p + 20)) with (g_memsz s) in *. clearbody s.
  change (bool_decide (KERNEL_TYPE_MULTIBOOT = KERNEL_TYPE_FREEBSD) || bool_decide (KERNEL_TYPE_MULTIBOOT = KERNEL_TYPE_NETBSD)) with false.
  change (bool_decide (KERNEL_TYPE_MULTIBOOT = KERNEL_TYPE_MULTIBOOT)) with true. cbn [andb].
  assert ((if g_memsz s <? g_filesz s then g_memsz s else g_filesz s) = file_part s) as -> by (unfold file_part; destruct (Z.ltb_spec (g_memsz s) (g_filesz s)); lia).
  assert (0 <= file_part s <= g_memsz s) as Hf by (unfold file_part; lia). set (f := file_part s) in *.
  rewrite (proj2 (Z.ltb_ge (g_paddr s) 0x100000)) by lia. cbn [set_err_if]. rewrite !(u32_small (_ + g_memsz s)) by lia.
  destruct (k_seek_ok b mem_lower mem_upper fsys_table gunzip_read content size own (g_offset s) k R) as (pos & -> & R1 & Hpos).
  rewrite Hpos in * by lia. clear Hpos pos.
  set (k1 := set_files _ k) in *. change (entry_addr k1) with (entry_addr k). change (cur_addr k1) with (cur_addr k). rewrite (u32_small (cur_addr k)) by lia.
  replace (if cur_addr k <? g_paddr s + g_memsz s then set_cur (s32 (g_paddr s + g_memsz s)) k1 else k1)
    with (set_cur (Z.max (cur_addr k) (g_paddr s + g_memsz s)) k1).
  2: { destruct (Z.ltb_spec (cur_addr k) (g_paddr s + g_memsz s)).
       - rewrite s32_small, Z.max_r by lia. done.
       - rewrite Z.max_l by lia. by destruct k. }
  assert ((if (g_vaddr s <=? entry_addr k) && (entry_addr k <? g_vaddr s + g_memsz s) then u32 (entry_addr k + g_paddr s - g_vaddr s) else real_entry)
    = physical (entry_addr k) [s] real_entry) as ->.
  { unfold physical. cbn [foldl]. destruct (Z.leb_spec (g_vaddr s) (entry_addr k)), (Z.ltb_spec (entry_addr k) (g_vaddr s + g_memsz s)); cbn [andb]; try done.
    apply u32_small. lia. }
  set (c := Z.max _ _). set (k2 := set_cur c k1).
  destruct (k_printf_ok b mem_lower mem_upper fsys_table gunzip_read current_term max_lines content size own
    (bytes ", <0x%x:0x%x:0x%x>") [ArgInt (g_paddr s); ArgInt f; ArgInt (u32 (g_memsz s - f))] k2) as (g3 & -> & A3 & Ep3); [reflexivity | exact R1 |].
  cbn [mbind option_bind]. set (k3 := set_files g3 k2). pose proof (af_ready _ _ _ _ _ _ _ _ _ _ _ A3) as R3.
  rewrite (k_memcheck_ok b mem_lower mem_upper fsys_table gunzip_read content size own lower_ok upper_ok (g_paddr s) (g_memsz s) k3 R3) by done.
  change (filepos (g_fs (k_files k2))) with (g_offset s) in Ep3.
  assert (read_count size (filepos (g_fs (k_files k3))) (s32 f) = f) as Ec.
  { change (k_files k3) with g3. rewrite Ep3, s32_small by lia. apply read_count_all; lia. }
  destruct (high_place mem_lower mem_upper own lower_ok upper_ok own_low (g_paddr s) f) as [Hpl Hap]; [unfold GrubStream.high; lia |].
  destruct (k_read_any b mem_lower mem_upper fsys_table gunzip_read content size own (g_paddr s) f k3 R3) as (g4 & -> & A4 & Ep4 & B4); try (rewrite Ec); try done; try lia.
  rewrite Ec in *. cbn [mbind option_bind]. rewrite (u32_small f), Z.eqb_refl by lia. change (k_files k3) with g3 in *. rewrite Ep3 in B4.
  set (k4 := set_files g4 k3). pose proof (af_ready _ _ _ _ _ _ _ _ _ _ _ A4) as R4.
  assert (after (covers s) (k_files k) g4) as A14.
  { eapply after_then; [| eapply after_weaken; [exact A4 | unfold covers; intros; lia]].
    eapply after_then; [| apply after_nothing, A3]. by constructor. }
  destruct (Z.ltb_spec f (g_memsz s)).
  - destruct (k_memset_ok b mem_lower mem_upper fsys_table gunzip_read content size own lower_ok upper_ok own_low (g_paddr s + f) (g_memsz s - f) k4 R4)
      as (g5 & -> & A5 & _ & Z5); [unfold GrubStream.high; lia |].
    exists g5. split; [done |]. split.
    + eapply after_then; [exact A14 |]. eapply after_weaken; [exact A5 |]. unfold covers. intros; lia.
    + intros a v Hv. unfold seg_byte in Hv. destruct (decide (covers s a)) as [Ha |]; [| done]. injection Hv as <-. unfold covers in Ha.
      destruct (Z.ltb_spec (a - g_paddr s) (file_part s)) as [Hlt | Hge].
      * destruct A5 as [_ _ F5]. rewrite F5 by (first [apply Hap; lia | lia]).
        replace a with (g_paddr s + (a - g_paddr s)) at 1 by lia. apply B4. fold f in Hlt. lia.
      * fold f in Hge. apply Z5. lia.
  - exists g4. split; [done |]. split; [exact A14 |]. intros a v Hv. unfold seg_byte in Hv. destruct (decide (covers s a)) as [Ha |]; [| done].
    injection Hv as <-. unfold covers in Ha. rewrite (proj2 (Z.ltb_lt _ _)) by (fold f; lia).
    replace a with (g_paddr s + (a - g_paddr s)) at 1 by lia. apply B4. lia.
Qed.

Hypothesis phdrs : 52 < hd /\ phoff content <> 0 /\ phnum content <> 0 /\ 32 <= phentsize content /\ phoff content + phentsize content * phnum content < hd.

Lemma image_byte_none l a : image_byte content l a = None -> ~ Exists (fun s => covers s a) l.
Proof.
  induction l as [|s l IH]; cbn [image_byte]; intros H E; [by inversion E |]. destruct (image_byte content l a); [done |].
  apply Exists_cons in E as [E | E]; [| by apply IH]. unfold seg_byte in H. by rewrite decide_True in H.
Qed.

Lemma image_byte_some l a v : image_byte content l a = Some v -> Exists (fun s => covers s a) l.
Proof.
  induction l as [|s l IH]; cbn [image_byte]; intros H; [done |]. destruct (image_byte content l a); [right; apply IH; congruence |].
  left. unfold seg_byte in H. by destruct (decide (covers s a)).
Qed.

Lemma image_end_le l : forall e, e <= image_end l e.
Proof. induction l as [|s l IH]; intros e; cbn [image_end foldl]; [lia |]. specialize (IH (Z.max e (g_paddr s + g_memsz s))). unfold image_end in *. lia. Qed.

Lemma image_end_covers l s : List.In s l -> forall e, g_paddr s + g_memsz s <= image_end l e.
Proof.
  induction l as [|s' l IH]; intros Hs e; [done |]. unfold image_end in *. cbn [foldl]. destruct Hs as [-> | Hs]; [| by apply IH].
  pose proof (image_end_le l (Z.max e (g_paddr s + g_memsz s))) as H. unfold image_end in H. lia.
Qed.

Lemma image_end_below l top : Forall (fun s => g_paddr s + g_memsz s <= top) l -> forall e, e <= top -> image_end l e <= top.
Proof. induction 1 as [|s l Hs _ IH]; intros e He; cbn [image_end foldl]; [done |]. apply IH. lia. Qed.

Lemma segments_loaded n : forall i loaded real_entry k, ready (k_files k) -> in_head (k_mem k) -> 0 <= i -> i + Z.of_nat n <= phnum content ->
  let l := segments_from content n i in Forall (segment_ok size mem_upper) l -> 0 <= cur_addr k < 2147483648 ->
  exists g, load_segments b mem_lower mem_upper current_term max_lines fsys_table gunzip_read buffer n KERNEL_TYPE_MULTIBOOT i loaded real_entry k
    = Some (loaded + Z.of_nat (length l), physical (entry_addr k) l real_entry, set_cur (image_end l (cur_addr k)) (set_files g k)) /\
    after (fun a => Exists (fun s => covers s a) l) (k_files k) g /\ (forall a v, image_byte content l a = Some v -> ld (g_mem g) a = v).
Proof.
  induction n as [|n IH]; intros i loaded real_entry k R H Hi Hn l Hl Hc; cbn [segments_from] in *.
  { exists (k_files k). split; [cbn [load_segments length image_end physical foldl]; rewrite Z.add_0_r; destruct k; done |]. split; [by apply after_refl | done]. }
  pose proof (byte32_range content bytes_ok 28) as B0. fold (phoff content) in B0.
  assert (0 <= phdr_at content i /\ phdr_at content i + 32 <= hd) as [P0 P1].
  { assert (phentsize content * (i + 1) <= phentsize content * phnum content) by (apply Z.mul_le_mono_nonneg_l; lia).
    assert (0 <= phentsize content * i) by (apply Z.mul_nonneg_nonneg; lia). unfold phdr_at. lia. }
  assert (e_phoff (k_mem k) buffer + e_phentsize (k_mem k) buffer * i = phdr_at content i) as Ep.
  { unfold e_phoff, e_phentsize. rewrite (head32 (k_mem k) 28), (head16 (k_mem k) 42) by (done || lia). done. }
  subst l. destruct (Z.eqb_spec (byte32 content (phdr_at content i)) PT_LOAD) as [El | El].
  - apply Forall_cons_iff in Hl as [Hs Hl]. set (s := segment_at content (phdr_at content i)) in *. pose proof Hs as [(S1 & S2 & S3 & S4) _].
    destruct (segment_loaded n i loaded real_entry k R H P0 P1 Ep El Hs Hc) as (g1 & -> & A1 & B1). fold s in A1, B1 |- *.
    destruct (IH (i + 1) (loaded + 1) (physical (entry_addr k) [s] real_entry) (set_cur (Z.max (cur_addr k) (g_paddr s + g_memsz s)) (set_files g1 k)))
      as (g2 & -> & A2 & B2); [exact (af_ready _ _ _ _ _ _ _ _ _ _ _ A1) | | lia | lia | done | cbn [set_cur set_files cur_addr]; lia |].
    { eapply head_after; [exact H | exact A1 |]. unfold covers. lia. }
    exists g2. split; [do 3 f_equal; cbn [length]; lia |]. split.
    + eapply after_then; [eapply after_weaken; [exact A1 |] | eapply after_weaken; [exact A2 |]]; intros a Ha; [by left | by right].
    + intros a v Hv. cbn [image_byte] in Hv. destruct (image_byte content (segments_from content n (i + 1)) a) as [w |] eqn:Ew; [apply B2; congruence |].
      destruct A2 as [_ _ F2]. rewrite F2; [by apply B1 | | by apply image_byte_none].
      intros Ho. apply own_low in Ho. unfold seg_byte in Hv. destruct (decide (covers s a)) as [Ha |]; [| done]. unfold covers in Ha. lia.
  - cbn [load_segments].
    replace (e_phoff (k_mem k) buffer + buffer + e_phentsize (k_mem k) buffer * i) with (buffer + phdr_at content i) by lia.
    unfold p_type. rewrite head32 by (done || lia). rewrite (proj2 (Z.eqb_neq _ _)) by done. cbn [negb]. apply IH; try done; lia.
Qed.

(** *** Symbols *)

Variable top : Z.
Hypothesis top_place : 0x100000 <= top <= mem_upper * 1024 + 0x100000 /\ top < 1073741824.

Lemma sections_loaded tab n : 0x100000 <= tab -> forall i k, ready (k_files k) -> 0 <= i -> 0 <= shoff content ->
  (forall x, shdr_size * i <= x < shdr_size * (i + Z.of_nat n) -> ld (k_mem k) (tab + x) = content (shoff content + x)) ->
  tab + shdr_size * (i + Z.of_nat n) <= cur_addr k <= top -> sections_fit content n i (cur_addr k) top ->
  exists e c g, load_sections b mem_lower mem_upper fsys_table gunzip_read n tab i k = Some (e, set_cur c (set_files g k)) /\
    after (fun a => tab <= a) (k_files k) g.
Proof.
  intros Ht. induction n as [|n IH]; intros i k R Hi Ho Hd Hc Hf; cbn [load_sections sections_fit] in *.
  { exists false, (cur_addr k), (k_files k). split; [by destruct k | by apply after_refl]. }
  unfold shdr_size in *. assert (forall j, 0 <= j -> j + 4 <= 40 -> ld32 (k_mem k) (tab + 40 * i + j) = byte32 content (shoff content + 40 * i + j)) as W.
  { intros j J0 J1. apply byte32_bytes. intros y Hy. replace (tab + 40 * i + j + y) with (tab + (40 * i + j + y)) by lia.
    rewrite Hd by lia. f_equal. lia. }
  unfold sh_addr, sh_size, sh_offset, sh_addralign. rewrite !W by lia. set (p := shoff content + 40 * i) in *.
  destruct (Z.eqb_spec (byte32 content (p + 12)) 0) as [E1 | E1]; cbn [negb andb] in *.
  2: { apply IH; try done; try lia. intros x Hx. apply Hd. lia. }
  destruct (Z.eqb_spec (byte32 content (p + 20)) 0) as [E2 | E2]; cbn [negb andb] in *.
  { apply IH; try done; try lia. intros x Hx. apply Hd. lia. }
  destruct Hf as ((e & He & Ea) & Htop & Hf). pose proof (byte32_range content bytes_ok (p + 20)) as Bs.
  set (len := byte32 content (p + 20)) in *. rewrite Ea in *. rewrite align_next_ok by lia. set (at_ := align_next (2 ^ e) (cur_addr k)) in *.
  assert (cur_addr k <= at_) as Hat.
  { subst at_. unfold align_next. pose proof (Z.pow_pos_nonneg 2 e ltac:(lia) ltac:(lia)) as Hp. set (q := 2 ^ e) in *.
    pose proof (Z.div_mod (cur_addr k + q) q ltac:(lia)). pose proof (Z.mod_pos_bound (cur_addr k + q) q ltac:(lia)). nia. }
  rewrite (s32_small len) by lia.
  destruct (k_seek_ok b mem_lower mem_upper fsys_table gunzip_read content size own (byte32 content (p + 16)) (set_cur at_ k) R) as (pos & -> & R1 & _).
  set (k1 := set_files _ _). change (cur_addr k1) with at_.
  assert (high at_ len) as Hh by (unfold GrubStream.high; lia).
  rewrite (k_memcheck_ok b mem_lower mem_upper fsys_table gunzip_read content size own lower_ok upper_ok at_ len k1 R1 Hh).
  assert (0 <= read_count size (filepos (g_fs (k_files k1))) (s32 len) <= len) as Hcnt.
  { rewrite s32_small by lia. apply read_count_le; [apply (rd_pos _ _ _ _ _ _ _ _ _ R1) | lia]. }
  destruct (high_place mem_lower mem_upper own lower_ok upper_ok own_low at_ _ (high_less _ _ _ _ Hh Hcnt)) as [Hpl Hap].
  change (cur_addr k1) with at_.
  destruct (k_read_any b mem_lower mem_upper fsys_table gunzip_read content size own at_ len k1 R1) as (g2 & -> & A2 & _); [lia | done | done |].
  set (cnt := read_count _ _ _) in *. cbn [mbind option_bind].
  assert (after (fun a => tab <= a) (k_files k) g2) as A.
  { eapply after_then; [| eapply after_weaken; [exact A2 | intros a Ha; cbv beta in *; lia]]. by constructor. }
  destruct (cnt =? len); [| by exists true, at_, g2].
  set (k2 := set_files g2 k1). set (m := st_dword (k_mem k2) (tab + 40 * i + 12) (cur_addr k2)).
  assert (forall x, ~ (tab + 40 * i + 12 <= x < tab + 40 * i + 16) -> ld m x = ld (g_mem g2) x) as Fm by (intros x Hx; apply ld_st_dword; lia).
  assert (after (fun a => tab <= a) g2 (upd (set_fmem m) g2)) as A3.
  { apply after_write; [exact (af_ready _ _ _ _ _ _ _ _ _ _ _ A) | intros a Ha Ho'; specialize (own_low a Ho'); lia | intros a Ha; apply Fm; lia]. }
  destruct (IH (i + 1) (set_cur (s32 (cur_addr (set_kmem m k2) + len)) (set_kmem m k2))) as (err & c & g4 & -> & A4).
  - exact (af_ready _ _ _ _ _ _ _ _ _ _ _ A3).
  - lia.
  - done.
  - intros x Hx. change (k_mem _) with m. rewrite Fm by lia. destruct A as [_ _ F]. destruct A2 as [_ _ F2].
    rewrite F2; [change (g_mem (k_files k1)) with (k_mem k); apply Hd; lia | intros Ho'; specialize (own_low _ Ho'); lia | lia].
  - change (cur_addr (set_cur ?x ?y)) with x. change (cur_addr (set_kmem m k2)) with at_. rewrite s32_small by lia. lia.
  - change (cur_addr (set_cur ?x ?y)) with x. change (cur_addr (set_kmem m k2)) with at_. rewrite s32_small by lia. done.
  - exists err, c, g4. split; [done |]. eapply after_then; [exact A |]. eapply after_then; [exact A3 | exact A4].
Qed.

(** Of [mbi] only the members on symbols and the flags change. *)
Definition keeps_info (i i' : multiboot_info) : Prop := exists f n s a x, i' = set_symbols f n s a x i.

Lemma elf_symbols_finish k e c i g : ready (k_files k) -> forall P, after P (k_files k) g -> keeps_info (k_mbi k) i ->
  exists c' i' g', finish_elf_symbols current_term max_lines e (set_cur c (set_mbi i (set_files g k))) = Some (set_cur c' (set_mbi i' (set_files g' k))) /\
    after P (k_files k) g' /\ keeps_info (k_mbi k) i'.
Proof.
  intros R P A (f & n & s & a & x & ->). unfold finish_elf_symbols. destruct (e || _).
  - destruct (k_printf_ok b mem_lower mem_upper fsys_table gunzip_read current_term max_lines content size own (bytes "(bad)") []
      (set_cur c (set_mbi (set_symbols f n s a x (k_mbi k)) (set_files g k)))) as (g3 & -> & A3 & _); [reflexivity | exact (af_ready _ _ _ _ _ _ _ _ _ _ _ A) |].
    cbn [mbind option_bind]. eexists 0, _, g3. split; [reflexivity |]. split; [eapply after_then; [exact A | apply after_nothing, A3] |].
    unfold keeps_info. by repeat eexists.
  - eexists c, _, g. split; [reflexivity |]. split; [done |]. unfold keeps_info. by repeat eexists.
Qed.

Lemma elf_symbols_ok k : ready (k_files k) -> in_head (k_mem k) -> 0x100000 <= cur_addr k -> symbols_fit content size (cur_addr k) top ->
  exists c i g, load_elf_symbols b mem_lower mem_upper current_term max_lines fsys_table gunzip_read buffer true k
      = Some (set_cur c (set_mbi i (set_files g k))) /\
    after (fun a => align_up 12 (cur_addr k) <= a) (k_files k) g /\ keeps_info (k_mbi k) i.
Proof.
  intros R H Hc (Hs1 & Hs2 & Hs3). unfold load_elf_symbols. destruct phdrs as (Hd & _).
  unfold e_shnum, e_shentsize, e_shstrndx, e_shoff. rewrite !head16, head32 by (done || lia).
  fold (shnum content) (shentsize content) (shoff content) in *.
  pose proof (byte16_range content bytes_ok 48 : 0 <= shnum content < 65536) as B1. pose proof (byte16_range content bytes_ok 46 : 0 <= shentsize content < 65536) as B2.
  pose proof (byte32_range content bytes_ok 32 : 0 <= shoff content < 4294967296) as B3.
  assert (0 <= shentsize content * shnum content) as Htab by (apply Z.mul_nonneg_nonneg; lia).
  pose proof (align_up_range (cur_addr k)) as Hal. set (tab := align_up 12 (cur_addr k)) in *.
  set (size_ := shentsize content * shnum content) in *.
  match goal with |- context [k_seek _ ?x] => set (k0 := x) end.
  assert (cur_addr k0 = tab) as Ec by (unfold k0; cbn; apply page_align_ok; lia).
  assert (k0 = set_cur tab (set_mbi (k_mbi k0) k)) as E0. { rewrite <- Ec. by destruct k. }
  assert (syms_num (k_mbi k0) = shnum content) as En by done. assert (keeps_info (k_mbi k) (k_mbi k0)) as Ki by (unfold keeps_info; by repeat eexists).
  clearbody k0. clear Ec. set (i0 := k_mbi k0) in *. clearbody i0. subst k0.
  destruct (k_seek_ok b mem_lower mem_upper fsys_table gunzip_read content size own (shoff content) (set_cur tab (set_mbi i0 k)) R) as (pos & -> & R1 & Hpos).
  set (k1 := set_files _ _). change (cur_addr k1) with tab.
  assert (0 <= read_count size (filepos (g_fs (k_files k1))) (s32 size_) <= size_) as Hcnt.
  { rewrite s32_small by lia. apply read_count_le; [apply (rd_pos _ _ _ _ _ _ _ _ _ R1) | lia]. }
  assert (high tab size_) as Hh by (unfold GrubStream.high; lia).
  destruct (high_place mem_lower mem_upper own lower_ok upper_ok own_low tab _ (high_less _ _ _ _ Hh Hcnt)) as [Hpl Hap].
  destruct (k_read_any b mem_lower mem_upper fsys_table gunzip_read content size own tab size_ k1 R1) as (g2 & -> & A2 & _ & B4); [lia | done | done |].
  set (cnt := read_count _ _ _) in *. cbn [mbind option_bind].
  assert (after (fun a => tab <= a) (k_files k) g2) as A.
  { eapply after_then; [| eapply after_weaken; [exact A2 | intros a Ha; cbv beta in *; lia]]. by constructor. }
  change (set_files g2 k1) with (set_cur tab (set_mbi i0 (set_files g2 k))).
  destruct (Z.eqb_spec cnt size_) as [Ecnt |]; cbn [mbind option_bind].
  2: { destruct (elf_symbols_finish k true tab i0 g2 R _ A Ki) as (c & i & g & -> & H'). by exists c, i, g. }
  set (i3 := set_symbols (mb_flags i0) (syms_num i0) (syms_size i0) tab (syms_shndx i0) i0).
  match goal with |- context [k_printf _ _ _ _ ?x] => replace x with (set_cur (tab + size_) (set_mbi i3 (set_files g2 k)))
    by (cbn [set_cur set_mbi set_files cur_addr k_mbi k_files]; rewrite s32_small, u32_small by lia; reflexivity) end.
  destruct (k_printf_ok b mem_lower mem_upper fsys_table gunzip_read current_term max_lines content size own
    (bytes ", shtab=0x%x") [ArgInt (u32 (cur_addr (set_cur (tab + size_) (set_mbi i3 (set_files g2 k)))))] (set_cur (tab + size_) (set_mbi i3 (set_files g2 k))))
    as (g3 & -> & A3 & _); [reflexivity | exact (af_ready _ _ _ _ _ _ _ _ _ _ _ A) |].
  cbn [mbind option_bind].
  assert (after (fun a => tab <= a) (k_files k) g3) as A13 by (eapply after_then; [exact A | apply after_nothing, A3]).
  assert (keeps_info (k_mbi k) i3) as Ki3 by (destruct Ki as (? & ? & ? & ? & ? & ->); unfold keeps_info; by repeat eexists).
  change (set_files g3 _) with (set_cur (tab + size_) (set_mbi i3 (set_files g3 k))).
  change (cur_addr (set_cur tab _)) with tab. rewrite (u32_small tab) by lia.
  change (syms_num (k_mbi _)) with (syms_num i0). rewrite En.
  destruct (sections_loaded tab (Z.to_nat (shnum content)) ltac:(lia) 0 (set_cur (tab + size_) (set_mbi i3 (set_files g3 k)))) as (e & c & g4 & -> & A4).
  - exact (af_ready _ _ _ _ _ _ _ _ _ _ _ A13).
  - lia.
  - lia.
  - intros x Hx. unfold shdr_size in Hx. destruct Hs1 as [Hs1 | [Hs1 Hso]]; [lia |]. unfold shdr_size in Hs1. change (k_mem _) with (g_mem g3).
    destruct A3 as [_ _ F3]. rewrite F3; [| intros Ho; specialize (own_low _ Ho); lia | by intros []].
    change (g_mem (k_files _)) with (g_mem g2). rewrite B4 by (subst size_; rewrite Hs1 in *; lia).
    change (filepos _) with pos. rewrite Hpos by lia. done.
  - unfold shdr_size. cbn [set_cur cur_addr]. destruct Hs1 as [Hs1 | [Hs1 _]]; unfold shdr_size in *; subst size_; rewrite ?Hs1 in *; lia.
  - exact Hs3.
  - cbn [mbind option_bind]. change (set_cur c (set_files g4 _)) with (set_cur c (set_mbi i3 (set_files g4 k))).
    destruct (elf_symbols_finish k e c i3 g4 R (fun a => tab <= a)) as (c' & i & g & -> & H'); [eapply after_then; [exact A13 | exact A4] | done | by exists c', i, g].
Qed.

(** *** The whole *)

Lemma found_header m i : in_head m -> 0 <= i < hd -> MULTIBOOT_FOUND m (buffer + i) (hd - i) = mb_header content size i.
Proof.
  intros H Hi. unfold MULTIBOOT_FOUND, mb_header. replace ((buffer + i) .& 3 =? 0) with (i mod 4 =? 0).
  2: { change 3 with (Z.ones 2). rewrite Z.land_ones by lia. change (2 ^ 2) with 4. f_equal. destruct buffer_place as (_ & _ & _ & Hb).
       rewrite <- Zplus_mod_idemp_l, Hb. done. }
  destruct (i mod 4 =? 0); cbn [andb]; [| done]. destruct (Z.leb_spec 12 (hd - i)); cbn [andb]; [| done].
  rewrite <- !Z.add_assoc, !head32 by (done || lia). done.
Qed.

Lemma find_first n : forall m i j, in_head m -> 0 <= i <= j -> j < i + Z.of_nat n -> i + Z.of_nat n <= hd -> mb_header content size j = true ->
  (forall x, 0 <= x < j -> mb_header content size x = false) -> find_multiboot buffer n i hd m = Some j.
Proof.
  induction n as [|n IH]; intros m i j H Hi Hj Hn Ht Hf; [lia |]. cbn [find_multiboot]. rewrite found_header by (done || lia).
  destruct (decide (i = j)) as [-> | Hne]; [by rewrite Ht |]. rewrite Hf by lia. apply IH; try done; lia.
Qed.

Lemma elf_bootable m : in_head m -> 52 < hd -> map content [0; 1; 2; 3; 4; 5; 6] = [0x7f; 69; 76; 70; 1; 1; 1] ->
  byte16 content 16 = 2 /\ byte16 content 18 = 3 /\ byte32 content 20 = 1 -> BOOTABLE_I386_ELF m buffer = true.
Proof.
  intros H Hd [= E0 E1 E2 E3 E4 E5 E6] (T1 & T2 & T3). unfold BOOTABLE_I386_ELF, e_ident, e_type, e_machine, e_version.
  rewrite !H, !head16, head32 by (done || lia). rewrite E0, E1, E2, E3, E4, E5, E6, T1, T2, T3. done.
Qed.

Abbreviation segs := (segments content).
Hypothesis segs_ok : segs <> [] /\ Forall (segment_ok size mem_upper) segs.

Lemma elf_loaded im k : ready (k_files k) -> in_head (k_mem k) -> im_type im = KERNEL_TYPE_MULTIBOOT -> im_align im = true ->
  image_end segs 0 <= top -> symbols_fit content size (image_end segs 0) top ->
  exists c i g, load_elf b mem_lower mem_upper current_term max_lines fsys_table gunzip_read buffer im k
      = Some (physical (entry_addr k) segs 0, set_cur c (set_mbi i (set_files g k))) /\
    after (fun a => 0x100000 <= a) (k_files k) g /\ keeps_info (k_mbi k) i /\
    (forall a v, image_byte content segs a = Some v -> ld (g_mem g) a = v).
Proof.
  intros R H Et Ea Htop Hfit. unfold load_elf. rewrite Et, Ea. destruct phdrs as (Hd & _). destruct segs_ok as [Hne Hok].
  unfold e_phnum. rewrite head16 by (done || lia). fold (phnum content).
  pose proof (byte16_range content bytes_ok 44 : 0 <= phnum content < 65536) as B1.
  destruct (segments_loaded (Z.to_nat (phnum content)) 0 0 0 (set_cur 0 k) R H ltac:(lia) ltac:(lia) Hok) as (g1 & -> & A1 & I1); [cbn; lia |].
  fold segs in A1, I1 |- *. cbn [mbind option_bind]. pose proof (af_ready _ _ _ _ _ _ _ _ _ _ _ A1) as R1.
  rewrite (k_no_error b mem_lower mem_upper fsys_table gunzip_read content size own) by exact R1.
  rewrite (proj2 (Z.eqb_neq _ 0)) by (destruct segs; [done | cbn [length]; lia]).
  change (cur_addr (set_cur 0 k)) with 0. change (entry_addr (set_cur 0 k)) with (entry_addr k). set (e := image_end segs 0) in *.
  assert (forall s, List.In s segs -> 0x100000 <= g_paddr s) as Hlow by (intros s Hs; rewrite Forall_forall in Hok; destruct (Hok s Hs) as [(? & _) _]; lia).
  assert (after (fun a => 0x100000 <= a) (k_files k) g1) as A1'.
  { eapply after_weaken; [exact A1 |]. intros a Ha. apply Exists_exists in Ha as (s & Hs & Ha). specialize (Hlow s Hs). unfold covers in Ha. lia. }
  assert (0x100000 <= e) as He.
  { destruct segs as [|s l] eqn:El; [done |]. specialize (Hlow s ltac:(by left)). apply Forall_cons_iff in Hok as [((_ & ? & _) & _) _].
    pose proof (image_end_le l (Z.max 0 (g_paddr s + g_memsz s))). unfold e. cbn [image_end foldl] in *. unfold image_end in *. lia. }
  destruct (elf_symbols_ok (set_cur e (set_files g1 (set_cur 0 k)))) as (c & i & g2 & -> & A2 & Ki); [exact R1 | | exact He | exact Hfit |].
  { eapply head_after; [exact H | exact A1' | done]. }
  cbn [mbind option_bind]. exists c, i, g2. split; [done |]. change (cur_addr (set_cur e _)) with e in A2.
  pose proof (align_up_range e). split; [| split; [done |]].
  - eapply after_then; [exact A1' |]. eapply after_weaken; [exact A2 |]. intros a Ha. cbv beta in *. lia.
  - intros a v Hv. destruct A2 as [_ _ F2].
    pose proof (image_byte_some _ _ _ Hv) as Hc. apply Exists_exists in Hc as (s & Hs & Hc). specialize (Hlow s Hs).
    pose proof (image_end_covers _ s Hs 0). fold e in H1. unfold covers in Hc.
    rewrite F2; [by apply I1 | intros Ho; specialize (own_low _ Ho); lia | lia].
Qed.

(** What is left when the kernel is loaded. *)
Record kernel_loaded (arg : Z) (g0 : files) (k k' : boot) : Prop := {
  kl_image : forall a v, image_byte content segs a = Some v -> ld (k_mem k') a = v;
  kl_low : forall a, a < 0x100000 -> ~ own a -> ~ (buffer <= a < buffer + MULTIBOOT_SEARCH) -> ld (k_mem k') a = ld (g_mem g0) a;
  kl_entry : entry_addr k' = (let entry := byte32 content 24 in let p := physical entry segs 0 in if p =? 0 then entry else p);
  kl_info : exists f n s a x, k_mbi k' = set_symbols f n s a x (set_modules f 0 0
    (set_image (u32 (current_drive (f_dev (g_fs g0)) .<< 24) .| current_partition (f_dev (g_fs g0))) arg (k_mbi k)));
  kl_error : k_err k' = ERR_NONE }.

Lemma contents_loaded arg suggested flags im k : ready (k_files k) -> in_head (k_mem k) ->
  im_type im = KERNEL_TYPE_MULTIBOOT -> im_exec im = 0 -> im_align im = true -> suggested = KERNEL_TYPE_NONE \/ suggested = KERNEL_TYPE_MULTIBOOT ->
  image_end segs 0 <= top -> symbols_fit content size (image_end segs 0) top ->
  exists c i g, load_contents b mem_lower mem_upper current_term max_lines fsys_table gunzip_read buffer local_i arg suggested flags im k
      = Some (KERNEL_TYPE_MULTIBOOT, let p := physical (entry_addr k) segs 0 in
               set_entry (if p =? 0 then entry_addr k else p) (set_cur c (set_mbi i (set_files g k)))) /\
    after (fun a => 0x100000 <= a) (k_files k) g /\ (forall a v, image_byte content segs a = Some v -> ld (g_mem g) a = v) /\
    exists f n s a x, i = set_symbols f n s a x (set_modules f 0 0
      (set_image (u32 (current_drive (f_dev (g_fs (k_files k))) .<< 24) .| current_partition (f_dev (g_fs (k_files k)))) arg (k_mbi k))).
Proof.
  intros R H Et Ex Ea Hs Htop Hfit. unfold load_contents.
  rewrite (k_no_error b mem_lower mem_upper fsys_table gunzip_read content size own) by exact R. cbn [negb]. rewrite Ex. cbn [Z.eqb negb].
  set (i0 := set_symbols _ 0 0 0 0 _).
  destruct (k_printf_ok b mem_lower mem_upper fsys_table gunzip_read current_term max_lines content size own
    (bytes "   [%s-%s") [ArgStr (im_str2 im); ArgStr (im_str im)] (set_mbi i0 k)) as (g1 & -> & A1 & _); [reflexivity | exact R |]. cbn [mbind option_bind].
  destruct (elf_loaded im (set_files g1 (set_mbi i0 k)) (af_ready _ _ _ _ _ _ _ _ _ _ _ A1)) as (c & i & g2 & -> & A2 & Ki & I2); try done.
  { eapply head_after; [exact H | exact A1 | done]. }
  cbn [mbind option_bind]. pose proof (af_ready _ _ _ _ _ _ _ _ _ _ _ A2) as R2.
  set (k2 := set_cur c _).
  rewrite (k_no_error b mem_lower mem_upper fsys_table gunzip_read content size own) by exact R2.
  change (entry_addr (set_files g1 (set_mbi i0 k))) with (entry_addr k). change (entry_addr k2) with (entry_addr k).
  destruct (k_printf_ok b mem_lower mem_upper fsys_table gunzip_read current_term max_lines content size own
    (bytes ", entry=0x%x]" ++ [10]) [ArgInt (entry_addr k)] k2) as (g3 & -> & A3 & _); [reflexivity | exact R2 |]. cbn [mbind option_bind].
  rewrite Et. set (p := physical _ _ _). pose proof (af_ready _ _ _ _ _ _ _ _ _ _ _ A3) as [O3 _ _].
  replace (if p =? 0 then set_files g3 k2 else set_entry p (set_files g3 k2)) with (set_entry (if p =? 0 then entry_addr k else p) (set_files g3 k2)) by (by destruct (p =? 0)).
  unfold k_close. change (k_files (set_entry _ (set_files g3 k2))) with g3. rewrite (st_close _ _ _ _ _ g3 O3). cbn [mbind option_bind].
  replace (negb (bool_decide (suggested = KERNEL_TYPE_NONE)) && negb (bool_decide (suggested = KERNEL_TYPE_MULTIBOOT))) with false by (by destruct Hs as [-> | ->]).
  exists c, i, g3. split; [done |]. split; [| split].
  - eapply after_then; [apply after_nothing, A1 |]. eapply after_then; [exact A2 | apply after_nothing, A3].
  - intros a v Hv. destruct A3 as [_ _ F3]. pose proof (image_byte_some _ _ _ Hv) as Hc. apply Exists_exists in Hc as (s & Hsg & Hc).
    destruct segs_ok as [_ Hok]. rewrite Forall_forall in Hok. destruct (Hok s Hsg) as [(Hlow & _) _]. unfold covers in Hc.
    rewrite F3; [by apply I2 | intros Ho; specialize (own_low _ Ho); lia | by intros []].
  - destruct Ki as (f & n & s & a & x & ->). by exists f, n, s, a, x.
Qed.

Lemma image_loaded grub_open kernel arg suggested load_flags extended_memory hdr k g0 :
  grub_open kernel (k_files k) = Some (1, g0) -> ready g0 -> filepos (g_fs g0) = 0 -> elf_kernel content size mem_upper hdr ->
  suggested = KERNEL_TYPE_NONE \/ suggested = KERNEL_TYPE_MULTIBOOT -> image_end segs 0 <= top -> symbols_fit content size (image_end segs 0) top ->
  exists k', load_image b mem_lower mem_upper current_term max_lines fsys_table gunzip_read grub_open buffer local_i extended_memory kernel arg suggested load_flags k
      = Some (KERNEL_TYPE_MULTIBOOT, k') /\ kernel_loaded arg g0 k k'.
Proof.
  intros Hopen R Hpos [Hb (Hh & Hm & Hf) Hfl Hid Hty Hen Hph Hsg] Hs Htop Hfit. unfold load_image. rewrite Hopen. cbn [mbind option_bind Z.eqb].
  pose proof (st_range _ _ _ _ _ (Stream := S)) as Hsz. destruct buffer_place as (Bp & B1 & B2 & B3). destruct Hph as (Hd & P1 & P2 & P3 & P4).
  set (k1 := set_files g0 k).
  assert (read_count size (filepos (g_fs (k_files k1))) (s32 MULTIBOOT_SEARCH) = hd) as Ec.
  { change (k_files k1) with g0. rewrite Hpos. unfold read_count, read_from. change (s32 MULTIBOOT_SEARCH) with 8192. change (0 <? 0) with false. change (8192 <? 0) with false.
    rewrite (proj2 (Z.ltb_ge size 0)) by lia. cbn [orb]. rewrite Z.sub_0_r. unfold head, MULTIBOOT_SEARCH. destruct (Z.ltb_spec size 8192); lia. }
  pose proof head_le as [Hl1 Hl2].
  destruct (k_read_any b mem_lower mem_upper fsys_table gunzip_read content size own buffer MULTIBOOT_SEARCH k1 R) as (g1 & -> & A1 & _ & I1);
    try rewrite Ec; [unfold MULTIBOOT_SEARCH in *; lia | apply (place_prefix _ _ _ _ _ Bp); unfold MULTIBOOT_SEARCH in *; lia | intros a Ha; apply buffer_apart; lia |].
  rewrite Ec in *. change (filepos (g_fs (k_files k1))) with (filepos (g_fs g0)) in I1. rewrite Hpos in I1. cbn [mbind option_bind].
  rewrite (proj2 (Z.ltb_ge hd 32)) by lia. set (k2 := set_files g1 k1). assert (in_head (k_mem k2)) as H2 by exact I1.
  pose proof (af_ready _ _ _ _ _ _ _ _ _ _ _ A1) as R2.
  rewrite (find_first (Z.to_nat hd) (k_mem k2) 0 hdr H2) by (first [exact Hm | exact Hf | lia]).
  assert (hdr + 12 <= hd) as Hhd.
  { unfold mb_header in Hm. destruct (hdr mod 4 =? 0); [| done]. destruct (Z.leb_spec 12 (hd - hdr)); [lia | done]. }
  unfold mbh_flags. rewrite <- Z.add_assoc, head32 by (done || lia). rewrite Hfl. cbn [Z.eqb negb].
  change (bool_decide (KERNEL_TYPE_MULTIBOOT = KERNEL_TYPE_MULTIBOOT)) with true. cbn [orb andb]. unfold ehdr_size. rewrite (proj2 (Z.ltb_lt 52 hd)) by lia.
  rewrite elf_bootable by done. cbn [andb].
  unfold elf_image. rewrite (decide_False (P := KERNEL_TYPE_MULTIBOOT = KERNEL_TYPE_NONE)), (decide_True (P := KERNEL_TYPE_MULTIBOOT = KERNEL_TYPE_MULTIBOOT)) by done.
  unfold e_entry, e_phoff, e_phnum, e_phentsize. rewrite !head32, !head16 by (done || lia).
  fold (phoff content) (phnum content) (phentsize content). change (entry_addr (set_entry ?x k2)) with x. rewrite (proj2 (Z.ltb_ge (byte32 content 24) 0x100000)) by lia.
  rewrite (proj2 (Z.eqb_neq (phoff content) 0)), (proj2 (Z.eqb_neq (phnum content) 0)) by done. cbn [set_err_if orb].
  pose proof (byte32_range content bytes_ok 28 : 0 <= phoff content < 4294967296) as Q1. pose proof (byte16_range content bytes_ok 44 : 0 <= phnum content < 65536) as Q2.
  assert (0 <= phentsize content * phnum content) as Q3 by (apply Z.mul_nonneg_nonneg; lia). unfold MULTIBOOT_SEARCH in Hl1.
  rewrite u32_small, (proj2 (Z.leb_gt hd _)) by lia.
  cbn [set_err_if].
  destruct (contents_loaded arg suggested (byte32 content (hdr + 4)) (Image KERNEL_TYPE_MULTIBOOT 0 true 0 0 0 (bytes "Multiboot") (bytes "elf"))
    (set_entry (byte32 content 24) k2)) as (c & i & g & -> & A & I & Ki); try done.
  eexists. split; [reflexivity |]. change (entry_addr (set_entry ?x k2)) with x. set (p := physical _ _ _).
  change (k_files (set_entry _ k2)) with g1 in A, Ki. pose proof (af_dev _ _ _ _ _ _ _ _ _ _ _ A1) as Dv. change (k_files k1) with g0 in A1, Dv. rewrite Dv in Ki.
  constructor; [exact I | | done | exact Ki | apply (ready_no_error b mem_lower mem_upper fsys_table gunzip_read content size own); exact (af_ready _ _ _ _ _ _ _ _ _ _ _ A)].
  intros a Ha Ho Hbf. change (k_mem _) with (g_mem g). destruct A as [_ _ F], A1 as [_ _ F1]. rewrite F by (first [exact Ho | lia]). apply F1; [exact Ho |]. unfold MULTIBOOT_SEARCH in Hbf. lia.
Qed.
End Load.
