(* ===== verification/GrubKernel.v ===== *)
(** * Kernels by their names

    [load_image] of [boot.c] together with [grub_open]: the name of a kernel's
    file, in any file system, gives its image in memory. *)

From S2P Require Import Prelude Machine LibcString GrubString GrubTerm GrubReadline GrubBios GrubDisk GrubDevice GrubPart GrubFsys GrubFat GrubFatDir GrubFile GrubBlocks GrubOpen GrubPaths GrubLoad GrubExt2 GrubMemory GrubCommand GrubBoot GrubStream GrubElf.

(** An ELF program is not taken for a compressed file. *)
Lemma elf_not_gzip content size mem_upper hdr z : elf_kernel content size mem_upper hdr -> not_gzip content size z.
Proof.
  intros K. pose proof (ek_ident _ _ _ _ K) as H. cbn in H. injection H as H0 H1 _ _ _ _ _. right. right. rewrite H0, H1.
  vm_compute. split; discriminate.
Qed.

(** What the loader has to find for a Multiboot kernel in ELF format, whose
    image ends below [top]. *)
Record loadable (content : Z -> Z) (size mem_upper top hdr : Z) : Prop := {
  ld_kernel : elf_kernel content size mem_upper hdr;
  ld_top : 0x100000 <= top <= mem_upper * 1024 + 0x100000 /\ top < 1073741824;
  ld_image : image_end (segments content) 0 <= top;
  ld_symbols : symbols_fit content size (image_end (segments content) 0) top }.

(** The place of [load_image]'s [buffer]: in low memory, apart from the work areas. *)
Definition buffer_ok (mem_lower mem_upper buffer : Z) : Prop :=
  file_place mem_lower mem_upper buffer MULTIBOOT_SEARCH /\ 0x1000 <= buffer /\ buffer + MULTIBOOT_SEARCH <= 0x100000 /\ buffer mod 4 = 0.

(** The machine is as the Multiboot specification wants it for a kernel: its
    image in memory, the entry point known, the command line passed, no modules;
    below 1 MB only the work areas have changed. *)
Record kernel_in_memory (content : Z -> Z) (buffer arg : Z) (scratch : Z -> Prop) (k k' : boot) : Prop := {
  km_image : forall a v, image_byte content (segments content) a = Some v -> ld (k_mem k') a = v;
  km_low : forall a, a < 0x100000 -> ~ in_buffer a -> ~ in_fsys a -> ~ scratch a -> ~ (buffer <= a < buffer + MULTIBOOT_SEARCH) ->
    ld (k_mem k') a = ld (k_mem k) a;
  km_entry : entry_addr k' = (let entry := byte32 content 24 in let p := physical entry (segments content) 0 in if p =? 0 then entry else p);
  km_cmdline : mb_cmdline (k_mbi k') = arg;
  km_modules : mb_mods_count (k_mbi k') = 0;
  km_error : k_err k' = ERR_NONE }.

Lemma own_places a : in_buffer a \/ in_fsys a -> a < 0x100000.
Proof. unfold in_buffer, in_fsys, BUFFERADDR, BUFFERLEN, FSYS_BUF. lia. Qed.

(** A file of a reader that [grub_open] opens at its beginning. *)
Lemma opened_image b mem_lower mem_upper current_term max_lines fsys_table gunzip_read grub_open read content size
    {R : FileReader mem_lower mem_upper read content size} buffer local_i extended_memory kernel arg suggested load_flags top hdr scratch k g :
  512 <= mem_lower <= 1024 -> 0 <= mem_upper < 4194304 -> buffer_ok mem_lower mem_upper buffer ->
  Forall (fun e => close_func e = None) fsys_table -> count_lines (f_io (g_fs (k_files k))) < 0 ->
  grub_open kernel (k_files k) = Some (1, g) ->
  opened_at_start b mem_lower mem_upper fsys_table read content size scratch (k_files k) g ->
  loadable content size mem_upper top hdr -> suggested = KERNEL_TYPE_NONE \/ suggested = KERNEL_TYPE_MULTIBOOT ->
  exists k', load_image b mem_lower mem_upper current_term max_lines fsys_table gunzip_read grub_open buffer local_i extended_memory
      kernel arg suggested load_flags k = Some (KERNEL_TYPE_MULTIBOOT, k') /\ kernel_in_memory content buffer arg scratch k k'.
Proof.
  intros Hl Hu Hb Hc Hq Eo [O P I F] [K T E S] Hs. pose proof Hb as (Hp & _).
  pose (St := plain_stream b mem_lower mem_upper fsys_table gunzip_read read content size Hc).
  assert (ready b mem_lower mem_upper fsys_table gunzip_read content size (fun a => in_buffer a \/ in_fsys a) (S := St) g) as Rg.
  { constructor; [exact O | rewrite P; pose proof fr_size; lia | by rewrite I]. }
  destruct (image_loaded b mem_lower mem_upper fsys_table gunzip_read current_term max_lines content size _ (S := St) Hl Hu own_places buffer local_i Hb)
    with (kernel := kernel) (arg := arg) (suggested := suggested) (load_flags := load_flags) (extended_memory := extended_memory) (top := top)
         (hdr := hdr) (k := k) (g0 := g) (grub_open := grub_open) as (k' & E' & [L1 L2 L3 (f & n & s & a & x & L4) L5]); try done.
  - intros a Ha [H | H]; [exact (tg_apart _ _ _ _ (proj1 Hp) a Ha H) | exact (proj2 Hp a Ha H)].
  - exact (ek_bytes _ _ _ _ K).
  - exact (ek_phdrs _ _ _ _ K).
  - exact (ek_segments _ _ _ _ K).
  - exists k'. split; [exact E' |]. constructor; [exact L1 | | exact L3 | by rewrite L4 | by rewrite L4 | exact L5].
    intros y Y1 Y2 Y3 Y4 Y5. rewrite L2 by (try done; by intros [|]). by apply F.
Qed.

(** C1. A Multiboot kernel in ELF format is loaded by its name: when the path
    leads, in the file system of its partition, to a plain file that is such a
    kernel and memory has room for it, load_image opens it and returns
    Multiboot; each byte of memory that a segment covers is that of the file,
    or 0 behind the part of the segment that the file has, and the entry point
    is the physical address of that of the header; the address of the command
    line is passed, there are no modules, no error is set, and below 1 MB only
    the work areas have changed. The pager is off, image and symbols end below
    1 GB, and the partition is a whole disk or a PC slice of a drive below 2
    GB. *)
Theorem load_image_loads_elf b mem_lower mem_upper part_buf parts g disks tables d p t pstart plen drive current_term max_lines fsys_table kernel
    rest header_buf ch_buf gunzip_read before others e scr content size {Rf : FileReader mem_lower mem_upper (read_func e) content size}
    buffer local_i extended_memory arg suggested load_flags top hdr k
    (good : disk_good b drive g disks) (found : region (seen g (disks drive)) (total_sectors g) tables d p t pstart plen)
    (Rd := named_reader b mem_lower mem_upper g disks tables d p t pstart plen drive good found)
    {F : PathFinder b mem_lower mem_upper drive pstart plen (part_byte g disks pstart drive) t fsys_table e rest scr (Opens _ _ _ content size Rf) (R := Rd)} :
  target_ok mem_lower mem_upper part_buf SECTOR_SIZE -> (4 * length tables < parts)%nat -> (forall n, d = Hard n -> drive .& 0x80 <> 0) ->
  fsys_table = before ++ e :: others -> Forall (fun e => close_func e = None) fsys_table ->
  Forall (refuses b mem_lower mem_upper drive pstart plen (part_byte g disks pstart drive) t (R := Rd)) before -> nth 0 rest 0 = 47 ->
  named g disks d p drive kernel rest (g_fs (k_files k)) -> path_apart part_buf d p kernel rest header_buf scr ->
  file_place mem_lower mem_upper header_buf 10 -> buffer_ok mem_lower mem_upper buffer -> count_lines (f_io (g_fs (k_files k))) < 0 ->
  loadable content size mem_upper top hdr -> suggested = KERNEL_TYPE_NONE \/ suggested = KERNEL_TYPE_MULTIBOOT ->
  exists k', load_image b mem_lower mem_upper current_term max_lines fsys_table gunzip_read
      (grub_open b mem_lower mem_upper fsys_table part_buf header_buf ch_buf parts gunzip_read) buffer local_i extended_memory kernel arg suggested load_flags k
      = Some (KERNEL_TYPE_MULTIBOOT, k') /\
    kernel_in_memory content buffer arg (path_scratch part_buf header_buf scr) k k'.
Proof.
  intros Hbuf Hp Hh Htab Hc Href H47 N A Hhb Hb Hq L Hs. pose proof Hbuf as [T1 T2 _ _ _].
  destruct (grub_open_starts b mem_lower mem_upper part_buf parts g disks tables d p t pstart plen drive good Hbuf Hp found Hh fsys_table kernel rest
    header_buf ch_buf gunzip_read before others e scr _ Htab Href F H47 Hhb (k_files k) N A) as (g0 & E & O).
  { eapply elf_not_gzip, L. }
  by eapply opened_image.
Qed.

(** ** Witness

    The kernel of the diskette on a machine with 2 MB. *)

Definition elf_byte : Z -> Z := chain_byte fat_seen diskette_volume [3; 5].
Definition two_mb_fsys : list fsys_entry := [fat_fsys floppy_bios 640 1024 low_term 24 0x20000 0x20100 0x20200 3 (Z.to_nat 60000)].
Definition no_info : multiboot_info := Mbi 0 640 1024 0 0 0 0 0 0 0 0 0 0 0 0 0 0 0.
Definition before_boot : boot := Boot (name_gs kernel_name) no_info 0 0 0 0 0 0.

Lemma low_2mb buf n : 0x1000 <= buf -> 0 <= n -> buf + n <= FSYS_BUF -> file_place 640 1024 buf n.
Proof.
  intros H1 H2 H3. unfold FSYS_BUF in *. split; [constructor; try lia; [left; lia |] |]; intros a Ha.
  - unfold in_buffer, BUFFERADDR, BUFFERLEN. lia.
  - unfold in_fsys, FSYS_BUF. lia.
Qed.

Lemma elf_byte_range x : 0 <= elf_byte x < 256.
Proof. unfold elf_byte, chain_byte. apply fat_seen_range. Qed.

Definition two_segments : list segment := [Segment 512 0xC0100000 0x100000 188 1000; Segment 100 0xC0101000 0x101000 64 64].

Lemma elf_segments : segments elf_byte = two_segments.
Proof. vm_compute. reflexivity. Qed.

Lemma elf_first_header : first_header elf_byte 700 128.
Proof.
  split; [split; vm_compute; [discriminate | reflexivity] |]. split; [vm_compute; reflexivity |]. intros j Hj.
  pose proof (forall_range (fun j => negb (mb_header elf_byte 700 j)) 128 ltac:(vm_compute; reflexivity) j ltac:(lia)) as H. by apply negb_true_iff.
Qed.

Lemma two_segments_ok : Forall (segment_ok 700 1024) two_segments.
Proof.
  unfold two_segments, segment_ok, high, file_part. rewrite !Forall_cons_iff. cbn [g_offset g_vaddr g_paddr g_filesz g_memsz].
  split; [lia |]. split; [lia |]. by apply Forall_nil.
Qed.

Lemma elf_kernel_loadable : loadable elf_byte 700 1024 0x200000 128.
Proof.
  constructor; [constructor | ..]; try rewrite elf_segments.
  - exact elf_byte_range.
  - exact elf_first_header.
  - vm_compute. reflexivity.
  - vm_compute. reflexivity.
  - split; [| split]; vm_compute; reflexivity.
  - vm_compute. discriminate.
  - split; [vm_compute; reflexivity |]. split; [vm_compute; discriminate |]. split; [vm_compute; discriminate |].
    split; [vm_compute; discriminate |]. vm_compute. reflexivity.
  - split; [discriminate |]. apply two_segments_ok.
  - lia.
  - vm_compute. discriminate.
  - split; [left; vm_compute; reflexivity |]. split; [vm_compute; discriminate |]. vm_compute. exact I.
Qed.

Lemma setting_2mb : fat_setting 640 1024 0 2880 fat_seen 9 0x20000 0x20100 0x20200 0 (Z.to_nat 60000).
Proof.
  destruct diskette_setting as [B V T I _ _ A _ E].
  constructor; [exact B | exact V | exact T | exact I | by apply low_2mb | by apply low_2mb | exact A | by apply low_2mb | exact E].
Qed.

Definition diskette_reader : PartReader floppy_bios 640 1024 0 0 2880 fat_seen :=
  named_reader floppy_bios 640 1024 floppy fat_bytes [] (Floppy 0) Whole 0 0 2880 0 diskette_good (region_whole _ 2880 _ _).

(** The file of the kernel, and the file system that finds it. *)
Lemma elf_size_range : 0 <= e_size kernel_entry <= MAXINT.
Proof. split; vm_compute; discriminate. Qed.

Lemma elf_size_chain : e_size kernel_entry <= Z.of_nat (length [3; 5]) * cluster_size (bs_volume fat_seen 9).
Proof. vm_compute. discriminate. Qed.

Definition elf_reader : FileReader 640 1024 (fat_read floppy_bios 640 1024) (chain_byte fat_seen (bs_volume fat_seen 9) [3; 5]) (e_size kernel_entry) :=
  fat_reader floppy_bios 640 1024 0 0 2880 fat_seen (R := diskette_reader) fat_seen_range ltac:(done) ltac:(done) (bs_volume fat_seen 9) (e_cluster kernel_entry) [3; 5]
    (e_size kernel_entry) (fs_volume _ _ _ _ _ _ _ _ _ _ _ setting_2mb) elf_size_range elf_size_chain.

Lemma elf_opening : fat_opening floppy_bios 640 1024 0 0 2880 fat_seen (R := diskette_reader) fat_seen_range ltac:(done) ltac:(done) 9 0x20000 0x20100 0x20200 0
  (Z.to_nat 60000) setting_2mb Root kernel_path (Opens _ _ _ (chain_byte fat_seen (bs_volume fat_seen 9) [3; 5]) (e_size kernel_entry) elf_reader).
Proof.
  apply fo_file; [rewrite diskette_boot_volume; apply kernel_leads |].
  assert (e_cluster kernel_entry = 3) as -> by (vm_compute; reflexivity). rewrite diskette_boot_volume. apply kernel_chain.
Qed.

Lemma elf_loadable : loadable (chain_byte fat_seen (bs_volume fat_seen 9) [3; 5]) (e_size kernel_entry) 1024 0x200000 128.
Proof.
  assert (e_size kernel_entry = 700) as -> by (vm_compute; reflexivity). rewrite diskette_boot_volume. exact elf_kernel_loadable.
Qed.

#[export] Instance elf_finder : PathFinder floppy_bios 640 1024 0 0 2880 fat_seen 0 two_mb_fsys
    (fat_fsys floppy_bios 640 1024 low_term 24 0x20000 0x20100 0x20200 3 (Z.to_nat 60000)) (path_text kernel_path ++ []) (fat_scratch 0x20000 0x20100 0x20200)
    (Opens _ _ _ (chain_byte fat_seen (bs_volume fat_seen 9) [3; 5]) (e_size kernel_entry) elf_reader) (R := diskette_reader) :=
  fat_finder floppy_bios 640 1024 0 0 2880 fat_seen (R := diskette_reader) fat_seen_range ltac:(done) ltac:(done) low_term 24 9 0x20000 0x20100 0x20200 0 3
    (Z.to_nat 60000) setting_2mb Root kernel_path [] kernel_path_ok ltac:(split; constructor) ltac:(cbn; lia)
    (conj eq_refl (conj eq_refl (ex_intro _ 16 eq_refl))) two_mb_fsys _ elf_opening.

Lemma elf_text x : 0 <= x < 188 -> image_byte elf_byte two_segments (0x100000 + x) = Some (elf_byte (512 + x)).
Proof.
  intros Hx. unfold two_segments. cbn [image_byte]. unfold seg_byte, covers, file_part. cbn [g_offset g_paddr g_filesz g_memsz].
  rewrite (decide_False (P := 0x101000 <= _ < _)), decide_True by lia. rewrite (proj2 (Z.ltb_lt _ _)) by lia. do 2 f_equal. lia.
Qed.

Lemma load_image_loads_elf_witness :
  exists k', load_image floppy_bios 640 1024 low_term 24 two_mb_fsys no_gunzip
      (grub_open floppy_bios 640 1024 two_mb_fsys 0x20300 0x20600 0x20700 1 no_gunzip) 0x30000 0 0 0x10000 0x10100 KERNEL_TYPE_NONE 0 before_boot
      = Some (KERNEL_TYPE_MULTIBOOT, k') /\
    (forall x, 0 <= x < 188 -> ld (k_mem k') (0x100000 + x) = elf_byte (512 + x)) /\ entry_addr k' = 0x100010.
Proof.
  destruct (load_image_loads_elf floppy_bios 640 1024 0x20300 1 floppy fat_bytes [] (Floppy 0) Whole 0 0 2880 0 low_term 24 two_mb_fsys 0x10000
    (path_text kernel_path ++ []) 0x20600 0x20700 no_gunzip [] [] (fat_fsys floppy_bios 640 1024 low_term 24 0x20000 0x20100 0x20200 3 (Z.to_nat 60000))
    (fat_scratch 0x20000 0x20100 0x20200) (chain_byte fat_seen (bs_volume fat_seen 9) [3; 5]) (e_size kernel_entry) (Rf := elf_reader)
    0x30000 0 0 0x10100 KERNEL_TYPE_NONE 0 0x200000 128 before_boot diskette_good (region_whole _ 2880 _ _) (F := elf_finder)) as (k' & E & L).
  - apply low_2mb; unfold SECTOR_SIZE, FSYS_BUF; lia.
  - cbn. lia.
  - discriminate.
  - reflexivity.
  - by repeat constructor.
  - constructor.
  - reflexivity.
  - apply name_named; [by apply (bool_decide_unpack _); vm_compute | done].
  - intros x Hx. change (Z.of_nat _) with 32 in Hx. unfold path_scratch, fat_scratch, open_scratch, in_buffer, in_fsys, BPB_SIZE, BUFFERADDR, BUFFERLEN, FSYS_BUF, SECTOR_SIZE. lia.
  - apply low_2mb; unfold FSYS_BUF; lia.
  - split; [apply low_2mb; unfold MULTIBOOT_SEARCH, FSYS_BUF; lia |]. unfold MULTIBOOT_SEARCH. split; [lia |]. split; [lia | reflexivity].
  - reflexivity.
  - exact elf_loadable.
  - by left.
  - exists k'. split; [exact E |]. destruct L as [L1 _ L3 _ _ _]. rewrite diskette_boot_volume in L1, L3. fold elf_byte in L1, L3. rewrite elf_segments in L1, L3. split.
    + intros x Hx. apply L1, elf_text. lia.
    + rewrite L3. vm_compute. reflexivity.
Defined.
