(* ===== verification/GrubModule.v ===== *)
(** * Modules and the place of the ramdisk

    [load_module] of [boot.c]: a module's file is put on the page behind what is
    loaded and entered into the list that the kernel gets.  [initrd_place], the
    address of the ramdisk, lies below every limit. *)

From S2P Require Import Prelude Machine LibcString GrubString GrubTerm GrubReadline GrubBios GrubDisk GrubDevice GrubPart GrubFsys GrubFat GrubFatDir GrubFile GrubBlocks GrubOpen GrubPaths GrubLoad GrubExt2 GrubMemory GrubCommand GrubBoot GrubStream GrubElf GrubKernel.

(** ** Specification *)

(** A module of [size] bytes at [start] is entered as number [count]. *)
Record module_entered (m : mem) (mll count start size arg : Z) : Prop := {
  me_start : ld32 m (mll + 16 * count) = start;
  me_end : ld32 m (mll + 16 * count + 4) = start + size;
  me_cmdline : ld32 m (mll + 16 * count + 8) = u32 arg;
  me_pad : ld32 m (mll + 16 * count + 12) = 0 }.

Record module_loaded (content : Z -> Z) (size mll arg : Z) (scratch : Z -> Prop) (k k' : boot) : Prop := {
  md_bytes : forall x, 0 <= x < size -> ld (k_mem k') (align_up 12 (cur_addr k) + x) = content x;
  md_entry : module_entered (k_mem k') mll (mb_mods_count (k_mbi k)) (align_up 12 (cur_addr k)) size arg;
  md_info : k_mbi k' = set_modules (mb_flags (k_mbi k) .| MB_INFO_MODS) mll (mb_mods_count (k_mbi k) + 1) (k_mbi k);
  md_cur : cur_addr k' = align_up 12 (cur_addr k) + size;
  md_frame : forall a, ~ in_buffer a -> ~ in_fsys a -> ~ scratch a ->
    ~ (align_up 12 (cur_addr k) <= a < align_up 12 (cur_addr k) + size) ->
    ~ (mll + 16 * mb_mods_count (k_mbi k) <= a < mll + 16 * mb_mods_count (k_mbi k) + 16) -> ld (k_mem k') a = ld (k_mem k) a;
  md_error : k_err k' = ERR_NONE }.

(** ** Proofs *)

(** The entry of the list, in the order of the stores. *)
Lemma entry_stores m mll count arg start e : 0 <= start < 4294967296 -> 0 <= e < 4294967296 ->
  let a := mll + 16 * count in
  let m' := st_dword (st_dword (st_dword (st_dword m (a + 8) arg) a start) (a + 4) e) (a + 12) 0 in
  module_entered m' mll count start (e - start) arg /\ (forall x, ~ (a <= x < a + 16) -> ld m' x = ld m x).
Proof.
  intros Hs He a m'. split; [constructor; fold a; subst m' |].
  - rewrite !ld32_st_dword_ne, ld32_st_dword by lia. by apply u32_small.
  - rewrite ld32_st_dword_ne, ld32_st_dword by lia. rewrite u32_small by lia. lia.
  - by rewrite !ld32_st_dword_ne, ld32_st_dword by lia.
  - by rewrite ld32_st_dword.
  - intros x Hx. subst m'. by rewrite !ld_st_dword by lia.
Qed.

Section Module_.
Context (b : bios) (mem_lower mem_upper : Z) (fsys_table : list fsys_entry) (gunzip_read : Z -> Z -> files -> option (Z * files)).
Context (current_term : term_entry) (max_lines : Z).
Context (content : Z -> Z) (size : Z) (own : Z -> Prop) {S : Stream b mem_lower mem_upper fsys_table gunzip_read content size own}.
Hypothesis lower_ok : 512 <= mem_lower <= 1024.
Hypothesis upper_ok : 0 <= mem_upper < 4194304.
Hypothesis own_low : forall a, own a -> a < 0x100000.

Lemma module_read grub_open mll module arg k g0 :
  grub_open module (k_files k) = Some (1, g0) -> ready b mem_lower mem_upper fsys_table gunzip_read content size own g0 -> filepos (g_fs g0) = 0 -> 0 < size ->
  0 <= cur_addr k < 2147479552 -> high mem_upper (align_up 12 (cur_addr k)) size ->
  0 <= mb_mods_count (k_mbi k) < 4294967295 ->
  (forall a, mll + 16 * mb_mods_count (k_mbi k) <= a < mll + 16 * mb_mods_count (k_mbi k) + 16 ->
     ~ own a /\ ~ (align_up 12 (cur_addr k) <= a < align_up 12 (cur_addr k) + size)) ->
  exists k', load_module b mem_lower mem_upper current_term max_lines fsys_table gunzip_read grub_open mll module arg k = Some (1, k') /\
    (forall x, 0 <= x < size -> ld (k_mem k') (align_up 12 (cur_addr k) + x) = content x) /\
    module_entered (k_mem k') mll (mb_mods_count (k_mbi k)) (align_up 12 (cur_addr k)) size arg /\
    k_mbi k' = set_modules (mb_flags (k_mbi k) .| MB_INFO_MODS) mll (mb_mods_count (k_mbi k) + 1) (k_mbi k) /\
    cur_addr k' = align_up 12 (cur_addr k) + size /\
    (forall a, ~ own a -> ~ (align_up 12 (cur_addr k) <= a < align_up 12 (cur_addr k) + size) ->
      ~ (mll + 16 * mb_mods_count (k_mbi k) <= a < mll + 16 * mb_mods_count (k_mbi k) + 16) -> ld (k_mem k') a = ld (g_mem g0) a) /\
    k_err k' = ERR_NONE.
Proof.
  intros Hopen R Hpos Hsz Hcur Hh Hc Hm. set (p := align_up 12 (cur_addr k)) in *. set (c := mb_mods_count (k_mbi k)) in *.
  pose proof (align_up_range (cur_addr k)) as Hp. fold p in Hp. pose proof Hh as (H1 & H2 & H3 & H4).
  pose proof (high_place mem_lower mem_upper own lower_ok upper_ok own_low p size Hh) as [Hf Ho].
  unfold load_module. rewrite page_align_ok by lia. fold p. change (k_files (set_cur p k)) with (k_files k). rewrite Hopen. cbn [mbind option_bind Z.eqb].
  set (k1 := set_files g0 (set_cur p k)). change (cur_addr k1) with p.
  assert (read_count size (filepos (g_fs (k_files k1))) (s32 (-1)) = size) as Ec.
  { change (k_files k1) with g0. rewrite Hpos. unfold read_count, read_from. change (s32 (-1)) with (-1). change (0 <? 0) with false. change (-1 <? 0) with true.
    rewrite (proj2 (Z.ltb_ge size 0)) by lia. cbn [orb]. lia. }
  destruct (k_read_any b mem_lower mem_upper fsys_table gunzip_read content size own p (-1) k1 R) as (g1 & -> & A1 & _ & I1);
    try rewrite Ec; [lia | exact Hf | exact Ho |]. rewrite Ec in *. change (filepos (g_fs (k_files k1))) with (filepos (g_fs g0)) in I1. rewrite Hpos in I1.
  cbn [mbind option_bind]. rewrite (proj2 (Z.eqb_neq size 0)) by lia.
  destruct (k_printf_ok b mem_lower mem_upper fsys_table gunzip_read current_term max_lines content size own
    (bytes "   [Multiboot-module @ 0x%x, 0x%x bytes]" ++ [10]) [ArgInt (u32 (cur_addr (set_files g1 k1))); ArgInt (u32 size)] (set_files g1 k1))
    as (g2 & -> & A2 & _); [reflexivity | exact (af_ready _ _ _ _ _ _ _ _ _ _ _ A1) |]. cbn [mbind option_bind].
  change (k_files (set_files g1 k1)) with g1 in A2. change (k_files k1) with g0 in A1.
  pose proof (after_then b mem_lower mem_upper fsys_table gunzip_read content size own _ _ _ _ A1 (after_nothing b mem_lower mem_upper fsys_table gunzip_read content size own _ _ _ A2)) as A.
  cbv zeta. change (mb_mods_count (k_mbi (set_files g2 (set_files g1 k1)))) with c.
  set (i := set_modules _ mll c _). set (a := mll + 16 * c) in *.
  destruct (entry_stores (g_mem g2) mll c arg p (p + size)) as [En Fr]; [lia | lia |]. fold a in En, Fr. replace (p + size - p) with size in En by lia.
  set (m := st_dword (st_dword (st_dword (st_dword (g_mem g2) (a + 8) arg) a p) (a + 4) (p + size)) (a + 12) 0) in *.
  assert (ready b mem_lower mem_upper fsys_table gunzip_read content size own (upd (set_fmem m) g2)) as R3.
  { apply write_ready; [exact (af_ready _ _ _ _ _ _ _ _ _ _ _ A) |]. intros x Hx. apply Fr. intros Hy. destruct (Hm x Hy) as [Hn _]. by apply Hn. }
  unfold k_close. cbn [cur_addr set_kmem set_cur set_mbi set_files k_files k_mbi k_mem k1]. 
  rewrite !(s32_small (p + size)) by lia.
  match goal with |- context [grub_close fsys_table ?g] => change g with (upd (set_fmem m) g2) end.
  rewrite (st_close _ _ _ _ _ _ (rd_open _ _ _ _ _ _ _ _ _ R3)). cbn [mbind option_bind].
  eexists. split; [reflexivity |]. cbn [cur_addr set_kmem set_cur set_mbi set_files k_files k_mbi k_mem].
  change (k_mem (Boot (upd (set_fmem m) g2) _ _ _ _ _ _ _)) with m. split_and!.
  - intros x Hx. assert (~ (a <= p + x < a + 16)) as Hn by (intros Hy; destruct (Hm _ Hy) as [_ []]; lia).
    rewrite Fr by done. transitivity (ld (g_mem g1) (p + x)); [| by apply I1]. apply (af_frame _ _ _ _ _ _ _ _ _ _ _ A2); [intros Hy; specialize (own_low _ Hy); lia | by intros []].
  - exact En.
  - subst i. unfold set_modules. cbn. f_equal. apply u32_small. lia.
  - done.
  - intros x X1 X2 X3. rewrite Fr by done. by apply A.
  - apply (ready_no_error b mem_lower mem_upper fsys_table gunzip_read content size own _ R3).
Qed.
End Module_.

(** A module is loaded by its name: when the path leads, in the file system of
    its partition, to a plain file that is not empty and the memory behind
    what is loaded has room for it, load_module returns 1; the bytes of the
    file are on the next page, the list has its start, its end and the address
    of its command line, and the next free address is its end. Only the work
    areas, these bytes and the entry have changed. *)
Theorem load_module_loads b mem_lower mem_upper part_buf parts g disks tables d p t pstart plen drive current_term max_lines fsys_table module
    rest header_buf ch_buf gunzip_read before others e scr content size {Rf : FileReader mem_lower mem_upper (read_func e) content size}
    mll arg k
    (good : disk_good b drive g disks) (found : region (seen g (disks drive)) (total_sectors g) tables d p t pstart plen)
    (Rd := named_reader b mem_lower mem_upper g disks tables d p t pstart plen drive good found)
    {F : PathFinder b mem_lower mem_upper drive pstart plen (part_byte g disks pstart drive) t fsys_table e rest scr (Opens _ _ _ content size Rf) (R := Rd)} :
  target_ok mem_lower mem_upper part_buf SECTOR_SIZE -> (4 * length tables < parts)%nat -> (forall n, d = Hard n -> drive .& 0x80 <> 0) ->
  fsys_table = before ++ e :: others -> Forall (fun e => close_func e = None) fsys_table ->
  Forall (refuses b mem_lower mem_upper drive pstart plen (part_byte g disks pstart drive) t (R := Rd)) before -> nth 0 rest 0 = 47 ->
  named g disks d p drive module rest (g_fs (k_files k)) -> path_apart part_buf d p module rest header_buf scr ->
  file_place mem_lower mem_upper header_buf 10 -> count_lines (f_io (g_fs (k_files k))) < 0 ->
  not_gzip content size (g_gz (k_files k)) -> 0 < size -> 0 <= cur_addr k < 2147479552 -> high mem_upper (align_up 12 (cur_addr k)) size ->
  0 <= mb_mods_count (k_mbi k) < 4294967295 ->
  (forall a, mll + 16 * mb_mods_count (k_mbi k) <= a < mll + 16 * mb_mods_count (k_mbi k) + 16 -> a < 0x100000 /\ ~ in_buffer a /\ ~ in_fsys a) ->
  exists k', load_module b mem_lower mem_upper current_term max_lines fsys_table gunzip_read
      (grub_open b mem_lower mem_upper fsys_table part_buf header_buf ch_buf parts gunzip_read) mll module arg k = Some (1, k') /\
    module_loaded content size mll arg (path_scratch part_buf header_buf scr) k k'.
Proof.
  intros Hbuf Hp Hh Htab Hc Href H47 N A Hhb Hq Z Hsz Hcur Hroom Hcount Hm. pose proof Hbuf as [T1 T2 _ _ _].
  destruct (grub_open_starts b mem_lower mem_upper part_buf parts g disks tables d p t pstart plen drive good Hbuf Hp found Hh fsys_table module
    rest header_buf ch_buf gunzip_read before others e scr _ Htab Href F H47 Hhb (k_files k) N A Z) as (g0 & E & [O P I Fr]).
  pose (St := plain_stream b mem_lower mem_upper fsys_table gunzip_read _ content size Hc).
  assert (ready b mem_lower mem_upper fsys_table gunzip_read content size (fun a => in_buffer a \/ in_fsys a) (S := St) g0) as Rg.
  { constructor; [exact O | rewrite P; pose proof fr_size; lia | by rewrite I]. }
  destruct (module_read b mem_lower mem_upper fsys_table gunzip_read current_term max_lines content size _ (S := St) T1 T2 own_places _ mll module arg k g0 E Rg P)
    as (k' & E' & B & En & Info & C & Fr' & Er); try done.
  { intros a Ha. destruct (Hm a Ha) as (H1 & H2 & H3). split; [by intros [] | destruct Hroom; lia]. }
  exists k'. split; [exact E' |]. constructor; try done.
  intros a A1 A2 A3 A4 A5. rewrite Fr' by (try done; by intros []). by apply Fr.
Qed.

(** The ramdisk is put on a page, so that it ends 64 kilobytes or more below
    the end of memory (or what the option mem= says) and below the highest
    address that the kernel accepts, as long as there is room for it. *)
Theorem initrd_place_below mem_upper mem_size max_addr len :
  let limit := if mem_size =? 0 then (mem_upper + 0x400) * 1024 else mem_size in
  0 <= mem_upper < 4193280 -> 0 <= mem_size <= MAXINT -> 0 < len -> len + 0x11000 <= limit -> len + 0x11000 <= max_addr < 4294967296 ->
  let a := initrd_place mem_upper mem_size max_addr len in
  a mod 4096 = 0 /\ 0 <= a /\ a + len + 0x10000 <= limit /\ a + len + 0x10000 <= max_addr.
Proof.
  intros limit Hu Hm Hl H1 H2 a. subst a. unfold initrd_place, MAXINT in *. set (moveto0 := if negb (mem_size =? 0) then _ else _).
  assert (moveto0 = limit) as ->.
  { subst moveto0 limit. destruct (Z.eqb_spec mem_size 0); cbn [negb]; [| apply u32_small; lia].
    rewrite Z.shiftl_mul_pow2 by lia. change (2 ^ 10) with 1024. rewrite (u32_small (mem_upper + 0x400)) by lia. rewrite u32_small by lia. done. }
  assert (limit < 4294967296) as H3 by (subst limit; destruct (mem_size =? 0); lia). clearbody limit.
  assert (forall x, 0x11000 <= x < 4294967296 -> u32 x .& 0xfffff000 = x / 4096 * 4096) as Hpage.
  { intros x Hx. change 0xfffff000 with (u32 (- 2 ^ 12)). rewrite u32_small, land_align by lia. done. }
  rewrite !Hpage by lia. pose proof (Z.div_mod (limit - len) 4096 ltac:(lia)). pose proof (Z.mod_pos_bound (limit - len) 4096 ltac:(lia)).
  pose proof (Z.div_mod (max_addr - len) 4096 ltac:(lia)). pose proof (Z.mod_pos_bound (max_addr - len) 4096 ltac:(lia)).
  rewrite (u32_small (_ / 4096 * 4096 + len)) by lia.
  destruct (Z.leb_spec max_addr ((limit - len) / 4096 * 4096 + len)); rewrite u32_small by dlia; split; try dlia.
Qed.

(** ** Witness

    The file of the diskette as a module behind a kernel that ends at 0x101040. *)

Definition behind_kernel : boot := Boot (name_gs kernel_name) no_info 0x101040 0x100010 0 0 0 0.

Lemma load_module_loads_witness :
  exists k', load_module floppy_bios 640 1024 low_term 24 two_mb_fsys no_gunzip
      (grub_open floppy_bios 640 1024 two_mb_fsys 0x20300 0x20600 0x20700 1 no_gunzip) 0x28000 0x10000 0x10100 behind_kernel = Some (1, k') /\
    (forall x, 0 <= x < 700 -> ld (k_mem k') (0x102000 + x) = elf_byte x) /\ cur_addr k' = 0x1022BC.
Proof.
  destruct (load_module_loads floppy_bios 640 1024 0x20300 1 floppy fat_bytes [] (Floppy 0) Whole 0 0 2880 0 low_term 24 two_mb_fsys 0x10000
    (path_text kernel_path ++ []) 0x20600 0x20700 no_gunzip [] [] (fat_fsys floppy_bios 640 1024 low_term 24 0x20000 0x20100 0x20200 3 (Z.to_nat 60000))
    (fat_scratch 0x20000 0x20100 0x20200) (chain_byte fat_seen (bs_volume fat_seen 9) [3; 5]) (e_size kernel_entry) (Rf := elf_reader)
    0x28000 0x10100 behind_kernel diskette_good (region_whole _ 2880 _ _) (F := elf_finder)) as (k' & E & [L1 _ _ L4 _ _]).
  - apply low_2mb; unfold SECTOR_SIZE, FSYS_BUF; lia.
  - cbn. lia.
  - discriminate.
  - reflexivity.
  - by repeat constructor.
  - constructor.
  - reflexivity.
  - apply name_named; [by apply (bool_decide_unpack _); vm_compute | done].
  - intros x Hx. change (Z.of_nat _) with 32 in Hx. unfold path_scratch, fat_scratch, open_scratch, in_buffer, in_fsys, BPB_SIZE, BUFFERADDR, BUFFERLEN, FSYS_BUF, SECTOR_SIZE. lia.
  - apply low_2mb; unfold FSYS_BUF; lia.
  - reflexivity.
  - eapply elf_not_gzip, elf_loadable.
  - vm_compute. reflexivity.
  - cbn. lia.
  - split; [vm_compute; discriminate |]. split; [vm_compute; discriminate |]. split; vm_compute; [discriminate | reflexivity].
  - cbn. lia.
  - intros a Ha. cbn in Ha. unfold in_buffer, in_fsys, BUFFERADDR, BUFFERLEN, FSYS_BUF. lia.
  - change (align_up 12 (cur_addr behind_kernel)) with 0x102000 in L1, L4. assert (e_size kernel_entry = 700) as Es by (vm_compute; reflexivity).
    rewrite Es in L1, L4. rewrite diskette_boot_volume in L1. fold elf_byte in L1. exists k'. by split_and!.
Defined.
